(* ===== verification/_CoqProject ===== *)
-Q . S2P
Prelude.v
Bitcoin.v
IssuanceTerms.v
IssuerState.v
Pow.v
IssuerScript.v
ScriptMachine.v
MintVerify.v
Discover.v
Concrete.v
IssuanceProperties.v
Trading.v
TradingPolicy.v
Competition.v
TradingProperties.v
Indexer.v
IndexerInv.v
IndexerChain.v
IndexerProperties.v
Frost.v
Participant.v
Orchestrator.v
OrchestratorInv.v
OrchestratorRun.v
ThresholdProperties.v
ChainDomain.v
SigningDomain.v
Text.v
Rfc3339.v
Personal.v
Intent.v
SigningJob.v
Gate.v
Effects.v
WalletStore.v
TransactionReview.v
WebAuthn.v
Covhub.v
WalletApi.v
WalletNode.v
WalletNodeInv.v
WalletConcrete.v
WalletProperties.v
BridgeProperties.v
Provider.v
DeviceRegistry.v
ProviderInv.v
StorageModels.v
WalletDb.v
SignerDb.v
CashAddr.v
CashAddrProperties.v
BchTransaction.v
BchSuite.v
BchProperties.v
Derivation.v
Bsv.v
Kaspa.v
ChainSuites.v
PolicyDocument.v
PolicyCompile.v
PolicyInv.v
PolicyProperties.v
PolicyStorage.v
SignerDevices.v
WalletDbInv.v
WalletDbAuthority.v
PersonalDb.v
PersonalSigning.v
PersonalInv.v
PersonalRecovery.v
PersonalProperties.v
WalletDbProperties.v
DurableStore.v
DurableProperties.v
PersonalPackages.v
Recovery.v
RecoveryProperties.v
Transport.v
TransportProperties.v
