(* ===== verification/Prelude.v ===== *)
(** * Catomicals: a verification development

    Catomicals is a Bitcoin wallet and protocol suite in Rust.  Its core is the
    Catomicals issuance protocol (items are minted by proof of work through an
    OP_CAT tapscript whose state is carried from output to output), fixed-price
    trading of the items, a block indexer, and a wallet node that releases
    threshold signatures only after a Passkey approval.  This library models
    that core as executable functions and proves what makes it correct.

    ** The parts and where they are modelled

    Shared: Prelude (bytes, machine integers, results and their monad, maps in
    key order, the development's tactics and hint databases), Bitcoin (plain
    transaction data and the interface [BitcoinLib] to rust-bitcoin, sha2 and
    secp256k1), Text (what the code uses of [str], and the numbers it
    prints), Effects (methods on [&mut self] that return [Result], and their
    Hoare triples).

    Issuance, src/crates/issuance/src: IssuanceTerms (terms.rs), IssuerState
    (state.rs), Pow (pow.rs), IssuerScript (script.rs), MintVerify (verify.rs),
    Discover (indexer.rs, models.rs).  ScriptMachine executes the bytes of the
    issuer script on an interface with the documented effect of each opcode.
    The wallet reads the state from a revealed leaf, recomputes the successor
    and accepts or rejects a transaction; the trading crate and the indexer call
    this verifier.

    Trading, src/crates/trading/src/lib.rs: Trading (listings, leaves and the
    two verifiers), TradingPolicy (what an accepting run of each path has
    checked, to compare the two), Competition (the tracker of
    racing spends).

    Indexer, src/crates/indexer/src: Indexer (store.rs, types.rs: column
    families as maps, write batches as lists of operations, undo records),
    IndexerInv (the store invariant), IndexerChain (rollback, reorganization,
    the UTXO set).

    Threshold signing, src/crates/threshold-signer/src: Frost (session.rs,
    nonce_guard.rs, lib.rs over the interface [FrostLib]), Participant
    (participant.rs), Orchestrator (orchestrator.rs, the audited session
    machine), OrchestratorInv and OrchestratorRun (its abstract transition
    system, invariant and runs), Personal (the public part of personal.rs and
    the operation binding of wallet-core's signing_operation.rs), Provider
    (provider.rs: request contexts, the guarded provider, its replay store and
    the local backend), DeviceRegistry (provider.rs: registration, rotation and
    revocation of signer devices), ProviderInv (runs of a provider over any
    replay store with [ProviderReplayLaws], discharged by the in-memory store
    and by the wallet database).

    Personal 2-of-3 signing: PersonalDb (the personal signing tables of
    src/crates/wallet-storage/src/sqlite.rs and models.rs next to the other
    tables of the wallet database, which its methods read and write too, with
    their invariant),
    PersonalSigning (wallet-core's signing_operation.rs: the
    coordinator over the interface [PersonalSigningStore], discharged by that
    storage).  PersonalInv is the transition system of wallet processes that
    start, call the coordinator, crash and restart over one storage, with its
    invariant, proved with the triples of Effects; PersonalRecovery rebuilds a
    session from its receipts and runs one operation to its end.

    Wallet database, src/crates/wallet-storage/src: StorageModels (models.rs,
    error.rs), WalletDb (sqlite.rs: intents, approvals, nonces, audit log and
    restore states), SignerDb (sqlite.rs: secrets, signer profiles, signing
    jobs), SignerDevices (sqlite.rs: request nonces, device events and the replay
    store of the signer provider), PolicyStorage (policy.rs).  A method is one
    transaction on the tables; what the schema refuses (keys, checks, triggers)
    is written out at the insert.  WalletDbInv is the transition system of the
    methods on the shared tables with the order every step respects,
    WalletDbAuthority the invariant that ties signing to approvals.  The runs of
    WalletDbProperties ([StorageOp]) are of all methods that write: those, the
    request nonces and device log, and personal signing.  DurableStore
    (wallet-core's durable_store.rs) is the storage port over that database.

    Signer material and transport: PersonalPackages (the rest of personal.rs:
    bootstrap, validation, secret packages), Recovery
    (src/crates/signer-recovery/src/lib.rs), Transport
    (src/crates/signer-transport/src/lib.rs: frames, dispatch, pinned peers; the
    fate of every timed operation of a connection, how much a failed write
    delivered, and the fate of the worker are arguments).

    Chains and suites: ChainDomain (src/crates/chain-domain/src), SigningDomain
    (src/crates/signing-domain/src).  The chain crates implement [ChainSuite]:
    Bitcoin Cash, src/crates/chain-bitcoin-cash/src, is CashAddr (address.rs),
    BchTransaction (transaction.rs) and BchSuite (signature.rs, suite.rs);
    Bsv is src/crates/chain-bsv/src and Kaspa src/crates/chain-kaspa/src;
    Derivation holds the derivation paths of the three.  ChainSuites states the
    contract [ChainSuiteLaws] of the trait, proves it for these three suites, and
    determines the signatures a Bitcoin Cash signing job accepts.

    Policy registry, src/crates/policy-registry/src: PolicyDocument (lib.rs,
    document.rs, artifact.rs), PolicyCompile (compile.rs, which calls the
    issuance and trading models, and activation.rs), PolicyInv (what the
    compiler builds).

    Wallet, src/crates/wallet-core/src: Intent (intent.rs), Gate (gate.rs),
    SigningJob (signing_job.rs), WalletStore (store.rs), TransactionReview
    (transaction.rs), WebAuthn (webauthn.rs), Rfc3339 and Covhub (covhub.rs),
    WalletApi (api.rs, chat.rs), WalletNode (node.rs).
    The node owns the API, which owns the store and the gate; it owns the
    relying party and an optional signer.  The interfaces between them are
    classes: [WalletStore] with [WalletStoreLaws] (discharged by the in-memory
    store and by the durable store, so the theorems of the node hold over both),
    [ThresholdSigner] with [ThresholdSignerLaws] (discharged by the
    local FROST participant), [SigningAuthorization] of the signer (discharged
    by the gate's token [AuthToken]) and [ChainSuite].  WalletNodeInv runs
    arbitrary sequences of operations and records approvals and shares in a
    trace.

    Concrete, the end of Frost and WalletConcrete instantiate the interfaces with
    computable functions, so every theorem can be applied to concrete data; they
    are not models of the libraries.

    ** How code is written here

    Integers are [Z] at the width of the source, wrap-around and the panic of
    checked arithmetic written out.  Byte strings are lists of bytes, Rust
    strings are their UTF-8 bytes.  A [Result] is [result E A]; code that may
    panic returns an [outcome], a result whose error can be [Panic].  Methods on
    [&mut self] return the new state on error paths too.  Random values, fresh
    identifiers and the clock are arguments.  Records and enums keep the names
    of the source; record fields carry a prefix of two letters.  Two classes of
    the same name are told apart by a prefix ([node_create_intent] for the
    method of the node, [create_intent] for the one of the API).

    ** What the theorems show

    IssuanceProperties: the verifier decides the mint policy, in both build
    profiles; the script bytes accept exactly the witnesses with a solution, with
    supply left, within the 520 bytes of a stack element, a limit the verifier
    does not have; built mints verify and are
    discovered; lanes admit exactly the total supply; the leaf parser is the
    inverse of the leaf builder on exactly its image, and panics on malformed
    leaves of a known shape; the bounded nonce search ends with the least valid
    nonce below its budget, or with none; the
    behaviour of the unchecked value sum.

    TradingProperties: agent and wallet verifiers agree; an accepted trade is the
    requested transaction, conserves value with a fee within the listing's
    bound and has the outputs of the listing; an accepted buy pays everyone;
    provenance; buy and cancel exclude each other; one winner.

    IndexerProperties: rollback undoes a block exactly, reorganization is exact,
    the table refines the UTXO set, the invariant is preserved, recorded
    transitions are verified mints.

    ThresholdProperties: a finalized session has a valid signature over enough
    verified shares; a nonce signs once; the audit stream is faithful; an honest
    threshold completes; deadlines and terminal phases are final.

    WalletProperties: in every run a released share has an approval of exactly
    its session, message and signer, and one approval gives one share; FROST
    nonces are used once over any sequence of processes, intent nonces once in
    each; an approval takes a
    verified assertion; chain jobs consume the approval of their exact intent;
    trades are verified again at approval; CovHub intents never enter FROST.

    PersonalProperties: in every history of processes a personal operation has
    its own consumed authorization of an intent with its digest, session and
    policy, and a stored signature verifies for that digest, with a recorded
    share of each selected signer; what starting an operation takes;
    recovery rebuilds the stored session and asks exactly the missing signers; a
    provider releases one share per reservation and accepts a request nonce
    once, over any replay store that keeps its contract; custody of signer
    devices.

    WalletDbProperties: in every run of all methods that write an intent that is
    signing or signed, and every signing job, has its own consumed authorization
    from a completed Passkey ceremony; a cutover revokes open authorizations,
    ceremonies and unfinished intents for good (personal operations that have
    begun go on); a restore in progress leaves every table as it is but for the
    methods that carry it on and the startup invalidation; ledgers and one-time
    facts only grow; stored policies are inspected and immutable; the log of
    device events restores the registry of signer devices.

    DurableProperties: reopening the durable store gives back what it served;
    what a nonce claim leaves behind in its projection; what becomes of a
    signing job whose executor fails, in the store and for the caller.

    RecoveryProperties: a bootstrap hands every signer a package that opens to
    its generated key; a package fits one profile; a recovery bundle opens
    exactly when sealing made it.

    TransportProperties: a remote call executes its request at most once,
    whatever reads and writes fail and whatever part of a frame a failed write
    delivered; over a healthy connection the remote
    provider is the local one.

    CashAddrProperties: an address text parses exactly when it is the printed
    form of the address; a few wrong characters never pass.

    BchProperties: the decoders accept exactly what the encoders write; equal
    signing digests mean the same spend up to a SHA-256 collision; a finalized
    signature is accepted exactly for the suite's own review.

    ChainSuites: the signatures a Bitcoin Cash job accepts, exactly; Bitcoin SV
    and Bitcoin Cash compute one signature hash.

    PolicyProperties: a stored bundle is accepted exactly when it is the
    canonical form of a fresh compilation; the compiler's own test vectors
    reject no document it can prepare; the artifacts of an issuance hold its
    terms, scripts and keys; the digest of an activation fixes its fields.

    BridgeProperties: the approval digest fixes the request up to a SHA-256
    collision; a transaction intent signs the reviewed transaction; what a
    CovHub proposal needs to become an intent, and that the stored record is
    that intent; timestamps follow the calendar; signer profiles are well typed.

    ** Fuel and bounds

    Both nonce searches run with fuel and tell running out of it from an answer;
    the theorems give the fuel that suffices (for the bounded search, any number
    above its budget).  [rollback_to] walks down the stored chain with one more than
    the number of undo records as fuel, proved to be enough on every store that
    satisfies the invariant.  [drop_while]
    of Text is given the length of its input.  The group loop of [convert_bits]
    gets the number of bits it holds as fuel, the number printers of Text as
    many digits as the widest integer has.  All other recursion is structural.

    ** Not modelled

    The cryptography, WebAuthn, RocksDB, JSON and Unicode libraries are
    interfaces whose laws are the documented behaviour.  Not modelled, and why:
    SQL text, migrations, the database file and its lock, backups, node clients,
    secret stores, command line and HTTP servers (input and output over
    libraries); the cb-MPC bindings (a C++ library); the chain crates of Bitcoin,
    Chia and Ergo and the wallet adapters of all chains (thin layers over the
    libraries of those chains); key generation (a wrapper of the FROST crate); the
    accept loop and TLS configuration of the signer server;
    reports that only format stored values; zeroization of memory. *)

From Stdlib Require Import ZArith Lia.
From Stdlib Require Export Strings.Byte.
From stdpp Require Export base list gmap strings numbers countable.
From stdpp Require Import list sorting.

Local Open Scope Z_scope.

(** * Bytes and machine integers *)

Abbreviation byte := Byte.byte.
Abbreviation bytes := (list Byte.byte).

(** A u8 as the integer it denotes, and the [as u8] cast. *)
Definition b2z (b : byte) : Z := Z.of_N (Byte.to_N b).
Definition z2b (z : Z) : byte := default x00 (Byte.of_N (Z.to_N (z mod 256))).

#[export] Instance byte_eq_dec : EqDecision byte.
Proof. intros a b. destruct (Byte.eqb a b) eqn:E; [left | right].
  - by apply Byte.byte_dec_bl.
  - intros ->. by rewrite (Byte.byte_dec_lb eq_refl) in E.
Defined.

#[export] Program Instance byte_countable : Countable byte :=
  inj_countable Byte.to_N Byte.of_N _.
Next Obligation. intros b. apply Byte.of_to_N. Qed.

Lemma b2z_range b : 0 <= b2z b < 256.
Proof. unfold b2z. pose proof (Byte.to_N_bounded b). lia. Qed.

Lemma b2z_z2b z : b2z (z2b z) = z mod 256.
Proof.
  unfold b2z, z2b. pose proof (Z.mod_pos_bound z 256 ltac:(lia)).
  destruct (Byte.of_N _) as [b|] eqn:E; simpl.
  - apply Byte.to_of_N in E. rewrite E. lia.
  - apply Byte.of_N_None_iff in E. lia.
Qed.

Lemma b2z_inj a b : b2z a = b2z b -> a = b.
Proof.
  unfold b2z. intros H. apply N2Z.inj in H.
  apply (f_equal Byte.of_N) in H. rewrite !Byte.of_to_N in H. congruence.
Qed.

Lemma z2b_b2z b : z2b (b2z b) = b.
Proof. apply b2z_inj. rewrite b2z_z2b. apply Z.mod_small, b2z_range. Qed.

(** Value ranges of the unsigned types, as boolean tests and propositions. *)
Definition fits (w z : Z) : Prop := 0 <= z < 2 ^ w.
Abbreviation is_u8 := (fits 8).
Abbreviation is_u16 := (fits 16).
Abbreviation is_u32 := (fits 32).
Abbreviation is_u64 := (fits 64).

#[export] Instance fits_dec w z : Decision (fits w z).
Proof. unfold fits. apply _. Defined.

(** The [as uN] cast: truncation to [w] bits. *)
Definition wrap (w z : Z) : Z := z mod 2 ^ w.

Lemma wrap_fits w z : 0 <= w -> fits w (wrap w z).
Proof. intros. apply Z.mod_pos_bound. lia. Qed.

Lemma wrap_id w z : fits w z -> wrap w z = z.
Proof. apply Z.mod_small. Qed.

Definition checked_add (w a b : Z) : option Z :=
  if bool_decide (a + b < 2 ^ w) then Some (a + b) else None.
Definition checked_sub (a b : Z) : option Z :=
  if bool_decide (b <= a) then Some (a - b) else None.
Definition saturating_add (w a b : Z) : Z := Z.min (2 ^ w - 1) (a + b).
Definition saturating_sub (a b : Z) : Z := Z.max 0 (a - b).

(** * Fixed-width integer encodings ([to_le_bytes] / [to_be_bytes]) *)

Fixpoint le_bytes (n : nat) (z : Z) : bytes :=
  match n with
  | O => []
  | S m => z2b z :: le_bytes m (z / 256)
  end.

Fixpoint from_le_bytes (bs : bytes) : Z :=
  match bs with
  | [] => 0
  | b :: rest => b2z b + 256 * from_le_bytes rest
  end.

Definition be_bytes (n : nat) (z : Z) : bytes := reverse (le_bytes n z).
Definition from_be_bytes (bs : bytes) : Z := from_le_bytes (reverse bs).

Lemma length_le_bytes n z : length (le_bytes n z) = n.
Proof. revert z. induction n; intros; simpl; auto. Qed.

Lemma length_be_bytes n z : length (be_bytes n z) = n.
Proof. unfold be_bytes. by rewrite length_reverse, length_le_bytes. Qed.

Lemma from_le_bytes_range bs : 0 <= from_le_bytes bs < 2 ^ (8 * Z.of_nat (length bs)).
Proof.
  induction bs as [|b bs IH]; simpl from_le_bytes; [simpl; lia|].
  pose proof (b2z_range b).
  replace (8 * Z.of_nat (length (b :: bs))) with (8 + 8 * Z.of_nat (length bs))
    by (simpl length; lia).
  rewrite Z.pow_add_r by lia. change (2 ^ 8) with 256. nia.
Qed.

Lemma from_le_le_bytes n z : fits (8 * Z.of_nat n) z -> from_le_bytes (le_bytes n z) = z.
Proof.
  revert z. induction n as [|n IH]; intros z Hz; unfold fits in *; simpl; [simpl in Hz; lia|].
  rewrite b2z_z2b, IH.
  - pose proof (Z.div_mod z 256 ltac:(lia)). lia.
  - replace (8 * Z.of_nat (S n)) with (8 + 8 * Z.of_nat n) in Hz by lia.
    rewrite Z.pow_add_r in Hz by lia. change (2 ^ 8) with 256 in Hz.
    split; [apply Z.div_pos; lia | apply Z.div_lt_upper_bound; lia].
Qed.

Lemma le_bytes_from_le bs : le_bytes (length bs) (from_le_bytes bs) = bs.
Proof.
  induction bs as [|b bs IH]; simpl; [done|].
  pose proof (b2z_range b).
  replace ((b2z b + 256 * from_le_bytes bs) / 256) with (from_le_bytes bs).
  2:{ rewrite Z.mul_comm, Z.div_add by lia. rewrite Z.div_small; lia. }
  rewrite IH. f_equal. apply b2z_inj. rewrite b2z_z2b.
  rewrite Z.mul_comm, Z.mod_add, Z.mod_small; lia.
Qed.

Lemma le_bytes_inj n x y :
  fits (8 * Z.of_nat n) x -> fits (8 * Z.of_nat n) y -> le_bytes n x = le_bytes n y -> x = y.
Proof.
  intros Hx Hy H. rewrite <- (from_le_le_bytes n x), <- (from_le_le_bytes n y) by done. by rewrite H.
Qed.

Lemma be_bytes_inj n x y :
  fits (8 * Z.of_nat n) x -> fits (8 * Z.of_nat n) y -> be_bytes n x = be_bytes n y -> x = y.
Proof.
  unfold be_bytes. intros Hx Hy H%(f_equal reverse). rewrite !reverse_involutive in H.
  by eapply le_bytes_inj.
Qed.

Lemma from_be_be_bytes n z : fits (8 * Z.of_nat n) z -> from_be_bytes (be_bytes n z) = z.
Proof. intros. unfold from_be_bytes, be_bytes. rewrite reverse_involutive. by apply from_le_le_bytes. Qed.

Lemma z2b_inj x y : is_u8 x -> is_u8 y -> z2b x = z2b y -> x = y.
Proof.
  unfold fits. change (2 ^ 8) with 256. intros Hx Hy H%(f_equal b2z).
  rewrite !b2z_z2b, !Z.mod_small in H; lia.
Qed.

Lemma b2z_z2b_u8 z : is_u8 z -> b2z (z2b z) = z.
Proof. intros. rewrite b2z_z2b. by apply Z.mod_small. Qed.

#[global] Arguments le_bytes : simpl never.
#[global] Arguments be_bytes : simpl never.
#[global] Arguments from_le_bytes : simpl never.

(** ASCII literals of the source ([b"..."]). *)
Definition ascii_bytes (s : string) : bytes := String.list_byte_of_string s.

Lemma ascii_bytes_inj s1 s2 : ascii_bytes s1 = ascii_bytes s2 -> s1 = s2.
Proof.
  intros Hs%(f_equal String.string_of_list_byte). unfold ascii_bytes in Hs.
  by rewrite !String.string_of_list_byte_of_string in Hs.
Qed.

Lemma length_ascii_bytes s : length (ascii_bytes s) = String.length s.
Proof. unfold ascii_bytes. induction s as [|a s IH]; simpl; [done|]. f_equal. exact IH. Qed.

(** Signed 64-bit integers; [to_be_bytes] of one is its two's complement. *)
Definition is_i64 (z : Z) : Prop := - 2 ^ 63 <= z < 2 ^ 63.
#[export] Instance is_i64_dec z : Decision (is_i64 z).
Proof. unfold is_i64. apply _. Defined.

Lemma be_bytes_mod n x y : be_bytes n x = be_bytes n y -> x mod 2 ^ (8 * Z.of_nat n) = y mod 2 ^ (8 * Z.of_nat n).
Proof.
  unfold be_bytes. intros He%(f_equal reverse). rewrite !reverse_involutive in He.
  revert x y He. induction n as [|n IH]; intros x y; [intros _; by rewrite !Z.mod_1_r|].
  intros [= Hh Ht]. apply IH in Ht. apply (f_equal b2z) in Hh. rewrite !b2z_z2b in Hh.
  replace (8 * Z.of_nat (S n)) with (8 + 8 * Z.of_nat n) by lia. rewrite Z.pow_add_r by lia.
  rewrite !Z.rem_mul_r by lia. change (2 ^ 8) with 256. by rewrite Hh, Ht.
Qed.

Lemma be_bytes_i64_inj x y : is_i64 x -> is_i64 y -> be_bytes 8 x = be_bytes 8 y -> x = y.
Proof.
  unfold is_i64. intros Hx Hy He%be_bytes_mod. change (2 ^ (8 * Z.of_nat 8)) with (2 ^ 64) in He.
  pose proof (Z.div_mod x (2 ^ 64) ltac:(lia)). pose proof (Z.div_mod y (2 ^ 64) ltac:(lia)). lia.
Qed.

(** * Splitting concatenations

    Every commitment of the code is a concatenation of fields.  The two ways
    in which such an encoding determines its fields are a field of known
    length and a length-prefixed field. *)

Lemma app_inj_length {A} (a b c d : list A) :
  length a = length b -> a ++ c = b ++ d -> a = b /\ c = d.
Proof. intros HL H. by apply app_inj_1. Qed.

Definition len_prefixed_be (n : nat) (bs : bytes) : bytes :=
  be_bytes n (Z.of_nat (length bs)) ++ bs.

Lemma len_prefixed_be_inj n a b c d :
  fits (8 * Z.of_nat n) (Z.of_nat (length a)) ->
  fits (8 * Z.of_nat n) (Z.of_nat (length b)) ->
  len_prefixed_be n a ++ c = len_prefixed_be n b ++ d -> a = b /\ c = d.
Proof.
  unfold len_prefixed_be. intros Ha Hb H. rewrite <- !(assoc_L (++)) in H.
  apply app_inj_length in H as [H1 H2]; [|by rewrite !length_be_bytes].
  apply be_bytes_inj in H1; [|done..]. apply app_inj_length in H2; [done|lia].
Qed.

(** * Fallible code: the [Result] type and its monad *)

Inductive result (E A : Type) : Type :=
| Ok (a : A)
| Err (e : E).
Arguments Ok {E A} _.
Arguments Err {E A} _.

#[export] Instance result_ret {E} : MRet (result E) := fun A a => Ok a.
#[export] Instance result_bind {E} : MBind (result E) := fun A B k m =>
  match m with Ok a => k a | Err e => Err e end.

#[export] Instance result_eq_dec {E A} `{EqDecision E, EqDecision A} : EqDecision (result E A).
Proof. solve_decision. Defined.

(** [if cond { return Err(e) }] *)
Definition reject_if {E} (cond : bool) (e : E) : result E unit :=
  if cond then Err e else Ok tt.
(** [option.ok_or(e)?] *)
Definition ok_or {E A} (o : option A) (e : E) : result E A :=
  match o with Some a => Ok a | None => Err e end.
(** [result.map_err(f)] *)
Definition map_err {E F A} (f : E -> F) (r : result E A) : result F A :=
  match r with Ok a => Ok a | Err e => Err (f e) end.
(** [result.ok()] and [result.is_ok()] *)
Definition result_ok {E A} (r : result E A) : option A :=
  match r with Ok a => Some a | Err _ => None end.
Definition is_ok {E A} (r : result E A) : bool :=
  match r with Ok _ => true | Err _ => false end.

Section result_lemmas.
Context {E A B : Type}.

Lemma bind_Ok (m : result E A) (k : A -> result E B) b :
  m ≫= k = Ok b <-> exists a, m = Ok a /\ k a = Ok b.
Proof. destruct m as [a|e]; split; cbn; [eauto|by intros (?&[= ->]&?)|done|by intros (?&?&?)]. Qed.

Lemma bind_Err (m : result E A) (k : A -> result E B) e :
  m ≫= k = Err e <-> m = Err e \/ exists a, m = Ok a /\ k a = Err e.
Proof. destruct m as [a|e']; split; cbn; [eauto|by intros [?|(?&[= ->]&?)]|naive_solver..]. Qed.

Lemma reject_if_Ok b (e : E) u : reject_if b e = Ok u <-> b = false.
Proof. destruct b, u; simpl; naive_solver. Qed.

Lemma reject_if_Err b (e e' : E) : reject_if b e = Err e' <-> b = true /\ e = e'.
Proof. destruct b; simpl; naive_solver. Qed.

Lemma ok_or_Ok (o : option A) (e : E) a : ok_or o e = Ok a <-> o = Some a.
Proof. destruct o; simpl; naive_solver. Qed.

Lemma map_err_Ok {F} (f : E -> F) (r : result E A) a : map_err f r = Ok a <-> r = Ok a.
Proof. destruct r; simpl; naive_solver. Qed.

Lemma result_ok_Some (r : result E A) a : result_ok r = Some a <-> r = Ok a.
Proof. destruct r; simpl; naive_solver. Qed.
(** The value of a computation known to succeed. *)
Lemma is_ok_default (r : result E A) d : is_ok r = true -> r = Ok (default d (result_ok r)).
Proof. by destruct r. Qed.
End result_lemmas.

(** A call that can also panic (index out of range, arithmetic overflow under
    [overflow-checks]).  [outcome Empty_set] is a function that has no error of
    its own. *)
Inductive fault (E : Type) : Type :=
| Panic
| Fail (e : E).
Arguments Panic {E}.
Arguments Fail {E} _.
Abbreviation outcome E := (result (fault E)).

#[export] Instance fault_eq_dec {E} `{EqDecision E} : EqDecision (fault E).
Proof. solve_decision. Defined.

(** Run a function that returns [Result], or one that can only panic, inside
    a computation that can do both. *)
Definition try_ {E A} (r : result E A) : outcome E A := map_err Fail r.
Definition no_fail {E A} (r : outcome Empty_set A) : outcome E A :=
  map_err (fun f : fault Empty_set => match f with Panic => Panic | Fail e => match e with end end) r.

(** The [overflow-checks] setting of the cargo profile: arithmetic that leaves
    its type panics when it is on (dev) and wraps when it is off (release). *)
Class BuildProfile := overflow_checks : bool.

Definition arith `{BuildProfile} {E} (w z : Z) : outcome E Z :=
  if bool_decide (fits w z) then Ok z
  else if overflow_checks then Err Panic else Ok (wrap w z).

Lemma arith_fits `{BuildProfile} {E} w z : fits w z -> arith (E:=E) w z = Ok z.
Proof. intros. unfold arith. by rewrite bool_decide_true. Qed.

(** [iter.sum::<uN>()] *)
Fixpoint sum_arith `{BuildProfile} {E} (w acc : Z) (l : list Z) : outcome E Z :=
  match l with
  | [] => Ok acc
  | x :: l' => acc' ← arith w (acc + x); sum_arith w acc' l'
  end.

Definition sumZ (l : list Z) : Z := foldr Z.add 0 l.

Lemma sumZ_app l k : sumZ (l ++ k) = sumZ l + sumZ k.
Proof. induction l; simpl; lia. Qed.

Lemma sumZ_nonneg w l : Forall (fits w) l -> 0 <= sumZ l.
Proof. induction 1 as [|x l [Hx _] _ IH]; simpl; lia. Qed.

Lemma sum_arith_fits `{BuildProfile} {E} w acc l :
  0 <= acc -> Forall (fits w) l -> acc + sumZ l < 2 ^ w -> sum_arith (E:=E) w acc l = Ok (acc + sumZ l).
Proof.
  intros Ha Hl. revert acc Ha. induction Hl as [|x l [Hx _] Hl IH]; intros acc Ha Hb; simpl in *.
  - f_equal. lia.
  - pose proof (sumZ_nonneg w l Hl). rewrite arith_fits by (unfold fits; lia). cbn.
    rewrite IH by lia. f_equal. lia.
Qed.

(** [iter.try_fold(0, |sum, x| sum.checked_add(x))] *)
Fixpoint checked_sum (w acc : Z) (l : list Z) : option Z :=
  match l with
  | [] => Some acc
  | x :: l' => acc' ← checked_add w acc x; checked_sum w acc' l'
  end.

Lemma checked_sum_Some w acc l s :
  Forall (fits w) l -> fits w acc ->
  checked_sum w acc l = Some s <-> s = acc + sumZ l /\ fits w s.
Proof.
  intros Hl. revert acc. induction Hl as [|x l [Hx Hx'] Hl IH]; intros acc Ha; simpl.
  - split; [intros [= <-]; split; [lia|done] | intros [-> _]; f_equal; lia].
  - pose proof (sumZ_nonneg w l Hl) as Hp. unfold checked_add, fits in *.
    case_bool_decide; cbn.
    + rewrite IH by lia. lia.
    + split; [done|]. intros [-> ?]. lia.
Qed.

(** Fold with early return. *)
Fixpoint foldM {E S A} (f : S -> A -> result E S) (s : S) (l : list A) : result E S :=
  match l with
  | [] => Ok s
  | a :: l' => s' ← f s a; foldM f s' l'
  end.

Lemma foldM_app {E S A} (f : S -> A -> result E S) s l1 l2 :
  foldM f s (l1 ++ l2) = s' ← foldM f s l1; foldM f s' l2.
Proof.
  revert s. induction l1 as [|a l1 IH]; intros s; simpl; [done|].
  destruct (f s a); simpl; auto.
Qed.

(** An invariant of the body is an invariant of the loop.  The body may use
    the position it runs at: [l = done ++ a :: todo]. *)
Lemma foldM_inv {E S A} (f : S -> A -> result E S) (P : list A -> S -> Prop) l s s' :
  P [] s ->
  (forall pre a post s1 s2, l = pre ++ a :: post -> P pre s1 -> f s1 a = Ok s2 -> P (pre ++ [a]) s2) ->
  foldM f s l = Ok s' -> P l s'.
Proof.
  intros H0 Hstep.
  enough (forall post pre s1, l = pre ++ post -> P pre s1 -> foldM f s1 post = Ok s' -> P l s') as HG
    by (intros; by eapply (HG l [])).
  induction post as [|a post IH]; intros pre s1 -> HP HF; simpl in HF.
  - injection HF as <-. by rewrite app_nil_r.
  - apply bind_Ok in HF as (s2 & E1 & HF).
    eapply (IH (pre ++ [a])); [by rewrite <- (assoc_L (++))| |done].
    by eapply Hstep.
Qed.

(** Two loops over the same list in step: the second simulates the first. *)
Lemma foldM_sim {E F S T A} (f : S -> A -> result E S) (g : T -> A -> result F T)
    (R : list A -> S -> T -> Prop) l s t s' :
  R [] s t ->
  (forall pre a post s1 t1 s2, l = pre ++ a :: post -> R pre s1 t1 -> f s1 a = Ok s2 ->
     exists t2, g t1 a = Ok t2 /\ R (pre ++ [a]) s2 t2) ->
  foldM f s l = Ok s' -> exists t', foldM g t l = Ok t' /\ R l s' t'.
Proof.
  intros H0 Hstep.
  enough (forall post pre s1 t1, l = pre ++ post -> R pre s1 t1 -> foldM f s1 post = Ok s' ->
    exists t', foldM g t1 post = Ok t' /\ R l s' t') as HG by (intros; by eapply (HG l [])).
  induction post as [|a post IH]; intros pre s1 t1 -> HR HF; simpl in *.
  - injection HF as <-. rewrite app_nil_r. eauto.
  - apply bind_Ok in HF as (s2 & E1 & HF). destruct (Hstep pre a post s1 t1 s2) as (t2 & -> & HR2); [done..|].
    cbn. eapply (IH (pre ++ [a])); [by rewrite <- (assoc_L (++))|done|done].
Qed.

Lemma foldM_fmap {E S A B} (f : S -> B -> result E S) (h : A -> B) s l :
  foldM (fun s a => f s (h a)) s l = foldM f s (h <$> l).
Proof. revert s. induction l as [|a l IH]; intros s; simpl; [done|]. destruct (f s (h a)); simpl; auto. Qed.

(** Traversal collecting results in order ([collect::<Result<Vec<_>, _>>()]). *)
Fixpoint mapM_result {E A B} (f : A -> result E B) (l : list A) : result E (list B) :=
  match l with
  | [] => Ok []
  | a :: l' => b ← f a; bs ← mapM_result f l'; Ok (b :: bs)
  end.

Lemma mapM_result_Ok {E A B} (f : A -> result E B) l k :
  mapM_result f l = Ok k <-> Forall2 (fun a b => f a = Ok b) l k.
Proof.
  revert k. induction l as [|a l IH]; intros k; simpl.
  - split; [by intros [= <-] | by inversion 1].
  - rewrite bind_Ok. setoid_rewrite bind_Ok. split.
    + intros (b & Hb & bs & Hbs & [= <-]). constructor; [done|]. by apply IH.
    + inversion 1 as [|? b ? bs Hb Hbs]; subst. exists b; split; [done|].
      exists bs; split; [by apply IH|done].
Qed.

(** * Searching by position *)

(** [iter.position(f)] *)
Fixpoint position {A} (f : A -> bool) (l : list A) : option nat :=
  match l with
  | [] => None
  | a :: l' => if f a then Some O else S <$> position f l'
  end.

(** [iter.enumerate().filter(f).map(|(i, _)| i).collect()] *)
Fixpoint indices_from {A} (n : nat) (f : A -> bool) (l : list A) : list nat :=
  match l with
  | [] => []
  | a :: l' => if f a then n :: indices_from (S n) f l' else indices_from (S n) f l'
  end.
Definition indices_where {A} (f : A -> bool) (l : list A) : list nat := indices_from 0 f l.

Lemma position_Some {A} (f : A -> bool) l i :
  position f l = Some i <->
  (exists a, l !! i = Some a /\ f a = true) /\ forall j b, (j < i)%nat -> l !! j = Some b -> f b = false.
Proof.
  revert i. induction l as [|a l IH]; intros i; simpl; [naive_solver|].
  destruct (f a) eqn:E.
  - split; [intros [= <-]; split; [eauto|lia]|].
    intros [(b & Hb & Hf) Hn]. destruct i as [|i]; [done|].
    specialize (Hn 0%nat a ltac:(lia) eq_refl). congruence.
  - destruct i as [|i].
    + split; [|naive_solver congruence]. by destruct (position f l).
    + transitivity (position f l = Some i); [destruct (position f l); naive_solver|].
      rewrite IH. split; intros [Hx Hn]; (split; [done|]).
      * intros [|j] b Hj Hb; simpl in *; [congruence|]. eapply Hn; [|done]. lia.
      * intros j b Hj Hb. apply (Hn (S j)); [lia|done].
Qed.

Lemma indices_from_elem {A} (f : A -> bool) n l i :
  i ∈ indices_from n f l <-> exists a, (n <= i)%nat /\ l !! (i - n)%nat = Some a /\ f a = true.
Proof.
  revert n. induction l as [|a l IH]; intros n; simpl.
  - split; [by intros ?%elem_of_nil | by intros (?&_&?&_)].
  - assert (i ∈ indices_from (S n) f l <-> exists b, (S n <= i)%nat /\ (a :: l) !! (i - n)%nat = Some b /\ f b = true) as HS.
    { rewrite IH. split; intros (b & Hi & Hl & Hf); exists b; (split; [done|]); (split; [|done]).
      - replace (i - n)%nat with (S (i - S n)) by lia. done.
      - replace (i - n)%nat with (S (i - S n)) in Hl by lia. done. }
    destruct (f a) eqn:E.
    + rewrite elem_of_cons, HS. split.
      * intros [-> | (b & Hi & Hl)]; [exists a; rewrite Nat.sub_diag; split_and!; done || lia|].
        exists b. split; [lia|done].
      * intros (b & Hi & Hl & Hf). destruct (decide (i = n)) as [->|]; [by left|right].
        exists b. split; [lia|done].
    + rewrite HS. split; intros (b & Hi & Hl & Hf); exists b; (split; [|done]); [lia|].
      destruct (decide (i = n)) as [->|]; [|lia].
      rewrite Nat.sub_diag in Hl. simpl in Hl. congruence.
Qed.

Lemma indices_from_NoDup {A} (f : A -> bool) n l : NoDup (indices_from n f l).
Proof.
  revert n. induction l as [|a l IH]; intros n; simpl; [constructor|].
  destruct (f a); [|done]. constructor; [|done].
  rewrite indices_from_elem. intros (? & ? & _). lia.
Qed.

Lemma list_singleton_iff {A} (l : list A) x :
  l = [x] <-> NoDup l /\ forall y, y ∈ l <-> y = x.
Proof.
  split.
  - intros ->. split; [apply NoDup_singleton|]. intros y. apply list_elem_of_singleton.
  - intros [Hn Hx]. destruct l as [|a [|b l]].
    + assert (x ∈ @nil A) as ?%elem_of_nil by (by apply Hx). done.
    + f_equal. apply Hx, elem_of_cons. by left.
    + assert (a = x) by (apply Hx, elem_of_cons; by left).
      assert (b = x) by (apply Hx, elem_of_cons; right; apply elem_of_cons; by left).
      subst. inversion Hn as [|? ? Hni]; subst. destruct Hni. apply elem_of_cons. by left.
Qed.

(** Exactly one element passes the test, and it is at [i]. *)
Lemma indices_where_singleton {A} (f : A -> bool) l i :
  indices_where f l = [i] <->
  (exists a, l !! i = Some a /\ f a = true) /\ (forall j b, l !! j = Some b -> f b = true -> j = i).
Proof.
  unfold indices_where. rewrite list_singleton_iff. setoid_rewrite indices_from_elem.
  setoid_rewrite Nat.sub_0_r. split.
  - intros [_ H]. split.
    + destruct (proj2 (H i) eq_refl) as (a & _ & ? & ?). eauto.
    + intros j b Hb Hf. apply H. exists b. split; [lia|done].
  - intros [(a & Ha & Hf) Hu]. split; [apply indices_from_NoDup|].
    intros y. split; [intros (b & _ & Hb & Hfb); eauto|].
    intros ->. exists a. split; [lia|done].
Qed.

(** * Automation *)

Create HintDb catomicals discriminated.
Create Rewrite HintDb bytelen.
Create Rewrite HintDb guards.
#[export] Hint Rewrite @length_app @length_le_bytes @length_be_bytes @length_cons @length_nil
  @length_reverse @length_replicate @length_take @length_drop @length_fmap : bytelen.
#[export] Hint Resolve wrap_fits wrap_id b2z_range : catomicals.
#[export] Hint Rewrite @bool_decide_eq_true @bool_decide_eq_false @orb_true_iff @orb_false_iff
  @andb_true_iff @andb_false_iff @negb_true_iff @negb_false_iff
  Z.eqb_eq Z.eqb_neq Z.ltb_lt Z.ltb_ge Z.leb_le Z.leb_gt
  Nat.eqb_eq Nat.eqb_neq Nat.ltb_lt Nat.ltb_ge Nat.leb_le Nat.leb_gt : guards.

Ltac destruct_ex :=
  repeat match goal with
  | H : exists _, _ |- _ => destruct H
  | H : _ /\ _ |- _ => destruct H
  end.

(** Peel one sequenced computation off a hypothesis [_ = Ok _]: binds,
    early-return guards, [ok_or] and [map_err] become plain facts. *)
Ltac res_step :=
  match goal with
  | H : Ok _ = Ok _ |- _ => injection H as H
  | H : Err _ = Ok _ |- _ => discriminate H
  | H : Ok _ = Err _ |- _ => discriminate H
  | H : mret _ = Ok _ |- _ => injection H as H
  | H : (_ ≫= _) = Ok _ |- _ =>
      apply bind_Ok in H;
      let x := fresh "r" in let E := fresh "E" in destruct H as (x & E & H); cbv beta in H
  | H : try_ _ = Ok _ |- _ => unfold try_ in H
  | H : no_fail _ = Ok _ |- _ => unfold no_fail in H
  | H : reject_if _ _ = Ok _ |- _ => apply reject_if_Ok in H
  | H : ok_or _ _ = Ok _ |- _ => apply ok_or_Ok in H
  | H : map_err _ _ = Ok _ |- _ => apply map_err_Ok in H
  end.
Ltac res_inv := repeat res_step; autorewrite with guards in *; destruct_ex.
(** Peel one bind, with names for its value and its equation. *)
Ltac next_in H x E := apply bind_Ok in H as (x & E & H); cbv beta in H.

(** Evaluate an early-return guard whose condition is known to be false. *)
Lemma reject_if_pass {E} b (e : E) : b = false -> reject_if b e = Ok tt.
Proof. by intros ->. Qed.

Ltac res_cbn := cbn [mbind result_bind try_ no_fail map_err ok_or mret result_ret].
Ltac guard_tac := autorewrite with guards; try tauto; try lia; try done.
Ltac res_pass :=
  repeat first
    [ rewrite reject_if_pass by guard_tac
    | progress res_cbn ].

(** Decide which side of a guard a concrete or assumed condition takes. *)
Ltac solve_len := autorewrite with bytelen; simpl; lia.

(** Split an equation of two encodings into equations of their fields: common
    literals, length-prefixed fields and fields of known length, left to
    right.  The equations are named [Henc], [Henc0], ... *)
Ltac enc_len :=
  solve [ done | by rewrite ?length_be_bytes | by autorewrite with bytelen
        | autorewrite with bytelen; congruence | autorewrite with bytelen; lia ].
Ltac enc_step H :=
  first
    [ apply app_inv_head in H
    | let E := fresh "Henc" in apply len_prefixed_be_inj in H as [E H]; [|done|done]
    | let E := fresh "Henc" in apply app_inj_length in H as [E H]; [|enc_len] ].
Ltac enc_split H := rewrite <- ?(assoc_L (++)) in H; repeat enc_step H.

(** * Maps in key order

    [BTreeMap<[u8; N], V>] and the tables of the key-value store are finite
    maps that are iterated in the lexicographic order of their keys.  They are
    modelled by stdpp's [gmap] together with [sorted_items], the iteration
    order. *)

Local Open Scope Z_scope.

(** Lexicographic comparison of byte strings ([<[u8] as Ord>::cmp]). *)
Fixpoint bytes_leb (a b : bytes) : bool :=
  match a, b with
  | [], _ => true
  | _ :: _, [] => false
  | x :: a', y :: b' => (b2z x <? b2z y) || ((b2z x =? b2z y) && bytes_leb a' b')
  end.
Definition bytes_le (a b : bytes) : Prop := bytes_leb a b = true.

#[export] Instance bytes_le_dec : RelDecision bytes_le.
Proof. intros a b. unfold bytes_le. apply _. Defined.

#[export] Instance bytes_le_total : Total bytes_le.
Proof.
  intros a. induction a as [|x a IH]; intros [|y b]; unfold bytes_le in *; simpl; auto.
  destruct (Z.ltb_spec (b2z x) (b2z y)), (Z.ltb_spec (b2z y) (b2z x)); auto.
  replace (b2z y) with (b2z x) by lia. rewrite Z.eqb_refl. simpl. apply IH.
Qed.

#[export] Instance bytes_le_trans : Transitive bytes_le.
Proof.
  intros a. induction a as [|x a IH]; intros [|y b] [|z c]; unfold bytes_le in *; simpl; try done.
  rewrite !orb_true_iff, !andb_true_iff, !Z.ltb_lt, !Z.eqb_eq.
  intros [?|[? H1]] [?|[? H2]]; [left; lia..|right]. split; [lia|]. eauto.
Qed.

#[export] Instance bytes_le_antisym : AntiSymm (=) bytes_le.
Proof.
  intros a. induction a as [|x a IH]; intros [|y b]; unfold bytes_le in *; simpl; try done.
  rewrite !orb_true_iff, !andb_true_iff, !Z.ltb_lt, !Z.eqb_eq.
  intros [?|[H1 H2]] [?|[H3 H4]]; try lia. f_equal; [by apply b2z_inj|]. by apply IH.
Qed.

Section items.
Context {V : Type}.

Definition item_le (p q : bytes * V) : Prop := bytes_le p.1 q.1.

#[export] Instance item_le_dec : RelDecision item_le.
Proof. intros p q. unfold item_le. apply _. Defined.
#[export] Instance item_le_total : Total item_le.
Proof. intros p q. apply bytes_le_total. Qed.
#[export] Instance item_le_trans : Transitive item_le.
Proof. intros p q r. unfold item_le. apply bytes_le_trans. Qed.

(** [map.iter()] *)
Definition sorted_items (m : gmap bytes V) : list (bytes * V) := merge_sort item_le (map_to_list m).

Lemma sorted_items_perm m : sorted_items m ≡ₚ map_to_list m.
Proof. apply merge_sort_Permutation. Qed.

Lemma elem_of_sorted_items m k v : (k, v) ∈ sorted_items m <-> m !! k = Some v.
Proof. rewrite sorted_items_perm. apply elem_of_map_to_list. Qed.

Lemma sorted_items_sorted m : StronglySorted item_le (sorted_items m).
Proof. apply (StronglySorted_merge_sort _). Qed.

Lemma NoDup_sorted_items m : NoDup (sorted_items m).*1.
Proof. rewrite sorted_items_perm. apply NoDup_fst_map_to_list. Qed.
End items.

(** [iter().find_map(f)] *)
Fixpoint find_map {A B} (f : A -> option B) (l : list A) : option B :=
  match l with
  | [] => None
  | a :: l' => match f a with Some b => Some b | None => find_map f l' end
  end.

Lemma find_map_Some {A B} (f : A -> option B) l b :
  find_map f l = Some b -> exists a, a ∈ l /\ f a = Some b.
Proof.
  induction l as [|a l IH]; simpl; [done|]. destruct (f a) eqn:E.
  - intros [= ->]. exists a. split; [apply elem_of_cons; by left|done].
  - intros (a' & ? & ?)%IH. exists a'. split; [apply elem_of_cons; by right|done].
Qed.

Lemma find_map_None {A B} (f : A -> option B) l :
  find_map f l = None <-> forall a, a ∈ l -> f a = None.
Proof.
  induction l as [|a l IH]; simpl; [split; [by intros _ a ?%elem_of_nil|done]|].
  destruct (f a) eqn:E.
  - split; [done|]. intros H. rewrite H in E; [done|]. apply elem_of_cons. by left.
  - rewrite IH. setoid_rewrite elem_of_cons. split; [intros H a' [->|?]; auto|]. eauto.
Qed.
