(* ===== verification/Bitcoin.v ===== *)
(** * The [bitcoin] crate as the wallet sees it

    The Rust code under src/ is built on rust-bitcoin, sha2 and secp256k1.
    This file holds the plain data those crates hand over (transactions and
    their parts) and an interface, the class [BitcoinLib], for every function
    of theirs the modelled code calls.  Nothing here defines what such a
    function computes: [BitcoinLaws] states the documented facts the proofs
    use, and Concrete.v shows with computable functions that these facts can
    hold together. *)

From S2P Require Import Prelude.
From Stdlib Require Import ZArith Lia.
Local Open Scope Z_scope.

(** ** Data *)

Record OutPoint := mkOutPoint { op_txid : bytes; op_vout : Z }.
Record TxOut := mkTxOut { txo_value : Z; txo_script_pubkey : bytes }.
Record TxIn := mkTxIn {
  txi_previous_output : OutPoint;
  txi_script_sig : bytes;
  txi_sequence : Z;
  txi_witness : list bytes;
}.
Record Transaction := mkTransaction {
  tx_version : Z;
  tx_lock_time : Z;
  tx_input : list TxIn;
  tx_output : list TxOut;
}.

#[export] Instance OutPoint_eq_dec : EqDecision OutPoint.
Proof. solve_decision. Defined.
#[export] Instance TxOut_eq_dec : EqDecision TxOut.
Proof. solve_decision. Defined.
#[export] Instance TxIn_eq_dec : EqDecision TxIn.
Proof. solve_decision. Defined.
#[export] Instance Transaction_eq_dec : EqDecision Transaction.
Proof. solve_decision. Defined.

#[export] Program Instance OutPoint_countable : Countable OutPoint :=
  inj_countable' (fun o => (op_txid o, op_vout o)) (fun p => mkOutPoint p.1 p.2) _.
Next Obligation. by intros []. Qed.

(** [OutPoint::null()]: the previous output of a coinbase input. *)
Definition OutPoint_null : OutPoint := mkOutPoint (replicate 32 x00) (2 ^ 32 - 1).
Definition OutPoint_is_null (o : OutPoint) : bool := bool_decide (o = OutPoint_null).

(** [TxOut::NULL] of the crate: value 0xffffffffffffffff, empty script. *)
Definition TxOut_NULL : TxOut := mkTxOut (2 ^ 64 - 1) [].

Definition Sequence_MAX : Z := 2 ^ 32 - 1.
Definition Sequence_is_final (s : Z) : bool := bool_decide (s = Sequence_MAX).
Definition LOCK_TIME_THRESHOLD : Z := 500000000.

(** Well-formedness the Rust types give for free. *)
Definition OutPoint_wf (o : OutPoint) : Prop := length (op_txid o) = 32%nat /\ is_u32 (op_vout o).
Definition TxOut_wf (o : TxOut) : Prop := is_u64 (txo_value o).

#[export] Instance OutPoint_wf_dec o : Decision (OutPoint_wf o).
Proof. unfold OutPoint_wf. apply _. Defined.

(** The part of a transaction its txid commits to (BIP 141). *)
Definition strip_input (i : TxIn) : TxIn :=
  mkTxIn (txi_previous_output i) (txi_script_sig i) (txi_sequence i) [].
Definition strip_witness (t : Transaction) : Transaction :=
  mkTransaction (tx_version t) (tx_lock_time t) (strip_input <$> tx_input t) (tx_output t).

(** ** The interface of the third-party crates *)

Class BitcoinLib := {
  (* sha2 *)
  sha256 : bytes -> bytes;
  (* hex *)
  hex_decode : string -> option bytes;
  (* secp256k1: XOnlyPublicKey::from_slice succeeds on exactly these bytes *)
  xonly_valid : bytes -> bool;
  schnorr_sig_valid : bytes -> bool;
  verify_schnorr : bytes -> bytes -> bytes -> bool;
  (* bitcoin::taproot *)
  TaprootSpendInfo : Type;
  taproot_finalize : list (nat * bytes) -> bytes -> option TaprootSpendInfo;
  si_output_key : TaprootSpendInfo -> bytes;
  si_control_block : TaprootSpendInfo -> bytes -> option bytes;
  ControlBlock : Type;
  control_decode : bytes -> option ControlBlock;
  verify_taproot_commitment : ControlBlock -> bytes -> bytes -> bool;
  (* bitcoin::consensus and bitcoin::sighash *)
  compute_txid : Transaction -> bytes;
  tx_serialize : Transaction -> bytes;
  tx_deserialize : bytes -> option Transaction;
  txout_serialize : TxOut -> bytes;
  key_spend_sighash : Transaction -> list TxOut -> option bytes;
  script_spend_sighash : Transaction -> list TxOut -> bytes -> option bytes;
  (* bitcoin::script::Builder *)
  push_slice : bytes -> bytes;
  push_int : Z -> bytes;
}.

(** The published BIP 341 point with unknown discrete logarithm (script.rs). *)
Definition hex_literal : bytes :=
  [x50; x92; x9b; x74; xc1; xa0; x49; x54; xb7; x8b; x4b; x60; x35; xe9; x7a;
   x5e; x07; x8a; x5a; x0f; x28; xec; x96; xd5; x47; xbf; xee; x9a; xce; x80;
   x3a; xc0].

(** Documented behaviour the proofs rely on. *)
Class BitcoinLaws (B : BitcoinLib) : Prop := {
  sha256_length b : length (sha256 b) = 32%nat;
  xonly_length k : xonly_valid k = true -> length k = 32%nat;
  nums_is_valid : xonly_valid hex_literal = true;
  finalize_single_leaf s k : xonly_valid k = true -> is_Some (taproot_finalize [(0%nat, s)] k);
  finalize_two_leaves a b k : xonly_valid k = true -> is_Some (taproot_finalize [(1%nat, a); (1%nat, b)] k);
  output_key_valid leaves k si :
    taproot_finalize leaves k = Some si -> xonly_valid (si_output_key si) = true;
  control_block_verifies leaves k si d s :
    taproot_finalize leaves k = Some si -> (d, s) ∈ leaves ->
    exists cb c, si_control_block si s = Some cb /\ control_decode cb = Some c /\
      verify_taproot_commitment c (si_output_key si) s = true;
  txid_length t : length (compute_txid t) = 32%nat;
  txid_no_witness t : compute_txid t = compute_txid (strip_witness t);
  key_sighash_no_witness t p : key_spend_sighash t p = key_spend_sighash (strip_witness t) p;
  script_sighash_no_witness t p s :
    script_spend_sighash t p s = script_spend_sighash (strip_witness t) p s;
}.

(** Blocks: the header fields the indexer reads, and the rest of the header. *)
Record Block := mkBlock {
  bk_prev_blockhash : bytes;
  bk_header_rest : bytes;
  bk_txdata : list Transaction;
}.

Class BlockLib := {
  block_hash : Block -> bytes;
  block_serialize : Block -> bytes;
}.

Section helpers.
Context `{BitcoinLib}.

(** [XOnlyPublicKey::from_slice]; a key is its 32-byte serialization. *)
Definition xonly_from_slice (b : bytes) : option bytes :=
  if xonly_valid b then Some b else None.
End helpers.
