(* ===== verification/IssuanceTerms.v ===== *)
(** * Issuance terms (src/crates/issuance/src/terms.rs)

    Creator-defined terms, their canonical encoding and commitment, the split
    of the supply over mint lanes, and the item commitment.  The theorems say
    that the encodings are injective (a commitment determines what it commits
    to unless SHA-256 collides) and that the lanes partition the supply. *)

From S2P Require Import Prelude Bitcoin.
From Stdlib Require Import ZArith Lia.
Local Open Scope Z_scope.

Definition TERMS_TAG : bytes := ascii_bytes "catomicals-issuance-v1".
Definition ITEM_TAG : bytes := ascii_bytes "catomicals-item-v1".

Inductive SuccessorRule := RecursiveIssuer | ShardedLanes.

#[export] Instance SuccessorRule_eq_dec : EqDecision SuccessorRule.
Proof. solve_decision. Defined.

(** [rule as u8], with the [#[repr(u8)]] discriminants. *)
Definition SuccessorRule_as_u8 (r : SuccessorRule) : Z :=
  match r with RecursiveIssuer => 1 | ShardedLanes => 2 end.

Definition SuccessorRule_from_u8 (v : Z) : option SuccessorRule :=
  if v =? 1 then Some RecursiveIssuer
  else if v =? 2 then Some ShardedLanes
  else None.

Record IssuanceTerms := mkIssuanceTerms {
  it_item_id : bytes;
  it_target_prefix : Z;
  it_total_supply : Z;
  it_successor_rule : SuccessorRule;
  it_lane_count : Z;
  it_salt : bytes;
  it_metadata : bytes;
}.

#[export] Instance IssuanceTerms_eq_dec : EqDecision IssuanceTerms.
Proof. solve_decision. Defined.

(** The field types of the Rust struct. *)
Definition IssuanceTerms_wf (t : IssuanceTerms) : Prop :=
  length (it_item_id t) = 32%nat /\ is_u8 (it_target_prefix t) /\ is_u32 (it_total_supply t) /\
  is_u8 (it_lane_count t) /\ length (it_salt t) = 32%nat /\
  is_u64 (Z.of_nat (length (it_metadata t))).

#[export] Instance IssuanceTerms_wf_dec t : Decision (IssuanceTerms_wf t).
Proof. unfold IssuanceTerms_wf. apply _. Defined.

Definition IssuanceTerms_canonical_bytes (t : IssuanceTerms) : bytes :=
  TERMS_TAG ++ it_item_id t ++ [z2b (it_target_prefix t)] ++ le_bytes 4 (it_total_supply t) ++
  [z2b (SuccessorRule_as_u8 (it_successor_rule t))] ++ [z2b (it_lane_count t)] ++ it_salt t ++
  le_bytes 8 (Z.of_nat (length (it_metadata t))) ++ it_metadata t.

Definition materialized_lanes (t : IssuanceTerms) : Z :=
  match it_successor_rule t with
  | RecursiveIssuer => 1
  | ShardedLanes => Z.max (it_lane_count t) 1
  end.

Definition lane_supply (t : IssuanceTerms) (lane : Z) : Z :=
  let lanes := materialized_lanes t in
  let base := it_total_supply t / lanes in
  let extra := it_total_supply t mod lanes in
  if lane <? extra then base + 1 else base.

Section commitments.
Context `{BitcoinLib}.

Definition terms_hash (t : IssuanceTerms) : bytes := sha256 (IssuanceTerms_canonical_bytes t).

Definition item_commitment_input (th : bytes) (lane seq : Z) (owner_key payload : bytes) : bytes :=
  ITEM_TAG ++ th ++ [z2b lane] ++ le_bytes 4 seq ++ owner_key ++ payload.

Definition item_commitment (th : bytes) (lane seq : Z) (owner_key payload : bytes) : bytes :=
  sha256 (item_commitment_input th lane seq owner_key payload).
End commitments.

(** A collision: two different messages with one digest. *)
Definition sha256_collision `{BitcoinLib} (x y : bytes) : Prop := x <> y /\ sha256 x = sha256 y.

Lemma sha256_inj_or_collision `{BitcoinLib} x y :
  sha256 x = sha256 y -> x = y \/ sha256_collision x y.
Proof. intros. destruct (decide (x = y)); [by left | by right]. Qed.

(** ** Properties *)

Lemma SuccessorRule_as_u8_inj r1 r2 :
  z2b (SuccessorRule_as_u8 r1) = z2b (SuccessorRule_as_u8 r2) -> r1 = r2.
Proof. by destruct r1, r2. Qed.

Lemma SuccessorRule_from_as r : SuccessorRule_from_u8 (SuccessorRule_as_u8 r) = Some r.
Proof. by destruct r. Qed.

(** Strip equal-length fields off an equation between two encodings. *)
Ltac peel H :=
  let H1 := fresh "F" in
  apply app_inj_length in H as [H1 H];
    [|try solve [done | by rewrite !length_le_bytes | by rewrite !length_be_bytes | congruence]].

(** No two well-formed terms share a canonical encoding. *)
Lemma IssuanceTerms_canonical_inj t1 t2 :
  IssuanceTerms_wf t1 -> IssuanceTerms_wf t2 ->
  IssuanceTerms_canonical_bytes t1 = IssuanceTerms_canonical_bytes t2 -> t1 = t2.
Proof.
  destruct t1 as [i1 p1 s1 r1 l1 a1 m1], t2 as [i2 p2 s2 r2 l2 a2 m2].
  intros (W1&W2&W3&W4&W5&W6) (V1&V2&V3&V4&V5&V6) H; unfold IssuanceTerms_canonical_bytes in H;
    cbn [it_item_id it_target_prefix it_total_supply it_successor_rule it_lane_count it_salt
         it_metadata] in *.
  do 8 peel H.
  apply le_bytes_inj in F2; [|done..]. injection F1 as F1. injection F3 as F3. injection F4 as F4.
  apply z2b_inj in F1; [|done..]. apply SuccessorRule_as_u8_inj in F3.
  apply z2b_inj in F4; [|done..]. by subst.
Qed.

Lemma item_commitment_input_inj th1 l1 s1 o1 p1 th2 l2 s2 o2 p2 :
  length th1 = length th2 -> length o1 = length o2 ->
  is_u8 l1 -> is_u8 l2 -> is_u32 s1 -> is_u32 s2 ->
  item_commitment_input th1 l1 s1 o1 p1 = item_commitment_input th2 l2 s2 o2 p2 ->
  th1 = th2 /\ l1 = l2 /\ s1 = s2 /\ o1 = o2 /\ p1 = p2.
Proof.
  unfold item_commitment_input. intros Hth Ho Hl1 Hl2 Hs1 Hs2 H. do 5 peel H.
  injection F1 as F1. apply z2b_inj in F1; [|done..]. by apply le_bytes_inj in F2.
Qed.

(** ** The lanes partition the supply *)

Definition lane_list (t : IssuanceTerms) : list Z :=
  seqZ 0 (materialized_lanes t).

Lemma materialized_lanes_pos t : 1 <= materialized_lanes t.
Proof. unfold materialized_lanes. destruct (it_successor_rule t); lia. Qed.

Lemma materialized_lanes_u8 t : IssuanceTerms_wf t -> is_u8 (materialized_lanes t).
Proof.
  intros (_&_&_&Hl&_). unfold materialized_lanes, fits in *.
  destruct (it_successor_rule t); lia.
Qed.

(** Handing out [q + 1] to the first [e] of [n] lanes and [q] to the rest. *)
Lemma sumZ_split_lanes q e n :
  0 <= e -> 0 <= n ->
  sumZ ((fun l => if l <? e then q + 1 else q) <$> seqZ 0 n) = n * q + Z.min n e.
Proof.
  intros He. revert n. apply natlike_ind; [rewrite seqZ_nil by lia; simpl; lia|].
  intros n Hn IH. replace (Z.succ n) with (n + 1) by lia.
  rewrite seqZ_app, fmap_app, sumZ_app, IH by lia.
  rewrite (seqZ_cons _ 1), seqZ_nil by lia. simpl. destruct (0 + n <? e) eqn:E; lia.
Qed.

(** The supplies of the materialized lanes add up to the total supply. *)
Theorem lane_supply_partition t :
  IssuanceTerms_wf t -> sumZ (lane_supply t <$> lane_list t) = it_total_supply t.
Proof.
  intros (_&_&[Hs _]&_). pose proof (materialized_lanes_pos t) as HL.
  unfold lane_list, lane_supply. rewrite sumZ_split_lanes.
  - pose proof (Z.mod_pos_bound (it_total_supply t) (materialized_lanes t) ltac:(lia)).
    pose proof (Z.div_mod (it_total_supply t) (materialized_lanes t) ltac:(lia)).
    rewrite Z.min_r; lia.
  - apply Z.mod_pos_bound. lia.
  - lia.
Qed.

Lemma lane_supply_bounds t lane :
  IssuanceTerms_wf t -> 0 <= lane -> 0 <= lane_supply t lane <= it_total_supply t.
Proof.
  intros (_&_&[Hs _]&_) Hl. unfold lane_supply.
  pose proof (materialized_lanes_pos t) as HL.
  pose proof (Z.mod_pos_bound (it_total_supply t) (materialized_lanes t) ltac:(lia)).
  pose proof (Z.div_mod (it_total_supply t) (materialized_lanes t) ltac:(lia)).
  pose proof (Z.div_pos (it_total_supply t) (materialized_lanes t) ltac:(lia) ltac:(lia)).
  destruct (lane <? _) eqn:E; nia.
Qed.
