(* ===== verification/IssuerState.v ===== *)
(** * Issuer state machine (src/crates/issuance/src/state.rs)

    The state an issuer tapscript commits to, its initial value for a lane,
    the successor after one mint, and its encoding as script constants.  The
    machine is also given as a step relation; the theorems bound what any
    sequence of mints can do. *)

From S2P Require Import Prelude Bitcoin IssuanceTerms.
From Stdlib Require Import ZArith Lia.
Local Open Scope Z_scope.

Definition STATE_FIELD_TAG : byte := x01.
Definition STATE_INT_LEN : nat := 5.
Definition STATE_BYTE_LEN : nat := 2.

Definition encode_u32 (value : Z) : bytes := STATE_FIELD_TAG :: le_bytes 4 value.
Definition encode_u8 (value : Z) : bytes := [STATE_FIELD_TAG; z2b value].

Record IssuerState := mkIssuerState {
  is_terms_hash : bytes;
  is_lane : Z;
  is_seq : Z;
  is_remaining : Z;
  is_target_prefix : Z;
}.

#[export] Instance IssuerState_eq_dec : EqDecision IssuerState.
Proof. solve_decision. Defined.

Definition IssuerState_wf (s : IssuerState) : Prop :=
  length (is_terms_hash s) = 32%nat /\ is_u8 (is_lane s) /\ is_u32 (is_seq s) /\
  is_u32 (is_remaining s) /\ is_u8 (is_target_prefix s).

#[export] Instance IssuerState_wf_dec s : Decision (IssuerState_wf s).
Proof. unfold IssuerState_wf. apply _. Defined.

Inductive StateError :=
| TargetPrefixOutOfRange (p : Z)
| LaneOutOfRange (l : Z)
| SeqOverflow.

#[export] Instance StateError_eq_dec : EqDecision StateError.
Proof. solve_decision. Defined.

Definition IssuerState_initial `{BitcoinLib} (terms : IssuanceTerms) (lane : Z)
    : result StateError IssuerState :=
  _ ← reject_if (32 <? it_target_prefix terms) (TargetPrefixOutOfRange (it_target_prefix terms));
  let lanes := materialized_lanes terms in
  _ ← reject_if (lanes <=? lane) (LaneOutOfRange lane);
  Ok {| is_terms_hash := terms_hash terms;
        is_lane := lane;
        is_seq := 0;
        is_remaining := lane_supply terms lane;
        is_target_prefix := it_target_prefix terms |}.

Definition successor (s : IssuerState) : result StateError (option IssuerState) :=
  if is_remaining s =? 0 then Ok None
  else
    let next_remaining := is_remaining s - 1 in
    next_seq ← ok_or (checked_add 32 (is_seq s) 1) SeqOverflow;
    if next_remaining =? 0 then Ok None
    else Ok (Some {| is_terms_hash := is_terms_hash s;
                     is_lane := is_lane s;
                     is_seq := next_seq;
                     is_remaining := next_remaining;
                     is_target_prefix := is_target_prefix s |}).

Definition to_script_constants (s : IssuerState) : list bytes :=
  [is_terms_hash s; encode_u32 (is_seq s); encode_u32 (is_remaining s);
   encode_u8 (is_target_prefix s); encode_u8 (is_lane s)].

(** [b[0] != STATE_FIELD_TAG], evaluated after the length tests. *)
Definition bad_tag (b : bytes) : bool := bool_decide (b !! 0%nat <> Some STATE_FIELD_TAG).

Definition from_script_constants (th seq remaining target_prefix lane : bytes)
    : option IssuerState :=
  if bool_decide (length th <> 32%nat)
     || bool_decide (length seq <> STATE_INT_LEN)
     || bool_decide (length remaining <> STATE_INT_LEN)
     || bool_decide (length target_prefix <> STATE_BYTE_LEN)
     || bool_decide (length lane <> STATE_BYTE_LEN)
     || bad_tag seq || bad_tag remaining || bad_tag target_prefix || bad_tag lane
  then None
  else
    tp ← target_prefix !! 1%nat;
    l ← lane !! 1%nat;
    Some {| is_terms_hash := th;
            is_lane := b2z l;
            is_seq := from_le_bytes (drop 1 seq);
            is_remaining := from_le_bytes (drop 1 remaining);
            is_target_prefix := b2z tp |}.

Definition rule_for (terms : IssuanceTerms) : SuccessorRule := it_successor_rule terms.

(** ** Encoding *)

Lemma length_encode_u32 z : length (encode_u32 z) = 5%nat.
Proof. unfold encode_u32. by rewrite length_cons, length_le_bytes. Qed.

#[export] Hint Rewrite length_encode_u32 : bytelen.

Lemma drop_1_encode_u32 z : drop 1 (encode_u32 z) = le_bytes 4 z.
Proof. done. Qed.

Lemma from_script_constants_encode s :
  IssuerState_wf s ->
  from_script_constants (is_terms_hash s) (encode_u32 (is_seq s)) (encode_u32 (is_remaining s))
    (encode_u8 (is_target_prefix s)) (encode_u8 (is_lane s)) = Some s.
Proof.
  intros (H1&H2&H3&H4&H5). unfold from_script_constants.
  rewrite !length_encode_u32, !drop_1_encode_u32, H1, !from_le_le_bytes by done. simpl.
  rewrite !b2z_z2b_u8 by done. by destruct s.
Qed.

(** Reading constants back accepts exactly the encodings of well-formed states. *)
Lemma from_script_constants_Some th sq rm tp ln s :
  from_script_constants th sq rm tp ln = Some s ->
  IssuerState_wf s /\ to_script_constants s = [th; sq; rm; tp; ln].
Proof.
  unfold from_script_constants. intros H. case_match eqn:HG; [done|].
  unfold bad_tag in HG. autorewrite with guards in HG. destruct_ex.
  repeat match goal with
  | H : ~ (_ <> _) |- _ => apply dec_stable in H
  end.
  destruct sq as [|s0 sq], rm as [|r0 rm], tp as [|t0 [|t1 [|]]], ln as [|l0 [|l1 [|]]]; try done.
  simplify_eq/=. split.
  - assert (length sq = 4%nat) as Hsq by (unfold STATE_INT_LEN in *; lia).
    assert (length rm = 4%nat) as Hrm by (unfold STATE_INT_LEN in *; lia).
    pose proof (from_le_bytes_range sq) as R1. pose proof (from_le_bytes_range rm) as R2.
    rewrite Hsq in R1. rewrite Hrm in R2.
    repeat split; cbn; try done; try apply b2z_range; try apply R1; apply R2.
  - unfold to_script_constants, encode_u32, encode_u8; cbn.
    assert (length sq = 4%nat) as Hsq by (unfold STATE_INT_LEN in *; lia).
    assert (length rm = 4%nat) as Hrm by (unfold STATE_INT_LEN in *; lia).
    rewrite <- Hsq at 1. rewrite <- Hrm at 1.
    rewrite !le_bytes_from_le, !z2b_b2z. done.
Qed.

(** ** The state machine *)

Lemma IssuerState_initial_Ok `{BitcoinLib} terms lane s :
  IssuerState_initial terms lane = Ok s <->
  it_target_prefix terms <= 32 /\ lane < materialized_lanes terms /\
  s = mkIssuerState (terms_hash terms) lane 0 (lane_supply terms lane) (it_target_prefix terms).
Proof.
  unfold IssuerState_initial. split.
  - intros. res_inv. subst. done.
  - intros (H1 & H2 & ->). unfold reject_if.
    destruct (32 <? _) eqn:E1; [lia|]. cbn. by destruct (_ <=? lane) eqn:E2; [lia|].
Qed.

(** One mint moves the issuer output of a lane to its successor state. *)
Inductive mint_step : IssuerState -> IssuerState -> Prop :=
| mint_step_intro s s' : successor s = Ok (Some s') -> mint_step s s'.

Lemma successor_Some s s' :
  successor s = Ok (Some s') ->
  is_seq s' = is_seq s + 1 /\ is_remaining s' = is_remaining s - 1 /\ is_remaining s' <> 0 /\
  is_terms_hash s' = is_terms_hash s /\ is_lane s' = is_lane s /\
  is_target_prefix s' = is_target_prefix s /\ is_seq s + 1 < 2 ^ 32 /\ is_remaining s <> 0.
Proof.
  unfold successor, checked_add. destruct (_ =? 0) eqn:E; [done|].
  case_bool_decide; cbn; [|done]. destruct (_ - 1 =? 0) eqn:E2; [done|].
  intros [= <-]. cbn. repeat split; try done; lia.
Qed.

Lemma successor_wf s s' : IssuerState_wf s -> successor s = Ok (Some s') -> IssuerState_wf s'.
Proof.
  intros (H1&H2&H3&H4&H5) H. apply successor_Some in H as (E1&E2&E3&E4&E5&E6&E7&E8).
  unfold IssuerState_wf, fits in *. rewrite E1, E2, E4, E5, E6. repeat split; try done; lia.
Qed.

(** What every state reached by mints from an initial state satisfies: the
    slots used and the slots left add up to the lane's supply. *)
Definition lane_inv `{BitcoinLib} (terms : IssuanceTerms) (lane : Z) (s : IssuerState) : Prop :=
  is_seq s + is_remaining s = lane_supply terms lane /\ 0 <= is_seq s /\
  is_lane s = lane /\ is_terms_hash s = terms_hash terms /\
  is_target_prefix s = it_target_prefix terms /\ 0 <= is_remaining s.

Lemma lane_inv_initial `{BitcoinLib} terms lane s :
  IssuanceTerms_wf terms -> 0 <= lane ->
  IssuerState_initial terms lane = Ok s -> lane_inv terms lane s.
Proof.
  intros W Hl H'. apply IssuerState_initial_Ok in H' as (H1 & H2 & ->).
  pose proof (lane_supply_bounds terms lane W Hl). unfold lane_inv; cbn.
  repeat split; done || lia.
Qed.

Lemma lane_inv_step `{BitcoinLib} terms lane s s' :
  lane_inv terms lane s -> mint_step s s' -> lane_inv terms lane s'.
Proof.
  intros (H1&H2&H3&H4&H5&H6). inversion 1 as [? ? Hs]; subst. apply successor_Some in Hs as (E1&E2&E3&E4&E5&E6&E7&E8).
  unfold lane_inv. rewrite E1, E2, E4, E5, E6. repeat split; try done; lia.
Qed.

Lemma lane_inv_rtc `{BitcoinLib} terms lane s s' :
  lane_inv terms lane s -> rtc mint_step s s' -> lane_inv terms lane s'.
Proof. intros Hi. induction 1; eauto using lane_inv_step. Qed.

(** [successor] on a lane state never overflows, and stops exactly at the last slot. *)
Lemma successor_lane `{BitcoinLib} terms lane s :
  IssuanceTerms_wf terms -> 0 <= lane -> lane_inv terms lane s ->
  successor s = Ok (if is_remaining s <=? 1 then None
    else Some (mkIssuerState (terms_hash terms) lane (is_seq s + 1) (is_remaining s - 1)
                 (it_target_prefix terms))).
Proof.
  intros W Hl (H1&H2&H3&H4&H5&H6). pose proof (lane_supply_bounds terms lane W Hl) as HB.
  destruct W as (_&_&[_ Hs]&_). unfold successor, checked_add.
  destruct (is_remaining s =? 0) eqn:E0; [destruct (_ <=? 1) eqn:E1; [done|lia]|].
  rewrite bool_decide_true by lia. cbn.
  destruct (_ - 1 =? 0) eqn:E1, (_ <=? 1) eqn:E2; try lia; try done.
  by rewrite H3, H4, H5.
Qed.

(** The mints a lane admits from a state on, in order. *)
Fixpoint lane_mints (fuel : nat) (s : IssuerState) : list IssuerState :=
  match fuel with
  | O => []
  | S f =>
      if is_remaining s =? 0 then []
      else s :: match successor s with Ok (Some n) => lane_mints f n | _ => [] end
  end.

Lemma lane_mints_exact `{BitcoinLib} terms lane s fuel :
  IssuanceTerms_wf terms -> 0 <= lane -> lane_inv terms lane s ->
  is_remaining s <= Z.of_nat fuel ->
  lane_mints fuel s = (fun i => mkIssuerState (terms_hash terms) lane i
      (lane_supply terms lane - i) (it_target_prefix terms)) <$> seqZ (is_seq s) (is_remaining s).
Proof.
  intros W Hl. revert s. induction fuel as [|fuel IH]; intros s Hi Hf.
  - destruct Hi as (H1&H2&H3&H4&H5&H6). by rewrite seqZ_nil by lia.
  - simpl. destruct (_ =? 0) eqn:E0; [by rewrite seqZ_nil by lia|].
    pose proof Hi as (H1&H2&H3&H4&H5&H6).
    rewrite seqZ_cons by lia. simpl. f_equal.
    { destruct s; cbn in *; f_equal; try done; lia. }
    rewrite (successor_lane terms lane) by done.
    destruct (_ <=? 1) eqn:E1; [by rewrite seqZ_nil by lia|].
    rewrite IH; cbn; [f_equal; f_equal; lia| |lia].
    repeat split; cbn; done || lia.
Qed.
