(* ===== verification/Pow.v ===== *)
(** * Proof of work (src/crates/issuance/src/pow.rs)

    The challenge digest, the target test and the two nonce searches.  The
    unbounded search is run with explicit fuel; the theorems give the fuel
    that suffices. *)

From S2P Require Import Prelude Bitcoin IssuerState.
From Stdlib Require Import ZArith Lia.
Local Open Scope Z_scope.

Definition NONCE_LEN : nat := 8.
Definition POW_PREFIX_BYTE : byte := x01.

Definition pow_input (th : bytes) (lane seq : Z) (item_commitment : bytes) (nonce : Z) : bytes :=
  th ++ [STATE_FIELD_TAG] ++ [z2b lane] ++ [STATE_FIELD_TAG] ++ le_bytes 4 seq ++
  item_commitment ++ le_bytes 8 nonce.

Definition meets_target (digest : bytes) (target_prefix : Z) : bool :=
  let k := Z.to_nat target_prefix in
  if (k =? 0)%nat then true
  else if (32 <? k)%nat then false
  else forallb (fun b => bool_decide (b = POW_PREFIX_BYTE)) (take k digest).

(** [digest[target_prefix..]]: the slice panics past the end. *)
Definition hash_tail (digest : bytes) (target_prefix : Z) : outcome Empty_set bytes :=
  if (length digest <? Z.to_nat target_prefix)%nat then Err Panic
  else Ok (drop (Z.to_nat target_prefix) digest).

Section search.
Context `{BitcoinLib}.

Definition pow_hash (th : bytes) (lane seq : Z) (item_commitment : bytes) (nonce : Z) : bytes :=
  sha256 (pow_input th lane seq item_commitment nonce).

(** The test both searches run on a nonce. *)
Definition nonce_ok (th : bytes) (lane seq : Z) (ic : bytes) (tp nonce : Z) : bool :=
  meets_target (pow_hash th lane seq ic nonce) tp.

(** [(start..).find(..)]: the range steps past a candidate before it is tested,
    and leaves its type after the last one.  [None] is out of fuel; the code
    itself never returns without a nonce. *)
Fixpoint find_nonce `{BuildProfile} (fuel : nat) (th : bytes) (lane seq : Z) (ic : bytes) (tp start : Z)
    : option (outcome Empty_set Z) :=
  match fuel with
  | O => None
  | S f =>
      match arith 64 (start + 1) with
      | Err e => Some (Err e)
      | Ok next => if nonce_ok th lane seq ic tp start then Some (Ok start)
                   else find_nonce f th lane seq ic tp next
      end
  end.

(** The while loop; the outer [None] is out of fuel.  [attempts] is below
    [max_attempts], a u64, when it is incremented. *)
Fixpoint find_nonce_bounded_loop (fuel : nat) (th : bytes) (lane seq : Z) (ic : bytes)
    (tp max_attempts nonce attempts : Z) : option (option (Z * Z)) :=
  match fuel with
  | O => None
  | S f =>
      if attempts <? max_attempts then
        let h := pow_hash th lane seq ic nonce in
        if meets_target h tp then Some (Some (nonce, attempts + 1))
        else find_nonce_bounded_loop f th lane seq ic tp max_attempts
               (wrap 64 (nonce + 1)) (attempts + 1)
      else Some None
  end.

Definition find_nonce_bounded (fuel : nat) (th : bytes) (lane seq : Z) (ic : bytes) (tp max_attempts : Z)
    : option (option (Z * Z)) :=
  find_nonce_bounded_loop fuel th lane seq ic tp max_attempts 0 0.
End search.

(** ** Target test and tail *)

Lemma meets_target_iff d tp :
  length d = 32%nat -> 0 <= tp ->
  meets_target d tp = true <->
  tp <= 32 /\ d = replicate (Z.to_nat tp) POW_PREFIX_BYTE ++ drop (Z.to_nat tp) d.
Proof.
  intros Hd Htp. unfold meets_target.
  destruct (Z.to_nat tp =? 0)%nat eqn:E0.
  { apply Nat.eqb_eq in E0. assert (tp <= 32) by lia. by rewrite E0, drop_0. }
  destruct (32 <? Z.to_nat tp)%nat eqn:E1; [apply Nat.ltb_lt in E1; split; [done|intros [? _]; lia]|].
  apply Nat.ltb_ge in E1. 
  rewrite <- (take_drop (Z.to_nat tp) d) at 2.
  assert (length (take (Z.to_nat tp) d) = Z.to_nat tp) as HL by (rewrite length_take; lia).
  split.
  - intros Hf. split; [lia|]. f_equal. symmetry.
    apply replicate_as_Forall_2; [done|].
    apply List.Forall_forall. intros b Hb.
    rewrite forallb_forall in Hf. specialize (Hf _ Hb).
    by apply bool_decide_eq_true in Hf.
  - intros [_ Hf]. apply app_inj_length in Hf as [Hf _]; [|by rewrite length_replicate].
    rewrite Hf. apply forallb_forall. intros b Hb%list_elem_of_In%elem_of_replicate.
    apply bool_decide_eq_true. naive_solver.
Qed.

Lemma hash_tail_Ok d tp t : 0 <= tp ->
  hash_tail d tp = Ok t <-> tp <= Z.of_nat (length d) /\ t = drop (Z.to_nat tp) d.
Proof.
  intros Htp. unfold hash_tail. destruct (Nat.ltb_spec (length d) (Z.to_nat tp)) as [Hl|Hl].
  - split; [done|]. lia.
  - split; [intros [= <-]; split; [lia|done]|by intros [_ ->]].
Qed.
(** A digest that meets the target has a tail. *)
Lemma meets_target_tail d tp : length d = 32%nat -> 0 <= tp -> meets_target d tp = true ->
  hash_tail d tp = Ok (drop (Z.to_nat tp) d).
Proof. intros Hd Htp [Hle _]%meets_target_iff; [|done..]. apply hash_tail_Ok; [done|]. split; [lia|done]. Qed.

(** ** The searches *)

Section search_spec.
Context `{BitcoinLib} (th : bytes) (lane seq : Z) (ic : bytes) (tp : Z).
Abbreviation good := (nonce_ok th lane seq ic tp).

(** [n] is the least good nonce from [start] on. *)
Definition least_nonce (start n : Z) : Prop :=
  start <= n /\ good n = true /\ forall m, start <= m < n -> good m = false.

(** Below the end of the range, one unit of fuel per candidate suffices. *)
Lemma find_nonce_least `{BuildProfile} fuel start n :
  0 <= start -> n < 2 ^ 64 - 1 -> least_nonce start n -> n - start < Z.of_nat fuel ->
  find_nonce fuel th lane seq ic tp start = Some (Ok n).
Proof.
  revert start. induction fuel as [|f IH]; intros start Hs Hn (Hle & Hg & Hb) Hf; [lia|]. cbn [find_nonce].
  rewrite arith_fits by (unfold fits; lia). destruct (decide (start = n)) as [->|Hne]; [by rewrite Hg|].
  rewrite Hb by lia. apply IH; [lia|done| |lia]. split; [lia|]. split; [done|]. intros m Hm. apply Hb. lia.
Qed.

(** What the bounded search reports from nonce [a] on. *)
Definition bounded_result (a max : Z) (r : option (Z * Z)) : Prop :=
  match r with
  | Some (n, attempts) => least_nonce a n /\ n < max /\ attempts = n + 1
  | None => forall m, a <= m < max -> good m = false
  end.

Lemma find_nonce_bounded_loop_spec fuel max a :
  0 <= a <= max -> max < 2 ^ 64 -> max - a < Z.of_nat fuel ->
  exists r, find_nonce_bounded_loop fuel th lane seq ic tp max a a = Some r /\ bounded_result a max r.
Proof.
  revert a. induction fuel as [|f IH]; intros a Ha Hm Hf; [lia|]. cbn [find_nonce_bounded_loop].
  destruct (Z.ltb_spec a max) as [Hl|Hl]; [|by exists None; split; [done|]; intros m ?; lia].
  change (meets_target _ tp) with (good a). destruct (good a) eqn:Eg.
  - eexists. split; [done|]. cbn. unfold least_nonce. split_and!; [lia|done|intros m ?; lia|done|done].
  - rewrite wrap_id by (unfold fits; lia). destruct (IH (a + 1)) as (r & -> & Hr); [lia..|]. exists r. split; [done|].
    destruct r as [[n k]|]; cbn in *.
    + destruct Hr as ((H1 & H2 & H3) & H4 & H5). unfold least_nonce. split_and!; [lia|done| |done|done].
      intros m Hm'. destruct (decide (m = a)) as [->|]; [done|]. apply H3. lia.
    + intros m Hm'. destruct (decide (m = a)) as [->|]; [done|]. apply Hr. lia.
Qed.
End search_spec.

#[global] Arguments meets_target : simpl never.
#[global] Arguments hash_tail : simpl never.
