(* ===== verification/IssuerScript.v ===== *)
(** * The issuer tapscript (src/crates/issuance/src/script.rs)

    Byte-exact construction of the OP_CAT mint gate, the parser that recovers
    the committed state, and the Taproot output key.  What the bytes do when
    executed is in ScriptMachine.v. *)

From S2P Require Import Prelude Bitcoin IssuanceTerms IssuerState Pow.
From Stdlib Require Import ZArith Lia.
Local Open Scope Z_scope.

Definition OP_CAT : byte := x7e.
Definition OP_EQUAL : byte := x87.
Definition OP_SHA256 : byte := xa8.
Definition OP_PICK : byte := x79.
Definition OP_DROP : byte := x75.
Definition OP_NOT : byte := x91.
Definition OP_VERIFY : byte := x69.
Definition OP_0 : byte := x00.
Definition OP_1NEGATE : byte := x4f.
Definition OP_1 : byte := x51.

(** Appended bytes of [push_pick(script, n)], called with [1 <= n <= 16]. *)
Definition push_pick (n : Z) : bytes := [z2b (80 + n); OP_PICK].

Definition push_data (data : bytes) : bytes :=
  let n := Z.of_nat (length data) in
  if n =? 0 then [OP_0]
  else
    let first := b2z (default x00 (head data)) in
    if (n =? 1) && (1 <=? first) && (first <=? 16) then [z2b (80 + first)]
    else if (n =? 1) && (first =? 129) then [OP_1NEGATE]
    else if n <=? 75 then z2b n :: data
    else if n <=? 255 then x4c :: z2b n :: data
    else if n <=? 65535 then x4d :: le_bytes 2 n ++ data
    else x4e :: le_bytes 4 n ++ data.

Definition pow_prefix (s : IssuerState) : bytes :=
  replicate (Z.to_nat (is_target_prefix s)) POW_PREFIX_BYTE.

Definition issuer_script (s : IssuerState) : bytes :=
  concat (push_data <$> to_script_constants s) ++
  push_pick 4 ++ push_pick 1 ++ push_pick 5 ++ push_pick 11 ++ push_pick 13 ++
  [OP_CAT; OP_CAT; OP_CAT; OP_CAT] ++ [OP_SHA256] ++
  push_data (pow_prefix s) ++ push_pick 9 ++ [OP_CAT] ++ [OP_EQUAL] ++ [OP_VERIFY] ++
  push_pick 2 ++ push_data [STATE_FIELD_TAG; x00; x00; x00; x00] ++
  [OP_EQUAL] ++ [OP_NOT] ++ [OP_VERIFY] ++ replicate 10 OP_DROP ++ [OP_1].

(** The loop of [parse_issuer_script]: [n] pushes left, read at [pos].  The
    first read of an iteration is [script[pos]], which panics at the end of
    the script. *)
Fixpoint parse_pushes (n : nat) (script : bytes) (pos : nat)
    : outcome Empty_set (option (list bytes)) :=
  match n with
  | O => Ok (Some [])
  | S m =>
      match script !! pos with
      | None => Err Panic
      | Some b =>
          let plen := Z.to_nat (b2z b) in
          if (plen =? 0)%nat || (75 <? plen)%nat || (length script <? pos + 1 + plen)%nat
          then Ok None
          else
            rest ← parse_pushes m script (pos + 1 + plen);
            Ok (option_map (cons (take plen (drop (pos + 1) script))) rest)
      end
  end.

Definition parse_issuer_script (script : bytes) : outcome Empty_set (option IssuerState) :=
  let expected_const_len := ((1 + 32) + (1 + 5) + (1 + 5) + (1 + 2) + (1 + 2))%nat in
  if (length script <? expected_const_len)%nat then Ok None
  else
    consts ← parse_pushes 5 script 0;
    match consts with
    | Some [c0; c1; c2; c3; c4] =>
        match from_script_constants c0 c1 c2 c3 c4 with
        | Some state =>
            if bool_decide (script = issuer_script state) then Ok (Some state) else Ok None
        | None => Ok None
        end
    | _ => Ok None
    end.

Definition nums_internal_key : bytes := hex_literal.

Section output_key.
Context `{BitcoinLib}.

Definition witness_hash_tail (s : IssuerState) (ic : bytes) (nonce : Z) : outcome Empty_set bytes :=
  hash_tail (pow_hash (is_terms_hash s) (is_lane s) (is_seq s) ic nonce) (is_target_prefix s).

(** Both [expect]s hold by [finalize_single_leaf]: the builder is given one
    leaf at depth 0 and the published internal key. *)
Definition issuer_output_key (s : IssuerState) : bytes :=
  default [] (si_output_key <$> taproot_finalize [(0%nat, issuer_script s)] nums_internal_key).
End output_key.

(** ** Pushes *)

Lemma push_data_direct d :
  (2 <= length d <= 75)%nat -> push_data d = z2b (Z.of_nat (length d)) :: d.
Proof.
  intros Hd. unfold push_data.
  destruct (Z.eqb_spec (Z.of_nat (length d)) 0); [lia|].
  destruct (Z.eqb_spec (Z.of_nat (length d)) 1); [lia|]. simpl.
  by destruct (Z.leb_spec (Z.of_nat (length d)) 75); [|lia].
Qed.

(** A direct push: one length byte, then the data. *)
Definition direct_push (d : bytes) : bytes := z2b (Z.of_nat (length d)) :: d.

Lemma constant_lengths s :
  length (is_terms_hash s) = 32%nat ->
  Forall (fun d => 2 <= length d <= 75)%nat (to_script_constants s).
Proof.
  intros H. unfold to_script_constants.
  do 5 (apply Forall_cons; [rewrite ?length_encode_u32, ?H; simpl; lia|]). constructor.
Qed.

Lemma constant_pushes_direct s :
  length (is_terms_hash s) = 32%nat ->
  push_data <$> to_script_constants s = direct_push <$> to_script_constants s.
Proof.
  intros H%constant_lengths. apply list_fmap_ext. intros i d Hd.
  rewrite Forall_lookup in H. by apply push_data_direct, (H i).
Qed.

(** One successful iteration of the parser, at the head of a suffix. *)
Lemma parse_pushes_step m script pos l d rest :
  drop pos script = l :: d ++ rest -> b2z l = Z.of_nat (length d) ->
  (1 <= length d <= 75)%nat ->
  parse_pushes (S m) script pos =
  (r ← parse_pushes m script (pos + 1 + length d); Ok (option_map (cons d) r)).
Proof.
  intros Hd Hl Hr. simpl.
  assert (script !! pos = Some l) as ->.
  { rewrite <- (Nat.add_0_r pos), <- lookup_drop, Hd. done. }
  rewrite Hl, Nat2Z.id.
  assert (length script = pos + S (length d + length rest))%nat as HL.
  { assert (length (drop pos script) = S (length d + length rest)) as H
      by (rewrite Hd; simpl; by rewrite length_app).
    rewrite length_drop in H. lia. }
  destruct (Nat.eqb_spec (length d) 0); [lia|]. destruct (Nat.ltb_spec 75 (length d)); [lia|].
  destruct (Nat.ltb_spec (length script) (pos + 1 + length d)); [lia|]. simpl.
  rewrite <- drop_drop, Hd. simpl. rewrite drop_0. by rewrite take_app_length.
Qed.

(** The parser reads back a run of direct pushes. *)
Lemma parse_pushes_direct cs pre rest :
  Forall (fun d => 1 <= length d <= 75)%nat cs ->
  parse_pushes (length cs) (pre ++ concat (direct_push <$> cs) ++ rest) (length pre) = Ok (Some cs).
Proof.
  intros Hcs. revert pre. induction Hcs as [|d cs Hd Hcs IH]; intros pre; [done|].
  rewrite fmap_cons, concat_cons, <- (assoc_L (++)). unfold direct_push at 1.
  rewrite length_cons, <- app_comm_cons.
  rewrite (parse_pushes_step _ _ _ (z2b (Z.of_nat (length d))) d
             (concat (direct_push <$> cs) ++ rest)).
  - specialize (IH (pre ++ z2b (Z.of_nat (length d)) :: d)).
    rewrite <- (assoc_L (++)), <- app_comm_cons in IH.
    rewrite length_app, length_cons in IH.
    replace (length pre + 1 + length d)%nat with (length pre + S (length d))%nat by lia.
    by rewrite IH.
  - by rewrite drop_app_length.
  - apply b2z_z2b_u8. unfold fits. lia.
  - done.
Qed.

(** ** Parsing accepts exactly the canonical scripts *)

Lemma parse_issuer_script_complete s :
  IssuerState_wf s -> parse_issuer_script (issuer_script s) = Ok (Some s).
Proof.
  intros W. pose proof W as (H & _). unfold parse_issuer_script.
  destruct (Nat.ltb_spec (length (issuer_script s)) (1 + 32 + (1 + 5) + (1 + 5) + (1 + 2) + (1 + 2)))
    as [HL|_].
  { exfalso. revert HL. unfold issuer_script, to_script_constants.
    rewrite !fmap_cons, fmap_nil, !concat_cons, concat_nil.
    rewrite !push_data_direct by (rewrite ?length_encode_u32, ?H; simpl; lia).
    rewrite !length_app, !length_cons, !length_encode_u32, H. simpl. lia. }
  assert (parse_pushes 5 (issuer_script s) 0 = Ok (Some (to_script_constants s))) as ->.
  { unfold issuer_script. rewrite constant_pushes_direct by done.
    apply (parse_pushes_direct (to_script_constants s) []).
    eapply Forall_impl; [|by apply constant_lengths]. simpl. lia. }
  cbn [mbind result_bind to_script_constants]. rewrite from_script_constants_encode by done.
  by rewrite bool_decide_true.
Qed.

Lemma parse_issuer_script_sound b s :
  parse_issuer_script b = Ok (Some s) -> b = issuer_script s /\ IssuerState_wf s.
Proof.
  unfold parse_issuer_script. intros H. case_match; [done|]. res_inv.
  repeat case_match; simplify_eq/=.
  split; [by eapply bool_decide_eq_true|]. by eapply from_script_constants_Some.
Qed.

(** Different states never share a script. *)
Lemma issuer_script_inj s1 s2 :
  IssuerState_wf s1 -> IssuerState_wf s2 -> issuer_script s1 = issuer_script s2 -> s1 = s2.
Proof.
  intros W1 W2 H. apply parse_issuer_script_complete in W1, W2. rewrite H in W1. congruence.
Qed.

#[global] Arguments parse_issuer_script : simpl never.
#[global] Arguments issuer_script : simpl never.
