(* ===== verification/ScriptMachine.v ===== *)
(** * Executing the issuer tapscript

    The interpreter is Bitcoin's, not the repository's, so it enters as the
    interface [ScriptMachine]: a run function with the documented effect of
    each opcode the issuer program uses (BIP 342, BIP 347).  Against that
    interface this file proves what script.rs claims of its bytes: the program
    succeeds on a mint witness exactly when the proof of work holds, the
    revealed tail is the digest's and supply remains. *)

From S2P Require Import Prelude Bitcoin IssuanceTerms IssuerState Pow IssuerScript.
From Stdlib Require Import ZArith Lia.
Local Open Scope Z_scope.

(** [CastToBool]: false is the empty vector, zeros, and negative zero. *)
Fixpoint cast_to_bool (v : bytes) : bool :=
  match v with
  | [] => false
  | [b] => negb (bool_decide (b = x00)) && negb (bool_decide (b = x80))
  | b :: v' => negb (bool_decide (b = x00)) || cast_to_bool v'
  end.

Definition script_bool (b : bool) : bytes := if b then [x01] else [].

(** A script is run on a stack (top first); [None] is script failure.
    [script_accepts] is the verdict on a tapscript spend. *)
Class ScriptMachine := {
  run : bytes -> list bytes -> option (list bytes);
  script_accepts : bytes -> list bytes -> bool;
}.

Class ScriptMachineLaws (B : BitcoinLib) (M : ScriptMachine) : Prop := {
  run_end st : run [] st = Some st;
  run_op_0 r st : (length st < 1000)%nat -> run (x00 :: r) st = run r ([] :: st);
  run_pushbytes n d r st : 1 <= n <= 75 -> Z.of_nat (length d) = n -> (length st < 1000)%nat ->
    ~ (exists k, 1 <= k <= 16 /\ d = [z2b k]) -> d <> [x81] ->
    run (z2b n :: d ++ r) st = run r (d :: st);
  run_pushdata1 n d r st : 76 <= n <= 255 -> Z.of_nat (length d) = n -> (length st < 1000)%nat ->
    run (x4c :: z2b n :: d ++ r) st = run r (d :: st);
  run_pushdata2 n d r st : 256 <= n <= 520 -> Z.of_nat (length d) = n -> (length st < 1000)%nat ->
    run (x4d :: le_bytes 2 n ++ d ++ r) st = run r (d :: st);
  run_1negate r st : (length st < 1000)%nat -> run (x4f :: r) st = run r ([x81] :: st);
  run_pushnum n r st : 1 <= n <= 16 -> (length st < 1000)%nat ->
    run (z2b (80 + n) :: r) st = run r ([z2b n] :: st);
  run_pick n r st x : 1 <= n <= 16 -> (length st < 1000)%nat -> st !! Z.to_nat n = Some x ->
    run (x79 :: r) ([z2b n] :: st) = run r (x :: st);
  run_cat r a b st : run (x7e :: r) (b :: a :: st) =
    if bool_decide (length a + length b <= 520)%nat then run r ((a ++ b) :: st) else None;
  run_sha256 r a st : run (xa8 :: r) (a :: st) = run r (sha256 a :: st);
  run_equal r a b st : run (x87 :: r) (b :: a :: st) = run r (script_bool (bool_decide (a = b)) :: st);
  run_verify r a st : run (x69 :: r) (a :: st) = if cast_to_bool a then run r st else None;
  run_not r b st : run (x91 :: r) (script_bool b :: st) = run r (script_bool (negb b) :: st);
  run_drop r a st : run (x75 :: r) (a :: st) = run r st;
  (** BIP 342: at most 1000 initial elements of at most 520 bytes each, and
      exactly one truthy element left. *)
  accepts_iff script st : script_accepts script st = true <->
    (length st <= 1000)%nat /\ Forall (fun x => length x <= 520)%nat st /\
    exists x, run script st = Some [x] /\ cast_to_bool x = true;
}.

Section execution.
Context {B : BitcoinLib} {BL : BitcoinLaws B} {M : ScriptMachine} {ML : ScriptMachineLaws B M}.

(** The minimal push of script.rs pushes its argument. *)
Lemma run_push_data d r st :
  (length d <= 520)%nat -> (length st < 1000)%nat ->
  run (push_data d ++ r) st = run r (d :: st).
Proof.
  intros Hd Hs. unfold push_data. set (n := Z.of_nat (length d)).
  destruct (Z.eqb_spec n 0) as [E0|E0].
  { destruct d; [|simpl in *; lia]. by apply run_op_0. }
  set (f := b2z _). destruct ((n =? 1) && (1 <=? f) && (f <=? 16)) eqn:E1.
  { apply andb_true_iff in E1 as [[E1%Z.eqb_eq E2%Z.leb_le]%andb_true_iff E3%Z.leb_le].
    destruct d as [|b [|]]; simpl in *; try (unfold n in *; simpl in *; lia).
    rewrite run_pushnum by lia. unfold f. by rewrite z2b_b2z. }
  destruct ((n =? 1) && (f =? 129)) eqn:E2.
  { apply andb_true_iff in E2 as [E2%Z.eqb_eq E3%Z.eqb_eq].
    destruct d as [|b [|]]; simpl in *; try (unfold n in *; simpl in *; lia).
    rewrite run_1negate by lia. do 3 f_equal. apply b2z_inj. unfold f in E3. by rewrite E3. }
  destruct (Z.leb_spec n 75).
  { rewrite <- app_comm_cons. apply run_pushbytes; [lia|done|done|..].
    - intros (k & Hk & ->). unfold n, f in *. simpl in *.
      rewrite b2z_z2b_u8 in E1 by (unfold fits; lia).
      destruct (Z.leb_spec 1 k), (Z.leb_spec k 16); simpl in *; try lia; done.
    - intros ->. done. }
  destruct (Z.leb_spec n 255).
  { rewrite <- !app_comm_cons. apply run_pushdata1; [lia|done|done]. }
  destruct (Z.leb_spec n 65535); [|lia].
  rewrite <- app_comm_cons, <- (assoc_L (++)). apply run_pushdata2; [lia|done|done].
Qed.

Lemma run_push_pick n r st x :
  1 <= n <= 16 -> (length st < 1000)%nat -> st !! Z.to_nat n = Some x ->
  run (push_pick n ++ r) st = run r (x :: st).
Proof.
  intros Hn Hs Hx. unfold push_pick. rewrite <- !app_comm_cons, app_nil_l.
  rewrite run_pushnum by done. by apply run_pick.
Qed.

Lemma run_push_all ds r st :
  Forall (fun d => length d <= 520)%nat ds -> (length ds + length st < 1000)%nat ->
  run (concat (push_data <$> ds) ++ r) st = run r (reverse ds ++ st).
Proof.
  intros Hds. revert st. induction Hds as [|d ds Hd Hds IH]; intros st Hs; [done|].
  rewrite fmap_cons, concat_cons, <- (assoc_L (++)).
  simpl in Hs. rewrite run_push_data by lia. rewrite IH by (simpl; lia).
  by rewrite reverse_cons, <- (assoc_L (++)).
Qed.

Lemma run_drops n r st st' :
  length st = n -> run (replicate n OP_DROP ++ r) (st ++ st') = run r st'.
Proof.
  revert st. induction n as [|n IH]; intros [|a st] Hl; try done.
  simpl in *. unfold OP_DROP at 1. rewrite run_drop. apply IH. lia.
Qed.

(** The stack a mint witness leaves for the program (top first). *)
Definition mint_stack (nonce : Z) (ic tail owner payload : bytes) : list bytes :=
  [payload; owner; tail; ic; le_bytes 8 nonce].

(** Value of the final comparison of the proof-of-work part. *)
Lemma pow_comparison s d tail :
  IssuerState_wf s -> length d = 32%nat ->
  (if bool_decide (length (pow_prefix s) + length tail <= 520)%nat
   then bool_decide (d = pow_prefix s ++ tail) else false) =
  meets_target d (is_target_prefix s) && bool_decide (hash_tail d (is_target_prefix s) = Ok tail).
Proof.
  intros (_&_&_&_&[Ht Ht']) Hd. apply eq_iff_eq_true.
  rewrite andb_true_iff, meets_target_iff by done.
  fold (pow_prefix s).
  assert (length (pow_prefix s) = Z.to_nat (is_target_prefix s)) as HL
    by apply length_replicate.
  rewrite bool_decide_eq_true, hash_tail_Ok by done. split.
  - case_bool_decide; [|done]. intros E%bool_decide_eq_true.
    assert (length d = length (pow_prefix s) + length tail)%nat as HD by (rewrite E, length_app; lia).
    assert (tail = drop (Z.to_nat (is_target_prefix s)) d) as Htail.
    { rewrite E, drop_app_length'; [done|lia]. }
    split_and!; [lia|by rewrite <- Htail|lia|done].
  - intros [[Htp E] [_ ->]]. rewrite bool_decide_true.
    + by apply bool_decide_eq_true.
    + rewrite HL, length_drop. lia.
Qed.

Ltac pick := erewrite run_push_pick; [|lia|simpl; lia|reflexivity].
Ltac op lem := rewrite <- app_comm_cons; rewrite lem.

(** The ten stack entries the program works on. *)
Definition gate_stack (s : IssuerState) (nonce : Z) (ic tail owner payload : bytes) : list bytes :=
  [encode_u8 (is_lane s); encode_u8 (is_target_prefix s); encode_u32 (is_remaining s);
   encode_u32 (is_seq s); is_terms_hash s] ++ mint_stack nonce ic tail owner payload.

Lemma run_constants s r nonce ic tail owner payload :
  length (is_terms_hash s) = 32%nat ->
  run (concat (push_data <$> to_script_constants s) ++ r) (mint_stack nonce ic tail owner payload) =
  run r (gate_stack s nonce ic tail owner payload).
Proof.
  intros H. rewrite run_push_all; [done| |simpl; lia].
  eapply Forall_impl; [|by apply constant_lengths]. simpl. lia.
Qed.

(** Five copies, four concatenations and a hash rebuild the digest of pow.rs. *)
Lemma run_digest s r nonce ic tail owner payload :
  IssuerState_wf s -> length ic = 32%nat ->
  let st := gate_stack s nonce ic tail owner payload in
  run (push_pick 4 ++ push_pick 1 ++ push_pick 5 ++ push_pick 11 ++ push_pick 13 ++
       [OP_CAT; OP_CAT; OP_CAT; OP_CAT] ++ [OP_SHA256] ++ r) st =
  run r (pow_hash (is_terms_hash s) (is_lane s) (is_seq s) ic nonce :: st).
Proof.
  intros (H & _) Hic st. do 5 pick. do 4 (op run_cat; rewrite bool_decide_true;
    [|rewrite ?length_app, ?length_encode_u32, ?length_le_bytes, ?Hic, ?H; simpl; lia]).
  rewrite app_nil_l. op run_sha256. by rewrite app_nil_l.
Qed.

Lemma run_target_check s r d tail nonce ic owner payload :
  IssuerState_wf s -> length d = 32%nat ->
  let st := gate_stack s nonce ic tail owner payload in
  run (push_data (pow_prefix s) ++ push_pick 9 ++ [OP_CAT] ++ [OP_EQUAL] ++ [OP_VERIFY] ++ r)
    (d :: st) =
  if meets_target d (is_target_prefix s) && bool_decide (hash_tail d (is_target_prefix s) = Ok tail)
  then run r st else None.
Proof.
  intros W Hd st. rewrite <- pow_comparison by done. pose proof W as (_&_&_&_&[Ht Ht']).
  rewrite run_push_data; [|unfold pow_prefix; rewrite length_replicate; lia|simpl; lia].
  pick. op run_cat. case_bool_decide; [|done].
  rewrite !app_nil_l. op run_equal. rewrite app_nil_l. op run_verify. by case_bool_decide.
Qed.

Lemma tagged_zero n : is_u32 n -> encode_u32 n = [STATE_FIELD_TAG; x00; x00; x00; x00] <-> n = 0.
Proof.
  intros Hn. change [STATE_FIELD_TAG; x00; x00; x00; x00] with (encode_u32 0).
  split; [|by intros ->]. intros H%(f_equal (drop 1)). rewrite !drop_1_encode_u32 in H.
  by eapply (le_bytes_inj 4).
Qed.

Lemma run_supply_check s r nonce ic tail owner payload :
  IssuerState_wf s ->
  let st := gate_stack s nonce ic tail owner payload in
  run (push_pick 2 ++ push_data [STATE_FIELD_TAG; x00; x00; x00; x00] ++
       [OP_EQUAL] ++ [OP_NOT] ++ [OP_VERIFY] ++ r) st =
  if is_remaining s =? 0 then None else run r st.
Proof.
  intros (_&_&_&Hr&_) st. pick. rewrite run_push_data by (simpl; lia).
  op run_equal. rewrite app_nil_l. op run_not. rewrite app_nil_l. op run_verify.
  rewrite app_nil_l. destruct (Z.eqb_spec (is_remaining s) 0) as [E|E].
  - by rewrite bool_decide_true by (by apply tagged_zero).
  - rewrite bool_decide_false; [done|]. by rewrite tagged_zero.
Qed.

(** The whole program: it leaves the single element [1] or fails. *)
Lemma issuer_script_run s nonce ic tail owner payload :
  IssuerState_wf s -> length ic = 32%nat ->
  let d := pow_hash (is_terms_hash s) (is_lane s) (is_seq s) ic nonce in
  run (issuer_script s) (mint_stack nonce ic tail owner payload) =
  if meets_target d (is_target_prefix s) && bool_decide (hash_tail d (is_target_prefix s) = Ok tail)
     && negb (is_remaining s =? 0)
  then Some [[x01]] else None.
Proof.
  intros W Hic d. pose proof W as (H & _). unfold issuer_script.
  assert (length d = 32%nat) as Hd by apply sha256_length.
  rewrite run_constants, run_digest by done. fold d.
  rewrite run_target_check by done.
  destruct (meets_target _ _ && bool_decide _); [|done]. simpl andb.
  rewrite run_supply_check by done. destruct (_ =? 0); [done|].
  rewrite <- (app_nil_r (gate_stack _ _ _ _ _ _)), run_drops by done.
  rewrite (run_pushnum 1) by (simpl; lia). by rewrite run_end.
Qed.

(** The verdict on a mint witness. *)
Lemma issuer_script_accepts s nonce ic tail owner payload :
  IssuerState_wf s -> length ic = 32%nat ->
  let d := pow_hash (is_terms_hash s) (is_lane s) (is_seq s) ic nonce in
  script_accepts (issuer_script s) (mint_stack nonce ic tail owner payload) = true <->
  meets_target d (is_target_prefix s) = true /\ hash_tail d (is_target_prefix s) = Ok tail /\
  is_remaining s <> 0 /\ (length owner <= 520)%nat /\ (length payload <= 520)%nat.
Proof.
  intros W Hic d. rewrite accepts_iff, issuer_script_run by done. fold d.
  assert (length d = 32%nat) as Hd by apply sha256_length. pose proof W as (_&_&_&_&[Ht _]). unfold mint_stack.
  rewrite !List.Forall_cons_iff, Hic, length_le_bytes.
  destruct (meets_target d (is_target_prefix s) && bool_decide _ && negb _) eqn:E; autorewrite with guards in E.
  - destruct E as [[Hm Htl] Hr]. apply hash_tail_Ok in Htl as [Htl Hdrop]; [|done].
    assert (length tail <= 32)%nat by (rewrite Hdrop, length_drop; lia).
    split; [|intros (_ & _ & _ & Ho & Hp); split_and!; try lia; [cbn; lia|constructor|by exists [x01]]].
    intros (_ & (Hp & Ho & _) & _). split_and!; try done. by apply hash_tail_Ok.
  - split; [by intros (_ & _ & x & Hx & _)|]. intros (Hm & Htl & Hr & _). exfalso.
    destruct E as [[E|E]|E]; [congruence|by apply E|congruence].
Qed.
End execution.
