(* ===== verification/MintVerify.v ===== *)
(** * Wallet-side mint verification (src/crates/issuance/src/verify.rs)

    The verifier, the builder of the canonical mint transaction, and the
    declarative policy [mint_policy] the verifier is proved to decide. *)

From S2P Require Import Prelude Bitcoin IssuanceTerms IssuerState Pow IssuerScript.
From Stdlib Require Import ZArith Lia.
Local Open Scope Z_scope.

Record MintWitness := mkMintWitness {
  mw_nonce : Z;
  mw_item_commitment : bytes;
  mw_hash_tail : bytes;
  mw_owner_key : bytes;
  mw_payload : bytes;
}.

Record VerifiedMint := mkVerifiedMint {
  vm_issuer_input_index : nat;
  vm_issuer_state : IssuerState;
  vm_witness : MintWitness;
  vm_item_output_index : nat;
  vm_item_output : TxOut;
  vm_successor_output_index : option nat;
  vm_successor_state : option IssuerState;
  vm_fee : Z;
}.

Inductive MintVerifyError :=
| NoIssuerInput (o : OutPoint)
| InvalidIssuerSpend (i : nat)
| MalformedIssuerScript (i : nat)
| TermsMismatch (field : string)
| SupplyExhausted
| MalformedWitness
| InvalidOwnerKey
| PowNotSatisfied
| HashTailMismatch
| ItemCommitmentMismatch
| ItemOutputCount (n : nat)
| ItemOutputCommitment (n : nat)
| SuccessorOutputCount (n : nat)
| SuccessorOutputMismatch (n : nat)
| UnexpectedSuccessor
| ValueNotConserved (inputs outputs : Z)
| NonPositiveFee (fee : Z)
| MintState (e : StateError)
| OutputCount (n : nat).

#[export] Instance MintWitness_eq_dec : EqDecision MintWitness.
Proof. solve_decision. Defined.
#[export] Instance VerifiedMint_eq_dec : EqDecision VerifiedMint.
Proof. solve_decision. Defined.
#[export] Instance MintVerifyError_eq_dec : EqDecision MintVerifyError.
Proof. solve_decision. Defined.

Definition p2tr_output_script (output_key : bytes) : bytes := x51 :: x20 :: output_key.
Definition item_owner_script (owner_key : bytes) : bytes := p2tr_output_script owner_key.

Section verify.
Context `{BitcoinLib} `{BuildProfile}.

Definition canonical_issuer_spk (s : IssuerState) : bytes :=
  p2tr_output_script (issuer_output_key s).

Definition taproot_output_key (spk : bytes) : option bytes :=
  if bool_decide (length spk = 34%nat) && bool_decide (spk !! 0%nat = Some x51)
     && bool_decide (spk !! 1%nat = Some x20)
  then xonly_from_slice (drop 2 spk)
  else None.

Definition parse_mint_witness (stack : list bytes) : result MintVerifyError MintWitness :=
  match stack with
  | [w0; w1; w2; w3; w4] =>
      _ ← reject_if (negb (length w0 =? 8)%nat) MalformedWitness;
      let nonce := from_le_bytes w0 in
      _ ← reject_if (negb (length w1 =? 32)%nat) MalformedWitness;
      owner_key ← ok_or (xonly_from_slice w3) InvalidOwnerKey;
      Ok (mkMintWitness nonce w1 w2 owner_key w4)
  | _ => Err MalformedWitness
  end.

Definition check_terms (state : IssuerState) (terms : IssuanceTerms)
    : result MintVerifyError unit :=
  _ ← reject_if (negb (bool_decide (is_terms_hash state = terms_hash terms)))
        (TermsMismatch "terms_hash");
  _ ← reject_if (negb (is_target_prefix state =? it_target_prefix terms))
        (TermsMismatch "target_prefix");
  _ ← reject_if (materialized_lanes terms <=? is_lane state) (TermsMismatch "lane");
  reject_if (is_remaining state =? 0) SupplyExhausted.

(** Steps 1 and 2: the revealed script, bound to the spent output. *)
Definition verify_issuer_spend (tx : Transaction) (issuer_outpoint : OutPoint)
    (issuer_utxo : TxOut) : outcome MintVerifyError (nat * IssuerState * list bytes) :=
  idx ← try_ (ok_or
    (position (fun i => bool_decide (txi_previous_output i = issuer_outpoint)) (tx_input tx))
    (NoIssuerInput issuer_outpoint));
  let witness_stack := default [] (txi_witness <$> tx_input tx !! idx) in
  _ ← try_ (reject_if (negb (length witness_stack =? 7)%nat) MalformedWitness);
  let script := default [] (witness_stack !! 5%nat) in
  let control_bytes := default [] (witness_stack !! 6%nat) in
  parsed ← no_fail (parse_issuer_script script);
  state ← try_ (ok_or parsed (MalformedIssuerScript idx));
  _ ← try_ (reject_if (negb (bool_decide (script = issuer_script state))) (InvalidIssuerSpend idx));
  let canonical_spk := canonical_issuer_spk state in
  _ ← try_ (reject_if (negb (bool_decide (txo_script_pubkey issuer_utxo = canonical_spk)))
             (MalformedIssuerScript idx));
  output_key ← try_ (ok_or (taproot_output_key (txo_script_pubkey issuer_utxo))
                      (InvalidIssuerSpend idx));
  control ← try_ (ok_or (control_decode control_bytes) (InvalidIssuerSpend idx));
  _ ← try_ (reject_if (negb (verify_taproot_commitment control output_key script))
             (InvalidIssuerSpend idx));
  Ok (idx, state, take 5 witness_stack).

(** Steps 5 and 6: proof of work and item identity. *)
Definition verify_pow_and_item (state : IssuerState) (mw : MintWitness)
    : outcome MintVerifyError unit :=
  let digest := pow_hash (is_terms_hash state) (is_lane state) (is_seq state)
                  (mw_item_commitment mw) (mw_nonce mw) in
  _ ← try_ (reject_if (negb (meets_target digest (is_target_prefix state))) PowNotSatisfied);
  tail ← no_fail (hash_tail digest (is_target_prefix state));
  _ ← try_ (reject_if (negb (bool_decide (mw_hash_tail mw = tail))) HashTailMismatch);
  try_ (reject_if (negb (bool_decide
    (item_commitment (is_terms_hash state) (is_lane state) (is_seq state)
       (mw_owner_key mw) (mw_payload mw) = mw_item_commitment mw))) ItemCommitmentMismatch).

Definition outputs_paying (tx : Transaction) (script : bytes) : list nat :=
  indices_where (fun o => bool_decide (txo_script_pubkey o = script)) (tx_output tx).

(** Steps 7 to 9: classification of the outputs. *)
Definition verify_outputs (tx : Transaction) (state : IssuerState) (mw : MintWitness)
    : result MintVerifyError (nat * option nat * option IssuerState) :=
  let item_indices := outputs_paying tx (item_owner_script (mw_owner_key mw)) in
  item_output_index ← ok_or
    (match item_indices with [i] => Some i | _ => None end)
    (ItemOutputCount (length item_indices));
  successor_state ← map_err MintState (successor state);
  successor_output_index ←
    match successor_state with
    | Some next =>
        let idxs := outputs_paying tx (canonical_issuer_spk next) in
        match idxs with
        | [i] => Ok (Some i)
        | _ => Err (SuccessorOutputCount (length idxs))
        end
    | None => Ok None
    end;
  _ ← reject_if (bool_decide (successor_state = None) &&
                 negb (bool_decide (successor_output_index = None))) UnexpectedSuccessor;
  let expected_outputs := if bool_decide (successor_state = None) then 1%nat else 2%nat in
  _ ← reject_if (negb (length (tx_output tx) =? expected_outputs)%nat)
        (OutputCount (length (tx_output tx)));
  Ok (item_output_index, successor_output_index, successor_state).

(** Step 10: value conservation; [sum()] is plain [u64] arithmetic. *)
Definition verify_value (tx : Transaction) (issuer_utxo : TxOut) : outcome MintVerifyError Z :=
  let inputs := txo_value issuer_utxo in
  outputs ← sum_arith 64 0 (txo_value <$> tx_output tx);
  _ ← try_ (reject_if (inputs <? outputs) (ValueNotConserved inputs outputs));
  let fee := inputs - outputs in
  _ ← try_ (reject_if (fee =? 0) (NonPositiveFee fee));
  Ok fee.

Definition verify_mint (tx : Transaction) (issuer_outpoint : OutPoint) (issuer_utxo : TxOut)
    (terms : IssuanceTerms) : outcome MintVerifyError VerifiedMint :=
  '(idx, state, args) ← verify_issuer_spend tx issuer_outpoint issuer_utxo;
  _ ← try_ (check_terms state terms);
  mw ← try_ (parse_mint_witness args);
  _ ← verify_pow_and_item state mw;
  '(item_idx, succ_idx, succ) ← try_ (verify_outputs tx state mw);
  fee ← verify_value tx issuer_utxo;
  Ok (mkVerifiedMint idx state mw item_idx
        (default TxOut_NULL (tx_output tx !! item_idx)) succ_idx succ fee).

Definition build_mint_tx (issuer_outpoint : OutPoint) (issuer_utxo : TxOut)
    (state : IssuerState) (witness : MintWitness) (item_value : Z)
    (successor_utxo : option TxOut) (control_block : bytes)
    : outcome MintVerifyError Transaction :=
  let stack := [le_bytes 8 (mw_nonce witness); mw_item_commitment witness; mw_hash_tail witness;
                mw_owner_key witness; mw_payload witness; issuer_script state; control_block] in
  let outputs := mkTxOut item_value (item_owner_script (mw_owner_key witness))
                 :: match successor_utxo with Some s => [s] | None => [] end in
  total_out ← sum_arith 64 0 (txo_value <$> outputs);
  let input_value := txo_value issuer_utxo in
  _ ← try_ (reject_if (input_value <? total_out) (ValueNotConserved input_value total_out));
  Ok (mkTransaction 2 0 [mkTxIn issuer_outpoint [] Sequence_MAX stack] outputs).
End verify.

(** ** Stage lemmas: each stage accepts exactly when its condition holds *)

Section stages.
Context {B : BitcoinLib} {BL : BitcoinLaws B} {P : BuildProfile}.

Lemma issuer_output_key_valid s : xonly_valid (issuer_output_key s) = true.
Proof.
  unfold issuer_output_key.
  destruct (finalize_single_leaf (issuer_script s) nums_internal_key nums_is_valid) as [si Hsi].
  rewrite Hsi. simpl. by eapply output_key_valid.
Qed.

Lemma taproot_output_key_p2tr k :
  xonly_valid k = true -> taproot_output_key (p2tr_output_script k) = Some k.
Proof.
  intros Hk. pose proof (xonly_length k Hk) as Hl.
  unfold taproot_output_key, p2tr_output_script, xonly_from_slice.
  rewrite !length_cons, Hl, !bool_decide_true by done.
  change (drop 2 (x51 :: x20 :: k)) with k. by rewrite Hk.
Qed.

Lemma taproot_output_key_Some spk k :
  taproot_output_key spk = Some k -> spk = p2tr_output_script k /\ xonly_valid k = true.
Proof.
  unfold taproot_output_key, xonly_from_slice. intros Hs. repeat case_match; [|done..].
  autorewrite with guards in *. destruct_ex.
  destruct spk as [|a [|b spk]]; simplify_eq/=. done.
Qed.

(** The revealed leaf is the canonical one, the spent output commits to it. *)
Definition issuer_spend_ok (tx : Transaction) (op : OutPoint) (utxo : TxOut)
    (idx : nat) (state : IssuerState) (args : list bytes) : Prop :=
  IssuerState_wf state /\
  txo_script_pubkey utxo = canonical_issuer_spk state /\
  position (fun i => bool_decide (txi_previous_output i = op)) (tx_input tx) = Some idx /\
  exists i cb c, tx_input tx !! idx = Some i /\ length args = 5%nat /\
    txi_witness i = args ++ [issuer_script state; cb] /\
    control_decode cb = Some c /\
    verify_taproot_commitment c (issuer_output_key state) (issuer_script state) = true.

Lemma witness_split (ws : list bytes) :
  length ws = 7%nat ->
  exists script cb, ws = take 5 ws ++ [script; cb] /\ ws !! 5%nat = Some script /\
    ws !! 6%nat = Some cb /\ length (take 5 ws) = 5%nat.
Proof.
  intros Hl. destruct ws as [|w0 [|w1 [|w2 [|w3 [|w4 [|w5 [|w6 [|]]]]]]]]; try done.
  by exists w5, w6.
Qed.

Lemma verify_issuer_spend_Ok tx op utxo idx state args :
  verify_issuer_spend tx op utxo = Ok (idx, state, args) <->
  issuer_spend_ok tx op utxo idx state args.
Proof.
  unfold verify_issuer_spend. split.
  - intros Hv. repeat res_step. simplify_eq. subst. autorewrite with guards in *.
    destruct (proj1 (proj1 (position_Some _ _ _) E)) as (i & Hi & _).
    rewrite Hi in *. simpl in *.
    destruct (witness_split (txi_witness i) ltac:(done)) as (sc & cb & Hw & Hs & Hc & Hl).
    rewrite Hs, Hc in *. simpl in *.
    apply parse_issuer_script_sound in E1 as [-> W].
    apply taproot_output_key_Some in E5 as [Hspk Hval].
    split; [done|]. split; [done|]. split; [done|].
    exists i, cb, r6. split; [done|]. split; [done|]. split; [done|]. split; [done|].
    rewrite E4 in Hspk. by injection Hspk as ->.
  - intros (W & Hspk & Hp & i & cb & c & Hi & Hl & Hw & Hc & Hv).
    destruct args as [|a0 [|a1 [|a2 [|a3 [|a4 [|]]]]]]; try done.
    rewrite Hp. cbn. rewrite Hi. cbn. rewrite Hw. cbn.
    rewrite parse_issuer_script_complete by done. cbn.
    rewrite !bool_decide_true by done. cbn.
    rewrite Hspk. unfold canonical_issuer_spk.
    rewrite taproot_output_key_p2tr by apply issuer_output_key_valid. cbn.
    rewrite Hc. cbn. by rewrite Hv.
Qed.

Lemma check_terms_Ok state terms u :
  check_terms state terms = Ok u <->
  is_terms_hash state = terms_hash terms /\
  is_target_prefix state = it_target_prefix terms /\
  is_lane state < materialized_lanes terms /\ is_remaining state <> 0.
Proof.
  unfold check_terms. split.
  - intros. res_inv. done.
  - intros (H1 & H2 & H3 & H4). destruct u. by res_pass.
Qed.

Lemma parse_mint_witness_Ok args mw :
  parse_mint_witness args = Ok mw <->
  args = [le_bytes 8 (mw_nonce mw); mw_item_commitment mw; mw_hash_tail mw;
          mw_owner_key mw; mw_payload mw] /\
  is_u64 (mw_nonce mw) /\ length (mw_item_commitment mw) = 32%nat /\
  xonly_valid (mw_owner_key mw) = true.
Proof.
  unfold parse_mint_witness, xonly_from_slice. split.
  - intros Hp. destruct args as [|w0 [|w1 [|w2 [|w3 [|w4 [|]]]]]]; try done.
    res_inv. repeat case_match; simplify_eq. cbn.
    rewrite <- E at 1. rewrite le_bytes_from_le.
    pose proof (from_le_bytes_range w0) as HR. rewrite E in HR. done.
  - intros (-> & Hn & Hc & Ho). rewrite length_le_bytes, Hc, Ho. cbn.
    rewrite from_le_le_bytes by done. by destruct mw.
Qed.

Lemma verify_pow_and_item_Ok state mw u :
  let d := pow_hash (is_terms_hash state) (is_lane state) (is_seq state)
             (mw_item_commitment mw) (mw_nonce mw) in
  verify_pow_and_item state mw = Ok u <->
  meets_target d (is_target_prefix state) = true /\
  hash_tail d (is_target_prefix state) = Ok (mw_hash_tail mw) /\
  mw_item_commitment mw = item_commitment (is_terms_hash state) (is_lane state) (is_seq state)
    (mw_owner_key mw) (mw_payload mw).
Proof.
  intros d. unfold verify_pow_and_item. fold d. split.
  - intros Hv. repeat res_step. autorewrite with guards in *. subst. by destruct (hash_tail d _) as [t|[|[]]]; simplify_eq/=.
  - intros (H1 & H2 & H3). destruct u. rewrite H2. by res_pass.
Qed.

(** Output [i], and no other output, pays [script]. *)
Definition unique_output (tx : Transaction) (script : bytes) (i : nat) : Prop :=
  (exists o, tx_output tx !! i = Some o /\ txo_script_pubkey o = script) /\
  forall j o, tx_output tx !! j = Some o -> txo_script_pubkey o = script -> j = i.

Lemma outputs_paying_unique tx script i :
  outputs_paying tx script = [i] <-> unique_output tx script i.
Proof.
  unfold outputs_paying, unique_output. rewrite indices_where_singleton.
  by setoid_rewrite bool_decide_eq_true.
Qed.

Definition successor_output_ok (tx : Transaction) (succ : option IssuerState)
    (succ_idx : option nat) : Prop :=
  match succ with
  | Some next => length (tx_output tx) = 2%nat /\
      exists j, succ_idx = Some j /\ unique_output tx (canonical_issuer_spk next) j
  | None => length (tx_output tx) = 1%nat /\ succ_idx = None
  end.

Lemma verify_outputs_Ok tx state mw i succ_idx succ :
  verify_outputs tx state mw = Ok (i, succ_idx, succ) <->
  unique_output tx (item_owner_script (mw_owner_key mw)) i /\
  successor state = Ok succ /\ successor_output_ok tx succ succ_idx.
Proof.
  unfold verify_outputs, successor_output_ok. rewrite <- outputs_paying_unique. split.
  - intros Hv. repeat res_step. simplify_eq. repeat case_match; simplify_eq; res_inv; simplify_eq.
    all: split_and!; try done; eexists; (split; [done|]); by apply outputs_paying_unique.
  - intros (-> & Hs & Hsucc). rewrite Hs. cbn. destruct succ as [next|].
    + destruct Hsucc as (Hl & j & -> & Hj%outputs_paying_unique). rewrite Hj, Hl. done.
    + destruct Hsucc as [Hl ->]. cbn. by rewrite Hl.
Qed.

Definition output_total (tx : Transaction) : Z := sumZ (txo_value <$> tx_output tx).

(** The sum of amounts on every input, wrap-around included. *)
Lemma sum_arith_total (l : list Z) acc :
  Forall (fits 64) l -> fits 64 acc ->
  sum_arith (E := MintVerifyError) 64 acc l =
  if overflow_checks && negb (bool_decide (acc + sumZ l < 2 ^ 64)) then Err Panic
  else Ok (wrap 64 (acc + sumZ l)).
Proof.
  intros Hl. revert acc. induction Hl as [|x l Hx Hl IH]; intros acc Ha; simpl.
  - rewrite Z.add_0_r, wrap_id by done. unfold fits in Ha.
    rewrite bool_decide_true by lia. simpl. by rewrite andb_false_r.
  - pose proof (sumZ_nonneg 64 l Hl). unfold arith. case_bool_decide as Hf.
    + cbn. rewrite IH by done. by rewrite <- Z.add_assoc.
    + destruct overflow_checks eqn:Eo; cbn.
      * rewrite bool_decide_false; [done|]. unfold fits in *. lia.
      * rewrite IH by (by apply wrap_fits). rewrite ?Eo. cbn. f_equal. unfold wrap.
        rewrite Zplus_mod_idemp_l. f_equal. lia.
Qed.
(** The fee is what the input leaves over the total as the build sums it: a
    build with overflow checks panics on a total of 2^64 and more, a build
    without them reduces it. *)
Definition value_conserved (tx : Transaction) (utxo : TxOut) (fee : Z) : Prop :=
  (overflow_checks = true -> output_total tx < 2 ^ 64) /\
  output_total tx mod 2 ^ 64 + fee = txo_value utxo /\ 0 < fee.

Lemma verify_value_total tx utxo :
  Forall TxOut_wf (tx_output tx) ->
  let total := output_total tx in
  let seen := total mod 2 ^ 64 in
  verify_value tx utxo =
    if overflow_checks && negb (bool_decide (total < 2 ^ 64)) then Err Panic
    else if txo_value utxo <? seen then Err (Fail (ValueNotConserved (txo_value utxo) seen))
    else if txo_value utxo - seen =? 0 then Err (Fail (NonPositiveFee 0))
    else Ok (txo_value utxo - seen).
Proof.
  intros Hw total seen. unfold verify_value. rewrite sum_arith_total; [|by apply Forall_fmap|done].
  fold (output_total tx). cbn [Z.add]. fold total. change (0 + total) with total.
  destruct (overflow_checks && _); [done|]. res_cbn. unfold wrap. fold seen.
  destruct (_ <? seen); [done|]. res_cbn. destruct (Z.eqb_spec (txo_value utxo - seen) 0) as [E|E]; [|done].
  res_cbn. simpl. by rewrite E.
Qed.

Lemma verify_value_Ok tx utxo fee :
  Forall TxOut_wf (tx_output tx) -> verify_value tx utxo = Ok fee <-> value_conserved tx utxo fee.
Proof.
  intros Hw. rewrite verify_value_total by done. cbv zeta. unfold value_conserved. set (m := output_total tx mod 2 ^ 64).
  destruct (overflow_checks && _) eqn:Eo; autorewrite with guards in Eo.
  { split; [done|]. intros [Ho _]. destruct Eo as [Eo Ht]. specialize (Ho Eo). lia. }
  destruct (Z.ltb_spec (txo_value utxo) m); [split; [done|]; lia|].
  destruct (Z.eqb_spec (txo_value utxo - m) 0); [split; [done|]; lia|].
  split; [intros [= <-]; split; [|lia]; intros Hb; destruct Eo as [Eo|Eo]; congruence|].
  intros (_ & He & _). f_equal. lia.
Qed.
(** A total that a u64 holds is seen exactly. *)
Lemma value_conserved_exact tx utxo fee : Forall TxOut_wf (tx_output tx) -> output_total tx < 2 ^ 64 ->
  value_conserved tx utxo fee <-> output_total tx + fee = txo_value utxo /\ 0 < fee.
Proof.
  intros Hw Ht. unfold value_conserved. assert (0 <= output_total tx).
  { unfold output_total. eapply (sumZ_nonneg 64). by apply Forall_fmap. }
  rewrite Z.mod_small by lia. tauto.
Qed.
End stages.

(** ** The policy, and that the verifier decides it *)

Record mint_policy `{BitcoinLib} `{BuildProfile} (tx : Transaction) (op : OutPoint) (utxo : TxOut)
    (terms : IssuanceTerms) (v : VerifiedMint) : Prop := mk_mint_policy {
  (** the issuer input reveals the canonical leaf of the spent output *)
  mp_spend : issuer_spend_ok tx op utxo (vm_issuer_input_index v) (vm_issuer_state v)
    [le_bytes 8 (mw_nonce (vm_witness v)); mw_item_commitment (vm_witness v);
     mw_hash_tail (vm_witness v); mw_owner_key (vm_witness v); mw_payload (vm_witness v)];
  mp_nonce : is_u64 (mw_nonce (vm_witness v));
  mp_owner : xonly_valid (mw_owner_key (vm_witness v)) = true;
  (** the committed state belongs to the terms and has supply left *)
  mp_terms : is_terms_hash (vm_issuer_state v) = terms_hash terms /\
    is_target_prefix (vm_issuer_state v) = it_target_prefix terms /\
    is_lane (vm_issuer_state v) < materialized_lanes terms /\
    is_remaining (vm_issuer_state v) <> 0;
  (** the nonce solves the challenge of exactly this slot and item *)
  mp_pow : let s := vm_issuer_state v in
    let d := pow_hash (is_terms_hash s) (is_lane s) (is_seq s)
               (mw_item_commitment (vm_witness v)) (mw_nonce (vm_witness v)) in
    meets_target d (is_target_prefix s) = true /\
    hash_tail d (is_target_prefix s) = Ok (mw_hash_tail (vm_witness v));
  mp_item : mw_item_commitment (vm_witness v) =
    item_commitment (is_terms_hash (vm_issuer_state v)) (is_lane (vm_issuer_state v))
      (is_seq (vm_issuer_state v)) (mw_owner_key (vm_witness v)) (mw_payload (vm_witness v));
  (** outputs: one for the owner, one for the successor state unless exhausted *)
  mp_item_output : unique_output tx (item_owner_script (mw_owner_key (vm_witness v)))
      (vm_item_output_index v) /\
    tx_output tx !! vm_item_output_index v = Some (vm_item_output v);
  mp_successor : successor (vm_issuer_state v) = Ok (vm_successor_state v) /\
    successor_output_ok tx (vm_successor_state v) (vm_successor_output_index v);
  (** the input pays the outputs, as the build adds them up, and a fee *)
  mp_value : value_conserved tx utxo (vm_fee v);
}.

Section refinement.
Context {B : BitcoinLib} {BL : BitcoinLaws B} {P : BuildProfile}.

(** What holds of a verified mint whatever its amounts are. *)
Lemma verify_mint_stages tx op utxo terms v :
  verify_mint tx op utxo terms = Ok v ->
  let s := vm_issuer_state v in let mw := vm_witness v in
  let d := pow_hash (is_terms_hash s) (is_lane s) (is_seq s) (mw_item_commitment mw) (mw_nonce mw) in
  issuer_spend_ok tx op utxo (vm_issuer_input_index v) s
    [le_bytes 8 (mw_nonce mw); mw_item_commitment mw; mw_hash_tail mw; mw_owner_key mw; mw_payload mw] /\
  (is_terms_hash s = terms_hash terms /\ is_target_prefix s = it_target_prefix terms /\
   is_lane s < materialized_lanes terms /\ is_remaining s <> 0) /\
  xonly_valid (mw_owner_key mw) = true /\
  meets_target d (is_target_prefix s) = true /\ hash_tail d (is_target_prefix s) = Ok (mw_hash_tail mw) /\
  mw_item_commitment mw = item_commitment (is_terms_hash s) (is_lane s) (is_seq s) (mw_owner_key mw) (mw_payload mw).
Proof.
  unfold verify_mint. intros Hv. repeat (res_step || case_match). simplify_eq.
  apply verify_issuer_spend_Ok in E. apply check_terms_Ok in E0.
  apply parse_mint_witness_Ok in E1 as (-> & Hn & Hc & Ho). apply verify_pow_and_item_Ok in E2 as (Hp1 & Hp2 & Hi).
  by subst.
Qed.
Lemma verify_mint_outputs tx op utxo terms v :
  verify_mint tx op utxo terms = Ok v ->
  unique_output tx (item_owner_script (mw_owner_key (vm_witness v))) (vm_item_output_index v) /\
  tx_output tx !! vm_item_output_index v = Some (vm_item_output v) /\
  successor (vm_issuer_state v) = Ok (vm_successor_state v) /\
  successor_output_ok tx (vm_successor_state v) (vm_successor_output_index v).
Proof.
  unfold verify_mint. intros Hv. repeat (res_step || case_match). simplify_eq.
  apply verify_outputs_Ok in E3 as (Hu & Hs & Hso). subst. cbn. split_and!; try done.
  destruct Hu as [(out & Hout & _) _]. by rewrite Hout.
Qed.

Lemma verify_mint_policy tx op utxo terms v :
  Forall TxOut_wf (tx_output tx) ->
  verify_mint tx op utxo terms = Ok v <-> mint_policy tx op utxo terms v.
Proof.
  intros Hr. unfold verify_mint. split.
  - intros Hv. repeat (res_step || case_match). simplify_eq.
    apply verify_issuer_spend_Ok in E. apply check_terms_Ok in E0.
    apply parse_mint_witness_Ok in E1 as (-> & Hn & Hc & Ho).
    apply verify_pow_and_item_Ok in E2 as (Hp1 & Hp2 & Hi).
    apply verify_outputs_Ok in E3 as (Hu & Hs & Hso).
    apply verify_value_Ok in E4; [|done].
    subst. constructor; cbn; try done.
    split; [done|]. destruct Hu as [(out & Hout & _) _]. by rewrite Hout.
  - intros [H1 H2 H3 H4 H5 H6 [H7 H7'] [H8 H8'] H9].
    rewrite (proj2 (verify_issuer_spend_Ok _ _ _ _ _ _) H1). res_cbn.
    rewrite (proj2 (check_terms_Ok _ _ tt) H4). res_cbn.
    rewrite (proj2 (parse_mint_witness_Ok _ (vm_witness v))).
    2:{ split; [done|]. split; [done|]. split; [|done]. rewrite H6. apply sha256_length. }
    res_cbn. rewrite (proj2 (verify_pow_and_item_Ok _ _ tt)) by (split; [apply H5|]; split; [apply H5|done]).
    res_cbn. rewrite (proj2 (verify_outputs_Ok _ _ _ _ _ _) (conj H7 (conj H8 H8'))). res_cbn.
    rewrite (proj2 (verify_value_Ok _ _ _ Hr) H9). res_cbn. rewrite H7'. by destruct v.
Qed.
End refinement.

(** ** The builder meets the verifier *)

Section build.
Context {B : BitcoinLib} {BL : BitcoinLaws B} {P : BuildProfile}.

(** What the caller of [build_mint_tx] hands over. *)
Definition successor_utxo_ok (state : IssuerState) (owner : bytes) (utxo : option TxOut) : Prop :=
  match successor state with
  | Ok (Some next) => exists o, utxo = Some o /\ TxOut_wf o /\
      txo_script_pubkey o = canonical_issuer_spk next /\ owner <> issuer_output_key next
  | Ok None => utxo = None
  | Err _ => False
  end.

Definition mint_outputs (mw : MintWitness) (item_value : Z) (succ : option TxOut) : list TxOut :=
  mkTxOut item_value (item_owner_script (mw_owner_key mw))
  :: match succ with Some s => [s] | None => [] end.

Lemma mint_outputs_classified op stack state mw item_value succ :
  successor_utxo_ok state (mw_owner_key mw) succ ->
  let tx := mkTransaction 2 0 [mkTxIn op [] Sequence_MAX stack] (mint_outputs mw item_value succ) in
  unique_output tx (item_owner_script (mw_owner_key mw)) 0 /\
  exists next, successor state = Ok next /\
    successor_output_ok tx next (match next with Some _ => Some 1%nat | None => None end).
Proof.
  intros Hs tx. unfold successor_utxo_ok in Hs.
  destruct (successor state) as [[next|]|]; [|subst succ|done].
  - destruct Hs as (o & -> & _ & Ho & Hne).
    assert (item_owner_script (mw_owner_key mw) <> canonical_issuer_spk next) as Hne'.
    { unfold item_owner_script, canonical_issuer_spk, p2tr_output_script. congruence. }
    split.
    + split; [eexists; by split|]. intros [|[|]] out Hout Hscr; simplify_eq/=; congruence.
    + exists (Some next). split; [done|]. split; [done|]. exists 1%nat. split; [done|].
      split; [exists o; by split|]. intros [|[|]] out Hout Hscr; simplify_eq/=; congruence.
  - split.
    + split; [eexists; by split|]. by intros [|] out Hout Hscr; simplify_eq/=.
    + exists None. done.
Qed.

Lemma build_then_verify op utxo state mw item_value succ cb c terms :
  IssuerState_wf state -> txo_script_pubkey utxo = canonical_issuer_spk state ->
  control_decode cb = Some c ->
  verify_taproot_commitment c (issuer_output_key state) (issuer_script state) = true ->
  check_terms state terms = Ok tt -> verify_pow_and_item state mw = Ok tt ->
  is_u64 (mw_nonce mw) -> xonly_valid (mw_owner_key mw) = true ->
  successor_utxo_ok state (mw_owner_key mw) succ ->
  is_u64 item_value -> is_u64 (txo_value utxo) ->
  sumZ (txo_value <$> mint_outputs mw item_value succ) < txo_value utxo ->
  exists tx v, build_mint_tx op utxo state mw item_value succ cb = Ok tx /\
    verify_mint tx op utxo terms = Ok v /\ vm_issuer_state v = state /\ vm_witness v = mw /\
    vm_item_output_index v = 0%nat /\
    vm_fee v = txo_value utxo - sumZ (txo_value <$> mint_outputs mw item_value succ).
Proof.
  intros W Hspk Hc Hv Ht Hp Hn Ho Hs Hi [Hu Hu'] Hsum.
  apply check_terms_Ok in Ht. apply verify_pow_and_item_Ok in Hp as (Hp1 & Hp2 & Hp3).
  assert (Forall TxOut_wf (mint_outputs mw item_value succ)) as Hwf.
  { unfold mint_outputs. constructor; [done|]. unfold successor_utxo_ok in Hs.
    repeat case_match; simplify_eq; try done; destruct_ex; simplify_eq; auto using Forall_cons_2, Forall_nil_2. }
  set (stack := [le_bytes 8 (mw_nonce mw); mw_item_commitment mw; mw_hash_tail mw;
                 mw_owner_key mw; mw_payload mw; issuer_script state; cb]).
  set (tx := mkTransaction 2 0 [mkTxIn op [] Sequence_MAX stack] (mint_outputs mw item_value succ)).
  destruct (mint_outputs_classified op stack state mw item_value succ Hs) as (Hu1 & next & Hnx & Hso).
  set (v := mkVerifiedMint 0 state mw 0 (mkTxOut item_value (item_owner_script (mw_owner_key mw)))
              (match next with Some _ => Some 1%nat | None => None end) next
              (txo_value utxo - sumZ (txo_value <$> mint_outputs mw item_value succ))).
  exists tx, v. split_and!; [| |done..].
  - unfold build_mint_tx. fold (mint_outputs mw item_value succ).
    rewrite sum_arith_fits; [|lia|by apply Forall_fmap|lia]. by res_pass.
  - apply verify_mint_policy; [done|].
    constructor; try done; cbn.
    + split; [done|]. split; [done|].
      split; [cbn; by rewrite bool_decide_true|].
      eexists _, cb, c. split; [done|]. by split_and!.
    + apply value_conserved_exact; unfold output_total; [done|cbn in *; lia..].
Qed.
End build.
