(* ===== verification/Discover.v ===== *)
(** * Issuance discovery and the issuance transaction
      (src/crates/issuance/src/indexer.rs and models.rs)

    The structural scan of a transaction for revealed issuer leaves, and the
    transaction that opens an issuance with one issuer output per lane. *)

From S2P Require Import Prelude Bitcoin IssuanceTerms IssuerState Pow IssuerScript MintVerify.
From Stdlib Require Import ZArith Lia.
Local Open Scope Z_scope.

Record DiscoveredIssuerSpend := mkDiscoveredIssuerSpend {
  dis_outpoint : OutPoint;
  dis_input_index : nat;
  dis_state : IssuerState;
}.

Record DiscoveredP2trCandidate := mkDiscoveredP2trCandidate {
  dpc_output_index : nat;
  dpc_value : Z;
  dpc_output_key : bytes;
}.

Record TxDiscovery := mkTxDiscovery {
  td_txid : bytes;
  td_consumed_issuers : list DiscoveredIssuerSpend;
  td_p2tr_candidates : list DiscoveredP2trCandidate;
}.

#[export] Instance DiscoveredIssuerSpend_eq_dec : EqDecision DiscoveredIssuerSpend.
Proof. solve_decision. Defined.
#[export] Instance DiscoveredP2trCandidate_eq_dec : EqDecision DiscoveredP2trCandidate.
Proof. solve_decision. Defined.
#[export] Instance TxDiscovery_eq_dec : EqDecision TxDiscovery.
Proof. solve_decision. Defined.

Definition p2tr_output_key_bytes (output : TxOut) : option bytes :=
  let b := txo_script_pubkey output in
  if (length b =? 34)%nat && bool_decide (b !! 0%nat = Some x51) && bool_decide (b !! 1%nat = Some x20)
  then Some (drop 2 b)
  else None.

(** The first loop of [discover]; [i] is the [enumerate] counter. *)
Fixpoint discover_inputs (i : nat) (ins : list TxIn)
    : outcome Empty_set (list DiscoveredIssuerSpend) :=
  match ins with
  | [] => Ok []
  | input :: ins' =>
      let stack := txi_witness input in
      if (length stack <? 2)%nat then discover_inputs (S i) ins'
      else
        let script := default [] (stack !! (length stack - 2)%nat) in
        parsed ← parse_issuer_script script;
        rest ← discover_inputs (S i) ins';
        Ok (match parsed with
            | Some state => mkDiscoveredIssuerSpend (txi_previous_output input) i state :: rest
            | None => rest
            end)
  end.

Fixpoint discover_outputs (i : nat) (outs : list TxOut) : list DiscoveredP2trCandidate :=
  match outs with
  | [] => []
  | output :: outs' =>
      match p2tr_output_key_bytes output with
      | Some key => mkDiscoveredP2trCandidate i (txo_value output) key :: discover_outputs (S i) outs'
      | None => discover_outputs (S i) outs'
      end
  end.

Definition discover `{BitcoinLib} (tx : Transaction) : outcome Empty_set TxDiscovery :=
  issuers ← discover_inputs 0 (tx_input tx);
  Ok {| td_txid := compute_txid tx;
        td_consumed_issuers := issuers;
        td_p2tr_candidates :=
          if bool_decide (issuers = []) then [] else discover_outputs 0 (tx_output tx) |}.

(** ** models.rs *)

(** [256u64.saturating_pow(k)] *)
Definition expected_attempts (target_prefix : Z) : Z := Z.min (2 ^ 64 - 1) (256 ^ target_prefix).

Definition funding_input : TxIn :=
  mkTxIn OutPoint_null [] Sequence_MAX [replicate 72 x55; replicate 33 x33].

(** [IssuerState::initial(..).expect("valid lane")] panics on an error. *)
Definition build_issuance_tx `{BitcoinLib} (terms : IssuanceTerms) (issuer_value : Z)
    : outcome Empty_set Transaction :=
  outputs ← mapM_result (fun lane =>
      state ← map_err (fun _ => Panic) (IssuerState_initial terms lane);
      Ok (mkTxOut issuer_value (canonical_issuer_spk state)))
    (seqZ 0 (materialized_lanes terms));
  Ok (mkTransaction 2 0 [funding_input] outputs).

(** ** What discovery reports *)

(** Input [i] of the transaction reveals the issuer leaf of [state]: its
    second last witness element is the canonical script. *)
Definition reveals (tx : Transaction) (i : nat) (op : OutPoint) (state : IssuerState) : Prop :=
  IssuerState_wf state /\
  exists input, tx_input tx !! i = Some input /\ txi_previous_output input = op /\
    (2 <= length (txi_witness input))%nat /\
    txi_witness input !! (length (txi_witness input) - 2)%nat = Some (issuer_script state).

Lemma discover_inputs_elem n ins ds op i s :
  discover_inputs n ins = Ok ds ->
  mkDiscoveredIssuerSpend op i s ∈ ds <->
  (n <= i)%nat /\ reveals (mkTransaction 0 0 ins []) (i - n) op s.
Proof.
  revert n ds. induction ins as [|x ins IH]; intros n ds Hd; simpl in Hd.
  { res_inv. subst ds. split; [by intros ?%elem_of_nil | by intros (_ & _ & input & ? & _)]. }
  assert (forall ds', discover_inputs (S n) ins = Ok ds' ->
    mkDiscoveredIssuerSpend op i s ∈ ds' <->
    (S n <= i)%nat /\ reveals (mkTransaction 0 0 (x :: ins) []) (i - n) op s) as IH'.
  { intros ds' Hd'. rewrite (IH (S n)) by done. unfold reveals; simpl.
    split; intros (Hi & HW & input & Hl & Hr); (split; [done|]); (split; [done|]); exists input;
      (split; [|done]); replace (i - n)%nat with (S (i - S n)) in * by lia; done. }
  assert (reveals (mkTransaction 0 0 (x :: ins) []) 0 op s <->
    IssuerState_wf s /\ txi_previous_output x = op /\ (2 <= length (txi_witness x))%nat /\
    txi_witness x !! (length (txi_witness x) - 2)%nat = Some (issuer_script s)) as H0.
  { unfold reveals; simpl. naive_solver. }
  assert (forall Q : Prop, (i = n -> ~ reveals (mkTransaction 0 0 (x :: ins) []) 0 op s) ->
    (Q <-> (S n <= i)%nat /\ reveals (mkTransaction 0 0 (x :: ins) []) (i - n) op s) ->
    (Q <-> (n <= i)%nat /\ reveals (mkTransaction 0 0 (x :: ins) []) (i - n) op s)) as Hskip.
  { intros Q Hn ->. destruct (decide (i = n)) as [->|]; [rewrite Nat.sub_diag; naive_solver lia|].
    split; intros [? ?]; (split; [lia|done]). }
  destruct (Nat.ltb_spec (length (txi_witness x)) 2) as [HL|HL].
  - apply Hskip; [|by apply IH']. rewrite H0. lia.
  - res_inv. rename r into parsed, r0 into rest.
    destruct (lookup_lt_is_Some_2 (txi_witness x) (length (txi_witness x) - 2)) as [sc Hsc]; [lia|].
    rewrite Hsc in *. simpl in E. destruct parsed as [st|]; subst ds.
    + apply parse_issuer_script_sound in E as [-> W]. rewrite elem_of_cons, IH' by done.
      destruct (decide (i = n)) as [->|].
      * rewrite Nat.sub_diag, H0. split; [intros [Heq|[? _]]; [|lia]|].
        -- injection Heq as -> ->. split; [lia|]. done.
        -- intros (_ & Ws & <- & _ & [= Heq]). left. f_equal. symmetry. by apply issuer_script_inj.
      * split; [intros [[= -> -> ->]|[? ?]]; [done|split; [lia|done]]|].
        intros [? ?]. right. split; [lia|done].
    + apply Hskip; [|by apply IH']. rewrite H0. intros _ (Ws & _ & _ & Heq). injection Heq as ->.
      rewrite parse_issuer_script_complete in E by done. done.
Qed.

Lemma discover_reveals `{BitcoinLib} tx d op i s :
  discover tx = Ok d ->
  mkDiscoveredIssuerSpend op i s ∈ td_consumed_issuers d <-> reveals tx i op s.
Proof.
  intros Hd. unfold discover in Hd. res_inv. subst d. simpl.
  rewrite discover_inputs_elem by done. rewrite Nat.sub_0_r. unfold reveals; simpl.
  split; [by intros [_ ?]|]. intros ?. split; [lia|done].
Qed.

Lemma discover_outputs_elem n outs c :
  c ∈ discover_outputs n outs <->
  exists o, (n <= dpc_output_index c)%nat /\ outs !! (dpc_output_index c - n)%nat = Some o /\
    p2tr_output_key_bytes o = Some (dpc_output_key c) /\ dpc_value c = txo_value o.
Proof.
  revert n. induction outs as [|o outs IH]; intros n; simpl.
  { split; [by intros ?%elem_of_nil | by intros (? & _ & ? & _)]. }
  assert (c ∈ discover_outputs (S n) outs <->
    exists o', (S n <= dpc_output_index c)%nat /\ (o :: outs) !! (dpc_output_index c - n)%nat = Some o' /\
    p2tr_output_key_bytes o' = Some (dpc_output_key c) /\ dpc_value c = txo_value o') as IH'.
  { rewrite IH. split; intros (o' & Hi & Hl & Hr); exists o'; (split; [done|]); (split; [|done]);
      replace (dpc_output_index c - n)%nat with (S (dpc_output_index c - S n)) in * by lia; done. }
  destruct (decide (dpc_output_index c = n)) as [Hn|Hn].
  - rewrite Hn, Nat.sub_diag in *. simpl.
    destruct (p2tr_output_key_bytes o) as [k|] eqn:Ek; [rewrite elem_of_cons|]; rewrite IH'.
    + split; [intros [->|(? & ? & _)]; [|lia]|].
      * by exists o.
      * intros (o' & _ & [= <-] & Hk & Hv). left. destruct c; simpl in *. congruence.
    + split; [intros (? & ? & _); lia|]. naive_solver congruence.
  - destruct (p2tr_output_key_bytes o) as [k|]; [rewrite elem_of_cons|]; rewrite IH'.
    + split; [intros [->|(o' & ? & ?)]; [done|]; exists o'; split; [lia|done]|].
      intros (o' & ? & ?). right. exists o'. split; [lia|done].
    + split; intros (o' & ? & ?); exists o'; (split; [lia|done]).
Qed.

Lemma p2tr_output_key_bytes_Some o k :
  p2tr_output_key_bytes o = Some k <-> length k = 32%nat /\ txo_script_pubkey o = p2tr_output_script k.
Proof.
  unfold p2tr_output_key_bytes, p2tr_output_script. destruct o as [v b]; simpl. split.
  - intros H. case_match; [|done]. autorewrite with guards in *. destruct_ex.
    destruct b as [|? [|? b]]; simplify_eq/=. done.
  - intros [Hk ->]. simpl. by rewrite Hk.
Qed.

(** ** Verified mints are discovered *)

Section verified.
Context {B : BitcoinLib} {BL : BitcoinLaws B} {P : BuildProfile}.

Lemma issuer_spend_reveals tx op utxo i state args :
  issuer_spend_ok tx op utxo i state args -> reveals tx i op state.
Proof.
  intros (W & _ & Hp & input & cb & c & Hi & Ha & Hw & _). split; [done|].
  apply position_Some in Hp as [(input' & Hi' & Hop) _].
  exists input. split; [done|]. split; [apply bool_decide_eq_true in Hop; by simplify_eq|].
  rewrite Hw, length_app, Ha. split; [simpl; lia|].
  rewrite lookup_app_r by (rewrite Ha; simpl; lia). by rewrite Ha.
Qed.

Lemma verified_mint_discovered tx op utxo terms v d :
  verify_mint tx op utxo terms = Ok v -> discover tx = Ok d ->
  mkDiscoveredIssuerSpend op (vm_issuer_input_index v) (vm_issuer_state v)
    ∈ td_consumed_issuers d /\
  mkDiscoveredP2trCandidate (vm_item_output_index v) (txo_value (vm_item_output v))
    (mw_owner_key (vm_witness v)) ∈ td_p2tr_candidates d.
Proof.
  intros Hv Hd. pose proof (verify_mint_outputs _ _ _ _ _ Hv) as (Hu & Hi & _).
  apply verify_mint_stages in Hv as (Hs & _ & Ho & _).
  apply issuer_spend_reveals in Hs.
  assert (mkDiscoveredIssuerSpend op (vm_issuer_input_index v) (vm_issuer_state v)
    ∈ td_consumed_issuers d) as Hin by by eapply discover_reveals.
  split; [done|]. unfold discover in Hd. res_inv. subst d. simpl in *.
  rewrite bool_decide_false by (intros ->; by apply elem_of_nil in Hin).
  apply discover_outputs_elem. exists (vm_item_output v). simpl. rewrite Nat.sub_0_r.
  split; [lia|]. split; [done|]. split; [|done].
  apply p2tr_output_key_bytes_Some. split; [by apply xonly_length|].
  destruct Hu as [(o & Ho' & Hs') _]. by simplify_eq.
Qed.

(** The issuance transaction opens every lane at its initial state. *)
Lemma build_issuance_tx_Ok terms value :
  it_target_prefix terms <= 32 ->
  exists tx, build_issuance_tx terms value = Ok tx /\
    Forall2 (fun lane o => exists s, IssuerState_initial terms lane = Ok s /\
        o = mkTxOut value (canonical_issuer_spk s))
      (seqZ 0 (materialized_lanes terms)) (tx_output tx).
Proof.
  intros Ht. unfold build_issuance_tx.
  assert (forall ls, Forall (fun l => l < materialized_lanes terms) ls -> exists os,
    mapM_result (fun lane => state ← map_err (fun _ => @Panic Empty_set) (IssuerState_initial terms lane);
      Ok (mkTxOut value (canonical_issuer_spk state))) ls = Ok os /\
    Forall2 (fun lane o => exists s, IssuerState_initial terms lane = Ok s /\
        o = mkTxOut value (canonical_issuer_spk s)) ls os) as HM.
  { induction 1 as [|l ls Hl _ (os & E & F)]; [by exists []|]. simpl.
    rewrite (proj2 (IssuerState_initial_Ok terms l _) (conj Ht (conj Hl eq_refl))). res_cbn.
    rewrite E. res_cbn. eexists. split; [done|]. constructor; [|done]. eexists. split; [|done].
    by apply IssuerState_initial_Ok. }
  destruct (HM (seqZ 0 (materialized_lanes terms))) as (os & -> & F).
  { apply Forall_forall. intros l Hl%list_elem_of_In%elem_of_seqZ. lia. }
  res_cbn. eexists. split; [done|]. done.
Qed.

Lemma expected_attempts_bounds tp :
  0 <= tp -> (expected_attempts tp = 256 ^ tp <-> tp < 8) /\ is_u64 (expected_attempts tp).
Proof.
  intros Ht. unfold expected_attempts, fits. change 256 with (2 ^ 8).
  rewrite <- Z.pow_mul_r by lia. pose proof (Z.pow_pos_nonneg 2 (8 * tp) ltac:(lia) ltac:(lia)).
  destruct (decide (tp < 8)).
  - assert (2 ^ (8 * tp) < 2 ^ 64) by (apply Z.pow_lt_mono_r; lia). lia.
  - assert (2 ^ 64 <= 2 ^ (8 * tp)) by (apply Z.pow_le_mono_r; lia). lia.
Qed.
End verified.
