(* ===== verification/Concrete.v ===== *)
(** * A computable instance of the library interfaces

    [BitcoinLaws] and [ScriptMachineLaws] are hypotheses of the development.
    This file instantiates both interfaces with small functions that evaluate,
    so that every theorem stated against them can be applied to concrete data
    (and the hypotheses are seen to be consistent).  The functions are not
    models of the crates: they only have the documented properties. *)

From S2P Require Import Prelude Bitcoin IssuanceTerms IssuerState Pow IssuerScript ScriptMachine.
From Stdlib Require Import ZArith Lia.
Local Open Scope Z_scope.

(** A 32-byte checksum in the place of SHA-256. *)
Definition toy_sha (b : bytes) : bytes :=
  let c := foldl (fun acc x => (acc * 31 + b2z x + 1) mod 65521) 17 b in
  (fun i => z2b (c / (i + 1))) <$> seqZ 0 32.

Definition toy_xonly (k : bytes) : bool :=
  (length k =? 32)%nat && negb (bool_decide (head k = Some xff)).

Definition toy_output_key (leaves : list (nat * bytes)) (k : bytes) : bytes :=
  x02 :: take 31 (toy_sha (concat (snd <$> leaves) ++ k)).

(** A plain length-prefixed transaction encoding and its parser. *)
Definition ser_bytes (b : bytes) : bytes := le_bytes 2 (Z.of_nat (length b)) ++ b.
Definition ser_list {A} (f : A -> bytes) (l : list A) : bytes :=
  le_bytes 2 (Z.of_nat (length l)) ++ concat (f <$> l).
Definition ser_in (i : TxIn) : bytes :=
  ser_bytes (op_txid (txi_previous_output i)) ++ le_bytes 4 (op_vout (txi_previous_output i)) ++
  ser_bytes (txi_script_sig i) ++ le_bytes 4 (txi_sequence i) ++ ser_list ser_bytes (txi_witness i).
Definition ser_out (o : TxOut) : bytes := le_bytes 8 (txo_value o) ++ ser_bytes (txo_script_pubkey o).
Definition toy_serialize (t : Transaction) : bytes :=
  le_bytes 4 (tx_version t) ++ le_bytes 4 (tx_lock_time t) ++
  ser_list ser_in (tx_input t) ++ ser_list ser_out (tx_output t).

Definition parser (A : Type) : Type := bytes -> option (A * bytes).
Definition p_int (n : nat) : parser Z := fun b =>
  if (length b <? n)%nat then None else Some (from_le_bytes (take n b), drop n b).
Definition p_bytes : parser bytes := fun b =>
  '(n, r) ← p_int 2 b;
  if (length r <? Z.to_nat n)%nat then None else Some (take (Z.to_nat n) r, drop (Z.to_nat n) r).
Fixpoint p_times {A} (f : parser A) (n : nat) : parser (list A) := fun b =>
  match n with
  | O => Some ([], b)
  | S m => '(a, r) ← f b; '(l, r') ← p_times f m r; Some (a :: l, r')
  end.
Definition p_list {A} (f : parser A) : parser (list A) := fun b =>
  '(n, r) ← p_int 2 b; p_times f (Z.to_nat n) r.
Definition p_in : parser TxIn := fun b =>
  '(txid, b) ← p_bytes b; '(vout, b) ← p_int 4 b; '(sig, b) ← p_bytes b;
  '(sq, b) ← p_int 4 b; '(w, b) ← p_list p_bytes b;
  Some (mkTxIn (mkOutPoint txid vout) sig sq w, b).
Definition p_out : parser TxOut := fun b =>
  '(v, b) ← p_int 8 b; '(s, b) ← p_bytes b; Some (mkTxOut v s, b).
Definition toy_deserialize (b : bytes) : option Transaction :=
  '(v, b) ← p_int 4 b; '(l, b) ← p_int 4 b; '(i, b) ← p_list p_in b; '(o, b) ← p_list p_out b;
  if bool_decide (b = []) then Some (mkTransaction v l i o) else None.

#[export] Instance toy_lib : BitcoinLib := {|
  sha256 := toy_sha;
  hex_decode s := Some (ascii_bytes s);
  xonly_valid := toy_xonly;
  schnorr_sig_valid s := (length s =? 64)%nat;
  verify_schnorr sig msg key := bool_decide (sig = msg ++ key);
  TaprootSpendInfo := list (nat * bytes) * bytes;
  taproot_finalize leaves k := if toy_xonly k then Some (leaves, k) else None;
  si_output_key si := toy_output_key si.1 si.2;
  si_control_block si s :=
    if bool_decide (s ∈ snd <$> si.1) then Some (xc0 :: toy_sha s ++ toy_output_key si.1 si.2)
    else None;
  ControlBlock := bytes;
  control_decode b := if bool_decide (b = []) then None else Some b;
  verify_taproot_commitment c key s := bool_decide (c = xc0 :: toy_sha s ++ key);
  compute_txid t := toy_sha (toy_serialize (strip_witness t));
  tx_serialize := toy_serialize;
  tx_deserialize := toy_deserialize;
  txout_serialize o := le_bytes 8 (txo_value o) ++ txo_script_pubkey o;
  key_spend_sighash t p := Some (toy_sha (toy_serialize (strip_witness t)));
  script_spend_sighash t p s := Some (toy_sha (s ++ toy_serialize (strip_witness t)));
  push_slice d := z2b (Z.of_nat (length d)) :: d;
  push_int n := x04 :: le_bytes 4 n;
|}.

#[global] Arguments toy_sha : simpl never.

Lemma length_toy_sha b : length (toy_sha b) = 32%nat.
Proof. unfold toy_sha. by rewrite length_fmap, length_seqZ. Qed.

Lemma toy_output_key_valid leaves k : toy_xonly (toy_output_key leaves k) = true.
Proof.
  unfold toy_xonly, toy_output_key. rewrite length_cons, length_take, length_toy_sha. done.
Qed.

Lemma strip_witness_idem t : strip_witness (strip_witness t) = strip_witness t.
Proof.
  unfold strip_witness. simpl. f_equal. rewrite <- list_fmap_compose. by apply list_fmap_ext.
Qed.

#[export] Instance toy_laws : BitcoinLaws toy_lib.
Proof.
  constructor; simpl.
  - apply length_toy_sha.
  - intros k [Hk _]%andb_true_iff. by apply Nat.eqb_eq.
  - done.
  - intros s k ->. eauto.
  - intros a b k ->. eauto.
  - intros leaves k si Hf. case_match; simplify_eq. apply toy_output_key_valid.
  - intros leaves k si d s Hf Hs. case_match; simplify_eq/=.
    rewrite bool_decide_true by (apply list_elem_of_fmap; by exists (d, s)).
    eexists _, _. split; [done|]. split; [done|]. by apply bool_decide_eq_true.
  - done.
  - intros t. by rewrite strip_witness_idem.
  - intros t p. by rewrite strip_witness_idem.
  - intros t p s. by rewrite strip_witness_idem.
Qed.

#[export] Instance release_profile : BuildProfile := false.

(** ** An interpreter for the opcodes of the issuer program *)

Definition pop_push (n : nat) (script : bytes) (st : list bytes) : option (bytes * list bytes) :=
  if bool_decide (length script < n)%nat || bool_decide (1000 <= length st)%nat then None
  else Some (drop n script, take n script :: st).

(** One instruction: the rest of the script and the new stack. *)
Definition exec_op (op : byte) (r : bytes) (st : list bytes) : option (bytes * list bytes) :=
  let n := b2z op in
  if n =? 0 then pop_push 0 r st
  else if n <=? 75 then pop_push (Z.to_nat n) r st
  else if n =? 76 then (l ← head r; pop_push (Z.to_nat (b2z l)) (tail r) st)
  else if n =? 77 then pop_push (Z.to_nat (from_le_bytes (take 2 r))) (drop 2 r) st
  else if n =? 79 then Some (r, [x81] :: st)
  else if (81 <=? n) && (n <=? 96) then Some (r, [z2b (n - 80)] :: st)
  else match op, st with
  | x79, [k] :: st' => x ← st' !! Z.to_nat (b2z k); Some (r, x :: st')
  | x7e, b :: a :: st' =>
      if bool_decide (length a + length b <= 520)%nat then Some (r, (a ++ b) :: st') else None
  | xa8, a :: st' => Some (r, toy_sha a :: st')
  | x87, b :: a :: st' => Some (r, script_bool (bool_decide (a = b)) :: st')
  | x69, a :: st' => if cast_to_bool a then Some (r, st') else None
  | x91, a :: st' => Some (r, script_bool (negb (cast_to_bool a)) :: st')
  | x75, _ :: st' => Some (r, st')
  | _, _ => None
  end.

Fixpoint exec (fuel : nat) (script : bytes) (st : list bytes) : option (list bytes) :=
  match fuel, script with
  | _, [] => Some st
  | O, _ => None
  | S f, op :: r => '(r', st') ← exec_op op r st; exec f r' st'
  end.

#[export] Instance toy_machine : ScriptMachine := {|
  run script st := exec (length script) script st;
  script_accepts script st :=
    (length st <=? 1000)%nat && forallb (fun x => length x <=? 520)%nat st
    && match exec (length script) script st with Some [x] => cast_to_bool x | _ => false end;
|}.

Lemma pop_push_shorter n r st r' st' :
  pop_push n r st = Some (r', st') -> (length r' <= length r)%nat.
Proof. unfold pop_push. intros. case_match; simplify_eq. rewrite length_drop. lia. Qed.

Lemma exec_op_shorter op r st r' st' :
  exec_op op r st = Some (r', st') -> (length r' <= length r)%nat.
Proof.
  unfold exec_op. intros H. case_match; [by eapply pop_push_shorter|].
  case_match; [by eapply pop_push_shorter|].
  case_match.
  { destruct r as [|l r]; [done|]. apply pop_push_shorter in H. simpl in *. lia. }
  case_match; [apply pop_push_shorter in H; rewrite length_drop in H; lia|].
  case_match; [by simplify_eq|]. case_match; [by simplify_eq|].
  repeat (case_match; try done); simplify_option_eq; done.
Qed.

Lemma exec_fuel f script st :
  (length script <= f)%nat -> exec f script st = exec (length script) script st.
Proof.
  revert f st. induction script as [script IH] using (induction_ltof1 _ length).
  intros f st Hf. destruct script as [|op r]; [by destruct f|].
  destruct f as [|f]; simpl in *; [lia|].
  destruct (exec_op op r st) as [[r' st']|] eqn:E; simpl; [|done].
  apply exec_op_shorter in E.
  rewrite (IH r'), (IH r' ltac:(unfold ltof; simpl; lia) (length r)); unfold ltof; simpl; lia || done.
Qed.

Lemma run_cons op r st :
  run (op :: r) st = '(r', st') ← exec_op op r st; run r' st'.
Proof.
  unfold run, toy_machine. simpl.
  destruct (exec_op op r st) as [[r' st']|] eqn:E; simpl; [|done].
  apply exec_fuel. by eapply exec_op_shorter.
Qed.

Lemma pop_push_app n d r st :
  length d = n -> (length st < 1000)%nat -> pop_push n (d ++ r) st = Some (r, d :: st).
Proof.
  intros <- Hs. unfold pop_push. rewrite !bool_decide_false by (rewrite ?length_app; lia). simpl.
  by rewrite drop_app_length, take_app_length.
Qed.

Lemma exec_op_direct n r st : 1 <= n <= 75 -> exec_op (z2b n) r st = pop_push (Z.to_nat n) r st.
Proof.
  intros Hn. unfold exec_op. rewrite b2z_z2b_u8 by (unfold fits; lia).
  destruct (Z.eqb_spec n 0); [lia|]. by destruct (Z.leb_spec n 75); [|lia].
Qed.

Lemma exec_op_num n r st : 1 <= n <= 16 -> exec_op (z2b (80 + n)) r st = Some (r, [z2b n] :: st).
Proof.
  intros Hn. unfold exec_op. rewrite b2z_z2b_u8 by (unfold fits; lia).
  repeat match goal with
  | |- context [?a =? ?b] => destruct (Z.eqb_spec a b); [lia|]
  | |- context [80 + n <=? 75] => destruct (Z.leb_spec (80 + n) 75); [lia|]
  end.
  destruct (Z.leb_spec 81 (80 + n)); [|lia]. destruct (Z.leb_spec (80 + n) 96); [|lia]. simpl.
  by replace (80 + n - 80) with n by lia.
Qed.

#[export] Instance toy_machine_laws : ScriptMachineLaws toy_lib toy_machine.
Proof.
  constructor.
  - done.
  - intros r st Hs. rewrite run_cons. unfold exec_op. simpl. unfold pop_push.
    rewrite !bool_decide_false by (simpl; lia). simpl. by rewrite drop_0.
  - intros n d r st Hn Hd Hs _ _. rewrite run_cons, exec_op_direct by done.
    by rewrite pop_push_app by lia.
  - intros n d r st Hn Hd Hs. rewrite run_cons. unfold exec_op. simpl.
    rewrite b2z_z2b_u8 by (unfold fits; lia). by rewrite pop_push_app by lia.
  - intros n d r st Hn Hd Hs. rewrite run_cons. unfold exec_op.
    change (b2z x4d) with 77. cbn [Z.eqb Z.leb Z.compare Pos.compare Pos.compare_cont Pos.eqb].
    rewrite take_app_length', drop_app_length' by (by rewrite length_le_bytes).
    rewrite from_le_le_bytes by (unfold fits; simpl; lia). by rewrite pop_push_app by lia.
  - intros r st Hs. by rewrite run_cons.
  - intros n r st Hn Hs. by rewrite run_cons, exec_op_num.
  - intros n r st x Hn Hs Hx. rewrite run_cons. unfold exec_op. simpl.
    rewrite b2z_z2b_u8 by (unfold fits; lia). by rewrite Hx.
  - intros r a b st. rewrite run_cons. unfold exec_op. simpl. by case_bool_decide.
  - intros r a st. by rewrite run_cons.
  - intros r a b st. by rewrite run_cons.
  - intros r a st. rewrite run_cons. unfold exec_op. simpl. by destruct (cast_to_bool a).
  - intros r b st. rewrite run_cons. unfold exec_op. simpl. by destruct b.
  - intros r a st. by rewrite run_cons.
  - intros script st. unfold script_accepts, run, toy_machine. rewrite !andb_true_iff, Nat.leb_le, forallb_forall.
    rewrite List.Forall_forall. setoid_rewrite Nat.leb_le. split.
    + intros [[H1 H2] H3]. split_and!; [done|done|]. destruct (exec _ _ _) as [[|x [|]]|]; try done. eauto.
    + intros (H1 & H2 & x & -> & Hx). auto.
Qed.
