(* ===== verification/IssuanceProperties.v ===== *)
(** * What the issuance crate guarantees

    The properties of terms.rs, state.rs, pow.rs, script.rs and verify.rs,
    each followed by its application to concrete data. *)

From Stdlib Require Import ZArith Lia.
From S2P Require Import Prelude Bitcoin IssuanceTerms IssuerState Pow IssuerScript ScriptMachine MintVerify Discover Concrete.
From stdpp Require Import list.
Local Open Scope Z_scope.

(** ** Sample data (the fixtures of the Rust tests, on the concrete library) *)

Definition sample_terms : IssuanceTerms :=
  mkIssuanceTerms (replicate 32 x42) 1 4 RecursiveIssuer 1 (replicate 32 x7a)
    (ascii_bytes "catomicals demo item").
Definition sample_lanes : IssuanceTerms :=
  mkIssuanceTerms (replicate 32 x42) 1 11 ShardedLanes 3 (replicate 32 x7a) [].
Definition sample_owner : bytes := x03 :: replicate 31 x05.

Definition sample_state (seq : Z) : IssuerState :=
  mkIssuerState (terms_hash sample_terms) 0 seq (4 - seq) 1.
Definition sample_ic (seq : Z) : bytes :=
  item_commitment (terms_hash sample_terms) 0 seq sample_owner (ascii_bytes "hello world").
Definition sample_nonce_search (seq : Z) : Z :=
  default 0 (find_nonce (H0 := release_profile) 20000 (terms_hash sample_terms) 0 seq (sample_ic seq) 1 0 ≫= result_ok).
Definition sample_nonce : Z := Eval vm_compute in sample_nonce_search 0.
Definition sample_witness : MintWitness := Eval vm_compute in
  mkMintWitness sample_nonce (sample_ic 0)
    (default [] (result_ok (witness_hash_tail (sample_state 0) (sample_ic 0) sample_nonce)))
    sample_owner (ascii_bytes "hello world").
Definition sample_outpoint : OutPoint := mkOutPoint (replicate 32 x11) 0.
Definition sample_utxo (seq : Z) : TxOut := mkTxOut 100000 (canonical_issuer_spk (sample_state seq)).
Definition sample_control (seq : Z) : bytes :=
  xc0 :: toy_sha (issuer_script (sample_state seq)) ++ issuer_output_key (sample_state seq).
Definition sample_successor : option TxOut :=
  Some (mkTxOut 96000 (canonical_issuer_spk (sample_state 1))).

Definition sample_mint : Transaction := Eval vm_compute in
  default (mkTransaction 0 0 [] [])
    (result_ok (build_mint_tx sample_outpoint (sample_utxo 0) (sample_state 0) sample_witness
                  1000 sample_successor (sample_control 0))).

(** ** Mint verification *)

(** C1: the wallet's mint verifier accepts a transaction with result [v] exactly when
    the declarative mint policy holds of it: the revealed leaf is the canonical script of
    a well-formed state committed by the spent output, the state belongs to the terms and
    has supply, the nonce solves the challenge, the item commitment is the one of the slot,
    outputs are one item and (unless exhausted) one successor, and the input pays the
    outputs, as the build adds them up, and a positive fee.  A total below 2^64 is added up
    exactly; above, a build with overflow checks accepts nothing and a build without them
    compares the total modulo 2^64. *)
Theorem verify_mint_decides_policy {B : BitcoinLib} {BL : BitcoinLaws B} {P : BuildProfile}
    tx op utxo terms v :
  Forall TxOut_wf (tx_output tx) ->
  (verify_mint tx op utxo terms = Ok v <-> mint_policy tx op utxo terms v) /\
  (output_total tx < 2 ^ 64 -> mint_policy tx op utxo terms v ->
   output_total tx + vm_fee v = txo_value utxo /\ 0 < vm_fee v).
Proof.
  intros Hw. split; [by apply verify_mint_policy|]. intros Ht HP. apply value_conserved_exact; [done|done|]. apply HP.
Qed.

Definition sample_verified : VerifiedMint := Eval vm_compute in
  match verify_mint sample_mint sample_outpoint (sample_utxo 0) sample_terms with
  | Ok v => v
  | Err _ => mkVerifiedMint 0 (sample_state 0) sample_witness 0 TxOut_NULL None None 0
  end.

Lemma verify_mint_decides_policy_witness :
  mint_policy (H0 := release_profile) sample_mint sample_outpoint (sample_utxo 0) sample_terms sample_verified /\
  output_total sample_mint + vm_fee sample_verified = 100000.
Proof.
  destruct (verify_mint_decides_policy (B := toy_lib) (P := release_profile) sample_mint sample_outpoint (sample_utxo 0)
    sample_terms sample_verified) as [[Hp _] Hv]; [by apply (bool_decide_unpack _); vm_compute|].
  assert (mint_policy (H0 := release_profile) sample_mint sample_outpoint (sample_utxo 0) sample_terms sample_verified) as HP
    by (apply Hp; vm_compute; reflexivity).
  split; [exact HP|]. by apply Hv; [vm_compute|].
Defined.

(** C5: executed on a mint witness, the issuer tapscript accepts exactly when the digest
    meets the committed target, the revealed tail is the digest's tail, the committed
    remaining supply is not zero, and owner and payload fit a stack element of 520 bytes. *)
Theorem issuer_script_gate {B : BitcoinLib} {BL : BitcoinLaws B} {M : ScriptMachine}
    {ML : ScriptMachineLaws B M} s nonce ic tail owner payload :
  IssuerState_wf s -> length ic = 32%nat ->
  let d := pow_hash (is_terms_hash s) (is_lane s) (is_seq s) ic nonce in
  script_accepts (issuer_script s) (mint_stack nonce ic tail owner payload) = true <->
  meets_target d (is_target_prefix s) = true /\ hash_tail d (is_target_prefix s) = Ok tail /\
  is_remaining s <> 0 /\ (length owner <= 520)%nat /\ (length payload <= 520)%nat.
Proof. intros W Hic d. by apply issuer_script_accepts. Qed.

Lemma issuer_script_gate_witness :
  script_accepts (issuer_script (sample_state 0))
    (mint_stack sample_nonce (sample_ic 0) (mw_hash_tail sample_witness) sample_owner []) = true.
Proof.
  apply (issuer_script_gate (B := toy_lib) (M := toy_machine)).
  - by apply (bool_decide_unpack _); vm_compute.
  - vm_compute. reflexivity.
  - split_and!; [vm_compute; reflexivity|vm_compute; reflexivity|by vm_compute|vm_compute; lia|vm_compute; lia].
Defined.

(** C33: the wallet's verifier and the consensus gate agree up to the size of the payload:
    the revealed leaf of a mint the wallet verifies accepts the witness arguments of the
    issuer input exactly when the payload fits a stack element of 520 bytes.  (The verifier
    itself has no such limit.) *)
Theorem verified_mint_passes_gate {B : BitcoinLib} {BL : BitcoinLaws B} {P : BuildProfile}
    {M : ScriptMachine} {ML : ScriptMachineLaws B M} tx op utxo terms v :
  verify_mint tx op utxo terms = Ok v ->
  exists input cb, tx_input tx !! vm_issuer_input_index v = Some input /\
    txi_previous_output input = op /\
    let args := take 5 (txi_witness input) in
    txi_witness input = args ++ [issuer_script (vm_issuer_state v); cb] /\
    (script_accepts (issuer_script (vm_issuer_state v)) (reverse args) = true <->
     (length (mw_payload (vm_witness v)) <= 520)%nat).
Proof.
  intros Hv. apply verify_mint_stages in Hv as (Hs & Ht & Ho & Hp1 & Hp2 & Hi).
  destruct Hs as (W & _ & Hpos & input & cb & c & Hin & _ & Hw & _ & _).
  apply position_Some in Hpos as [(i' & Hi' & Hop%bool_decide_eq_true) _].
  exists input, cb. split; [done|]. split; [by simplify_eq|]. rewrite Hw. split; [done|].
  cbn [take app reverse].
  change (reverse _) with (mint_stack (mw_nonce (vm_witness v)) (mw_item_commitment (vm_witness v))
    (mw_hash_tail (vm_witness v)) (mw_owner_key (vm_witness v)) (mw_payload (vm_witness v))).
  rewrite issuer_script_accepts; [|done|rewrite Hi; apply sha256_length].
  destruct Ht as (_ & _ & _ & Hz). apply xonly_length in Ho. split; [tauto|]. intros Hl. split_and!; try done. lia.
Qed.

Lemma verified_mint_passes_gate_witness :
  exists input cb, tx_input sample_mint !! 0%nat = Some input /\
    txi_previous_output input = sample_outpoint /\
    let args := take 5 (txi_witness input) in
    txi_witness input = args ++ [issuer_script (vm_issuer_state sample_verified); cb] /\
    script_accepts (issuer_script (vm_issuer_state sample_verified)) (reverse args) = true.
Proof.
  destruct (verified_mint_passes_gate (B := toy_lib) (P := release_profile) (M := toy_machine)
    sample_mint sample_outpoint (sample_utxo 0) sample_terms sample_verified) as (input & cb & H1 & H2 & H3 & H4);
    [vm_compute; reflexivity|].
  exists input, cb. split; [exact H1|]. split; [exact H2|]. split; [exact H3|].
  apply H4. vm_compute. lia.
Defined.

(** A verified mint whose owner key is not the successor issuer's output key has no
    outputs besides its item and its successor: the outputs are these two, in some order,
    or the item alone when the lane is exhausted. *)
Theorem verified_mint_outputs_exact {B : BitcoinLib} {BL : BitcoinLaws B} {P : BuildProfile}
    tx op utxo terms v :
  verify_mint tx op utxo terms = Ok v ->
  (forall next, vm_successor_state v = Some next ->
     mw_owner_key (vm_witness v) <> issuer_output_key next) ->
  match vm_successor_state v with
  | None => tx_output tx = [vm_item_output v]
  | Some next => exists o, txo_script_pubkey o = canonical_issuer_spk next /\
      (tx_output tx = [vm_item_output v; o] \/ tx_output tx = [o; vm_item_output v])
  end.
Proof.
  intros Hv Hne. apply verify_mint_outputs in Hv as (Hu & Hi & _ & Hs).
  destruct (vm_successor_state v) as [next|]; destruct Hs as [Hl Hs].
  - destruct Hs as (j & _ & (o & Ho & Hos) & _). specialize (Hne next eq_refl).
    destruct Hu as [(it & Hit & His) _]. assert (it = vm_item_output v) by congruence. subst it.
    exists o. split; [done|].
    destruct (tx_output tx) as [|a [|b [|]]]; try done.
    assert (o <> vm_item_output v) as Hno.
    { intros ->. rewrite Hos in His. unfold item_owner_script, canonical_issuer_spk, p2tr_output_script in His.
      congruence. }
    destruct (vm_item_output_index v) as [|[|]], j as [|[|]]; simplify_eq/=; eauto.
  - destruct (tx_output tx) as [|a [|]]; try done.
    destruct (vm_item_output_index v); by simplify_eq/=.
Qed.

Lemma verified_mint_outputs_exact_witness :
  exists o, txo_script_pubkey o = canonical_issuer_spk (sample_state 1) /\
    (tx_output sample_mint = [vm_item_output sample_verified; o] \/
     tx_output sample_mint = [o; vm_item_output sample_verified]).
Proof.
  assert (vm_successor_state sample_verified = Some (sample_state 1)) as Hs by (vm_compute; reflexivity).
  pose proof (verified_mint_outputs_exact (B := toy_lib) (P := release_profile)
           sample_mint sample_outpoint (sample_utxo 0) sample_terms sample_verified) as H.
  rewrite Hs in H. apply H.
  - vm_compute. reflexivity.
  - intros next [= <-]. vm_compute. discriminate.
Defined.

(** C40: the value check of the verifier, on every input: with overflow checks it panics
    on totals of 2^64 and more; without them the total is reduced modulo 2^64, so that
    outputs worth more than the input are accepted when their sum wraps. *)
Theorem verify_value_behaviour {B : BitcoinLib} {P : BuildProfile} tx utxo :
  Forall TxOut_wf (tx_output tx) ->
  let total := output_total tx in
  let seen := total mod 2 ^ 64 in
  verify_value tx utxo =
    if overflow_checks && negb (bool_decide (total < 2 ^ 64)) then Err Panic
    else if txo_value utxo <? seen then Err (Fail (ValueNotConserved (txo_value utxo) seen))
    else if txo_value utxo - seen =? 0 then Err (Fail (NonPositiveFee 0))
    else Ok (txo_value utxo - seen).
Proof. apply verify_value_total. Qed.

Definition wrapping_outputs : Transaction :=
  mkTransaction 2 0 [] [mkTxOut (2 ^ 63) []; mkTxOut (2 ^ 63 + 1) []].

Lemma verify_value_behaviour_witness :
  verify_value (H0 := release_profile) wrapping_outputs (mkTxOut 10 []) = Ok 9.
Proof.
  rewrite (verify_value_behaviour (P := release_profile)); [vm_compute; reflexivity|].
  apply (bool_decide_unpack _). vm_compute. done.
Defined.

(** The builder meets the verifier: for a matching state, witness and successor output
    and a total below the issuer's value, [build_mint_tx] returns a transaction that
    [verify_mint] accepts, recovering the same state and witness, the item at output 0 and
    the exact fee. *)
Theorem built_mint_verifies {B : BitcoinLib} {BL : BitcoinLaws B} {P : BuildProfile}
    op utxo state mw item_value succ cb c terms :
  IssuerState_wf state -> txo_script_pubkey utxo = canonical_issuer_spk state ->
  control_decode cb = Some c ->
  verify_taproot_commitment c (issuer_output_key state) (issuer_script state) = true ->
  check_terms state terms = Ok tt -> verify_pow_and_item state mw = Ok tt ->
  is_u64 (mw_nonce mw) -> xonly_valid (mw_owner_key mw) = true ->
  successor_utxo_ok state (mw_owner_key mw) succ ->
  is_u64 item_value -> is_u64 (txo_value utxo) ->
  sumZ (txo_value <$> mint_outputs mw item_value succ) < txo_value utxo ->
  exists tx v, build_mint_tx op utxo state mw item_value succ cb = Ok tx /\
    verify_mint tx op utxo terms = Ok v /\ vm_issuer_state v = state /\ vm_witness v = mw /\
    vm_item_output_index v = 0%nat /\
    vm_fee v = txo_value utxo - sumZ (txo_value <$> mint_outputs mw item_value succ).
Proof. apply build_then_verify. Qed.

Lemma built_mint_verifies_witness :
  exists tx v,
    build_mint_tx sample_outpoint (sample_utxo 0) (sample_state 0) sample_witness 1000
      sample_successor (sample_control 0) = Ok tx /\
    verify_mint tx sample_outpoint (sample_utxo 0) sample_terms = Ok v /\
    vm_issuer_state v = sample_state 0 /\ vm_witness v = sample_witness /\
    vm_item_output_index v = 0%nat /\
    vm_fee v = 100000 - sumZ (txo_value <$> mint_outputs sample_witness 1000 sample_successor).
Proof.
  destruct (control_decode (BitcoinLib := toy_lib) (sample_control 0)) as [c|] eqn:Ec; [|exfalso; vm_compute in Ec; discriminate].
  apply (built_mint_verifies (B := toy_lib) (P := release_profile) sample_outpoint (sample_utxo 0)
    (sample_state 0) sample_witness 1000 sample_successor (sample_control 0) c sample_terms).
  - by apply (bool_decide_unpack _); vm_compute.
  - reflexivity.
  - exact Ec.
  - vm_compute in Ec. injection Ec as <-. vm_compute. reflexivity.
  - vm_compute. reflexivity.
  - vm_compute. reflexivity.
  - by apply (bool_decide_unpack _); vm_compute.
  - vm_compute. reflexivity.
  - assert (successor (sample_state 0) = Ok (Some (sample_state 1))) as Hs by (vm_compute; reflexivity).
    unfold successor_utxo_ok. rewrite Hs. eexists. split; [reflexivity|].
    split; [apply (bool_decide_unpack _); vm_compute; exact I|]. split; [reflexivity|]. vm_compute. discriminate.
  - by apply (bool_decide_unpack _); vm_compute.
  - by apply (bool_decide_unpack _); vm_compute.
  - vm_compute. reflexivity.
Defined.

(** ** The issuer leaf *)

(** [parse_issuer_script] and [issuer_script] are inverse: the parser returns state [s]
    on exactly one byte string, the canonical script of [s], and only for states whose
    fields are in range. *)
Theorem parse_issuer_script_iff b s :
  parse_issuer_script b = Ok (Some s) <-> IssuerState_wf s /\ b = issuer_script s.
Proof.
  split.
  - intros [-> W]%parse_issuer_script_sound. done.
  - intros [W ->]. by apply parse_issuer_script_complete.
Qed.

(** The parser is not total: on every 51-byte script whose first byte is 0x32 its
    second read is past the end and it panics (instead of returning [None]), and so does
    [discover] on a transaction that reveals such a script. *)
Theorem parse_issuer_script_panics {B : BitcoinLib} d op sig sq pre cb ver lock outs :
  length d = 50%nat ->
  parse_issuer_script (x32 :: d) = Err Panic /\
  discover (mkTransaction ver lock [mkTxIn op sig sq (pre ++ [x32 :: d; cb])] outs) = Err Panic.
Proof.
  intros Hd. assert (parse_issuer_script (x32 :: d) = Err Panic) as HP.
  { unfold parse_issuer_script. rewrite length_cons, Hd. cbn [Nat.ltb Nat.leb Nat.add].
    assert (forall n, parse_pushes (S (S n)) (x32 :: d) 0 = Err Panic) as ->; [|done].
    intros n. rewrite (parse_pushes_step (S n) (x32 :: d) 0 x32 d []).
    - simpl parse_pushes. rewrite Hd. rewrite lookup_ge_None_2; [done|]. simpl. lia.
    - by rewrite app_nil_r.
    - rewrite Hd. reflexivity.
    - lia. }
  split; [done|]. unfold discover. cbn [tx_input discover_inputs txi_witness].
  rewrite length_app. simpl length. destruct (Nat.ltb_spec (length pre + 2) 2); [lia|].
  rewrite lookup_app_r by lia. replace (length pre + 2 - 2 - length pre)%nat with 0%nat by lia.
  change (default [] ([x32 :: d; cb] !! 0%nat)) with (x32 :: d). by rewrite HP.
Qed.

Lemma parse_issuer_script_panics_witness :
  parse_issuer_script (x32 :: replicate 50 x00) = Err Panic /\
  discover (mkTransaction 2 0 [mkTxIn sample_outpoint [] 0 [x32 :: replicate 50 x00; []]] []) = Err Panic.
Proof.
  apply (parse_issuer_script_panics (B := toy_lib) (replicate 50 x00) sample_outpoint [] 0 [] []).
  reflexivity.
Defined.

(** A verified mint is never missed by the indexer's scan: when [discover] returns, it
    reports the issuer spend with the same outpoint, index and state, and the item output
    among the candidates with the owner's key. *)
Theorem verified_mint_is_discovered {B : BitcoinLib} {BL : BitcoinLaws B} {P : BuildProfile}
    tx op utxo terms v d :
  verify_mint tx op utxo terms = Ok v -> discover tx = Ok d ->
  mkDiscoveredIssuerSpend op (vm_issuer_input_index v) (vm_issuer_state v)
    ∈ td_consumed_issuers d /\
  mkDiscoveredP2trCandidate (vm_item_output_index v) (txo_value (vm_item_output v))
    (mw_owner_key (vm_witness v)) ∈ td_p2tr_candidates d.
Proof. apply verified_mint_discovered. Qed.

Definition sample_discovery : TxDiscovery := Eval vm_compute in
  match discover sample_mint with Ok d => d | Err _ => mkTxDiscovery [] [] [] end.

Lemma verified_mint_is_discovered_witness :
  mkDiscoveredIssuerSpend sample_outpoint 0 (vm_issuer_state sample_verified)
    ∈ td_consumed_issuers sample_discovery /\
  mkDiscoveredP2trCandidate 0 (txo_value (vm_item_output sample_verified))
    (mw_owner_key (vm_witness sample_verified)) ∈ td_p2tr_candidates sample_discovery.
Proof.
  apply (verified_mint_is_discovered (B := toy_lib) (P := release_profile)
           sample_mint sample_outpoint (sample_utxo 0) sample_terms sample_verified).
  - vm_compute. reflexivity.
  - vm_compute. reflexivity.
Defined.

(** ** Supply *)

Section supply.
Context `{BitcoinLib} (terms : IssuanceTerms) (W : IssuanceTerms_wf terms).

(** All mints of the issuance, lane after lane. *)
Definition all_mints (starts : list IssuerState) : list IssuerState :=
  starts ≫= lane_mints (Z.to_nat (it_total_supply terms)).

Lemma lane_mints_initial lane s :
  0 <= lane -> IssuerState_initial terms lane = Ok s ->
  lane_mints (Z.to_nat (it_total_supply terms)) s =
  (fun i => mkIssuerState (terms_hash terms) lane i (lane_supply terms lane - i)
              (it_target_prefix terms)) <$> seqZ 0 (lane_supply terms lane).
Proof.
  intros Hl Hi. pose proof (lane_inv_initial terms lane s W Hl Hi) as Hinv.
  pose proof (lane_supply_bounds terms lane W Hl).
  apply IssuerState_initial_Ok in Hi as (_ & _ & ->).
  rewrite (lane_mints_exact terms lane) by (try done; simpl; lia). done.
Qed.

Lemma all_mints_exact lanes starts :
  Forall (fun l => 0 <= l) lanes ->
  Forall2 (fun lane s => IssuerState_initial terms lane = Ok s) lanes starts ->
  Z.of_nat (length (all_mints starts)) = sumZ (lane_supply terms <$> lanes) /\
  (forall s, s ∈ all_mints starts -> is_lane s ∈ lanes /\ 0 <= is_seq s < lane_supply terms (is_lane s)) /\
  (NoDup lanes -> NoDup ((fun s => (is_lane s, is_seq s)) <$> all_mints starts)).
Proof.
  intros Hp Hf. induction Hf as [|lane s lanes starts Hi Hf IH].
  { split; [done|]. split; [by intros s ?%elem_of_nil|]. constructor. }
  apply Forall_cons_1 in Hp as [Hl Hp]. destruct (IH Hp) as (IH1 & IH2 & IH3). clear IH.
  assert (all_mints (s :: starts) = lane_mints (Z.to_nat (it_total_supply terms)) s ++ all_mints starts) as ->
    by done.
  rewrite (lane_mints_initial lane) by done.
  pose proof (lane_supply_bounds terms lane W Hl). split_and!.
  - rewrite length_app, length_fmap, length_seqZ, fmap_cons.
    rewrite Nat2Z.inj_add, Z2Nat.id, IH1 by lia. done.
  - intros s'. rewrite elem_of_app, list_elem_of_fmap. intros [(i & -> & Hs%elem_of_seqZ)|Hs].
    + simpl. split; [apply elem_of_cons; by left|lia].
    + destruct (IH2 _ Hs) as [Hin ?]. split; [apply elem_of_cons; by right|done].
  - intros [Hn1 Hn2]%NoDup_cons. rewrite fmap_app, <- list_fmap_compose. apply NoDup_app. split_and!.
    + apply NoDup_fmap_2; [intros ?? [=]; done|]. apply NoDup_seqZ.
    + intros p. rewrite !list_elem_of_fmap. intros (i & -> & _) (s' & Heq & Hs').
      simpl in Heq. injection Heq as Heq _. apply Hn1. rewrite Heq. by apply IH2.
    + by apply IH3.
Qed.
End supply.

(** An issuance mints its total supply, no more and no less: with every materialized
    lane opened at its initial state, the mints the lanes admit are [total_supply] many and
    no two of them share a (lane, sequence) slot. *)
Theorem issuance_total_supply {B : BitcoinLib} terms :
  IssuanceTerms_wf terms -> it_target_prefix terms <= 32 ->
  exists starts,
    Forall2 (fun lane s => IssuerState_initial terms lane = Ok s) (lane_list terms) starts /\
    Z.of_nat (length (all_mints terms starts)) = it_total_supply terms /\
    NoDup ((fun s => (is_lane s, is_seq s)) <$> all_mints terms starts).
Proof.
  intros W Ht.
  set (st := fun lane => mkIssuerState (terms_hash terms) lane 0 (lane_supply terms lane) (it_target_prefix terms)).
  assert (Forall2 (fun lane s => IssuerState_initial terms lane = Ok s) (lane_list terms) (st <$> lane_list terms)) as HF.
  { apply Forall2_fmap_r, Forall_Forall2_diag, Forall_forall.
    intros lane Hl%elem_of_seqZ. apply IssuerState_initial_Ok. split; [done|]. split; [lia|done]. }
  exists (st <$> lane_list terms). split; [done|].
  destruct (all_mints_exact terms W (lane_list terms) (st <$> lane_list terms)) as (H1 & _ & H3); [|done|].
  { apply Forall_forall. intros lane Hl%elem_of_seqZ. lia. }
  rewrite H1, lane_supply_partition by done. split; [done|]. apply H3, NoDup_seqZ.
Qed.

Lemma issuance_total_supply_witness :
  exists starts,
    Forall2 (fun lane s => IssuerState_initial sample_lanes lane = Ok s) (lane_list sample_lanes) starts /\
    Z.of_nat (length (all_mints sample_lanes starts)) = 11 /\
    NoDup ((fun s => (is_lane s, is_seq s)) <$> all_mints sample_lanes starts).
Proof.
  apply (issuance_total_supply (B := toy_lib) sample_lanes).
  - by apply (bool_decide_unpack _); vm_compute.
  - by vm_compute.
Defined.

(** Along any sequence of mints of a lane the state stays well-formed and used and
    remaining slots add up to the lane's supply; [successor] never reports an overflow, and
    it ends the chain exactly at the lane's last slot. *)
Theorem mint_chain_invariant {B : BitcoinLib} {BL : BitcoinLaws B} terms lane s0 s :
  IssuanceTerms_wf terms -> 0 <= lane -> IssuerState_initial terms lane = Ok s0 ->
  rtc mint_step s0 s ->
  IssuerState_wf s /\ is_lane s = lane /\ is_terms_hash s = terms_hash terms /\
  is_seq s + is_remaining s = lane_supply terms lane /\
  exists next, successor s = Ok next /\ (next = None <-> lane_supply terms lane <= is_seq s + 1).
Proof.
  intros W Hl Hi Hr. pose proof (lane_inv_initial terms lane s0 W Hl Hi) as I0.
  pose proof (lane_inv_rtc terms lane s0 s I0 Hr) as Is.
  split.
  { clear Is. assert (IssuerState_wf s0) as W0.
    { pose proof (lane_supply_bounds terms lane W Hl). pose proof (materialized_lanes_u8 terms W) as [_ Hm].
      apply IssuerState_initial_Ok in Hi as (H1 & H2 & ->). pose proof W as (_&[? ?]&[? ?]&_).
      unfold IssuerState_wf, fits; cbn. repeat split; try lia. apply sha256_length. }
    clear -Hr W0. induction Hr as [|s1 s2 s3 Hs _ IH]; [done|].
    apply IH. inversion Hs; subst. by eapply successor_wf. }
  pose proof Is as (H1 & H2 & H3 & H4 & H5 & H6). split; [done|]. split; [done|]. split; [done|].
  rewrite (successor_lane terms lane) by done. eexists. split; [done|].
  destruct (Z.leb_spec (is_remaining s) 1); (split; [|done || lia]); intros; [lia|done].
Qed.

Lemma mint_chain_invariant_witness :
  IssuerState_wf (sample_state 1) /\ is_lane (sample_state 1) = 0 /\
  is_terms_hash (sample_state 1) = terms_hash sample_terms /\
  is_seq (sample_state 1) + is_remaining (sample_state 1) = lane_supply sample_terms 0 /\
  exists next, successor (sample_state 1) = Ok next /\
    (next = None <-> lane_supply sample_terms 0 <= is_seq (sample_state 1) + 1).
Proof.
  apply (mint_chain_invariant (B := toy_lib) sample_terms 0 (sample_state 0)).
  - by apply (bool_decide_unpack _); vm_compute.
  - lia.
  - vm_compute. reflexivity.
  - eapply rtc_once. constructor. vm_compute. reflexivity.
Defined.

(** ** Commitments and the nonce search *)

(** A terms hash binds its terms and an item commitment binds its slot, owner and
    payload: equal commitments of well-formed data have equal data, unless two different
    encodings collide under SHA-256. *)
Theorem issuance_commitments_bind {B : BitcoinLib} {BL : BitcoinLaws B} t1 t2 l1 l2 s1 s2 o1 o2 p1 p2 :
  IssuanceTerms_wf t1 -> IssuanceTerms_wf t2 -> is_u8 l1 -> is_u8 l2 -> is_u32 s1 -> is_u32 s2 ->
  xonly_valid o1 = true -> xonly_valid o2 = true ->
  item_commitment (terms_hash t1) l1 s1 o1 p1 = item_commitment (terms_hash t2) l2 s2 o2 p2 ->
  (t1 = t2 /\ l1 = l2 /\ s1 = s2 /\ o1 = o2 /\ p1 = p2) \/
  sha256_collision (IssuanceTerms_canonical_bytes t1) (IssuanceTerms_canonical_bytes t2) \/
  sha256_collision (item_commitment_input (terms_hash t1) l1 s1 o1 p1)
    (item_commitment_input (terms_hash t2) l2 s2 o2 p2).
Proof.
  intros W1 W2 Hl1 Hl2 Hs1 Hs2 Ho1%xonly_length Ho2%xonly_length H.
  apply sha256_inj_or_collision in H as [H|H]; [|by right; right].
  apply item_commitment_input_inj in H as (Ht & -> & -> & -> & ->); try done;
    [|unfold terms_hash; by rewrite !sha256_length|congruence].
  apply sha256_inj_or_collision in Ht as [Ht|Ht]; [|by right; left].
  left. split; [by apply IssuanceTerms_canonical_inj|done].
Qed.

Lemma issuance_commitments_bind_witness :
  (sample_terms = sample_terms /\ 0 = 0 /\ 3 = 3 /\ sample_owner = sample_owner /\ [x01] = [x01]) \/
  sha256_collision (IssuanceTerms_canonical_bytes sample_terms) (IssuanceTerms_canonical_bytes sample_terms) \/
  sha256_collision (item_commitment_input (terms_hash sample_terms) 0 3 sample_owner [x01])
    (item_commitment_input (terms_hash sample_terms) 0 3 sample_owner [x01]).
Proof.
  apply (issuance_commitments_bind (B := toy_lib)); try (by apply (bool_decide_unpack _); vm_compute);
    reflexivity.
Defined.

(** C36: [find_nonce_bounded] terminates within its budget, with the answer: given more
    fuel than [max_attempts] the loop ends, and it returns the least nonce that meets the
    target when one below [max_attempts] does, with the number of hashes tried, and [None]
    when none of them does. *)
Theorem find_nonce_bounded_spec {B : BitcoinLib} fuel th lane seq ic tp max :
  is_u64 max -> max < Z.of_nat fuel ->
  exists r, find_nonce_bounded fuel th lane seq ic tp max = Some r /\
  match r with
  | Some (n, attempts) => 0 <= n < max /\ attempts = n + 1 /\
      nonce_ok th lane seq ic tp n = true /\
      forall m, 0 <= m < n -> nonce_ok th lane seq ic tp m = false
  | None => forall m, 0 <= m < max -> nonce_ok th lane seq ic tp m = false
  end.
Proof.
  intros [Hm Hm'] Hf. destruct (find_nonce_bounded_loop_spec th lane seq ic tp fuel max 0) as (r & Hr & Hspec); [lia..|].
  exists r. split; [exact Hr|]. destruct r as [[n k]|]; [|done]. destruct Hspec as ((H1 & H2 & H3) & H4 & H5). auto.
Qed.

Lemma find_nonce_bounded_spec_witness :
  exists n attempts, find_nonce_bounded 1001 (terms_hash sample_terms) 0 0 (sample_ic 0) 1 1000 = Some (Some (n, attempts)) /\
    attempts = n + 1 /\ nonce_ok (terms_hash sample_terms) 0 0 (sample_ic 0) 1 n = true /\
    forall m, 0 <= m < n -> nonce_ok (terms_hash sample_terms) 0 0 (sample_ic 0) 1 m = false.
Proof.
  destruct (find_nonce_bounded_spec (B := toy_lib) 1001 (terms_hash sample_terms) 0 0 (sample_ic 0) 1 1000)
    as (r & Hr & Hs); [apply (bool_decide_unpack _); vm_compute; exact I|vm_compute; reflexivity|].
  destruct r as [[n k]|]; [|exfalso; vm_compute in Hr; discriminate]. destruct Hs as (_ & H1 & H2 & H3).
  exists n, k. split_and!; [exact Hr|exact H1|exact H2|exact H3].
Defined.
