(* ===== verification/Trading.v ===== *)
(** * Fixed-price trading: data and verifiers (src/crates/trading/src/lib.rs)

    Listings, their commitments and Taproot leaves, the transaction checks,
    and the two verifiers of the crate: the one the agent runs and the one the
    wallet runs, each with the checks in its own order.  [verify_mint] can
    panic, so the verifiers return an [outcome]. *)

From Stdlib Require Import ZArith Lia.
From S2P Require Import Prelude Bitcoin IssuanceTerms IssuerState IssuerScript MintVerify.
From stdpp Require Import list.
Local Open Scope Z_scope.

Definition LISTING_TAG : bytes := ascii_bytes "catomicals/fixed-price-listing/v1" ++ [x00].
Definition BUYER_TAG : bytes := ascii_bytes "catomicals/buyer-ownership/v1" ++ [x00].

Inductive Network := Signet.

Record ItemReceipt := mkItemReceipt {
  ir_network : Network;
  ir_outpoint : OutPoint;
  ir_script_pubkey : bytes;
  ir_item_sat_amount : Z;
  ir_terms_hash : bytes;
  ir_item_id : bytes;
  ir_item_commitment : bytes;
  ir_lane : Z;
  ir_sequence : Z;
}.

Record ListingTerms := mkListingTerms {
  lt_protocol_version : Z;
  lt_network : Network;
  lt_receipt : ItemReceipt;
  lt_seller_key : bytes;
  lt_seller_payout_script : bytes;
  lt_price_sat : Z;
  lt_creator_fee_script : bytes;
  lt_creator_fee_sat : Z;
  lt_cancel_script : bytes;
  lt_expiry_height : Z;
  lt_max_network_fee_sat : Z;
}.

Record IssuanceProof := mkIssuanceProof {
  ip_raw_mint_tx_hex : string;
  ip_issuer_outpoint : OutPoint;
  ip_issuer_utxo : TxOut;
  ip_terms : IssuanceTerms;
}.

Record ListRequest := mkListRequest {
  lr_listing : ListingTerms;
  lr_issuance_proof : IssuanceProof;
  lr_raw_tx_hex : string;
  lr_prevouts : list TxOut;
}.

Record BuyRequest := mkBuyRequest {
  br_listing : ListingTerms;
  br_list_request : ListRequest;
  br_order_outpoint : OutPoint;
  br_buyer_key : bytes;
  br_proposal_expiry_height : Z;
  br_raw_tx_hex : string;
  br_prevouts : list TxOut;
  br_buyer_ownership_signature : bytes;
}.

Record CancelRequest := mkCancelRequest {
  cr_listing : ListingTerms;
  cr_list_request : ListRequest;
  cr_order_outpoint : OutPoint;
  cr_raw_tx_hex : string;
  cr_prevouts : list TxOut;
}.

Inductive TradeSigningRequest :=
| RequestList (r : ListRequest)
| RequestBuy (r : BuyRequest)
| RequestCancel (r : CancelRequest).

Inductive TradePath := PathList | PathBuy | PathCancel.

Record VerifiedTrade := mkVerifiedTrade {
  vt_path : TradePath;
  vt_txid : bytes;
  vt_sighash : bytes;
  vt_input_index : nat;
  vt_spent_order_outpoint : OutPoint;
  vt_fee_sat : Z;
  vt_listing_commitment : bytes;
  vt_transaction : Transaction;
  vt_prevouts : list TxOut;
  vt_seller_key : bytes;
  vt_witness_script : option bytes;
  vt_control_block : option bytes;
}.

Inductive TradeError :=
| UnsupportedVersion | WrongNetwork | InvalidAmount | InvalidRule | InvalidScript
| ReceiptOwnerMismatch | InvalidReceipt | InvalidListingLineage | InvalidRawTransaction
| PartiallySigned | InvalidTransactionHeader | InvalidInputs | InvalidPrevouts
| InvalidOutputs | InvalidFee | Expired | CancelNotMature | InvalidBuyerProof | Taproot
| FinalTransactionMismatch | InvalidSellerSignature | WrongCompetitionOutpoint
| InvalidCandidateState.

#[export] Instance Network_eq_dec : EqDecision Network.
Proof. solve_decision. Defined.
#[export] Instance ItemReceipt_eq_dec : EqDecision ItemReceipt.
Proof. solve_decision. Defined.
#[export] Instance ListingTerms_eq_dec : EqDecision ListingTerms.
Proof. solve_decision. Defined.
#[export] Instance TradePath_eq_dec : EqDecision TradePath.
Proof. solve_decision. Defined.
#[export] Instance TradeError_eq_dec : EqDecision TradeError.
Proof. solve_decision. Defined.
#[export] Instance VerifiedTrade_eq_dec : EqDecision VerifiedTrade.
Proof. solve_decision. Defined.

Definition ItemReceipt_txout (r : ItemReceipt) : TxOut :=
  mkTxOut (ir_item_sat_amount r) (ir_script_pubkey r).

Definition OP_CHECKSIG : byte := xac.
Definition OP_CLTV : byte := xb1.

Definition ListingTerms_validate (l : ListingTerms) : result TradeError unit :=
  let r := lt_receipt l in
  _ ← reject_if (negb (lt_protocol_version l =? 1)) UnsupportedVersion;
  _ ← reject_if (negb (bool_decide (lt_network l = Signet)) || negb (bool_decide (ir_network r = Signet)))
        WrongNetwork;
  _ ← reject_if ((ir_item_sat_amount r =? 0) || (lt_price_sat l =? 0) || (lt_creator_fee_sat l =? 0))
        InvalidAmount;
  _ ← reject_if ((lt_expiry_height l =? 0) || (LOCK_TIME_THRESHOLD <=? lt_expiry_height l)
                 || (lt_max_network_fee_sat l =? 0)) InvalidRule;
  _ ← reject_if (bool_decide (lt_seller_payout_script l = []) || bool_decide (lt_creator_fee_script l = [])
                 || bool_decide (lt_cancel_script l = [])
                 || bool_decide (lt_seller_payout_script l = lt_creator_fee_script l)) InvalidScript;
  reject_if (negb (bool_decide (ir_script_pubkey r = item_owner_script (lt_seller_key l))))
    ReceiptOwnerMismatch.

(** [push_len_prefixed] appends a u64 big-endian length and the bytes. *)
Definition push_len_prefixed (b : bytes) : bytes := len_prefixed_be 8 b.

(** The encoding [canonical_bytes] builds once [validate] has passed. *)
Definition ListingTerms_encoding (l : ListingTerms) : bytes :=
  let r := lt_receipt l in
  LISTING_TAG ++ be_bytes 2 (lt_protocol_version l) ++ (ascii_bytes "signet" ++ [x00]) ++
  op_txid (ir_outpoint r) ++ be_bytes 4 (op_vout (ir_outpoint r)) ++
  push_len_prefixed (ir_script_pubkey r) ++ be_bytes 8 (ir_item_sat_amount r) ++
  ir_terms_hash r ++ ir_item_id r ++ ir_item_commitment r ++ [z2b (ir_lane r)] ++
  be_bytes 4 (ir_sequence r) ++ lt_seller_key l ++ push_len_prefixed (lt_seller_payout_script l) ++
  be_bytes 8 (lt_price_sat l) ++ push_len_prefixed (lt_creator_fee_script l) ++
  be_bytes 8 (lt_creator_fee_sat l) ++ push_len_prefixed (lt_cancel_script l) ++
  be_bytes 4 (lt_expiry_height l) ++ be_bytes 8 (lt_max_network_fee_sat l).

Definition ListingTerms_canonical_bytes (l : ListingTerms) : result TradeError bytes :=
  _ ← ListingTerms_validate l;
  Ok (ListingTerms_encoding l).

Section listing.
Context `{BitcoinLib}.

Definition ListingTerms_commitment (l : ListingTerms) : result TradeError bytes :=
  b ← ListingTerms_canonical_bytes l;
  Ok (sha256 b).

Definition buy_leaf_script (l : ListingTerms) : result TradeError bytes :=
  c ← ListingTerms_commitment l;
  Ok (push_slice c ++ [OP_DROP] ++ push_slice (lt_seller_key l) ++ [OP_CHECKSIG]).

Definition cancel_leaf_script (l : ListingTerms) : result TradeError bytes :=
  c ← ListingTerms_commitment l;
  Ok (push_int (lt_expiry_height l) ++ [OP_CLTV] ++ [OP_DROP] ++ push_slice c ++ [OP_DROP] ++
      push_slice (lt_seller_key l) ++ [OP_CHECKSIG]).

Definition spend_info (l : ListingTerms) : result TradeError TaprootSpendInfo :=
  _ ← ListingTerms_validate l;
  buy ← buy_leaf_script l;
  cancel ← cancel_leaf_script l;
  ok_or (taproot_finalize [(1%nat, buy); (1%nat, cancel)] nums_internal_key) Taproot.

Definition listing_output_script (l : ListingTerms) : result TradeError bytes :=
  si ← spend_info l;
  Ok (p2tr_output_script (si_output_key si)).

Definition order_txout (l : ListingTerms) : result TradeError TxOut :=
  script ← listing_output_script l;
  Ok (mkTxOut (ir_item_sat_amount (lt_receipt l)) script).

Record ListingArtifacts := mkListingArtifacts {
  la_canonical_bytes : bytes;
  la_commitment : bytes;
  la_buy_leaf : bytes;
  la_cancel_leaf : bytes;
  la_listing_output : bytes;
  la_order_txout : TxOut;
}.

Definition ListingArtifacts_new (l : ListingTerms) : result TradeError ListingArtifacts :=
  _ ← ListingTerms_validate l;
  cb ← ListingTerms_canonical_bytes l;
  c ← ListingTerms_commitment l;
  b ← buy_leaf_script l;
  k ← cancel_leaf_script l;
  o ← listing_output_script l;
  t ← order_txout l;
  Ok (mkListingArtifacts cb c b k o t).

Definition decode_transaction (raw_hex : string) : result TradeError Transaction :=
  b ← ok_or (hex_decode raw_hex) InvalidRawTransaction;
  tx ← ok_or (tx_deserialize b) InvalidRawTransaction;
  _ ← reject_if (negb (bool_decide (tx_serialize tx = b))) InvalidRawTransaction;
  Ok tx.

Definition decode_unsigned (raw_hex : string) : result TradeError Transaction :=
  b ← ok_or (hex_decode raw_hex) InvalidRawTransaction;
  tx ← ok_or (tx_deserialize b) InvalidRawTransaction;
  _ ← reject_if (negb (bool_decide (tx_serialize tx = b))) InvalidRawTransaction;
  _ ← reject_if (existsb (fun i => negb (bool_decide (txi_script_sig i = []))
                                   || negb (bool_decide (txi_witness i = []))) (tx_input tx))
        PartiallySigned;
  Ok tx.

Definition buyer_ownership_message (r : BuyRequest) : result TradeError bytes :=
  tx ← decode_unsigned (br_raw_tx_hex r);
  c ← ListingTerms_commitment (br_listing r);
  Ok (sha256 (BUYER_TAG ++ c ++ op_txid (br_order_outpoint r) ++
    be_bytes 4 (op_vout (br_order_outpoint r)) ++ compute_txid tx ++ br_buyer_key r ++
    be_bytes 4 (br_proposal_expiry_height r) ++ be_bytes 8 (Z.of_nat (length (br_prevouts r))) ++
    concat ((fun o => push_len_prefixed (txout_serialize o)) <$> br_prevouts r))).

Definition verify_buyer (r : BuyRequest) : result TradeError unit :=
  let sig := br_buyer_ownership_signature r in
  _ ← reject_if (negb (schnorr_sig_valid sig)) InvalidBuyerProof;
  msg ← buyer_ownership_message r;
  reject_if (negb (verify_schnorr sig msg (br_buyer_key r))) InvalidBuyerProof.

Definition from_verified_mint (mint_tx : Transaction) (verified : VerifiedMint)
    (terms : IssuanceTerms) : result TradeError ItemReceipt :=
  let idx := vm_item_output_index verified in
  let state := vm_issuer_state verified in
  _ ← reject_if (negb (bool_decide (is_terms_hash state = terms_hash terms))
                 || (length (tx_output mint_tx) <=? idx)%nat
                 || negb (bool_decide (tx_output mint_tx !! idx = Some (vm_item_output verified))))
        InvalidReceipt;
  _ ← reject_if (2 ^ 32 <=? Z.of_nat idx) InvalidReceipt;
  Ok {| ir_network := Signet;
        ir_outpoint := mkOutPoint (compute_txid mint_tx) (Z.of_nat idx);
        ir_script_pubkey := txo_script_pubkey (vm_item_output verified);
        ir_item_sat_amount := txo_value (vm_item_output verified);
        ir_terms_hash := is_terms_hash state;
        ir_item_id := it_item_id terms;
        ir_item_commitment := mw_item_commitment (vm_witness verified);
        ir_lane := is_lane state;
        ir_sequence := is_seq state |}.
End listing.

(** ** Transaction checks *)

Definition common_inputs (tx : Transaction) (prevouts : list TxOut) : result TradeError unit :=
  _ ← reject_if ((length (tx_input tx) <? 2)%nat
                 || negb (length (tx_input tx) =? length prevouts)%nat) InvalidPrevouts;
  reject_if (negb (bool_decide (NoDup (txi_previous_output <$> tx_input tx)))) InvalidInputs.

Definition fee (tx : Transaction) (prevouts : list TxOut) (max : Z) : result TradeError Z :=
  let inputs := checked_sum 64 0 (txo_value <$> prevouts) in
  let outputs := checked_sum 64 0 (txo_value <$> tx_output tx) in
  f ← ok_or (i ← inputs; o ← outputs; checked_sub i o) InvalidFee;
  _ ← reject_if ((f =? 0) || (max <? f)) InvalidFee;
  Ok f.

Definition valid_header (tx : Transaction) (zero_locktime : bool) : bool :=
  (tx_version tx =? 2) && (negb zero_locktime || (tx_lock_time tx =? 0)).

Definition item_script (key : bytes) : bytes := item_owner_script key.

(** [tx.output[i]] compared with an expected output; the callers test the
    number of outputs first. *)
Definition output_is (tx : Transaction) (i : nat) (o : TxOut) : bool :=
  bool_decide (tx_output tx !! i = Some o).
Definition output_pays (tx : Transaction) (i : nat) (script : bytes) : bool :=
  bool_decide (txo_script_pubkey <$> tx_output tx !! i = Some script).
Definition output_worth (tx : Transaction) (i : nat) (value : Z) : bool :=
  bool_decide (txo_value <$> tx_output tx !! i = Some value).
Definition first_spends (tx : Transaction) (op : OutPoint) : bool :=
  bool_decide (txi_previous_output <$> tx_input tx !! 0%nat = Some op).

Section checks.
Context `{BitcoinLib} `{BuildProfile}.

Definition verify_issuance_receipt (r : ListRequest) : outcome TradeError unit :=
  let proof := lr_issuance_proof r in
  mint_tx ← try_ (decode_transaction (ip_raw_mint_tx_hex proof));
  verified ← map_err (fun f => match f with Panic => Panic | Fail _ => Fail InvalidReceipt end)
    (verify_mint mint_tx (ip_issuer_outpoint proof) (ip_issuer_utxo proof) (ip_terms proof));
  receipt ← try_ (from_verified_mint mint_tx verified (ip_terms proof));
  try_ (reject_if (negb (bool_decide (receipt = lt_receipt (lr_listing r)))) InvalidReceipt).

Definition list_outputs (tx : Transaction) (l : ListingTerms) : bool :=
  if negb (length (tx_output tx) =? 2)%nat then false
  else output_is tx 0 (default TxOut_NULL (result_ok (order_txout l)))
       && output_pays tx 1 (lt_cancel_script l).

Definition buy_outputs (tx : Transaction) (l : ListingTerms) (buyer : bytes) : bool :=
  let n := length (tx_output tx) in
  if negb ((n =? 3)%nat || (n =? 4)%nat) then false
  else output_is tx 0 (mkTxOut (ir_item_sat_amount (lt_receipt l)) (item_script buyer))
       && output_is tx 1 (mkTxOut (lt_price_sat l) (lt_seller_payout_script l))
       && output_is tx 2 (mkTxOut (lt_creator_fee_sat l) (lt_creator_fee_script l))
       && ((n =? 3)%nat || output_pays tx 3 (item_script buyer)).

Definition cancel_outputs (tx : Transaction) (l : ListingTerms) : bool :=
  let n := length (tx_output tx) in
  if negb ((n =? 1)%nat || (n =? 2)%nat) then false
  else output_is tx 0 (mkTxOut (ir_item_sat_amount (lt_receipt l)) (lt_cancel_script l))
       && ((n =? 1)%nat || output_pays tx 1 (lt_cancel_script l)).

Definition sighash (tx : Transaction) (prevouts : list TxOut) (leaf : option bytes)
    : result TradeError bytes :=
  ok_or (match leaf with
         | Some script => script_spend_sighash tx prevouts script
         | None => key_spend_sighash tx prevouts
         end) Taproot.

Definition verified (path : TradePath) (l : ListingTerms) (tx : Transaction)
    (prevouts : list TxOut) (spent : OutPoint) (fee_sat : Z) : result TradeError VerifiedTrade :=
  script ← match path with
           | PathList => Ok None
           | PathBuy => s ← buy_leaf_script l; Ok (Some s)
           | PathCancel => s ← cancel_leaf_script l; Ok (Some s)
           end;
  control_block ← match script with
                  | Some s => si ← spend_info l; cb ← ok_or (si_control_block si s) Taproot; Ok (Some cb)
                  | None => Ok None
                  end;
  sh ← sighash tx prevouts script;
  c ← ListingTerms_commitment l;
  Ok {| vt_path := path;
        vt_txid := compute_txid tx;
        vt_sighash := sh;
        vt_input_index := 0;
        vt_spent_order_outpoint := spent;
        vt_fee_sat := fee_sat;
        vt_listing_commitment := c;
        vt_transaction := tx;
        vt_prevouts := prevouts;
        vt_seller_key := lt_seller_key l;
        vt_witness_script := script;
        vt_control_block := control_block |}.

(** ** The agent's verifier *)

Definition AgentTradingApi_verify_list (r : ListRequest) (height : Z) : outcome TradeError VerifiedTrade :=
  let l := lr_listing r in
  _ ← try_ (ListingTerms_validate l);
  _ ← verify_issuance_receipt r;
  try_ (
    _ ← reject_if (lt_expiry_height l <=? height) Expired;
    tx ← decode_unsigned (lr_raw_tx_hex r);
    _ ← common_inputs tx (lr_prevouts r);
    _ ← reject_if (negb (valid_header tx true)) InvalidTransactionHeader;
    _ ← reject_if (negb (first_spends tx (ir_outpoint (lt_receipt l)))) InvalidInputs;
    _ ← reject_if (negb (bool_decide (lr_prevouts r !! 0%nat = Some (ItemReceipt_txout (lt_receipt l)))))
          InvalidPrevouts;
    _ ← reject_if (negb (list_outputs tx l)) InvalidOutputs;
    fee_sat ← fee tx (lr_prevouts r) (lt_max_network_fee_sat l);
    verified PathList l tx (lr_prevouts r) (ir_outpoint (lt_receipt l)) fee_sat).

Definition AgentTradingApi_verify_buy (r : BuyRequest) (height : Z) : outcome TradeError VerifiedTrade :=
  let l := br_listing r in
  _ ← try_ (ListingTerms_validate l);
  _ ← try_ (reject_if (negb (bool_decide (lr_listing (br_list_request r) = l))) InvalidListingLineage);
  listed ← AgentTradingApi_verify_list (br_list_request r) height;
  let canonical_order := mkOutPoint (vt_txid listed) 0 in
  try_ (
    _ ← reject_if (negb (bool_decide (br_order_outpoint r = canonical_order))) InvalidListingLineage;
    _ ← reject_if ((lt_expiry_height l <=? height) || (br_proposal_expiry_height r <? height)
                   || (lt_expiry_height l <? br_proposal_expiry_height r)) Expired;
    _ ← verify_buyer r;
    tx ← decode_unsigned (br_raw_tx_hex r);
    _ ← common_inputs tx (br_prevouts r);
    _ ← reject_if (negb (valid_header tx true)) InvalidTransactionHeader;
    _ ← reject_if (negb (first_spends tx (br_order_outpoint r))) InvalidInputs;
    order ← order_txout l;
    _ ← reject_if (negb (bool_decide (br_prevouts r !! 0%nat = Some order))) InvalidPrevouts;
    _ ← reject_if (negb (buy_outputs tx l (br_buyer_key r))) InvalidOutputs;
    fee_sat ← fee tx (br_prevouts r) (lt_max_network_fee_sat l);
    verified PathBuy l tx (br_prevouts r) (br_order_outpoint r) fee_sat).

Definition AgentTradingApi_verify_cancel (r : CancelRequest) (height : Z)
    : outcome TradeError VerifiedTrade :=
  let l := cr_listing r in
  _ ← try_ (ListingTerms_validate l);
  _ ← try_ (reject_if (negb (bool_decide (lr_listing (cr_list_request r) = l))) InvalidListingLineage);
  listed ← AgentTradingApi_verify_list (cr_list_request r) (saturating_sub (lt_expiry_height l) 1);
  let canonical_order := mkOutPoint (vt_txid listed) 0 in
  try_ (
    _ ← reject_if (negb (bool_decide (cr_order_outpoint r = canonical_order))) InvalidListingLineage;
    _ ← reject_if (height <? lt_expiry_height l) CancelNotMature;
    tx ← decode_unsigned (cr_raw_tx_hex r);
    _ ← common_inputs tx (cr_prevouts r);
    _ ← reject_if (negb (tx_version tx =? 2) || (tx_lock_time tx <? lt_expiry_height l)
                   || existsb (fun i => Sequence_is_final (txi_sequence i)) (tx_input tx))
          InvalidTransactionHeader;
    _ ← reject_if (negb (first_spends tx (cr_order_outpoint r))) InvalidInputs;
    order ← order_txout l;
    _ ← reject_if (negb (bool_decide (cr_prevouts r !! 0%nat = Some order))) InvalidPrevouts;
    _ ← reject_if (negb (cancel_outputs tx l)) InvalidOutputs;
    fee_sat ← fee tx (cr_prevouts r) (lt_max_network_fee_sat l);
    verified PathCancel l tx (cr_prevouts r) (cr_order_outpoint r) fee_sat).

Definition AgentTradingApi_verify (req : TradeSigningRequest) (height : Z)
    : outcome TradeError VerifiedTrade :=
  match req with
  | RequestList r => AgentTradingApi_verify_list r height
  | RequestBuy r => AgentTradingApi_verify_buy r height
  | RequestCancel r => AgentTradingApi_verify_cancel r height
  end.

(** ** The wallet's verifier *)

Definition WalletTradingApi_verify_list (r : ListRequest) (height : Z) : outcome TradeError VerifiedTrade :=
  let l := lr_listing r in
  _ ← try_ (ListingTerms_validate l);
  _ ← verify_issuance_receipt r;
  try_ (
    tx ← decode_unsigned (lr_raw_tx_hex r);
    _ ← reject_if ((lt_expiry_height l <=? height) || negb (valid_header tx true)
                   || (length (tx_input tx) <? 2)%nat
                   || negb (length (tx_input tx) =? length (lr_prevouts r))%nat
                   || negb (first_spends tx (ir_outpoint (lt_receipt l)))
                   || negb (bool_decide (lr_prevouts r !! 0%nat = Some (ItemReceipt_txout (lt_receipt l)))))
          InvalidInputs;
    _ ← common_inputs tx (lr_prevouts r);
    expected_order ← order_txout l;
    _ ← reject_if (negb (length (tx_output tx) =? 2)%nat || negb (output_is tx 0 expected_order)
                   || negb (output_pays tx 1 (lt_cancel_script l))) InvalidOutputs;
    fee_sat ← fee tx (lr_prevouts r) (lt_max_network_fee_sat l);
    verified PathList l tx (lr_prevouts r) (ir_outpoint (lt_receipt l)) fee_sat).

Definition WalletTradingApi_verify_buy (r : BuyRequest) (height : Z) : outcome TradeError VerifiedTrade :=
  let l := br_listing r in
  _ ← try_ (ListingTerms_validate l);
  _ ← try_ (reject_if (negb (bool_decide (lr_listing (br_list_request r) = l))) InvalidListingLineage);
  listed ← WalletTradingApi_verify_list (br_list_request r) height;
  let canonical_order := mkOutPoint (vt_txid listed) 0 in
  try_ (
    _ ← reject_if (negb (bool_decide (br_order_outpoint r = canonical_order))) InvalidListingLineage;
    tx ← decode_unsigned (br_raw_tx_hex r);
    _ ← reject_if ((lt_expiry_height l <=? height) || (br_proposal_expiry_height r <? height)
                   || (lt_expiry_height l <? br_proposal_expiry_height r)) Expired;
    _ ← verify_buyer r;
    _ ← reject_if (negb (valid_header tx true) || (length (tx_input tx) <? 2)%nat
                   || negb (length (tx_input tx) =? length (br_prevouts r))%nat
                   || negb (first_spends tx (br_order_outpoint r))) InvalidInputs;
    order ← order_txout l;
    _ ← reject_if (negb (bool_decide (br_prevouts r !! 0%nat = Some order))) InvalidInputs;
    _ ← common_inputs tx (br_prevouts r);
    let buyer_script := item_script (br_buyer_key r) in
    let n := length (tx_output tx) in
    let exact := (n =? 3)%nat || (n =? 4)%nat in
    _ ← reject_if (negb exact
                   || negb (output_worth tx 0 (ir_item_sat_amount (lt_receipt l)))
                   || negb (output_pays tx 0 buyer_script)
                   || negb (output_worth tx 1 (lt_price_sat l))
                   || negb (output_pays tx 1 (lt_seller_payout_script l))
                   || negb (output_worth tx 2 (lt_creator_fee_sat l))
                   || negb (output_pays tx 2 (lt_creator_fee_script l))
                   || ((n =? 4)%nat && negb (output_pays tx 3 buyer_script))) InvalidOutputs;
    fee_sat ← fee tx (br_prevouts r) (lt_max_network_fee_sat l);
    verified PathBuy l tx (br_prevouts r) (br_order_outpoint r) fee_sat).

Definition WalletTradingApi_verify_cancel (r : CancelRequest) (height : Z)
    : outcome TradeError VerifiedTrade :=
  let l := cr_listing r in
  _ ← try_ (ListingTerms_validate l);
  _ ← try_ (reject_if (negb (bool_decide (lr_listing (cr_list_request r) = l))) InvalidListingLineage);
  listed ← WalletTradingApi_verify_list (cr_list_request r) (saturating_sub (lt_expiry_height l) 1);
  let canonical_order := mkOutPoint (vt_txid listed) 0 in
  try_ (
    _ ← reject_if (negb (bool_decide (cr_order_outpoint r = canonical_order))) InvalidListingLineage;
    tx ← decode_unsigned (cr_raw_tx_hex r);
    _ ← reject_if (height <? lt_expiry_height l) CancelNotMature;
    _ ← reject_if (negb (tx_version tx =? 2) || (tx_lock_time tx <? lt_expiry_height l)
                   || existsb (fun i => Sequence_is_final (txi_sequence i)) (tx_input tx)
                   || (length (tx_input tx) <? 2)%nat
                   || negb (length (tx_input tx) =? length (cr_prevouts r))%nat
                   || negb (first_spends tx (cr_order_outpoint r))) InvalidInputs;
    order ← order_txout l;
    _ ← reject_if (negb (bool_decide (cr_prevouts r !! 0%nat = Some order))) InvalidInputs;
    _ ← common_inputs tx (cr_prevouts r);
    let n := length (tx_output tx) in
    _ ← reject_if ((n =? 0)%nat || (2 <? n)%nat
                   || negb (output_worth tx 0 (ir_item_sat_amount (lt_receipt l)))
                   || negb (output_pays tx 0 (lt_cancel_script l))
                   || ((n =? 2)%nat && negb (output_pays tx 1 (lt_cancel_script l)))) InvalidOutputs;
    fee_sat ← fee tx (cr_prevouts r) (lt_max_network_fee_sat l);
    verified PathCancel l tx (cr_prevouts r) (cr_order_outpoint r) fee_sat).

Definition WalletTradingApi_verify (req : TradeSigningRequest) (height : Z)
    : outcome TradeError VerifiedTrade :=
  match req with
  | RequestList r => WalletTradingApi_verify_list r height
  | RequestBuy r => WalletTradingApi_verify_buy r height
  | RequestCancel r => WalletTradingApi_verify_cancel r height
  end.

(** ** Signature application and the final check *)

(** Replace the witness of input [i]. *)
Definition set_witness (tx : Transaction) (i : nat) (w : list bytes) : Transaction :=
  mkTransaction (tx_version tx) (tx_lock_time tx)
    (alter (fun x => mkTxIn (txi_previous_output x) (txi_script_sig x) (txi_sequence x) w) i (tx_input tx))
    (tx_output tx).

(** [tx.input[input_index]] panics when there is no such input. *)
Definition apply_trade_signature (v : VerifiedTrade) (signature : bytes)
    : outcome TradeError Transaction :=
  let tx := vt_transaction v in
  match tx_input tx !! vt_input_index v with
  | None => Err Panic
  | Some _ =>
      match vt_witness_script v with
      | None => Ok (set_witness tx (vt_input_index v) [signature])
      | Some script =>
          cb ← try_ (ok_or (vt_control_block v) Taproot);
          Ok (set_witness tx (vt_input_index v) [signature; script; cb])
      end
  end.

(** The two [unwrap]s are evaluated left to right inside the comparison. *)
Definition witness_mismatch (v : VerifiedTrade) (elements : list bytes) : outcome TradeError bool :=
  if bool_decide (vt_path v = PathList) then Ok false
  else
    script ← ok_or (vt_witness_script v) Panic;
    if negb (bool_decide (elements !! 1%nat = Some script)) then Ok true
    else cb ← ok_or (vt_control_block v) Panic; Ok (negb (bool_decide (elements !! 2%nat = Some cb))).

Definition verify_finalized (finalized : Transaction) (v : VerifiedTrade) : outcome TradeError unit :=
  _ ← try_ (reject_if (negb (bool_decide (compute_txid finalized = vt_txid v))
                       || negb (length (tx_input finalized) =? length (tx_input (vt_transaction v)))%nat)
             FinalTransactionMismatch);
  input ← ok_or (tx_input finalized !! vt_input_index v) Panic;
  let elements := txi_witness input in
  let expected_len := if bool_decide (vt_path v = PathList) then 1%nat else 3%nat in
  _ ← try_ (reject_if (negb (length elements =? expected_len)%nat) FinalTransactionMismatch);
  mismatch ← witness_mismatch v elements;
  _ ← try_ (reject_if mismatch FinalTransactionMismatch);
  let sig := default [] (elements !! 0%nat) in
  try_ (
    _ ← reject_if (negb (schnorr_sig_valid sig)) InvalidSellerSignature;
    actual_sighash ← sighash finalized (vt_prevouts v) (vt_witness_script v);
    _ ← reject_if (negb (bool_decide (actual_sighash = vt_sighash v))) FinalTransactionMismatch;
    reject_if (negb (verify_schnorr sig actual_sighash (vt_seller_key v))) InvalidSellerSignature).
End checks.
