(* ===== verification/TradingPolicy.v ===== *)
(** * The checks of the two verifiers, path by path

    [list_policy], [buy_policy] and [cancel_policy] collect what an accepting run
    has checked, without the order in which it was checked.  They are intermediate:
    they still name the crate's own functions ([fee], [verify_buyer], [verified] and
    so on), and serve to compare the agent's and the wallet's verifiers of Trading.v,
    each proved equivalent to them.  What an accepted trade promises in terms of the
    transaction itself is stated in TradingProperties.v. *)

From Stdlib Require Import ZArith Lia.
From S2P Require Import Prelude Bitcoin IssuanceTerms IssuerState IssuerScript MintVerify Trading.
From stdpp Require Import list.
Local Open Scope Z_scope.

(** ** Listings *)

Lemma validate_Ok l u :
  ListingTerms_validate l = Ok u <->
  lt_protocol_version l = 1 /\
  ir_item_sat_amount (lt_receipt l) <> 0 /\ lt_price_sat l <> 0 /\ lt_creator_fee_sat l <> 0 /\
  lt_expiry_height l <> 0 /\ lt_expiry_height l < LOCK_TIME_THRESHOLD /\
  lt_max_network_fee_sat l <> 0 /\
  lt_seller_payout_script l <> [] /\ lt_creator_fee_script l <> [] /\ lt_cancel_script l <> [] /\
  lt_seller_payout_script l <> lt_creator_fee_script l /\
  ir_script_pubkey (lt_receipt l) = item_owner_script (lt_seller_key l).
Proof.
  unfold ListingTerms_validate. split.
  - intros. res_inv. by split_and!.
  - intros (H1 & H2 & H3 & H4 & H5 & H6 & H7 & H8 & H9 & H10 & H11 & H12). destruct u.
    destruct (lt_network l), (ir_network (lt_receipt l)). by res_pass.
Qed.

(** The field types of the Rust structs. *)
Definition ItemReceipt_wf (r : ItemReceipt) : Prop :=
  OutPoint_wf (ir_outpoint r) /\ is_u64 (Z.of_nat (length (ir_script_pubkey r))) /\
  is_u64 (ir_item_sat_amount r) /\ length (ir_terms_hash r) = 32%nat /\
  length (ir_item_id r) = 32%nat /\ length (ir_item_commitment r) = 32%nat /\
  is_u8 (ir_lane r) /\ is_u32 (ir_sequence r).

Definition ListingTerms_wf (l : ListingTerms) : Prop :=
  is_u16 (lt_protocol_version l) /\ ItemReceipt_wf (lt_receipt l) /\
  length (lt_seller_key l) = 32%nat /\ is_u64 (Z.of_nat (length (lt_seller_payout_script l))) /\
  is_u64 (lt_price_sat l) /\ is_u64 (Z.of_nat (length (lt_creator_fee_script l))) /\
  is_u64 (lt_creator_fee_sat l) /\ is_u64 (Z.of_nat (length (lt_cancel_script l))) /\
  is_u32 (lt_expiry_height l) /\ is_u64 (lt_max_network_fee_sat l).

#[export] Instance ItemReceipt_wf_dec r : Decision (ItemReceipt_wf r).
Proof. unfold ItemReceipt_wf. apply _. Defined.
#[export] Instance ListingTerms_wf_dec l : Decision (ListingTerms_wf l).
Proof. unfold ListingTerms_wf. apply _. Defined.

(** A length-prefixed field, off the front of an equation of encodings. *)
Ltac peel_prefixed H :=
  let H1 := fresh "F" in
  apply (len_prefixed_be_inj 8) in H as [H1 H]; [|done..].

Lemma ListingTerms_encoding_inj l1 l2 :
  ListingTerms_wf l1 -> ListingTerms_wf l2 ->
  ListingTerms_encoding l1 = ListingTerms_encoding l2 -> l1 = l2.
Proof.
  destruct l1 as [v1 n1 [rn1 [t1 o1] rs1 ra1 rh1 ri1 rc1 rl1 rq1] k1 ps1 pr1 cs1 cf1 ca1 e1 m1],
    l2 as [v2 n2 [rn2 [t2 o2] rs2 ra2 rh2 ri2 rc2 rl2 rq2] k2 ps2 pr2 cs2 cf2 ca2 e2 m2].
  unfold ListingTerms_wf, ItemReceipt_wf, OutPoint_wf, ListingTerms_encoding, push_len_prefixed.
  cbn [lt_protocol_version lt_network lt_receipt lt_seller_key lt_seller_payout_script lt_price_sat
       lt_creator_fee_script lt_creator_fee_sat lt_cancel_script lt_expiry_height
       lt_max_network_fee_sat ir_network ir_outpoint ir_script_pubkey ir_item_sat_amount ir_terms_hash
       ir_item_id ir_item_commitment ir_lane ir_sequence op_txid op_vout].
  intros (A1&((A2&A3)&A4&A5&A6&A7&A8&A9&A10)&A11&A12&A13&A14&A15&A16&A17&A18)
         (B1&((B2&B3)&B4&B5&B6&B7&B8&B9&B10)&B11&B12&B13&B14&B15&B16&B17&B18) H.
  do 5 peel H. peel_prefixed H. do 7 peel H. peel_prefixed H. peel H. peel_prefixed H.
  peel H. peel_prefixed H. peel H.
  repeat match goal with
  | F : be_bytes _ _ = be_bytes _ _ |- _ => apply be_bytes_inj in F; [|done..]
  | F : [z2b _] = [z2b _] |- _ => injection F as F; apply z2b_inj in F; [|done..]
  end.
  destruct n1, n2, rn1, rn2. by subst.
Qed.

Section listing_lemmas.
Context {B : BitcoinLib} {BL : BitcoinLaws B}.

Lemma commitment_valid l :
  ListingTerms_validate l = Ok tt -> ListingTerms_commitment l = Ok (sha256 (ListingTerms_encoding l)).
Proof. intros Hv. unfold ListingTerms_commitment, ListingTerms_canonical_bytes. by rewrite Hv. Qed.

Lemma leaves_valid l :
  ListingTerms_validate l = Ok tt ->
  exists b c si, buy_leaf_script l = Ok b /\ cancel_leaf_script l = Ok c /\ spend_info l = Ok si /\
    taproot_finalize [(1%nat, b); (1%nat, c)] nums_internal_key = Some si.
Proof.
  intros Hv. unfold spend_info, buy_leaf_script, cancel_leaf_script. rewrite commitment_valid, Hv by done.
  res_cbn. destruct (finalize_two_leaves
    (push_slice (sha256 (ListingTerms_encoding l)) ++ [OP_DROP] ++ push_slice (lt_seller_key l) ++ [OP_CHECKSIG])
    (push_int (lt_expiry_height l) ++ [OP_CLTV] ++ [OP_DROP] ++
     push_slice (sha256 (ListingTerms_encoding l)) ++ [OP_DROP] ++ push_slice (lt_seller_key l) ++ [OP_CHECKSIG])
    nums_internal_key nums_is_valid) as [si Hsi].
  rewrite Hsi. by eexists _, _, si.
Qed.

Lemma order_txout_valid l :
  ListingTerms_validate l = Ok tt ->
  exists si, spend_info l = Ok si /\
    order_txout l = Ok (mkTxOut (ir_item_sat_amount (lt_receipt l)) (p2tr_output_script (si_output_key si))).
Proof.
  intros (b & c & si & _ & _ & Hsi & _)%leaves_valid. exists si. split; [done|].
  unfold order_txout, listing_output_script. by rewrite Hsi.
Qed.
End listing_lemmas.

(** ** Reading the output checks *)

Lemma output_is_split tx i v s :
  output_is tx i (mkTxOut v s) = output_worth tx i v && output_pays tx i s.
Proof.
  unfold output_is, output_worth, output_pays. apply eq_iff_eq_true.
  rewrite andb_true_iff, !bool_decide_eq_true.
  destruct (tx_output tx !! i) as [[v' s']|]; simpl; naive_solver.
Qed.

Lemma output_pays_iff tx i s :
  output_pays tx i s = true <-> exists o, tx_output tx !! i = Some o /\ txo_script_pubkey o = s.
Proof. unfold output_pays. rewrite bool_decide_eq_true, fmap_Some. naive_solver. Qed.

(** Optional change: none, or one output paying [script]. *)
Definition optional_change (script : bytes) (change : list TxOut) : Prop :=
  change = [] \/ exists o, change = [o] /\ txo_script_pubkey o = script.

Definition list_shape (l : ListingTerms) (order : TxOut) (outs : list TxOut) : Prop :=
  exists change, outs = [order; change] /\ txo_script_pubkey change = lt_cancel_script l.

Definition buy_shape (l : ListingTerms) (buyer : bytes) (outs : list TxOut) : Prop :=
  exists change, optional_change (item_script buyer) change /\
    outs = [mkTxOut (ir_item_sat_amount (lt_receipt l)) (item_script buyer);
            mkTxOut (lt_price_sat l) (lt_seller_payout_script l);
            mkTxOut (lt_creator_fee_sat l) (lt_creator_fee_script l)] ++ change.

Definition cancel_shape (l : ListingTerms) (outs : list TxOut) : Prop :=
  exists change, optional_change (lt_cancel_script l) change /\
    outs = mkTxOut (ir_item_sat_amount (lt_receipt l)) (lt_cancel_script l) :: change.

Lemma list_outputs_iff tx l order :
  (length (tx_output tx) = 2%nat /\ output_is tx 0 order = true /\
   output_pays tx 1 (lt_cancel_script l) = true) <-> list_shape l order (tx_output tx).
Proof.
  unfold output_is. rewrite output_pays_iff, bool_decide_eq_true. unfold list_shape. split.
  - intros (Hl & H0 & o & H1 & Ho). destruct (tx_output tx) as [|a [|b [|]]]; simplify_eq/=. eauto.
  - intros (c & -> & Hc). simpl. eauto.
Qed.

Lemma buy_outputs_iff tx l buyer :
  buy_outputs tx l buyer = true <-> buy_shape l buyer (tx_output tx).
Proof.
  unfold buy_outputs, buy_shape, optional_change, output_is. split.
  - intros H. case_match eqn:Hn; [done|]. autorewrite with guards in *.
    destruct H as [[[H0 H1] H2] H3]. rewrite output_pays_iff in H3.
    destruct (tx_output tx) as [|a [|b [|c [|d [|]]]]]; simplify_eq/=; try (destruct Hn; done).
    + exists []. naive_solver.
    + exists [d]. split; [|done]. right. destruct H3 as [?|(o & ? & ?)]; [done|]. simplify_eq. eauto.
  - intros (change & [->|(o & -> & Ho)] & Hout).
    + rewrite Hout. simpl. by rewrite !bool_decide_true.
    + assert (output_pays tx 3 (item_script buyer) = true) as ->.
      { apply output_pays_iff. rewrite Hout. simpl. eauto. }
      rewrite Hout. simpl. by rewrite !bool_decide_true.
Qed.

(** The wallet's spelling of the same tests. *)
Lemma wallet_buy_outputs tx l buyer :
  let n := length (tx_output tx) in
  negb ((n =? 3)%nat || (n =? 4)%nat)
  || negb (output_worth tx 0 (ir_item_sat_amount (lt_receipt l)))
  || negb (output_pays tx 0 (item_script buyer))
  || negb (output_worth tx 1 (lt_price_sat l)) || negb (output_pays tx 1 (lt_seller_payout_script l))
  || negb (output_worth tx 2 (lt_creator_fee_sat l)) || negb (output_pays tx 2 (lt_creator_fee_script l))
  || ((n =? 4)%nat && negb (output_pays tx 3 (item_script buyer))) =
  negb (buy_outputs tx l buyer).
Proof.
  intros n. unfold buy_outputs. fold n. rewrite !output_is_split.
  destruct (Nat.eqb_spec n 3), (Nat.eqb_spec n 4); try lia; simpl; rewrite ?orb_true_r, ?orb_false_r; [| |done];
  repeat match goal with |- context [negb ?b] => is_var b || destruct b; simpl end; done.
Qed.

Lemma wallet_cancel_outputs tx l :
  let n := length (tx_output tx) in
  (n =? 0)%nat || (2 <? n)%nat
  || negb (output_worth tx 0 (ir_item_sat_amount (lt_receipt l)))
  || negb (output_pays tx 0 (lt_cancel_script l))
  || ((n =? 2)%nat && negb (output_pays tx 1 (lt_cancel_script l))) =
  negb (cancel_outputs tx l).
Proof.
  intros n. unfold cancel_outputs. fold n. rewrite !output_is_split.
  destruct (Nat.eqb_spec n 1), (Nat.eqb_spec n 2), (Nat.eqb_spec n 0), (Nat.ltb_spec 2 n); try lia; simpl;
  rewrite ?orb_true_r, ?orb_false_r; try done;
  repeat match goal with |- context [negb ?b] => is_var b || destruct b; simpl end; done.
Qed.

Lemma cancel_outputs_iff tx l :
  cancel_outputs tx l = true <-> cancel_shape l (tx_output tx).
Proof.
  unfold cancel_outputs, cancel_shape, optional_change, output_is. split.
  - intros H. case_match eqn:Hn; [done|]. autorewrite with guards in *.
    destruct H as [H0 H1]. rewrite output_pays_iff in H1.
    destruct (tx_output tx) as [|a [|b [|]]]; simplify_eq/=; try (destruct Hn; done).
    + exists []. naive_solver.
    + exists [b]. split; [|done]. right. destruct H1 as [?|(o & ? & ?)]; [done|]. simplify_eq. eauto.
  - intros (change & [->|(o & -> & Ho)] & Hout).
    + rewrite Hout. simpl. by rewrite !bool_decide_true.
    + assert (output_pays tx 1 (lt_cancel_script l) = true) as ->.
      { apply output_pays_iff. rewrite Hout. simpl. eauto. }
      rewrite Hout. simpl. by rewrite !bool_decide_true.
Qed.

Lemma common_inputs_Ok tx prevouts u :
  common_inputs tx prevouts = Ok u <->
  (2 <= length (tx_input tx))%nat /\ length (tx_input tx) = length prevouts /\
  NoDup (txi_previous_output <$> tx_input tx).
Proof.
  unfold common_inputs. split.
  - intros. res_inv. done.
  - intros (H1 & H2 & H3). destruct u. by res_pass.
Qed.

Lemma fee_Ok tx prevouts max f :
  Forall TxOut_wf prevouts -> Forall TxOut_wf (tx_output tx) ->
  fee tx prevouts max = Ok f <->
  sumZ (txo_value <$> prevouts) = sumZ (txo_value <$> tx_output tx) + f /\
  0 < f <= max /\ sumZ (txo_value <$> prevouts) < 2 ^ 64.
Proof.
  intros Hp Ho. assert (Forall (fits 64) (txo_value <$> prevouts)) as Hp' by by apply Forall_fmap.
  assert (Forall (fits 64) (txo_value <$> tx_output tx)) as Ho' by by apply Forall_fmap.
  pose proof (sumZ_nonneg 64 _ Hp'). pose proof (sumZ_nonneg 64 _ Ho').
  unfold fee. destruct (checked_sum 64 0 (txo_value <$> prevouts)) as [i|] eqn:Ei.
  2:{ split; [by intros; res_inv|]. intros (H1 & H2 & H3).
      assert (checked_sum 64 0 (txo_value <$> prevouts) = Some (0 + sumZ (txo_value <$> prevouts))); [|congruence].
      apply checked_sum_Some; [done|done|]. split; [lia|]. unfold fits. lia. }
  destruct (checked_sum 64 0 (txo_value <$> tx_output tx)) as [o|] eqn:Eo.
  2:{ split; [by intros; res_inv|]. intros (H1 & H2 & H3).
      assert (checked_sum 64 0 (txo_value <$> tx_output tx) = Some (0 + sumZ (txo_value <$> tx_output tx))); [|congruence].
      apply checked_sum_Some; [done|done|]. split; [lia|]. unfold fits. lia. }
  apply checked_sum_Some in Ei as [Ei Hi]; [|done..]. apply checked_sum_Some in Eo as [Eo Ho2]; [|done..].
  cbn. unfold checked_sub, fits in *. case_bool_decide; cbn.
  - split.
    + intros. res_inv. lia.
    + intros (E1 & E2 & E3). res_pass. f_equal. lia.
  - split; [done|]. lia.
Qed.

(** A decoded unsigned transaction is the one the hex spells, with empty inputs. *)
Lemma decode_unsigned_Ok {B : BitcoinLib} raw tx :
  decode_unsigned raw = Ok tx ->
  hex_decode raw = Some (tx_serialize tx) /\
  Forall (fun i => txi_script_sig i = [] /\ txi_witness i = []) (tx_input tx).
Proof.
  unfold decode_unsigned. intros H. repeat res_step. autorewrite with guards in *. subst.
  split; [congruence|]. apply Forall_forall. intros i Hi%list_elem_of_In.
  match goal with H : existsb ?f _ = false |- _ =>
    assert (f i = false) as Hf by (apply not_true_iff_false; intros Hf; apply not_true_iff_false in H;
                                   apply H, existsb_exists; eauto) end.
  by autorewrite with guards in Hf.
Qed.

Lemma verify_buyer_Ok {B : BitcoinLib} r u :
  verify_buyer r = Ok u ->
  schnorr_sig_valid (br_buyer_ownership_signature r) = true /\
  exists msg, buyer_ownership_message r = Ok msg /\
    verify_schnorr (br_buyer_ownership_signature r) msg (br_buyer_key r) = true.
Proof. unfold verify_buyer. intros H. repeat res_step. autorewrite with guards in *. eauto. Qed.

(** Turn an accepting run into the facts its checks established. *)
Ltac run_facts :=
  repeat res_step;
  repeat match goal with u : unit |- _ => destruct u end;
  repeat match goal with
  | H : _ = false |- _ => rewrite wallet_buy_outputs in H
  | H : _ = false |- _ => rewrite wallet_cancel_outputs in H
  | H : _ || _ = false |- _ => apply orb_false_iff in H as [? ?]
  | H : common_inputs _ _ = Ok _ |- _ => apply common_inputs_Ok in H
  | H : buy_outputs _ _ _ = true |- _ => apply buy_outputs_iff in H
  | H : cancel_outputs _ _ = true |- _ => apply cancel_outputs_iff in H
  | H : negb _ = false |- _ => apply negb_false_iff in H
  end;
  rewrite ?Z.leb_gt, ?Z.ltb_ge, ?Z.eqb_eq, ?Nat.eqb_eq, ?bool_decide_eq_true in *.

(** ** What an accepting run has checked *)

Section policy.
Context {B : BitcoinLib} {BL : BitcoinLaws B} {P : BuildProfile}.

(** What all three paths require of the spending transaction. *)
Record spend_policy (l : ListingTerms) (raw : string) (tx : Transaction) (prevouts : list TxOut)
    (op : OutPoint) (first : TxOut) (f : Z) : Prop := mk_spend_policy {
  sp_decoded : decode_unsigned raw = Ok tx;
  sp_version : tx_version tx = 2;
  sp_inputs : (2 <= length (tx_input tx))%nat /\ length (tx_input tx) = length prevouts /\
    NoDup (txi_previous_output <$> tx_input tx);
  sp_first : first_spends tx op = true /\ prevouts !! 0%nat = Some first;
  sp_fee : fee tx prevouts (lt_max_network_fee_sat l) = Ok f;
}.

Definition list_policy (r : ListRequest) (height : Z) (v : VerifiedTrade) : Prop :=
  let l := lr_listing r in
  ListingTerms_validate l = Ok tt /\ verify_issuance_receipt r = Ok tt /\
  height < lt_expiry_height l /\
  exists tx f order, order_txout l = Ok order /\
    spend_policy l (lr_raw_tx_hex r) tx (lr_prevouts r) (ir_outpoint (lt_receipt l))
      (ItemReceipt_txout (lt_receipt l)) f /\
    tx_lock_time tx = 0 /\ list_shape l order (tx_output tx) /\
    verified PathList l tx (lr_prevouts r) (ir_outpoint (lt_receipt l)) f = Ok v.

Definition buy_policy (r : BuyRequest) (height : Z) (v : VerifiedTrade) : Prop :=
  let l := br_listing r in
  ListingTerms_validate l = Ok tt /\ lr_listing (br_list_request r) = l /\
  (exists listed, list_policy (br_list_request r) height listed /\
     br_order_outpoint r = mkOutPoint (vt_txid listed) 0) /\
  height < lt_expiry_height l /\ height <= br_proposal_expiry_height r /\
  br_proposal_expiry_height r <= lt_expiry_height l /\ verify_buyer r = Ok tt /\
  exists tx f order, order_txout l = Ok order /\
    spend_policy l (br_raw_tx_hex r) tx (br_prevouts r) (br_order_outpoint r) order f /\
    tx_lock_time tx = 0 /\ buy_shape l (br_buyer_key r) (tx_output tx) /\
    verified PathBuy l tx (br_prevouts r) (br_order_outpoint r) f = Ok v.

Definition cancel_policy (r : CancelRequest) (height : Z) (v : VerifiedTrade) : Prop :=
  let l := cr_listing r in
  ListingTerms_validate l = Ok tt /\ lr_listing (cr_list_request r) = l /\
  (exists listed, list_policy (cr_list_request r) (saturating_sub (lt_expiry_height l) 1) listed /\
     cr_order_outpoint r = mkOutPoint (vt_txid listed) 0) /\
  lt_expiry_height l <= height /\
  exists tx f order, order_txout l = Ok order /\
    spend_policy l (cr_raw_tx_hex r) tx (cr_prevouts r) (cr_order_outpoint r) order f /\
    lt_expiry_height l <= tx_lock_time tx /\
    existsb (fun i => Sequence_is_final (txi_sequence i)) (tx_input tx) = false /\
    cancel_shape l (tx_output tx) /\
    verified PathCancel l tx (cr_prevouts r) (cr_order_outpoint r) f = Ok v.

Lemma valid_header_true tx : valid_header tx true = true <-> tx_version tx = 2 /\ tx_lock_time tx = 0.
Proof. unfold valid_header. autorewrite with guards. simpl. naive_solver. Qed.

(** [list_outputs] compares with [TxOut::NULL] when the order output cannot be
    built, which does not happen for a validated listing. *)
Lemma list_outputs_shape tx l order :
  order_txout l = Ok order -> list_outputs tx l = true <-> list_shape l order (tx_output tx).
Proof.
  intros Ho. rewrite <- list_outputs_iff. unfold list_outputs. rewrite Ho. simpl.
  destruct (length (tx_output tx) =? 2)%nat eqn:E; simpl; autorewrite with guards in *; naive_solver.
Qed.

Lemma try_Ok {E A} (r : result E A) a : try_ r = Ok a <-> r = Ok a.
Proof. apply map_err_Ok. Qed.

Lemma agent_list_policy r h v : AgentTradingApi_verify_list r h = Ok v <-> list_policy r h v.
Proof.
  unfold AgentTradingApi_verify_list, list_policy. split.
  - intros Hv. repeat res_step. destruct r0, r1.
    destruct (order_txout_valid _ E) as (si & _ & Ho).
    rewrite negb_false_iff in *. rewrite list_outputs_shape in E7 by done.
    apply valid_header_true in E4 as [? ?]. apply common_inputs_Ok in E3.
    rewrite Z.leb_gt, bool_decide_eq_true in *.
    split_and!; try done. eexists _, _, _. split; [done|]. by split_and!.
  - intros (H1 & H2 & H3 & tx & f & order & Ho & [D V I [F1 F2] Fe] & L & S & Hv).
    rewrite H1, H2. res_cbn. rewrite D. res_pass.
    rewrite (proj2 (common_inputs_Ok tx (lr_prevouts r) tt)) by done.
    apply (list_outputs_shape tx) in S; [|done]. pose proof (proj2 (valid_header_true tx) (conj V L)).
    res_pass. rewrite Fe. res_cbn. by rewrite Hv.
Qed.

Lemma wallet_list_policy r h v : WalletTradingApi_verify_list r h = Ok v <-> list_policy r h v.
Proof.
  unfold WalletTradingApi_verify_list, list_policy. split.
  - intros Hv. repeat res_step. destruct r0, r1. apply common_inputs_Ok in E3.
    repeat match goal with H : _ || _ = false |- _ => apply orb_false_iff in H as [? ?] end.
    rewrite ?negb_false_iff in *. rewrite ?Z.leb_gt, ?bool_decide_eq_true, ?Nat.eqb_eq in *.
    match goal with H : valid_header _ _ = true |- _ => apply valid_header_true in H as [? ?] end.
    split_and!; try done. eexists _, _, _. split; [done|]. split_and!; try done.
    by apply list_outputs_iff.
  - intros (H1 & H2 & H3 & tx & f & order & Ho & [D V I [F1 F2] Fe] & L & S & Hv).
    apply list_outputs_iff in S as (S1 & S2 & S3). pose proof I as (I1 & I2 & _).
    rewrite H1, H2. res_cbn. rewrite D. res_cbn.
    pose proof (proj2 (valid_header_true tx) (conj V L)). rewrite Ho.
    rewrite (proj2 (common_inputs_Ok tx (lr_prevouts r) tt)) by done. res_pass.
    rewrite Fe. res_cbn. by rewrite Hv.
Qed.

Lemma agent_buy_policy r h v : AgentTradingApi_verify_buy r h = Ok v <-> buy_policy r h v.
Proof.
  unfold AgentTradingApi_verify_buy, buy_policy. split.
  - intros Hv. run_facts. rewrite agent_list_policy in *.
    match goal with H : valid_header _ _ = true |- _ => apply valid_header_true in H as [? ?] end.
    split_and!; try done; [by eexists|]. eexists _, _, _. split; [done|]. by split_and!.
  - intros (H1 & H2 & (listed & HL & Hop) & H3 & H4 & H5 & HB & tx & f & order & Ho & [D V I [F1 F2] Fe] & L & S & Hv).
    rewrite H1. res_pass. rewrite (proj2 (agent_list_policy _ _ listed) HL). res_pass.
    rewrite HB, D, Ho. res_cbn. rewrite (proj2 (common_inputs_Ok tx (br_prevouts r) tt)) by done.
    apply buy_outputs_iff in S. pose proof (proj2 (valid_header_true tx) (conj V L)).
    res_pass. rewrite Fe. res_cbn. by rewrite Hv.
Qed.

Lemma wallet_buy_policy r h v : WalletTradingApi_verify_buy r h = Ok v <-> buy_policy r h v.
Proof.
  unfold WalletTradingApi_verify_buy, buy_policy. split.
  - intros Hv. run_facts. rewrite wallet_list_policy in *.
    match goal with H : valid_header _ _ = true |- _ => apply valid_header_true in H as [? ?] end.
    split_and!; try done; [by eexists|]. eexists _, _, _. split; [done|]. by split_and!.
  - intros (H1 & H2 & (listed & HL & Hop) & H3 & H4 & H5 & HB & tx & f & order & Ho & [D V I [F1 F2] Fe] & L & S & Hv).
    rewrite H1. res_pass. rewrite (proj2 (wallet_list_policy _ _ listed) HL). res_pass.
    rewrite HB, D, Ho. res_cbn. rewrite (proj2 (common_inputs_Ok tx (br_prevouts r) tt)) by done.
    apply buy_outputs_iff in S. pose proof (proj2 (valid_header_true tx) (conj V L)).
    rewrite wallet_buy_outputs. pose proof I as (I1 & I2 & _).
    res_pass. rewrite Fe. res_cbn. by rewrite Hv.
Qed.

Lemma agent_cancel_policy r h v : AgentTradingApi_verify_cancel r h = Ok v <-> cancel_policy r h v.
Proof.
  unfold AgentTradingApi_verify_cancel, cancel_policy. split.
  - intros Hv. run_facts. rewrite agent_list_policy in *.
    split_and!; try done; [by eexists|]. eexists _, _, _. split; [done|]. by split_and!.
  - intros (H1 & H2 & (listed & HL & Hop) & H3 & tx & f & order & Ho & [D V I [F1 F2] Fe] & L & Q & S & Hv).
    rewrite H1. res_pass. rewrite (proj2 (agent_list_policy _ _ listed) HL). res_pass.
    rewrite D, Ho. res_cbn. rewrite (proj2 (common_inputs_Ok tx (cr_prevouts r) tt)) by done.
    apply cancel_outputs_iff in S. res_pass. rewrite Fe. res_cbn. by rewrite Hv.
Qed.

Lemma wallet_cancel_policy r h v : WalletTradingApi_verify_cancel r h = Ok v <-> cancel_policy r h v.
Proof.
  unfold WalletTradingApi_verify_cancel, cancel_policy. split.
  - intros Hv. run_facts. rewrite wallet_list_policy in *.
    split_and!; try done; [by eexists|]. eexists _, _, _. split; [done|]. by split_and!.
  - intros (H1 & H2 & (listed & HL & Hop) & H3 & tx & f & order & Ho & [D V I [F1 F2] Fe] & L & Q & S & Hv).
    rewrite H1. res_pass. rewrite (proj2 (wallet_list_policy _ _ listed) HL). res_pass.
    rewrite D, Ho. res_cbn. rewrite (proj2 (common_inputs_Ok tx (cr_prevouts r) tt)) by done.
    apply cancel_outputs_iff in S. rewrite wallet_cancel_outputs. pose proof I as (I1 & I2 & _).
    res_pass. rewrite Fe. res_cbn. by rewrite Hv.
Qed.
End policy.
