(* ===== verification/Competition.v ===== *)
(** * The competition for one listing output
      (src/crates/trading/src/lib.rs, [CompetitionTracker])

    Buy and cancel transactions race for the order outpoint; the tracker
    records the candidates and the one that confirmed.  It is modelled as a
    state machine over its public operations. *)

From Stdlib Require Import ZArith Lia.
From S2P Require Import Prelude Bitcoin Trading.
From stdpp Require Import list.
Local Open Scope Z_scope.

Inductive CandidateKind := KindBuy | KindCancel.

Inductive CandidateStatus :=
| Submitted
| Pending
| Confirmed (height : Z)
| Conflicted (winner : bytes).

#[export] Instance CandidateKind_eq_dec : EqDecision CandidateKind.
Proof. solve_decision. Defined.
#[export] Instance CandidateStatus_eq_dec : EqDecision CandidateStatus.
Proof. solve_decision. Defined.

Record CandidateSnapshot := mkCandidateSnapshot {
  cs_txid : bytes;
  cs_kind : CandidateKind;
  cs_status : CandidateStatus;
}.

Record CompetitionSnapshot := mkCompetitionSnapshot {
  cn_outpoint : OutPoint;
  cn_ordering : string;
  cn_miner_ordering_fairness : bool;
  cn_candidates : list CandidateSnapshot;
}.

Record CompetitionTracker := mkCompetitionTracker {
  ct_outpoint : OutPoint;
  ct_candidates : gmap bytes (CandidateKind * CandidateStatus);
}.

Definition CompetitionTracker_new (outpoint : OutPoint) : CompetitionTracker :=
  mkCompetitionTracker outpoint ∅.

Definition is_confirmed (s : CandidateStatus) : bool :=
  match s with Confirmed _ => true | _ => false end.

Definition CompetitionTracker_submit (t : CompetitionTracker) (txid : bytes) (kind : CandidateKind)
    : result TradeError CompetitionTracker :=
  _ ← reject_if (bool_decide (is_Some (ct_candidates t !! txid))) InvalidCandidateState;
  let status :=
    match find_map (fun p : bytes * (CandidateKind * CandidateStatus) =>
                      if is_confirmed p.2.2 then Some p.1 else None)
            (sorted_items (ct_candidates t)) with
    | None => Submitted
    | Some winner => Conflicted winner
    end in
  Ok (mkCompetitionTracker (ct_outpoint t) (<[txid := (kind, status)]> (ct_candidates t))).

Definition CompetitionTracker_submit_verified (t : CompetitionTracker) (candidate : VerifiedTrade)
    : result TradeError CompetitionTracker :=
  _ ← reject_if (negb (bool_decide (vt_spent_order_outpoint candidate = ct_outpoint t)))
        WrongCompetitionOutpoint;
  kind ← match vt_path candidate with
         | PathBuy => Ok KindBuy
         | PathCancel => Ok KindCancel
         | PathList => Err InvalidCandidateState
         end;
  CompetitionTracker_submit t (vt_txid candidate) kind.

Definition CompetitionTracker_mark_pending (t : CompetitionTracker) (txid : bytes)
    : result TradeError CompetitionTracker :=
  '(kind, status) ← ok_or (ct_candidates t !! txid) InvalidCandidateState;
  _ ← reject_if (negb (bool_decide (status = Submitted))) InvalidCandidateState;
  Ok (mkCompetitionTracker (ct_outpoint t) (<[txid := (kind, Pending)]> (ct_candidates t))).

Definition CompetitionTracker_confirm (t : CompetitionTracker) (winner : bytes) (height : Z)
    : result TradeError CompetitionTracker :=
  _ ← match ct_candidates t !! winner with
      | Some (_, Submitted) | Some (_, Pending) => Ok tt
      | _ => Err InvalidCandidateState
      end;
  Ok (mkCompetitionTracker (ct_outpoint t)
        (map_imap (fun txid (p : CandidateKind * CandidateStatus) =>
           Some (p.1, if bool_decide (txid = winner) then Confirmed height else Conflicted winner))
           (ct_candidates t))).

Definition CompetitionTracker_status (t : CompetitionTracker) (txid : bytes) : option CandidateStatus :=
  snd <$> ct_candidates t !! txid.

Definition CompetitionTracker_snapshot (t : CompetitionTracker) : CompetitionSnapshot :=
  mkCompetitionSnapshot (ct_outpoint t) "one_outpoint_bitcoin_confirmation_order" false
    ((fun p : bytes * (CandidateKind * CandidateStatus) => mkCandidateSnapshot p.1 p.2.1 p.2.2)
       <$> sorted_items (ct_candidates t)).

(** ** The tracker as a state machine *)

Inductive tracker_step : CompetitionTracker -> CompetitionTracker -> Prop :=
| step_submit t txid kind t' :
    CompetitionTracker_submit t txid kind = Ok t' -> tracker_step t t'
| step_submit_verified t v t' :
    CompetitionTracker_submit_verified t v = Ok t' -> tracker_step t t'
| step_mark_pending t txid t' :
    CompetitionTracker_mark_pending t txid = Ok t' -> tracker_step t t'
| step_confirm t winner height t' :
    CompetitionTracker_confirm t winner height = Ok t' -> tracker_step t t'.

(** Before confirmation every candidate is open; after it exactly the winner
    is confirmed and every other candidate names it. *)
Definition tracker_inv (t : CompetitionTracker) : Prop :=
  (forall txid k s, ct_candidates t !! txid = Some (k, s) -> s = Submitted \/ s = Pending) \/
  exists winner height k, ct_candidates t !! winner = Some (k, Confirmed height) /\
    forall txid k s, ct_candidates t !! txid = Some (k, s) ->
      (txid = winner /\ s = Confirmed height) \/ (txid <> winner /\ s = Conflicted winner).

Lemma tracker_inv_new op : tracker_inv (CompetitionTracker_new op).
Proof. left. intros txid k s. simpl. by rewrite lookup_empty. Qed.

(** What [submit] stores for a new candidate. *)
Lemma submit_Ok t txid kind t' :
  CompetitionTracker_submit t txid kind = Ok t' ->
  ct_candidates t !! txid = None /\ ct_outpoint t' = ct_outpoint t /\
  exists s, ct_candidates t' = <[txid := (kind, s)]> (ct_candidates t) /\
    ((s = Submitted /\ forall w k st, ct_candidates t !! w = Some (k, st) -> is_confirmed st = false) \/
     exists w k h, s = Conflicted w /\ ct_candidates t !! w = Some (k, Confirmed h)).
Proof.
  unfold CompetitionTracker_submit. intros H. repeat res_step. subst t'.
  apply bool_decide_eq_false in E. rewrite <- eq_None_not_Some in E.
  split; [done|]. split; [done|]. eexists. split; [done|].
  destruct (find_map _ _) as [w|] eqn:F; [right|left].
  - apply find_map_Some in F as ([w' [k st]] & Hin & Hf). simpl in Hf.
    apply elem_of_sorted_items in Hin. destruct st; simplify_eq/=. eauto.
  - split; [done|]. rewrite find_map_None in F. intros w k st Hw.
    apply elem_of_sorted_items in Hw. specialize (F _ Hw). simpl in F. by destruct (is_confirmed st).
Qed.

Lemma confirm_Ok t winner height t' :
  CompetitionTracker_confirm t winner height = Ok t' ->
  ct_outpoint t' = ct_outpoint t /\
  (exists k s, ct_candidates t !! winner = Some (k, s) /\ (s = Submitted \/ s = Pending)) /\
  forall txid, ct_candidates t' !! txid =
    (fun p : CandidateKind * CandidateStatus =>
       (p.1, if bool_decide (txid = winner) then Confirmed height else Conflicted winner))
    <$> ct_candidates t !! txid.
Proof.
  unfold CompetitionTracker_confirm. intros H. repeat res_step. subst t'. split; [done|]. split.
  - destruct (ct_candidates t !! winner) as [[k []]|]; naive_solver.
  - intros txid. simpl. rewrite map_lookup_imap. by destruct (ct_candidates t !! txid).
Qed.

Lemma tracker_inv_step t t' : tracker_inv t -> tracker_step t t' -> tracker_inv t'.
Proof.
  intros Hi Hs.
  assert (forall txid kind t', CompetitionTracker_submit t txid kind = Ok t' -> tracker_inv t') as Hsub.
  { intros txid kind t1 (Hn & _ & s & Hc & Hst)%submit_Ok. destruct Hi as [Hi|(w & h & k & Hw & Hi)].
    - left. rewrite Hc. intros txid' k' s' [[<- [= <- <-]]|[? Hl]]%lookup_insert_Some; [|eauto].
      destruct Hst as [[-> _]|(w & k1 & h & -> & Hw)]; [by left|]. destruct (Hi _ _ _ Hw); done.
    - right. assert (txid <> w) as Hne by congruence. exists w, h, k. rewrite Hc. split.
      { by rewrite lookup_insert_ne. }
      intros txid' k' s' [[<- [= <- <-]]|[? Hl]]%lookup_insert_Some; [|eauto].
      right. split; [done|]. destruct Hst as [[-> Hno]|(w' & k1 & h' & -> & Hw')].
      { by specialize (Hno _ _ _ Hw). }
      by destruct (Hi _ _ _ Hw') as [[-> _]|[_ ?]]. }
  destruct Hs as [t txid kind t' H|t v t' H|t txid t' H|t w h t' H].
  - eauto.
  - unfold CompetitionTracker_submit_verified in H. repeat res_step. eauto.
  - unfold CompetitionTracker_mark_pending in H. repeat res_step. destruct r as [k s]. repeat res_step.
    apply negb_false_iff, bool_decide_eq_true in E0. subst s t'. simpl.
    destruct Hi as [Hi|(w & h & k' & Hw & Hi)].
    + left. simpl. intros txid' k' s' [[<- [= <- <-]]|[? Hl]]%lookup_insert_Some; [by right|eauto].
    + by destruct (Hi _ _ _ E) as [[_ ?]|[_ ?]].
  - apply confirm_Ok in H as (_ & (k & s & Hw & _) & Hl). right. exists w, h, k. split.
    { by rewrite Hl, Hw, bool_decide_true. }
    intros txid k' s'. rewrite Hl. destruct (ct_candidates t !! txid) as [[k1 s1]|]; [|done].
    simpl. case_bool_decide; naive_solver.
Qed.

(** Once confirmed, always confirmed, and nothing else is ever confirmed. *)
Lemma tracker_confirmed_stable t t' w k h :
  tracker_inv t -> tracker_step t t' -> ct_candidates t !! w = Some (k, Confirmed h) ->
  ct_candidates t' !! w = Some (k, Confirmed h).
Proof.
  intros Hi Hs Hw.
  assert (forall txid kind t', CompetitionTracker_submit t txid kind = Ok t' ->
    ct_candidates t' !! w = Some (k, Confirmed h)) as Hsub.
  { intros txid kind t1 (Hn & _ & s & -> & _)%submit_Ok. rewrite lookup_insert_ne; [done|congruence]. }
  destruct Hs as [t txid kind t' H|t v t' H|t txid t' H|t w' h' t' H].
  - eauto.
  - unfold CompetitionTracker_submit_verified in H. repeat res_step. eauto.
  - unfold CompetitionTracker_mark_pending in H. repeat res_step. destruct r as [k' s]. repeat res_step.
    apply negb_false_iff, bool_decide_eq_true in E0. subst s t'. simpl.
    rewrite lookup_insert_ne; [done|]. congruence.
  - apply confirm_Ok in H as (_ & (k' & s & Hw' & Hopen) & _).
    destruct Hi as [Hi|(w1 & h1 & k1 & _ & Hi)]; [by destruct (Hi _ _ _ Hw)|].
    destruct (Hi _ _ _ Hw') as [[_ ->]|[_ ->]]; by destruct Hopen.
Qed.

Lemma tracker_inv_rtc t t' : tracker_inv t -> rtc tracker_step t t' -> tracker_inv t'.
Proof. intros Hi. induction 1; eauto using tracker_inv_step. Qed.

Lemma tracker_confirmed_rtc t t' w k h :
  tracker_inv t -> rtc tracker_step t t' -> ct_candidates t !! w = Some (k, Confirmed h) ->
  ct_candidates t' !! w = Some (k, Confirmed h).
Proof. intros Hi Hr. revert Hi. induction Hr; eauto using tracker_inv_step, tracker_confirmed_stable. Qed.
