(* ===== verification/TradingProperties.v ===== *)
(** * What the trading crate guarantees

    Agreement of the two verifiers, what an accepted trade pays to whom, the
    exclusion of buy and cancel, commitment and finalization, and the
    competition tracker. *)

From Stdlib Require Import ZArith Lia.
From S2P Require Import Prelude Bitcoin IssuanceTerms IssuerState Pow IssuerScript MintVerify.
From S2P Require Import Concrete IssuanceProperties Trading TradingPolicy Competition.
From stdpp Require Import list.
Local Open Scope Z_scope.

(** ** Shared lemmas *)

Section trade_lemmas.
Context {B : BitcoinLib} {BL : BitcoinLaws B} {P : BuildProfile}.

(** The checks of an accepting run, by path. *)
Definition trade_policy (req : TradeSigningRequest) (h : Z) (v : VerifiedTrade) : Prop :=
  match req with
  | RequestList r => list_policy r h v
  | RequestBuy r => buy_policy r h v
  | RequestCancel r => cancel_policy r h v
  end.

Lemma agent_policy req h v : AgentTradingApi_verify req h = Ok v <-> trade_policy req h v.
Proof. destruct req; [apply agent_list_policy|apply agent_buy_policy|apply agent_cancel_policy]. Qed.

Lemma wallet_policy req h v : WalletTradingApi_verify req h = Ok v <-> trade_policy req h v.
Proof. destruct req; [apply wallet_list_policy|apply wallet_buy_policy|apply wallet_cancel_policy]. Qed.

(** What [verified] records about its arguments. *)
Lemma verified_fields path l tx prevouts op f v :
  verified path l tx prevouts op f = Ok v ->
  vt_path v = path /\ vt_transaction v = tx /\ vt_prevouts v = prevouts /\
  vt_spent_order_outpoint v = op /\ vt_fee_sat v = f /\ vt_txid v = compute_txid tx /\
  vt_seller_key v = lt_seller_key l /\ vt_input_index v = 0%nat /\
  sighash tx prevouts (vt_witness_script v) = Ok (vt_sighash v) /\
  match path with
  | PathList => vt_witness_script v = None /\ vt_control_block v = None
  | PathBuy => exists s cb si, buy_leaf_script l = Ok s /\ spend_info l = Ok si /\
      si_control_block si s = Some cb /\ vt_witness_script v = Some s /\ vt_control_block v = Some cb
  | PathCancel => exists s cb si, cancel_leaf_script l = Ok s /\ spend_info l = Ok si /\
      si_control_block si s = Some cb /\ vt_witness_script v = Some s /\ vt_control_block v = Some cb
  end.
Proof.
  unfold verified. intros H. destruct path; repeat res_step; subst; cbn; split_and!; try done.
  all: repeat res_step; simplify_eq; repeat res_step; simplify_eq; try done; by eexists _, _, _.
Qed.

Definition trade_listing (req : TradeSigningRequest) : ListingTerms :=
  match req with
  | RequestList r => lr_listing r
  | RequestBuy r => br_listing r
  | RequestCancel r => cr_listing r
  end.

(** The transaction of an accepted request, with the facts common to all paths. *)
Lemma trade_policy_tx req h v :
  trade_policy req h v ->
  ListingTerms_validate (trade_listing req) = Ok tt /\
  exists path raw first,
    spend_policy (trade_listing req) raw (vt_transaction v) (vt_prevouts v)
      (vt_spent_order_outpoint v) first (vt_fee_sat v) /\
    verified path (trade_listing req) (vt_transaction v) (vt_prevouts v)
      (vt_spent_order_outpoint v) (vt_fee_sat v) = Ok v.
Proof.
  destruct req as [r|r|r]; cbn.
  - intros (Hv & _ & _ & tx & f & order & _ & Hsp & _ & _ & Hver). split; [done|].
    pose proof (verified_fields _ _ _ _ _ _ _ Hver) as (_ & E1 & E2 & E3 & E4 & _).
    exists PathList, (lr_raw_tx_hex r). eexists. rewrite E1, E2, E3, E4. by split.
  - intros (Hv & _ & _ & _ & _ & _ & _ & tx & f & order & _ & Hsp & _ & _ & Hver). split; [done|].
    pose proof (verified_fields _ _ _ _ _ _ _ Hver) as (_ & E1 & E2 & E3 & E4 & _).
    exists PathBuy, (br_raw_tx_hex r). eexists. rewrite E1, E2, E3, E4. by split.
  - intros (Hv & _ & _ & _ & tx & f & order & _ & Hsp & _ & _ & _ & Hver). split; [done|].
    pose proof (verified_fields _ _ _ _ _ _ _ Hver) as (_ & E1 & E2 & E3 & E4 & _).
    exists PathCancel, (cr_raw_tx_hex r). eexists. rewrite E1, E2, E3, E4. by split.
Qed.

(** What the request asks to be signed, whatever its path. *)
Definition trade_raw (req : TradeSigningRequest) : string :=
  match req with
  | RequestList r => lr_raw_tx_hex r
  | RequestBuy r => br_raw_tx_hex r
  | RequestCancel r => cr_raw_tx_hex r
  end.
Definition trade_prevouts (req : TradeSigningRequest) : list TxOut :=
  match req with
  | RequestList r => lr_prevouts r
  | RequestBuy r => br_prevouts r
  | RequestCancel r => cr_prevouts r
  end.
Definition trade_spends (req : TradeSigningRequest) : OutPoint :=
  match req with
  | RequestList r => ir_outpoint (lt_receipt (lr_listing r))
  | RequestBuy r => br_order_outpoint r
  | RequestCancel r => cr_order_outpoint r
  end.

(** The same, with the request's own fields. *)
Lemma trade_policy_spend req h v :
  trade_policy req h v ->
  vt_txid v = compute_txid (vt_transaction v) /\
  exists first, spend_policy (trade_listing req) (trade_raw req) (vt_transaction v) (trade_prevouts req)
    (trade_spends req) first (vt_fee_sat v).
Proof.
  destruct req as [r|r|r]; cbn.
  - intros (_ & _ & _ & tx & f & order & _ & Hsp & _ & _ & Hver).
    apply verified_fields in Hver as (_ & -> & _ & _ & -> & -> & _). eauto.
  - intros (_ & _ & _ & _ & _ & _ & _ & tx & f & order & _ & Hsp & _ & _ & Hver).
    apply verified_fields in Hver as (_ & -> & _ & _ & -> & -> & _). eauto.
  - intros (_ & _ & _ & _ & tx & f & order & _ & Hsp & _ & _ & _ & Hver).
    apply verified_fields in Hver as (_ & -> & _ & _ & -> & -> & _). eauto.
Qed.

(** Two listings of the same request prefix have one order outpoint. *)
Lemma list_policy_txid r h1 h2 v1 v2 :
  list_policy r h1 v1 -> list_policy r h2 v2 -> vt_txid v1 = vt_txid v2.
Proof.
  intros (_ & _ & _ & tx1 & f1 & o1 & _ & [D1 _ _ _ _] & _ & _ & V1).
  intros (_ & _ & _ & tx2 & f2 & o2 & _ & [D2 _ _ _ _] & _ & _ & V2).
  apply verified_fields in V1 as (_ & _ & _ & _ & _ & -> & _).
  apply verified_fields in V2 as (_ & _ & _ & _ & _ & -> & _). congruence.
Qed.

Lemma sumZ_first (l : list TxOut) o :
  l !! 0%nat = Some o -> sumZ (txo_value <$> l) = txo_value o + sumZ (txo_value <$> tail l).
Proof. destruct l; simpl; by intros [= ->]. Qed.

(** Changing a witness changes neither txid nor sighash nor the inputs' number. *)
Lemma strip_set_witness tx i w : strip_witness (set_witness tx i w) = strip_witness tx.
Proof.
  unfold strip_witness, set_witness; simpl. f_equal. apply list_eq. intros j.
  rewrite !list_lookup_fmap. destruct (decide (i = j)) as [->|].
  - rewrite list_lookup_alter_eq. by destruct (tx_input tx !! j).
  - by rewrite list_lookup_alter_ne.
Qed.

Lemma txid_set_witness tx i w : compute_txid (set_witness tx i w) = compute_txid tx.
Proof. by rewrite txid_no_witness, strip_set_witness, <- txid_no_witness. Qed.

Lemma sighash_set_witness tx i w prevouts leaf :
  sighash (set_witness tx i w) prevouts leaf = sighash tx prevouts leaf.
Proof.
  unfold sighash. destruct leaf as [s|].
  - by rewrite script_sighash_no_witness, strip_set_witness, <- script_sighash_no_witness.
  - by rewrite key_sighash_no_witness, strip_set_witness, <- key_sighash_no_witness.
Qed.

(** [verify_finalized] on the approved transaction with the witness [w]. *)
Lemma verify_finalized_set_witness v w i0 :
  vt_txid v = compute_txid (vt_transaction v) -> vt_input_index v = 0%nat ->
  tx_input (vt_transaction v) !! 0%nat = Some i0 ->
  sighash (vt_transaction v) (vt_prevouts v) (vt_witness_script v) = Ok (vt_sighash v) ->
  verify_finalized (set_witness (vt_transaction v) 0 w) v =
    let expected_len := if bool_decide (vt_path v = PathList) then 1%nat else 3%nat in
    _ ← try_ (reject_if (negb (length w =? expected_len)%nat) FinalTransactionMismatch);
    mismatch ← witness_mismatch v w;
    _ ← try_ (reject_if mismatch FinalTransactionMismatch);
    let sig := default [] (w !! 0%nat) in
    try_ (_ ← reject_if (negb (schnorr_sig_valid sig)) InvalidSellerSignature;
          reject_if (negb (verify_schnorr sig (vt_sighash v) (vt_seller_key v))) InvalidSellerSignature).
Proof.
  intros Ht Hi H0 Hs. unfold verify_finalized. rewrite txid_set_witness, Hi, sighash_set_witness, Hs.
  assert (tx_input (set_witness (vt_transaction v) 0 w) !! 0%nat =
    Some (mkTxIn (txi_previous_output i0) (txi_script_sig i0) (txi_sequence i0) w)) as ->.
  { unfold set_witness. cbn [tx_input]. by rewrite list_lookup_alter_eq, H0. }
  assert (length (tx_input (set_witness (vt_transaction v) 0 w)) = length (tx_input (vt_transaction v))) as ->.
  { unfold set_witness. cbn [tx_input]. apply length_alter. }
  rewrite (bool_decide_true (compute_txid _ = _)), Nat.eqb_refl by done. cbn [negb orb reject_if]. res_cbn.
  cbv zeta. cbn [txi_witness]. by rewrite (bool_decide_true (vt_sighash v = vt_sighash v)).
Qed.

(** The two leaves verify against the order output they were built for. *)
Lemma leaf_committed l si d s :
  ListingTerms_validate l = Ok tt -> spend_info l = Ok si ->
  buy_leaf_script l = Ok s \/ cancel_leaf_script l = Ok s -> si_control_block si s = Some d ->
  exists c, control_decode d = Some c /\ verify_taproot_commitment c (si_output_key si) s = true.
Proof.
  intros Hv Hsi Hs Hd. destruct (leaves_valid l Hv) as (b & k & si' & Hb & Hk & Hsi' & Hf).
  rewrite Hsi in Hsi'. injection Hsi' as <-. assert ((1%nat, s) ∈ [(1%nat, b); (1%nat, k)]) as Hin.
  { rewrite !elem_of_cons. destruct Hs as [Hs|Hs]; [rewrite Hb in Hs|rewrite Hk in Hs]; injection Hs as ->; auto. }
  destruct (control_block_verifies _ _ _ _ _ Hf Hin) as (cb & c & Hcb & Hc & Hver).
  simplify_eq. eauto.
Qed.
End trade_lemmas.

(** ** Sample data *)

Definition raw_hex (tx : Transaction) : string := String.string_of_list_byte (toy_serialize tx).

(** A listing of the item of the sample mint, with every output of the protocol. *)
Definition trade_receipt : ItemReceipt := Eval vm_compute in
  mkItemReceipt Signet (mkOutPoint (compute_txid sample_mint) 0) (item_owner_script sample_owner) 1000
    (terms_hash sample_terms) (it_item_id sample_terms) (sample_ic 0) 0 0.
Definition trade_terms : ListingTerms := Eval vm_compute in
  mkListingTerms 1 Signet trade_receipt sample_owner [x51; xaa] 5000 [x51; xbb] 200 [x51; xcc] 100 900.
Definition trade_proof : IssuanceProof := Eval vm_compute in
  mkIssuanceProof (raw_hex sample_mint) sample_outpoint (sample_utxo 0) sample_terms.

Definition unsigned_input (op : OutPoint) (sequence : Z) : TxIn := mkTxIn op [] sequence [].
Definition funding_outpoint : OutPoint := mkOutPoint (replicate 32 x22) 1.

Definition trade_order : TxOut := Eval vm_compute in default TxOut_NULL (result_ok (order_txout trade_terms)).
Definition list_tx : Transaction := Eval vm_compute in
  mkTransaction 2 0 [unsigned_input (ir_outpoint trade_receipt) 0; unsigned_input funding_outpoint 0]
    [trade_order; mkTxOut 400 [x51; xcc]].
Definition trade_list : ListRequest := Eval vm_compute in
  mkListRequest trade_terms trade_proof (raw_hex list_tx) [ItemReceipt_txout trade_receipt; mkTxOut 500 [x01]].

Definition order_outpoint : OutPoint := Eval vm_compute in mkOutPoint (compute_txid list_tx) 0.
Definition buyer : bytes := x04 :: replicate 31 x06.
Definition buy_tx : Transaction := Eval vm_compute in
  mkTransaction 2 0 [unsigned_input order_outpoint 0; unsigned_input funding_outpoint 0]
    [mkTxOut 1000 (item_script buyer); mkTxOut 5000 [x51; xaa]; mkTxOut 200 [x51; xbb];
     mkTxOut 300 (item_script buyer)].
Definition buy_prevouts : list TxOut := [trade_order; mkTxOut 6000 [x02]].
Definition buy_request (sig : bytes) : BuyRequest :=
  mkBuyRequest trade_terms trade_list order_outpoint buyer 90 (raw_hex buy_tx) buy_prevouts sig.
Definition buyer_sig : bytes := Eval vm_compute in
  default [] (result_ok (buyer_ownership_message (buy_request []))) ++ buyer.
Definition trade_buy : BuyRequest := Eval vm_compute in buy_request buyer_sig.

Definition cancel_tx : Transaction := Eval vm_compute in
  mkTransaction 2 100 [unsigned_input order_outpoint 0; unsigned_input funding_outpoint 0]
    [mkTxOut 1000 [x51; xcc]].
Definition trade_cancel : CancelRequest := Eval vm_compute in
  mkCancelRequest trade_terms trade_list order_outpoint (raw_hex cancel_tx) [trade_order; mkTxOut 10 [x02]].

Definition empty_trade : VerifiedTrade :=
  mkVerifiedTrade PathList [] [] 0 OutPoint_null 0 [] (mkTransaction 0 0 [] []) [] [] None None.
Definition buy_verified : VerifiedTrade := Eval vm_compute in
  default empty_trade (result_ok (WalletTradingApi_verify_buy trade_buy 50)).
Definition cancel_verified : VerifiedTrade := Eval vm_compute in
  default empty_trade (result_ok (WalletTradingApi_verify_cancel trade_cancel 100)).
Definition list_verified : VerifiedTrade := Eval vm_compute in
  default empty_trade (result_ok (WalletTradingApi_verify_list trade_list 50)).

Section trade_promises.
Context {B : BitcoinLib}.

(** [op] is the first output of the transaction the listing request spells, whose
    own output there is the order output of the listing. *)
Definition order_of_listing (l : ListingTerms) (r : ListRequest) (op : OutPoint) (order : TxOut) : Prop :=
  lr_listing r = l /\ order_txout l = Ok order /\
  exists tx change, hex_decode (lr_raw_tx_hex r) = Some (tx_serialize tx) /\
    op = mkOutPoint (compute_txid tx) 0 /\ tx_output tx = [order; change].

(** The promise of each path: when it may be signed, what it spends, what it pays. *)
Definition trade_promise (req : TradeSigningRequest) (h : Z) (tx : Transaction) : Prop :=
  let l := trade_listing req in
  let expiry := lt_expiry_height l in
  let item := ir_item_sat_amount (lt_receipt l) in
  match req with
  | RequestList r =>
      h < expiry /\ tx_lock_time tx = 0 /\
      lr_prevouts r !! 0%nat = Some (mkTxOut item (item_owner_script (lt_seller_key l))) /\
      exists order change, order_txout l = Ok order /\ tx_output tx = [order; change] /\
        txo_value order = item /\ txo_script_pubkey change = lt_cancel_script l
  | RequestBuy r =>
      h < expiry /\ h <= br_proposal_expiry_height r <= expiry /\ tx_lock_time tx = 0 /\
      (exists order, br_prevouts r !! 0%nat = Some order /\
         order_of_listing l (br_list_request r) (br_order_outpoint r) order) /\
      (exists msg, buyer_ownership_message r = Ok msg /\
         verify_schnorr (br_buyer_ownership_signature r) msg (br_buyer_key r) = true) /\
      exists change, tx_output tx =
        [mkTxOut item (item_owner_script (br_buyer_key r));
         mkTxOut (lt_price_sat l) (lt_seller_payout_script l);
         mkTxOut (lt_creator_fee_sat l) (lt_creator_fee_script l)] ++ change /\
        (length change <= 1)%nat /\
        Forall (fun o => txo_script_pubkey o = item_owner_script (br_buyer_key r)) change
  | RequestCancel r =>
      expiry <= h /\ expiry <= tx_lock_time tx /\
      Forall (fun i => txi_sequence i <> 2 ^ 32 - 1) (tx_input tx) /\
      (exists order, cr_prevouts r !! 0%nat = Some order /\
         order_of_listing l (cr_list_request r) (cr_order_outpoint r) order) /\
      exists change, tx_output tx = mkTxOut item (lt_cancel_script l) :: change /\
        (length change <= 1)%nat /\ Forall (fun o => txo_script_pubkey o = lt_cancel_script l) change
  end.

Context {BL : BitcoinLaws B} {P : BuildProfile}.

Lemma optional_change_shape script change :
  optional_change script change ->
  (length change <= 1)%nat /\ Forall (fun o => txo_script_pubkey o = script) change.
Proof. intros [->|(o & -> & Ho)]; simpl; split; try lia; by repeat constructor. Qed.

Lemma list_policy_order l r h v op :
  list_policy r h v -> lr_listing r = l -> op = mkOutPoint (vt_txid v) 0 ->
  exists order, order_txout l = Ok order /\ order_of_listing l r op order.
Proof.
  intros (_ & _ & _ & tx & f & order & Ho & [D _ _ _ _] & _ & (c & Hout & _) & Hver) <- ->.
  apply verified_fields in Hver as (_ & _ & _ & _ & _ & -> & _).
  apply decode_unsigned_Ok in D as [D _]. exists order. split; [done|].
  split; [done|]. split; [done|]. by exists tx, c.
Qed.

Lemma trade_policy_promise req h v :
  trade_policy req h v -> trade_promise req h (vt_transaction v).
Proof.
  destruct req as [r|r|r]; unfold trade_promise; cbn.
  - intros (Hval & _ & Hh & tx & f & order & Ho & [_ _ _ [_ F2] _] & L & (c & Hout & Hc) & Hver).
    apply verified_fields in Hver as (_ & -> & _). split_and!; try done.
    + apply validate_Ok in Hval as (_ & _ & _ & _ & _ & _ & _ & _ & _ & _ & _ & <-). exact F2.
    + destruct (order_txout_valid _ Hval) as (si & _ & Ho'). exists order, c.
      split_and!; [done..| |done]. rewrite Ho in Ho'. by injection Ho' as ->.
  - intros (Hval & Hl & (d & Hd & Hop) & H1 & H2 & H3 & HB & tx & f & order & Ho & [_ _ _ [_ F2] _] & L & (c & Hc & Hout) & Hver).
    apply verified_fields in Hver as (_ & -> & _). apply verify_buyer_Ok in HB as (_ & HB).
    destruct (list_policy_order _ _ _ _ _ Hd Hl Hop) as (order' & Ho' & Hlist).
    assert (order' = order) as -> by congruence. apply optional_change_shape in Hc as [Hc1 Hc2].
    split_and!; eauto. by exists c.
  - intros (Hval & Hl & (d & Hd & Hop) & H1 & tx & f & order & Ho & [_ _ _ [_ F2] _] & L & Q & (c & Hc & Hout) & Hver).
    apply verified_fields in Hver as (_ & -> & _).
    destruct (list_policy_order _ _ _ _ _ Hd Hl Hop) as (order' & Ho' & Hlist).
    assert (order' = order) as -> by congruence. apply optional_change_shape in Hc as [Hc1 Hc2].
    split_and!; eauto. apply Forall_forall. intros i Hi%list_elem_of_In Hs.
    apply not_true_iff_false in Q. apply Q, existsb_exists. exists i. split; [done|].
    unfold Sequence_is_final. by rewrite Hs.
Qed.
End trade_promises.

(** ** Claims *)

(** C8: the agent's verifier and the wallet's verifier, which make their checks
    independently and in different orders, accept the same signing requests at the same
    heights with the same result. *)
Theorem agent_wallet_agree {B : BitcoinLib} {BL : BitcoinLaws B} {P : BuildProfile} req h v :
  AgentTradingApi_verify req h = Ok v <-> WalletTradingApi_verify req h = Ok v.
Proof. by rewrite agent_policy, wallet_policy. Qed.

Lemma agent_wallet_agree_witness :
  AgentTradingApi_verify (RequestBuy trade_buy) 50 = Ok buy_verified.
Proof.
  apply (agent_wallet_agree (B := toy_lib) (P := release_profile)). vm_compute. reflexivity.
Defined.

(** C9: every trade the wallet accepts keeps its listing.  The transaction is the one the
    request spells, of version 2, with at least two distinct unsigned inputs, one previous
    output each, spending the receipt (list) or the order outpoint (buy, cancel) first; its
    inputs pay for exactly its outputs and a network fee between 1 and the committed
    maximum.  A list or buy is below the expiry height and a cancel at or above it; a buy or
    cancel spends the first output of the listing transaction of its own listing; the
    outputs are exactly those of the path: the order and the seller's change, or item,
    price and creator fee with the buyer's change, or the item back to the seller; and a
    buy carries the buyer's signature of the proposal. *)
Theorem accepted_trade_keeps_listing {B : BitcoinLib} {BL : BitcoinLaws B} {P : BuildProfile} req h v :
  Forall TxOut_wf (trade_prevouts req) -> Forall TxOut_wf (tx_output (vt_transaction v)) ->
  WalletTradingApi_verify req h = Ok v ->
  let tx := vt_transaction v in
  hex_decode (trade_raw req) = Some (tx_serialize tx) /\ vt_txid v = compute_txid tx /\
  tx_version tx = 2 /\ (2 <= length (tx_input tx))%nat /\
  length (tx_input tx) = length (trade_prevouts req) /\
  NoDup (txi_previous_output <$> tx_input tx) /\
  Forall (fun i => txi_script_sig i = [] /\ txi_witness i = []) (tx_input tx) /\
  txi_previous_output <$> tx_input tx !! 0%nat = Some (trade_spends req) /\
  sumZ (txo_value <$> trade_prevouts req) = sumZ (txo_value <$> tx_output tx) + vt_fee_sat v /\
  1 <= vt_fee_sat v <= lt_max_network_fee_sat (trade_listing req) /\
  trade_promise req h tx.
Proof.
  intros Hwi Hwo Hv tx. apply wallet_policy in Hv. pose proof (trade_policy_promise _ _ _ Hv) as Hpr.
  apply trade_policy_spend in Hv as (Htx & first & [D V (I1 & I2 & I3) [F1 _] Hf]).
  apply decode_unsigned_Ok in D as [D1 D2]. apply fee_Ok in Hf as (Hs & Hb & _); [|done..].
  apply bool_decide_eq_true in F1. split_and!; try done; lia.
Qed.

Lemma accepted_trade_keeps_listing_witness :
  trade_promise (RequestList trade_list) 50 list_tx /\
  trade_promise (RequestBuy trade_buy) 50 buy_tx /\
  trade_promise (RequestCancel trade_cancel) 100 cancel_tx /\ vt_fee_sat buy_verified = 500.
Proof.
  split_and!; [| | |reflexivity].
  - apply (accepted_trade_keeps_listing (B := toy_lib) (P := release_profile) (RequestList trade_list) 50 list_verified).
    + by apply (bool_decide_unpack _); vm_compute.
    + by apply (bool_decide_unpack _); vm_compute.
    + vm_compute. reflexivity.
  - apply (accepted_trade_keeps_listing (B := toy_lib) (P := release_profile) (RequestBuy trade_buy) 50 buy_verified).
    + by apply (bool_decide_unpack _); vm_compute.
    + by apply (bool_decide_unpack _); vm_compute.
    + vm_compute. reflexivity.
  - apply (accepted_trade_keeps_listing (B := toy_lib) (P := release_profile) (RequestCancel trade_cancel) 100 cancel_verified).
    + by apply (bool_decide_unpack _); vm_compute.
    + by apply (bool_decide_unpack _); vm_compute.
    + vm_compute. reflexivity.
Defined.

(** An accepted buy pays everyone: output 0 gives the item to the buyer, output 1 the
    price to the seller, output 2 the creator's fee, anything else goes back to the buyer;
    it spends the order output, and what the buyer's inputs put in is exactly price,
    creator fee, change and a network fee between 1 and the committed maximum. *)
Theorem buy_pays_everyone {B : BitcoinLib} {BL : BitcoinLaws B} {P : BuildProfile} r h v :
  Forall TxOut_wf (br_prevouts r) -> Forall TxOut_wf (tx_output (vt_transaction v)) ->
  WalletTradingApi_verify_buy r h = Ok v ->
  let l := br_listing r in
  exists change,
    optional_change (item_script (br_buyer_key r)) change /\
    tx_output (vt_transaction v) =
      [mkTxOut (ir_item_sat_amount (lt_receipt l)) (item_script (br_buyer_key r));
       mkTxOut (lt_price_sat l) (lt_seller_payout_script l);
       mkTxOut (lt_creator_fee_sat l) (lt_creator_fee_script l)] ++ change /\
    txi_previous_output <$> tx_input (vt_transaction v) !! 0%nat = Some (br_order_outpoint r) /\
    sumZ (txo_value <$> tail (br_prevouts r)) =
      lt_price_sat l + lt_creator_fee_sat l + sumZ (txo_value <$> change) + vt_fee_sat v /\
    1 <= vt_fee_sat v <= lt_max_network_fee_sat l.
Proof.
  intros Hwi Hwo Hv l.
  apply wallet_buy_policy in Hv as (Hval & _ & _ & _ & _ & _ & _ & tx & f & order & Ho & [_ _ _ [F1 F2] Hf] & _ & S & Hver).
  apply verified_fields in Hver as (_ & <- & _ & _ & <- & _). fold l in Hf, S, Ho, Hval.
  destruct S as (change & Hch & Hout). exists change. split; [done|]. split; [done|].
  split; [by apply bool_decide_eq_true in F1|].
  apply fee_Ok in Hf as (Hsum & Hb & _); [|done..].
  destruct (order_txout_valid l Hval) as (si & _ & Ho'). rewrite Ho in Ho'. injection Ho' as ->.
  rewrite (sumZ_first _ _ F2), Hout, fmap_app, sumZ_app in Hsum. simpl in Hsum. lia.
Qed.

Lemma buy_pays_everyone_witness :
  exists change,
    optional_change (item_script buyer) change /\
    tx_output (vt_transaction buy_verified) =
      [mkTxOut 1000 (item_script buyer); mkTxOut 5000 [x51; xaa]; mkTxOut 200 [x51; xbb]] ++ change /\
    txi_previous_output <$> tx_input (vt_transaction buy_verified) !! 0%nat = Some order_outpoint /\
    sumZ (txo_value <$> tail buy_prevouts) = 5000 + 200 + sumZ (txo_value <$> change) + vt_fee_sat buy_verified /\
    1 <= vt_fee_sat buy_verified <= 900.
Proof.
  apply (buy_pays_everyone (B := toy_lib) (P := release_profile) trade_buy 50 buy_verified).
  - apply (bool_decide_unpack _). by vm_compute.
  - apply (bool_decide_unpack _). by vm_compute.
  - vm_compute. reflexivity.
Defined.

(** Buy and cancel never overlap in time and always compete for one output: when a buy
    and a cancel of the same listing transaction are both acceptable, the buy's height is
    strictly below the cancel's, and both spend the order outpoint of the listing. *)
Theorem buy_cancel_exclusive {B : BitcoinLib} {BL : BitcoinLaws B} {P : BuildProfile} rb rc h1 h2 v1 v2 :
  br_list_request rb = cr_list_request rc ->
  WalletTradingApi_verify_buy rb h1 = Ok v1 -> WalletTradingApi_verify_cancel rc h2 = Ok v2 ->
  h1 < lt_expiry_height (br_listing rb) <= h2 /\
  vt_spent_order_outpoint v1 = vt_spent_order_outpoint v2 /\
  lt_expiry_height (br_listing rb) <= tx_lock_time (vt_transaction v2).
Proof.
  intros Hr Hb Hc.
  apply wallet_buy_policy in Hb as (_ & Hl1 & (d1 & Hp1 & Ho1) & Hh1 & _ & _ & _ & tx1 & f1 & or1 & _ & _ & _ & _ & V1).
  apply wallet_cancel_policy in Hc as (_ & Hl2 & (d2 & Hp2 & Ho2) & Hh2 & tx2 & f2 & or2 & _ & _ & Hlock & _ & _ & V2).
  apply verified_fields in V1 as (_ & _ & _ & -> & _). apply verified_fields in V2 as (_ & -> & _ & -> & _).
  assert (br_listing rb = cr_listing rc) as E by congruence. rewrite E in *.
  split; [lia|]. split; [|done]. rewrite Ho1, Ho2. rewrite Hr in Hp1.
  by rewrite (list_policy_txid _ _ _ _ _ Hp1 Hp2).
Qed.

Lemma buy_cancel_exclusive_witness :
  50 < 100 <= 100 /\
  vt_spent_order_outpoint buy_verified = vt_spent_order_outpoint cancel_verified /\
  100 <= tx_lock_time (vt_transaction cancel_verified).
Proof.
  apply (buy_cancel_exclusive (B := toy_lib) (P := release_profile) trade_buy trade_cancel).
  - reflexivity.
  - vm_compute. reflexivity.
  - vm_compute. reflexivity.
Defined.

(** Every accepted trade, on any path, starts from a genuine item: the listing's
    receipt is the item output of a transaction that satisfies the mint policy for the
    proof's issuance terms, and that output belongs to the seller's key. *)
Theorem accepted_trade_has_provenance {B : BitcoinLib} {BL : BitcoinLaws B} {P : BuildProfile} r h v :
  (forall mint, decode_transaction (ip_raw_mint_tx_hex (lr_issuance_proof r)) = Ok mint ->
     Forall TxOut_wf (tx_output mint)) ->
  WalletTradingApi_verify_list r h = Ok v ->
  let proof := lr_issuance_proof r in
  let receipt := lt_receipt (lr_listing r) in
  exists mint vm,
    decode_transaction (ip_raw_mint_tx_hex proof) = Ok mint /\
    mint_policy mint (ip_issuer_outpoint proof) (ip_issuer_utxo proof) (ip_terms proof) vm /\
    ir_outpoint receipt = mkOutPoint (compute_txid mint) (Z.of_nat (vm_item_output_index vm)) /\
    tx_output mint !! vm_item_output_index vm = Some (ItemReceipt_txout receipt) /\
    ir_terms_hash receipt = terms_hash (ip_terms proof) /\
    mw_owner_key (vm_witness vm) = lt_seller_key (lr_listing r).
Proof.
  intros Hrep Hv proof receipt. apply wallet_list_policy in Hv as (Hval & Hrec & _).
  unfold verify_issuance_receipt in Hrec. fold proof in Hrec. repeat res_step.
  apply negb_false_iff, bool_decide_eq_true in Hrec. fold receipt in Hrec.
  exists r0, r1. split; [done|]. apply verify_mint_policy in E0; [|by apply Hrep]. split; [done|].
  unfold from_verified_mint in E1. repeat res_step. autorewrite with guards in E2. destruct_ex.
  subst r2. rewrite <- Hrec. cbn. split; [done|]. unfold ItemReceipt_txout; cbn.
  split; [rewrite H0; by destruct (vm_item_output r1)|].
  split; [done|]. apply validate_Ok in Hval as (_ & _ & _ & _ & _ & _ & _ & _ & _ & _ & _ & Hspk).
  fold receipt in Hspk. rewrite <- Hrec in Hspk. cbn in Hspk.
  destruct (mp_item_output _ _ _ _ _ E0) as [[(o & Ho & Hs) _] _].
  assert (o = vm_item_output r1) as -> by congruence.
  unfold item_owner_script, p2tr_output_script in *. congruence.
Qed.

Lemma accepted_trade_has_provenance_witness :
  exists mint vm,
    decode_transaction (raw_hex sample_mint) = Ok mint /\
    mint_policy mint sample_outpoint (sample_utxo 0) sample_terms vm /\
    ir_outpoint trade_receipt = mkOutPoint (compute_txid mint) (Z.of_nat (vm_item_output_index vm)) /\
    tx_output mint !! vm_item_output_index vm = Some (ItemReceipt_txout trade_receipt) /\
    ir_terms_hash trade_receipt = terms_hash sample_terms /\
    mw_owner_key (vm_witness vm) = sample_owner.
Proof.
  apply (accepted_trade_has_provenance (B := toy_lib) (P := release_profile) trade_list 50 list_verified).
  - intros mint Hm.
    assert (decode_transaction (raw_hex sample_mint) = Ok sample_mint) as Hd by (vm_compute; reflexivity).
    assert (Ok (E := TradeError) sample_mint = Ok mint) as Hd' by (rewrite <- Hd; exact Hm).
    injection Hd' as <-. by apply (bool_decide_unpack _); vm_compute.
  - vm_compute. reflexivity.
Defined.

(** A listing commitment binds every field of the listing: valid, well-formed listings
    with equal commitments are equal, unless their encodings collide under SHA-256. *)
Theorem listing_commitment_binds {B : BitcoinLib} l1 l2 c :
  ListingTerms_wf l1 -> ListingTerms_wf l2 ->
  ListingTerms_commitment l1 = Ok c -> ListingTerms_commitment l2 = Ok c ->
  l1 = l2 \/ sha256_collision (ListingTerms_encoding l1) (ListingTerms_encoding l2).
Proof.
  intros W1 W2 H1 H2. unfold ListingTerms_commitment, ListingTerms_canonical_bytes in *.
  repeat res_step. subst. symmetry in H2.
  apply sha256_inj_or_collision in H2 as [H|H]; [left|right; done].
  by apply ListingTerms_encoding_inj.
Qed.

Lemma listing_commitment_binds_witness :
  trade_terms = trade_terms \/
  sha256_collision (ListingTerms_encoding trade_terms) (ListingTerms_encoding trade_terms).
Proof.
  apply (listing_commitment_binds (B := toy_lib) trade_terms trade_terms
           (default [] (result_ok (ListingTerms_commitment trade_terms)))).
  - by apply (bool_decide_unpack _); vm_compute.
  - by apply (bool_decide_unpack _); vm_compute.
  - vm_compute. reflexivity.
  - vm_compute. reflexivity.
Defined.

(** Finalization accepts exactly valid seller signatures: for an accepted trade,
    [apply_trade_signature] always returns a transaction, and [verify_finalized] accepts it
    exactly when the signature is well-formed and verifies for the approved sighash under the
    seller's key; for buy and cancel the revealed leaf is committed by the order output. *)
Theorem finalize_accepts_seller_signature {B : BitcoinLib} {BL : BitcoinLaws B} {P : BuildProfile} req h v sig :
  WalletTradingApi_verify req h = Ok v ->
  exists tx, apply_trade_signature v sig = Ok tx /\
    (verify_finalized tx v = Ok tt <->
     schnorr_sig_valid sig = true /\ verify_schnorr sig (vt_sighash v) (vt_seller_key v) = true) /\
    compute_txid tx = vt_txid v /\ tx_output tx = tx_output (vt_transaction v) /\
    forall script, vt_witness_script v = Some script ->
      exists cb c order key, vt_control_block v = Some cb /\ order_txout (trade_listing req) = Ok order /\
        txo_script_pubkey order = p2tr_output_script key /\
        control_decode cb = Some c /\ verify_taproot_commitment c key script = true.
Proof.
  intros Hv. apply wallet_policy, trade_policy_tx in Hv as (Hval & path & raw & first & Hsp & Hver).
  pose proof (sp_inputs _ _ _ _ _ _ _ Hsp) as (Hn & _).
  apply verified_fields in Hver as (Hpath & _ & _ & _ & _ & Htxid & Hkey & Hidx & Hsig & Hscript).
  destruct (lookup_lt_is_Some_2 (tx_input (vt_transaction v)) 0) as [i0 Hi0]; [lia|].
  set (w := match vt_witness_script v, vt_control_block v with
            | Some s, Some cb => [sig; s; cb] | _, _ => [sig] end).
  assert (apply_trade_signature v sig = Ok (set_witness (vt_transaction v) 0 w)) as Happ.
  { unfold apply_trade_signature. rewrite Hidx, Hi0. unfold w.
    destruct path; destruct_ex; repeat match goal with H : vt_witness_script v = _ |- _ => rewrite H end;
      repeat match goal with H : vt_control_block v = _ |- _ => rewrite H end; done. }
  exists (set_witness (vt_transaction v) 0 w). split; [done|]. split_and!.
  - rewrite (verify_finalized_set_witness v w i0) by done. cbv zeta.
    assert (default [] (w !! 0%nat) = sig) as -> by (unfold w; by repeat case_match).
    destruct (schnorr_sig_valid sig) eqn:E1, (verify_schnorr sig _ _) eqn:E2; unfold w, witness_mismatch;
    destruct path; destruct_ex; repeat match goal with H : vt_witness_script v = _ |- _ => rewrite H end;
      repeat match goal with H : vt_control_block v = _ |- _ => rewrite H end; rewrite Hpath; cbn;
      repeat case_bool_decide; try done; cbn;
      (split; [done|by intros [? ?]]).
  - by rewrite txid_set_witness.
  - done.
  - intros script Hs. destruct (order_txout_valid _ Hval) as (si & Hsi & Ho).
    destruct path; destruct_ex; [congruence|..].
    all: assert (x1 = si) by congruence; assert (x = script) by congruence; subst x1 x.
    all: destruct (leaf_committed (trade_listing req) si x0 script) as (c & ? & ?); [by auto..|].
    all: by eexists x0, c, _, (si_output_key si).
Qed.

Definition seller_sig : bytes := Eval vm_compute in vt_sighash buy_verified ++ sample_owner.

Lemma finalize_accepts_seller_signature_witness :
  exists tx, apply_trade_signature buy_verified seller_sig = Ok tx /\
    verify_finalized tx buy_verified = Ok tt.
Proof.
  destruct (finalize_accepts_seller_signature (B := toy_lib) (P := release_profile)
              (RequestBuy trade_buy) 50 buy_verified seller_sig) as (tx & Ha & Hv & _).
  - vm_compute. reflexivity.
  - exists tx. split; [exact Ha|]. apply Hv. split; vm_compute; reflexivity.
Defined.

(** The tracker never confirms two candidates: in every reachable state either all
    candidates are open, or exactly one is confirmed and every other one is marked
    conflicted by it; a confirmed candidate keeps its kind and height forever. *)
Theorem competition_single_winner op t t' :
  rtc tracker_step (CompetitionTracker_new op) t -> rtc tracker_step t t' ->
  tracker_inv t' /\
  forall w k h, ct_candidates t !! w = Some (k, Confirmed h) ->
    ct_candidates t' !! w = Some (k, Confirmed h) /\
    forall txid s, CompetitionTracker_status t' txid = Some s -> txid <> w -> s = Conflicted w.
Proof.
  intros H1 H2. assert (tracker_inv t) as I1 by eauto using tracker_inv_rtc, tracker_inv_new.
  assert (tracker_inv t') as I2 by eauto using tracker_inv_rtc. split; [done|].
  intros w k h Hw. pose proof (tracker_confirmed_rtc _ _ _ _ _ I1 H2 Hw) as Hw'. split; [done|].
  intros txid s Hs Hne. unfold CompetitionTracker_status in Hs.
  apply fmap_Some in Hs as ([k' s'] & Hl & ->). simpl.
  destruct I2 as [I2|(w' & h' & k1 & _ & I2)]; [by destruct (I2 _ _ _ Hw')|].
  destruct (I2 _ _ _ Hw') as [[-> _]|[_ ?]]; [|done]. by destruct (I2 _ _ _ Hl) as [[-> _]|[_ ->]].
Qed.

Definition tracker0 : CompetitionTracker := CompetitionTracker_new order_outpoint.
Definition tracker1 : CompetitionTracker :=
  default tracker0 (result_ok (CompetitionTracker_submit tracker0 [x01] KindBuy)).
Definition tracker2 : CompetitionTracker :=
  default tracker0 (result_ok (CompetitionTracker_submit tracker1 [x02] KindCancel)).
Definition tracker3 : CompetitionTracker :=
  default tracker0 (result_ok (CompetitionTracker_confirm tracker2 [x02] 101)).

Lemma competition_single_winner_witness :
  tracker_inv tracker3 /\
  forall w k h, ct_candidates tracker3 !! w = Some (k, Confirmed h) ->
    ct_candidates tracker3 !! w = Some (k, Confirmed h) /\
    forall txid s, CompetitionTracker_status tracker3 txid = Some s -> txid <> w -> s = Conflicted w.
Proof.
  apply (competition_single_winner order_outpoint tracker3 tracker3).
  - eapply rtc_l; [apply (step_submit _ [x01] KindBuy), (is_ok_default _ tracker0); vm_compute; reflexivity|].
    eapply rtc_l; [apply (step_submit _ [x02] KindCancel), (is_ok_default _ tracker0); vm_compute; reflexivity|].
    eapply rtc_once. apply (step_confirm _ [x02] 101), (is_ok_default _ tracker0). vm_compute. reflexivity.
  - apply rtc_refl.
Defined.
