(* ===== verification/Indexer.v ===== *)
(** * The block indexer (src/crates/indexer/src/store.rs and types.rs)

    RocksDB is a key-value store with column families and atomic write
    batches; bincode records read back as they were written.  A column family
    is a finite map from its byte keys to its records, a batch is the list of
    its operations, and writing it applies them in order.  The key encodings,
    the in-block overlay, the undo log and the order of every read and write
    are the code's. *)

From Stdlib Require Import ZArith Lia.
From S2P Require Import Prelude Bitcoin IssuanceTerms IssuerState IssuerScript MintVerify Discover.
From stdpp Require Import list gmap.
Local Open Scope Z_scope.

Definition SCHEMA_VERSION : Z := 1.

Inductive ConfirmationStatus := ConfirmedStatus.
Inductive ObservationKind := DiscoveryOnly | WalletPolicyVerified.

Record RawEvidenceRef := mkRawEvidenceRef { re_block_hash : bytes; re_tx_index : Z }.

Record Provenance := mkProvenance {
  pv_block_hash : bytes;
  pv_block_height : Z;
  pv_txid : bytes;
  pv_tx_index : Z;
  pv_input_index : option Z;
  pv_output_index : option Z;
  pv_raw_evidence : RawEvidenceRef;
  pv_verifier_version : string;
  pv_confirmation : ConfirmationStatus;
  pv_observation : ObservationKind;
}.

Record Tip := mkTip { tip_hash : bytes; tip_height : Z }.

Record BlockRecord := mkBlockRecord {
  brec_hash : bytes;
  brec_height : Z;
  brec_previous_hash : bytes;
  brec_transaction_count : Z;
  brec_raw_block : bytes;
  brec_confirmation : ConfirmationStatus;
}.

Record TransactionRecord := mkTransactionRecord { tr_txid : bytes; tr_provenance : Provenance }.

Record UtxoRecord := mkUtxoRecord {
  ur_outpoint : OutPoint;
  ur_value_sat : Z;
  ur_script_pubkey : bytes;
  ur_provenance : Provenance;
}.

Record IssuanceTransitionRecord := mkIssuanceTransitionRecord {
  itr_terms_hash : bytes;
  itr_lane : Z;
  itr_sequence : Z;
  itr_remaining_before : Z;
  itr_issuer_outpoint : OutPoint;
  itr_item_outpoint : OutPoint;
  itr_successor_outpoint : option OutPoint;
  itr_item_commitment : bytes;
  itr_owner_key : bytes;
  itr_fee_sat : Z;
  itr_provenance : Provenance;
}.

Record CheckpointManifest := mkCheckpointManifest {
  cm_label : string;
  cm_schema_version : Z;
  cm_tip : Tip;
}.

Record ApplyStats := mkApplyStats {
  st_transactions : Z;
  st_created_outputs : Z;
  st_spent_outputs : Z;
  st_issuance_transitions : Z;
}.

Record UndoRecord := mkUndoRecord {
  un_block_hash : bytes;
  un_height : Z;
  un_previous_tip : option Tip;
  un_created_txids : list bytes;
  un_created_outpoints : list OutPoint;
  un_restored_utxos : list UtxoRecord;
  un_created_transitions : list (bytes * Z);
}.

Record IndexerConfig := mkIndexerConfig {
  cfg_verifier_version : string;
  cfg_issuance_terms : gmap bytes IssuanceTerms;
  cfg_durable_writes : bool;
}.

(** The errors the store itself raises; failures of RocksDB, bincode and the
    lock are not modelled. *)
Inductive IndexError :=
| Schema (found expected : Z)
| HeightMismatch (expected actual : Z)
| ParentMismatch (expected actual : bytes)
| DuplicateBlock (hash : bytes)
| DuplicateTransaction (txid : bytes)
| MissingPrevout (o : OutPoint)
| DuplicateInput (o : OutPoint)
| IndexEmpty
| UnknownAncestor (hash : bytes)
| InvalidReplacement (height : Z)
| EmptyCheckpointLabel.

(** ** The store *)

Record Db := mkDb {
  db_blocks : gmap bytes BlockRecord;
  db_heights : gmap bytes bytes;
  db_transactions : gmap bytes TransactionRecord;
  db_utxos : gmap bytes UtxoRecord;
  db_transitions : gmap bytes IssuanceTransitionRecord;
  db_undo : gmap bytes UndoRecord;
  db_checkpoints : gmap bytes CheckpointManifest;
  db_meta_tip : option Tip;
  db_meta_schema : option Z;
}.

Definition Db_empty : Db := mkDb ∅ ∅ ∅ ∅ ∅ ∅ ∅ None None.

(** [batch.put_cf] and [batch.delete_cf], by column family. *)
Inductive BatchOp :=
| PutBlock (k : bytes) (v : BlockRecord) | DeleteBlock (k : bytes)
| PutHeight (k : bytes) (v : bytes) | DeleteHeight (k : bytes)
| PutTransaction (k : bytes) (v : TransactionRecord) | DeleteTransaction (k : bytes)
| PutUtxo (k : bytes) (v : UtxoRecord) | DeleteUtxo (k : bytes)
| PutTransition (k : bytes) (v : IssuanceTransitionRecord) | DeleteTransition (k : bytes)
| PutUndo (k : bytes) (v : UndoRecord) | DeleteUndo (k : bytes)
| PutCheckpoint (k : bytes) (v : CheckpointManifest)
| PutTip (v : Tip) | DeleteTip.

Definition with_blocks (d : Db) x := mkDb x (db_heights d) (db_transactions d) (db_utxos d)
  (db_transitions d) (db_undo d) (db_checkpoints d) (db_meta_tip d) (db_meta_schema d).
Definition with_heights (d : Db) x := mkDb (db_blocks d) x (db_transactions d) (db_utxos d)
  (db_transitions d) (db_undo d) (db_checkpoints d) (db_meta_tip d) (db_meta_schema d).
Definition with_transactions (d : Db) x := mkDb (db_blocks d) (db_heights d) x (db_utxos d)
  (db_transitions d) (db_undo d) (db_checkpoints d) (db_meta_tip d) (db_meta_schema d).
Definition with_utxos (d : Db) x := mkDb (db_blocks d) (db_heights d) (db_transactions d) x
  (db_transitions d) (db_undo d) (db_checkpoints d) (db_meta_tip d) (db_meta_schema d).
Definition with_transitions (d : Db) x := mkDb (db_blocks d) (db_heights d) (db_transactions d)
  (db_utxos d) x (db_undo d) (db_checkpoints d) (db_meta_tip d) (db_meta_schema d).
Definition with_undo (d : Db) x := mkDb (db_blocks d) (db_heights d) (db_transactions d)
  (db_utxos d) (db_transitions d) x (db_checkpoints d) (db_meta_tip d) (db_meta_schema d).
Definition with_checkpoints (d : Db) x := mkDb (db_blocks d) (db_heights d) (db_transactions d)
  (db_utxos d) (db_transitions d) (db_undo d) x (db_meta_tip d) (db_meta_schema d).
Definition with_tip (d : Db) x := mkDb (db_blocks d) (db_heights d) (db_transactions d)
  (db_utxos d) (db_transitions d) (db_undo d) (db_checkpoints d) x (db_meta_schema d).

Definition apply_op (d : Db) (op : BatchOp) : Db :=
  match op with
  | PutBlock k v => with_blocks d (<[k := v]> (db_blocks d))
  | DeleteBlock k => with_blocks d (delete k (db_blocks d))
  | PutHeight k v => with_heights d (<[k := v]> (db_heights d))
  | DeleteHeight k => with_heights d (delete k (db_heights d))
  | PutTransaction k v => with_transactions d (<[k := v]> (db_transactions d))
  | DeleteTransaction k => with_transactions d (delete k (db_transactions d))
  | PutUtxo k v => with_utxos d (<[k := v]> (db_utxos d))
  | DeleteUtxo k => with_utxos d (delete k (db_utxos d))
  | PutTransition k v => with_transitions d (<[k := v]> (db_transitions d))
  | DeleteTransition k => with_transitions d (delete k (db_transitions d))
  | PutUndo k v => with_undo d (<[k := v]> (db_undo d))
  | DeleteUndo k => with_undo d (delete k (db_undo d))
  | PutCheckpoint k v => with_checkpoints d (<[k := v]> (db_checkpoints d))
  | PutTip v => with_tip d (Some v)
  | DeleteTip => with_tip d None
  end.

(** [db.write_opt(batch)] *)
Definition write_batch (d : Db) (batch : list BatchOp) : Db := foldl apply_op d batch.

Definition height_key (height : Z) : bytes := be_bytes 4 height.
Definition outpoint_key (o : OutPoint) : bytes := op_txid o ++ be_bytes 4 (op_vout o).
Definition transition_key (txid : bytes) (input_index : Z) : bytes := txid ++ be_bytes 4 input_index.

(** The point queries. *)
Definition Indexer_tip (d : Db) : option Tip := db_meta_tip d.
Definition Indexer_block (d : Db) (hash : bytes) : option BlockRecord := db_blocks d !! hash.
Definition Indexer_block_by_height (d : Db) (height : Z) : option BlockRecord :=
  hash_bytes ← db_heights d !! height_key height;
  db_blocks d !! hash_bytes.
Definition Indexer_transaction (d : Db) (txid : bytes) : option TransactionRecord :=
  db_transactions d !! txid.
Definition Indexer_utxo (d : Db) (o : OutPoint) : option UtxoRecord := db_utxos d !! outpoint_key o.
Definition Indexer_utxos (d : Db) (os : list OutPoint) : list (option UtxoRecord) :=
  (fun k => db_utxos d !! k) <$> (outpoint_key <$> os).
Definition Indexer_issuance_transition (d : Db) (txid : bytes) (input_index : Z)
    : option IssuanceTransitionRecord := db_transitions d !! transition_key txid input_index.
Definition Indexer_checkpoint (d : Db) (label : string) : option CheckpointManifest :=
  db_checkpoints d !! ascii_bytes label.

Definition provenance (bh : bytes) (height : Z) (txid : bytes) (tx_index : Z)
    (input_index output_index : option Z) (verifier_version : string) (observation : ObservationKind)
    : Provenance :=
  {| pv_block_hash := bh;
     pv_block_height := height;
     pv_txid := txid;
     pv_tx_index := tx_index;
     pv_input_index := input_index;
     pv_output_index := output_index;
     pv_raw_evidence := mkRawEvidenceRef bh tx_index;
     pv_verifier_version := verifier_version;
     pv_confirmation := ConfirmedStatus;
     pv_observation := observation |}.

Definition initialize_schema (d : Db) : result IndexError Db :=
  match db_meta_schema d with
  | Some found =>
      _ ← reject_if (negb (found =? SCHEMA_VERSION)) (Schema found SCHEMA_VERSION);
      Ok d
  | None => Ok (mkDb (db_blocks d) (db_heights d) (db_transactions d) (db_utxos d)
                  (db_transitions d) (db_undo d) (db_checkpoints d) (db_meta_tip d)
                  (Some SCHEMA_VERSION))
  end.

Definition IndexerConfig_new `{BitcoinLib} (verifier_version : string) (terms : list IssuanceTerms)
    : IndexerConfig :=
  mkIndexerConfig verifier_version (foldl (fun m t => <[terms_hash t := t]> m) ∅ terms) true.

(** ** Applying a block *)

(** The local variables of [apply_block_locked]. *)
Record ApplyState := mkApplyState {
  as_batch : list BatchOp;
  as_overlay : gmap OutPoint (option UtxoRecord);
  as_created_in_block : gset OutPoint;
  as_restored_utxos : list UtxoRecord;
  as_created_outpoints : list OutPoint;
  as_created_txids : list bytes;
  as_created_transitions : list (bytes * Z);
  as_stats : ApplyStats;
}.

Definition ApplyState_new : ApplyState := mkApplyState [] ∅ ∅ [] [] [] [] (mkApplyStats 0 0 0 0).

Definition resolve_overlay_utxo (d : Db) (overlay : gmap OutPoint (option UtxoRecord)) (o : OutPoint)
    : result IndexError UtxoRecord :=
  match overlay !! o with
  | Some (Some record) => Ok record
  | Some None => Err (MissingPrevout o)
  | None => ok_or (Indexer_utxo d o) (MissingPrevout o)
  end.

(** The first loop over the inputs. *)
Fixpoint check_inputs (seen : gset OutPoint) (ins : list TxIn) : result IndexError unit :=
  match ins with
  | [] => Ok tt
  | i :: ins' =>
      let o := txi_previous_output i in
      if OutPoint_is_null o then check_inputs seen ins'
      else if bool_decide (o ∈ seen) then Err (DuplicateInput o)
      else check_inputs ({[o]} ∪ seen) ins'
  end.

(** [input_records]: [None] for a coinbase input. *)
Definition resolve_inputs (d : Db) (overlay : gmap OutPoint (option UtxoRecord)) (ins : list TxIn)
    : result IndexError (list (option UtxoRecord)) :=
  mapM_result (fun i =>
    let o := txi_previous_output i in
    if OutPoint_is_null o then Ok None
    else r ← resolve_overlay_utxo d overlay o; Ok (Some r)) ins.

Definition stats_transition (s : ApplyStats) : ApplyStats :=
  mkApplyStats (st_transactions s) (st_created_outputs s) (st_spent_outputs s) (st_issuance_transitions s + 1).
Definition stats_spent (s : ApplyStats) : ApplyStats :=
  mkApplyStats (st_transactions s) (st_created_outputs s) (st_spent_outputs s + 1) (st_issuance_transitions s).
Definition stats_transaction (s : ApplyStats) : ApplyStats :=
  mkApplyStats (st_transactions s + 1) (st_created_outputs s) (st_spent_outputs s) (st_issuance_transitions s).
Definition stats_created (s : ApplyStats) : ApplyStats :=
  mkApplyStats (st_transactions s) (st_created_outputs s + 1) (st_spent_outputs s) (st_issuance_transitions s).

(** [index as u32] *)
Definition as_u32 (i : nat) : Z := wrap 32 (Z.of_nat i).

Section apply.
Context `{BitcoinLib} `{BlockLib} `{BuildProfile}.
Context (cfg : IndexerConfig) (d : Db) (bh : bytes) (height : Z).

(** The record of a verified mint. *)
Definition transition_record (txid : bytes) (tx_index : nat) (issuer_outpoint : OutPoint)
    (v : VerifiedMint) : IssuanceTransitionRecord :=
  {| itr_terms_hash := is_terms_hash (vm_issuer_state v);
     itr_lane := is_lane (vm_issuer_state v);
     itr_sequence := is_seq (vm_issuer_state v);
     itr_remaining_before := is_remaining (vm_issuer_state v);
     itr_issuer_outpoint := issuer_outpoint;
     itr_item_outpoint := mkOutPoint txid (as_u32 (vm_item_output_index v));
     itr_successor_outpoint := (fun i => mkOutPoint txid (as_u32 i)) <$> vm_successor_output_index v;
     itr_item_commitment := mw_item_commitment (vm_witness v);
     itr_owner_key := mw_owner_key (vm_witness v);
     itr_fee_sat := vm_fee v;
     itr_provenance := provenance bh height txid (as_u32 tx_index)
       (Some (as_u32 (vm_issuer_input_index v))) (Some (as_u32 (vm_item_output_index v)))
       (cfg_verifier_version cfg) WalletPolicyVerified |}.

(** One iteration of the loop over [discover(tx).consumed_issuers]; the
    [continue]s leave the state as it is, a panic of the verifier propagates. *)
Definition apply_discovered (tx : Transaction) (txid : bytes) (tx_index : nat)
    (input_records : list (option UtxoRecord)) (st : ApplyState) (ds : DiscoveredIssuerSpend)
    : outcome IndexError ApplyState :=
  match cfg_issuance_terms cfg !! is_terms_hash (dis_state ds) with
  | None => Ok st
  | Some terms =>
      match mjoin (input_records !! dis_input_index ds) with
      | None => Ok st
      | Some previous =>
          let previous_output := mkTxOut (ur_value_sat previous) (ur_script_pubkey previous) in
          match verify_mint tx (dis_outpoint ds) previous_output terms with
          | Err Panic => Err Panic
          | Err (Fail _) => Ok st
          | Ok v =>
              let input_index := as_u32 (vm_issuer_input_index v) in
              Ok (mkApplyState
                    (as_batch st ++ [PutTransition (transition_key txid input_index)
                                       (transition_record txid tx_index (dis_outpoint ds) v)])
                    (as_overlay st) (as_created_in_block st) (as_restored_utxos st)
                    (as_created_outpoints st) (as_created_txids st)
                    (as_created_transitions st ++ [(txid, input_index)])
                    (stats_transition (as_stats st)))
          end
      end
  end.

(** One iteration of the loop that spends the inputs. *)
Definition spend_input (st : ApplyState) (p : TxIn * option UtxoRecord) : result IndexError ApplyState :=
  let o := txi_previous_output p.1 in
  if OutPoint_is_null o then Ok st
  else
    record ← ok_or p.2 (MissingPrevout o);
    Ok (mkApplyState
          (as_batch st ++ [DeleteUtxo (outpoint_key o)])
          (<[o := None]> (as_overlay st)) (as_created_in_block st)
          (if bool_decide (o ∈ as_created_in_block st) then as_restored_utxos st
           else as_restored_utxos st ++ [record])
          (as_created_outpoints st) (as_created_txids st) (as_created_transitions st)
          (stats_spent (as_stats st))).

Definition put_transaction (txid : bytes) (tx_index : nat) (st : ApplyState) : ApplyState :=
  let transaction := mkTransactionRecord txid
    (provenance bh height txid (as_u32 tx_index) None None (cfg_verifier_version cfg) DiscoveryOnly) in
  mkApplyState (as_batch st ++ [PutTransaction txid transaction]) (as_overlay st)
    (as_created_in_block st) (as_restored_utxos st) (as_created_outpoints st)
    (as_created_txids st ++ [txid]) (as_created_transitions st) (stats_transaction (as_stats st)).

Definition utxo_record (txid : bytes) (tx_index : nat) (output_index : Z) (output : TxOut) : UtxoRecord :=
  mkUtxoRecord (mkOutPoint txid output_index) (txo_value output) (txo_script_pubkey output)
    (provenance bh height txid (as_u32 tx_index) None (Some output_index) (cfg_verifier_version cfg)
       DiscoveryOnly).

(** One iteration of the loop that creates the outputs. *)
Definition create_output (txid : bytes) (tx_index : nat) (st : ApplyState) (p : nat * TxOut) : ApplyState :=
  let output_index := as_u32 p.1 in
  let outpoint := mkOutPoint txid output_index in
  let record := utxo_record txid tx_index output_index p.2 in
  mkApplyState (as_batch st ++ [PutUtxo (outpoint_key outpoint) record])
    (<[outpoint := Some record]> (as_overlay st)) ({[outpoint]} ∪ as_created_in_block st)
    (as_restored_utxos st) (as_created_outpoints st ++ [outpoint]) (as_created_txids st)
    (as_created_transitions st) (stats_created (as_stats st)).

(** The body of the loop over the transactions. *)
Definition apply_tx (st : ApplyState) (p : nat * (Transaction * bytes)) : outcome IndexError ApplyState :=
  let '(tx_index, (tx, txid)) := p in
  _ ← try_ (check_inputs ∅ (tx_input tx));
  input_records ← try_ (resolve_inputs d (as_overlay st) (tx_input tx));
  discovery ← no_fail (discover tx);
  st1 ← foldM (apply_discovered tx txid tx_index input_records) st (td_consumed_issuers discovery);
  st2 ← try_ (foldM spend_input st1 (zip (tx_input tx) input_records));
  let st3 := put_transaction txid tx_index st2 in
  Ok (foldl (create_output txid tx_index) st3 (imap pair (tx_output tx))).
End apply.

(** The txid tests before the loop: first within the block, then the store. *)
Fixpoint first_duplicate (seen : gset bytes) (txids : list bytes) : result IndexError unit :=
  match txids with
  | [] => Ok tt
  | t :: txids' =>
      if bool_decide (t ∈ seen) then Err (DuplicateTransaction t)
      else first_duplicate ({[t]} ∪ seen) txids'
  end.
Fixpoint first_indexed (d : Db) (txids : list bytes) : result IndexError unit :=
  match txids with
  | [] => Ok tt
  | t :: txids' =>
      if bool_decide (is_Some (db_transactions d !! t)) then Err (DuplicateTransaction t)
      else first_indexed d txids'
  end.

Section indexer.
Context `{BitcoinLib} `{BlockLib} `{BuildProfile}.

Definition ZERO_HASH : bytes := replicate 32 x00.

Definition expected_next (previous_tip : option Tip) : Z * bytes :=
  match previous_tip with
  | Some tip => (saturating_add 32 (tip_height tip) 1, tip_hash tip)
  | None => (0, ZERO_HASH)
  end.

(** The operations after the loop: block, height, tip and undo records. *)
Definition block_record (height : Z) (block : Block) : BlockRecord :=
  mkBlockRecord (block_hash block) height (bk_prev_blockhash block) (as_u32 (length (bk_txdata block)))
    (block_serialize block) ConfirmedStatus.

Definition undo_record (height : Z) (block : Block) (previous_tip : option Tip) (st : ApplyState)
    : UndoRecord :=
  mkUndoRecord (block_hash block) height previous_tip (as_created_txids st) (as_created_outpoints st)
    (as_restored_utxos st) (as_created_transitions st).

Definition apply_block (cfg : IndexerConfig) (d : Db) (height : Z) (block : Block)
    : outcome IndexError (Db * ApplyStats) :=
  let previous_tip := Indexer_tip d in
  let '(expected_height, expected_parent) := expected_next previous_tip in
  _ ← try_ (reject_if (negb (height =? expected_height)) (HeightMismatch expected_height height));
  _ ← try_ (reject_if (negb (bool_decide (bk_prev_blockhash block = expected_parent)))
             (ParentMismatch expected_parent (bk_prev_blockhash block)));
  let bh := block_hash block in
  _ ← try_ (reject_if (bool_decide (is_Some (Indexer_block d bh))) (DuplicateBlock bh));
  let block_txids := compute_txid <$> bk_txdata block in
  _ ← try_ (first_duplicate ∅ block_txids);
  _ ← try_ (first_indexed d block_txids);
  st ← foldM (apply_tx cfg d bh height) ApplyState_new
         (imap pair (zip (bk_txdata block) block_txids));
  let batch := as_batch st ++
    [PutBlock bh (block_record height block); PutHeight (height_key height) bh;
     PutTip (mkTip bh height); PutUndo bh (undo_record height block previous_tip st)] in
  Ok (write_batch d batch, as_stats st).

Definition rollback_batch (tip : Tip) (undo : UndoRecord) : list BatchOp :=
  [DeleteBlock (tip_hash tip); DeleteHeight (height_key (tip_height tip)); DeleteUndo (tip_hash tip)] ++
  (DeleteTransaction <$> un_created_txids undo) ++
  ((fun o => DeleteUtxo (outpoint_key o)) <$> un_created_outpoints undo) ++
  ((fun r => PutUtxo (outpoint_key (ur_outpoint r)) r) <$> un_restored_utxos undo) ++
  ((fun p : bytes * Z => DeleteTransition (transition_key p.1 p.2)) <$> un_created_transitions undo) ++
  [match un_previous_tip undo with Some previous => PutTip previous | None => DeleteTip end].

Definition rollback_tip (d : Db) : result IndexError (Db * Tip) :=
  tip ← ok_or (Indexer_tip d) IndexEmpty;
  undo ← ok_or (db_undo d !! tip_hash tip) (UnknownAncestor (tip_hash tip));
  Ok (write_batch d (rollback_batch tip undo), tip).

(** The check that opens [rollback_to] and [reorganize]: the ancestor is the
    canonical block at its height. *)
Definition canonical_ancestor (d : Db) (ancestor : bytes) : result IndexError BlockRecord :=
  record ← ok_or (Indexer_block d ancestor) (UnknownAncestor ancestor);
  _ ← reject_if (negb (bool_decide
        (brec_hash <$> Indexer_block_by_height d (brec_height record) = Some ancestor)))
        (UnknownAncestor ancestor);
  Ok record.

(** The [loop] of [rollback_to_locked].  Each pass is committed on its own, so
    the store reached so far is part of every result; [None] is only out of
    fuel. *)
Fixpoint rollback_loop (fuel : nat) (d : Db) (ancestor : bytes) (ancestor_height : Z)
    : option (Db * result IndexError unit) :=
  match fuel with
  | O => None
  | S f =>
      match Indexer_tip d with
      | None => Some (d, Err IndexEmpty)
      | Some tip =>
          if bool_decide (tip_hash tip = ancestor) then Some (d, Ok tt)
          else if tip_height tip <=? ancestor_height then Some (d, Err (UnknownAncestor ancestor))
          else match rollback_tip d with
               | Ok (d', _) => rollback_loop f d' ancestor ancestor_height
               | Err e => Some (d, Err e)
               end
      end
  end.

(** One more than the number of undo records is always enough fuel. *)
Definition rollback_to (d : Db) (ancestor : bytes) : option (Db * result IndexError unit) :=
  match canonical_ancestor d ancestor with
  | Err e => Some (d, Err e)
  | Ok record => rollback_loop (S (size (db_undo d))) d ancestor (brec_height record)
  end.

(** Contiguity of the replacement branch. *)
Fixpoint check_replacement (expected_height : Z) (expected_parent : bytes)
    (replacement : list (Z * Block)) : result IndexError unit :=
  match replacement with
  | [] => Ok tt
  | (height, block) :: rest =>
      if negb (height =? expected_height) || negb (bool_decide (bk_prev_blockhash block = expected_parent))
      then Err (InvalidReplacement height)
      else check_replacement (saturating_add 32 expected_height 1) (block_hash block) rest
  end.

(** Attach blocks one by one; a failure keeps the blocks attached before. *)
Fixpoint attach (cfg : IndexerConfig) (d : Db) (blocks : list (Z * Block))
    : Db * outcome IndexError unit :=
  match blocks with
  | [] => (d, Ok tt)
  | (height, block) :: rest =>
      match apply_block cfg d height block with
      | Ok (d', _) => attach cfg d' rest
      | Err e => (d, Err e)
      end
  end.

(** [ancestor_record.height + 1] is plain u32 arithmetic. *)
Definition reorganize (cfg : IndexerConfig) (d : Db) (ancestor : bytes) (replacement : list (Z * Block))
    : option (Db * outcome IndexError unit) :=
  match canonical_ancestor d ancestor with
  | Err e => Some (d, Err (Fail e))
  | Ok record =>
      match arith 32 (brec_height record + 1) with
      | Err f => Some (d, Err f)
      | Ok expected_height =>
          match check_replacement expected_height ancestor replacement with
          | Err e => Some (d, Err (Fail e))
          | Ok _ =>
              '(d', r) ← rollback_to d ancestor;
              match r with
              | Err e => Some (d', Err (Fail e))
              | Ok _ => Some (attach cfg d' replacement)
              end
          end
      end
  end.

Definition put_checkpoint (d : Db) (m : CheckpointManifest) : Db :=
  write_batch d [PutCheckpoint (ascii_bytes (cm_label m)) m].

(** The manifest, the store, and the store opened at the checkpoint's path (a
    hard-linked copy). *)
Definition create_checkpoint (d : Db) (label : string)
    : result IndexError (CheckpointManifest * Db * Db) :=
  _ ← reject_if (bool_decide (label = "")) EmptyCheckpointLabel;
  tip ← ok_or (Indexer_tip d) IndexEmpty;
  let manifest := mkCheckpointManifest label SCHEMA_VERSION tip in
  copy ← initialize_schema d;
  Ok (manifest, put_checkpoint d manifest, put_checkpoint copy manifest).
End indexer.
