(* ===== verification/IndexerInv.v ===== *)
(** * The indexer's store invariant

    [db_inv] is what every store built by [apply_block] satisfies; [loop_inv]
    is the invariant of the loop over a block's transactions, relating the
    store, the batch built so far and the undo data. *)

From Stdlib Require Import ZArith Lia.
From S2P Require Import Prelude Bitcoin IssuanceTerms IssuerState IssuerScript MintVerify Discover Indexer.
From stdpp Require Import list gmap.
Local Open Scope Z_scope.

(** ** Keys *)

Lemma key_app_inj t1 t2 i1 i2 :
  length t1 = 32%nat -> length t2 = 32%nat -> is_u32 i1 -> is_u32 i2 ->
  t1 ++ be_bytes 4 i1 = t2 ++ be_bytes 4 i2 -> t1 = t2 /\ i1 = i2.
Proof.
  intros H1 H2 H3 H4 H. apply app_inj_length in H as [-> H]; [|congruence].
  split; [done|]. by eapply (be_bytes_inj 4).
Qed.

Lemma outpoint_key_inj o1 o2 :
  OutPoint_wf o1 -> OutPoint_wf o2 -> outpoint_key o1 = outpoint_key o2 -> o1 = o2.
Proof.
  intros [H1 H2] [H3 H4] H. apply key_app_inj in H as [? ?]; [|done..].
  destruct o1, o2; simpl in *; congruence.
Qed.

Lemma height_key_inj h1 h2 : is_u32 h1 -> is_u32 h2 -> height_key h1 = height_key h2 -> h1 = h2.
Proof. apply (be_bytes_inj 4). Qed.

Lemma as_u32_fits i : is_u32 (as_u32 i).
Proof. apply wrap_fits. lia. Qed.

Lemma write_batch_app d b1 b2 : write_batch d (b1 ++ b2) = write_batch (write_batch d b1) b2.
Proof. apply foldl_app. Qed.

#[export] Hint Resolve as_u32_fits : catomicals.

(** ** The store invariant *)

Record db_inv (d : Db) : Prop := mk_db_inv {
  di_utxos : forall k r, db_utxos d !! k = Some r ->
    k = outpoint_key (ur_outpoint r) /\ OutPoint_wf (ur_outpoint r) /\
    is_Some (db_transactions d !! op_txid (ur_outpoint r));
  di_transitions : forall k r, db_transitions d !! k = Some r ->
    exists txid i, k = transition_key txid i /\ length txid = 32%nat /\ is_u32 i /\
      is_Some (db_transactions d !! txid);
  di_undo : forall h u, db_undo d !! h = Some u -> is_Some (db_blocks d !! h);
  di_heights : forall k h, db_heights d !! k = Some h ->
    exists tip n, db_meta_tip d = Some tip /\ k = height_key n /\ 0 <= n <= tip_height tip;
  di_tip : forall tip, db_meta_tip d = Some tip -> is_u32 (tip_height tip) /\
    is_Some (db_undo d !! tip_hash tip) /\
    db_heights d !! height_key (tip_height tip) = Some (tip_hash tip) /\
    exists rec, db_blocks d !! tip_hash tip = Some rec /\ brec_hash rec = tip_hash tip /\
      brec_height rec = tip_height tip;
}.

Lemma db_inv_empty schema : db_inv (mkDb ∅ ∅ ∅ ∅ ∅ ∅ ∅ None schema).
Proof. constructor; simpl; intros *; rewrite ?lookup_empty; done. Qed.

(** What the Rust types guarantee of a block's data. *)
Definition block_wf (b : Block) : Prop :=
  Forall (fun tx => Forall (fun i => OutPoint_wf (txi_previous_output i)) (tx_input tx)) (bk_txdata b).

#[export] Instance block_wf_dec b : Decision (block_wf b).
Proof. unfold block_wf. apply _. Defined.

(** ** The loop invariant *)

Section loop.
Context (d : Db) (Hd : db_inv d) (txids : list bytes).
Context (Hnew : forall t, t ∈ txids -> length t = 32%nat /\ db_transactions d !! t = None).

(** The store as the batch built so far would leave it. *)
Definition cur (st : ApplyState) : Db := write_batch d (as_batch st).

Record loop_inv (done_txids : list bytes) (st : ApplyState) : Prop := mk_loop_inv {
  li_frame : db_blocks (cur st) = db_blocks d /\ db_heights (cur st) = db_heights d /\
    db_undo (cur st) = db_undo d /\ db_checkpoints (cur st) = db_checkpoints d /\
    db_meta_tip (cur st) = db_meta_tip d /\ db_meta_schema (cur st) = db_meta_schema d;
  li_overlay : forall o, OutPoint_wf o ->
    db_utxos (cur st) !! outpoint_key o =
    match as_overlay st !! o with Some x => x | None => db_utxos d !! outpoint_key o end;
  li_untouched : forall k,
    (forall o, o ∈ as_created_outpoints st -> k <> outpoint_key o) ->
    (forall r, r ∈ as_restored_utxos st -> k <> outpoint_key (ur_outpoint r)) ->
    db_utxos (cur st) !! k = db_utxos d !! k;
  li_created : forall o, o ∈ as_created_in_block st <-> o ∈ as_created_outpoints st;
  li_created_wf : forall o, o ∈ as_created_outpoints st ->
    OutPoint_wf o /\ op_txid o ∈ txids /\ is_Some (as_overlay st !! o);
  li_overlay_created : forall o r, as_overlay st !! o = Some (Some r) -> o ∈ as_created_outpoints st;
  li_restored : forall r, r ∈ as_restored_utxos st ->
    db_utxos d !! outpoint_key (ur_outpoint r) = Some r;
  li_txids : as_created_txids st = done_txids;
  li_indexed : forall t, t ∈ done_txids -> is_Some (db_transactions (cur st) !! t);
  li_transactions : forall t, t ∉ done_txids -> db_transactions (cur st) !! t = db_transactions d !! t;
  li_transitions : forall k,
    (forall p, p ∈ as_created_transitions st -> k <> transition_key p.1 p.2) ->
    db_transitions (cur st) !! k = db_transitions d !! k;
  li_created_transitions : forall p, p ∈ as_created_transitions st -> p.1 ∈ txids /\ is_u32 p.2;
  li_utxo_records : forall k r, db_utxos (cur st) !! k = Some r ->
    k = outpoint_key (ur_outpoint r) /\ OutPoint_wf (ur_outpoint r) /\
    is_Some (db_transactions (cur st) !! op_txid (ur_outpoint r));
}.

Lemma loop_inv_new : loop_inv [] ApplyState_new.
Proof.
  constructor; simpl; try done; intros *; rewrite ?elem_of_empty, ?elem_of_nil, ?lookup_empty; try done.
  apply (di_utxos d Hd).
Qed.

(** A new outpoint is not in the store. *)
Lemma new_outpoint_absent o :
  OutPoint_wf o -> op_txid o ∈ txids -> db_utxos d !! outpoint_key o = None.
Proof.
  intros W Ht. destruct (db_utxos d !! outpoint_key o) as [r|] eqn:E; [|done].
  destruct (di_utxos d Hd _ _ E) as (Hk & W' & Hs). apply outpoint_key_inj in Hk; [|done..].
  subst o. apply Hnew in Ht as [_ Ht]. rewrite Ht in Hs. by destruct Hs.
Qed.

(** Recording a transition. *)
Lemma loop_inv_transition ts st txid i rec overlay created stats :
  loop_inv ts st -> txid ∈ txids -> is_u32 i -> overlay = as_overlay st -> created = as_created_in_block st ->
  loop_inv ts (mkApplyState (as_batch st ++ [PutTransition (transition_key txid i) rec]) overlay created
    (as_restored_utxos st) (as_created_outpoints st) (as_created_txids st)
    (as_created_transitions st ++ [(txid, i)]) stats).
Proof.
  intros I Ht Hi -> ->. destruct I.
  constructor; unfold cur in *; simpl; rewrite ?write_batch_app; simpl; try done.
  - intros k Hk. rewrite lookup_insert_ne.
    + apply li_transitions0. intros p Hp. apply Hk. apply elem_of_app. by left.
    + intros <-. apply (Hk (txid, i)); [|done]. apply elem_of_app. right. by apply list_elem_of_singleton.
  - intros p [Hp| ->%list_elem_of_singleton]%elem_of_app; eauto.
Qed.

(** Spending an output of the block, or one of the store. *)
Lemma loop_inv_spend ts st o record stats :
  loop_inv ts st -> OutPoint_wf o ->
  (o ∉ as_created_in_block st -> db_utxos d !! outpoint_key o = Some record) ->
  loop_inv ts (mkApplyState (as_batch st ++ [DeleteUtxo (outpoint_key o)])
    (<[o := None]> (as_overlay st)) (as_created_in_block st)
    (if bool_decide (o ∈ as_created_in_block st) then as_restored_utxos st
     else as_restored_utxos st ++ [record])
    (as_created_outpoints st) (as_created_txids st) (as_created_transitions st) stats).
Proof.
  intros I Wo Hrec. destruct I.
  assert (forall r, r ∈ (if bool_decide (o ∈ as_created_in_block st) then as_restored_utxos st
     else as_restored_utxos st ++ [record]) <->
     r ∈ as_restored_utxos st \/ (o ∉ as_created_in_block st /\ r = record)) as Hres.
  { intros r. case_bool_decide; [naive_solver|]. rewrite elem_of_app, list_elem_of_singleton. naive_solver. }
  constructor; unfold cur in *; simpl; rewrite ?write_batch_app; simpl; try done.
  - intros o' W'. destruct (decide (o = o')) as [<-|Hne].
    + by rewrite lookup_delete_eq, lookup_insert_eq.
    + rewrite lookup_insert_ne by done. rewrite lookup_delete_ne; [by apply li_overlay0|].
      intros ?%outpoint_key_inj; done.
  - intros k Hc Hr. setoid_rewrite Hres in Hr. rewrite lookup_delete_ne; [apply li_untouched0; eauto|].
    intros <-. destruct (decide (o ∈ as_created_in_block st)) as [Hin|Hin].
    + apply (Hc o); [by apply li_created0|done].
    + specialize (Hrec Hin). pose proof (di_utxos d Hd _ _ Hrec) as (Hk & _). eapply Hr; [|done]. by right.
  - intros o' Ho'. destruct (li_created_wf0 _ Ho') as (? & ? & Hs). split_and!; try done.
    destruct (decide (o = o')) as [<-|Hne]; [by rewrite lookup_insert_eq|by rewrite lookup_insert_ne].
  - intros o' r [[? ?]|[? ?]]%lookup_insert_Some; [done|eauto].
  - intros r [?|[Hin ->]]%Hres; [eauto|]. specialize (Hrec Hin).
    destruct (di_utxos d Hd _ _ Hrec) as (<- & _). done.
  - intros k r Hk. apply lookup_delete_Some in Hk as [_ Hk]. eauto.
Qed.

(** Recording the transaction itself. *)
Lemma loop_inv_transaction ts st txid rec stats :
  loop_inv ts st -> txid ∈ txids ->
  loop_inv (ts ++ [txid]) (mkApplyState (as_batch st ++ [PutTransaction txid rec]) (as_overlay st)
    (as_created_in_block st) (as_restored_utxos st) (as_created_outpoints st)
    (as_created_txids st ++ [txid]) (as_created_transitions st) stats).
Proof.
  intros I Ht. destruct I.
  assert (forall t (m : gmap bytes TransactionRecord), is_Some (m !! t) -> is_Some (<[txid := rec]> m !! t)) as Hmono.
  { intros t m Hm. destruct (decide (txid = t)) as [->|]; [by rewrite lookup_insert_eq|by rewrite lookup_insert_ne]. }
  constructor; unfold cur in *; simpl; rewrite ?write_batch_app; simpl; try done.
  - by rewrite li_txids0.
  - intros t [Hi| ->%list_elem_of_singleton]%elem_of_app; [eauto|]. by rewrite lookup_insert_eq.
  - intros t [Hi Hne]%not_elem_of_app. rewrite lookup_insert_ne; [eauto|].
    intros ->. by apply Hne, list_elem_of_singleton.
  - intros k r Hk. destruct (li_utxo_records0 _ _ Hk) as (? & ? & ?). eauto.
Qed.

(** Creating an output of a recorded transaction. *)
Lemma loop_inv_create ts st o rec stats :
  loop_inv ts st -> OutPoint_wf o -> op_txid o ∈ txids -> op_txid o ∈ ts -> ur_outpoint rec = o ->
  loop_inv ts (mkApplyState (as_batch st ++ [PutUtxo (outpoint_key o) rec])
    (<[o := Some rec]> (as_overlay st)) ({[o]} ∪ as_created_in_block st)
    (as_restored_utxos st) (as_created_outpoints st ++ [o]) (as_created_txids st)
    (as_created_transitions st) stats).
Proof.
  intros I Wo Ht Hts Ho. destruct I.
  constructor; unfold cur in *; simpl; rewrite ?write_batch_app; simpl; try done.
  - intros o' W'. destruct (decide (o = o')) as [<-|Hne].
    + by rewrite !lookup_insert_eq.
    + rewrite lookup_insert_ne; [|intros ?%outpoint_key_inj; done].
      rewrite lookup_insert_ne by done. by apply li_overlay0.
  - intros k Hc Hr. setoid_rewrite elem_of_app in Hc.
    rewrite lookup_insert_ne; [apply li_untouched0; eauto|].
    intros <-. apply (Hc o); [|done]. right. by apply list_elem_of_singleton.
  - intros o'. rewrite elem_of_union, elem_of_singleton, elem_of_app, list_elem_of_singleton, li_created0. naive_solver.
  - intros o' [Ho'| ->%list_elem_of_singleton]%elem_of_app.
    + destruct (li_created_wf0 _ Ho') as (? & ? & Hs). split_and!; try done.
      destruct (decide (o = o')) as [<-|Hne]; [by rewrite lookup_insert_eq|by rewrite lookup_insert_ne].
    + split_and!; try done. by rewrite lookup_insert_eq.
  - intros o' r [[<- _]|[_ Hl]]%lookup_insert_Some; rewrite elem_of_app; [right; by apply list_elem_of_singleton|].
    left. eauto.
  - intros k r [[<- <-]|[_ Hl]]%lookup_insert_Some; [|eauto]. rewrite Ho. eauto.
Qed.

(** ** One transaction *)

Section tx.
Context {B : BitcoinLib} {BK : BlockLib} {P : BuildProfile}.
Context (cfg : IndexerConfig) (bh : bytes) (height : Z).

Lemma loop_inv_discovered ts tx txid i records st ds st' :
  txid ∈ txids -> loop_inv ts st ->
  foldM (apply_discovered cfg bh height tx txid i records) st ds = Ok st' ->
  loop_inv ts st' /\ as_overlay st' = as_overlay st /\ as_created_in_block st' = as_created_in_block st.
Proof.
  intros Ht I. apply (foldM_inv _ (fun _ s => loop_inv ts s /\ as_overlay s = as_overlay st /\
    as_created_in_block s = as_created_in_block st)); [done|].
  intros pre a post s1 s2 _ (I1 & Ho & Hc) Hs. unfold apply_discovered in Hs.
  repeat case_match; repeat res_step; subst; try done.
  split; [|done]. apply loop_inv_transition; auto with catomicals.
Qed.

(** A resolved input that the block did not create is in the store. *)
Definition resolved (created : gset OutPoint) (i : TxIn) (x : option UtxoRecord) : Prop :=
  OutPoint_is_null (txi_previous_output i) = false ->
  exists r, x = Some r /\ (txi_previous_output i ∉ created ->
    db_utxos d !! outpoint_key (txi_previous_output i) = Some r).

Lemma resolve_inputs_resolved ts st ins records :
  loop_inv ts st -> resolve_inputs d (as_overlay st) ins = Ok records ->
  Forall2 (resolved (as_created_in_block st)) ins records.
Proof.
  intros I Hr. apply mapM_result_Ok in Hr. eapply Forall2_impl; [done|]. cbn.
  intros i x Hx Hn. rewrite Hn in Hx. repeat res_step. subst x. eexists. split; [done|]. intros Hc.
  unfold resolve_overlay_utxo in E. destruct (as_overlay st !! txi_previous_output i) as [[r'|]|] eqn:Eo;
    repeat res_step; try done.
  apply (li_overlay_created _ _ I), (li_created _ _ I) in Eo. done.
Qed.

Lemma loop_inv_spends ts ins records st st' :
  loop_inv ts st -> Forall (fun i => OutPoint_wf (txi_previous_output i)) ins ->
  Forall2 (resolved (as_created_in_block st)) ins records ->
  foldM spend_input st (zip ins records) = Ok st' -> loop_inv ts st'.
Proof.
  revert records st. induction ins as [|i ins IH]; intros records st I W R Hf;
    inversion R as [|? x ? xs Hx HR]; subst; simpl in Hf; [by res_inv; subst|].
  inversion W; subst. apply bind_Ok in Hf as (st1 & E1 & Hf). unfold spend_input in E1. simpl in E1.
  destruct (OutPoint_is_null _) eqn:En; [injection E1 as <-; by eapply (IH xs)|].
  destruct (Hx En) as (r & -> & Hr). simpl in E1. injection E1 as <-.
  eapply (IH xs); [|done| |done]; [by apply loop_inv_spend|done].
Qed.

Lemma loop_inv_outputs ts txid i outs st :
  loop_inv ts st -> txid ∈ txids -> txid ∈ ts ->
  loop_inv ts (foldl (create_output cfg bh height txid i) st outs).
Proof.
  intros I Ht Hts. revert st I. induction outs as [|[n o] outs IH]; intros st I; simpl; [done|].
  apply IH. unfold create_output. apply loop_inv_create; try done. split; simpl; [|apply as_u32_fits].
  by apply Hnew.
Qed.

Lemma loop_inv_tx ts st i tx txid st' :
  loop_inv ts st -> txid ∈ txids ->
  Forall (fun i => OutPoint_wf (txi_previous_output i)) (tx_input tx) ->
  apply_tx cfg d bh height st (i, (tx, txid)) = Ok st' -> loop_inv (ts ++ [txid]) st'.
Proof.
  intros I Ht W Hs. unfold apply_tx in Hs. repeat res_step. subst st'.
  pose proof (resolve_inputs_resolved _ _ _ _ I E0) as R.
  destruct (loop_inv_discovered _ _ _ _ _ _ _ _ Ht I E2) as (I1 & _ & Hc). rewrite <- Hc in R.
  apply loop_inv_outputs; [|done|apply elem_of_app; right; by apply list_elem_of_singleton].
  apply loop_inv_transaction; [|done]. by eapply loop_inv_spends.
Qed.
End tx.
End loop.

(** The data of the loop over a block: position, transaction, txid. *)
Lemma block_items_split {B : BitcoinLib} (txs : list Transaction) pre i tx txid post :
  imap pair (zip txs (compute_txid <$> txs)) = pre ++ (i, (tx, txid)) :: post ->
  txid = compute_txid tx /\ tx ∈ txs /\ txid ∈ compute_txid <$> txs.
Proof.
  intros H. assert ((i, (tx, txid)) ∈ imap pair (zip txs (compute_txid <$> txs))) as Hin.
  { rewrite H. apply elem_of_app. right. apply elem_of_cons. by left. }
  apply elem_of_lookup_imap in Hin as (j & [tx' txid'] & [= -> <- <-] & Hj).
  apply lookup_zip_Some in Hj as [Hj1 Hj2]. simpl in *.
  rewrite list_lookup_fmap, Hj1 in Hj2. injection Hj2 as <-.
  assert (tx ∈ txs) by by eapply list_elem_of_lookup_2. split; [done|]. split; [done|].
  by apply list_elem_of_fmap_2.
Qed.

Lemma first_indexed_Ok d ts u : first_indexed d ts = Ok u -> forall t, t ∈ ts -> db_transactions d !! t = None.
Proof.
  induction ts as [|t ts IH]; simpl; [by intros _ t ?%elem_of_nil|]. case_bool_decide as Hs; [done|].
  intros Hi t' [->|?]%elem_of_cons; [by apply eq_None_not_Some|eauto].
Qed.

(** What an accepted block did: the loop ran with its invariant, and the
    header matched the tip. *)
Lemma apply_block_Ok {B : BitcoinLib} {BL : BitcoinLaws B} {BK : BlockLib} {P : BuildProfile}
    cfg d height b d' stats :
  db_inv d -> block_wf b -> apply_block cfg d height b = Ok (d', stats) ->
  let txids := compute_txid <$> bk_txdata b in
  (forall t, t ∈ txids -> length t = 32%nat /\ db_transactions d !! t = None) /\
  db_blocks d !! block_hash b = None /\
  (height, bk_prev_blockhash b) = expected_next (db_meta_tip d) /\
  exists st, loop_inv d txids txids st /\ as_stats st = stats /\
    d' = write_batch (cur d st)
      [PutBlock (block_hash b) (block_record height b); PutHeight (height_key height) (block_hash b);
       PutTip (mkTip (block_hash b) height);
       PutUndo (block_hash b) (undo_record height b (db_meta_tip d) st)].
Proof.
  intros Hd W H txids. unfold apply_block, Indexer_tip in H.
  destruct (expected_next (db_meta_tip d)) as [eh ep] eqn:En. repeat res_step. subst d' stats.
  assert (forall t, t ∈ txids -> length t = 32%nat /\ db_transactions d !! t = None) as Hnew.
  { intros t Ht. split; [|by eapply first_indexed_Ok].
    apply list_elem_of_fmap in Ht as (tx & -> & _). apply txid_length. }
  split; [done|]. split.
  { apply bool_decide_eq_false in E1. by apply eq_None_not_Some. }
  apply negb_false_iff in E, E0. apply bool_decide_eq_true in E0. apply Z.eqb_eq in E.
  split; [congruence|]. exists r4. split; [|split; [done|apply write_batch_app]].
  assert (exists ts, loop_inv d txids ts r4 /\ ts = ((fun p : nat * (Transaction * bytes) => p.2.2) <$> imap pair (zip (bk_txdata b) txids))) as (ts & I & ->).
  { apply (foldM_inv _ (fun pre s => exists ts, loop_inv d txids ts s /\ ts = ((fun p : nat * (Transaction * bytes) => p.2.2) <$> pre))) in E4; [done|by exists []; split; [apply loop_inv_new|]|].
    intros pre [i [tx txid]] post s1 s2 Hsplit (ts & I & ->) Hs.
    apply block_items_split in Hsplit as (_ & Hin & Htx).
    eexists. split; [eapply loop_inv_tx; try done|by rewrite fmap_app].
    unfold block_wf in W. rewrite Forall_forall in W. by apply W. }
  assert (((fun p : nat * (Transaction * bytes) => p.2.2) <$> imap pair (zip (bk_txdata b) txids)) = txids) as Hts; [|by rewrite Hts in I].
  apply list_eq. intros j. unfold txids. rewrite list_lookup_fmap, list_lookup_imap, lookup_zip_with, !list_lookup_fmap.
  by destruct (bk_txdata b !! j).
Qed.

(** ** Preservation *)

Lemma expected_next_fresh d n prev :
  db_inv d -> (forall tip, db_meta_tip d = Some tip -> tip_height tip + 1 < 2 ^ 32) ->
  (n, prev) = expected_next (db_meta_tip d) ->
  is_u32 n /\ db_heights d !! height_key n = None /\
  forall tip, db_meta_tip d = Some tip -> n = tip_height tip + 1.
Proof.
  intros Hd Hb Hn. unfold expected_next in Hn.
  destruct (db_meta_tip d) as [tip|] eqn:Et; injection Hn as -> _.
  - destruct (di_tip d Hd tip Et) as (Hu & _). specialize (Hb tip eq_refl). unfold fits in Hu.
    unfold saturating_add. rewrite Z.min_r by lia. split; [unfold fits; lia|]. split; [|by intros ? [= ->]].
    destruct (db_heights d !! _) as [h|] eqn:E; [|done].
    destruct (di_heights d Hd _ _ E) as (tip' & n & Ht & Hk & Hn). rewrite Et in Ht. injection Ht as <-.
    apply height_key_inj in Hk; unfold fits; lia.
  - split; [done|]. split; [|done]. destruct (db_heights d !! _) as [h|] eqn:E; [|done].
    destruct (di_heights d Hd _ _ E) as (tip' & n & Ht & _). congruence.
Qed.

(** Batches of one kind of operation. *)
Lemma Db_eq d1 d2 :
  db_blocks d1 = db_blocks d2 -> db_heights d1 = db_heights d2 ->
  db_transactions d1 = db_transactions d2 -> db_utxos d1 = db_utxos d2 ->
  db_transitions d1 = db_transitions d2 -> db_undo d1 = db_undo d2 ->
  db_checkpoints d1 = db_checkpoints d2 -> db_meta_tip d1 = db_meta_tip d2 ->
  db_meta_schema d1 = db_meta_schema d2 -> d1 = d2.
Proof. destruct d1, d2; simpl. congruence. Qed.

Definition delete_all {V} (ks : list bytes) (m : gmap bytes V) : gmap bytes V :=
  foldl (fun m k => delete k m) m ks.
Definition insert_all {V} (kvs : list (bytes * V)) (m : gmap bytes V) : gmap bytes V :=
  foldl (fun m p => <[p.1 := p.2]> m) m kvs.

Lemma lookup_delete_all {V} (ks : list bytes) (m : gmap bytes V) (k : bytes) :
  delete_all ks m !! k = if bool_decide (k ∈ ks) then None else m !! k.
Proof.
  revert m. induction ks as [|k' ks IH]; intros m; [done|].
  change (delete_all (k' :: ks) m) with (delete_all ks (delete k' m)). rewrite IH. destruct (decide (k' = k)) as [->|Hne].
  - rewrite lookup_delete_eq, (bool_decide_true (k ∈ k :: ks)) by (apply elem_of_cons; by left).
    by case_bool_decide.
  - rewrite lookup_delete_ne by done.
    replace (bool_decide (k ∈ k' :: ks)) with (bool_decide (k ∈ ks)); [done|].
    apply bool_decide_ext. rewrite elem_of_cons. naive_solver.
Qed.

(** Later puts win; with records that agree it does not matter. *)
Lemma lookup_insert_all {V} (kvs : list (bytes * V)) (m m' : gmap bytes V) (k : bytes) :
  (forall k v, (k, v) ∈ kvs -> m' !! k = Some v) ->
  insert_all kvs m !! k = if bool_decide (k ∈ kvs.*1) then m' !! k else m !! k.
Proof.
  revert m. induction kvs as [|[k' v'] kvs IH]; intros m Hm; [done|].
  change (insert_all ((k', v') :: kvs) m) with (insert_all kvs (<[k' := v']> m)).
  change (((k', v') :: kvs).*1) with (k' :: kvs.*1). rewrite IH by (intros; apply Hm, elem_of_cons; by right).
  destruct (decide (k' = k)) as [->|Hne].
  - rewrite lookup_insert_eq, (bool_decide_true (k ∈ k :: kvs.*1)) by (apply elem_of_cons; by left).
    rewrite (Hm k v') by (apply elem_of_cons; by left). by case_bool_decide.
  - rewrite lookup_insert_ne by done.
    replace (bool_decide (k ∈ k' :: kvs.*1)) with (bool_decide (k ∈ kvs.*1)); [done|].
    apply bool_decide_ext. rewrite elem_of_cons. naive_solver.
Qed.

Lemma write_delete_transactions d ks :
  write_batch d (DeleteTransaction <$> ks) = with_transactions d (delete_all ks (db_transactions d)).
Proof. revert d. induction ks as [|k ks IH]; intros d; [by destruct d|]. simpl. apply IH. Qed.

Lemma write_delete_utxos d (os : list OutPoint) :
  write_batch d ((fun o => DeleteUtxo (outpoint_key o)) <$> os) =
  with_utxos d (delete_all (outpoint_key <$> os) (db_utxos d)).
Proof. revert d. induction os as [|k ks IH]; intros d; [by destruct d|]. simpl. apply IH. Qed.

Lemma write_put_utxos d (rs : list UtxoRecord) :
  write_batch d ((fun r => PutUtxo (outpoint_key (ur_outpoint r)) r) <$> rs) =
  with_utxos d (insert_all ((fun r => (outpoint_key (ur_outpoint r), r)) <$> rs) (db_utxos d)).
Proof. revert d. induction rs as [|k ks IH]; intros d; [by destruct d|]. simpl. apply IH. Qed.

Lemma write_delete_transitions d (ps : list (bytes * Z)) :
  write_batch d ((fun p : bytes * Z => DeleteTransition (transition_key p.1 p.2)) <$> ps) =
  with_transitions d (delete_all ((fun p : bytes * Z => transition_key p.1 p.2) <$> ps) (db_transitions d)).
Proof. revert d. induction ps as [|k ks IH]; intros d; [by destruct d|]. simpl. apply IH. Qed.

Lemma apply_op_tip d (t : option Tip) :
  apply_op d (match t with Some previous => PutTip previous | None => DeleteTip end) = with_tip d t.
Proof. by destruct t. Qed.

Section blocks.
Context {B : BitcoinLib} {BL : BitcoinLaws B} {BK : BlockLib} {P : BuildProfile}.
Context (cfg : IndexerConfig).

(** No height overflow at the next block. *)
Definition room (d : Db) : Prop := forall tip, db_meta_tip d = Some tip -> tip_height tip + 1 < 2 ^ 32.

Lemma apply_block_inv d height b d' stats :
  db_inv d -> room d -> block_wf b -> apply_block cfg d height b = Ok (d', stats) -> db_inv d'.
Proof.
  intros Hd Hroom W Ha. apply apply_block_Ok in Ha as (Hnew & Hb & Hh & st & I & _ & ->); [|done..].
  destruct (expected_next_fresh _ _ _ Hd Hroom Hh) as (Hu & Hfresh & Htip).
  destruct I as [(F1 & F2 & F3 & F4 & F5 & F6) _ _ _ _ _ _ _ Hidx Htx Htr Hct Hur].
  constructor; simpl.
  - apply Hur.
  - intros k r Hk. destruct (db_transitions d !! k) as [r'|] eqn:Ed.
    + destruct (di_transitions d Hd _ _ Ed) as (t & i & -> & Hl & Hi & Hs). exists t, i. split_and!; try done.
      destruct (decide (t ∈ compute_txid <$> bk_txdata b)) as [Hin|Hin]; [by apply Hidx|by rewrite Htx].
    + assert (exists p, p ∈ as_created_transitions st /\ k = transition_key p.1 p.2) as ([t i] & Hp & ->).
      { destruct (decide (k ∈ (fun p : bytes * Z => transition_key p.1 p.2) <$> as_created_transitions st)) as [Hin|Hno].
        - apply list_elem_of_fmap in Hin as (p & -> & Hp). eauto.
        - rewrite Htr in Hk; [congruence|]. intros p Hp ->. apply Hno, list_elem_of_fmap. eauto. }
      destruct (Hct _ Hp) as [Ht Hi]. exists t, i. simpl. split_and!; try done; [by apply Hnew|by apply Hidx].
  - intros h u [[<- _]|[_ Hu']]%lookup_insert_Some; [by rewrite lookup_insert_eq|].
    rewrite F1, F3 in *. apply (di_undo d Hd) in Hu'. destruct (decide (block_hash b = h)) as [<-|];
      [by rewrite lookup_insert_eq|by rewrite lookup_insert_ne].
  - intros k h [[<- <-]|[_ Hk]]%lookup_insert_Some.
    + eexists _, height. split; [done|]. split; [done|]. simpl. unfold fits in Hu. lia.
    + rewrite F2 in Hk. destruct (di_heights d Hd _ _ Hk) as (tip & n & Ht & -> & Hn).
      eexists _, n. split; [done|]. split; [done|]. simpl. specialize (Htip _ Ht). lia.
  - intros tip [= <-]. simpl. rewrite !lookup_insert_eq. split_and!; try done. by eexists.
Qed.

(** ** Rollback *)

Lemma rollback_apply d height b d' stats :
  db_inv d -> room d -> block_wf b -> apply_block cfg d height b = Ok (d', stats) ->
  rollback_tip d' = Ok (d, mkTip (block_hash b) height).
Proof.
  intros Hd Hroom W Ha. apply apply_block_Ok in Ha as (Hnew & Hb & Hh & st & I & _ & ->); [|done..].
  destruct (expected_next_fresh _ _ _ Hd Hroom Hh) as (Hu & Hfresh & _).
  unfold rollback_tip, Indexer_tip. simpl. rewrite lookup_insert_eq. res_cbn. do 2 f_equal.
  unfold rollback_batch. rewrite !write_batch_app, write_delete_transactions, write_delete_utxos,
    write_put_utxos, write_delete_transitions. cbn [undo_record un_created_txids un_created_outpoints
    un_restored_utxos un_created_transitions un_previous_tip].
  pose proof I as [(F1 & F2 & F3 & F4 & F5 & F6) _ Hun _ Hcw _ Hres Hts Hidx Htx Htr Hct _].
  change (write_batch ?x [?op]) with (apply_op x op).
  rewrite apply_op_tip.
  apply Db_eq; simpl; rewrite ?F1, ?F2, ?F3, ?F4, ?F6; try done.
  - by apply delete_insert_id.
  - by apply delete_insert_id.
  - apply map_eq. intros t. rewrite lookup_delete_all, Hts.
    case_bool_decide as Ht; [by destruct (Hnew _ Ht) as [_ ->]|by apply Htx].
  - apply map_eq. intros k. rewrite (lookup_insert_all _ _ (db_utxos d)).
    2:{ intros k' v' (r & [= -> ->] & Hr)%list_elem_of_fmap. by apply Hres. }
    case_bool_decide as Hk1; [done|]. rewrite lookup_delete_all. case_bool_decide as Hk2.
    + apply list_elem_of_fmap in Hk2 as (o & -> & Ho). symmetry.
      eapply new_outpoint_absent; [done|done|by apply Hcw|by apply Hcw].
    + apply Hun; [intros o Ho ->; apply Hk2, list_elem_of_fmap; eauto|].
      intros r Hr ->. apply Hk1. rewrite <- list_fmap_compose. apply list_elem_of_fmap. by exists r.
  - apply map_eq. intros k. rewrite lookup_delete_all. case_bool_decide as Hk.
    + apply list_elem_of_fmap in Hk as ([t i] & -> & Hp). destruct (Hct _ Hp) as [Ht Hi]. simpl in *.
      destruct (db_transitions d !! transition_key t i) as [r|] eqn:E; [|done].
      destruct (di_transitions d Hd _ _ E) as (t' & i' & Hk & Hl & Hi' & Hs).
      apply key_app_inj in Hk as [-> ->]; [|by apply Hnew|done..].
      destruct (Hnew _ Ht) as [_ Hn]. rewrite Hn in Hs. by destruct Hs.
    + apply Htr. intros p Hp ->. apply Hk, list_elem_of_fmap. eauto.
  - apply delete_insert_id. destruct (db_undo d !! block_hash b) as [u|] eqn:E; [|done].
    apply (di_undo d Hd) in E. rewrite Hb in E. by destruct E.
Qed.
End blocks.
