(* ===== verification/IndexerChain.v ===== *)
(** * Chains of blocks: rollback, reorganization, the UTXO set

    Consequences of the store invariant for sequences of blocks, and the
    simulation of the abstract UTXO set. *)

From Stdlib Require Import ZArith Lia.
From S2P Require Import Prelude Bitcoin IssuanceTerms IssuerState IssuerScript MintVerify Discover Indexer IndexerInv.
From stdpp Require Import list gmap.
Local Open Scope Z_scope.

Section chain.
Context {B : BitcoinLib} {BL : BitcoinLaws B} {BK : BlockLib} {P : BuildProfile}.
Context (cfg : IndexerConfig).

(** ** Rollback terminates on every store *)

Lemma rollback_undo d d' tip :
  rollback_tip d = Ok (d', tip) ->
  is_Some (db_undo d !! tip_hash tip) /\ db_undo d' = delete (tip_hash tip) (db_undo d).
Proof.
  unfold rollback_tip. intros H. repeat res_step. subst. split; [by eexists|].
  unfold rollback_batch. rewrite !write_batch_app, write_delete_transactions, write_delete_utxos,
    write_put_utxos, write_delete_transitions. simpl. by destruct (un_previous_tip r0).
Qed.

Lemma rollback_loop_terminates fuel d a h :
  (size (db_undo d) < fuel)%nat -> is_Some (rollback_loop fuel d a h).
Proof.
  revert d. induction fuel as [|f IH]; intros d Hf; [lia|]. simpl.
  destruct (Indexer_tip d) as [tip|]; [|done]. case_bool_decide; [done|].
  destruct (_ <=? h); [done|]. destruct (rollback_tip d) as [[d' t]|] eqn:E; [|done].
  apply IH. apply rollback_undo in E as [Hs ->].
  rewrite map_size_delete_Some by done.
  assert (size (db_undo d) <> 0%nat); [|lia]. intros He%map_size_empty_inv.
  rewrite He, lookup_empty in Hs. by destruct Hs.
Qed.

(** ** Attaching blocks *)

Lemma apply_block_grows d height b d' stats :
  db_inv d -> room d -> block_wf b -> apply_block cfg d height b = Ok (d', stats) ->
  db_blocks d ⊆ db_blocks d' /\ db_heights d ⊆ db_heights d' /\
  size (db_undo d') = S (size (db_undo d)) /\
  db_meta_tip d' = Some (mkTip (block_hash b) height) /\ db_blocks d !! block_hash b = None /\
  forall tip, db_meta_tip d = Some tip -> height = tip_height tip + 1.
Proof.
  intros Hd Hroom W Ha. apply apply_block_Ok in Ha as (Hnew & Hb & Hh & st & I & _ & ->); [|done..].
  destruct (expected_next_fresh _ _ _ Hd Hroom Hh) as (Hu & Hfresh & Htip).
  destruct (li_frame _ _ _ _ I) as (F1 & F2 & F3 & _). simpl. rewrite F1, F2, F3.
  assert (db_undo d !! block_hash b = None) as Hundo.
  { destruct (db_undo d !! block_hash b) as [u|] eqn:E; [|done].
    apply (di_undo d Hd) in E. rewrite Hb in E. by destruct E. }
  split; [by apply insert_subseteq|]. split; [by apply insert_subseteq|].
  split; [by apply map_size_insert_None|]. done.
Qed.

(** What attaching a run of blocks on a non-empty store preserves. *)
Lemma attach_Ok bs d t dn :
  db_inv d -> db_meta_tip d = Some t -> Forall (fun p => block_wf p.2) bs ->
  tip_height t + Z.of_nat (length bs) < 2 ^ 32 ->
  attach cfg d bs = (dn, Ok tt) ->
  db_inv dn /\ db_blocks d ⊆ db_blocks dn /\ db_heights d ⊆ db_heights dn /\
  size (db_undo dn) = (length bs + size (db_undo d))%nat /\
  exists tn, db_meta_tip dn = Some tn /\ tip_height tn = tip_height t + Z.of_nat (length bs).
Proof.
  revert d t. induction bs as [|[h b] bs IH]; intros d t Hd Ht W Hb Ha; simpl in Ha.
  { injection Ha as <-. split_and!; try done. exists t. simpl. split; [done|lia]. }
  inversion W as [|? ? Wb Wbs]; subst. simpl in *.
  destruct (apply_block cfg d h b) as [[d1 s]|] eqn:E; [|done].
  assert (room d) as Hroom by (intros tip Htip; simplify_eq; lia).
  pose proof (apply_block_inv cfg _ _ _ _ _ Hd Hroom Wb E) as Hd1.
  destruct (apply_block_grows _ _ _ _ _ Hd Hroom Wb E) as (G1 & G2 & G3 & G4 & _ & G5).
  specialize (G5 _ Ht). destruct (IH d1 _ Hd1 G4 Wbs) as (I1 & I2 & I3 & I4 & tn & Htn & Hn); [simpl; lia|done|].
  simpl in Hn. split; [done|]. split; [by etrans|]. split; [by etrans|].
  split; [lia|]. exists tn. split; [done|lia].
Qed.

Lemma attach_snoc bs h b d dn :
  attach cfg d (bs ++ [(h, b)]) = (dn, Ok tt) ->
  exists dm s, attach cfg d bs = (dm, Ok tt) /\ apply_block cfg dm h b = Ok (dn, s).
Proof.
  revert d. induction bs as [|[h' b'] bs IH]; intros d; simpl.
  - destruct (apply_block cfg d h b) as [[d1 s]|] eqn:E; [|done]. intros [= <-]. by exists d, s.
  - destruct (apply_block cfg d h' b') as [[d1 s]|]; [apply IH|done].
Qed.

(** ** Rolling back a run of blocks *)

Lemma rollback_loop_attach bs d t dn fuel :
  db_inv d -> db_meta_tip d = Some t -> Forall (fun p => block_wf p.2) bs ->
  tip_height t + Z.of_nat (length bs) < 2 ^ 32 ->
  attach cfg d bs = (dn, Ok tt) -> (length bs < fuel)%nat ->
  rollback_loop fuel dn (tip_hash t) (tip_height t) = Some (d, Ok tt).
Proof.
  intros Hd Ht. revert dn fuel. induction bs as [|[h b] bs IH] using rev_ind; intros dn fuel W Hb Ha Hf;
    (destruct fuel as [|fuel]; [lia|]).
  { simpl in *. injection Ha as <-. unfold Indexer_tip. rewrite Ht. by rewrite bool_decide_true. }
  rewrite length_app in *. simpl in Hb, Hf. apply Forall_app in W as [W Wb]. inversion Wb as [|? ? Wb' _]; subst. simpl in Wb'.
  apply attach_snoc in Ha as (dm & s & Hm & Ha).
  destruct (attach_Ok bs d t dm) as (Im & G1 & G2 & _ & tm & Htm & Hh); [done|done|done|lia|done|].
  assert (room dm) as Hroom by (intros tip Htip; simplify_eq; lia).
  destruct (apply_block_grows _ _ _ _ _ Im Hroom Wb' Ha) as (_ & _ & _ & G4 & G6 & G5).
  specialize (G5 _ Htm). destruct (di_tip d Hd t Ht) as (_ & _ & _ & rec & Hrec & _).
  simpl. unfold Indexer_tip. rewrite G4. rewrite bool_decide_false.
  2:{ simpl. intros Heq. rewrite Heq in G6. eapply lookup_weaken in Hrec; [|exact G1]. congruence. }
  simpl. destruct (Z.leb_spec h (tip_height t)); [lia|].
  rewrite (rollback_apply cfg _ _ _ _ _ Im Hroom Wb' Ha). apply IH; [done|lia|done|lia].
Qed.

(** The old tip stays a canonical ancestor. *)
Lemma canonical_attach bs d t dn :
  db_inv d -> db_meta_tip d = Some t -> Forall (fun p => block_wf p.2) bs ->
  tip_height t + Z.of_nat (length bs) < 2 ^ 32 -> attach cfg d bs = (dn, Ok tt) ->
  exists rec, canonical_ancestor dn (tip_hash t) = Ok rec /\ brec_height rec = tip_height t.
Proof.
  intros Hd Ht W Hb Ha. destruct (attach_Ok bs d t dn) as (_ & G1 & G2 & _); [done..|].
  destruct (di_tip d Hd t Ht) as (_ & _ & Hk & rec & Hrec & Hh & Hht). exists rec. split; [|done].
  apply (lookup_weaken _ _ _ _ Hrec) in G1. apply (lookup_weaken _ _ _ _ Hk) in G2.
  unfold canonical_ancestor, Indexer_block, Indexer_block_by_height. rewrite G1. res_cbn.
  rewrite Hht, G2. cbn. rewrite G1. simpl. rewrite Hh. by rewrite bool_decide_true.
Qed.

Lemma rollback_to_attach bs d t dn :
  db_inv d -> db_meta_tip d = Some t -> Forall (fun p => block_wf p.2) bs ->
  tip_height t + Z.of_nat (length bs) < 2 ^ 32 -> attach cfg d bs = (dn, Ok tt) ->
  rollback_to dn (tip_hash t) = Some (d, Ok tt).
Proof.
  intros Hd Ht W Hb Ha. destruct (canonical_attach bs d t dn) as (rec & Hc & Hh); [done..|].
  unfold rollback_to. rewrite Hc, Hh. apply (rollback_loop_attach bs); try done.
  destruct (attach_Ok bs d t dn) as (_ & _ & _ & Hsz & _); [done..|]. lia.
Qed.

Lemma reorganize_attach bs d t dn replacement :
  db_inv d -> db_meta_tip d = Some t -> Forall (fun p => block_wf p.2) bs ->
  tip_height t + Z.of_nat (length bs) < 2 ^ 32 -> tip_height t + 1 < 2 ^ 32 ->
  attach cfg d bs = (dn, Ok tt) ->
  check_replacement (tip_height t + 1) (tip_hash t) replacement = Ok tt ->
  reorganize cfg dn (tip_hash t) replacement = Some (attach cfg d replacement).
Proof.
  intros Hd Ht W Hb Hb1 Ha Hr. destruct (canonical_attach bs d t dn) as (rec & Hc & Hh); [done..|].
  unfold reorganize. rewrite Hc, Hh. destruct (di_tip d Hd t Ht) as ([Hu _] & _).
  rewrite arith_fits by (unfold fits; lia). rewrite Hr.
  rewrite (rollback_to_attach bs d t) by done. done.
Qed.

(** ** The abstract UTXO set *)

(** The specification: a set of unspent outputs, inputs removed and outputs
    added one transaction after the other; [Err tt] when an input is missing. *)
Definition spec_spend (m : gmap OutPoint TxOut) (i : TxIn) : result unit (gmap OutPoint TxOut) :=
  let o := txi_previous_output i in
  if OutPoint_is_null o then Ok m
  else match m !! o with Some _ => Ok (delete o m) | None => Err tt end.

Definition spec_create (txid : bytes) (m : gmap OutPoint TxOut) (p : nat * TxOut) : gmap OutPoint TxOut :=
  <[mkOutPoint txid (as_u32 p.1) := p.2]> m.

Definition spec_tx (m : gmap OutPoint TxOut) (tx : Transaction) : result unit (gmap OutPoint TxOut) :=
  m' ← foldM spec_spend m (tx_input tx);
  Ok (foldl (spec_create (compute_txid tx)) m' (imap pair (tx_output tx))).

Definition spec_block (m : gmap OutPoint TxOut) (b : Block) : result unit (gmap OutPoint TxOut) :=
  foldM spec_tx m (bk_txdata b).

Definition utxo_txout (r : UtxoRecord) : TxOut := mkTxOut (ur_value_sat r) (ur_script_pubkey r).

(** The store represents a UTXO set. *)
Definition view (d : Db) (m : gmap OutPoint TxOut) : Prop :=
  forall o, OutPoint_wf o -> utxo_txout <$> Indexer_utxo d o = m !! o.

Lemma view_insert d m o r :
  OutPoint_wf o -> view d m ->
  view (with_utxos d (<[outpoint_key o := r]> (db_utxos d))) (<[o := utxo_txout r]> m).
Proof.
  intros W V o' W'. unfold Indexer_utxo. simpl. destruct (decide (o = o')) as [<-|Hne].
  - by rewrite !lookup_insert_eq.
  - rewrite !lookup_insert_ne; [by apply V|done|]. intros ?%outpoint_key_inj; done.
Qed.

Lemma view_delete d m o :
  OutPoint_wf o -> view d m ->
  view (with_utxos d (delete (outpoint_key o) (db_utxos d))) (delete o m).
Proof.
  intros W V o' W'. unfold Indexer_utxo. simpl. destruct (decide (o = o')) as [<-|Hne].
  - by rewrite !lookup_delete_eq.
  - rewrite !lookup_delete_ne; [by apply V|done|]. intros ?%outpoint_key_inj; done.
Qed.

(** The spending loop, for inputs that are still unspent when it starts. *)
Lemma spends_sim d ins records seen st m st' :
  length ins = length records -> check_inputs seen ins = Ok tt ->
  Forall (fun i => OutPoint_wf (txi_previous_output i) /\
    (OutPoint_is_null (txi_previous_output i) = false -> txi_previous_output i ∉ seen ->
     is_Some (db_utxos (cur d st) !! outpoint_key (txi_previous_output i)))) ins ->
  view (cur d st) m -> foldM spend_input st (zip ins records) = Ok st' ->
  exists m', foldM spec_spend m ins = Ok m' /\ view (cur d st') m'.
Proof.
  revert records seen st m. induction ins as [|i ins IH]; intros records seen st m Hl Hc W V Hf;
    destruct records as [|x xs]; try done; simpl in *; [res_inv; subst; eauto|].
  inversion W as [|? ? [Wi Hx] Wins]; subst. apply bind_Ok in Hf as (st1 & E1 & Hf).
  unfold spend_input in E1. simpl in E1. unfold spec_spend at 2.
  destruct (OutPoint_is_null (txi_previous_output i)) eqn:En.
  { injection E1 as <-. res_cbn. eapply (IH xs seen); [lia|done..]. }
  destruct (decide (txi_previous_output i ∈ seen)) as [Hs|Hs]; [by rewrite bool_decide_true in Hc|].
  rewrite bool_decide_false in Hc by done. specialize (Hx eq_refl Hs) as [r Hr].
  specialize (V (txi_previous_output i) Wi) as Vi. unfold Indexer_utxo in Vi. rewrite Hr in Vi. rewrite <- Vi. cbn [fmap option_fmap option_map]. res_cbn.
  repeat res_step. subst st1.
  eapply (IH xs ({[txi_previous_output i]} ∪ seen)); [lia|done| | |done].
  - eapply Forall_impl; [exact Wins|]. simpl. intros j [Wj Hj]. split; [done|].
    intros Hn [Hne Hns]%not_elem_of_union.
    unfold cur. simpl. rewrite write_batch_app. simpl. rewrite lookup_delete_ne; [by apply Hj|].
    intros Hk. apply Hne, elem_of_singleton. symmetry. by apply outpoint_key_inj.
  - unfold cur. simpl. rewrite write_batch_app. by apply view_delete.
Qed.

Lemma outputs_sim d bh height txid i outs st m :
  length txid = 32%nat -> view (cur d st) m ->
  view (cur d (foldl (create_output cfg bh height txid i) st outs)) (foldl (spec_create txid) m outs).
Proof.
  intros Hl. revert st m. induction outs as [|[n o] outs IH]; intros st m V; simpl; [done|].
  apply IH. unfold cur. simpl. rewrite write_batch_app.
  replace (spec_create txid m (n, o)) with
    (<[mkOutPoint txid (as_u32 n) := utxo_txout (utxo_record cfg bh height txid i (as_u32 n) o)]> m).
  - apply view_insert; [|done]. split; [done|apply as_u32_fits].
  - unfold spec_create, utxo_txout. simpl. by destruct o.
Qed.

(** An input that resolves is unspent in the store as it stands. *)
Lemma resolve_inputs_present d txids ts st ins records :
  loop_inv d txids ts st -> Forall (fun i => OutPoint_wf (txi_previous_output i)) ins ->
  resolve_inputs d (as_overlay st) ins = Ok records ->
  length ins = length records /\
  Forall (fun i => OutPoint_wf (txi_previous_output i) /\
    (OutPoint_is_null (txi_previous_output i) = false -> txi_previous_output i ∉ (∅ : gset OutPoint) ->
     is_Some (db_utxos (cur d st) !! outpoint_key (txi_previous_output i)))) ins.
Proof.
  intros I W Hr%mapM_result_Ok. split; [by eapply Forall2_length|].
  induction Hr as [|i x ins xs Hx _ IH]; [done|]. inversion W as [|? ? Wi Wins]; subst.
  constructor; [|by apply IH]. split; [done|]. intros Hn _. cbn in Hx. rewrite Hn in Hx.
  rewrite (li_overlay _ _ _ _ I) by done. repeat res_step. subst x.
  unfold resolve_overlay_utxo, Indexer_utxo in E.
  destruct (as_overlay st !! txi_previous_output i) as [[r'|]|]; repeat res_step; by eauto.
Qed.

Lemma tx_sim d txids ts st i tx m st' bh height :
  db_inv d -> (forall t, t ∈ txids -> length t = 32%nat /\ db_transactions d !! t = None) ->
  compute_txid tx ∈ txids -> Forall (fun i => OutPoint_wf (txi_previous_output i)) (tx_input tx) ->
  loop_inv d txids ts st -> view (cur d st) m ->
  apply_tx cfg d bh height st (i, (tx, compute_txid tx)) = Ok st' ->
  exists m', spec_tx m tx = Ok m' /\ view (cur d st') m'.
Proof.
  intros Hd Hnew Ht W I V Hs. unfold apply_tx in Hs. repeat res_step. destruct r. subst st'.
  destruct (resolve_inputs_present _ _ _ _ _ _ I W E0) as [Hl HW].
  destruct (loop_inv_discovered d txids cfg bh height _ _ _ _ _ _ _ _ Ht I E2) as (I1 & Ho & _).
  assert (forall o, OutPoint_wf o -> db_utxos (cur d r2) !! outpoint_key o = db_utxos (cur d st) !! outpoint_key o) as Hsame.
  { intros o Wo. by rewrite (li_overlay _ _ _ _ I1), (li_overlay _ _ _ _ I), Ho by done. }
  destruct (spends_sim d (tx_input tx) r0 ∅ r2 m r3) as (m' & Hm & V'); [done|done| | |done|].
  - eapply Forall_impl; [exact HW|]. simpl. intros j [Wj Hj]. split; [done|]. by rewrite Hsame.
  - intros o Wo. unfold Indexer_utxo. rewrite Hsame by done. by apply V.
  - unfold spec_tx. rewrite Hm. cbn. eexists. split; [done|]. apply outputs_sim; [by apply Hnew|].
    intros o Wo. unfold Indexer_utxo, cur. simpl. rewrite write_batch_app. simpl. by apply V'.
Qed.

(** The loop over the transactions, seen through [foldM_sim]. *)
Lemma block_items_txs (b : Block) :
  ((fun p : nat * (Transaction * bytes) => p.2.1) <$>
     imap pair (zip (bk_txdata b) (compute_txid <$> bk_txdata b))) = bk_txdata b.
Proof.
  apply list_eq. intros j. rewrite list_lookup_fmap, list_lookup_imap, lookup_zip_with, list_lookup_fmap.
  by destruct (bk_txdata b !! j).
Qed.

Lemma apply_block_sim d height b d' stats m :
  db_inv d -> block_wf b -> view d m -> apply_block cfg d height b = Ok (d', stats) ->
  exists m', spec_block m b = Ok m' /\ view d' m'.
Proof.
  intros Hd W V Ha. pose proof Ha as Ha'. apply apply_block_Ok in Ha' as (Hnew & _); [|done..].
  unfold apply_block in Ha. destruct (expected_next _) as [eh ep]. repeat res_step. subst d' stats.
  set (txids := compute_txid <$> bk_txdata b) in *.
  apply (foldM_sim _ (fun m (p : nat * (Transaction * bytes)) => spec_tx m p.2.1)
    (fun pre s m => view (cur d s) m /\ exists ts, loop_inv d txids ts s) _ _ m) in E4.
  - destruct E4 as (m' & Hm & V' & _). exists m'. split.
    + unfold spec_block. rewrite (foldM_fmap spec_tx (fun p : nat * (Transaction * bytes) => p.2.1)) in Hm.
      by rewrite block_items_txs in Hm.
    + intros o Wo. unfold Indexer_utxo. rewrite write_batch_app. simpl. by apply V'.
  - split; [done|]. exists []. by apply loop_inv_new.
  - intros pre [i [tx txid]] post s1 m1 s2 Hsplit (V1 & ts & I) Hs.
    apply block_items_split in Hsplit as (-> & Hin & Htx).
    assert (Forall (fun i => OutPoint_wf (txi_previous_output i)) (tx_input tx)) as Wtx.
    { unfold block_wf in W. rewrite Forall_forall in W. by apply W. }
    destruct (tx_sim d txids ts s1 i tx m1 s2 (block_hash b) height) as (m2 & Hm2 & V2); [done..|].
    exists m2. split; [done|]. split; [done|]. eexists. eapply loop_inv_tx; try done.
Qed.

(** ** Recorded transitions come from verified mints *)

(** The record at [k] was derived from a transaction of the block that the
    mint verifier accepted, for configured terms, on the spent UTXO's record. *)
Definition derived (b : Block) (height : Z) (k : bytes) (rec : IssuanceTransitionRecord) : Prop :=
  exists i tx h terms previous v,
    bk_txdata b !! i = Some tx /\
    cfg_issuance_terms cfg !! h = Some terms /\ itr_terms_hash rec = terms_hash terms /\
    ur_outpoint previous = itr_issuer_outpoint rec /\
    verify_mint tx (itr_issuer_outpoint rec) (utxo_txout previous) terms = Ok v /\
    k = transition_key (compute_txid tx) (as_u32 (vm_issuer_input_index v)) /\
    rec = transition_record cfg (block_hash b) height (compute_txid tx) i (itr_issuer_outpoint rec) v.

Lemma verify_mint_terms tx op utxo terms v :
  verify_mint tx op utxo terms = Ok v -> is_terms_hash (vm_issuer_state v) = terms_hash terms.
Proof.
  unfold verify_mint. intros Hv. repeat (res_step || case_match). simplify_eq/=.
  by apply check_terms_Ok in E0 as (? & _).
Qed.

(** A resolved record is the record of the outpoint the input spends. *)
Lemma resolve_inputs_outpoint d txids ts st ins records j i r :
  db_inv d -> loop_inv d txids ts st -> Forall (fun i => OutPoint_wf (txi_previous_output i)) ins ->
  resolve_inputs d (as_overlay st) ins = Ok records ->
  ins !! j = Some i -> records !! j = Some (Some r) -> ur_outpoint r = txi_previous_output i.
Proof.
  intros Hd I W Hr%mapM_result_Ok Hi Hj.
  assert (OutPoint_wf (txi_previous_output i)) as Wi by (by eapply Forall_lookup_1 in W).
  eapply Forall2_lookup_lr in Hr; [|exact Hi|exact Hj]. cbn in Hr.
  destruct (OutPoint_is_null _); repeat res_step; [done|]. simplify_eq.
  assert (db_utxos (cur d st) !! outpoint_key (txi_previous_output i) = Some r) as Hc.
  { rewrite (li_overlay _ _ _ _ I) by done. unfold resolve_overlay_utxo, Indexer_utxo in E.
    destruct (as_overlay st !! txi_previous_output i) as [[r'|]|]; by repeat res_step; simplify_eq. }
  destruct (li_utxo_records _ _ _ _ I _ _ Hc) as (Hk & Wr & _). symmetry. by apply outpoint_key_inj.
Qed.

Lemma discovered_derived d b height i tx txids ts st0 records discovery st st' :
  db_inv d -> bk_txdata b !! i = Some tx -> loop_inv d txids ts st0 ->
  Forall (fun i => OutPoint_wf (txi_previous_output i)) (tx_input tx) ->
  resolve_inputs d (as_overlay st0) (tx_input tx) = Ok records -> discover tx = Ok discovery ->
  (forall k rec, db_transitions (cur d st) !! k = Some rec -> db_transitions d !! k = Some rec \/ derived b height k rec) ->
  foldM (apply_discovered cfg (block_hash b) height tx (compute_txid tx) i records) st
    (td_consumed_issuers discovery) = Ok st' ->
  forall k rec, db_transitions (cur d st') !! k = Some rec -> db_transitions d !! k = Some rec \/ derived b height k rec.
Proof.
  intros Hd Hi I W Hr Hdisc H0.
  apply (foldM_inv _ (fun _ s => forall k rec, db_transitions (cur d s) !! k = Some rec ->
    db_transitions d !! k = Some rec \/ derived b height k rec)); [done|].
  intros pre ds post s1 s2 Hsplit IH Hs. unfold apply_discovered in Hs.
  destruct (cfg_issuance_terms cfg !! _) as [terms|] eqn:Et; [|by repeat res_step; subst].
  destruct (mjoin _) as [previous|] eqn:Ep; [|by repeat res_step; subst].
  destruct (verify_mint _ _ _ _) as [v|[|]] eqn:Ev; [|done|by repeat res_step; subst].
  repeat res_step. subst s2. intros k rec. unfold cur. simpl. rewrite write_batch_app. simpl.
  intros [[<- <-]|[_ Hl]]%lookup_insert_Some; [right|by apply IH].
  assert (ds ∈ td_consumed_issuers discovery) as Hin by (rewrite Hsplit; apply elem_of_app; right; apply elem_of_cons; by left).
  destruct ds as [op idx state]. apply (discover_reveals tx discovery op idx state Hdisc) in Hin as (_ & input & Hinput & Hop & _).
  simpl in *. assert (records !! idx = Some (Some previous)) as Hrec by (destruct (records !! idx) as [[]|]; simpl in Ep; congruence).
  exists i, tx, (is_terms_hash state), terms, previous, v. simpl. split_and!; try done.
  - by eapply verify_mint_terms.
  - rewrite <- Hop. by eapply resolve_inputs_outpoint.
Qed.

(** The counter of the loop is the position in the block. *)
Lemma block_items_index (b : Block) pre i tx txid post :
  imap pair (zip (bk_txdata b) (compute_txid <$> bk_txdata b)) = pre ++ (i, (tx, txid)) :: post ->
  bk_txdata b !! i = Some tx.
Proof.
  intros H. assert ((i, (tx, txid)) ∈ imap pair (zip (bk_txdata b) (compute_txid <$> bk_txdata b))) as Hin.
  { rewrite H. apply elem_of_app. right. apply elem_of_cons. by left. }
  apply elem_of_lookup_imap in Hin as (j & [tx' txid'] & [= -> <- <-] & Hj).
  by apply lookup_zip_Some in Hj as [Hj _].
Qed.

(** Spending and creating outputs does not touch the transitions. *)
Lemma spends_transitions d ps st st' :
  foldM spend_input st ps = Ok st' -> db_transitions (cur d st') = db_transitions (cur d st).
Proof.
  apply (foldM_inv _ (fun _ s => db_transitions (cur d s) = db_transitions (cur d st))); [done|].
  intros pre a post s1 s2 _ IH Hs. unfold spend_input in Hs. destruct (OutPoint_is_null _); repeat res_step; subst; [done|].
  unfold cur in *. simpl. rewrite write_batch_app. done.
Qed.

Lemma outputs_transitions d bh height txid i outs st :
  db_transitions (cur d (foldl (create_output cfg bh height txid i) st outs)) = db_transitions (cur d st).
Proof.
  revert st. induction outs as [|o outs IH]; intros st; simpl; [done|]. rewrite IH.
  unfold cur. simpl. rewrite write_batch_app. done.
Qed.

Lemma apply_block_derived d height b d' stats k rec :
  db_inv d -> block_wf b -> apply_block cfg d height b = Ok (d', stats) ->
  db_transitions d' !! k = Some rec -> db_transitions d !! k = Some rec \/ derived b height k rec.
Proof.
  intros Hd W Ha. pose proof Ha as Ha'. apply apply_block_Ok in Ha' as (Hnew & _); [|done..].
  unfold apply_block in Ha. destruct (expected_next _) as [eh ep]. repeat res_step. subst d' stats.
  set (txids := compute_txid <$> bk_txdata b) in *. rewrite write_batch_app. simpl. revert k rec.
  apply (foldM_inv _ (fun pre s => (forall k rec, db_transitions (cur d s) !! k = Some rec ->
    db_transitions d !! k = Some rec \/ derived b height k rec) /\ exists ts, loop_inv d txids ts s)) in E4.
  - apply E4.
  - split; [by left|]. exists []. by apply loop_inv_new.
  - intros pre [i [tx txid]] post s1 s2 Hsplit (H1 & ts & I) Hs.
    pose proof Hsplit as Hsplit'. apply block_items_split in Hsplit' as (-> & Hin & Htx).
    assert (Forall (fun i => OutPoint_wf (txi_previous_output i)) (tx_input tx)) as Wtx.
    { unfold block_wf in W. rewrite Forall_forall in W. by apply W. }
    split; [|eexists; by eapply loop_inv_tx].
    assert (bk_txdata b !! i = Some tx) as Hi by by eapply block_items_index.
    unfold apply_tx in Hs. repeat res_step. subst s2. rewrite outputs_transitions.
    intros k rec. unfold cur at 1. simpl. rewrite write_batch_app. simpl. fold (cur d r9).
    match goal with H : foldM spend_input _ _ = Ok _ |- _ => rewrite (spends_transitions _ _ _ _ H) end.
    revert k rec. eapply (discovered_derived d b height i tx); try done.
Qed.
End chain.
