(* ===== verification/IndexerProperties.v ===== *)
(** * What the indexer guarantees

    Applying a block and rolling it back is the identity on the whole store,
    the store refines the UTXO set, reorganization is exact, and recorded
    transitions are verified mints. *)

From Stdlib Require Import ZArith Lia.
From S2P Require Import Prelude Bitcoin IssuanceTerms IssuerState Pow IssuerScript MintVerify Discover.
From S2P Require Import Concrete IssuanceProperties Indexer IndexerInv IndexerChain.
From stdpp Require Import list gmap.
Local Open Scope Z_scope.

(** ** Sample data: a coinbase that opens the sample lane, and its first mint *)

#[export] Instance toy_blocks : BlockLib := {|
  block_hash b := toy_sha (bk_prev_blockhash b ++ bk_header_rest b ++ concat (toy_serialize <$> bk_txdata b));
  block_serialize b := bk_prev_blockhash b ++ bk_header_rest b ++ concat (toy_serialize <$> bk_txdata b);
|}.

Definition coinbase : Transaction :=
  mkTransaction 2 0 [mkTxIn OutPoint_null [x01] Sequence_MAX []] [sample_utxo 0].
Definition coinbase_outpoint : OutPoint := Eval vm_compute in mkOutPoint (compute_txid coinbase) 0.
Definition block0 : Block := Eval vm_compute in mkBlock ZERO_HASH [x00] [coinbase].
Definition mint_block_tx : Transaction := Eval vm_compute in
  default coinbase (result_ok (build_mint_tx coinbase_outpoint (sample_utxo 0) (sample_state 0) sample_witness
    1000 sample_successor (sample_control 0))).
Definition block1 : Block := Eval vm_compute in mkBlock (block_hash block0) [x01] [mint_block_tx].
Definition block1' : Block := Eval vm_compute in mkBlock (block_hash block0) [x02] [].
Definition index_config : IndexerConfig := IndexerConfig_new "v1" [sample_terms].

Definition no_stats : ApplyStats := mkApplyStats 0 0 0 0.
Definition indexed0 : Db * ApplyStats :=
  default (Db_empty, no_stats) (result_ok (apply_block index_config Db_empty 0 block0)).
Definition indexed1 : Db * ApplyStats :=
  default (Db_empty, no_stats) (result_ok (apply_block index_config indexed0.1 1 block1)).

Lemma indexed0_Ok : apply_block index_config Db_empty 0 block0 = Ok (indexed0.1, indexed0.2).
Proof. rewrite <- surjective_pairing. apply is_ok_default. vm_compute. reflexivity. Qed.
Lemma indexed1_Ok : apply_block index_config indexed0.1 1 block1 = Ok (indexed1.1, indexed1.2).
Proof. rewrite <- surjective_pairing. apply is_ok_default. vm_compute. reflexivity. Qed.

Lemma room_empty schema : room (mkDb ∅ ∅ ∅ ∅ ∅ ∅ ∅ None schema).
Proof. by intros tip Ht. Qed.

Lemma block0_wf : block_wf block0.
Proof. apply (bool_decide_unpack _). by vm_compute. Qed.
Lemma block1_wf : block_wf block1.
Proof. apply (bool_decide_unpack _). by vm_compute. Qed.

Lemma indexed0_facts :
  db_inv indexed0.1 /\ db_meta_tip indexed0.1 = Some (mkTip (block_hash block0) 0) /\ room indexed0.1.
Proof.
  pose proof (db_inv_empty None) as H0. pose proof indexed0_Ok as Ha.
  destruct (apply_block_grows index_config _ _ _ _ _ H0 (room_empty None) block0_wf Ha) as (_ & _ & _ & Ht & _).
  split; [by eapply (apply_block_inv index_config), Ha; [..|apply block0_wf]|]. split; [done|].
  intros tip Htip. rewrite Ht in Htip. injection Htip as <-. simpl. lia.
Qed.

(** ** Claims *)

(** C3: rolling back the tip undoes the block exactly: after a successful [apply_block],
    [rollback_tip] returns the new tip and restores the previous store in every column
    family (blocks, heights, transactions, UTXOs, transitions, undo log, tip). *)
Theorem rollback_undoes_block {B : BitcoinLib} {BL : BitcoinLaws B} {BK : BlockLib} {P : BuildProfile}
    cfg d height b d' stats :
  db_inv d -> room d -> block_wf b -> apply_block cfg d height b = Ok (d', stats) ->
  rollback_tip d' = Ok (d, mkTip (block_hash b) height).
Proof. apply rollback_apply. Qed.

Lemma rollback_undoes_block_witness :
  rollback_tip indexed1.1 = Ok (indexed0.1, mkTip (block_hash block1) 1).
Proof.
  apply (rollback_undoes_block (B := toy_lib) (P := release_profile) index_config indexed0.1 1 block1
           indexed1.1 indexed1.2).
  - apply indexed0_facts.
  - apply indexed0_facts.
  - apply block1_wf.
  - apply indexed1_Ok.
Defined.

(** C32: [apply_block] preserves the store invariant (UTXO and transition keys match their
    records and belong to indexed transactions, heights do not exceed the tip, the undo log
    covers indexed blocks, the tip is the canonical block at its height) and moves the tip
    to the block, one above the old tip. *)
Theorem apply_block_preserves_invariant {B : BitcoinLib} {BL : BitcoinLaws B} {BK : BlockLib}
    {P : BuildProfile} cfg d height b d' stats :
  db_inv d -> room d -> block_wf b -> apply_block cfg d height b = Ok (d', stats) ->
  db_inv d' /\ db_meta_tip d' = Some (mkTip (block_hash b) height) /\
  (height, bk_prev_blockhash b) = expected_next (db_meta_tip d).
Proof.
  intros Hd Hr W Ha. split; [by eapply apply_block_inv|].
  split; [by eapply apply_block_grows|]. by apply apply_block_Ok in Ha as (_ & _ & Hh & _).
Qed.

Lemma apply_block_preserves_invariant_witness :
  db_inv indexed1.1 /\ db_meta_tip indexed1.1 = Some (mkTip (block_hash block1) 1) /\
  (1, bk_prev_blockhash block1) = expected_next (db_meta_tip indexed0.1).
Proof.
  apply (apply_block_preserves_invariant (B := toy_lib) (P := release_profile) index_config indexed0.1 1 block1
           indexed1.1 indexed1.2).
  - apply indexed0_facts.
  - apply indexed0_facts.
  - apply block1_wf.
  - apply indexed1_Ok.
Defined.

(** C16: the store refines the UTXO set: if the UTXO table represents a set of unspent
    outputs and the block is accepted, then spending the block's inputs and adding its
    outputs in order is possible on the set, and the new table represents the result. *)
Theorem utxo_table_refines_utxo_set {B : BitcoinLib} {BL : BitcoinLaws B} {BK : BlockLib}
    {P : BuildProfile} cfg d height b d' stats m :
  db_inv d -> block_wf b -> view d m -> apply_block cfg d height b = Ok (d', stats) ->
  exists m', spec_block m b = Ok m' /\ view d' m'.
Proof. apply apply_block_sim. Qed.

Lemma utxo_table_refines_utxo_set_witness :
  exists m', spec_block ∅ block0 = Ok m' /\ view indexed0.1 m'.
Proof.
  apply (utxo_table_refines_utxo_set (B := toy_lib) (P := release_profile) index_config Db_empty 0 block0
           indexed0.1 indexed0.2).
  - apply db_inv_empty.
  - apply block0_wf.
  - intros o _. reflexivity.
  - apply indexed0_Ok.
Defined.

(** Rolling back to a block restores the store as it was when that block was the tip:
    after attaching any run of blocks on top of tip [t], [rollback_to] the hash of [t]
    succeeds and yields exactly the old store. *)
Theorem rollback_to_restores {B : BitcoinLib} {BL : BitcoinLaws B} {BK : BlockLib} {P : BuildProfile}
    cfg bs d t dn :
  db_inv d -> db_meta_tip d = Some t -> Forall (fun p => block_wf p.2) bs ->
  tip_height t + Z.of_nat (length bs) < 2 ^ 32 -> attach cfg d bs = (dn, Ok tt) ->
  rollback_to dn (tip_hash t) = Some (d, Ok tt).
Proof. apply rollback_to_attach. Qed.

Lemma attach_block1 : attach index_config indexed0.1 [(1, block1)] = (indexed1.1, Ok tt).
Proof. unfold attach. by rewrite indexed1_Ok. Qed.

Lemma rollback_to_restores_witness :
  rollback_to indexed1.1 (block_hash block0) = Some (indexed0.1, Ok tt).
Proof.
  apply (rollback_to_restores (B := toy_lib) (P := release_profile) index_config [(1, block1)] indexed0.1
           (mkTip (block_hash block0) 0)).
  - apply indexed0_facts.
  - apply indexed0_facts.
  - apply Forall_cons_2; [apply block1_wf|apply Forall_nil_2].
  - simpl. lia.
  - apply attach_block1.
Defined.

(** [rollback_to] terminates on every store, consistent or not: each pass of its loop
    removes an undo record, so it makes at most as many passes as there are. *)
Theorem rollback_to_terminates {BK : BlockLib} d ancestor :
  exists d' r, rollback_to d ancestor = Some (d', r).
Proof.
  unfold rollback_to. destruct (canonical_ancestor d ancestor) as [rec|e]; [|eauto].
  destruct (rollback_loop_terminates (S (size (db_undo d))) d ancestor (brec_height rec)) as [[d' r] H]; [lia|].
  eauto.
Qed.

(** C34: a reorganization has the same effect as applying the replacement branch to the
    store of the common ancestor: the blocks attached after the ancestor leave no trace, and
    the outcome (stored blocks and error, if any) is that of attaching the replacement. *)
Theorem reorganize_is_exact {B : BitcoinLib} {BL : BitcoinLaws B} {BK : BlockLib} {P : BuildProfile}
    cfg bs d t dn replacement :
  db_inv d -> db_meta_tip d = Some t -> Forall (fun p => block_wf p.2) bs ->
  tip_height t + Z.of_nat (length bs) < 2 ^ 32 -> tip_height t + 1 < 2 ^ 32 ->
  attach cfg d bs = (dn, Ok tt) ->
  check_replacement (tip_height t + 1) (tip_hash t) replacement = Ok tt ->
  reorganize cfg dn (tip_hash t) replacement = Some (attach cfg d replacement).
Proof. apply reorganize_attach. Qed.

Lemma reorganize_is_exact_witness :
  reorganize index_config indexed1.1 (block_hash block0) [(1, block1')] =
  Some (attach index_config indexed0.1 [(1, block1')]).
Proof.
  apply (reorganize_is_exact (B := toy_lib) (P := release_profile) index_config [(1, block1)] indexed0.1
           (mkTip (block_hash block0) 0)).
  - apply indexed0_facts.
  - apply indexed0_facts.
  - apply Forall_cons_2; [apply block1_wf|apply Forall_nil_2].
  - simpl. lia.
  - simpl. lia.
  - apply attach_block1.
  - vm_compute. reflexivity.
Defined.

(** The indexer records only verified mints: every issuance transition in the store
    after a block was there before, or it was derived from a transaction of the block that
    [verify_mint] accepted for configured terms on the record of the spent issuer output. *)
Theorem recorded_transitions_are_verified {B : BitcoinLib} {BL : BitcoinLaws B} {BK : BlockLib}
    {P : BuildProfile} cfg d height b d' stats k rec :
  db_inv d -> block_wf b -> apply_block cfg d height b = Ok (d', stats) ->
  db_transitions d' !! k = Some rec ->
  db_transitions d !! k = Some rec \/ derived cfg b height k rec.
Proof. apply apply_block_derived. Qed.

Definition sample_transition : IssuanceTransitionRecord := Eval vm_compute in
  match Indexer_issuance_transition indexed1.1 (compute_txid mint_block_tx) 0 with
  | Some r => r
  | None => transition_record index_config [] 0 [] 0 OutPoint_null sample_verified
  end.

Lemma recorded_transitions_are_verified_witness :
  db_transitions indexed0.1 !! transition_key (compute_txid mint_block_tx) 0 = Some sample_transition \/
  derived index_config block1 1 (transition_key (compute_txid mint_block_tx) 0) sample_transition.
Proof.
  apply (recorded_transitions_are_verified (B := toy_lib) (P := release_profile) index_config indexed0.1 1 block1
           indexed1.1 indexed1.2).
  - apply indexed0_facts.
  - apply block1_wf.
  - apply indexed1_Ok.
  - vm_compute. reflexivity.
Defined.
