(* ===== verification/Frost.v ===== *)
(** * FROST sessions and nonce protection
      (src/crates/threshold-signer/src/session.rs, nonce_guard.rs and lib.rs)

    The cryptography is frost-secp256k1-tr and enters as the interface
    [FrostLib]; the wallet's approval token enters as the interface
    [SigningAuthorization], the trait of session.rs.  Randomness of the OS is
    an argument. *)

From Stdlib Require Import ZArith Lia.
From S2P Require Import Prelude Bitcoin.
From stdpp Require Import list gmap.
Local Open Scope Z_scope.

(** ** The interface of the FROST crate *)

Class FrostLib := {
  Identifier : Type;
  Identifier_eq_dec :: EqDecision Identifier;
  Identifier_countable :: Countable Identifier;
  SigningCommitments : Type;
  SigningCommitments_eq_dec :: EqDecision SigningCommitments;
  SigningNonces : Type;
  SignatureShare : Type;
  VerifyingShare : Type;
  VerifyingKey : Type;
  FrostSignature : Type;
  SigningPackage : Type;
  KeyPackage : Type;
  Rng : Type;
  (* Identifier::try_from(u16) *)
  identifier_try_from : Z -> option Identifier;
  (* round1::commit, nonces.serialize() *)
  frost_commit : KeyPackage -> Rng -> SigningNonces * SigningCommitments;
  nonces_serialize : SigningNonces -> bytes;
  key_package_identifier : KeyPackage -> Identifier;
  (* SigningPackage::new and its accessor *)
  signing_package_new : gmap Identifier SigningCommitments -> bytes -> SigningPackage;
  signing_commitments : SigningPackage -> gmap Identifier SigningCommitments;
  (* round2::sign, verify_signature_share, aggregate, VerifyingKey::verify *)
  frost_sign : SigningPackage -> SigningNonces -> KeyPackage -> option SignatureShare;
  verify_signature_share : Identifier -> VerifyingShare -> SignatureShare -> SigningPackage -> VerifyingKey -> bool;
  frost_aggregate : SigningPackage -> gmap Identifier SignatureShare ->
    gmap Identifier VerifyingShare * VerifyingKey -> option FrostSignature;
  verifying_key_verify : VerifyingKey -> bytes -> FrostSignature -> bool;
  signature_serialize : FrostSignature -> option bytes;
  verifying_key_serialize : VerifyingKey -> option bytes;
}.

(** A signing package holds the commitments it was built from, and different
    signer ids have different identifiers. *)
Class FrostLaws (F : FrostLib) : Prop := {
  package_commitments c m : signing_commitments (signing_package_new c m) = c;
  identifier_inj a b i : identifier_try_from a = Some i -> identifier_try_from b = Some i -> a = b;
}.

Section session.
Context `{FrostLib}.

(** [PublicKeyPackage]: verifying shares and the group key. *)
Definition PublicKeyPackage : Type := gmap Identifier VerifyingShare * VerifyingKey.
Definition verifying_shares (p : PublicKeyPackage) : gmap Identifier VerifyingShare := p.1.
Definition verifying_key (p : PublicKeyPackage) : VerifyingKey := p.2.

Definition participant_identifier (id : Z) : option Identifier := identifier_try_from id.

Record FrostSession := mkFrostSession {
  fs_id : bytes;
  fs_message : bytes;
  fs_min_signers : Z;
  fs_signing_package : SigningPackage;
  fs_public_key_package : PublicKeyPackage;
}.

Definition build_session (id message : bytes) (min_signers : Z)
    (commitments : gmap Identifier SigningCommitments) (pkp : PublicKeyPackage) : FrostSession :=
  let signing_package := signing_package_new commitments message in
  mkFrostSession id message min_signers signing_package pkp.

End session.

(** ** The nonce guard *)

Inductive NonceReuseError :=
| ReusedInOtherSession (prior : bytes)
| ReusedInSameSession.

(** [claims]: nonce fingerprint to session id. *)
Record NonceGuard := mkNonceGuard { ng_claims : gmap bytes bytes }.

Definition NonceGuard_new : NonceGuard := mkNonceGuard ∅.

Definition claim_fingerprint (g : NonceGuard) (fingerprint session_id : bytes)
    : NonceGuard * result NonceReuseError unit :=
  match ng_claims g !! fingerprint with
  | None => (mkNonceGuard (<[fingerprint := session_id]> (ng_claims g)), Ok tt)
  | Some prior =>
      if bool_decide (prior = session_id) then (g, Err ReusedInSameSession)
      else (g, Err (ReusedInOtherSession prior))
  end.

Section guard.
Context `{BitcoinLib} `{FrostLib}.

Definition fingerprint (participant_id : Z) (nonces : SigningNonces) : bytes :=
  sha256 (ascii_bytes "catomicals-frost-nonce-v1" ++ be_bytes 2 participant_id ++ nonces_serialize nonces).

Definition NonceGuard_claim (g : NonceGuard) (participant_id : Z) (nonces : SigningNonces)
    (session_id : bytes) : NonceGuard * result NonceReuseError unit :=
  claim_fingerprint g (fingerprint participant_id nonces) session_id.
End guard.

(** ** Authorization and signing *)

Inductive AuthorizationError :=
| AlreadyConsumed | WrongSession | WrongMessage | WrongSigner | AuthExpired.

(** The trait: validate the token against session, message, signer and time,
    and consume it. *)
Class SigningAuthorization (T : Type) :=
  authorize : T -> bytes -> bytes -> Z -> Z -> T * result AuthorizationError unit.

Inductive SigningError :=
| SE_Authorization (e : AuthorizationError)
| SE_NonceReuse (e : NonceReuseError)
| SE_Frost
| SE_KeyPackageSignerMismatch
| SE_RoundOneAlreadyExists
| SE_RoundOneNotFound
| SE_RoundBindingMismatch
| SE_UnexpectedSignatureLength (n : nat).

Section sign.
Context `{BitcoinLib} `{FrostLib} {T : Type} `{SigningAuthorization T}.

(** The guard and the token are mutated on every path that reaches them. *)
Definition sign_share (session : FrostSession) (signer_id : Z) (nonces : SigningNonces)
    (key_package : KeyPackage) (guard : NonceGuard) (auth : T) (now : Z)
    : NonceGuard * T * result SigningError SignatureShare :=
  let '(auth', r) := authorize auth (fs_id session) (fs_message session) signer_id now in
  match r with
  | Err e => (guard, auth', Err (SE_Authorization e))
  | Ok _ =>
      let '(guard', c) := NonceGuard_claim guard signer_id nonces (fs_id session) in
      match c with
      | Err e => (guard', auth', Err (SE_NonceReuse e))
      | Ok _ =>
          (guard', auth',
           expected ← ok_or (identifier_try_from signer_id) SE_Frost;
           _ ← reject_if (negb (bool_decide (key_package_identifier key_package = expected)))
                 SE_KeyPackageSignerMismatch;
           ok_or (frost_sign (fs_signing_package session) nonces key_package) SE_Frost)
      end
  end.

Definition verify_signature (session : FrostSession) (signature : FrostSignature)
    : result SigningError unit :=
  reject_if (negb (verifying_key_verify (verifying_key (fs_public_key_package session))
                     (fs_message session) signature)) SE_Frost.

Definition aggregate_and_verify (session : FrostSession) (shares : gmap Identifier SignatureShare)
    : result SigningError FrostSignature :=
  signature ← ok_or (frost_aggregate (fs_signing_package session) shares
                       (fs_public_key_package session)) SE_Frost;
  _ ← verify_signature session signature;
  Ok signature.

Definition signature_to_bytes (signature : FrostSignature) : result SigningError bytes :=
  b ← ok_or (signature_serialize signature) SE_Frost;
  _ ← reject_if (negb (length b =? 64)%nat) (SE_UnexpectedSignatureLength (length b));
  Ok b.

(** The BIP 340 encoding: the trailing 32 bytes of a compressed point. *)
Definition group_pubkey_xonly (pkp : PublicKeyPackage) : result SigningError bytes :=
  b ← ok_or (verifying_key_serialize (verifying_key pkp)) SE_Frost;
  if (length b =? 32)%nat then Ok b
  else if (length b =? 33)%nat then Ok (drop 1 b)
  else Err SE_Frost.
End sign.

(** ** Lemmas *)

Lemma claim_fingerprint_Ok g fp s g' :
  claim_fingerprint g fp s = (g', Ok tt) <->
  ng_claims g !! fp = None /\ g' = mkNonceGuard (<[fp := s]> (ng_claims g)).
Proof.
  unfold claim_fingerprint. destruct (ng_claims g !! fp) as [prior|].
  - case_bool_decide; split; [done|by intros []|done|by intros []].
  - split; [by intros [= <-]|by intros [_ ->]].
Qed.

(** Claims are never forgotten and never change. *)
Lemma claim_fingerprint_mono g fp s g' r :
  claim_fingerprint g fp s = (g', r) -> ng_claims g ⊆ ng_claims g'.
Proof.
  unfold claim_fingerprint. destruct (ng_claims g !! fp) as [prior|] eqn:E.
  - case_bool_decide; by intros [= <- _].
  - intros [= <- _]. by apply insert_subseteq.
Qed.

(** A run of claims, with the outcome of each. *)
Fixpoint claim_all (g : NonceGuard) (reqs : list (bytes * bytes))
    : NonceGuard * list (result NonceReuseError unit) :=
  match reqs with
  | [] => (g, [])
  | (fp, s) :: rest =>
      let '(g1, r) := claim_fingerprint g fp s in
      let '(g2, rs) := claim_all g1 rest in
      (g2, r :: rs)
  end.

Lemma claim_all_claimed reqs g g' rs fp s j :
  claim_all g reqs = (g', rs) -> is_Some (ng_claims g !! fp) -> reqs !! j = Some (fp, s) ->
  exists e, rs !! j = Some (Err e).
Proof.
  revert g rs j. induction reqs as [|[fp1 s1] reqs IH]; intros g rs j; [done|]. simpl.
  destruct (claim_fingerprint g fp1 s1) as [g1 r] eqn:E1. destruct (claim_all g1 reqs) as [g2 rs2] eqn:E2.
  intros [= <- <-] Hc Hj. destruct j as [|j]; simpl in *.
  - injection Hj as -> ->. unfold claim_fingerprint in E1. destruct Hc as [p Hp]. rewrite Hp in E1.
    case_bool_decide; injection E1 as <- <-; eauto.
  - eapply IH; [done| |done]. destruct Hc as [p Hp]. exists p.
    by apply (lookup_weaken _ _ _ _ Hp), (claim_fingerprint_mono _ _ _ _ _ E1).
Qed.

(** No fingerprint is claimed twice. *)
Lemma claim_all_once reqs g g' rs fp s1 s2 i j :
  claim_all g reqs = (g', rs) -> (i < j)%nat ->
  reqs !! i = Some (fp, s1) -> rs !! i = Some (Ok tt) -> reqs !! j = Some (fp, s2) ->
  exists e, rs !! j = Some (Err e).
Proof.
  revert g rs i j. induction reqs as [|[fp0 s0] reqs IH]; intros g rs i j; [done|]. simpl.
  destruct (claim_fingerprint g fp0 s0) as [g1 r] eqn:E1. destruct (claim_all g1 reqs) as [g2 rs2] eqn:E2.
  intros [= <- <-] Hij Hi Hri Hj. destruct j as [|j]; [lia|]. destruct i as [|i]; simpl in *.
  - injection Hi as -> ->. injection Hri as ->. eapply claim_all_claimed; [done| |done].
    apply claim_fingerprint_Ok in E1 as [_ ->]. simpl. by rewrite lookup_insert_eq.
  - eapply IH; [done| |done..]. lia.
Qed.

(** * A computable stand-in for the FROST crate

    Signing is concatenation; enough to run sessions and to show that the laws
    of [FrostLib] can hold. *)

Local Open Scope Z_scope.

#[export] Instance toy_frost : FrostLib := {|
  Identifier := Z;
  SigningCommitments := bytes;
  SigningNonces := bytes;
  SignatureShare := bytes;
  VerifyingShare := bytes;
  VerifyingKey := bytes;
  FrostSignature := bytes;
  SigningPackage := gmap Z bytes * bytes;
  KeyPackage := Z;
  Rng := bytes;
  identifier_try_from z := if z =? 0 then None else Some z;
  frost_commit k r := (r, r ++ [z2b k]);
  nonces_serialize n := n;
  key_package_identifier k := k;
  signing_package_new c m := (c, m);
  signing_commitments p := p.1;
  frost_sign p n k := Some (p.2 ++ [z2b k]);
  verify_signature_share id vs s p vk := bool_decide (s = p.2 ++ vs);
  frost_aggregate p shares pkp := Some (p.2 ++ pkp.2);
  verifying_key_verify k m s := bool_decide (s = m ++ k);
  signature_serialize s := Some s;
  verifying_key_serialize k := Some k;
|}.

#[export] Instance toy_frost_laws : FrostLaws toy_frost.
Proof.
  split; [done|]. simpl. intros a b i. destruct (a =? 0), (b =? 0); naive_solver.
Qed.
