(* ===== verification/Participant.v ===== *)
(** * Participants and the plain coordinator
      (src/crates/threshold-signer/src/participant.rs)

    A participant reserves nonces in round one and consumes the reservation in
    round two.  Every operation returns the new participant state next to its
    result, on error paths too.  Zeroization on drop is not observable here. *)

From Stdlib Require Import ZArith Lia.
From S2P Require Import Prelude Bitcoin Frost.
From stdpp Require Import list gmap.
Local Open Scope Z_scope.

Section participant.
Context `{BitcoinLib} `{FrostLib} {T : Type} `{SigningAuthorization T}.

Record PendingRoundOne := mkPendingRoundOne {
  pr_message : bytes;
  pr_nonces : SigningNonces;
  pr_commitments : SigningCommitments;
}.

Record LocalFrostParticipant := mkLocalFrostParticipant {
  lp_signer_id : Z;
  lp_key_package : KeyPackage;
  lp_nonce_guard : NonceGuard;
  lp_pending : gmap bytes PendingRoundOne;
}.

Definition LocalFrostParticipant_new (signer_id : Z) (key_package : KeyPackage) (guard : NonceGuard)
    : result SigningError LocalFrostParticipant :=
  expected ← ok_or (participant_identifier signer_id) SE_Frost;
  _ ← reject_if (negb (bool_decide (key_package_identifier key_package = expected)))
        SE_KeyPackageSignerMismatch;
  Ok (mkLocalFrostParticipant signer_id key_package guard ∅).

Definition round1 (p : LocalFrostParticipant) (session_id message : bytes) (rng : Rng)
    : LocalFrostParticipant * result SigningError SigningCommitments :=
  match lp_pending p !! session_id with
  | Some _ => (p, Err SE_RoundOneAlreadyExists)
  | None =>
      let '(nonces, commitments) := frost_commit (lp_key_package p) rng in
      (mkLocalFrostParticipant (lp_signer_id p) (lp_key_package p) (lp_nonce_guard p)
         (<[session_id := mkPendingRoundOne message nonces commitments]> (lp_pending p)),
       Ok commitments)
  end.

Definition pending_nonce_fingerprint (p : LocalFrostParticipant) (session_id message : bytes)
    : result SigningError bytes :=
  pending ← ok_or (lp_pending p !! session_id) SE_RoundOneNotFound;
  _ ← reject_if (negb (bool_decide (pr_message pending = message))) SE_RoundBindingMismatch;
  Ok (fingerprint (lp_signer_id p) (pr_nonces pending)).

Definition abort_round (p : LocalFrostParticipant) (session_id : bytes) : LocalFrostParticipant * bool :=
  (mkLocalFrostParticipant (lp_signer_id p) (lp_key_package p) (lp_nonce_guard p)
     (delete session_id (lp_pending p)),
   bool_decide (is_Some (lp_pending p !! session_id))).

Definition round2 (p : LocalFrostParticipant) (session : FrostSession) (auth : T) (now : Z)
    : LocalFrostParticipant * T * result SigningError SignatureShare :=
  match lp_pending p !! fs_id session with
  | None => (p, auth, Err SE_RoundOneNotFound)
  | Some pending =>
      match participant_identifier (lp_signer_id p) with
      | None => (p, auth, Err SE_Frost)
      | Some identifier =>
          if negb (bool_decide (pr_message pending = fs_message session))
             || negb (bool_decide (signing_commitments (fs_signing_package session) !! identifier
                                   = Some (pr_commitments pending)))
          then (p, auth, Err SE_RoundBindingMismatch)
          else
            let rest := delete (fs_id session) (lp_pending p) in
            let '(guard', auth', r) :=
              sign_share session (lp_signer_id p) (pr_nonces pending) (lp_key_package p)
                (lp_nonce_guard p) auth now in
            (mkLocalFrostParticipant (lp_signer_id p) (lp_key_package p) guard' rest, auth', r)
      end
  end.

(** ** The plain coordinator *)

Inductive CoordinatorError :=
| CE_DuplicateParticipant (id : Z)
| CE_InsufficientCommitments (required : Z) (actual : nat)
| CE_InsufficientShares (required : Z) (actual : nat)
| CE_InvalidParticipant
| CE_Signing (e : SigningError).

Record FrostCoordinator := mkFrostCoordinator {
  fc_session_id : bytes;
  fc_message : bytes;
  fc_min_signers : Z;
  fc_public_key_package : PublicKeyPackage;
  fc_commitments : gmap Identifier SigningCommitments;
  fc_shares : gmap Identifier SignatureShare;
}.

Definition FrostCoordinator_new (session_id message : bytes) (min_signers : Z) (pkp : PublicKeyPackage)
    : FrostCoordinator := mkFrostCoordinator session_id message min_signers pkp ∅ ∅.

Definition FrostCoordinator_add_commitment (c : FrostCoordinator) (signer_id : Z)
    (commitment : SigningCommitments) : result CoordinatorError FrostCoordinator :=
  id ← ok_or (identifier_try_from signer_id) CE_InvalidParticipant;
  match fc_commitments c !! id with
  | None => Ok (mkFrostCoordinator (fc_session_id c) (fc_message c) (fc_min_signers c)
      (fc_public_key_package c) (<[id := commitment]> (fc_commitments c)) (fc_shares c))
  | Some _ => Err (CE_DuplicateParticipant signer_id)
  end.

Definition FrostCoordinator_signing_session (c : FrostCoordinator)
    : result CoordinatorError FrostSession :=
  _ ← reject_if (Z.of_nat (size (fc_commitments c)) <? fc_min_signers c)
        (CE_InsufficientCommitments (fc_min_signers c) (size (fc_commitments c)));
  Ok (build_session (fc_session_id c) (fc_message c) (fc_min_signers c) (fc_commitments c)
        (fc_public_key_package c)).

Definition FrostCoordinator_add_signature_share (c : FrostCoordinator) (signer_id : Z)
    (share : SignatureShare) : result CoordinatorError FrostCoordinator :=
  id ← ok_or (identifier_try_from signer_id) CE_InvalidParticipant;
  match fc_shares c !! id with
  | None => Ok (mkFrostCoordinator (fc_session_id c) (fc_message c) (fc_min_signers c)
      (fc_public_key_package c) (fc_commitments c) (<[id := share]> (fc_shares c)))
  | Some _ => Err (CE_DuplicateParticipant signer_id)
  end.

Definition FrostCoordinator_finalize (c : FrostCoordinator) : result CoordinatorError FrostSignature :=
  _ ← reject_if (Z.of_nat (size (fc_shares c)) <? fc_min_signers c)
        (CE_InsufficientShares (fc_min_signers c) (size (fc_shares c)));
  session ← FrostCoordinator_signing_session c;
  map_err CE_Signing (aggregate_and_verify session (fc_shares c)).

(** ** What a produced share implies *)

Lemma sign_share_Ok session id nonces kp g auth now g' auth' share :
  sign_share session id nonces kp g auth now = (g', auth', Ok share) ->
  authorize auth (fs_id session) (fs_message session) id now = (auth', Ok tt) /\
  ng_claims g !! fingerprint id nonces = None /\
  ng_claims g' = <[fingerprint id nonces := fs_id session]> (ng_claims g) /\
  frost_sign (fs_signing_package session) nonces kp = Some share /\
  identifier_try_from id = Some (key_package_identifier kp).
Proof.
  unfold sign_share, NonceGuard_claim.
  destruct (authorize _ _ _ _ _) as [a [[]|e]]; [|done].
  destruct (claim_fingerprint _ _ _) as [g1 [[]|e]] eqn:Ec; [|done].
  apply claim_fingerprint_Ok in Ec as [Hn ->]. intros [= <- <- Hs]. res_inv. simpl. subst. by split_and!.
Qed.

Lemma sign_share_claims session id nonces kp g auth now g' auth' r :
  sign_share session id nonces kp g auth now = (g', auth', r) -> ng_claims g ⊆ ng_claims g'.
Proof.
  unfold sign_share, NonceGuard_claim. destruct (authorize _ _ _ _ _) as [a [[]|e]]; [|by intros [= <- _ _]].
  destruct (claim_fingerprint _ _ _) as [g1 [[]|e]] eqn:Ec; intros [= <- _ _];
    by eapply claim_fingerprint_mono.
Qed.

Lemma round2_Ok p session auth now p' auth' share :
  round2 p session auth now = (p', auth', Ok share) ->
  exists pending identifier,
    lp_pending p !! fs_id session = Some pending /\ lp_pending p' = delete (fs_id session) (lp_pending p) /\
    pr_message pending = fs_message session /\
    participant_identifier (lp_signer_id p) = Some identifier /\
    signing_commitments (fs_signing_package session) !! identifier = Some (pr_commitments pending) /\
    sign_share session (lp_signer_id p) (pr_nonces pending) (lp_key_package p) (lp_nonce_guard p) auth now
      = (lp_nonce_guard p', auth', Ok share) /\
    lp_signer_id p' = lp_signer_id p /\ lp_key_package p' = lp_key_package p.
Proof.
  unfold round2. destruct (lp_pending p !! _) as [pending|]; [|done].
  destruct (participant_identifier _) as [identifier|]; [|done].
  case_match eqn:Hg; [done|]. destruct (sign_share _ _ _ _ _ _ _) as [[g' a'] r] eqn:Es.
  intros [= <- <- ->]. apply orb_false_iff in Hg as [Hg1 Hg2].
  apply negb_false_iff, bool_decide_eq_true in Hg1, Hg2.
  exists pending, identifier. by split_and!.
Qed.

(** The reservation is gone once the token was presented, whatever the outcome. *)
Lemma round2_consumes p session auth now p' auth' r :
  round2 p session auth now = (p', auth', r) ->
  r = Err SE_RoundBindingMismatch \/ participant_identifier (lp_signer_id p) = None \/
  lp_pending p' !! fs_id session = None.
Proof.
  unfold round2. destruct (lp_pending p !! _) as [pending|] eqn:E; [|intros [= <- _ _]; by right; right].
  destruct (participant_identifier _); [|by right; left].
  case_match; [intros [= _ _ <-]; by left|]. destruct (sign_share _ _ _ _ _ _ _) as [[g' a'] r'].
  intros [= <- _ _]. right; right. simpl. apply lookup_delete_eq.
Qed.

(** ** A participant's life *)

Inductive participant_step : LocalFrostParticipant -> LocalFrostParticipant -> Prop :=
| ps_round1 p sid msg rng p' r : round1 p sid msg rng = (p', r) -> participant_step p p'
| ps_abort p sid p' r : abort_round p sid = (p', r) -> participant_step p p'
| ps_round2 p session auth now p' auth' r :
    round2 p session auth now = (p', auth', r) -> participant_step p p'.

Lemma participant_step_claims p p' :
  participant_step p p' ->
  ng_claims (lp_nonce_guard p) ⊆ ng_claims (lp_nonce_guard p') /\ lp_signer_id p' = lp_signer_id p.
Proof.
  destruct 1 as [p sid msg rng p' r H2|p sid p' r H2|p session auth now p' auth' r H2].
  - unfold round1 in H2. destruct (lp_pending p !! sid); [by injection H2 as <- _|].
    destruct (frost_commit _ _). by injection H2 as <- _.
  - by injection H2 as <- _.
  - unfold round2 in H2. destruct (lp_pending p !! _); [|by injection H2 as <- _].
    destruct (participant_identifier _); [|by injection H2 as <- _].
    case_match; [by injection H2 as <- _|]. destruct (sign_share _ _ _ _ _ _ _) as [[g' a'] r'] eqn:Es.
    injection H2 as <- _ _. simpl. split; [by eapply sign_share_claims|done].
Qed.

Lemma participant_claims_rtc p p' :
  rtc participant_step p p' ->
  ng_claims (lp_nonce_guard p) ⊆ ng_claims (lp_nonce_guard p') /\ lp_signer_id p' = lp_signer_id p.
Proof.
  induction 1 as [|p1 p2 p3 Hs _ [IH1 IH2]]; [done|]. apply participant_step_claims in Hs as [H2 H3].
  split; [by etrans|congruence].
Qed.
End participant.
