(* ===== verification/Orchestrator.v ===== *)
(** * The audited threshold session
      (src/crates/threshold-signer/src/orchestrator.rs)

    [ThresholdSessionMachine] collects commitments and verified signature
    shares of one signing session and writes every transition to a
    hash-chained audit stream.  The methods take [&mut self] and keep what
    they changed when they return an error, so they are programs of a small
    state-and-error monad [M]. *)

From Stdlib Require Import ZArith Lia.
From S2P Require Import Prelude Bitcoin Frost.
From stdpp Require Import list gmap.
Local Open Scope Z_scope.

Inductive SessionPhase :=
| CollectingCommitments | CollectingShares | Finalized | Aborted | Expired | Failed.

#[export] Instance SessionPhase_eq_dec : EqDecision SessionPhase.
Proof. solve_decision. Defined.

Definition is_terminal (p : SessionPhase) : bool :=
  match p with
  | Finalized | Aborted | Expired | Failed => true
  | CollectingCommitments | CollectingShares => false
  end.

Record BoundParticipant := mkBoundParticipant {
  bp_signer_id : Z;
  bp_device_id : bytes;
  bp_device_generation : Z;
  bp_request_binding_digest : bytes;
}.

#[export] Instance BoundParticipant_eq_dec : EqDecision BoundParticipant.
Proof. solve_decision. Defined.

Inductive AuditEventKind :=
| SessionStarted | CommitmentAccepted | CommitmentsFrozen | ShareAccepted
| SessionFinalized | SessionAborted | SessionExpired | SessionFailed.

#[export] Instance AuditEventKind_eq_dec : EqDecision AuditEventKind.
Proof. solve_decision. Defined.

(** [kind as u8] *)
Definition kind_as_u8 (k : AuditEventKind) : Z :=
  match k with
  | SessionStarted => 0 | CommitmentAccepted => 1 | CommitmentsFrozen => 2 | ShareAccepted => 3
  | SessionFinalized => 4 | SessionAborted => 5 | SessionExpired => 6 | SessionFailed => 7
  end.

Record AuditEvent := mkAuditEvent {
  ae_sequence : Z;
  ae_at : Z;
  ae_kind : AuditEventKind;
  ae_signer_id : option Z;
  ae_code : option string;
  ae_previous_digest : bytes;
  ae_event_digest : bytes;
}.

Inductive OrchestrationError :=
| InvalidSignerSet
| UnknownParticipant
| IdentityDrift
| OE_DuplicateParticipant
| WrongPhase (p : SessionPhase)
| OE_Expired
| InsufficientParticipants (required : Z) (actual : nat)
| InvalidSignatureShare
| OE_Signing (e : SigningError).

Definition zeros32 : bytes := replicate 32 x00.

(** The bytes the event digest is taken of. *)
Definition audit_preimage (sequence at_ : Z) (kind : AuditEventKind) (signer_id : option Z)
    (code : option string) (previous_digest : bytes) : bytes :=
  ascii_bytes "catomicals/frost-audit/v1" ++ [x00] ++ previous_digest ++ be_bytes 8 sequence ++
  be_bytes 8 at_ ++ [z2b (kind_as_u8 kind)] ++ be_bytes 2 (default 0 signer_id) ++
  len_prefixed_be 4 (ascii_bytes (default EmptyString code)).

Section machine.
Context `{BitcoinLib} `{FrostLib}.

Definition audit_digest (sequence at_ : Z) (kind : AuditEventKind) (signer_id : option Z)
    (code : option string) (previous_digest : bytes) : bytes :=
  sha256 (audit_preimage sequence at_ kind signer_id code previous_digest).

Record ThresholdSessionMachine := mkMachine {
  m_session_id : bytes;
  m_message : bytes;
  m_policy_digest : bytes;
  m_min_signers : Z;
  m_deadline : Z;
  m_phase : SessionPhase;
  m_public_key_package : PublicKeyPackage;
  m_participants : gmap Z BoundParticipant;
  m_commitments : gmap Identifier SigningCommitments;
  m_frozen_session : option FrostSession;
  m_shares : gmap Identifier SignatureShare;
  m_audit : list AuditEvent;
}.

(** Field updates. *)
Definition set_state (m : ThresholdSessionMachine) phase commitments frozen shares audit
    : ThresholdSessionMachine :=
  mkMachine (m_session_id m) (m_message m) (m_policy_digest m) (m_min_signers m) (m_deadline m)
    phase (m_public_key_package m) (m_participants m) commitments frozen shares audit.
Definition set_phase p m := set_state m p (m_commitments m) (m_frozen_session m) (m_shares m) (m_audit m).
Definition set_commitments c m := set_state m (m_phase m) c (m_frozen_session m) (m_shares m) (m_audit m).
Definition set_frozen f m := set_state m (m_phase m) (m_commitments m) f (m_shares m) (m_audit m).
Definition set_shares s m := set_state m (m_phase m) (m_commitments m) (m_frozen_session m) s (m_audit m).
Definition push_event e m :=
  set_state m (m_phase m) (m_commitments m) (m_frozen_session m) (m_shares m) (m_audit m ++ [e]).

(** [&mut self] methods that can fail. *)
Definition M (A : Type) : Type :=
  ThresholdSessionMachine -> ThresholdSessionMachine * result OrchestrationError A.
#[local] Instance M_ret : MRet M := fun A a m => (m, Ok a).
#[local] Instance M_bind : MBind M := fun A B k c m =>
  let '(m', r) := c m in match r with Ok a => k a m' | Err e => (m', Err e) end.
Definition get_self : M ThresholdSessionMachine := fun m => (m, Ok m).
Definition modify (f : ThresholdSessionMachine -> ThresholdSessionMachine) : M unit := fun m => (f m, Ok tt).
Definition raise {A} (e : OrchestrationError) : M A := fun m => (m, Err e).
Definition lift {A} (r : result OrchestrationError A) : M A := fun m => (m, r).

Definition audit_head (m : ThresholdSessionMachine) : bytes :=
  default zeros32 (ae_event_digest <$> last (m_audit m)).

Definition record (at_ : Z) (kind : AuditEventKind) (signer_id : option Z) (code : option string)
    (m : ThresholdSessionMachine) : ThresholdSessionMachine :=
  let sequence := Z.of_nat (length (m_audit m)) + 1 in
  let previous_digest := audit_head m in
  let event_digest := audit_digest sequence at_ kind signer_id code previous_digest in
  push_event (mkAuditEvent sequence at_ kind signer_id code previous_digest event_digest) m.

Definition fail (now : Z) (signer_id : option Z) (code : string) (m : ThresholdSessionMachine)
    : ThresholdSessionMachine :=
  record now SessionFailed signer_id (Some code) (set_phase Failed m).

Definition expire (now : Z) (m : ThresholdSessionMachine) : ThresholdSessionMachine * bool :=
  if (now <=? m_deadline m) || is_terminal (m_phase m) then (m, false)
  else (record now SessionExpired None (Some "deadline"%string) (set_phase Expired m), true).

Definition check_deadline (now : Z) : M unit := fun m =>
  let '(m', expired) := expire now m in
  if expired || bool_decide (m_phase m' = Expired) then (m', Err OE_Expired) else (m', Ok tt).

Definition require_phase (expected : SessionPhase) (now : Z) : M unit :=
  _ ← check_deadline now;
  self ← get_self;
  lift (reject_if (negb (bool_decide (m_phase self = expected))) (WrongPhase (m_phase self))).

Definition require_identity (participant : BoundParticipant) (now : Z) : M unit :=
  self ← get_self;
  if negb (bool_decide (m_participants self !! bp_signer_id participant = Some participant))
  then _ ← modify (fail now (Some (bp_signer_id participant)) "identity_drift"); raise IdentityDrift
  else mret tt.

(** [.collect()] into a map keeps the last of several equal keys. *)
Definition participant_map (participants : list BoundParticipant) : gmap Z BoundParticipant :=
  list_to_map (reverse ((fun p => (bp_signer_id p, p)) <$> participants)).

(** The condition under which a map entry is rejected. *)
Definition bad_entry (pkp : PublicKeyPackage) (e : Z * BoundParticipant) : bool :=
  negb (e.1 =? bp_signer_id e.2) ||
  match participant_identifier e.1 with
  | Some id => negb (bool_decide (is_Some (verifying_shares pkp !! id)))
  | None => true
  end.

Definition ThresholdSessionMachine_new (session_id message policy_digest : bytes) (min_signers deadline : Z)
    (participants : list BoundParticipant) (pkp : PublicKeyPackage) (now : Z)
    : result OrchestrationError ThresholdSessionMachine :=
  let pm := participant_map participants in
  _ ← reject_if ((min_signers =? 0) || (Z.of_nat (size pm) <? min_signers) || (deadline <=? now)
                 || existsb (bad_entry pkp) (map_to_list pm)) InvalidSignerSet;
  Ok (record now SessionStarted None None
        (mkMachine session_id message policy_digest min_signers deadline CollectingCommitments pkp pm
           ∅ None ∅ [])).

Definition add_commitment (participant : BoundParticipant) (commitment : SigningCommitments) (now : Z)
    : M unit :=
  _ ← require_phase CollectingCommitments now;
  _ ← require_identity participant now;
  identifier ← lift (ok_or (participant_identifier (bp_signer_id participant)) UnknownParticipant);
  self ← get_self;
  match m_commitments self !! identifier with
  | Some _ => raise OE_DuplicateParticipant
  | None =>
      _ ← modify (set_commitments (<[identifier := commitment]> (m_commitments self)));
      modify (record now CommitmentAccepted (Some (bp_signer_id participant)) None)
  end.

Definition freeze_commitments (now : Z) : M FrostSession :=
  _ ← require_phase CollectingCommitments now;
  self ← get_self;
  if Z.of_nat (size (m_commitments self)) <? m_min_signers self
  then raise (InsufficientParticipants (m_min_signers self) (size (m_commitments self)))
  else
    let session := build_session (m_session_id self) (m_message self) (m_min_signers self)
                     (m_commitments self) (m_public_key_package self) in
    _ ← modify (set_frozen (Some session));
    _ ← modify (set_phase CollectingShares);
    _ ← modify (record now CommitmentsFrozen None None);
    mret session.

Definition signing_session (m : ThresholdSessionMachine) : result OrchestrationError FrostSession :=
  ok_or (m_frozen_session m) (WrongPhase (m_phase m)).

Definition add_signature_share (participant : BoundParticipant) (share : SignatureShare) (now : Z)
    : M unit :=
  _ ← require_phase CollectingShares now;
  _ ← require_identity participant now;
  identifier ← lift (ok_or (participant_identifier (bp_signer_id participant)) UnknownParticipant);
  self ← get_self;
  session ← lift (ok_or (m_frozen_session self) (WrongPhase (m_phase self)));
  match signing_commitments (fs_signing_package session) !! identifier with
  | None =>
      _ ← modify (fail now (Some (bp_signer_id participant)) "participant_not_in_frozen_package");
      raise UnknownParticipant
  | Some _ =>
      match m_shares self !! identifier with
      | Some _ => raise OE_DuplicateParticipant
      | None =>
          verifying_share ← lift (ok_or (verifying_shares (m_public_key_package self) !! identifier)
                                    UnknownParticipant);
          if negb (verify_signature_share identifier verifying_share share (fs_signing_package session)
                     (verifying_key (m_public_key_package self)))
          then
            _ ← modify (fail now (Some (bp_signer_id participant)) "invalid_signature_share");
            raise InvalidSignatureShare
          else
            _ ← modify (set_shares (<[identifier := share]> (m_shares self)));
            modify (record now ShareAccepted (Some (bp_signer_id participant)) None)
      end
  end.

Definition finalize (now : Z) : M FrostSignature :=
  _ ← require_phase CollectingShares now;
  self ← get_self;
  if Z.of_nat (size (m_shares self)) <? m_min_signers self
  then raise (InsufficientParticipants (m_min_signers self) (size (m_shares self)))
  else
    session ← lift (ok_or (m_frozen_session self) (WrongPhase (m_phase self)));
    match aggregate_and_verify session (m_shares self) with
    | Ok signature =>
        _ ← modify (set_phase Finalized);
        _ ← modify (record now SessionFinalized None None);
        mret signature
    | Err error =>
        _ ← modify (fail now None "aggregate_verification_failed");
        raise (OE_Signing error)
    end.

Definition abort (reason_code : string) (now : Z) : M unit :=
  _ ← check_deadline now;
  self ← get_self;
  if is_terminal (m_phase self) then raise (WrongPhase (m_phase self))
  else
    _ ← modify (set_phase Aborted);
    modify (record now SessionAborted None (Some reason_code)).

Fixpoint verify_chain (previous : bytes) (events : list AuditEvent) : bool :=
  match events with
  | [] => true
  | e :: rest =>
      if negb (bool_decide (ae_previous_digest e = previous))
         || negb (bool_decide (ae_event_digest e =
              audit_digest (ae_sequence e) (ae_at e) (ae_kind e) (ae_signer_id e) (ae_code e) previous))
      then false
      else verify_chain (ae_event_digest e) rest
  end.
Definition verify_audit_chain (m : ThresholdSessionMachine) : bool := verify_chain zeros32 (m_audit m).
End machine.
