(* ===== verification/OrchestratorInv.v ===== *)
(** * Transitions and invariant of the threshold session

    The public methods of the machine as one request handler, the abstract
    transition system they implement ([step]), and the invariant every
    reachable machine has. *)

From Stdlib Require Import ZArith Lia.
From S2P Require Import Prelude Bitcoin Frost Orchestrator.
From stdpp Require Import list gmap.
Local Open Scope Z_scope.

Section inv.
Context `{B : BitcoinLib} `{F : FrostLib}.

Inductive Request :=
| ReqCommitment (p : BoundParticipant) (c : SigningCommitments)
| ReqFreeze
| ReqShare (p : BoundParticipant) (s : SignatureShare)
| ReqFinalize
| ReqAbort (code : string)
| ReqExpire.

Inductive Response :=
| RespDone
| RespSession (s : FrostSession)
| RespSignature (s : FrostSignature)
| RespBool (b : bool).

Definition respond {A} (f : A -> Response)
    (x : ThresholdSessionMachine * result OrchestrationError A)
    : ThresholdSessionMachine * result OrchestrationError Response :=
  (x.1, match x.2 with Ok a => Ok (f a) | Err e => Err e end).

(** Dispatch to the public [&mut self] methods. *)
Definition handle (r : Request) (now : Z) (m : ThresholdSessionMachine)
    : ThresholdSessionMachine * result OrchestrationError Response :=
  match r with
  | ReqCommitment p c => respond (fun _ => RespDone) (add_commitment p c now m)
  | ReqFreeze => respond RespSession (freeze_commitments now m)
  | ReqShare p s => respond (fun _ => RespDone) (add_signature_share p s now m)
  | ReqFinalize => respond RespSignature (finalize now m)
  | ReqAbort code => respond (fun _ => RespDone) (abort code now m)
  | ReqExpire => let '(m', b) := expire now m in (m', Ok (RespBool b))
  end.

Definition expired_at (now : Z) (m : ThresholdSessionMachine) : ThresholdSessionMachine :=
  record now SessionExpired None (Some "deadline"%string) (set_phase Expired m).
Definition session_of (m : ThresholdSessionMachine) : FrostSession :=
  build_session (m_session_id m) (m_message m) (m_min_signers m) (m_commitments m) (m_public_key_package m).

(** A request comes from a participant bound to the session, with its identifier. *)
Definition bound (m : ThresholdSessionMachine) (p : BoundParticipant) (id : Identifier) : Prop :=
  m_participants m !! bp_signer_id p = Some p /\ participant_identifier (bp_signer_id p) = Some id.

(** The abstract transition system. *)
Inductive step (now : Z) (m : ThresholdSessionMachine)
    : Request -> ThresholdSessionMachine -> result OrchestrationError Response -> Prop :=
| step_commit p c id :
    now <= m_deadline m -> m_phase m = CollectingCommitments -> bound m p id ->
    m_commitments m !! id = None ->
    step now m (ReqCommitment p c)
      (record now CommitmentAccepted (Some (bp_signer_id p)) None
         (set_commitments (<[id := c]> (m_commitments m)) m)) (Ok RespDone)
| step_freeze :
    now <= m_deadline m -> m_phase m = CollectingCommitments ->
    m_min_signers m <= Z.of_nat (size (m_commitments m)) ->
    step now m ReqFreeze
      (record now CommitmentsFrozen None None
         (set_phase CollectingShares (set_frozen (Some (session_of m)) m))) (Ok (RespSession (session_of m)))
| step_share p s id session vs :
    now <= m_deadline m -> m_phase m = CollectingShares -> bound m p id ->
    m_frozen_session m = Some session ->
    is_Some (signing_commitments (fs_signing_package session) !! id) ->
    m_shares m !! id = None ->
    verifying_shares (m_public_key_package m) !! id = Some vs ->
    verify_signature_share id vs s (fs_signing_package session) (verifying_key (m_public_key_package m)) = true ->
    step now m (ReqShare p s)
      (record now ShareAccepted (Some (bp_signer_id p)) None
         (set_shares (<[id := s]> (m_shares m)) m)) (Ok RespDone)
| step_finalize session sig :
    now <= m_deadline m -> m_phase m = CollectingShares ->
    m_frozen_session m = Some session ->
    m_min_signers m <= Z.of_nat (size (m_shares m)) ->
    aggregate_and_verify session (m_shares m) = Ok sig ->
    step now m ReqFinalize (record now SessionFinalized None None (set_phase Finalized m))
      (Ok (RespSignature sig))
| step_abort code :
    now <= m_deadline m -> is_terminal (m_phase m) = false ->
    step now m (ReqAbort code) (record now SessionAborted None (Some code) (set_phase Aborted m)) (Ok RespDone)
| step_fail r sid code e :
    now <= m_deadline m -> is_terminal (m_phase m) = false ->
    step now m r (fail now sid code m) (Err e)
| step_expire r res :
    m_deadline m < now -> is_terminal (m_phase m) = false ->
    res = Err OE_Expired \/ r = ReqExpire /\ res = Ok (RespBool true) ->
    step now m r (expired_at now m) res.

(** A request that changes nothing is refused (or is an [expire] that was not due). *)
Definition refused (r : Request) (res : result OrchestrationError Response) : Prop :=
  (exists e, res = Err e) \/ r = ReqExpire /\ res = Ok (RespBool false).

(** ** The guards *)

Lemma check_deadline_terminal now m :
  is_terminal (m_phase m) = true -> exists r, check_deadline now m = (m, r).
Proof.
  intros Ht. unfold check_deadline, expire. rewrite Ht, orb_true_r. simpl.
  case_bool_decide; eauto.
Qed.

Lemma check_deadline_late now m :
  is_terminal (m_phase m) = false -> m_deadline m < now ->
  check_deadline now m = (expired_at now m, Err OE_Expired).
Proof.
  intros Ht Hl. unfold check_deadline, expire. rewrite Ht.
  rewrite (proj2 (Z.leb_gt _ _) Hl). done.
Qed.

Lemma check_deadline_live now m :
  is_terminal (m_phase m) = false -> now <= m_deadline m -> check_deadline now m = (m, Ok tt).
Proof.
  intros Ht Hl. unfold check_deadline, expire. rewrite (proj2 (Z.leb_le _ _) Hl). simpl.
  rewrite bool_decide_false; [done|]. by intros E; rewrite E in Ht.
Qed.

Lemma require_phase_terminal ph now m :
  is_terminal (m_phase m) = true -> is_terminal ph = false ->
  exists e, require_phase ph now m = (m, Err e).
Proof.
  intros Ht Hp. destruct (check_deadline_terminal now m Ht) as [r Hr].
  unfold require_phase. cbv [mbind M_bind]. rewrite Hr. destruct r as [[]|e]; [|eauto]. simpl.
  unfold lift. rewrite bool_decide_false; [simpl; eauto|]. intros <-. congruence.
Qed.

Lemma require_phase_late ph now m :
  is_terminal (m_phase m) = false -> m_deadline m < now ->
  require_phase ph now m = (expired_at now m, Err OE_Expired).
Proof.
  intros Ht Hl. unfold require_phase. cbv [mbind M_bind]. by rewrite check_deadline_late.
Qed.

Lemma require_phase_live ph now m :
  is_terminal (m_phase m) = false -> now <= m_deadline m ->
  require_phase ph now m = (m, reject_if (negb (bool_decide (m_phase m = ph))) (WrongPhase (m_phase m))).
Proof.
  intros Ht Hl. unfold require_phase. cbv [mbind M_bind]. by rewrite check_deadline_live.
Qed.

(** ** The handler implements the transition system *)

Lemma handle_terminal r now m m' res :
  is_terminal (m_phase m) = true -> handle r now m = (m', res) -> m' = m /\ refused r res.
Proof.
  intros Ht. destruct r as [p c| |p s| |code|]; cbn [handle].
  1-4: unfold add_commitment, freeze_commitments, add_signature_share, finalize;
    cbv [mbind M_bind];
    match goal with |- context [require_phase ?ph ?n ?self] =>
      destruct (require_phase_terminal ph n self Ht eq_refl) as [e ->] end;
    intros [= <- <-]; (split; [done|left; eauto]).
  - unfold abort. cbv [mbind M_bind]. destruct (check_deadline_terminal now m Ht) as [[[]|e] ->]; simpl.
    + rewrite Ht. intros [= <- <-]. split; [done|left; eauto].
    + intros [= <- <-]. split; [done|left; eauto].
  - unfold expire. rewrite Ht, orb_true_r. intros [= <- <-]. split; [done|]. by right.
Qed.

Lemma handle_late r now m m' res :
  is_terminal (m_phase m) = false -> m_deadline m < now -> handle r now m = (m', res) ->
  m' = expired_at now m /\ (res = Err OE_Expired \/ r = ReqExpire /\ res = Ok (RespBool true)).
Proof.
  intros Ht Hl. destruct r as [p c| |p s| |code|]; cbn [handle].
  1-4: unfold add_commitment, freeze_commitments, add_signature_share, finalize;
    cbv [mbind M_bind]; rewrite require_phase_late by done; intros [= <- <-]; by (split; [|left]).
  - unfold abort. cbv [mbind M_bind]. rewrite check_deadline_late by done. intros [= <- <-]. by (split; [|left]).
  - unfold expire. rewrite Ht, (proj2 (Z.leb_gt _ _) Hl). intros [= <- <-]. by (split; [|right]).
Qed.

Ltac machine_cbn :=
  cbv [mbind M_bind mret M_ret get_self modify raise lift respond require_identity]; simpl.
Ltac refuse := left; split; [done|left; eauto].

Lemma handle_live_commit p c now m m' res :
  is_terminal (m_phase m) = false -> now <= m_deadline m ->
  handle (ReqCommitment p c) now m = (m', res) ->
  m' = m /\ refused (ReqCommitment p c) res \/ step now m (ReqCommitment p c) m' res.
Proof.
  intros Ht Hl. cbn [handle]. unfold add_commitment. machine_cbn. rewrite require_phase_live by done.
  case_bool_decide as Hp; simpl; [|intros [= <- <-]; refuse].
  case_bool_decide as Hi; simpl; [|intros [= <- <-]; right; by apply step_fail].
  destruct (participant_identifier _) as [id|] eqn:Eid; simpl; [|intros [= <- <-]; refuse].
  destruct (m_commitments m !! id) eqn:Ec; simpl; intros [= <- <-]; [refuse|right].
  by apply step_commit.
Qed.

Lemma handle_live_freeze now m m' res :
  is_terminal (m_phase m) = false -> now <= m_deadline m ->
  handle ReqFreeze now m = (m', res) ->
  m' = m /\ refused ReqFreeze res \/ step now m ReqFreeze m' res.
Proof.
  intros Ht Hl. cbn [handle]. unfold freeze_commitments. machine_cbn. rewrite require_phase_live by done.
  case_bool_decide as Hp; simpl; [|intros [= <- <-]; refuse].
  destruct (Z.ltb_spec (Z.of_nat (size (m_commitments m))) (m_min_signers m)); simpl;
    intros [= <- <-]; [refuse|right]. by apply step_freeze.
Qed.

Lemma handle_live_share p s now m m' res :
  is_terminal (m_phase m) = false -> now <= m_deadline m ->
  handle (ReqShare p s) now m = (m', res) ->
  m' = m /\ refused (ReqShare p s) res \/ step now m (ReqShare p s) m' res.
Proof.
  intros Ht Hl. cbn [handle]. unfold add_signature_share. machine_cbn. rewrite require_phase_live by done.
  case_bool_decide as Hp; simpl; [|intros [= <- <-]; refuse].
  case_bool_decide as Hi; simpl; [|intros [= <- <-]; right; by apply step_fail].
  destruct (participant_identifier _) as [id|] eqn:Eid; simpl; [|intros [= <- <-]; refuse].
  destruct (m_frozen_session m) as [session|] eqn:Ef; simpl; [|intros [= <- <-]; refuse].
  destruct (signing_commitments _ !! id) eqn:Ec; simpl; [|intros [= <- <-]; right; by apply step_fail].
  destruct (m_shares m !! id) eqn:Es; simpl; [intros [= <- <-]; refuse|].
  destruct (verifying_shares _ !! id) as [vs|] eqn:Ev; simpl; [|intros [= <- <-]; refuse].
  destruct (verify_signature_share _ _ _ _ _) eqn:Ek; simpl; intros [= <- <-]; right;
    [by eapply step_share|by apply step_fail].
Qed.

Lemma handle_live_finalize now m m' res :
  is_terminal (m_phase m) = false -> now <= m_deadline m ->
  handle ReqFinalize now m = (m', res) ->
  m' = m /\ refused ReqFinalize res \/ step now m ReqFinalize m' res.
Proof.
  intros Ht Hl. cbn [handle]. unfold finalize. machine_cbn. rewrite require_phase_live by done.
  case_bool_decide as Hp; simpl; [|intros [= <- <-]; refuse].
  destruct (Z.ltb_spec (Z.of_nat (size (m_shares m))) (m_min_signers m)); simpl; [intros [= <- <-]; refuse|].
  destruct (m_frozen_session m) as [session|] eqn:Ef; simpl; [|intros [= <- <-]; refuse].
  destruct (aggregate_and_verify session _) as [sig|e] eqn:Ea; simpl; intros [= <- <-]; right;
    [by eapply step_finalize|by apply step_fail].
Qed.

Lemma handle_live_abort code now m m' res :
  is_terminal (m_phase m) = false -> now <= m_deadline m ->
  handle (ReqAbort code) now m = (m', res) -> step now m (ReqAbort code) m' res.
Proof.
  intros Ht Hl. cbn [handle]. unfold abort. machine_cbn. rewrite check_deadline_live by done. simpl.
  rewrite Ht. intros [= <- <-]. by apply step_abort.
Qed.

(** Every request leaves the machine alone or makes one abstract transition. *)
Lemma handle_step r now m m' res :
  handle r now m = (m', res) -> m' = m /\ refused r res \/ step now m r m' res.
Proof.
  intros Hh. destruct (is_terminal (m_phase m)) eqn:Ht; [left; by eapply handle_terminal|].
  destruct (Z.le_gt_cases now (m_deadline m)) as [Hl|Hl].
  - destruct r as [p c| |p s| |code|].
    + by apply handle_live_commit.
    + by apply handle_live_freeze.
    + by apply handle_live_share.
    + by apply handle_live_finalize.
    + right. by apply handle_live_abort.
    + cbn [handle] in Hh. unfold expire in Hh. rewrite (proj2 (Z.leb_le _ _) Hl) in Hh.
      injection Hh as <- <-. left. split; [done|by right].
  - destruct (handle_late _ _ _ _ _ Ht Hl Hh) as [-> Hr]. right. by apply step_expire.
Qed.

(** ** The audit chain *)

Definition event_preimage (previous : bytes) (e : AuditEvent) : bytes :=
  audit_preimage (ae_sequence e) (ae_at e) (ae_kind e) (ae_signer_id e) (ae_code e) previous.
Definition chain_head (previous : bytes) (l : list AuditEvent) : bytes :=
  default previous (ae_event_digest <$> last l).

Lemma chain_head_cons prev e l : chain_head prev (e :: l) = chain_head (ae_event_digest e) l.
Proof. destruct l as [|e' l]; [done|]. unfold chain_head. by rewrite !last_cons_cons, (last_cons e' l); destruct (last l). Qed.

Lemma chain_head_snoc prev l e : chain_head prev (l ++ [e]) = ae_event_digest e.
Proof. unfold chain_head. by rewrite last_snoc. Qed.

Lemma verify_chain_cons prev e l :
  verify_chain prev (e :: l) = true <->
  ae_previous_digest e = prev /\ ae_event_digest e = sha256 (event_preimage prev e) /\
  verify_chain (ae_event_digest e) l = true.
Proof.
  simpl. case_match eqn:Hg.
  - split; [done|]. intros (H1 & H2 & _). rewrite !bool_decide_true in Hg by done. done.
  - apply orb_false_iff in Hg as [H1 H2]. apply negb_false_iff, bool_decide_eq_true in H1, H2. naive_solver.
Qed.

Lemma verify_chain_snoc prev l e :
  verify_chain prev (l ++ [e]) = true <->
  verify_chain prev l = true /\ ae_previous_digest e = chain_head prev l /\
  ae_event_digest e = sha256 (event_preimage (chain_head prev l) e).
Proof.
  revert prev. induction l as [|e0 l IH]; intros prev.
  - rewrite app_nil_l, verify_chain_cons. unfold chain_head. simpl. naive_solver.
  - rewrite <- app_comm_cons, !verify_chain_cons, IH, chain_head_cons. tauto.
Qed.

(** ** Replaying the audit stream *)

Record Replay := mkReplay { rp_phase : SessionPhase; rp_committed : gset Z; rp_shared : gset Z }.

Definition replay_event (st : Replay) (e : AuditEvent) : Replay :=
  let signers : gset Z := match ae_signer_id e with Some k => {[k]} | None => ∅ end in
  match ae_kind e with
  | SessionStarted => mkReplay CollectingCommitments ∅ ∅
  | CommitmentAccepted => mkReplay (rp_phase st) (rp_committed st ∪ signers) (rp_shared st)
  | CommitmentsFrozen => mkReplay CollectingShares (rp_committed st) (rp_shared st)
  | ShareAccepted => mkReplay (rp_phase st) (rp_committed st) (rp_shared st ∪ signers)
  | SessionFinalized => mkReplay Finalized (rp_committed st) (rp_shared st)
  | SessionAborted => mkReplay Aborted (rp_committed st) (rp_shared st)
  | SessionExpired => mkReplay Expired (rp_committed st) (rp_shared st)
  | SessionFailed => mkReplay Failed (rp_committed st) (rp_shared st)
  end.
Definition replay (l : list AuditEvent) : Replay :=
  foldl replay_event (mkReplay CollectingCommitments ∅ ∅) l.

(** The replayed sets are the signers whose identifiers the maps hold. *)
Definition signers_of {V} (ids : gmap Identifier V) (ks : gset Z) : Prop :=
  forall k id, participant_identifier k = Some id -> k ∈ ks <-> is_Some (ids !! id).
Definition replays (m : ThresholdSessionMachine) : Prop :=
  let st := replay (m_audit m) in
  rp_phase st = m_phase m /\ signers_of (m_commitments m) (rp_committed st) /\
  signers_of (m_shares m) (rp_shared st).

Lemma signers_of_insert {FL : FrostLaws F} {V} (ids : gmap Identifier V) ks k id v :
  participant_identifier k = Some id -> signers_of ids ks -> signers_of (<[id := v]> ids) (ks ∪ {[k]}).
Proof.
  intros Hk Hs k' id' Hk'. rewrite elem_of_union, elem_of_singleton, (Hs k' id' Hk').
  destruct (decide (id = id')) as [->|Hn].
  - rewrite lookup_insert_eq. split; [eauto|intros _; right]. by eapply identifier_inj.
  - rewrite lookup_insert_ne by done. split; [|by left]. intros [?| ->]; [done|congruence].
Qed.

(** ** The invariant *)

(** What the machine holds, apart from the audit stream. *)
Record core_inv (m : ThresholdSessionMachine) : Prop := {
  mi_min : 0 < m_min_signers m;
  mi_participants k p : m_participants m !! k = Some p ->
    bp_signer_id p = k /\
    exists id, participant_identifier k = Some id /\ is_Some (verifying_shares (m_public_key_package m) !! id);
  mi_commitments id : is_Some (m_commitments m !! id) -> exists p, bound m p id;
  mi_frozen s : m_frozen_session m = Some s ->
    s = session_of m /\ m_min_signers m <= Z.of_nat (size (m_commitments m));
  mi_collecting : m_phase m = CollectingCommitments -> m_frozen_session m = None;
  mi_sharing : m_phase m = CollectingShares \/ m_phase m = Finalized -> is_Some (m_frozen_session m);
  mi_shares id s : m_shares m !! id = Some s ->
    is_Some (m_commitments m !! id) /\
    exists vs, verifying_shares (m_public_key_package m) !! id = Some vs /\
      verify_signature_share id vs s (fs_signing_package (session_of m))
        (verifying_key (m_public_key_package m)) = true;
  mi_early : m_frozen_session m = None -> m_shares m = ∅;
}.

(** The stream verifies, is numbered from 1 and tells the machine's state. *)
Record machine_inv (m : ThresholdSessionMachine) : Prop := {
  mi_core : core_inv m;
  mi_chain : verify_audit_chain m = true;
  mi_sequence i e : m_audit m !! i = Some e -> ae_sequence e = Z.of_nat i + 1;
  mi_replay : replays m;
}.

Lemma core_inv_record now k sid code m : core_inv m -> core_inv (record now k sid code m).
Proof. by destruct 1; constructor. Qed.

Lemma record_audit now k sid code m :
  verify_audit_chain m = true ->
  (forall i e, m_audit m !! i = Some e -> ae_sequence e = Z.of_nat i + 1) ->
  verify_audit_chain (record now k sid code m) = true /\
  (forall i e, m_audit (record now k sid code m) !! i = Some e -> ae_sequence e = Z.of_nat i + 1).
Proof.
  intros Hc Hs. split.
  - unfold verify_audit_chain, record. simpl. by apply verify_chain_snoc.
  - intros i e. unfold record. simpl. rewrite lookup_app_Some. intros [?|[Hi He]]; [auto|].
    apply list_lookup_singleton_Some in He as [He <-]. simpl. lia.
Qed.

(** Closing the run of a live session, with an event that says so. *)
Lemma core_inv_close ph m :
  is_terminal ph = true -> ph <> Finalized -> core_inv m -> core_inv (set_phase ph m).
Proof.
  intros Ht Hf []. constructor; try done; simpl; intros Hp; [by subst|]. by destruct Hp; subst.
Qed.

Lemma step_core {FL : FrostLaws F} now m r m' res : core_inv m -> step now m r m' res -> core_inv m'.
Proof.
  intros Hi Hs. pose proof Hi as [Hmin Hpart Hcom Hfr Hcol Hsha Hshares Hearly].
  destruct Hs as [p c id _ Hp [Hb Hid] Hn| _ Hp Hq|p s id session vs _ Hp [Hb Hid] Hf Hc Hn Hv Hk
    |session sig _ Hp Hf _ _|code _ _|? sid code e _ _|? res _ _ _].
  - apply core_inv_record. specialize (Hcol Hp). constructor; simpl; try done.
    + intros id'. destruct (decide (id' = id)) as [->|]; [intros _; by exists p|].
      rewrite lookup_insert_ne by done. apply Hcom.
    + congruence.
    + rewrite (Hearly Hcol). intros id' s. by rewrite lookup_empty.
  - apply core_inv_record. specialize (Hcol Hp). constructor; simpl; try done.
    intros s [= <-]. done.
  - apply core_inv_record. destruct (Hfr _ Hf) as [-> Hq]. constructor; simpl; try done.
    + intros id' s'. destruct (decide (id' = id)) as [->|].
      * rewrite lookup_insert_eq. intros [= <-]. simpl in Hc. rewrite package_commitments in Hc. eauto.
      * rewrite lookup_insert_ne by done. apply Hshares.
    + congruence.
  - apply core_inv_record. by constructor; simpl; try done.
  - by apply core_inv_record, core_inv_close.
  - by apply core_inv_record, core_inv_close.
  - by apply core_inv_record, core_inv_close.
Qed.

Lemma replay_snoc l e : replay (l ++ [e]) = replay_event (replay l) e.
Proof. unfold replay. by rewrite foldl_snoc. Qed.

Lemma step_replay {FL : FrostLaws F} now m r m' res : replays m -> step now m r m' res -> replays m'.
Proof.
  intros (Hp & Hc & Hs) Hst.
  destruct Hst as [p c id _ _ [_ Hid] _| |p s id session vs _ _ [_ Hid] _ _ _ _ _| | | | ];
    unfold replays; cbn [record fail expired_at push_event set_state m_audit]; rewrite replay_snoc;
    split_and!; try done; by apply signers_of_insert.
Qed.

Lemma step_record now m r m' res :
  step now m r m' res ->
  exists m1 k sid code, m_audit m1 = m_audit m /\ m' = record now k sid code m1.
Proof. destruct 1; eexists _, _, _, _; (split; [|reflexivity]); done. Qed.

Lemma step_inv {FL : FrostLaws F} now m r m' res : machine_inv m -> step now m r m' res -> machine_inv m'.
Proof.
  intros [Hi Hc Hn Hr] Hs.
  assert (verify_audit_chain m' = true /\ forall i e, m_audit m' !! i = Some e -> ae_sequence e = Z.of_nat i + 1)
    as [Hc' Hn'].
  { destruct (step_record _ _ _ _ _ Hs) as (m1 & k & sid & code & Ha & ->).
    apply record_audit; [|by rewrite Ha]. unfold verify_audit_chain. by rewrite Ha. }
  constructor; [by eapply step_core|done|done|by eapply step_replay].
Qed.

Lemma handle_inv {FL : FrostLaws F} r now m m' res :
  machine_inv m -> handle r now m = (m', res) -> machine_inv m'.
Proof. intros Hi [[-> _]|Hs]%handle_step; [done|by eapply step_inv]. Qed.

(** What never changes during a session. *)
Definition same_session (m m' : ThresholdSessionMachine) : Prop :=
  m_session_id m' = m_session_id m /\ m_message m' = m_message m /\ m_policy_digest m' = m_policy_digest m /\
  m_min_signers m' = m_min_signers m /\ m_deadline m' = m_deadline m /\
  m_public_key_package m' = m_public_key_package m /\ m_participants m' = m_participants m.

Lemma handle_same_session r now m m' res : handle r now m = (m', res) -> same_session m m'.
Proof. intros [[-> _]|[]]%handle_step; by split_and!. Qed.

Lemma handle_audit_grows r now m m' res : handle r now m = (m', res) -> m_audit m `prefix_of` m_audit m'.
Proof.
  intros [[-> _]|Hs]%handle_step; [done|].
  destruct (step_record _ _ _ _ _ Hs) as (m1 & k & sid & code & Ha & ->).
  unfold record. simpl. rewrite Ha. by eexists.
Qed.

(** ** Sessions *)

Lemma participant_map_signer l k p : participant_map l !! k = Some p -> bp_signer_id p = k.
Proof.
  unfold participant_map. intros Hl%elem_of_list_to_map_2.
  rewrite elem_of_reverse, list_elem_of_fmap in Hl. by destruct Hl as (q & [= -> ->] & _).
Qed.

Lemma new_inv sid msg pol min dl ps pkp now m :
  is_u16 min -> ThresholdSessionMachine_new sid msg pol min dl ps pkp now = Ok m ->
  machine_inv m /\ m_phase m = CollectingCommitments /\ now < dl /\ length (m_audit m) = 1%nat /\
  min <= Z.of_nat (size (m_participants m)) /\
  same_session (mkMachine sid msg pol min dl CollectingCommitments pkp (participant_map ps) ∅ None ∅ []) m.
Proof.
  unfold ThresholdSessionMachine_new. intros [Hmin _] Hn. apply bind_Ok in Hn as (u & Hg & [= <-]).
  apply reject_if_Ok in Hg. repeat (apply orb_false_iff in Hg as [Hg ?]).
  autorewrite with guards in *. split; [|by split_and!]. split.
  - apply core_inv_record. constructor; simpl; try done; [lia| |by intros ? []|by intros []].
    intros k p Hp. split; [by eapply participant_map_signer|].
    assert (existsb (bad_entry pkp) (map_to_list (participant_map ps)) = true -> False) as Hb by congruence.
    destruct (bad_entry pkp (k, p)) eqn:Eb.
    { destruct Hb. apply existsb_exists. exists (k, p). split; [|done].
      by apply list_elem_of_In, elem_of_map_to_list. }
    unfold bad_entry in Eb. simpl in Eb. apply orb_false_iff in Eb as [_ Eb].
    destruct (participant_identifier k) as [id|]; [|done].
    apply negb_false_iff, bool_decide_eq_true in Eb. eauto.
  - by refine (proj1 (record_audit _ _ _ _ _ _ _)).
  - by refine (proj2 (record_audit _ _ _ _ _ _ _)).
  - split_and!; [done|..]; intros k id _; (split; [by intros ?%elem_of_empty|]);
      cbn; rewrite lookup_empty; by intros [].
Qed.

(** The machines a session goes through. *)
Definition session_step (m m' : ThresholdSessionMachine) : Prop :=
  exists r now res, handle r now m = (m', res).

Lemma session_run {FL : FrostLaws F} m m' :
  rtc session_step m m' -> machine_inv m ->
  machine_inv m' /\ same_session m m' /\ m_audit m `prefix_of` m_audit m'.
Proof.
  induction 1 as [m|m1 m2 m3 (r & now & res & Hh) _ IH]; intros Hi.
  { split_and!; done || by split_and!. }
  destruct (IH (handle_inv _ _ _ _ _ Hi Hh)) as (Hi3 & Hs & Hp). split; [done|].
  apply handle_audit_grows in Hh as Hg. apply handle_same_session in Hh. unfold same_session in *.
  destruct_ex. split_and!; try congruence. by etrans.
Qed.
End inv.
