(* ===== verification/OrchestratorRun.v ===== *)
(** * Runs of the threshold session

    Sequences of requests, the honest run in which every chosen signer
    contributes in time, and what a verified audit stream pins down. *)

From Stdlib Require Import ZArith Lia.
From S2P Require Import Prelude Bitcoin Frost Orchestrator OrchestratorInv.
From stdpp Require Import list gmap.
Local Open Scope Z_scope.

Section run.
Context `{B : BitcoinLib} `{F : FrostLib} {FL : FrostLaws F}.

(** Requests with their arrival times, and the answers in order. *)
Fixpoint run (reqs : list (Z * Request)) (m : ThresholdSessionMachine)
    : ThresholdSessionMachine * list (result OrchestrationError Response) :=
  match reqs with
  | [] => (m, [])
  | (now, r) :: rest =>
      let '(m1, res) := handle r now m in
      let '(m2, out) := run rest m1 in
      (m2, res :: out)
  end.

Lemma run_app l1 l2 m m1 m2 o1 o2 :
  run l1 m = (m1, o1) -> run l2 m1 = (m2, o2) -> run (l1 ++ l2) m = (m2, o1 ++ o2).
Proof.
  revert m o1. induction l1 as [|[now r] l1 IH]; intros m o1; simpl.
  - intros [= <- <-]. done.
  - destruct (handle r now m) as [m0 res]. destruct (run l1 m0) as [m3 o3] eqn:E.
    intros [= <- <-] H2. by rewrite (IH _ _ E H2).
Qed.

(** One entry per signer, under its identifier. *)
Fixpoint collect {V} (f : BoundParticipant -> V) (l : list BoundParticipant) (acc : gmap Identifier V)
    : gmap Identifier V :=
  match l with
  | [] => acc
  | p :: rest =>
      collect f rest match participant_identifier (bp_signer_id p) with
                     | Some id => <[id := f p]> acc
                     | None => acc
                     end
  end.

(** The signers are bound, different, and have no entry yet. *)
Definition fresh_signers {V} (m : ThresholdSessionMachine) (l : list BoundParticipant)
    (acc : gmap Identifier V) : Prop :=
  NoDup (bp_signer_id <$> l) /\ forall p, p ∈ l -> exists id, bound m p id /\ acc !! id = None.

Lemma fresh_signers_cons {V} m p l (acc : gmap Identifier V) v :
  fresh_signers m (p :: l) acc ->
  exists id, bound m p id /\ acc !! id = None /\ fresh_signers m l (<[id := v]> acc).
Proof.
  intros [Hn Hf]. destruct (Hf p ltac:(left)) as (id & Hb & Ha). exists id. split_and!; [done..|].
  inversion Hn as [|? ? Hp Hn']; subst. split; [done|]. intros q Hq.
  destruct (Hf q ltac:(by right)) as (id' & Hb' & Ha'). exists id'. split; [done|].
  rewrite lookup_insert_ne; [done|]. intros ->. destruct Hp.
  destruct Hb as [_ Hb], Hb' as [_ Hb']. rewrite (identifier_inj _ _ _ Hb Hb').
  by apply list_elem_of_fmap_2.
Qed.

Lemma size_collect {V} (f : BoundParticipant -> V) m l acc :
  fresh_signers m l acc -> size (collect f l acc) = (size acc + length l)%nat.
Proof.
  revert acc. induction l as [|p l IH]; intros acc Hf; simpl; [lia|].
  destruct (fresh_signers_cons m p l acc (f p) Hf) as (id & [_ ->] & Ha & Hf').
  rewrite (IH _ Hf'), map_size_insert_None by done. lia.
Qed.

Lemma fresh_signers_same {V} m m' l (acc : gmap Identifier V) :
  m_participants m' = m_participants m -> fresh_signers m l acc -> fresh_signers m' l acc.
Proof. unfold fresh_signers, bound. by intros ->. Qed.

(** The part of the machine an accepted contribution leaves alone. *)
Definition same_frame (m m' : ThresholdSessionMachine) : Prop :=
  same_session m m' /\ m_phase m' = m_phase m /\ m_frozen_session m' = m_frozen_session m.

Lemma same_frame_trans m1 m2 m3 : same_frame m1 m2 -> same_frame m2 m3 -> same_frame m1 m3.
Proof. unfold same_frame, same_session. intros. destruct_ex. split_and!; congruence. Qed.

Lemma handle_commit_ok p c now m id :
  now <= m_deadline m -> m_phase m = CollectingCommitments -> bound m p id -> m_commitments m !! id = None ->
  exists m', handle (ReqCommitment p c) now m = (m', Ok RespDone) /\ same_frame m m' /\
    m_shares m' = m_shares m /\ m_commitments m' = <[id := c]> (m_commitments m).
Proof.
  intros Hl Hp [Hb Hid] Hn. cbn [handle]. unfold add_commitment.
  cbv [mbind M_bind mret M_ret get_self modify raise lift respond require_identity].
  rewrite require_phase_live by (done || by rewrite Hp). rewrite bool_decide_true by done. simpl.
  rewrite bool_decide_true by done. simpl. rewrite Hid. simpl. rewrite Hn. simpl.
  eexists. split; [done|]. by split_and!.
Qed.

Lemma handle_share_ok p s now m id session vs :
  now <= m_deadline m -> m_phase m = CollectingShares -> bound m p id ->
  m_frozen_session m = Some session ->
  is_Some (signing_commitments (fs_signing_package session) !! id) ->
  m_shares m !! id = None -> verifying_shares (m_public_key_package m) !! id = Some vs ->
  verify_signature_share id vs s (fs_signing_package session) (verifying_key (m_public_key_package m)) = true ->
  exists m', handle (ReqShare p s) now m = (m', Ok RespDone) /\ same_frame m m' /\
    m_commitments m' = m_commitments m /\ m_shares m' = <[id := s]> (m_shares m).
Proof.
  intros Hl Hp [Hb Hid] Hf [c Hc] Hn Hv Hk. cbn [handle]. unfold add_signature_share.
  cbv [mbind M_bind mret M_ret get_self modify raise lift respond require_identity].
  rewrite require_phase_live by (done || by rewrite Hp). rewrite bool_decide_true by done. simpl.
  rewrite bool_decide_true by done. simpl. rewrite Hid. simpl. rewrite Hf. simpl.
  rewrite Hc, Hn. simpl. rewrite Hv. simpl. rewrite Hk. simpl.
  eexists. split; [done|]. by split_and!.
Qed.

Lemma run_commitments c now l m :
  now <= m_deadline m -> m_phase m = CollectingCommitments -> fresh_signers m l (m_commitments m) ->
  exists m', run ((fun p => (now, ReqCommitment p (c p))) <$> l) m = (m', (fun _ => Ok RespDone) <$> l) /\
    same_frame m m' /\ m_shares m' = m_shares m /\ m_commitments m' = collect c l (m_commitments m).
Proof.
  revert m. induction l as [|p l IH]; intros m Hl Hp Hf; cbn [fmap list_fmap run collect].
  { exists m. by split_and!. }
  destruct (fresh_signers_cons m p l _ (c p) Hf) as (id & Hb & Ha & Hf').
  destruct (handle_commit_ok p (c p) now m id) as (m1 & -> & Hs & Hsh & Hc); [done..|].
  pose proof Hs as (Hss & Hp1 & Hfr). unfold same_session in Hss. destruct_ex.
  destruct (IH m1) as (m2 & -> & Hs2 & Hsh2 & Hc2); [lia|congruence| |].
  { rewrite Hc. by apply (fresh_signers_same m). }
  exists m2. split_and!; [done|by eapply same_frame_trans|congruence|].
  rewrite Hc2, Hc. by destruct Hb as [_ ->].
Qed.

(** Every signer's share verifies in the frozen session. *)
Definition good_share (m : ThresholdSessionMachine) (session : FrostSession) (sh : BoundParticipant -> SignatureShare)
    (p : BoundParticipant) : Prop :=
  exists id vs, participant_identifier (bp_signer_id p) = Some id /\
    is_Some (signing_commitments (fs_signing_package session) !! id) /\
    verifying_shares (m_public_key_package m) !! id = Some vs /\
    verify_signature_share id vs (sh p) (fs_signing_package session)
      (verifying_key (m_public_key_package m)) = true.

Lemma run_shares sh session now l m :
  now <= m_deadline m -> m_phase m = CollectingShares -> m_frozen_session m = Some session ->
  fresh_signers m l (m_shares m) -> Forall (good_share m session sh) l ->
  exists m', run ((fun p => (now, ReqShare p (sh p))) <$> l) m = (m', (fun _ => Ok RespDone) <$> l) /\
    same_frame m m' /\ m_commitments m' = m_commitments m /\ m_shares m' = collect sh l (m_shares m).
Proof.
  revert m. induction l as [|p l IH]; intros m Hl Hp Hfz Hf Hg; cbn [fmap list_fmap run collect].
  { exists m. by split_and!. }
  destruct (fresh_signers_cons m p l _ (sh p) Hf) as (id & Hb & Ha & Hf').
  inversion Hg as [|? ? (id' & vs & Hid & Hcm & Hv & Hk) Hg']; subst.
  assert (id' = id) as -> by (destruct Hb; congruence).
  destruct (handle_share_ok p (sh p) now m id session vs) as (m1 & -> & Hs & Hc & Hsh); [done..|].
  pose proof Hs as (Hss & Hp1 & Hfr). unfold same_session in Hss. destruct_ex.
  destruct (IH m1) as (m2 & -> & Hs2 & Hc2 & Hsh2); [lia|congruence|congruence| | |].
  { rewrite Hsh. by apply (fresh_signers_same m). }
  { eapply Forall_impl; [exact Hg'|]. intros q. unfold good_share. by replace (m_public_key_package m1) with (m_public_key_package m). }
  exists m2. split_and!; [done|by eapply same_frame_trans|congruence|].
  rewrite Hsh2, Hsh. by rewrite Hid.
Qed.

Definition honest_requests (now : Z) (c : BoundParticipant -> SigningCommitments)
    (sh : BoundParticipant -> SignatureShare) (l : list BoundParticipant) : list (Z * Request) :=
  ((fun p => (now, ReqCommitment p (c p))) <$> l) ++ [(now, ReqFreeze)] ++
  ((fun p => (now, ReqShare p (sh p))) <$> l) ++ [(now, ReqFinalize)].

Lemma handle_freeze_ok now m :
  now <= m_deadline m -> m_phase m = CollectingCommitments ->
  m_min_signers m <= Z.of_nat (size (m_commitments m)) ->
  exists m', handle ReqFreeze now m = (m', Ok (RespSession (session_of m))) /\ same_session m m' /\
    m_phase m' = CollectingShares /\ m_frozen_session m' = Some (session_of m) /\
    m_commitments m' = m_commitments m /\ m_shares m' = m_shares m.
Proof.
  intros Hl Hp Hq. cbn [handle]. unfold freeze_commitments.
  cbv [mbind M_bind mret M_ret get_self modify raise lift respond].
  rewrite require_phase_live by (done || by rewrite Hp). rewrite bool_decide_true by done. simpl.
  rewrite (proj2 (Z.ltb_ge _ _) Hq). eexists. split; [done|]. by split_and!.
Qed.

Lemma handle_finalize_ok now m session sig :
  now <= m_deadline m -> m_phase m = CollectingShares -> m_frozen_session m = Some session ->
  m_min_signers m <= Z.of_nat (size (m_shares m)) -> aggregate_and_verify session (m_shares m) = Ok sig ->
  exists m', handle ReqFinalize now m = (m', Ok (RespSignature sig)) /\ m_phase m' = Finalized.
Proof.
  intros Hl Hp Hf Hq Ha. cbn [handle]. unfold finalize.
  cbv [mbind M_bind mret M_ret get_self modify raise lift respond].
  rewrite require_phase_live by (done || by rewrite Hp). rewrite bool_decide_true by done. simpl.
  rewrite (proj2 (Z.ltb_ge _ _) Hq), Hf. simpl. rewrite Ha. by eexists.
Qed.

(** Enough signers that answer in time bring a fresh session to its end. *)
Lemma honest_run now c sh l m sig :
  m_phase m = CollectingCommitments -> m_commitments m = ∅ -> m_shares m = ∅ -> now <= m_deadline m ->
  fresh_signers m l (∅ : gmap Identifier SigningCommitments) ->
  m_min_signers m <= Z.of_nat (length l) ->
  let session := build_session (m_session_id m) (m_message m) (m_min_signers m) (collect c l ∅)
                   (m_public_key_package m) in
  Forall (good_share m session sh) l ->
  aggregate_and_verify session (collect sh l ∅) = Ok sig ->
  exists m' out, run (honest_requests now c sh l) m = (m', out ++ [Ok (RespSignature sig)]) /\
    m_phase m' = Finalized.
Proof.
  intros Hp Hc0 Hs0 Hl Hf Hq session Hg Ha.
  assert (forall V, fresh_signers m l (∅ : gmap Identifier V)) as Hfv.
  { intros V. destruct Hf as [Hn Hf]. split; [done|]. intros p Hpl.
    destruct (Hf p Hpl) as (id & ? & _). exists id. split; [done|apply lookup_empty]. }
  destruct (run_commitments c now l m) as (m1 & R1 & ((S1 & S2 & S3 & S4 & S5 & S6 & S7) & P1 & F1) & Sh1 & C1);
    [done|done|by rewrite Hc0|]. rewrite Hc0 in C1.
  destruct (handle_freeze_ok now m1) as (m2 & R2 & (T1 & T2 & T3 & T4 & T5 & T6 & T7) & P2 & F2 & C2 & Sh2);
    [lia|congruence| |].
  { rewrite C1, (size_collect c m l ∅ (Hfv _)), map_size_empty. lia. }
  assert (session_of m1 = session) as Hses by (unfold session_of, session; congruence).
  destruct (run_shares sh session now l m2) as (m3 & R3 & ((U1 & U2 & U3 & U4 & U5 & U6 & U7) & P3 & F3) & C3 & Sh3);
    [lia|done|congruence| | |].
  { rewrite Sh2, Sh1, Hs0. apply (fresh_signers_same m); [congruence|apply Hfv]. }
  { eapply Forall_impl; [exact Hg|]. intros q. unfold good_share.
    by replace (m_public_key_package m2) with (m_public_key_package m) by congruence. }
  rewrite Sh2, Sh1, Hs0 in Sh3.
  destruct (handle_finalize_ok now m3 session sig) as (m4 & R4 & P4);
    [lia|congruence|congruence| |by rewrite Sh3|].
  { rewrite Sh3, (size_collect sh m l ∅ (Hfv _)), map_size_empty. lia. }
  exists m4. eexists. split; [|done]. unfold honest_requests.
  rewrite !(assoc_L (++)). eapply run_app; [|cbn [run]; by rewrite R4].
  eapply run_app; [|done]. eapply run_app; [done|]. cbn [run]. by rewrite R2.
Qed.

(** ** What a verified stream pins down *)

(** The fields of an event are of their Rust types. *)
Definition event_wf (e : AuditEvent) : Prop :=
  is_u64 (ae_sequence e) /\ is_i64 (ae_at e) /\ is_u16 (default 0 (ae_signer_id e)) /\
  is_u32 (Z.of_nat (length (ascii_bytes (default EmptyString (ae_code e))))).

(** Two events that agree on everything the digest covers. *)
Definition same_event (e1 e2 : AuditEvent) : Prop :=
  ae_sequence e1 = ae_sequence e2 /\ ae_at e1 = ae_at e2 /\ ae_kind e1 = ae_kind e2 /\
  default 0 (ae_signer_id e1) = default 0 (ae_signer_id e2) /\
  default EmptyString (ae_code e1) = default EmptyString (ae_code e2) /\
  ae_previous_digest e1 = ae_previous_digest e2 /\ ae_event_digest e1 = ae_event_digest e2.

Lemma kind_as_u8_inj k1 k2 : z2b (kind_as_u8 k1) = z2b (kind_as_u8 k2) -> k1 = k2.
Proof. by destruct k1, k2. Qed.

Lemma event_preimage_inj p1 p2 e1 e2 :
  length p1 = 32%nat -> length p2 = 32%nat -> event_wf e1 -> event_wf e2 ->
  event_preimage p1 e1 = event_preimage p2 e2 ->
  p1 = p2 /\ ae_sequence e1 = ae_sequence e2 /\ ae_at e1 = ae_at e2 /\ ae_kind e1 = ae_kind e2 /\
  default 0 (ae_signer_id e1) = default 0 (ae_signer_id e2) /\
  default EmptyString (ae_code e1) = default EmptyString (ae_code e2).
Proof.
  intros L1 L2 (W1 & W2 & W3 & W4) (X1 & X2 & X3 & X4). unfold event_preimage, audit_preimage. intros He.
  do 2 apply app_inv_head in He.
  apply app_inj_length in He as [-> He]; [|congruence].
  apply app_inj_length in He as [Hs He]; [|by rewrite !length_be_bytes].
  apply app_inj_length in He as [Ha He]; [|by rewrite !length_be_bytes].
  apply app_inj_length in He as [Hk He]; [|done]. apply (f_equal head) in Hk. cbn in Hk. injection Hk as Hk.
  apply app_inj_length in He as [Hi He]; [|by rewrite !length_be_bytes].
  rewrite <- (app_nil_r (len_prefixed_be 4 _)), <- (app_nil_r (len_prefixed_be 4 (ascii_bytes (default _ (ae_code e2))))) in He.
  apply len_prefixed_be_inj in He as [Hc _]; [|done..].
  split_and!; [done|by apply (be_bytes_inj 8)| |by apply kind_as_u8_inj|by apply (be_bytes_inj 2)|by apply ascii_bytes_inj].
  by apply be_bytes_i64_inj.
Qed.

Definition chain_preimages (l : list AuditEvent) : list bytes :=
  (fun e => event_preimage (ae_previous_digest e) e) <$> l.

(** SHA-256 has no collision among the hashed events and none hashes to the
    digest the chain starts from. *)
Definition no_collision (l1 l2 : list AuditEvent) : Prop :=
  (forall x y, x ∈ chain_preimages l1 -> y ∈ chain_preimages l2 -> sha256 x = sha256 y -> x = y) /\
  (forall x, x ∈ chain_preimages (l1 ++ l2) -> sha256 x <> zeros32).

Lemma no_collision_snoc l1 l2 e1 e2 : no_collision (l1 ++ [e1]) (l2 ++ [e2]) -> no_collision l1 l2.
Proof.
  unfold no_collision, chain_preimages. rewrite !fmap_app. intros [H1 H2].
  split; [intros x y Hx Hy; apply H1|intros x Hx; apply H2]; rewrite !elem_of_app in *; tauto.
Qed.

Lemma chain_head_length {BL : BitcoinLaws B} l :
  verify_chain zeros32 l = true -> length (chain_head zeros32 l) = 32%nat.
Proof.
  destruct l as [|e l _] using rev_ind; [done|]. intros (_ & _ & He)%verify_chain_snoc.
  by rewrite chain_head_snoc, He, sha256_length.
Qed.

Lemma chain_head_nonzero l1 l2 e :
  (forall x, x ∈ chain_preimages (l1 ++ l2) -> sha256 x <> zeros32) -> e ∈ l1 ++ l2 ->
  ae_event_digest e = sha256 (event_preimage (ae_previous_digest e) e) -> ae_event_digest e <> zeros32.
Proof. intros Hz He ->. apply Hz. by apply (list_elem_of_fmap_2 (fun e => event_preimage (ae_previous_digest e) e)). Qed.

Lemma verified_chain_binds {BL : BitcoinLaws B} l1 l2 :
  verify_chain zeros32 l1 = true -> verify_chain zeros32 l2 = true ->
  Forall event_wf l1 -> Forall event_wf l2 -> no_collision l1 l2 ->
  chain_head zeros32 l1 = chain_head zeros32 l2 -> Forall2 same_event l1 l2.
Proof.
  revert l2. induction l1 as [|e1 l1 IH] using rev_ind; intros l2 V1 V2 W1 W2 Hn Hh.
  - destruct l2 as [|e2 l2 _] using rev_ind; [constructor|].
    apply verify_chain_snoc in V2 as (_ & Hp & He). rewrite chain_head_snoc in Hh.
    destruct (chain_head_nonzero [] (l2 ++ [e2]) e2); [apply Hn|set_solver|by rewrite Hp|done].
  - apply verify_chain_snoc in V1 as (V1 & Hp1 & He1). rewrite chain_head_snoc in Hh.
    destruct l2 as [|e2 l2 _] using rev_ind.
    { destruct (chain_head_nonzero (l1 ++ [e1]) [] e1); [apply Hn|set_solver|by rewrite Hp1|done]. }
    apply verify_chain_snoc in V2 as (V2 & Hp2 & He2). rewrite chain_head_snoc in Hh.
    apply Forall_app in W1 as [W1 [W1' _]%Forall_cons], W2 as [W2 [W2' _]%Forall_cons].
    assert (event_preimage (chain_head zeros32 l1) e1 = event_preimage (chain_head zeros32 l2) e2) as Hpre.
    { apply Hn; [..|congruence]; unfold chain_preimages; rewrite fmap_app, elem_of_app; right;
        apply list_elem_of_singleton; by rewrite ?Hp1, ?Hp2. }
    apply event_preimage_inj in Hpre as (Hhd & ? & ? & ? & ? & ?); [|by apply chain_head_length..|done|done].
    apply Forall2_app; [apply IH; try done; by eapply no_collision_snoc|].
    constructor; [|constructor]. unfold same_event. split_and!; congruence.
Qed.
End run.
