(* ===== verification/ThresholdProperties.v ===== *)
(** * Properties of the threshold signer

    The claims about the audited session machine and the participants, with
    witnesses over a small computable stand-in for the FROST crate. *)

From Stdlib Require Import ZArith Lia.
From S2P Require Import Prelude Bitcoin IssuanceTerms IssuerState Pow IssuerScript ScriptMachine Concrete.
From S2P Require Import Frost Participant Orchestrator OrchestratorInv OrchestratorRun.
From stdpp Require Import list gmap.
Local Open Scope Z_scope.

(** A one-use token for one session, message and signer. *)
Definition toy_token : Type := option (bytes * bytes * Z).
#[export] Instance toy_auth : SigningAuthorization toy_token := fun t sid msg signer now =>
  match t with
  | Some (s, m, k) =>
      if bool_decide (s = sid) && bool_decide (m = msg) && (k =? signer) then (None, Ok tt)
      else (t, Err WrongSession)
  | None => (None, Err AlreadyConsumed)
  end.

Definition bp (k : Z) : BoundParticipant := mkBoundParticipant k [z2b k] 1 [].
Definition toy_pkp : @PublicKeyPackage toy_frost :=
  (<[1 := [x01]]> (<[2 := [x02]]> (<[3 := [x03]]> ∅)), [xaa]).
Definition toy_msg : bytes := [x4d].
Definition toy_new : result OrchestrationError ThresholdSessionMachine :=
  ThresholdSessionMachine_new [x51] toy_msg [] 2 100 [bp 1; bp 2; bp 3] toy_pkp 10.
Definition toy_m0 : ThresholdSessionMachine :=
  default (mkMachine [] [] [] 0 0 Failed toy_pkp ∅ ∅ None ∅ []) (result_ok toy_new).
Definition toy_commitment (p : BoundParticipant) : bytes := [z2b (bp_signer_id p)].
Definition toy_share (p : BoundParticipant) : bytes := toy_msg ++ [z2b (bp_signer_id p)].
Definition toy_requests : list (Z * Request) := honest_requests 20 toy_commitment toy_share [bp 1; bp 3].
(** The machine just before [finalize], and after it. *)
Definition toy_m1 : ThresholdSessionMachine := (run (take 5 toy_requests) toy_m0).1.
Definition toy_m2 : ThresholdSessionMachine := (finalize 20 toy_m1).1.

Lemma toy_new_Ok : toy_new = Ok toy_m0.
Proof. apply is_ok_default. by vm_compute. Qed.

Lemma run_reachable `{BitcoinLib} `{FrostLib} reqs m m' out : run reqs m = (m', out) -> rtc session_step m m'.
Proof.
  revert m out. induction reqs as [|[now r] reqs IH]; intros m out; cbn [run]; [intros [= <- _]; constructor|].
  destruct (handle r now m) as [m1 res] eqn:E. destruct (run reqs m1) as [m2 o] eqn:E2.
  intros [= <- _]. eapply rtc_l; [|by eapply IH]. by eexists _, _, _.
Qed.

Lemma toy_m1_reachable : rtc session_step toy_m0 toy_m1.
Proof. eapply run_reachable. apply surjective_pairing. Qed.

Lemma toy_finalize : finalize 20 toy_m1 = (toy_m2, Ok (toy_msg ++ [xaa])).
Proof.
  unfold toy_m2. destruct (finalize 20 toy_m1) as [m r] eqn:E. simpl. f_equal.
  change r with (m, r).2. rewrite <- E. by vm_compute.
Qed.

(** ** The session machine *)

(** C4: when [finalize] returns a signature, on any machine reached from
    [ThresholdSessionMachine::new] by any sequence of requests, the deadline
    has not passed, the signature verifies under the group key for exactly
    the message given to [new], and it was aggregated from at least
    [min_signers] shares, each of which is verified against its own verifying
    share in the frozen signing package and comes from a participant that was
    given to [new] and committed before the freeze. *)
Theorem finalized_session_sound {B : BitcoinLib} {F : FrostLib} {FL : FrostLaws F}
    sid msg pol min dl ps pkp t0 m0 m now m' sig :
  is_u16 min ->
  ThresholdSessionMachine_new sid msg pol min dl ps pkp t0 = Ok m0 ->
  rtc session_step m0 m ->
  finalize now m = (m', Ok sig) ->
  now <= dl /\ m_phase m' = Finalized /\
  verifying_key_verify (verifying_key pkp) msg sig = true /\
  frost_aggregate (signing_package_new (m_commitments m) msg) (m_shares m) pkp = Some sig /\
  0 < min <= Z.of_nat (size (m_shares m)) /\
  forall id s, m_shares m !! id = Some s ->
    is_Some (m_commitments m !! id) /\
    (exists p, p ∈ ps /\ participant_identifier (bp_signer_id p) = Some id) /\
    exists vs, verifying_shares pkp !! id = Some vs /\
      verify_signature_share id vs s (signing_package_new (m_commitments m) msg) (verifying_key pkp) = true.
Proof.
  intros Hmin Hnew Hrun Hfin. destruct (new_inv _ _ _ _ _ _ _ _ _ Hmin Hnew) as (Hi0 & _ & _ & _ & _ & Hs0).
  destruct (session_run _ _ Hrun Hi0) as ([Hi _ _ _] & Hs & _).
  assert (pkp = m_public_key_package m /\ msg = m_message m /\ dl = m_deadline m /\ min = m_min_signers m /\
    m_participants m = participant_map ps) as (-> & -> & -> & -> & Epm)
    by (unfold same_session in *; simpl in *; destruct_ex; split_and!; congruence).
  assert (handle ReqFinalize now m = (m', Ok (RespSignature sig))) as Hh by (cbn [handle]; by rewrite Hfin).
  destruct (handle_step _ _ _ _ _ Hh) as [[_ [[e [=]]|[[=] _]]]|Hst].
  inversion Hst as [| | |session sig' Hl Hp Hf Hq Ha| | |]; [subst|naive_solver].
  destruct (mi_frozen _ Hi _ Hf) as [-> _]. unfold aggregate_and_verify, verify_signature in Ha.
  res_inv. subst. split_and!; try done.
  - by apply mi_min in Hi.
  - intros id s Hid. destruct (mi_shares _ Hi _ _ Hid) as (Hc & Hv).
    destruct (mi_commitments _ Hi _ Hc) as (p & Hp1 & Hp2). split_and!; [done| |done].
    exists p. split; [|done]. rewrite Epm in Hp1. apply elem_of_list_to_map_2 in Hp1.
    rewrite elem_of_reverse, list_elem_of_fmap in Hp1. by destruct Hp1 as (q & [= _ ->] & ?).
Qed.

Lemma finalized_session_sound_witness :
  20 <= 100 /\ m_phase toy_m2 = Finalized /\ verifying_key_verify (verifying_key toy_pkp) toy_msg (toy_msg ++ [xaa]) = true.
Proof.
  destruct (finalized_session_sound [x51] toy_msg [] 2 100 [bp 1; bp 2; bp 3] toy_pkp 10 toy_m0 toy_m1 20 toy_m2
    (toy_msg ++ [xaa])) as (H1 & H2 & H3 & _);
    [done|exact toy_new_Ok|exact toy_m1_reachable|exact toy_finalize|].
  split_and!; [exact H1|exact H2|exact H3].
Defined.

(** C21: the audit stream of every reachable session is complete and faithful:
    after any request the hash chain verifies, the events are numbered from 1,
    the old stream is a prefix of the new one, the machine changed only if
    exactly one event with the request's time was appended, and replaying the
    stream yields the phase, the signers whose commitments are held and the
    signers whose shares are held. *)
Theorem audit_stream_faithful {B : BitcoinLib} {F : FrostLib} {FL : FrostLaws F}
    sid msg pol min dl ps pkp t0 m0 m r now m' res :
  is_u16 min ->
  ThresholdSessionMachine_new sid msg pol min dl ps pkp t0 = Ok m0 ->
  rtc session_step m0 m ->
  handle r now m = (m', res) ->
  verify_audit_chain m' = true /\
  (forall i e, m_audit m' !! i = Some e -> ae_sequence e = Z.of_nat i + 1) /\
  (m' = m \/ exists e, m_audit m' = m_audit m ++ [e] /\ ae_at e = now) /\
  replays m'.
Proof.
  intros Hmin Hnew Hrun Hh. destruct (new_inv _ _ _ _ _ _ _ _ _ Hmin Hnew) as (Hi0 & _).
  destruct (session_run _ _ Hrun Hi0) as (Hi & _). destruct (handle_inv _ _ _ _ _ Hi Hh) as [_ Hc Hn Hr].
  split_and!; try done. destruct (handle_step _ _ _ _ _ Hh) as [[-> _]|Hs]; [by left|right].
  destruct (step_record _ _ _ _ _ Hs) as (m1 & k & si & code & Ha & ->).
  unfold record. simpl. rewrite Ha. by eexists.
Qed.

Lemma audit_stream_faithful_witness : verify_audit_chain toy_m2 = true /\ replays toy_m2.
Proof.
  destruct (audit_stream_faithful [x51] toy_msg [] 2 100 [bp 1; bp 2; bp 3] toy_pkp 10 toy_m0 toy_m1
    ReqFinalize 20 toy_m2 (Ok (@RespSignature toy_frost (toy_msg ++ [xaa])))) as (H1 & _ & _ & H2);
    [done|exact toy_new_Ok|exact toy_m1_reachable|cbn [handle]; by rewrite toy_finalize|].
  split; [exact H1|exact H2].
Defined.

(** Finalized, Aborted, Expired and Failed are final: no sequence of
    requests changes a session in such a phase, and every request to it is
    refused. *)
Theorem terminal_phase_final {B : BitcoinLib} {F : FrostLib} m m' r now :
  is_terminal (m_phase m) = true ->
  rtc session_step m m' ->
  m' = m /\ (handle r now m').1 = m /\ refused r (handle r now m').2.
Proof.
  intros Ht Hrun. assert (m' = m) as ->.
  { induction Hrun as [|m m1 m2 (r1 & t & res & Hh) _ IH]; [done|].
    destruct (handle_terminal _ _ _ _ _ Ht Hh) as [-> _]. auto. }
  split; [done|]. destruct (handle r now m) as [m' res] eqn:E. by eapply handle_terminal.
Qed.

Lemma terminal_phase_final_witness : (handle (ReqAbort "late") 30 toy_m2).1 = toy_m2.
Proof.
  destruct (terminal_phase_final toy_m2 toy_m2 (ReqAbort "late") 30) as (_ & H1 & _);
    [by vm_compute|apply rtc_refl|exact H1].
Defined.

(** After the deadline no request succeeds: whatever arrives, the session
    ends in a terminal phase, an open session becomes Expired with a
    SessionExpired event as the last of its stream, and every request except
    [expire] itself is refused. *)
Theorem deadline_closes_session {B : BitcoinLib} {F : FrostLib} m r now m' res :
  m_deadline m < now ->
  handle r now m = (m', res) ->
  is_terminal (m_phase m') = true /\
  (r = ReqExpire \/ exists e, res = Err e) /\
  (is_terminal (m_phase m) = false ->
     m_phase m' = Expired /\ ae_kind <$> last (m_audit m') = Some SessionExpired /\
     (r <> ReqExpire -> res = Err OE_Expired)).
Proof.
  intros Hl Hh. destruct (is_terminal (m_phase m)) eqn:Ht.
  - destruct (handle_terminal _ _ _ _ _ Ht Hh) as [-> [?|[-> _]]]; naive_solver.
  - destruct (handle_late _ _ _ _ _ Ht Hl Hh) as [-> Hr]. split; [done|]. split; [naive_solver|].
    intros _. split; [done|]. split; [|naive_solver].
    unfold expired_at, record. simpl. by rewrite last_snoc.
Qed.

Lemma deadline_closes_session_witness : m_phase (handle ReqFinalize 101 toy_m1).1 = Expired.
Proof.
  destruct (deadline_closes_session toy_m1 ReqFinalize 101 (handle ReqFinalize 101 toy_m1).1
    (handle ReqFinalize 101 toy_m1).2) as (_ & _ & H1);
    [by vm_compute|apply surjective_pairing|destruct H1 as (H1 & _); [by vm_compute|exact H1]].
Defined.

(** C35: a threshold of signers that answer in time completes the session:
    distinct bound signers that send commitments, a freeze, their shares and
    [finalize], all before the deadline, obtain the aggregated signature,
    provided each share verifies and the aggregate verifies in the session the
    freeze builds.  No order of the machine's own checks gets in the way. *)
Theorem honest_session_completes {B : BitcoinLib} {F : FrostLib} {FL : FrostLaws F}
    sid msg pol min dl ps pkp t0 m0 now c sh l sig :
  ThresholdSessionMachine_new sid msg pol min dl ps pkp t0 = Ok m0 ->
  now <= dl ->
  fresh_signers m0 l (∅ : gmap Identifier SigningCommitments) ->
  min <= Z.of_nat (length l) ->
  Forall (good_share m0 (build_session sid msg min (collect c l ∅) pkp) sh) l ->
  aggregate_and_verify (build_session sid msg min (collect c l ∅) pkp) (collect sh l ∅) = Ok sig ->
  exists m' out, run (honest_requests now c sh l) m0 = (m', out ++ [Ok (RespSignature sig)]) /\
    m_phase m' = Finalized.
Proof.
  intros Hnew. unfold ThresholdSessionMachine_new in Hnew.
  apply bind_Ok in Hnew as (u & _ & [= <-]). intros. by apply honest_run.
Qed.

Lemma honest_session_completes_witness :
  exists m' out, run toy_requests toy_m0 = (m', out ++ [Ok (@RespSignature toy_frost (toy_msg ++ [xaa]))]) /\
    m_phase m' = Finalized.
Proof.
  apply (honest_session_completes [x51] toy_msg [] 2 100 [bp 1; bp 2; bp 3] toy_pkp 10 toy_m0 20
    toy_commitment toy_share [bp 1; bp 3] (toy_msg ++ [xaa])).
  - exact toy_new_Ok.
  - lia.
  - split; [by vm_compute; repeat constructor; set_solver|]. intros p Hp.
    exists (bp_signer_id p). split; [|apply lookup_empty].
    apply elem_of_cons in Hp as [->|Hp%list_elem_of_singleton]; [|subst p]; by vm_compute.
  - done.
  - repeat constructor; [exists 1, [x01]|exists 3, [x03]]; split_and!; by vm_compute; eauto.
  - by vm_compute.
Defined.

(** The head of the audit stream commits to the whole stream: two streams
    that verify and have the same head digest have the same length and agree
    event by event in number, time, kind, signer, reason code and digests,
    as long as SHA-256 has no collision among the events of the two.  A missing
    signer counts as signer 0 and a missing code as the empty code, which is
    what the digest hashes. *)
Theorem audit_head_binds_stream {B : BitcoinLib} {BL : BitcoinLaws B} {F : FrostLib} m1 m2 :
  verify_audit_chain m1 = true -> verify_audit_chain m2 = true ->
  Forall event_wf (m_audit m1) -> Forall event_wf (m_audit m2) ->
  no_collision (m_audit m1) (m_audit m2) ->
  audit_head m1 = audit_head m2 ->
  Forall2 same_event (m_audit m1) (m_audit m2).
Proof. intros V1 V2 W1 W2 Hn Hh. by apply verified_chain_binds. Qed.

(** Boolean form of [no_collision], for concrete streams. *)
Definition no_collision_b `{BitcoinLib} (l1 l2 : list AuditEvent) : bool :=
  forallb (fun x => forallb (fun y => negb (bool_decide (sha256 x = sha256 y)) || bool_decide (x = y))
                      (chain_preimages l2)) (chain_preimages l1) &&
  forallb (fun x => negb (bool_decide (sha256 x = zeros32))) (chain_preimages (l1 ++ l2)).

Lemma no_collision_b_spec `{BitcoinLib} l1 l2 : no_collision_b l1 l2 = true -> no_collision l1 l2.
Proof.
  unfold no_collision_b. rewrite andb_true_iff, !forallb_forall. intros [H1 H2]. split.
  - intros x y Hx Hy He. apply list_elem_of_In in Hx, Hy. specialize (H1 x Hx).
    rewrite forallb_forall in H1. specialize (H1 y Hy). rewrite (bool_decide_true _ He) in H1. simpl in H1.
    by apply bool_decide_eq_true in H1.
  - intros x Hx He. apply list_elem_of_In, H2 in Hx. by rewrite (bool_decide_true _ He) in Hx.
Qed.

Definition event_wf_b (e : AuditEvent) : bool :=
  bool_decide (is_u64 (ae_sequence e)) && bool_decide (is_i64 (ae_at e)) &&
  bool_decide (is_u16 (default 0 (ae_signer_id e))) &&
  bool_decide (is_u32 (Z.of_nat (length (ascii_bytes (default EmptyString (ae_code e)))))).

Lemma event_wf_b_spec l : forallb event_wf_b l = true -> Forall event_wf l.
Proof.
  rewrite forallb_forall. intros Hl. apply Forall_forall. intros e He%list_elem_of_In%Hl.
  unfold event_wf_b in He. rewrite !andb_true_iff, !bool_decide_eq_true in He. unfold event_wf. tauto.
Qed.

Lemma audit_head_binds_stream_witness : Forall2 same_event (m_audit toy_m2) (m_audit toy_m2).
Proof.
  apply (audit_head_binds_stream toy_m2 toy_m2).
  - by vm_compute.
  - by vm_compute.
  - apply event_wf_b_spec. by vm_compute.
  - apply event_wf_b_spec. by vm_compute.
  - apply no_collision_b_spec. by vm_compute.
  - reflexivity.
Defined.

(** ** Participants *)

Definition toy_p0 : LocalFrostParticipant := mkLocalFrostParticipant 1 1 NonceGuard_new ∅.
Definition toy_p1 : LocalFrostParticipant := (round1 toy_p0 [x51] toy_msg [x07]).1.
Definition toy_session : FrostSession := build_session [x51] toy_msg 1 (<[1 := [x07; x01]]> ∅) toy_pkp.
Definition toy_auth_token : toy_token := Some ([x51], toy_msg, 1).
Definition toy_p2 : LocalFrostParticipant := (round2 toy_p1 toy_session toy_auth_token 5).1.1.

Lemma toy_round2 : round2 toy_p1 toy_session toy_auth_token 5 = (toy_p2, None, Ok (toy_msg ++ [x01])).
Proof.
  unfold toy_p2. destruct (round2 toy_p1 toy_session toy_auth_token 5) as [[p a] r] eqn:E. simpl. f_equal; [f_equal|].
  - change a with (p, a, r).1.2. rewrite <- E. by vm_compute.
  - change r with (p, a, r).2. rewrite <- E. by vm_compute.
Qed.

(** A participant releases a signature share only when the wallet's
    authorization token accepted this session, message and signer and was
    consumed, the session carries the message and the commitments the
    participant reserved in round one, the key package belongs to the signer,
    and the nonce was never claimed before; the nonce is then claimed for this
    session and the reservation is gone. *)
Theorem round2_releases_share {B : BitcoinLib} {F : FrostLib} {T : Type} {A : SigningAuthorization T}
    p session (auth : T) now p' auth' share :
  round2 p session auth now = (p', auth', Ok share) ->
  exists pending identifier,
    lp_pending p !! fs_id session = Some pending /\ lp_pending p' = delete (fs_id session) (lp_pending p) /\
    pr_message pending = fs_message session /\
    identifier_try_from (lp_signer_id p) = Some identifier /\
    key_package_identifier (lp_key_package p) = identifier /\
    signing_commitments (fs_signing_package session) !! identifier = Some (pr_commitments pending) /\
    authorize auth (fs_id session) (fs_message session) (lp_signer_id p) now = (auth', Ok tt) /\
    (let fp := fingerprint (lp_signer_id p) (pr_nonces pending) in
     ng_claims (lp_nonce_guard p) !! fp = None /\
     ng_claims (lp_nonce_guard p') = <[fp := fs_id session]> (ng_claims (lp_nonce_guard p))) /\
    frost_sign (fs_signing_package session) (pr_nonces pending) (lp_key_package p) = Some share.
Proof.
  intros Hr. apply round2_Ok in Hr as (pending & id & H1 & H2 & H3 & H4 & H5 & H6 & _).
  apply sign_share_Ok in H6 as (H6 & H7 & H8 & H9 & H10). unfold participant_identifier in H4.
  exists pending, id. split_and!; try done. congruence.
Qed.

Lemma round2_releases_share_witness : lp_pending toy_p2 = delete [x51] (lp_pending toy_p1).
Proof.
  destruct (round2_releases_share toy_p1 toy_session toy_auth_token 5 toy_p2 None (toy_msg ++ [x01]) toy_round2)
    as (pending & id & _ & H & _). exact H.
Defined.

(** C15: one nonce never signs twice: after a participant released a share, no
    later round two of the same participant, in this or another session and
    after any rounds in between, releases a share from the same nonces, even
    if the random source repeats itself. *)
Theorem nonce_signs_once {B : BitcoinLib} {F : FrostLib} {T : Type} {A : SigningAuthorization T}
    p s1 (a1 : T) t1 p1 a1' sh1 q s2 (a2 : T) t2 q' a2' r d1 d2 :
  round2 p s1 a1 t1 = (p1, a1', Ok sh1) ->
  lp_pending p !! fs_id s1 = Some d1 ->
  rtc participant_step p1 q ->
  lp_pending q !! fs_id s2 = Some d2 ->
  nonces_serialize (pr_nonces d2) = nonces_serialize (pr_nonces d1) ->
  round2 q s2 a2 t2 = (q', a2', r) -> is_ok r = false.
Proof.
  intros H1 Hd1 Hrun Hd2 Hn H2. destruct r as [sh2|e]; [exfalso|done].
  apply round2_Ok in H1 as (d1' & i1 & P1 & _ & _ & _ & _ & S1 & K1 & _).
  apply round2_Ok in H2 as (d2' & i2 & P2 & _ & _ & _ & _ & S2 & _).
  assert (d1' = d1) as -> by congruence. assert (d2' = d2) as -> by congruence.
  apply sign_share_Ok in S1 as (_ & _ & C1 & _). apply sign_share_Ok in S2 as (_ & C2 & _).
  destruct (participant_claims_rtc _ _ Hrun) as [Hc Hk]. rewrite Hk, K1 in C2.
  assert (fingerprint (lp_signer_id p) (pr_nonces d2) = fingerprint (lp_signer_id p) (pr_nonces d1)) as Hf
    by (unfold fingerprint; by rewrite Hn).
  rewrite Hf in C2. assert (ng_claims (lp_nonce_guard q) !! fingerprint (lp_signer_id p) (pr_nonces d1)
    = Some (fs_id s1)) as C3 by (eapply lookup_weaken; [|done]; by rewrite C1, lookup_insert_eq).
  congruence.
Qed.

Definition toy_q : LocalFrostParticipant := (round1 toy_p2 [x52] toy_msg [x07]).1.
Definition toy_session2 : FrostSession := build_session [x52] toy_msg 1 (<[1 := [x07; x01]]> ∅) toy_pkp.
Definition toy_token2 : toy_token := Some ([x52], toy_msg, 1).
Definition toy_pending : @PendingRoundOne toy_frost := @mkPendingRoundOne toy_frost toy_msg [x07] [x07; x01].

Lemma nonce_signs_once_witness : is_ok (round2 toy_q toy_session2 toy_token2 6).2 = false.
Proof.
  apply (nonce_signs_once toy_p1 toy_session toy_auth_token 5 toy_p2 None (toy_msg ++ [x01]) toy_q
    toy_session2 toy_token2 6 (round2 toy_q toy_session2 toy_token2 6).1.1
    (round2 toy_q toy_session2 toy_token2 6).1.2 (round2 toy_q toy_session2 toy_token2 6).2
    toy_pending toy_pending).
  - exact toy_round2.
  - by vm_compute.
  - eapply rtc_l; [|apply rtc_refl]. eapply ps_round1. apply surjective_pairing.
  - by vm_compute.
  - reflexivity.
  - by destruct (round2 toy_q toy_session2 toy_token2 6) as [[? ?] ?].
Defined.
