(* ===== verification/ChainDomain.v ===== *)
(** * Chains, networks and transaction reviews
      (src/crates/chain-domain/src/network.rs, review.rs and suite.rs)

    The identities of the supported chains with their stable names, the chain
    scope that pairs a chain with one of its networks, and the review artifact
    every signing flow carries.  Constructors of the per-chain network enums
    carry the chain as a prefix. *)

From Stdlib Require Import ZArith Lia.
From S2P Require Import Prelude.
From stdpp Require Import list.
Local Open Scope string_scope.
Local Open Scope list_scope.
Local Open Scope Z_scope.

(** ** Enumerations with stable names *)

(** [ALL] and [as_str] of an identity type; [from_str] searches [ALL]. *)
Class NamedEnum (A : Type) := {
  enum_all : list A;
  enum_name : A -> string;
}.
Class NamedEnumLaws (A : Type) `{NamedEnum A} : Prop := {
  enum_complete (a : A) : a ∈ enum_all;
  enum_name_inj (a b : A) : enum_name a = enum_name b -> a = b;
}.

Definition enum_find {A} `{NamedEnum A} (s : string) : option A :=
  find (fun a => String.eqb (enum_name a) s) enum_all.

Lemma enum_find_Some {A} `{NamedEnumLaws A} s (a : A) : enum_find s = Some a <-> enum_name a = s.
Proof.
  unfold enum_find. split.
  - intros [_ Hf]%List.find_some. by apply String.eqb_eq.
  - intros <-. pose proof (enum_complete a) as Ha. revert Ha.
    induction enum_all as [|b l IH]; [by intros ?%elem_of_nil|]. simpl.
    destruct (String.eqb_spec (enum_name b) (enum_name a)) as [E|E].
    + intros _. f_equal. by apply enum_name_inj.
    + intros [->|Ha]%elem_of_cons; [done|auto].
Qed.

(** ** Chains *)

Definition CHAIN_SCOPE_SCHEMA_VERSION : Z := 1.

Inductive ChainId := Bitcoin | BitcoinCash | Bsv | FractalBitcoin | Kaspa | Chia | Ergo.

Definition ChainId_ALL : list ChainId := [Bitcoin; BitcoinCash; Bsv; FractalBitcoin; Kaspa; Chia; Ergo].

Definition ChainId_as_str (c : ChainId) : string :=
  match c with
  | Bitcoin => "bitcoin"
  | BitcoinCash => "bitcoin-cash"
  | Bsv => "bsv"
  | FractalBitcoin => "fractal-bitcoin"
  | Kaspa => "kaspa"
  | Chia => "chia"
  | Ergo => "ergo"
  end.

(** ** Networks *)

Inductive BitcoinNetwork :=
| BtcMainnet | BtcTestnet3 | BtcTestnet4 | BtcSignet | BtcRegtest.

Inductive BitcoinCashNetwork :=
| BchMainnet | BchTestnet3 | BchTestnet4 | BchChipnet | BchScalenet | BchRegtest.

Inductive BsvNetwork :=
| BsvMainnet | BsvTestnet | BsvStn | BsvRegtest.

Inductive FractalBitcoinNetwork :=
| FractalMainnet | FractalTestnet3 | FractalTestnet4 | FractalSignet | FractalRegtest.

Inductive KaspaNetwork :=
| KaspaMainnet | KaspaTestnet10 | KaspaTestnet11 | KaspaSimnet | KaspaDevnet.

Inductive ChiaNetwork :=
| ChiaMainnet | ChiaTestnet11.

Inductive ErgoNetwork :=
| ErgoMainnet | ErgoTestnet.

Inductive ChainNetwork :=
| NetBitcoin (n : BitcoinNetwork)
| NetBitcoinCash (n : BitcoinCashNetwork)
| NetBsv (n : BsvNetwork)
| NetFractalBitcoin (n : FractalBitcoinNetwork)
| NetKaspa (n : KaspaNetwork)
| NetChia (n : ChiaNetwork)
| NetErgo (n : ErgoNetwork).

Definition ChainNetwork_ALL : list ChainNetwork :=
  [NetBitcoin BtcMainnet; NetBitcoin BtcTestnet3; NetBitcoin BtcTestnet4;
   NetBitcoin BtcSignet; NetBitcoin BtcRegtest; NetBitcoinCash BchMainnet;
   NetBitcoinCash BchTestnet3; NetBitcoinCash BchTestnet4; NetBitcoinCash BchChipnet;
   NetBitcoinCash BchScalenet; NetBitcoinCash BchRegtest; NetBsv BsvMainnet;
   NetBsv BsvTestnet; NetBsv BsvStn; NetBsv BsvRegtest;
   NetFractalBitcoin FractalMainnet; NetFractalBitcoin FractalTestnet3; NetFractalBitcoin FractalTestnet4;
   NetFractalBitcoin FractalSignet; NetFractalBitcoin FractalRegtest; NetKaspa KaspaMainnet;
   NetKaspa KaspaTestnet10; NetKaspa KaspaTestnet11; NetKaspa KaspaSimnet;
   NetKaspa KaspaDevnet; NetChia ChiaMainnet; NetChia ChiaTestnet11;
   NetErgo ErgoMainnet; NetErgo ErgoTestnet].

Definition ChainNetwork_as_str (n : ChainNetwork) : string :=
  match n with
  | NetBitcoin BtcMainnet => "bitcoin.mainnet"
  | NetBitcoin BtcTestnet3 => "bitcoin.testnet3"
  | NetBitcoin BtcTestnet4 => "bitcoin.testnet4"
  | NetBitcoin BtcSignet => "bitcoin.signet"
  | NetBitcoin BtcRegtest => "bitcoin.regtest"
  | NetBitcoinCash BchMainnet => "bitcoin-cash.mainnet"
  | NetBitcoinCash BchTestnet3 => "bitcoin-cash.testnet3"
  | NetBitcoinCash BchTestnet4 => "bitcoin-cash.testnet4"
  | NetBitcoinCash BchChipnet => "bitcoin-cash.chipnet"
  | NetBitcoinCash BchScalenet => "bitcoin-cash.scalenet"
  | NetBitcoinCash BchRegtest => "bitcoin-cash.regtest"
  | NetBsv BsvMainnet => "bsv.mainnet"
  | NetBsv BsvTestnet => "bsv.testnet"
  | NetBsv BsvStn => "bsv.stn"
  | NetBsv BsvRegtest => "bsv.regtest"
  | NetFractalBitcoin FractalMainnet => "fractal-bitcoin.mainnet"
  | NetFractalBitcoin FractalTestnet3 => "fractal-bitcoin.testnet3"
  | NetFractalBitcoin FractalTestnet4 => "fractal-bitcoin.testnet4"
  | NetFractalBitcoin FractalSignet => "fractal-bitcoin.signet"
  | NetFractalBitcoin FractalRegtest => "fractal-bitcoin.regtest"
  | NetKaspa KaspaMainnet => "kaspa.mainnet"
  | NetKaspa KaspaTestnet10 => "kaspa.testnet10"
  | NetKaspa KaspaTestnet11 => "kaspa.testnet11"
  | NetKaspa KaspaSimnet => "kaspa.simnet"
  | NetKaspa KaspaDevnet => "kaspa.devnet"
  | NetChia ChiaMainnet => "chia.mainnet"
  | NetChia ChiaTestnet11 => "chia.testnet11"
  | NetErgo ErgoMainnet => "ergo.mainnet"
  | NetErgo ErgoTestnet => "ergo.testnet"
  end.

Inductive RpcPresetId :=
| RpcBitcoinInquisition | RpcBitcoinMainnet | RpcBitcoinTestnet3 | RpcBitcoinTestnet4
| RpcBitcoinSignet | RpcBitcoinRegtest | RpcFractalBitcoinMainnet | RpcFractalBitcoinTestnet3
| RpcFractalBitcoinTestnet4 | RpcFractalBitcoinSignet | RpcFractalBitcoinRegtest | RpcBitcoinCashMainnet
| RpcBitcoinCashTestnet3 | RpcBitcoinCashTestnet4 | RpcBitcoinCashChipnet | RpcBitcoinCashScalenet
| RpcBitcoinCashRegtest | RpcBsvMainnet | RpcBsvTestnet | RpcBsvStn
| RpcBsvRegtest | RpcKaspaMainnet | RpcKaspaTestnet10 | RpcKaspaTestnet11
| RpcKaspaSimnet | RpcKaspaDevnet | RpcChiaMainnet | RpcChiaTestnet11
| RpcErgoMainnet | RpcErgoTestnet.

Definition RpcPresetId_ALL : list RpcPresetId :=
  [RpcBitcoinInquisition; RpcBitcoinMainnet; RpcBitcoinTestnet3; RpcBitcoinTestnet4;
   RpcBitcoinSignet; RpcBitcoinRegtest; RpcFractalBitcoinMainnet; RpcFractalBitcoinTestnet3;
   RpcFractalBitcoinTestnet4; RpcFractalBitcoinSignet; RpcFractalBitcoinRegtest; RpcBitcoinCashMainnet;
   RpcBitcoinCashTestnet3; RpcBitcoinCashTestnet4; RpcBitcoinCashChipnet; RpcBitcoinCashScalenet;
   RpcBitcoinCashRegtest; RpcBsvMainnet; RpcBsvTestnet; RpcBsvStn;
   RpcBsvRegtest; RpcKaspaMainnet; RpcKaspaTestnet10; RpcKaspaTestnet11;
   RpcKaspaSimnet; RpcKaspaDevnet; RpcChiaMainnet; RpcChiaTestnet11;
   RpcErgoMainnet; RpcErgoTestnet].

Definition RpcPresetId_as_str (p : RpcPresetId) : string :=
  match p with
  | RpcBitcoinInquisition => "bitcoin-inquisition"
  | RpcBitcoinMainnet => "bitcoin-mainnet"
  | RpcBitcoinTestnet3 => "bitcoin-testnet3"
  | RpcBitcoinTestnet4 => "bitcoin-testnet4"
  | RpcBitcoinSignet => "bitcoin-signet"
  | RpcBitcoinRegtest => "bitcoin-regtest"
  | RpcFractalBitcoinMainnet => "fractal-bitcoin-mainnet"
  | RpcFractalBitcoinTestnet3 => "fractal-bitcoin-testnet3"
  | RpcFractalBitcoinTestnet4 => "fractal-bitcoin-testnet4"
  | RpcFractalBitcoinSignet => "fractal-bitcoin-signet"
  | RpcFractalBitcoinRegtest => "fractal-bitcoin-regtest"
  | RpcBitcoinCashMainnet => "bitcoin-cash-mainnet"
  | RpcBitcoinCashTestnet3 => "bitcoin-cash-testnet3"
  | RpcBitcoinCashTestnet4 => "bitcoin-cash-testnet4"
  | RpcBitcoinCashChipnet => "bitcoin-cash-chipnet"
  | RpcBitcoinCashScalenet => "bitcoin-cash-scalenet"
  | RpcBitcoinCashRegtest => "bitcoin-cash-regtest"
  | RpcBsvMainnet => "bsv-mainnet"
  | RpcBsvTestnet => "bsv-testnet"
  | RpcBsvStn => "bsv-stn"
  | RpcBsvRegtest => "bsv-regtest"
  | RpcKaspaMainnet => "kaspa-mainnet"
  | RpcKaspaTestnet10 => "kaspa-testnet-10"
  | RpcKaspaTestnet11 => "kaspa-testnet-11"
  | RpcKaspaSimnet => "kaspa-simnet"
  | RpcKaspaDevnet => "kaspa-devnet"
  | RpcChiaMainnet => "chia-mainnet"
  | RpcChiaTestnet11 => "chia-testnet11"
  | RpcErgoMainnet => "ergo-mainnet"
  | RpcErgoTestnet => "ergo-testnet"
  end.

Definition RpcPresetId_chain_network (p : RpcPresetId) : ChainNetwork :=
  match p with
  | RpcBitcoinInquisition | RpcBitcoinSignet => NetBitcoin BtcSignet
  | RpcBitcoinMainnet => NetBitcoin BtcMainnet
  | RpcBitcoinTestnet3 => NetBitcoin BtcTestnet3
  | RpcBitcoinTestnet4 => NetBitcoin BtcTestnet4
  | RpcBitcoinRegtest => NetBitcoin BtcRegtest
  | RpcFractalBitcoinMainnet => NetFractalBitcoin FractalMainnet
  | RpcFractalBitcoinTestnet3 => NetFractalBitcoin FractalTestnet3
  | RpcFractalBitcoinTestnet4 => NetFractalBitcoin FractalTestnet4
  | RpcFractalBitcoinSignet => NetFractalBitcoin FractalSignet
  | RpcFractalBitcoinRegtest => NetFractalBitcoin FractalRegtest
  | RpcBitcoinCashMainnet => NetBitcoinCash BchMainnet
  | RpcBitcoinCashTestnet3 => NetBitcoinCash BchTestnet3
  | RpcBitcoinCashTestnet4 => NetBitcoinCash BchTestnet4
  | RpcBitcoinCashChipnet => NetBitcoinCash BchChipnet
  | RpcBitcoinCashScalenet => NetBitcoinCash BchScalenet
  | RpcBitcoinCashRegtest => NetBitcoinCash BchRegtest
  | RpcBsvMainnet => NetBsv BsvMainnet
  | RpcBsvTestnet => NetBsv BsvTestnet
  | RpcBsvStn => NetBsv BsvStn
  | RpcBsvRegtest => NetBsv BsvRegtest
  | RpcKaspaMainnet => NetKaspa KaspaMainnet
  | RpcKaspaTestnet10 => NetKaspa KaspaTestnet10
  | RpcKaspaTestnet11 => NetKaspa KaspaTestnet11
  | RpcKaspaSimnet => NetKaspa KaspaSimnet
  | RpcKaspaDevnet => NetKaspa KaspaDevnet
  | RpcChiaMainnet => NetChia ChiaMainnet
  | RpcChiaTestnet11 => NetChia ChiaTestnet11
  | RpcErgoMainnet => NetErgo ErgoMainnet
  | RpcErgoTestnet => NetErgo ErgoTestnet
  end.

(** ** Equality and names *)

#[export] Instance ChainId_eq_dec : EqDecision ChainId.
Proof. solve_decision. Defined.
#[export] Instance BitcoinNetwork_eq_dec : EqDecision BitcoinNetwork.
Proof. solve_decision. Defined.
#[export] Instance BitcoinCashNetwork_eq_dec : EqDecision BitcoinCashNetwork.
Proof. solve_decision. Defined.
#[export] Instance BsvNetwork_eq_dec : EqDecision BsvNetwork.
Proof. solve_decision. Defined.
#[export] Instance FractalBitcoinNetwork_eq_dec : EqDecision FractalBitcoinNetwork.
Proof. solve_decision. Defined.
#[export] Instance KaspaNetwork_eq_dec : EqDecision KaspaNetwork.
Proof. solve_decision. Defined.
#[export] Instance ChiaNetwork_eq_dec : EqDecision ChiaNetwork.
Proof. solve_decision. Defined.
#[export] Instance ErgoNetwork_eq_dec : EqDecision ErgoNetwork.
Proof. solve_decision. Defined.
#[export] Instance ChainNetwork_eq_dec : EqDecision ChainNetwork.
Proof. solve_decision. Defined.
#[export] Instance RpcPresetId_eq_dec : EqDecision RpcPresetId.
Proof. solve_decision. Defined.

#[export] Instance ChainNetwork_named : NamedEnum ChainNetwork :=
  {| enum_all := ChainNetwork_ALL; enum_name := ChainNetwork_as_str |}.
#[export] Instance RpcPresetId_named : NamedEnum RpcPresetId :=
  {| enum_all := RpcPresetId_ALL; enum_name := RpcPresetId_as_str |}.

Definition ChainNetwork_chain_id (n : ChainNetwork) : ChainId :=
  match n with
  | NetBitcoin _ => Bitcoin
  | NetBitcoinCash _ => BitcoinCash
  | NetBsv _ => Bsv
  | NetFractalBitcoin _ => FractalBitcoin
  | NetKaspa _ => Kaspa
  | NetChia _ => Chia
  | NetErgo _ => Ergo
  end.

Definition RpcPresetId_chain_id (p : RpcPresetId) : ChainId :=
  ChainNetwork_chain_id (RpcPresetId_chain_network p).

Inductive ChainDomainError :=
| UnsupportedChainId (s : string)
| UnsupportedChainNetwork (s : string)
| UnsupportedRpcPresetId (s : string)
| UnsupportedSchemaVersion (expected actual : Z)
| MismatchedChainNetwork (declared actual : ChainId) (network : ChainNetwork).

Definition ChainId_from_str (value : string) : result ChainDomainError ChainId :=
  if String.eqb value "bitcoin" then Ok Bitcoin
  else if String.eqb value "bitcoin-cash" then Ok BitcoinCash
  else if String.eqb value "bsv" then Ok Bsv
  else if String.eqb value "fractal-bitcoin" then Ok FractalBitcoin
  else if String.eqb value "kaspa" then Ok Kaspa
  else if String.eqb value "chia" then Ok Chia
  else if String.eqb value "ergo" then Ok Ergo
  else Err (UnsupportedChainId value).

Definition ChainNetwork_from_str (value : string) : result ChainDomainError ChainNetwork :=
  ok_or (enum_find value) (UnsupportedChainNetwork value).
Definition RpcPresetId_from_str (value : string) : result ChainDomainError RpcPresetId :=
  ok_or (enum_find value) (UnsupportedRpcPresetId value).

(** ** Chain scopes *)

Record ChainScope := mkChainScope {
  cs_schema_version : Z;
  cs_chain : ChainId;
  cs_network : ChainNetwork;
}.
#[export] Instance ChainScope_eq_dec : EqDecision ChainScope.
Proof. solve_decision. Defined.

Definition ChainScope_new (chain : ChainId) (network : ChainNetwork) : result ChainDomainError ChainScope :=
  let actual := ChainNetwork_chain_id network in
  _ ← reject_if (negb (bool_decide (chain = actual))) (MismatchedChainNetwork chain actual network);
  Ok (mkChainScope CHAIN_SCOPE_SCHEMA_VERSION chain network).

Definition ChainScope_for_network (network : ChainNetwork) : ChainScope :=
  mkChainScope CHAIN_SCOPE_SCHEMA_VERSION (ChainNetwork_chain_id network) network.

(** The deserializer, after serde produced the wire record. *)
Definition ChainScope_deserialize (schema_version : Z) (chain : ChainId) (network : ChainNetwork)
    : result ChainDomainError ChainScope :=
  _ ← reject_if (negb (schema_version =? CHAIN_SCOPE_SCHEMA_VERSION))
        (UnsupportedSchemaVersion CHAIN_SCOPE_SCHEMA_VERSION schema_version);
  ChainScope_new chain network.

(** A scope as its constructors make it. *)
Definition scope_wf (s : ChainScope) : Prop :=
  cs_schema_version s = CHAIN_SCOPE_SCHEMA_VERSION /\ cs_chain s = ChainNetwork_chain_id (cs_network s).

(** ** Reviews *)

Definition MAX_REVIEW_SUMMARY_BYTES : nat := Z.to_nat (4 * 1024).
Definition MAX_REVIEW_MATERIAL_BYTES : nat := Z.to_nat 1000000.
Definition REVIEW_ARTIFACT_SCHEMA_VERSION : Z := 2.
#[global] Opaque MAX_REVIEW_SUMMARY_BYTES MAX_REVIEW_MATERIAL_BYTES.

Inductive ReviewContractError :=
| SummaryTooLong (max_bytes : nat)
| MissingReviewedMaterial
| ReviewedMaterialTooLong (max_bytes : nat)
| UnsupportedOperation (operation : string)
| InvalidFinalizedSignature (reason : string)
| UnsupportedReviewSchemaVersion (expected actual : Z).

Record ReviewArtifact := mkReviewArtifact {
  ra_schema_version : Z;
  ra_scope : ChainScope;
  ra_review_digest : bytes;
  ra_signing_message_digest : bytes;
  ra_summary : string;
  ra_reviewed_material : bytes;
}.
#[export] Instance ReviewArtifact_eq_dec : EqDecision ReviewArtifact.
Proof. solve_decision. Defined.

Definition ReviewArtifact_new (scope : ChainScope) (review_digest signing_message_digest : bytes)
    (summary : string) (reviewed_material : bytes) : result ReviewContractError ReviewArtifact :=
  _ ← reject_if (MAX_REVIEW_SUMMARY_BYTES <? String.length summary)%nat
        (SummaryTooLong MAX_REVIEW_SUMMARY_BYTES);
  _ ← reject_if (bool_decide (reviewed_material = [])) MissingReviewedMaterial;
  _ ← reject_if (MAX_REVIEW_MATERIAL_BYTES <? length reviewed_material)%nat
        (ReviewedMaterialTooLong MAX_REVIEW_MATERIAL_BYTES);
  Ok (mkReviewArtifact REVIEW_ARTIFACT_SCHEMA_VERSION scope review_digest signing_message_digest summary
        reviewed_material).

(** [visit_seq]: read elements one by one, never holding more than the limit. *)
Fixpoint visit_elements (acc : bytes) (sequence : list byte) : result ReviewContractError bytes :=
  match sequence with
  | [] => if bool_decide (acc = []) then Err MissingReviewedMaterial else Ok acc
  | b :: rest =>
      if (length acc =? MAX_REVIEW_MATERIAL_BYTES)%nat
      then Err (ReviewedMaterialTooLong MAX_REVIEW_MATERIAL_BYTES)
      else visit_elements (acc ++ [b]) rest
  end.
Definition visit_seq (size_hint : option nat) (sequence : list byte) : result ReviewContractError bytes :=
  if match size_hint with Some size => (MAX_REVIEW_MATERIAL_BYTES <? size)%nat | None => false end
  then Err (ReviewedMaterialTooLong MAX_REVIEW_MATERIAL_BYTES)
  else visit_elements [] sequence.

Definition validate_deserialized_byte_count (b : bytes) : result ReviewContractError unit :=
  _ ← reject_if (bool_decide (b = [])) MissingReviewedMaterial;
  reject_if (MAX_REVIEW_MATERIAL_BYTES <? length b)%nat (ReviewedMaterialTooLong MAX_REVIEW_MATERIAL_BYTES).

(** The deserializer, after serde produced the wire record. *)
Definition ReviewArtifact_deserialize (schema_version : Z) (scope : ChainScope)
    (review_digest signing_message_digest : bytes) (summary : string) (size_hint : option nat)
    (material : list byte) : result ReviewContractError ReviewArtifact :=
  reviewed_material ← visit_seq size_hint material;
  _ ← reject_if (negb (schema_version =? REVIEW_ARTIFACT_SCHEMA_VERSION))
        (UnsupportedReviewSchemaVersion REVIEW_ARTIFACT_SCHEMA_VERSION schema_version);
  ReviewArtifact_new scope review_digest signing_message_digest summary reviewed_material.

Record ChainCapabilities := mkChainCapabilities {
  cc_address_derivation : bool;
  cc_transaction_review : bool;
  cc_final_signature_verification : bool;
  cc_broadcast : bool;
}.

(** The trait every chain implements. *)
Class ChainSuite (T : Type) := {
  suite_scope : T -> ChainScope;
  suite_capabilities : T -> ChainCapabilities;
  review_transaction : T -> bytes -> result ReviewContractError ReviewArtifact;
  verify_finalized_signature : T -> ReviewArtifact -> bytes -> result ReviewContractError unit;
}.

(** ** Lemmas *)

#[export] Instance ChainNetwork_named_laws : NamedEnumLaws ChainNetwork.
Proof.
  split.
  - intros [[]|[]|[]|[]|[]|[]|[]]; apply (bool_decide_unpack _); by vm_compute.
  - by intros [[]|[]|[]|[]|[]|[]|[]] [[]|[]|[]|[]|[]|[]|[]].
Qed.

#[export] Instance RpcPresetId_named_laws : NamedEnumLaws RpcPresetId.
Proof.
  split.
  - intros []; apply (bool_decide_unpack _); by vm_compute.
  - by intros [] [].
Qed.

Lemma ChainNetwork_as_str_inj a b : ChainNetwork_as_str a = ChainNetwork_as_str b -> a = b.
Proof. exact (enum_name_inj (A:=ChainNetwork) a b). Qed.

Lemma ChainId_from_str_Ok s c : ChainId_from_str s = Ok c <-> ChainId_as_str c = s.
Proof.
  split; [|intros <-; by destruct c]. unfold ChainId_from_str.
  repeat match goal with |- context [String.eqb s ?x] => destruct (String.eqb_spec s x) as [->|_] end;
    by intros [= <-].
Qed.

Lemma ChainNetwork_from_str_Ok s n : ChainNetwork_from_str s = Ok n <-> ChainNetwork_as_str n = s.
Proof. unfold ChainNetwork_from_str. rewrite ok_or_Ok. exact (enum_find_Some s n). Qed.

Lemma RpcPresetId_from_str_Ok s p : RpcPresetId_from_str s = Ok p <-> RpcPresetId_as_str p = s.
Proof. unfold RpcPresetId_from_str. rewrite ok_or_Ok. exact (enum_find_Some s p). Qed.

Lemma ChainScope_new_Ok c n s :
  ChainScope_new c n = Ok s <-> c = ChainNetwork_chain_id n /\ s = ChainScope_for_network n.
Proof.
  unfold ChainScope_new, ChainScope_for_network. case_bool_decide; simpl; naive_solver.
Qed.

Lemma scope_deserialize_wf s :
  scope_wf s -> ChainScope_deserialize (cs_schema_version s) (cs_chain s) (cs_network s) = Ok s.
Proof. destruct s as [v c n]. intros [Hv Hc]. simpl in *. subst. by apply ChainScope_new_Ok. Qed.

Lemma ChainScope_for_network_wf n : scope_wf (ChainScope_for_network n).
Proof. done. Qed.

Lemma visit_elements_Ok acc sequence b :
  (length acc <= MAX_REVIEW_MATERIAL_BYTES)%nat ->
  visit_elements acc sequence = Ok b <->
  b = acc ++ sequence /\ b <> [] /\ (length b <= MAX_REVIEW_MATERIAL_BYTES)%nat.
Proof.
  revert acc. induction sequence as [|x rest IH]; intros acc Hl; simpl.
  - rewrite app_nil_r. case_bool_decide; naive_solver.
  - destruct (Nat.eqb_spec (length acc) MAX_REVIEW_MATERIAL_BYTES) as [E|E].
    + split; [done|]. intros (-> & _ & Hb). rewrite length_app in Hb. simpl in Hb. lia.
    + rewrite IH by (rewrite length_app; simpl; lia). by rewrite <- (assoc_L (++)).
Qed.

Lemma ReviewArtifact_new_Ok scope rd sd sm mat r :
  ReviewArtifact_new scope rd sd sm mat = Ok r <->
  r = mkReviewArtifact REVIEW_ARTIFACT_SCHEMA_VERSION scope rd sd sm mat /\
  (String.length sm <= MAX_REVIEW_SUMMARY_BYTES)%nat /\ mat <> [] /\
  (length mat <= MAX_REVIEW_MATERIAL_BYTES)%nat.
Proof.
  unfold ReviewArtifact_new. destruct (Nat.ltb_spec MAX_REVIEW_SUMMARY_BYTES (String.length sm)); simpl.
  { split; [done|lia]. }
  case_bool_decide; simpl; [naive_solver|].
  destruct (Nat.ltb_spec MAX_REVIEW_MATERIAL_BYTES (length mat)); simpl; [split; [done|lia]|].
  naive_solver.
Qed.
