(* ===== verification/SigningDomain.v ===== *)
(** * Signing suites and review bindings
      (src/crates/signing-domain/src/suite.rs and operation.rs)

    The built-in signing suites, the table that resolves a suite on a chain
    scope, and the domain separator that ties a review to a chain, a suite and
    a signer set. *)

From Stdlib Require Import ZArith Lia.
From S2P Require Import Prelude ChainDomain.
From stdpp Require Import list.
Local Open Scope string_scope.
Local Open Scope list_scope.
Local Open Scope Z_scope.

Inductive SigningAlgorithm :=
| Bip340TaprootSchnorr | Secp256k1Schnorr | BitcoinCashSchnorr | Secp256k1Ecdsa | Bls12381AugScheme
| AlgErgoSigma.

Definition SigningAlgorithm_as_str (a : SigningAlgorithm) : string :=
  match a with
  | Bip340TaprootSchnorr => "bip340-taproot-schnorr"
  | Secp256k1Schnorr => "secp256k1-schnorr"
  | BitcoinCashSchnorr => "bitcoin-cash-schnorr"
  | Secp256k1Ecdsa => "secp256k1-ecdsa"
  | Bls12381AugScheme => "bls12-381-aug-scheme"
  | AlgErgoSigma => "ergo-sigma"
  end.

Inductive SigningExecutionMode :=
| ThresholdInteractive | ThresholdNonInteractive | SingleSignerIsolated | NativeChainCoordinator.

Definition SigningExecutionMode_as_str (m : SigningExecutionMode) : string :=
  match m with
  | ThresholdInteractive => "threshold-interactive"
  | ThresholdNonInteractive => "threshold-non-interactive"
  | SingleSignerIsolated => "single-signer-isolated"
  | NativeChainCoordinator => "native-chain-coordinator"
  end.

Inductive SignerBackendRequirement :=
| FrostSecp256k1Tr | FrostSecp256k1Kaspa | CbMpcThresholdEcdsa | IsolatedBip340 | IsolatedSecp256k1Ecdsa
| IsolatedBitcoinCashSchnorr | ChiaBlsAug | ChiaBlsAugThreshold2of3 | ErgoSigma | ErgoSigmaP2pk
| ErgoSigmaP2pkThreshold2of3.

Definition SignerBackendRequirement_as_str (b : SignerBackendRequirement) : string :=
  match b with
  | FrostSecp256k1Tr => "frost-secp256k1-tr"
  | FrostSecp256k1Kaspa => "frost-secp256k1-kaspa"
  | CbMpcThresholdEcdsa => "cb-mpc-threshold-ecdsa"
  | IsolatedBip340 => "isolated-bip340"
  | IsolatedSecp256k1Ecdsa => "isolated-secp256k1-ecdsa"
  | IsolatedBitcoinCashSchnorr => "isolated-bitcoin-cash-schnorr"
  | ChiaBlsAug => "chia-bls-aug"
  | ChiaBlsAugThreshold2of3 => "chia-bls-aug-threshold-2of3"
  | ErgoSigma => "ergo-sigma"
  | ErgoSigmaP2pk => "ergo-sigma-p2pk"
  | ErgoSigmaP2pkThreshold2of3 => "ergo-sigma-p2pk-threshold-2of3"
  end.

Inductive SigningAvailability := DeclarationOnly | Executable.

Inductive SigningSuiteId :=
| BitcoinBip340FrostV1 | BitcoinBip340IsolatedV1 | FractalBitcoinBip340FrostV1
| BitcoinCashSchnorrIsolatedV1 | BitcoinCashEcdsaIsolatedV1 | BitcoinCashEcdsaCbMpcV1
| BsvEcdsaIsolatedV1 | BsvEcdsaCbMpcV1 | KaspaSchnorrFrostV1 | KaspaEcdsaIsolatedV1 | KaspaEcdsaCbMpcV1
| ChiaBls12381AugNativeV1 | ChiaBls12381AugThreshold2of3V1 | ErgoSigmaNativeV1 | ErgoSigmaP2pkIsolatedV1
| ErgoSigmaP2pkThreshold2of3V1.

Definition SigningSuiteId_ALL : list SigningSuiteId :=
  [BitcoinBip340FrostV1; BitcoinBip340IsolatedV1; FractalBitcoinBip340FrostV1;
   BitcoinCashSchnorrIsolatedV1; BitcoinCashEcdsaIsolatedV1; BitcoinCashEcdsaCbMpcV1;
   BsvEcdsaIsolatedV1; BsvEcdsaCbMpcV1; KaspaSchnorrFrostV1; KaspaEcdsaIsolatedV1; KaspaEcdsaCbMpcV1;
   ChiaBls12381AugNativeV1; ChiaBls12381AugThreshold2of3V1; ErgoSigmaNativeV1; ErgoSigmaP2pkIsolatedV1;
   ErgoSigmaP2pkThreshold2of3V1].

Definition SigningSuiteId_as_str (s : SigningSuiteId) : string :=
  match s with
  | BitcoinBip340FrostV1 => "btc.bip340.frost-secp256k1-tr.v1"
  | BitcoinBip340IsolatedV1 => "btc.bip340.isolated.v1"
  | FractalBitcoinBip340FrostV1 => "fractal-bitcoin.bip340.frost-secp256k1-tr.v1"
  | BitcoinCashSchnorrIsolatedV1 => "bch.schnorr.isolated.v1"
  | BitcoinCashEcdsaIsolatedV1 => "bch.ecdsa.isolated.v1"
  | BitcoinCashEcdsaCbMpcV1 => "bch.ecdsa.cb-mpc.v1"
  | BsvEcdsaIsolatedV1 => "bsv.ecdsa.isolated.v1"
  | BsvEcdsaCbMpcV1 => "bsv.ecdsa.cb-mpc.v1"
  | KaspaSchnorrFrostV1 => "kaspa.schnorr.frost-secp256k1.v1"
  | KaspaEcdsaIsolatedV1 => "kaspa.ecdsa.isolated.v1"
  | KaspaEcdsaCbMpcV1 => "kaspa.ecdsa.cb-mpc.v1"
  | ChiaBls12381AugNativeV1 => "chia.bls12-381.aug.native.v1"
  | ChiaBls12381AugThreshold2of3V1 => "chia.bls12-381.aug.threshold-2of3.v1"
  | ErgoSigmaNativeV1 => "ergo.sigma.native.v1"
  | ErgoSigmaP2pkIsolatedV1 => "ergo.sigma.p2pk.isolated.v1"
  | ErgoSigmaP2pkThreshold2of3V1 => "ergo.sigma.p2pk.threshold-2of3.v1"
  end.

Definition SigningSuiteId_chain_id (s : SigningSuiteId) : ChainId :=
  match s with
  | BitcoinBip340FrostV1 | BitcoinBip340IsolatedV1 => Bitcoin
  | FractalBitcoinBip340FrostV1 => FractalBitcoin
  | BitcoinCashSchnorrIsolatedV1 | BitcoinCashEcdsaIsolatedV1 | BitcoinCashEcdsaCbMpcV1 => BitcoinCash
  | BsvEcdsaIsolatedV1 | BsvEcdsaCbMpcV1 => Bsv
  | KaspaSchnorrFrostV1 | KaspaEcdsaIsolatedV1 | KaspaEcdsaCbMpcV1 => Kaspa
  | ChiaBls12381AugNativeV1 | ChiaBls12381AugThreshold2of3V1 => Chia
  | ErgoSigmaNativeV1 | ErgoSigmaP2pkIsolatedV1 | ErgoSigmaP2pkThreshold2of3V1 => Ergo
  end.

#[export] Instance SigningAlgorithm_eq_dec : EqDecision SigningAlgorithm.
Proof. solve_decision. Defined.
#[export] Instance SigningExecutionMode_eq_dec : EqDecision SigningExecutionMode.
Proof. solve_decision. Defined.
#[export] Instance SignerBackendRequirement_eq_dec : EqDecision SignerBackendRequirement.
Proof. solve_decision. Defined.
#[export] Instance SigningAvailability_eq_dec : EqDecision SigningAvailability.
Proof. solve_decision. Defined.
#[export] Instance SigningSuiteId_eq_dec : EqDecision SigningSuiteId.
Proof. solve_decision. Defined.
#[export] Instance SigningSuiteId_named : NamedEnum SigningSuiteId :=
  {| enum_all := SigningSuiteId_ALL; enum_name := SigningSuiteId_as_str |}.

Inductive SigningContractError :=
| UnsupportedSuiteId (s : string)
| UnsupportedCombination (chain_scope : ChainScope) (suite_id : SigningSuiteId)
| SuiteNotExecutable (suite_id : SigningSuiteId)
| InvalidSignerSetId (max_bytes : nat)
| InvalidReviewSchemaVersion
| UnsupportedBindingSchemaVersion (expected actual : Z)
| UnsupportedDescriptorSchemaVersion (expected actual : Z).

Definition SigningSuiteId_from_str (value : string) : result SigningContractError SigningSuiteId :=
  ok_or (enum_find value) (UnsupportedSuiteId value).

Record Capabilities := mkCapabilities {
  cap_produces_consensus_signature : bool;
  cap_independently_verifiable : bool;
  cap_interactive_threshold : bool;
  cap_non_interactive_threshold : bool;
}.

Record SigningSuiteDescriptor := mkSigningSuiteDescriptor {
  sd_schema_version : Z;
  sd_id : SigningSuiteId;
  sd_algorithm : SigningAlgorithm;
  sd_execution_mode : SigningExecutionMode;
  sd_backend_requirement : SignerBackendRequirement;
  sd_capabilities : Capabilities;
  sd_availability : SigningAvailability;
}.

Definition CONSENSUS_SINGLE_SIGNER : Capabilities := mkCapabilities true true false false.
Definition CONSENSUS_THRESHOLD : Capabilities := mkCapabilities true true true false.
Definition CONSENSUS_NON_INTERACTIVE_THRESHOLD : Capabilities := mkCapabilities true true false true.
Definition DECLARATION_ONLY : Capabilities := mkCapabilities false false false false.

(** The suite table of [resolve_builtin_suite]. *)
Definition suite_profile (s : SigningSuiteId)
    : SigningAlgorithm * SigningExecutionMode * SignerBackendRequirement * Capabilities :=
  match s with
  | BitcoinBip340FrostV1 | FractalBitcoinBip340FrostV1 =>
      (Bip340TaprootSchnorr, ThresholdInteractive, FrostSecp256k1Tr, CONSENSUS_THRESHOLD)
  | BitcoinBip340IsolatedV1 =>
      (Bip340TaprootSchnorr, SingleSignerIsolated, IsolatedBip340, CONSENSUS_SINGLE_SIGNER)
  | BitcoinCashSchnorrIsolatedV1 =>
      (BitcoinCashSchnorr, SingleSignerIsolated, IsolatedBitcoinCashSchnorr, CONSENSUS_SINGLE_SIGNER)
  | BitcoinCashEcdsaIsolatedV1 | BsvEcdsaIsolatedV1 =>
      (Secp256k1Ecdsa, SingleSignerIsolated, IsolatedSecp256k1Ecdsa, CONSENSUS_SINGLE_SIGNER)
  | BitcoinCashEcdsaCbMpcV1 | BsvEcdsaCbMpcV1 =>
      (Secp256k1Ecdsa, ThresholdInteractive, CbMpcThresholdEcdsa, CONSENSUS_THRESHOLD)
  | KaspaSchnorrFrostV1 =>
      (Secp256k1Schnorr, ThresholdInteractive, FrostSecp256k1Kaspa, CONSENSUS_THRESHOLD)
  | KaspaEcdsaIsolatedV1 =>
      (Secp256k1Ecdsa, SingleSignerIsolated, IsolatedSecp256k1Ecdsa, CONSENSUS_SINGLE_SIGNER)
  | KaspaEcdsaCbMpcV1 =>
      (Secp256k1Ecdsa, ThresholdInteractive, CbMpcThresholdEcdsa, CONSENSUS_THRESHOLD)
  | ChiaBls12381AugNativeV1 =>
      (Bls12381AugScheme, NativeChainCoordinator, ChiaBlsAug, CONSENSUS_SINGLE_SIGNER)
  | ChiaBls12381AugThreshold2of3V1 =>
      (Bls12381AugScheme, ThresholdNonInteractive, ChiaBlsAugThreshold2of3,
       CONSENSUS_NON_INTERACTIVE_THRESHOLD)
  | ErgoSigmaNativeV1 => (AlgErgoSigma, NativeChainCoordinator, ErgoSigma, DECLARATION_ONLY)
  | ErgoSigmaP2pkIsolatedV1 => (AlgErgoSigma, SingleSignerIsolated, ErgoSigmaP2pk, CONSENSUS_SINGLE_SIGNER)
  | ErgoSigmaP2pkThreshold2of3V1 =>
      (AlgErgoSigma, ThresholdInteractive, ErgoSigmaP2pkThreshold2of3, CONSENSUS_THRESHOLD)
  end.

Definition suite_availability (s : SigningSuiteId) : SigningAvailability :=
  match s with
  | BitcoinBip340FrostV1 | FractalBitcoinBip340FrostV1 | BitcoinCashEcdsaCbMpcV1 | BsvEcdsaCbMpcV1
  | KaspaEcdsaCbMpcV1 | ChiaBls12381AugThreshold2of3V1 | ErgoSigmaP2pkIsolatedV1
  | ErgoSigmaP2pkThreshold2of3V1 => Executable
  | BitcoinBip340IsolatedV1 | BitcoinCashSchnorrIsolatedV1 | BitcoinCashEcdsaIsolatedV1 | BsvEcdsaIsolatedV1
  | KaspaSchnorrFrostV1 | KaspaEcdsaIsolatedV1 | ChiaBls12381AugNativeV1 | ErgoSigmaNativeV1 => DeclarationOnly
  end.

Definition resolve_builtin_suite (chain_scope : ChainScope) (suite_id : SigningSuiteId)
    : result SigningContractError SigningSuiteDescriptor :=
  _ ← reject_if (negb (bool_decide (cs_chain chain_scope = ChainNetwork_chain_id (cs_network chain_scope)))
                 || negb (bool_decide (cs_chain chain_scope = SigningSuiteId_chain_id suite_id)))
        (UnsupportedCombination chain_scope suite_id);
  let '(algorithm, mode, backend, capabilities) := suite_profile suite_id in
  Ok (mkSigningSuiteDescriptor 2 suite_id algorithm mode backend capabilities (suite_availability suite_id)).

Definition require_executable_suite (chain_scope : ChainScope) (suite_id : SigningSuiteId)
    : result SigningContractError SigningSuiteDescriptor :=
  descriptor ← resolve_builtin_suite chain_scope suite_id;
  _ ← reject_if (negb (bool_decide (sd_availability descriptor = Executable))) (SuiteNotExecutable suite_id);
  Ok descriptor.

(** ** Review bindings *)

Definition MAX_SIGNER_SET_ID_BYTES : nat := 128.
Definition REVIEW_BINDING_DOMAIN : bytes := ascii_bytes "catomicals.review-binding.v1" ++ [x00].

Record ReviewBinding := mkReviewBinding {
  rb_schema_version : Z;
  rb_chain_scope : ChainScope;
  rb_signing_suite_id : SigningSuiteId;
  rb_signer_set_id : string;
  rb_signer_set_epoch : Z;
  rb_review_schema_version : Z;
  rb_review_digest : bytes;
}.
#[export] Instance ReviewBinding_eq_dec : EqDecision ReviewBinding.
Proof. solve_decision. Defined.

Definition ReviewBinding_new (chain_scope : ChainScope) (suite : SigningSuiteId) (signer_set_id : string)
    (signer_set_epoch review_schema_version : Z) (review_digest : bytes)
    : result SigningContractError ReviewBinding :=
  _ ← resolve_builtin_suite chain_scope suite;
  _ ← reject_if ((String.length signer_set_id =? 0)%nat
                 || (MAX_SIGNER_SET_ID_BYTES <? String.length signer_set_id)%nat)
        (InvalidSignerSetId MAX_SIGNER_SET_ID_BYTES);
  _ ← reject_if (review_schema_version =? 0) InvalidReviewSchemaVersion;
  Ok (mkReviewBinding 1 chain_scope suite signer_set_id signer_set_epoch review_schema_version review_digest).

(** The deserializer, after serde produced the wire record. *)
Definition ReviewBinding_deserialize (schema_version : Z) (chain_scope : ChainScope) (suite : SigningSuiteId)
    (signer_set_id : string) (epoch review_schema_version : Z) (review_digest : bytes)
    : result SigningContractError ReviewBinding :=
  _ ← reject_if (negb (schema_version =? 1)) (UnsupportedBindingSchemaVersion 1 schema_version);
  ReviewBinding_new chain_scope suite signer_set_id epoch review_schema_version review_digest.

(** [append_field]: a u32 length and the field. *)
Definition append_field (output field : bytes) : bytes := output ++ len_prefixed_be 4 field.

Definition domain_separator (b : ReviewBinding) : bytes :=
  let out := REVIEW_BINDING_DOMAIN ++ be_bytes 2 (rb_schema_version b) in
  let out := append_field out (ascii_bytes (ChainId_as_str (cs_chain (rb_chain_scope b)))) in
  let out := append_field out (ascii_bytes (ChainNetwork_as_str (cs_network (rb_chain_scope b)))) in
  let out := append_field out (ascii_bytes (SigningSuiteId_as_str (rb_signing_suite_id b))) in
  let out := append_field out (ascii_bytes (rb_signer_set_id b)) in
  out ++ be_bytes 8 (rb_signer_set_epoch b) ++ be_bytes 2 (rb_review_schema_version b) ++ rb_review_digest b.

(** ** Lemmas *)

#[export] Instance SigningSuiteId_named_laws : NamedEnumLaws SigningSuiteId.
Proof.
  split.
  - intros []; apply (bool_decide_unpack _); by vm_compute.
  - by intros [] [].
Qed.

Lemma SigningSuiteId_as_str_inj a b : SigningSuiteId_as_str a = SigningSuiteId_as_str b -> a = b.
Proof. exact (enum_name_inj (A:=SigningSuiteId) a b). Qed.

Lemma SigningSuiteId_from_str_Ok s i : SigningSuiteId_from_str s = Ok i <-> SigningSuiteId_as_str i = s.
Proof. unfold SigningSuiteId_from_str. rewrite ok_or_Ok. exact (enum_find_Some s i). Qed.

Lemma resolve_builtin_suite_Ok scope s d :
  resolve_builtin_suite scope s = Ok d <->
  cs_chain scope = ChainNetwork_chain_id (cs_network scope) /\ cs_chain scope = SigningSuiteId_chain_id s /\
  d = let '(a, m, b, c) := suite_profile s in mkSigningSuiteDescriptor 2 s a m b c (suite_availability s).
Proof.
  unfold resolve_builtin_suite. destruct (suite_profile s) as [[[a m] b] c].
  do 2 case_bool_decide; simpl; naive_solver.
Qed.

Lemma require_executable_suite_Ok scope s d :
  require_executable_suite scope s = Ok d <->
  resolve_builtin_suite scope s = Ok d /\ suite_availability s = Executable.
Proof.
  unfold require_executable_suite. rewrite bind_Ok. split.
  - intros (d' & Hr & Hd). pose proof Hr as (_ & _ & Ed)%resolve_builtin_suite_Ok.
    destruct (suite_profile s) as [[[a m] b] c]. case_bool_decide as Ha; [|done].
    injection Hd as ->. by subst.
  - intros [Hr Ha]. exists d. split; [done|]. pose proof Hr as (_ & _ & Ed)%resolve_builtin_suite_Ok.
    destruct (suite_profile s) as [[[a m] b] c]. subst d. by rewrite bool_decide_true.
Qed.

Lemma ChainId_as_str_inj a b : ChainId_as_str a = ChainId_as_str b -> a = b.
Proof. by destruct a, b. Qed.

Lemma ascii_field_small s : (String.length s <= 128)%nat -> fits (8 * Z.of_nat 4) (Z.of_nat (length (ascii_bytes s))).
Proof. rewrite length_ascii_bytes. unfold fits. lia. Qed.
#[export] Hint Resolve ascii_field_small : catomicals.

Lemma ChainId_name_short c : (String.length (ChainId_as_str c) <= 128)%nat.
Proof. destruct c; vm_compute; lia. Qed.
Lemma ChainNetwork_name_short n : (String.length (ChainNetwork_as_str n) <= 128)%nat.
Proof. destruct n as [[]|[]|[]|[]|[]|[]|[]]; vm_compute; lia. Qed.
Lemma SigningSuiteId_name_short i : (String.length (SigningSuiteId_as_str i) <= 128)%nat.
Proof. destruct i; vm_compute; lia. Qed.
#[export] Hint Resolve ChainId_name_short ChainNetwork_name_short SigningSuiteId_name_short : catomicals.

Lemma scope_names_inj s1 s2 :
  scope_wf s1 -> scope_wf s2 -> ChainNetwork_as_str (cs_network s1) = ChainNetwork_as_str (cs_network s2) -> s1 = s2.
Proof.
  destruct s1, s2. unfold scope_wf. simpl. intros [-> ->] [-> ->] Hn.
  by apply ChainNetwork_as_str_inj in Hn as ->.
Qed.

(** Every field of a binding is fixed by its separator. *)
Definition binding_wf (b : ReviewBinding) : Prop :=
  rb_schema_version b = 1 /\ scope_wf (rb_chain_scope b) /\
  (String.length (rb_signer_set_id b) <= MAX_SIGNER_SET_ID_BYTES)%nat /\
  is_u64 (rb_signer_set_epoch b) /\ is_u16 (rb_review_schema_version b) /\ length (rb_review_digest b) = 32%nat.

Lemma domain_separator_inj b1 b2 :
  binding_wf b1 -> binding_wf b2 -> domain_separator b1 = domain_separator b2 -> b1 = b2.
Proof.
  intros (V1 & S1 & L1 & E1 & R1 & D1) (V2 & S2 & L2 & E2 & R2 & D2). unfold MAX_SIGNER_SET_ID_BYTES in *.
  unfold domain_separator, append_field. rewrite V1, V2. intros H.
  rewrite <- !(assoc_L (++)) in H. do 2 apply app_inv_head in H.
  do 4 (apply len_prefixed_be_inj in H as [? H]; [|by auto with catomicals..]).
  enc_split H. destruct b1, b2; simpl in *; subst.
  f_equal; try done.
  - apply scope_names_inj; [done..|]. by apply ascii_bytes_inj.
  - apply SigningSuiteId_as_str_inj. by apply ascii_bytes_inj.
  - by apply ascii_bytes_inj.
  - by apply (be_bytes_inj 8).
  - by apply (be_bytes_inj 2).
Qed.
