(* ===== verification/Text.v ===== *)
(** * Text primitives the wallet parses with

    The pieces of [str] and [u8] the source uses: ASCII digits, decimal
    parsing, [trim().is_empty()], prefixes and suffixes, and the printing of
    numbers.  Strings are their UTF-8 bytes. *)

From Stdlib Require Import ZArith Lia.
From S2P Require Import Prelude.
From stdpp Require Import list.
Local Open Scope Z_scope.

(** [u8::is_ascii_digit] and its value. *)
Definition is_ascii_digit (b : byte) : bool := (48 <=? b2z b) && (b2z b <=? 57).
Definition digit_value (b : byte) : Z := b2z b - 48.

(** [b'0'..=b'9'] or [b'a'..=b'f'] *)
Definition is_lower_hex (b : byte) : bool := is_ascii_digit b || ((97 <=? b2z b) && (b2z b <=? 102)).

(** [bytes.get(i..j)] *)
Definition get_range (b : bytes) (i j : nat) : option bytes :=
  if (j <=? length b)%nat then Some (take (j - i) (drop i b)) else None.

(** Base-10 value of a digit string, most significant digit first. *)
Definition decimal (b : bytes) : Z := foldl (fun acc x => 10 * acc + digit_value x) 0 b.

(** [str::parse] for an unsigned type of [w] bits: an optional plus sign and
    at least one digit, and the value fits. *)
Definition parse_unsigned (w : Z) (b : bytes) : option Z :=
  let digits := match b with x2b :: rest => rest | _ => b end in
  if negb (bool_decide (digits = [])) && forallb is_ascii_digit digits && (decimal digits <? 2 ^ w)
  then Some (decimal digits) else None.

(** [char::is_whitespace] on UTF-8: [trim().is_empty()] of the whole text. *)
Fixpoint is_blank (b : bytes) : bool :=
  match b with
  | [] => true
  | x09 :: r | x0a :: r | x0b :: r | x0c :: r | x0d :: r | x20 :: r => is_blank r
  | xc2 :: x85 :: r | xc2 :: xa0 :: r => is_blank r
  | xe1 :: x9a :: x80 :: r => is_blank r
  | xe2 :: x80 :: c :: r =>
      let n := b2z c in
      if ((128 <=? n) && (n <=? 138)) || (n =? 168) || (n =? 169) || (n =? 175) then is_blank r else false
  | xe2 :: x81 :: x9f :: r => is_blank r
  | xe3 :: x80 :: x80 :: r => is_blank r
  | _ => false
  end.
Definition str_is_blank (s : string) : bool := is_blank (ascii_bytes s).

(** [str::trim]: drop white space at both ends.  [ws_start] removes one white
    space character at the start, [ws_end] one at the end of the reversed text. *)
Definition ws_start (b : bytes) : option bytes :=
  match b with
  | x09 :: r | x0a :: r | x0b :: r | x0c :: r | x0d :: r | x20 :: r => Some r
  | xc2 :: x85 :: r | xc2 :: xa0 :: r => Some r
  | xe1 :: x9a :: x80 :: r | xe2 :: x81 :: x9f :: r | xe3 :: x80 :: x80 :: r => Some r
  | xe2 :: x80 :: c :: r =>
      let n := b2z c in
      if ((128 <=? n) && (n <=? 138)) || (n =? 168) || (n =? 169) || (n =? 175) then Some r else None
  | _ => None
  end.
Definition ws_end (b : bytes) : option bytes :=
  match b with
  | x09 :: r | x0a :: r | x0b :: r | x0c :: r | x0d :: r | x20 :: r => Some r
  | x85 :: xc2 :: r | xa0 :: xc2 :: r => Some r
  | x80 :: x9a :: xe1 :: r | x9f :: x81 :: xe2 :: r | x80 :: x80 :: xe3 :: r => Some r
  | c :: x80 :: xe2 :: r =>
      let n := b2z c in
      if ((128 <=? n) && (n <=? 138)) || (n =? 168) || (n =? 169) || (n =? 175) then Some r else None
  | _ => None
  end.
Fixpoint drop_while (f : bytes -> option bytes) (fuel : nat) (b : bytes) : bytes :=
  match fuel with
  | O => b
  | S n => match f b with Some r => drop_while f n r | None => b end
  end.
Definition trim_bytes (b : bytes) : bytes :=
  let b := drop_while ws_start (length b) b in
  rev (drop_while ws_end (length b) (rev b)).
Definition str_trim (s : string) : string := String.string_of_list_byte (trim_bytes (ascii_bytes s)).

(** [String::truncate]: it panics ([None]) inside a character. *)
Definition is_continuation (b : byte) : bool := (128 <=? b2z b) && (b2z b <=? 191).
Definition truncate (n : nat) (s : string) : option string :=
  let b := ascii_bytes s in
  match b !! n with
  | None => Some s
  | Some c => if is_continuation c then None else Some (String.string_of_list_byte (take n b))
  end.
Lemma truncate_Ok k s :
  (forall c, ascii_bytes s !! k = Some c -> is_continuation c = false) ->
  exists reason, truncate k s = Some reason /\ take k (ascii_bytes s) = ascii_bytes reason.
Proof.
  intros Hc. unfold truncate. destruct (ascii_bytes s !! k) as [c|] eqn:E.
  - rewrite Hc by done. eexists. split; [done|]. unfold ascii_bytes. by rewrite String.list_byte_of_string_of_list_byte.
  - exists s. split; [done|]. apply take_ge. by apply lookup_ge_None.
Qed.

(** [str::strip_prefix] *)
Fixpoint strip_prefix_bytes (p b : bytes) : option bytes :=
  match p, b with
  | [], _ => Some b
  | x :: p', y :: b' => if bool_decide (x = y) then strip_prefix_bytes p' b' else None
  | _ :: _, [] => None
  end.

(** [s.rsplit(seps).next()]: what follows the last separator. *)
Definition after_last (sep : byte -> bool) (b : bytes) : bytes :=
  foldl (fun acc x => if sep x then [] else acc ++ [x]) [] b.

(** The text encodings of the hex and base64 crates. *)
Class TextCodec := {
  hex_encode : bytes -> string;
  b64url_encode : bytes -> string;
  base64_decode : string -> option bytes;
}.

(** [s.starts_with(p)] *)
Definition starts_with (p s : string) : bool :=
  bool_decide (is_Some (strip_prefix_bytes (ascii_bytes p) (ascii_bytes s))).

(** ** Lemmas *)

Lemma digit_value_range b : is_ascii_digit b = true -> 0 <= digit_value b <= 9.
Proof. unfold is_ascii_digit, digit_value. rewrite andb_true_iff, !Z.leb_le. lia. Qed.

Lemma decimal_app b x : decimal (b ++ [x]) = 10 * decimal b + digit_value x.
Proof. unfold decimal. by rewrite foldl_snoc. Qed.

Lemma decimal_range b : forallb is_ascii_digit b = true -> 0 <= decimal b < 10 ^ Z.of_nat (length b).
Proof.
  induction b as [|x b IH] using rev_ind; [intros _; change (0 <= 0 < 1); lia|].
  rewrite forallb_app, andb_true_iff. simpl. intros [Hb Hx]. rewrite andb_true_r in Hx.
  apply digit_value_range in Hx. specialize (IH Hb). rewrite decimal_app, length_app. simpl.
  rewrite Nat2Z.inj_add, Z.pow_add_r by lia. change (10 ^ Z.of_nat 1) with 10. lia.
Qed.

Lemma strip_prefix_bytes_Some p b r : strip_prefix_bytes p b = Some r <-> b = p ++ r.
Proof.
  revert b. induction p as [|x p IH]; intros b; simpl; [naive_solver|].
  destruct b as [|y b]; [naive_solver|]. case_bool_decide as E; [|naive_solver].
  rewrite IH. naive_solver.
Qed.

(** The ASCII digit of a value below ten. *)
Definition digit (n : Z) : byte := z2b (48 + n).

Lemma is_ascii_digit_digit n : 0 <= n <= 9 -> is_ascii_digit (digit n) = true.
Proof. intros. unfold is_ascii_digit, digit. rewrite b2z_z2b, Z.mod_small, andb_true_iff, !Z.leb_le; lia. Qed.
Lemma digit_value_digit n : 0 <= n <= 9 -> digit_value (digit n) = n.
Proof. intros. unfold digit_value, digit. rewrite b2z_z2b, Z.mod_small; lia. Qed.

(** ** Numbers in error texts and summaries

    The [format!] directives the source uses: decimal, [{:#x}], and the
    lower-case hexadecimal of a digest. *)

Local Open Scope string_scope.
Local Open Scope list_scope.
Local Open Scope Z_scope.

(** Decimal digits of [n], most significant first; [fuel] digits at most. *)
Fixpoint dec_digits (fuel : nat) (n : Z) (acc : bytes) : bytes :=
  match fuel with
  | O => acc
  | S k => let acc := digit (n mod 10) :: acc in if n <? 10 then acc else dec_digits k (n / 10) acc
  end.

(** [{}] of an unsigned integer of at most 128 bits: 39 digits. *)
Definition display_dec (n : Z) : string := String.string_of_list_byte (dec_digits 39 n []).

Definition HEX : bytes := ascii_bytes "0123456789abcdef".
Definition hex_digit (n : Z) : byte := default x00 (HEX !! Z.to_nat n).

(** Hexadecimal digits of [n], most significant first; [fuel] digits at most. *)
Fixpoint hex_digits (fuel : nat) (n : Z) (acc : bytes) : bytes :=
  match fuel with
  | O => acc
  | S k => let acc := hex_digit (n mod 16) :: acc in if n <? 16 then acc else hex_digits k (n / 16) acc
  end.

(** [{:#x}] of an integer of at most 64 bits. *)
Definition display_hex (n : Z) : string := "0x" +:+ String.string_of_list_byte (hex_digits 16 n []).

(** [encode_hex] of the chain crates: two digits per byte. *)
Definition encode_hex (b : bytes) : string :=
  String.string_of_list_byte
    (concat ((fun x => [hex_digit (Z.shiftr (b2z x) 4); hex_digit (Z.land (b2z x) 0x0f)]) <$> b)).

(** [{:#04x}] of a byte. *)
Definition display_hex_byte (n : Z) : string := "0x" +:+ encode_hex [z2b n].

Example display_examples :
  display_dec 21000000 = "21000000" /\ display_hex 0x41 = "0x41" /\ display_hex 0 = "0x0" /\
  encode_hex [x0f; xa0] = "0fa0" /\ display_hex_byte 5 = "0x05".
Proof. by vm_compute. Qed.

(** ** What is printed reads back *)

Lemma decimal_cons x b :
  decimal (x :: b) = digit_value x * 10 ^ Z.of_nat (length b) + decimal b.
Proof.
  induction b as [|y b IH] using rev_ind; [unfold decimal; simpl; lia|].
  rewrite app_comm_cons, !decimal_app, IH, length_app. simpl.
  rewrite Nat2Z.inj_add, Z.pow_add_r by lia. change (10 ^ Z.of_nat 1) with 10. lia.
Qed.

Lemma dec_digits_spec fuel n acc :
  0 <= n < 10 ^ Z.of_nat fuel -> (0 < fuel)%nat -> forallb is_ascii_digit acc = true ->
  let b := dec_digits fuel n acc in
  forallb is_ascii_digit b = true /\ decimal b = n * 10 ^ Z.of_nat (length acc) + decimal acc /\ b <> [].
Proof.
  revert n acc. induction fuel as [|k IH]; intros n acc Hn Hf Hacc; [lia|]. simpl.
  pose proof (Z.mod_pos_bound n 10 ltac:(lia)) as Hm.
  assert (forallb is_ascii_digit (digit (n mod 10) :: acc) = true) as Hacc'
    by (simpl; rewrite is_ascii_digit_digit by lia; done).
  destruct (Z.ltb_spec n 10).
  - split_and!; [done| |done]. rewrite decimal_cons, digit_value_digit by lia. by rewrite Z.mod_small by lia.
  - replace (10 ^ Z.of_nat (S k)) with (10 * 10 ^ Z.of_nat k) in Hn
      by (rewrite Nat2Z.inj_succ, Z.pow_succ_r by lia; lia).
    destruct k as [|k]; [change (10 ^ Z.of_nat 0) with 1 in Hn; lia|].
    destruct (IH (n / 10) (digit (n mod 10) :: acc)) as (Hd & He & Hne); [|lia|done|].
    { split; [apply Z.div_pos; lia|apply Z.div_lt_upper_bound; lia]. }
    split_and!; [done| |done]. rewrite He, decimal_cons, digit_value_digit by lia. cbn [length].
    rewrite Nat2Z.inj_succ, Z.pow_succ_r by lia. pose proof (Z.div_mod n 10 ltac:(lia)). nia.
Qed.

(** A printed number has only digits, and [str::parse] returns it. *)
Lemma parse_display_dec w n :
  fits w n -> w <= 128 -> 
  forallb is_ascii_digit (ascii_bytes (display_dec n)) = true /\ parse_unsigned w (ascii_bytes (display_dec n)) = Some n.
Proof.
  intros Hn Hw. unfold display_dec, ascii_bytes. rewrite String.list_byte_of_string_of_list_byte.
  assert (0 <= n < 10 ^ Z.of_nat 39) as Hr.
  { unfold fits in Hn. destruct (Z.lt_ge_cases w 0); [rewrite Z.pow_neg_r in Hn by lia; lia|].
    pose proof (Z.pow_le_mono_r 2 w 128 ltac:(lia) Hw). assert (2 ^ 128 < 10 ^ Z.of_nat 39) by done. lia. }
  destruct (dec_digits_spec 39 n [] Hr ltac:(lia) eq_refl) as (Hd & He & Hne). split; [done|].
  unfold parse_unsigned. set (b := dec_digits 39 n []) in *.
  assert (match b with x2b :: rest => rest | _ => b end = b) as ->.
  { destruct b as [|x b]; [done|]. simpl in Hd. apply andb_true_iff in Hd as [Hx _]. by destruct x. }
  rewrite bool_decide_false, Hd by done. simpl in He. rewrite He. cbn [negb andb].
  replace (n * 10 ^ Z.of_nat 0 + decimal []) with n by (change (decimal []) with 0; lia).
  by rewrite (proj2 (Z.ltb_lt _ _)) by apply Hn.
Qed.

(** ** Lengths *)

Lemma string_app_length s t : String.length (s +:+ t) = (String.length s + String.length t)%nat.
Proof. induction s as [|c s IH]; [done|]. change (String c s +:+ t) with (String c (s +:+ t)). simpl. by rewrite IH. Qed.

Lemma length_string_of_bytes b : String.length (String.string_of_list_byte b) = length b.
Proof. rewrite <- length_ascii_bytes. unfold ascii_bytes. by rewrite String.list_byte_of_string_of_list_byte. Qed.

Lemma length_dec_digits fuel n acc : (length (dec_digits fuel n acc) <= fuel + length acc)%nat.
Proof.
  revert n acc. induction fuel as [|k IH]; intros n acc; simpl; [lia|]. destruct (n <? 10); simpl; [lia|].
  specialize (IH (n / 10) (digit (n mod 10) :: acc)). simpl in IH. lia.
Qed.
Lemma length_hex_digits fuel n acc : (length (hex_digits fuel n acc) <= fuel + length acc)%nat.
Proof.
  revert n acc. induction fuel as [|k IH]; intros n acc; simpl; [lia|]. destruct (n <? 16); simpl; [lia|].
  specialize (IH (n / 16) (hex_digit (n mod 16) :: acc)). simpl in IH. lia.
Qed.

Lemma display_dec_short n : (String.length (display_dec n) <= 39)%nat.
Proof. unfold display_dec. rewrite length_string_of_bytes. pose proof (length_dec_digits 39 n []) as Hl. change (length []) with 0%nat in Hl. lia. Qed.
Lemma display_hex_short n : (String.length (display_hex n) <= 18)%nat.
Proof.
  unfold display_hex. rewrite string_app_length, length_string_of_bytes.
  pose proof (length_hex_digits 16 n []) as Hl. change (length []) with 0%nat in Hl.
  change (String.length "0x") with 2%nat. lia.
Qed.
Lemma encode_hex_length b : String.length (encode_hex b) = (2 * length b)%nat.
Proof.
  unfold encode_hex. rewrite length_string_of_bytes. induction b as [|x b IH]; [done|]. rewrite fmap_cons. simpl in *. lia.
Qed.
