(* ===== verification/Rfc3339.v ===== *)
(** * Proposal timestamps
      (the RFC 3339 parser of src/crates/wallet-core/src/covhub.rs)

    [parse_rfc3339_seconds] and its helpers.  The parser indexes the bytes of
    its input with [get], so an input that is too short is an error value.
    Rust's [/] truncates: [Z.quot]. *)

From Stdlib Require Import ZArith Lia.
From S2P Require Import Prelude Text.
From stdpp Require Import list.
Local Open Scope Z_scope.

Definition parse_four_digits (b : bytes) : option Z :=
  match b with
  | [b0; b1; b2; b3] =>
      if forallb is_ascii_digit b
      then Some (digit_value b0 * 1000 + digit_value b1 * 100 + digit_value b2 * 10 + digit_value b3)
      else None
  | _ => None
  end.

Definition parse_two_digits (b : bytes) : option Z :=
  match b with
  | [b0; b1] => if forallb is_ascii_digit b then Some (digit_value b0 * 10 + digit_value b1) else None
  | _ => None
  end.

Definition is_leap_year (year : Z) : bool :=
  ((Z.rem year 4 =? 0) && negb (Z.rem year 100 =? 0)) || (Z.rem year 400 =? 0).

Definition days_in_month (year month : Z) : Z :=
  if bool_decide (month ∈ [1; 3; 5; 7; 8; 10; 12]) then 31
  else if bool_decide (month ∈ [4; 6; 9; 11]) then 30
  else if month =? 2 then (if is_leap_year year then 29 else 28)
  else 0.

Definition days_from_civil (year month day : Z) : Z :=
  let year := if month <=? 2 then year - 1 else year in
  let era := Z.quot (if 0 <=? year then year else year - 399) 400 in
  let year_of_era := year - era * 400 in
  let day_of_year := Z.quot (153 * (if 2 <? month then month - 3 else month + 9) + 2) 5 + day - 1 in
  let day_of_era := year_of_era * 365 + Z.quot year_of_era 4 - Z.quot year_of_era 100 + day_of_year in
  era * 146097 + day_of_era - 719468.

Definition four (b : bytes) (i : nat) : option Z := r ← get_range b i (i + 4); parse_four_digits r.
Definition two (b : bytes) (i : nat) : option Z := r ← get_range b i (i + 2); parse_two_digits r.
Definition expect (b : bytes) (i : nat) (c : byte) : option unit :=
  if bool_decide (b !! i = Some c) then Some tt else None.

(** The digits from [i] on: the length of the longest run. *)
Fixpoint digit_run (b : bytes) : nat :=
  match b with
  | x :: rest => if is_ascii_digit x then S (digit_run rest) else O
  | [] => O
  end.

(** [for _ in fraction.len()..9 { nanos *= 10 }] *)
Fixpoint scale_nanos (n : nat) (nanos : Z) : Z :=
  match n with O => nanos | S m => scale_nanos m (nanos * 10) end.

(** The optional fraction at [index]: the index after it. *)
Definition parse_fraction (b : bytes) (index : nat) : option nat :=
  if bool_decide (b !! index = Some x2e) || bool_decide (b !! index = Some x2c) then
    let start := S index in
    let n := digit_run (drop start b) in
    if (n =? 0)%nat then None
    else
      nanos ← parse_unsigned 32 (take n (drop start b));
      if 999999999 <? scale_nanos (9 - n) nanos then None else Some (start + n)%nat
  else Some index.

(** The time zone at [index]: its offset in seconds and the index after it. *)
Definition parse_offset (b : bytes) (index : nat) : option (Z * nat) :=
  match b !! index with
  | Some x5a | Some x7a => Some (0, S index)
  | Some x2b | Some x2d =>
      let sign := if bool_decide (b !! index = Some x2d) then -1 else 1 in
      offset_hour ← two b (index + 1);
      _ ← expect b (index + 3) x3a;
      offset_minute ← two b (index + 4);
      if (23 <? offset_hour) || (59 <? offset_minute) then None
      else Some (sign * (offset_hour * 3600 + offset_minute * 60), (index + 6)%nat)
  | _ => None
  end.

(** [None] is [Err(InvalidTimestamp(input))]. *)
Definition parse_rfc3339_seconds (input : string) : option Z :=
  let b := ascii_bytes input in
  year ← four b 0; _ ← expect b 4 x2d;
  month ← two b 5; _ ← expect b 7 x2d;
  day ← two b 8;
  _ ← (if bool_decide (b !! 10%nat = Some x54) || bool_decide (b !! 10%nat = Some x74) then Some tt else None);
  hour ← two b 11; _ ← expect b 13 x3a;
  minute ← two b 14; _ ← expect b 16 x3a;
  second ← two b 17;
  if negb ((1 <=? month) && (month <=? 12)) || negb ((1 <=? day) && (day <=? days_in_month year month))
     || (23 <? hour) || (59 <? minute) || (60 <? second)
  then None
  else
    index ← parse_fraction b 19;
    '(offset_seconds, index) ← parse_offset b index;
    if negb (index =? length b)%nat then None
    else
      let days := days_from_civil year month day in
      Some (days * 86400 + hour * 3600 + minute * 60 + second - offset_seconds).

(** ** The calendar *)

(** The reference: days are counted one after the other from 1970-01-01. *)
Definition valid_date (year month day : Z) : Prop :=
  0 <= year /\ 1 <= month <= 12 /\ 1 <= day <= days_in_month year month.
Definition next_date (year month day : Z) : Z * Z * Z :=
  if day <? days_in_month year month then (year, month, day + 1)
  else if month <? 12 then (year, month + 1, 1)
  else (year + 1, 1, 1).
Definition days_of (d : Z * Z * Z) : Z := days_from_civil d.1.1 d.1.2 d.2.

Lemma leap_year_mod y : is_leap_year y = ((y mod 4 =? 0) && negb (y mod 100 =? 0)) || (y mod 400 =? 0).
Proof.
  unfold is_leap_year. assert (forall k, 0 < k -> (Z.rem y k =? 0) = (y mod k =? 0)) as Hk.
  { intros k Hk. apply Bool.eq_iff_eq_true. rewrite !Z.eqb_eq, Z.rem_divide, Z.mod_divide by lia. done. }
  by rewrite !Hk.
Qed.

Lemma month_cases m : 1 <= m <= 12 -> m ∈ [1; 2; 3; 4; 5; 6; 7; 8; 9; 10; 11; 12].
Proof.
  intros. rewrite !elem_of_cons, elem_of_nil. lia.
Qed.

(** Within a month the count follows the day. *)
Lemma days_from_civil_day y m d k : days_from_civil y m (d + k) = days_from_civil y m d + k.
Proof. unfold days_from_civil. lia. Qed.

(** The parts of the count: whole March-based years, whole months, days. *)
Definition year_part (y : Z) : Z :=
  let era := Z.quot (if 0 <=? y then y else y - 399) 400 in
  let year_of_era := y - era * 400 in
  era * 146097 + (year_of_era * 365 + Z.quot year_of_era 4 - Z.quot year_of_era 100) - 719468.
Definition month_part (m : Z) : Z := Z.quot (153 * (if 2 <? m then m - 3 else m + 9) + 2) 5.

Lemma days_from_civil_parts y m d :
  days_from_civil y m d = year_part (if m <=? 2 then y - 1 else y) + month_part m + d - 1.
Proof. unfold days_from_civil, year_part, month_part. lia. Qed.

Lemma year_part_closed y : 0 <= y -> year_part y = 365 * y + y / 4 - y / 100 + y / 400 - 719468.
Proof.
  intros Hy. unfold year_part. rewrite (proj2 (Z.leb_le 0 y) Hy).
  rewrite (Z.quot_div_nonneg y 400) by lia.
  pose proof (Z.mod_pos_bound y 400 ltac:(lia)). pose proof (Z.div_mod y 400 ltac:(lia)).
  replace (y - y / 400 * 400) with (y mod 400) by lia.
  rewrite !Z.quot_div_nonneg by lia.
  assert (y / 4 = 100 * (y / 400) + y mod 400 / 4) as ->.
  { symmetry. apply (Z.div_unique_pos _ _ _ ((y mod 400) mod 4)); [apply Z.mod_pos_bound; lia|].
    pose proof (Z.div_mod (y mod 400) 4 ltac:(lia)). lia. }
  assert (y / 100 = 4 * (y / 400) + y mod 400 / 100) as ->.
  { symmetry. apply (Z.div_unique_pos _ _ _ ((y mod 400) mod 100)); [apply Z.mod_pos_bound; lia|].
    pose proof (Z.div_mod (y mod 400) 100 ltac:(lia)). lia. }
  lia.
Qed.

(** A March-based year ends with the February of the next: its length depends
    on that year. *)
Lemma year_part_step y :
  0 <= y -> year_part y = year_part (y - 1) + if is_leap_year y then 366 else 365.
Proof.
  intros Hy. destruct (Z.eq_dec y 0) as [->|Hn]; [by vm_compute|].
  rewrite !year_part_closed, leap_year_mod by lia.
  pose proof (Z.div_mod y 4 ltac:(lia)). pose proof (Z.div_mod y 100 ltac:(lia)).
  pose proof (Z.div_mod y 400 ltac:(lia)).
  pose proof (Z.mod_pos_bound y 4 ltac:(lia)). pose proof (Z.mod_pos_bound y 100 ltac:(lia)).
  pose proof (Z.mod_pos_bound y 400 ltac:(lia)).
  assert (forall k, 0 < k -> (y - 1) / k = if y mod k =? 0 then y / k - 1 else y / k) as Hk.
  { intros k Hk. pose proof (Z.div_mod y k ltac:(lia)). pose proof (Z.mod_pos_bound y k ltac:(lia)).
    destruct (Z.eqb_spec (y mod k) 0).
    - symmetry. apply (Z.div_unique_pos _ _ _ (k - 1)); lia.
    - symmetry. apply (Z.div_unique_pos _ _ _ (y mod k - 1)); lia. }
  rewrite !Hk by lia.
  destruct (Z.eqb_spec (y mod 4) 0), (Z.eqb_spec (y mod 100) 0), (Z.eqb_spec (y mod 400) 0); simpl; lia.
Qed.

(** The day after the last of a month is the first of the next. *)
Lemma days_from_civil_month_end y m :
  0 <= y -> 1 <= m <= 12 ->
  days_from_civil y m (days_in_month y m) + 1 =
  if m <? 12 then days_from_civil y (m + 1) 1 else days_from_civil (y + 1) 1 1.
Proof.
  intros Hy Hm. rewrite !days_from_civil_parts. apply month_cases in Hm.
  repeat (apply elem_of_cons in Hm as [->|Hm]; [|]); [..|by apply elem_of_nil in Hm].
  2: { pose proof (year_part_step y Hy) as Hs. unfold days_in_month.
       change (2 <=? 2) with true. change (2 + 1 <=? 2) with false. change (2 <? 12) with true.
       change (month_part (2 + 1)) with 0. change (month_part 2) with 337. cbn [Z.eqb Pos.eqb].
       rewrite !bool_decide_false by (rewrite !elem_of_cons, elem_of_nil; lia).
       destruct (is_leap_year y); lia. }
  all: match goal with |- context [days_in_month ?y0 ?k] =>
    let v := eval vm_compute in (days_in_month 1 k) in change (days_in_month y0 k) with v end.
  all: repeat match goal with |- context [month_part ?k] =>
    let v := eval vm_compute in (month_part k) in progress change (month_part k) with v end.
  all: repeat match goal with |- context [?a <=? 2] =>
    let v := eval vm_compute in (a <=? 2) in progress change (a <=? 2) with v end.
  all: repeat match goal with |- context [?a <? 12] =>
    let v := eval vm_compute in (a <? 12) in progress change (a <? 12) with v end.
  all: cbv iota; replace (y + 1 - 1) with y by lia; lia.
Qed.

Lemma days_from_civil_next y m d :
  valid_date y m d -> days_of (next_date y m d) = days_from_civil y m d + 1.
Proof.
  intros (Hy & Hm & Hd). unfold next_date, days_of.
  destruct (Z.ltb_spec d (days_in_month y m)) as [Hlt|Hge]; simpl; [apply days_from_civil_day|].
  replace d with (days_in_month y m) by lia. rewrite days_from_civil_month_end by lia.
  by destruct (m <? 12).
Qed.

(** ** Printing, as the reference for the parser *)

Definition print2 (n : Z) : bytes := [digit (n / 10); digit (n mod 10)].
Definition print4 (n : Z) : bytes := [digit (n / 1000); digit (n / 100 mod 10); digit (n / 10 mod 10); digit (n mod 10)].

Inductive zone := Zulu | Offset (west : bool) (hour minute : Z).
Definition zone_ok (z : zone) : Prop :=
  match z with Zulu => True | Offset _ h m => 0 <= h <= 23 /\ 0 <= m <= 59 end.
Definition zone_seconds (z : zone) : Z :=
  match z with Zulu => 0 | Offset west h m => (if west then -1 else 1) * (h * 3600 + m * 60) end.
Definition print_zone (z : zone) : bytes :=
  match z with
  | Zulu => [x5a]
  | Offset west h m => (if west then x2d else x2b) :: print2 h ++ [x3a] ++ print2 m
  end.

(** A fraction of up to nine digits, or none. *)
Definition fraction_ok (f : bytes) : Prop := forallb is_ascii_digit f = true /\ (length f <= 9)%nat.
Definition print_fraction (f : bytes) : bytes := match f with [] => [] | _ => x2e :: f end.

Definition print_rfc3339 (y mo d h mi s : Z) (f : bytes) (z : zone) : bytes :=
  print4 y ++ [x2d] ++ print2 mo ++ [x2d] ++ print2 d ++ [x54] ++ print2 h ++ [x3a] ++ print2 mi ++ [x3a] ++
  print2 s ++ print_fraction f ++ print_zone z.

Lemma parse_two_print2 n : 0 <= n <= 99 -> parse_two_digits (print2 n) = Some n.
Proof.
  intros Hn. unfold print2, parse_two_digits. simpl.
  pose proof (Z.div_mod n 10 ltac:(lia)). pose proof (Z.mod_pos_bound n 10 ltac:(lia)).
  assert (0 <= n / 10 <= 9) by (split; [apply Z.div_pos; lia|apply Z.lt_succ_r, Z.div_lt_upper_bound; lia]).
  rewrite !is_ascii_digit_digit, !digit_value_digit by lia. simpl. f_equal. lia.
Qed.

Lemma parse_four_print4 n : 0 <= n <= 9999 -> parse_four_digits (print4 n) = Some n.
Proof.
  intros Hn. unfold print4, parse_four_digits. simpl.
  assert (0 <= n / 1000 <= 9) by (split; [apply Z.div_pos; lia|apply Z.lt_succ_r, Z.div_lt_upper_bound; lia]).
  pose proof (Z.mod_pos_bound n 10 ltac:(lia)). pose proof (Z.mod_pos_bound (n / 10) 10 ltac:(lia)).
  pose proof (Z.mod_pos_bound (n / 100) 10 ltac:(lia)).
  rewrite !is_ascii_digit_digit, !digit_value_digit by lia. simpl. f_equal.
  pose proof (Z.div_mod n 10 ltac:(lia)). pose proof (Z.div_mod (n / 10) 10 ltac:(lia)).
  pose proof (Z.div_mod (n / 100) 10 ltac:(lia)).
  assert (n / 10 / 10 = n / 100) by (rewrite Z.div_div by lia; done).
  assert (n / 100 / 10 = n / 1000) by (rewrite Z.div_div by lia; done). lia.
Qed.

(** Reading a field at the position where it was printed. *)
Lemma get_range_app pre mid post :
  get_range (pre ++ mid ++ post) (length pre) (length pre + length mid) = Some mid.
Proof.
  unfold get_range. rewrite (proj2 (Nat.leb_le _ _)) by (rewrite !length_app; lia).
  rewrite drop_app_length. replace (length pre + length mid - length pre)%nat with (length mid) by lia.
  by rewrite take_app_length.
Qed.

Lemma two_at pre n post i : length pre = i -> 0 <= n <= 99 -> two (pre ++ print2 n ++ post) i = Some n.
Proof.
  intros <- Hn. unfold two. pose proof (get_range_app pre (print2 n) post) as Hg.
  change (length (print2 n)) with 2%nat in Hg. rewrite Hg. by apply parse_two_print2.
Qed.

Lemma expect_at pre c post i : length pre = i -> expect (pre ++ c :: post) i c = Some tt.
Proof.
  intros <-. unfold expect. rewrite bool_decide_true; [done|]. by apply list_lookup_middle.
Qed.

Lemma digit_run_app f r :
  forallb is_ascii_digit f = true -> match r with x :: _ => is_ascii_digit x = false | [] => True end ->
  digit_run (f ++ r) = length f.
Proof.
  intros Hf Hr. induction f as [|x f IH]; simpl in *.
  - by destruct r as [|y r]; simpl; [|rewrite Hr].
  - apply andb_true_iff in Hf as [-> Hf]. by rewrite IH.
Qed.

Lemma scale_nanos_pow n x : scale_nanos n x = x * 10 ^ Z.of_nat n.
Proof.
  revert x. induction n as [|n IH]; intros x; simpl; [lia|]. rewrite IH, Nat2Z.inj_succ, Z.pow_succ_r by lia. lia.
Qed.

Lemma parse_unsigned_digits w f :
  f <> [] -> forallb is_ascii_digit f = true -> decimal f < 2 ^ w -> parse_unsigned w f = Some (decimal f).
Proof.
  intros Hn Hf Hd. assert (match f with x2b :: rest => rest | _ => f end = f) as E.
  { destruct f as [|x f]; [done|]. simpl in Hf. destruct x; done. }
  unfold parse_unsigned. rewrite E, bool_decide_false, Hf, (proj2 (Z.ltb_lt _ _) Hd) by done. done.
Qed.

Lemma parse_fraction_at pre f rest i :
  length pre = i -> fraction_ok f ->
  match rest with x :: _ => is_ascii_digit x = false /\ x <> x2e /\ x <> x2c | [] => True end ->
  parse_fraction (pre ++ print_fraction f ++ rest) i = Some (i + length (print_fraction f))%nat.
Proof.
  intros <- [Hf Hl] Hr. unfold parse_fraction. destruct f as [|x f]; simpl print_fraction.
  - simpl. rewrite !bool_decide_false; [f_equal; lia|..]; rewrite lookup_app_r, Nat.sub_diag by lia;
      destruct rest as [|y rest]; simpl; naive_solver.
  - rewrite bool_decide_true by (rewrite lookup_app_r, Nat.sub_diag by lia; done). cbn [orb].
    assert (drop (S (length pre)) (pre ++ (x2e :: x :: f) ++ rest) = (x :: f) ++ rest) as ->.
    { change ((x2e :: x :: f) ++ rest) with ([x2e] ++ (x :: f) ++ rest). rewrite (assoc_L (++) pre).
      apply drop_app_length'. rewrite length_app. simpl. lia. }
    rewrite digit_run_app by (done || destruct rest; naive_solver).
    pose proof (decimal_range _ Hf) as Hd. set (n := length (x :: f)) in *.
    assert (1 <= Z.of_nat n <= 9) as Hn by (subst n; simpl length; simpl in Hl; lia).
    assert (10 ^ Z.of_nat n * 10 ^ Z.of_nat (9 - n) = 1000000000) as Hp.
    { rewrite <- Z.pow_add_r by lia. replace (Z.of_nat n + Z.of_nat (9 - n)) with 9 by lia. done. }
    assert (0 < 10 ^ Z.of_nat (9 - n)) as Hpos by (apply Z.pow_pos_nonneg; lia).
    assert (decimal (x :: f) * 10 ^ Z.of_nat (9 - n) <= 999999999) as Hs.
    { assert (decimal (x :: f) * 10 ^ Z.of_nat (9 - n) <= (10 ^ Z.of_nat n - 1) * 10 ^ Z.of_nat (9 - n))
        by (apply Z.mul_le_mono_nonneg_r; lia). lia. }
    assert (decimal (x :: f) < 2 ^ 32) as Hu by nia.
    destruct (Nat.eqb_spec n 0) as [|_]; [lia|]. subst n. rewrite take_app_length.
    rewrite parse_unsigned_digits by done. cbn [mbind option_bind].
    rewrite scale_nanos_pow, (proj2 (Z.ltb_ge _ _) Hs). f_equal. cbn [length]. lia.
Qed.

Lemma parse_offset_at pre z i :
  length pre = i -> zone_ok z ->
  parse_offset (pre ++ print_zone z) i = Some (zone_seconds z, length (pre ++ print_zone z)).
Proof.
  intros <- Hz. unfold parse_offset. destruct z as [|west h m]; simpl in Hz.
  - cbn [print_zone]. rewrite (list_lookup_middle pre [] x5a _ eq_refl), length_app. simpl. do 2 f_equal. lia.
  - destruct Hz as [Hh Hm]. set (c := if west then x2d else x2b).
    assert (two (pre ++ print_zone (Offset west h m)) (length pre + 1) = Some h) as Eh.
    { replace (pre ++ print_zone _) with ((pre ++ [c]) ++ print2 h ++ x3a :: print2 m)
        by (by rewrite <- (assoc_L (++))). apply two_at; [by rewrite length_app|lia]. }
    assert (expect (pre ++ print_zone (Offset west h m)) (length pre + 3) x3a = Some tt) as Ec.
    { replace (pre ++ print_zone _) with ((pre ++ c :: print2 h) ++ x3a :: print2 m)
        by (by rewrite <- (assoc_L (++))). apply expect_at. by rewrite length_app. }
    assert (two (pre ++ print_zone (Offset west h m)) (length pre + 4) = Some m) as Em.
    { replace (pre ++ print_zone _) with ((pre ++ c :: print2 h ++ [x3a]) ++ print2 m ++ [])
        by (by rewrite app_nil_r, <- (assoc_L (++))). apply two_at; [by rewrite length_app|lia]. }
    assert ((pre ++ print_zone (Offset west h m)) !! length pre = Some c) as El by by apply list_lookup_middle.
    rewrite El, Eh, Ec, Em. rewrite length_app. cbn [mbind option_bind].
    rewrite (proj2 (Z.ltb_ge _ _)) by lia. rewrite (proj2 (Z.ltb_ge _ _)) by lia. by destruct west.
Qed.

Lemma parse_print_rfc3339 y mo d h mi s f z :
  0 <= y <= 9999 -> valid_date y mo d -> 0 <= h <= 23 -> 0 <= mi <= 59 -> 0 <= s <= 60 ->
  fraction_ok f -> zone_ok z ->
  parse_rfc3339_seconds (String.string_of_list_byte (print_rfc3339 y mo d h mi s f z)) =
  Some (days_from_civil y mo d * 86400 + h * 3600 + mi * 60 + s - zone_seconds z).
Proof.
  intros Hy (_ & Hmo & Hd) Hh Hmi Hs Hf Hz.
  assert (0 <= d <= 99) as Hd' by (unfold days_in_month in Hd; repeat case_match; lia).
  unfold parse_rfc3339_seconds. 
  assert (ascii_bytes (String.string_of_list_byte (print_rfc3339 y mo d h mi s f z)) = print_rfc3339 y mo d h mi s f z)
    as -> by apply String.list_byte_of_string_of_list_byte.
  set (b := print_rfc3339 y mo d h mi s f z).
  assert (four b 0 = Some y) as ->.
  { unfold four. pose proof (get_range_app [] (print4 y) (drop 4 b)) as Hg. 
    change (get_range b 0 4 ≫= parse_four_digits = Some y). change ([] ++ print4 y ++ drop 4 b) with b in Hg.
    change (length (@nil byte)) with 0%nat in Hg. change (0 + length (print4 y))%nat with 4%nat in Hg.
    rewrite Hg. by apply parse_four_print4. }
  set (p5 := take 5 b). set (p8 := take 8 b). set (p11 := take 11 b). set (p14 := take 14 b).
  set (p17 := take 17 b). set (p19 := take 19 b).
  assert (two b 5 = Some mo) as -> by (change b with (p5 ++ print2 mo ++ drop 7 b); apply two_at; [done|lia]).
  assert (two b 8 = Some d) as -> by (change b with (p8 ++ print2 d ++ drop 10 b); apply two_at; [done|lia]).
  assert (two b 11 = Some h) as -> by (change b with (p11 ++ print2 h ++ drop 13 b); apply two_at; [done|lia]).
  assert (two b 14 = Some mi) as -> by (change b with (p14 ++ print2 mi ++ drop 16 b); apply two_at; [done|lia]).
  assert (two b 17 = Some s) as -> by (change b with (p17 ++ print2 s ++ drop 19 b); apply two_at; [done|lia]).
  assert (expect b 4 x2d = Some tt /\ expect b 7 x2d = Some tt /\ expect b 13 x3a = Some tt /\
    expect b 16 x3a = Some tt /\ b !! 10%nat = Some x54) as (-> & -> & -> & -> & ->) by done.
  cbn [mbind option_bind]. rewrite bool_decide_true by done. cbn [orb mbind option_bind].
  rewrite !(proj2 (Z.leb_le _ _)) by lia. rewrite !(proj2 (Z.ltb_ge _ _)) by lia. cbn [negb andb orb].
  change b with (p19 ++ print_fraction f ++ print_zone z).
  rewrite (parse_fraction_at p19 f (print_zone z) 19); [|done|done|].
  2:{ destruct z as [|[] ? ?]; done. }
  cbn [mbind option_bind]. rewrite (assoc_L (++)).
  rewrite parse_offset_at; [|rewrite length_app; done|done]. cbn [mbind option_bind].
  destruct (Nat.eqb_spec (length ((p19 ++ print_fraction f) ++ print_zone z))
    (length ((p19 ++ print_fraction f) ++ print_zone z))); done.
Qed.
