(* ===== verification/Personal.v ===== *)
(** * Personal signer profiles and operation bindings
      (src/crates/threshold-signer/src/personal.rs and
       src/crates/wallet-core/src/signing_operation.rs)

    The public profile of a personal 2-of-3 signer set, the digest that binds
    it, and the digest that binds one signing operation to it. *)

From Stdlib Require Import ZArith Lia.
From S2P Require Import Prelude Bitcoin.
From stdpp Require Import list.
Local Open Scope Z_scope.

(** A UUID is its 16 bytes. *)
Abbreviation Uuid := bytes.
Definition Uuid_wf (u : Uuid) : Prop := length u = 16%nat.
Definition Uuid_is_nil (u : Uuid) : bool := bool_decide (u = replicate 16 x00).

Inductive PersonalParticipantRole := WalletNodeRole | DesktopOnePassword | PhoneRecovery.
#[export] Instance PersonalParticipantRole_eq_dec : EqDecision PersonalParticipantRole.
Proof. solve_decision. Defined.

Definition binding_tag (r : PersonalParticipantRole) : byte :=
  match r with WalletNodeRole => x01 | DesktopOnePassword => x02 | PhoneRecovery => x03 end.

Definition role_for_signer (signer_id : Z) : option PersonalParticipantRole :=
  if signer_id =? 1 then Some WalletNodeRole
  else if signer_id =? 2 then Some DesktopOnePassword
  else if signer_id =? 3 then Some PhoneRecovery
  else None.

Record PersonalParticipantDescriptor := mkPersonalParticipantDescriptor {
  pd_signer_id : Z;
  pd_role : PersonalParticipantRole;
  pd_identifier_hex : string;
  pd_verifying_share_digest : bytes;
}.
#[export] Instance PersonalParticipantDescriptor_eq_dec : EqDecision PersonalParticipantDescriptor.
Proof. solve_decision. Defined.

Record PersonalSignerProfile := mkPersonalSignerProfile {
  ps_format_version : Z;
  ps_profile_id : Uuid;
  ps_wallet_id : Uuid;
  ps_signer_set_id : Uuid;
  ps_signer_epoch : Z;
  ps_min_signers : Z;
  ps_max_signers : Z;
  ps_group_pubkey_xonly : bytes;
  ps_public_key_package : bytes;
  ps_participants : list PersonalParticipantDescriptor;
}.

Definition PROFILE_BINDING_DOMAIN : bytes := ascii_bytes "catomicals/personal-signer-profile/v1" ++ [x00].

(** [update_len_prefixed]: a u64 length and the value. *)
Definition update_len_prefixed (value : bytes) : bytes := len_prefixed_be 8 value.

Definition participant_bytes (p : PersonalParticipantDescriptor) : bytes :=
  be_bytes 2 (pd_signer_id p) ++ [binding_tag (pd_role p)] ++
  update_len_prefixed (ascii_bytes (pd_identifier_hex p)) ++ pd_verifying_share_digest p.

Definition profile_preimage (p : PersonalSignerProfile) : bytes :=
  PROFILE_BINDING_DOMAIN ++ be_bytes 2 (ps_format_version p) ++ ps_profile_id p ++ ps_wallet_id p ++
  ps_signer_set_id p ++ be_bytes 8 (ps_signer_epoch p) ++ be_bytes 2 (ps_min_signers p) ++
  be_bytes 2 (ps_max_signers p) ++ ps_group_pubkey_xonly p ++ update_len_prefixed (ps_public_key_package p) ++
  be_bytes 8 (Z.of_nat (length (ps_participants p))) ++ concat (participant_bytes <$> ps_participants p).

Record BeginPersonalSigningOperation := mkBeginPersonalSigningOperation {
  bo_operation_id : Uuid;
  bo_intent_id : Uuid;
  bo_session_id : bytes;
  bo_taproot_sighash : bytes;
  bo_policy_digest : bytes;
  bo_chain_snapshot_digest : bytes;
  bo_selected_participants : Z * Z;
  bo_expires_at : Z;
}.

Section digests.
Context `{BitcoinLib}.

Definition profile_binding_digest (p : PersonalSignerProfile) : bytes := sha256 (profile_preimage p).

Definition operation_preimage (p : PersonalSignerProfile) (r : BeginPersonalSigningOperation) : bytes :=
  ascii_bytes "catomicals/personal-signing-operation/v1" ++ [x00] ++ profile_binding_digest p ++
  ps_wallet_id p ++ ps_profile_id p ++ ps_signer_set_id p ++ be_bytes 8 (ps_signer_epoch p) ++
  ps_group_pubkey_xonly p ++ bo_operation_id r ++ bo_intent_id r ++ bo_session_id r ++
  bo_taproot_sighash r ++ bo_policy_digest r ++ bo_chain_snapshot_digest r ++
  be_bytes 2 1 ++ be_bytes 2 2 ++ be_bytes 2 3 ++
  be_bytes 2 (bo_selected_participants r).1 ++ be_bytes 2 (bo_selected_participants r).2 ++
  be_bytes 2 (ps_min_signers p) ++ be_bytes 2 (ps_max_signers p) ++ be_bytes 8 (bo_expires_at r).

Definition personal_operation_binding_digest (p : PersonalSignerProfile) (r : BeginPersonalSigningOperation)
    : bytes := sha256 (operation_preimage p r).
End digests.

(** ** What the bindings fix *)

Definition descriptor_wf (p : PersonalParticipantDescriptor) : Prop :=
  is_u16 (pd_signer_id p) /\ is_u64 (Z.of_nat (length (ascii_bytes (pd_identifier_hex p)))) /\
  length (pd_verifying_share_digest p) = 32%nat.

Definition profile_wf (p : PersonalSignerProfile) : Prop :=
  is_u16 (ps_format_version p) /\ Uuid_wf (ps_profile_id p) /\ Uuid_wf (ps_wallet_id p) /\
  Uuid_wf (ps_signer_set_id p) /\ is_u64 (ps_signer_epoch p) /\ is_u16 (ps_min_signers p) /\
  is_u16 (ps_max_signers p) /\ length (ps_group_pubkey_xonly p) = 32%nat /\
  is_u64 (Z.of_nat (length (ps_public_key_package p))) /\ is_u64 (Z.of_nat (length (ps_participants p))) /\
  Forall descriptor_wf (ps_participants p).

Definition operation_wf (r : BeginPersonalSigningOperation) : Prop :=
  Uuid_wf (bo_operation_id r) /\ Uuid_wf (bo_intent_id r) /\ length (bo_session_id r) = 32%nat /\
  length (bo_taproot_sighash r) = 32%nat /\ length (bo_policy_digest r) = 32%nat /\
  length (bo_chain_snapshot_digest r) = 32%nat /\ is_u16 (bo_selected_participants r).1 /\
  is_u16 (bo_selected_participants r).2 /\ is_i64 (bo_expires_at r).

Lemma participant_bytes_inj p q c d :
  descriptor_wf p -> descriptor_wf q -> participant_bytes p ++ c = participant_bytes q ++ d -> p = q /\ c = d.
Proof.
  intros (P1 & P2 & P3) (Q1 & Q2 & Q3) H. unfold participant_bytes, update_len_prefixed in H.
  rewrite <- !(assoc_L (++)) in H.
  apply app_inj_length in H as [E1 H]; [|by rewrite !length_be_bytes].
  apply app_inj_length in H as [E2 H]; [|done].
  apply len_prefixed_be_inj in H as [E3 H]; [|done..].
  apply app_inj_length in H as [E4 H]; [|congruence].
  apply (be_bytes_inj 2) in E1; [|done..]. apply ascii_bytes_inj in E3.
  destruct p as [? r ? ?], q as [? r' ? ?]; simpl in *; subst. split; [|done].
  by destruct r, r'.
Qed.

Lemma participants_inj l k :
  length l = length k -> Forall descriptor_wf l -> Forall descriptor_wf k ->
  concat (participant_bytes <$> l) = concat (participant_bytes <$> k) -> l = k.
Proof.
  revert k. induction l as [|p l IH]; intros [|q k] Hl Wl Wk He; try done. simpl in *.
  inversion_clear Wl. inversion_clear Wk.
  apply participant_bytes_inj in He as [-> He]; [|done..]. f_equal. apply IH; auto.
Qed.

Lemma profile_preimage_inj p q :
  profile_wf p -> profile_wf q -> profile_preimage p = profile_preimage q -> p = q.
Proof.
  unfold profile_wf, Uuid_wf. intros Wp Wq H. destruct_ex. unfold profile_preimage, update_len_prefixed in H.
  apply app_inv_head in H.
  apply app_inj_length in H as [E1 H]; [|by rewrite !length_be_bytes].
  do 3 (apply app_inj_length in H as [? H]; [|congruence]).
  do 3 (apply app_inj_length in H as [? H]; [|by rewrite !length_be_bytes]).
  apply app_inj_length in H as [? H]; [|congruence].
  apply len_prefixed_be_inj in H as [? H]; [|done..].
  apply app_inj_length in H as [En H]; [|by rewrite !length_be_bytes].
  apply (be_bytes_inj 8) in En; [|done..]. apply Nat2Z.inj in En.
  apply participants_inj in H; [|done..].
  destruct p, q; simpl in *; subst. f_equal; first [done | by apply (be_bytes_inj 2) | by apply (be_bytes_inj 8)].
Qed.

Lemma operation_preimage_inj `{B : BitcoinLib} {BL : BitcoinLaws B} p q r s :
  profile_wf p -> profile_wf q -> operation_wf r -> operation_wf s ->
  operation_preimage p r = operation_preimage q s ->
  r = s /\ profile_binding_digest p = profile_binding_digest q.
Proof.
  unfold profile_wf, operation_wf, Uuid_wf. intros Wp Wq Wr Ws H. destruct_ex. unfold operation_preimage in H.
  do 2 apply app_inv_head in H.
  apply app_inj_length in H as [Ed H]; [|unfold profile_binding_digest; by rewrite !sha256_length].
  do 3 (apply app_inj_length in H as [? H]; [|congruence]).
  apply app_inj_length in H as [? H]; [|by rewrite !length_be_bytes].
  do 7 (apply app_inj_length in H as [? H]; [|congruence]).
  do 3 apply app_inv_head in H.
  do 4 (apply app_inj_length in H as [? H]; [|by rewrite !length_be_bytes]).
  split; [|done]. destruct r as [? ? ? ? ? ? [a b] ?], s as [? ? ? ? ? ? [c d] ?]; simpl in *; subst.
  f_equal; [f_equal; by apply (be_bytes_inj 2)|by apply be_bytes_i64_inj].
Qed.
