(* ===== verification/Intent.v ===== *)
(** * Signing intents
      (src/crates/wallet-core/src/intent.rs and the CovHub binding of covhub.rs)

    The immutable request a Passkey approval authorizes, its canonical
    encodings (the wallet's own and the chain-neutral CovHub one) and the
    digest that binds an approval to it. *)

From Stdlib Require Import ZArith Lia.
From S2P Require Import Prelude Bitcoin ChainDomain SigningDomain Personal.
From stdpp Require Import list.
Local Open Scope string_scope.
Local Open Scope list_scope.
Local Open Scope Z_scope.

Definition SIGNING_PROTOCOL_VERSION : Z := 1.

(** The legacy network field of an intent ([intent::BitcoinNetwork]). *)
Inductive IntentNetwork := Signet | NetworkCovhubDelegated.
Inductive SigningAction := SignTaprootTransaction | ActionCovhubDelegated.
Inductive IntentStatus :=
| IntentPending | IntentApproved | IntentSigning | IntentCancelled | IntentExpired | IntentSigned.

#[export] Instance IntentNetwork_eq_dec : EqDecision IntentNetwork.
Proof. solve_decision. Defined.
#[export] Instance SigningAction_eq_dec : EqDecision SigningAction.
Proof. solve_decision. Defined.
#[export] Instance IntentStatus_eq_dec : EqDecision IntentStatus.
Proof. solve_decision. Defined.

Definition network_canonical_name (n : IntentNetwork) : bytes :=
  match n with
  | Signet => ascii_bytes "signet"
  | NetworkCovhubDelegated => ascii_bytes "covhub_delegated"
  end.
Definition action_canonical_name (a : SigningAction) : bytes :=
  match a with
  | SignTaprootTransaction => ascii_bytes "sign_taproot_transaction"
  | ActionCovhubDelegated => ascii_bytes "covhub_delegated"
  end.

Record PersonalSigningPolicy := mkPersonalSigningPolicy {
  pp_profile_id : Uuid;
  pp_signer_set_id : Uuid;
  pp_signer_epoch : Z;
  pp_group_pubkey_xonly : bytes;
  pp_allowed_participants : Z * Z * Z;
  pp_threshold : Z;
  pp_policy_digest : bytes;
  pp_chain_snapshot_digest : bytes;
}.
#[export] Instance PersonalSigningPolicy_eq_dec : EqDecision PersonalSigningPolicy.
Proof. solve_decision. Defined.

Definition PersonalSigningPolicy_from_profile (p : PersonalSignerProfile)
    (policy_digest chain_snapshot_digest : bytes) : PersonalSigningPolicy :=
  mkPersonalSigningPolicy (ps_profile_id p) (ps_signer_set_id p) (ps_signer_epoch p)
    (ps_group_pubkey_xonly p) (1, 2, 3) (ps_min_signers p) policy_digest chain_snapshot_digest.

(** [CovhubBinding]: the proposal, scope and review a CovHub intent carries. *)
Record CovhubBinding := mkCovhubBinding {
  cb_version : Z;
  cb_proposal_id : string;
  cb_proposal_digest : string;
  cb_canvas_digest : string;
  cb_code_confirmation_digest : string;
  cb_chain_scope : ChainScope;
  cb_review_digest : bytes;
  cb_signing_message_digest : bytes;
  cb_profile_id : Uuid;
}.
#[export] Instance CovhubBinding_eq_dec : EqDecision CovhubBinding.
Proof. solve_decision. Defined.

Record SigningIntent := mkSigningIntent {
  si_id : Uuid;
  si_network : IntentNetwork;
  si_protocol_version : Z;
  si_action : SigningAction;
  si_wallet_id : Uuid;
  si_signer_id : Z;
  si_personal_signing_policy : option PersonalSigningPolicy;
  si_tx_digest : bytes;
  si_session_id : bytes;
  si_expiry : Z;
  si_nonce : bytes;
  si_status : IntentStatus;
  si_created_at : Z;
  si_covhub : option CovhubBinding;
}.
#[export] Instance SigningIntent_eq_dec : EqDecision SigningIntent.
Proof. solve_decision. Defined.

Definition set_status (i : SigningIntent) (s : IntentStatus) : SigningIntent :=
  mkSigningIntent (si_id i) (si_network i) (si_protocol_version i) (si_action i) (si_wallet_id i)
    (si_signer_id i) (si_personal_signing_policy i) (si_tx_digest i) (si_session_id i) (si_expiry i)
    (si_nonce i) s (si_created_at i) (si_covhub i).

(** ** Canonical encodings *)

Definition policy_bytes (p : PersonalSigningPolicy) : bytes :=
  ascii_bytes "personal-2of3" ++ [x00] ++ pp_profile_id p ++ pp_signer_set_id p ++
  be_bytes 8 (pp_signer_epoch p) ++ pp_group_pubkey_xonly p ++
  be_bytes 2 (pp_allowed_participants p).1.1 ++ be_bytes 2 (pp_allowed_participants p).1.2 ++
  be_bytes 2 (pp_allowed_participants p).2 ++ be_bytes 2 (pp_threshold p) ++
  pp_policy_digest p ++ pp_chain_snapshot_digest p.

Definition covhub_canonical_bytes (version : Z) (intent_id : Uuid)
    (proposal_id proposal_digest canvas_digest code_confirmation_digest : string) (chain_scope : ChainScope)
    (review_digest signing_message_digest session_id : bytes) (profile_id : Uuid) (expires_at : Z) : bytes :=
  let out := ascii_bytes "catomicals/covhub-signing-intent" ++ [x00] ++ be_bytes 2 version ++ intent_id in
  let out := append_field out (ascii_bytes proposal_id) in
  let out := append_field out (ascii_bytes proposal_digest) in
  let out := append_field out (ascii_bytes canvas_digest) in
  let out := append_field out (ascii_bytes code_confirmation_digest) in
  let out := append_field out (ascii_bytes (ChainId_as_str (cs_chain chain_scope))) in
  let out := append_field out (ascii_bytes (ChainNetwork_as_str (cs_network chain_scope))) in
  out ++ review_digest ++ signing_message_digest ++ session_id ++ profile_id ++ be_bytes 8 expires_at.

Definition legacy_canonical_bytes (i : SigningIntent) : bytes :=
  ascii_bytes "catomicals/signing-intent" ++ [x00] ++ be_bytes 2 (si_protocol_version i) ++
  network_canonical_name (si_network i) ++ [x00] ++ action_canonical_name (si_action i) ++ [x00] ++
  si_id i ++ si_wallet_id i ++ be_bytes 2 (si_signer_id i) ++
  match si_personal_signing_policy i with Some p => policy_bytes p | None => [] end ++
  si_tx_digest i ++ si_session_id i ++ be_bytes 8 (si_expiry i) ++ si_nonce i.

Definition canonical_bytes (i : SigningIntent) : bytes :=
  match si_covhub i with
  | Some b =>
      covhub_canonical_bytes (cb_version b) (si_id i) (cb_proposal_id b) (cb_proposal_digest b)
        (cb_canvas_digest b) (cb_code_confirmation_digest b) (cb_chain_scope b) (cb_review_digest b)
        (cb_signing_message_digest b) (si_session_id i) (cb_profile_id b) (si_expiry i)
  | None => legacy_canonical_bytes i
  end.

Definition intent_digest `{BitcoinLib} (i : SigningIntent) : bytes := sha256 (canonical_bytes i).

Definition is_expired (i : SigningIntent) (now : Z) : bool := si_expiry i <? now.

Definition authoritative_chain_scope (i : SigningIntent) : option ChainScope := cb_chain_scope <$> si_covhub i.

Definition covhub_legacy_fields_are_delegated (i : SigningIntent) : bool :=
  match si_covhub i with
  | Some _ => bool_decide (si_network i = NetworkCovhubDelegated) && bool_decide (si_action i = ActionCovhubDelegated)
  | None => negb (bool_decide (si_network i = NetworkCovhubDelegated))
            && negb (bool_decide (si_action i = ActionCovhubDelegated))
  end.

(** ** What the digest fixes *)

Definition policy_wf (p : PersonalSigningPolicy) : Prop :=
  Uuid_wf (pp_profile_id p) /\ Uuid_wf (pp_signer_set_id p) /\ is_u64 (pp_signer_epoch p) /\
  length (pp_group_pubkey_xonly p) = 32%nat /\ is_u16 (pp_allowed_participants p).1.1 /\
  is_u16 (pp_allowed_participants p).1.2 /\ is_u16 (pp_allowed_participants p).2 /\ is_u16 (pp_threshold p) /\
  length (pp_policy_digest p) = 32%nat /\ length (pp_chain_snapshot_digest p) = 32%nat.

Definition short_text (s : string) : Prop := is_u32 (Z.of_nat (length (ascii_bytes s))).

Definition covhub_binding_wf (b : CovhubBinding) : Prop :=
  is_u16 (cb_version b) /\ short_text (cb_proposal_id b) /\ short_text (cb_proposal_digest b) /\
  short_text (cb_canvas_digest b) /\ short_text (cb_code_confirmation_digest b) /\ scope_wf (cb_chain_scope b) /\
  length (cb_review_digest b) = 32%nat /\ length (cb_signing_message_digest b) = 32%nat /\
  Uuid_wf (cb_profile_id b).

(** The field sizes the Rust types give, and a CovHub scope as the
    constructors and the deserializer of [ChainScope] leave it: the digest
    encodes its chain and network, not its schema version. *)
Definition intent_wf (i : SigningIntent) : Prop :=
  Uuid_wf (si_id i) /\ is_u16 (si_protocol_version i) /\ Uuid_wf (si_wallet_id i) /\ is_u16 (si_signer_id i) /\
  match si_personal_signing_policy i with Some p => policy_wf p | None => True end /\
  length (si_tx_digest i) = 32%nat /\ length (si_session_id i) = 32%nat /\ is_i64 (si_expiry i) /\
  length (si_nonce i) = 32%nat /\
  match si_covhub i with Some b => covhub_binding_wf b | None => True end.

(** The fields of a wallet intent an approval binds. *)
Definition same_legacy_request (i j : SigningIntent) : Prop :=
  si_id i = si_id j /\ si_network i = si_network j /\ si_protocol_version i = si_protocol_version j /\
  si_action i = si_action j /\ si_wallet_id i = si_wallet_id j /\ si_signer_id i = si_signer_id j /\
  si_personal_signing_policy i = si_personal_signing_policy j /\ si_tx_digest i = si_tx_digest j /\
  si_session_id i = si_session_id j /\ si_expiry i = si_expiry j /\ si_nonce i = si_nonce j.

(** The fields of a CovHub intent an approval binds. *)
Definition same_covhub_request (i j : SigningIntent) : Prop :=
  si_id i = si_id j /\ si_covhub i = si_covhub j /\ si_session_id i = si_session_id j /\ si_expiry i = si_expiry j.

Lemma policy_bytes_length p : policy_wf p -> length (policy_bytes p) = 158%nat.
Proof.
  unfold policy_wf, Uuid_wf, policy_bytes. intros. destruct_ex.
  rewrite !length_app, !length_be_bytes. simpl. lia.
Qed.

Lemma policy_bytes_inj p q : policy_wf p -> policy_wf q -> policy_bytes p = policy_bytes q -> p = q.
Proof.
  unfold policy_wf, Uuid_wf, policy_bytes. intros Wp Wq H. destruct_ex. do 2 apply app_inv_head in H.
  do 2 (apply app_inj_length in H as [? H]; [|congruence]).
  apply app_inj_length in H as [? H]; [|by rewrite !length_be_bytes].
  apply app_inj_length in H as [? H]; [|congruence].
  do 4 (apply app_inj_length in H as [? H]; [|by rewrite !length_be_bytes]).
  apply app_inj_length in H as [? H]; [|congruence].
  destruct p as [? ? ? ? [[? ?] ?] ? ? ?], q as [? ? ? ? [[? ?] ?] ? ? ?]; simpl in *; subst.
  f_equal; [by apply (be_bytes_inj 8)| |by apply (be_bytes_inj 2)].
  f_equal; [f_equal|]; by apply (be_bytes_inj 2).
Qed.

(** The terminated names are different from their first byte on. *)
Lemma network_name_inj n m c d :
  network_canonical_name n ++ [x00] ++ c = network_canonical_name m ++ [x00] ++ d -> n = m /\ c = d.
Proof. destruct n, m; intros H; try discriminate H; do 2 apply app_inv_head in H; done. Qed.
Lemma action_name_inj n m c d :
  action_canonical_name n ++ [x00] ++ c = action_canonical_name m ++ [x00] ++ d -> n = m /\ c = d.
Proof. destruct n, m; intros H; try discriminate H; do 2 apply app_inv_head in H; done. Qed.

(** The optional policy: its presence shows in the length. *)
Lemma option_policy_inj p q c d :
  match p with Some p => policy_wf p | None => True end ->
  match q with Some q => policy_wf q | None => True end ->
  length c = length d ->
  match p with Some p => policy_bytes p | None => [] end ++ c =
  match q with Some q => policy_bytes q | None => [] end ++ d -> p = q /\ c = d.
Proof.
  intros Wp Wq Hl H. pose proof (f_equal length H) as HL. rewrite !length_app in HL.
  destruct p as [p|], q as [q|]; try (rewrite policy_bytes_length in HL by done; simpl in HL; lia).
  - apply app_inj_length in H as [H ->]; [|by rewrite !policy_bytes_length].
    by apply policy_bytes_inj in H as ->.
  - done.
Qed.

Lemma legacy_canonical_inj i j :
  intent_wf i -> intent_wf j -> legacy_canonical_bytes i = legacy_canonical_bytes j -> same_legacy_request i j.
Proof.
  unfold intent_wf, Uuid_wf, legacy_canonical_bytes, same_legacy_request.
  intros (I1 & I2 & I3 & I4 & I5 & I6 & I7 & I8 & I9 & _) (J1 & J2 & J3 & J4 & J5 & J6 & J7 & J8 & J9 & _) H.
  do 2 apply app_inv_head in H.
  apply app_inj_length in H as [Ev H]; [|by rewrite !length_be_bytes].
  apply network_name_inj in H as [-> H]. apply action_name_inj in H as [-> H].
  do 2 (apply app_inj_length in H as [? H]; [|congruence]).
  apply app_inj_length in H as [Es H]; [|by rewrite !length_be_bytes].
  apply option_policy_inj in H as [-> H]; [|done|done|by rewrite !length_app, !length_be_bytes; lia].
  do 2 (apply app_inj_length in H as [? H]; [|congruence]).
  apply app_inj_length in H as [Ex H]; [|by rewrite !length_be_bytes].
  split_and!; try done; [by apply (be_bytes_inj 2)|by apply (be_bytes_inj 2)|by apply be_bytes_i64_inj].
Qed.

Lemma covhub_canonical_inj i j b c :
  intent_wf i -> intent_wf j -> si_covhub i = Some b -> si_covhub j = Some c ->
  canonical_bytes i = canonical_bytes j -> same_covhub_request i j.
Proof.
  unfold intent_wf, Uuid_wf, canonical_bytes, same_covhub_request. intros Wi Wj Ei Ej. rewrite Ei, Ej in *.
  destruct Wi as (I1 & _ & _ & _ & _ & _ & I7 & I8 & _ & Wb), Wj as (J1 & _ & _ & _ & _ & _ & J7 & J8 & _ & Wc).
  unfold covhub_binding_wf, short_text, Uuid_wf in Wb, Wc. destruct_ex. unfold covhub_canonical_bytes, append_field. intros Hc.
  rewrite <- !(assoc_L (++)) in Hc. do 2 apply app_inv_head in Hc.
  apply app_inj_length in Hc as [? Hc]; [|by rewrite !length_be_bytes].
  apply app_inj_length in Hc as [? Hc]; [|congruence].
  do 4 (apply len_prefixed_be_inj in Hc as [? Hc]; [|done|done]).
  do 2 (apply len_prefixed_be_inj in Hc as [? Hc]; [|by auto with catomicals..]).
  do 4 (apply app_inj_length in Hc as [? Hc]; [|congruence]).
  apply be_bytes_i64_inj in Hc; [|done..].
  assert (cb_chain_scope b = cb_chain_scope c) by (apply scope_names_inj; [done..|by apply ascii_bytes_inj]).
  assert (b = c) as ->; [|by split_and!].
  destruct b, c; simpl in *; subst. f_equal; first [done | by apply (be_bytes_inj 2) | by apply ascii_bytes_inj].
Qed.

(** The two encodings never meet. *)
Lemma canonical_domains_differ i j b :
  si_covhub i = Some b -> si_covhub j = None -> canonical_bytes i <> canonical_bytes j.
Proof. unfold canonical_bytes. intros -> ->. unfold covhub_canonical_bytes, append_field, legacy_canonical_bytes. discriminate. Qed.
