(* ===== verification/SigningJob.v ===== *)
(** * Signer profiles and chain signing jobs
      (src/crates/wallet-core/src/signing_job.rs)

    Address bindings, which derive addresses with the chain crates, are not
    modelled. *)

From Stdlib Require Import ZArith Lia.
From S2P Require Import Prelude ChainDomain SigningDomain Personal.
From stdpp Require Import list gmap strings pretty.
Local Open Scope string_scope.
Local Open Scope list_scope.
Local Open Scope Z_scope.

Record SignerProfile := mkSignerProfile {
  sp_profile_id : Uuid;
  sp_wallet_id : Uuid;
  sp_chain_scope : ChainScope;
  sp_signing_suite_id : SigningSuiteId;
  sp_backend_requirement : SignerBackendRequirement;
  sp_signer_set_id : string;
  sp_authorization_signer_id : string;
  sp_signer_epoch : Z;
  sp_threshold : Z;
  sp_max_signers : Z;
  sp_verification_key : bytes;
  sp_secret_ref : string;
}.

(** [AddressBinding]: the address of a profile on its chain.  Its fields are
    private in the source; [AddressBinding::new] derives the address with the
    chain crates. *)
Record AddressBinding := mkAddressBinding {
  ab_binding_id : Uuid;
  ab_profile_id : Uuid;
  ab_chain_scope : ChainScope;
  ab_address : string;
  ab_verification_key_digest : bytes;
}.

(** ** The texts of errors

    The [Display] texts of the two contract errors; a chain scope is printed
    with its derived [Debug]. *)
Definition ChainId_debug (c : ChainId) : string :=
  match c with
  | Bitcoin => "Bitcoin"
  | BitcoinCash => "BitcoinCash"
  | Bsv => "Bsv"
  | FractalBitcoin => "FractalBitcoin"
  | Kaspa => "Kaspa"
  | Chia => "Chia"
  | Ergo => "Ergo"
  end.
Definition network_debug (n : ChainNetwork) : string :=
  match n with
  | NetBitcoin BtcMainnet | NetBitcoinCash BchMainnet | NetBsv BsvMainnet | NetFractalBitcoin FractalMainnet
  | NetKaspa KaspaMainnet | NetChia ChiaMainnet | NetErgo ErgoMainnet => "Mainnet"
  | NetBitcoin BtcTestnet3 | NetBitcoinCash BchTestnet3 | NetFractalBitcoin FractalTestnet3 => "Testnet3"
  | NetBitcoin BtcTestnet4 | NetBitcoinCash BchTestnet4 | NetFractalBitcoin FractalTestnet4 => "Testnet4"
  | NetBitcoin BtcSignet | NetFractalBitcoin FractalSignet => "Signet"
  | NetBitcoin BtcRegtest | NetBitcoinCash BchRegtest | NetBsv BsvRegtest | NetFractalBitcoin FractalRegtest => "Regtest"
  | NetBitcoinCash BchChipnet => "Chipnet"
  | NetBitcoinCash BchScalenet => "Scalenet"
  | NetBsv BsvTestnet | NetErgo ErgoTestnet => "Testnet"
  | NetBsv BsvStn => "Stn"
  | NetKaspa KaspaTestnet10 => "Testnet10"
  | NetKaspa KaspaTestnet11 | NetChia ChiaTestnet11 => "Testnet11"
  | NetKaspa KaspaSimnet => "Simnet"
  | NetKaspa KaspaDevnet => "Devnet"
  end.
Definition ChainNetwork_debug (n : ChainNetwork) : string :=
  ChainId_debug (ChainNetwork_chain_id n) +:+ "(" +:+ network_debug n +:+ ")".
Definition ChainScope_debug (s : ChainScope) : string :=
  "ChainScope { schema_version: " +:+ pretty (cs_schema_version s) +:+ ", chain: " +:+ ChainId_debug (cs_chain s)
  +:+ ", network: " +:+ ChainNetwork_debug (cs_network s) +:+ " }".

Definition SigningContractError_to_string (e : SigningContractError) : string :=
  match e with
  | UnsupportedSuiteId s => "unsupported signing suite id `" +:+ s +:+ "`"
  | UnsupportedCombination chain_scope suite_id =>
      "signing suite `" +:+ SigningSuiteId_as_str suite_id +:+ "` is not supported for `" +:+ ChainScope_debug chain_scope +:+ "`"
  | SuiteNotExecutable suite_id =>
      "signing suite `" +:+ SigningSuiteId_as_str suite_id +:+ "` is declaration-only and cannot execute signing"
  | InvalidSignerSetId max_bytes => "signer set id must contain 1 to " +:+ pretty max_bytes +:+ " bytes"
  | InvalidReviewSchemaVersion => "review schema version must be non-zero"
  | UnsupportedBindingSchemaVersion expected actual =>
      "unsupported review binding schema version " +:+ pretty actual +:+ "; expected " +:+ pretty expected
  | UnsupportedDescriptorSchemaVersion expected actual =>
      "unsupported signing suite descriptor schema version " +:+ pretty actual +:+ "; expected " +:+ pretty expected
  end.
Definition ReviewContractError_to_string (e : ReviewContractError) : string :=
  match e with
  | SummaryTooLong max_bytes => "review summary exceeds " +:+ pretty max_bytes +:+ " bytes"
  | MissingReviewedMaterial => "reviewed material is required"
  | ReviewedMaterialTooLong max_bytes => "reviewed material exceeds " +:+ pretty max_bytes +:+ " bytes"
  | UnsupportedOperation operation => "chain suite does not support `" +:+ operation +:+ "`"
  | InvalidFinalizedSignature reason => "finalized signature is invalid: " +:+ reason
  | UnsupportedReviewSchemaVersion expected actual =>
      "unsupported review artifact schema version " +:+ pretty actual +:+ "; expected " +:+ pretty expected
  end.

(** ** Errors of signing jobs *)

Inductive SigningJobError :=
| InvalidProfile (reason : string)
| InvalidAddressBinding
| ProfileDrift
| JobReview (reason : string)
| JobBackend (reason : string)
| Interrupted
| TimedOut
| FinalVerification (reason : string).

(** [impl Display for SigningJobError] *)
Definition job_error_text (e : SigningJobError) : string :=
  match e with
  | InvalidProfile reason => "invalid signer profile: " +:+ reason
  | InvalidAddressBinding => "invalid address binding"
  | ProfileDrift => "signing job does not match its signer profile"
  | JobReview reason => "transaction review failed: " +:+ reason
  | JobBackend reason => "signing backend failed: " +:+ reason
  | Interrupted => "signing operation was interrupted"
  | TimedOut => "signing operation timed out"
  | FinalVerification reason => "final signature failed chain verification: " +:+ reason
  end.

Definition SignerProfile_new (p : SignerProfile) : result SigningJobError SignerProfile :=
  descriptor ← map_err (fun e => InvalidProfile (SigningContractError_to_string e))
                 (require_executable_suite (sp_chain_scope p) (sp_signing_suite_id p));
  _ ← reject_if
        (negb (bool_decide (sd_backend_requirement descriptor = sp_backend_requirement p))
         || Uuid_is_nil (sp_profile_id p) || Uuid_is_nil (sp_wallet_id p)
         || (String.length (sp_signer_set_id p) =? 0)%nat || (128 <? String.length (sp_signer_set_id p))%nat
         || (String.length (sp_authorization_signer_id p) =? 0)%nat
         || (128 <? String.length (sp_authorization_signer_id p))%nat
         || (sp_signer_epoch p =? 0) || (sp_threshold p =? 0) || (sp_max_signers p <? sp_threshold p)
         || bool_decide (sp_verification_key p = []) || (String.length (sp_secret_ref p) =? 0)%nat)
        (InvalidProfile "signer profile fields do not match the executable suite");
  Ok p.

Record SigningJob := mkSigningJob {
  sj_job_id : Uuid;
  sj_intent_id : Uuid;
  sj_profile_id : Uuid;
  sj_wallet_id : Uuid;
  sj_chain_scope : ChainScope;
  sj_signing_suite_id : SigningSuiteId;
  sj_backend_requirement : SignerBackendRequirement;
  sj_review : ReviewArtifact;
  sj_review_binding : ReviewBinding;
  sj_policy_snapshot_digest : bytes;
  sj_chain_snapshot_digest : bytes;
  sj_online_parties : string * string;
  sj_receiver : string;
  sj_session_id : bytes;
  sj_expires_at : Z;
  sj_created_at : Z;
}.

Inductive ChainSigningJobStatus := JobSigning | JobFinalized | JobAborted | JobExpired | JobFailed.
#[export] Instance ChainSigningJobStatus_eq_dec : EqDecision ChainSigningJobStatus.
Proof. solve_decision. Defined.

(** Public recovery state of one durable chain signing operation. *)
Record ChainSigningJobState := mkChainSigningJobState {
  js_job_id : Uuid;
  js_intent_id : Uuid;
  js_wallet_id : Uuid;
  js_profile_id : Uuid;
  js_chain_scope : ChainScope;
  js_signing_suite_id : SigningSuiteId;
  js_backend_requirement : SignerBackendRequirement;
  js_review_schema_version : Z;
  js_review_digest : bytes;
  js_signing_message_digest : bytes;
  js_policy_snapshot_digest : bytes;
  js_chain_snapshot_digest : bytes;
  js_session_id : bytes;
  js_online_parties : string * string;
  js_receiver : string;
  js_operation_binding_digest : bytes;
  js_status : ChainSigningJobStatus;
  js_final_signature : option bytes;
  js_terminal_reason : option string;
  js_expires_at : Z;
  js_created_at : Z;
  js_updated_at : Z;
}.

Record CreateChainSigningJobRequest := mkCreateChainSigningJobRequest {
  cj_authorization_id : Uuid;
  cj_operation_binding_digest : bytes;
  cj_job : SigningJob;
}.

Record ChainSigningExecution := mkChainSigningExecution {
  ce_job : SigningJob;
  ce_operation_binding_digest : bytes;
}.

(** ** Executors *)

Record ChainSigningExecutorKey := mkChainSigningExecutorKey {
  ek_profile_id : Uuid;
  ek_signing_suite_id : SigningSuiteId;
  ek_backend_requirement : string;
}.
#[export] Instance ChainSigningExecutorKey_eq_dec : EqDecision ChainSigningExecutorKey.
Proof. solve_decision. Defined.
#[export] Program Instance SigningSuiteId_countable : Countable SigningSuiteId :=
  inj_countable SigningSuiteId_as_str enum_find _.
Next Obligation. intros s. by apply (enum_find_Some (A:=SigningSuiteId)). Qed.
#[export] Program Instance ChainSigningExecutorKey_countable : Countable ChainSigningExecutorKey :=
  inj_countable' (fun k => (ek_profile_id k, ek_signing_suite_id k, ek_backend_requirement k))
    (fun t => mkChainSigningExecutorKey t.1.1 t.1.2 t.2) _.
Next Obligation. by intros []. Qed.

Definition ChainSigningExecutorKey_from_job (j : SigningJob) : ChainSigningExecutorKey :=
  mkChainSigningExecutorKey (sj_profile_id j) (sj_signing_suite_id j)
    (SignerBackendRequirement_as_str (sj_backend_requirement j)).

(** A signature that passed the chain's own verifier. *)
Record VerifiedChainSignature := mkVerifiedChainSignature { vs_bytes : bytes }.

Definition VerifiedChainSignature_verify {T} `{ChainSuite T} (suite : T) (execution : ChainSigningExecution)
    (signature : bytes) : result SigningJobError VerifiedChainSignature :=
  _ ← reject_if (negb (bool_decide (suite_scope suite = sj_chain_scope (ce_job execution)))) ProfileDrift;
  _ ← map_err (fun e => FinalVerification (ReviewContractError_to_string e)) (verify_finalized_signature suite (sj_review (ce_job execution)) signature);
  Ok (mkVerifiedChainSignature signature).

(** An executor: its key and what it returns. *)
Record ChainSigningExecutor := mkChainSigningExecutor {
  ex_key : ChainSigningExecutorKey;
  ex_execute : ChainSigningExecution -> Z -> result SigningJobError VerifiedChainSignature;
}.

Definition Registry_register (r : gmap ChainSigningExecutorKey ChainSigningExecutor) (e : ChainSigningExecutor)
    : gmap ChainSigningExecutorKey ChainSigningExecutor := <[ex_key e := e]> r.
Definition Registry_resolve (r : gmap ChainSigningExecutorKey ChainSigningExecutor) (j : SigningJob)
    : option ChainSigningExecutor := r !! ChainSigningExecutorKey_from_job j.

(** ** Lemmas *)

Lemma SignerProfile_new_Ok p q :
  SignerProfile_new p = Ok q ->
  q = p /\ (exists d, require_executable_suite (sp_chain_scope p) (sp_signing_suite_id p) = Ok d /\
             sd_backend_requirement d = sp_backend_requirement p) /\
  sp_signer_epoch p <> 0 /\ sp_threshold p <> 0 /\ sp_threshold p <= sp_max_signers p.
Proof.
  unfold SignerProfile_new. intros Hn. apply bind_Ok in Hn as (d & Hd & Hn). apply map_err_Ok in Hd.
  apply bind_Ok in Hn as (u & Hg & [= <-]). apply reject_if_Ok in Hg.
  repeat (apply orb_false_iff in Hg as [Hg ?]). autorewrite with guards in *. split_and!; eauto.
Qed.

Lemma SignerBackendRequirement_as_str_inj a b :
  SignerBackendRequirement_as_str a = SignerBackendRequirement_as_str b -> a = b.
Proof. by destruct a, b. Qed.

(** A resolved executor was registered for exactly this profile, suite and backend. *)
Lemma resolve_registered es j e :
  Registry_resolve (foldl Registry_register ∅ es) j = Some e ->
  e ∈ es /\ ex_key e = ChainSigningExecutorKey_from_job j.
Proof.
  unfold Registry_resolve. induction es as [|x es IH] using rev_ind; [cbn [foldl]; intros Hl; by apply lookup_empty_Some in Hl|].
  rewrite foldl_snoc. unfold Registry_register at 1. rewrite lookup_insert. case_decide as E.
  - intros [= ->]. split; [set_solver|done].
  - intros [? ?]%IH. split; [set_solver|done].
Qed.
