(* ===== verification/Gate.v ===== *)
(** * The authorization gate
      (src/crates/wallet-core/src/gate.rs)

    From a verified Passkey approval to a one-time token, and the token as the
    authorization the FROST signer consumes: the instance of the signer's
    [SigningAuthorization] interface. *)

From Stdlib Require Import ZArith Lia.
From S2P Require Import Prelude Bitcoin Personal Intent Frost.
From stdpp Require Import list gmap.
Local Open Scope Z_scope.

Inductive GateError :=
| NotPending (s : IntentStatus)
| GateExpired
| ApprovalMismatch
| NonceReused
| UnsupportedProtocolVersion (v : Z)
| PersonalPolicyMismatch
| PersonalOperationMismatch.

(** [gate::SigningAuthorization], the token. *)
Record AuthToken := mkAuthToken {
  at_token : bytes;
  at_intent_id : Uuid;
  at_network : IntentNetwork;
  at_protocol_version : Z;
  at_action : SigningAction;
  at_wallet_id : Uuid;
  at_signer_id : Z;
  at_personal_signing_policy : option PersonalSigningPolicy;
  at_tx_digest : bytes;
  at_session_id : bytes;
  at_nonce : bytes;
  at_expiry : Z;
  at_issued_at : Z;
  at_consumed : bool;
}.

(** [SigningAuthorization::new]; the random token is an argument. *)
Definition AuthToken_new (i : SigningIntent) (issued_at : Z) (token : bytes) : AuthToken :=
  mkAuthToken token (si_id i) (si_network i) (si_protocol_version i) (si_action i) (si_wallet_id i)
    (si_signer_id i) (si_personal_signing_policy i) (si_tx_digest i) (si_session_id i) (si_nonce i)
    (si_expiry i) issued_at false.

Definition consume (a : AuthToken) : AuthToken :=
  mkAuthToken (at_token a) (at_intent_id a) (at_network a) (at_protocol_version a) (at_action a)
    (at_wallet_id a) (at_signer_id a) (at_personal_signing_policy a) (at_tx_digest a) (at_session_id a)
    (at_nonce a) (at_expiry a) (at_issued_at a) true.

Definition AuthToken_authorize (a : AuthToken) (session_id message : bytes) (signer_id now : Z)
    : AuthToken * result AuthorizationError unit :=
  if at_consumed a then (a, Err AlreadyConsumed)
  else if bool_decide (is_Some (at_personal_signing_policy a)) then (a, Err WrongSigner)
  else if negb (bool_decide (at_session_id a = session_id)) then (a, Err WrongSession)
  else if negb (bool_decide (at_tx_digest a = message)) then (a, Err WrongMessage)
  else if negb (at_signer_id a =? signer_id) then (a, Err WrongSigner)
  else if at_expiry a <? now then (a, Err AuthExpired)
  else (consume a, Ok tt).

#[export] Instance AuthToken_authorization : SigningAuthorization AuthToken := AuthToken_authorize.

(** ** Personal operations *)

Record PersonalOperationAuthorization := mkPersonalOperationAuthorization {
  po_authorization_id : Uuid;
  po_operation_binding_digest : bytes;
  po_consumed : bool;
}.

Definition PersonalOperationAuthorization_validate (p : PersonalOperationAuthorization)
    (expected_binding_digest : bytes) : result GateError unit :=
  _ ← reject_if (po_consumed p) NonceReused;
  reject_if (negb (bool_decide (po_operation_binding_digest p = expected_binding_digest)))
    PersonalOperationMismatch.

Definition consume_after_commit (p : PersonalOperationAuthorization) : PersonalOperationAuthorization :=
  mkPersonalOperationAuthorization (po_authorization_id p) (po_operation_binding_digest p) true.

(** Whether a signer id is one of the three of a policy. *)
Definition allowed (t : Z * Z * Z) (signer_id : Z) : bool :=
  (signer_id =? t.1.1) || (signer_id =? t.1.2) || (signer_id =? t.2).

Definition authorize_personal_operation `{BitcoinLib} (a : AuthToken) (profile : PersonalSignerProfile)
    (request : BeginPersonalSigningOperation) (authorization_id : Uuid) (now : Z)
    : result GateError PersonalOperationAuthorization :=
  _ ← reject_if (at_consumed a) NonceReused;
  _ ← reject_if (at_expiry a <? now) GateExpired;
  policy ← ok_or (at_personal_signing_policy a) PersonalPolicyMismatch;
  _ ← reject_if
        (negb (bool_decide (at_wallet_id a = ps_wallet_id profile))
         || negb (bool_decide (pp_profile_id policy = ps_profile_id profile))
         || negb (bool_decide (pp_signer_set_id policy = ps_signer_set_id profile))
         || negb (pp_signer_epoch policy =? ps_signer_epoch profile)
         || negb (bool_decide (pp_group_pubkey_xonly policy = ps_group_pubkey_xonly profile))
         || negb (bool_decide (pp_allowed_participants policy = (1, 2, 3)))
         || negb (pp_threshold policy =? ps_min_signers profile)
         || negb (ps_max_signers profile =? 3)) PersonalPolicyMismatch;
  _ ← reject_if
        (negb (bool_decide (bo_intent_id request = at_intent_id a))
         || negb (bool_decide (bo_session_id request = at_session_id a))
         || negb (bool_decide (bo_taproot_sighash request = at_tx_digest a))
         || negb (bo_expires_at request =? at_expiry a)
         || negb (bool_decide (bo_policy_digest request = pp_policy_digest policy))
         || negb (bool_decide (bo_chain_snapshot_digest request = pp_chain_snapshot_digest policy))
         || negb (allowed (pp_allowed_participants policy) (bo_selected_participants request).1)
         || negb (allowed (pp_allowed_participants policy) (bo_selected_participants request).2))
        PersonalOperationMismatch;
  Ok (mkPersonalOperationAuthorization authorization_id (personal_operation_binding_digest profile request) false).

(** ** The gate *)

Record AuthorizationGate := mkAuthorizationGate { ag_used_nonces : gset bytes }.
Definition AuthorizationGate_new : AuthorizationGate := mkAuthorizationGate ∅.
Definition has_nonce_been_used (g : AuthorizationGate) (nonce : bytes) : bool :=
  bool_decide (nonce ∈ ag_used_nonces g).

Definition authorize_verified `{BitcoinLib} (g : AuthorizationGate) (i : SigningIntent) (digest : bytes)
    (now : Z) (token : bytes) : AuthorizationGate * result GateError AuthToken :=
  if negb (bool_decide (si_status i = IntentPending)) then (g, Err (NotPending (si_status i)))
  else if negb (si_protocol_version i =? SIGNING_PROTOCOL_VERSION)
       then (g, Err (UnsupportedProtocolVersion (si_protocol_version i)))
  else if is_expired i now then (g, Err GateExpired)
  else if negb (bool_decide (intent_digest i = digest)) then (g, Err ApprovalMismatch)
  else if has_nonce_been_used g (si_nonce i) then (g, Err NonceReused)
  else (mkAuthorizationGate ({[si_nonce i]} ∪ ag_used_nonces g), Ok (AuthToken_new i now token)).

(** ** Lemmas *)

Lemma AuthToken_authorize_Ok a sid msg signer now a' :
  authorize a sid msg signer now = (a', Ok tt) <->
  at_consumed a = false /\ at_personal_signing_policy a = None /\ at_session_id a = sid /\
  at_tx_digest a = msg /\ at_signer_id a = signer /\ now <= at_expiry a /\ a' = consume a.
Proof.
  unfold authorize, AuthToken_authorization, AuthToken_authorize.
  destruct (at_consumed a); [naive_solver|]. case_bool_decide as Hp.
  { destruct Hp as [? Hp]. naive_solver. }
  rewrite <- eq_None_not_Some in Hp.
  do 2 (case_bool_decide; simpl; [|naive_solver]).
  destruct (Z.eqb_spec (at_signer_id a) signer); simpl; [|naive_solver].
  destruct (Z.ltb_spec (at_expiry a) now); [split; [done|lia]|]. naive_solver.
Qed.

(** A rejected attempt leaves the token as it was. *)
Lemma AuthToken_authorize_Err a sid msg signer now a' e :
  authorize a sid msg signer now = (a', Err e) -> a' = a.
Proof.
  unfold authorize, AuthToken_authorization, AuthToken_authorize. repeat case_match; naive_solver.
Qed.

(** A consumed token is refused. *)
Lemma consumed_refused a sid msg signer now :
  at_consumed a = true -> authorize a sid msg signer now = (a, Err AlreadyConsumed).
Proof. unfold authorize, AuthToken_authorization, AuthToken_authorize. by intros ->. Qed.

Lemma authorize_verified_Ok `{BitcoinLib} g i digest now token g' a :
  authorize_verified g i digest now token = (g', Ok a) <->
  si_status i = IntentPending /\ si_protocol_version i = SIGNING_PROTOCOL_VERSION /\ now <= si_expiry i /\
  intent_digest i = digest /\ si_nonce i ∉ ag_used_nonces g /\
  g' = mkAuthorizationGate ({[si_nonce i]} ∪ ag_used_nonces g) /\ a = AuthToken_new i now token.
Proof.
  unfold authorize_verified, is_expired, has_nonce_been_used.
  case_bool_decide; simpl; [|naive_solver].
  destruct (Z.eqb_spec (si_protocol_version i) SIGNING_PROTOCOL_VERSION); simpl; [|naive_solver].
  destruct (Z.ltb_spec (si_expiry i) now); simpl; [split; [done|lia]|].
  do 2 (case_bool_decide; simpl; [|naive_solver]); naive_solver.
Qed.

Lemma authorize_verified_nonces `{BitcoinLib} g i digest now token g' r :
  authorize_verified g i digest now token = (g', r) -> ag_used_nonces g ⊆ ag_used_nonces g'.
Proof. unfold authorize_verified. repeat case_match; intros [= <- _]; set_solver. Qed.
