(* ===== verification/Effects.v ===== *)
(** * Stateful, fallible code

    A Rust method on [&mut self] that returns [Result] is a function from the
    old state to the new state and the result: an early return keeps the
    changes made so far.  [act] is that type with its monad, [zoom] runs a
    method of a field, [keeps] says that a method relates the old state to the
    new one on every path, and [triple] is the Hoare triple of a method. *)

From Stdlib Require Import ZArith Lia.
From S2P Require Import Prelude.
From stdpp Require Import list gmap.

Definition act (S E A : Type) : Type := S -> S * result E A.

#[export] Instance act_ret {S E} : MRet (act S E) := fun A a s => (s, Ok a).
#[export] Instance act_bind {S E} : MBind (act S E) := fun A B k m s =>
  match m s with
  | (s', Ok a) => k a s'
  | (s', Err e) => (s', Err e)
  end.

(** A pure fallible step, a read of the state, a write to it. *)
Definition lift {S E A} (r : result E A) : act S E A := fun s => (s, r).
Definition gets {S E A} (f : S -> A) : act S E A := fun s => (s, Ok (f s)).
Definition reads {S E A} (f : S -> result E A) : act S E A := fun s => (s, f s).
Definition modify {S E} (f : S -> S) : act S E unit := fun s => (f s, Ok tt).

(** A method of the field [get]; its error goes through [From]. *)
Definition zoom {S T E F A} (get : S -> T) (put : T -> S -> S) (conv : F -> E) (m : act T F A) : act S E A :=
  fun s => let '(t, r) := m (get s) in (put t s, map_err conv r).

(** A method whose error is inspected instead of propagated. *)
Definition attempt {S E A} (m : act S E A) : act S E (result E A) := fun s => let '(s', r) := m s in (s', Ok r).

(** ** Iteration order of a [HashMap]

    Rust leaves the order unspecified: it is a permutation of the entries
    chosen by the implementation. *)
Class HashOrder := hash_iter : forall {K A : Type}, list (K * A) -> list (K * A).
Class HashOrderLaws (O : HashOrder) : Prop :=
  hash_iter_perm : forall {K A : Type} (l : list (K * A)), hash_iter l ≡ₚ l.

(** ** Lemmas *)

Lemma act_bind_Ok {S E A B} (m : act S E A) (k : A -> act S E B) s s' b :
  (m ≫= k) s = (s', Ok b) <-> exists s1 a, m s = (s1, Ok a) /\ k a s1 = (s', Ok b).
Proof.
  unfold mbind, act_bind. destruct (m s) as [s1 [a|e]]; split; try naive_solver.
Qed.

Lemma lift_Ok {S E A} (r : result E A) (s s' : S) a : lift r s = (s', Ok a) <-> s' = s /\ r = Ok a.
Proof. unfold lift. naive_solver. Qed.
Lemma gets_Ok {S E A} (f : S -> A) s s' a : gets (E:=E) f s = (s', Ok a) <-> s' = s /\ a = f s.
Proof. unfold gets. naive_solver. Qed.
Lemma reads_Ok {S E A} (f : S -> result E A) s s' a : reads f s = (s', Ok a) <-> s' = s /\ f s = Ok a.
Proof. unfold reads. split; [by intros [= <- ->]|by intros [-> ->]]. Qed.
Lemma modify_Ok {S E} (f : S -> S) s s' u : modify (E:=E) f s = (s', Ok u) <-> s' = f s.
Proof. unfold modify. destruct u. naive_solver. Qed.
Lemma ret_Ok {S E A} (a b : A) (s s' : S) : mret (M:=act S E) a s = (s', Ok b) <-> s' = s /\ b = a.
Proof. unfold mret, act_ret. naive_solver. Qed.
Lemma zoom_Ok {S T E F A} (get : S -> T) put (conv : F -> E) (m : act T F A) s s' a :
  zoom get put conv m s = (s', Ok a) <-> exists t, m (get s) = (t, Ok a) /\ s' = put t s.
Proof.
  unfold zoom. destruct (m (get s)) as [t [x|e]] eqn:E1; simpl; split; try naive_solver.
Qed.
Lemma attempt_Ok {S E A} (m : act S E A) s s' r : attempt m s = (s', Ok r) <-> m s = (s', r).
Proof. unfold attempt. destruct (m s). naive_solver. Qed.

(** Peel one step off a successful run. *)
Ltac act_step :=
  match goal with
  | H : (_ ≫= _) _ = (_, Ok _) |- _ =>
      apply act_bind_Ok in H;
      let s := fresh "s" in let x := fresh "r" in let E := fresh "E" in
      destruct H as (s & x & E & H); cbv beta in H
  | H : lift _ _ = (_, Ok _) |- _ => apply lift_Ok in H as [-> H]
  | H : gets _ _ = (_, Ok _) |- _ => apply gets_Ok in H as [-> ->]
  | H : reads _ _ = (_, Ok _) |- _ => apply reads_Ok in H as [-> H]
  | H : modify _ _ = (_, Ok _) |- _ => apply modify_Ok in H as ->
  | H : mret _ _ = (_, Ok _) |- _ => apply ret_Ok in H as [-> H]
  | H : zoom _ _ _ _ _ = (_, Ok _) |- _ =>
      apply zoom_Ok in H;
      let t := fresh "t" in let E := fresh "E" in destruct H as (t & E & ->)
  | H : attempt _ _ = (_, Ok _) |- _ => apply (proj1 (attempt_Ok _ _ _ _)) in H
  | H : (_, _) = (_, _) |- _ => injection H as H
  | u : unit |- _ => destruct u
  end.
Ltac act_inv := repeat first [act_step | res_step]; simplify_eq; autorewrite with guards in *; destruct_ex.

(** ** What a method does to its state on every path *)

Section keeps.
Context {S E : Type} (R : S -> S -> Prop).

Definition keeps {A} (m : act S E A) : Prop := forall s, R s (m s).1.

Lemma keeps_bind `{!Transitive R} {A B} (m : act S E A) (k : A -> act S E B) :
  keeps m -> (forall a, keeps (k a)) -> keeps (m ≫= k).
Proof.
  intros Hm Hk s. unfold mbind, act_bind. specialize (Hm s).
  destruct (m s) as [s1 [a|e]]; simpl in *; [by etrans; [|apply Hk]|done].
Qed.
Lemma keeps_lift `{!Reflexive R} {A} (r : result E A) : keeps (lift r).
Proof. by intros s. Qed.
Lemma keeps_gets `{!Reflexive R} {A} (f : S -> A) : keeps (gets f).
Proof. by intros s. Qed.
Lemma keeps_reads `{!Reflexive R} {A} (f : S -> result E A) : keeps (reads f).
Proof. by intros s. Qed.
Lemma keeps_ret `{!Reflexive R} {A} (a : A) : keeps (mret a).
Proof. by intros s. Qed.
Lemma keeps_modify (f : S -> S) : (forall s, R s (f s)) -> keeps (modify f).
Proof. intros Hf s. apply Hf. Qed.
Lemma keeps_attempt {A} (m : act S E A) : keeps m -> keeps (attempt m).
Proof. intros Hm s. specialize (Hm s). unfold attempt. by destruct (m s). Qed.
End keeps.

Lemma keeps_zoom {S T E F A} (R : S -> S -> Prop) (get : S -> T) put (conv : F -> E) (m : act T F A) :
  (forall s, R s (put (m (get s)).1 s)) -> keeps R (zoom get put conv m).
Proof. intros H s. specialize (H s). unfold zoom. by destruct (m (get s)). Qed.

#[export] Hint Resolve keeps_bind keeps_lift keeps_gets keeps_reads keeps_ret keeps_modify keeps_attempt keeps_zoom : keeps.

(** The same on the error paths only: what follows the last fallible step may
    do anything. *)
Definition keeps_err {S E A} (R : S -> S -> Prop) (m : act S E A) : Prop :=
  forall s s' e, m s = (s', Err e) -> R s s'.
Definition infallible {S E A} (m : act S E A) : Prop := forall s s' e, m s <> (s', Err e).

Lemma keeps_err_bind {S E A B} (R : S -> S -> Prop) `{!Transitive R} (m : act S E A) (k : A -> act S E B) :
  keeps R m -> (forall a, keeps_err R (k a)) -> keeps_err R (m ≫= k).
Proof.
  intros Hm Hk s s' e. unfold mbind, act_bind. specialize (Hm s).
  destruct (m s) as [s1 [a|e1]]; simpl in *; [intros Hr; etrans; [done|by eapply Hk]|by intros [= <- _]].
Qed.
Lemma keeps_err_infallible {S E A} (R : S -> S -> Prop) (m : act S E A) : infallible m -> keeps_err R m.
Proof. intros Hm s s' e Hs. by apply Hm in Hs. Qed.
Lemma infallible_bind {S E A B} (m : act S E A) (k : A -> act S E B) :
  infallible m -> (forall a, infallible (k a)) -> infallible (m ≫= k).
Proof.
  intros Hm Hk s s' e. unfold mbind, act_bind. destruct (m s) as [s1 [a|e1]] eqn:E1; [apply Hk|].
  by apply Hm in E1.
Qed.
Lemma infallible_modify {S E} (f : S -> S) : infallible (modify (E:=E) f).
Proof. by intros s s' e. Qed.
Lemma infallible_ret {S E A} (a : A) : infallible (mret (M:=act S E) a).
Proof. by intros s s' e. Qed.

(** Decompose a method into its steps. *)
Ltac keeps_step :=
  lazymatch goal with
  | |- keeps _ (_ ≫= _) => apply keeps_bind; [apply _| |intros ?]
  | |- keeps _ (lift _) => apply keeps_lift; apply _
  | |- keeps _ (gets _) => apply keeps_gets; apply _
  | |- keeps _ (reads _) => apply keeps_reads; apply _
  | |- keeps _ (mret _) => apply keeps_ret; apply _
  | |- keeps _ (attempt _) => apply keeps_attempt
  | |- keeps _ (modify _) => apply keeps_modify; intros ?
  | |- keeps _ (zoom _ _ _ _) => apply keeps_zoom; intros ?
  | |- keeps _ (match ?x with _ => _ end) => destruct x
  | |- keeps _ (if ?x then _ else _) => destruct x
  end.

(** ** Triples

    [triple P m Q X]: from a state with [P], method [m] ends in [Q] with its
    value or, on an error, in [X].  The rules follow the combinators above. *)

Section triple.
Context {S E : Type}.

Definition triple {A} (P : S -> Prop) (m : act S E A) (Q : A -> S -> Prop) (X : S -> Prop) : Prop :=
  forall s, P s -> match m s with (s', Ok a) => Q a s' | (s', Err _) => X s' end.

Lemma triple_bind {A B} P (m : act S E A) (k : A -> act S E B) R Q X :
  triple P m R X -> (forall a, triple (R a) (k a) Q X) -> triple P (m ≫= k) Q X.
Proof.
  intros Hm Hk s Hs. specialize (Hm s Hs). unfold mbind, act_bind.
  destruct (m s) as [s1 [a|e]]; [by apply Hk|done].
Qed.
Lemma triple_pre {A} (P P' : S -> Prop) (m : act S E A) Q X :
  (forall s, P s -> P' s) -> triple P' m Q X -> triple P m Q X.
Proof. intros Hp Hm s Hs. by apply Hm, Hp. Qed.
Lemma triple_post {A} P (m : act S E A) (Q Q' : A -> S -> Prop) (X : S -> Prop) :
  (forall a s, Q a s -> Q' a s) -> triple P m Q X -> triple P m Q' X.
Proof. intros Hq Hm s Hs. specialize (Hm s Hs). destruct (m s) as [s1 [a|e]]; [by apply Hq|done]. Qed.

(** What holds before a pure step holds after it, with what the step found. *)
Lemma triple_lift {A} (P : S -> Prop) (r : result E A) (X : S -> Prop) :
  (forall s, P s -> X s) -> triple P (lift r) (fun a s => P s /\ r = Ok a) X.
Proof. intros Hx s Hs. unfold lift. destruct r; [done|by apply Hx]. Qed.
Lemma triple_reads {A} (P : S -> Prop) (f : S -> result E A) (X : S -> Prop) :
  (forall s, P s -> X s) -> triple P (reads f) (fun a s => P s /\ f s = Ok a) X.
Proof. intros Hx s Hs. unfold reads. destruct (f s) eqn:Hf; [done|by apply Hx]. Qed.
Lemma triple_gets {A} (P : S -> Prop) (f : S -> A) (X : S -> Prop) :
  triple P (gets f) (fun a s => P s /\ a = f s) X.
Proof. by intros s Hs. Qed.
Lemma triple_ret {A} (P : S -> Prop) (a : A) (X : S -> Prop) : triple P (mret a) (fun _ => P) X.
Proof. by intros s Hs. Qed.
Lemma triple_modify (P : S -> Prop) (f : S -> S) (Q : unit -> S -> Prop) (X : S -> Prop) :
  (forall s, P s -> Q tt (f s)) -> triple P (modify f) Q X.
Proof. intros Hf s Hs. by apply Hf. Qed.
Lemma triple_pure {A} (P : S -> Prop) (phi : Prop) (m : act S E A) Q X :
  (phi -> triple P m Q X) -> triple (fun s => P s /\ phi) m Q X.
Proof. intros Hm s [Hs Hphi]. by apply Hm. Qed.
Lemma triple_exists {A B} (P : B -> S -> Prop) (m : act S E A) Q X :
  (forall b, triple (P b) m Q X) -> triple (fun s => exists b, P b s) m Q X.
Proof. intros Hm s [b Hs]. by eapply Hm. Qed.

(** Both outcomes keep the invariant. *)
Lemma triple_keeps {A} (I : S -> Prop) (m : act S E A) s : triple I m (fun _ => I) I -> I s -> I (m s).1.
Proof. intros Hm Hs. specialize (Hm s Hs). by destruct (m s) as [s1 [a|e]]. Qed.
End triple.

(** Take one pure step, keeping what it found as a hypothesis. *)
Ltac triple_step :=
  lazymatch goal with
  | |- triple _ (lift _ ≫= _) _ _ => eapply triple_bind; [apply triple_lift|intros ?; apply triple_pure; intros ?]
  | |- triple _ (gets _ ≫= _) _ _ => eapply triple_bind; [apply triple_gets|intros ?]
  | |- triple _ (reads _ ≫= _) _ _ => eapply triple_bind; [apply triple_reads|intros ?]
  end.
