(* ===== verification/WalletStore.v ===== *)
(** * The wallet's authority store
      (src/crates/wallet-core/src/store.rs)

    The storage port the wallet-domain services are written against, and the
    process-local implementation.  A counter of a Passkey record is a [u64];
    its increment wraps as in a release build. *)

From Stdlib Require Import ZArith Lia.
From S2P Require Import Prelude Effects ChainDomain SigningDomain Personal Intent SigningJob.
From stdpp Require Import list gmap sorting.
Local Open Scope string_scope.
Local Open Scope list_scope.
Local Open Scope Z_scope.

Inductive StorageMode := Compatibility | Durable.
#[export] Instance StorageMode_eq_dec : EqDecision StorageMode.
Proof. solve_decision. Defined.

Record StorageDescriptor := mkStorageDescriptor {
  st_mode : StorageMode;
  st_schema_version : option Z;
  st_recovery_epoch : option Z;
  st_startup_invalidated_ceremonies : Z;
}.
Definition StorageDescriptor_compatibility : StorageDescriptor :=
  mkStorageDescriptor Compatibility None None 0.

Record WalletStoreError := mkWalletStoreError { wse_message : string }.

Record PasskeyState := mkPasskeyState {
  pk_credential_id : string;
  pk_label : string;
  pk_passkey_json : string;
  pk_format : string;
  pk_record_version : Z;
  pk_enrolled_at : Z;
}.

Record WebauthnProfileState := mkWebauthnProfileState {
  wp_wallet_id : Uuid;
  wp_user_id : Uuid;
  wp_rp_id : string;
  wp_rp_origin : string;
  wp_record_version : Z;
  wp_updated_at : Z;
}.

Record ApprovalStartState := mkApprovalStartState {
  as_ceremony_id : Uuid;
  as_intent_id : Uuid;
  as_credential_id : string;
  as_binding_digest : bytes;
  as_started_at : Z;
  as_expires_at : Z;
}.

Record ApprovalCompletionState := mkApprovalCompletionState {
  ac_ceremony_id : Uuid;
  ac_intent_id : Uuid;
  ac_credential_id : string;
  ac_expected_credential_record_version : Z;
  ac_updated_passkey_json : string;
  ac_binding_digest : bytes;
  ac_authorization_id : Uuid;
  ac_authorization_expires_at : Z;
  ac_rp_id : string;
  ac_rp_origin : string;
  ac_approved_at : Z;
}.

Record AuthorizationState := mkAuthorizationState {
  au_id : Uuid;
  au_intent_id : Uuid;
  au_binding_digest : bytes;
  au_expires_at : Z;
  au_issued_at : Z;
}.

Record FrostNonceClaimState := mkFrostNonceClaimState {
  nc_authorization_id : Uuid;
  nc_intent_id : Uuid;
  nc_signer_id : Z;
  nc_session_id : bytes;
  nc_fingerprint : bytes;
  nc_claimed_at : Z;
}.

(** ** The port *)

Class WalletStore (S : Type) := {
  descriptor : S -> StorageDescriptor;
  store_wallet_id : S -> option Uuid;
  insert_intent : SigningIntent -> act S WalletStoreError unit;
  get_intent : S -> Uuid -> option SigningIntent;
  list_intents : S -> list SigningIntent;
  update_intent : SigningIntent -> Z -> act S WalletStoreError unit;
  webauthn_profile : S -> result WalletStoreError (option WebauthnProfileState);
  set_webauthn_profile : WebauthnProfileState -> act S WalletStoreError unit;
  insert_passkey : PasskeyState -> act S WalletStoreError unit;
  list_passkeys : S -> result WalletStoreError (list PasskeyState);
  begin_approval : ApprovalStartState -> act S WalletStoreError unit;
  complete_approval : ApprovalCompletionState -> act S WalletStoreError AuthorizationState;
  available_authorizations : S -> Z -> result WalletStoreError (list AuthorizationState);
  claim_frost_nonce : FrostNonceClaimState -> act S WalletStoreError unit;
  signer_profiles : S -> result WalletStoreError (list (SignerProfile * list AddressBinding));
  store_create_chain_signing_job : CreateChainSigningJobRequest -> Z -> act S WalletStoreError ChainSigningJobState;
  store_chain_signing_job : S -> Uuid -> result WalletStoreError (option ChainSigningJobState);
  chain_signing_execution : S -> Uuid -> result WalletStoreError (option ChainSigningExecution);
  claim_chain_executor : ChainSigningExecution -> Z -> act S WalletStoreError unit;
  finalize_chain_signing_job : Uuid -> bytes -> bytes -> Z -> act S WalletStoreError unit;
  terminate_chain_signing_job : Uuid -> bytes -> ChainSigningJobStatus -> string -> Z -> act S WalletStoreError unit;
}.

(** The trait's default methods: no signers, no chain signing. *)
Definition default_signer_profiles : result WalletStoreError (list (SignerProfile * list AddressBinding)) := Ok [].
Definition default_create_chain_signing_job {S} (request : CreateChainSigningJobRequest) (now : Z)
    : act S WalletStoreError ChainSigningJobState :=
  lift (Err (mkWalletStoreError "chain signing requires durable authority storage")).
Definition default_claim_chain_executor {S} (execution : ChainSigningExecution) (now : Z)
    : act S WalletStoreError unit :=
  lift (Err (mkWalletStoreError "chain executor claims require durable authority storage")).
Definition default_finalize_chain_signing_job {S} (job_id : Uuid) (binding signature : bytes) (now : Z)
    : act S WalletStoreError unit :=
  lift (Err (mkWalletStoreError "chain signing requires durable authority storage")).
Definition default_terminate_chain_signing_job {S} (job_id : Uuid) (binding : bytes)
    (status : ChainSigningJobStatus) (reason : string) (now : Z) : act S WalletStoreError unit :=
  lift (Err (mkWalletStoreError "chain signing requires durable authority storage")).

(** ** The process-local store *)

Record InMemoryWalletStore := mkInMemoryWalletStore {
  im_intents : gmap Uuid SigningIntent;
  im_profile : option WebauthnProfileState;
  im_passkeys : list PasskeyState;
  im_approvals : gmap Uuid ApprovalStartState;
  im_authorizations : gmap Uuid AuthorizationState;
  im_nonce_claims : gmap bytes FrostNonceClaimState;
}.

Definition InMemoryWalletStore_new : InMemoryWalletStore := mkInMemoryWalletStore ∅ None [] ∅ ∅ ∅.

Section memory.
Context `{HashOrder}.

Definition im_insert_intent (i : SigningIntent) : act InMemoryWalletStore WalletStoreError unit := fun s =>
  (mkInMemoryWalletStore (<[si_id i := i]> (im_intents s)) (im_profile s) (im_passkeys s) (im_approvals s)
     (im_authorizations s) (im_nonce_claims s), Ok tt).

(** [sort_by_key(|intent| (intent.created_at, intent.id))] *)
Definition intent_key_le (i j : SigningIntent) : Prop :=
  si_created_at i < si_created_at j \/ (si_created_at i = si_created_at j /\ bytes_le (si_id i) (si_id j)).
#[export] Instance intent_key_le_dec : RelDecision intent_key_le.
Proof. intros i j. unfold intent_key_le. apply _. Defined.
Definition im_list_intents (s : InMemoryWalletStore) : list SigningIntent :=
  merge_sort intent_key_le (hash_iter (map_to_list (im_intents s))).*2.

Definition im_set_webauthn_profile (p : WebauthnProfileState) : act InMemoryWalletStore WalletStoreError unit :=
  fun s =>
  (mkInMemoryWalletStore (im_intents s) (Some p) (im_passkeys s) (im_approvals s) (im_authorizations s)
     (im_nonce_claims s), Ok tt).

Definition im_insert_passkey (p : PasskeyState) : act InMemoryWalletStore WalletStoreError unit := fun s =>
  (mkInMemoryWalletStore (im_intents s) (im_profile s) (im_passkeys s ++ [p]) (im_approvals s)
     (im_authorizations s) (im_nonce_claims s), Ok tt).

Definition im_begin_approval (a : ApprovalStartState) : act InMemoryWalletStore WalletStoreError unit := fun s =>
  (mkInMemoryWalletStore (im_intents s) (im_profile s) (im_passkeys s)
     (<[as_ceremony_id a := a]> (im_approvals s)) (im_authorizations s) (im_nonce_claims s), Ok tt).

(** The first record with this id, as [iter_mut().find] updates it.  The
    version is incremented as a release build does, modulo 2^64; the node
    enrols records at version 1, so the panic of a debug build on overflow is
    2^64 - 1 approvals away and the store methods have no panic outcome. *)
Fixpoint update_passkey (id json : string) (l : list PasskeyState) : list PasskeyState :=
  match l with
  | [] => []
  | p :: l =>
      if bool_decide (pk_credential_id p = id)
      then mkPasskeyState (pk_credential_id p) (pk_label p) json (pk_format p) (wrap 64 (pk_record_version p + 1))
             (pk_enrolled_at p) :: l
      else p :: update_passkey id json l
  end.

Definition find_passkey (id : string) (l : list PasskeyState) : option PasskeyState :=
  List.find (fun p => bool_decide (pk_credential_id p = id)) l.

(** The ceremony is removed first, whatever follows. *)
Definition im_complete_approval (c : ApprovalCompletionState)
    : act InMemoryWalletStore WalletStoreError AuthorizationState := fun s =>
  match im_approvals s !! ac_ceremony_id c with
  | None => (s, Err (mkWalletStoreError "approval ceremony is unavailable"))
  | Some ceremony =>
      let s := mkInMemoryWalletStore (im_intents s) (im_profile s) (im_passkeys s)
                 (delete (ac_ceremony_id c) (im_approvals s)) (im_authorizations s) (im_nonce_claims s) in
      if negb (bool_decide (as_intent_id ceremony = ac_intent_id c))
         || negb (bool_decide (as_credential_id ceremony = ac_credential_id c))
         || negb (bool_decide (as_binding_digest ceremony = ac_binding_digest c))
      then (s, Err (mkWalletStoreError "approval binding mismatch"))
      else
        match find_passkey (ac_credential_id c) (im_passkeys s) with
        | None => (s, Err (mkWalletStoreError "passkey is unavailable"))
        | Some passkey =>
            if negb (pk_record_version passkey =? ac_expected_credential_record_version c)
            then (s, Err (mkWalletStoreError "passkey record version conflict"))
            else
              let authorization := mkAuthorizationState (ac_authorization_id c) (ac_intent_id c)
                (ac_binding_digest c) (ac_authorization_expires_at c) (ac_approved_at c) in
              (mkInMemoryWalletStore
                 (alter (fun i => set_status i IntentApproved) (ac_intent_id c) (im_intents s)) (im_profile s)
                 (update_passkey (ac_credential_id c) (ac_updated_passkey_json c) (im_passkeys s))
                 (im_approvals s) (<[ac_intent_id c := authorization]> (im_authorizations s)) (im_nonce_claims s),
               Ok authorization)
        end
  end.

Definition im_available_authorizations (s : InMemoryWalletStore) (now : Z)
    : result WalletStoreError (list AuthorizationState) :=
  Ok (filter (fun a => now <= au_expires_at a) (hash_iter (map_to_list (im_authorizations s))).*2).

(** The authorization is removed before its id is compared. *)
Definition im_claim_frost_nonce (c : FrostNonceClaimState) : act InMemoryWalletStore WalletStoreError unit :=
  fun s =>
  if bool_decide (is_Some (im_nonce_claims s !! nc_fingerprint c))
  then (s, Err (mkWalletStoreError "FROST nonce already claimed"))
  else
    match im_authorizations s !! nc_intent_id c with
    | None => (s, Err (mkWalletStoreError "authorization is unavailable"))
    | Some authorization =>
        let authorizations := delete (nc_intent_id c) (im_authorizations s) in
        if negb (bool_decide (au_id authorization = nc_authorization_id c))
        then (mkInMemoryWalletStore (im_intents s) (im_profile s) (im_passkeys s) (im_approvals s)
                authorizations (im_nonce_claims s),
              Err (mkWalletStoreError "authorization binding mismatch"))
        else (mkInMemoryWalletStore (im_intents s) (im_profile s) (im_passkeys s) (im_approvals s)
                authorizations (<[nc_fingerprint c := c]> (im_nonce_claims s)), Ok tt)
    end.

#[export] Instance InMemory_store : WalletStore InMemoryWalletStore := {
  descriptor _ := StorageDescriptor_compatibility;
  store_wallet_id s := wp_wallet_id <$> im_profile s;
  insert_intent := im_insert_intent;
  get_intent s id := im_intents s !! id;
  list_intents := im_list_intents;
  update_intent i _ := im_insert_intent i;
  webauthn_profile s := Ok (im_profile s);
  set_webauthn_profile := im_set_webauthn_profile;
  insert_passkey := im_insert_passkey;
  list_passkeys s := Ok (im_passkeys s);
  begin_approval := im_begin_approval;
  complete_approval := im_complete_approval;
  available_authorizations := im_available_authorizations;
  claim_frost_nonce := im_claim_frost_nonce;
  signer_profiles _ := default_signer_profiles;
  store_create_chain_signing_job := default_create_chain_signing_job;
  store_chain_signing_job _ _ := Ok None;
  chain_signing_execution _ _ := Ok None;
  claim_chain_executor := default_claim_chain_executor;
  finalize_chain_signing_job := default_finalize_chain_signing_job;
  terminate_chain_signing_job := default_terminate_chain_signing_job;
}.
End memory.

(** ** What the wallet relies on

    [spent s] are the FROST nonce fingerprints the store has recorded: a claim
    succeeds on a new fingerprint only and records it, nothing removes one; a
    signing job may record more.  Writes of intents are visible to reads, and
    an approval is recorded for exactly the ceremony that was begun. *)
Class WalletStoreLaws (S : Type) `{WalletStore S} := {
  spent : S -> gset bytes;
  claim_new c s s' : claim_frost_nonce c s = (s', Ok tt) ->
    nc_fingerprint c ∉ spent s /\ spent s' = {[nc_fingerprint c]} ∪ spent s;
  claim_failed c s s' e : claim_frost_nonce c s = (s', Err e) -> spent s' = spent s;
  insert_spent i s : spent (insert_intent i s).1 = spent s;
  update_spent i now s : spent (update_intent i now s).1 = spent s;
  profile_spent p s : spent (set_webauthn_profile p s).1 = spent s;
  passkey_spent p s : spent (insert_passkey p s).1 = spent s;
  begin_spent a s : spent (begin_approval a s).1 = spent s;
  complete_spent c s : spent (complete_approval c s).1 = spent s;
  create_job_spent r now s : spent s ⊆ spent (store_create_chain_signing_job r now s).1;
  claim_job_spent e now s : spent (claim_chain_executor e now s).1 = spent s;
  finalize_spent j b g now s : spent (finalize_chain_signing_job j b g now s).1 = spent s;
  terminate_spent j b st r now s : spent (terminate_chain_signing_job j b st r now s).1 = spent s;
  insert_get i s s' : insert_intent i s = (s', Ok tt) -> get_intent s' (si_id i) = Some i;
  update_get i now s s' : update_intent i now s = (s', Ok tt) -> get_intent s' (si_id i) = Some i;
  complete_record c s s' a : complete_approval c s = (s', Ok a) ->
    a = mkAuthorizationState (ac_authorization_id c) (ac_intent_id c) (ac_binding_digest c)
          (ac_authorization_expires_at c) (ac_approved_at c);
}.

#[export] Instance InMemory_laws `{HashOrder} : WalletStoreLaws InMemoryWalletStore.
Proof.
  refine {| spent := fun s => dom (im_nonce_claims s) |}; cbn.
  - intros c s s'. unfold im_claim_frost_nonce. case_bool_decide as Hc; [done|].
    repeat case_match; intros [= <-]. simpl. rewrite dom_insert_L. split; [by rewrite elem_of_dom|done].
  - intros c s s' e. unfold im_claim_frost_nonce. repeat case_match; intros [= <-]; done.
  - done.
  - done.
  - done.
  - done.
  - done.
  - intros c s. unfold im_complete_approval. by repeat case_match.
  - done.
  - done.
  - done.
  - done.
  - intros i s s' [= <-]. simpl. by rewrite lookup_insert_eq.
  - intros i now s s' [= <-]. simpl. by rewrite lookup_insert_eq.
  - intros c s s' a. unfold im_complete_approval. repeat case_match; by intros [= _ <-].
Defined.
