(* ===== verification/TransactionReview.v ===== *)
(** * The wallet's own transaction review
      (src/crates/wallet-core/src/transaction.rs)

    An unsigned Taproot key spend is decoded, matched against its ordered
    prevouts, bounded in fee and described for the human before an intent can
    carry its sighash. *)

From Stdlib Require Import ZArith Lia.
From S2P Require Import Prelude Bitcoin Text Frost Trading Intent SigningJob Gate WalletStore.
From stdpp Require Import list gmap.
Local Open Scope string_scope.
Local Open Scope list_scope.
Local Open Scope Z_scope.

(** What the review uses of rust-bitcoin beyond [BitcoinLib]. *)
Class ReviewLib := {
  serialize_hex : Transaction -> string;
  outpoint_from_str : string -> option OutPoint;
  outpoint_to_string : OutPoint -> string;
  txid_to_string : bytes -> string;
  compute_wtxid : Transaction -> bytes;
  total_size : Transaction -> Z;
  weight_wu : Transaction -> Z;
  tx_vsize : Transaction -> Z;
  script_is_p2tr : bytes -> bool;
  script_is_p2wpkh : bytes -> bool;
  script_is_p2wsh : bytes -> bool;
  script_is_p2pkh : bytes -> bool;
  script_is_p2sh : bytes -> bool;
  script_is_op_return : bytes -> bool;
  script_is_witness_program : bytes -> bool;
  minimal_non_dust : bytes -> Z;
  address_from_script : bytes -> option string;
  sequence_is_rbf : Z -> bool;
  (* taproot_key_spend_signature_hash(index, Prevouts::All, Default) *)
  key_spend_sighash_at : Transaction -> nat -> list TxOut -> option bytes;
}.

Record TransactionPrevout := mkTransactionPrevout {
  pv_outpoint : string;
  pv_value_sat : Z;
  pv_script_pubkey_hex : string;
}.
Record TransactionReviewRequest := mkTransactionReviewRequest {
  rv_raw_tx_hex : string;
  rv_prevouts : list TransactionPrevout;
  rv_input_index : nat;
  rv_max_fee_sat : Z;
}.
Record ReviewedInput := mkReviewedInput {
  ri_index : nat;
  ri_outpoint : string;
  ri_value_sat : Z;
  ri_script_pubkey_hex : string;
  ri_script_type : string;
  ri_address : option string;
  ri_sequence : Z;
  ri_signals_rbf : bool;
  ri_signing_input : bool;
}.
Record ReviewedOutput := mkReviewedOutput {
  ro_index : nat;
  ro_value_sat : Z;
  ro_script_pubkey_hex : string;
  ro_script_type : string;
  ro_address : option string;
  ro_dust : bool;
}.
Record TransactionWarning := mkTransactionWarning {
  tw_code : string;
  tw_message : string;
  tw_input_index : option nat;
  tw_output_index : option nat;
}.
Record TransactionReview := mkTransactionReview {
  tr_network : string;
  tr_txid : string;
  tr_wtxid : string;
  tr_raw_tx_hex : string;
  tr_version : Z;
  tr_lock_time : Z;
  tr_total_size : Z;
  tr_weight_wu : Z;
  tr_vsize : Z;
  tr_input_count : nat;
  tr_output_count : nat;
  tr_input_total_sat : Z;
  tr_output_total_sat : Z;
  tr_fee_sat : Z;
  tr_fee_rate_milli_sat_vb : Z;
  tr_max_fee_sat : Z;
  tr_signals_rbf : bool;
  tr_input_index : nat;
  tr_sighash_type : string;
  tr_sighash_hex : string;
  tr_inputs : list ReviewedInput;
  tr_outputs : list ReviewedOutput;
  tr_warnings : list TransactionWarning;
  tr_signing_allowed : bool;
}.

Inductive TransactionReviewError :=
| TR_InvalidRawTransaction
| TR_EmptyInputs
| TR_EmptyOutputs
| TR_Coinbase
| TR_TransactionAlreadySigned
| TR_PrevoutCountMismatch
| TR_PrevoutMismatch (input_index : nat)
| TR_DuplicateInput
| TR_InvalidPrevout (input_index : nat)
| TR_InputIndexOutOfRange
| TR_SigningInputNotTaproot
| TR_AmountOverflow
| TR_OutputsExceedInputs
| TR_FeeExceedsLimit (fee_sat max_fee_sat : Z)
| TR_TaprootSighash.

(** [str::to_ascii_lowercase] *)
Definition to_ascii_lowercase (s : string) : bytes :=
  (fun b => if (65 <=? b2z b) && (b2z b <=? 90) then z2b (b2z b + 32) else b) <$> ascii_bytes s.

Definition is_coinbase (tx : Transaction) : bool :=
  match tx_input tx with [i] => OutPoint_is_null (txi_previous_output i) | _ => false end.

Section review.
Context `{BitcoinLib} `{TextCodec} `{ReviewLib}.

Definition script_type (script : bytes) : string :=
  if script_is_p2tr script then "p2tr"
  else if script_is_p2wpkh script then "p2wpkh"
  else if script_is_p2wsh script then "p2wsh"
  else if script_is_p2pkh script then "p2pkh"
  else if script_is_p2sh script then "p2sh"
  else if script_is_op_return script then "op_return"
  else if script_is_witness_program script then "witness_unknown"
  else "unknown".

Definition checked_total (values : list Z) : result TransactionReviewError Z :=
  ok_or (checked_sum 64 0 values) TR_AmountOverflow.

(** The decoded transaction and its form: the checks before the prevouts. *)
Definition decode_request (request : TransactionReviewRequest) : result TransactionReviewError Transaction :=
  raw ← ok_or (hex_decode (rv_raw_tx_hex request)) TR_InvalidRawTransaction;
  tx ← ok_or (tx_deserialize raw) TR_InvalidRawTransaction;
  _ ← reject_if (negb (bool_decide (ascii_bytes (serialize_hex tx) = to_ascii_lowercase (rv_raw_tx_hex request))))
        TR_InvalidRawTransaction;
  _ ← reject_if (bool_decide (tx_input tx = [])) TR_EmptyInputs;
  _ ← reject_if (bool_decide (tx_output tx = [])) TR_EmptyOutputs;
  _ ← reject_if (is_coinbase tx) TR_Coinbase;
  _ ← reject_if (existsb (fun i => negb (bool_decide (txi_script_sig i = []))
                                   || negb (bool_decide (txi_witness i = []))) (tx_input tx))
        TR_TransactionAlreadySigned;
  _ ← reject_if (negb (length (rv_prevouts request) =? length (tx_input tx))%nat) TR_PrevoutCountMismatch;
  _ ← reject_if (length (tx_input tx) <=? rv_input_index request)%nat TR_InputIndexOutOfRange;
  Ok tx.

(** One iteration of the loop over inputs and supplied prevouts. *)
Definition review_input (input_index index : nat) (input : TxIn) (supplied : TransactionPrevout)
    : result TransactionReviewError (TxOut * ReviewedInput) :=
  outpoint ← ok_or (outpoint_from_str (pv_outpoint supplied)) (TR_InvalidPrevout index);
  _ ← reject_if (negb (bool_decide (outpoint = txi_previous_output input))) (TR_PrevoutMismatch index);
  script ← ok_or (hex_decode (pv_script_pubkey_hex supplied)) (TR_InvalidPrevout index);
  Ok (mkTxOut (pv_value_sat supplied) script,
      mkReviewedInput index (outpoint_to_string outpoint) (pv_value_sat supplied) (hex_encode script)
        (script_type script) (address_from_script script) (txi_sequence input)
        (sequence_is_rbf (txi_sequence input)) (index =? input_index)%nat).

Fixpoint review_inputs (input_index index : nat) (seen : gset OutPoint) (l : list (TxIn * TransactionPrevout))
    : result TransactionReviewError (list TxOut * list ReviewedInput) :=
  match l with
  | [] => Ok ([], [])
  | (input, supplied) :: rest =>
      if bool_decide (txi_previous_output input ∈ seen) then Err TR_DuplicateInput
      else
        '(txout, reviewed) ← review_input input_index index input supplied;
        '(txouts, inputs) ← review_inputs input_index (S index) ({[txi_previous_output input]} ∪ seen) rest;
        Ok (txout :: txouts, reviewed :: inputs)
  end.

Definition warning (code message : string) (output_index : option nat) : TransactionWarning :=
  mkTransactionWarning code message None output_index.

Definition is_dust (o : TxOut) : bool :=
  negb (script_is_op_return (txo_script_pubkey o)) && (txo_value o <? minimal_non_dust (txo_script_pubkey o)).

(** One output with the warnings its closure pushes. *)
Definition review_output (index : nat) (o : TxOut) : ReviewedOutput * list TransactionWarning :=
  let kind := script_type (txo_script_pubkey o) in
  let dust := is_dust o in
  let w1 :=
    if script_is_op_return (txo_script_pubkey o)
    then [warning "op_return" "Output carries provably unspendable OP_RETURN data." (Some index)]
    else if bool_decide (kind = "unknown") || bool_decide (kind = "witness_unknown")
    then [warning "unknown_output_script" "Output script is not a recognized standard address type." (Some index)]
    else [] in
  let w2 :=
    if dust then [warning "dust_output" "Output is below the default dust threshold for its script." (Some index)]
    else [] in
  (mkReviewedOutput index (txo_value o) (hex_encode (txo_script_pubkey o)) kind
     (address_from_script (txo_script_pubkey o)) dust, w1 ++ w2).

Definition fee_rate (fee_sat vsize : Z) : result TransactionReviewError Z :=
  if vsize =? 0 then Ok 0
  else
    scaled ← ok_or (if fee_sat * 1000 <? 2 ^ 64 then Some (fee_sat * 1000) else None) TR_AmountOverflow;
    Ok (scaled / vsize).

Definition inspect_transaction (request : TransactionReviewRequest)
    : result TransactionReviewError TransactionReview :=
  tx ← decode_request request;
  '(prevout_txouts, inputs) ←
     review_inputs (rv_input_index request) 0 ∅ (zip (tx_input tx) (rv_prevouts request));
  _ ← reject_if
        (negb (match prevout_txouts !! rv_input_index request with
               | Some o => script_is_p2tr (txo_script_pubkey o)
               | None => false
               end)) TR_SigningInputNotTaproot;
  input_total_sat ← checked_total (pv_value_sat <$> rv_prevouts request);
  output_total_sat ← checked_total (txo_value <$> tx_output tx);
  fee_sat ← ok_or (checked_sub input_total_sat output_total_sat) TR_OutputsExceedInputs;
  _ ← reject_if (rv_max_fee_sat request <? fee_sat) (TR_FeeExceedsLimit fee_sat (rv_max_fee_sat request));
  sighash ← ok_or (key_spend_sighash_at tx (rv_input_index request) prevout_txouts) TR_TaprootSighash;
  let w_version := if negb (tx_version tx =? 2)
    then [warning "non_v2_transaction" "Transaction version is not 2." None] else [] in
  let w_lock := if negb (tx_lock_time tx =? 0)
    then [warning "absolute_lock_time" "Transaction has a non-zero absolute lock time." None] else [] in
  let signals_rbf := existsb (fun i => sequence_is_rbf (txi_sequence i)) (tx_input tx) in
  let w_rbf := if signals_rbf
    then [warning "replaceable" "At least one input signals opt-in transaction replacement." None] else [] in
  let reviewed := imap review_output (tx_output tx) in
  let vsize := tx_vsize tx in
  fee_rate_milli_sat_vb ← fee_rate fee_sat vsize;
  let w_fee := if 100000 <? fee_rate_milli_sat_vb
    then [warning "high_fee_rate" "Fee rate exceeds 100 sat/vB." None] else [] in
  Ok (mkTransactionReview "signet" (txid_to_string (compute_txid tx)) (txid_to_string (compute_wtxid tx))
        (serialize_hex tx) (tx_version tx) (tx_lock_time tx) (total_size tx) (weight_wu tx) vsize
        (length (tx_input tx)) (length (tx_output tx)) input_total_sat output_total_sat fee_sat
        fee_rate_milli_sat_vb (rv_max_fee_sat request) signals_rbf (rv_input_index request) "default"
        (hex_encode sighash) inputs reviewed.*1
        (w_version ++ w_lock ++ w_rbf ++ concat reviewed.*2 ++ w_fee) true).

(** ** What a review shows *)

Lemma review_inputs_Ok k n seen l txouts inputs :
  review_inputs k n seen l = Ok (txouts, inputs) ->
  NoDup (txi_previous_output <$> l.*1) /\ (forall o, o ∈ txi_previous_output <$> l.*1 -> o ∉ seen) /\
  Forall2 (fun p o => outpoint_from_str (pv_outpoint p.2) = Some (txi_previous_output p.1) /\
                      txo_value o = pv_value_sat p.2 /\
                      hex_decode (pv_script_pubkey_hex p.2) = Some (txo_script_pubkey o)) l txouts /\
  Forall2 (fun p i => ri_outpoint i = outpoint_to_string (txi_previous_output p.1) /\
                      ri_value_sat i = pv_value_sat p.2 /\ ri_sequence i = txi_sequence p.1) l inputs.
Proof.
  revert n seen txouts inputs. induction l as [|[i p] l IH]; intros n seen txouts inputs; simpl.
  { intros [= <- <-]. split_and!; [constructor|set_solver|constructor|constructor]. }
  case_bool_decide as Hin; [done|]. intros Hr. res_inv.
  destruct r as [txout reviewed]. res_inv. destruct r as [txs ins]. res_inv.
  apply IH in E0 as (Hnd & Hns & Hp & Hi). unfold review_input in E. res_inv. simplify_eq.
  split_and!.
  - constructor; [|done]. intros Hx. specialize (Hns _ Hx). set_solver.
  - intros o [->|Ho]%elem_of_cons; [done|]. specialize (Hns _ Ho). set_solver.
  - constructor; [|done]. simpl. split_and!; congruence.
  - constructor; [|done]. simpl. split_and!; congruence.
Qed.

(** The facts behind an accepted review. *)
Record review_facts (r : TransactionReviewRequest) (v : TransactionReview) (tx : Transaction)
    (prevouts : list TxOut) : Prop := {
  rf_raw : exists raw, hex_decode (rv_raw_tx_hex r) = Some raw /\ tx_deserialize raw = Some tx;
  rf_unsigned : Forall (fun i => txi_script_sig i = [] /\ txi_witness i = []) (tx_input tx);
  rf_distinct : NoDup (txi_previous_output <$> tx_input tx);
  rf_prevouts : Forall2 (fun p o => outpoint_from_str (pv_outpoint p.2) = Some (txi_previous_output p.1) /\
      txo_value o = pv_value_sat p.2 /\ hex_decode (pv_script_pubkey_hex p.2) = Some (txo_script_pubkey o))
      (zip (tx_input tx) (rv_prevouts r)) prevouts;
  rf_count : length (rv_prevouts r) = length (tx_input tx);
  rf_taproot : exists o, prevouts !! rv_input_index r = Some o /\ script_is_p2tr (txo_script_pubkey o) = true;
  rf_fee : tr_fee_sat v = sumZ (pv_value_sat <$> rv_prevouts r) - sumZ (txo_value <$> tx_output tx) /\
           0 <= tr_fee_sat v <= rv_max_fee_sat r;
  rf_sighash : exists h, key_spend_sighash_at tx (rv_input_index r) prevouts = Some h /\
      tr_sighash_hex v = hex_encode h;
  rf_outputs : (fun o => (ro_value_sat o, ro_script_pubkey_hex o)) <$> tr_outputs v
               = (fun o => (txo_value o, hex_encode (txo_script_pubkey o))) <$> tx_output tx;
  rf_inputs : (fun i => (ri_outpoint i, ri_value_sat i)) <$> tr_inputs v
              = (fun p => (outpoint_to_string (txi_previous_output p.1), pv_value_sat p.2))
                  <$> zip (tx_input tx) (rv_prevouts r);
}.

Lemma checked_total_Ok l t : checked_total l = Ok t -> t = sumZ l.
Proof.
  unfold checked_total. intros Ht. res_inv. revert Ht. change (sumZ l) with (0 + sumZ l). generalize 0 as acc.
  induction l as [|x l IH]; intros acc; simpl; [intros [= <-]; lia|].
  unfold checked_add. case_bool_decide; simpl; [|done]. intros ->%IH. lia.
Qed.

Lemma reviewed_outputs l :
  (fun o => (ro_value_sat o, ro_script_pubkey_hex o)) <$> (imap review_output l).*1
  = (fun o => (txo_value o, hex_encode (txo_script_pubkey o))) <$> l.
Proof.
  apply list_eq. intros i. rewrite !list_lookup_fmap, list_lookup_imap. by destruct (l !! i).
Qed.

Lemma reviewed_inputs (l : list (TxIn * TransactionPrevout)) inputs :
  Forall2 (fun p i => ri_outpoint i = outpoint_to_string (txi_previous_output p.1) /\
                      ri_value_sat i = pv_value_sat p.2 /\ ri_sequence i = txi_sequence p.1) l inputs ->
  (fun i => (ri_outpoint i, ri_value_sat i)) <$> inputs
  = (fun p => (outpoint_to_string (txi_previous_output p.1), pv_value_sat p.2)) <$> l.
Proof. induction 1 as [|p i l' inputs' (E1 & E2 & _) _ IH]; [done|]. rewrite !fmap_cons, IH. by rewrite E1, E2. Qed.

Lemma unsigned_inputs l :
  existsb (fun i => negb (bool_decide (txi_script_sig i = [])) || negb (bool_decide (txi_witness i = []))) l = false ->
  Forall (fun i => txi_script_sig i = [] /\ txi_witness i = []) l.
Proof.
  induction l as [|i l IH]; simpl; [constructor|]. intros [Hi Hl]%orb_false_iff.
  autorewrite with guards in Hi. destruct Hi. constructor; auto.
Qed.

Lemma inspect_transaction_Ok r v : inspect_transaction r = Ok v -> exists tx prevouts, review_facts r v tx prevouts.
Proof.
  unfold inspect_transaction, decode_request, checked_sub. intros Hv. res_step. rename r0 into tx.
  res_step. destruct r0 as [prevouts inputs]. res_inv. subst v.
  repeat match goal with E : checked_total _ = Ok _ |- _ => apply checked_total_Ok in E as -> end.
  match goal with E : review_inputs _ _ _ _ = Ok _ |- _ => apply review_inputs_Ok in E as (Hnd & _ & Hp & Hi) end.
  case_match; [|done]. simplify_eq.
  autorewrite with guards in *. exists tx, prevouts. split; simpl.
  - by eauto.
  - by apply unsigned_inputs.
  - by rewrite fst_zip in Hnd by lia.
  - done.
  - done.
  - case_match; [by eauto|done].
  - split; [done|lia].
  - by eauto.
  - apply reviewed_outputs.
  - by apply reviewed_inputs.
Qed.
End review.

(** * Errors of the wallet services
      (src/crates/wallet-core/src/api.rs and node.rs)

    Where the source keeps only the text of an underlying error, the model
    keeps the error. *)

(** [api::WalletError] *)
Inductive WalletError :=
| WE_NotFound
| WE_Gate (e : GateError)
| WE_AlreadyApproved
| WE_NotPending
| WE_InvalidSignerId
| WE_InvalidExpiry
| WE_InvalidPersonalSigningPolicy
| WE_Store (e : WalletStoreError).

(** [node::WalletNodeError] *)
Inductive WalletNodeError :=
| WN_InvalidOrigin (reason : string)
| WN_InsecureRemoteOrigin
| WN_InvalidCeremonyTtl
| WN_InvalidRegistrationIdentity
| WN_RegistrationLocked
| WN_WebAuthn (reason : string)
| WN_CeremonyNotFound
| WN_CeremonyExpired
| WN_CredentialAlreadyRegistered
| WN_CredentialNotFound
| WN_WebauthnProfileMismatch
| WN_NoCredentials
| WN_UserVerificationRequired
| WN_IntentNotPending
| WN_IntentNotFound
| WN_IntentExpired
| WN_IntentBindingMismatch
| WN_SignerNotConfigured
| WN_DurableSignerRequiresDurableAuthority
| WN_WrongSigner
| WN_AuthorizationUnavailable
| WN_RecoveredIntentApprovalUnavailable
| WN_CovhubLegacyPathRejected
| WN_Wallet (e : WalletError)
| WN_Signing (e : SigningError)
| WN_TradeNodeUnavailable
| WN_TradePolicy (e : fault TradeError)
| WN_TradeSignerMismatch
| WN_TransactionPolicy (e : TransactionReviewError)
| WN_ChainSigning (e : SigningJobError)
| WN_SigningJobNotStarted
| WN_ChatMessageNotFound
| WN_InvalidChatMessage
| WN_ChatHistoryFull.

(** [impl From<WalletError> for WalletNodeError] *)
Definition WalletNodeError_from_wallet (e : WalletError) : WalletNodeError :=
  match e with
  | WE_NotFound => WN_IntentNotFound
  | other => WN_Wallet other
  end.
