(* ===== verification/WebAuthn.v ===== *)
(** * The WebAuthn relying party
      (src/crates/wallet-core/src/webauthn.rs)

    Registration and approval ceremonies.  The protocol itself is webauthn-rs
    and enters as the interface [WebauthnLib]; fresh ceremony ids and the
    randomness of a challenge are arguments. *)

From Stdlib Require Import ZArith Lia.
From S2P Require Import Prelude Effects Bitcoin Text Personal Intent WalletStore TransactionReview.
From stdpp Require Import list gmap.
Local Open Scope string_scope.
Local Open Scope list_scope.
Local Open Scope Z_scope.

(** webauthn-rs and url. *)
Class WebauthnLib := {
  Url : Type;
  url_parse : string -> result string Url;
  url_host_str : Url -> option string;
  url_scheme : Url -> string;
  Webauthn : Type;
  (* WebauthnBuilder::new(rp_id, origin).rp_name(name).timeout(seconds).build() *)
  webauthn_build : string -> Url -> string -> Z -> result string Webauthn;
  Passkey : Type;
  passkey_cred_id : Passkey -> bytes;
  passkey_from_json : string -> result string Passkey;
  passkey_to_json : Passkey -> result string string;
  PasskeyRegistration : Type;
  PasskeyAuthentication : Type;
  CreationChallengeResponse : Type;
  RequestChallengeResponse : Type;
  RegisterPublicKeyCredential : Type;
  PublicKeyCredential : Type;
  AuthenticationResult : Type;
  start_passkey_registration : Webauthn -> Uuid -> string -> string -> option (list bytes) -> bytes ->
    result string (CreationChallengeResponse * PasskeyRegistration);
  finish_passkey_registration : Webauthn -> RegisterPublicKeyCredential -> PasskeyRegistration ->
    result string Passkey;
  start_passkey_authentication : Webauthn -> list Passkey -> bytes ->
    result string (RequestChallengeResponse * PasskeyAuthentication);
  finish_passkey_authentication : Webauthn -> PublicKeyCredential -> PasskeyAuthentication ->
    result string AuthenticationResult;
  user_verified : AuthenticationResult -> bool;
  result_cred_id : AuthenticationResult -> bytes;
  (* None when the result is of another credential *)
  update_credential : Passkey -> AuthenticationResult -> option Passkey;
}.

Definition PASSKEY_FORMAT : string := "webauthn-rs-passkey-json-v1".

(** [i64::saturating_add] *)
Definition saturating_add_i64 (a b : Z) : Z := Z.max (- 2 ^ 63) (Z.min (2 ^ 63 - 1) (a + b)).

Record RelyingPartyConfig := mkRelyingPartyConfig {
  rp_id : string;
  rp_origin : string;
  rp_name : string;
  rp_ceremony_ttl_seconds : Z;
}.
Definition RelyingPartyConfig_default : RelyingPartyConfig :=
  mkRelyingPartyConfig "localhost" "http://localhost:5173" "Catomicals local wallet" 300.

Record PasskeyRegistrationStartRequest := mkPasskeyRegistrationStartRequest {
  rs_label : string;
  rs_user_name : string;
  rs_display_name : string;
}.

Record ApprovalBinding := mkApprovalBinding {
  bi_intent_id : Uuid;
  bi_intent_digest_hex : string;
  bi_signer_id : Z;
  bi_session_id_hex : string;
  bi_message_hex : string;
  bi_expires_at : Z;
}.

Record PasskeyRegistrationFinishResponse := mkPasskeyRegistrationFinishResponse {
  rf_credential_id : string;
  rf_label : string;
  rf_registered_at : Z;
}.

Section relying_party.
Context `{BitcoinLib} `{TextCodec} `{WebauthnLib} `{HashOrder}.

Record PasskeyRegistrationStartResponse := mkPasskeyRegistrationStartResponse {
  rr_ceremony_id : Uuid;
  rr_public_key : CreationChallengeResponse;
  rr_expires_at : Z;
}.
Record PasskeyRegistrationFinishRequest := mkPasskeyRegistrationFinishRequest {
  rq_ceremony_id : Uuid;
  rq_credential : RegisterPublicKeyCredential;
}.
Record ApprovalStartResponse := mkApprovalStartResponse {
  ar_ceremony_id : Uuid;
  ar_public_key : RequestChallengeResponse;
  ar_binding : ApprovalBinding;
}.
Record ApprovalFinishRequest := mkApprovalFinishRequest {
  af_ceremony_id : Uuid;
  af_credential : PublicKeyCredential;
}.

Record StoredCredential := mkStoredCredential {
  sc_label : string;
  sc_registered_at : Z;
  sc_record_version : Z;
  sc_passkey : Passkey;
}.
Record RegistrationCeremony := mkRegistrationCeremony {
  rc_label : string;
  rc_expires_at : Z;
  rc_state : PasskeyRegistration;
}.
Record ApprovalCeremony := mkApprovalCeremony {
  ay_binding : ApprovalBinding;
  ay_intent_digest : bytes;
  ay_session_id : bytes;
  ay_message : bytes;
  ay_state : PasskeyAuthentication;
}.

(** The capability only [approval_finish] builds. *)
Record VerifiedPasskeyApproval := mkVerifiedPasskeyApproval {
  va_ceremony_id : Uuid;
  va_intent_id : Uuid;
  va_intent_digest : bytes;
  va_signer_id : Z;
  va_session_id : bytes;
  va_message : bytes;
  va_expires_at : Z;
  va_credential_id : string;
  va_expected_credential_record_version : Z;
  va_updated_passkey_json : string;
  va_updated_passkey : Passkey;
}.

Record WebAuthnRelyingParty := mkWebAuthnRelyingParty {
  wr_config : RelyingPartyConfig;
  wr_webauthn : Webauthn;
  wr_user_id : Uuid;
  wr_credentials : gmap string StoredCredential;
  wr_registrations : gmap Uuid RegistrationCeremony;
  wr_approvals : gmap Uuid ApprovalCeremony;
}.

Definition set_credentials (rp : WebAuthnRelyingParty) (c : gmap string StoredCredential) : WebAuthnRelyingParty :=
  mkWebAuthnRelyingParty (wr_config rp) (wr_webauthn rp) (wr_user_id rp) c (wr_registrations rp) (wr_approvals rp).
Definition set_registrations (rp : WebAuthnRelyingParty) (r : gmap Uuid RegistrationCeremony)
    : WebAuthnRelyingParty :=
  mkWebAuthnRelyingParty (wr_config rp) (wr_webauthn rp) (wr_user_id rp) (wr_credentials rp) r (wr_approvals rp).
Definition set_approvals (rp : WebAuthnRelyingParty) (a : gmap Uuid ApprovalCeremony) : WebAuthnRelyingParty :=
  mkWebAuthnRelyingParty (wr_config rp) (wr_webauthn rp) (wr_user_id rp) (wr_credentials rp) (wr_registrations rp) a.

(** One stored Passkey record into the credential table. *)
Definition restore_passkey (credentials : gmap string StoredCredential) (record : PasskeyState)
    : result WalletNodeError (gmap string StoredCredential) :=
  _ ← reject_if (negb (bool_decide (pk_format record = PASSKEY_FORMAT)) || (pk_record_version record =? 0))
        WN_CredentialNotFound;
  passkey ← map_err WN_WebAuthn (passkey_from_json (pk_passkey_json record));
  _ ← reject_if (negb (bool_decide (b64url_encode (passkey_cred_id passkey) = pk_credential_id record)))
        WN_CredentialNotFound;
  Ok (<[pk_credential_id record :=
        mkStoredCredential (pk_label record) (pk_enrolled_at record) (pk_record_version record) passkey]>
      credentials).

Definition is_local (host : string) : bool :=
  bool_decide (host = "localhost") || bool_decide (host = "127.0.0.1") || bool_decide (host = "[::1]")
  || bool_decide (host = "::1").

Definition new_with_state (config : RelyingPartyConfig) (user_id : Uuid) (passkeys : list PasskeyState)
    : result WalletNodeError WebAuthnRelyingParty :=
  _ ← reject_if (rp_ceremony_ttl_seconds config <=? 0) WN_InvalidCeremonyTtl;
  origin ← map_err WN_InvalidOrigin (url_parse (rp_origin config));
  host ← ok_or (url_host_str origin) (WN_InvalidOrigin "origin has no host");
  let local := is_local host in
  _ ← reject_if (negb local && negb (bool_decide (url_scheme origin = "https"))) WN_InsecureRemoteOrigin;
  _ ← reject_if (negb (bool_decide (url_scheme origin = "https"))
                 && negb (local && bool_decide (url_scheme origin = "http")))
        (WN_InvalidOrigin "origin must be HTTPS, except localhost development");
  webauthn ← map_err WN_WebAuthn
               (webauthn_build (rp_id config) origin (rp_name config) (rp_ceremony_ttl_seconds config));
  credentials ← foldM restore_passkey ∅ passkeys;
  Ok (mkWebAuthnRelyingParty config webauthn user_id credentials ∅ ∅).

Definition credential_count (rp : WebAuthnRelyingParty) : nat := size (wr_credentials rp).

Definition primary_credential_id (rp : WebAuthnRelyingParty) : option string :=
  head (hash_iter (map_to_list (wr_credentials rp))).*1.

Definition passkey_state (rp : WebAuthnRelyingParty) (credential_id : string) : option PasskeyState :=
  stored ← wr_credentials rp !! credential_id;
  json ← result_ok (passkey_to_json (sc_passkey stored));
  Some (mkPasskeyState credential_id (sc_label stored) json PASSKEY_FORMAT (sc_record_version stored)
          (sc_registered_at stored)).

Definition remove_credential (rp : WebAuthnRelyingParty) (credential_id : string) : WebAuthnRelyingParty :=
  set_credentials rp (delete credential_id (wr_credentials rp)).

Definition invalidate_approval (rp : WebAuthnRelyingParty) (ceremony_id : Uuid) : WebAuthnRelyingParty :=
  set_approvals rp (delete ceremony_id (wr_approvals rp)).

Definition commit_verified_passkey (rp : WebAuthnRelyingParty) (approval : VerifiedPasskeyApproval)
    : WebAuthnRelyingParty :=
  set_credentials rp
    (alter (fun stored => mkStoredCredential (sc_label stored) (sc_registered_at stored)
                            (saturating_add 64 (sc_record_version stored) 1) (va_updated_passkey approval))
       (va_credential_id approval) (wr_credentials rp)).

(** ** Registration *)

Definition rp_registration_start (request : PasskeyRegistrationStartRequest) (now : Z) (ceremony_id : Uuid)
    (rng : bytes) : act WebAuthnRelyingParty WalletNodeError PasskeyRegistrationStartResponse := fun rp =>
  let r :=
    _ ← reject_if (str_is_blank (rs_label request) || str_is_blank (rs_user_name request)
                   || str_is_blank (rs_display_name request)) WN_InvalidRegistrationIdentity;
    let excluded :=
      if bool_decide (wr_credentials rp = ∅) then None
      else Some ((fun stored => passkey_cred_id (sc_passkey stored))
                 <$> (hash_iter (map_to_list (wr_credentials rp))).*2) in
    map_err WN_WebAuthn
      (start_passkey_registration (wr_webauthn rp) (wr_user_id rp) (rs_user_name request)
         (rs_display_name request) excluded rng) in
  match r with
  | Err e => (rp, Err e)
  | Ok (public_key, state) =>
      let expires_at := saturating_add_i64 now (rp_ceremony_ttl_seconds (wr_config rp)) in
      (set_registrations rp
         (<[ceremony_id := mkRegistrationCeremony (rs_label request) expires_at state]> (wr_registrations rp)),
       Ok (mkPasskeyRegistrationStartResponse ceremony_id public_key expires_at))
  end.

(** The ceremony is consumed before any check. *)
Definition rp_registration_finish (request : PasskeyRegistrationFinishRequest) (now : Z)
    : act WebAuthnRelyingParty WalletNodeError PasskeyRegistrationFinishResponse := fun rp =>
  match wr_registrations rp !! rq_ceremony_id request with
  | None => (rp, Err WN_CeremonyNotFound)
  | Some ceremony =>
      let rp := set_registrations rp (delete (rq_ceremony_id request) (wr_registrations rp)) in
      let r :=
        _ ← reject_if (negb (bool_decide (wr_credentials rp = ∅))) WN_RegistrationLocked;
        _ ← reject_if (rc_expires_at ceremony <? now) WN_CeremonyExpired;
        passkey ← map_err WN_WebAuthn
                    (finish_passkey_registration (wr_webauthn rp) (rq_credential request) (rc_state ceremony));
        let credential_id := b64url_encode (passkey_cred_id passkey) in
        _ ← reject_if (bool_decide (is_Some (wr_credentials rp !! credential_id))) WN_CredentialAlreadyRegistered;
        Ok (passkey, credential_id) in
      match r with
      | Err e => (rp, Err e)
      | Ok (passkey, credential_id) =>
          (set_credentials rp
             (<[credential_id := mkStoredCredential (rc_label ceremony) now 1 passkey]> (wr_credentials rp)),
           Ok (mkPasskeyRegistrationFinishResponse credential_id (rc_label ceremony) now))
      end
  end.

(** ** Approval *)

Definition approval_binding (intent : SigningIntent) (expires_at : Z) : ApprovalBinding :=
  mkApprovalBinding (si_id intent) (hex_encode (intent_digest intent)) (si_signer_id intent)
    (hex_encode (si_session_id intent)) (hex_encode (si_tx_digest intent)) expires_at.

Definition rp_approval_start (intent : SigningIntent) (now : Z) (ceremony_id : Uuid) (rng : bytes)
    : act WebAuthnRelyingParty WalletNodeError ApprovalStartResponse := fun rp =>
  let r :=
    _ ← reject_if (negb (bool_decide (si_status intent = IntentPending))) WN_IntentNotPending;
    _ ← reject_if (is_expired intent now) WN_IntentExpired;
    _ ← reject_if (bool_decide (wr_credentials rp = ∅)) WN_NoCredentials;
    let passkeys := sc_passkey <$> (hash_iter (map_to_list (wr_credentials rp))).*2 in
    map_err WN_WebAuthn (start_passkey_authentication (wr_webauthn rp) passkeys rng) in
  match r with
  | Err e => (rp, Err e)
  | Ok (public_key, state) =>
      let ceremony_expiry := saturating_add_i64 now (rp_ceremony_ttl_seconds (wr_config rp)) in
      let expires_at := Z.min (si_expiry intent) ceremony_expiry in
      let binding := approval_binding intent expires_at in
      (set_approvals rp
         (<[ceremony_id := mkApprovalCeremony binding (intent_digest intent) (si_session_id intent)
                             (si_tx_digest intent) state]> (wr_approvals rp)),
       Ok (mkApprovalStartResponse ceremony_id public_key binding))
  end.

(** The checks of [approval_finish] on the consumed ceremony. *)
Definition verify_approval (rp : WebAuthnRelyingParty) (ceremony : ApprovalCeremony) (requested_intent_id : Uuid)
    (current_intent : SigningIntent) (request : ApprovalFinishRequest) (now : Z)
    : result WalletNodeError VerifiedPasskeyApproval :=
  _ ← reject_if (bi_expires_at (ay_binding ceremony) <? now) WN_CeremonyExpired;
  _ ← reject_if
        (negb (bool_decide (requested_intent_id = bi_intent_id (ay_binding ceremony)))
         || negb (bool_decide (si_id current_intent = bi_intent_id (ay_binding ceremony)))
         || negb (bool_decide (intent_digest current_intent = ay_intent_digest ceremony))
         || negb (si_signer_id current_intent =? bi_signer_id (ay_binding ceremony))
         || negb (bool_decide (si_session_id current_intent = ay_session_id ceremony))
         || negb (bool_decide (si_tx_digest current_intent = ay_message ceremony))) WN_IntentBindingMismatch;
  _ ← reject_if (negb (bool_decide (si_status current_intent = IntentPending))) WN_IntentNotPending;
  res ← map_err WN_WebAuthn
          (finish_passkey_authentication (wr_webauthn rp) (af_credential request) (ay_state ceremony));
  _ ← reject_if (negb (user_verified res)) WN_UserVerificationRequired;
  let id := b64url_encode (result_cred_id res) in
  stored ← ok_or (wr_credentials rp !! id) WN_CredentialNotFound;
  updated_passkey ← ok_or (update_credential (sc_passkey stored) res) WN_CredentialNotFound;
  updated_passkey_json ← map_err WN_WebAuthn (passkey_to_json updated_passkey);
  Ok (mkVerifiedPasskeyApproval (af_ceremony_id request) (si_id current_intent) (ay_intent_digest ceremony)
        (si_signer_id current_intent) (ay_session_id ceremony) (ay_message ceremony)
        (bi_expires_at (ay_binding ceremony)) id (sc_record_version stored) updated_passkey_json updated_passkey).

Definition rp_approval_finish (requested_intent_id : Uuid) (current_intent : SigningIntent)
    (request : ApprovalFinishRequest) (now : Z)
    : act WebAuthnRelyingParty WalletNodeError VerifiedPasskeyApproval := fun rp =>
  match wr_approvals rp !! af_ceremony_id request with
  | None => (rp, Err WN_CeremonyNotFound)
  | Some ceremony =>
      let rp := set_approvals rp (delete (af_ceremony_id request) (wr_approvals rp)) in
      (rp, verify_approval rp ceremony requested_intent_id current_intent request now)
  end.

(** ** Lemmas *)

(** An approval ceremony is bound to one intent: its ids, digest, session and
    message are those of the intent it was started for. *)
Definition ceremony_for (c : ApprovalCeremony) (i : SigningIntent) : Prop :=
  bi_intent_id (ay_binding c) = si_id i /\ ay_intent_digest c = intent_digest i /\
  bi_signer_id (ay_binding c) = si_signer_id i /\ ay_session_id c = si_session_id i /\
  ay_message c = si_tx_digest i /\ bi_expires_at (ay_binding c) <= si_expiry i.

Lemma rp_approval_start_Ok i now cid rng rp rp' resp :
  rp_approval_start i now cid rng rp = (rp', Ok resp) ->
  si_status i = IntentPending /\ now <= si_expiry i /\ ar_ceremony_id resp = cid /\
  exists c, ceremony_for c i /\ ar_binding resp = ay_binding c /\
    rp' = set_approvals rp (<[cid := c]> (wr_approvals rp)).
Proof.
  unfold rp_approval_start, is_expired. destruct (_ ≫= _) as [[pk st]|e] eqn:Hr; intros [= <- <-].
  res_inv. split_and!; [done|lia|done|]. eexists (mkApprovalCeremony _ _ _ _ _). split; [|by split].
  unfold ceremony_for. simpl. split_and!; [done..|lia].
Qed.

Lemma rp_approval_finish_Ok id i req now rp rp' v :
  rp_approval_finish id i req now rp = (rp', Ok v) ->
  exists c, wr_approvals rp !! af_ceremony_id req = Some c /\
    rp' = set_approvals rp (delete (af_ceremony_id req) (wr_approvals rp)) /\
    id = si_id i /\ bi_intent_id (ay_binding c) = id /\ ay_intent_digest c = intent_digest i /\
    now <= bi_expires_at (ay_binding c) /\ si_status i = IntentPending /\
    va_intent_id v = id /\ va_intent_digest v = intent_digest i /\ va_signer_id v = si_signer_id i /\
    va_session_id v = si_session_id i /\ va_message v = si_tx_digest i /\
    va_ceremony_id v = af_ceremony_id req /\
    (exists res, finish_passkey_authentication (wr_webauthn rp) (af_credential req) (ay_state c) = Ok res /\
       user_verified res = true /\ va_credential_id v = b64url_encode (result_cred_id res) /\
       is_Some (wr_credentials rp !! va_credential_id v)).
Proof.
  unfold rp_approval_finish. destruct (wr_approvals rp !! _) as [c|]; [|done].
  intros [= <- Hv]. unfold verify_approval in Hv. res_inv. subst. simpl in *.
  exists c. split_and!; try done; try lia; try congruence. eexists. by split_and!.
Qed.

(** A ceremony is gone once it was presented, whatever the outcome. *)
Lemma rp_approval_finish_consumes id i req now rp :
  wr_approvals (rp_approval_finish id i req now rp).1 !! af_ceremony_id req = None.
Proof.
  unfold rp_approval_finish. destruct (wr_approvals rp !! _) as [c|] eqn:E; simpl; [apply lookup_delete_eq|done].
Qed.

(** The relying party never holds two credentials it enrolled itself. *)
Lemma rp_registration_finish_credentials req now rp :
  let rp' := (rp_registration_finish req now rp).1 in
  wr_credentials rp' = wr_credentials rp \/
  (wr_credentials rp = ∅ /\ exists id c, wr_credentials rp' = {[id := c]}).
Proof.
  unfold rp_registration_finish. destruct (wr_registrations rp !! _) as [c|]; [|by left].
  destruct (_ ≫= _) as [[pk id]|e] eqn:Hr; [|by left]. res_inv. right. simpl in *. split; [done|].
  eexists _, _. match goal with He : wr_credentials rp = ∅ |- _ => rewrite He end.
  by rewrite insert_empty.
Qed.

Lemma rp_approval_start_credentials i now cid rng rp :
  wr_credentials (rp_approval_start i now cid rng rp).1 = wr_credentials rp.
Proof. unfold rp_approval_start. destruct (_ ≫= _) as [[pk st]|e]; done. Qed.
Lemma rp_approval_finish_credentials id i req now rp :
  wr_credentials (rp_approval_finish id i req now rp).1 = wr_credentials rp.
Proof. unfold rp_approval_finish. by destruct (wr_approvals rp !! _). Qed.
Lemma rp_registration_start_credentials req now cid rng rp :
  wr_credentials (rp_registration_start req now cid rng rp).1 = wr_credentials rp.
Proof. unfold rp_registration_start. destruct (_ ≫= _) as [[pk st]|e]; done. Qed.
End relying_party.
