(* ===== verification/Covhub.v ===== *)
(** * The CovHub bridge
      (src/crates/wallet-core/src/covhub.rs)

    Strict parsing of a wallet proposal, its content digest, the local review,
    and the pending intent it may become.  JSON (serde_json), its canonical
    form (serde_jcs) and the derived deserializer of the wire record enter as
    [JsonLib]. *)

From Stdlib Require Import ZArith Lia.
From S2P Require Import Prelude Bitcoin Text Rfc3339 ChainDomain SigningDomain Personal Intent SigningJob.
From stdpp Require Import list.
Local Open Scope string_scope.
Local Open Scope list_scope.
Local Open Scope Z_scope.

Definition COVHUB_WALLET_PROPOSAL_SCHEMA : string := "covhub.wallet-proposal/v1".
Definition COVHUB_PROPOSAL_ID_PREFIX : string := "proposal:".
Definition COVHUB_MAX_DECODED_MATERIAL_BYTES : nat := MAX_REVIEW_MATERIAL_BYTES.
Definition COVHUB_SIGNING_INTENT_VERSION : Z := 1.

Inductive CovhubError :=
| CH_InvalidJson (reason : string)
| CH_StrictParse (reason : string)
| CH_UnsupportedSchema (actual : string)
| CH_InvalidProposalId (id : string)
| CH_InvalidDigest (field digest : string)
| CH_UnsupportedEncoding (encoding : string)
| CH_EmptyMediaType
| CH_EmptySummary
| CH_AnalysisOnlyWithoutBlocker
| CH_ReadyWithBlocker
| CH_ContentDigestMismatch (declared computed : string)
| CH_InvalidBase64
| CH_MaterialTooLarge (actual_bytes max_bytes : nat)
| CH_TransactionHashMismatch (declared computed : string)
| CH_UnsupportedScope (scope : ChainScope)
| CH_ReviewFailed (e : ReviewContractError)
| CH_AnalysisOnly
| CH_ExpiredProposal (expires_at : string)
| CH_ProfileScopeMismatch (profile_scope proposal_scope : ChainScope)
| CH_ProfileNotExecutable (profile_id : Uuid) (e : SigningContractError)
| CH_InvalidTimestamp (text : string).

Record CovhubTransactionMaterial := mkCovhubTransactionMaterial {
  tm_encoding : string;
  tm_media_type : string;
  tm_material_base64 : string;
  tm_sha256 : string;
}.

Inductive CovhubReadinessStatus := ReadyForWalletReview | AnalysisOnly.
#[export] Instance CovhubReadinessStatus_eq_dec : EqDecision CovhubReadinessStatus.
Proof. solve_decision. Defined.
Record CovhubReadiness := mkCovhubReadiness {
  rd_status : CovhubReadinessStatus;
  rd_blockers : list string;
}.

Record CovhubChainScopeWire := mkCovhubChainScopeWire {
  sw_schema_version : Z;
  sw_chain : ChainId;
  sw_network : string;
}.

(** [CovhubWalletProposalWire] and [CovhubWalletProposal] have the same fields
    but for the scope. *)
Record Proposal (Scope : Type) := mkProposal {
  wp_schema : string;
  wp_proposal_id : string;
  wp_canvas_digest : string;
  wp_code_confirmation_digest : string;
  wp_chain_scope : Scope;
  wp_transaction : CovhubTransactionMaterial;
  wp_summary : string;
  wp_created_at : string;
  wp_expires_at : string;
  wp_readiness : CovhubReadiness;
  wp_content_digest : string;
}.
Arguments mkProposal {_} _ _ _ _ _ _ _ _ _ _ _.
Arguments wp_schema {_} _.
Arguments wp_proposal_id {_} _.
Arguments wp_canvas_digest {_} _.
Arguments wp_code_confirmation_digest {_} _.
Arguments wp_chain_scope {_} _.
Arguments wp_transaction {_} _.
Arguments wp_summary {_} _.
Arguments wp_created_at {_} _.
Arguments wp_expires_at {_} _.
Arguments wp_readiness {_} _.
Arguments wp_content_digest {_} _.
Definition CovhubWalletProposalWire : Type := Proposal CovhubChainScopeWire.
Definition CovhubWalletProposal : Type := Proposal ChainScope.

Class JsonLib := {
  Json : Type;
  json_from_str : string -> result string Json;
  (* the derived, unknown-field-rejecting deserializer *)
  wire_from_value : Json -> result string CovhubWalletProposalWire;
  json_is_object : Json -> bool;
  json_remove : string -> Json -> Json;
  jcs_to_string : Json -> result string string;
}.

(** ** Parsing *)

Definition to_chain_scope (w : CovhubChainScopeWire) : result CovhubError ChainScope :=
  _ ← reject_if (negb (sw_schema_version w =? 1)) (CH_StrictParse "unsupported chain scope schema version");
  network ← match ChainNetwork_from_str (sw_network w) with
            | Ok network => Ok network
            | Err _ =>
                match RpcPresetId_from_str (sw_network w) with
                | Ok preset => Ok (RpcPresetId_chain_network preset)
                | Err _ => Err (CH_StrictParse "unsupported concrete chain network")
                end
            end;
  map_err (fun _ => CH_StrictParse "chain does not match network") (ChainScope_new (sw_chain w) network).

Definition valid_sha256_digest (value : string) : bool :=
  match strip_prefix_bytes (ascii_bytes "sha256:") (ascii_bytes value) with
  | None => false
  | Some hex_part => (length hex_part =? 64)%nat && forallb is_lower_hex hex_part
  end.

(** The loop over the three labelled digests. *)
Fixpoint check_digests (l : list (string * string)) : result CovhubError unit :=
  match l with
  | [] => Ok tt
  | (label, digest) :: rest =>
      if valid_sha256_digest digest then check_digests rest else Err (CH_InvalidDigest label digest)
  end.

Definition check_readiness (r : CovhubReadiness) : result CovhubError unit :=
  match rd_status r with
  | ReadyForWalletReview => reject_if (negb (bool_decide (rd_blockers r = []))) CH_ReadyWithBlocker
  | AnalysisOnly => reject_if (bool_decide (rd_blockers r = [])) CH_AnalysisOnlyWithoutBlocker
  end.

Definition rfc3339 (s : string) : result CovhubError Z := ok_or (parse_rfc3339_seconds s) (CH_InvalidTimestamp s).

Record CovhubPendingIntentRequest (T : Type) := mkCovhubPendingIntentRequest {
  cp_raw_proposal : string;
  cp_suite : T;
  cp_profile : SignerProfile;
  cp_session_id : bytes;
  cp_now : Z;
  cp_intent_id : option Uuid;
}.
Arguments mkCovhubPendingIntentRequest {_} _ _ _ _ _ _.
Arguments cp_raw_proposal {_} _.
Arguments cp_suite {_} _.
Arguments cp_profile {_} _.
Arguments cp_session_id {_} _.
Arguments cp_now {_} _.
Arguments cp_intent_id {_} _.

Section covhub.
Context `{BitcoinLib} `{TextCodec} `{JsonLib}.

(** [CovhubWalletProposal::parse] *)
Definition parse (raw : string) : result CovhubError CovhubWalletProposal :=
  value ← map_err CH_InvalidJson (json_from_str raw);
  wire ← map_err CH_StrictParse (wire_from_value value);
  chain_scope ← to_chain_scope (wp_chain_scope wire);
  _ ← reject_if (negb (bool_decide (wp_schema wire = COVHUB_WALLET_PROPOSAL_SCHEMA)))
        (CH_UnsupportedSchema (wp_schema wire));
  _ ← reject_if (negb (starts_with COVHUB_PROPOSAL_ID_PREFIX (wp_proposal_id wire))
                 || (String.length (wp_proposal_id wire) <=? String.length COVHUB_PROPOSAL_ID_PREFIX)%nat)
        (CH_InvalidProposalId (wp_proposal_id wire));
  _ ← check_digests [("canvas_digest", wp_canvas_digest wire);
                     ("code_confirmation_digest", wp_code_confirmation_digest wire);
                     ("content_digest", wp_content_digest wire)];
  _ ← reject_if (negb (bool_decide (tm_encoding (wp_transaction wire) = "base64")))
        (CH_UnsupportedEncoding (tm_encoding (wp_transaction wire)));
  _ ← reject_if (str_is_blank (tm_media_type (wp_transaction wire))) CH_EmptyMediaType;
  _ ← reject_if (negb (valid_sha256_digest (tm_sha256 (wp_transaction wire))))
        (CH_InvalidDigest "transaction.sha256" (tm_sha256 (wp_transaction wire)));
  _ ← reject_if (str_is_blank (wp_summary wire)) CH_EmptySummary;
  _ ← check_readiness (wp_readiness wire);
  _ ← rfc3339 (wp_created_at wire);
  _ ← rfc3339 (wp_expires_at wire);
  Ok (mkProposal (wp_schema wire) (wp_proposal_id wire) (wp_canvas_digest wire)
        (wp_code_confirmation_digest wire) chain_scope (wp_transaction wire) (wp_summary wire)
        (wp_created_at wire) (wp_expires_at wire) (wp_readiness wire) (wp_content_digest wire)).

Definition sha256_text (b : bytes) : string := String.append "sha256:" (hex_encode (sha256 b)).

Definition compute_content_digest (raw : string) : result CovhubError string :=
  value ← map_err CH_InvalidJson (json_from_str raw);
  _ ← reject_if (negb (json_is_object value)) (CH_InvalidJson "proposal root must be an object");
  let value := json_remove "content_digest" value in
  canonical ← map_err CH_InvalidJson (jcs_to_string value);
  Ok (sha256_text (ascii_bytes canonical)).

Definition verify_content_digest (raw : string) : result CovhubError string :=
  proposal ← parse raw;
  computed ← compute_content_digest raw;
  _ ← reject_if (negb (bool_decide (wp_content_digest proposal = computed)))
        (CH_ContentDigestMismatch (wp_content_digest proposal) computed);
  Ok computed.

Definition decode_transaction_material (proposal : CovhubWalletProposal) : result CovhubError bytes :=
  decoded ← ok_or (base64_decode (tm_material_base64 (wp_transaction proposal))) CH_InvalidBase64;
  _ ← reject_if (COVHUB_MAX_DECODED_MATERIAL_BYTES <? length decoded)%nat
        (CH_MaterialTooLarge (length decoded) COVHUB_MAX_DECODED_MATERIAL_BYTES);
  let computed := sha256_text decoded in
  _ ← reject_if (negb (bool_decide (computed = tm_sha256 (wp_transaction proposal))))
        (CH_TransactionHashMismatch (tm_sha256 (wp_transaction proposal)) computed);
  Ok decoded.

(** ** Inspection *)

Record CovhubInspection := mkCovhubInspection {
  ci_proposal : CovhubWalletProposal;
  ci_decoded_material_size : nat;
  ci_review : ReviewArtifact;
  ci_is_expired : bool;
  ci_eligible : bool;
}.

Definition inspect_covhub_wallet_proposal {T} `{ChainSuite T} (raw : string) (suite : T) (now : Z)
    : result CovhubError CovhubInspection :=
  proposal ← parse raw;
  _ ← verify_content_digest raw;
  decoded ← decode_transaction_material proposal;
  _ ← reject_if (negb (bool_decide (suite_scope suite = wp_chain_scope proposal)))
        (CH_UnsupportedScope (wp_chain_scope proposal));
  review ← map_err CH_ReviewFailed (review_transaction suite decoded);
  expires_seconds ← rfc3339 (wp_expires_at proposal);
  let is_expired := expires_seconds <? now in
  let eligible := bool_decide (rd_status (wp_readiness proposal) = ReadyForWalletReview) && negb is_expired in
  Ok (mkCovhubInspection proposal (length decoded) review is_expired eligible).

(** ** The chain-neutral intent *)

Inductive CovhubIntentStatus := CovPending | CovApproved | CovCancelled | CovExpired | CovSigned.
#[export] Instance CovhubIntentStatus_eq_dec : EqDecision CovhubIntentStatus.
Proof. solve_decision. Defined.

Record CovhubSigningIntent := mkCovhubSigningIntent {
  ch_version : Z;
  ch_intent_id : Uuid;
  ch_proposal_id : string;
  ch_proposal_digest : string;
  ch_canvas_digest : string;
  ch_code_confirmation_digest : string;
  ch_chain_scope : ChainScope;
  ch_review_digest : bytes;
  ch_signing_message_digest : bytes;
  ch_session_id : bytes;
  ch_profile_id : Uuid;
  ch_expires_at : Z;
  ch_created_at : Z;
  ch_status : CovhubIntentStatus;
}.

Definition CovhubSigningIntent_canonical_bytes (i : CovhubSigningIntent) : bytes :=
  covhub_canonical_bytes (ch_version i) (ch_intent_id i) (ch_proposal_id i) (ch_proposal_digest i)
    (ch_canvas_digest i) (ch_code_confirmation_digest i) (ch_chain_scope i) (ch_review_digest i)
    (ch_signing_message_digest i) (ch_session_id i) (ch_profile_id i) (ch_expires_at i).

Definition CovhubSigningIntent_digest (i : CovhubSigningIntent) : bytes :=
  sha256 (CovhubSigningIntent_canonical_bytes i).

Definition covhub_status (s : IntentStatus) : CovhubIntentStatus :=
  match s with
  | IntentPending => CovPending
  | IntentApproved => CovApproved
  | IntentCancelled => CovCancelled
  | IntentExpired => CovExpired
  | IntentSigning | IntentSigned => CovSigned
  end.

Definition from_wallet_intent (i : SigningIntent) : option CovhubSigningIntent :=
  b ← si_covhub i;
  Some (mkCovhubSigningIntent (cb_version b) (si_id i) (cb_proposal_id b) (cb_proposal_digest b)
          (cb_canvas_digest b) (cb_code_confirmation_digest b) (cb_chain_scope b) (cb_review_digest b)
          (cb_signing_message_digest b) (si_session_id i) (cb_profile_id b) (si_expiry i) (si_created_at i)
          (covhub_status (si_status i))).

Definition from_covhub_intent (i : CovhubSigningIntent) : CovhubBinding :=
  mkCovhubBinding (ch_version i) (ch_proposal_id i) (ch_proposal_digest i) (ch_canvas_digest i)
    (ch_code_confirmation_digest i) (ch_chain_scope i) (ch_review_digest i) (ch_signing_message_digest i)
    (ch_profile_id i).

Definition covhub_job_matches_binding (intent : SigningIntent) (job : SigningJob) (profile_scope : ChainScope)
    (profile_suite : SigningSuiteId) : bool :=
  match si_covhub intent with
  | None => true
  | Some binding =>
      if negb (bool_decide (sj_chain_scope job = cb_chain_scope binding))
         || negb (bool_decide (ra_review_digest (sj_review job) = cb_review_digest binding))
         || negb (bool_decide (ra_signing_message_digest (sj_review job) = cb_signing_message_digest binding))
         || negb (bool_decide (sj_profile_id job = cb_profile_id binding))
         || negb (bool_decide (sj_session_id job = si_session_id intent))
         || negb (sj_expires_at job =? si_expiry intent)
      then false
      else
        negb (negb (bool_decide (profile_scope = cb_chain_scope binding))
              || negb (bool_decide (profile_suite = sj_signing_suite_id job))
              || negb (is_ok (require_executable_suite (cb_chain_scope binding) profile_suite)))
  end.

(** [fresh] is the [Uuid::new_v4()] used when the request names no id. *)
Definition create_covhub_signing_intent {T} `{ChainSuite T} (request : CovhubPendingIntentRequest T) (fresh : Uuid)
    : result CovhubError CovhubSigningIntent :=
  inspection ← inspect_covhub_wallet_proposal (cp_raw_proposal request) (cp_suite request) (cp_now request);
  let proposal := ci_proposal inspection in
  _ ← (if negb (ci_eligible inspection)
       then if bool_decide (rd_status (wp_readiness proposal) = AnalysisOnly)
            then Err CH_AnalysisOnly
            else Err (CH_ExpiredProposal (wp_expires_at proposal))
       else Ok tt);
  _ ← reject_if (negb (bool_decide (sp_chain_scope (cp_profile request) = wp_chain_scope proposal)))
        (CH_ProfileScopeMismatch (sp_chain_scope (cp_profile request)) (wp_chain_scope proposal));
  _ ← map_err (CH_ProfileNotExecutable (sp_profile_id (cp_profile request)))
        (require_executable_suite (sp_chain_scope (cp_profile request)) (sp_signing_suite_id (cp_profile request)));
  expires_seconds ← rfc3339 (wp_expires_at proposal);
  Ok (mkCovhubSigningIntent COVHUB_SIGNING_INTENT_VERSION (default fresh (cp_intent_id request))
        (wp_proposal_id proposal) (wp_content_digest proposal) (wp_canvas_digest proposal)
        (wp_code_confirmation_digest proposal) (wp_chain_scope proposal)
        (ra_review_digest (ci_review inspection)) (ra_signing_message_digest (ci_review inspection))
        (cp_session_id request) (sp_profile_id (cp_profile request)) expires_seconds (cp_now request) CovPending).

(** ** Lemmas *)

Lemma to_chain_scope_Ok w s : to_chain_scope w = Ok s -> scope_wf s /\ cs_chain s = sw_chain w.
Proof.
  unfold to_chain_scope. intros Hs. res_inv.
  match goal with E : ChainScope_new _ _ = Ok _ |- _ => apply ChainScope_new_Ok in E as [? ->] end.
  unfold scope_wf. by simpl.
Qed.

(** What a parsed proposal satisfies. *)
Record proposal_wf (p : CovhubWalletProposal) : Prop := {
  pw_schema : wp_schema p = COVHUB_WALLET_PROPOSAL_SCHEMA;
  pw_scope : scope_wf (wp_chain_scope p);
  pw_digests : Forall (fun d => valid_sha256_digest d = true)
                 [wp_canvas_digest p; wp_code_confirmation_digest p; wp_content_digest p; tm_sha256 (wp_transaction p)];
  pw_readiness : rd_status (wp_readiness p) = ReadyForWalletReview <-> rd_blockers (wp_readiness p) = [];
  pw_times : is_Some (parse_rfc3339_seconds (wp_created_at p)) /\ is_Some (parse_rfc3339_seconds (wp_expires_at p));
}.

Lemma check_digests_Ok l u : check_digests l = Ok u -> Forall (fun d => valid_sha256_digest d = true) l.*2.
Proof.
  induction l as [|[lab d] l IH]; simpl; [constructor|]. case_match; [|done]. intros ?%IH. by constructor.
Qed.

Lemma check_readiness_Ok r u :
  check_readiness r = Ok u -> (rd_status r = ReadyForWalletReview <-> rd_blockers r = []).
Proof.
  unfold check_readiness. destruct (rd_status r); intros Hr; res_inv; split; done.
Qed.

Lemma rfc3339_Ok s t : rfc3339 s = Ok t <-> parse_rfc3339_seconds s = Some t.
Proof. apply ok_or_Ok. Qed.

Lemma parse_wf raw p : parse raw = Ok p -> proposal_wf p.
Proof.
  unfold parse. intros Hp. res_inv. subst p.
  repeat match goal with
  | E : rfc3339 _ = Ok _ |- _ => apply rfc3339_Ok in E
  | E : check_digests _ = Ok _ |- _ => apply check_digests_Ok in E; simpl in E
  | E : check_readiness _ = Ok _ |- _ => apply check_readiness_Ok in E
  | E : to_chain_scope _ = Ok _ |- _ => apply to_chain_scope_Ok in E as [? ?]
  end.
  split; simpl; [done|done| |done|by eauto].
  repeat match goal with F : Forall _ (_ :: _) |- _ => apply Forall_cons in F as [? F] end. by repeat constructor.
Qed.

Lemma inspect_Ok {T} `{ChainSuite T} raw (suite : T) now i :
  inspect_covhub_wallet_proposal raw suite now = Ok i ->
  parse raw = Ok (ci_proposal i) /\ compute_content_digest raw = Ok (wp_content_digest (ci_proposal i)) /\
  suite_scope suite = wp_chain_scope (ci_proposal i) /\
  (exists decoded expires, decode_transaction_material (ci_proposal i) = Ok decoded /\
     (length decoded <= COVHUB_MAX_DECODED_MATERIAL_BYTES)%nat /\
     review_transaction suite decoded = Ok (ci_review i) /\
     parse_rfc3339_seconds (wp_expires_at (ci_proposal i)) = Some expires /\
     (ci_eligible i = true <-> rd_status (wp_readiness (ci_proposal i)) = ReadyForWalletReview /\ now <= expires)).
Proof.
  unfold inspect_covhub_wallet_proposal, verify_content_digest. intros Hi. res_inv. subst i. simpl in *.
  repeat match goal with
  | E : rfc3339 _ = Ok _ |- _ => apply rfc3339_Ok in E
  | E1 : parse raw = Ok ?a, E2 : parse raw = Ok ?b |- _ =>
      lazymatch a with b => fail | _ => rewrite E1 in E2; injection E2 as <- end
  end.
  split_and!; [done|congruence|done|]. eexists _, _. split_and!; [done| |done|done|].
  - unfold decode_transaction_material in *. res_inv. by subst.
  - guard_tac.
Qed.

Lemma covhub_job_matches_Ok i j scope suite b :
  covhub_job_matches_binding i j scope suite = true -> si_covhub i = Some b ->
  sj_chain_scope j = cb_chain_scope b /\ ra_review_digest (sj_review j) = cb_review_digest b /\
  ra_signing_message_digest (sj_review j) = cb_signing_message_digest b /\
  sj_profile_id j = cb_profile_id b /\ sj_session_id j = si_session_id i /\ sj_expires_at j = si_expiry i /\
  is_ok (require_executable_suite (cb_chain_scope b) (sj_signing_suite_id j)) = true.
Proof.
  unfold covhub_job_matches_binding. intros Hm Hb. rewrite Hb in Hm.
  case_match eqn:Hg; [done|]. autorewrite with guards in *. destruct_ex. subst suite. by split_and!.
Qed.

(** The wallet intent built from a CovHub intent gives it back. *)
Lemma from_wallet_covhub ci w :
  si_covhub w = Some (from_covhub_intent ci) -> si_id w = ch_intent_id ci -> si_session_id w = ch_session_id ci ->
  si_expiry w = ch_expires_at ci -> si_created_at w = ch_created_at ci ->
  covhub_status (si_status w) = ch_status ci -> from_wallet_intent w = Some ci.
Proof.
  unfold from_wallet_intent. intros -> -> -> -> -> ->. by destruct ci.
Qed.

Lemma wallet_covhub_digest w ci :
  from_wallet_intent w = Some ci -> intent_digest w = CovhubSigningIntent_digest ci.
Proof.
  unfold from_wallet_intent, intent_digest, CovhubSigningIntent_digest, canonical_bytes.
  destruct (si_covhub w) as [b|]; [|done]. by intros [= <-].
Qed.
End covhub.
