(* ===== verification/WalletApi.v ===== *)
(** * The provider-neutral wallet façade
      (src/crates/wallet-core/src/api.rs)

    Intents, approvals and the gate over any [WalletStore].  Fresh intent ids,
    approval nonces and tokens are arguments. *)

From Stdlib Require Import ZArith Lia.
From S2P Require Import Prelude Effects Bitcoin Text ChainDomain SigningDomain Personal Intent SigningJob Covhub Frost Gate WalletStore WebAuthn TransactionReview.
From stdpp Require Import list gmap.
From stdpp Require Import list.
Local Open Scope string_scope.
Local Open Scope list_scope.
Local Open Scope Z_scope.

Record NodeSnapshot := mkNodeSnapshot {
  ns_chain : string;
  ns_blocks : Z;
  ns_headers : Z;
  ns_subversion : string;
  ns_op_cat_active : bool;
}.
Record ThresholdSnapshot := mkThresholdSnapshot {
  ts_configured : bool;
  ts_min_signers : Z;
  ts_max_signers : Z;
  ts_group_pubkey_xonly : option string;
}.
Record SignerSnapshot := mkSignerSnapshot { ss_id : Z; ss_label : string; ss_online : bool }.
Record IntentSnapshot := mkIntentSnapshot {
  in_id : Uuid;
  in_signer_id : Z;
  in_tx_digest_hex : string;
  in_session_id_hex : string;
  in_status : IntentStatus;
  in_expiry : Z;
  in_approved : bool;
}.
Record SignerAddressSnapshot := mkSignerAddressSnapshot {
  sa_binding_id : Uuid;
  sa_chain_scope : ChainScope;
  sa_address : string;
  sa_verification_key_digest_hex : string;
}.
Record SignerProfileStartupSnapshot := mkSignerProfileStartupSnapshot {
  sn_profile_id : Uuid;
  sn_wallet_id : Uuid;
  sn_chain_scope : ChainScope;
  sn_signing_suite_id : SigningSuiteId;
  sn_backend_requirement : SignerBackendRequirement;
  sn_signer_set_id : string;
  sn_authorization_signer_id : string;
  sn_signer_epoch : Z;
  sn_threshold : Z;
  sn_max_signers : Z;
  sn_verification_key_hex : string;
  sn_secret_ref : string;
  sn_address_bindings : list SignerAddressSnapshot;
}.
Record WalletSnapshot := mkWalletSnapshot {
  ws_node : option NodeSnapshot;
  ws_threshold : ThresholdSnapshot;
  ws_signers : list SignerSnapshot;
  ws_pending_approvals : list IntentSnapshot;
  ws_recent_intents : list IntentSnapshot;
  ws_credentials : nat;
}.

Record CreateIntentRequest := mkCreateIntentRequest {
  ci_wallet_id : Uuid;
  ci_signer_id : Z;
  ci_tx_digest : bytes;
  ci_session_id : bytes;
  ci_expiry : Z;
}.
Record CreatePersonalIntentRequest := mkCreatePersonalIntentRequest {
  pi_wallet_id : Uuid;
  pi_tx_digest : bytes;
  pi_session_id : bytes;
  pi_expiry : Z;
  pi_policy : PersonalSigningPolicy;
}.
Record ApprovalChallenge := mkApprovalChallenge {
  al_intent_id : Uuid;
  al_challenge : bytes;
  al_challenge_b64url : string;
  al_expires_at : Z;
}.
Record ApprovalState := mkApprovalState {
  ap_intent_id : Uuid;
  ap_status : IntentStatus;
  ap_approved : bool;
  ap_challenge_issued : bool;
}.

(** [matches!(status, Approved | Signing | Signed)] *)
Definition is_approved (s : IntentStatus) : bool :=
  match s with IntentApproved | IntentSigning | IntentSigned => true | _ => false end.

(** [sort_by_key]: a stable sort on an integer key. *)
Fixpoint insert_by_key {A} (key : A -> Z) (x : A) (l : list A) : list A :=
  match l with
  | [] => [x]
  | y :: l' => if key x <=? key y then x :: l else y :: insert_by_key key x l'
  end.
Definition sort_by_key {A} (key : A -> Z) (l : list A) : list A := foldr (insert_by_key key) [] l.

Definition participant_id (authorization_signer_id : string) : Z :=
  let suffix := after_last (fun b => bool_decide (b = x2d) || bool_decide (b = x3a) || bool_decide (b = x2f))
                  (ascii_bytes authorization_signer_id) in
  match parse_unsigned 16 suffix with
  | Some value => if 0 <? value then value else 1
  | None => 1
  end.

Section api.
Context `{BitcoinLib} `{TextCodec} `{WebauthnLib} {S : Type} `{WalletStore S}.

Record WalletApi := mkWalletApi {
  wa_store : S;
  wa_gate : AuthorizationGate;
  wa_node : option NodeSnapshot;
  wa_threshold : ThresholdSnapshot;
  wa_signers : list SignerSnapshot;
}.

Definition set_store (s : S) (w : WalletApi) : WalletApi :=
  mkWalletApi s (wa_gate w) (wa_node w) (wa_threshold w) (wa_signers w).
Definition set_gate (g : AuthorizationGate) (w : WalletApi) : WalletApi :=
  mkWalletApi (wa_store w) g (wa_node w) (wa_threshold w) (wa_signers w).

Definition with_store (store : S) : WalletApi :=
  mkWalletApi store AuthorizationGate_new None (mkThresholdSnapshot false 0 0 None) [].

(** A call of the store with its error converted. *)
Definition store_call {A} (m : act S WalletStoreError A) : act WalletApi WalletError A :=
  zoom wa_store set_store WE_Store m.

(** ** Administration and status *)

Definition set_node_snapshot (node : option NodeSnapshot) (w : WalletApi) : WalletApi :=
  mkWalletApi (wa_store w) (wa_gate w) node (wa_threshold w) (wa_signers w).
Definition configure_threshold (min_signers max_signers : Z) (xonly : bytes) (w : WalletApi) : WalletApi :=
  mkWalletApi (wa_store w) (wa_gate w) (wa_node w)
    (mkThresholdSnapshot true min_signers max_signers (Some (hex_encode xonly))) (wa_signers w).
Definition set_signers (signers : list SignerSnapshot) (w : WalletApi) : WalletApi :=
  mkWalletApi (wa_store w) (wa_gate w) (wa_node w) (wa_threshold w) signers.

(** [cose_json] is the serde_json text of the optional public key. *)
Definition enroll_credential (label : string) (cose_json : string) (now : Z) (raw : bytes)
    : act WalletApi WalletError string :=
  let credential_id := b64url_encode raw in
  _ ← store_call (insert_passkey (mkPasskeyState credential_id label cose_json
                    "compatibility-public-key-metadata-v1" 1 now));
  mret credential_id.

Definition IntentSnapshot_from (i : SigningIntent) : IntentSnapshot :=
  mkIntentSnapshot (si_id i) (si_signer_id i) (hex_encode (si_tx_digest i)) (hex_encode (si_session_id i))
    (si_status i) (si_expiry i) (is_approved (si_status i)).

Definition status (w : WalletApi) : WalletSnapshot :=
  let intents := sort_by_key in_expiry (IntentSnapshot_from <$> list_intents (wa_store w)) in
  let pending := filter (fun i => in_status i = IntentPending /\ 0 < in_expiry i) intents in
  mkWalletSnapshot (wa_node w) (wa_threshold w) (wa_signers w) pending intents
    (match list_passkeys (wa_store w) with Ok records => length records | Err _ => O end).

Definition SignerAddressSnapshot_from (b : AddressBinding) : SignerAddressSnapshot :=
  mkSignerAddressSnapshot (ab_binding_id b) (ab_chain_scope b) (ab_address b)
    (hex_encode (ab_verification_key_digest b)).
Definition startup_snapshot (p : SignerProfile * list AddressBinding) : SignerProfileStartupSnapshot :=
  let '(profile, bindings) := p in
  mkSignerProfileStartupSnapshot (sp_profile_id profile) (sp_wallet_id profile) (sp_chain_scope profile)
    (sp_signing_suite_id profile) (sp_backend_requirement profile) (sp_signer_set_id profile)
    (sp_authorization_signer_id profile) (sp_signer_epoch profile) (sp_threshold profile)
    (sp_max_signers profile) (hex_encode (sp_verification_key profile)) (sp_secret_ref profile)
    (SignerAddressSnapshot_from <$> bindings).
Definition signer_profiles_snapshot (w : WalletApi) : result WalletError (list SignerProfileStartupSnapshot) :=
  profiles ← map_err WE_Store (signer_profiles (wa_store w));
  Ok (map startup_snapshot profiles).

(** ** Intents *)

Definition create_intent (req : CreateIntentRequest) (now : Z) (id : Uuid) (nonce : bytes)
    : act WalletApi WalletError SigningIntent :=
  _ ← lift (reject_if (ci_signer_id req =? 0) WE_InvalidSignerId);
  _ ← lift (reject_if (ci_expiry req <=? now) WE_InvalidExpiry);
  let intent := mkSigningIntent id Signet SIGNING_PROTOCOL_VERSION SignTaprootTransaction (ci_wallet_id req)
    (ci_signer_id req) None (ci_tx_digest req) (ci_session_id req) (ci_expiry req) nonce IntentPending now None in
  _ ← store_call (insert_intent intent);
  mret intent.

Definition create_personal_intent (req : CreatePersonalIntentRequest) (now : Z) (id : Uuid) (nonce : bytes)
    : act WalletApi WalletError SigningIntent :=
  let zero := replicate 32 x00 in
  _ ← lift (reject_if (pi_expiry req <=? now) WE_InvalidExpiry);
  _ ← lift (reject_if
        ((pp_signer_epoch (pi_policy req) =? 0)
         || negb (bool_decide (pp_allowed_participants (pi_policy req) = (1, 2, 3)))
         || negb (pp_threshold (pi_policy req) =? 2)
         || bool_decide (pp_group_pubkey_xonly (pi_policy req) = zero)
         || bool_decide (pp_policy_digest (pi_policy req) = zero)
         || bool_decide (pp_chain_snapshot_digest (pi_policy req) = zero)) WE_InvalidPersonalSigningPolicy);
  let intent := mkSigningIntent id Signet SIGNING_PROTOCOL_VERSION SignTaprootTransaction (pi_wallet_id req)
    0 (Some (pi_policy req)) (pi_tx_digest req) (pi_session_id req) (pi_expiry req) nonce IntentPending now None in
  _ ← store_call (insert_intent intent);
  mret intent.

Definition covhub_wallet_intent (covhub : CovhubSigningIntent) (profile : SignerProfile) (nonce : bytes)
    : SigningIntent :=
  mkSigningIntent (ch_intent_id covhub) NetworkCovhubDelegated SIGNING_PROTOCOL_VERSION ActionCovhubDelegated
    (sp_wallet_id profile) (participant_id (sp_authorization_signer_id profile)) None
    (ch_signing_message_digest covhub) (ch_session_id covhub) (ch_expires_at covhub) nonce IntentPending
    (ch_created_at covhub) (Some (from_covhub_intent covhub)).

Definition create_covhub_intent (covhub : CovhubSigningIntent) (now : Z) (nonce : bytes)
    : act WalletApi WalletError SigningIntent :=
  _ ← lift (reject_if (negb (bool_decide (ch_status covhub = CovPending))) WE_NotPending);
  _ ← lift (reject_if (ch_expires_at covhub <=? now) WE_InvalidExpiry);
  w ← gets id;
  profiles ← lift (map_err WE_Store (signer_profiles (wa_store w)));
  profile ← lift (ok_or (fst <$> List.find (fun p => bool_decide (sp_profile_id p.1 = ch_profile_id covhub)) profiles)
              WE_NotFound);
  _ ← lift (reject_if (negb (bool_decide (sp_chain_scope profile = ch_chain_scope covhub)))
              (WE_Store (mkWalletStoreError "covhub intent profile chain scope mismatch")));
  _ ← lift (reject_if
        (match store_wallet_id (wa_store w) with
         | Some wallet_id => negb (bool_decide (wallet_id = sp_wallet_id profile))
         | None => false
         end) (WE_Store (mkWalletStoreError "covhub intent profile belongs to a different wallet")));
  let intent := covhub_wallet_intent covhub profile nonce in
  _ ← store_call (insert_intent intent);
  mret intent.

Definition read_intent (id : Uuid) (w : WalletApi) : result WalletError SigningIntent :=
  ok_or (get_intent (wa_store w) id) WE_NotFound.

Definition cancel_intent (id : Uuid) (now : Z) : act WalletApi WalletError SigningIntent :=
  intent ← reads (read_intent id);
  match si_status intent with
  | IntentPending =>
      let intent := set_status intent (if is_expired intent now then IntentExpired else IntentCancelled) in
      _ ← store_call (update_intent intent now);
      mret intent
  | IntentExpired => mret intent
  | _ => lift (Err WE_NotPending)
  end.

(** ** Approval *)

Definition approval_challenge (id : Uuid) (now : Z) (w : WalletApi) : result WalletError ApprovalChallenge :=
  intent ← read_intent id w;
  _ ← reject_if (negb (bool_decide (si_status intent = IntentPending))) WE_NotPending;
  _ ← reject_if (is_expired intent now) (WE_Gate GateExpired);
  let challenge := intent_digest intent in
  Ok (mkApprovalChallenge id challenge (b64url_encode challenge) (si_expiry intent)).

Definition read_approval (id : Uuid) (w : WalletApi) : result WalletError ApprovalState :=
  intent ← read_intent id w;
  Ok (mkApprovalState id (si_status intent) (is_approved (si_status intent)) true).

Definition gate_call {A} (m : AuthorizationGate -> AuthorizationGate * result GateError A)
    : act WalletApi WalletError A := zoom wa_gate set_gate WE_Gate m.

Definition submit_verified (id : Uuid) (approval : VerifiedPasskeyApproval) (completion : ApprovalCompletionState)
    (now : Z) (token : bytes) : act WalletApi WalletError (AuthToken * AuthorizationState) :=
  intent ← reads (read_intent id);
  _ ← lift (reject_if
        (negb (bool_decide (va_intent_id approval = si_id intent))
         || negb (va_signer_id approval =? si_signer_id intent)
         || negb (bool_decide (va_session_id approval = si_session_id intent))
         || negb (bool_decide (va_message approval = si_tx_digest intent))
         || (si_expiry intent <? va_expires_at approval)) (WE_Gate ApprovalMismatch));
  _ ← lift (reject_if (is_approved (si_status intent)) WE_AlreadyApproved);
  auth ← gate_call (fun g => authorize_verified g intent (va_intent_digest approval) now token);
  persisted ← store_call (complete_approval completion);
  mret (auth, persisted).

Definition mark_signed (id : Uuid) (now : Z) : act WalletApi WalletError unit :=
  intent ← reads (read_intent id);
  store_call (update_intent (set_status intent IntentSigned) now).

(** ** Lemmas *)

Lemma submit_verified_Ok id v c now token w w' auth rec :
  submit_verified id v c now token w = (w', Ok (auth, rec)) ->
  exists i g', get_intent (wa_store w) id = Some i /\
    authorize_verified (wa_gate w) i (va_intent_digest v) now token = (g', Ok auth) /\
    complete_approval c (wa_store w) = (wa_store w', Ok rec) /\ wa_gate w' = g' /\
    va_intent_id v = si_id i /\ va_session_id v = si_session_id i /\ va_message v = si_tx_digest i /\
    va_signer_id v = si_signer_id i.
Proof.
  unfold submit_verified, store_call, gate_call. intros Hs. act_inv.
  unfold read_intent in *. res_inv. simplify_eq. simpl in *. eauto 12.
Qed.

Lemma insert_by_key_perm {A} (key : A -> Z) x l : insert_by_key key x l ≡ₚ x :: l.
Proof. induction l as [|y l IH]; simpl; [done|]. case_match; [done|]. rewrite IH. apply Permutation_swap. Qed.
Lemma sort_by_key_perm {A} (key : A -> Z) l : sort_by_key key l ≡ₚ l.
Proof. induction l as [|x l IH]; simpl; [done|]. by rewrite insert_by_key_perm, IH. Qed.
End api.

(** * Chat messages that propose wallet actions
      (src/crates/wallet-core/src/chat.rs) *)

Local Open Scope string_scope.
Local Open Scope list_scope.
Local Open Scope Z_scope.

Definition MAX_CHAT_MESSAGE_BYTES : nat := Z.to_nat 2000.
Definition MAX_CHAT_MESSAGES : nat := Z.to_nat 500.

Inductive ChatMessageRole := RoleUser | RoleWallet.
Inductive ChatMessageKind := KindText | KindWalletAction.
Inductive ChatAuthorizationState :=
| ChatPasskeyRequired | ChatApproved | ChatSigning | ChatCancelled | ChatExpired | ChatSigned.
#[export] Instance ChatAuthorizationState_eq_dec : EqDecision ChatAuthorizationState.
Proof. solve_decision. Defined.

Definition ChatAuthorizationState_from_intent (status : IntentStatus) (expired : bool) : ChatAuthorizationState :=
  match status with
  | IntentPending => if expired then ChatExpired else ChatPasskeyRequired
  | IntentApproved => ChatApproved
  | IntentSigning => ChatSigning
  | IntentCancelled => ChatCancelled
  | IntentExpired => ChatExpired
  | IntentSigned => ChatSigned
  end.

(** [ChatWalletActionRequest::SignTaprootTransaction], the only action. *)
Record ChatWalletActionRequest := mkChatWalletActionRequest {
  cw_wallet_id : Uuid;
  cw_signer_id : Z;
  cw_tx_digest : bytes;
  cw_session_id : bytes;
  cw_expiry : Z;
}.
Record CreateChatMessageRequest := mkCreateChatMessageRequest {
  cm_content : string;
  cm_wallet_action : option ChatWalletActionRequest;
}.
Record ChatIntentBinding := mkChatIntentBinding {
  cx_intent_id : Uuid;
  cx_intent_digest_hex : string;
  cx_network : IntentNetwork;
  cx_action : SigningAction;
  cx_wallet_id : Uuid;
  cx_signer_id : Z;
  cx_tx_digest_hex : string;
  cx_session_id_hex : string;
  cx_expiry : Z;
  cx_status : IntentStatus;
  cx_authorization : ChatAuthorizationState;
}.
Record ChatMessage := mkChatMessage {
  cg_id : Uuid;
  cg_role : ChatMessageRole;
  cg_kind : ChatMessageKind;
  cg_content : string;
  cg_created_at : Z;
  cg_wallet_action : option ChatIntentBinding;
}.
Record ChatExchange := mkChatExchange { ce_user_message : ChatMessage; ce_wallet_message : ChatMessage }.
Record ChatState := mkChatState { ct_messages : list ChatMessage; ct_pending_wallet_actions : nat }.

Record ChatRecord := mkChatRecord {
  cr_id : Uuid;
  cr_role : ChatMessageRole;
  cr_kind : ChatMessageKind;
  cr_content : string;
  cr_created_at : Z;
  cr_intent_id : option Uuid;
}.

Definition PREPARED_TEXT : string :=
  "Signing intent prepared. Review the exact binding, then approve it with your Passkey. Chat cannot approve or sign it.".
Definition OFFER_TEXT : string :=
  "I can prepare an exact-bound Taproot signing intent. Wallet-affecting actions always require Passkey approval before the signer is released.".

(** [ChatStore::add_exchange]; the store is its list of records and the two
    message ids are fresh. *)
Definition add_exchange (records : list ChatRecord) (content : string) (intent_id : option Uuid) (now : Z)
    (user_id wallet_id : Uuid) : list ChatRecord * (ChatRecord * ChatRecord) :=
  let user := mkChatRecord user_id RoleUser KindText content now None in
  let wallet := mkChatRecord wallet_id RoleWallet
    (if bool_decide (is_Some intent_id) then KindWalletAction else KindText)
    (if bool_decide (is_Some intent_id) then PREPARED_TEXT else OFFER_TEXT) now intent_id in
  (records ++ [user; wallet], (user, wallet)).

Definition chat_get (records : list ChatRecord) (id : Uuid) : option ChatRecord :=
  List.find (fun m => bool_decide (cr_id m = id)) records.
