(* ===== verification/WalletNode.v ===== *)
(** * The wallet node service
      (src/crates/wallet-core/src/node.rs)

    The typed façade that owns the relying party, one optional threshold
    signer, the wallet API and the authorizations.  The store and the signer
    are any instances of [WalletStore] and [ThresholdSigner]; fresh ids,
    nonces, tokens and signer randomness are arguments.  Text of status
    reports ([node_status], [signer_status]) is not modelled. *)

From Stdlib Require Import ZArith Lia.
From S2P Require Import Prelude Effects Bitcoin Text ChainDomain SigningDomain Personal Intent SigningJob Covhub Frost Participant Gate WalletStore Trading TransactionReview WebAuthn WalletApi.
From stdpp Require Import list gmap.
Local Open Scope string_scope.
Local Open Scope list_scope.
Local Open Scope Z_scope.

Inductive SigningPhase :=
| PhasePendingApproval | PhaseApproved | PhaseSigning | PhaseRoundOneReady | PhaseShareProduced
| PhaseSigned | PhaseCancelled | PhaseExpired.

(** ** The signer boundary *)

(** [trait ThresholdSigner]: round two takes the gate's token. *)
Class ThresholdSigner (P : Type) `{FrostLib} := {
  ts_signer_id : P -> Z;
  ts_label : P -> string;
  ts_online : P -> bool;
  ts_round1 : P -> bytes -> bytes -> Rng -> P * result SigningError SigningCommitments;
  ts_pending_nonce_fingerprint : P -> bytes -> bytes -> result SigningError bytes;
  ts_round2 : P -> FrostSession -> AuthToken -> Z -> P * AuthToken * result SigningError SignatureShare;
}.

(** What the node relies on: a share is released only when the token
    authorized this session, message and signer, and a signer keeps its id. *)
Class ThresholdSignerLaws (P : Type) `{ThresholdSigner P} : Prop := {
  round2_authorized p session auth now p' auth' share :
    ts_round2 p session auth now = (p', auth', Ok share) ->
    authorize auth (fs_id session) (fs_message session) (ts_signer_id p) now = (auth', Ok tt);
  round2_signer_id p session auth now : ts_signer_id (ts_round2 p session auth now).1.1 = ts_signer_id p;
  round1_signer_id p sid msg rng : ts_signer_id (ts_round1 p sid msg rng).1 = ts_signer_id p;
}.

(** [format!("local participant {}", id)]: the decimal text is a parameter. *)
Class ShowInt := show_int : Z -> string.

#[export] Instance LocalFrostParticipant_signer `{BitcoinLib} `{FrostLib} `{ShowInt}
    : ThresholdSigner LocalFrostParticipant := {
  ts_signer_id := lp_signer_id;
  ts_label p := String.append "local participant " (show_int (lp_signer_id p));
  ts_online _ := true;
  ts_round1 := round1;
  ts_pending_nonce_fingerprint := pending_nonce_fingerprint;
  ts_round2 := round2;
}.

Record CreateTradeIntentRequest := mkCreateTradeIntentRequest {
  ct_wallet_id : Uuid;
  ct_signer_id : Z;
  ct_session_id : bytes;
  ct_expiry : Z;
  ct_trade : TradeSigningRequest;
}.
Record CreateTransactionIntentRequest := mkCreateTransactionIntentRequest {
  cq_wallet_id : Uuid;
  cq_signer_id : Z;
  cq_session_id : bytes;
  cq_expiry : Z;
  cq_transaction : TransactionReviewRequest;
}.
Record TradeVerification := mkTradeVerification {
  tv_path : TradePath;
  tv_txid : bytes;
  tv_sighash_hex : string;
  tv_fee_sat : Z;
  tv_spent_order_outpoint : OutPoint;
  tv_listing_commitment_hex : string;
  tv_independently_verified_by : string;
}.
Record ThresholdSigningStatus := mkThresholdSigningStatus {
  tg_intent_id : Uuid;
  tg_signer_id : Z;
  tg_session_id_hex : string;
  tg_message_hex : string;
  tg_phase : SigningPhase;
  tg_expires_at : Z;
}.
Record ApprovalFinishResponse := mkApprovalFinishResponse {
  an_intent_id : Uuid;
  an_signer_id : Z;
  an_approved : bool;
  an_expires_at : Z;
}.

Section node.
Context `{BitcoinLib} `{BuildProfile} `{TextCodec} `{WebauthnLib} `{HashOrder} `{ReviewLib} `{FrostLib}.
Context {S : Type} `{WalletStore S} {P : Type} `{!ThresholdSigner P}.

Definition from_verified (v : VerifiedTrade) (verifier : string) : TradeVerification :=
  mkTradeVerification (vt_path v) (vt_txid v) (hex_encode (vt_sighash v)) (vt_fee_sat v)
    (vt_spent_order_outpoint v) (hex_encode (vt_listing_commitment v)) verifier.

Record WalletNodeService := mkWalletNodeService {
  wn_wallet : WalletApi (S:=S);
  wn_relying_party : WebAuthnRelyingParty;
  wn_participant : option P;
  wn_public_key_package : option PublicKeyPackage;
  wn_min_signers : Z;
  wn_durable_signer : bool;
  wn_authorizations : gmap Uuid AuthToken;
  wn_authorization_records : gmap Uuid AuthorizationState;
  wn_recovered_intents : gset Uuid;
  wn_phases : gmap Uuid SigningPhase;
  wn_trade_requests : gmap Uuid TradeSigningRequest;
  wn_transaction_requests : gmap Uuid TransactionReviewRequest;
  wn_executors : gmap ChainSigningExecutorKey ChainSigningExecutor;
  wn_chat : list ChatRecord;
}.

(** Field updates. *)
Definition set_wallet (w : WalletApi (S:=S)) (n : WalletNodeService) : WalletNodeService :=
  mkWalletNodeService w (wn_relying_party n) (wn_participant n) (wn_public_key_package n) (wn_min_signers n)
    (wn_durable_signer n) (wn_authorizations n) (wn_authorization_records n) (wn_recovered_intents n)
    (wn_phases n) (wn_trade_requests n) (wn_transaction_requests n) (wn_executors n) (wn_chat n).
Definition set_relying_party (rp : WebAuthnRelyingParty) (n : WalletNodeService) : WalletNodeService :=
  mkWalletNodeService (wn_wallet n) rp (wn_participant n) (wn_public_key_package n) (wn_min_signers n)
    (wn_durable_signer n) (wn_authorizations n) (wn_authorization_records n) (wn_recovered_intents n)
    (wn_phases n) (wn_trade_requests n) (wn_transaction_requests n) (wn_executors n) (wn_chat n).
Definition set_participant (p : P) (n : WalletNodeService) : WalletNodeService :=
  mkWalletNodeService (wn_wallet n) (wn_relying_party n) (Some p) (wn_public_key_package n) (wn_min_signers n)
    (wn_durable_signer n) (wn_authorizations n) (wn_authorization_records n) (wn_recovered_intents n)
    (wn_phases n) (wn_trade_requests n) (wn_transaction_requests n) (wn_executors n) (wn_chat n).
Definition set_authority (a : gmap Uuid AuthToken) (r : gmap Uuid AuthorizationState) (n : WalletNodeService)
    : WalletNodeService :=
  mkWalletNodeService (wn_wallet n) (wn_relying_party n) (wn_participant n) (wn_public_key_package n)
    (wn_min_signers n) (wn_durable_signer n) a r (wn_recovered_intents n)
    (wn_phases n) (wn_trade_requests n) (wn_transaction_requests n) (wn_executors n) (wn_chat n).
Definition set_phase (id : Uuid) (p : SigningPhase) (n : WalletNodeService) : WalletNodeService :=
  mkWalletNodeService (wn_wallet n) (wn_relying_party n) (wn_participant n) (wn_public_key_package n)
    (wn_min_signers n) (wn_durable_signer n) (wn_authorizations n) (wn_authorization_records n)
    (wn_recovered_intents n) (<[id := p]> (wn_phases n)) (wn_trade_requests n) (wn_transaction_requests n)
    (wn_executors n) (wn_chat n).
Definition set_reviews (r : gset Uuid) (t : gmap Uuid TradeSigningRequest) (x : gmap Uuid TransactionReviewRequest)
    (n : WalletNodeService) : WalletNodeService :=
  mkWalletNodeService (wn_wallet n) (wn_relying_party n) (wn_participant n) (wn_public_key_package n)
    (wn_min_signers n) (wn_durable_signer n) (wn_authorizations n) (wn_authorization_records n) r
    (wn_phases n) t x (wn_executors n) (wn_chat n).
Definition set_executors (e : gmap ChainSigningExecutorKey ChainSigningExecutor) (n : WalletNodeService)
    : WalletNodeService :=
  mkWalletNodeService (wn_wallet n) (wn_relying_party n) (wn_participant n) (wn_public_key_package n)
    (wn_min_signers n) (wn_durable_signer n) (wn_authorizations n) (wn_authorization_records n)
    (wn_recovered_intents n) (wn_phases n) (wn_trade_requests n) (wn_transaction_requests n) e (wn_chat n).
Definition set_chat (c : list ChatRecord) (n : WalletNodeService) : WalletNodeService :=
  mkWalletNodeService (wn_wallet n) (wn_relying_party n) (wn_participant n) (wn_public_key_package n)
    (wn_min_signers n) (wn_durable_signer n) (wn_authorizations n) (wn_authorization_records n)
    (wn_recovered_intents n) (wn_phases n) (wn_trade_requests n) (wn_transaction_requests n) (wn_executors n) c.

Definition node_act (A : Type) : Type := act WalletNodeService WalletNodeError A.

Definition wallet_call {A} (m : act (WalletApi (S:=S)) WalletError A) : act WalletNodeService WalletNodeError A :=
  zoom wn_wallet set_wallet WalletNodeError_from_wallet m.
Definition rp_call {A} (m : act WebAuthnRelyingParty WalletNodeError A) : act WalletNodeService WalletNodeError A :=
  zoom wn_relying_party set_relying_party (fun e => e) m.
Definition wallet_read {A} (f : WalletApi (S:=S) -> result WalletError A) (n : WalletNodeService)
    : result WalletNodeError A := map_err WalletNodeError_from_wallet (f (wn_wallet n)).

(** ** Startup *)

Record RestoredAuthority := mkRestoredAuthority {
  ra_wallet : WalletApi (S:=S);
  ra_relying_party : WebAuthnRelyingParty;
  ra_authorization_records : gmap Uuid AuthorizationState;
  ra_recovered_intents : gset Uuid;
}.

Definition restore_authority (config : RelyingPartyConfig) (store : S) (now : Z) (fresh_wallet fresh_user : Uuid)
    : result WalletNodeError RestoredAuthority :=
  let wallet := with_store store in
  let wallet_id := default fresh_wallet (store_wallet_id (wa_store wallet)) in
  stored ← map_err (fun e => WalletNodeError_from_wallet (WE_Store e)) (webauthn_profile (wa_store wallet));
  '(wallet, profile) ←
    match stored with
    | Some profile =>
        _ ← reject_if (negb (bool_decide (wp_wallet_id profile = wallet_id))
                       || negb (bool_decide (wp_rp_id profile = rp_id config))
                       || negb (bool_decide (wp_rp_origin profile = rp_origin config)))
              WN_WebauthnProfileMismatch;
        Ok (wallet, profile)
    | None =>
        let profile := mkWebauthnProfileState wallet_id fresh_user (rp_id config) (rp_origin config) 1 now in
        match store_call (set_webauthn_profile profile) wallet with
        | (wallet, Ok _) => Ok (wallet, profile)
        | (_, Err e) => Err (WalletNodeError_from_wallet e)
        end
    end;
  passkeys ← map_err (fun e => WalletNodeError_from_wallet (WE_Store e)) (list_passkeys (wa_store wallet));
  relying_party ← new_with_state config (wp_user_id profile) passkeys;
  records ← map_err (fun e => WalletNodeError_from_wallet (WE_Store e))
              (available_authorizations (wa_store wallet) now);
  Ok (mkRestoredAuthority wallet relying_party
        (foldl (fun m record => <[au_intent_id record := record]> m) ∅ records)
        (list_to_set (si_id <$> list_intents (wa_store wallet)))).

Definition new_with_store_capability (config : RelyingPartyConfig) (participant : option P)
    (public_key_package : PublicKeyPackage) (min_signers : Z) (store : S) (now : Z) (durable_signer : bool)
    (fresh_wallet fresh_user : Uuid) : result WalletNodeError WalletNodeService :=
  restored ← restore_authority config store now fresh_wallet fresh_user;
  let wallet := ra_wallet restored in
  _ ← reject_if (durable_signer && negb (bool_decide (st_mode (descriptor (wa_store wallet)) = Durable)))
        WN_DurableSignerRequiresDurableAuthority;
  max_signers ← ok_or (let n := Z.of_nat (size (verifying_shares public_key_package)) in
                       if n <? 2 ^ 16 then Some n else None) WN_SignerNotConfigured;
  xonly ← map_err WN_Signing (group_pubkey_xonly public_key_package);
  let wallet := configure_threshold min_signers max_signers xonly wallet in
  let wallet := match participant with
                | Some p => set_signers [mkSignerSnapshot (ts_signer_id p) (ts_label p) (ts_online p)] wallet
                | None => wallet
                end in
  Ok (mkWalletNodeService wallet (ra_relying_party restored) participant (Some public_key_package) min_signers
        durable_signer ∅ (ra_authorization_records restored) (ra_recovered_intents restored) ∅ ∅ ∅ ∅ []).

Definition without_signer_with_store (config : RelyingPartyConfig) (store : S) (now : Z)
    (fresh_wallet fresh_user : Uuid) : result WalletNodeError WalletNodeService :=
  restored ← restore_authority config store now fresh_wallet fresh_user;
  Ok (mkWalletNodeService (ra_wallet restored) (ra_relying_party restored) None None 0 false ∅
        (ra_authorization_records restored) (ra_recovered_intents restored) ∅ ∅ ∅ ∅ []).

(** ** Creating intents *)

Definition node_create_intent (request : CreateIntentRequest) (now : Z) (id : Uuid) (nonce : bytes)
    : node_act SigningIntent :=
  _ ← reads (fun n => reject_if (match wn_participant n with
                                 | Some p => negb (ci_signer_id request =? ts_signer_id p)
                                 | None => false
                                 end) WN_WrongSigner);
  intent ← wallet_call (create_intent request now id nonce);
  _ ← modify (set_phase (si_id intent) PhasePendingApproval);
  mret intent.

Definition node_create_personal_intent (request : CreatePersonalIntentRequest) (now : Z) (id : Uuid) (nonce : bytes)
    : node_act SigningIntent :=
  intent ← wallet_call (create_personal_intent request now id nonce);
  _ ← modify (set_phase (si_id intent) PhasePendingApproval);
  mret intent.

Definition node_create_covhub_intent (covhub : CovhubSigningIntent) (now : Z) (nonce : bytes)
    : node_act SigningIntent :=
  intent ← wallet_call (create_covhub_intent covhub now nonce);
  _ ← modify (set_phase (si_id intent) PhasePendingApproval);
  mret intent.

Definition prepare_personal_signing_operation (profile : PersonalSignerProfile)
    (request : BeginPersonalSigningOperation) (now : Z) (n : WalletNodeService)
    : result WalletNodeError PersonalOperationAuthorization :=
  intent ← wallet_read (read_intent (bo_intent_id request)) n;
  _ ← reject_if (negb (bool_decide (si_status intent = IntentApproved))) WN_IntentNotPending;
  _ ← reject_if (is_expired intent now) WN_IntentExpired;
  record ← ok_or (wn_authorization_records n !! bo_intent_id request) WN_AuthorizationUnavailable;
  authorization ← ok_or (wn_authorizations n !! bo_intent_id request) WN_AuthorizationUnavailable;
  map_err (fun e => WN_Wallet (WE_Gate e))
    (authorize_personal_operation authorization profile request (au_id record) now).

(** ** Trades and reviewed transactions *)

Definition trading_height (n : WalletNodeService) : result WalletNodeError Z :=
  node ← ok_or (match wa_node (wn_wallet n) with
                | Some node => if bool_decide (ns_chain node = "signet") && ns_op_cat_active node
                               then Some node else None
                | None => None
                end) WN_TradeNodeUnavailable;
  ok_or (if ns_blocks node <? 2 ^ 32 then Some (ns_blocks node) else None) WN_TradeNodeUnavailable.

Definition verify_trade_for_agent (request : TradeSigningRequest) (n : WalletNodeService)
    : result WalletNodeError TradeVerification :=
  height ← trading_height n;
  verified ← map_err WN_TradePolicy (AgentTradingApi_verify request height);
  Ok (from_verified verified "agent").

Definition create_trade_intent (request : CreateTradeIntentRequest) (now : Z) (id : Uuid) (nonce : bytes)
    : node_act SigningIntent :=
  _ ← reads (fun n => reject_if (bool_decide (st_mode (descriptor (wa_store (wn_wallet n))) = Durable)
                                 && bool_decide (wn_public_key_package n = None)) WN_SignerNotConfigured);
  height ← reads trading_height;
  verified ← lift (map_err WN_TradePolicy (WalletTradingApi_verify (ct_trade request) height));
  _ ← reads (fun n =>
        match wn_public_key_package n with
        | Some package =>
            group_key ← map_err WN_Signing (group_pubkey_xonly package);
            reject_if (negb (bool_decide (vt_seller_key verified = group_key))) WN_TradeSignerMismatch
        | None => Ok tt
        end);
  intent ← node_create_intent
             (mkCreateIntentRequest (ct_wallet_id request) (ct_signer_id request) (vt_sighash verified)
                (ct_session_id request) (ct_expiry request)) now id nonce;
  _ ← modify (fun n => set_reviews (wn_recovered_intents n)
                         (<[si_id intent := ct_trade request]> (wn_trade_requests n)) (wn_transaction_requests n) n);
  mret intent.

Definition trade_verification (intent_id : Uuid) (n : WalletNodeService) : result WalletNodeError TradeVerification :=
  request ← ok_or (wn_trade_requests n !! intent_id) WN_IntentNotFound;
  height ← trading_height n;
  verified ← map_err WN_TradePolicy (WalletTradingApi_verify request height);
  intent ← wallet_read (read_intent intent_id) n;
  _ ← reject_if (negb (bool_decide (si_tx_digest intent = vt_sighash verified))) WN_IntentBindingMismatch;
  Ok (from_verified verified "wallet").

Definition node_inspect_transaction (request : TransactionReviewRequest) : result WalletNodeError TransactionReview :=
  map_err WN_TransactionPolicy (inspect_transaction request).

Definition create_transaction_intent (request : CreateTransactionIntentRequest) (now : Z) (id : Uuid) (nonce : bytes)
    : node_act SigningIntent :=
  review ← lift (node_inspect_transaction (cq_transaction request));
  digest ← lift (ok_or (b ← hex_decode (tr_sighash_hex review);
                        if (length b =? 32)%nat then Some b else None) WN_IntentBindingMismatch);
  intent ← node_create_intent
             (mkCreateIntentRequest (cq_wallet_id request) (cq_signer_id request) digest
                (cq_session_id request) (cq_expiry request)) now id nonce;
  _ ← modify (fun n => set_reviews (wn_recovered_intents n) (wn_trade_requests n)
                         (<[si_id intent := cq_transaction request]> (wn_transaction_requests n)) n);
  mret intent.

Definition transaction_review (intent_id : Uuid) (n : WalletNodeService) : result WalletNodeError TransactionReview :=
  request ← ok_or (wn_transaction_requests n !! intent_id) WN_IntentNotFound;
  review ← node_inspect_transaction request;
  intent ← wallet_read (read_intent intent_id) n;
  _ ← reject_if (negb (bool_decide (tr_sighash_hex review = hex_encode (si_tx_digest intent))))
        WN_IntentBindingMismatch;
  Ok review.

(** ** Chat *)

Definition project_chat_record (record : ChatRecord) (now : Z) (n : WalletNodeService) : ChatMessage :=
  let wallet_action :=
    intent_id ← cr_intent_id record;
    intent ← result_ok (read_intent intent_id (wn_wallet n));
    Some (mkChatIntentBinding intent_id (hex_encode (intent_digest intent)) (si_network intent) (si_action intent)
            (si_wallet_id intent) (si_signer_id intent) (hex_encode (si_tx_digest intent))
            (hex_encode (si_session_id intent)) (si_expiry intent) (si_status intent)
            (ChatAuthorizationState_from_intent (si_status intent) (is_expired intent now))) in
  mkChatMessage (cr_id record) (cr_role record) (cr_kind record) (cr_content record) (cr_created_at record)
    wallet_action.

Definition chat_state (now : Z) (n : WalletNodeService) : ChatState :=
  let messages := (fun record => project_chat_record record now n) <$> wn_chat n in
  mkChatState messages
    (length (filter (fun a => cx_authorization a = ChatPasskeyRequired) (omap cg_wallet_action messages))).

Definition read_chat_message (id : Uuid) (now : Z) (n : WalletNodeService) : result WalletNodeError ChatMessage :=
  ok_or ((fun record => project_chat_record record now n) <$> chat_get (wn_chat n) id) WN_ChatMessageNotFound.

Definition create_chat_message (request : CreateChatMessageRequest) (now : Z) (id : Uuid) (nonce : bytes)
    (user_id wallet_id : Uuid) : node_act ChatExchange :=
  let content := str_trim (cm_content request) in
  _ ← lift (reject_if (bool_decide (content = "") || (MAX_CHAT_MESSAGE_BYTES <? String.length content)%nat)
              WN_InvalidChatMessage);
  _ ← reads (fun n => reject_if (MAX_CHAT_MESSAGES <? length (wn_chat n) + 2)%nat WN_ChatHistoryFull);
  intent_id ← match cm_wallet_action request with
              | Some a =>
                  intent ← node_create_intent
                    (mkCreateIntentRequest (cw_wallet_id a) (cw_signer_id a) (cw_tx_digest a) (cw_session_id a)
                       (cw_expiry a)) now id nonce;
                  mret (Some (si_id intent))
              | None => mret None
              end;
  n ← gets (fun n => n);
  let '(records, (user, wallet)) := add_exchange (wn_chat n) content intent_id now user_id wallet_id in
  _ ← modify (set_chat records);
  n ← gets (fun n => n);
  mret (mkChatExchange (project_chat_record user now n) (project_chat_record wallet now n)).

(** ** Cancelling *)

Definition node_cancel_intent (id : Uuid) (now : Z) : node_act SigningIntent :=
  intent ← wallet_call (cancel_intent id now);
  _ ← modify (fun n => set_authority (delete id (wn_authorizations n)) (wn_authorization_records n) n);
  _ ← modify (fun n => set_reviews (wn_recovered_intents n ∖ {[id]}) (delete id (wn_trade_requests n))
                         (delete id (wn_transaction_requests n)) n);
  _ ← modify (set_phase id (if bool_decide (si_status intent = IntentExpired) then PhaseExpired else PhaseCancelled));
  mret intent.

(** ** Passkeys *)

Definition node_registration_start (request : PasskeyRegistrationStartRequest) (now : Z) (ceremony_id : Uuid)
    (rng : bytes) : node_act PasskeyRegistrationStartResponse :=
  _ ← reads (fun n => reject_if (negb (credential_count (wn_relying_party n) =? 0)%nat) WN_RegistrationLocked);
  rp_call (rp_registration_start request now ceremony_id rng).

Definition node_registration_finish (request : PasskeyRegistrationFinishRequest) (now : Z)
    : node_act PasskeyRegistrationFinishResponse :=
  response ← rp_call (rp_registration_finish request now);
  state ← reads (fun n => ok_or (passkey_state (wn_relying_party n) (rf_credential_id response)) WN_CredentialNotFound);
  persisted ← attempt (wallet_call (store_call (insert_passkey state)));
  match persisted with
  | Err e =>
      _ ← modify (fun n => set_relying_party (remove_credential (wn_relying_party n) (rf_credential_id response)) n);
      lift (Err e)
  | Ok _ => mret response
  end.

Definition node_approval_start (intent_id : Uuid) (now : Z) (ceremony_id : Uuid) (rng : bytes)
    : node_act ApprovalStartResponse :=
  intent ← reads (wallet_read (read_intent intent_id));
  _ ← reads (fun n => reject_if (bool_decide (intent_id ∈ wn_recovered_intents n)
                                 && bool_decide (si_covhub intent = None)) WN_RecoveredIntentApprovalUnavailable);
  _ ← reads (fun n =>
        if bool_decide (is_Some (wn_trade_requests n !! intent_id)) then
          verified ← trade_verification intent_id n;
          reject_if (negb (bool_decide (tv_sighash_hex verified = hex_encode (si_tx_digest intent))))
            WN_IntentBindingMismatch
        else Ok tt);
  _ ← reads (fun n =>
        if bool_decide (is_Some (wn_transaction_requests n !! intent_id)) then
          review ← transaction_review intent_id n;
          reject_if (negb (bool_decide (tr_sighash_hex review = hex_encode (si_tx_digest intent))))
            WN_IntentBindingMismatch
        else Ok tt);
  credential_id ← reads (fun n => ok_or (primary_credential_id (wn_relying_party n)) WN_NoCredentials);
  response ← rp_call (rp_approval_start intent now ceremony_id rng);
  begun ← attempt (wallet_call (store_call (begin_approval
            (mkApprovalStartState (ar_ceremony_id response) intent_id credential_id (intent_digest intent) now
               (bi_expires_at (ar_binding response))))));
  match begun with
  | Err e =>
      _ ← modify (fun n => set_relying_party (invalidate_approval (wn_relying_party n) (ar_ceremony_id response)) n);
      lift (Err e)
  | Ok _ => mret response
  end.

Definition node_approval_finish (intent_id : Uuid) (request : ApprovalFinishRequest) (now : Z)
    (authorization_id : Uuid) (token : bytes) : node_act ApprovalFinishResponse :=
  intent ← reads (wallet_read (read_intent intent_id));
  verified ← rp_call (rp_approval_finish intent_id intent request now);
  config ← gets (fun n => wr_config (wn_relying_party n));
  let completion :=
    mkApprovalCompletionState (va_ceremony_id verified) intent_id (va_credential_id verified)
      (va_expected_credential_record_version verified) (va_updated_passkey_json verified) (intent_digest intent)
      authorization_id (si_expiry intent) (rp_id config) (rp_origin config) now in
  granted ← wallet_call (submit_verified intent_id verified completion now token);
  _ ← modify (fun n => set_relying_party (commit_verified_passkey (wn_relying_party n) verified) n);
  _ ← modify (fun n => set_authority (<[intent_id := granted.1]> (wn_authorizations n))
                         (<[intent_id := granted.2]> (wn_authorization_records n)) n);
  _ ← modify (set_phase intent_id PhaseApproved);
  mret (mkApprovalFinishResponse intent_id (va_signer_id verified) true (si_expiry intent)).

(** ** The FROST rounds *)

Definition participant_of (n : WalletNodeService) : result WalletNodeError P :=
  ok_or (wn_participant n) WN_SignerNotConfigured.

Definition signer_round1 (intent_id : Uuid) (now : Z) (rng : Rng) : node_act SigningCommitments :=
  intent ← reads (wallet_read (read_intent intent_id));
  _ ← lift (reject_if (bool_decide (is_Some (si_covhub intent))) WN_CovhubLegacyPathRejected);
  _ ← lift (reject_if (is_expired intent now) WN_IntentExpired);
  _ ← lift (reject_if (negb (bool_decide (si_status intent = IntentApproved))) WN_IntentNotPending);
  _ ← reads (fun n => reject_if (negb (bool_decide (is_Some (wn_authorizations n !! intent_id))))
                        WN_AuthorizationUnavailable);
  participant ← reads participant_of;
  _ ← lift (reject_if (negb (ts_signer_id participant =? si_signer_id intent)) WN_WrongSigner);
  let '(p', r) := ts_round1 participant (si_session_id intent) (si_tx_digest intent) rng in
  _ ← modify (set_participant p');
  commitments ← lift (map_err WN_Signing r);
  _ ← modify (set_phase intent_id PhaseRoundOneReady);
  mret commitments.

Definition signer_round2 (intent_id : Uuid) (session : FrostSession) (now : Z) : node_act SignatureShare :=
  intent ← reads (wallet_read (read_intent intent_id));
  _ ← lift (reject_if (bool_decide (is_Some (si_covhub intent))) WN_CovhubLegacyPathRejected);
  _ ← reads (fun n => reject_if (negb (bool_decide (is_Some (wn_authorizations n !! intent_id))))
                        WN_AuthorizationUnavailable);
  participant ← reads participant_of;
  record ← reads (fun n => ok_or (wn_authorization_records n !! intent_id) WN_AuthorizationUnavailable);
  fingerprint ← lift (map_err WN_Signing
                  (ts_pending_nonce_fingerprint participant (fs_id session) (fs_message session)));
  _ ← wallet_call (store_call (claim_frost_nonce
        (mkFrostNonceClaimState (au_id record) intent_id (ts_signer_id participant) (fs_id session) fingerprint now)));
  _ ← modify (fun n => set_authority (wn_authorizations n) (delete intent_id (wn_authorization_records n)) n);
  authorization ← reads (fun n => ok_or (wn_authorizations n !! intent_id) WN_AuthorizationUnavailable);
  _ ← modify (fun n => set_authority (delete intent_id (wn_authorizations n)) (wn_authorization_records n) n);
  let '(p', _, r) := ts_round2 participant session authorization now in
  _ ← modify (set_participant p');
  share ← lift (map_err WN_Signing r);
  _ ← modify (set_phase intent_id PhaseShareProduced);
  mret share.

Definition phase_of_status (s : IntentStatus) : SigningPhase :=
  match s with
  | IntentPending => PhasePendingApproval
  | IntentApproved => PhaseApproved
  | IntentSigning => PhaseSigning
  | IntentSigned => PhaseSigned
  | IntentCancelled => PhaseCancelled
  | IntentExpired => PhaseExpired
  end.

Definition signing_status (intent_id : Uuid) (now : Z) (n : WalletNodeService)
    : result WalletNodeError ThresholdSigningStatus :=
  intent ← wallet_read (read_intent intent_id) n;
  let phase :=
    if is_expired intent now && bool_decide (si_status intent = IntentPending) then PhaseExpired
    else default (phase_of_status (si_status intent)) (wn_phases n !! intent_id) in
  Ok (mkThresholdSigningStatus intent_id (si_signer_id intent) (hex_encode (si_session_id intent))
        (hex_encode (si_tx_digest intent)) phase (si_expiry intent)).

(** ** Chain signing jobs *)

Definition node_create_chain_signing_job (request : CreateChainSigningJobRequest) (now : Z)
    : node_act ChainSigningJobState :=
  let job := cj_job request in
  let binding := sj_review_binding job in
  _ ← lift (reject_if
        (negb (bool_decide (rb_chain_scope binding = sj_chain_scope job))
         || negb (bool_decide (rb_signing_suite_id binding = sj_signing_suite_id job))
         || negb (rb_review_schema_version binding =? ra_schema_version (sj_review job))
         || negb (bool_decide (rb_review_digest binding = ra_review_digest (sj_review job))))
        WN_IntentBindingMismatch);
  authorization ← reads (fun n => ok_or (wn_authorization_records n !! sj_intent_id job) WN_AuthorizationUnavailable);
  _ ← lift (reject_if
        (negb (bool_decide (au_id authorization = cj_authorization_id request))
         || negb (bool_decide (au_binding_digest authorization = cj_operation_binding_digest request))
         || (au_expires_at authorization <? now) || (sj_expires_at job <? now)) WN_AuthorizationUnavailable);
  intent ← reads (wallet_read (read_intent (sj_intent_id job)));
  _ ← lift (reject_if
        (negb (bool_decide (intent_digest intent = au_binding_digest authorization))
         || negb (bool_decide (si_tx_digest intent = ra_signing_message_digest (sj_review job)))
         || negb (bool_decide (si_session_id intent = sj_session_id job))
         || negb (si_expiry intent =? sj_expires_at job)
         || negb (bool_decide (si_status intent = IntentApproved))) WN_IntentBindingMismatch);
  _ ← match si_covhub intent with
      | None => mret tt
      | Some covhub =>
          _ ← lift (reject_if (negb (covhub_legacy_fields_are_delegated intent)) WN_IntentBindingMismatch);
          profiles ← reads (wallet_read signer_profiles_snapshot);
          profile ← lift (ok_or (List.find (fun p => bool_decide (sn_profile_id p = cb_profile_id covhub)) profiles)
                      WN_IntentBindingMismatch);
          lift (reject_if (negb (covhub_job_matches_binding intent job (sn_chain_scope profile)
                                   (sn_signing_suite_id profile))) WN_IntentBindingMismatch)
      end;
  state ← wallet_call (store_call (store_create_chain_signing_job request now));
  _ ← modify (fun n => set_authority (delete (sj_intent_id job) (wn_authorizations n))
                         (delete (sj_intent_id job) (wn_authorization_records n)) n);
  _ ← modify (set_phase (sj_intent_id job) PhaseSigning);
  mret state.

Definition node_chain_signing_job (job_id : Uuid) (n : WalletNodeService)
    : result WalletNodeError ChainSigningJobState :=
  state ← map_err (fun e => WalletNodeError_from_wallet (WE_Store e))
            (store_chain_signing_job (wa_store (wn_wallet n)) job_id);
  ok_or state WN_IntentNotFound.

Definition register_chain_signing_executor (e : ChainSigningExecutor) (n : WalletNodeService) : WalletNodeService :=
  set_executors (Registry_register (wn_executors n) e) n.

Record ClaimedChainSigningJob := mkClaimedChainSigningJob {
  cl_execution : ChainSigningExecution;
  cl_executor : ChainSigningExecutor;
}.

Definition claim_chain_signing_job_execution (job_id : Uuid) (now : Z) : node_act ClaimedChainSigningJob :=
  found ← reads (fun n => map_err (fun e => WalletNodeError_from_wallet (WE_Store e))
                            (chain_signing_execution (wa_store (wn_wallet n)) job_id));
  execution ← lift (ok_or found WN_IntentNotFound);
  _ ← lift (reject_if (now <? sj_created_at (ce_job execution)) WN_SigningJobNotStarted);
  _ ← (if sj_expires_at (ce_job execution) <? now then
         _ ← wallet_call (store_call (terminate_chain_signing_job job_id (ce_operation_binding_digest execution)
               JobExpired "signing job expired" now));
         lift (Err WN_IntentExpired)
       else mret tt);
  executor ← reads (fun n => ok_or (Registry_resolve (wn_executors n) (ce_job execution)) WN_SignerNotConfigured);
  _ ← wallet_call (store_call (claim_chain_executor execution now));
  mret (mkClaimedChainSigningJob execution executor).

(** [reason.truncate(128)] panics inside a character. *)
Definition complete_claimed_chain_signing_job (claimed : ClaimedChainSigningJob)
    (res : result SigningJobError VerifiedChainSignature) (now : Z)
    : act WalletNodeService (fault WalletNodeError) ChainSigningJobState :=
  let execution := cl_execution claimed in
  let call {A} (m : act WalletNodeService WalletNodeError A) := zoom (fun n => n) (fun n' _ => n') Fail m in
  match res with
  | Err error =>
      let status := match error with Interrupted => JobAborted | _ => JobFailed end in
      reason ← lift (ok_or (truncate 128 (job_error_text error)) Panic);
      _ ← call (wallet_call (store_call (terminate_chain_signing_job (sj_job_id (ce_job execution))
            (ce_operation_binding_digest execution) status reason now)));
      lift (Err (Fail (WN_ChainSigning error)))
  | Ok signature =>
      _ ← call (wallet_call (store_call (finalize_chain_signing_job (sj_job_id (ce_job execution))
            (ce_operation_binding_digest execution) (vs_bytes signature) now)));
      call (reads (node_chain_signing_job (sj_job_id (ce_job execution))))
  end.

Definition execute_chain_signing_job (job_id : Uuid) (now : Z)
    : act WalletNodeService (fault WalletNodeError) ChainSigningJobState :=
  claimed ← zoom (fun n => n) (fun n' _ => n') Fail (claim_chain_signing_job_execution job_id now);
  let res := ex_execute (cl_executor claimed) (cl_execution claimed) now in
  complete_claimed_chain_signing_job claimed res now.
End node.
