(* ===== verification/WalletNodeInv.v ===== *)
(** * Runs of the wallet node

    Every operation of the service as one step, the approvals and shares a run
    produces as its trace, and the invariant that ties released shares to
    verified approvals. *)

From Stdlib Require Import ZArith Lia.
From S2P Require Import Prelude Effects Bitcoin Text ChainDomain SigningDomain Personal Intent SigningJob Covhub Frost Participant Gate WalletStore Trading TransactionReview WebAuthn WalletApi WalletNode.
From stdpp Require Import list gmap.
Local Open Scope Z_scope.

Section inv.
Context `{BitcoinLib} `{BuildProfile} `{TextCodec} `{WebauthnLib} `{HashOrder} `{ReviewLib} `{FrostLib}.
Context {S : Type} `{!WalletStore S} `{!WalletStoreLaws S}.
Context {P : Type} `{!ThresholdSigner P}.

Abbreviation Node := (WalletNodeService (S:=S) (P:=P)).
Abbreviation Api := (WalletApi (S:=S)).

(** ** Operations and their trace *)

Inductive node_op :=
| OpCreateIntent (request : CreateIntentRequest) (now : Z) (id : Uuid) (nonce : bytes)
| OpCreatePersonalIntent (request : CreatePersonalIntentRequest) (now : Z) (id : Uuid) (nonce : bytes)
| OpCreateCovhubIntent (covhub : CovhubSigningIntent) (now : Z) (nonce : bytes)
| OpCreateTradeIntent (request : CreateTradeIntentRequest) (now : Z) (id : Uuid) (nonce : bytes)
| OpCreateTransactionIntent (request : CreateTransactionIntentRequest) (now : Z) (id : Uuid) (nonce : bytes)
| OpChat (request : CreateChatMessageRequest) (now : Z) (id : Uuid) (nonce : bytes) (user_id wallet_id : Uuid)
| OpCancel (id : Uuid) (now : Z)
| OpRegistrationStart (request : PasskeyRegistrationStartRequest) (now : Z) (ceremony_id : Uuid) (rng : bytes)
| OpRegistrationFinish (request : PasskeyRegistrationFinishRequest) (now : Z)
| OpApprovalStart (intent_id : Uuid) (now : Z) (ceremony_id : Uuid) (rng : bytes)
| OpApprovalFinish (intent_id : Uuid) (request : ApprovalFinishRequest) (now : Z) (authorization_id : Uuid) (token : bytes)
| OpRound1 (intent_id : Uuid) (now : Z) (rng : Rng)
| OpRound2 (intent_id : Uuid) (session : FrostSession) (now : Z)
| OpCreateJob (request : CreateChainSigningJobRequest) (now : Z)
| OpExecuteJob (job_id : Uuid) (now : Z)
| OpRegisterExecutor (e : ChainSigningExecutor)
| OpSetNode (node : option NodeSnapshot).

(** An approval of the stored intent, and a share released with the
    fingerprint of the nonces it used. *)
Inductive node_event :=
| EvApproved (intent_id : Uuid) (intent : SigningIntent)
| EvShare (intent_id : Uuid) (session : FrostSession) (now : Z) (fingerprint : bytes).

Definition approval_event (n : Node) (id : Uuid) (ok : bool) : list node_event :=
  if ok then match get_intent (wa_store (wn_wallet n)) id with Some i => [EvApproved id i] | None => [] end else [].
Definition share_event (n : Node) (id : Uuid) (session : FrostSession) (now : Z) (ok : bool) : list node_event :=
  if ok then
    match wn_participant n with
    | Some p => match ts_pending_nonce_fingerprint p (fs_id session) (fs_message session) with
                | Ok fp => [EvShare id session now fp]
                | Err _ => []
                end
    | None => []
    end
  else [].

Definition run_op (n : Node) (op : node_op) : Node * list node_event :=
  match op with
  | OpCreateIntent r now id nonce => ((node_create_intent r now id nonce n).1, [])
  | OpCreatePersonalIntent r now id nonce => ((node_create_personal_intent r now id nonce n).1, [])
  | OpCreateCovhubIntent c now nonce => ((node_create_covhub_intent c now nonce n).1, [])
  | OpCreateTradeIntent r now id nonce => ((create_trade_intent r now id nonce n).1, [])
  | OpCreateTransactionIntent r now id nonce => ((create_transaction_intent r now id nonce n).1, [])
  | OpChat r now id nonce u w => ((create_chat_message r now id nonce u w n).1, [])
  | OpCancel id now => ((node_cancel_intent id now n).1, [])
  | OpRegistrationStart r now cid rng => ((node_registration_start r now cid rng n).1, [])
  | OpRegistrationFinish r now => ((node_registration_finish r now n).1, [])
  | OpApprovalStart id now cid rng => ((node_approval_start id now cid rng n).1, [])
  | OpApprovalFinish id r now aid token =>
      let '(n', res) := node_approval_finish id r now aid token n in (n', approval_event n id (is_ok res))
  | OpRound1 id now rng => ((signer_round1 id now rng n).1, [])
  | OpRound2 id session now =>
      let '(n', res) := signer_round2 id session now n in (n', share_event n id session now (is_ok res))
  | OpCreateJob r now => ((node_create_chain_signing_job r now n).1, [])
  | OpExecuteJob id now => ((execute_chain_signing_job id now n).1, [])
  | OpRegisterExecutor e => (register_chain_signing_executor e n, [])
  | OpSetNode node => (set_wallet (set_node_snapshot node (wn_wallet n)) n, [])
  end.

Fixpoint run (n : Node) (ops : list node_op) : Node * list node_event :=
  match ops with
  | [] => (n, [])
  | op :: rest =>
      let '(n1, e1) := run_op n op in
      let '(n2, e2) := run n1 rest in (n2, e1 ++ e2)
  end.

(** ** Operations that grant nothing *)

Definition api_quiet (w w' : Api) : Prop :=
  ag_used_nonces (wa_gate w) ⊆ ag_used_nonces (wa_gate w') /\ spent (wa_store w) ⊆ spent (wa_store w').

#[export] Instance api_quiet_refl : Reflexive api_quiet.
Proof. by intros w; split. Qed.
#[export] Instance api_quiet_trans : Transitive api_quiet.
Proof. intros x y z [? ?] [? ?]. by split; etrans. Qed.

Definition signer_of (n : Node) : option Z := ts_signer_id <$> wn_participant n.

Record quiet (n n' : Node) : Prop := {
  q_api : api_quiet (wn_wallet n) (wn_wallet n');
  q_auth : forall id, wn_authorizations n' !! id = None \/ wn_authorizations n' !! id = wn_authorizations n !! id;
  q_signer : signer_of n' = signer_of n;
}.

#[export] Instance quiet_refl : Reflexive quiet.
Proof. intros n. split; [done|by right|done]. Qed.
#[export] Instance quiet_trans : Transitive quiet.
Proof.
  intros x y z [? Hxy ?] [? Hyz ?]. split; [by etrans| |congruence].
  intros id. destruct (Hyz id) as [->| ->]; [by left|apply Hxy].
Qed.

Lemma quiet_wallet n w : api_quiet (wn_wallet n) w -> quiet n (set_wallet w n).
Proof. intros Hw. split; [done|by right|done]. Qed.
Lemma quiet_same n n' :
  wn_wallet n' = wn_wallet n -> wn_authorizations n' = wn_authorizations n -> wn_participant n' = wn_participant n ->
  quiet n n'.
Proof. intros E1 E2 E3. split; [by rewrite E1|rewrite E2; by right|unfold signer_of; by rewrite E3]. Qed.
Lemma quiet_delete n id r : quiet n (set_authority (delete id (wn_authorizations n)) r n).
Proof.
  split; [done| |done]. intros j. simpl. destruct (decide (j = id)) as [->|]; [left; apply lookup_delete_eq|].
  right. by apply lookup_delete_ne.
Qed.

(** Store calls leave the gate alone and never forget a claimed nonce. *)
Lemma store_call_quiet {A} (m : act S WalletStoreError A) :
  (forall s, spent s ⊆ spent (m s).1) -> keeps api_quiet (store_call m).
Proof. intros Hm w. unfold store_call, zoom. specialize (Hm (wa_store w)). by destruct (m _). Qed.

Ltac spent_tac :=
  intros ?; first
    [ apply create_job_spent
    | rewrite ?insert_spent, ?update_spent, ?profile_spent, ?passkey_spent, ?begin_spent, ?complete_spent,
        ?claim_job_spent, ?finalize_spent, ?terminate_spent; reflexivity ].
Ltac api_tac := repeat first [progress cbv zeta beta | keeps_step | apply store_call_quiet; spent_tac].

Lemma create_intent_quiet r now id nonce : keeps api_quiet (create_intent r now id nonce).
Proof. unfold create_intent. api_tac. Qed.
Lemma create_personal_intent_quiet r now id nonce : keeps api_quiet (create_personal_intent r now id nonce).
Proof. unfold create_personal_intent. api_tac. Qed.
Lemma create_covhub_intent_quiet c now nonce : keeps api_quiet (create_covhub_intent c now nonce).
Proof. unfold create_covhub_intent. api_tac. Qed.
Lemma cancel_intent_quiet id now : keeps api_quiet (cancel_intent id now).
Proof. unfold cancel_intent. api_tac. Qed.
Lemma submit_verified_quiet id v c now token : keeps api_quiet (submit_verified id v c now token).
Proof.
  unfold submit_verified, gate_call. api_tac. split; [|done]. simpl.
  destruct (authorize_verified _ _ _ _ _) as [g r] eqn:Eg. by eapply authorize_verified_nonces.
Qed.

Lemma wallet_call_quiet {A} (m : act Api WalletError A) : keeps api_quiet m -> keeps quiet (wallet_call (P:=P) m).
Proof. intros Hm. apply keeps_zoom. intros n. apply quiet_wallet, Hm. Qed.
Lemma rp_call_quiet {A} (m : act WebAuthnRelyingParty WalletNodeError A) : keeps quiet (rp_call (S:=S) (P:=P) m).
Proof. apply keeps_zoom. intros n. by apply quiet_same. Qed.

Ltac node_tac := repeat first
  [ progress cbv zeta beta
  | keeps_step
  | apply rp_call_quiet
  | apply wallet_call_quiet
  | apply store_call_quiet; spent_tac
  | apply quiet_delete
  | solve [apply quiet_same; reflexivity]
  | solve [eauto with quiet] ].

Lemma node_create_intent_quiet r now id nonce : keeps quiet (node_create_intent (P:=P) r now id nonce).
Proof. unfold node_create_intent. node_tac. apply create_intent_quiet. Qed.
Lemma node_create_personal_quiet r now id nonce : keeps quiet (node_create_personal_intent (P:=P) r now id nonce).
Proof. unfold node_create_personal_intent. node_tac. apply create_personal_intent_quiet. Qed.
Lemma node_create_covhub_quiet c now nonce : keeps quiet (node_create_covhub_intent (P:=P) c now nonce).
Proof. unfold node_create_covhub_intent. node_tac. apply create_covhub_intent_quiet. Qed.
Lemma create_trade_quiet r now id nonce : keeps quiet (create_trade_intent (P:=P) r now id nonce).
Proof. unfold create_trade_intent. node_tac. apply node_create_intent_quiet. Qed.
Lemma create_transaction_quiet r now id nonce : keeps quiet (create_transaction_intent (P:=P) r now id nonce).
Proof. unfold create_transaction_intent. node_tac. apply node_create_intent_quiet. Qed.
Lemma create_chat_quiet r now id nonce u w : keeps quiet (create_chat_message (P:=P) r now id nonce u w).
Proof. unfold create_chat_message, add_exchange. node_tac. apply node_create_intent_quiet. Qed.
Lemma node_cancel_quiet id now : keeps quiet (node_cancel_intent (P:=P) id now).
Proof. unfold node_cancel_intent. node_tac. apply cancel_intent_quiet. Qed.
Lemma registration_start_quiet r now cid rng : keeps quiet (node_registration_start (S:=S) (P:=P) r now cid rng).
Proof. unfold node_registration_start. node_tac. Qed.
Lemma registration_finish_quiet r now : keeps quiet (node_registration_finish (P:=P) r now).
Proof. unfold node_registration_finish. node_tac. Qed.
Lemma approval_start_quiet id now cid rng : keeps quiet (node_approval_start (P:=P) id now cid rng).
Proof. unfold node_approval_start. node_tac. Qed.
Lemma create_job_quiet r now : keeps quiet (node_create_chain_signing_job (P:=P) r now).
Proof. unfold node_create_chain_signing_job. node_tac. Qed.
Lemma claim_job_quiet id now : keeps quiet (claim_chain_signing_job_execution (P:=P) id now).
Proof. unfold claim_chain_signing_job_execution. node_tac. Qed.

Lemma keeps_same {A} (m : act Node WalletNodeError A) :
  keeps quiet m -> keeps quiet (zoom (fun n => n) (fun n' _ => n') Fail m).
Proof. intros Hm. apply keeps_zoom. intros n. apply Hm. Qed.
Lemma complete_job_quiet c r now : keeps quiet (complete_claimed_chain_signing_job (S:=S) (P:=P) c r now).
Proof.
  unfold complete_claimed_chain_signing_job.
  destruct r; repeat first [apply keeps_bind; [apply _| |intros ?] | apply keeps_same | apply keeps_lift; apply _]; node_tac.
Qed.
Lemma execute_job_quiet id now : keeps quiet (execute_chain_signing_job (S:=S) (P:=P) id now).
Proof.
  unfold execute_chain_signing_job. apply keeps_bind; [apply _| |intros ?; apply complete_job_quiet].
  apply keeps_same, claim_job_quiet.
Qed.

(** ** The operations of the signer *)

Context `{!ThresholdSignerLaws P}.

Lemma claim_spent_mono c s : spent s ⊆ spent (claim_frost_nonce c s).1.
Proof.
  destruct (claim_frost_nonce c s) as [s' [[]|e]] eqn:Ec; simpl.
  - apply claim_new in Ec as [_ ->]. set_solver.
  - by apply claim_failed in Ec as ->.
Qed.

Lemma quiet_participant n p p' :
  wn_participant n = Some p -> ts_signer_id p' = ts_signer_id p -> quiet n (set_participant p' n).
Proof. intros Hp Hid. split; [done|by right|]. unfold signer_of. rewrite Hp. simpl. by rewrite Hid. Qed.

Ltac act_unfold := unfold mbind, act_bind, reads, lift, gets, modify, mret, act_ret.

Lemma round1_quiet id now rng : keeps quiet (signer_round1 (S:=S) (P:=P) id now rng).
Proof.
  intros n. unfold signer_round1, participant_of. act_unfold.
  repeat (case_match; simplify_eq; try done); res_inv; simpl.
  all: match goal with E : ts_round1 ?p ?a ?b ?c = (?p', _) |- _ =>
         pose proof (round1_signer_id p a b c) as Hid; rewrite E in Hid; simpl in Hid end.
  all: etrans; [by eapply quiet_participant|]; by apply quiet_same.
Qed.

(** What a released share implies: the token of the intent authorized it, it
    is gone, and the nonce was claimed for the first time. *)
Lemma round2_Ok_node id session now n n' share :
  signer_round2 (S:=S) (P:=P) id session now n = (n', Ok share) ->
  exists p tok fp i, wn_participant n = Some p /\ wn_authorizations n !! id = Some tok /\
    get_intent (wa_store (wn_wallet n)) id = Some i /\ si_covhub i = None /\
    ts_pending_nonce_fingerprint p (fs_id session) (fs_message session) = Ok fp /\
    (authorize tok (fs_id session) (fs_message session) (ts_signer_id p) now).2 = Ok tt /\
    wn_authorizations n' = delete id (wn_authorizations n) /\
    wn_authorization_records n' = delete id (wn_authorization_records n) /\
    wa_gate (wn_wallet n') = wa_gate (wn_wallet n) /\
    fp ∉ spent (wa_store (wn_wallet n)) /\ spent (wa_store (wn_wallet n')) = {[fp]} ∪ spent (wa_store (wn_wallet n)).
Proof.
  unfold signer_round2, participant_of, wallet_read, read_intent, wallet_call, store_call. intros Hr.
  act_inv. match goal with Hr : context [ts_round2 ?p ?s ?t ?w] |- _ =>
    destruct (ts_round2 p s t w) as [[p' tok'] r'] eqn:Er end.
  act_inv. simpl in *. subst. apply round2_authorized in Er.
  match goal with Ec : claim_frost_nonce _ _ = _ |- _ => apply claim_new in Ec as [Hfp Hsp] end.
  eexists _, _, _, _. split_and!; [done|done|done| |done| |done|done|done|done|done].
  - by apply eq_None_not_Some.
  - by rewrite Er.
Qed.

(** The step that takes the token and runs round two of [p]. *)
Lemma round2_state_quiet n p p' c s' r a b :
  claim_frost_nonce c (wa_store (wn_wallet n)) = (s', r) -> wn_participant n = Some p ->
  ts_signer_id p' = ts_signer_id p -> a = wn_authorizations n \/ a = delete (nc_intent_id c) (wn_authorizations n) ->
  quiet n (set_participant p' (set_authority a b (set_wallet (set_store s' (wn_wallet n)) n))).
Proof.
  intros Hc Hp Hid Ha. pose proof (claim_spent_mono c (wa_store (wn_wallet n))) as Hs. rewrite Hc in Hs.
  split; [by split| |unfold signer_of; rewrite Hp; simpl; by rewrite Hid].
  intros id. simpl. destruct Ha as [->| ->]; [by right|].
  destruct (decide (id = nc_intent_id c)) as [->|]; [left; apply lookup_delete_eq|right; by apply lookup_delete_ne].
Qed.

Lemma claim_state_quiet n c s' r :
  claim_frost_nonce c (wa_store (wn_wallet n)) = (s', r) -> quiet n (set_wallet (set_store s' (wn_wallet n)) n).
Proof.
  intros Hc. pose proof (claim_spent_mono c (wa_store (wn_wallet n))) as Hs. rewrite Hc in Hs.
  by apply quiet_wallet.
Qed.

Lemma round2_quiet id session now : keeps quiet (signer_round2 (S:=S) (P:=P) id session now).
Proof.
  intros n. unfold signer_round2, participant_of, wallet_call, store_call, zoom. act_unfold.
  repeat (case_match; simplify_eq; try done); res_inv; simpl in *; simplify_eq.
  1-2: match goal with E : ts_round2 ?p ?a ?b ?c = (?p', _, _) |- _ =>
         pose proof (round2_signer_id p a b c) as Hid; rewrite E in Hid; simpl in Hid end.
  1-2: match goal with Hc : claim_frost_nonce _ _ = _ |- _ =>
         etrans; [eapply (round2_state_quiet n _ _ _ _ _ _ (delete id (wn_authorization_records n)) Hc); [done|done|by right]|by apply quiet_same] end.
  - by eapply quiet_trans; [eapply claim_state_quiet|apply quiet_same].
  - by eapply claim_state_quiet.
Qed.

(** ** Approval *)

Lemma approval_finish_quiet_err id r now aid token :
  keeps_err quiet (node_approval_finish (P:=P) id r now aid token).
Proof.
  unfold node_approval_finish.
  do 3 (apply keeps_err_bind; [apply _|by node_tac|intros ?]). cbv zeta.
  apply keeps_err_bind; [apply _|apply wallet_call_quiet, submit_verified_quiet|intros ?].
  apply keeps_err_infallible. repeat (apply infallible_bind; [apply infallible_modify|intros ?]). apply infallible_ret.
Qed.

(** A successful approval: a ceremony that was begun for this very digest, an
    assertion that verified the user, a first use of the intent's nonce, and a
    fresh token for exactly this intent. *)
Lemma approval_finish_Ok id r now aid token n n' resp :
  node_approval_finish (P:=P) id r now aid token n = (n', Ok resp) ->
  exists i c, get_intent (wa_store (wn_wallet n)) id = Some i /\ si_id i = id /\ si_status i = IntentPending /\
    now <= si_expiry i /\
    wr_approvals (wn_relying_party n) !! af_ceremony_id r = Some c /\ ay_intent_digest c = intent_digest i /\
    (exists res, finish_passkey_authentication (wr_webauthn (wn_relying_party n)) (af_credential r) (ay_state c) = Ok res /\
       user_verified res = true /\
       is_Some (wr_credentials (wn_relying_party n) !! b64url_encode (result_cred_id res))) /\
    wr_approvals (wn_relying_party n') !! af_ceremony_id r = None /\
    wn_authorizations n' = <[id := AuthToken_new i now token]> (wn_authorizations n) /\
    si_nonce i ∉ ag_used_nonces (wa_gate (wn_wallet n)) /\
    ag_used_nonces (wa_gate (wn_wallet n')) = {[si_nonce i]} ∪ ag_used_nonces (wa_gate (wn_wallet n)) /\
    spent (wa_store (wn_wallet n')) = spent (wa_store (wn_wallet n)) /\ signer_of n' = signer_of n.
Proof.
  unfold node_approval_finish, wallet_read, wallet_call, rp_call, read_intent. intros Hf. act_inv.
  match goal with E : rp_approval_finish _ _ _ _ _ = _ |- _ =>
    apply rp_approval_finish_Ok in E as (c & Hc & -> & Hid & Hcid & Hdig & Hexp & Hst & _ & Hvd & _ & _ & _ & _ & res & Hres & Huv & Hvc & Hin) end.
  match goal with E : submit_verified _ _ _ _ _ _ = (_, Ok ?g) |- _ => destruct g as [tok rec] end.
  match goal with E : submit_verified _ _ _ _ _ _ = _ |- _ =>
    apply submit_verified_Ok in E as (i & g' & Hi & Hg & Hca & <- & _) end.
  simpl in *. simplify_eq. apply authorize_verified_Ok in Hg as (_ & _ & Hle & _ & Hn & Hg' & ->).
  eexists _, c. rewrite Hvc in Hin.
  match goal with Hca : complete_approval ?c ?s = _ |- _ =>
    pose proof (complete_spent c s) as Hsp; rewrite Hca in Hsp; simpl in Hsp end.
  split_and!; try done; [by eauto|apply lookup_delete_eq|by rewrite Hg'].
Qed.

(** ** The invariant of a run *)

Definition is_share (id : Uuid) (e : node_event) : bool :=
  match e with EvShare j _ _ _ => bool_decide (j = id) | EvApproved _ _ => false end.
Definition is_approval (id : Uuid) (e : node_event) : bool :=
  match e with EvApproved j _ => bool_decide (j = id) | EvShare _ _ _ _ => false end.
Definition shares_of (id : Uuid) (evs : list node_event) : nat := length (List.filter (is_share id) evs).
Definition approvals_of (id : Uuid) (evs : list node_event) : nat := length (List.filter (is_approval id) evs).
Definition approved_nonces (evs : list node_event) : list bytes :=
  omap (fun e => match e with EvApproved _ i => Some (si_nonce i) | _ => None end) evs.
Definition share_fingerprints (evs : list node_event) : list bytes :=
  omap (fun e => match e with EvShare _ _ _ fp => Some fp | _ => None end) evs.

(** A share that an approval of [evs] covers. *)
Definition covered (signer : option Z) (evs : list node_event) (id : Uuid) (session : FrostSession) (now : Z) : Prop :=
  exists i, EvApproved id i ∈ evs /\ si_id i = id /\ si_session_id i = fs_id session /\
    si_tx_digest i = fs_message session /\ Some (si_signer_id i) = signer /\
    si_personal_signing_policy i = None /\ now <= si_expiry i.

(** [s0]: the nonces the store had recorded before the run. *)
Record node_inv (s0 : gset bytes) (signer : option Z) (n : Node) (evs : list node_event) : Prop := {
  ni_signer : signer_of n = signer;
  ni_tokens : forall id tok, wn_authorizations n !! id = Some tok ->
    exists i now token, EvApproved id i ∈ evs /\ si_id i = id /\ tok = AuthToken_new i now token;
  ni_count : forall id,
    (shares_of id evs + (if decide (is_Some (wn_authorizations n !! id)) then 1 else 0) <= approvals_of id evs)%nat;
  ni_nonces : NoDup (approved_nonces evs) /\
    forall x, x ∈ approved_nonces evs -> x ∈ ag_used_nonces (wa_gate (wn_wallet n));
  ni_spent : s0 ⊆ spent (wa_store (wn_wallet n));
  ni_fingerprints : NoDup (share_fingerprints evs) /\
    forall x, x ∈ share_fingerprints evs -> x ∈ spent (wa_store (wn_wallet n)) /\ x ∉ s0;
}.

Lemma shares_app id a b : shares_of id (a ++ b) = (shares_of id a + shares_of id b)%nat.
Proof. unfold shares_of. by rewrite List.filter_app, length_app. Qed.
Lemma approvals_app id a b : approvals_of id (a ++ b) = (approvals_of id a + approvals_of id b)%nat.
Proof. unfold approvals_of. by rewrite List.filter_app, length_app. Qed.
Lemma nonces_app a b : approved_nonces (a ++ b) = approved_nonces a ++ approved_nonces b.
Proof. unfold approved_nonces. apply omap_app. Qed.
Lemma fingerprints_app a b : share_fingerprints (a ++ b) = share_fingerprints a ++ share_fingerprints b.
Proof. unfold share_fingerprints. apply omap_app. Qed.

Lemma node_inv_quiet s0 signer n n' evs : quiet n n' -> node_inv s0 signer n evs -> node_inv s0 signer n' evs.
Proof.
  intros [[Hg Hs] Ha Hsig] [I1 I2 I3 [I4 I4'] I6 [I5 I5']]. split.
  - congruence.
  - intros id tok Ht. apply I2. destruct (Ha id); congruence.
  - intros id. specialize (I3 id). destruct (Ha id) as [E|E]; rewrite E; [|done].
    destruct (decide (is_Some None)) as [[? ?]|]; [done|lia].
  - split; [done|]. intros x Hx. by apply Hg, I4'.
  - by etrans.
  - split; [done|]. intros x [Hx Hx']%I5'. split; [by apply Hs|done].
Qed.

Lemma node_inv_approval s0 signer id r now aid token n n' resp evs :
  node_approval_finish (P:=P) id r now aid token n = (n', Ok resp) -> node_inv s0 signer n evs ->
  node_inv s0 signer n' (evs ++ approval_event n id true).
Proof.
  intros (i & c & Hi & Hid & _ & _ & _ & _ & _ & _ & Hauth & Hn & Hused & Hsp & Hsig)%approval_finish_Ok
    [I1 I2 I3 [I4 I4'] I6 [I5 I5']].
  unfold approval_event. rewrite Hi. split.
  - congruence.
  - intros j tok. rewrite Hauth, lookup_insert. case_decide as Ej; [intros [= <-]; subst j|intros Ht].
    + exists i, now, token. split_and!; [set_solver|done|done].
    + destruct (I2 _ _ Ht) as (x & y & z & ? & ? & ?). exists x, y, z. split_and!; [set_solver|done|done].
  - intros j. specialize (I3 j). rewrite shares_app, approvals_app, Hauth, lookup_insert.
    unfold shares_of at 2, approvals_of at 2. simpl. case_bool_decide as Ej.
    + subst j. destruct (decide (id = id)); [|done]. repeat case_decide; simpl; lia.
    + destruct (decide (id = j)); [done|]. simpl. lia.
  - rewrite nonces_app, Hused. simpl. split.
    + apply NoDup_app. split_and!; [done| |apply NoDup_singleton]. intros x Hx ->%list_elem_of_singleton. by apply Hn, I4'.
    + intros x [Hx| ->%list_elem_of_singleton]%elem_of_app; [|set_solver]. apply I4' in Hx. set_solver.
  - by rewrite Hsp.
  - rewrite fingerprints_app, Hsp. simpl. by rewrite app_nil_r.
Qed.

Lemma node_inv_share s0 signer id session now n n' share evs :
  signer_round2 (S:=S) (P:=P) id session now n = (n', Ok share) -> node_inv s0 signer n evs ->
  node_inv s0 signer n' (evs ++ share_event n id session now true) /\ covered signer evs id session now /\
  (shares_of id evs < approvals_of id evs)%nat.
Proof.
  intros Hr Hinv. pose proof (node_inv_quiet s0 signer n n' evs) as Hq.
  assert (quiet n n') as Hqq by (pose proof (round2_quiet id session now n) as Hk; by rewrite Hr in Hk).
  specialize (Hq Hqq Hinv) as [J1 J2 J3 [J4 J4'] J6 [J5 J5']].
  apply round2_Ok_node in Hr as (p & tok & fp & i & Hp & Ht & _ & _ & Hfp & Ha & Hd & _ & _ & Hns & Hsp).
  destruct Hinv as [I1 I2 I3 _ I6 [I5 I5']].
  destruct (I2 _ _ Ht) as (i0 & t0 & tk & Hev & Hid & Htok). specialize (I3 id) as Hcnt.
  rewrite decide_True in Hcnt by by eauto.
  unfold share_event. rewrite Hp, Hfp. split_and!; [split| |lia].
  - done.
  - intros j tj Hj. destruct (J2 _ _ Hj) as (x & y & z & ? & ? & ?). exists x, y, z. split_and!; [set_solver|done|done].
  - intros j. specialize (J3 j). specialize (I3 j). rewrite shares_app, approvals_app.
    unfold shares_of at 2, approvals_of at 2. simpl. case_bool_decide as Ej; simpl; [|lia]. subst j.
    rewrite Hd, lookup_delete_eq. destruct (decide (is_Some None)) as [[? ?]|]; [done|]. lia.
  - rewrite nonces_app. simpl. by rewrite app_nil_r.
  - done.
  - rewrite fingerprints_app. simpl. split.
    + apply NoDup_app. split_and!; [done| |apply NoDup_singleton].
      intros x Hx ->%list_elem_of_singleton. by apply Hns, I5'.
    + intros x [Hx| ->%list_elem_of_singleton]%elem_of_app; [by apply J5'|]. split; [rewrite Hsp; set_solver|set_solver].
  - destruct (authorize tok _ _ _ _) as [tok' [[]|e]] eqn:Eau; [|done]. apply AuthToken_authorize_Ok in Eau.
    subst tok. simpl in Eau. exists i0. destruct_ex. split_and!; try done. subst. unfold signer_of.
    rewrite Hp. simpl. congruence.
Qed.

(** ** Runs *)

(** Every share in [evs] is covered by an approval before it, and the
    approvals before it outnumber the shares before it. *)
Definition shares_covered (signer : option Z) (evs : list node_event) : Prop :=
  forall pre post id session now fp, evs = pre ++ EvShare id session now fp :: post ->
    covered signer pre id session now /\ (shares_of id pre < approvals_of id pre)%nat.

Lemma shares_covered_snoc signer evs e :
  shares_covered signer evs ->
  (forall id session now fp, e = EvShare id session now fp ->
     covered signer evs id session now /\ (shares_of id evs < approvals_of id evs)%nat) ->
  shares_covered signer (evs ++ [e]).
Proof.
  intros Hs He pre post id session now fp Heq.
  destruct post as [|y post _] using rev_ind.
  - apply app_inj_tail in Heq as [-> ->]. by eapply He.
  - rewrite app_comm_cons, app_assoc in Heq. apply app_inj_tail in Heq as [-> _]. by eapply Hs.
Qed.

Lemma run_op_inv s0 signer n op evs n' e :
  run_op n op = (n', e) -> node_inv s0 signer n evs -> shares_covered signer evs ->
  node_inv s0 signer n' (evs ++ e) /\ shares_covered signer (evs ++ e).
Proof.
  intros Hr Hinv Hsc.
  assert (quiet n n' -> e = [] -> node_inv s0 signer n' (evs ++ e) /\ shares_covered signer (evs ++ e)) as Hquiet.
  { intros Hq ->. rewrite app_nil_r. split; [by eapply node_inv_quiet|done]. }
  destruct op; simpl in Hr; try (injection Hr as <- <-; apply Hquiet; [|done]).
  - apply node_create_intent_quiet.
  - apply node_create_personal_quiet.
  - apply node_create_covhub_quiet.
  - apply create_trade_quiet.
  - apply create_transaction_quiet.
  - apply create_chat_quiet.
  - apply node_cancel_quiet.
  - apply registration_start_quiet.
  - apply registration_finish_quiet.
  - apply approval_start_quiet.
  - destruct (node_approval_finish _ _ _ _ _ n) as [n1 [resp|err]] eqn:Ea; injection Hr as <- <-.
    + split; [by eapply node_inv_approval|]. unfold approval_event. simpl. case_match; [|by rewrite app_nil_r].
      by apply shares_covered_snoc.
    + apply Hquiet; [|done]. by eapply approval_finish_quiet_err.
  - apply round1_quiet.
  - destruct (signer_round2 _ _ _ n) as [n1 [share|err]] eqn:Ea; injection Hr as <- <-.
    + destruct (node_inv_share s0 signer _ _ _ _ _ _ evs Ea Hinv) as (H1' & H2' & H3'). split; [done|].
      unfold share_event. simpl. repeat (case_match; try by rewrite app_nil_r).
      apply shares_covered_snoc; [done|]. by intros ? ? ? ? [= -> -> -> ->].
    + apply Hquiet; [|done]. pose proof (round2_quiet intent_id session now n) as Hk. by rewrite Ea in Hk.
  - apply create_job_quiet.
  - apply execute_job_quiet.
  - by apply quiet_same.
  - by apply quiet_wallet.
Qed.

Lemma run_inv s0 signer n ops evs n' e :
  run n ops = (n', e) -> node_inv s0 signer n evs -> shares_covered signer evs ->
  node_inv s0 signer n' (evs ++ e) /\ shares_covered signer (evs ++ e).
Proof.
  revert n evs n' e. induction ops as [|op ops IH]; simpl; intros n evs n' e Hr Hi Hs.
  { injection Hr as <- <-. by rewrite app_nil_r. }
  destruct (run_op n op) as [n1 e1] eqn:E1. destruct (run n1 ops) as [n2 e2] eqn:E2. injection Hr as <- <-.
  destruct (run_op_inv s0 signer _ _ evs _ _ E1 Hi Hs) as [Hi1 Hs1]. rewrite app_assoc. by eapply IH.
Qed.

(** A node that was just built holds no token. *)
Lemma node_inv_start n : wn_authorizations n = ∅ -> node_inv (spent (wa_store (wn_wallet n))) (signer_of n) n [].
Proof.
  intros Ha. split; [done| | | |done|]; try (rewrite Ha; intros id).
  - intros tok. by rewrite lookup_empty.
  - rewrite lookup_empty. destruct (decide (is_Some None)) as [[? ?]|]; [done|]. done.
  - split; [constructor|]. intros x Hx. by apply elem_of_nil in Hx.
  - split; [constructor|]. intros x Hx. by apply elem_of_nil in Hx.
Qed.

Lemma shares_covered_nil signer : shares_covered signer [].
Proof. intros pre post id session now fp Heq. by destruct pre. Qed.
End inv.
