(* ===== verification/WalletConcrete.v ===== *)
(** * A computable wallet

    Stand-ins for webauthn-rs, the text encodings and the script predicates of
    rust-bitcoin, and one complete run of the node: enrol a Passkey, create an
    intent, approve it, and release one share. *)

From Stdlib Require Import ZArith Lia.
From S2P Require Import Prelude Effects Bitcoin Text ChainDomain SigningDomain Personal Intent SigningJob Covhub IssuanceTerms Concrete.
From S2P Require Import Frost Participant Gate WalletStore Trading TransactionReview WebAuthn WalletApi WalletNode WalletNodeInv.
From stdpp Require Import list gmap.
Local Open Scope string_scope.
Local Open Scope list_scope.
Local Open Scope Z_scope.

#[export] Instance toy_codec : TextCodec := {|
  hex_encode := String.string_of_list_byte;
  b64url_encode := String.string_of_list_byte;
  base64_decode s := Some (ascii_bytes s);
|}.

#[export] Instance toy_order : HashOrder := fun K A l => l.
#[export] Instance toy_order_laws : HashOrderLaws toy_order.
Proof. intros K A l. reflexivity. Qed.

(** A credential is its id; an assertion repeats the challenge. *)
#[export] Instance toy_webauthn : WebauthnLib := {|
  Url := string;
  url_parse s := Ok s;
  url_host_str _ := Some "localhost";
  url_scheme _ := "http";
  Webauthn := unit;
  webauthn_build _ _ _ _ := Ok tt;
  Passkey := bytes;
  passkey_cred_id p := p;
  passkey_from_json s := Ok (ascii_bytes s);
  passkey_to_json p := Ok (String.string_of_list_byte p);
  PasskeyRegistration := bytes;
  PasskeyAuthentication := bytes;
  CreationChallengeResponse := bytes;
  RequestChallengeResponse := bytes;
  RegisterPublicKeyCredential := bytes * bytes;
  PublicKeyCredential := bytes * bytes;
  AuthenticationResult := bytes;
  start_passkey_registration _ _ _ _ _ rng := Ok (rng, rng);
  finish_passkey_registration _ c st := if bool_decide (c.1 = st) then Ok c.2 else Err "challenge";
  start_passkey_authentication _ _ rng := Ok (rng, rng);
  finish_passkey_authentication _ c st := if bool_decide (c.1 = st) then Ok c.2 else Err "challenge";
  user_verified _ := true;
  result_cred_id r := r;
  update_credential p r := if bool_decide (p = r) then Some p else None;
|}.

#[export] Instance toy_review : ReviewLib := {|
  serialize_hex t := String.string_of_list_byte (tx_serialize t);
  outpoint_from_str s := Some (mkOutPoint (ascii_bytes s) 0);
  outpoint_to_string o := String.string_of_list_byte (op_txid o);
  txid_to_string := String.string_of_list_byte;
  compute_wtxid := compute_txid;
  total_size t := Z.of_nat (length (tx_serialize t));
  weight_wu t := 4 * Z.of_nat (length (tx_serialize t));
  tx_vsize t := Z.of_nat (length (tx_serialize t));
  script_is_p2tr s := bool_decide (head s = Some x01);
  script_is_p2wpkh _ := false;
  script_is_p2wsh _ := false;
  script_is_p2pkh _ := false;
  script_is_p2sh _ := false;
  script_is_op_return s := bool_decide (head s = Some x6a);
  script_is_witness_program _ := false;
  minimal_non_dust _ := 330;
  address_from_script _ := None;
  sequence_is_rbf s := s <? 2 ^ 32 - 2;
  key_spend_sighash_at t i p := Some (sha256 (z2b (Z.of_nat i) :: tx_serialize t));
|}.

#[export] Instance toy_show : ShowInt := fun _ => "n".

(** The signer the service ships with keeps the promises of the boundary. *)
#[export] Instance LocalFrostParticipant_laws `{BitcoinLib} `{FrostLib} `{ShowInt}
    : ThresholdSignerLaws LocalFrostParticipant.
Proof.
  split; cbn.
  - intros p session auth now p' auth' share Hr.
    apply round2_Ok in Hr as (pending & identifier & _ & _ & _ & _ & _ & Hs & _). by apply sign_share_Ok in Hs as [? _].
  - intros p session auth now. unfold round2. repeat case_match; simplify_eq; done.
  - intros p sid msg rng. unfold round1. repeat case_match; done.
Qed.

(** ** A run *)

Definition demo_id : Uuid := replicate 16 x11.
Definition demo_wallet_id : Uuid := replicate 16 x22.
Definition demo_ceremony : Uuid := replicate 16 x33.
Definition demo_session_id : bytes := replicate 32 x51.
Definition demo_message : bytes := replicate 32 x4d.
Definition demo_pkp : @PublicKeyPackage toy_frost := (<[1 := [x01]]> (<[2 := [x02]]> ∅), replicate 32 xaa).
Definition demo_participant : LocalFrostParticipant := mkLocalFrostParticipant 1 1 NonceGuard_new ∅.
Definition demo_new : result WalletNodeError (WalletNodeService (S:=InMemoryWalletStore) (P:=LocalFrostParticipant)) :=
  new_with_store_capability RelyingPartyConfig_default (Some demo_participant) demo_pkp 2 InMemoryWalletStore_new 0
    false demo_wallet_id demo_id.
Definition demo_fallback : WalletNodeService (S:=InMemoryWalletStore) (P:=LocalFrostParticipant) :=
  mkWalletNodeService (with_store InMemoryWalletStore_new)
    (mkWebAuthnRelyingParty RelyingPartyConfig_default tt [] ∅ ∅ ∅) None None 0 false ∅ ∅ ∅ ∅ ∅ ∅ ∅ [].
Definition demo_node := default demo_fallback (result_ok demo_new).

Definition demo_session : FrostSession :=
  build_session demo_session_id demo_message 2 (<[1 := [x07; x01]]> ∅) demo_pkp.
Definition demo_ops : list node_op :=
  [ OpRegistrationStart (mkPasskeyRegistrationStartRequest "key" "user" "User") 10 demo_ceremony [x01];
    OpRegistrationFinish (mkPasskeyRegistrationFinishRequest demo_ceremony ([x01], [x43])) 11;
    OpCreateIntent (mkCreateIntentRequest demo_wallet_id 1 demo_message demo_session_id 100) 12 demo_id (replicate 32 x09);
    OpApprovalStart demo_id 13 demo_ceremony [x02];
    OpApprovalFinish demo_id (mkApprovalFinishRequest demo_ceremony ([x02], [x43])) 14 demo_wallet_id [x0a];
    OpRound1 demo_id 15 [x07];
    OpRound2 demo_id demo_session 16 ].
Definition demo_intent : SigningIntent :=
  mkSigningIntent demo_id Intent.Signet 1 SignTaprootTransaction demo_wallet_id 1 None demo_message demo_session_id 100
    (replicate 32 x09) IntentPending 12 None.
Definition demo_fingerprint : bytes := fingerprint 1 [x07].

Lemma demo_new_Ok :
  new_with_store_capability RelyingPartyConfig_default (Some demo_participant) demo_pkp 2 InMemoryWalletStore_new 0
    false demo_wallet_id demo_id = Ok demo_node.
Proof. apply (is_ok_default demo_new). by vm_compute. Qed.

(** The first share of a trace. *)
Fixpoint split_share {F : FrostLib} (evs : list node_event) : option (list node_event * (Uuid * FrostSession * Z * bytes) * list node_event) :=
  match evs with
  | [] => None
  | EvShare id session now fp :: post => Some ([], (id, session, now, fp), post)
  | e :: rest => '(pre, x, post) ← split_share rest; Some (e :: pre, x, post)
  end.

Lemma split_share_Some {F : FrostLib} evs pre id session now fp post :
  split_share evs = Some (pre, (id, session, now, fp), post) -> evs = pre ++ EvShare id session now fp :: post.
Proof.
  revert pre. induction evs as [|e evs IH]; intros pre; simpl; [done|].
  destruct e as [i x|j s t f]; [|by intros [= <- -> -> -> -> ->]].
  destruct (split_share evs) as [[[pre' x'] post']|]; simpl; [|done].
  intros [= <- -> ->]. simpl. f_equal. by apply IH.
Qed.

(** A signer profile of the wallet. *)
Definition sample_profile : SignerProfile :=
  mkSignerProfile demo_id demo_wallet_id (ChainScope_for_network (NetKaspa KaspaTestnet11)) KaspaEcdsaCbMpcV1
    CbMpcThresholdEcdsa "set" "signer-2" 1 2 3 [x02] "ref".

(** ** A store with chain signing

    The process-local store extended by a signer profile and a table of jobs,
    as the durable store has them. *)
Record JobStore := mkJobStore { jb_base : InMemoryWalletStore; jb_jobs : gmap Uuid ChainSigningJobState }.
Definition set_base (b : InMemoryWalletStore) (s : JobStore) : JobStore := mkJobStore b (jb_jobs s).
Definition on_base {A} (m : act InMemoryWalletStore WalletStoreError A) : act JobStore WalletStoreError A :=
  zoom jb_base set_base (fun e => e) m.

Definition job_state (r : CreateChainSigningJobRequest) (now : Z) : ChainSigningJobState :=
  let j := cj_job r in
  mkChainSigningJobState (sj_job_id j) (sj_intent_id j) (sj_wallet_id j) (sj_profile_id j) (sj_chain_scope j)
    (sj_signing_suite_id j) (sj_backend_requirement j) (ra_schema_version (sj_review j))
    (ra_review_digest (sj_review j)) (ra_signing_message_digest (sj_review j)) (sj_policy_snapshot_digest j)
    (sj_chain_snapshot_digest j) (sj_session_id j) (sj_online_parties j) (sj_receiver j)
    (cj_operation_binding_digest r) JobSigning None None (sj_expires_at j) (sj_created_at j) now.

#[export] Instance JobStore_store : WalletStore JobStore := {|
  descriptor s := StorageDescriptor_compatibility;
  store_wallet_id s := store_wallet_id (jb_base s);
  insert_intent i := on_base (insert_intent i);
  get_intent s := get_intent (jb_base s);
  list_intents s := list_intents (jb_base s);
  update_intent i now := on_base (update_intent i now);
  webauthn_profile s := webauthn_profile (jb_base s);
  set_webauthn_profile p := on_base (set_webauthn_profile p);
  insert_passkey p := on_base (insert_passkey p);
  list_passkeys s := list_passkeys (jb_base s);
  begin_approval a := on_base (begin_approval a);
  complete_approval c := on_base (complete_approval c);
  available_authorizations s := available_authorizations (jb_base s);
  claim_frost_nonce c := on_base (claim_frost_nonce c);
  signer_profiles s := Ok [(sample_profile, [])];
  store_create_chain_signing_job r now s :=
    let st := job_state r now in
    (mkJobStore (jb_base s) (<[js_job_id st := st]> (jb_jobs s)), Ok st);
  store_chain_signing_job s id := Ok (jb_jobs s !! id);
  chain_signing_execution s id := Ok None;
  claim_chain_executor _ _ := mret tt;
  finalize_chain_signing_job _ _ _ _ := mret tt;
  terminate_chain_signing_job _ _ _ _ _ := mret tt;
|}.
