(* ===== verification/WalletProperties.v ===== *)
(** * Properties of the wallet node

    The claims about approvals, released shares, chain signing jobs and the
    CovHub bridge, with witnesses over the computable wallet. *)

From Stdlib Require Import ZArith Lia.
From S2P Require Import Prelude Effects Bitcoin Text ChainDomain SigningDomain Personal Intent SigningJob Covhub IssuanceTerms Concrete.
From S2P Require Import Frost Participant Gate WalletStore Trading TransactionReview WebAuthn WalletApi WalletNode WalletNodeInv WalletConcrete TradingProperties.
From stdpp Require Import list gmap.
Local Open Scope string_scope.
Local Open Scope list_scope.
Local Open Scope Z_scope.

Section node.
Context `{BitcoinLib} `{BuildProfile} `{TextCodec} `{WebauthnLib} `{HashOrder} `{ReviewLib} `{FrostLib}.
Context {S : Type} `{!WalletStore S} {P : Type} `{!ThresholdSigner P}.

Lemma new_node_authorizations config p pkp min store now durable fw fu n :
  new_with_store_capability (S:=S) (P:=P) config p pkp min store now durable fw fu = Ok n ->
  wn_authorizations n = ∅ /\ wn_participant n = p.
Proof. unfold new_with_store_capability. intros Hn. res_inv. by subst n. Qed.

(** ** Restarts *)

Section restarts.
Context `{!WalletStoreLaws S} `{!ThresholdSignerLaws P}.

(** Starting a node leaves the claimed nonces of its store as they are. *)
Lemma new_node_spent config p pkp min store now durable fw fu n :
  new_with_store_capability (S:=S) (P:=P) config p pkp min store now durable fw fu = Ok n ->
  spent (wa_store (wn_wallet n)) = spent store.
Proof.
  unfold new_with_store_capability, restore_authority, store_call, zoom. intros Hn. res_step.
  assert (spent (wa_store (ra_wallet r)) = spent store) as Hr.
  { res_inv. destruct r4 as [w profile]. res_inv. subst r. simpl. destruct r3; res_inv; simplify_eq; [done|].
    match type of E4 with context [set_webauthn_profile ?q ?s] => pose proof (profile_spent q s) as Hp;
      destruct (set_webauthn_profile q s) as [s' [u|e]] end; simpl in E4; simplify_eq. exact Hp. }
  res_inv. subst n. simpl. by destruct p.
Qed.

(** Processes one after the other, each started on a store that has kept the
    nonces claimed before, with the events of each. *)
Inductive processes : S -> list (list node_event) -> S -> Prop :=
| processes_none store : processes store [] store
| processes_one config p pkp min store now durable fw fu (n0 n : WalletNodeService (S:=S) (P:=P)) ops evs next rest last :
    new_with_store_capability config p pkp min store now durable fw fu = Ok n0 -> run n0 ops = (n, evs) ->
    spent (wa_store (wn_wallet n)) ⊆ spent next -> processes next rest last -> processes store (evs :: rest) last.

Lemma processes_fingerprints store evss last :
  processes store evss last ->
  spent store ⊆ spent last /\ NoDup (share_fingerprints (concat evss)) /\
  (forall fp, fp ∈ share_fingerprints (concat evss) -> fp ∉ spent store /\ fp ∈ spent last) /\
  Forall (fun evs => NoDup (approved_nonces evs)) evss.
Proof.
  induction 1 as [store|config p pkp min store now durable fw fu n0 n ops evs next rest last Hn Hr Hnext _ (I1 & I2 & I3 & I4)].
  { split_and!; [done|constructor|by intros fp Hfp%elem_of_nil|constructor]. }
  pose proof (new_node_spent _ _ _ _ _ _ _ _ _ _ Hn) as Hsp. apply new_node_authorizations in Hn as [Ha _].
  pose proof (run_inv _ _ _ _ _ _ _ Hr (node_inv_start _ Ha) (shares_covered_nil _)) as [[_ _ _ [Hap _] Hs [Hf Hfs]] _].
  rewrite app_nil_l in *. rewrite Hsp in *. simpl. rewrite fingerprints_app. split_and!.
  - etrans; [exact Hs|]. by etrans.
  - apply NoDup_app. split_and!; [done| |done]. intros fp Hfp Hfp'. apply Hfs in Hfp as [Hfp _]. apply I3 in Hfp' as [Hfp' _].
    by apply Hfp', Hnext.
  - intros fp [Hfp|Hfp]%elem_of_app; [apply Hfs in Hfp as [Hin Hnot]; split; [done|by apply I1, Hnext]|].
    apply I3 in Hfp as [Hnot Hin]. split; [|done]. intros Hin0. by apply Hnot, Hnext, Hs.
  - by constructor.
Qed.
End restarts.

(** ** Success conditions *)

Lemma approval_start_Ok id now cid rng (n n' : WalletNodeService (S:=S) (P:=P)) resp :
  node_approval_start id now cid rng n = (n', Ok resp) ->
  exists i c, get_intent (wa_store (wn_wallet n)) id = Some i /\
    (is_Some (wn_trade_requests n !! id) -> exists v, trade_verification id n = Ok v) /\
    wr_approvals (wn_relying_party n') !! cid = Some c /\ ceremony_for c i.
Proof.
  unfold node_approval_start, wallet_read, read_intent, wallet_call, rp_call, store_call. intros Hs. act_inv.
  match goal with Hs : (match ?x with Ok _ => _ | Err _ => _ end) _ = _ |- _ => destruct x end; act_inv.
  match goal with E : rp_approval_start _ _ _ _ _ = _ |- _ =>
    apply rp_approval_start_Ok in E as (_ & _ & Hcid & c & Hfor & _ & ->) end.
  eexists _, c. split_and!; [done| |simpl; apply lookup_insert_eq|done].
  intros Hsome. rewrite (bool_decide_true (is_Some (wn_trade_requests n !! id))) in * by done. res_inv. by eauto.
Qed.

Lemma create_job_refused request now (n : WalletNodeService (S:=S) (P:=P)) :
  wn_authorization_records n !! sj_intent_id (cj_job request) = None ->
  exists e, node_create_chain_signing_job request now n = (n, Err e).
Proof.
  intros Hr. unfold node_create_chain_signing_job, mbind, act_bind, reads, lift. rewrite Hr.
  case_match; simplify_eq; [simpl; by eauto|by eauto].
Qed.

Lemma create_job_Ok request now (n n' : WalletNodeService (S:=S) (P:=P)) st :
  node_create_chain_signing_job request now n = (n', Ok st) ->
  let job := cj_job request in
  (exists auth i, wn_authorization_records n !! sj_intent_id job = Some auth /\
     get_intent (wa_store (wn_wallet n)) (sj_intent_id job) = Some i /\ si_status i = IntentApproved /\
     au_id auth = cj_authorization_id request /\ au_binding_digest auth = intent_digest i /\
     cj_operation_binding_digest request = intent_digest i /\ now <= au_expires_at auth /\ now <= si_expiry i /\
     si_tx_digest i = ra_signing_message_digest (sj_review job) /\ si_session_id i = sj_session_id job /\
     si_expiry i = sj_expires_at job /\ rb_chain_scope (sj_review_binding job) = sj_chain_scope job /\
     rb_review_digest (sj_review_binding job) = ra_review_digest (sj_review job) /\
     (forall b, si_covhub i = Some b ->
        sj_chain_scope job = cb_chain_scope b /\ ra_review_digest (sj_review job) = cb_review_digest b /\
        sj_profile_id job = cb_profile_id b /\
        is_ok (require_executable_suite (cb_chain_scope b) (sj_signing_suite_id job)) = true)) /\
  wn_authorization_records n' !! sj_intent_id job = None /\ wn_authorizations n' !! sj_intent_id job = None.
Proof.
  unfold node_create_chain_signing_job, wallet_read, read_intent, wallet_call, store_call. intros Hc. act_inv.
  match goal with
  | Ec : match si_covhub ?i with _ => _ end _ = (?s, Ok _), Hi : get_intent _ _ = Some ?i |- _ =>
      assert (s = n /\ forall b, si_covhub i = Some b ->
        sj_chain_scope (cj_job request) = cb_chain_scope b /\
        ra_review_digest (sj_review (cj_job request)) = cb_review_digest b /\
        sj_profile_id (cj_job request) = cb_profile_id b /\
        is_ok (require_executable_suite (cb_chain_scope b) (sj_signing_suite_id (cj_job request))) = true)
        as [-> Hcov]
  end.
  { destruct (si_covhub _) as [cb|] eqn:Ecov; act_inv; [|done]. split; [done|]. intros b [= <-].
    match goal with Hm : covhub_job_matches_binding _ _ _ _ = true |- _ =>
      eapply covhub_job_matches_Ok in Hm; [|done] end. destruct_ex. by split_and!. }
  simpl. rewrite !lookup_delete_eq. split_and!; [|done|done].
  eexists _, _. split_and!; try done; try congruence; lia.
Qed.

(** C2: no share without approval, one share per approval.  In every run of a
    freshly started node, whatever operations it serves and in whatever order,
    a share released for intent [id] in a FROST session is preceded by a
    successful Passkey approval of a stored intent with this id whose session,
    message and signer are exactly those of the session and of this node's
    participant, which has no personal group policy and has not expired at
    release time; and before it strictly fewer shares than approvals of this
    intent were produced. *)
Theorem share_needs_approval `{!WalletStoreLaws S} `{!ThresholdSignerLaws P}
    config p pkp min store now0 durable fw fu (n0 n : WalletNodeService (S:=S) (P:=P)) ops evs pre post id session now fp :
  new_with_store_capability config p pkp min store now0 durable fw fu = Ok n0 -> run n0 ops = (n, evs) ->
  evs = pre ++ EvShare id session now fp :: post ->
  (exists i, EvApproved id i ∈ pre /\ si_id i = id /\ si_session_id i = fs_id session /\
     si_tx_digest i = fs_message session /\ Some (si_signer_id i) = ts_signer_id <$> p /\
     si_personal_signing_policy i = None /\ now <= si_expiry i) /\
  (shares_of id pre < approvals_of id pre)%nat.
Proof.
  intros [Ha Hp]%new_node_authorizations Hr Hevs.
  pose proof (run_inv _ _ _ _ _ _ _ Hr (node_inv_start _ Ha) (shares_covered_nil _)) as [_ Hs].
  unfold signer_of in Hs. rewrite Hp in Hs. by apply (Hs pre post id session now fp).
Qed.

(** C12: one-time material is used once.  Over any sequence of node processes, each
    started on a store that kept the nonces claimed before it, no two released
    shares used nonces with the same fingerprint, whichever process released
    them; every such fingerprint was unclaimed in the first store and is claimed
    in the last.  Within one process, which keeps them in memory, no intent
    nonce is approved twice. *)
Theorem one_time_material `{!WalletStoreLaws S} `{!ThresholdSignerLaws P} (store last : S) evss :
  processes store evss last ->
  NoDup (share_fingerprints (concat evss)) /\
  (forall fp, fp ∈ share_fingerprints (concat evss) -> fp ∉ spent store /\ fp ∈ spent last) /\
  Forall (fun evs => NoDup (approved_nonces evs)) evss.
Proof. by intros (_ & ?)%processes_fingerprints. Qed.

(** C6: an approval takes a verified Passkey assertion for this very intent.
    [approval_finish] succeeds only for a stored pending, unexpired intent, on a
    ceremony that was begun for the digest this intent has now, with an
    assertion the WebAuthn library accepted for that ceremony's challenge, with
    user verification, by an enrolled credential.  The ceremony is consumed and
    the token it grants is bound to the intent's session, message, signer and
    expiry. *)
Theorem approval_requires_passkey `{!WalletStoreLaws S} id r now aid token (n n' : WalletNodeService (S:=S) (P:=P)) resp :
  node_approval_finish id r now aid token n = (n', Ok resp) ->
  exists i c res, get_intent (wa_store (wn_wallet n)) id = Some i /\ si_id i = id /\ si_status i = IntentPending /\
    now <= si_expiry i /\ wr_approvals (wn_relying_party n) !! af_ceremony_id r = Some c /\
    ay_intent_digest c = intent_digest i /\
    finish_passkey_authentication (wr_webauthn (wn_relying_party n)) (af_credential r) (ay_state c) = Ok res /\
    user_verified res = true /\ is_Some (wr_credentials (wn_relying_party n) !! b64url_encode (result_cred_id res)) /\
    wr_approvals (wn_relying_party n') !! af_ceremony_id r = None /\
    wn_authorizations n' = <[id := AuthToken_new i now token]> (wn_authorizations n).
Proof.
  intros (i & c & H1' & H2' & H3' & H4' & H5' & H6' & (res & H7' & H8' & H9') & H10' & H11' & _)%approval_finish_Ok.
  exists i, c, res. by split_and!.
Qed.

(** A CovHub intent never enters the FROST path.  For an intent with a
    CovHub binding both signing rounds are refused and leave the node exactly
    as it was: no nonce is made, no authorization is consumed. *)
Theorem covhub_never_signs_with_frost id i b now rng session (n : WalletNodeService (S:=S) (P:=P)) :
  get_intent (wa_store (wn_wallet n)) id = Some i -> si_covhub i = Some b ->
  signer_round1 id now rng n = (n, Err WN_CovhubLegacyPathRejected) /\
  signer_round2 id session now n = (n, Err WN_CovhubLegacyPathRejected).
Proof.
  intros Hi Hb. unfold signer_round1, signer_round2, wallet_read, read_intent, mbind, act_bind, reads, lift.
  rewrite Hi. simpl. by rewrite Hb.
Qed.

(** C18: a chain signing job needs the approval of its exact intent, and takes
    it away.  A job is created only with the recorded, unexpired authorization
    of an approved intent whose digest is the operation digest, whose message,
    session and expiry are the job's and whose review binding fits the job; a
    CovHub intent must further agree in chain scope, review and profile, with
    an executable suite.  Afterwards neither the record nor the token exists,
    and every further job for this intent is refused without any change. *)
Theorem chain_job_needs_approval request now (n n' : WalletNodeService (S:=S) (P:=P)) st :
  node_create_chain_signing_job request now n = (n', Ok st) ->
  let job := cj_job request in
  (exists auth i, wn_authorization_records n !! sj_intent_id job = Some auth /\
     get_intent (wa_store (wn_wallet n)) (sj_intent_id job) = Some i /\ si_status i = IntentApproved /\
     au_id auth = cj_authorization_id request /\ au_binding_digest auth = intent_digest i /\
     cj_operation_binding_digest request = intent_digest i /\ now <= au_expires_at auth /\ now <= si_expiry i /\
     si_tx_digest i = ra_signing_message_digest (sj_review job) /\ si_session_id i = sj_session_id job /\
     si_expiry i = sj_expires_at job /\ rb_chain_scope (sj_review_binding job) = sj_chain_scope job /\
     rb_review_digest (sj_review_binding job) = ra_review_digest (sj_review job) /\
     (forall b, si_covhub i = Some b ->
        sj_chain_scope job = cb_chain_scope b /\ ra_review_digest (sj_review job) = cb_review_digest b /\
        sj_profile_id job = cb_profile_id b /\
        is_ok (require_executable_suite (cb_chain_scope b) (sj_signing_suite_id job)) = true)) /\
  wn_authorization_records n' !! sj_intent_id job = None /\ wn_authorizations n' !! sj_intent_id job = None /\
  (forall request' now', sj_intent_id (cj_job request') = sj_intent_id job ->
     exists e, node_create_chain_signing_job request' now' n' = (n', Err e)).
Proof.
  intros Hc. cbv zeta. apply create_job_Ok in Hc as (Hex & Hr & Ha). split_and!; [done|done|done|].
  intros request' now' Hid. by apply create_job_refused; rewrite Hid.
Qed.

(** A trade is verified again when its approval starts.  An approval
    ceremony for an intent created from a protected trade is started only when
    the node reports an active Signet height at which the wallet's own verifier
    accepts the stored raw trade, with the intent's message as its sighash;
    that message is what the ceremony is bound to. *)
Theorem trade_reverified_at_approval id now cid rng (n n' : WalletNodeService (S:=S) (P:=P)) resp request :
  node_approval_start id now cid rng n = (n', Ok resp) -> wn_trade_requests n !! id = Some request ->
  exists height verified i c, trading_height n = Ok height /\ WalletTradingApi_verify request height = Ok verified /\
    get_intent (wa_store (wn_wallet n)) id = Some i /\ si_tx_digest i = vt_sighash verified /\
    wr_approvals (wn_relying_party n') !! cid = Some c /\ ay_message c = vt_sighash verified /\
    ay_intent_digest c = intent_digest i.
Proof.
  intros Hs Ht. apply approval_start_Ok in Hs as (i & c & Hi & Htr & Hc & Hfor).
  assert (is_Some (wn_trade_requests n !! id)) as (v & Hv)%Htr by by eauto.
  unfold trade_verification, wallet_read, read_intent in Hv. rewrite Ht, Hi in Hv. res_inv. simplify_eq.
  destruct Hfor as (_ & Hd & _ & _ & Hm & _). eexists _, _, _, _. split_and!; try done. congruence.
Qed.

End node.

(** ** Witnesses *)

Lemma demo_share : is_Some (split_share (run demo_node demo_ops).2).
Proof.
  assert (match split_share (run demo_node demo_ops).2 with Some _ => true | None => false end = true) as Hs
    by by vm_compute.
  destruct (split_share _); [by eauto|done].
Qed.

Lemma share_needs_approval_witness :
  exists pre post id session now fp,
    (run demo_node demo_ops).2 = pre ++ EvShare id session now fp :: post /\
    (exists i, EvApproved id i ∈ pre /\ si_session_id i = fs_id session /\ si_tx_digest i = fs_message session).
Proof.
  destruct demo_share as [[[pre [[[id session] now] fp]] post] Hs]. apply split_share_Some in Hs.
  exists pre, post, id, session, now, fp. split; [exact Hs|].
  destruct (run demo_node demo_ops) as [n evs] eqn:Hr. simpl in Hs.
  destruct (share_needs_approval _ _ _ _ _ _ _ _ _ _ _ _ _ pre post id session now fp demo_new_Ok Hr Hs)
    as [(i & H1 & _ & H2 & H3 & _) _].
  exists i. by split_and!.
Defined.

(** Two processes: the first approves two intents and releases a share for each; the
    second, started on its store with a fresh participant, approves a third,
    draws the nonces of the first again and is refused, draws new ones and
    releases a share. *)
Definition again (k : byte) (rng : bytes) : list node_op :=
  [ OpCreateIntent (mkCreateIntentRequest demo_wallet_id 1 demo_message (replicate 32 k) 100) 12 (replicate 16 k) (replicate 32 k);
    OpApprovalStart (replicate 16 k) 13 (replicate 16 k) [x02];
    OpApprovalFinish (replicate 16 k) (mkApprovalFinishRequest (replicate 16 k) ([x02], [x43])) 14 (replicate 16 k) [x0a];
    OpRound1 (replicate 16 k) 15 rng;
    OpRound2 (replicate 16 k) (build_session (replicate 32 k) demo_message 2 (<[1 := rng ++ [x01]]> ∅) demo_pkp) 16 ].
Definition first_life := run demo_node (demo_ops ++ again x61 [x08]).
Definition second_new := new_with_store_capability RelyingPartyConfig_default (Some demo_participant) demo_pkp 2
  (wa_store (wn_wallet first_life.1)) 20 false demo_wallet_id demo_id.
Definition second_node := default demo_fallback (result_ok second_new).
Definition second_life := run second_node (again x62 [x07] ++ again x63 [x09]).
Lemma second_new_Ok : second_new = Ok second_node.
Proof. apply (is_ok_default second_new). by vm_compute. Qed.

Lemma two_lives : processes InMemoryWalletStore_new [first_life.2; second_life.2] (wa_store (wn_wallet second_life.1)).
Proof.
  pose proof second_new_Ok as H2. unfold second_new in H2. unfold second_life. revert H2. generalize second_node. intros n2 H2.
  pose proof demo_new_Ok as H1. unfold first_life in *. revert H1 H2. generalize demo_node. intros n1 H1 H2.
  eapply processes_one; [exact H1|apply surjective_pairing|reflexivity|].
  eapply processes_one; [exact H2|apply surjective_pairing|reflexivity|]. constructor.
Qed.
Lemma one_time_material_witness :
  NoDup (share_fingerprints (first_life.2 ++ second_life.2)) /\
  length (share_fingerprints (first_life.2 ++ second_life.2)) = 3%nat /\ NoDup (approved_nonces first_life.2) /\
  length (approved_nonces first_life.2) = 2%nat /\ length (approved_nonces second_life.2) = 2%nat.
Proof.
  assert (Forall (fun k => k = true) [bool_decide (length (share_fingerprints (first_life.2 ++ second_life.2)) = 3%nat);
    bool_decide (length (approved_nonces first_life.2) = 2%nat); bool_decide (length (approved_nonces second_life.2) = 2%nat)]) as Hl.
  { vm_compute. repeat constructor. }
  pose proof (one_time_material _ _ _ two_lives) as (Hf & _ & Ha). revert Hf Ha Hl.
  generalize first_life. intros [n1 e1]. generalize second_life. intros [n2 e2]. intros Hf Ha Hl. simpl in *.
  rewrite app_nil_r in Hf. rewrite !Forall_cons, !bool_decide_eq_true in Hl. rewrite Forall_cons in Ha.
  destruct Ha as [Ha _], Hl as (H3 & H4 & H5 & _). exact (conj Hf (conj H3 (conj Ha (conj H4 H5)))).
Defined.

Definition demo_n4 := (run demo_node (take 4 demo_ops)).1.
Definition demo_finish := node_approval_finish (S:=InMemoryWalletStore) (P:=LocalFrostParticipant) demo_id
  (mkApprovalFinishRequest demo_ceremony ([x02], [x43])) 14 demo_wallet_id [x0a] demo_n4.

Lemma approval_requires_passkey_witness :
  exists i, get_intent (wa_store (wn_wallet demo_n4)) demo_id = Some i /\ si_status i = IntentPending.
Proof.
  assert (is_ok demo_finish.2 = true) as Hok by by vm_compute.
  destruct demo_finish as [n' [resp|e]] eqn:Hf; [|done]. unfold demo_finish in Hf.
  destruct (approval_requires_passkey _ _ _ _ _ _ _ _ Hf) as (i & c & res & Hi & _ & Hs & _). exists i. exact (conj Hi Hs).
Defined.

(** A CovHub intent in the store. *)
Definition demo_scope : ChainScope := ChainScope_for_network (NetKaspa KaspaTestnet11).
Definition demo_binding : CovhubBinding :=
  mkCovhubBinding 1 "proposal:1" "d" "c" "k" demo_scope (replicate 32 x01) demo_message demo_id.
Definition demo_cov_intent : SigningIntent :=
  mkSigningIntent demo_id NetworkCovhubDelegated 1 ActionCovhubDelegated demo_wallet_id 1 None demo_message
    demo_session_id 100 (replicate 32 x09) IntentApproved 12 (Some demo_binding).
Definition demo_cov_node : WalletNodeService (S:=InMemoryWalletStore) (P:=LocalFrostParticipant) :=
  set_wallet (with_store (mkInMemoryWalletStore {[demo_id := demo_cov_intent]} None [] ∅ ∅ ∅)) demo_node.

Lemma covhub_never_signs_with_frost_witness :
  signer_round2 demo_id demo_session 16 demo_cov_node = (demo_cov_node, Err WN_CovhubLegacyPathRejected).
Proof.
  unshelve refine (proj2 (covhub_never_signs_with_frost demo_id demo_cov_intent demo_binding 16 _ demo_session demo_cov_node _ _)).
  - exact ([] : bytes).
  - apply lookup_singleton_eq.
  - reflexivity.
Defined.

(** A chain signing job for an approved intent. *)
Definition job_intent : SigningIntent := set_status demo_intent IntentApproved.
Definition job_review : ReviewArtifact := mkReviewArtifact 2 demo_scope (replicate 32 x01) demo_message "pay" [x01].
Definition demo_job : SigningJob :=
  mkSigningJob demo_ceremony demo_id demo_id demo_wallet_id demo_scope KaspaEcdsaCbMpcV1 CbMpcThresholdEcdsa
    job_review (mkReviewBinding 1 demo_scope KaspaEcdsaCbMpcV1 "set" 1 2 (replicate 32 x01)) [] [] ("a", "b") "a"
    demo_session_id 100 14.
Definition job_request : CreateChainSigningJobRequest :=
  mkCreateChainSigningJobRequest demo_wallet_id (intent_digest job_intent) demo_job.
Definition job_node : WalletNodeService (S:=JobStore) (P:=LocalFrostParticipant) :=
  mkWalletNodeService
    (with_store (mkJobStore (mkInMemoryWalletStore {[demo_id := job_intent]} None [] ∅ ∅ ∅) ∅))
    (wn_relying_party demo_fallback) None None 0 false ∅
    {[demo_id := mkAuthorizationState demo_wallet_id demo_id (intent_digest job_intent) 100 14]} ∅ ∅ ∅ ∅ ∅ [].

Lemma chain_job_needs_approval_witness :
  exists n' st, node_create_chain_signing_job job_request 20 job_node = (n', Ok st) /\
    wn_authorization_records n' !! demo_id = None /\
    exists e, node_create_chain_signing_job job_request 21 n' = (n', Err e).
Proof.
  assert (is_ok (node_create_chain_signing_job job_request 20 job_node).2 = true) as Hok by by vm_compute.
  destruct (node_create_chain_signing_job job_request 20 job_node) as [n' [st|e]] eqn:Hf; [|done].
  destruct (chain_job_needs_approval _ _ _ _ _ Hf) as (_ & Hr & _ & Hagain).
  exists n', st. split; [exact eq_refl|]. split; [exact Hr|]. apply Hagain. exact eq_refl.
Defined.

(** A trade: snapshot of the node, Passkey, intent, and the start of its approval. *)
Definition trade_node0 := default demo_fallback
  (result_ok (without_signer_with_store RelyingPartyConfig_default InMemoryWalletStore_new 0 demo_wallet_id demo_id)).
Definition trade_ops : list node_op :=
  [ OpSetNode (Some (mkNodeSnapshot "signet" 50 50 "v" true));
    OpRegistrationStart (mkPasskeyRegistrationStartRequest "key" "user" "User") 10 demo_ceremony [x01];
    OpRegistrationFinish (mkPasskeyRegistrationFinishRequest demo_ceremony ([x01], [x43])) 11;
    OpCreateTradeIntent (mkCreateTradeIntentRequest demo_wallet_id 1 demo_session_id 100 (RequestBuy trade_buy)) 12
      demo_id (replicate 32 x09) ].
Definition trade_node : WalletNodeService (S:=InMemoryWalletStore) (P:=LocalFrostParticipant) :=
  (run trade_node0 trade_ops).1.

Lemma trade_reverified_at_approval_witness :
  exists height verified, trading_height trade_node = Ok height /\
    WalletTradingApi_verify (RequestBuy trade_buy) height = Ok verified.
Proof.
  assert (is_ok (node_approval_start demo_id 13 demo_ceremony [x02] trade_node).2 = true) as Hok by by vm_compute.
  destruct (node_approval_start demo_id 13 demo_ceremony [x02] trade_node) as [n' [resp|e]] eqn:Hs; [|done].
  assert (wn_trade_requests trade_node !! demo_id = Some (RequestBuy trade_buy)) as Ht.
  { vm_compute. reflexivity. }
  destruct (trade_reverified_at_approval _ _ _ _ _ _ _ _ Hs Ht) as (height & verified & i & c & Hh & Hv & _).
  exists height, verified. exact (conj Hh Hv).
Defined.
