(* ===== verification/BridgeProperties.v ===== *)
(** * Properties of reviews, the CovHub bridge and the signing domain

    What an accepted transaction review or CovHub proposal guarantees, what an
    approval digest fixes, timestamps, and the signing suite table. *)

From Stdlib Require Import ZArith Lia.
From S2P Require Import Prelude Effects Bitcoin Text Rfc3339 ChainDomain SigningDomain Personal Intent SigningJob Covhub IssuanceTerms Concrete.
From S2P Require Import Frost Participant Gate WalletStore Trading TransactionReview WebAuthn WalletApi WalletNode WalletNodeInv WalletConcrete.
From stdpp Require Import list gmap.
Local Open Scope string_scope.
Local Open Scope list_scope.
Local Open Scope Z_scope.

(** ** Reviewed transactions *)

Section review.
Context `{BitcoinLib} `{BuildProfile} `{TextCodec} `{WebauthnLib} `{HashOrder} `{ReviewLib} `{FrostLib}.
Context {S : Type} `{!WalletStore S} {P : Type} `{!ThresholdSigner P}.

(** A transaction intent signs the reviewed transaction.  When the node
    creates an intent from a raw transaction, the transaction decodes from the
    request, is unsigned, spends each outpoint once, and every supplied prevout
    belongs to its input in order; the signing input is Taproot, the fee is
    inputs minus outputs and within the limit, the review lists exactly the
    transaction's inputs and outputs, and the message of the pending intent is
    the BIP 341 hash of this transaction with these prevouts. *)
Theorem transaction_intent_exact request now id nonce (n n' : WalletNodeService (S:=S) (P:=P)) i :
  (forall b, hex_decode (hex_encode b) = Some b) ->
  create_transaction_intent request now id nonce n = (n', Ok i) ->
  exists v tx prevouts, inspect_transaction (cq_transaction request) = Ok v /\
    review_facts (cq_transaction request) v tx prevouts /\
    key_spend_sighash_at tx (rv_input_index (cq_transaction request)) prevouts = Some (si_tx_digest i) /\
    si_status i = IntentPending /\ now < si_expiry i /\
    wn_transaction_requests n' !! si_id i = Some (cq_transaction request).
Proof.
  intros Hhex. unfold create_transaction_intent, node_create_intent, create_intent, wallet_call, store_call,
    node_inspect_transaction. intros Hc. act_inv.
  match goal with E : inspect_transaction _ = Ok ?v |- _ =>
    pose proof (inspect_transaction_Ok _ _ E) as (tx & prevouts & Hf); exists v, tx, prevouts end.
  destruct (rf_sighash _ _ _ _ Hf) as (h & Hh & Hhx). rewrite Hhx, Hhex in *. simpl in *.
  match goal with E : (if (length h =? 32)%nat then _ else _) = _ |- _ => destruct (length h =? 32)%nat end;
    simplify_eq. simpl. split_and!; try done. apply lookup_insert_eq.
Qed.
End review.

Definition review_tx : Transaction :=
  mkTransaction 2 0 [mkTxIn (mkOutPoint (replicate 32 x02) 0) [] 0 []] [mkTxOut 700 [x01; x02]].
Definition review_request : TransactionReviewRequest :=
  mkTransactionReviewRequest (String.string_of_list_byte (toy_serialize review_tx))
    [mkTransactionPrevout (String.string_of_list_byte (replicate 32 x02)) 1000 (String.string_of_list_byte [x01; x01])] 0 500.
Definition review_intent := create_transaction_intent (S:=InMemoryWalletStore) (P:=LocalFrostParticipant)
  (mkCreateTransactionIntentRequest demo_wallet_id 1 demo_session_id 100 review_request) 12 demo_id
  (replicate 32 x09) demo_node.

Lemma transaction_intent_exact_witness :
  exists i tx prevouts, key_spend_sighash_at tx 0 prevouts = Some (si_tx_digest i) /\ si_status i = IntentPending.
Proof.
  assert (is_ok review_intent.2 = true) as Hok by by vm_compute.
  destruct review_intent as [n' [i|e]] eqn:Hs; [|done]. unfold review_intent in Hs.
  unshelve epose proof (transaction_intent_exact _ _ _ _ _ _ _ _ Hs) as (v & tx & prevouts & _ & _ & Hh & Hp & _).
  - intros b. simpl. unfold ascii_bytes. by rewrite String.list_byte_of_string_of_list_byte.
  - exists i, tx, prevouts. exact (conj Hh Hp).
Defined.

(** ** CovHub *)

Section covhub.
Context `{BitcoinLib} `{TextCodec} `{JsonLib}.

(** A CovHub proposal becomes a pending intent only after the wallet
    checked everything itself: the proposal parses strictly, its content digest
    is the recomputed canonical digest, the material decodes to at most one
    megabyte with the declared hash, the local suite of the same chain scope
    reviewed exactly these bytes, the proposal is ready, has no blockers and has
    not expired, and the selected profile is executable on that scope.  The
    intent carries the local review, the parsed expiry and the profile. *)
Theorem covhub_intent_requirements {T} `{ChainSuite T} (request : CovhubPendingIntentRequest T) fresh ci :
  create_covhub_signing_intent request fresh = Ok ci ->
  exists p decoded review,
    parse (cp_raw_proposal request) = Ok p /\ proposal_wf p /\
    compute_content_digest (cp_raw_proposal request) = Ok (wp_content_digest p) /\
    base64_decode (tm_material_base64 (wp_transaction p)) = Some decoded /\
    sha256_text decoded = tm_sha256 (wp_transaction p) /\ (length decoded <= COVHUB_MAX_DECODED_MATERIAL_BYTES)%nat /\
    suite_scope (cp_suite request) = wp_chain_scope p /\ review_transaction (cp_suite request) decoded = Ok review /\
    rd_status (wp_readiness p) = ReadyForWalletReview /\ rd_blockers (wp_readiness p) = [] /\
    parse_rfc3339_seconds (wp_expires_at p) = Some (ch_expires_at ci) /\ cp_now request <= ch_expires_at ci /\
    sp_chain_scope (cp_profile request) = ch_chain_scope ci /\ wp_chain_scope p = ch_chain_scope ci /\
    is_ok (require_executable_suite (ch_chain_scope ci) (sp_signing_suite_id (cp_profile request))) = true /\
    ch_review_digest ci = ra_review_digest review /\ ch_signing_message_digest ci = ra_signing_message_digest review /\
    ch_profile_id ci = sp_profile_id (cp_profile request) /\ ch_proposal_digest ci = wp_content_digest p /\
    ch_status ci = CovPending.
Proof.
  unfold create_covhub_signing_intent. intros Hc. res_step.
  match goal with E : inspect_covhub_wallet_proposal _ _ _ = Ok ?i |- _ =>
    apply inspect_Ok in E as (Hp & Hd & Hsc & decoded & ex & Hdec & Hlen & Hrev & Hex & Hel); rename i into insp end.
  res_step. match goal with E : (if negb (ci_eligible insp) then _ else _) = Ok _ |- _ =>
    destruct (ci_eligible insp); [|by destruct (bool_decide _)] end.
  destruct (proj1 Hel eq_refl) as [Hst Hnow]. res_inv.
  match goal with E : rfc3339 _ = Ok _ |- _ => apply rfc3339_Ok in E end.
  pose proof (parse_wf _ _ Hp) as Hwf. unfold decode_transaction_material in Hdec. res_inv. subst ci. simpl in *.
  exists (ci_proposal insp), decoded, (ci_review insp).
  assert (rd_blockers (wp_readiness (ci_proposal insp)) = []) by by apply (pw_readiness _ Hwf).
  split_and!; try done; try congruence. rewrite E0 in E1. by rewrite E1.
Qed.

(** The durable record of a CovHub intent is the CovHub intent.  When the
    wallet stores a chain-neutral intent, reading the record back as a CovHub
    intent gives the same intent, the approval digest of the record is the
    CovHub digest, its legacy fields carry only the delegated markers, and its
    chain authority is the intent's own scope. *)
Theorem covhub_intent_persisted `{WebauthnLib} {S : Type} `{!WalletStore S} ci now nonce (w w' : WalletApi (S:=S)) i :
  create_covhub_intent ci now nonce w = (w', Ok i) ->
  from_wallet_intent i = Some ci /\ intent_digest i = CovhubSigningIntent_digest ci /\
  covhub_legacy_fields_are_delegated i = true /\ authoritative_chain_scope i = Some (ch_chain_scope ci) /\
  si_status i = IntentPending /\ now < si_expiry i.
Proof.
  unfold create_covhub_intent, store_call. intros Hc. act_inv.
  match goal with |- context [covhub_wallet_intent ci ?p nonce] =>
    assert (from_wallet_intent (covhub_wallet_intent ci p nonce) = Some ci) as Hw end.
  { by apply from_wallet_covhub. }
  pose proof (wallet_covhub_digest _ _ Hw). by split_and!.
Qed.
End covhub.

(** A small proposal: JSON is the wire record itself, and the canonical text of
    a proposal is its summary. *)
Definition hex_digit (n : Z) : byte := if n <? 10 then z2b (48 + n) else z2b (87 + n).
Definition hex_codec : TextCodec := {|
  hex_encode b := String.string_of_list_byte (concat ((fun x => [hex_digit (b2z x / 16); hex_digit (b2z x mod 16)]) <$> b));
  b64url_encode := String.string_of_list_byte;
  base64_decode s := Some (ascii_bytes s);
|}.
Definition filler_digest : string := String.append "sha256:" (String.string_of_list_byte (replicate 64 x61)).
Definition sample_wire : CovhubWalletProposalWire :=
  mkProposal COVHUB_WALLET_PROPOSAL_SCHEMA "proposal:1" filler_digest filler_digest
    (mkCovhubChainScopeWire 1 Kaspa "kaspa-testnet-11")
    (mkCovhubTransactionMaterial "base64" "application/octet-stream" "payload"
       (sha256_text (H0:=hex_codec) (ascii_bytes "payload")))
    "pay" "2026-01-01T00:00:00Z" "2026-01-02T00:00:00Z" (mkCovhubReadiness ReadyForWalletReview [])
    (sha256_text (H0:=hex_codec) (ascii_bytes "pay")).
Definition sample_json : JsonLib := {|
  Json := CovhubWalletProposalWire;
  json_from_str _ := Ok sample_wire;
  wire_from_value v := Ok v;
  json_is_object _ := true;
  json_remove _ v := v;
  jcs_to_string v := Ok (wp_summary v);
|}.
Definition sample_scope : ChainScope := ChainScope_for_network (NetKaspa KaspaTestnet11).
Definition sample_suite : ChainSuite unit := {|
  suite_scope _ := sample_scope;
  suite_capabilities _ := mkChainCapabilities true true true false;
  review_transaction _ b := Ok (mkReviewArtifact 2 sample_scope (sha256 b) (sha256 b) "pay" b);
  verify_finalized_signature _ _ _ := Ok tt;
|}.
Definition sample_request : CovhubPendingIntentRequest unit :=
  mkCovhubPendingIntentRequest "{}" tt sample_profile demo_session_id 1767225600 None.
Definition sample_created := create_covhub_signing_intent (H0:=hex_codec) (H1:=sample_json) (H2:=sample_suite)
  sample_request demo_id.

Lemma covhub_intent_requirements_witness :
  exists ci p, sample_created = Ok ci /\ parse (H1:=sample_json) "{}" = Ok p /\ proposal_wf p /\ ch_status ci = CovPending.
Proof.
  assert (is_ok sample_created = true) as Hok by by vm_compute.
  destruct sample_created as [ci|e] eqn:Hc; [|done]. unfold sample_created in Hc.
  destruct (covhub_intent_requirements (H0:=hex_codec) (H1:=sample_json) (H2:=sample_suite) _ _ _ Hc) as (p & d & r & Hp & Hw & Hrest).
  exists ci, p. split; [exact eq_refl|]. split; [exact Hp|]. split; [exact Hw|].
  repeat match goal with Hr : _ /\ _ |- _ => destruct Hr end. assumption.
Defined.

Definition sample_intent : CovhubSigningIntent :=
  mkCovhubSigningIntent 1 demo_id "proposal:1" filler_digest filler_digest filler_digest sample_scope
    (replicate 32 x01) demo_message demo_session_id demo_id 1767312000 1767225600 CovPending.
Definition sample_stored := create_covhub_intent (S:=JobStore) sample_intent 1767225600 (replicate 32 x09)
  (with_store (mkJobStore InMemoryWalletStore_new ∅)).

Lemma covhub_intent_persisted_witness :
  exists i, from_wallet_intent i = Some sample_intent /\ covhub_legacy_fields_are_delegated i = true.
Proof.
  assert (is_ok sample_stored.2 = true) as Hok by by vm_compute.
  destruct sample_stored as [w' [i|e]] eqn:Hc; [|done]. unfold sample_stored in Hc.
  destruct (covhub_intent_persisted _ _ _ _ _ _ Hc) as (Hf & _ & Hl & _). exists i. exact (conj Hf Hl).
Defined.

(** ** What an approval digest fixes *)

(** C17: the approval digest fixes the request.  Two intents with equal digests
    are both CovHub intents with the same id, binding, session and expiry, or
    both wallet intents with the same id, network, version, action, wallet,
    signer, personal policy, message, session, expiry and nonce; otherwise
    their two different encodings are a SHA-256 collision.  In particular an
    approval of a wallet intent never covers a CovHub intent. *)
Theorem approval_digest_binds_request `{BitcoinLib} i j :
  intent_wf i -> intent_wf j -> intent_digest i = intent_digest j ->
  (si_covhub i = None /\ si_covhub j = None /\ same_legacy_request i j) \/
  (is_Some (si_covhub i) /\ same_covhub_request i j) \/
  (canonical_bytes i <> canonical_bytes j /\ sha256 (canonical_bytes i) = sha256 (canonical_bytes j)).
Proof.
  intros Wi Wj Hd. destruct (decide (canonical_bytes i = canonical_bytes j)) as [Hc|Hc]; [|by right; right].
  destruct (si_covhub i) as [b|] eqn:Ei, (si_covhub j) as [c|] eqn:Ej.
  - right; left. split; [by eauto|]. by eapply covhub_canonical_inj.
  - by apply (canonical_domains_differ _ _ _ Ei Ej) in Hc.
  - symmetry in Hc. by apply (canonical_domains_differ _ _ _ Ej Ei) in Hc.
  - left. split_and!; [done..|]. apply legacy_canonical_inj; [done..|].
    unfold canonical_bytes in Hc. by rewrite Ei, Ej in Hc.
Qed.

Lemma approval_digest_binds_request_witness :
  (si_covhub demo_intent = None /\ si_covhub demo_intent = None /\ same_legacy_request demo_intent demo_intent) \/
  (is_Some (si_covhub demo_intent) /\ same_covhub_request demo_intent demo_intent) \/
  (canonical_bytes demo_intent <> canonical_bytes demo_intent /\
   sha256 (canonical_bytes demo_intent) = sha256 (canonical_bytes demo_intent)).
Proof.
  apply (approval_digest_binds_request demo_intent demo_intent); [| |reflexivity];
    unfold intent_wf, Uuid_wf; simpl; split_and!; try done; unfold is_i64; lia.
Defined.

(** ** Timestamps *)

(** The date [k] days after 1970-01-01, counted one day at a time. *)
Fixpoint date_after (k : nat) : Z * Z * Z :=
  match k with
  | O => (1970, 1, 1)
  | Datatypes.S k => let '(y, m, d) := date_after k in next_date y m d
  end.

Lemma days_in_month_pos y m : 1 <= m <= 12 -> 1 <= days_in_month y m.
Proof.
  intros Hm. unfold days_in_month. repeat (case_match; try lia).
  exfalso. autorewrite with guards in *.
  assert (m = 1 \/ m = 2 \/ m = 3 \/ m = 4 \/ m = 5 \/ m = 6 \/ m = 7 \/ m = 8 \/ m = 9 \/ m = 10 \/ m = 11 \/ m = 12) as Hc by lia.
  set_solver.
Qed.

Lemma date_after_days k : let '(y, m, d) := date_after k in
  1970 <= y /\ valid_date y m d /\ days_from_civil y m d = Z.of_nat k.
Proof.
  induction k as [|k IH]; [split_and!; [lia|split_and!; [lia..|by vm_compute]|by vm_compute]|].
  simpl. destruct (date_after k) as [[y m] d]. destruct IH as (Hy & Hv & Hd).
  pose proof (days_from_civil_next y m d Hv) as Hn. destruct Hv as (Hy0 & Hm & Hd').
  unfold next_date in *. destruct (Z.ltb_spec d (days_in_month y m)).
  - simpl in Hn. unfold days_of in Hn. simpl in Hn. split_and!; [lia| |lia]. split_and!; lia.
  - destruct (Z.ltb_spec m 12); unfold days_of in Hn; simpl in Hn; (split_and!; [lia| |lia]);
      split_and!; try lia; apply days_in_month_pos; lia.
Qed.

(** Timestamps are read as the calendar counts.  The RFC 3339 text of the
    day reached by counting [k] days from 1970-01-01 (up to year 9999), at any
    time of day (a leap second included), with up to nine fraction digits and
    any zone offset, parses to [k] days of 86,400 seconds plus the time of day
    minus the offset. *)
Theorem timestamp_roundtrip k y mo d h mi s f z :
  date_after k = (y, mo, d) -> y <= 9999 -> 0 <= h <= 23 -> 0 <= mi <= 59 -> 0 <= s <= 60 ->
  fraction_ok f -> zone_ok z ->
  parse_rfc3339_seconds (String.string_of_list_byte (print_rfc3339 y mo d h mi s f z)) =
  Some (Z.of_nat k * 86400 + h * 3600 + mi * 60 + s - zone_seconds z).
Proof.
  intros Hk Hy Hh Hmi Hs Hf Hz. pose proof (date_after_days k) as Hd. rewrite Hk in Hd.
  destruct Hd as (Hy0 & Hv & <-). apply parse_print_rfc3339; try done. lia.
Qed.

Lemma timestamp_roundtrip_witness :
  parse_rfc3339_seconds "1971-02-28T23:59:60.5+01:30" = Some (423 * 86400 + 23 * 3600 + 59 * 60 + 60 - 5400).
Proof.
  apply (timestamp_roundtrip 423 1971 2 28 23 59 60 [x35] (Offset false 1 30)); try (simpl; lia).
  - by vm_compute.
  - split; [reflexivity|simpl; lia].
Defined.

(** ** Signing suites *)

(** C39: a signer profile is well typed.  The constructor returns its argument
    unchanged, and only when chain, network and signing suite belong together,
    the suite is executable with the profile's backend, it produces consensus
    signatures that can be verified independently, its execution mode and its
    threshold capabilities agree, names of suite and network parse back, and the
    threshold is between 1 and the number of signers. *)
Theorem signer_profile_well_typed p q :
  is_u16 (sp_threshold p) -> SignerProfile_new p = Ok q ->
  q = p /\ 1 <= sp_threshold p <= sp_max_signers p /\
  exists d, resolve_builtin_suite (sp_chain_scope p) (sp_signing_suite_id p) = Ok d /\
    sd_id d = sp_signing_suite_id p /\ sd_backend_requirement d = sp_backend_requirement p /\
    sd_availability d = Executable /\
    SigningSuiteId_chain_id (sp_signing_suite_id p) = ChainNetwork_chain_id (cs_network (sp_chain_scope p)) /\
    cap_produces_consensus_signature (sd_capabilities d) = true /\
    cap_independently_verifiable (sd_capabilities d) = true /\
    (sd_execution_mode d = ThresholdInteractive <-> cap_interactive_threshold (sd_capabilities d) = true) /\
    (sd_execution_mode d = ThresholdNonInteractive <-> cap_non_interactive_threshold (sd_capabilities d) = true) /\
    SigningSuiteId_from_str (SigningSuiteId_as_str (sp_signing_suite_id p)) = Ok (sp_signing_suite_id p) /\
    ChainNetwork_from_str (ChainNetwork_as_str (cs_network (sp_chain_scope p))) = Ok (cs_network (sp_chain_scope p)).
Proof.
  intros Hu (-> & (d & Hd & Hb) & _ & Ht & Hm)%SignerProfile_new_Ok. apply require_executable_suite_Ok in Hd as [Hr Ha].
  split; [done|]. split; [unfold is_u16, fits in Hu; lia|]. exists d. split; [done|].
  pose proof Hr as (H1 & H2 & H3)%resolve_builtin_suite_Ok.
  rewrite SigningSuiteId_from_str_Ok, ChainNetwork_from_str_Ok.
  destruct (sp_signing_suite_id p); simpl in *; try discriminate Ha; subst d; simpl in *; split_and!; try done; congruence.
Qed.

Lemma signer_profile_well_typed_witness :
  exists d, resolve_builtin_suite (sp_chain_scope sample_profile) (sp_signing_suite_id sample_profile) = Ok d /\
    sd_availability d = Executable.
Proof.
  destruct (signer_profile_well_typed sample_profile sample_profile) as (_ & _ & d & Hd & _ & _ & Ha & _).
  - unfold is_u16, fits. simpl. lia.
  - reflexivity.
  - exists d. exact (conj Hd Ha).
Defined.
