(* ===== verification/Provider.v ===== *)
(** * Signer providers: requests, the guarded provider and its local backend
      (src/crates/threshold-signer/src/provider.rs)

    The contract between the wallet and a signer process.  The wire formats of
    the FROST crate enter as [FrostCodec]; the backend, the authorizer and the
    replay store are interfaces, as in the source. *)

From Stdlib Require Import ZArith Lia.
From S2P Require Import Prelude Bitcoin Text Frost Participant Personal Effects.
From stdpp Require Import list gmap strings.
Local Open Scope string_scope.
Local Open Scope list_scope.
Local Open Scope Z_scope.

(** Serialization of the FROST crate: [serialize] and [deserialize] of the
    messages, and the message of a signing package. *)
Class FrostCodec `{FrostLib} := {
  commitments_serialize : SigningCommitments -> option bytes;
  commitments_deserialize : bytes -> option SigningCommitments;
  share_serialize : SignatureShare -> bytes;
  share_deserialize : bytes -> option SignatureShare;
  package_serialize : SigningPackage -> option bytes;
  package_deserialize : bytes -> option SigningPackage;
  package_message : SigningPackage -> bytes;
  public_key_package_deserialize : bytes -> option PublicKeyPackage;
}.

(** Round-one commitments can be serialized, and what is read back is what was
    written. *)
Class FrostCodecLaws `{FrostCodec} : Prop := {
  commit_serializes kp rng : is_Some (commitments_serialize (frost_commit kp rng).2);
  commitments_roundtrip c b : commitments_serialize c = Some b -> commitments_deserialize b = Some c;
  share_roundtrip s : share_deserialize (share_serialize s) = Some s;
}.

Definition SIGNER_PROVIDER_PROTOCOL_VERSION : Z := 1.
Definition MAX_SIGNING_PACKAGE_BYTES : nat := Z.to_nat (16 * 1024).
Definition MAX_REASON_CODE_BYTES : nat := 64.

Inductive SignerProviderKind := LocalEncrypted | RemoteMtls | HsmAdapter.
#[export] Instance SignerProviderKind_eq_dec : EqDecision SignerProviderKind.
Proof. solve_decision. Defined.

Inductive ProviderError :=
| PE_UnknownParticipant | PE_Unconfigured | PE_Revoked | PE_InvalidChallenge | PE_InvalidProof
| PE_RotationAuthorizationRequired | PE_InvalidProvider | PE_IdentityDrift | PE_SpkiMismatch
| PE_Expired | PE_SessionLifetimeExceeded | PE_WrongSignerSet | PE_Replay | PE_InvalidEncoding
| PE_RoundBindingMismatch | PE_BackendUnavailable.

Record DeviceHealth := mkDeviceHealth {
  dh_online : bool;
  dh_checked_at : option Z;
  dh_last_success_at : option Z;
  dh_last_error_code : option string;
}.
Definition DeviceHealth_default : DeviceHealth := mkDeviceHealth false None None None.

(** ** Request contexts *)

Record SignerRequestContext := mkSignerRequestContext {
  rc_protocol_version : Z;
  rc_wallet_id : Uuid;
  rc_signer_set_id : Uuid;
  rc_signer_epoch : Z;
  rc_signer_id : Z;
  rc_device_id : Uuid;
  rc_device_generation : Z;
  rc_operation_id : Uuid;
  rc_intent_id : Uuid;
  rc_session_id : bytes;
  rc_taproot_sighash : bytes;
  rc_policy_digest : bytes;
  rc_group_pubkey_xonly : bytes;
  rc_verifying_share_digest : bytes;
  rc_min_signers : Z;
  rc_max_signers : Z;
  rc_chain_snapshot_digest : bytes;
  rc_request_nonce : bytes;
  rc_expires_at : Z;
}.

Definition update_common_binding (c : SignerRequestContext) : bytes :=
  be_bytes 2 (rc_protocol_version c) ++ rc_wallet_id c ++ rc_signer_set_id c ++
  be_bytes 8 (rc_signer_epoch c) ++ be_bytes 2 (rc_signer_id c) ++ rc_device_id c ++
  be_bytes 8 (rc_device_generation c) ++ rc_operation_id c ++ rc_intent_id c ++ rc_session_id c ++
  rc_taproot_sighash c ++ rc_policy_digest c ++ rc_group_pubkey_xonly c ++ rc_verifying_share_digest c ++
  be_bytes 2 (rc_min_signers c) ++ be_bytes 2 (rc_max_signers c) ++ rc_chain_snapshot_digest c ++
  be_bytes 8 (rc_expires_at c).

Definition OPERATION_DOMAIN : bytes := ascii_bytes "catomicals/signer-operation/v1" ++ [x00].
Definition REQUEST_DOMAIN : bytes := ascii_bytes "catomicals/signer-request/v1" ++ [x00].

Definition operation_binding_digest `{BitcoinLib} (c : SignerRequestContext) : bytes :=
  sha256 (OPERATION_DOMAIN ++ update_common_binding c).
Definition binding_digest `{BitcoinLib} (c : SignerRequestContext) : bytes :=
  sha256 (REQUEST_DOMAIN ++ update_common_binding c ++ rc_request_nonce c).

Record SignerRoundOneRequest := mkSignerRoundOneRequest { r1_context : SignerRequestContext }.
Record SignerRoundOneResponse := mkSignerRoundOneResponse {
  a1_request_binding_digest : bytes;
  a1_commitment_hex : string;
}.
Record SignerRoundTwoRequest := mkSignerRoundTwoRequest {
  r2_context : SignerRequestContext;
  r2_signing_package_hex : string;
}.
Record SignerRoundTwoResponse := mkSignerRoundTwoResponse {
  a2_request_binding_digest : bytes;
  a2_signature_share_hex : string;
}.
Record SignerAbortRequest := mkSignerAbortRequest {
  ra_context : SignerRequestContext;
  ra_reason_code : string;
}.

Record ProviderIdentity := mkProviderIdentity {
  id_wallet_id : Uuid;
  id_signer_set_id : Uuid;
  id_signer_epoch : Z;
  id_signer_id : Z;
  id_device_id : Uuid;
  id_device_generation : Z;
  id_group_pubkey_xonly : bytes;
  id_verifying_share_digest : bytes;
}.
#[export] Instance ProviderIdentity_eq_dec : EqDecision ProviderIdentity.
Proof. solve_decision. Defined.

(** ** Interfaces *)

Inductive ProviderRound := RoundOne | RoundTwo.

Class FrostSignerBackend (B : Type) `{FrostLib} := {
  provider_kind : B -> SignerProviderKind;
  backend_health : Z -> B -> DeviceHealth;
  reserve_nonce_and_commit : SignerRequestContext -> Rng -> act B ProviderError SigningCommitments;
  sign_reserved_share : SignerRequestContext -> SigningPackage -> act B ProviderError SignatureShare;
  burn_reservation : Uuid -> bytes -> string -> act B ProviderError unit;
}.

Class ProviderRequestAuthorizer (A : Type) :=
  authorize_request_round : SignerRequestContext -> ProviderRound -> act A ProviderError unit.

Class ProviderReplayStore (R : Type) :=
  claim_request_nonce : ProviderIdentity -> SignerRequestContext -> Z -> act R ProviderError unit.

Record MemoryProviderReplayStore := mkMemoryProviderReplayStore { mr_consumed : gset bytes }.
Definition MemoryProviderReplayStore_default : MemoryProviderReplayStore := mkMemoryProviderReplayStore ∅.
#[export] Instance MemoryReplay : ProviderReplayStore MemoryProviderReplayStore := fun _ context _ s =>
  if bool_decide (rc_request_nonce context ∈ mr_consumed s) then (s, Err PE_Replay)
  else (mkMemoryProviderReplayStore ({[rc_request_nonce context]} ∪ mr_consumed s), Ok tt).

(** What a provider relies on: a nonce is claimed for an identity at most once
    and stays claimed. *)
Class ProviderReplayLaws (R : Type) `{ProviderReplayStore R} := {
  nonce_claimed : ProviderIdentity -> R -> bytes -> Prop;
  claim_keeps i context now s n : nonce_claimed i s n -> nonce_claimed i (claim_request_nonce i context now s).1 n;
  claim_once i context now s s' u : claim_request_nonce i context now s = (s', Ok u) ->
    ~ nonce_claimed i s (rc_request_nonce context) /\ nonce_claimed i s' (rc_request_nonce context);
}.
#[export, refine] Instance MemoryReplay_laws : ProviderReplayLaws MemoryProviderReplayStore :=
  {| nonce_claimed _ s n := n ∈ mr_consumed s |}.
Proof.
  all: unfold claim_request_nonce, MemoryReplay.
  - intros i context now s n Hn. case_bool_decide; set_solver.
  - intros i context now s s' u. case_bool_decide as Hn; [done|]. intros [= <- _]. set_solver.
Defined.

(** ** The local backend *)

(** The authorization the backend hands to its participant: exactly the
    request, once. *)
Record ExactContextAuthorization := mkExactContextAuthorization {
  ec_context : SignerRequestContext;
  ec_used : bool;
}.
#[export] Instance ExactContext_authorization : SigningAuthorization ExactContextAuthorization :=
  fun a session_id message signer_id now =>
  if ec_used a then (a, Err AlreadyConsumed)
  else if negb (bool_decide (session_id = rc_session_id (ec_context a))) then (a, Err WrongSession)
  else if negb (bool_decide (message = rc_taproot_sighash (ec_context a))) then (a, Err WrongMessage)
  else if negb (signer_id =? rc_signer_id (ec_context a)) then (a, Err WrongSigner)
  else if rc_expires_at (ec_context a) <? now then (a, Err AuthExpired)
  else (mkExactContextAuthorization (ec_context a) true, Ok tt).

Record ReservationBinding := mkReservationBinding {
  rb_session_id : bytes;
  rb_taproot_sighash : bytes;
  rb_operation_binding_digest : bytes;
}.
#[export] Instance ReservationBinding_eq_dec : EqDecision ReservationBinding.
Proof. solve_decision. Defined.

Section local_backend.
Context `{BitcoinLib} `{FrostLib} {A : Type} `{ProviderRequestAuthorizer A}.

Record LocalEncryptedFrostBackend := mkLocalEncryptedFrostBackend {
  lb_participant : LocalFrostParticipant;
  lb_public_key_package : PublicKeyPackage;
  lb_authorizer : A;
  lb_reservations : gmap Uuid ReservationBinding;
}.

Definition set_lb_participant (p : LocalFrostParticipant) (b : LocalEncryptedFrostBackend) :=
  mkLocalEncryptedFrostBackend p (lb_public_key_package b) (lb_authorizer b) (lb_reservations b).
Definition set_lb_authorizer (a : A) (b : LocalEncryptedFrostBackend) :=
  mkLocalEncryptedFrostBackend (lb_participant b) (lb_public_key_package b) a (lb_reservations b).
Definition set_lb_reservations (r : gmap Uuid ReservationBinding) (b : LocalEncryptedFrostBackend) :=
  mkLocalEncryptedFrostBackend (lb_participant b) (lb_public_key_package b) (lb_authorizer b) r.

Definition LocalEncryptedFrostBackend_new (participant : LocalFrostParticipant) (pkp : PublicKeyPackage)
    (authorizer : A) : LocalEncryptedFrostBackend := mkLocalEncryptedFrostBackend participant pkp authorizer ∅.

Definition reservation_of (context : SignerRequestContext) : ReservationBinding :=
  mkReservationBinding (rc_session_id context) (rc_taproot_sighash context) (operation_binding_digest context).

Definition lb_reserve_nonce_and_commit (context : SignerRequestContext) (rng : Rng)
    : act LocalEncryptedFrostBackend ProviderError SigningCommitments :=
  _ ← zoom lb_authorizer set_lb_authorizer id (authorize_request_round context RoundOne);
  _ ← reads (fun b => reject_if (bool_decide (is_Some (lb_reservations b !! rc_operation_id context))) PE_Replay);
  commitment ← zoom lb_participant set_lb_participant (fun _ => PE_RoundBindingMismatch)
                 (fun p => round1 p (rc_session_id context) (rc_taproot_sighash context) rng);
  _ ← modify (fun b => set_lb_reservations (<[rc_operation_id context := reservation_of context]> (lb_reservations b)) b);
  mret commitment.

Definition lb_sign_reserved_share (context : SignerRequestContext) (signing_package : SigningPackage)
    : act LocalEncryptedFrostBackend ProviderError SignatureShare :=
  _ ← reads (fun b => reject_if
        (negb (bool_decide (lb_reservations b !! rc_operation_id context = Some (reservation_of context))))
        PE_RoundBindingMismatch);
  _ ← zoom lb_authorizer set_lb_authorizer id (authorize_request_round context RoundTwo);
  _ ← modify (fun b => set_lb_reservations (delete (rc_operation_id context) (lb_reservations b)) b);
  public_key_package ← gets lb_public_key_package;
  let session := mkFrostSession (rc_session_id context) (rc_taproot_sighash context) (rc_min_signers context)
                   signing_package public_key_package in
  zoom lb_participant set_lb_participant (fun _ => PE_RoundBindingMismatch)
    (fun p => let '(p', _, r) := round2 p session (mkExactContextAuthorization context false) (rc_expires_at context) in
              (p', r)).

Definition lb_burn_reservation (operation_id : Uuid) (session_id : bytes) (_ : string)
    : act LocalEncryptedFrostBackend ProviderError unit :=
  reservation ← reads (fun b => ok_or (lb_reservations b !! operation_id) PE_RoundBindingMismatch);
  _ ← modify (fun b => set_lb_reservations (delete operation_id (lb_reservations b)) b);
  _ ← lift (reject_if (negb (bool_decide (rb_session_id reservation = session_id))) PE_RoundBindingMismatch);
  modify (fun b => set_lb_participant (abort_round (lb_participant b) session_id).1 b).

#[export] Instance LocalEncrypted_backend : FrostSignerBackend LocalEncryptedFrostBackend := {
  provider_kind _ := LocalEncrypted;
  backend_health now _ := mkDeviceHealth true (Some now) (Some now) None;
  reserve_nonce_and_commit := lb_reserve_nonce_and_commit;
  sign_reserved_share := lb_sign_reserved_share;
  burn_reservation := lb_burn_reservation;
}.
End local_backend.
Arguments LocalEncryptedFrostBackend {_} A.

(** ** The guarded provider *)

(** [byte.is_ascii_alphanumeric() || matches!(byte, b'_' | b'-')] *)
Definition is_code_byte (b : byte) : bool :=
  is_ascii_digit b || ((65 <=? b2z b) && (b2z b <=? 90)) || ((97 <=? b2z b) && (b2z b <=? 122))
  || (b2z b =? 95) || (b2z b =? 45).
Definition valid_reason_code (s : string) : bool :=
  negb (bool_decide (ascii_bytes s = [])) && (length (ascii_bytes s) <=? MAX_REASON_CODE_BYTES)%nat
  && forallb is_code_byte (ascii_bytes s).

Section guarded.
Context `{BitcoinLib} `{TextCodec} `{FL : FrostLib} `{!FrostCodec}.
Context {B : Type} `{!FrostSignerBackend B} {R : Type} `{ProviderReplayStore R}.

Record GuardedSignerProvider := mkGuardedSignerProvider {
  gp_identity : ProviderIdentity;
  gp_backend : B;
  gp_replay_store : R;
  gp_max_session_lifetime_seconds : option Z;
}.
Definition set_gp_backend (b : B) (g : GuardedSignerProvider) :=
  mkGuardedSignerProvider (gp_identity g) b (gp_replay_store g) (gp_max_session_lifetime_seconds g).
Definition set_gp_replay_store (r : R) (g : GuardedSignerProvider) :=
  mkGuardedSignerProvider (gp_identity g) (gp_backend g) r (gp_max_session_lifetime_seconds g).

Definition with_replay_store (identity : ProviderIdentity) (backend : B) (replay_store : R)
    : GuardedSignerProvider := mkGuardedSignerProvider identity backend replay_store None.

(** [timeout.as_millis()] is a u128; the seconds are rounded up. *)
Definition session_timeout_seconds (milliseconds : Z) : result ProviderError Z :=
  _ ← reject_if (milliseconds =? 0) PE_InvalidEncoding;
  let seconds := (milliseconds + 999) / 1000 in
  _ ← reject_if ((2 ^ 128 <=? milliseconds + 999) || (2 ^ 63 <=? seconds) || (seconds <=? 0)) PE_InvalidEncoding;
  Ok seconds.
Definition with_session_timeout (identity : ProviderIdentity) (backend : B) (replay_store : R) (milliseconds : Z)
    : result ProviderError GuardedSignerProvider :=
  seconds ← session_timeout_seconds milliseconds;
  Ok (mkGuardedSignerProvider identity backend replay_store (Some seconds)).

Definition context_drifts (context : SignerRequestContext) (i : ProviderIdentity) : bool :=
  negb (rc_protocol_version context =? SIGNER_PROVIDER_PROTOCOL_VERSION)
  || negb (bool_decide (rc_wallet_id context = id_wallet_id i))
  || negb (bool_decide (rc_signer_set_id context = id_signer_set_id i))
  || negb (rc_signer_epoch context =? id_signer_epoch i)
  || negb (rc_signer_id context =? id_signer_id i)
  || negb (bool_decide (rc_device_id context = id_device_id i))
  || negb (rc_device_generation context =? id_device_generation i)
  || negb (bool_decide (rc_group_pubkey_xonly context = id_group_pubkey_xonly i))
  || negb (bool_decide (rc_verifying_share_digest context = id_verifying_share_digest i))
  || (rc_min_signers context =? 0) || (rc_max_signers context <? rc_min_signers context).

Definition check_lifetime (context : SignerRequestContext) (maximum : option Z) (now : Z)
    : result ProviderError unit :=
  match maximum with
  | None => Ok tt
  | Some m =>
      _ ← reject_if (2 ^ 63 <=? now + m) PE_SessionLifetimeExceeded;
      reject_if (now + m <? rc_expires_at context) PE_SessionLifetimeExceeded
  end.

Definition authorize_context (context : SignerRequestContext) (now : Z)
    : act GuardedSignerProvider ProviderError unit :=
  identity ← gets gp_identity;
  _ ← lift (reject_if (context_drifts context identity) PE_IdentityDrift);
  _ ← lift (reject_if (rc_expires_at context <? now) PE_Expired);
  _ ← reads (fun g => check_lifetime context (gp_max_session_lifetime_seconds g) now);
  zoom gp_replay_store set_gp_replay_store id (claim_request_nonce identity context now).

Definition round_one (request : SignerRoundOneRequest) (now : Z) (rng : Rng)
    : act GuardedSignerProvider ProviderError SignerRoundOneResponse :=
  let context := r1_context request in
  _ ← authorize_context context now;
  commitment ← zoom gp_backend set_gp_backend id (reserve_nonce_and_commit context rng);
  encoded ← lift (ok_or (commitments_serialize commitment) PE_InvalidEncoding);
  mret (mkSignerRoundOneResponse (binding_digest context) (hex_encode encoded)).

Definition round_two (request : SignerRoundTwoRequest) (now : Z)
    : act GuardedSignerProvider ProviderError SignerRoundTwoResponse :=
  let context := r2_context request in
  _ ← authorize_context context now;
  encoded ← lift (ok_or (hex_decode (r2_signing_package_hex request)) PE_InvalidEncoding);
  _ ← lift (reject_if (MAX_SIGNING_PACKAGE_BYTES <? length encoded)%nat PE_InvalidEncoding);
  package ← lift (ok_or (package_deserialize encoded) PE_InvalidEncoding);
  identifier ← lift (ok_or (identifier_try_from (rc_signer_id context)) PE_InvalidEncoding);
  _ ← lift (reject_if
        (negb (bool_decide (package_message package = rc_taproot_sighash context))
         || negb (bool_decide (is_Some (signing_commitments package !! identifier)))) PE_RoundBindingMismatch);
  share ← zoom gp_backend set_gp_backend id (sign_reserved_share context package);
  mret (mkSignerRoundTwoResponse (binding_digest context) (hex_encode (share_serialize share))).

Definition provider_abort (request : SignerAbortRequest) (now : Z) : act GuardedSignerProvider ProviderError unit :=
  let context := ra_context request in
  _ ← authorize_context context now;
  _ ← lift (reject_if (negb (valid_reason_code (ra_reason_code request))) PE_InvalidEncoding);
  zoom gp_backend set_gp_backend id
    (burn_reservation (rc_operation_id context) (rc_session_id context) (ra_reason_code request)).

(** An HSM adapter is a guarded provider whose backend says it is one. *)
Definition HsmSignerAdapter_new (identity : ProviderIdentity) (backend : B) (replay_store : R)
    : result ProviderError GuardedSignerProvider :=
  _ ← reject_if (negb (bool_decide (provider_kind backend = HsmAdapter))) PE_InvalidProvider;
  Ok (with_replay_store identity backend replay_store).
End guarded.
Arguments GuardedSignerProvider B R : clear implicits.
