(* ===== verification/DeviceRegistry.v ===== *)
(** * The registry of signer devices
      (src/crates/threshold-signer/src/provider.rs, [SignerDeviceRegistry])

    One slot per participant: registration by challenge and proof of
    possession, rotation authorized by the active device, revocation, and the
    admission of requests.  The generation of a device is a [u64] and is
    incremented without a check, so the operations that increment it can
    panic. *)

From Stdlib Require Import ZArith Lia.
From S2P Require Import Prelude Bitcoin Text TransactionReview Personal Effects Provider.
From stdpp Require Import list gmap strings.
Local Open Scope string_scope.
Local Open Scope list_scope.
Local Open Scope Z_scope.

Inductive DeviceStatus := DeviceUnconfigured | DeviceActive | DeviceRevoked.
#[export] Instance DeviceStatus_eq_dec : EqDecision DeviceStatus.
Proof. solve_decision. Defined.

Record SignerDeviceRecord := mkSignerDeviceRecord {
  dr_signer_id : Z;
  dr_device_id : option Uuid;
  dr_generation : Z;
  dr_provider : option SignerProviderKind;
  dr_identity_public_key_hex : option string;
  dr_mtls_spki_sha256_hex : option string;
  dr_status : DeviceStatus;
  dr_registered_at : option Z;
  dr_rotated_at : option Z;
  dr_revoked_at : option Z;
  dr_health : DeviceHealth;
}.

Definition unconfigured (signer_id : Z) : SignerDeviceRecord :=
  mkSignerDeviceRecord signer_id None 0 None None None DeviceUnconfigured None None None DeviceHealth_default.

Definition set_health (h : DeviceHealth) (r : SignerDeviceRecord) : SignerDeviceRecord :=
  mkSignerDeviceRecord (dr_signer_id r) (dr_device_id r) (dr_generation r) (dr_provider r)
    (dr_identity_public_key_hex r) (dr_mtls_spki_sha256_hex r) (dr_status r) (dr_registered_at r)
    (dr_rotated_at r) (dr_revoked_at r) h.

Record DeviceRegistrationChallenge := mkDeviceRegistrationChallenge {
  dc_challenge_id : Uuid;
  dc_signer_set_id : Uuid;
  dc_signer_epoch : Z;
  dc_signer_id : Z;
  dc_next_generation : Z;
  dc_nonce : bytes;
  dc_expires_at : Z;
}.

Record DeviceRegistrationProof := mkDeviceRegistrationProof {
  dp_challenge_id : Uuid;
  dp_device_id : Uuid;
  dp_provider : SignerProviderKind;
  dp_identity_public_key_hex : string;
  dp_mtls_spki_sha256_hex : option string;
  dp_signature_hex : string;
  dp_previous_device_signature_hex : option string;
}.

Record SignerDeviceRegistry := mkSignerDeviceRegistry {
  sr_signer_set_id : Uuid;
  sr_signer_epoch : Z;
  sr_devices : gmap Z SignerDeviceRecord;
  sr_challenges : gmap Uuid DeviceRegistrationChallenge;
  sr_consumed_request_nonces : gset (Uuid * Z * bytes);
}.
Definition set_devices (d : gmap Z SignerDeviceRecord) (s : SignerDeviceRegistry) : SignerDeviceRegistry :=
  mkSignerDeviceRegistry (sr_signer_set_id s) (sr_signer_epoch s) d (sr_challenges s) (sr_consumed_request_nonces s).
Definition set_challenges (c : gmap Uuid DeviceRegistrationChallenge) (s : SignerDeviceRegistry) : SignerDeviceRegistry :=
  mkSignerDeviceRegistry (sr_signer_set_id s) (sr_signer_epoch s) (sr_devices s) c (sr_consumed_request_nonces s).
Definition set_nonces (n : gset (Uuid * Z * bytes)) (s : SignerDeviceRegistry) : SignerDeviceRegistry :=
  mkSignerDeviceRegistry (sr_signer_set_id s) (sr_signer_epoch s) (sr_devices s) (sr_challenges s) n.

Definition SignerDeviceRegistry_new (signer_set_id : Uuid) (signer_epoch max_signers : Z) : SignerDeviceRegistry :=
  mkSignerDeviceRegistry signer_set_id signer_epoch
    (list_to_map ((fun i => (Z.of_nat i, unconfigured (Z.of_nat i))) <$> seq 1 (Z.to_nat max_signers))) ∅ ∅.

Definition REGISTRATION_DOMAIN : bytes := ascii_bytes "catomicals/signer-device-registration/v1" ++ [x00].
Definition provider_tag (k : SignerProviderKind) : byte :=
  match k with LocalEncrypted => x01 | RemoteMtls => x02 | HsmAdapter => x03 end.

Definition is_active (r : SignerDeviceRecord) : bool := bool_decide (dr_status r = DeviceActive).

Section registry.
Context `{BitcoinLib} `{TextCodec} `{BuildProfile}.

Definition parse_hex (n : nat) (value : string) : result ProviderError bytes :=
  b ← ok_or (hex_decode value) PE_InvalidEncoding;
  _ ← reject_if (negb (length b =? n)%nat) PE_InvalidEncoding;
  Ok b.
Definition parse_hex32 (value : string) : result ProviderError bytes := parse_hex 32 value.
Definition parse_hex64 (value : string) : result ProviderError bytes := parse_hex 64 value.

(** [.as_deref().map(parse_hex32).transpose()] *)
Definition parse_optional_hex32 (value : option string) : result ProviderError (option bytes) :=
  match value with None => Ok None | Some v => b ← parse_hex32 v; Ok (Some b) end.

Definition registration_preimage (c : DeviceRegistrationChallenge) (p : DeviceRegistrationProof)
    (public_key : bytes) (spki_sha256 : option bytes) : bytes :=
  REGISTRATION_DOMAIN ++ dc_challenge_id c ++ dc_signer_set_id c ++ be_bytes 8 (dc_signer_epoch c) ++
  be_bytes 2 (dc_signer_id c) ++ be_bytes 8 (dc_next_generation c) ++ dc_nonce c ++
  be_bytes 8 (dc_expires_at c) ++ dp_device_id p ++ [provider_tag (dp_provider p)] ++ public_key ++
  default (replicate 32 x00) spki_sha256.

Definition registration_digest (c : DeviceRegistrationChallenge) (p : DeviceRegistrationProof)
    (spki_sha256 : option bytes) : result ProviderError bytes :=
  public_key ← parse_hex32 (dp_identity_public_key_hex p);
  Ok (sha256 (registration_preimage c p public_key spki_sha256)).

(** The signature check both verifications end with. *)
Definition verify_device_signature (key_hex signature_hex : string) (c : DeviceRegistrationChallenge)
    (p : DeviceRegistrationProof) (spki_sha256 : option bytes) : result ProviderError unit :=
  key ← parse_hex32 key_hex;
  _ ← reject_if (negb (xonly_valid key)) PE_InvalidEncoding;
  signature ← parse_hex64 signature_hex;
  _ ← reject_if (negb (schnorr_sig_valid signature)) PE_InvalidEncoding;
  message ← registration_digest c p spki_sha256;
  reject_if (negb (verify_schnorr signature message key)) PE_InvalidProof.

Definition verify_registration_proof (c : DeviceRegistrationChallenge) (p : DeviceRegistrationProof)
    (spki_sha256 : option bytes) : result ProviderError unit :=
  verify_device_signature (dp_identity_public_key_hex p) (dp_signature_hex p) c p spki_sha256.

Definition verify_rotation_authorization (current : SignerDeviceRecord) (c : DeviceRegistrationChallenge)
    (p : DeviceRegistrationProof) (spki_sha256 : option bytes) : result ProviderError unit :=
  current_key ← ok_or (dr_identity_public_key_hex current) PE_RotationAuthorizationRequired;
  signature_hex ← ok_or (dp_previous_device_signature_hex p) PE_RotationAuthorizationRequired;
  verify_device_signature current_key signature_hex c p spki_sha256.

(** ** Operations *)

(** The checks one restored record passes, in order; [restored] is the slot
    table built so far. *)
Definition restore_one (seen : gset Z) (restored : gmap Z SignerDeviceRecord) (record : SignerDeviceRecord)
    : result ProviderError (gset Z * gmap Z SignerDeviceRecord) :=
  _ ← reject_if (bool_decide (dr_signer_id record ∈ seen)
        || (dr_generation record =? 0)
        || bool_decide (dr_device_id record = None)
        || bool_decide (dr_status record = DeviceUnconfigured)
        || negb (bool_decide (dr_provider record = Some RemoteMtls) || bool_decide (dr_provider record = Some HsmAdapter)))
        PE_InvalidEncoding;
  key ← ok_or (dr_identity_public_key_hex record) PE_InvalidEncoding;
  _ ← parse_hex32 key;
  certificate ← parse_optional_hex32 (dr_mtls_spki_sha256_hex record);
  _ ← reject_if (bool_decide (dr_provider record = Some RemoteMtls) && bool_decide (certificate = None)) PE_SpkiMismatch;
  _ ← reject_if (bool_decide (restored !! dr_signer_id record = None)) PE_UnknownParticipant;
  Ok ({[dr_signer_id record]} ∪ seen,
      <[dr_signer_id record := set_health DeviceHealth_default record]> restored).

Fixpoint restore_records (seen : gset Z) (restored : gmap Z SignerDeviceRecord) (records : list SignerDeviceRecord)
    : result ProviderError (gmap Z SignerDeviceRecord) :=
  match records with
  | [] => Ok restored
  | record :: rest => '(seen', restored') ← restore_one seen restored record; restore_records seen' restored' rest
  end.

Definition restore_device_records (records : list SignerDeviceRecord)
    : act SignerDeviceRegistry (fault ProviderError) unit :=
  _ ← reads (fun s => try_ (reject_if
        (existsb (fun e => negb (bool_decide (dr_status e.2 = DeviceUnconfigured))) (map_to_list (sr_devices s)))
        PE_IdentityDrift));
  restored ← reads (fun s => try_ (restore_records ∅ (sr_devices s) records));
  modify (set_devices restored).

Definition issue_registration_challenge (signer_id now ttl_seconds : Z) (nonce : bytes) (challenge_id : Uuid)
    : act SignerDeviceRegistry (fault ProviderError) DeviceRegistrationChallenge :=
  _ ← lift (try_ (reject_if (ttl_seconds <=? 0) PE_InvalidChallenge));
  record ← reads (fun s => try_ (ok_or (sr_devices s !! signer_id) PE_UnknownParticipant));
  self ← gets id;
  next_generation ← lift (arith 64 (dr_generation record + 1));
  _ ← lift (try_ (reject_if (2 ^ 63 <=? now + ttl_seconds) PE_InvalidChallenge));
  let challenge := mkDeviceRegistrationChallenge challenge_id (sr_signer_set_id self) (sr_signer_epoch self)
                     signer_id next_generation nonce (now + ttl_seconds) in
  _ ← modify (fun s => set_challenges (<[challenge_id := challenge]> (sr_challenges s)) s);
  mret challenge.

(** The certificate pin a registration carries. *)
Definition proof_certificate (proof : DeviceRegistrationProof) : result ProviderError (option bytes) :=
  match dp_provider proof with
  | RemoteMtls =>
      hex ← ok_or (dp_mtls_spki_sha256_hex proof) PE_SpkiMismatch;
      b ← parse_hex32 hex; Ok (Some b)
  | _ => parse_optional_hex32 (dp_mtls_spki_sha256_hex proof)
  end.

Definition registered_record (challenge : DeviceRegistrationChallenge) (proof : DeviceRegistrationProof)
    (certificate : option bytes) (current : SignerDeviceRecord) (now : Z) : SignerDeviceRecord :=
  mkSignerDeviceRecord (dc_signer_id challenge) (Some (dp_device_id proof)) (dc_next_generation challenge)
    (Some (dp_provider proof))
    (Some (String.string_of_list_byte (to_ascii_lowercase (dp_identity_public_key_hex proof))))
    (hex_encode <$> certificate) DeviceActive
    (match dr_registered_at current with Some t => Some t | None => Some now end)
    (if 0 <? dr_generation current then Some now else None) None DeviceHealth_default.

Definition register (proof : DeviceRegistrationProof) (now : Z)
    : act SignerDeviceRegistry (fault ProviderError) SignerDeviceRecord :=
  challenge ← reads (fun s => try_ (ok_or (sr_challenges s !! dp_challenge_id proof) PE_InvalidChallenge));
  _ ← modify (fun s => set_challenges (delete (dp_challenge_id proof) (sr_challenges s)) s);
  self ← gets id;
  _ ← lift (try_ (reject_if ((dc_expires_at challenge <? now)
        || negb (bool_decide (dc_signer_set_id challenge = sr_signer_set_id self))
        || negb (dc_signer_epoch challenge =? sr_signer_epoch self)) PE_InvalidChallenge));
  _ ← lift (try_ (reject_if (bool_decide (dp_provider proof = LocalEncrypted)) PE_InvalidProvider));
  certificate ← lift (try_ (proof_certificate proof));
  current ← lift (try_ (ok_or (sr_devices self !! dc_signer_id challenge) PE_UnknownParticipant));
  expected ← lift (arith 64 (dr_generation current + 1));
  _ ← lift (try_ (reject_if (negb (dc_next_generation challenge =? expected)) PE_IdentityDrift));
  _ ← lift (try_ (reject_if (bool_decide (dr_status current = DeviceRevoked)) PE_Revoked));
  _ ← lift (try_ (verify_registration_proof challenge proof certificate));
  _ ← lift (try_ (if is_active current then verify_rotation_authorization current challenge proof certificate else Ok tt));
  let record := registered_record challenge proof certificate current now in
  _ ← modify (fun s => set_devices (<[dc_signer_id challenge := record]> (sr_devices s)) s);
  mret record.

Definition revoked_record (record : SignerDeviceRecord) (now : Z) : SignerDeviceRecord :=
  mkSignerDeviceRecord (dr_signer_id record) (dr_device_id record) (dr_generation record) (dr_provider record)
    (dr_identity_public_key_hex record) (dr_mtls_spki_sha256_hex record) DeviceRevoked (dr_registered_at record)
    (dr_rotated_at record) (Some now)
    (mkDeviceHealth false (Some now) (dh_last_success_at (dr_health record)) (Some "revoked"%string)).

Definition revoke (signer_id : Z) (expected_device_id : Uuid) (expected_generation now : Z)
    : act SignerDeviceRegistry (fault ProviderError) SignerDeviceRecord :=
  record ← reads (fun s => try_ (ok_or (sr_devices s !! signer_id) PE_UnknownParticipant));
  _ ← lift (try_ (reject_if (bool_decide (dr_status record = DeviceUnconfigured)) PE_Unconfigured));
  _ ← lift (try_ (reject_if (negb (bool_decide (dr_device_id record = Some expected_device_id))
        || negb (dr_generation record =? expected_generation)) PE_IdentityDrift));
  _ ← modify (fun s => set_devices (<[signer_id := revoked_record record now]> (sr_devices s)) s);
  mret (revoked_record record now).

Definition authorize_request (context : SignerRequestContext) (presented_spki_sha256 : option bytes) (now : Z)
    : act SignerDeviceRegistry (fault ProviderError) unit :=
  self ← gets id;
  _ ← lift (try_ (reject_if (negb (rc_protocol_version context =? SIGNER_PROVIDER_PROTOCOL_VERSION)
        || negb (bool_decide (rc_signer_set_id context = sr_signer_set_id self))
        || negb (rc_signer_epoch context =? sr_signer_epoch self)
        || (rc_min_signers context =? 0) || (rc_max_signers context <? rc_min_signers context)) PE_WrongSignerSet));
  _ ← lift (try_ (reject_if (rc_expires_at context <? now) PE_Expired));
  record ← lift (try_ (ok_or (sr_devices self !! rc_signer_id context) PE_UnknownParticipant));
  _ ← lift (try_ match dr_status record with
                 | DeviceUnconfigured => Err PE_Unconfigured
                 | DeviceRevoked => Err PE_Revoked
                 | DeviceActive => Ok tt
                 end);
  _ ← lift (try_ (reject_if (negb (bool_decide (dr_device_id record = Some (rc_device_id context)))
        || negb (dr_generation record =? rc_device_generation context)) PE_IdentityDrift));
  expected_spki ← lift (try_ (parse_optional_hex32 (dr_mtls_spki_sha256_hex record)));
  _ ← lift (try_ (reject_if (negb (bool_decide (expected_spki = presented_spki_sha256))) PE_SpkiMismatch));
  let nonce := (rc_device_id context, rc_device_generation context, rc_request_nonce context) in
  _ ← lift (try_ (reject_if (bool_decide (nonce ∈ sr_consumed_request_nonces self)) PE_Replay));
  _ ← modify (fun s => set_nonces ({[nonce]} ∪ sr_consumed_request_nonces s) s);
  modify (fun s => set_devices (<[rc_signer_id context :=
    set_health (mkDeviceHealth true (Some now) (Some now) None) record]> (sr_devices s)) s).

Definition mark_unavailable (signer_id : Z) (expected_device_id : Uuid) (expected_generation : Z)
    (error_code : string) (now : Z) : act SignerDeviceRegistry (fault ProviderError) unit :=
  record ← reads (fun s => try_ (ok_or (sr_devices s !! signer_id) PE_UnknownParticipant));
  _ ← lift (try_ (reject_if (negb (bool_decide (dr_device_id record = Some expected_device_id))
        || negb (dr_generation record =? expected_generation)) PE_IdentityDrift));
  modify (fun s => set_devices (<[signer_id :=
    set_health (mkDeviceHealth false (Some now) (dh_last_success_at (dr_health record)) (Some error_code)) record]>
    (sr_devices s)) s).
End registry.

(** ** Custody of a slot *)

Section custody.
Context `{BitcoinLib} `{TextCodec} `{BuildProfile}.

Inductive registry_op :=
| OpRestore (records : list SignerDeviceRecord)
| OpChallenge (signer_id now ttl_seconds : Z) (nonce : bytes) (challenge_id : Uuid)
| OpRegister (proof : DeviceRegistrationProof) (now : Z)
| OpRevoke (signer_id : Z) (device_id : Uuid) (generation now : Z)
| OpRequest (context : SignerRequestContext) (spki : option bytes) (now : Z)
| OpUnavailable (signer_id : Z) (device_id : Uuid) (generation : Z) (code : string) (now : Z).

(** One operation, and the request nonce it admitted. *)
Definition registry_step (s : SignerDeviceRegistry) (op : registry_op)
    : SignerDeviceRegistry * list (Uuid * Z * bytes) :=
  match op with
  | OpRestore records => ((restore_device_records records s).1, [])
  | OpChallenge k now ttl nonce cid => ((issue_registration_challenge k now ttl nonce cid s).1, [])
  | OpRegister proof now => ((register proof now s).1, [])
  | OpRevoke k d g now => ((revoke k d g now s).1, [])
  | OpRequest context spki now =>
      let '(s', r) := authorize_request context spki now s in
      (s', if is_ok r then [(rc_device_id context, rc_device_generation context, rc_request_nonce context)] else [])
  | OpUnavailable k d g code now => ((mark_unavailable k d g code now s).1, [])
  end.
Fixpoint registry_run (s : SignerDeviceRegistry) (ops : list registry_op)
    : SignerDeviceRegistry * list (Uuid * Z * bytes) :=
  match ops with
  | [] => (s, [])
  | op :: rest =>
      let '(s1, e1) := registry_step s op in let '(s2, e2) := registry_run s1 rest in (s2, e1 ++ e2)
  end.

(** The part of a record that identifies the device. *)
Definition same_device (r r' : SignerDeviceRecord) : Prop :=
  dr_device_id r' = dr_device_id r /\ dr_generation r' = dr_generation r /\
  dr_identity_public_key_hex r' = dr_identity_public_key_hex r /\
  dr_mtls_spki_sha256_hex r' = dr_mtls_spki_sha256_hex r.

Inductive custody (r r' : SignerDeviceRecord) : Prop :=
| custody_health : same_device r r' -> dr_status r' = dr_status r -> custody r r'
| custody_restored : dr_status r = DeviceUnconfigured -> custody r r'
| custody_registered c p cert :
    dr_status r <> DeviceRevoked -> verify_registration_proof c p cert = Ok tt ->
    (dr_status r = DeviceActive -> verify_rotation_authorization r c p cert = Ok tt) ->
    arith (E:=ProviderError) 64 (dr_generation r + 1) = Ok (dr_generation r') ->
    dc_next_generation c = dr_generation r' -> dr_status r' = DeviceActive ->
    dr_device_id r' = Some (dp_device_id p) -> custody r r'
| custody_revoked : same_device r r' -> dr_status r' = DeviceRevoked -> custody r r'.

(** Every slot of the table after the operations has the custody of the slot
    before them. *)
Definition in_custody (s s' : SignerDeviceRegistry) : Prop :=
  forall k r, sr_devices s !! k = Some r -> exists r', sr_devices s' !! k = Some r' /\ rtc custody r r'.

#[export] Instance in_custody_refl : Reflexive in_custody.
Proof. intros s k r Hr. by exists r. Qed.
#[export] Instance in_custody_trans : Transitive in_custody.
Proof.
  intros s1 s2 s3 C1 C2' k r Hr. destruct (C1 k r Hr) as (r2 & Hr2 & C2).
  destruct (C2' k r2 Hr2) as (r3 & Hr3 & C3). exists r3. split; [done|by etrans].
Qed.

Lemma in_custody_same s s' : sr_devices s' = sr_devices s -> in_custody s s'.
Proof. intros Hs k r Hr. rewrite Hs. by exists r. Qed.

Lemma in_custody_insert s k r r' : sr_devices s !! k = Some r -> custody r r' ->
  in_custody s (set_devices (<[k := r']> (sr_devices s)) s).
Proof.
  intros Hk Hc j q Hj. simpl. destruct (decide (j = k)) as [->|Hn].
  - rewrite lookup_insert_eq. exists r'. split; [done|]. simplify_eq. by apply rtc_once.
  - rewrite lookup_insert_ne by done. by exists q.
Qed.

Lemma custody_set_health h r : custody r (set_health h r).
Proof. by apply custody_health. Qed.

(** A restore keeps every slot. *)
Lemma restore_records_slots records seen restored out k :
  restore_records seen restored records = Ok out -> is_Some (restored !! k) -> is_Some (out !! k).
Proof.
  revert seen restored. induction records as [|rec rest IH]; intros seen restored Hr Hk; [by injection Hr as <-|].
  simpl in Hr. res_inv. destruct r as [seen' restored']. unfold restore_one in *. res_inv. simplify_eq.
  eapply IH; [done|]. destruct (decide (k = dr_signer_id rec)) as [->|Hn];
    [by rewrite lookup_insert_eq|by rewrite lookup_insert_ne].
Qed.

Lemma restore_custody records : keeps in_custody (restore_device_records records).
Proof.
  intros s. destruct (restore_device_records records s) as [s' [u|e]] eqn:E; simpl.
  - unfold restore_device_records in E. act_inv. intros k r Hr. simpl.
    match goal with H : restore_records _ _ _ = Ok _ |- _ =>
      destruct (restore_records_slots _ _ _ _ k H) as [r' Hr']; [by eauto|] end.
    exists r'. split; [done|]. apply rtc_once, custody_restored.
    destruct (decide (dr_status r = DeviceUnconfigured)) as [|Hn]; [done|exfalso].
    match goal with H : existsb _ _ = false |- _ => rewrite <- not_true_iff_false in H; apply H end.
    apply existsb_exists. exists (k, r). split; [by apply list_elem_of_In, elem_of_map_to_list|].
    by rewrite bool_decide_false.
  - unfold restore_device_records, mbind, act_bind, reads, modify in E.
    repeat case_match; simplify_eq; done.
Qed.

(** A failed operation leaves the table alone. *)
Definition same_devices (s s' : SignerDeviceRegistry) : Prop := sr_devices s' = sr_devices s.
#[export] Instance same_devices_refl : Reflexive same_devices.
Proof. done. Qed.
#[export] Instance same_devices_trans : Transitive same_devices.
Proof. intros ???. unfold same_devices. congruence. Qed.

(** Decompose an operation whose table update comes last. *)
Ltac slot_error :=
  repeat first [apply keeps_err_infallible; repeat first [apply infallible_bind; [|intros ?]|apply infallible_modify|apply infallible_ret]; done
               |apply keeps_err_bind; [apply _|by repeat keeps_step|intros ?]].

Lemma challenge_custody k now ttl nonce cid : keeps in_custody (issue_registration_challenge k now ttl nonce cid).
Proof. unfold issue_registration_challenge. repeat keeps_step. by apply in_custody_same. Qed.

Lemma register_error proof now : keeps_err same_devices (register proof now).
Proof.
  unfold register. slot_error.
Qed.

Lemma register_custody proof now : keeps in_custody (register proof now).
Proof.
  intros s. destruct (register proof now s) as [s' [rec|e]] eqn:E; simpl.
  - unfold register in E. act_inv. simpl in *.
    eapply (in_custody_insert (set_challenges _ s)); [done|].
    eapply custody_registered; simpl; try done; [|congruence].
    intros Ha. unfold is_active in *. by rewrite (bool_decide_true _ Ha) in *.
  - by apply in_custody_same, (register_error _ _ _ _ _ E).
Qed.

(** Operations on one slot. *)
Lemma slot_custody {A} (m : act SignerDeviceRegistry (fault ProviderError) A) :
  keeps_err same_devices m ->
  (forall s s' a, m s = (s', Ok a) -> exists k r r', sr_devices s !! k = Some r /\ custody r r' /\
     sr_devices s' = <[k := r']> (sr_devices s)) ->
  keeps in_custody m.
Proof.
  intros He Hok s. destruct (m s) as [s' [a|e]] eqn:E; simpl.
  - destruct (Hok _ _ _ E) as (k & r & r' & Hk & Hc & Hs). etrans; [by eapply in_custody_insert|].
    by apply in_custody_same.
  - by apply in_custody_same, (He _ _ _ E).
Qed.

Lemma revoke_custody k d g now : keeps in_custody (revoke k d g now).
Proof.
  apply slot_custody; unfold revoke; [slot_error|]. intros s s' a E. act_inv.
  eexists _, _, _. split_and!; cycle 2; [done|done|by apply custody_revoked].
Qed.

Lemma request_custody c spki now : keeps in_custody (authorize_request c spki now).
Proof.
  apply slot_custody; unfold authorize_request; [slot_error|]. intros s s' a E. act_inv. simpl in *.
  eexists _, _, _. split_and!; cycle 2; [done|done|apply custody_set_health].
Qed.

Lemma unavailable_custody k d g code now : keeps in_custody (mark_unavailable k d g code now).
Proof.
  apply slot_custody; unfold mark_unavailable; [slot_error|]. intros s s' a E. act_inv. simpl in *.
  eexists _, _, _. split_and!; cycle 2; [done|done|apply custody_set_health].
Qed.

Lemma registry_step_custody s op : in_custody s (registry_step s op).1.
Proof.
  destruct op; simpl; [apply restore_custody|apply challenge_custody|apply register_custody|apply revoke_custody
    | |apply unavailable_custody].
  pose proof (request_custody context spki now s). by destruct (authorize_request context spki now s).
Qed.

Lemma registry_run_custody ops s s' evs : registry_run s ops = (s', evs) -> in_custody s s'.
Proof.
  revert s evs. induction ops as [|op rest IH]; intros s evs; simpl; [by intros [= <- _]|].
  pose proof (registry_step_custody s op) as Hs. destruct (registry_step s op) as [s1 e1]; simpl in Hs.
  destruct (registry_run s1 rest) as [s2 e2] eqn:E. intros [= <- _]. etrans; [done|by eapply IH].
Qed.

Lemma same_device_trans r1 r2 r3 : same_device r1 r2 -> same_device r2 r3 -> same_device r1 r3.
Proof. unfold same_device. naive_solver congruence. Qed.

(** A revoked slot keeps its revoked device. *)
Lemma custody_revoked_final r r' :
  rtc custody r r' -> dr_status r = DeviceRevoked -> same_device r r' /\ dr_status r' = DeviceRevoked.
Proof.
  induction 1 as [r|r r1 r' Hc _ IH]; intros Hr; [by split; [split_and!|]|].
  assert (same_device r r1 /\ dr_status r1 = DeviceRevoked) as [Hs Hr1] by (destruct Hc; by (split; congruence)).
  destruct (IH Hr1) as [Hs' ?]. split; [by eapply same_device_trans|done].
Qed.

(** The device that replaced an active one was registered with a proof that the
    replaced device signed, for the next generation. *)
Definition rotated (r r' : SignerDeviceRecord) : Prop :=
  exists r1 c p cert, verify_registration_proof c p cert = Ok tt /\ verify_rotation_authorization r c p cert = Ok tt /\
    arith (E:=ProviderError) 64 (dr_generation r + 1) = Ok (dr_generation r1) /\ dc_next_generation c = dr_generation r1 /\
    dr_device_id r1 = Some (dp_device_id p) /\ rtc custody r1 r'.

Lemma rotated_same r r0 r' : same_device r r0 -> rotated r0 r' -> rotated r r'.
Proof.
  intros (_ & Hg & Hk & _) (r1 & c & p & cert & Hp & Hrot & Ha & Hrest). exists r1, c, p, cert.
  unfold verify_rotation_authorization in *. rewrite Hk in Hrot. rewrite Hg in Ha. split; [done|]. split; [done|]. by split.
Qed.

Lemma custody_rotation r r' :
  rtc custody r r' -> dr_status r = DeviceActive -> same_device r r' \/ rotated r r'.
Proof.
  induction 1 as [r|r r1 r' Hc Hrest IH]; intros Ha; [by left|]. destruct Hc as [Hd Hs|Hu|c p cert _ Hp Hrot Hg Hn Hst Hdev| Hd Hs].
  - destruct (IH ltac:(congruence)) as [Hd'|Hr]; [left; by eapply same_device_trans|right; by eapply rotated_same].
  - congruence.
  - right. exists r1, c, p, cert. split_and!; auto.
  - left. destruct (custody_revoked_final _ _ Hrest Hs) as [Hd' _]. by eapply same_device_trans.
Qed.

(** ** Admitted requests *)

Definition same_nonces (s s' : SignerDeviceRegistry) : Prop :=
  sr_consumed_request_nonces s' = sr_consumed_request_nonces s.
#[export] Instance same_nonces_refl : Reflexive same_nonces.
Proof. done. Qed.
#[export] Instance same_nonces_trans : Transitive same_nonces.
Proof. intros ???. unfold same_nonces. congruence. Qed.

Lemma registry_step_nonces s op s' evs :
  registry_step s op = (s', evs) ->
  (evs = [] /\ same_nonces s s') \/
  exists n, evs = [n] /\ n ∉ sr_consumed_request_nonces s /\
    sr_consumed_request_nonces s' = {[n]} ∪ sr_consumed_request_nonces s.
Proof.
  destruct op as [| | | |c spki now|]; simpl; try (intros [= <- <-]; left; split; [done|]).
  - assert (keeps same_nonces (restore_device_records records)) as Hk
      by (unfold restore_device_records; by repeat keeps_step). apply Hk.
  - assert (keeps same_nonces (issue_registration_challenge signer_id now ttl_seconds nonce challenge_id)) as Hk
      by (unfold issue_registration_challenge; by repeat keeps_step). apply Hk.
  - assert (keeps same_nonces (register proof now)) as Hk by (unfold register; by repeat keeps_step). apply Hk.
  - assert (keeps same_nonces (revoke signer_id device_id generation now)) as Hk
      by (unfold revoke; by repeat keeps_step). apply Hk.
  - destruct (authorize_request c spki now s) as [s1 [u|e]] eqn:E; simpl; intros [= <- <-].
    + right. unfold authorize_request in E. act_inv. simpl in *. eexists. split_and!; [done|done|done].
    + left. split; [done|]. assert (keeps_err same_nonces (authorize_request c spki now)) as Hk
        by (unfold authorize_request; slot_error). by eapply Hk.
  - assert (keeps same_nonces (mark_unavailable signer_id device_id generation code now)) as Hk
      by (unfold mark_unavailable; by repeat keeps_step). apply Hk.
Qed.

Lemma registry_run_nonces ops s s' evs :
  registry_run s ops = (s', evs) ->
  NoDup evs /\ (forall n, n ∈ evs -> n ∉ sr_consumed_request_nonces s).
Proof.
  revert s evs. induction ops as [|op rest IH]; intros s evs; simpl.
  { intros [= <- <-]. split; [constructor|]. intros n Hn. inversion Hn. }
  destruct (registry_step s op) as [s1 e1] eqn:E1. destruct (registry_run s1 rest) as [s2 e2] eqn:E2.
  intros [= <- <-]. destruct (IH _ _ E2) as [Hd Hf].
  apply registry_step_nonces in E1 as [[-> Hs]|(n & -> & Hn & Hs)].
  - rewrite Hs in Hf. done.
  - rewrite Hs in Hf. split; [|set_solver]. constructor; [|done]. intros Hi. apply (Hf _ Hi). set_solver.
Qed.
End custody.
