(* ===== verification/ProviderInv.v ===== *)
(** * Runs of a signer provider

    Sequences of requests to a guarded provider over the local backend, the
    commitments and shares it hands out as a trace, and the invariant that ties
    a released share to its reservation. *)

From Stdlib Require Import ZArith Lia.
From S2P Require Import Prelude Bitcoin Text Frost Participant Personal Effects Provider.
From stdpp Require Import list gmap strings.
Local Open Scope Z_scope.

Section inv.
Context `{BitcoinLib} `{TextCodec} `{FL : FrostLib} `{!FrostCodec} {A : Type} `{!ProviderRequestAuthorizer A}.
Context {R : Type} `{!ProviderReplayStore R} `{!ProviderReplayLaws R}.

Abbreviation Provider := (GuardedSignerProvider (LocalEncryptedFrostBackend A) R).

Inductive provider_op :=
| PRoundOne (request : SignerRoundOneRequest) (now : Z) (rng : Rng)
| PRoundTwo (request : SignerRoundTwoRequest) (now : Z)
| PAbort (request : SignerAbortRequest) (now : Z).

(** A commitment and a share that left the provider, with their requests. *)
Inductive provider_event :=
| EvCommitted (context : SignerRequestContext) (now : Z) (answer : SignerRoundOneResponse)
| EvReleased (context : SignerRequestContext) (now : Z) (package_hex : string) (answer : SignerRoundTwoResponse).

Definition provider_step (g : Provider) (op : provider_op) : Provider * list provider_event :=
  match op with
  | PRoundOne q now rng =>
      let '(g', r) := round_one q now rng g in
      (g', match r with Ok a => [EvCommitted (r1_context q) now a] | Err _ => [] end)
  | PRoundTwo q now =>
      let '(g', r) := round_two q now g in
      (g', match r with Ok a => [EvReleased (r2_context q) now (r2_signing_package_hex q) a] | Err _ => [] end)
  | PAbort q now => ((provider_abort q now g).1, [])
  end.
Fixpoint provider_run (g : Provider) (ops : list provider_op) : Provider * list provider_event :=
  match ops with
  | [] => (g, [])
  | op :: rest =>
      let '(g1, e1) := provider_step g op in let '(g2, e2) := provider_run g1 rest in (g2, e1 ++ e2)
  end.

Definition event_context (e : provider_event) : SignerRequestContext :=
  match e with EvCommitted c _ _ => c | EvReleased c _ _ _ => c end.
Definition event_nonce (e : provider_event) : bytes := rc_request_nonce (event_context e).
Definition is_commit (op : Uuid) (e : provider_event) : bool :=
  match e with EvCommitted c _ _ => bool_decide (rc_operation_id c = op) | _ => false end.
Definition is_release (op : Uuid) (e : provider_event) : bool :=
  match e with EvReleased c _ _ _ => bool_decide (rc_operation_id c = op) | _ => false end.
Definition commits_of (op : Uuid) (evs : list provider_event) : nat := length (List.filter (is_commit op) evs).
Definition releases_of (op : Uuid) (evs : list provider_event) : nat := length (List.filter (is_release op) evs).

(** The commitment an answer of round one carries. *)
Definition answers_commitment (a : SignerRoundOneResponse) (c : SigningCommitments) : Prop :=
  exists b, commitments_serialize c = Some b /\ a1_commitment_hex a = hex_encode b.

(** ** The parts of the state *)

Definition reservations (g : Provider) : gmap Uuid ReservationBinding := lb_reservations (gp_backend g).
Definition pending (g : Provider) : gmap bytes PendingRoundOne := lp_pending (lb_participant (gp_backend g)).
Definition consumed (g : Provider) : bytes -> Prop := nonce_claimed (gp_identity g) (gp_replay_store g).
Definition signer (g : Provider) : Z := lp_signer_id (lb_participant (gp_backend g)).

(** [used] are the nonces that were claimed before the run. *)
Record provider_inv (used : bytes -> Prop) (g : Provider) (evs : list provider_event) : Prop := {
  pi_identity : signer g = id_signer_id (gp_identity g);
  pi_nonces : NoDup (event_nonce <$> evs);
  pi_fresh e : e ∈ evs -> ~ used (event_nonce e);
  pi_used n : used n -> consumed g n;
  pi_consumed e : e ∈ evs -> consumed g (event_nonce e);
  pi_reserved op rb : reservations g !! op = Some rb ->
    exists ctx now a pr, EvCommitted ctx now a ∈ evs /\ rc_operation_id ctx = op /\ reservation_of ctx = rb /\
      pending g !! rb_session_id rb = Some pr /\ answers_commitment a (pr_commitments pr);
  pi_sessions op op' rb rb' : reservations g !! op = Some rb -> reservations g !! op' = Some rb' ->
    rb_session_id rb = rb_session_id rb' -> op = op';
  pi_count op : (releases_of op evs + (if bool_decide (is_Some (reservations g !! op)) then 1 else 0)
                 <= commits_of op evs)%nat;
}.

(** ** What each request does *)

(** A request that hands nothing out: it may burn one reservation, with or
    without its nonces. *)
Definition same_parts (g g' : Provider) : Prop :=
  gp_identity g' = gp_identity g /\ signer g' = signer g /\ (forall n, consumed g n -> consumed g' n).
Definition burns (g g' : Provider) (op : Uuid) : Prop :=
  exists rb, reservations g !! op = Some rb /\ reservations g' = delete op (reservations g) /\
    (pending g' = pending g \/ pending g' = delete (rb_session_id rb) (pending g)).
Definition silent (g g' : Provider) : Prop :=
  same_parts g g' /\
  ((reservations g' = reservations g /\ pending g' = pending g) \/ exists op, burns g g' op).

Lemma authorize_context_spec ctx now (g g' : Provider) r :
  authorize_context ctx now g = (g', r) ->
  gp_backend g' = gp_backend g /\ gp_identity g' = gp_identity g /\ (forall n, consumed g n -> consumed g' n) /\
  (forall u, r = Ok u -> ~ consumed g (rc_request_nonce ctx) /\ consumed g' (rc_request_nonce ctx) /\
     context_drifts ctx (gp_identity g) = false /\ now <= rc_expires_at ctx).
Proof.
  unfold authorize_context, mbind, act_bind, gets, lift, reads, zoom. simpl.
  destruct (context_drifts ctx (gp_identity g)) eqn:Ed; simpl; [by intros [= <- <-]|].
  destruct (rc_expires_at ctx <? now) eqn:Ee; simpl; [by intros [= <- <-]|].
  destruct (check_lifetime ctx (gp_max_session_lifetime_seconds g) now) as [[]|e]; simpl; [|by intros [= <- <-]].
  apply Z.ltb_ge in Ee. unfold consumed.
  pose proof (fun n => claim_keeps (gp_identity g) ctx now (gp_replay_store g) n) as Hk.
  destruct (claim_request_nonce (gp_identity g) ctx now (gp_replay_store g)) as [t [u|e]] eqn:Ec; simpl in *;
    intros [= <- <-]; simpl; (split_and!; [done|done|done|]); [|done].
  intros _ _. apply claim_once in Ec as [Hn Hc]. by split_and!.
Qed.

Lemma silent_authorize ctx now (g g' : Provider) r : authorize_context ctx now g = (g', r) -> silent g g'.
Proof.
  intros (Hb & Hi & Hc & _)%authorize_context_spec. unfold silent, same_parts, signer, reservations, pending.
  rewrite Hb, Hi. auto.
Qed.

Lemma silent_trans_same g1 g2 g3 :
  same_parts g1 g2 -> reservations g2 = reservations g1 -> pending g2 = pending g1 -> silent g2 g3 -> silent g1 g3.
Proof.
  intros (Hi & Hs & Hc) Hr Hp [(Hi' & Hs' & Hc') Hq]. split; [split_and!; [congruence|congruence|auto]|].
  unfold burns in *. rewrite Hr, Hp in Hq. done.
Qed.

(** ** The local backend *)

Abbreviation Backend := (LocalEncryptedFrostBackend A).
Definition b_pending (b : Backend) : gmap bytes PendingRoundOne := lp_pending (lb_participant b).
Definition b_signer (b : Backend) : Z := lp_signer_id (lb_participant b).
Definition b_burns (b b' : Backend) (op : Uuid) : Prop :=
  exists rb, lb_reservations b !! op = Some rb /\ lb_reservations b' = delete op (lb_reservations b) /\
    (b_pending b' = b_pending b \/ b_pending b' = delete (rb_session_id rb) (b_pending b)).
Definition b_silent (b b' : Backend) : Prop :=
  (lb_reservations b' = lb_reservations b /\ b_pending b' = b_pending b) \/ exists op, b_burns b b' op.

Lemma reserve_spec ctx rng (b b' : Backend) r :
  lb_reserve_nonce_and_commit ctx rng b = (b', r) ->
  b_signer b' = b_signer b /\
  match r with
  | Err _ => lb_reservations b' = lb_reservations b /\ b_pending b' = b_pending b
  | Ok c =>
      lb_reservations b !! rc_operation_id ctx = None /\ b_pending b !! rc_session_id ctx = None /\
      lb_reservations b' = <[rc_operation_id ctx := reservation_of ctx]> (lb_reservations b) /\
      c = (frost_commit (lp_key_package (lb_participant b)) rng).2 /\
      exists nonces, b_pending b' =
        <[rc_session_id ctx := mkPendingRoundOne (rc_taproot_sighash ctx) nonces c]> (b_pending b)
  end.
Proof.
  unfold lb_reserve_nonce_and_commit, mbind, act_bind, zoom, reads, modify, mret, act_ret, round1, b_pending, b_signer.
  destruct (authorize_request_round ctx RoundOne (lb_authorizer b)) as [a [u|e]]; simpl; [|by intros [= <- <-]].
  case_bool_decide as Hr; simpl; [by intros [= <- <-]|]. apply eq_None_not_Some in Hr.
  destruct (lp_pending (lb_participant b) !! rc_session_id ctx) eqn:Hp; simpl; [by intros [= <- <-]|].
  destruct (frost_commit _ rng) as [nonces c] eqn:Hc. simpl. intros [= <- <-]; simpl. by split_and!; eauto.
Qed.

Lemma sign_spec ctx pkg (b b' : Backend) r :
  lb_sign_reserved_share ctx pkg b = (b', r) ->
  b_signer b' = b_signer b /\
  match r with
  | Err _ => b_silent b b'
  | Ok _ =>
      lb_reservations b !! rc_operation_id ctx = Some (reservation_of ctx) /\
      lb_reservations b' = delete (rc_operation_id ctx) (lb_reservations b) /\
      b_pending b' = delete (rc_session_id ctx) (b_pending b) /\
      exists pr i, b_pending b !! rc_session_id ctx = Some pr /\ participant_identifier (b_signer b) = Some i /\
        signing_commitments pkg !! i = Some (pr_commitments pr)
  end.
Proof.
  unfold lb_sign_reserved_share, mbind, act_bind, zoom, reads, modify, gets, round2, b_silent, b_burns, b_pending, b_signer.
  case_bool_decide as Hr; simpl; [|intros [= <- <-]; by auto].
  destruct (authorize_request_round ctx RoundTwo (lb_authorizer b)) as [a [u|e]]; simpl; [|intros [= <- <-]; by auto].
  destruct (lp_pending (lb_participant b) !! rc_session_id ctx) as [pr|] eqn:Hp; simpl.
  2: { intros [= <- <-]; simpl. split; [done|]. right. eauto 10. }
  destruct (participant_identifier _) as [i|] eqn:Hi; simpl.
  2: { intros [= <- <-]; simpl. split; [done|]. right. eauto 10. }
  destruct (_ || _) eqn:Hm; simpl.
  { intros [= <- <-]; simpl. split; [done|]. right. eauto 10. }
  autorewrite with guards in Hm. destruct Hm as [_ Hm].
  destruct (sign_share _ _ _ _ _ _ _) as [[guard' auth'] [share|e]]; simpl; intros [= <- <-]; simpl.
  - split_and!; [done..|]. eauto.
  - split; [done|]. right. eexists _, _. split_and!; [done|done|]. by right.
Qed.

Lemma burn_spec op sid code (b b' : Backend) r :
  lb_burn_reservation op sid code b = (b', r) -> b_signer b' = b_signer b /\ b_silent b b'.
Proof.
  unfold lb_burn_reservation, mbind, act_bind, reads, modify, lift, b_silent, b_burns, b_pending, b_signer.
  destruct (lb_reservations b !! op) as [rb|] eqn:Hr; simpl; [|intros [= <- <-]; by auto].
  case_bool_decide as Hs; simpl; intros [= <- <-]; simpl; (split; [done|]); right.
  - eexists _, _. split_and!; [done|done|]. right. by rewrite Hs.
  - eexists _, _. split_and!; [done|done|by left].
Qed.

(** ** Requests to the provider *)

Lemma zoom_backend {X} (m : act Backend ProviderError X) (g g' : Provider) r :
  zoom gp_backend set_gp_backend id m g = (g', r) ->
  exists b', m (gp_backend g) = (b', r) /\ g' = set_gp_backend b' g.
Proof. unfold zoom. destruct (m (gp_backend g)) as [b' [x|e]]; simpl; intros [= <- <-]; eauto. Qed.

Lemma silent_backend (g : Provider) b' :
  b_signer b' = b_signer (gp_backend g) -> b_silent (gp_backend g) b' -> silent g (set_gp_backend b' g).
Proof. intros Hs Hb. split; [by split_and!|]. exact Hb. Qed.

Lemma provider_abort_silent q now (g : Provider) : silent g (provider_abort q now g).1.
Proof.
  destruct (provider_abort q now g) as [g' r] eqn:E. unfold provider_abort in E. simpl.
  unfold mbind, act_bind in E. destruct (authorize_context (ra_context q) now g) as [g1 [u|e]] eqn:Ea.
  2: { injection E as <- _. by eapply silent_authorize. }
  pose proof (authorize_context_spec _ _ _ _ _ Ea) as (Hb & Hi & Hc & _).
  assert (same_parts g g1) as Hsp by (by unfold same_parts, signer; rewrite Hb).
  unfold lift in E. destruct (reject_if _ _) as [[]|e].
  2: { injection E as <- _. by eapply silent_authorize. }
  apply zoom_backend in E as (b' & Hburn & ->). apply (burn_spec _ _ (ra_reason_code q)) in Hburn as [Hs Hsil].
  eapply silent_trans_same; [done|unfold reservations; by rewrite Hb|unfold pending; by rewrite Hb|].
  by apply silent_backend.
Qed.

Lemma silent_after_authorize ctx now (g g1 : Provider) u b' :
  authorize_context ctx now g = (g1, Ok u) ->
  b_signer b' = b_signer (gp_backend g) -> b_silent (gp_backend g) b' -> silent g (set_gp_backend b' g1).
Proof.
  intros (Hb & Hi & Hc & _)%authorize_context_spec Hs Hsil.
  eapply silent_trans_same; [by unfold same_parts, signer; rewrite Hb|unfold reservations; by rewrite Hb
    |unfold pending; by rewrite Hb|]. apply silent_backend; by rewrite Hb.
Qed.

Lemma round_one_spec `{!FrostCodecLaws} q now rng (g g' : Provider) r :
  round_one q now rng g = (g', r) ->
  match r with
  | Err _ => silent g g'
  | Ok a =>
      let ctx := r1_context q in
      same_parts g g' /\ ~ consumed g (rc_request_nonce ctx) /\ consumed g' (rc_request_nonce ctx) /\
      context_drifts ctx (gp_identity g) = false /\ now <= rc_expires_at ctx /\
      reservations g !! rc_operation_id ctx = None /\ pending g !! rc_session_id ctx = None /\
      reservations g' = <[rc_operation_id ctx := reservation_of ctx]> (reservations g) /\
      exists pr, pending g' = <[rc_session_id ctx := pr]> (pending g) /\ answers_commitment a (pr_commitments pr)
  end.
Proof.
  unfold round_one. cbv zeta. unfold mbind, act_bind.
  destruct (authorize_context (r1_context q) now g) as [g1 [u|e]] eqn:Ea.
  2: { intros [= <- <-]. by eapply silent_authorize. }
  destruct (authorize_context_spec _ _ _ _ _ Ea) as (Hb & Hi & Hc & Hok). destruct (Hok _ eq_refl) as (Hn & Hn' & Hd & He).
  destruct (zoom gp_backend set_gp_backend id _ g1) as [g2 [c|e]] eqn:Ez;
    apply zoom_backend in Ez as (b' & Hres & ->); apply reserve_spec in Hres as [Hs Hres]; rewrite Hb in Hs, Hres.
  2: { intros [= <- <-]. eapply silent_after_authorize; [done|done|]. by left. }
  destruct Hres as (Hr & Hp & Hr' & -> & nonces & Hp').
  destruct (commit_serializes (lp_key_package (lb_participant (gp_backend g))) rng) as [enc Henc].
  unfold lift. rewrite Henc. simpl. intros [= <- <-]. unfold reservations, pending, signer. simpl.
  split_and!; try done. eexists. split; [exact Hp'|]. exists enc. done.
Qed.

Lemma round_two_spec q now (g g' : Provider) r :
  round_two q now g = (g', r) ->
  match r with
  | Err _ => silent g g'
  | Ok a =>
      let ctx := r2_context q in
      same_parts g g' /\ ~ consumed g (rc_request_nonce ctx) /\ consumed g' (rc_request_nonce ctx) /\
      context_drifts ctx (gp_identity g) = false /\ now <= rc_expires_at ctx /\
      reservations g !! rc_operation_id ctx = Some (reservation_of ctx) /\
      reservations g' = delete (rc_operation_id ctx) (reservations g) /\
      pending g' = delete (rc_session_id ctx) (pending g) /\
      exists b pkg pr i, hex_decode (r2_signing_package_hex q) = Some b /\ package_deserialize b = Some pkg /\
        package_message pkg = rc_taproot_sighash ctx /\ pending g !! rc_session_id ctx = Some pr /\
        participant_identifier (signer g) = Some i /\ signing_commitments pkg !! i = Some (pr_commitments pr)
  end.
Proof.
  unfold round_two. cbv zeta. unfold mbind, act_bind.
  destruct (authorize_context (r2_context q) now g) as [g1 [u|e]] eqn:Ea.
  2: { intros [= <- <-]. by eapply silent_authorize. }
  destruct (authorize_context_spec _ _ _ _ _ Ea) as (Hb & Hi & Hc & Hok). destruct (Hok _ eq_refl) as (Hn & Hn' & Hd & He).
  pose proof (silent_authorize _ _ _ _ _ Ea) as Hsil. unfold lift.
  destruct (hex_decode (r2_signing_package_hex q)) as [enc|] eqn:Hh; simpl; [|by intros [= <- <-]].
  destruct (reject_if (MAX_SIGNING_PACKAGE_BYTES <? length enc)%nat PE_InvalidEncoding) as [u1|e]; [|by intros [= <- <-]].
  destruct (package_deserialize enc) as [pkg|] eqn:Hpk; simpl; [|by intros [= <- <-]].
  destruct (identifier_try_from _) as [i0|]; simpl; [|by intros [= <- <-]].
  destruct (_ || _) eqn:Hm; simpl; [by intros [= <- <-]|]. autorewrite with guards in Hm. destruct Hm as [Hm _].
  destruct (zoom gp_backend set_gp_backend id _ g1) as [g2 [share|e]] eqn:Ez;
    apply zoom_backend in Ez as (b' & Hsig & ->); apply sign_spec in Hsig as [Hs Hsig]; rewrite Hb in Hs, Hsig.
  2: { intros [= <- <-]. by eapply silent_after_authorize. }
  destruct Hsig as (Hr & Hr' & Hp' & pr & i & Hp & Hi' & Hcm). intros [= <- <-].
  unfold reservations, pending, signer. simpl. split_and!; try done. exists enc, pkg, pr, i. by split_and!.
Qed.

(** ** The invariant *)

Context (used : bytes -> Prop).

Lemma inv_silent g g' evs : provider_inv used g evs -> silent g g' -> provider_inv used g' evs.
Proof.
  intros [Hid Hnd Hfr Hus Hco Hres Hses Hcnt] [(Hi & Hs & Hc) [[Hr Hp]|(op0 & rb0 & Hr0 & Hr & Hp)]].
  - constructor; rewrite ?Hr, ?Hp; auto. congruence.
  - constructor; auto; [congruence| | |].
    + intros op rb. rewrite Hr. intros [Hne Hop]%lookup_delete_Some.
      destruct (Hres op rb Hop) as (ctx & now & a & pr & ? & ? & ? & Hpr & ?).
      exists ctx, now, a, pr. split_and!; try done. destruct Hp as [->| ->]; [done|].
      rewrite lookup_delete_ne; [done|]. intros E. by apply Hne, (Hses op0 op rb0 rb).
    + intros op op' rb rb'. rewrite Hr. intros [_ ?]%lookup_delete_Some [_ ?]%lookup_delete_Some. by apply (Hses op op' rb rb').
    + intros op. specialize (Hcnt op). rewrite Hr. destruct (decide (op = op0)) as [->|Hne].
      * rewrite lookup_delete_eq, bool_decide_false by (by intros [? ?]). lia.
      * by rewrite lookup_delete_ne.
Qed.

Lemma count_snoc f (l : list provider_event) e :
  length (List.filter f (l ++ [e])) = (length (List.filter f l) + if f e then 1 else 0)%nat.
Proof. rewrite List.filter_app, length_app. simpl. by destruct (f e). Qed.

Lemma NoDup_nonce_snoc g evs e :
  provider_inv used g evs -> ~ consumed g (event_nonce e) -> NoDup (event_nonce <$> evs ++ [e]).
Proof.
  intros Hinv Hn. rewrite fmap_app. apply NoDup_app. split_and!; [apply Hinv| |apply NoDup_singleton].
  intros x (e' & -> & He')%list_elem_of_fmap Hx. apply list_elem_of_singleton in Hx.
  apply Hn. rewrite <- Hx. by apply (pi_consumed _ _ _ Hinv).
Qed.
Lemma fresh_snoc g evs e e' :
  provider_inv used g evs -> ~ consumed g (event_nonce e) -> e' ∈ evs ++ [e] -> ~ used (event_nonce e').
Proof.
  intros Hinv Hn [He|He%list_elem_of_singleton]%elem_of_app; [by apply (pi_fresh _ _ _ Hinv)|subst e'].
  intros Hu. by apply Hn, (pi_used _ _ _ Hinv).
Qed.

Lemma inv_committed `{!FrostCodecLaws} q now rng g g' a evs :
  provider_inv used g evs -> round_one q now rng g = (g', Ok a) ->
  provider_inv used g' (evs ++ [EvCommitted (r1_context q) now a]).
Proof.
  intros Hinv (Hsp & Hn & Hn' & _ & _ & Hr & Hp & Hr' & pr & Hp' & Ha)%round_one_spec.
  pose proof Hinv as [Hid Hnd Hfr Hus Hco Hres Hses Hcnt]. destruct Hsp as (Hi & Hs & Hc). constructor.
  - congruence.
  - by eapply NoDup_nonce_snoc.
  - intros e. by apply (fresh_snoc g).
  - auto.
  - intros e [He|He%list_elem_of_singleton]%elem_of_app; [by apply Hc, Hco|by subst].
  - intros op rb. rewrite Hr'. intros [[<- <-]|[Hne Hop]]%lookup_insert_Some.
    + eexists (r1_context q), now, a, pr. split_and!; try done; [set_solver|]. simpl. by rewrite Hp', lookup_insert_eq.
    + destruct (Hres op rb Hop) as (ctx & t & a0 & pr0 & ? & ? & ? & Hpr & ?).
      exists ctx, t, a0, pr0. split_and!; try done; [set_solver|]. rewrite Hp', lookup_insert_ne; [done|]. congruence.
  - assert (forall op rb, reservations g !! op = Some rb -> rb_session_id rb <> rc_session_id (r1_context q)) as Hfresh.
    { intros op rb Hop E. destruct (Hres op rb Hop) as (? & ? & ? & ? & ? & ? & ? & Hpr & ?). congruence. }
    intros op op' rb rb'. rewrite Hr'.
    intros [[<- <-]|[? ?]]%lookup_insert_Some [[<- <-]|[? ?]]%lookup_insert_Some; simpl; intros E; try done.
    + by destruct (Hfresh op' rb').
    + by destruct (Hfresh op rb).
    + by apply (Hses op op' rb rb').
  - intros op. specialize (Hcnt op). unfold commits_of, releases_of in *. rewrite !count_snoc. simpl. rewrite Hr'.
    destruct (decide (rc_operation_id (r1_context q) = op)) as [<-|Hne].
    + rewrite lookup_insert_eq, Hr in *. rewrite !(bool_decide_true (_ = _)), bool_decide_false in * by (done || by intros [? ?]).
      case_bool_decide; lia.
    + rewrite lookup_insert_ne, (bool_decide_false (_ = _)) by done. lia.
Qed.

Lemma inv_released q now g g' a evs :
  provider_inv used g evs -> round_two q now g = (g', Ok a) ->
  provider_inv used g' (evs ++ [EvReleased (r2_context q) now (r2_signing_package_hex q) a]).
Proof.
  intros Hinv (Hsp & Hn & Hn' & _ & _ & Hr & Hr' & Hp' & _)%round_two_spec.
  assert (provider_inv used g' evs) as Hinv'.
  { eapply inv_silent; [done|]. split; [done|]. right. eexists _, _. split_and!; [done|done|by right]. }
  pose proof Hinv as [_ _ _ _ _ _ _ Hcnt]. destruct Hinv' as [Hid Hnd Hfr Hus Hco Hres Hses _]. constructor; try done.
  - by eapply NoDup_nonce_snoc.
  - intros e. by apply (fresh_snoc g).
  - intros e [He|He%list_elem_of_singleton]%elem_of_app; [by apply Hco|by subst].
  - intros op rb Hop. destruct (Hres op rb Hop) as (ctx & t & a0 & pr0 & ? & ? & ? & ? & ?).
    exists ctx, t, a0, pr0. split_and!; try done. set_solver.
  - intros op. specialize (Hcnt op). unfold commits_of, releases_of in *. rewrite !count_snoc. simpl. rewrite Hr'.
    destruct (decide (rc_operation_id (r2_context q) = op)) as [<-|Hne].
    + rewrite lookup_delete_eq, Hr in *. rewrite (bool_decide_true (_ = _)) by done.
      rewrite bool_decide_true in Hcnt by done. rewrite bool_decide_false by (by intros [? ?]). lia.
    + rewrite lookup_delete_ne, (bool_decide_false (_ = _)) by done. lia.
Qed.

(** ** Runs *)

(** What is known of a share released after the events [pre]. *)
Definition release_covered (i : ProviderIdentity) (pre : list provider_event) (ctx : SignerRequestContext) (now : Z)
    (package_hex : string) : Prop :=
  context_drifts ctx i = false /\ now <= rc_expires_at ctx /\
  (releases_of (rc_operation_id ctx) pre < commits_of (rc_operation_id ctx) pre)%nat /\
  exists ctx0 now0 a0 b pkg c id, EvCommitted ctx0 now0 a0 ∈ pre /\ answers_commitment a0 c /\
    rc_operation_id ctx0 = rc_operation_id ctx /\ rc_session_id ctx0 = rc_session_id ctx /\
    rc_taproot_sighash ctx0 = rc_taproot_sighash ctx /\
    operation_binding_digest ctx0 = operation_binding_digest ctx /\
    hex_decode package_hex = Some b /\ package_deserialize b = Some pkg /\
    package_message pkg = rc_taproot_sighash ctx /\
    participant_identifier (id_signer_id i) = Some id /\ signing_commitments pkg !! id = Some c.

Lemma released_covered q now g g' a evs :
  provider_inv used g evs -> round_two q now g = (g', Ok a) ->
  release_covered (gp_identity g) evs (r2_context q) now (r2_signing_package_hex q).
Proof.
  intros [Hid _ _ _ _ Hres _ Hcnt] (Hsp & _ & _ & Hd & He & Hr & _ & _ & b & pkg & pr & i & Hh & Hpk & Hm & Hp & Hi & Hc)%round_two_spec.
  destruct (Hres _ _ Hr) as (ctx0 & t & a0 & pr0 & Hin & Hop & Hrb & Hp0 & Ha). simpl in Hp0.
  rewrite Hp in Hp0. injection Hp0 as <-.
  specialize (Hcnt (rc_operation_id (r2_context q))). rewrite Hr, bool_decide_true in Hcnt by done.
  unfold reservation_of in Hrb. injection Hrb as Hs Ht Hb. rewrite Hid in Hi.
  split_and!; [done|done|lia|]. exists ctx0, t, a0, b, pkg, (pr_commitments pr), i. by split_and!.
Qed.

Definition releases_covered (i : ProviderIdentity) (evs : list provider_event) : Prop :=
  forall pre ctx now hex a post, evs = pre ++ EvReleased ctx now hex a :: post -> release_covered i pre ctx now hex.

Lemma releases_covered_snoc i evs e :
  releases_covered i evs ->
  (forall ctx now hex a, e = EvReleased ctx now hex a -> release_covered i evs ctx now hex) ->
  releases_covered i (evs ++ [e]).
Proof.
  intros Hcov He pre ctx now hex a post Heq. destruct post as [|e' post] using rev_ind.
  - apply app_inj_tail in Heq as [-> Heq]. by eapply He.
  - rewrite app_comm_cons, app_assoc in Heq. apply app_inj_tail in Heq as [-> _]. by eapply Hcov.
Qed.

Lemma provider_step_inv `{!FrostCodecLaws} g op g' evs es :
  provider_step g op = (g', es) -> provider_inv used g evs -> releases_covered (gp_identity g) evs ->
  gp_identity g' = gp_identity g /\ provider_inv used g' (evs ++ es) /\ releases_covered (gp_identity g) (evs ++ es).
Proof.
  intros Hs Hinv Hcov. destruct op as [q now rng|q now|q now]; simpl in Hs.
  - destruct (round_one q now rng g) as [g1 [a|e]] eqn:E; injection Hs as <- <-.
    + pose proof (round_one_spec _ _ _ _ _ _ E) as ([Hi _] & _). split_and!; [done|by eapply inv_committed|].
      by apply releases_covered_snoc.
    + pose proof (round_one_spec _ _ _ _ _ _ E) as Hsil. rewrite app_nil_r. split_and!; [apply Hsil|by eapply inv_silent|done].
  - destruct (round_two q now g) as [g1 [a|e]] eqn:E; injection Hs as <- <-.
    + pose proof (round_two_spec _ _ _ _ _ E) as ([Hi _] & _). split_and!; [done|by eapply inv_released|].
      apply releases_covered_snoc; [done|]. intros ctx now' hex a' [= <- <- <- <-]. by eapply released_covered.
    + pose proof (round_two_spec _ _ _ _ _ E) as Hsil. rewrite app_nil_r. split_and!; [apply Hsil|by eapply inv_silent|done].
  - injection Hs as <- <-. pose proof (provider_abort_silent q now g) as Hsil.
    rewrite app_nil_r. split_and!; [apply Hsil|by eapply inv_silent|done].
Qed.

Lemma provider_run_inv `{!FrostCodecLaws} ops g g' pre evs :
  provider_run g ops = (g', evs) -> provider_inv used g pre -> releases_covered (gp_identity g) pre ->
  provider_inv used g' (pre ++ evs) /\ releases_covered (gp_identity g) (pre ++ evs).
Proof.
  revert g pre evs. induction ops as [|op rest IH]; intros g pre evs; simpl.
  { intros [= <- <-]. by rewrite app_nil_r. }
  destruct (provider_step g op) as [g1 e1] eqn:E1. destruct (provider_run g1 rest) as [g2 e2] eqn:E2.
  intros [= <- <-] Hinv Hcov. destruct (provider_step_inv _ _ _ _ _ E1 Hinv Hcov) as (Hi & Hinv1 & Hcov1).
  rewrite <- Hi in Hcov1. destruct (IH _ _ _ E2 Hinv1 Hcov1) as [Hinv2 Hcov2]. rewrite Hi in Hcov2.
  by rewrite app_assoc.
Qed.

End inv.

(** A provider that has reserved nothing yet. *)
Lemma provider_inv_start `{BitcoinLib} `{TextCodec} `{FL : FrostLib} `{!FrostCodec} {A : Type} {R : Type}
    `{!ProviderReplayStore R} `{!ProviderReplayLaws R} (g : GuardedSignerProvider (LocalEncryptedFrostBackend A) R) :
  signer g = id_signer_id (gp_identity g) -> reservations g = ∅ -> provider_inv (consumed g) g [].
Proof.
  intros Hs Hr. constructor; rewrite ?Hr; try done; [constructor|..]; intros e He; inversion He.
Qed.
