(* ===== verification/StorageModels.v ===== *)
(** * Records of the wallet database
      (src/crates/wallet-storage/src/models.rs and error.rs)

    The enumerations the tables store as text, the rows the methods take and
    return, and the errors of the storage with their messages.  A table column
    of an enumeration holds its name; [NamedEnumLaws] says that reading the name
    back gives the value, so rows hold the value itself.  Uuid text is the
    uuid crate's and the text of a driver error is rusqlite's. *)

From Stdlib Require Import ZArith Lia.
From S2P Require Import Prelude ChainDomain SigningDomain Personal Text.
From stdpp Require Import list gmap strings.
Local Open Scope string_scope.
Local Open Scope list_scope.
Local Open Scope Z_scope.

(** [Uuid::to_string] and [Uuid::parse_str] *)
Class UuidText := {
  uuid_to_string : Uuid -> string;
  uuid_parse_str : string -> option Uuid;
}.
Class UuidTextLaws `{UuidText} : Prop :=
  uuid_text_roundtrip u : Uuid_wf u -> uuid_parse_str (uuid_to_string u) = Some u.

(** ** Enumerations *)

Inductive RestoreState := RestoreNormal | RestoreSnapshotting | RestorePrecheck | RestoreCutover | RestoreRecovering.
#[export] Instance RestoreState_eq_dec : EqDecision RestoreState.
Proof. solve_decision. Defined.
Definition RestoreState_as_str (s : RestoreState) : string :=
  match s with
  | RestoreNormal => "normal"
  | RestoreSnapshotting => "snapshotting"
  | RestorePrecheck => "restore_precheck"
  | RestoreCutover => "cutover"
  | RestoreRecovering => "recovering"
  end.
#[export] Instance RestoreState_named : NamedEnum RestoreState :=
  {| enum_all := [RestoreNormal; RestoreSnapshotting; RestorePrecheck; RestoreCutover; RestoreRecovering];
     enum_name := RestoreState_as_str |}.

Inductive TransactionIntentStatus :=
| TxPending | TxApproved | TxSigning | TxSigned | TxCancelled | TxExpired | TxInvalidated.
#[export] Instance TransactionIntentStatus_eq_dec : EqDecision TransactionIntentStatus.
Proof. solve_decision. Defined.
Definition TransactionIntentStatus_as_str (s : TransactionIntentStatus) : string :=
  match s with
  | TxPending => "pending"
  | TxApproved => "approved"
  | TxSigning => "signing"
  | TxSigned => "signed"
  | TxCancelled => "cancelled"
  | TxExpired => "expired"
  | TxInvalidated => "invalidated"
  end.
#[export] Instance TransactionIntentStatus_named : NamedEnum TransactionIntentStatus :=
  {| enum_all := [TxPending; TxApproved; TxSigning; TxSigned; TxCancelled; TxExpired; TxInvalidated];
     enum_name := TransactionIntentStatus_as_str |}.
Definition may_transition_to (s next : TransactionIntentStatus) : bool :=
  match s, next with
  | TxPending, (TxCancelled | TxExpired | TxInvalidated) => true
  | TxApproved, (TxSigning | TxCancelled | TxExpired | TxInvalidated) => true
  | TxSigning, (TxSigned | TxInvalidated) => true
  | _, _ => false
  end.

(** [models::IntentNetwork] *)
Inductive StoredNetwork := StoredMainnet | StoredTestnet | StoredSignet | StoredRegtest.
#[export] Instance StoredNetwork_eq_dec : EqDecision StoredNetwork.
Proof. solve_decision. Defined.
Definition StoredNetwork_as_str (n : StoredNetwork) : string :=
  match n with
  | StoredMainnet => "mainnet"
  | StoredTestnet => "testnet"
  | StoredSignet => "signet"
  | StoredRegtest => "regtest"
  end.
#[export] Instance StoredNetwork_named : NamedEnum StoredNetwork :=
  {| enum_all := [StoredMainnet; StoredTestnet; StoredSignet; StoredRegtest]; enum_name := StoredNetwork_as_str |}.

Inductive IntentAction := ActionIssue | ActionMint | ActionTransfer | ActionSwap | ActionSpend.
#[export] Instance IntentAction_eq_dec : EqDecision IntentAction.
Proof. solve_decision. Defined.
Definition IntentAction_as_str (a : IntentAction) : string :=
  match a with
  | ActionIssue => "issue"
  | ActionMint => "mint"
  | ActionTransfer => "transfer"
  | ActionSwap => "swap"
  | ActionSpend => "spend"
  end.
#[export] Instance IntentAction_named : NamedEnum IntentAction :=
  {| enum_all := [ActionIssue; ActionMint; ActionTransfer; ActionSwap; ActionSpend]; enum_name := IntentAction_as_str |}.

Inductive IntentMaterialKind := KindUnsignedTransaction | KindPolicyInput | KindNodeSnapshot.
#[export] Instance IntentMaterialKind_eq_dec : EqDecision IntentMaterialKind.
Proof. solve_decision. Defined.
Definition IntentMaterialKind_as_str (k : IntentMaterialKind) : string :=
  match k with
  | KindUnsignedTransaction => "unsigned_transaction"
  | KindPolicyInput => "policy_input"
  | KindNodeSnapshot => "node_snapshot"
  end.
#[export] Instance IntentMaterialKind_named : NamedEnum IntentMaterialKind :=
  {| enum_all := [KindUnsignedTransaction; KindPolicyInput; KindNodeSnapshot]; enum_name := IntentMaterialKind_as_str |}.

Inductive CredentialState := CredActive | CredLegacyUnusable | CredDisabled.
#[export] Instance CredentialState_eq_dec : EqDecision CredentialState.
Proof. solve_decision. Defined.
Definition CredentialState_as_str (s : CredentialState) : string :=
  match s with
  | CredActive => "active"
  | CredLegacyUnusable => "legacy_unusable"
  | CredDisabled => "disabled"
  end.
#[export] Instance CredentialState_named : NamedEnum CredentialState :=
  {| enum_all := [CredActive; CredLegacyUnusable; CredDisabled]; enum_name := CredentialState_as_str |}.

Inductive SecretBackend := OsKeychain | Hsm | EncryptedFile.
#[export] Instance SecretBackend_eq_dec : EqDecision SecretBackend.
Proof. solve_decision. Defined.
Definition SecretBackend_as_str (b : SecretBackend) : string :=
  match b with
  | OsKeychain => "os_keychain"
  | Hsm => "hsm"
  | EncryptedFile => "encrypted_file"
  end.
#[export] Instance SecretBackend_named : NamedEnum SecretBackend :=
  {| enum_all := [OsKeychain; Hsm; EncryptedFile]; enum_name := SecretBackend_as_str |}.
Definition required_prefix (b : SecretBackend) : string :=
  match b with
  | OsKeychain => "keychain://"
  | Hsm => "hsm://"
  | EncryptedFile => "encrypted-file://"
  end.

Inductive SigningJobStatus := SjPrepared | SjSigning | SjFinalized | SjAborted | SjExpired | SjFailed.
#[export] Instance SigningJobStatus_eq_dec : EqDecision SigningJobStatus.
Proof. solve_decision. Defined.
Definition SigningJobStatus_name (s : SigningJobStatus) : string :=
  match s with
  | SjPrepared => "prepared"
  | SjSigning => "signing"
  | SjFinalized => "finalized"
  | SjAborted => "aborted"
  | SjExpired => "expired"
  | SjFailed => "failed"
  end.
#[export] Instance SigningJobStatus_named : NamedEnum SigningJobStatus :=
  {| enum_all := [SjPrepared; SjSigning; SjFinalized; SjAborted; SjExpired; SjFailed]; enum_name := SigningJobStatus_name |}.

(** Names are read back as the value that was written. *)
Ltac named_laws := split; [intros []; apply (bool_decide_unpack _); by vm_compute | by intros [] []].
#[export] Instance RestoreState_laws : NamedEnumLaws RestoreState.
Proof. named_laws. Qed.
#[export] Instance TransactionIntentStatus_laws : NamedEnumLaws TransactionIntentStatus.
Proof. named_laws. Qed.
#[export] Instance StoredNetwork_laws : NamedEnumLaws StoredNetwork.
Proof. named_laws. Qed.
#[export] Instance IntentAction_laws : NamedEnumLaws IntentAction.
Proof. named_laws. Qed.
#[export] Instance IntentMaterialKind_laws : NamedEnumLaws IntentMaterialKind.
Proof. named_laws. Qed.
#[export] Instance CredentialState_laws : NamedEnumLaws CredentialState.
Proof. named_laws. Qed.
#[export] Instance SecretBackend_laws : NamedEnumLaws SecretBackend.
Proof. named_laws. Qed.
#[export] Instance SigningJobStatus_laws : NamedEnumLaws SigningJobStatus.
Proof. named_laws. Qed.

#[export] Program Instance IntentMaterialKind_countable : Countable IntentMaterialKind :=
  inj_countable IntentMaterialKind_as_str enum_find _.
Next Obligation. intros k. by apply (enum_find_Some (A:=IntentMaterialKind)). Qed.

(** ** Audit *)

Inductive AuditActor := ActorSystem | ActorLocalUser | PasskeyFingerprint (f : bytes) | AgentSession (session_id : Uuid).
Record AuditContext := mkAuditContext {
  ax_component_version : string;
  ax_node_snapshot_id : option string;
  ax_actor : AuditActor;
}.
(** The crate version is fixed when the program is built. *)
Class BuildInfo := cargo_pkg_version : string.
Definition AuditContext_default `{BuildInfo} : AuditContext := mkAuditContext cargo_pkg_version None ActorSystem.

Definition redacted_ref `{UuidText} (a : AuditActor) : string :=
  match a with
  | ActorSystem => "system"
  | ActorLocalUser => "local_user"
  | PasskeyFingerprint f => "passkey_sha256:" +:+ encode_hex f
  | AgentSession session_id => "agent_session:" +:+ uuid_to_string session_id
  end.

Definition CURRENT_SCHEMA_VERSION : Z := 7.

(** The members of the payload object. *)
Record AuditPayload := mkAuditPayload {
  ay_component_version : string;
  ay_schema_version : Z;
  ay_wallet_id : Uuid;
  ay_intent_id : option Uuid;
  ay_policy_hash : option string;
  ay_node_snapshot_id : option string;
  ay_actor_ref : string;
}.
Record AuditEvent := mkAuditEvent {
  ae_sequence : Z;
  ae_wallet_id : Uuid;
  ae_epoch : Z;
  ae_event_type : string;
  ae_subject_id : option string;
  ae_payload : AuditPayload;
  ae_created_at : Z;
}.

(** ** Metadata and arguments *)

Record WalletMetadata := mkWalletMetadata {
  wm_wallet_id : Uuid;
  wm_epoch : Z;
  wm_restore_state : RestoreState;
  wm_created_at : Z;
  wm_updated_at : Z;
}.

Record NewTransactionIntent := mkNewTransactionIntent {
  n1_id : Uuid;
  n1_tx_digest : bytes;
  n1_policy_hash : bytes;
  n1_session_id : bytes;
  n1_expires_at : Z;
  n1_created_at : Z;
}.
Record NewTransactionIntentV2 := mkNewTransactionIntentV2 {
  n2_id : Uuid;
  n2_tx_digest : bytes;
  n2_policy_hash : bytes;
  n2_session_id : bytes;
  n2_network : StoredNetwork;
  n2_protocol_version : Z;
  n2_action : IntentAction;
  n2_signer_id : string;
  n2_approval_nonce : bytes;
  n2_intent_schema_version : Z;
  n2_expires_at : Z;
  n2_created_at : Z;
}.
(** [payload_json] is the text of the JSON value. *)
Record IntentMaterial := mkIntentMaterial {
  im_intent_id : Uuid;
  im_kind : IntentMaterialKind;
  im_payload_json : string;
  im_payload_hash : bytes;
  im_node_snapshot_id : string;
}.
Record CredentialMetadata := mkCredentialMetadata {
  cd_credential_id : string;
  cd_label : string;
  cd_cose_public_key : string;
  cd_sign_count : Z;
  cd_enrolled_at : Z;
  cd_updated_at : Z;
}.
Record WebauthnProfile := mkWebauthnProfile {
  wf_wallet_id : Uuid;
  wf_user_id : string;
  wf_rp_id : string;
  wf_rp_origin : string;
  wf_record_version : Z;
  wf_updated_at : Z;
}.
Record NewPasskeyRecord := mkNewPasskeyRecord {
  np_credential_id : string;
  np_label : string;
  np_passkey_json : string;
  np_format : string;
  np_credential_state : CredentialState;
  np_enrolled_at : Z;
}.
Record PasskeyRecord := mkPasskeyRecord {
  pd_credential_id : string;
  pd_wallet_id : Uuid;
  pd_label : string;
  pd_passkey_json : string;
  pd_format : string;
  pd_record_version : Z;
  pd_credential_state : CredentialState;
  pd_enrolled_at : Z;
  pd_updated_at : Z;
}.
Record NewNonceClaim := mkNewNonceClaim { nn_fingerprint : bytes; nn_session_id : bytes; nn_claimed_at : Z }.
Record NonceClaim := mkNonceClaim {
  nq_fingerprint : bytes;
  nq_session_id : bytes;
  nq_epoch : Z;
  nq_claimed_at : Z;
  nq_invalidated_at : option Z;
}.
Record NewApprovalCeremony := mkNewApprovalCeremony {
  nv_id : Uuid;
  nv_intent_id : Uuid;
  nv_expires_at : Z;
  nv_started_at : Z;
}.
Record NewPasskeyApprovalCeremony := mkNewPasskeyApprovalCeremony {
  ny_id : Uuid;
  ny_intent_id : Uuid;
  ny_credential_id : string;
  ny_binding_digest : bytes;
  ny_started_at : Z;
  ny_expires_at : Z;
}.
Record PasskeyApprovalCompletion := mkPasskeyApprovalCompletion {
  pc_ceremony_id : Uuid;
  pc_intent_id : Uuid;
  pc_credential_id : string;
  pc_expected_credential_record_version : Z;
  pc_updated_passkey_json : string;
  pc_binding_digest : bytes;
  pc_authorization_id : Uuid;
  pc_authorization_expires_at : Z;
  pc_rp_id : string;
  pc_rp_origin : string;
  pc_approved_at : Z;
}.
Record AuthorizationRecord := mkAuthorizationRecord {
  ac_id : Uuid;
  ac_intent : Uuid;
  ac_epoch : Z;
  ac_binding : bytes;
  ac_expires_at : Z;
  ac_issued_at : Z;
  ac_consumed_at : option Z;
  ac_invalidated_at : option Z;
}.
Record FrostNonceAuthorizationClaim := mkFrostNonceAuthorizationClaim {
  fc_authorization_id : Uuid;
  fc_intent_id : Uuid;
  fc_signer_id : string;
  fc_session_id : bytes;
  fc_fingerprint : bytes;
  fc_claimed_at : Z;
}.
Record ApprovalDecision := mkApprovalDecision {
  dn_ceremony_id : Uuid;
  dn_authorization_id : Uuid;
  dn_binding_digest : bytes;
  dn_authorization_expires_at : Z;
  dn_approved_at : Z;
}.
Record IntentCursor := mkIntentCursor { ic_created_at : Z; ic_id : Uuid }.

(** ** Signers and jobs *)

Record SecretRef := mkSecretRef {
  sr_id : Uuid;
  sr_backend : SecretBackend;
  sr_handle : string;
  sr_created_at : Z;
  sr_updated_at : Z;
}.
#[export] Instance SecretRef_eq_dec : EqDecision SecretRef.
Proof. solve_decision. Defined.

(** [NewSignerProfile] and [SignerProfileRecord] have the same fields. *)
Record SignerProfileRecord := mkSignerProfileRecord {
  sg_profile_id : Uuid;
  sg_wallet_id : Uuid;
  sg_chain_scope : ChainScope;
  sg_signing_suite_id : SigningSuiteId;
  sg_backend_requirement : SignerBackendRequirement;
  sg_signer_set_id : string;
  sg_authorization_signer_id : string;
  sg_signer_epoch : Z;
  sg_threshold : Z;
  sg_max_signers : Z;
  sg_verification_key : bytes;
  sg_secret_ref_id : Uuid;
  sg_created_at : Z;
}.
Abbreviation NewSignerProfile := SignerProfileRecord.
#[export] Instance SignerProfileRecord_eq_dec : EqDecision SignerProfileRecord.
Proof. solve_decision. Defined.

(** [NewAddressBinding] and [StoredAddressBinding] have the same fields. *)
Record StoredAddressBinding := mkStoredAddressBinding {
  bd_binding_id : Uuid;
  bd_profile_id : Uuid;
  bd_chain_scope : ChainScope;
  bd_address : string;
  bd_verification_key_digest : bytes;
  bd_created_at : Z;
}.
Abbreviation NewAddressBinding := StoredAddressBinding.
#[export] Instance StoredAddressBinding_eq_dec : EqDecision StoredAddressBinding.
Proof. solve_decision. Defined.

Record NewSignerCatalogEntry := mkNewSignerCatalogEntry {
  ct_secret_ref : SecretRef;
  ct_profile : NewSignerProfile;
  ct_address_bindings : list NewAddressBinding;
}.
Inductive SignerCatalogInstallOutcome := CatalogInstalled | CatalogAlreadyPresent.
Record SignerProfileInventoryRecord := mkSignerProfileInventoryRecord {
  iv_profile : SignerProfileRecord;
  iv_secret_ref : string;
  iv_address_bindings : list StoredAddressBinding;
}.

Record ChainExecutorClaim := mkChainExecutorClaim {
  xc_wallet_id : Uuid;
  xc_profile_id : Uuid;
  xc_signing_suite_id : SigningSuiteId;
  xc_backend_requirement : SignerBackendRequirement;
  xc_session_id : bytes;
  xc_review_domain_digest : bytes;
  xc_signing_message_digest : bytes;
  xc_operation_binding_digest : bytes;
  xc_claimed_at : Z;
}.

Record NewSigningJob := mkNewSigningJob {
  jn_job_id : Uuid;
  jn_wallet_id : Uuid;
  jn_profile_id : Uuid;
  jn_intent_id : Uuid;
  jn_chain_scope : ChainScope;
  jn_signing_suite_id : SigningSuiteId;
  jn_backend_requirement : SignerBackendRequirement;
  jn_review_schema_version : Z;
  jn_review_artifact : ReviewArtifact;
  jn_review_digest : bytes;
  jn_signing_message_digest : bytes;
  jn_policy_snapshot_digest : bytes;
  jn_chain_snapshot_digest : bytes;
  jn_session_id : bytes;
  jn_selected_parties : string * string;
  jn_receiver : string;
  jn_expires_at : Z;
  jn_created_at : Z;
}.
(** The bound columns, which never change, and the rest of the row. *)
Record StoredSigningJob := mkStoredSigningJob {
  jb_bound : NewSigningJob;
  jb_operation_binding_digest : option bytes;
  jb_status : SigningJobStatus;
  jb_final_signature : option bytes;
  jb_terminal_reason : option string;
  jb_updated_at : Z;
}.

(** ** Errors *)

Inductive StorageError :=
| ST_Sqlite | ST_NotInitialized | ST_AlreadyInitialized | ST_ImmutableConflict (row : string)
| ST_PolicyNotValidated | ST_InvalidPolicyActivation | ST_InvalidStoredValue (reason : string)
| ST_InvalidSecretHandle (backend : string) | ST_AuthorizationUnavailable | ST_ApprovalCeremonyUnavailable
| ST_ApprovalCeremonyExpired | ST_IntentExpired | ST_ApprovalCeremonyExceedsIntentExpiry
| ST_AuthorizationExpiresBeforeApproval | ST_AuthorizationExceedsIntentExpiry | ST_IntentNotApprovable
| ST_AuthorizationAlreadyExists | ST_CredentialCounterRollback | ST_WebauthnProfileMismatch
| ST_CredentialVersionConflict | ST_CredentialUnavailable | ST_ApprovalBindingMismatch
| ST_IntentMaterialMismatch | ST_InvalidV2Intent (reason : string) | ST_LegacyApiRejectedForV2
| ST_MutationBlocked (state : RestoreState) | ST_NonceAlreadyClaimed | ST_SignerOperationBindingDrift
| ST_PersonalSigningOperationBindingDrift | ST_InvalidPersonalSigningOperation
| ST_PersonalSigningOperationConflict | ST_PersonalSigningReceiptConflict | ST_InvalidSignerProfile
| ST_InvalidSigningJob | ST_SigningJobConflict | ST_SigningJobBindingDrift
| ST_StaleEpoch (current provided : Z) | ST_InvalidRestoreTransition (from to : RestoreState)
| ST_InvalidIntentTransition (from to : TransactionIntentStatus) | ST_IntentTransitionConflict.

(** The driver's own text. *)
Class SqliteText := sqlite_error_text : string.

(** [Display for StorageError] *)
Definition StorageError_display `{SqliteText} (e : StorageError) : string :=
  match e with
  | ST_Sqlite => "SQLite storage error: " +:+ sqlite_error_text
  | ST_NotInitialized => "wallet database has not been initialized"
  | ST_AlreadyInitialized => "wallet database is already initialized"
  | ST_ImmutableConflict row => "immutable " +:+ row +:+ " row exists with different bytes"
  | ST_PolicyNotValidated => "policy bundle has not completed exact compiler and vector validation"
  | ST_InvalidPolicyActivation => "policy activation proposal is malformed or does not match this wallet epoch"
  | ST_InvalidStoredValue reason => "stored value is invalid: " +:+ reason
  | ST_InvalidSecretHandle backend => "invalid opaque secret handle for " +:+ backend
  | ST_AuthorizationUnavailable =>
      "one-time authorization is missing, expired, invalidated, or already consumed"
  | ST_ApprovalCeremonyUnavailable => "approval ceremony is missing, invalidated, or already completed"
  | ST_ApprovalCeremonyExpired => "approval ceremony has expired"
  | ST_IntentExpired => "transaction intent has expired"
  | ST_ApprovalCeremonyExceedsIntentExpiry => "approval ceremony expiry exceeds transaction intent expiry"
  | ST_AuthorizationExpiresBeforeApproval => "authorization expiry precedes approval time"
  | ST_AuthorizationExceedsIntentExpiry => "authorization expiry exceeds transaction intent expiry"
  | ST_IntentNotApprovable => "transaction intent cannot be approved in its current state"
  | ST_AuthorizationAlreadyExists => "transaction intent already has a one-time authorization"
  | ST_CredentialCounterRollback => "credential signature counter cannot decrease"
  | ST_WebauthnProfileMismatch => "stored WebAuthn profile does not match the requested relying party"
  | ST_CredentialVersionConflict => "passkey credential record version changed before the update"
  | ST_CredentialUnavailable => "passkey credential is missing or cannot authenticate"
  | ST_ApprovalBindingMismatch => "approval ceremony binding does not match the approved intent or credential"
  | ST_IntentMaterialMismatch => "intent material does not belong to the transaction intent"
  | ST_InvalidV2Intent reason => "v2 transaction intent is invalid: " +:+ reason
  | ST_LegacyApiRejectedForV2 => "legacy wallet storage API cannot mutate v2 security state"
  | ST_MutationBlocked state => "wallet mutations are blocked while restore state is " +:+ RestoreState_as_str state
  | ST_NonceAlreadyClaimed => "nonce fingerprint has already been claimed"
  | ST_SignerOperationBindingDrift => "signer operation binding changed after the first accepted request"
  | ST_PersonalSigningOperationBindingDrift => "personal signing operation binding changed"
  | ST_InvalidPersonalSigningOperation => "personal signing operation is invalid"
  | ST_PersonalSigningOperationConflict => "personal signing operation phase changed before the update"
  | ST_PersonalSigningReceiptConflict => "personal signing receipt conflicts with the recorded public result"
  | ST_InvalidSignerProfile => "signer profile or address binding is invalid"
  | ST_InvalidSigningJob => "chain signing job is invalid"
  | ST_SigningJobConflict => "chain signing job phase changed before the update"
  | ST_SigningJobBindingDrift => "chain signing job authorization or operation binding changed"
  | ST_StaleEpoch current provided =>
      "stale wallet epoch: current epoch is " +:+ display_dec current +:+ ", provided epoch is " +:+ display_dec provided
  | ST_InvalidRestoreTransition from to =>
      "invalid restore transition from " +:+ RestoreState_as_str from +:+ " to " +:+ RestoreState_as_str to
  | ST_InvalidIntentTransition from to =>
      "invalid transaction intent transition from " +:+ TransactionIntentStatus_as_str from +:+ " to "
      +:+ TransactionIntentStatus_as_str to
  | ST_IntentTransitionConflict => "transaction intent status or wallet epoch changed before the update"
  end.

(** ** Rules shared by every method *)

Definition ensure_mutations_allowed (m : WalletMetadata) : result StorageError unit :=
  match wm_restore_state m with
  | RestoreNormal | RestoreSnapshotting => Ok tt
  | state => Err (ST_MutationBlocked state)
  end.
Definition require_restore_state (actual expected to : RestoreState) : result StorageError unit :=
  reject_if (negb (bool_decide (actual = expected))) (ST_InvalidRestoreTransition actual to).

(** [ToSql for u64]: an INTEGER column holds an i64. *)
Definition to_sql_u64 (z : Z) : result StorageError unit := reject_if (2 ^ 63 <=? z) ST_Sqlite.
