(* ===== verification/WalletDb.v ===== *)
(** * The wallet database
      (src/crates/wallet-storage/src/sqlite.rs)

    The tables as finite maps from their primary keys.  A method is one SQLite
    transaction: it commits all its writes or changes nothing.  What the schema
    refuses is an error of the method that tries it: a duplicate key, a second
    row of a unique index, a value an INTEGER column does not hold, a trigger
    that aborts.  Checks of the schema that hold of every row the methods
    build are not repeated, and no method attempts the updates and deletions
    that other triggers forbid.  Text columns of JSON hold the value; texts in
    the hyphenated form of a Uuid sort as its bytes do. *)

From Stdlib Require Import ZArith Lia.
From S2P Require Import Prelude Bitcoin Text Effects ChainDomain SigningDomain Personal StorageModels.
From stdpp Require Import list gmap strings sorting.
Local Open Scope string_scope.
Local Open Scope list_scope.
Local Open Scope Z_scope.

(** ** Tables *)

(** The columns of a version 2 intent; a version 1 row has none of them. *)
Record IntentV2Columns := mkIntentV2Columns {
  v2_network : StoredNetwork;
  v2_protocol_version : Z;
  v2_action : IntentAction;
  v2_signer_id : string;
  v2_approval_nonce : bytes;
}.
Record TransactionIntentRow := mkTransactionIntentRow {
  ir_wallet_id : Uuid;
  ir_epoch : Z;
  ir_tx_digest : bytes;
  ir_policy_hash : bytes;
  ir_session_id : bytes;
  ir_status : TransactionIntentStatus;
  ir_expires_at : Z;
  ir_created_at : Z;
  ir_updated_at : Z;
  ir_v2 : option IntentV2Columns;
}.
Record MaterialRow := mkMaterialRow {
  mr_payload_json : string;
  mr_payload_hash : bytes;
  mr_node_snapshot_id : string;
}.
Record CredentialRow := mkCredentialRow {
  cm_wallet_id : Uuid;
  cm_label : string;
  cm_cose_public_key : string;
  cm_sign_count : Z;
  cm_enrolled_at : Z;
  cm_updated_at : Z;
  cm_passkey : option (string * string * Z);   (** JSON, format, record version *)
  cm_state : option CredentialState;
}.
Record CeremonyRow := mkCeremonyRow {
  cy_wallet_id : Uuid;
  cy_intent_id : Uuid;
  cy_epoch : Z;
  cy_started_at : Z;
  cy_expires_at : Z;
  cy_completed_at : option Z;
  cy_invalidated_at : option Z;
  cy_binding : option (bytes * string);        (** binding digest, credential id *)
}.
Record AuthorizationRow := mkAuthorizationRow {
  az_wallet_id : Uuid;
  az_record : AuthorizationRecord;
}.
Record NonceRow := mkNonceRow {
  nr_wallet_id : Uuid;
  nr_epoch : Z;
  nr_session_id : bytes;
  nr_claimed_at : Z;
  nr_invalidated_at : option Z;
  nr_binding : option (Uuid * Uuid * string);  (** authorization, intent, signer *)
}.

(** The tables of the policy registry. *)
Record PolicyDocumentRow := mkPolicyDocumentRow {
  dr_wallet_id : Uuid;
  dr_wallet_epoch : Z;
  dr_schema_version : Z;
  dr_canonical_document : bytes;
  dr_canonical_bundle : bytes;
  dr_artifact_set_digest : string;
  dr_vector_set_digest : string;
  dr_validation_run_digest : string;
  dr_compiler_version : string;
  dr_created_at : Z;
}.
Record PolicyRunRow := mkPolicyRunRow {
  rr_policy_hash : string;
  rr_compiler_version : string;
  rr_artifact_set_digest : string;
  rr_vector_set_digest : string;
  rr_results_jcs : bytes;
  rr_all_passed : bool;
  rr_created_at : Z;
}.
Record PolicyArtifactRow := mkPolicyArtifactRow {
  qa_kind : string;
  qa_lane : option Z;
  qa_media_type : string;
  qa_content : bytes;
  qa_content_digest : string;
}.
Record PolicyVectorRow := mkPolicyVectorRow { qt_input_jcs : bytes; qt_input_digest : string; qt_expected_accept : bool }.
Record PolicyBindingRow := mkPolicyBindingRow {
  br_policy_hash : string;
  br_wallet_id : Uuid;
  br_wallet_epoch : Z;
  br_signer_set_id : Uuid;
  br_signer_epoch : Z;
  br_chain_profile : string;
  br_artifact_set_digest : string;
  br_validation_run_digest : string;
  br_binding_state : string;
  br_created_at : Z;
}.
Record PolicyActivationRow := mkPolicyActivationRow {
  qv_binding_id : Uuid;
  qv_wallet_id : Uuid;
  qv_wallet_epoch : Z;
  qv_approval_digest : string;
  qv_activation_state : string;
  qv_expires_at : Z;
  qv_created_at : Z;
}.
Record PolicyTables := mkPolicyTables {
  pt_documents : gmap string PolicyDocumentRow;
  pt_artifacts : gmap (string * string) PolicyArtifactRow;
  pt_vectors : gmap (string * string) PolicyVectorRow;
  pt_runs : gmap string PolicyRunRow;
  pt_bindings : gmap Uuid PolicyBindingRow;
  pt_activations : gmap Uuid PolicyActivationRow;
}.

Record WalletDb := mkWalletDb {
  db_metadata : option WalletMetadata;
  db_intents : gmap Uuid TransactionIntentRow;
  db_materials : gmap (Uuid * IntentMaterialKind) MaterialRow;
  db_credentials : gmap string CredentialRow;
  db_webauthn : option WebauthnProfile;
  db_ceremonies : gmap Uuid CeremonyRow;
  db_authorizations : gmap Uuid AuthorizationRow;
  db_nonces : gmap bytes NonceRow;
  db_secrets : gmap Uuid SecretRef;
  db_signers : gmap Uuid SignerProfileRecord;
  db_bindings : gmap Uuid StoredAddressBinding;
  db_jobs : gmap Uuid StoredSigningJob;
  db_claims : gmap Uuid ChainExecutorClaim;
  db_policy : PolicyTables;
  db_audit : list AuditEvent;
}.

(** ** Table updates *)

Definition put_metadata (x : option WalletMetadata) (s : WalletDb) : WalletDb :=
  mkWalletDb x (db_intents s) (db_materials s) (db_credentials s) (db_webauthn s) (db_ceremonies s) (db_authorizations s)
    (db_nonces s) (db_secrets s) (db_signers s) (db_bindings s) (db_jobs s) (db_claims s) (db_policy s) (db_audit s).
Definition put_intents (x : gmap Uuid TransactionIntentRow) (s : WalletDb) : WalletDb :=
  mkWalletDb (db_metadata s) x (db_materials s) (db_credentials s) (db_webauthn s) (db_ceremonies s) (db_authorizations s)
    (db_nonces s) (db_secrets s) (db_signers s) (db_bindings s) (db_jobs s) (db_claims s) (db_policy s) (db_audit s).
Definition put_materials (x : gmap (Uuid * IntentMaterialKind) MaterialRow) (s : WalletDb) : WalletDb :=
  mkWalletDb (db_metadata s) (db_intents s) x (db_credentials s) (db_webauthn s) (db_ceremonies s) (db_authorizations s)
    (db_nonces s) (db_secrets s) (db_signers s) (db_bindings s) (db_jobs s) (db_claims s) (db_policy s) (db_audit s).
Definition put_credentials (x : gmap string CredentialRow) (s : WalletDb) : WalletDb :=
  mkWalletDb (db_metadata s) (db_intents s) (db_materials s) x (db_webauthn s) (db_ceremonies s) (db_authorizations s)
    (db_nonces s) (db_secrets s) (db_signers s) (db_bindings s) (db_jobs s) (db_claims s) (db_policy s) (db_audit s).
Definition put_webauthn (x : option WebauthnProfile) (s : WalletDb) : WalletDb :=
  mkWalletDb (db_metadata s) (db_intents s) (db_materials s) (db_credentials s) x (db_ceremonies s) (db_authorizations s)
    (db_nonces s) (db_secrets s) (db_signers s) (db_bindings s) (db_jobs s) (db_claims s) (db_policy s) (db_audit s).
Definition put_ceremonies (x : gmap Uuid CeremonyRow) (s : WalletDb) : WalletDb :=
  mkWalletDb (db_metadata s) (db_intents s) (db_materials s) (db_credentials s) (db_webauthn s) x (db_authorizations s)
    (db_nonces s) (db_secrets s) (db_signers s) (db_bindings s) (db_jobs s) (db_claims s) (db_policy s) (db_audit s).
Definition put_authorizations (x : gmap Uuid AuthorizationRow) (s : WalletDb) : WalletDb :=
  mkWalletDb (db_metadata s) (db_intents s) (db_materials s) (db_credentials s) (db_webauthn s) (db_ceremonies s) x
    (db_nonces s) (db_secrets s) (db_signers s) (db_bindings s) (db_jobs s) (db_claims s) (db_policy s) (db_audit s).
Definition put_nonces (x : gmap bytes NonceRow) (s : WalletDb) : WalletDb :=
  mkWalletDb (db_metadata s) (db_intents s) (db_materials s) (db_credentials s) (db_webauthn s) (db_ceremonies s) (db_authorizations s)
    x (db_secrets s) (db_signers s) (db_bindings s) (db_jobs s) (db_claims s) (db_policy s) (db_audit s).
Definition put_secrets (x : gmap Uuid SecretRef) (s : WalletDb) : WalletDb :=
  mkWalletDb (db_metadata s) (db_intents s) (db_materials s) (db_credentials s) (db_webauthn s) (db_ceremonies s) (db_authorizations s)
    (db_nonces s) x (db_signers s) (db_bindings s) (db_jobs s) (db_claims s) (db_policy s) (db_audit s).
Definition put_signers (x : gmap Uuid SignerProfileRecord) (s : WalletDb) : WalletDb :=
  mkWalletDb (db_metadata s) (db_intents s) (db_materials s) (db_credentials s) (db_webauthn s) (db_ceremonies s) (db_authorizations s)
    (db_nonces s) (db_secrets s) x (db_bindings s) (db_jobs s) (db_claims s) (db_policy s) (db_audit s).
Definition put_bindings (x : gmap Uuid StoredAddressBinding) (s : WalletDb) : WalletDb :=
  mkWalletDb (db_metadata s) (db_intents s) (db_materials s) (db_credentials s) (db_webauthn s) (db_ceremonies s) (db_authorizations s)
    (db_nonces s) (db_secrets s) (db_signers s) x (db_jobs s) (db_claims s) (db_policy s) (db_audit s).
Definition put_jobs (x : gmap Uuid StoredSigningJob) (s : WalletDb) : WalletDb :=
  mkWalletDb (db_metadata s) (db_intents s) (db_materials s) (db_credentials s) (db_webauthn s) (db_ceremonies s) (db_authorizations s)
    (db_nonces s) (db_secrets s) (db_signers s) (db_bindings s) x (db_claims s) (db_policy s) (db_audit s).
Definition put_claims (x : gmap Uuid ChainExecutorClaim) (s : WalletDb) : WalletDb :=
  mkWalletDb (db_metadata s) (db_intents s) (db_materials s) (db_credentials s) (db_webauthn s) (db_ceremonies s) (db_authorizations s)
    (db_nonces s) (db_secrets s) (db_signers s) (db_bindings s) (db_jobs s) x (db_policy s) (db_audit s).
Definition put_policy (x : PolicyTables) (s : WalletDb) : WalletDb :=
  mkWalletDb (db_metadata s) (db_intents s) (db_materials s) (db_credentials s) (db_webauthn s) (db_ceremonies s) (db_authorizations s)
    (db_nonces s) (db_secrets s) (db_signers s) (db_bindings s) (db_jobs s) (db_claims s) x (db_audit s).
Definition put_audit (x : list AuditEvent) (s : WalletDb) : WalletDb :=
  mkWalletDb (db_metadata s) (db_intents s) (db_materials s) (db_credentials s) (db_webauthn s) (db_ceremonies s) (db_authorizations s)
    (db_nonces s) (db_secrets s) (db_signers s) (db_bindings s) (db_jobs s) (db_claims s) (db_policy s) x.

Definition WalletDb_empty : WalletDb :=
  mkWalletDb None ∅ ∅ ∅ None ∅ ∅ ∅ ∅ ∅ ∅ ∅ ∅ (mkPolicyTables ∅ ∅ ∅ ∅ ∅ ∅) [].

(** [UPDATE ... WHERE key = k AND p]: the table, when a row changed. *)
Definition update_where {K V} `{Countable K} (k : K) (p : V -> bool) (f : V -> V) (t : gmap K V) : option (gmap K V) :=
  row ← t !! k;
  if p row then Some (<[k := f row]> t) else None.
(** [UPDATE ... WHERE p] over all rows. *)
Definition update_all {K V} `{Countable K} (p : V -> bool) (f : V -> V) (t : gmap K V) : gmap K V :=
  (fun row => if p row then f row else row) <$> t.
(** Does some row satisfy [p]? *)
Definition some_row {K V} `{Countable K} (p : V -> bool) (t : gmap K V) : bool := existsb (fun kv => p kv.2) (map_to_list t).

(** [ORDER BY time ASC, key ASC] *)
Definition row_le {V} (time : V -> Z) (p q : bytes * V) : Prop :=
  time p.2 < time q.2 \/ (time p.2 = time q.2 /\ bytes_le p.1 q.1).
#[export] Instance row_le_dec {V} (time : V -> Z) : RelDecision (row_le time).
Proof. intros p q. unfold row_le. apply _. Defined.
Definition order_by {V} (time : V -> Z) (t : gmap bytes V) : list (bytes * V) := merge_sort (row_le time) (map_to_list t).

Definition with_intent_status (status : TransactionIntentStatus) (now : Z) (r : TransactionIntentRow) : TransactionIntentRow :=
  mkTransactionIntentRow (ir_wallet_id r) (ir_epoch r) (ir_tx_digest r) (ir_policy_hash r) (ir_session_id r) status
    (ir_expires_at r) (ir_created_at r) now (ir_v2 r).
Definition ceremony_completed (now : Z) (c : CeremonyRow) : CeremonyRow :=
  mkCeremonyRow (cy_wallet_id c) (cy_intent_id c) (cy_epoch c) (cy_started_at c) (cy_expires_at c) (Some now)
    (cy_invalidated_at c) (cy_binding c).
Definition ceremony_invalidated (now : Z) (c : CeremonyRow) : CeremonyRow :=
  mkCeremonyRow (cy_wallet_id c) (cy_intent_id c) (cy_epoch c) (cy_started_at c) (cy_expires_at c) (cy_completed_at c)
    (Some now) (cy_binding c).
Definition authorization_consumed (now : Z) (a : AuthorizationRow) : AuthorizationRow :=
  let r := az_record a in
  mkAuthorizationRow (az_wallet_id a) (mkAuthorizationRecord (ac_id r) (ac_intent r) (ac_epoch r) (ac_binding r)
    (ac_expires_at r) (ac_issued_at r) (Some now) (ac_invalidated_at r)).
Definition authorization_invalidated (now : Z) (a : AuthorizationRow) : AuthorizationRow :=
  let r := az_record a in
  mkAuthorizationRow (az_wallet_id a) (mkAuthorizationRecord (ac_id r) (ac_intent r) (ac_epoch r) (ac_binding r)
    (ac_expires_at r) (ac_issued_at r) (ac_consumed_at r) (Some now)).
Definition nonce_invalidated (now : Z) (n : NonceRow) : NonceRow :=
  mkNonceRow (nr_wallet_id n) (nr_epoch n) (nr_session_id n) (nr_claimed_at n) (Some now) (nr_binding n).
Definition with_restore_state (state : RestoreState) (now : Z) (m : WalletMetadata) : WalletMetadata :=
  mkWalletMetadata (wm_wallet_id m) (wm_epoch m) state (wm_created_at m) now.

(** Neither completed nor invalidated, neither consumed nor invalidated. *)
Definition is_null {A} (o : option A) : bool := match o with None => true | Some _ => false end.
Definition ceremony_open (c : CeremonyRow) : bool := is_null (cy_completed_at c) && is_null (cy_invalidated_at c).
Definition authorization_open (a : AuthorizationRow) : bool :=
  is_null (ac_consumed_at (az_record a)) && is_null (ac_invalidated_at (az_record a)).
Definition is_v2 (r : TransactionIntentRow) : bool := bool_decide (is_Some (ir_v2 r)).

(** JSON texts: serde_json's parser and SQLite's [json_valid]. *)
Class JsonText := {
  serde_json_valid : string -> bool;
  sqlite_json_valid : string -> bool;
}.

(** ** Transactions *)

(** Dropped without commit, a transaction rolls back. *)
Definition immediate {A} (body : WalletMetadata -> WalletDb -> result StorageError (WalletDb * A))
    : act WalletDb StorageError A := fun s =>
  match (metadata ← ok_or (db_metadata s) ST_NotInitialized; body metadata s) with
  | Ok (s', a) => (s', Ok a)
  | Err e => (s, Err e)
  end.
Definition mutation {A} (body : WalletMetadata -> WalletDb -> result StorageError (WalletDb * A))
    : act WalletDb StorageError A :=
  immediate (fun metadata s => _ ← ensure_mutations_allowed metadata; body metadata s).

Section database.
Context `{UuidText} `{BuildInfo} `{BitcoinLib} `{JsonText}.

Definition append_audit_with_context (metadata : WalletMetadata) (event_type : string) (subject_id : option string)
    (now : Z) (intent_id : option Uuid) (policy_hash : option bytes) (context : AuditContext) (s : WalletDb) : WalletDb :=
  let payload := mkAuditPayload (ax_component_version context) CURRENT_SCHEMA_VERSION (wm_wallet_id metadata) intent_id
    (encode_hex <$> policy_hash) (ax_node_snapshot_id context) (redacted_ref (ax_actor context)) in
  put_audit (db_audit s ++ [mkAuditEvent (Z.of_nat (length (db_audit s)) + 1) (wm_wallet_id metadata)
    (wm_epoch metadata) event_type subject_id payload now]) s.
Definition append_audit (metadata : WalletMetadata) (event_type : string) (subject_id : option string) (now : Z)
    (s : WalletDb) : WalletDb :=
  append_audit_with_context metadata event_type subject_id now None None AuditContext_default s.

(** ** Opening the database *)

Definition initialize (wallet_id : Uuid) (now : Z) : act WalletDb StorageError unit := fun s =>
  match db_metadata s with
  | Some _ => (s, Err ST_AlreadyInitialized)
  | None =>
      let metadata := mkWalletMetadata wallet_id 1 RestoreNormal now now in
      (append_audit metadata "wallet.initialized" (Some (uuid_to_string wallet_id)) now
         (put_metadata (Some metadata) s), Ok tt)
  end.

Definition wallet_metadata (s : WalletDb) : result StorageError WalletMetadata :=
  ok_or (db_metadata s) ST_NotInitialized.

Definition invalidate_unfinished_ceremonies_on_startup (now : Z) : act WalletDb StorageError Z :=
  immediate (fun metadata s =>
    let unfinished c := bool_decide (cy_wallet_id c = wm_wallet_id metadata) && (cy_epoch c =? wm_epoch metadata)
                        && ceremony_open c in
    let changed := Z.of_nat (length (List.filter (fun kv => unfinished kv.2) (map_to_list (db_ceremonies s)))) in
    let s1 := put_ceremonies (update_all unfinished (ceremony_invalidated now) (db_ceremonies s)) s in
    Ok (if 0 <? changed then append_audit metadata "approval.startup_invalidated" None now s1 else s1, changed)).

(** ** Intents *)

Definition create_transaction_intent_with_audit (intent : NewTransactionIntent) (context : AuditContext)
    : act WalletDb StorageError unit :=
  mutation (fun metadata s =>
    _ ← reject_if (bool_decide (is_Some (db_intents s !! n1_id intent))) ST_Sqlite;
    let row := mkTransactionIntentRow (wm_wallet_id metadata) (wm_epoch metadata) (n1_tx_digest intent)
      (n1_policy_hash intent) (n1_session_id intent) TxPending (n1_expires_at intent) (n1_created_at intent)
      (n1_created_at intent) None in
    let s1 := put_intents (<[n1_id intent := row]> (db_intents s)) s in
    Ok (append_audit_with_context metadata "transaction_intent.created" (Some (uuid_to_string (n1_id intent)))
          (n1_created_at intent) (Some (n1_id intent)) (Some (n1_policy_hash intent)) context s1, tt)).
Definition create_transaction_intent (intent : NewTransactionIntent) : act WalletDb StorageError unit :=
  create_transaction_intent_with_audit intent AuditContext_default.

Definition validate_new_v2_intent (intent : NewTransactionIntentV2) (material : IntentMaterial)
    : result StorageError unit :=
  _ ← reject_if (negb (n2_intent_schema_version intent =? 2)) (ST_InvalidV2Intent "intent_schema_version must be 2");
  _ ← reject_if ((n2_protocol_version intent =? 0) || bool_decide (n2_signer_id intent = ""))
        (ST_InvalidV2Intent "protocol_version and signer_id are required");
  _ ← reject_if (n2_expires_at intent <=? n2_created_at intent)
        (ST_InvalidV2Intent "intent expiry must follow creation");
  reject_if (negb (bool_decide (im_intent_id material = n2_id intent)) || bool_decide (im_node_snapshot_id material = ""))
    ST_IntentMaterialMismatch.

Definition v2_row (metadata : WalletMetadata) (intent : NewTransactionIntentV2) : TransactionIntentRow :=
  mkTransactionIntentRow (wm_wallet_id metadata) (wm_epoch metadata) (n2_tx_digest intent) (n2_policy_hash intent)
    (n2_session_id intent) TxPending (n2_expires_at intent) (n2_created_at intent) (n2_created_at intent)
    (Some (mkIntentV2Columns (n2_network intent) (n2_protocol_version intent) (n2_action intent) (n2_signer_id intent)
       (n2_approval_nonce intent))).

(** The unique index on wallet and approval nonce. *)
Definition approval_nonce_taken (s : WalletDb) (wallet_id : Uuid) (nonce : bytes) : bool :=
  some_row (fun r => bool_decide (ir_wallet_id r = wallet_id)
                     && match ir_v2 r with Some v2 => bool_decide (v2_approval_nonce v2 = nonce) | None => false end)
    (db_intents s).

Definition create_transaction_intent_v2 (intent : NewTransactionIntentV2) (material : IntentMaterial)
    : act WalletDb StorageError unit :=
  _ ← lift (validate_new_v2_intent intent material);
  mutation (fun metadata s =>
    _ ← reject_if (bool_decide (is_Some (db_intents s !! n2_id intent))
                   || approval_nonce_taken s (wm_wallet_id metadata) (n2_approval_nonce intent)) ST_Sqlite;
    let key := (im_intent_id material, im_kind material) in
    _ ← reject_if (bool_decide (is_Some (db_materials s !! key))
                   || negb (sqlite_json_valid (im_payload_json material))) ST_Sqlite;
    let s1 := put_intents (<[n2_id intent := v2_row metadata intent]> (db_intents s)) s in
    let s2 := put_materials (<[key := mkMaterialRow (im_payload_json material) (im_payload_hash material)
                                (im_node_snapshot_id material)]> (db_materials s1)) s1 in
    let context := mkAuditContext cargo_pkg_version (Some (im_node_snapshot_id material)) ActorSystem in
    Ok (append_audit_with_context metadata "transaction_intent.v2_created" (Some (uuid_to_string (n2_id intent)))
          (n2_created_at intent) (Some (n2_id intent)) (Some (n2_policy_hash intent)) context s2, tt)).

Definition transaction_intent (s : WalletDb) (id : Uuid) : option TransactionIntentRow := db_intents s !! id.
Definition list_transaction_intents (s : WalletDb) : list (Uuid * TransactionIntentRow) :=
  order_by ir_created_at (db_intents s).
Definition transaction_intent_v2 (s : WalletDb) (id : Uuid) : option TransactionIntentRow :=
  r ← db_intents s !! id; if is_v2 r then Some r else None.

(** The version 2 intents of the current wallet and epoch. *)
Definition current_v2 (metadata : WalletMetadata) (r : TransactionIntentRow) : bool :=
  bool_decide (ir_wallet_id r = wm_wallet_id metadata) && (ir_epoch r =? wm_epoch metadata) && is_v2 r.
Definition list_transaction_intents_v2 (s : WalletDb) : result StorageError (list (Uuid * TransactionIntentRow)) :=
  metadata ← wallet_metadata s;
  Ok (List.filter (fun kv => current_v2 metadata kv.2) (order_by ir_created_at (db_intents s))).
(** [ORDER BY created_at DESC, id DESC LIMIT 1] *)
Definition latest_transaction_intent_v2 (s : WalletDb) : result StorageError (option (Uuid * TransactionIntentRow)) :=
  rows ← list_transaction_intents_v2 s;
  Ok (last rows).

Definition after_cursor (cursor : option IntentCursor) (kv : Uuid * TransactionIntentRow) : bool :=
  match cursor with
  | None => - 2 ^ 63 <=? ir_created_at kv.2
  | Some c => (ic_created_at c <? ir_created_at kv.2)
              || ((ir_created_at kv.2 =? ic_created_at c) && negb (bytes_leb kv.1 (ic_id c)))
  end.
Definition transaction_intents_v2_page (s : WalletDb) (status : TransactionIntentStatus) (cursor : option IntentCursor)
    (limit : Z) : result StorageError (list (Uuid * TransactionIntentRow)) :=
  _ ← reject_if ((limit =? 0) || (500 <? limit)) (ST_InvalidV2Intent "page limit must be between 1 and 500");
  rows ← list_transaction_intents_v2 s;
  Ok (take (Z.to_nat limit)
        (List.filter (fun kv => bool_decide (ir_status kv.2 = status) && after_cursor cursor kv) rows)).

Definition material_of (intent_id : Uuid) (kind : IntentMaterialKind) (r : MaterialRow) : IntentMaterial :=
  mkIntentMaterial intent_id kind (mr_payload_json r) (mr_payload_hash r) (mr_node_snapshot_id r).
(** [ORDER BY kind LIMIT 1]: the names sort node_snapshot, policy_input,
    unsigned_transaction. *)
Definition intent_material (s : WalletDb) (intent_id : Uuid) : option IntentMaterial :=
  head (omap (fun kind => material_of intent_id kind <$> db_materials s !! (intent_id, kind))
          [KindNodeSnapshot; KindPolicyInput; KindUnsignedTransaction]).
Definition list_intent_materials (s : WalletDb) (kind : IntentMaterialKind) : result StorageError (list IntentMaterial) :=
  rows ← list_transaction_intents_v2 s;
  Ok (omap (M:=list) (fun kv : Uuid * TransactionIntentRow => material_of kv.1 kind <$> db_materials s !! (kv.1, kind)) rows).

Definition in_current_epoch (metadata : WalletMetadata) (r : TransactionIntentRow) : bool :=
  bool_decide (ir_wallet_id r = wm_wallet_id metadata) && (ir_epoch r =? wm_epoch metadata).

Definition transition_transaction_intent (id : Uuid) (expected next : TransactionIntentStatus) (now : Z)
    : act WalletDb StorageError unit :=
  _ ← lift (reject_if (negb (may_transition_to expected next)) (ST_InvalidIntentTransition expected next));
  mutation (fun metadata s =>
    _ ← reject_if (bool_decide (expected = TxApproved) && bool_decide (next = TxSigning)
                   && match db_intents s !! id with Some r => current_v2 metadata r | None => false end)
          ST_LegacyApiRejectedForV2;
    intents ← ok_or (update_where id (fun r => in_current_epoch metadata r && bool_decide (ir_status r = expected))
                       (with_intent_status next now) (db_intents s)) ST_IntentTransitionConflict;
    Ok (append_audit metadata ("transaction_intent." +:+ TransactionIntentStatus_as_str next)
          (Some (uuid_to_string id)) now (put_intents intents s), tt)).

(** ** Credentials *)

Definition upsert_credential (c : CredentialMetadata) : act WalletDb StorageError unit :=
  mutation (fun metadata s =>
    let prior := db_credentials s !! cd_credential_id c in
    _ ← reject_if (match prior with Some r => cd_sign_count c <? cm_sign_count r | None => false end)
          ST_CredentialCounterRollback;
    _ ← to_sql_u64 (cd_sign_count c);
    let row :=
      match prior with
      | Some r => mkCredentialRow (cm_wallet_id r) (cd_label c) (cd_cose_public_key c) (cd_sign_count c)
                    (cm_enrolled_at r) (cd_updated_at c) (cm_passkey r) (cm_state r)
      | None => mkCredentialRow (wm_wallet_id metadata) (cd_label c) (cd_cose_public_key c) (cd_sign_count c)
                  (cd_enrolled_at c) (cd_updated_at c) None None
      end in
    Ok (append_audit metadata "credential.upserted" (Some (cd_credential_id c)) (cd_updated_at c)
          (put_credentials (<[cd_credential_id c := row]> (db_credentials s)) s), tt)).
Definition credential (s : WalletDb) (credential_id : string) : option CredentialMetadata :=
  r ← db_credentials s !! credential_id;
  Some (mkCredentialMetadata credential_id (cm_label r) (cm_cose_public_key r) (cm_sign_count r) (cm_enrolled_at r)
          (cm_updated_at r)).

Definition profile_matches (existing profile : WebauthnProfile) : bool :=
  bool_decide (wf_user_id existing = wf_user_id profile) && bool_decide (wf_rp_id existing = wf_rp_id profile)
  && bool_decide (wf_rp_origin existing = wf_rp_origin profile).

(** The row of this wallet; the table references the one metadata row. *)
Definition stored_profile (metadata : WalletMetadata) (s : WalletDb) : option WebauthnProfile :=
  p ← db_webauthn s;
  if bool_decide (wf_wallet_id p = wm_wallet_id metadata) then Some p else None.

Definition set_webauthn_profile (profile : WebauthnProfile) : act WalletDb StorageError unit :=
  mutation (fun metadata s =>
    _ ← reject_if (negb (bool_decide (wf_wallet_id profile = wm_wallet_id metadata))) ST_WebauthnProfileMismatch;
    row ←
      match stored_profile metadata s with
      | Some existing =>
          _ ← reject_if (negb (profile_matches existing profile)
                         || (wf_record_version profile <=? wf_record_version existing)) ST_WebauthnProfileMismatch;
          _ ← to_sql_u64 (wf_record_version profile);
          Ok (mkWebauthnProfile (wf_wallet_id existing) (wf_user_id existing) (wf_rp_id existing) (wf_rp_origin existing)
                (wf_record_version profile) (wf_updated_at profile))
      | None =>
          _ ← reject_if (negb (wf_record_version profile =? 1) || bool_decide (wf_user_id profile = "")
                         || bool_decide (wf_rp_id profile = "") || bool_decide (wf_rp_origin profile = ""))
                ST_WebauthnProfileMismatch;
          Ok (mkWebauthnProfile (wm_wallet_id metadata) (wf_user_id profile) (wf_rp_id profile) (wf_rp_origin profile) 1
                (wf_updated_at profile))
      end;
    Ok (append_audit metadata "webauthn.profile_persisted" (Some (uuid_to_string (wm_wallet_id metadata)))
          (wf_updated_at profile) (put_webauthn (Some row) s), tt)).

Definition insert_passkey_record (r : NewPasskeyRecord) : act WalletDb StorageError unit :=
  _ ← lift (reject_if (negb (bool_decide (np_credential_state r = CredActive)) || bool_decide (np_credential_id r = "")
                       || bool_decide (np_format r = "") || negb (serde_json_valid (np_passkey_json r)))
              ST_CredentialUnavailable);
  mutation (fun metadata s =>
    _ ← reject_if (negb (bool_decide (is_Some (stored_profile metadata s)))) ST_WebauthnProfileMismatch;
    _ ← reject_if (negb (sqlite_json_valid (np_passkey_json r))
                   || bool_decide (is_Some (db_credentials s !! np_credential_id r))) ST_Sqlite;
    let row := mkCredentialRow (wm_wallet_id metadata) (np_label r) "" 0 (np_enrolled_at r) (np_enrolled_at r)
      (Some (np_passkey_json r, np_format r, 1)) (Some (np_credential_state r)) in
    Ok (append_audit metadata "credential.passkey_enrolled" (Some (np_credential_id r)) (np_enrolled_at r)
          (put_credentials (<[np_credential_id r := row]> (db_credentials s)) s), tt)).

(** The rows changed by the update, with SQLite's own checks of the new row. *)
Definition update_passkey_record_in (s : WalletDb) (credential_id : string) (expected_record_version : Z)
    (updated_passkey_json : string) (now : Z) : result StorageError (option WalletDb) :=
  _ ← to_sql_u64 expected_record_version;
  match db_credentials s !! credential_id with
  | Some (mkCredentialRow wallet_id label key count enrolled updated (Some (json, format, version)) (Some CredActive)) =>
      if version =? expected_record_version
      then
        _ ← reject_if (negb (sqlite_json_valid updated_passkey_json) || (2 ^ 63 <=? version + 1)) ST_Sqlite;
        Ok (Some (put_credentials (<[credential_id := mkCredentialRow wallet_id label key count enrolled now
                                      (Some (updated_passkey_json, format, version + 1)) (Some CredActive)]>
                    (db_credentials s)) s))
      else Ok None
  | _ => Ok None
  end.

Definition update_passkey_record_cas (credential_id : string) (expected_record_version : Z)
    (updated_passkey_json : string) (now : Z) : act WalletDb StorageError unit :=
  _ ← lift (reject_if (negb (serde_json_valid updated_passkey_json)) ST_CredentialUnavailable);
  mutation (fun metadata s =>
    changed ← update_passkey_record_in s credential_id expected_record_version updated_passkey_json now;
    s1 ← ok_or changed ST_CredentialVersionConflict;
    Ok (append_audit metadata "credential.passkey_updated" (Some credential_id) now s1, tt)).

(** A row read back; an active row has all its Passkey columns. *)
Definition map_passkey_record (credential_id : string) (r : CredentialRow) : result StorageError PasskeyRecord :=
  '(json, format, version) ← ok_or (cm_passkey r) ST_Sqlite;
  state ← ok_or (cm_state r) ST_Sqlite;
  Ok (mkPasskeyRecord credential_id (cm_wallet_id r) (cm_label r) json format version state (cm_enrolled_at r)
        (cm_updated_at r)).
Definition is_active (r : CredentialRow) : bool := bool_decide (cm_state r = Some CredActive).
Definition passkey_record (s : WalletDb) (credential_id : string) : result StorageError (option PasskeyRecord) :=
  match db_credentials s !! credential_id with
  | Some r => if is_active r then (p ← map_passkey_record credential_id r; Ok (Some p)) else Ok None
  | None => Ok None
  end.
Definition credential_le (p q : string * CredentialRow) : Prop := bytes_le (ascii_bytes p.1) (ascii_bytes q.1).
#[export] Instance credential_le_dec : RelDecision credential_le.
Proof. intros p q. unfold credential_le. apply _. Defined.
Definition list_passkey_records (s : WalletDb) : result StorageError (list PasskeyRecord) :=
  metadata ← wallet_metadata s;
  mapM_result (fun kv => map_passkey_record kv.1 kv.2)
    (List.filter (fun kv => bool_decide (cm_wallet_id kv.2 = wm_wallet_id metadata) && is_active kv.2)
       (merge_sort credential_le (map_to_list (db_credentials s)))).

(** ** Approvals *)

(** Status, expiry and policy hash of a pending intent of this epoch. *)
Definition pending_intent_facts (s : WalletDb) (intent_id : Uuid) (current_epoch now : Z)
    : result StorageError (Z * bytes) :=
  r ← ok_or (db_intents s !! intent_id) ST_IntentNotApprovable;
  _ ← reject_if (negb (ir_epoch r =? current_epoch)) ST_IntentNotApprovable;
  _ ← reject_if (negb (bool_decide (ir_status r = TxPending))) ST_IntentNotApprovable;
  _ ← reject_if (ir_expires_at r <? now) ST_IntentExpired;
  Ok (ir_expires_at r, ir_policy_hash r).

Definition check_ceremony_window (started_at expires_at intent_expires_at : Z) : result StorageError unit :=
  _ ← reject_if (expires_at <=? started_at) ST_ApprovalCeremonyExpired;
  reject_if (intent_expires_at <? expires_at) ST_ApprovalCeremonyExceedsIntentExpiry.

(** A ceremony of a version 2 intent must be bound (trigger). *)
Definition begin_approval_ceremony_atomic (c : NewApprovalCeremony) : act WalletDb StorageError unit :=
  mutation (fun metadata s =>
    '(expires_at, _) ← pending_intent_facts s (nv_intent_id c) (wm_epoch metadata) (nv_started_at c);
    _ ← check_ceremony_window (nv_started_at c) (nv_expires_at c) expires_at;
    _ ← reject_if (bool_decide (is_Some (db_ceremonies s !! nv_id c))
                   || match db_intents s !! nv_intent_id c with Some r => is_v2 r | None => false end) ST_Sqlite;
    let row := mkCeremonyRow (wm_wallet_id metadata) (nv_intent_id c) (wm_epoch metadata) (nv_started_at c)
      (nv_expires_at c) None None None in
    Ok (append_audit metadata "approval_ceremony.started" (Some (uuid_to_string (nv_id c))) (nv_started_at c)
          (put_ceremonies (<[nv_id c := row]> (db_ceremonies s)) s), tt)).

Definition authorization_exists (s : WalletDb) (intent_id : Uuid) : bool :=
  some_row (fun a => bool_decide (ac_intent (az_record a) = intent_id)) (db_authorizations s).

(** INSERT into one_time_authorizations: the primary key and the unique index
    on the intent. *)
Definition insert_authorization (metadata : WalletMetadata) (id intent_id : Uuid) (binding : bytes)
    (expires_at issued_at : Z) (s : WalletDb) : result StorageError WalletDb :=
  _ ← reject_if (bool_decide (is_Some (db_authorizations s !! id)) || authorization_exists s intent_id)
        ST_AuthorizationAlreadyExists;
  Ok (put_authorizations (<[id := mkAuthorizationRow (wm_wallet_id metadata)
        (mkAuthorizationRecord id intent_id (wm_epoch metadata) binding expires_at issued_at None None)]>
        (db_authorizations s)) s).

Definition check_authorization_window (approved_at expires_at intent_expires_at : Z) : result StorageError unit :=
  _ ← reject_if (expires_at <? approved_at) ST_AuthorizationExpiresBeforeApproval;
  reject_if (intent_expires_at <? expires_at) ST_AuthorizationExceedsIntentExpiry.

Definition complete_ceremony (s : WalletDb) (id : Uuid) (epoch now : Z) : option (gmap Uuid CeremonyRow) :=
  update_where id (fun c => (cy_epoch c =? epoch) && ceremony_open c && (now <=? cy_expires_at c))
    (ceremony_completed now) (db_ceremonies s).

Definition approve_and_issue_authorization (d : ApprovalDecision) (context : AuditContext)
    : act WalletDb StorageError unit :=
  mutation (fun metadata s =>
    c ← ok_or (db_ceremonies s !! dn_ceremony_id d) ST_ApprovalCeremonyUnavailable;
    r ← ok_or (db_intents s !! cy_intent_id c) ST_ApprovalCeremonyUnavailable;
    _ ← reject_if (is_v2 r) ST_LegacyApiRejectedForV2;
    _ ← reject_if (authorization_exists s (cy_intent_id c)) ST_AuthorizationAlreadyExists;
    _ ← reject_if (negb (cy_epoch c =? wm_epoch metadata) || negb (ceremony_open c)) ST_ApprovalCeremonyUnavailable;
    '(expires_at, policy_hash) ← pending_intent_facts s (cy_intent_id c) (wm_epoch metadata) (dn_approved_at d);
    _ ← reject_if (cy_expires_at c <? dn_approved_at d) ST_ApprovalCeremonyExpired;
    _ ← check_authorization_window (dn_approved_at d) (dn_authorization_expires_at d) expires_at;
    ceremonies ← ok_or (complete_ceremony s (dn_ceremony_id d) (wm_epoch metadata) (dn_approved_at d)) ST_IntentNotApprovable;
    intents ← ok_or (update_where (cy_intent_id c)
                       (fun r => (ir_epoch r =? wm_epoch metadata) && bool_decide (ir_status r = TxPending))
                       (with_intent_status TxApproved (dn_approved_at d)) (db_intents s)) ST_IntentNotApprovable;
    s1 ← insert_authorization metadata (dn_authorization_id d) (cy_intent_id c) (dn_binding_digest d)
           (dn_authorization_expires_at d) (dn_approved_at d) (put_intents intents (put_ceremonies ceremonies s));
    Ok (append_audit_with_context metadata "approval.completed" (Some (uuid_to_string (dn_ceremony_id d)))
          (dn_approved_at d) (Some (cy_intent_id c)) (Some policy_hash) context s1, tt)).

Definition begin_passkey_approval (c : NewPasskeyApprovalCeremony) : act WalletDb StorageError unit :=
  mutation (fun metadata s =>
    '(expires_at, policy_hash) ← pending_intent_facts s (ny_intent_id c) (wm_epoch metadata) (ny_started_at c);
    _ ← check_ceremony_window (ny_started_at c) (ny_expires_at c) expires_at;
    _ ← reject_if (negb match db_credentials s !! ny_credential_id c with
                        | Some r => bool_decide (cm_wallet_id r = wm_wallet_id metadata) && is_active r
                        | None => false
                        end) ST_CredentialUnavailable;
    _ ← reject_if (bool_decide (is_Some (db_ceremonies s !! ny_id c))) ST_Sqlite;
    let row := mkCeremonyRow (wm_wallet_id metadata) (ny_intent_id c) (wm_epoch metadata) (ny_started_at c)
      (ny_expires_at c) None None (Some (ny_binding_digest c, ny_credential_id c)) in
    Ok (append_audit_with_context metadata "approval.passkey_started" (Some (uuid_to_string (ny_id c)))
          (ny_started_at c) (Some (ny_intent_id c)) (Some policy_hash) AuditContext_default
          (put_ceremonies (<[ny_id c := row]> (db_ceremonies s)) s), tt)).

Definition complete_passkey_approval_atomic (p : PasskeyApprovalCompletion)
    : act WalletDb StorageError AuthorizationRecord :=
  _ ← lift (reject_if (negb (serde_json_valid (pc_updated_passkey_json p))) ST_CredentialUnavailable);
  mutation (fun metadata s =>
    _ ← reject_if (negb match stored_profile metadata s with
                        | Some w => bool_decide (wf_rp_id w = pc_rp_id p) && bool_decide (wf_rp_origin w = pc_rp_origin p)
                        | None => false
                        end) ST_WebauthnProfileMismatch;
    c ← ok_or (db_ceremonies s !! pc_ceremony_id p) ST_ApprovalCeremonyUnavailable;
    '(binding, credential_id) ← ok_or (cy_binding c) ST_Sqlite;
    _ ← reject_if (negb (bool_decide (cy_intent_id c = pc_intent_id p)) || negb (cy_epoch c =? wm_epoch metadata)
                   || negb (ceremony_open c)) ST_ApprovalCeremonyUnavailable;
    _ ← reject_if (negb (bool_decide (binding = pc_binding_digest p))
                   || negb (bool_decide (credential_id = pc_credential_id p))) ST_ApprovalBindingMismatch;
    _ ← reject_if (cy_expires_at c <? pc_approved_at p) ST_ApprovalCeremonyExpired;
    '(expires_at, policy_hash) ← pending_intent_facts s (pc_intent_id p) (wm_epoch metadata) (pc_approved_at p);
    _ ← check_authorization_window (pc_approved_at p) (pc_authorization_expires_at p) expires_at;
    changed ← update_passkey_record_in s (pc_credential_id p) (pc_expected_credential_record_version p)
                (pc_updated_passkey_json p) (pc_approved_at p);
    s1 ← ok_or changed ST_CredentialVersionConflict;
    ceremonies ← ok_or (complete_ceremony s1 (pc_ceremony_id p) (wm_epoch metadata) (pc_approved_at p))
                   ST_ApprovalCeremonyUnavailable;
    intents ← ok_or (update_where (pc_intent_id p)
                       (fun r => (ir_epoch r =? wm_epoch metadata) && bool_decide (ir_status r = TxPending) && is_v2 r)
                       (with_intent_status TxApproved (pc_approved_at p)) (db_intents s1)) ST_IntentNotApprovable;
    s2 ← insert_authorization metadata (pc_authorization_id p) (pc_intent_id p) (pc_binding_digest p)
           (pc_authorization_expires_at p) (pc_approved_at p) (put_intents intents (put_ceremonies ceremonies s1));
    Ok (append_audit_with_context metadata "approval.passkey_completed" (Some (uuid_to_string (pc_ceremony_id p)))
          (pc_approved_at p) (Some (pc_intent_id p)) (Some policy_hash) AuditContext_default s2,
        mkAuthorizationRecord (pc_authorization_id p) (pc_intent_id p) (wm_epoch metadata) (pc_binding_digest p)
          (pc_authorization_expires_at p) (pc_approved_at p) None None)).

Definition approval_ceremony (s : WalletDb) (id : Uuid) : option CeremonyRow := db_ceremonies s !! id.

(** ** Authorizations and nonces *)

Definition authorization_available (metadata : WalletMetadata) (now : Z) (a : AuthorizationRow) : bool :=
  bool_decide (az_wallet_id a = wm_wallet_id metadata) && (ac_epoch (az_record a) =? wm_epoch metadata)
  && authorization_open a && (now <=? ac_expires_at (az_record a)).
Definition list_available_authorizations (s : WalletDb) (now : Z) : result StorageError (list AuthorizationRecord) :=
  metadata ← wallet_metadata s;
  Ok ((fun kv => az_record kv.2) <$>
        List.filter (fun kv => authorization_available metadata now kv.2)
          (order_by (fun a => ac_issued_at (az_record a)) (db_authorizations s))).
(** At most one authorization names an intent. *)
Definition available_authorization (s : WalletDb) (intent_id : Uuid) (now : Z)
    : result StorageError (option AuthorizationRecord) :=
  rows ← list_available_authorizations s now;
  Ok (List.find (fun a => bool_decide (ac_intent a = intent_id)) rows).

Definition consume_where (s : WalletDb) (id : Uuid) (p : AuthorizationRow -> bool) (now : Z)
    : option (gmap Uuid AuthorizationRow) :=
  update_where id (fun a => p a && authorization_open a && (now <=? ac_expires_at (az_record a)))
    (authorization_consumed now) (db_authorizations s).
Definition of_epoch (epoch : Z) (a : AuthorizationRow) : bool := ac_epoch (az_record a) =? epoch.

Definition consume_authorization (authorization_id : Uuid) (epoch now : Z) : act WalletDb StorageError unit :=
  mutation (fun metadata s =>
    _ ← reject_if (negb (epoch =? wm_epoch metadata)) (ST_StaleEpoch (wm_epoch metadata) epoch);
    _ ← to_sql_u64 epoch;
    _ ← reject_if match db_authorizations s !! authorization_id with
                  | Some a => of_epoch epoch a
                              && match db_intents s !! ac_intent (az_record a) with Some r => is_v2 r | None => false end
                  | None => false
                  end ST_LegacyApiRejectedForV2;
    authorizations ← ok_or (consume_where s authorization_id (of_epoch epoch) now) ST_AuthorizationUnavailable;
    Ok (append_audit metadata "authorization.consumed" (Some (uuid_to_string authorization_id)) now
          (put_authorizations authorizations s), tt)).

Definition claim_nonce (c : NewNonceClaim) : act WalletDb StorageError unit :=
  mutation (fun metadata s =>
    _ ← reject_if (bool_decide (is_Some (db_nonces s !! nn_fingerprint c))) ST_NonceAlreadyClaimed;
    let row := mkNonceRow (wm_wallet_id metadata) (wm_epoch metadata) (nn_session_id c) (nn_claimed_at c) None None in
    Ok (append_audit metadata "nonce.claimed" None (nn_claimed_at c)
          (put_nonces (<[nn_fingerprint c := row]> (db_nonces s)) s), tt)).

(** The trigger on bound claims: authorization and intent are of this wallet
    and epoch and agree with the claim. *)
Definition nonce_binding_consistent (metadata : WalletMetadata) (authorization_id intent_id : Uuid) (signer_id : string)
    (session_id : bytes) (s : WalletDb) : bool :=
  negb (bool_decide (signer_id = ""))
  && match db_authorizations s !! authorization_id with
     | Some a => bool_decide (az_wallet_id a = wm_wallet_id metadata) && of_epoch (wm_epoch metadata) a
                 && bool_decide (ac_intent (az_record a) = intent_id)
     | None => false
     end
  && match db_intents s !! intent_id with
     | Some r => in_current_epoch metadata r && bool_decide (ir_session_id r = session_id)
                 && match ir_v2 r with Some v2 => bool_decide (v2_signer_id v2 = signer_id) | None => false end
     | None => false
     end.

Definition insert_bound_nonce (metadata : WalletMetadata) (fingerprint : bytes) (authorization_id intent_id : Uuid)
    (signer_id : string) (session_id : bytes) (now : Z) (s : WalletDb) : result StorageError WalletDb :=
  _ ← reject_if (negb (nonce_binding_consistent metadata authorization_id intent_id signer_id session_id s)
                 || bool_decide (is_Some (db_nonces s !! fingerprint))) ST_NonceAlreadyClaimed;
  Ok (put_nonces (<[fingerprint := mkNonceRow (wm_wallet_id metadata) (wm_epoch metadata) session_id now None
                     (Some (authorization_id, intent_id, signer_id))]> (db_nonces s)) s).

Definition consume_authorization_and_claim_frost_nonce (c : FrostNonceAuthorizationClaim)
    : act WalletDb StorageError unit :=
  mutation (fun metadata s =>
    a ← ok_or (db_authorizations s !! fc_authorization_id c) ST_AuthorizationUnavailable;
    _ ← reject_if (negb (bool_decide (az_wallet_id a = wm_wallet_id metadata)) || negb (of_epoch (wm_epoch metadata) a))
          ST_AuthorizationUnavailable;
    _ ← reject_if (negb (bool_decide (ac_intent (az_record a) = fc_intent_id c)) || negb (authorization_open a)
                   || (ac_expires_at (az_record a) <? fc_claimed_at c)) ST_AuthorizationUnavailable;
    r ← ok_or (db_intents s !! fc_intent_id c) ST_IntentTransitionConflict;
    _ ← reject_if (negb (in_current_epoch metadata r)) ST_IntentTransitionConflict;
    v2 ← ok_or (ir_v2 r) ST_IntentTransitionConflict;
    _ ← reject_if (negb (bool_decide (v2_signer_id v2 = fc_signer_id c))
                   || negb (bool_decide (ir_session_id r = fc_session_id c))
                   || negb (bool_decide (ir_status r = TxApproved))) ST_IntentTransitionConflict;
    authorizations ← ok_or (consume_where s (fc_authorization_id c) (of_epoch (wm_epoch metadata)) (fc_claimed_at c))
                       ST_AuthorizationUnavailable;
    s1 ← insert_bound_nonce metadata (fc_fingerprint c) (fc_authorization_id c) (fc_intent_id c) (fc_signer_id c)
           (fc_session_id c) (fc_claimed_at c) (put_authorizations authorizations s);
    intents ← ok_or (update_where (fc_intent_id c)
                       (fun r => (ir_epoch r =? wm_epoch metadata) && bool_decide (ir_status r = TxApproved) && is_v2 r)
                       (with_intent_status TxSigning (fc_claimed_at c)) (db_intents s1)) ST_IntentTransitionConflict;
    Ok (append_audit_with_context metadata "authorization.consumed_nonce_claimed"
          (Some (uuid_to_string (fc_authorization_id c))) (fc_claimed_at c) (Some (fc_intent_id c)) None
          AuditContext_default (put_intents intents s1), tt)).

Definition nonce_of (fingerprint : bytes) (n : NonceRow) : NonceClaim :=
  mkNonceClaim fingerprint (nr_session_id n) (nr_epoch n) (nr_claimed_at n) (nr_invalidated_at n).
Definition nonce_claim (s : WalletDb) (fingerprint : bytes) : option NonceClaim :=
  nonce_of fingerprint <$> db_nonces s !! fingerprint.
Definition list_nonce_claims (s : WalletDb) : result StorageError (list NonceClaim) :=
  metadata ← wallet_metadata s;
  Ok ((fun kv => nonce_of kv.1 kv.2) <$>
        List.filter (fun kv => bool_decide (nr_wallet_id kv.2 = wm_wallet_id metadata) && (nr_epoch kv.2 =? wm_epoch metadata))
          (order_by nr_claimed_at (db_nonces s))).

(** ** Audit log *)

Definition audit_events (s : WalletDb) (limit : Z) : result StorageError (list AuditEvent) :=
  _ ← to_sql_u64 limit;
  Ok (take (Z.to_nat limit) (db_audit s)).
Definition recent_audit_events (s : WalletDb) (limit : Z) : result StorageError (list AuditEvent) :=
  _ ← to_sql_u64 limit;
  Ok (reverse (take (Z.to_nat limit) (reverse (db_audit s)))).

(** ** Restore *)

Definition transition_restore (from to : RestoreState) (now : Z) : act WalletDb StorageError unit :=
  immediate (fun metadata s =>
    _ ← require_restore_state (wm_restore_state metadata) from to;
    let metadata := with_restore_state to now metadata in
    Ok (append_audit metadata ("restore." +:+ RestoreState_as_str to) None now (put_metadata (Some metadata) s), tt)).
Definition begin_snapshot (now : Z) : act WalletDb StorageError unit :=
  transition_restore RestoreNormal RestoreSnapshotting now.
Definition finish_snapshot (now : Z) : act WalletDb StorageError unit :=
  transition_restore RestoreSnapshotting RestoreNormal now.
Definition begin_recovering (now : Z) : act WalletDb StorageError unit :=
  transition_restore RestoreCutover RestoreRecovering now.
Definition finish_recovery (now : Z) : act WalletDb StorageError unit :=
  transition_restore RestoreRecovering RestoreNormal now.

Definition begin_restore_precheck (now : Z) : act WalletDb StorageError unit :=
  immediate (fun metadata s =>
    _ ← require_restore_state (wm_restore_state metadata) RestoreNormal RestorePrecheck;
    let s1 := put_ceremonies (update_all (fun c => (cy_epoch c =? wm_epoch metadata) && ceremony_open c)
                (ceremony_invalidated now) (db_ceremonies s)) s in
    let metadata := with_restore_state RestorePrecheck now metadata in
    Ok (append_audit metadata "restore.restore_precheck" None now (put_metadata (Some metadata) s1), tt)).

(** Statuses an intent can still leave. *)
Definition is_unfinished (status : TransactionIntentStatus) : bool :=
  match status with TxPending | TxApproved | TxSigning => true | _ => false end.

Definition cutover_restore (now : Z) : act WalletDb StorageError Z :=
  immediate (fun old s =>
    _ ← require_restore_state (wm_restore_state old) RestorePrecheck RestoreCutover;
    new_epoch ← ok_or (checked_add 64 (wm_epoch old) 1) (ST_InvalidStoredValue "wallet epoch overflow");
    _ ← to_sql_u64 new_epoch;
    let current := mkWalletMetadata (wm_wallet_id old) new_epoch RestoreCutover (wm_created_at old) now in
    let s1 := put_metadata (Some current) s in
    let s2 := put_ceremonies (update_all (fun c => (cy_epoch c <? new_epoch) && ceremony_open c)
                (ceremony_invalidated now) (db_ceremonies s1)) s1 in
    let s3 := put_authorizations (update_all (fun a => (ac_epoch (az_record a) <? new_epoch) && authorization_open a)
                (authorization_invalidated now) (db_authorizations s2)) s2 in
    let s4 := put_nonces (update_all (fun n => (nr_epoch n <? new_epoch) && is_null (nr_invalidated_at n))
                (nonce_invalidated now) (db_nonces s3)) s3 in
    let s5 := put_intents (update_all (fun r => (ir_epoch r <? new_epoch) && is_unfinished (ir_status r))
                (with_intent_status TxInvalidated now) (db_intents s4)) s4 in
    let s6 := put_materials (filter (fun kv => kv.1.2 <> KindNodeSnapshot) (db_materials s5)) s5 in
    Ok (append_audit current "restore.cutover" None now s6, new_epoch)).

(** What an interrupted cutover left to record ([CrashRecoveryOutcome]). *)
Record CrashRecoveryOutcome := mkCrashRecoveryOutcome {
  cr_recovery_id : option Uuid;
  cr_event_type : string;
  cr_occurred_at : Z;
}.
Definition record_cutover_recovery (recovery : CrashRecoveryOutcome) : act WalletDb StorageError unit :=
  immediate (fun metadata s =>
    let subject_id := uuid_to_string <$> cr_recovery_id recovery in
    let already_recorded :=
      match subject_id with
      | Some subject => existsb (fun e => bool_decide (ae_event_type e = cr_event_type recovery)
                                         && bool_decide (ae_subject_id e = Some subject)) (db_audit s)
      | None => false
      end in
    if already_recorded then Ok (s, tt)
    else
      let now := cr_occurred_at recovery in
      let metadata :=
        if bool_decide (cr_event_type recovery = "restore.crash_rolled_back")
           && bool_decide (wm_restore_state metadata = RestorePrecheck)
        then with_restore_state RestoreNormal now metadata else metadata in
      Ok (append_audit metadata (cr_event_type recovery) subject_id now (put_metadata (Some metadata) s), tt)).
End database.
