(* ===== verification/SignerDb.v ===== *)
(** * Signers and signing jobs of the wallet database
      (the secret, signer and job tables of src/crates/wallet-storage/src/sqlite.rs)

    Secret handles, signer profiles, address bindings and the signing jobs that
    consume an authorization.  The rows of these tables that the source checks
    against the wallet id reference its one metadata row.  A chain scope or
    review artifact read back passes its deserializer again. *)

From Stdlib Require Import ZArith Lia.
From S2P Require Import Prelude Bitcoin Text Effects ChainDomain SigningDomain Personal StorageModels WalletDb.
From stdpp Require Import list gmap strings sorting.
Local Open Scope string_scope.
Local Open Scope list_scope.
Local Open Scope Z_scope.

(** ** Rules on the arguments *)

(** [starts_with(prefix) && len() > prefix.len()] *)
Definition validate_secret_handle (backend : SecretBackend) (handle : string) : result StorageError unit :=
  reject_if (negb (String.prefix (required_prefix backend) handle
                   && (String.length (required_prefix backend) <? String.length handle)%nat))
    (ST_InvalidSecretHandle (SecretBackend_as_str backend)).

Definition SecretRef_new (id : Uuid) (backend : SecretBackend) (handle : string) (now : Z)
    : result StorageError SecretRef :=
  _ ← reject_if (negb (String.prefix (required_prefix backend) handle)
                 || (String.length handle =? String.length (required_prefix backend))%nat)
        (ST_InvalidSecretHandle (SecretBackend_as_str backend));
  Ok (mkSecretRef id backend handle now now).

Definition validate_new_signer_profile (p : NewSignerProfile) : result StorageError unit :=
  descriptor ← map_err (fun _ => ST_InvalidSignerProfile)
                 (require_executable_suite (sg_chain_scope p) (sg_signing_suite_id p));
  reject_if (negb (bool_decide (sd_backend_requirement descriptor = sg_backend_requirement p))
    || bool_decide (sg_signer_set_id p = "") || (128 <? String.length (sg_signer_set_id p))%nat
    || bool_decide (sg_authorization_signer_id p = "") || (128 <? String.length (sg_authorization_signer_id p))%nat
    || (sg_signer_epoch p =? 0) || (sg_threshold p =? 0) || (sg_max_signers p <? sg_threshold p)
    || bool_decide (sg_verification_key p = []) || (256 <? length (sg_verification_key p))%nat)
    ST_InvalidSignerProfile.

Definition validate_new_signing_job (j : NewSigningJob) : result StorageError unit :=
  descriptor ← map_err (fun _ => ST_InvalidSigningJob)
                 (require_executable_suite (jn_chain_scope j) (jn_signing_suite_id j));
  let '(first, second) := jn_selected_parties j in
  reject_if (negb (bool_decide (sd_backend_requirement descriptor = jn_backend_requirement j))
    || (jn_review_schema_version j =? 0)
    || negb (ra_schema_version (jn_review_artifact j) =? jn_review_schema_version j)
    || negb (bool_decide (ra_scope (jn_review_artifact j) = jn_chain_scope j))
    || negb (bool_decide (ra_review_digest (jn_review_artifact j) = jn_review_digest j))
    || negb (bool_decide (ra_signing_message_digest (jn_review_artifact j) = jn_signing_message_digest j))
    || bool_decide (first = "") || bool_decide (second = "") || bool_decide (first = second)
    || negb (bool_decide (first = jn_receiver j) || bool_decide (second = jn_receiver j))
    || (64 <? String.length (jn_receiver j))%nat || (jn_expires_at j <=? jn_created_at j)) ST_InvalidSigningJob.

(** ** Rows read back *)

Definition scope_column (scope : ChainScope) : result StorageError ChainScope :=
  map_err (fun _ => ST_Sqlite) (ChainScope_deserialize (cs_schema_version scope) (cs_chain scope) (cs_network scope)).
Definition map_signer_profile (p : SignerProfileRecord) : result StorageError SignerProfileRecord :=
  _ ← scope_column (sg_chain_scope p);
  Ok p.
Definition map_address_binding (b : StoredAddressBinding) : result StorageError StoredAddressBinding :=
  _ ← scope_column (bd_chain_scope b);
  Ok b.
Definition map_signing_job (j : StoredSigningJob) : result StorageError StoredSigningJob :=
  let r := jn_review_artifact (jb_bound j) in
  _ ← scope_column (jn_chain_scope (jb_bound j));
  _ ← scope_column (ra_scope r);
  _ ← map_err (fun _ => ST_Sqlite)
        (ReviewArtifact_deserialize (ra_schema_version r) (ra_scope r) (ra_review_digest r) (ra_signing_message_digest r)
           (ra_summary r) None (ra_reviewed_material r));
  Ok j.
(** [query_row(..., map).optional()] *)
Definition read_row {A} (map : A -> result StorageError A) (row : option A) : result StorageError (option A) :=
  match row with Some r => r' ← map r; Ok (Some r') | None => Ok None end.

Section signers.
Context `{UuidText} `{BuildInfo} `{BitcoinLib} `{JsonText}.

(** ** Secret references *)

Definition put_secret_ref (secret : SecretRef) : act WalletDb StorageError unit :=
  _ ← lift (validate_secret_handle (sr_backend secret) (sr_handle secret));
  mutation (fun metadata s =>
    let row :=
      match db_secrets s !! sr_id secret with
      | Some old => mkSecretRef (sr_id old) (sr_backend secret) (sr_handle secret) (sr_created_at old) (sr_updated_at secret)
      | None => secret
      end in
    Ok (append_audit metadata "secret_ref.upserted" (Some (uuid_to_string (sr_id secret))) (sr_updated_at secret)
          (put_secrets (<[sr_id secret := row]> (db_secrets s)) s), tt)).
Definition secret_ref (s : WalletDb) (id : Uuid) : option SecretRef := db_secrets s !! id.

(** ** Signer profiles and addresses *)

(** UNIQUE (wallet, scope, suite, signer set, signer epoch) *)
Definition same_signer_slot (p q : SignerProfileRecord) : bool :=
  bool_decide (sg_wallet_id p = sg_wallet_id q) && bool_decide (sg_chain_scope p = sg_chain_scope q)
  && bool_decide (sg_signing_suite_id p = sg_signing_suite_id q) && bool_decide (sg_signer_set_id p = sg_signer_set_id q)
  && (sg_signer_epoch p =? sg_signer_epoch q).
Definition insert_signer_profile (p : NewSignerProfile) (s : WalletDb) : result StorageError WalletDb :=
  _ ← to_sql_u64 (sg_signer_epoch p);
  _ ← reject_if (bool_decide (is_Some (db_signers s !! sg_profile_id p)) || some_row (same_signer_slot p) (db_signers s)
                 || negb (bool_decide (is_Some (db_secrets s !! sg_secret_ref_id p))))
        (ST_ImmutableConflict "signer_profile");
  Ok (put_signers (<[sg_profile_id p := p]> (db_signers s)) s).

Definition register_signer_profile (p : NewSignerProfile) : act WalletDb StorageError unit :=
  _ ← lift (validate_new_signer_profile p);
  mutation (fun metadata s =>
    _ ← reject_if (negb (bool_decide (wm_wallet_id metadata = sg_wallet_id p))) ST_InvalidSignerProfile;
    _ ← reject_if (negb (bool_decide (is_Some (db_secrets s !! sg_secret_ref_id p)))) ST_InvalidSignerProfile;
    s1 ← insert_signer_profile p s;
    Ok (append_audit metadata "signer_profile.registered" (Some (uuid_to_string (sg_profile_id p))) (sg_created_at p) s1,
        tt)).
Definition signer_profile (s : WalletDb) (profile_id : Uuid) : result StorageError (option SignerProfileRecord) :=
  read_row map_signer_profile (db_signers s !! profile_id).

(** UNIQUE (profile, address) *)
Definition insert_address_binding (b : NewAddressBinding) (s : WalletDb) : result StorageError WalletDb :=
  _ ← reject_if (bool_decide (is_Some (db_bindings s !! bd_binding_id b))
                 || some_row (fun o => bool_decide (bd_profile_id o = bd_profile_id b)
                                       && bool_decide (bd_address o = bd_address b)) (db_bindings s))
        (ST_ImmutableConflict "signer_address_binding");
  Ok (put_bindings (<[bd_binding_id b := b]> (db_bindings s)) s).

Definition bind_signer_address (b : NewAddressBinding) : act WalletDb StorageError unit :=
  _ ← lift (reject_if (bool_decide (bd_address b = "") || (512 <? String.length (bd_address b))%nat) ST_InvalidSignerProfile);
  mutation (fun metadata s =>
    p ← ok_or (db_signers s !! bd_profile_id b) ST_InvalidSignerProfile;
    _ ← reject_if (negb (bool_decide (sg_wallet_id p = wm_wallet_id metadata))) ST_InvalidSignerProfile;
    _ ← reject_if (negb (bool_decide (sg_chain_scope p = bd_chain_scope b))
                   || negb (bool_decide (bd_verification_key_digest b = sha256 (sg_verification_key p))))
          ST_InvalidSignerProfile;
    s1 ← insert_address_binding b s;
    Ok (append_audit metadata "signer_address.bound" (Some (uuid_to_string (bd_binding_id b))) (bd_created_at b) s1, tt)).

Definition address_bindings (s : WalletDb) (profile_id : Uuid) : result StorageError (list StoredAddressBinding) :=
  mapM_result map_address_binding
    (List.filter (fun b => bool_decide (bd_profile_id b = profile_id)) (order_by bd_created_at (db_bindings s)).*2).

(** Every profile with the handle of its secret and its addresses. *)
Definition inventory_record (s : WalletDb) (p : SignerProfileRecord)
    : result StorageError (list SignerProfileInventoryRecord) :=
  match db_secrets s !! sg_secret_ref_id p with
  | None => Ok []
  | Some secret =>
      profile ← map_signer_profile p;
      bindings ← address_bindings s (sg_profile_id p);
      Ok [mkSignerProfileInventoryRecord profile (sr_handle secret) bindings]
  end.
Definition signer_profile_inventory (s : WalletDb) (wallet_id : Uuid)
    : result StorageError (list SignerProfileInventoryRecord) :=
  metadata ← wallet_metadata s;
  _ ← reject_if (negb (bool_decide (wallet_id = wm_wallet_id metadata))) ST_InvalidSignerProfile;
  records ← mapM_result (inventory_record s)
    (List.filter (fun p => bool_decide (sg_wallet_id p = wallet_id)) (order_by sg_created_at (db_signers s)).*2);
  Ok (concat records).

(** ** The signer catalog *)

(** The sets of one pass over the catalog: secret ids and handles, profile ids,
    signer sets, verification keys, scopes and binding ids. *)
Record CatalogSeen := mkCatalogSeen {
  seen_secret_ids : gset Uuid;
  seen_secret_handles : gset string;
  seen_profile_ids : gset Uuid;
  seen_signer_set_ids : gset string;
  seen_verification_keys : gset bytes;
  seen_scopes : list ChainScope;
  seen_binding_ids : gset Uuid;
}.

Definition validate_catalog_binding (p : NewSignerProfile) (seen : CatalogSeen) (b : NewAddressBinding)
    : result StorageError CatalogSeen :=
  _ ← reject_if (Uuid_is_nil (bd_binding_id b) || negb (bool_decide (bd_profile_id b = sg_profile_id p))
        || negb (bool_decide (bd_chain_scope b = sg_chain_scope p)) || bool_decide (bd_address b = "")
        || (512 <? String.length (bd_address b))%nat
        || negb (bool_decide (bd_verification_key_digest b = sha256 (sg_verification_key p)))
        || bool_decide (bd_binding_id b ∈ seen_binding_ids seen)) ST_InvalidSignerProfile;
  Ok (mkCatalogSeen (seen_secret_ids seen) (seen_secret_handles seen) (seen_profile_ids seen) (seen_signer_set_ids seen)
        (seen_verification_keys seen) (seen_scopes seen) ({[bd_binding_id b]} ∪ seen_binding_ids seen)).

Definition validate_catalog_entry (wallet_id : Uuid) (seen : CatalogSeen) (e : NewSignerCatalogEntry)
    : result StorageError CatalogSeen :=
  let p := ct_profile e in let r := ct_secret_ref e in
  _ ← validate_secret_handle (sr_backend r) (sr_handle r);
  _ ← validate_new_signer_profile p;
  _ ← reject_if (Uuid_is_nil (sr_id r) || Uuid_is_nil (sg_profile_id p) || negb (bool_decide (sg_wallet_id p = wallet_id))
        || negb (bool_decide (sg_secret_ref_id p = sr_id r)) || bool_decide (ct_address_bindings e = [])
        || bool_decide (sr_id r ∈ seen_secret_ids seen) || bool_decide (sr_handle r ∈ seen_secret_handles seen)
        || bool_decide (sg_profile_id p ∈ seen_profile_ids seen)
        || bool_decide (sg_signer_set_id p ∈ seen_signer_set_ids seen)
        || bool_decide (sg_verification_key p ∈ seen_verification_keys seen)
        || bool_decide (sg_chain_scope p ∈ seen_scopes seen)) ST_InvalidSignerProfile;
  let seen := mkCatalogSeen ({[sr_id r]} ∪ seen_secret_ids seen) ({[sr_handle r]} ∪ seen_secret_handles seen)
    ({[sg_profile_id p]} ∪ seen_profile_ids seen) ({[sg_signer_set_id p]} ∪ seen_signer_set_ids seen)
    ({[sg_verification_key p]} ∪ seen_verification_keys seen) (sg_chain_scope p :: seen_scopes seen)
    (seen_binding_ids seen) in
  foldM (validate_catalog_binding p) seen (ct_address_bindings e).

Definition validate_signer_catalog (catalog : list NewSignerCatalogEntry) (wallet_id : Uuid) : result StorageError unit :=
  _ ← reject_if (bool_decide (catalog = [])) ST_InvalidSignerProfile;
  _ ← foldM (validate_catalog_entry wallet_id) (mkCatalogSeen ∅ ∅ ∅ ∅ ∅ [] ∅) catalog;
  Ok tt.

Definition binding_le (a b : StoredAddressBinding) : Prop :=
  bd_created_at a < bd_created_at b \/ (bd_created_at a = bd_created_at b /\ bytes_le (bd_binding_id a) (bd_binding_id b)).
#[export] Instance binding_le_dec : RelDecision binding_le.
Proof. intros a b. unfold binding_le. apply _. Defined.

Definition catalog_entry_matches (s : WalletDb) (existing : list SignerProfileInventoryRecord)
    (e : NewSignerCatalogEntry) : bool :=
  match List.find (fun stored => bool_decide (sg_profile_id (iv_profile stored) = sg_profile_id (ct_profile e))) existing with
  | None => false
  | Some stored =>
      bool_decide (iv_profile stored = ct_profile e) && bool_decide (iv_secret_ref stored = sr_handle (ct_secret_ref e))
      && bool_decide (secret_ref s (sr_id (ct_secret_ref e)) = Some (ct_secret_ref e))
      && bool_decide (iv_address_bindings stored = merge_sort binding_le (ct_address_bindings e))
  end.
Definition signer_catalog_matches (s : WalletDb) (catalog : list NewSignerCatalogEntry)
    (existing : list SignerProfileInventoryRecord) : bool :=
  (length existing =? length catalog)%nat && forallb (catalog_entry_matches s existing) catalog.

Definition install_entry (s : WalletDb) (e : NewSignerCatalogEntry) : result StorageError WalletDb :=
  let r := ct_secret_ref e in
  _ ← reject_if (bool_decide (is_Some (db_secrets s !! sr_id r))) (ST_ImmutableConflict "secret_ref");
  s1 ← insert_signer_profile (ct_profile e) (put_secrets (<[sr_id r := r]> (db_secrets s)) s);
  foldM (fun s b => insert_address_binding b s) s1 (ct_address_bindings e).

Definition install_catalog (catalog : list NewSignerCatalogEntry)
    : act WalletDb StorageError SignerCatalogInstallOutcome :=
  mutation (fun metadata s =>
    s1 ← foldM install_entry s catalog;
    Ok (append_audit metadata "signer_catalog.installed" None
          (match catalog with e :: _ => sg_created_at (ct_profile e) | [] => 0 end) s1, CatalogInstalled)).

Definition install_signer_catalog (catalog : list NewSignerCatalogEntry)
    : act WalletDb StorageError SignerCatalogInstallOutcome :=
  metadata ← reads wallet_metadata;
  _ ← lift (validate_signer_catalog catalog (wm_wallet_id metadata));
  existing ← reads (fun s => signer_profile_inventory s (wm_wallet_id metadata));
  s ← gets (fun s => s);
  _ ← lift (reject_if (negb (size (db_secrets s) =? length existing)%nat) (ST_ImmutableConflict "signer_catalog"));
  match existing with
  | _ :: _ =>
      lift (if signer_catalog_matches s catalog existing then Ok CatalogAlreadyPresent
            else Err (ST_ImmutableConflict "signer_catalog"))
  | [] =>
      _ ← lift (reject_if (existsb (fun e => bool_decide (is_Some (secret_ref s (sr_id (ct_secret_ref e))))) catalog)
                  (ST_ImmutableConflict "signer_catalog"));
      install_catalog catalog
  end.

(** ** Signing jobs *)

Definition authorization_matches_job (j : NewSigningJob) (a : AuthorizationRow) (r : TransactionIntentRow)
    (v2 : IntentV2Columns) (signer_id : string) (operation_binding_digest : bytes) (now : Z) : bool :=
  bool_decide (ac_binding (az_record a) = operation_binding_digest) && (now <=? ac_expires_at (az_record a))
  && authorization_open a && bool_decide (ir_session_id r = jn_session_id j) && bool_decide (ir_status r = TxApproved)
  && bool_decide (v2_signer_id v2 = signer_id) && bool_decide (ir_tx_digest r = jn_signing_message_digest j)
  && bool_decide (ir_policy_hash r = jn_policy_snapshot_digest j) && (ir_expires_at r =? jn_expires_at j).

Definition profile_serves_job (j : NewSigningJob) (p : SignerProfileRecord) : bool :=
  bool_decide (sg_wallet_id p = jn_wallet_id j) && bool_decide (sg_chain_scope p = jn_chain_scope j)
  && bool_decide (sg_signing_suite_id p = jn_signing_suite_id j)
  && bool_decide (sg_backend_requirement p = jn_backend_requirement j).

Definition insert_signing_job (j : NewSigningJob) (operation_binding_digest : bytes) (s : WalletDb)
    : result StorageError WalletDb :=
  _ ← reject_if (bool_decide (is_Some (db_jobs s !! jn_job_id j))
                 || some_row (fun o => bool_decide (jn_session_id (jb_bound o) = jn_session_id j)) (db_jobs s))
        ST_SigningJobConflict;
  Ok (put_jobs (<[jn_job_id j := mkStoredSigningJob j (Some operation_binding_digest) SjSigning None None
                   (jn_created_at j)]> (db_jobs s)) s).

Definition start_signing_job (authorization_id : Uuid) (j : NewSigningJob) (operation_binding_digest : bytes) (now : Z)
    : act WalletDb StorageError unit :=
  mutation (fun metadata s =>
    _ ← reject_if (negb (bool_decide (wm_wallet_id metadata = jn_wallet_id j))) ST_InvalidSigningJob;
    p ← ok_or (db_signers s !! jn_profile_id j) ST_InvalidSigningJob;
    _ ← reject_if (negb (profile_serves_job j p)) ST_InvalidSigningJob;
    _ ← reject_if (bool_decide (sg_authorization_signer_id p = "")) ST_InvalidSigningJob;
    a ← ok_or (db_authorizations s !! authorization_id) ST_AuthorizationUnavailable;
    r ← ok_or (db_intents s !! jn_intent_id j) ST_AuthorizationUnavailable;
    v2 ← ok_or (ir_v2 r) ST_AuthorizationUnavailable;
    _ ← reject_if (negb (bool_decide (ac_intent (az_record a) = jn_intent_id j))
                   || negb (bool_decide (az_wallet_id a = wm_wallet_id metadata)) || negb (of_epoch (wm_epoch metadata) a))
          ST_AuthorizationUnavailable;
    _ ← reject_if (negb (authorization_matches_job j a r v2 (sg_authorization_signer_id p) operation_binding_digest now))
          ST_AuthorizationUnavailable;
    s1 ← insert_signing_job j operation_binding_digest s;
    authorizations ← ok_or (consume_where s1 authorization_id (fun _ => true) now) ST_AuthorizationUnavailable;
    s2 ← insert_bound_nonce metadata operation_binding_digest authorization_id (jn_intent_id j) (v2_signer_id v2)
           (jn_session_id j) now (put_authorizations authorizations s1);
    intents ← ok_or (update_where (jn_intent_id j)
                       (fun r => in_current_epoch metadata r && bool_decide (ir_status r = TxApproved) && is_v2 r)
                       (with_intent_status TxSigning now) (db_intents s2)) ST_IntentTransitionConflict;
    Ok (append_audit metadata "chain_signing.authorized_started" (Some (uuid_to_string (jn_job_id j))) now
          (put_intents intents s2), tt)).

Definition signing_job (s : WalletDb) (job_id : Uuid) : result StorageError (option StoredSigningJob) :=
  read_row map_signing_job (db_jobs s !! job_id).

Definition create_signing_job (authorization_id : Uuid) (j : NewSigningJob) (operation_binding_digest : bytes) (now : Z)
    : act WalletDb StorageError StoredSigningJob :=
  _ ← lift (validate_new_signing_job j);
  _ ← lift (reject_if (negb (jn_created_at j =? now) || (jn_expires_at j <? now)) ST_InvalidSigningJob);
  _ ← start_signing_job authorization_id j operation_binding_digest now;
  stored ← reads (fun s => signing_job s (jn_job_id j));
  lift (ok_or stored ST_SigningJobConflict).

(** The job a claim is for; the session of a job is unique. *)
Definition claim_is_for (c : ChainExecutorClaim) (j : StoredSigningJob) : bool :=
  let b := jb_bound j in
  bool_decide (jn_wallet_id b = xc_wallet_id c) && bool_decide (jn_profile_id b = xc_profile_id c)
  && bool_decide (jn_signing_suite_id b = xc_signing_suite_id c)
  && bool_decide (jn_backend_requirement b = xc_backend_requirement c) && bool_decide (jn_session_id b = xc_session_id c)
  && bool_decide (jn_signing_message_digest b = xc_signing_message_digest c)
  && bool_decide (jb_operation_binding_digest j = Some (xc_operation_binding_digest c))
  && bool_decide (jb_status j = SjSigning) && (xc_claimed_at c <=? jn_expires_at b).

Definition claim_chain_executor (c : ChainExecutorClaim) : act WalletDb StorageError unit :=
  let zero := replicate 32 x00 in
  _ ← lift (reject_if (Uuid_is_nil (xc_wallet_id c) || Uuid_is_nil (xc_profile_id c)
              || bool_decide (xc_session_id c = zero) || bool_decide (xc_review_domain_digest c = zero)
              || bool_decide (xc_signing_message_digest c = zero) || bool_decide (xc_operation_binding_digest c = zero))
              ST_InvalidSigningJob);
  mutation (fun metadata s =>
    _ ← reject_if (negb (bool_decide (wm_wallet_id metadata = xc_wallet_id c))) ST_SigningJobBindingDrift;
    '(job_id, _) ← ok_or (List.find (fun kv => claim_is_for c kv.2) (map_to_list (db_jobs s))) ST_SigningJobBindingDrift;
    _ ← reject_if (bool_decide (is_Some (db_claims s !! job_id))
                   || some_row (fun o => bool_decide (xc_session_id o = xc_session_id c)) (db_claims s)) ST_SigningJobConflict;
    Ok (append_audit metadata "chain_executor.claimed" (Some (uuid_to_string job_id)) (xc_claimed_at c)
          (put_claims (<[job_id := c]> (db_claims s)) s), tt)).

Definition finalized_job (signature : bytes) (now : Z) (j : StoredSigningJob) : StoredSigningJob :=
  mkStoredSigningJob (jb_bound j) (jb_operation_binding_digest j) SjFinalized (Some signature) (jb_terminal_reason j) now.
Definition terminated_job (status : SigningJobStatus) (reason : string) (now : Z) (j : StoredSigningJob) : StoredSigningJob :=
  mkStoredSigningJob (jb_bound j) (jb_operation_binding_digest j) status (jb_final_signature j) (Some reason) now.

(** The job ends and its intent leaves signing with it. *)
Definition end_signing_job (job_id : Uuid) (operation_binding_digest : bytes) (live : StoredSigningJob -> bool)
    (change : StoredSigningJob -> StoredSigningJob) (status : TransactionIntentStatus) (event : string) (now : Z)
    : act WalletDb StorageError unit :=
  mutation (fun metadata s =>
    j ← ok_or (db_jobs s !! job_id) ST_SigningJobBindingDrift;
    _ ← reject_if (negb (bool_decide (jn_wallet_id (jb_bound j) = wm_wallet_id metadata)
                         && bool_decide (jb_operation_binding_digest j = Some operation_binding_digest)
                         && bool_decide (jb_status j = SjSigning) && live j)) ST_SigningJobBindingDrift;
    jobs ← ok_or (update_where job_id (fun j => bool_decide (jb_status j = SjSigning)) change (db_jobs s))
             ST_SigningJobConflict;
    intents ← ok_or (update_where (jn_intent_id (jb_bound j))
                       (fun r => in_current_epoch metadata r && bool_decide (ir_status r = TxSigning))
                       (with_intent_status status now) (db_intents s)) ST_IntentTransitionConflict;
    Ok (append_audit metadata event (Some (uuid_to_string job_id)) now (put_intents intents (put_jobs jobs s)), tt)).

Definition complete_signing_job (job_id : Uuid) (operation_binding_digest final_signature : bytes) (now : Z)
    : act WalletDb StorageError unit :=
  _ ← lift (reject_if (bool_decide (final_signature = []) || (4096 <? length final_signature)%nat) ST_InvalidSigningJob);
  end_signing_job job_id operation_binding_digest (fun j => now <=? jn_expires_at (jb_bound j))
    (finalized_job final_signature now) TxSigned "chain_signing.finalized" now.

Definition terminate_signing_job (job_id : Uuid) (operation_binding_digest : bytes) (status : SigningJobStatus)
    (reason : string) (now : Z) : act WalletDb StorageError unit :=
  _ ← lift (reject_if (negb (bool_decide (status = SjAborted) || bool_decide (status = SjExpired)
                             || bool_decide (status = SjFailed))
                       || bool_decide (reason = "") || (128 <? String.length reason)%nat) ST_InvalidSigningJob);
  end_signing_job job_id operation_binding_digest (fun _ => true) (terminated_job status reason now) TxInvalidated
    "chain_signing.terminated" now.
End signers.
