(* ===== verification/CashAddr.v ===== *)
(** * Bitcoin Cash addresses (src/crates/chain-bitcoin-cash/src/address.rs)

    CashAddr and legacy addresses: regrouping of bits, the 40-bit checksum, the
    printer and the parser, and the network each text can identify.  The
    checksum is a linear code: that is what makes the printed text parse, the
    parsed text the only one, and a wrong character visible. *)

From Stdlib Require Import ZArith Lia Btauto.
From S2P Require Import Prelude Bitcoin ChainDomain Text.
From stdpp Require Import list.
Local Open Scope string_scope.
Local Open Scope list_scope.
Local Open Scope Z_scope.

(** ** Errors of the crate (lib.rs) *)

Inductive BchError :=
| MixedCaseAddress
| InvalidChecksum
| InvalidAddressEncoding
| InvalidAddressPayload
| WrongNetwork (expected : BitcoinCashNetwork) (actual : string)
| AmbiguousAddressNetwork
| InvalidPublicKey
| InvalidChange (change : Z)
| InvalidDerivationIndex (field : string) (value : Z)
| InvalidDerivationPath
| TransactionTooLarge (max_bytes : Z)
| MalformedTransaction
| NonCanonicalVarInt
| TrailingTransactionData
| TooManyTransactionElements (field : string)
| InputIndexOutOfBounds (index input_count : Z)
| MissingForkId
| UnsupportedSighashType (raw : Z)
| UnsafeReviewSighashType (raw : Z)
| UnsupportedForkId (id : Z)
| InvalidSecretKey
| InvalidSignatureEncoding
| SignatureHashTypeMismatch (expected actual : Z)
| InvalidSignature
| InvalidSchnorrSignatureLength (actual : Z)
| InvalidSigningRequest
| UnknownSigningRequestNetwork (id : Z).

#[export] Instance BchError_eq_dec : EqDecision BchError.
Proof. solve_decision. Defined.

(** ** Addresses *)

Definition CASHADDR_CHARSET : bytes := ascii_bytes "qpzry9x8gf2tvdw0s3jn54khce6mua7l".

Inductive AddressKind := P2pkh | P2sh.
Inductive AddressNetwork := AddrMainnet | AddrTestFamily | AddrRegtest | AddrLegacyNonMainnet.
Record Address := mkAddress {
  addr_network : AddressNetwork;
  addr_kind : AddressKind;
  addr_hash : bytes;
}.

#[export] Instance AddressKind_eq_dec : EqDecision AddressKind.
Proof. solve_decision. Defined.
#[export] Instance AddressNetwork_eq_dec : EqDecision AddressNetwork.
Proof. solve_decision. Defined.
#[export] Instance Address_eq_dec : EqDecision Address.
Proof. solve_decision. Defined.

(** The crates addresses are built with: ripemd, secp256k1 and bs58. *)
Inductive Base58Error := B58InvalidChecksum | B58Other.
Class AddressLib := {
  ripemd160 : bytes -> bytes;
  public_key_valid : bytes -> bool;
  base58check_encode : bytes -> string;
  base58check_decode : string -> result Base58Error bytes;
}.
Class AddressLaws (L : AddressLib) : Prop := {
  ripemd160_length b : length (ripemd160 b) = 20%nat;
  base58check_decode_encode b : base58check_decode (base58check_encode b) = Ok b;
}.

Definition address_network (network : BitcoinCashNetwork) : AddressNetwork :=
  match network with
  | BchMainnet => AddrMainnet
  | BchRegtest => AddrRegtest
  | BchTestnet3 | BchTestnet4 | BchScalenet | BchChipnet => AddrTestFamily
  end.

Definition cashaddr_prefix (network : AddressNetwork) : option string :=
  match network with
  | AddrMainnet => Some "bitcoincash"
  | AddrTestFamily => Some "bchtest"
  | AddrRegtest => Some "bchreg"
  | AddrLegacyNonMainnet => None
  end.

Definition address_network_name (network : AddressNetwork) : string :=
  match network with
  | AddrMainnet => "mainnet"
  | AddrTestFamily => "test-family"
  | AddrRegtest => "regtest"
  | AddrLegacyNonMainnet => "legacy non-mainnet family"
  end.

Definition require_cashaddr_network (expected_network : BitcoinCashNetwork) (actual_prefix : bytes)
    : result BchError AddressNetwork :=
  actual_network ←
    (if bool_decide (actual_prefix = ascii_bytes "bitcoincash") then Ok AddrMainnet
     else if bool_decide (actual_prefix = ascii_bytes "bchtest") then Ok AddrTestFamily
     else if bool_decide (actual_prefix = ascii_bytes "bchreg") then Ok AddrRegtest
     else Err (WrongNetwork expected_network "unknown"));
  if bool_decide (actual_network = address_network expected_network) then Ok actual_network
  else Err (WrongNetwork expected_network (address_network_name actual_network)).

Definition legacy_version (network : AddressNetwork) (kind : AddressKind) : Z :=
  match network, kind with
  | AddrMainnet, P2pkh => 0
  | AddrMainnet, P2sh => 5
  | AddrTestFamily, P2pkh => 111
  | AddrTestFamily, P2sh => 196
  | AddrRegtest, P2pkh => 111
  | AddrRegtest, P2sh => 196
  | AddrLegacyNonMainnet, P2pkh => 111
  | AddrLegacyNonMainnet, P2sh => 196
  end.

Definition prefix_expand (prefix : bytes) : list Z :=
  ((fun b => Z.land (b2z b) 31) <$> prefix) ++ [0].

(** *** The checksum *)

Definition GENERATORS : list Z :=
  [0x98f2bc8e61; 0x79b76d99e2; 0xf33e5fb3c4; 0xae2eabe2a8; 0x1e4f43e470].

(** One turn of the loop over the values. *)
Definition polymod_step (checksum value : Z) : Z :=
  let high := Z.shiftr checksum 35 in
  let checksum := Z.lxor (wrap 64 (Z.shiftl (Z.land checksum 0x7ffffffff) 5)) value in
  foldl (fun checksum '(bit, generator) =>
           if negb (Z.land (Z.shiftr high (Z.of_nat bit)) 1 =? 0) then Z.lxor checksum generator else checksum)
    checksum (zip (seq 0 5) GENERATORS).

Definition polymod (values : list Z) : Z := Z.lxor (foldl polymod_step 1 values) 1.

(** *** Regrouping of bits *)

(** [while bits >= to]; each turn lowers [bits] by [to]. *)
Fixpoint emit_groups (fuel : nat) (to max_value accumulator bits : Z) (result : list Z) : Z * list Z :=
  match fuel with
  | O => (bits, result)
  | S n =>
      if to <=? bits
      then emit_groups n to max_value accumulator (bits - to)
             (result ++ [wrap 8 (Z.land (Z.shiftr accumulator (bits - to)) max_value)])
      else (bits, result)
  end.

Definition convert_step (from to : Z) (state : Z * Z * list Z) (value : Z) : result BchError (Z * Z * list Z) :=
  let '(accumulator, bits, out) := state in
  let max_value := Z.shiftl 1 to - 1 in
  let max_accumulator := Z.shiftl 1 (from + to - 1) - 1 in
  if negb (Z.shiftr value from =? 0) then Err InvalidAddressPayload
  else
    let accumulator := Z.land (Z.lor (wrap 32 (Z.shiftl accumulator from)) value) max_accumulator in
    let '(bits, out) := emit_groups (Z.to_nat (bits + from)) to max_value accumulator (bits + from) out in
    Ok (accumulator, bits, out).

Definition convert_bits (data : list Z) (from to : Z) (pad : bool) : result BchError (list Z) :=
  let max_value := Z.shiftl 1 to - 1 in
  '(accumulator, bits, out) ← foldM (convert_step from to) (0, 0, []) data;
  let rest := Z.land (wrap 32 (Z.shiftl accumulator (to - bits))) max_value in
  if pad then
    Ok (if negb (bits =? 0) then out ++ [wrap 8 rest] else out)
  else if (from <=? bits) || negb (rest =? 0) then Err InvalidAddressPayload
  else Ok out.

(** *** Text *)

Definition is_ascii_lowercase (b : byte) : bool := (97 <=? b2z b) && (b2z b <=? 122).
Definition is_ascii_uppercase (b : byte) : bool := (65 <=? b2z b) && (b2z b <=? 90).
Definition is_ascii (b : byte) : bool := b2z b <? 128.
Definition to_ascii_lowercase (b : byte) : byte := if is_ascii_uppercase b then z2b (b2z b + 32) else b.

(** [str::split_once] *)
Fixpoint split_once (sep : byte) (b : bytes) : option (bytes * bytes) :=
  match b with
  | [] => None
  | x :: r => if bool_decide (x = sep) then Some ([], r)
              else '(p, q) ← split_once sep r; Some (x :: p, q)
  end.

Definition charset_char (value : Z) : byte := default x00 (CASHADDR_CHARSET !! Z.to_nat value).
Definition charset_index (b : byte) : result BchError Z :=
  i ← ok_or (position (fun candidate => bool_decide (candidate = b)) CASHADDR_CHARSET) InvalidAddressEncoding;
  Ok (wrap 8 (Z.of_nat i)).

Definition kind_version (kind : AddressKind) : Z := match kind with P2pkh => 0 | P2sh => 8 end.

Definition checksum_symbols (checksum : Z) : list Z :=
  (fun shift => wrap 8 (Z.land (Z.shiftr checksum (5 * (7 - Z.of_nat shift))) 31)) <$> seq 0 8.

(** [to_cashaddr]; [convert_bits(..).expect(..)] panics when it fails. *)
Definition to_cashaddr (self : Address) : outcome BchError string :=
  prefix ← try_ (ok_or (cashaddr_prefix (addr_network self)) AmbiguousAddressNetwork);
  let bs := kind_version (addr_kind self) :: (b2z <$> addr_hash self) in
  payload ← map_err (fun _ => Panic) (convert_bits bs 8 5 true);
  let checksum := polymod (prefix_expand (ascii_bytes prefix) ++ payload ++ replicate 8 0) in
  let payload := payload ++ checksum_symbols checksum in
  Ok (prefix +:+ ":" +:+ String.string_of_list_byte (charset_char <$> payload)).

(** The prefix, written or implied, and the payload of a normalized text. *)
Definition cashaddr_parts (expected_network : BitcoinCashNetwork) (normalized : bytes)
    : result BchError (bytes * bytes) :=
  match split_once x3a normalized with
  | Some (prefix, payload) =>
      if negb (existsb (fun b => bool_decide (b = x3a)) payload) then Ok (prefix, payload)
      else Err InvalidAddressEncoding
  | None =>
      prefix ← ok_or (cashaddr_prefix (address_network expected_network)) InvalidAddressEncoding;
      Ok (ascii_bytes prefix, normalized)
  end.

(** The rest of [parse_cashaddr], on the two parts. *)
Definition parse_payload (expected_network : BitcoinCashNetwork) (prefix payload_text : bytes)
    : result BchError Address :=
  _ ← reject_if (bool_decide (prefix = []) || (length payload_text <? 8)%nat) InvalidAddressEncoding;
  network ← require_cashaddr_network expected_network prefix;
  payload ← mapM_result charset_index payload_text;
  _ ← reject_if (negb (polymod (prefix_expand prefix ++ payload) =? 0)) InvalidChecksum;
  data ← convert_bits (take (length payload - 8) payload) 5 8 false;
  _ ← reject_if (negb (length data =? 21)%nat) InvalidAddressPayload;
  match data with
  | version :: hash =>
      kind ← (if version =? 0 then Ok P2pkh else if version =? 8 then Ok P2sh else Err InvalidAddressPayload);
      Ok (mkAddress network kind (z2b <$> hash))
  | [] => Err InvalidAddressPayload
  end.

Definition parse_cashaddr (expected_network : BitcoinCashNetwork) (encoded : string) : result BchError Address :=
  let encoded := ascii_bytes encoded in
  _ ← reject_if (existsb is_ascii_lowercase encoded && existsb is_ascii_uppercase encoded) MixedCaseAddress;
  _ ← reject_if (negb (forallb is_ascii encoded)) InvalidAddressEncoding;
  let normalized := to_ascii_lowercase <$> encoded in
  '(prefix, payload_text) ← cashaddr_parts expected_network normalized;
  parse_payload expected_network prefix payload_text.

Section library.
Context `{BitcoinLib} {L : AddressLib}.

Definition hash160 (b : bytes) : bytes := ripemd160 (sha256 b).

Definition Address_new (network : BitcoinCashNetwork) (kind : AddressKind) (hash : bytes) : Address :=
  mkAddress (address_network network) kind hash.

Definition p2pkh_from_public_key (network : BitcoinCashNetwork) (public_key : bytes) : result BchError Address :=
  _ ← reject_if (negb (public_key_valid public_key)) InvalidPublicKey;
  Ok (Address_new network P2pkh (hash160 public_key)).

Definition p2sh_from_redeem_script (network : BitcoinCashNetwork) (redeem_script : bytes) : Address :=
  Address_new network P2sh (hash160 redeem_script).

Definition to_legacy (self : Address) : string :=
  base58check_encode (z2b (legacy_version (addr_network self) (addr_kind self)) :: addr_hash self).

Definition parse_legacy (expected_network : BitcoinCashNetwork) (encoded : string) : result BchError Address :=
  payload ← map_err (fun e => match e with B58InvalidChecksum => InvalidChecksum | B58Other => InvalidAddressEncoding end)
              (base58check_decode encoded);
  _ ← reject_if (negb (length payload =? 21)%nat) InvalidAddressPayload;
  match payload with
  | version :: hash =>
      '(kind, network) ←
        match b2z version with
        | 0 => Ok (P2pkh, AddrMainnet)
        | 5 => Ok (P2sh, AddrMainnet)
        | 111 => Ok (P2pkh, AddrLegacyNonMainnet)
        | 196 => Ok (P2sh, AddrLegacyNonMainnet)
        | _ => Err InvalidAddressPayload
        end;
      let expected_address_network := address_network expected_network in
      let compatible := bool_decide (network = expected_address_network)
        || (bool_decide (network = AddrLegacyNonMainnet)
            && negb (bool_decide (expected_address_network = AddrMainnet))) in
      _ ← reject_if (negb compatible) (WrongNetwork expected_network (address_network_name network));
      Ok (mkAddress network kind hash)
  | [] => Err InvalidAddressPayload
  end.
End library.

Definition require_exact_network (self : Address) (expected : BitcoinCashNetwork) : result BchError Address :=
  match addr_network self, address_network expected with
  | AddrTestFamily, AddrTestFamily | AddrLegacyNonMainnet, _ => Err AmbiguousAddressNetwork
  | actual, expected_network =>
      if bool_decide (actual = expected_network) then Ok self
      else Err (WrongNetwork expected (address_network_name actual))
  end.

(** * The CashAddr code: regrouping and checksum

    Lemmas about [convert_bits] and [polymod] of CashAddr.  A list of [w]-bit
    symbols is the number it spells; regrouping keeps the number, so the two
    directions are inverse.  The checksum is linear over xor, so the last eight
    symbols can be solved for. *)

Local Open Scope list_scope.
Local Open Scope Z_scope.

(** ** Numbers spelled in [w]-bit symbols *)

Definition spell (w : Z) (l : list Z) : Z := foldl (fun acc v => acc * 2 ^ w + v) 0 l.

Lemma spell_snoc w l v : spell w (l ++ [v]) = spell w l * 2 ^ w + v.
Proof. unfold spell. by rewrite foldl_snoc. Qed.

Lemma spell_range w l : 0 <= w -> Forall (fits w) l -> 0 <= spell w l < 2 ^ (w * Z.of_nat (length l)).
Proof.
  intros Hw. induction l as [|v l IH] using rev_ind; [intros _; rewrite Z.mul_0_r; cbn; lia|].
  rewrite Forall_app, Forall_singleton. unfold fits. intros [Hl Hv]. specialize (IH Hl).
  rewrite spell_snoc, length_app. simpl. rewrite Nat2Z.inj_add, Z.mul_add_distr_l, Z.pow_add_r by lia.
  change (Z.of_nat 1) with 1. rewrite Z.mul_1_r. nia.
Qed.

Lemma spell_inj w l k :
  0 <= w -> length l = length k -> Forall (fits w) l -> Forall (fits w) k -> spell w l = spell w k -> l = k.
Proof.
  intros Hw. revert k. induction l as [|v l IH] using rev_ind; intros k Hlen Hl Hk.
  { intros _. symmetry. by apply length_zero_iff_nil. }
  destruct k as [|x k _] using rev_ind; [rewrite length_app in Hlen; simpl in Hlen; lia|].
  rewrite !length_app in Hlen. simpl in Hlen. rewrite !spell_snoc.
  rewrite !Forall_app, !Forall_singleton in *. destruct Hl as [Hl Hv], Hk as [Hk Hx]. unfold fits in Hv, Hx. intros Heq. assert (spell w l = spell w k /\ v = x) as [Hs ->].
  { apply (Z.div_mod_unique (2 ^ w)); [left; lia..|lia]. }
  f_equal. apply IH; [lia|done..].
Qed.

(** ** Bit operations as arithmetic *)

Lemma land_mask z w : 0 <= w -> Z.land z (Z.shiftl 1 w - 1) = z mod 2 ^ w.
Proof. intros. rewrite Z.shiftl_1_l, <- Z.land_ones by done. by rewrite Z.ones_equiv, Z.sub_1_r. Qed.

Lemma land_shiftl_low a w v : fits w v -> 0 <= w -> Z.land (Z.shiftl a w) v = 0.
Proof.
  intros Hv Hw. apply Z.bits_inj'. intros n Hn. rewrite Z.land_spec, Z.bits_0.
  destruct (Z.lt_ge_cases n w).
  - by rewrite Z.shiftl_spec_low.
  - rewrite <- (Z.mod_small v (2 ^ w)) by done. rewrite Z.mod_pow2_bits_high by lia. apply andb_false_r.
Qed.

Lemma lxor_shiftl a w v : fits w v -> 0 <= w -> Z.lxor (Z.shiftl a w) v = a * 2 ^ w + v.
Proof.
  intros. rewrite <- Z.shiftl_mul_pow2 by done. symmetry. by apply Z.add_nocarry_lxor, land_shiftl_low.
Qed.

Lemma lor_shiftl a w v : fits w v -> 0 <= w -> Z.lor (Z.shiftl a w) v = a * 2 ^ w + v.
Proof. intros. rewrite <- Z.lxor_lor by by apply land_shiftl_low. by apply lxor_shiftl. Qed.

Lemma mod_split z a b : 0 <= a -> 0 <= b -> z mod 2 ^ (a + b) = (z / 2 ^ a mod 2 ^ b) * 2 ^ a + z mod 2 ^ a.
Proof. intros. rewrite Z.pow_add_r, Z.rem_mul_r by lia. lia. Qed.

Lemma mod_mod_pow z a b : 0 <= a -> 0 <= b -> (z mod 2 ^ (a + b)) mod 2 ^ a = z mod 2 ^ a.
Proof. intros. rewrite mod_split, (Z.add_comm (_ * _)), Z.mod_add, Z.mod_mod by lia. done. Qed.

(** ** Regrouping *)

Section regroup.
Variables from to : Z.
Hypothesis Hfrom : 1 <= from <= 8.
Hypothesis Hto : 1 <= to <= 8.

(** What the loop holds after the symbols [p]: the number they spell, split in
    the groups already out and the [bits] low bits of the accumulator. *)
Definition regroup_inv (p : list Z) (s : Z * Z * list Z) : Prop :=
  let '(accumulator, bits, out) := s in
  fits (from + to - 1) accumulator /\ 0 <= bits < to /\ Forall (fits from) p /\ Forall (fits to) out /\
  spell to out * 2 ^ bits + accumulator mod 2 ^ bits = spell from p /\
  to * Z.of_nat (length out) + bits = from * Z.of_nat (length p).

Lemma emit_groups_spec fuel acc bits out b' out' :
  0 <= bits -> (Z.to_nat bits <= fuel)%nat -> Forall (fits to) out ->
  emit_groups fuel to (Z.shiftl 1 to - 1) acc bits out = (b', out') ->
  0 <= b' < to /\ Forall (fits to) out' /\
  spell to out' * 2 ^ b' + acc mod 2 ^ b' = spell to out * 2 ^ bits + acc mod 2 ^ bits /\
  to * Z.of_nat (length out') + b' = to * Z.of_nat (length out) + bits.
Proof.
  revert bits out. induction fuel as [|n IH]; intros bits out Hb Hfuel Hout; simpl.
  { intros [= <- <-]. split_and!; done || lia. }
  destruct (Z.leb_spec to bits); [|intros [= <- <-]; split_and!; done || lia].
  rewrite land_mask, Z.shiftr_div_pow2 by lia. set (v := acc / 2 ^ (bits - to) mod 2 ^ to).
  assert (fits to v) as Hv by (apply Z.mod_pos_bound; lia).
  rewrite wrap_id.
  2:{ unfold fits in *. pose proof (Z.pow_le_mono_r 2 to 8 ltac:(lia) ltac:(lia)). lia. }
  intros He. apply IH in He as (? & ? & E1 & E2); [|lia|lia|by apply Forall_app; split; [|constructor]].
  split_and!; [lia|lia|done| |rewrite E2, length_app; simpl; lia].
  rewrite E1, spell_snoc.
  replace bits with ((bits - to) + to) at 3 4 by lia. rewrite mod_split, Z.pow_add_r by lia. fold v. ring.
Qed.

Lemma convert_step_inv p v s s' :
  0 <= v -> regroup_inv p s -> convert_step from to s v = Ok s' -> regroup_inv (p ++ [v]) s'.
Proof.
  destruct s as [[acc bits] out]. unfold convert_step.
  intros Hv0 (Hacc & Hbits & Hp & Hout & Hval & Hlen).
  destruct (Z.eqb_spec (Z.shiftr v from) 0) as [Hv|]; cbn [negb]; [|done].
  rewrite Z.shiftr_div_pow2 in Hv by lia.
  assert (fits from v) as Hvf by (unfold fits; apply Z.div_small_iff in Hv; lia).
  assert (wrap 32 (Z.shiftl acc from) = Z.shiftl acc from) as ->.
  { apply wrap_id. unfold fits in *. rewrite Z.shiftl_mul_pow2 by lia.
    pose proof (Z.pow_le_mono_r 2 (from + to - 1) 15 ltac:(lia) ltac:(lia)).
    pose proof (Z.pow_le_mono_r 2 from 8 ltac:(lia) ltac:(lia)). nia. }
  rewrite lor_shiftl, land_mask by (done || lia). set (acc' := (_ + v) mod _).
  destruct (emit_groups _ _ _ _ _ _) as [b' out'] eqn:E. intros [= <-].
  apply emit_groups_spec in E as (Hb' & Ho' & E1 & E2); [|lia|lia|done].
  assert (acc' mod 2 ^ (bits + from) = acc mod 2 ^ bits * 2 ^ from + v) as Hmod.
  { unfold acc'. replace (from + to - 1) with ((bits + from) + (to - 1 - bits)) by lia.
    rewrite mod_mod_pow by lia.
    rewrite (Z.add_comm bits), mod_split by lia.
    rewrite Z.div_add_l, (Z.div_small v), Z.add_0_r by (unfold fits in *; lia).
    f_equal. rewrite (Z.add_comm _ v), Z.mod_add by lia. by apply Z.mod_small. }
  split_and!; [apply Z.mod_pos_bound; lia|lia|lia|by apply Forall_app; split; [|constructor]|done| |].
  - rewrite E1, Hmod, spell_snoc, <- Hval, Z.pow_add_r by lia. ring.
  - rewrite E2, length_app. simpl. lia.
Qed.

Lemma convert_step_Ok s v : fits from v -> is_ok (convert_step from to s v) = true.
Proof.
  destruct s as [[acc bits] out]. intros [Hv Hv']. unfold convert_step.
  rewrite Z.shiftr_div_pow2, Z.div_small by lia. simpl. by destruct (emit_groups _ _ _ _ _ _).
Qed.

Lemma convert_loop_inv data s :
  Forall (fun v => 0 <= v) data -> foldM (convert_step from to) (0, 0, []) data = Ok s -> regroup_inv data s.
Proof.
  intros Hd. apply foldM_inv.
  - assert (0 < 2 ^ (from + to - 1)) by lia. unfold regroup_inv, fits. split_and!; [lia..| | | |];
      rewrite ?Z.mod_1_r; simpl; done || lia.
  - intros pre v post s1 s2 -> HI. apply convert_step_inv; [|done].
    apply Forall_app in Hd as [_ Hd]. by inversion Hd.
Qed.

Lemma convert_loop_Ok data s :
  Forall (fits from) data -> is_ok (foldM (convert_step from to) s data) = true.
Proof.
  intros Hd. revert s. induction Hd as [|v data Hv Hd IH]; intros s; simpl; [done|].
  pose proof (convert_step_Ok s v Hv). destruct (convert_step _ _ _ _); simpl; [apply IH|done].
Qed.

Lemma rest_bits acc bits :
  fits (from + to - 1) acc -> 0 <= bits < to ->
  Z.land (wrap 32 (Z.shiftl acc (to - bits))) (Z.shiftl 1 to - 1) = acc mod 2 ^ bits * 2 ^ (to - bits).
Proof.
  intros Hacc Hb. rewrite wrap_id.
  2:{ unfold fits in *. rewrite Z.shiftl_mul_pow2 by lia.
      pose proof (Z.pow_le_mono_r 2 (from + to - 1) 15 ltac:(lia) ltac:(lia)).
      pose proof (Z.pow_le_mono_r 2 (to - bits) 8 ltac:(lia) ltac:(lia)). nia. }
  rewrite land_mask, Z.shiftl_mul_pow2 by lia. replace to with (bits + (to - bits)) at 2 by lia.
  rewrite Z.pow_add_r by lia. by rewrite Z.mul_mod_distr_r by lia.
Qed.

(** Padded regrouping never fails on symbols of its width, and multiplies the
    number by the fewest bits that complete a group. *)
Lemma convert_bits_pad data :
  Forall (fits from) data ->
  exists out, convert_bits data from to true = Ok out /\ Forall (fits to) out /\
    let extra := to * Z.of_nat (length out) - from * Z.of_nat (length data) in
    0 <= extra < to /\ spell to out = spell from data * 2 ^ extra.
Proof.
  intros Hd. unfold convert_bits.
  pose proof (convert_loop_Ok data (0, 0, []) Hd) as Hok.
  destruct (foldM _ _ _) as [[[acc bits] out]|] eqn:E; [|done].
  apply convert_loop_inv in E as (Hacc & Hb & _ & Ho & Hval & Hlen).
  2:{ eapply Forall_impl; [exact Hd|]. by intros v [? ?]. }
  cbn [mbind result_bind]. destruct (Z.eqb_spec bits 0) as [->|Hnz]; cbn [negb].
  - exists out. split_and!; [done|done|lia|lia|]. rewrite Z.mod_1_r in Hval.
    replace (_ - _) with 0 by lia. lia.
  - rewrite rest_bits by done.
    assert (fits to (acc mod 2 ^ bits * 2 ^ (to - bits))) as Hr.
    { unfold fits. pose proof (Z.mod_pos_bound acc (2 ^ bits) ltac:(lia)).
      replace (2 ^ to) with (2 ^ bits * 2 ^ (to - bits)) by (rewrite <- Z.pow_add_r by lia; f_equal; lia). nia. }
    rewrite wrap_id.
    2:{ unfold fits in *. pose proof (Z.pow_le_mono_r 2 to 8 ltac:(lia) ltac:(lia)). lia. }
    eexists. split; [done|]. split; [apply Forall_app; split; [done|by constructor]|].
    rewrite length_app. simpl. replace (to * _ - _) with (to - bits) by lia. split; [lia|].
    rewrite spell_snoc, <- Hval. replace (2 ^ to) with (2 ^ bits * 2 ^ (to - bits)).
    + ring.
    + rewrite <- Z.pow_add_r by lia. f_equal. lia.
Qed.

(** Strict regrouping accepts when what is left over is short and zero. *)
Lemma convert_bits_strict data out :
  Forall (fun v => 0 <= v) data ->
  convert_bits data from to false = Ok out <->
  Forall (fits from) data /\ Forall (fits to) out /\
  let extra := from * Z.of_nat (length data) - to * Z.of_nat (length out) in
  0 <= extra < Z.min from to /\ spell from data = spell to out * 2 ^ extra.
Proof.
  intros Hd. unfold convert_bits. split.
  - intros Hc. apply bind_Ok in Hc as ([[acc bits] o] & E & Hc).
    apply convert_loop_inv in E as (Hacc & Hb & Hp & Ho & Hval & Hlen); [|done].
    rewrite rest_bits in Hc by done. destruct (Z.leb_spec from bits); [done|]. cbn [orb] in Hc.
    destruct (Z.eqb_spec (acc mod 2 ^ bits * 2 ^ (to - bits)) 0) as [Hz|]; [|done]. injection Hc as <-.
    assert (acc mod 2 ^ bits = 0) as Hz' by nia. split_and!; [done|done|lia|lia|].
    replace (_ - _) with bits by lia. lia.
  - intros (Hf & Ho & Hx & Hs).
    pose proof (convert_loop_Ok data (0, 0, []) Hf) as Hok.
    destruct (foldM _ _ _) as [[[acc bits] o]|] eqn:E; [|done].
    apply convert_loop_inv in E as (Hacc & Hb & _ & Ho' & Hval & Hlen); [|done].
    cbn [mbind result_bind]. rewrite rest_bits by done.
    assert (length o = length out /\ bits = from * Z.of_nat (length data) - to * Z.of_nat (length out)) as [Hl Hbe].
    { assert (Z.of_nat (length o) = Z.of_nat (length out)) by nia. lia. }
    rewrite <- Hbe in Hs, Hx.
    assert (spell to o = spell to out /\ acc mod 2 ^ bits = 0) as [Heq Hz].
    { apply (Z.div_mod_unique (2 ^ bits)); [left; apply Z.mod_pos_bound; lia|left; lia|lia]. }
    rewrite Hz. destruct (Z.leb_spec from bits); [lia|]. cbn.
    f_equal. apply (spell_inj to); done || lia.
Qed.
End regroup.

(** ** The checksum is linear *)

(** What the high five bits feed back. *)
Definition feedback (high : Z) : Z :=
  foldr (fun '(bit, generator) acc => Z.lxor (if Z.testbit high (Z.of_nat bit) then generator else 0) acc)
    0 (zip (seq 0 5) GENERATORS).

Lemma low_bit x : negb (Z.land x 1 =? 0) = Z.odd x.
Proof.
  replace (Z.land x 1) with (x mod 2) by exact (eq_sym (land_mask x 1 ltac:(lia))).
  rewrite Zmod_odd. by destruct (Z.odd x).
Qed.

Lemma polymod_step_eq c v :
  polymod_step c v = Z.lxor (Z.lxor (Z.shiftl (c mod 2 ^ 35) 5) v) (feedback (Z.shiftr c 35)).
Proof.
  unfold polymod_step. change 0x7ffffffff with (Z.shiftl 1 35 - 1). rewrite land_mask by lia.
  rewrite wrap_id.
  2:{ unfold fits. pose proof (Z.mod_pos_bound c (2 ^ 35) ltac:(lia)). rewrite Z.shiftl_mul_pow2 by lia.
      change (2 ^ 64) with (2 ^ 35 * 2 ^ 29). lia. }
  generalize (Z.lxor (Z.shiftl (c mod 2 ^ 35) 5) v). intros x. generalize (Z.shiftr c 35). intros h.
  unfold feedback. revert x. induction (zip (seq 0 5) GENERATORS) as [|[b g] l IH]; intros x; simpl.
  - by rewrite Z.lxor_0_r.
  - rewrite IH, low_bit, <- Z.bit0_odd, Z.shiftr_spec, Z.add_0_l by lia.
    destruct (Z.testbit h (Z.of_nat b)); [by rewrite Z.lxor_assoc|by rewrite Z.lxor_0_l].
Qed.

Lemma feedback_lxor a b : feedback (Z.lxor a b) = Z.lxor (feedback a) (feedback b).
Proof.
  unfold feedback. induction (zip (seq 0 5) GENERATORS) as [|[n g] l IH]; simpl; [done|].
  rewrite IH, Z.lxor_spec. apply Z.bits_inj'. intros k _. rewrite !Z.lxor_spec.
  destruct (Z.testbit a (Z.of_nat n)), (Z.testbit b (Z.of_nat n)); cbn [xorb]; rewrite ?Z.bits_0; btauto.
Qed.

Lemma polymod_step_lxor a b v w :
  polymod_step (Z.lxor a b) (Z.lxor v w) = Z.lxor (polymod_step a v) (polymod_step b w).
Proof.
  rewrite !polymod_step_eq, Z.shiftr_lxor, feedback_lxor, <- !Z.land_ones by lia.
  apply Z.bits_inj'. intros k Hk. rewrite !Z.lxor_spec, !Z.shiftl_spec, !Z.land_spec, !Z.lxor_spec by done. btauto.
Qed.

(** Two runs of equal length add up. *)
Lemma polymod_run_lxor vs ws a b :
  length vs = length ws ->
  foldl polymod_step (Z.lxor a b) (zip_with Z.lxor vs ws) =
  Z.lxor (foldl polymod_step a vs) (foldl polymod_step b ws).
Proof.
  revert ws a b. induction vs as [|v vs IH]; intros [|w ws] a b; simpl; try done.
  intros [= Hl]. rewrite polymod_step_lxor. by apply IH.
Qed.

Lemma feedback_range h : fits 40 (feedback h).
Proof.
  unfold feedback. simpl. repeat match goal with |- context [if ?c then _ else _] => destruct c end; by vm_compute.
Qed.

Lemma fits_bits w z : 0 <= w -> 0 <= z -> (fits w z <-> forall n, w <= n -> Z.testbit z n = false).
Proof.
  intros Hw Hz. split.
  - intros Hf n Hn. rewrite <- (Z.mod_small z (2 ^ w)) by done. by apply Z.mod_pow2_bits_high.
  - intros Hb. enough (z mod 2 ^ w = z) as <- by (apply Z.mod_pos_bound; lia).
    apply Z.bits_inj'. intros n Hn. destruct (Z.lt_ge_cases n w).
    + by rewrite Z.mod_pow2_bits_low.
    + by rewrite Z.mod_pow2_bits_high, Hb.
Qed.

Lemma lxor_fits w a b : 0 <= w -> fits w a -> fits w b -> fits w (Z.lxor a b).
Proof.
  intros Hw Ha Hb. apply fits_bits; [done|apply Z.lxor_nonneg; unfold fits in *; lia|].
  intros n Hn. rewrite Z.lxor_spec.
  rewrite (proj1 (fits_bits w a Hw (proj1 Ha))), (proj1 (fits_bits w b Hw (proj1 Hb))) by done. done.
Qed.

Lemma polymod_step_range c v : fits 5 v -> fits 40 (polymod_step c v).
Proof.
  intros Hv. rewrite polymod_step_eq, lxor_shiftl by (done || lia).
  apply lxor_fits; [lia| |apply feedback_range]. unfold fits in *.
  pose proof (Z.mod_pos_bound c (2 ^ 35) ltac:(lia)). change (2 ^ 40) with (2 ^ 35 * 2 ^ 5). lia.
Qed.

Lemma polymod_run_range c vs : fits 40 c -> Forall (fits 5) vs -> fits 40 (foldl polymod_step c vs).
Proof. intros Hc Hvs. revert c Hc. induction Hvs; intros c Hc; simpl; [done|]. by apply IHHvs, polymod_step_range. Qed.

(** A register that has not filled up only collects symbols. *)
Lemma polymod_step_short c v : fits 35 c -> fits 5 v -> polymod_step c v = c * 2 ^ 5 + v.
Proof.
  intros Hc Hv. rewrite polymod_step_eq, lxor_shiftl by (done || lia).
  rewrite Z.mod_small, Z.shiftr_div_pow2, Z.div_small by (done || lia). apply Z.lxor_0_r.
Qed.

Lemma polymod_run_short vs :
  (length vs <= 8)%nat -> Forall (fits 5) vs -> foldl polymod_step 0 vs = spell 5 vs.
Proof.
  induction vs as [|v vs IH] using rev_ind; [done|].
  rewrite length_app, Forall_app, Forall_singleton. simpl. intros Hl [Hvs Hv].
  rewrite foldl_snoc, IH, spell_snoc by (done || lia). apply polymod_step_short; [|done].
  pose proof (spell_range 5 vs ltac:(lia) Hvs). unfold fits.
  pose proof (Z.pow_le_mono_r 2 (5 * Z.of_nat (length vs)) 35 ltac:(lia) ltac:(lia)). lia.
Qed.

(** The checksum of eight final symbols is the checksum with zeros in their
    place, plus the symbols. *)
Lemma polymod_tail xs vs :
  length vs = 8%nat -> Forall (fits 5) vs ->
  polymod (xs ++ vs) = Z.lxor (polymod (xs ++ replicate 8 0)) (spell 5 vs).
Proof.
  intros Hl Hvs. unfold polymod. rewrite !foldl_app, <- (polymod_run_short vs) by (done || lia).
  assert (vs = zip_with Z.lxor (replicate 8 0) vs) as Hz
    by (do 8 (destruct vs as [|? vs]; [done|]); by destruct vs).
  rewrite Hz at 1. rewrite <- (Z.lxor_0_r (foldl polymod_step 1 xs)) at 1.
  rewrite polymod_run_lxor by done. apply Z.bits_inj'. intros k _. rewrite !Z.lxor_spec. btauto.
Qed.

Lemma checksum_symbols_spec c :
  fits 40 c -> length (checksum_symbols c) = 8%nat /\ Forall (fits 5) (checksum_symbols c) /\
  spell 5 (checksum_symbols c) = c.
Proof.
  intros Hc. unfold checksum_symbols. split; [done|].
  assert (forall k, wrap 8 (Z.land (Z.shiftr c (5 * k)) 31) = c / 2 ^ (5 * k) mod 2 ^ 5 \/ k < 0) as Hs.
  { intros k. destruct (Z.lt_ge_cases k 0); [by right|left].
    change 31 with (Z.shiftl 1 5 - 1). rewrite land_mask, Z.shiftr_div_pow2 by lia. apply wrap_id. unfold fits.
    pose proof (Z.mod_pos_bound (c / 2 ^ (5 * k)) (2 ^ 5) ltac:(lia)). lia. }
  cbn [seq fmap list_fmap Z.of_nat].
  repeat match goal with |- context [wrap 8 (Z.land (Z.shiftr c (5 * (7 - ?i))) 31)] =>
    let E := fresh in destruct (Hs (7 - i)) as [E|E]; [rewrite E; clear E|lia] end.
  split; [repeat constructor; apply Z.mod_pos_bound; lia|].
  unfold spell. cbn [foldl]. unfold fits in Hc. cbn. clear Hs. Z.div_mod_to_equations. lia.
Qed.

(** ** Errors the checksum always shows *)

Lemma feedback_low h : fits 5 h -> feedback h mod 2 ^ 5 = h.
Proof.
  intros [Hh Hh']. assert (forallb (fun n => feedback (Z.of_nat n) mod 2 ^ 5 =? Z.of_nat n) (seq 0 32) = true) as HF
    by by vm_compute.
  rewrite forallb_forall in HF. specialize (HF (Z.to_nat h)). rewrite Z2Nat.id in HF by done.
  apply Z.eqb_eq, HF, in_seq. lia.
Qed.

(** The register never forgets: a step with a zero symbol is injective. *)
Lemma polymod_step_nonzero c : fits 40 c -> polymod_step c 0 = 0 -> c = 0.
Proof.
  intros Hc. rewrite polymod_step_eq, Z.lxor_0_r. intros E%Z.lxor_eq. unfold fits in Hc.
  assert (fits 5 (Z.shiftr c 35)) as Hh.
  { unfold fits. rewrite Z.shiftr_div_pow2 by lia. split; [apply Z.div_pos; lia|apply Z.div_lt_upper_bound; lia]. }
  pose proof (feedback_low _ Hh) as Hl. rewrite <- E, Z.shiftl_mul_pow2, Z.mod_mul in Hl by lia.
  rewrite <- Hl in E. change (feedback 0) with 0 in E. rewrite Z.shiftl_mul_pow2 in E by lia.
  rewrite Z.shiftr_div_pow2 in Hl by lia. pose proof (Z.div_mod c (2 ^ 35) ltac:(lia)). lia.
Qed.

Lemma polymod_run_nonzero c n : fits 40 c -> foldl polymod_step c (replicate n 0) = 0 -> c = 0.
Proof.
  revert c. induction n as [|n IH]; intros c Hc; simpl; [done|].
  intros E%IH; [by apply polymod_step_nonzero|]. by apply polymod_step_range.
Qed.

Lemma lxor_self_zip vs : zip_with Z.lxor vs vs = replicate (length vs) 0.
Proof. induction vs as [|v vs IH]; simpl; [done|]. by rewrite IH, Z.lxor_nilpotent. Qed.

Lemma zip_lxor_fits vs ws : Forall (fits 5) vs -> Forall (fits 5) ws -> Forall (fits 5) (zip_with Z.lxor vs ws).
Proof.
  intros Hv. revert ws. induction Hv as [|v vs Hv Hvs IH]; intros ws Hw; simpl; [constructor|].
  destruct Hw; constructor; [by apply lxor_fits|auto].
Qed.

Lemma zip_lxor_zero vs ws :
  length vs = length ws -> Forall (fun z => z = 0) (zip_with Z.lxor vs ws) -> vs = ws.
Proof.
  revert ws. induction vs as [|v vs IH]; intros [|w ws]; simpl; try done.
  intros [= Hl] HF. inversion HF as [|? ? E HF']; subst. apply Z.lxor_eq in E as ->. f_equal. auto.
Qed.

Lemma spell_zero w l : 0 <= w -> Forall (fits w) l -> spell w l = 0 -> Forall (fun z => z = 0) l.
Proof.
  intros Hw Hl E. assert (Forall (fits w) (replicate (length l) 0)) as Hr.
  { apply Forall_replicate. unfold fits. lia. }
  assert (spell w (replicate (length l) 0) = 0) as Hz.
  { clear. generalize (length l). intros n. unfold spell. induction n; simpl; [done|]. exact IHn. }
  rewrite (spell_inj w l (replicate (length l) 0)); [by apply Forall_replicate|done|by rewrite length_replicate|done..|].
  by rewrite E, Hz.
Qed.

(** Any change confined to eight consecutive symbols changes the checksum. *)
Lemma polymod_burst xs vs ws ys :
  length vs = length ws -> (length vs <= 8)%nat -> Forall (fits 5) vs -> Forall (fits 5) ws ->
  polymod (xs ++ vs ++ ys) = polymod (xs ++ ws ++ ys) -> vs = ws.
Proof.
  intros Hl H8 Hv Hw E. unfold polymod in E. rewrite !foldl_app in E.
  set (c := foldl polymod_step 1 xs) in E.
  assert (Z.lxor (foldl polymod_step (foldl polymod_step c vs) ys) (foldl polymod_step (foldl polymod_step c ws) ys) = 0) as E0.
  { apply Z.lxor_eq_0_iff. apply (f_equal (fun z => Z.lxor z 1)) in E.
    by rewrite !Z.lxor_assoc, Z.lxor_nilpotent, !Z.lxor_0_r in E. }
  rewrite <- polymod_run_lxor, <- polymod_run_lxor, Z.lxor_nilpotent, lxor_self_zip in E0 by done.
  rewrite polymod_run_short in E0 by (rewrite ?length_zip_with; try apply zip_lxor_fits; done || lia).
  apply polymod_run_nonzero in E0.
  - by apply zip_lxor_zero, (spell_zero 5); [|lia|apply zip_lxor_fits|].
  - pose proof (spell_range 5 (zip_with Z.lxor vs ws) ltac:(lia) (zip_lxor_fits _ _ Hv Hw)) as Hr.
    rewrite length_zip_with in Hr. unfold fits.
    pose proof (Z.pow_le_mono_r 2 (5 * Z.of_nat (length vs `min` length ws)) 40 ltac:(lia) ltac:(lia)). lia.
Qed.

(** ** Regrouping of a payload, both ways *)

Lemma regroup_payload data :
  Forall (fits 8) data ->
  exists out, convert_bits data 8 5 true = Ok out /\ Forall (fits 5) out /\ convert_bits out 5 8 false = Ok data.
Proof.
  intros Hd. destruct (convert_bits_pad 8 5 ltac:(lia) ltac:(lia) data Hd) as (out & E & Ho & Hx & Hs).
  exists out. split_and!; [done|done|]. apply convert_bits_strict; [lia..| |].
  { eapply Forall_impl; [exact Ho|]. by intros v [? ?]. }
  split; [done|]. split; [done|]. split; [lia|done].
Qed.

Lemma regroup_unique out data :
  Forall (fun v => 0 <= v) out -> convert_bits out 5 8 false = Ok data ->
  Forall (fits 8) data /\ convert_bits data 8 5 true = Ok out.
Proof.
  intros H0 E. apply convert_bits_strict in E as (Ho & Hd & Hx & Hs); [|lia..|done].
  split; [done|]. destruct (convert_bits_pad 8 5 ltac:(lia) ltac:(lia) data Hd) as (out' & E' & Ho' & Hx' & Hs').
  rewrite E'. f_equal. assert (length out' = length out) as Hl by lia.
  apply (spell_inj 5); [lia|done..|]. by rewrite Hs, Hs', Hl.
Qed.
