(* ===== verification/CashAddrProperties.v ===== *)
(** * What CashAddr promises

    The printer and the parser determine each other, and a text with a few
    neighbouring characters wrong is never accepted. *)

From Stdlib Require Import ZArith Lia.
From S2P Require Import Prelude Bitcoin ChainDomain Text CashAddr.
From stdpp Require Import list.
Local Open Scope string_scope.
Local Open Scope list_scope.
Local Open Scope Z_scope.

(** ** The alphabet *)

Definition symbols : list Z := Z.of_nat <$> seq 0 32.

Lemma symbols_spec v : fits 5 v -> In v symbols.
Proof.
  intros [Hv Hv']. apply list_elem_of_In, list_elem_of_fmap. exists (Z.to_nat v).
  rewrite elem_of_seq. change (2 ^ 5) with 32 in Hv'. lia.
Qed.

(** Decide a property of all symbols by running it. *)
Lemma symbols_forall (P : Z -> bool) v : forallb P symbols = true -> fits 5 v -> P v = true.
Proof. intros HF Hv. rewrite forallb_forall in HF. by apply HF, symbols_spec. Qed.

Lemma charset_index_char v : fits 5 v -> charset_index (charset_char v) = Ok v.
Proof.
  intros Hv. apply (symbols_forall (fun v => bool_decide (charset_index (charset_char v) = Ok v))) in Hv;
    [by apply bool_decide_eq_true in Hv|by vm_compute].
Qed.

Lemma charset_index_Ok b v : charset_index b = Ok v -> fits 5 v /\ charset_char v = b.
Proof.
  unfold charset_index. intros. res_inv. apply position_Some in E as [(c & Hc & Hb) _].
  apply bool_decide_eq_true in Hb as ->. pose proof (lookup_lt_Some _ _ _ Hc) as Hl.
  change (length CASHADDR_CHARSET) with 32%nat in Hl. rewrite wrap_id in H by (unfold fits; lia). subst v.
  split; [unfold fits; lia|]. unfold charset_char. by rewrite Nat2Z.id, Hc.
Qed.

Lemma charset_plain v :
  fits 5 v -> is_ascii (charset_char v) = true /\ charset_char v <> x3a.
Proof.
  intros Hv.
  apply (symbols_forall (fun v => bool_decide (is_ascii (charset_char v) = true /\ charset_char v <> x3a)))
    in Hv; [by apply bool_decide_eq_true in Hv|by vm_compute].
Qed.

Lemma charset_text l : Forall (fits 5) l -> mapM_result charset_index (charset_char <$> l) = Ok l.
Proof.
  intros Hl. apply mapM_result_Ok. induction Hl; csimpl; constructor; [by apply charset_index_char|done].
Qed.

Lemma charset_text_inv t l : mapM_result charset_index t = Ok l -> t = charset_char <$> l /\ Forall (fits 5) l.
Proof.
  intros HF%mapM_result_Ok. induction HF as [|b v t l Hb _ [-> IH]]; [done|].
  apply charset_index_Ok in Hb as [Hv <-]. split; [done|by constructor].
Qed.

(** ** Texts *)

Lemma ascii_bytes_app s t : ascii_bytes (s +:+ t) = ascii_bytes s ++ ascii_bytes t.
Proof.
  unfold ascii_bytes. induction s as [|c s IH]; [done|].
  change (String c s +:+ t) with (String c (s +:+ t)). exact (f_equal (cons (Ascii.byte_of_ascii c)) IH).
Qed.

Lemma ascii_bytes_string b : ascii_bytes (String.string_of_list_byte b) = b.
Proof. apply String.list_byte_of_string_of_list_byte. Qed.

Lemma string_ascii_bytes s : String.string_of_list_byte (ascii_bytes s) = s.
Proof. apply String.string_of_list_byte_of_string. Qed.

Definition lowercase (s : string) : string := String.string_of_list_byte (to_ascii_lowercase <$> ascii_bytes s).
Definition single_case (s : string) : Prop :=
  existsb is_ascii_lowercase (ascii_bytes s) && existsb is_ascii_uppercase (ascii_bytes s) = false.

Lemma split_once_app sep p q : sep ∉ p -> split_once sep (p ++ sep :: q) = Some (p, q).
Proof.
  induction p as [|x p IH]; intros Hp; simpl; [by rewrite bool_decide_true|].
  apply not_elem_of_cons in Hp as [Hx Hp]. rewrite bool_decide_false by done. by rewrite IH.
Qed.

Lemma split_once_None sep b : split_once sep b = None <-> sep ∉ b.
Proof.
  induction b as [|x b IH]; simpl; [split; [intros _; apply not_elem_of_nil|done]|].
  rewrite not_elem_of_cons. case_bool_decide as E; [split; [done|naive_solver]|].
  destruct (split_once sep b) as [[p q]|]; simpl; [|naive_solver].
  split; [done|]. intros [_ Hb]. by apply IH in Hb.
Qed.

Lemma split_once_Some sep b p q : split_once sep b = Some (p, q) -> b = p ++ sep :: q.
Proof.
  revert p. induction b as [|x b IH]; intros p; simpl; [done|]. case_bool_decide as E.
  - by intros [= <- <-]; subst.
  - destruct (split_once sep b) as [[p' q']|]; simpl; [|done]. intros [= <- <-]. simpl. by rewrite (IH p').
Qed.

Lemma existsb_elem x (l : bytes) : existsb (fun b => bool_decide (b = x)) l = false <-> x ∉ l.
Proof.
  induction l as [|y l IH]; simpl; [split; [intros _; apply not_elem_of_nil|done]|].
  rewrite orb_false_iff, IH, not_elem_of_cons, bool_decide_eq_false. naive_solver.
Qed.

(** Lower-casing keeps everything but ASCII capitals. *)
Lemma lower_ascii b : is_ascii (to_ascii_lowercase b) = is_ascii b.
Proof.
  unfold to_ascii_lowercase, is_ascii_uppercase, is_ascii. pose proof (b2z_range b).
  destruct (Z.leb_spec 65 (b2z b)), (Z.leb_spec (b2z b) 90); cbn [andb]; try done.
  rewrite b2z_z2b, Z.mod_small by lia. destruct (Z.ltb_spec (b2z b + 32) 128), (Z.ltb_spec (b2z b) 128); done || lia.
Qed.

(** ** Prefixes *)

Definition prefixed (network : AddressNetwork) (prefix : bytes) : Prop :=
  ascii_bytes <$> cashaddr_prefix network = Some prefix.

Lemma prefixed_facts network prefix :
  prefixed network prefix ->
  prefix <> [] /\ x3a ∉ prefix /\ Forall (fits 5) (prefix_expand prefix) /\ forallb is_ascii prefix = true.
Proof.
  unfold prefixed. destruct network; simpl; intros [= <-]; (split; [done|]);
    (split; [apply (bool_decide_unpack _); by vm_compute|]); (split; [repeat constructor; by vm_compute|done]).
Qed.

Lemma require_cashaddr_network_Ok n prefix network :
  require_cashaddr_network n prefix = Ok network <-> network = address_network n /\ prefixed network prefix.
Proof.
  unfold require_cashaddr_network, prefixed. split.
  - repeat case_bool_decide; cbn; try case_bool_decide; intros [= <-]; by subst.
  - intros [-> Hp]. destruct n; simpl in Hp; injection Hp as <-; by vm_compute.
Qed.

(** ** The payload *)

Definition version_and_hash (a : Address) : list Z := kind_version (addr_kind a) :: (b2z <$> addr_hash a).
Definition with_checksum (prefix : bytes) (data : list Z) : list Z :=
  data ++ checksum_symbols (polymod (prefix_expand prefix ++ data ++ replicate 8 0)).

Lemma version_and_hash_fits a : Forall (fits 8) (version_and_hash a).
Proof.
  constructor; [by destruct (addr_kind a)|]. apply Forall_fmap, Forall_true. intros b. apply b2z_range.
Qed.

Lemma bytes_of_symbols hash : Forall (fits 8) hash -> b2z <$> (z2b <$> hash) = hash.
Proof. induction 1 as [|v l Hv Hl IH]; csimpl; [done|]. by rewrite IH, b2z_z2b_u8. Qed.

Lemma symbols_of_bytes (b : bytes) : z2b <$> (b2z <$> b) = b.
Proof. induction b as [|x b IH]; csimpl; [done|]. by rewrite z2b_b2z, IH. Qed.

Lemma polymod_zeros_range prefix data :
  Forall (fits 5) (prefix_expand prefix) -> Forall (fits 5) data ->
  fits 40 (polymod (prefix_expand prefix ++ data ++ replicate 8 0)).
Proof.
  intros Hp Hd. unfold polymod. apply lxor_fits; [lia| |done]. apply polymod_run_range; [done|].
  rewrite !Forall_app. split_and!; [done..|]. by apply Forall_replicate.
Qed.

(** Eight final symbols make the checksum zero when they are the checksum. *)
Lemma checksum_zero prefix data c :
  Forall (fits 5) (prefix_expand prefix) -> Forall (fits 5) data -> Forall (fits 5) c -> length c = 8%nat ->
  polymod (prefix_expand prefix ++ data ++ c) = 0 <-> data ++ c = with_checksum prefix data.
Proof.
  intros Hp Hd Hc Hl. destruct (checksum_symbols_spec _ (polymod_zeros_range prefix data Hp Hd)) as (Hl' & Hf' & Hs).
  unfold with_checksum. rewrite (assoc_L (++)), polymod_tail, <- (assoc_L (++)) by done. rewrite Z.lxor_eq_0_iff.
  split.
  - intros E. f_equal. apply (spell_inj 5); [lia|by rewrite Hl'|done|done|]. by rewrite Hs.
  - intros E%app_inv_head. rewrite E. by rewrite Hs.
Qed.

Lemma parse_payload_Ok n prefix text a :
  parse_payload n prefix text = Ok a <->
  addr_network a = address_network n /\ prefixed (addr_network a) prefix /\ length (addr_hash a) = 20%nat /\
  exists data, convert_bits (version_and_hash a) 8 5 true = Ok data /\
    text = charset_char <$> with_checksum prefix data.
Proof.
  unfold parse_payload. split.
  - intros HP. res_inv. apply require_cashaddr_network_Ok in E0 as [-> Hpre].
    destruct (prefixed_facts _ _ Hpre) as (_ & _ & Hpf & _). apply charset_text_inv in E1 as [-> Hsym].
    rename r1 into syms, r3 into data. rewrite length_fmap in H0.
    rewrite <- (take_drop (length syms - 8) syms) in E2, Hsym |- *.
    set (d := take (length syms - 8) syms) in *. set (c := drop (length syms - 8) syms) in *.
    assert (length c = 8%nat) as Hc by (unfold c; rewrite length_drop; lia).
    apply Forall_app in Hsym as [Hd Hcf]. apply checksum_zero in E2; [|done..].
    apply regroup_unique in E3 as [Hdata Hreg]; [|eapply Forall_impl; [exact Hd|]; by intros v [? ?]].
    destruct data as [|version hash]; [done|]. apply bind_Ok in HP as (kind & Hk & [= <-]).
    inversion Hdata as [|? ? Hv Hh]; subst. simpl in *. split_and!; [done|done|rewrite length_fmap; lia|].
    exists d. rewrite <- E2. split; [|done]. unfold version_and_hash. simpl.
    rewrite bytes_of_symbols by done. rewrite <- Hreg. f_equal.
    destruct (Z.eqb_spec version 0) as [->|]; [by injection Hk as <-|].
    destruct (Z.eqb_spec version 8) as [->|]; [by injection Hk as <-|done].
  - intros (Hn & Hpre & Hl & data & Hconv & ->). destruct (prefixed_facts _ _ Hpre) as (Hne & _ & Hpf & _).
    destruct (regroup_payload _ (version_and_hash_fits a)) as (data' & E & Hd & Hback).
    rewrite Hconv in E. injection E as <-.
    destruct (checksum_symbols_spec _ (polymod_zeros_range prefix data Hpf Hd)) as (Hl' & Hf' & _).
    assert (Forall (fits 5) (with_checksum prefix data)) as Hw by by apply Forall_app.
    assert (length (with_checksum prefix data) - 8 = length data)%nat as Hlen
      by (unfold with_checksum; rewrite length_app, Hl'; lia).
    rewrite reject_if_pass. 2:{ autorewrite with guards. split; [done|]. rewrite length_fmap.
      unfold with_checksum. rewrite length_app. lia. }
    res_cbn. rewrite (proj2 (require_cashaddr_network_Ok n prefix (addr_network a))) by done.
    res_cbn. rewrite charset_text by done. res_cbn.
    rewrite reject_if_pass. 2:{ apply negb_false_iff, Z.eqb_eq. by apply checksum_zero. }
    res_cbn. rewrite Hlen. unfold with_checksum at 1. rewrite take_app_length, Hback. res_cbn.
    rewrite reject_if_pass. 2:{ unfold version_and_hash. simpl. rewrite length_fmap, Hl. done. }
    destruct a as [net kind hash]. simpl in *.
    unfold version_and_hash. destruct kind; simpl; by rewrite symbols_of_bytes.
Qed.

Lemma to_cashaddr_Ok a t :
  to_cashaddr a = Ok t <->
  exists prefix data, cashaddr_prefix (addr_network a) = Some prefix /\
    convert_bits (version_and_hash a) 8 5 true = Ok data /\
    t = prefix +:+ ":" +:+ String.string_of_list_byte (charset_char <$> with_checksum (ascii_bytes prefix) data).
Proof.
  unfold to_cashaddr, with_checksum, version_and_hash. split.
  - intros HT. res_inv. subst. by exists r, r0.
  - intros (prefix & data & -> & Hc & ->). res_cbn. by rewrite Hc.
Qed.

Lemma charset_text_plain l :
  Forall (fits 5) l -> x3a ∉ charset_char <$> l /\ forallb is_ascii (charset_char <$> l) = true.
Proof.
  induction 1 as [|v l Hv Hl [IH1 IH2]]; csimpl; [split; [apply not_elem_of_nil|done]|].
  destruct (charset_plain v Hv) as [Ha Hc]. rewrite not_elem_of_cons, Ha. by split; [split; [apply not_eq_sym|]|].
Qed.

Lemma with_checksum_fits a prefix data :
  prefixed (addr_network a) prefix -> convert_bits (version_and_hash a) 8 5 true = Ok data ->
  Forall (fits 5) (with_checksum prefix data).
Proof.
  intros (_ & _ & Hp & _)%prefixed_facts Hc.
  destruct (regroup_payload _ (version_and_hash_fits a)) as (data' & E & Hd & _). rewrite Hc in E. injection E as <-.
  apply Forall_app. split; [done|]. by apply checksum_symbols_spec, polymod_zeros_range.
Qed.

Lemma cashaddr_parts_Ok n b p q :
  cashaddr_parts n b = Ok (p, q) -> x3a ∉ q /\ (b = p ++ x3a :: q \/ b = q /\ prefixed (address_network n) p).
Proof.
  unfold cashaddr_parts, prefixed. destruct (split_once x3a b) as [[p' q']|] eqn:E.
  - destruct (existsb _ q') eqn:Eq; cbn; [done|]. intros [= -> ->]. split; [by apply existsb_elem|].
    left. by apply split_once_Some.
  - intros HP. res_inv. apply split_once_None in E. simplify_eq. split; [done|]. right. by rewrite E0.
Qed.

Lemma cashaddr_parts_written n p q : x3a ∉ p -> x3a ∉ q -> cashaddr_parts n (p ++ x3a :: q) = Ok (p, q).
Proof. intros Hp Hq. unfold cashaddr_parts. rewrite split_once_app by done. apply existsb_elem in Hq. by rewrite Hq. Qed.

Lemma cashaddr_parts_implied n p q :
  prefixed (address_network n) p -> x3a ∉ q -> cashaddr_parts n q = Ok (p, q).
Proof.
  intros Hp Hq. unfold cashaddr_parts, prefixed in *. rewrite (proj2 (split_once_None _ _)) by done.
  destruct (cashaddr_prefix _) as [s|]; simpl in *; congruence.
Qed.

(** What an accepted text is, on its bytes. *)
Lemma parse_cashaddr_Ok n s a :
  parse_cashaddr n s = Ok a <->
  single_case s /\ addr_network a = address_network n /\ length (addr_hash a) = 20%nat /\
  exists prefix data, prefixed (addr_network a) prefix /\ convert_bits (version_and_hash a) 8 5 true = Ok data /\
    let text := charset_char <$> with_checksum prefix data in
    (to_ascii_lowercase <$> ascii_bytes s = prefix ++ x3a :: text \/ to_ascii_lowercase <$> ascii_bytes s = text).
Proof.
  unfold parse_cashaddr, single_case. split.
  - intros HP. apply bind_Ok in HP as (_ & Hcase%reject_if_Ok & HP). apply bind_Ok in HP as (_ & Hasc%reject_if_Ok & HP).
    apply bind_Ok in HP as ([prefix text] & Hparts & HP). apply cashaddr_parts_Ok in Hparts as [_ Hparts].
    apply parse_payload_Ok in HP as (Hn & Hpre & Hl & data & Hconv & ->).
    split_and!; [done..|]. exists prefix, data. split_and!; [done..|]. naive_solver.
  - intros (Hcase & Hn & Hl & prefix & data & Hpre & Hconv & Htext). cbv zeta in Htext.
    pose proof (with_checksum_fits _ _ _ Hpre Hconv) as Hf. apply charset_text_plain in Hf as [Hcol Hta].
    destruct (prefixed_facts _ _ Hpre) as (_ & Hpc & _ & Hpa).
    rewrite (reject_if_pass _ _ Hcase). res_cbn.
    assert (forallb is_ascii (ascii_bytes s) = true) as Hasc.
    { transitivity (forallb is_ascii (to_ascii_lowercase <$> ascii_bytes s)).
      - generalize (ascii_bytes s). intros l. induction l as [|x l IH]; csimpl; [done|]. by rewrite lower_ascii, IH.
      - destruct Htext as [->| ->]; [|done]. rewrite forallb_app, Hpa. simpl. by rewrite Hta. }
    rewrite Hasc. res_cbn.
    assert (cashaddr_parts n (to_ascii_lowercase <$> ascii_bytes s) = Ok (prefix, charset_char <$> with_checksum prefix data)) as ->.
    { destruct Htext as [->| ->]; [by apply cashaddr_parts_written|]. apply cashaddr_parts_implied; [by rewrite <- Hn|done]. }
    res_cbn. apply parse_payload_Ok. split_and!; [done..|]. by exists data.
Qed.

(** C25: A text is a CashAddr of the expected network exactly when it is
    the printed form of the address it yields, in one case and with the prefix
    written or left out.  So every printed address parses back to itself, and
    an address has no other text. *)
Theorem cashaddr_parse_print n s a :
  parse_cashaddr n s = Ok a <->
  addr_network a = address_network n /\ length (addr_hash a) = 20%nat /\ single_case s /\
  exists prefix payload, cashaddr_prefix (addr_network a) = Some prefix /\
    to_cashaddr a = Ok (prefix +:+ ":" +:+ payload) /\
    (lowercase s = prefix +:+ ":" +:+ payload \/ lowercase s = payload).
Proof.
  rewrite parse_cashaddr_Ok. split.
  - intros (Hcase & Hn & Hl & prefix & data & Hpre & Hconv & Htext). split_and!; [done..|].
    unfold prefixed in Hpre. destruct (cashaddr_prefix (addr_network a)) as [p|] eqn:Ep; simplify_eq/=.
    exists p, (String.string_of_list_byte (charset_char <$> with_checksum (ascii_bytes p) data)).
    split_and!; [done|apply to_cashaddr_Ok; by exists p, data|].
    unfold lowercase. destruct Htext as [->| ->]; [left|by right]. apply ascii_bytes_inj.
    by rewrite !ascii_bytes_app, !ascii_bytes_string.
  - intros (Hn & Hl & Hcase & prefix & payload & Hpre & Ht & Htext). split_and!; [done..|].
    apply to_cashaddr_Ok in Ht as (p & data & Hp & Hconv & Ht). rewrite Hpre in Hp. injection Hp as <-.
    apply (f_equal ascii_bytes) in Ht. rewrite !ascii_bytes_app, ascii_bytes_string in Ht.
    apply app_inv_head, app_inv_head in Ht. exists (ascii_bytes prefix), data.
    unfold prefixed. rewrite Hpre. split_and!; [done..|]. cbv zeta. rewrite <- Ht.
    destruct Htext as [Htext|Htext]; [left|right]; apply (f_equal ascii_bytes) in Htext;
      unfold lowercase in Htext; by rewrite ascii_bytes_string, ?ascii_bytes_app in Htext.
Qed.

Definition demo_hash : bytes := be_bytes 20 0xF5BF48B397DAE70BE82B3CCA4793F8EB2B6CDAC9.
Definition demo_address : Address := mkAddress AddrMainnet P2pkh demo_hash.
Definition demo_payload : string := "qr6m7j9njldwwzlg9v7v53unlr4jkmx6eylep8ekg2".

(** A published test vector, in capitals and without its prefix. *)
Lemma cashaddr_parse_print_witness :
  parse_cashaddr BchMainnet "QR6M7J9NJLDWWZLG9V7V53UNLR4JKMX6EYLEP8EKG2" = Ok demo_address.
Proof.
  apply cashaddr_parse_print. split_and!; [done..|]. exists "bitcoincash", demo_payload.
  split_and!; [done|by vm_compute|right; by vm_compute].
Defined.

(** ** Wrong characters *)

Lemma charset_inj l k : Forall (fits 5) l -> Forall (fits 5) k -> charset_char <$> l = charset_char <$> k -> l = k.
Proof. intros Hl%charset_text Hk%charset_text E. rewrite E in Hl. congruence. Qed.

Lemma burst_symbols prefix p w w' q l l' :
  Forall (fits 5) l -> Forall (fits 5) l' ->
  polymod (prefix_expand prefix ++ l) = 0 -> polymod (prefix_expand prefix ++ l') = 0 ->
  p ++ w ++ q = charset_char <$> l -> p ++ w' ++ q = charset_char <$> l' ->
  length w' = length w -> (length w <= 8)%nat -> w' = w.
Proof.
  intros Hl Hl' H0 H0' E E' Hlen H8. symmetry in E, E'.
  apply fmap_app_inv in E as (xs & r & -> & E & ->). symmetry in E. apply fmap_app_inv in E as (vs & ys & -> & -> & ->).
  apply fmap_app_inv in E' as (xs' & r' & Ex & E' & ->). symmetry in E'. apply fmap_app_inv in E' as (vs' & ys' & -> & Ey & ->).
  rewrite !Forall_app in Hl, Hl'. destruct Hl as (? & ? & ?), Hl' as (? & ? & ?).
  apply charset_inj in Ex as ->; [|done..]. apply charset_inj in Ey as ->; [|done..].
  rewrite !length_fmap in *. rewrite !(assoc_L (++)) in H0, H0'. rewrite <- (assoc_L (++)) in H0, H0'.
  f_equal. apply (polymod_burst (prefix_expand prefix ++ xs') vs' vs ys'); [done|lia|done|done|].
  rewrite <- !(assoc_L (++)) in *. congruence.
Qed.

Lemma split_front (c : byte) lp r prefix text :
  c ∈ lp -> c ∉ prefix -> lp ++ r = prefix ++ c :: text -> exists p, lp = prefix ++ c :: p /\ text = p ++ r.
Proof.
  intros (p1 & p2 & -> & Hp1)%list_elem_of_split_l Hp. rewrite <- (assoc_L (++)). simpl. intros E.
  apply (f_equal (split_once c)) in E. rewrite !split_once_app in E by done. injection E as -> <-. by exists p2.
Qed.

Lemma with_checksum_zero a prefix data :
  prefixed (addr_network a) prefix -> convert_bits (version_and_hash a) 8 5 true = Ok data ->
  polymod (prefix_expand prefix ++ with_checksum prefix data) = 0.
Proof.
  intros Hpre Hc. pose proof (with_checksum_fits _ _ _ Hpre Hc) as [Hd Hs]%Forall_app.
  apply prefixed_facts in Hpre as (_ & _ & Hp & _). by apply checksum_zero.
Qed.

(** The payload an accepted text carries, as symbols with checksum zero. *)
Lemma accepted_symbols n s a :
  parse_cashaddr n s = Ok a ->
  exists prefix l, prefixed (address_network n) prefix /\ Forall (fits 5) l /\
    polymod (prefix_expand prefix ++ l) = 0 /\ x3a ∉ charset_char <$> l /\
    (to_ascii_lowercase <$> ascii_bytes s = prefix ++ x3a :: (charset_char <$> l) \/
     to_ascii_lowercase <$> ascii_bytes s = charset_char <$> l).
Proof.
  intros (_ & Hn & _ & prefix & data & Hpre & Hconv & Htext)%parse_cashaddr_Ok.
  pose proof (with_checksum_fits _ _ _ Hpre Hconv) as Hf. exists prefix, (with_checksum prefix data). rewrite <- Hn.
  split_and!; [done|done|by eapply with_checksum_zero|by apply charset_text_plain|done].
Qed.

(** Change at most eight neighbouring characters behind the prefix of an
    accepted address, to whatever text; what results is rejected. *)
Theorem cashaddr_burst_rejected n s s' a pre w w' post :
  parse_cashaddr n s = Ok a ->
  ascii_bytes s = pre ++ w ++ post -> ascii_bytes s' = pre ++ w' ++ post ->
  x3a ∈ to_ascii_lowercase <$> pre \/ x3a ∉ to_ascii_lowercase <$> ascii_bytes s
    /\ x3a ∉ to_ascii_lowercase <$> ascii_bytes s' ->
  length w' = length w -> (length w <= 8)%nat -> to_ascii_lowercase <$> w' <> to_ascii_lowercase <$> w ->
  is_ok (parse_cashaddr n s') = false.
Proof.
  intros HP Es Es' Hcol Hlen H8 Hne. destruct (parse_cashaddr n s') as [a'|] eqn:HP'; [exfalso; apply Hne|done].
  apply accepted_symbols in HP as (prefix & l & Hpre & Hl & H0 & Hnc & Htext).
  apply accepted_symbols in HP' as (prefix' & l' & Hpre' & Hl' & H0' & Hnc' & Htext').
  assert (prefix' = prefix) as -> by (unfold prefixed in *; congruence).
  destruct (prefixed_facts _ _ Hpre) as (_ & Hpc & _).
  rewrite Es, !fmap_app in Htext. rewrite Es', !fmap_app in Htext'. rewrite Es, Es', !fmap_app in Hcol.
  assert (exists p, p ++ (to_ascii_lowercase <$> w) ++ (to_ascii_lowercase <$> post) = charset_char <$> l /\
    p ++ (to_ascii_lowercase <$> w') ++ (to_ascii_lowercase <$> post) = charset_char <$> l') as (p & E & E').
  { destruct Hcol as [Hcol|[Hc Hc']].
    - destruct Htext as [Ht|Ht]; [|destruct Hnc; rewrite <- Ht, elem_of_app; by left].
      destruct Htext' as [Ht'|Ht']; [|destruct Hnc'; rewrite <- Ht', elem_of_app; by left].
      apply split_front in Ht as (p & Ep & Et); [|done..]. apply split_front in Ht' as (p' & Ep' & Et'); [|done..].
      rewrite Ep in Ep'. apply app_inv_head in Ep' as [= <-]. by exists p.
    - destruct Htext as [Ht|Ht]; [destruct Hc; rewrite Ht, elem_of_app, elem_of_cons; by right; left|].
      destruct Htext' as [Ht'|Ht']; [destruct Hc'; rewrite Ht', elem_of_app, elem_of_cons; by right; left|].
      by exists (to_ascii_lowercase <$> pre). }
  eapply (burst_symbols prefix p _ _ _ l l'); rewrite ?length_fmap; done.
Qed.

(** Eight wrong characters at the end of the vector. *)
Lemma cashaddr_burst_rejected_witness :
  is_ok (parse_cashaddr BchMainnet "bitcoincash:qr6m7j9njldwwzlg9v7v53unlr4jkmx6eyaaaaaaaa") = false.
Proof.
  apply (cashaddr_burst_rejected _ ("bitcoincash:" +:+ demo_payload) _ demo_address
    (ascii_bytes "bitcoincash:qr6m7j9njldwwzlg9v7v53unlr4jkmx6ey") (ascii_bytes "lep8ekg2") (ascii_bytes "aaaaaaaa") []).
  - by vm_compute.
  - by vm_compute.
  - by vm_compute.
  - left. apply (bool_decide_unpack _). by vm_compute.
  - done.
  - simpl. lia.
  - by vm_compute.
Defined.

(** ** Networks *)

Section networks.
Context `{BitcoinLib} {L : AddressLib} {LL : AddressLaws L}.

(** A legacy text carries the hash and the kind; outside the main network it
    no longer says which network it was printed for. *)
Lemma legacy_roundtrip n a :
  length (addr_hash a) = 20%nat -> addr_network a = address_network n ->
  parse_legacy n (to_legacy a) =
  Ok (mkAddress (match address_network n with AddrMainnet => AddrMainnet | _ => AddrLegacyNonMainnet end)
        (addr_kind a) (addr_hash a)).
Proof.
  intros Hl Hn. unfold parse_legacy, to_legacy. rewrite base58check_decode_encode. res_cbn.
  rewrite reject_if_pass by (simpl; by rewrite Hl). res_cbn.
  destruct a as [net kind hash]; simpl in *; subst net. by destruct n, kind.
Qed.

(** The exact-network check passes only for the network the text was parsed
    for, and only where that network has a text form of its own. *)
Lemma exact_network_unique n m s a a' :
  parse_cashaddr n s = Ok a \/ parse_legacy n s = Ok a ->
  require_exact_network a m = Ok a' -> a' = a /\ m = n /\ (n = BchMainnet \/ n = BchRegtest).
Proof.
  intros Hp Hx.
  assert (addr_network a = address_network n \/ addr_network a = AddrLegacyNonMainnet) as Hn.
  { destruct Hp as [(_ & Hn & _)%parse_cashaddr_Ok|Hp]; [by left|]. unfold parse_legacy in Hp.
    res_inv. destruct r as [|v h]; [done|]. apply bind_Ok in Hp as ([kind net] & Hk & Hp).
    res_inv. subst a. simpl. naive_solver. }
  unfold require_exact_network in Hx. destruct Hn as [Hn|Hn]; rewrite Hn in Hx; [|done].
  destruct n, m; simpl in Hx; simplify_eq; naive_solver.
Qed.
End networks.
