(* ===== verification/BchTransaction.v ===== *)
(** * Bitcoin Cash transactions (src/crates/chain-bitcoin-cash/src/transaction.rs)

    The consensus codec of the crate, its bounds-checked reader, and the
    fork-id signature hash.  [usize] is 64 bits wide, so [usize::try_from] of a
    [u64] succeeds; positions and lengths are integers of that width. *)

From Stdlib Require Import ZArith Lia.
From S2P Require Import Prelude Bitcoin ChainDomain Text CashAddr.
From stdpp Require Import list.
Local Open Scope string_scope.
Local Open Scope list_scope.
Local Open Scope Z_scope.

Definition MAX_TRANSACTION_BYTES : Z := 32 * 1024 * 1024.
Definition MAX_TRANSACTION_ELEMENTS : Z := 1000000.
Definition BCH_ZERO_HASH : bytes := replicate 32 x00.

Definition len (b : bytes) : Z := Z.of_nat (length b).

(** ** Signature hash types *)

Definition ForkIdSighashType := Z.
Definition SIGHASH_ALL : ForkIdSighashType := 0x41.
Definition SIGHASH_NONE : ForkIdSighashType := 0x42.
Definition SIGHASH_SINGLE : ForkIdSighashType := 0x43.
Definition SIGHASH_ALL_ANYONECANPAY : ForkIdSighashType := 0xc1.
Definition SIGHASH_NONE_ANYONECANPAY : ForkIdSighashType := 0xc2.
Definition SIGHASH_SINGLE_ANYONECANPAY : ForkIdSighashType := 0xc3.

Definition sighash_from_consensus (raw : Z) : result BchError ForkIdSighashType :=
  _ ← reject_if (Z.land raw 0x40 =? 0) MissingForkId;
  let base := Z.land raw 0x1f in
  let allowed_low := Z.lor (Z.lor base 0x40) (Z.land raw 0x80) in
  _ ← reject_if (negb ((1 <=? base) && (base <=? 3)) || negb (Z.land raw 0xff =? allowed_low))
        (UnsupportedSighashType raw);
  Ok raw.

Definition fork_id (t : ForkIdSighashType) : Z := Z.shiftr t 8.
Definition sighash_base (t : ForkIdSighashType) : Z := Z.land t 0x1f.
Definition anyone_can_pay (t : ForkIdSighashType) : bool := negb (Z.land t 0x80 =? 0).
Definition signature_byte (t : ForkIdSighashType) : result BchError Z :=
  _ ← reject_if (negb (fork_id t =? 0)) (UnsupportedForkId (fork_id t));
  Ok (wrap 8 t).

(** ** Transactions *)

Record BchOutPoint := mkBchOutPoint { op_txid : bytes; op_output_index : Z }.
Record BchTxIn := mkBchTxIn { in_previous_output : BchOutPoint; in_script_sig : bytes; in_sequence : Z }.
Record BchTxOut := mkBchTxOut { out_value : Z; out_script_pubkey : bytes }.
Record BchTransaction := mkBchTransaction {
  btx_version : Z;
  btx_inputs : list BchTxIn;
  btx_outputs : list BchTxOut;
  btx_lock_time : Z;
}.

#[export] Instance BchOutPoint_eq_dec : EqDecision BchOutPoint.
Proof. solve_decision. Defined.
#[export] Instance BchTxIn_eq_dec : EqDecision BchTxIn.
Proof. solve_decision. Defined.
#[export] Instance BchTxOut_eq_dec : EqDecision BchTxOut.
Proof. solve_decision. Defined.
#[export] Instance BchTransaction_eq_dec : EqDecision BchTransaction.
Proof. solve_decision. Defined.

(** ** Writing *)

Definition write_var_int (value : Z) : bytes :=
  if value <=? 0xfc then [z2b value]
  else if value <=? 0xffff then xfd :: le_bytes 2 value
  else if value <=? 0xffffffff then xfe :: le_bytes 4 value
  else xff :: le_bytes 8 value.

Definition write_var_bytes (b : bytes) : bytes := write_var_int (len b) ++ b.
Definition encode_outpoint (o : BchOutPoint) : bytes := op_txid o ++ le_bytes 4 (op_output_index o).
Definition encode_output (o : BchTxOut) : bytes := le_bytes 8 (out_value o) ++ write_var_bytes (out_script_pubkey o).

(** The body of the loop over the inputs in [Transaction::encode]. *)
Definition encode_input (i : BchTxIn) : bytes :=
  encode_outpoint (in_previous_output i) ++ write_var_bytes (in_script_sig i) ++ le_bytes 4 (in_sequence i).

Definition tx_encode (t : BchTransaction) : bytes :=
  le_bytes 4 (btx_version t) ++
  write_var_int (Z.of_nat (length (btx_inputs t))) ++ concat (encode_input <$> btx_inputs t) ++
  write_var_int (Z.of_nat (length (btx_outputs t))) ++ concat (encode_output <$> btx_outputs t) ++
  le_bytes 4 (btx_lock_time t).

(** ** Reading *)

Record Reader := mkReader { rd_bytes : bytes; rd_position : Z }.
Definition Reader_new (b : bytes) : Reader := mkReader b 0.

(** [bytes.get(start..end)] *)
Definition slice (b : bytes) (start stop : Z) : option bytes :=
  if (start <=? stop) && (stop <=? len b)
  then Some (take (Z.to_nat (stop - start)) (drop (Z.to_nat start) b)) else None.

(** A method of the reader: it may fail, and it moves the position. *)
Definition read (A : Type) : Type := Reader -> result BchError (A * Reader).
#[export] Instance read_ret : MRet read := fun A a r => Ok (a, r).
#[export] Instance read_bind : MBind read := fun A B k m r => '(a, r') ← m r; k a r'.
Definition read_fail {A} (e : BchError) : read A := fun _ => Err e.

Definition read_bytes (n : Z) : read bytes := fun r =>
  stop ← ok_or (checked_add 64 (rd_position r) n) MalformedTransaction;
  b ← ok_or (slice (rd_bytes r) (rd_position r) stop) MalformedTransaction;
  Ok (b, mkReader (rd_bytes r) stop).

(** [read_array::<N>]: the slice has length [N], so [try_into] succeeds. *)
Definition read_array (n : nat) : read bytes := read_bytes (Z.of_nat n).
Definition read_uint (n : nat) : read Z := b ← read_array n; mret (from_le_bytes b).
Definition read_u8 : read Z := read_uint 1.
Definition read_u16 : read Z := read_uint 2.
Definition read_u32 : read Z := read_uint 4.
Definition read_u64 : read Z := read_uint 8.
(** Two's complement. *)
Definition read_i32 : read Z :=
  v ← read_uint 4; mret (if v <? 2 ^ 31 then v else v - 2 ^ 32).

Definition read_canonical (m : read Z) (above : Z) : read Z :=
  value ← m; if value <? above then read_fail NonCanonicalVarInt else mret value.
Definition read_var_int : read Z :=
  tag ← read_u8;
  if tag <=? 0xfc then mret tag
  else if tag =? 0xfd then read_canonical read_u16 0xfd
  else if tag =? 0xfe then read_canonical read_u32 0x10000
  else read_canonical read_u64 0x100000000.

Definition read_count (field : string) : read Z :=
  count ← read_var_int;
  if MAX_TRANSACTION_ELEMENTS <? count then read_fail (TooManyTransactionElements field) else mret count.

Definition read_var_bytes : read bytes := length ← read_var_int; read_bytes length.

Definition is_finished (r : Reader) : bool := rd_position r =? len (rd_bytes r).

(** [for _ in 0..count { items.push(..) }] *)
Fixpoint read_times {A} (m : read A) (count : nat) : read (list A) :=
  match count with
  | O => mret []
  | S n => a ← m; l ← read_times m n; mret (a :: l)
  end.

Definition read_input : read BchTxIn :=
  txid ← read_array 32;
  output_index ← read_u32;
  script_sig ← read_var_bytes;
  sequence ← read_u32;
  mret (mkBchTxIn (mkBchOutPoint txid output_index) script_sig sequence).

Definition read_output : read BchTxOut :=
  value ← read_u64;
  script_pubkey ← read_var_bytes;
  mret (mkBchTxOut value script_pubkey).

Definition read_transaction : read BchTransaction :=
  version ← read_i32;
  input_count ← read_count "inputs";
  inputs ← read_times read_input (Z.to_nat input_count);
  output_count ← read_count "outputs";
  outputs ← read_times read_output (Z.to_nat output_count);
  lock_time ← read_u32;
  mret (mkBchTransaction version inputs outputs lock_time).

Definition tx_decode (b : bytes) : result BchError BchTransaction :=
  _ ← reject_if (MAX_TRANSACTION_BYTES <? len b) (TransactionTooLarge MAX_TRANSACTION_BYTES);
  '(t, reader) ← read_transaction (Reader_new b);
  _ ← reject_if (negb (is_finished reader)) TrailingTransactionData;
  Ok t.

(** ** The signature hash *)

Section sighash.
Context `{BitcoinLib}.

Definition double_sha256 (b : bytes) : bytes := sha256 (sha256 b).

Definition hash_prevouts (t : BchTransaction) (hash_type : ForkIdSighashType) : bytes :=
  if anyone_can_pay hash_type then BCH_ZERO_HASH
  else double_sha256 (concat (encode_outpoint <$> (in_previous_output <$> btx_inputs t))).

Definition hash_sequence (t : BchTransaction) (hash_type : ForkIdSighashType) : bytes :=
  if anyone_can_pay hash_type || (sighash_base hash_type =? 2) || (sighash_base hash_type =? 3) then BCH_ZERO_HASH
  else double_sha256 (concat (le_bytes 4 <$> (in_sequence <$> btx_inputs t))).

Definition hash_outputs (t : BchTransaction) (input_index : Z) (hash_type : ForkIdSighashType)
    : result BchError bytes :=
  if sighash_base hash_type =? 1 then Ok (double_sha256 (concat (encode_output <$> btx_outputs t)))
  else if (sighash_base hash_type =? 3) && (input_index <? Z.of_nat (length (btx_outputs t))) then
    match btx_outputs t !! Z.to_nat input_index with
    | Some o => Ok (double_sha256 (encode_output o))
    | None => Ok BCH_ZERO_HASH
    end
  else if (sighash_base hash_type =? 2) || (sighash_base hash_type =? 3) then Ok BCH_ZERO_HASH
  else Err (UnsupportedSighashType hash_type).

Definition sighash_preimage (t : BchTransaction) (input : BchTxIn) (script_code : bytes) (input_value : Z)
    (hash_type : ForkIdSighashType) (outputs_hash : bytes) : bytes :=
  le_bytes 4 (btx_version t) ++ hash_prevouts t hash_type ++ hash_sequence t hash_type ++
  encode_outpoint (in_previous_output input) ++ write_var_bytes script_code ++ le_bytes 8 input_value ++
  le_bytes 4 (in_sequence input) ++ outputs_hash ++ le_bytes 4 (btx_lock_time t) ++ le_bytes 4 hash_type.

Definition fork_id_sighash (t : BchTransaction) (input_index : Z) (script_code : bytes) (input_value : Z)
    (hash_type : ForkIdSighashType) : result BchError bytes :=
  input ← ok_or (if input_index <? Z.of_nat (length (btx_inputs t))
                 then btx_inputs t !! Z.to_nat input_index else None)
            (InputIndexOutOfBounds input_index (Z.of_nat (length (btx_inputs t))));
  outputs_hash ← hash_outputs t input_index hash_type;
  Ok (double_sha256 (sighash_preimage t input script_code input_value hash_type outputs_hash)).
End sighash.

(** * The transaction codec is exact

    [codec m enc wf] says that the reader method [m] accepts exactly the
    encodings, by [enc], of the values that satisfy [wf].  The methods of the
    reader compose, and [tx_decode] is the inverse of [tx_encode] both ways. *)

Local Open Scope string_scope.
Local Open Scope list_scope.
Local Open Scope Z_scope.

Lemma len_app a b : len (a ++ b) = len a + len b.
Proof. unfold len. rewrite length_app. lia. Qed.
Lemma len_nonneg b : 0 <= len b.
Proof. unfold len. lia. Qed.

(** The reader between what it has read and what it has not. *)
Definition at_pos (pre post : bytes) : Reader := mkReader (pre ++ post) (len pre).

Record codec {A} (m : read A) (enc : A -> bytes) (wf : A -> Prop) : Prop := {
  codec_complete pre a post :
    wf a -> len (pre ++ enc a ++ post) < 2 ^ 64 -> m (at_pos pre (enc a ++ post)) = Ok (a, at_pos (pre ++ enc a) post);
  codec_sound pre rest a r :
    m (at_pos pre rest) = Ok (a, r) -> exists post, wf a /\ rest = enc a ++ post /\ r = at_pos (pre ++ enc a) post;
}.

Lemma codec_ext {A} (m : read A) enc wf enc' wf' :
  codec m enc wf -> (forall a, wf a <-> wf' a) -> (forall a, wf a -> enc a = enc' a) -> codec m enc' wf'.
Proof.
  intros [Hc Hs] Hw He. split.
  - intros pre a post Ha%Hw. rewrite <- He by done. by apply Hc.
  - intros pre rest a r (post & Ha & E & ->)%Hs. exists post. rewrite <- He by done. split_and!; [by apply Hw|done..].
Qed.

Lemma codec_ret {A} (a : A) : codec (mret a) (fun _ => []) (fun b => b = a).
Proof.
  split.
  - intros pre b post -> _. unfold mret, read_ret. by rewrite app_nil_r.
  - intros pre rest b r [= <- <-]. exists rest. by rewrite app_nil_r.
Qed.

(** Sequencing: [f] recovers the first value from the result. *)
Lemma codec_bind {A B} (m : read A) (k : A -> read B) (f : B -> A) encA wfA encB wfB :
  codec m encA wfA -> (forall a, wfA a -> codec (k a) (encB a) (wfB a)) -> (forall a b, wfA a -> wfB a b -> f b = a) ->
  codec (m ≫= k) (fun b => encA (f b) ++ encB (f b) b) (fun b => wfA (f b) /\ wfB (f b) b).
Proof.
  intros [HcA HsA] HB Hf. split.
  - intros pre b post [Ha Hb] Hl. unfold mbind, read_bind. rewrite <- (assoc_L (++)) in *. rewrite HcA by done. cbn.
    rewrite (codec_complete _ _ _ (HB _ Ha)), (assoc_L (++)); [done|done|]. by rewrite <- (assoc_L (++)).
  - intros pre rest b r HR. unfold mbind, read_bind in HR. apply bind_Ok in HR as ([a r1] & E & HR).
    apply HsA in E as (post1 & Ha & -> & ->). apply (codec_sound _ _ _ (HB _ Ha)) in HR as (post & Hb & -> & ->).
    rewrite (Hf _ _ Ha Hb). exists post. rewrite <- !(assoc_L (++)). done.
Qed.

(** A value that passes a test. *)
Lemma codec_guard {A} (m : read A) (P : A -> bool) (e : A -> BchError) enc wf :
  codec m enc wf ->
  codec (a ← m; if P a then read_fail (e a) else mret a) enc (fun a => wf a /\ P a = false).
Proof.
  intros [Hc Hs]. split.
  - intros pre a post [Ha HP] Hl. unfold mbind, read_bind. rewrite Hc by done. cbn. by rewrite HP.
  - intros pre rest a r HR. unfold mbind, read_bind in HR. apply bind_Ok in HR as ([a' r1] & E & HR).
    apply Hs in E as (post & Ha & -> & ->). destruct (P a') eqn:HP; [done|]. injection HR as <- <-. by exists post.
Qed.

Lemma slice_app a b c : slice (a ++ b ++ c) (len a) (len a + len b) = Some b.
Proof.
  unfold slice, len. rewrite !length_app. rewrite (proj2 (andb_true_iff _ _)) by (rewrite !Z.leb_le; lia). f_equal.
  rewrite Z.add_simpl_l, !Nat2Z.id, drop_app_length, take_app_length. done.
Qed.

Lemma codec_bytes n : 0 <= n -> codec (read_bytes n) (fun b => b) (fun b => len b = n).
Proof.
  intros Hn. split.
  - intros pre b post <- Hl. unfold read_bytes, at_pos. simpl. unfold checked_add.
    rewrite !len_app in Hl. pose proof (len_nonneg post). rewrite bool_decide_true by lia. res_cbn.
    rewrite slice_app. res_cbn. rewrite len_app. by rewrite <- (assoc_L (++)).
  - intros pre rest b r HR. unfold read_bytes, at_pos, checked_add in HR. simpl in HR. case_bool_decide; [|done].
    res_inv. subst. unfold slice in E0. destruct (_ && _) eqn:Eb; [|done]. apply andb_true_iff in Eb as [_ Hle%Z.leb_le].
    rewrite len_app in Hle. injection E0 as <-. unfold len in *.
    injection E as <-. rewrite Z.add_simpl_l, Nat2Z.id, drop_app_length.
    exists (drop (Z.to_nat n) rest). split_and!.
    + rewrite length_take. lia.
    + by rewrite take_drop.
    + unfold at_pos. rewrite <- (assoc_L (++)), take_drop. f_equal. unfold len. rewrite length_app, length_take. lia.
Qed.

Lemma codec_array n : codec (read_array n) (fun b => b) (fun b => length b = n).
Proof.
  eapply codec_ext; [apply codec_bytes; lia| |done]. intros b. unfold len. lia.
Qed.

(** Integers *)
Lemma codec_map {A B} (m : read A) (g : A -> B) (f : B -> A) enc wf (wf' : B -> Prop) :
  codec m enc wf -> (forall a, wf a -> f (g a) = a) -> (forall b, wf' b <-> wf (f b) /\ b = g (f b)) ->
  codec (a ← m; mret (g a)) (fun b => enc (f b)) wf'.
Proof.
  intros [Hc Hs] Hfg Hw. split.
  - intros pre b post [Ha Hb]%Hw Hl. unfold mbind, read_bind. rewrite Hc by done. cbn. by rewrite <- Hb.
  - intros pre rest b r HR. unfold mbind, read_bind in HR. apply bind_Ok in HR as ([a r1] & E & [= <- <-]).
    apply Hs in E as (post & Ha & -> & ->). exists post. rewrite (Hfg a Ha). split_and!; [|done..].
    apply Hw. by rewrite (Hfg a Ha).
Qed.

Lemma codec_uint n : codec (read_uint n) (le_bytes n) (fits (8 * Z.of_nat n)).
Proof.
  apply (codec_map (read_array n) from_le_bytes (le_bytes n) (fun b => b) (fun b => length b = n)).
  - apply codec_array.
  - intros b <-. apply le_bytes_from_le.
  - intros z. rewrite length_le_bytes. split.
    + intros Hz. by rewrite from_le_le_bytes.
    + intros [_ ->]. pose proof (from_le_bytes_range (le_bytes n z)) as Hr. by rewrite length_le_bytes in Hr.
Qed.

Definition is_i32 (z : Z) : Prop := - 2 ^ 31 <= z < 2 ^ 31.

Lemma le_bytes_wrap n z : le_bytes n (z mod 2 ^ (8 * Z.of_nat n)) = le_bytes n z.
Proof.
  revert z. induction n as [|n IH]; intros z; [done|].
  change (le_bytes (S n) ?x) with (z2b x :: le_bytes n (x / 256)).
  replace (8 * Z.of_nat (S n)) with (8 + 8 * Z.of_nat n) by lia. rewrite Z.pow_add_r by lia. change (2 ^ 8) with 256.
  rewrite Z.rem_mul_r by lia. f_equal.
  - apply b2z_inj. rewrite !b2z_z2b. rewrite (Z.mul_comm 256), Z.mod_add, Z.mod_mod by lia. done.
  - rewrite (Z.mul_comm 256), Z.div_add, Z.div_small, Z.add_0_l by (try apply Z.mod_pos_bound; lia). apply IH.
Qed.

Lemma codec_i32 : codec read_i32 (le_bytes 4) is_i32.
Proof.
  unfold read_i32. eapply (codec_ext _ (fun z => le_bytes 4 (z mod 2 ^ 32)) is_i32).
  - apply (codec_map (read_uint 4) (fun v => if v <? 2 ^ 31 then v else v - 2 ^ 32) (fun z => z mod 2 ^ 32)
      (le_bytes 4) (fits 32)); [apply (codec_uint 4)| |].
    + intros v Hv. unfold fits in Hv. destruct (Z.ltb_spec v (2 ^ 31)); [by apply Z.mod_small|].
      replace (v - 2 ^ 32) with (v + -1 * 2 ^ 32) by lia. rewrite Z.mod_add by lia. by apply Z.mod_small.
    + intros z. unfold is_i32, fits. pose proof (Z.mod_pos_bound z (2 ^ 32) ltac:(lia)).
      pose proof (Z.div_mod z (2 ^ 32) ltac:(lia)).
      destruct (Z.ltb_spec (z mod 2 ^ 32) (2 ^ 31)); lia.
  - done.
  - intros z _. apply (le_bytes_wrap 4).
Qed.

(** ** Variable integers *)

(** The tag that announces a value. *)
Definition var_tag (value : Z) : Z :=
  if value <=? 0xfc then value else if value <=? 0xffff then 0xfd else if value <=? 0xffffffff then 0xfe else 0xff.

Definition var_body (tag value : Z) : bytes :=
  if tag <=? 0xfc then [] else if tag =? 0xfd then le_bytes 2 value
  else if tag =? 0xfe then le_bytes 4 value else le_bytes 8 value.

Lemma write_var_int_tag value : is_u64 value -> write_var_int value = le_bytes 1 (var_tag value) ++ var_body (var_tag value) value.
Proof.
  intros Hv. unfold write_var_int, var_tag, var_body.
  repeat match goal with |- context [?a <=? ?b] => destruct (Z.leb_spec a b) end; try done; lia.
Qed.

Ltac tag_cases :=
  unfold var_tag, fits in *;
  repeat match goal with |- context [?a <=? ?b] => destruct (Z.leb_spec a b) end; lia.

Lemma codec_canonical n above :
  codec (read_canonical (read_uint n) above) (le_bytes n) (fun v => fits (8 * Z.of_nat n) v /\ (v <? above) = false).
Proof. apply (codec_guard (read_uint n) (fun v => v <? above) (fun _ => NonCanonicalVarInt)), codec_uint. Qed.

Lemma codec_var_int : codec read_var_int write_var_int is_u64.
Proof.
  eapply codec_ext.
  - apply (codec_bind read_u8 _ var_tag (le_bytes 1) (fits 8) var_body (fun tag v => var_tag v = tag /\ is_u64 v)).
    + apply (codec_uint 1).
    + intros tag Ht. unfold var_body.
      destruct (Z.leb_spec tag 0xfc); [|destruct (Z.eqb_spec tag 0xfd) as [->|]; [|destruct (Z.eqb_spec tag 0xfe) as [->|]]].
      * eapply codec_ext; [apply codec_ret|intros v; simpl|done]. split; [intros ->|]; tag_cases.
      * eapply codec_ext; [apply (codec_canonical 2)|intros v; simpl; rewrite Z.ltb_ge|done]. tag_cases.
      * eapply codec_ext; [apply (codec_canonical 4)|intros v; simpl; rewrite Z.ltb_ge|done]. tag_cases.
      * assert (tag = 0xff) as -> by (unfold fits in Ht; lia).
        eapply codec_ext; [apply (codec_canonical 8)|intros v; simpl; rewrite Z.ltb_ge|done]. tag_cases.
    + by intros tag v _ [-> _].
  - intros v. split; [by intros (_ & _ & ?)|]. intros Hv. split_and!; [tag_cases|done..].
  - intros v (_ & _ & Hv). by rewrite write_var_int_tag.
Qed.

Lemma codec_var_bytes : codec read_var_bytes write_var_bytes (fun b => is_u64 (len b)).
Proof.
  eapply codec_ext.
  - apply (codec_bind read_var_int _ len write_var_int is_u64 (fun _ b => b) (fun n b => len b = n)).
    + apply codec_var_int.
    + intros n [Hn _]. by apply codec_bytes.
    + done.
  - intros b. simpl. tauto.
  - done.
Qed.

Definition count_ok (n : Z) : Prop := 0 <= n <= MAX_TRANSACTION_ELEMENTS.

Lemma codec_count field : codec (read_count field) write_var_int count_ok.
Proof.
  eapply codec_ext.
  - apply (codec_guard read_var_int (fun n => MAX_TRANSACTION_ELEMENTS <? n) (fun _ => TooManyTransactionElements field)),
      codec_var_int.
  - intros n. simpl. rewrite Z.ltb_ge. unfold count_ok, fits, MAX_TRANSACTION_ELEMENTS. lia.
  - done.
Qed.

Lemma codec_times {A} (m : read A) enc wf n :
  codec m enc wf -> codec (read_times m n) (fun l => concat (enc <$> l)) (fun l => length l = n /\ Forall wf l).
Proof.
  intros [Hc Hs]. induction n as [|n [IHc IHs]].
  - eapply codec_ext; [apply codec_ret| |by intros l ->].
    intros l. split; [by intros ->|]. by intros [->%length_zero_iff_nil _].
  - split.
    + intros pre l post [Hl Hf] Hlen. destruct Hf as [|a l Ha Hf]; [done|]. injection Hl as Hl. csimpl in *.
      rewrite <- (assoc_L (++)) in *. unfold mbind, read_bind. rewrite Hc by done. cbn.
      rewrite IHc; [|done|by rewrite <- (assoc_L (++))]. cbn. by rewrite (assoc_L (++)).
    + intros pre rest l r HR. simpl in HR. unfold mbind, read_bind in HR.
      apply bind_Ok in HR as ([a r1] & E & HR). apply Hs in E as (post1 & Ha & -> & ->).
      apply bind_Ok in HR as ([l' r2] & E & [= <- <-]). apply IHs in E as (post & [Hl Hf] & -> & ->).
      exists post. csimpl. rewrite <- !(assoc_L (++)). split_and!; [by rewrite Hl|by constructor|done..].
Qed.

(** ** Transactions *)

Definition outpoint_wf (o : BchOutPoint) : Prop := length (op_txid o) = 32%nat /\ is_u32 (op_output_index o).
Definition input_wf (i : BchTxIn) : Prop :=
  outpoint_wf (in_previous_output i) /\ is_u64 (len (in_script_sig i)) /\ is_u32 (in_sequence i).
Definition output_wf (o : BchTxOut) : Prop := is_u64 (out_value o) /\ is_u64 (len (out_script_pubkey o)).
(** The values the types of the source can hold, and no more elements than the
    reader accepts. *)
Definition tx_wf (t : BchTransaction) : Prop :=
  is_i32 (btx_version t) /\
  count_ok (Z.of_nat (length (btx_inputs t))) /\ Forall input_wf (btx_inputs t) /\
  count_ok (Z.of_nat (length (btx_outputs t))) /\ Forall output_wf (btx_outputs t) /\
  is_u32 (btx_lock_time t).

(** One field of a record read in order: how it is read, how the rest is read,
    and that the record still shows it. *)
Ltac codec_shows :=
  intros; cbv beta in *; destruct_ex; unfold count_ok in *;
  first [ done | lia | match goal with E : ?b = _ |- context [?b] => by rewrite E end ].
Tactic Notation "codec_field" uconstr(f) "by" tactic3(reads) "then" tactic3(rest) :=
  eapply (codec_bind _ _ f); [reads|intros; rest|codec_shows].

Lemma codec_output : codec read_output encode_output output_wf.
Proof.
  eapply codec_ext.
  - codec_field out_value by (apply (codec_uint 8)) then
    (codec_field out_script_pubkey by (apply codec_var_bytes) then (apply codec_ret)).
  - intros [v s]. unfold output_wf. simpl. naive_solver.
  - intros [v s] _. unfold encode_output. simpl. by rewrite app_nil_r.
Qed.

Lemma codec_input : codec read_input encode_input input_wf.
Proof.
  eapply codec_ext.
  - codec_field (fun i => op_txid (in_previous_output i)) by (apply (codec_array 32)) then
    (codec_field (fun i => op_output_index (in_previous_output i)) by (apply (codec_uint 4)) then
    (codec_field in_script_sig by (apply codec_var_bytes) then
    (codec_field in_sequence by (apply (codec_uint 4)) then (apply codec_ret)))).
  - intros [[x i] s q]. unfold input_wf, outpoint_wf. simpl. naive_solver.
  - intros [[x i] s q] _. unfold encode_input, encode_outpoint. simpl. by rewrite <- (assoc_L (++)).
Qed.

Lemma codec_transaction : codec read_transaction tx_encode tx_wf.
Proof.
  eapply codec_ext.
  - codec_field btx_version by (apply codec_i32) then
    (codec_field (fun t => Z.of_nat (length (btx_inputs t))) by (apply codec_count) then
    (codec_field btx_inputs by (apply codec_times, codec_input) then
    (codec_field (fun t => Z.of_nat (length (btx_outputs t))) by (apply codec_count) then
    (codec_field btx_outputs by (apply codec_times, codec_output) then
    (codec_field btx_lock_time by (apply (codec_uint 4)) then (apply codec_ret)))))).
  - intros [v i o l]. unfold tx_wf. simpl. rewrite !Nat2Z.id. naive_solver.
  - intros [v i o l] _. unfold tx_encode. done.
Qed.

(** Decoding accepts exactly the encodings of the transactions in range. *)
Lemma tx_decode_Ok b t :
  tx_decode b = Ok t <-> b = tx_encode t /\ tx_wf t /\ len b <= MAX_TRANSACTION_BYTES.
Proof.
  unfold tx_decode. change (Reader_new b) with (at_pos [] b). split.
  - intros HD. apply bind_Ok in HD as (_ & Hl%reject_if_Ok & HD). apply Z.ltb_ge in Hl.
    apply bind_Ok in HD as ([t' r] & E & HD). apply codec_sound with (1 := codec_transaction) in E as (post & Hwf & -> & ->).
    apply bind_Ok in HD as (_ & Hf%reject_if_Ok%negb_false_iff & [= <-]). unfold is_finished, at_pos in Hf.
    cbn [rd_position rd_bytes] in Hf. rewrite !len_app in Hf. apply Z.eqb_eq in Hf. assert (post = []) as ->
      by (apply length_zero_iff_nil; unfold len in Hf; lia). by rewrite app_nil_r in *.
  - intros (-> & Hwf & Hl). rewrite reject_if_pass by (apply Z.ltb_ge; lia). res_cbn.
    pose proof (codec_complete _ _ _ codec_transaction [] t [] Hwf) as HC. rewrite app_nil_r in HC. cbn [app] in HC.
    rewrite HC by (unfold MAX_TRANSACTION_BYTES in Hl; lia). res_cbn.
    rewrite reject_if_pass; [done|]. apply negb_false_iff, Z.eqb_eq. unfold at_pos.
    cbn [rd_position rd_bytes]. by rewrite app_nil_r.
Qed.
