(* ===== verification/BchSuite.v ===== *)
(** * The Bitcoin Cash chain suite
      (src/crates/chain-bitcoin-cash/src/signature.rs and suite.rs)

    Transaction signatures and their strict encodings, the signing request a
    wallet passes around, and the implementation of [ChainSuite]: review a
    request, then accept a finalized signature for exactly that review.  The
    curve libraries (secp256k1, k256) are an interface. *)

From Stdlib Require Import ZArith Lia.
From S2P Require Import Prelude Bitcoin ChainDomain SigningDomain Text CashAddr BchTransaction.
From stdpp Require Import list.
Local Open Scope string_scope.
Local Open Scope list_scope.
Local Open Scope Z_scope.

(** ** Error texts (lib.rs and review.rs of chain-domain) *)

Definition BitcoinCashNetwork_debug (n : BitcoinCashNetwork) : string :=
  match n with
  | BchMainnet => "Mainnet"
  | BchTestnet3 => "Testnet3"
  | BchTestnet4 => "Testnet4"
  | BchScalenet => "Scalenet"
  | BchChipnet => "Chipnet"
  | BchRegtest => "Regtest"
  end.

Definition BchError_display (e : BchError) : string :=
  match e with
  | MixedCaseAddress => "address uses mixed upper and lower case"
  | InvalidChecksum => "address checksum is invalid"
  | InvalidAddressEncoding => "address encoding is invalid"
  | InvalidAddressPayload => "address payload is invalid"
  | WrongNetwork expected actual =>
      "address is for `" +:+ actual +:+ "` rather than `" +:+ BitcoinCashNetwork_debug expected +:+ "`"
  | AmbiguousAddressNetwork => "address identifies the shared BCH test-family, not one exact test network"
  | InvalidPublicKey => "public key encoding is invalid"
  | InvalidChange change => "BIP44 change must be 0 or 1, got " +:+ display_dec change
  | InvalidDerivationIndex field value =>
      "BIP44 index `" +:+ field +:+ "` must be less than 2^31, got " +:+ display_dec value
  | InvalidDerivationPath => "BIP44 path must match m/44'/145'/account'/change/index"
  | TransactionTooLarge max_bytes => "transaction exceeds " +:+ display_dec max_bytes +:+ " bytes"
  | MalformedTransaction => "transaction is truncated or malformed"
  | NonCanonicalVarInt => "transaction uses a non-canonical variable integer"
  | TrailingTransactionData => "transaction has trailing data"
  | TooManyTransactionElements field => "transaction contains too many `" +:+ field +:+ "` entries"
  | InputIndexOutOfBounds index input_count =>
      "input index " +:+ display_dec index +:+ " is outside transaction input count " +:+ display_dec input_count
  | MissingForkId => "Bitcoin Cash signature hash type is missing SIGHASH_FORKID"
  | UnsupportedSighashType raw => "unsupported Bitcoin Cash signature hash type " +:+ display_hex raw
  | UnsafeReviewSighashType raw =>
      "signature hash type " +:+ display_hex raw +:+ " cannot bind a complete transaction review"
  | UnsupportedForkId id => "transaction signature serialization supports BCH fork id 0, got " +:+ display_hex id
  | InvalidSecretKey => "secp256k1 secret key is invalid"
  | InvalidSignatureEncoding => "signature encoding is invalid or non-standard"
  | SignatureHashTypeMismatch expected actual =>
      "signature hash type byte " +:+ display_hex actual +:+ " does not match expected " +:+ display_hex expected
  | InvalidSignature => "signature verification failed"
  | InvalidSchnorrSignatureLength actual =>
      "Bitcoin Cash Schnorr signature must be 64 bytes, got " +:+ display_dec actual
  | InvalidSigningRequest => "Bitcoin Cash signing request encoding is invalid"
  | UnknownSigningRequestNetwork id => "Bitcoin Cash signing request network id " +:+ display_dec id +:+ " is unknown"
  end.

Definition ReviewContractError_display (e : ReviewContractError) : string :=
  match e with
  | SummaryTooLong max_bytes => "review summary exceeds " +:+ display_dec (Z.of_nat max_bytes) +:+ " bytes"
  | MissingReviewedMaterial => "reviewed material is required"
  | ReviewedMaterialTooLong max_bytes => "reviewed material exceeds " +:+ display_dec (Z.of_nat max_bytes) +:+ " bytes"
  | UnsupportedOperation operation => "chain suite does not support `" +:+ operation +:+ "`"
  | InvalidFinalizedSignature reason => "finalized signature is invalid: " +:+ reason
  | UnsupportedReviewSchemaVersion expected actual =>
      "unsupported review artifact schema version " +:+ display_dec actual +:+ "; expected " +:+ display_dec expected
  end.

(** ** The curve libraries *)

Class Secp256k1Lib := {
  (* secp256k1 *)
  EcdsaSig : Type;
  EcdsaSig_eq_dec :: EqDecision EcdsaSig;
  ecdsa_from_der : bytes -> option EcdsaSig;
  ecdsa_serialize_der : EcdsaSig -> bytes;
  ecdsa_normalize_s : EcdsaSig -> EcdsaSig;
  ecdsa_verify : bytes -> EcdsaSig -> bytes -> bool;
  secret_key_valid : bytes -> bool;
  ecdsa_sign : bytes -> bytes -> EcdsaSig;
  (* k256 *)
  AffinePoint : Type;
  ProjectivePoint : Type;
  CurveScalar : Type;
  point_decode : bytes -> option AffinePoint;
  point_compress : AffinePoint -> bytes;
  field_element_valid : bytes -> bool;
  field_has_sqrt : bytes -> bool;
  scalar_from_repr : bytes -> option CurveScalar;
  scalar_reduce : bytes -> CurveScalar;
  generator_mul : CurveScalar -> ProjectivePoint;
  point_mul : AffinePoint -> CurveScalar -> ProjectivePoint;
  point_sub : ProjectivePoint -> ProjectivePoint -> ProjectivePoint;
  point_is_identity : ProjectivePoint -> bool;
  (* AffinePoint::from(p).to_encoded_point(false), its coordinates *)
  point_x : ProjectivePoint -> option bytes;
  point_y : ProjectivePoint -> option bytes;
}.

Section signature.
Context `{BitcoinLib} {L : AddressLib} {K : Secp256k1Lib}.

(** ** signature.rs *)

Inductive EcdsaBackend := EcdsaIsolated | EcdsaCbMpcThreshold.

Definition bch_ecdsa_descriptor (network : BitcoinCashNetwork) (backend : EcdsaBackend)
    : result SigningContractError SigningSuiteDescriptor :=
  resolve_builtin_suite (ChainScope_for_network (NetBitcoinCash network))
    (match backend with
     | EcdsaIsolated => BitcoinCashEcdsaIsolatedV1
     | EcdsaCbMpcThreshold => BitcoinCashEcdsaCbMpcV1
     end).

Definition bch_schnorr_descriptor (network : BitcoinCashNetwork)
    : result SigningContractError SigningSuiteDescriptor :=
  resolve_builtin_suite (ChainScope_for_network (NetBitcoinCash network)) BitcoinCashSchnorrIsolatedV1.

Definition bch_suite_supports (network : BitcoinCashNetwork) (chain_scope : ChainScope) : bool :=
  bool_decide (ChainScope_for_network (NetBitcoinCash network) = chain_scope).

Definition schnorr_signature_from_bytes (b : bytes) : result BchError bytes :=
  if (length b =? 64)%nat then Ok b else Err (InvalidSchnorrSignatureLength (len b)).

Definition parse_standard_ecdsa (b : bytes) : result BchError EcdsaSig :=
  signature ← ok_or (ecdsa_from_der b) InvalidSignatureEncoding;
  _ ← reject_if (negb (bool_decide (ecdsa_serialize_der signature = b))) InvalidSignatureEncoding;
  _ ← reject_if (negb (bool_decide (ecdsa_normalize_s signature = signature))) InvalidSignatureEncoding;
  Ok signature.

Definition sign_ecdsa (secret_key digest : bytes) : result BchError bytes :=
  _ ← reject_if (negb (secret_key_valid secret_key)) InvalidSecretKey;
  Ok (ecdsa_serialize_der (ecdsa_sign digest secret_key)).

Definition assemble_ecdsa_transaction_signature (der_signature : bytes) (hash_type : ForkIdSighashType)
    : result BchError bytes :=
  signature ← parse_standard_ecdsa der_signature;
  byte ← signature_byte hash_type;
  Ok (ecdsa_serialize_der signature ++ [z2b byte]).

(** [slice.split_last()] *)
Definition split_last (b : bytes) : option (byte * bytes) :=
  match reverse b with [] => None | x :: r => Some (x, reverse r) end.

Definition verify_ecdsa_transaction_signature (public_key digest transaction_signature : bytes)
    (expected_hash_type : ForkIdSighashType) : result BchError unit :=
  '(actual_hash_type, der_signature) ← ok_or (split_last transaction_signature) InvalidSignatureEncoding;
  expected_hash_type ← signature_byte expected_hash_type;
  _ ← reject_if (negb (b2z actual_hash_type =? expected_hash_type))
        (SignatureHashTypeMismatch expected_hash_type (b2z actual_hash_type));
  signature ← parse_standard_ecdsa der_signature;
  _ ← reject_if (negb (public_key_valid public_key)) InvalidPublicKey;
  reject_if (negb (ecdsa_verify digest signature public_key)) InvalidSignature.

Definition assemble_schnorr_transaction_signature (signature : bytes) (hash_type : ForkIdSighashType)
    : result BchError bytes :=
  byte ← signature_byte hash_type;
  Ok (signature ++ [z2b byte]).

Definition bch_verify_schnorr (public_key message signature : bytes) : result BchError unit :=
  point ← ok_or (point_decode public_key) InvalidPublicKey;
  let r_bytes := take 32 signature in
  _ ← reject_if (negb (field_element_valid r_bytes)) InvalidSignature;
  let s_bytes := drop 32 signature in
  s ← ok_or (scalar_from_repr s_bytes) InvalidSignature;
  let challenge := scalar_reduce (sha256 (r_bytes ++ point_compress point ++ message)) in
  let reconstructed := point_sub (generator_mul s) (point_mul point challenge) in
  _ ← reject_if (point_is_identity reconstructed) InvalidSignature;
  x ← ok_or (point_x reconstructed) InvalidSignature;
  y ← ok_or (point_y reconstructed) InvalidSignature;
  _ ← reject_if (negb (bool_decide (x = take 32 signature))) InvalidSignature;
  _ ← reject_if (negb (field_element_valid y)) InvalidSignature;
  reject_if (negb (field_has_sqrt y)) InvalidSignature.

Definition TRANSACTION_SIGNATURE_BYTES : nat := 65.

Definition verify_schnorr_transaction_signature (public_key message transaction_signature : bytes)
    (expected_hash_type : ForkIdSighashType) : result BchError unit :=
  _ ← reject_if (negb (length transaction_signature =? TRANSACTION_SIGNATURE_BYTES)%nat)
        (InvalidSchnorrSignatureLength (saturating_sub (len transaction_signature) 1));
  '(actual_hash_type, signature) ← ok_or (split_last transaction_signature) InvalidSignatureEncoding;
  expected_hash_type ← signature_byte expected_hash_type;
  _ ← reject_if (negb (b2z actual_hash_type =? expected_hash_type))
        (SignatureHashTypeMismatch expected_hash_type (b2z actual_hash_type));
  signature ← schnorr_signature_from_bytes signature;
  bch_verify_schnorr public_key message signature.

(** ** suite.rs: signing requests *)

Definition REQUEST_MAGIC : bytes := ascii_bytes "BCHR".
Definition REQUEST_VERSION : byte := x01.
Definition MAX_REQUEST_BYTES : Z := 32 * 1024 * 1024.

Record BitcoinCashSigningRequest := mkBchRequest {
  req_network : BitcoinCashNetwork;
  req_transaction : BchTransaction;
  req_input_index : Z;
  req_script_code : bytes;
  req_input_value : Z;
  req_hash_type : ForkIdSighashType;
}.

Definition network_id (network : BitcoinCashNetwork) : byte :=
  match network with
  | BchMainnet => x00
  | BchTestnet3 => x01
  | BchTestnet4 => x02
  | BchScalenet => x03
  | BchChipnet => x04
  | BchRegtest => x05
  end.

Definition network_from_id (id : byte) : result BchError BitcoinCashNetwork :=
  match id with
  | x00 => Ok BchMainnet
  | x01 => Ok BchTestnet3
  | x02 => Ok BchTestnet4
  | x03 => Ok BchScalenet
  | x04 => Ok BchChipnet
  | x05 => Ok BchRegtest
  | _ => Err (UnknownSigningRequestNetwork (b2z id))
  end.

Definition network_name (network : BitcoinCashNetwork) : string :=
  match network with
  | BchMainnet => "mainnet"
  | BchTestnet3 => "testnet3"
  | BchTestnet4 => "testnet4"
  | BchScalenet => "scalenet"
  | BchChipnet => "chipnet"
  | BchRegtest => "regtest"
  end.

Definition request_encode (r : BitcoinCashSigningRequest) : bytes :=
  let transaction := tx_encode (req_transaction r) in
  REQUEST_MAGIC ++ [REQUEST_VERSION] ++ [network_id (req_network r)] ++
  le_bytes 4 (req_hash_type r) ++ le_bytes 8 (req_input_index r) ++ le_bytes 8 (req_input_value r) ++
  le_bytes 8 (len (req_script_code r)) ++ le_bytes 8 (len transaction) ++ req_script_code r ++ transaction.

Definition read_le (b : bytes) (start width : Z) : result BchError Z :=
  ok_or (from_le_bytes <$> slice b start (start + width)) InvalidSigningRequest.

(** [bytes[i..j]] where the code has checked the bounds. *)
Definition range (b : bytes) (i j : Z) : bytes := take (Z.to_nat (j - i)) (drop (Z.to_nat i) b).

Definition request_decode (b : bytes) : result BchError BitcoinCashSigningRequest :=
  _ ← reject_if ((MAX_REQUEST_BYTES <? len b) || (len b <? 42)) InvalidSigningRequest;
  _ ← reject_if (negb (bool_decide (take 4 b = REQUEST_MAGIC)) || negb (bool_decide (b !! 4%nat = Some REQUEST_VERSION)))
        InvalidSigningRequest;
  network ← network_from_id (default x00 (b !! 5%nat));
  raw ← read_le b 6 4;
  hash_type ← sighash_from_consensus raw;
  input_index ← read_le b 10 8;
  input_value ← read_le b 18 8;
  script_length ← read_le b 26 8;
  transaction_length ← read_le b 34 8;
  script_end ← ok_or (checked_add 64 42 script_length) InvalidSigningRequest;
  transaction_end ← ok_or (checked_add 64 script_end transaction_length) InvalidSigningRequest;
  _ ← reject_if (negb (transaction_end =? len b)) InvalidSigningRequest;
  transaction ← tx_decode (range b script_end transaction_end);
  Ok (mkBchRequest network transaction input_index (range b 42 script_end) input_value hash_type).

(** ** The chain suite *)

Inductive BitcoinCashSignatureAlgorithm := BchEcdsa | BchSchnorr.

(** The private scope of the struct is always that of a Bitcoin Cash network:
    the network stands for it. *)
Record BitcoinCashChainSuite := mkBchSuite {
  bcs_network : BitcoinCashNetwork;
  bcs_algorithm : BitcoinCashSignatureAlgorithm;
  bcs_verification_key : bytes;
  bcs_hash_type : ForkIdSighashType;
}.
Definition bcs_scope (s : BitcoinCashChainSuite) : ChainScope := ChainScope_for_network (NetBitcoinCash (bcs_network s)).

Definition BitcoinCashChainSuite_new (network : BitcoinCashNetwork) (algorithm : BitcoinCashSignatureAlgorithm)
    (verification_key : bytes) (hash_type : ForkIdSighashType) : result BchError BitcoinCashChainSuite :=
  _ ← reject_if (negb (public_key_valid verification_key)) InvalidPublicKey;
  _ ← signature_byte hash_type;
  _ ← reject_if (negb (hash_type =? SIGHASH_ALL)) (UnsafeReviewSighashType hash_type);
  Ok (mkBchSuite network algorithm verification_key hash_type).

Definition invalid_transaction_material (error : BchError) : ReviewContractError :=
  UnsupportedOperation
    (match error with
     | WrongNetwork _ _ => "Bitcoin Cash request for another network"
     | UnsupportedSighashType _ | MissingForkId => "Bitcoin Cash request with unsupported hashtype"
     | _ => "malformed Bitcoin Cash signing request"
     end).

Definition unreproducible_review (error : ReviewContractError) : ReviewContractError :=
  InvalidFinalizedSignature ("review artifact cannot be reproduced: " +:+ ReviewContractError_display error).

Definition bch_review_digest (scope : ChainScope) (signing_digest request_digest : bytes) (summary : string) : bytes :=
  sha256 (ascii_bytes "catomicals.bitcoin-cash.review.v2" ++ [x00] ++
          ascii_bytes (ChainNetwork_as_str (cs_network scope)) ++ signing_digest ++ request_digest ++
          le_bytes 8 (Z.of_nat (String.length summary)) ++ ascii_bytes summary).

Definition bch_summary (request : BitcoinCashSigningRequest) (script_digest : bytes) : string :=
  "Bitcoin Cash transaction: " +:+ display_dec (Z.of_nat (length (btx_inputs (req_transaction request)))) +:+
  " input(s), " +:+ display_dec (Z.of_nat (length (btx_outputs (req_transaction request)))) +:+
  " output(s), output total " +:+ display_dec (sumZ (out_value <$> btx_outputs (req_transaction request))) +:+
  " sat; signing input " +:+ display_dec (req_input_index request) +:+
  " with input value " +:+ display_dec (req_input_value request) +:+
  " sat; script sha256 " +:+ encode_hex script_digest +:+
  "; hashtype " +:+ display_hex (req_hash_type request) +:+ " (ALL|FORKID)".

Definition bch_review_transaction (s : BitcoinCashChainSuite) (transaction_material : bytes)
    : result ReviewContractError ReviewArtifact :=
  _ ← reject_if (MAX_REVIEW_MATERIAL_BYTES <? length transaction_material)%nat
        (ReviewedMaterialTooLong MAX_REVIEW_MATERIAL_BYTES);
  request ← map_err invalid_transaction_material (request_decode transaction_material);
  let canonical_request := request_encode request in
  _ ← reject_if (negb (bool_decide (canonical_request = transaction_material)))
        (invalid_transaction_material InvalidSigningRequest);
  _ ← reject_if (negb (bool_decide (NetBitcoinCash (req_network request) = NetBitcoinCash (bcs_network s))))
        (invalid_transaction_material (WrongNetwork (bcs_network s) (network_name (req_network request))));
  _ ← reject_if (negb (req_hash_type request =? bcs_hash_type s))
        (invalid_transaction_material (UnsupportedSighashType (req_hash_type request)));
  signing_message_digest ← map_err invalid_transaction_material
    (fork_id_sighash (req_transaction request) (req_input_index request) (req_script_code request)
       (req_input_value request) (req_hash_type request));
  let request_digest := sha256 canonical_request in
  let script_digest := sha256 (req_script_code request) in
  let summary := bch_summary request script_digest in
  ReviewArtifact_new (bcs_scope s) (bch_review_digest (bcs_scope s) signing_message_digest request_digest summary)
    signing_message_digest summary canonical_request.

Definition bch_verify_finalized_signature (s : BitcoinCashChainSuite) (review : ReviewArtifact)
    (finalized_signature : bytes) : result ReviewContractError unit :=
  _ ← reject_if (negb (ra_schema_version review =? REVIEW_ARTIFACT_SCHEMA_VERSION))
        (UnsupportedReviewSchemaVersion REVIEW_ARTIFACT_SCHEMA_VERSION (ra_schema_version review));
  _ ← reject_if (negb (bool_decide (ra_scope review = bcs_scope s)))
        (InvalidFinalizedSignature "review artifact binding mismatch");
  expected ← map_err unreproducible_review (bch_review_transaction s (ra_reviewed_material review));
  _ ← reject_if (negb (bool_decide (expected = review))) (InvalidFinalizedSignature "review artifact binding mismatch");
  map_err (fun error => InvalidFinalizedSignature (BchError_display error))
    (match bcs_algorithm s with
     | BchEcdsa => verify_ecdsa_transaction_signature (bcs_verification_key s) (ra_signing_message_digest expected)
                     finalized_signature (bcs_hash_type s)
     | BchSchnorr => verify_schnorr_transaction_signature (bcs_verification_key s) (ra_signing_message_digest expected)
                       finalized_signature (bcs_hash_type s)
     end).

#[export] Instance BitcoinCash_ChainSuite : ChainSuite BitcoinCashChainSuite := {|
  suite_scope := bcs_scope;
  suite_capabilities := fun _ => mkChainCapabilities true true true false;
  review_transaction := bch_review_transaction;
  verify_finalized_signature := bch_verify_finalized_signature;
|}.
End signature.
