(* ===== verification/BchProperties.v ===== *)
(** * What the Bitcoin Cash suite promises

    Requests have one encoding, a review fixes the signature hash of the request
    it shows, and a finalized signature is a signature over that hash. *)

From Stdlib Require Import ZArith Lia.
From S2P Require Import Prelude Bitcoin IssuanceTerms Concrete ChainDomain SigningDomain Text CashAddr BchTransaction BchSuite.
From stdpp Require Import list.
Local Open Scope string_scope.
Local Open Scope list_scope.
Local Open Scope Z_scope.

(** ** Slices *)

Lemma slice_Some b i j x : slice b i j = Some x <-> i <= j <= len b /\ x = range b i j.
Proof.
  unfold slice, range. destruct (Z.leb_spec i j), (Z.leb_spec j (len b)); cbn; naive_solver lia.
Qed.

Lemma len_range b i j : 0 <= i <= j -> j <= len b -> len (range b i j) = j - i.
Proof. intros. unfold range, len in *. rewrite length_take, length_drop. lia. Qed.

Lemma range_glue b i j k : 0 <= i <= j -> j <= k -> range b i j ++ range b j k = range b i k.
Proof.
  intros. unfold range. replace (Z.to_nat j) with (Z.to_nat i + Z.to_nat (j - i))%nat by lia.
  rewrite <- drop_drop, take_take_drop. f_equal. lia.
Qed.

Lemma range_all b : range b 0 (len b) = b.
Proof. unfold range, len. rewrite drop_0, take_ge; [done|lia]. Qed.

Lemma range_one b i x : b !! i = Some x -> range b (Z.of_nat i) (Z.of_nat i + 1) = [x].
Proof.
  intros Hx. unfold range. rewrite Z.add_simpl_l, Nat2Z.id. by rewrite (drop_S _ _ _ Hx).
Qed.

Lemma range_app a x c : range (a ++ x ++ c) (len a) (len a + len x) = x.
Proof. pose proof (slice_app a x c) as E. by apply slice_Some in E as [_ <-]. Qed.

(** A fixed-width field read at an offset. *)
Lemma read_le_Ok b start w n :
  0 <= start ->
  read_le b start (Z.of_nat w) = Ok n <->
  start + Z.of_nat w <= len b /\ range b start (start + Z.of_nat w) = le_bytes w n /\ fits (8 * Z.of_nat w) n.
Proof.
  intros Hs. unfold read_le. rewrite ok_or_Ok, fmap_Some. setoid_rewrite slice_Some. split.
  - intros (x & [Hle ->] & ->). pose proof (len_range b start (start + Z.of_nat w) ltac:(lia) ltac:(lia)) as Hl.
    assert (length (range b start (start + Z.of_nat w)) = w) as Hl' by (unfold len in Hl; lia).
    split_and!; [lia| |].
    + rewrite <- (le_bytes_from_le (range _ _ _)) at 1. by rewrite Hl'.
    + pose proof (from_le_bytes_range (range b start (start + Z.of_nat w))) as Hr. by rewrite Hl' in Hr.
  - intros (Hle & Hr & Hf). exists (le_bytes w n). split; [by split; [lia|]|]. by rewrite from_le_le_bytes.
Qed.

(** ** Requests *)

Definition req_wf (r : BitcoinCashSigningRequest) : Prop :=
  tx_wf (req_transaction r) /\ is_u64 (req_input_index r) /\ is_u64 (req_input_value r) /\
  is_u32 (req_hash_type r) /\ sighash_from_consensus (req_hash_type r) = Ok (req_hash_type r).

Lemma network_id_Ok id n : network_from_id id = Ok n <-> id = network_id n.
Proof. split; [|intros ->; by destruct n]. destruct id; try discriminate; intros [= <-]; done. Qed.

Lemma sighash_from_consensus_id raw t : sighash_from_consensus raw = Ok t -> t = raw.
Proof. unfold sighash_from_consensus. intros. by res_inv. Qed.

Lemma request_encode_len r :
  len (request_encode r) = 42 + len (req_script_code r) + len (tx_encode (req_transaction r)).
Proof. unfold request_encode. rewrite !len_app. unfold len at 1 2 3. simpl length. unfold len. rewrite !length_le_bytes. lia. Qed.

Lemma request_parts r :
  exists header, len header = 42 /\ request_encode r = header ++ req_script_code r ++ tx_encode (req_transaction r).
Proof.
  exists (take 42 (request_encode r)). split; [done|].
  change (req_script_code r ++ tx_encode (req_transaction r)) with (drop 42 (request_encode r)). by rewrite take_drop.
Qed.

Lemma request_decode_sound b r :
  request_decode b = Ok r -> b = request_encode r /\ req_wf r /\ len b <= MAX_REQUEST_BYTES.
Proof.
  unfold request_decode. intros HD. next_in HD u Esize. next_in HD v Emagic. next_in HD net Enet.
  next_in HD raw Eraw. next_in HD ht Eht. next_in HD idx Eidx. next_in HD val Eval. next_in HD slen Eslen.
  next_in HD tlen Etlen. next_in HD send Esend. next_in HD tend Etend. next_in HD w Eend. next_in HD t Et.
  injection HD as <-. res_inv. clear u v w. pose proof (sighash_from_consensus_id _ _ Eht) as ->.
  apply network_id_Ok in Enet.
  apply (read_le_Ok b 6 4) in Eraw as (_ & R1 & F1); [|lia]. apply (read_le_Ok b 10 8) in Eidx as (_ & R2 & F2); [|lia].
  apply (read_le_Ok b 18 8) in Eval as (_ & R3 & F3); [|lia]. apply (read_le_Ok b 26 8) in Eslen as (_ & R4 & F4); [|lia].
  apply (read_le_Ok b 34 8) in Etlen as (_ & R5 & F5); [|lia].
  unfold checked_add in Esend, Etend. repeat case_bool_decide; simplify_eq/=. unfold fits in F4, F5.
  assert (exists x5, b !! 5%nat = Some x5) as [x5 H5] by (apply lookup_lt_is_Some_2; unfold len in *; lia).
  rewrite H5 in Enet. simpl in Enet. subst x5. apply tx_decode_Ok in Et as (Et & Hwf & _).
  split; [|done]. unfold request_encode. cbn [req_network req_transaction req_input_index req_script_code req_input_value req_hash_type].
  rewrite <- Et, <- R1, <- R2, <- R3, !len_range by lia.
  replace (42 + slen - 42) with slen by lia. replace (len b - (42 + slen)) with tlen by lia.
  rewrite <- R4, <- R5. change (Z.of_nat 4) with 4. change (Z.of_nat 8) with 8. cbn [Z.add].
  rewrite <- (range_one b 4 _ H0), <- (range_one b 5 _ H5). 
  replace REQUEST_MAGIC with (range b 0 4) by (unfold range; by rewrite drop_0).
  change (Z.of_nat 4) with 4. change (Z.of_nat 5) with 5.
  rewrite !range_glue by lia. by rewrite range_all.
Qed.

Lemma request_decode_complete r :
  req_wf r -> len (request_encode r) <= MAX_REQUEST_BYTES -> request_decode (request_encode r) = Ok r.
Proof.
  intros (Htx & Hi & Hv & Hu & Hs) Hl. pose proof (request_encode_len r) as Hlen.
  pose proof (len_nonneg (req_script_code r)). pose proof (len_nonneg (tx_encode (req_transaction r))).
  unfold MAX_REQUEST_BYTES in Hl. unfold request_decode.
  assert (forall start w' w n, w' = Z.of_nat w -> 0 <= start -> start + Z.of_nat w <= 42 ->
    range (request_encode r) start (start + Z.of_nat w) = le_bytes w n -> fits (8 * Z.of_nat w) n ->
    read_le (request_encode r) start w' = Ok n) as Hread.
  { intros start w' w n -> ? ? ? ?. apply read_le_Ok; [done|]. split_and!; [lia|done..]. }
  do 2 rewrite reject_if_pass by (unfold MAX_REQUEST_BYTES; guard_tac). res_cbn.
  change (default x00 (request_encode r !! 5%nat)) with (network_id (req_network r)).
  rewrite (proj2 (network_id_Ok _ (req_network r))) by done. res_cbn.
  rewrite (Hread 6 4 4%nat (req_hash_type r)) by (done || lia). res_cbn. rewrite Hs. res_cbn.
  rewrite (Hread 10 8 8%nat (req_input_index r)) by (done || lia). res_cbn.
  rewrite (Hread 18 8 8%nat (req_input_value r)) by (done || lia). res_cbn.
  rewrite (Hread 26 8 8%nat (len (req_script_code r))) by (done || unfold fits; lia). res_cbn.
  rewrite (Hread 34 8 8%nat (len (tx_encode (req_transaction r)))) by (done || unfold fits; lia). res_cbn.
  unfold checked_add. rewrite bool_decide_true by lia. res_cbn. rewrite bool_decide_true by lia. res_cbn.
  rewrite reject_if_pass by (apply negb_false_iff, Z.eqb_eq; lia). res_cbn.
  destruct (request_parts r) as (header & Hh & Hr).
  assert (range (request_encode r) 42 (42 + len (req_script_code r)) = req_script_code r) as ->
    by (rewrite Hr, <- Hh; apply range_app).
  assert (range (request_encode r) (42 + len (req_script_code r))
    (42 + len (req_script_code r) + len (tx_encode (req_transaction r))) = tx_encode (req_transaction r)) as ->.
  { pose proof (range_app (header ++ req_script_code r) (tx_encode (req_transaction r)) []) as E.
    rewrite app_nil_r, len_app, Hh, <- (assoc_L (++)) in E. by rewrite Hr. }
  rewrite (proj2 (tx_decode_Ok _ (req_transaction r))); [by destruct r|].
  split_and!; [done..|]. unfold MAX_TRANSACTION_BYTES. lia.
Qed.

(** Decoding accepts exactly the encodings of the requests in range. *)
Lemma request_decode_Ok b r :
  request_decode b = Ok r <-> b = request_encode r /\ req_wf r /\ len b <= MAX_REQUEST_BYTES.
Proof.
  split; [apply request_decode_sound|]. intros (-> & Hwf & Hl). by apply request_decode_complete.
Qed.

(** ** What the signature hash commits to *)

(** Encodings that can be split off the front of a text. *)
Definition prefix_free {A} (enc : A -> bytes) (wf : A -> Prop) : Prop :=
  forall a b x y, wf a -> wf b -> len (enc a ++ x) < 2 ^ 64 -> enc a ++ x = enc b ++ y -> a = b /\ x = y.

Lemma codec_prefix_free {A} (m : read A) enc wf : codec m enc wf -> prefix_free enc wf.
Proof.
  intros [Hc _] a b x y Ha Hb Hl E.
  pose proof (Hc [] a x Ha Hl) as E1. rewrite E in Hl, E1. rewrite (Hc [] b y Hb Hl) in E1.
  assert (b = a) as -> by congruence. split; [done|]. by apply app_inv_head in E.
Qed.

Lemma fixed_prefix_free {A} (enc : A -> bytes) (wf : A -> Prop) n :
  (forall a, wf a -> length (enc a) = n) -> (forall a b, wf a -> wf b -> enc a = enc b -> a = b) -> prefix_free enc wf.
Proof.
  intros Hn Hi a b x y Ha Hb _ E. apply app_inj_1 in E as [E ->]; [|by rewrite !Hn]. by split; [apply Hi|].
Qed.

Lemma concat_prefix_free {A} (enc : A -> bytes) (wf : A -> Prop) l k :
  prefix_free enc wf -> (forall a, wf a -> enc a <> []) -> Forall wf l -> Forall wf k ->
  len (concat (enc <$> l)) < 2 ^ 64 -> concat (enc <$> l) = concat (enc <$> k) -> l = k.
Proof.
  intros Hp Hne Hl. revert k. induction Hl as [|a l Ha Hl IH]; intros k Hk; destruct Hk as [|b k Hb Hk]; csimpl; intros Hlen E.
  - done.
  - symmetry in E. apply app_eq_nil in E as [E _]. by destruct (Hne b Hb).
  - apply app_eq_nil in E as [E _]. by destruct (Hne a Ha).
  - apply Hp in E as [-> E]; [|done..]. f_equal. apply IH; [done| |done].
    rewrite len_app in Hlen. pose proof (len_nonneg (enc b)). lia.
Qed.

Lemma encode_outpoint_len o : outpoint_wf o -> length (encode_outpoint o) = 36%nat.
Proof. intros [Hl _]. unfold encode_outpoint. rewrite length_app, length_le_bytes, Hl. done. Qed.

Lemma encode_outpoint_inj a b : outpoint_wf a -> outpoint_wf b -> encode_outpoint a = encode_outpoint b -> a = b.
Proof.
  intros [Ha Ha'] [Hb Hb'] E. apply app_inj_1 in E as [E1 E2]; [|congruence].
  apply le_bytes_inj in E2; [|done..]. destruct a, b; simpl in *; congruence.
Qed.

Lemma write_var_bytes_prefix a b x y :
  len (write_var_bytes a ++ x) < 2 ^ 64 -> len (write_var_bytes b ++ y) < 2 ^ 64 ->
  write_var_bytes a ++ x = write_var_bytes b ++ y -> a = b /\ x = y.
Proof.
  intros Ha Hb. apply (codec_prefix_free _ _ _ codec_var_bytes); [| |done]; unfold fits.
  - unfold write_var_bytes in Ha. rewrite !len_app in Ha. pose proof (len_nonneg (write_var_int (len a))).
    pose proof (len_nonneg x). pose proof (len_nonneg a). lia.
  - unfold write_var_bytes in Hb. rewrite !len_app in Hb. pose proof (len_nonneg (write_var_int (len b))).
    pose proof (len_nonneg y). pose proof (len_nonneg b). lia.
Qed.

Section commits.
Context `{BL : BitcoinLaws} {AL : AddressLib} {K : Secp256k1Lib}.

(** Two messages on which double SHA-256 collides. *)
Definition double_collision (x y : bytes) : Prop :=
  sha256_collision x y \/ sha256_collision (sha256 x) (sha256 y).

Lemma double_sha256_inj x y : double_sha256 x = double_sha256 y -> x = y \/ double_collision x y.
Proof.
  unfold double_sha256, double_collision. intros [E|E]%sha256_inj_or_collision; [|by right; right].
  apply sha256_inj_or_collision in E as [E|E]; [by left|by right; left].
Qed.

Definition prevouts_of (t : BchTransaction) : list BchOutPoint := in_previous_output <$> btx_inputs t.
Definition sequences_of (t : BchTransaction) : list Z := in_sequence <$> btx_inputs t.

(** What a signer agrees to: everything but the unlocking scripts. *)
Definition same_spend (q1 q2 : BitcoinCashSigningRequest) : Prop :=
  let t1 := req_transaction q1 in let t2 := req_transaction q2 in
  btx_version t1 = btx_version t2 /\ prevouts_of t1 = prevouts_of t2 /\ sequences_of t1 = sequences_of t2 /\
  btx_outputs t1 = btx_outputs t2 /\ btx_lock_time t1 = btx_lock_time t2 /\
  req_script_code q1 = req_script_code q2 /\ req_input_value q1 = req_input_value q2 /\
  prevouts_of t1 !! Z.to_nat (req_input_index q1) = prevouts_of t2 !! Z.to_nat (req_input_index q2).

(** The four messages hashed for a request. *)
Definition prevouts_message (q : BitcoinCashSigningRequest) : bytes :=
  concat (encode_outpoint <$> prevouts_of (req_transaction q)).
Definition sequences_message (q : BitcoinCashSigningRequest) : bytes :=
  concat (le_bytes 4 <$> sequences_of (req_transaction q)).
Definition outputs_message (q : BitcoinCashSigningRequest) : bytes :=
  concat (encode_output <$> btx_outputs (req_transaction q)).
Definition signing_message (q : BitcoinCashSigningRequest) (i : BchTxIn) : bytes :=
  sighash_preimage (req_transaction q) i (req_script_code q) (req_input_value q) SIGHASH_ALL
    (double_sha256 (outputs_message q)).

Lemma sighash_all q d :
  req_wf q ->
  fork_id_sighash (req_transaction q) (req_input_index q) (req_script_code q) (req_input_value q) SIGHASH_ALL = Ok d <->
  exists i, btx_inputs (req_transaction q) !! Z.to_nat (req_input_index q) = Some i /\
    d = double_sha256 (signing_message q i).
Proof.
  intros (_ & [Hi _] & _). unfold fork_id_sighash. change (hash_outputs _ _ SIGHASH_ALL) with
    (Ok (E:=BchError) (double_sha256 (outputs_message q))). split.
  - intros HS. res_inv. destruct (_ <? _); [|done]. subst. eauto.
  - intros (i & Hlk & ->). pose proof (lookup_lt_Some _ _ _ Hlk). rewrite (proj2 (Z.ltb_lt _ _)) by lia.
    by rewrite Hlk.
Qed.

(** A request of a size that can be handled. *)
Definition sized (q : BitcoinCashSigningRequest) : Prop := req_wf q /\ len (request_encode q) <= MAX_REQUEST_BYTES.

Lemma outputs_message_len q : sized q -> len (outputs_message q) < 2 ^ 62.
Proof.
  intros [_ Hl]. rewrite request_encode_len in Hl. unfold tx_encode in Hl. rewrite !len_app in Hl.
  fold (outputs_message q) in Hl. unfold MAX_REQUEST_BYTES in Hl.
  repeat match type of Hl with context [len ?x] => lazymatch goal with _ : 0 <= len x |- _ => fail | _ => pose proof (len_nonneg x) end end.
  lia.
Qed.

Lemma concat_len {A} (enc : A -> bytes) (l : list A) n :
  Forall (fun a => length (enc a) = n) l -> length (concat (enc <$> l)) = (n * length l)%nat.
Proof. induction 1 as [|a l Ha _ IH]; csimpl; [lia|]. rewrite length_app, Ha, IH. lia. Qed.

Lemma prevouts_wf q : req_wf q -> Forall outpoint_wf (prevouts_of (req_transaction q)).
Proof.
  intros ((_ & _ & Hi & _) & _). apply Forall_fmap. eapply Forall_impl; [exact Hi|]. by intros i (? & _).
Qed.
Lemma sequences_wf q : req_wf q -> Forall is_u32 (sequences_of (req_transaction q)).
Proof.
  intros ((_ & _ & Hi & _) & _). apply Forall_fmap. eapply Forall_impl; [exact Hi|]. by intros i (_ & _ & ?).
Qed.

Lemma prevouts_inj q1 q2 :
  req_wf q1 -> req_wf q2 -> prevouts_message q1 = prevouts_message q2 ->
  prevouts_of (req_transaction q1) = prevouts_of (req_transaction q2).
Proof.
  intros H1 H2. pose proof (prevouts_wf _ H1) as W1. apply (concat_prefix_free _ outpoint_wf); [| |done|by apply prevouts_wf|].
  - eapply fixed_prefix_free; [apply encode_outpoint_len|apply encode_outpoint_inj].
  - intros o Ho E. apply encode_outpoint_len in Ho. by rewrite E in Ho.
  - unfold len. rewrite (concat_len _ _ 36) by (eapply Forall_impl; [exact W1|apply encode_outpoint_len]).
    unfold prevouts_of. rewrite length_fmap. destruct H1 as ((_ & Hc & _) & _).
    unfold count_ok, MAX_TRANSACTION_ELEMENTS in Hc. lia.
Qed.

Lemma sequences_inj q1 q2 :
  req_wf q1 -> req_wf q2 -> sequences_message q1 = sequences_message q2 ->
  sequences_of (req_transaction q1) = sequences_of (req_transaction q2).
Proof.
  intros H1 H2. apply (concat_prefix_free _ is_u32); [| |by apply sequences_wf..|].
  - eapply fixed_prefix_free; [intros; apply length_le_bytes|]. intros a b Ha Hb. by apply le_bytes_inj.
  - done.
  - unfold len. rewrite (concat_len _ _ 4) by (apply Forall_true; intros; apply length_le_bytes).
    unfold sequences_of. rewrite length_fmap. destruct H1 as ((_ & Hc & _) & _).
    unfold count_ok, MAX_TRANSACTION_ELEMENTS in Hc. lia.
Qed.

Lemma outputs_inj q1 q2 :
  sized q1 -> sized q2 -> outputs_message q1 = outputs_message q2 ->
  btx_outputs (req_transaction q1) = btx_outputs (req_transaction q2).
Proof.
  intros H1 H2. pose proof (outputs_message_len _ H1). destruct H1 as [((_ & _ & _ & _ & W1 & _) & _) _].
  destruct H2 as [((_ & _ & _ & _ & W2 & _) & _) _].
  apply (concat_prefix_free _ output_wf); [apply (codec_prefix_free _ _ _ codec_output)|done|done|done|].
  unfold outputs_message in *. lia.
Qed.

Lemma is_i32_inj x y : is_i32 x -> is_i32 y -> le_bytes 4 x = le_bytes 4 y -> x = y.
Proof.
  unfold is_i32. intros Hx Hy E. rewrite <- (le_bytes_wrap 4 x), <- (le_bytes_wrap 4 y) in E.
  apply le_bytes_inj in E; [|by apply Z.mod_pos_bound; lia..].
  change (2 ^ (8 * Z.of_nat 4)) with (2 ^ 32) in E.
  pose proof (Z.div_mod x (2 ^ 32) ltac:(lia)). pose proof (Z.div_mod y (2 ^ 32) ltac:(lia)). lia.
Qed.

Lemma script_tail_len q tail :
  sized q -> (length tail <= 100)%nat -> len (write_var_bytes (req_script_code q) ++ tail) < 2 ^ 64.
Proof.
  intros [_ Hl] Ht. rewrite request_encode_len in Hl. unfold MAX_REQUEST_BYTES in Hl.
  pose proof (len_nonneg (tx_encode (req_transaction q))). unfold write_var_bytes. rewrite !len_app.
  assert (len (write_var_int (len (req_script_code q))) <= 9).
  { unfold write_var_int. repeat case_match; unfold len; simpl; rewrite ?length_le_bytes; lia. }
  assert (len tail <= 100) by (unfold len; lia). lia.
Qed.

Lemma length_double_sha256 b : length (double_sha256 b) = 32%nat.
Proof. apply sha256_length. Qed.

(** The preimage fixes its fields; the hashed lists stay behind their digests. *)
Lemma signing_message_inj q1 q2 i1 i2 :
  sized q1 -> sized q2 -> input_wf i1 -> input_wf i2 -> signing_message q1 i1 = signing_message q2 i2 ->
  btx_version (req_transaction q1) = btx_version (req_transaction q2) /\
  double_sha256 (prevouts_message q1) = double_sha256 (prevouts_message q2) /\
  double_sha256 (sequences_message q1) = double_sha256 (sequences_message q2) /\
  in_previous_output i1 = in_previous_output i2 /\ req_script_code q1 = req_script_code q2 /\
  req_input_value q1 = req_input_value q2 /\
  double_sha256 (outputs_message q1) = double_sha256 (outputs_message q2) /\
  btx_lock_time (req_transaction q1) = btx_lock_time (req_transaction q2).
Proof.
  intros S1 S2 (O1 & _) (O2 & _) E. unfold signing_message, sighash_preimage in E.
  change (hash_prevouts (req_transaction ?q) SIGHASH_ALL) with (double_sha256 (prevouts_message q)) in E.
  change (hash_sequence (req_transaction ?q) SIGHASH_ALL) with (double_sha256 (sequences_message q)) in E.
  apply app_inj_length in E as [Ev E]; [|done]. apply app_inj_length in E as [Ep E]; [|by rewrite !length_double_sha256].
  apply app_inj_length in E as [Es E]; [|by rewrite !length_double_sha256].
  apply app_inj_length in E as [Eo E]; [|by rewrite !encode_outpoint_len].
  apply write_var_bytes_prefix in E as [Esc E];
    [|by apply script_tail_len; rewrite ?length_app, ?length_le_bytes, ?length_double_sha256; simpl; try lia..].
  apply app_inj_length in E as [Eval E]; [|done]. apply app_inj_length in E as [_ E]; [|done].
  apply app_inj_length in E as [Eout E]; [|by rewrite !length_double_sha256].
  apply app_inj_length in E as [El _]; [|done].
  destruct S1 as [((V1 & _ & _ & _ & _ & L1) & _ & A1 & _) _], S2 as [((V2 & _ & _ & _ & _ & L2) & _ & A2 & _) _].
  split_and!; [by apply is_i32_inj|done|done|by apply encode_outpoint_inj|done|by apply le_bytes_inj in Eval|done
    |by apply le_bytes_inj in El].
Qed.

(** Equal digests: the same spend, or a collision between messages the two
    requests hash. *)
Lemma sighash_commits q1 q2 d i1 i2 :
  sized q1 -> sized q2 ->
  btx_inputs (req_transaction q1) !! Z.to_nat (req_input_index q1) = Some i1 ->
  btx_inputs (req_transaction q2) !! Z.to_nat (req_input_index q2) = Some i2 ->
  d = double_sha256 (signing_message q1 i1) -> d = double_sha256 (signing_message q2 i2) ->
  same_spend q1 q2 \/ double_collision (signing_message q1 i1) (signing_message q2 i2) \/
  double_collision (prevouts_message q1) (prevouts_message q2) \/
  double_collision (sequences_message q1) (sequences_message q2) \/
  double_collision (outputs_message q1) (outputs_message q2).
Proof.
  intros S1 S2 L1 L2 -> [E|E]%double_sha256_inj; [|by right; left].
  assert (forall q i, sized q -> btx_inputs (req_transaction q) !! Z.to_nat (req_input_index q) = Some i -> input_wf i) as HW.
  { intros q i [((_ & _ & Hi & _) & _) _] Hl. by eapply Forall_lookup_1 in Hi. }
  apply signing_message_inj in E as (Ev & Ep & Es & Eo & Esc & Ea & Eout & El); [|by eauto..].
  apply double_sha256_inj in Ep as [Ep|]; [|by right; right; left].
  apply double_sha256_inj in Es as [Es|]; [|by right; right; right; left].
  apply double_sha256_inj in Eout as [Eout|]; [|by right; right; right; right].
  left. destruct S1 as [W1 ?], S2 as [W2 ?]. unfold same_spend. split_and!; try done.
  - by apply prevouts_inj.
  - by apply sequences_inj.
  - by apply outputs_inj.
  - unfold prevouts_of. rewrite !list_lookup_fmap, L1, L2. simpl. by f_equal.
Qed.

(** ** Reviews *)

(** The artifact the suite shows for a request that spends [i]. *)
Definition review_of (s : BitcoinCashChainSuite) (q : BitcoinCashSigningRequest) (i : BchTxIn) : ReviewArtifact :=
  let digest := double_sha256 (signing_message q i) in
  let summary := bch_summary q (sha256 (req_script_code q)) in
  mkReviewArtifact REVIEW_ARTIFACT_SCHEMA_VERSION (bcs_scope s)
    (bch_review_digest (bcs_scope s) digest (sha256 (request_encode q)) summary) digest summary (request_encode q).

(** A request the suite [s] can review, and the input it spends. *)
Definition reviewable (s : BitcoinCashChainSuite) (q : BitcoinCashSigningRequest) (i : BchTxIn) : Prop :=
  req_wf q /\ (length (request_encode q) <= MAX_REVIEW_MATERIAL_BYTES)%nat /\ req_network q = bcs_network s /\
  req_hash_type q = SIGHASH_ALL /\ btx_inputs (req_transaction q) !! Z.to_nat (req_input_index q) = Some i.

(** The summary always fits. *)
Lemma bch_summary_short q d : length d = 32%nat -> (String.length (bch_summary q d) <= MAX_REVIEW_SUMMARY_BYTES)%nat.
Proof.
  intros Hd. unfold bch_summary. rewrite !string_app_length, encode_hex_length, Hd.
  pose proof (display_hex_short (req_hash_type q)).
  repeat match goal with |- context [display_dec ?n] =>
    lazymatch goal with _ : (String.length (display_dec n) <= _)%nat |- _ => fail | _ => pose proof (display_dec_short n) end end.
  simpl String.length in *. assert (Z.of_nat MAX_REVIEW_SUMMARY_BYTES = 4096) as Hm.
  { with_strategy transparent [MAX_REVIEW_SUMMARY_BYTES] exact (Z2Nat.id (4 * 1024) ltac:(lia)). }
  lia.
Qed.

Lemma max_review_material : Z.of_nat MAX_REVIEW_MATERIAL_BYTES = 1000000.
Proof. with_strategy transparent [MAX_REVIEW_MATERIAL_BYTES] exact (Z2Nat.id 1000000 ltac:(lia)). Qed.

Lemma reviewable_sized s q i : reviewable s q i -> sized q.
Proof.
  intros (Hwf & Hl & _). split; [done|]. pose proof max_review_material. unfold len, MAX_REQUEST_BYTES. lia.
Qed.

(** The suite reviews exactly the requests it can review, each as it is. *)
Lemma bch_review_Ok s m r :
  bcs_hash_type s = SIGHASH_ALL ->
  bch_review_transaction s m = Ok r <->
  exists q i, m = request_encode q /\ reviewable s q i /\ r = review_of s q i.
Proof.
  intros Hall. unfold bch_review_transaction. split.
  - intros HR. next_in HR u Esize. next_in HR q Ereq. next_in HR v Ecan. next_in HR w Enet. next_in HR x Eht.
    next_in HR d Ed. res_inv. apply request_decode_Ok in Ereq as (-> & Hwf & Hl).
    rewrite Hall in Eht. rewrite Eht in Ed. apply sighash_all in Ed as (i & Hi & ->); [|done].
    apply ReviewArtifact_new_Ok in HR as (-> & _). exists q, i. split_and!; [done| |done].
    split_and!; [done|done|congruence|done|done].
  - intros (q & i & -> & Hv & ->). pose proof (reviewable_sized _ _ _ Hv) as [_ Hl].
    destruct Hv as (Hwf & Hlen & Hnet & Hht & Hi).
    rewrite reject_if_pass by guard_tac. res_cbn. rewrite (proj2 (request_decode_Ok _ q)) by done. res_cbn.
    rewrite (bool_decide_true (request_encode q = _)) by done. res_cbn.
    rewrite (bool_decide_true (NetBitcoinCash _ = _)) by congruence. rewrite Hht, Hall. res_cbn. rewrite (proj2 (sighash_all q _ Hwf)) by eauto. res_cbn.
    apply ReviewArtifact_new_Ok. split_and!; [done|apply bch_summary_short, sha256_length|done|done].
Qed.

(** ** Signatures *)

Lemma split_last_Some b x l : split_last b = Some (x, l) <-> b = l ++ [x].
Proof.
  unfold split_last. destruct (reverse b) as [|y r] eqn:E.
  - split; [done|]. intros ->. by rewrite reverse_snoc in E.
  - apply (f_equal reverse) in E. rewrite reverse_involutive, reverse_cons in E. subst b.
    split; [by intros [= -> <-]|]. intros [<- [= <-]]%app_inj_2; done.
Qed.

(** The core of a signature is accepted by the rules of its algorithm. *)
Definition core_accepted (algorithm : BitcoinCashSignatureAlgorithm) (key digest core : bytes) : Prop :=
  match algorithm with
  | BchEcdsa => exists e, ecdsa_from_der core = Some e /\ ecdsa_serialize_der e = core /\ ecdsa_normalize_s e = e /\
                  public_key_valid key = true /\ ecdsa_verify digest e key = true
  | BchSchnorr => length core = 64%nat /\ bch_verify_schnorr key digest core = Ok tt
  end.

Lemma parse_standard_ecdsa_Ok b e :
  parse_standard_ecdsa b = Ok e <-> ecdsa_from_der b = Some e /\ ecdsa_serialize_der e = b /\ ecdsa_normalize_s e = e.
Proof.
  unfold parse_standard_ecdsa. split.
  - intros. res_inv. by subst.
  - intros (-> & E1 & E2). res_cbn. by rewrite !bool_decide_true.
Qed.

Lemma hash_type_byte x : negb (b2z x =? 65) = false <-> x = x41.
Proof.
  rewrite negb_false_iff, Z.eqb_eq. split; [|by intros ->]. intros E. by apply b2z_inj.
Qed.

Lemma verify_ecdsa_Ok key digest sig :
  verify_ecdsa_transaction_signature key digest sig SIGHASH_ALL = Ok tt <->
  exists core, sig = core ++ [x41] /\ core_accepted BchEcdsa key digest core.
Proof.
  unfold verify_ecdsa_transaction_signature. change (signature_byte SIGHASH_ALL) with (Ok (E:=BchError) 65). split.
  - intros HV. next_in HV p Ep. apply ok_or_Ok in Ep. destruct p as [x core]. apply split_last_Some in Ep as ->.
    next_in HV u Eu. injection Eu as <-. next_in HV v Ev. next_in HV e Ee. next_in HV w Ew.
    apply reject_if_Ok, hash_type_byte in Ev as ->. apply parse_standard_ecdsa_Ok in Ee as (? & ? & ?). res_inv.
    exists core. split; [done|]. by exists e.
  - intros (core & -> & e & Hd & Hs & Hn & Hk & Hv). rewrite (proj2 (split_last_Some _ x41 core)) by done. res_cbn.
    rewrite (reject_if_pass (negb (b2z x41 =? 65))) by done. res_cbn.
    rewrite (proj2 (parse_standard_ecdsa_Ok core e)) by done. res_cbn. by rewrite Hk, Hv.
Qed.

Lemma verify_schnorr_Ok key digest sig :
  verify_schnorr_transaction_signature key digest sig SIGHASH_ALL = Ok tt <->
  exists core, sig = core ++ [x41] /\ core_accepted BchSchnorr key digest core.
Proof.
  unfold verify_schnorr_transaction_signature, schnorr_signature_from_bytes.
  change (signature_byte SIGHASH_ALL) with (Ok (E:=BchError) 65). split.
  - intros HV. next_in HV a Elen. next_in HV p Ep. apply ok_or_Ok in Ep. destruct p as [x core].
    apply split_last_Some in Ep as ->. next_in HV u Eu. injection Eu as <-. next_in HV v Ev. next_in HV e Ee.
    apply reject_if_Ok, hash_type_byte in Ev as ->. destruct (Nat.eqb_spec (length core) 64); [|done].
    injection Ee as <-. by exists core.
  - intros (core & -> & Hl & Hv). rewrite reject_if_pass by (rewrite length_app, Hl; done). res_cbn.
    rewrite (proj2 (split_last_Some _ x41 core)) by done. res_cbn.
    rewrite (reject_if_pass (negb (b2z x41 =? 65))) by done. res_cbn. by rewrite Hl.
Qed.

Lemma BitcoinCashChainSuite_new_Ok n alg key ht s :
  BitcoinCashChainSuite_new n alg key ht = Ok s <->
  s = mkBchSuite n alg key SIGHASH_ALL /\ ht = SIGHASH_ALL /\ public_key_valid key = true.
Proof.
  unfold BitcoinCashChainSuite_new. split.
  - intros. res_inv. by subst.
  - intros (-> & -> & ->). done.
Qed.

(** A suite that was set up accepts a finalized signature for a review
    exactly when the review is the one it shows for a request of its own
    network under ALL|FORKID, and the signature is the hash type byte behind a
    core that is strictly encoded and verifies, under the suite's key, for the
    signature hash of that request. *)
Theorem bch_finalized_signature n alg key ht s r sig :
  BitcoinCashChainSuite_new n alg key ht = Ok s ->
  verify_finalized_signature s r sig = Ok tt <->
  exists q i core, reviewable s q i /\ r = review_of s q i /\ sig = core ++ [x41] /\
    core_accepted alg key (double_sha256 (signing_message q i)) core.
Proof.
  intros (-> & _ & _)%BitcoinCashChainSuite_new_Ok. set (s := mkBchSuite n alg key SIGHASH_ALL).
  change (verify_finalized_signature s) with (bch_verify_finalized_signature s).
  unfold bch_verify_finalized_signature. split.
  - intros HV. next_in HV a Ea. next_in HV b Eb. next_in HV e Ee. next_in HV c Ec. res_inv. subst e.
    apply bch_review_Ok in Ee as (q & i & _ & Hq & ->); [|done]. exists q, i.
    destruct alg; [apply verify_ecdsa_Ok in HV as (core & ? & ?)|apply verify_schnorr_Ok in HV as (core & ? & ?)];
      by exists core.
  - intros (q & i & core & Hq & -> & -> & Hc). res_cbn.
    rewrite (reject_if_pass (negb (ra_schema_version _ =? _))) by done. res_cbn.
    rewrite (bool_decide_true (ra_scope _ = _)) by done. res_cbn.
    rewrite (proj2 (bch_review_Ok s _ (review_of s q i) eq_refl)) by eauto. res_cbn.
    rewrite (bool_decide_true (review_of s q i = _)) by done. res_cbn.
    destruct alg; cbn [bcs_algorithm s];
      [rewrite (proj2 (verify_ecdsa_Ok _ _ _))|rewrite (proj2 (verify_schnorr_Ok _ _ _))]; eauto.
Qed.

(** Two reviews with one signing digest are reviews of the same spend:
    version, inputs with their sequences, outputs, lock time, script code and
    amount agree, and so does the output being spent; or the two requests
    exhibit a SHA-256 collision in messages they hash.  A signature can
    therefore not be moved to a transaction that was not reviewed. *)
Theorem bch_digest_commits s1 s2 m1 m2 r1 r2 :
  bcs_hash_type s1 = SIGHASH_ALL -> bcs_hash_type s2 = SIGHASH_ALL ->
  review_transaction s1 m1 = Ok r1 -> review_transaction s2 m2 = Ok r2 ->
  ra_signing_message_digest r1 = ra_signing_message_digest r2 ->
  exists q1 i1 q2 i2, m1 = request_encode q1 /\ m2 = request_encode q2 /\ reviewable s1 q1 i1 /\ reviewable s2 q2 i2 /\
    (same_spend q1 q2 \/ double_collision (signing_message q1 i1) (signing_message q2 i2) \/
     double_collision (prevouts_message q1) (prevouts_message q2) \/
     double_collision (sequences_message q1) (sequences_message q2) \/
     double_collision (outputs_message q1) (outputs_message q2)).
Proof.
  intros A1 A2 R1 R2 E. apply bch_review_Ok in R1 as (q1 & i1 & -> & V1 & ->); [|done].
  apply bch_review_Ok in R2 as (q2 & i2 & -> & V2 & ->); [|done]. exists q1, i1, q2, i2.
  split_and!; [done..|]. pose proof (reviewable_sized _ _ _ V1). pose proof (reviewable_sized _ _ _ V2).
  destruct V1 as (_ & _ & _ & _ & L1), V2 as (_ & _ & _ & _ & L2). by eapply sighash_commits.
Qed.
End commits.

(** The two decoders accept exactly what the encoders write: a
    transaction, or a signing request, in range and of bounded size.  So both
    round trips hold, the variable integers are minimal, nothing may follow,
    and the comparison of a request with its re-encoding never fails. *)
Theorem bch_codecs_exact :
  (forall b t, tx_decode b = Ok t <-> b = tx_encode t /\ tx_wf t /\ len b <= MAX_TRANSACTION_BYTES) /\
  (forall b r, request_decode b = Ok r <-> b = request_encode r /\ req_wf r /\ len b <= MAX_REQUEST_BYTES).
Proof. split; [apply tx_decode_Ok|apply request_decode_Ok]. Qed.

(** ** A concrete suite

    Signatures of the toy curve repeat the digest; the public key is ignored. *)

Module BchToy.
#[export] Instance toy_curve : Secp256k1Lib := {|
  EcdsaSig := bytes;
  ecdsa_from_der b := Some b;
  ecdsa_serialize_der e := e;
  ecdsa_normalize_s e := e;
  ecdsa_verify d e k := bool_decide (d = e);
  secret_key_valid _ := true;
  ecdsa_sign d _ := d;
  AffinePoint := unit;
  ProjectivePoint := bytes;
  CurveScalar := bytes;
  point_decode _ := Some tt;
  point_compress _ := [];
  field_element_valid _ := true;
  field_has_sqrt _ := true;
  scalar_from_repr b := Some b;
  scalar_reduce b := b;
  generator_mul s := s;
  point_mul _ s := s;
  point_sub p q := p;
  point_is_identity _ := false;
  point_x p := Some p;
  point_y p := Some p;
|}.
#[export] Instance toy_addresses : AddressLib := {|
  ripemd160 b := take 20 (sha256 b);
  public_key_valid k := bool_decide (length k = 33%nat);
  base58check_encode b := String.string_of_list_byte b;
  base58check_decode s := Ok (ascii_bytes s);
|}.

Definition toy_input : BchTxIn := mkBchTxIn (mkBchOutPoint (replicate 32 x07) 1) [] 4294967295.
Definition toy_tx : BchTransaction := mkBchTransaction 2 [toy_input] [mkBchTxOut 5000 [x76; xa9]] 0.
Definition toy_request : BitcoinCashSigningRequest := mkBchRequest BchChipnet toy_tx 0 [x76] 6000 SIGHASH_ALL.
Definition toy_key : bytes := replicate 33 x02.
Definition toy_suite : BitcoinCashChainSuite := mkBchSuite BchChipnet BchEcdsa toy_key SIGHASH_ALL.

Lemma toy_reviewable : reviewable toy_suite toy_request toy_input.
Proof.
  split_and!; [|pose proof max_review_material; vm_compute length; lia|done|done|done].
  split_and!; [|unfold fits; simpl; unfold SIGHASH_ALL; lia..|done]. unfold tx_wf, is_i32, count_ok, MAX_TRANSACTION_ELEMENTS, fits.
  split_and!; simpl; try lia; (constructor; [|constructor]); unfold input_wf, outpoint_wf, output_wf, fits, len; simpl; lia.
Qed.
End BchToy.
Import BchToy.

Lemma bch_finalized_signature_witness :
  verify_finalized_signature toy_suite (review_of toy_suite toy_request toy_input)
    (double_sha256 (signing_message toy_request toy_input) ++ [x41]) = Ok tt.
Proof.
  apply (bch_finalized_signature BchChipnet BchEcdsa toy_key SIGHASH_ALL); [by vm_compute|].
  exists toy_request, toy_input, (double_sha256 (signing_message toy_request toy_input)).
  split_and!; [exact toy_reviewable|done|done|]. eexists. split_and!; done || by apply bool_decide_true.
Defined.

Lemma bch_digest_commits_witness :
  exists q1 i1 q2 i2, request_encode toy_request = request_encode q1 /\ request_encode toy_request = request_encode q2 /\
    reviewable toy_suite q1 i1 /\ reviewable toy_suite q2 i2 /\
    (same_spend q1 q2 \/ double_collision (signing_message q1 i1) (signing_message q2 i2) \/
     double_collision (prevouts_message q1) (prevouts_message q2) \/
     double_collision (sequences_message q1) (sequences_message q2) \/
     double_collision (outputs_message q1) (outputs_message q2)).
Proof.
  assert (review_transaction toy_suite (request_encode toy_request) = Ok (review_of toy_suite toy_request toy_input)) as HR.
  { apply bch_review_Ok; [done|]. exists toy_request, toy_input. split_and!; [done|exact toy_reviewable|done]. }
  by apply (bch_digest_commits toy_suite toy_suite _ _ (review_of toy_suite toy_request toy_input)
    (review_of toy_suite toy_request toy_input)).
Defined.
