(* ===== verification/Derivation.v ===== *)
(** * BIP 44 derivation paths
      (derivation.rs of src/crates/chain-bitcoin-cash, chain-bsv and chain-kaspa)

    Construction, printing and parsing of the paths the chain crates accept.
    What a crate prints it parses back to the same path; a parsed path has
    unhardened child numbers in range. *)

From Stdlib Require Import ZArith Lia.
From S2P Require Import Prelude ChainDomain Text CashAddr.
From stdpp Require Import list.
Local Open Scope string_scope.
Local Open Scope list_scope.
Local Open Scope Z_scope.

(** ** Text *)

(** [str::split(c)]: one part more than there are separators. *)
Fixpoint split_on (sep : byte) (b : bytes) : list bytes :=
  match b with
  | [] => [[]]
  | x :: r =>
      if bool_decide (x = sep) then [] :: split_on sep r
      else match split_on sep r with p :: ps => (x :: p) :: ps | [] => [[x]] end
  end.

(** [str::strip_suffix(c)] of one character, and [ends_with]. *)
Definition strip_last (c : byte) (b : bytes) : option bytes :=
  match reverse b with
  | x :: r => if bool_decide (x = c) then Some (reverse r) else None
  | [] => None
  end.
Definition ends_with (c : byte) (b : bytes) : bool := bool_decide (is_Some (strip_last c b)).

Definition HARDENED : Z := Z.shiftl 1 31.

(** ** Bitcoin Cash *)

Record BchBip44Path := mkBchBip44Path { bch_path_account : Z; bch_path_change : Z; bch_path_address_index : Z }.
Definition bch_path_PURPOSE : Z := 44.
Definition bch_path_COIN_TYPE : Z := 145.

Definition bch_path_require_unhardened (field : string) (value : Z) : result BchError unit :=
  if value <? HARDENED then Ok tt else Err (InvalidDerivationIndex field value).

Definition bch_path_new (account change address_index : Z) : result BchError BchBip44Path :=
  _ ← bch_path_require_unhardened "account" account;
  _ ← reject_if (1 <? change) (InvalidChange change);
  _ ← bch_path_require_unhardened "address_index" address_index;
  Ok (mkBchBip44Path account change address_index).

Definition bch_path_components (p : BchBip44Path) : list Z :=
  [Z.lor bch_path_PURPOSE HARDENED; Z.lor bch_path_COIN_TYPE HARDENED; Z.lor (bch_path_account p) HARDENED; bch_path_change p; bch_path_address_index p].

Definition bch_path_fmt (p : BchBip44Path) : string :=
  "m/" +:+ display_dec bch_path_PURPOSE +:+ "'/" +:+ display_dec bch_path_COIN_TYPE +:+ "'/" +:+ display_dec (bch_path_account p) +:+ "'/"
  +:+ display_dec (bch_path_change p) +:+ "/" +:+ display_dec (bch_path_address_index p).

Definition bch_path_parse_u32 (b : bytes) : result BchError Z := ok_or (parse_unsigned 32 b) InvalidDerivationPath.

Definition bch_path_from_str (value : string) : result BchError BchBip44Path :=
  match split_on x2f (ascii_bytes value) with
  | [p0; p1; p2; p3; p4; p5] =>
      _ ← reject_if (negb (bool_decide (p0 = ascii_bytes "m")) || negb (bool_decide (p1 = ascii_bytes "44'"))
                     || negb (bool_decide (p2 = ascii_bytes "145'"))) InvalidDerivationPath;
      stripped ← ok_or (strip_last x27 p3) InvalidDerivationPath;
      account ← bch_path_parse_u32 stripped;
      _ ← reject_if (ends_with x27 p4 || ends_with x27 p5) InvalidDerivationPath;
      change ← bch_path_parse_u32 p4;
      address_index ← bch_path_parse_u32 p5;
      bch_path_new account change address_index
  | _ => Err InvalidDerivationPath
  end.

(** ** Bitcoin SV *)

Record BsvBip44Path := mkBsvBip44Path { bsv_path_account : Z; bsv_path_change : bool; bsv_path_address_index : Z }.
Definition bsv_path_COIN_TYPE : Z := 236.

(** [BsvError::InvalidDerivationPath]. *)
Inductive BsvPathError := BsvInvalidDerivationPath (reason : string).

Definition bsv_path_new (account : Z) (change : bool) (address_index : Z) : result BsvPathError BsvBip44Path :=
  _ ← reject_if ((HARDENED <=? account) || (HARDENED <=? address_index))
        (BsvInvalidDerivationPath "child number must be below 2^31");
  Ok (mkBsvBip44Path account change address_index).

Definition bsv_path_components (p : BsvBip44Path) : list Z :=
  [Z.lor 44 HARDENED; Z.lor bsv_path_COIN_TYPE HARDENED; Z.lor (bsv_path_account p) HARDENED; Z.b2z (bsv_path_change p); bsv_path_address_index p].

Definition bsv_path_fmt (p : BsvBip44Path) : string :=
  "m/44'/236'/" +:+ display_dec (bsv_path_account p) +:+ "'/" +:+ display_dec (Z.b2z (bsv_path_change p)) +:+ "/"
  +:+ display_dec (bsv_path_address_index p).

Definition bsv_path_parse_u32 (value : string) (b : bytes) : result BsvPathError Z :=
  ok_or (parse_unsigned 32 b) (BsvInvalidDerivationPath value).

Definition bsv_path_from_str (value : string) : result BsvPathError BsvBip44Path :=
  match split_on x2f (ascii_bytes value) with
  | [p0; p1; p2; p3; p4; p5] =>
      _ ← reject_if (negb (bool_decide (p0 = ascii_bytes "m")) || negb (bool_decide (p1 = ascii_bytes "44'"))
                     || negb (bool_decide (p2 = ascii_bytes "236'"))) (BsvInvalidDerivationPath value);
      stripped ← ok_or (strip_last x27 p3) (BsvInvalidDerivationPath value);
      account ← bsv_path_parse_u32 value stripped;
      change ← (if bool_decide (p4 = ascii_bytes "0") then Ok false
                else if bool_decide (p4 = ascii_bytes "1") then Ok true
                else Err (BsvInvalidDerivationPath value));
      address_index ← bsv_path_parse_u32 value p5;
      bsv_path_new account change address_index
  | _ => Err (BsvInvalidDerivationPath value)
  end.

(** ** Kaspa: paths are only printed *)

Definition KASPA_COIN_TYPE : Z := 111111.
Inductive DerivationBranch := Receive | Change.
Definition kaspa_branch_index (b : DerivationBranch) : Z := match b with Receive => 0 | Change => 1 end.

Inductive KaspaPathError := KaspaInvalidDerivationIndex (field : string) (value : Z).

Definition kaspa_validate_index (field : string) (value : Z) : result KaspaPathError unit :=
  reject_if (HARDENED <=? value) (KaspaInvalidDerivationIndex field value).

Definition derive_single_sig_path (account : Z) (branch : DerivationBranch) (address_index : Z)
    : result KaspaPathError string :=
  _ ← kaspa_validate_index "account" account;
  _ ← kaspa_validate_index "address_index" address_index;
  Ok ("m/44'/" +:+ display_dec KASPA_COIN_TYPE +:+ "'/" +:+ display_dec account +:+ "'/"
      +:+ display_dec (kaspa_branch_index branch) +:+ "/" +:+ display_dec address_index).

Definition derive_multisig_path (account cosigner_index : Z) (branch : DerivationBranch) (address_index : Z)
    : result KaspaPathError string :=
  _ ← kaspa_validate_index "account" account;
  _ ← kaspa_validate_index "cosigner_index" cosigner_index;
  _ ← kaspa_validate_index "address_index" address_index;
  Ok ("m/45'/" +:+ display_dec KASPA_COIN_TYPE +:+ "'/" +:+ display_dec account +:+ "'/"
      +:+ display_dec cosigner_index +:+ "/" +:+ display_dec (kaspa_branch_index branch) +:+ "/" +:+ display_dec address_index).

(** ** Lemmas *)

Lemma split_on_app sep a b : sep ∉ a -> split_on sep (a ++ sep :: b) = a :: split_on sep b.
Proof.
  induction a as [|x a IH]; intros Ha; simpl; [by rewrite bool_decide_true|].
  apply not_elem_of_cons in Ha as [Hx Ha]. rewrite bool_decide_false by done. by rewrite IH.
Qed.

Lemma split_on_single sep a : sep ∉ a -> split_on sep a = [a].
Proof.
  induction a as [|x a IH]; intros Ha; simpl; [done|].
  apply not_elem_of_cons in Ha as [Hx Ha]. rewrite bool_decide_false by done. by rewrite IH.
Qed.

Lemma strip_last_snoc c b : strip_last c (b ++ [c]) = Some b.
Proof. unfold strip_last. rewrite reverse_snoc, bool_decide_true by done. by rewrite reverse_involutive. Qed.

(** No separator or quote among decimal digits. *)
Lemma digits_not_elem b x : forallb is_ascii_digit b = true -> is_ascii_digit x = false -> x ∉ b.
Proof.
  intros Hb Hx Hin. rewrite forallb_forall in Hb. apply list_elem_of_In, Hb in Hin. congruence.
Qed.

Lemma digits_not_quoted b : forallb is_ascii_digit b = true -> strip_last x27 b = None.
Proof.
  intros Hb. unfold strip_last. destruct (reverse b) as [|x r] eqn:E; [done|].
  rewrite bool_decide_false; [done|]. intros ->. apply (digits_not_elem b x27) in Hb; [|done].
  apply Hb. rewrite <- elem_of_reverse, E. apply elem_of_cons. by left.
Qed.

Lemma ascii_app s t : ascii_bytes (s +:+ t) = ascii_bytes s ++ ascii_bytes t.
Proof.
  unfold ascii_bytes. induction s as [|c s IH]; [done|].
  change (String c s +:+ t) with (String c (s +:+ t)). exact (f_equal (cons (Ascii.byte_of_ascii c)) IH).
Qed.

Definition child_ok (n : Z) : Prop := 0 <= n < HARDENED.

Lemma child_u32 n : child_ok n -> fits 32 n.
Proof. unfold child_ok, fits. change HARDENED with (2 ^ 31). lia. Qed.

(** The pieces of a printed path, between its separators. *)
Lemma path_pieces p1 p2 a c i :
  x2f ∉ ascii_bytes p1 -> x2f ∉ ascii_bytes p2 -> child_ok a -> child_ok c -> child_ok i ->
  split_on x2f (ascii_bytes ("m/" +:+ p1 +:+ "/" +:+ p2 +:+ "/" +:+ display_dec a +:+ "'/" +:+ display_dec c +:+ "/" +:+ display_dec i)) =
  [ascii_bytes "m"; ascii_bytes p1; ascii_bytes p2; ascii_bytes (display_dec a) ++ [x27]; ascii_bytes (display_dec c);
   ascii_bytes (display_dec i)].
Proof.
  intros H1 H2 Ha%child_u32 Hc%child_u32 Hi%child_u32. rewrite !ascii_app.
  destruct (parse_display_dec 32 a Ha ltac:(lia)) as [Da _]. destruct (parse_display_dec 32 c Hc ltac:(lia)) as [Dc _].
  destruct (parse_display_dec 32 i Hi ltac:(lia)) as [Di _].
  change (ascii_bytes "m/") with ([x6d] ++ [x2f]). change (ascii_bytes "/") with [x2f].
  change (ascii_bytes "'/") with ([x27] ++ [x2f]). rewrite <- !(assoc_L (++)). cbn [app].
  change (x6d :: x2f :: ?r) with ([x6d] ++ x2f :: r).
  rewrite (split_on_app x2f [x6d]) by (apply not_elem_of_cons; split; [done|apply not_elem_of_nil]).
  rewrite split_on_app by done. rewrite split_on_app by done.
  rewrite (cons_middle x27), (assoc_L (++)).
  rewrite split_on_app by (apply not_elem_of_app; split; [by apply digits_not_elem|];
    apply not_elem_of_cons; split; [done|apply not_elem_of_nil]).
  rewrite split_on_app by by apply digits_not_elem.
  rewrite split_on_single by by apply digits_not_elem. done.
Qed.

(** What Bitcoin Cash prints it reads back. *)
Lemma bch_path_roundtrip p :
  child_ok (bch_path_account p) -> 0 <= bch_path_change p <= 1 -> child_ok (bch_path_address_index p) ->
  bch_path_from_str (bch_path_fmt p) = Ok p.
Proof.
  intros Ha Hc Hi. assert (child_ok (bch_path_change p)) as Hc' by (unfold child_ok; change HARDENED with (2 ^ 31); lia).
  pose proof (path_pieces "44'" "145'" _ _ _ ltac:(apply (bool_decide_unpack _); by vm_compute)
    ltac:(apply (bool_decide_unpack _); by vm_compute) Ha Hc' Hi) as Hp.
  unfold bch_path_from_str.
  change (bch_path_fmt p) with ("m/" +:+ "44'" +:+ "/" +:+ "145'" +:+ "/" +:+ display_dec (bch_path_account p)
    +:+ "'/" +:+ display_dec (bch_path_change p) +:+ "/" +:+ display_dec (bch_path_address_index p)).
  rewrite Hp. clear Hp.
  destruct (parse_display_dec 32 _ (child_u32 _ Ha) ltac:(lia)) as [Da Pa].
  destruct (parse_display_dec 32 _ (child_u32 _ Hc') ltac:(lia)) as [Dc Pc].
  destruct (parse_display_dec 32 _ (child_u32 _ Hi) ltac:(lia)) as [Di Pi].
  rewrite (bool_decide_true (ascii_bytes "m" = _)), (bool_decide_true (ascii_bytes "44'" = _)),
    (bool_decide_true (ascii_bytes "145'" = _)) by done.
  res_cbn. rewrite strip_last_snoc. res_cbn. unfold bch_path_parse_u32, ends_with. rewrite Pa. res_cbn.
  rewrite (digits_not_quoted _ Dc), (digits_not_quoted _ Di). rewrite reject_if_pass by done. res_cbn. rewrite Pc, Pi. res_cbn.
  unfold bch_path_new, bch_path_require_unhardened, child_ok in *.
  rewrite (proj2 (Z.ltb_lt (bch_path_account p) _)) by lia. res_cbn. rewrite reject_if_pass by (apply Z.ltb_ge; lia).
  res_cbn. rewrite (proj2 (Z.ltb_lt (bch_path_address_index p) _)) by lia. by destruct p.
Qed.

Lemma bch_path_new_Ok a c i p :
  bch_path_new a c i = Ok p <-> p = mkBchBip44Path a c i /\ a < HARDENED /\ c <= 1 /\ i < HARDENED.
Proof.
  unfold bch_path_new, bch_path_require_unhardened.
  destruct (Z.ltb_spec a HARDENED); cbn; [|naive_solver lia].
  destruct (Z.ltb_spec 1 c); cbn; [naive_solver lia|]. destruct (Z.ltb_spec i HARDENED); cbn; naive_solver lia.
Qed.

Lemma parse_unsigned_fits w b n : parse_unsigned w b = Some n -> fits w n.
Proof.
  unfold parse_unsigned. intros HP. set (d := match b with x2b :: r => r | _ => b end) in HP.
  destruct (_ && _) eqn:E; [|done]. injection HP as <-. rewrite !andb_true_iff in E. destruct E as [[_ Hd] Hw%Z.ltb_lt].
  apply decimal_range in Hd. split; lia.
Qed.

(** Whatever is accepted is a path in range. *)
Lemma bch_path_in_range s p :
  bch_path_from_str s = Ok p ->
  child_ok (bch_path_account p) /\ 0 <= bch_path_change p <= 1 /\ child_ok (bch_path_address_index p).
Proof.
  unfold bch_path_from_str, bch_path_parse_u32. intros HP.
  destruct (split_on _ _) as [|p0 [|p1 [|p2 [|p3 [|p4 [|p5 [|]]]]]]]; try done. res_inv.
  apply bch_path_new_Ok in HP as (-> & ? & ? & ?). simpl.
  repeat match goal with E : parse_unsigned 32 _ = Some _ |- _ => apply parse_unsigned_fits in E end.
  unfold child_ok, fits in *. lia.
Qed.

(** The same for Bitcoin SV. *)
Lemma bsv_path_roundtrip p :
  child_ok (bsv_path_account p) -> child_ok (bsv_path_address_index p) ->
  bsv_path_from_str (bsv_path_fmt p) = Ok p.
Proof.
  intros Ha Hi. assert (child_ok (Z.b2z (bsv_path_change p))) as Hc' by (by destruct (bsv_path_change p)).
  pose proof (path_pieces "44'" "236'" _ _ _ ltac:(apply (bool_decide_unpack _); by vm_compute)
    ltac:(apply (bool_decide_unpack _); by vm_compute) Ha Hc' Hi) as Hp.
  unfold bsv_path_from_str.
  change (ascii_bytes (bsv_path_fmt p)) with (ascii_bytes ("m/" +:+ "44'" +:+ "/" +:+ "236'" +:+ "/" +:+ display_dec (bsv_path_account p)
    +:+ "'/" +:+ display_dec (Z.b2z (bsv_path_change p)) +:+ "/" +:+ display_dec (bsv_path_address_index p))).
  rewrite Hp. clear Hp.
  destruct (parse_display_dec 32 _ (child_u32 _ Ha) ltac:(lia)) as [Da Pa].
  destruct (parse_display_dec 32 _ (child_u32 _ Hi) ltac:(lia)) as [Di Pi].
  rewrite (bool_decide_true (ascii_bytes "m" = _)), (bool_decide_true (ascii_bytes "44'" = _)),
    (bool_decide_true (ascii_bytes "236'" = _)) by done.
  res_cbn. rewrite strip_last_snoc. res_cbn. unfold bsv_path_parse_u32. rewrite Pa. res_cbn.
  assert ((if bool_decide (ascii_bytes (display_dec (Z.b2z (bsv_path_change p))) = ascii_bytes "0") then Ok false
           else if bool_decide (ascii_bytes (display_dec (Z.b2z (bsv_path_change p))) = ascii_bytes "1") then Ok true
           else Err (BsvInvalidDerivationPath (bsv_path_fmt p))) = Ok (bsv_path_change p)) as ->
    by (by destruct (bsv_path_change p)).
  res_cbn. rewrite Pi. res_cbn. unfold bsv_path_new, child_ok in *.
  rewrite reject_if_pass by guard_tac. by destruct p.
Qed.

Lemma bsv_path_in_range s p :
  bsv_path_from_str s = Ok p -> child_ok (bsv_path_account p) /\ child_ok (bsv_path_address_index p).
Proof.
  unfold bsv_path_from_str, bsv_path_parse_u32, bsv_path_new. intros HP.
  destruct (split_on _ _) as [|p0 [|p1 [|p2 [|p3 [|p4 [|p5 [|]]]]]]]; try done. res_inv. subst p. simpl.
  repeat match goal with E : parse_unsigned 32 _ = Some _ |- _ => apply parse_unsigned_fits in E end.
  unfold child_ok, fits in *. lia.
Qed.

(** Kaspa refuses hardened child numbers, and prints the rest. *)
Lemma kaspa_path_Ok a b i :
  is_ok (derive_single_sig_path a b i) = true <-> a < HARDENED /\ i < HARDENED.
Proof.
  unfold derive_single_sig_path, kaspa_validate_index.
  destruct (Z.leb_spec HARDENED a); cbn; [naive_solver lia|]. destruct (Z.leb_spec HARDENED i); cbn; naive_solver lia.
Qed.
