(* ===== verification/Bsv.v ===== *)
(** * Bitcoin SV (src/crates/chain-bsv/src)

    Addresses, transactions and their fork-id signature hash, the JSON signing
    request, transaction signatures and the chain suite.  The transaction format
    is the one of Bitcoin Cash; the model keeps this crate's own functions and
    the lemmas relate the two. *)

From Stdlib Require Import ZArith Lia.
From S2P Require Import Prelude Bitcoin ChainDomain SigningDomain Text CashAddr Derivation BchTransaction BchSuite.
From stdpp Require Import list.
Local Open Scope string_scope.
Local Open Scope list_scope.
Local Open Scope Z_scope.

(** ** Errors (lib.rs) *)

Inductive BsvError :=
| BsvInvalidAddress (reason : string)
| BsvWrongAddressNetwork (network : BsvNetwork) (version : Z)
| BsvAmbiguousAddressNetwork (requested : BsvNetwork) (compatible_networks : list BsvNetwork)
| BsvInvalidAddressPayload
| BsvPath (e : BsvPathError)
| BsvInputIndexOutOfBounds (index : Z)
| BsvMissingSingleOutput (index : Z)
| BsvInvalidSighashType (value : Z)
| BsvInvalidPublicKey
| BsvInvalidSecretKey
| BsvInvalidDerSignature
| BsvHighSSignature
| BsvSignatureVerificationFailed
| BsvInvalidSigningMaterial (reason : string)
| BsvWrongSigningNetwork (configured declared : BsvNetwork)
| BsvIncompatibleSignerBackend (mode : SigningExecutionMode) (backend : SignerBackendRequirement)
| BsvInvalidSigningSuite (reason : string).

#[export] Instance BsvNetwork_eq_dec : EqDecision BsvNetwork.
Proof. solve_decision. Defined.

(** The texts of errors are built by [thiserror] and [Debug] derivations, and by
    the libraries an error comes from. *)
Class BsvTexts := {
  BsvError_display : BsvError -> string;
  SigningContractError_display : SigningContractError -> string;
  Base58Error_display : Base58Error -> string;
}.

(** ** Addresses (address.rs) *)

Inductive AddressNetworkResolution :=
| ResolvedExact (n : BsvNetwork)
| ResolvedAmbiguous (compatible_networks : list BsvNetwork).

Definition TEST_FAMILY_NETWORKS : list BsvNetwork := [BsvTestnet; BsvStn; BsvRegtest].

Record BsvAddress := mkBsvAddress {
  bsv_addr_network : BsvNetwork;
  bsv_addr_type : AddressKind;
  bsv_addr_payload : bytes;
}.

Inductive NetworkClass := ClassMainnet | ClassTestFamily.
Definition network_class (network : BsvNetwork) : NetworkClass :=
  match network with
  | BsvMainnet => ClassMainnet
  | BsvTestnet | BsvStn | BsvRegtest => ClassTestFamily
  end.

Definition address_type (version : Z) : option AddressKind :=
  match version with
  | 0 | 111 => Some P2pkh
  | 5 | 196 => Some P2sh
  | _ => None
  end.

Definition bsv_from_payload (network : BsvNetwork) (address_type : AddressKind) (payload : bytes)
    : result BsvError BsvAddress :=
  _ ← reject_if (negb (length payload =? 20)%nat) BsvInvalidAddressPayload;
  Ok (mkBsvAddress network address_type payload).

Definition bsv_version (a : BsvAddress) : Z :=
  match network_class (bsv_addr_network a), bsv_addr_type a with
  | ClassMainnet, P2pkh => 0
  | ClassMainnet, P2sh => 5
  | ClassTestFamily, P2pkh => 111
  | ClassTestFamily, P2sh => 196
  end.

(** [PublicKey::serialize]: the compressed form of a valid key. *)
Class PublicKeyLib := compress_public_key : bytes -> bytes.

Section address.
Context `{BitcoinLib} {L : AddressLib} {T : BsvTexts}.

Definition bsv_p2pkh_from_public_key `{PublicKeyLib} (network : BsvNetwork) (public_key : bytes)
    : result BsvError BsvAddress :=
  _ ← reject_if (negb (public_key_valid public_key)) BsvInvalidPublicKey;
  bsv_from_payload network P2pkh (hash160 (compress_public_key public_key)).

Definition bsv_p2sh_from_redeem_script (network : BsvNetwork) (redeem_script : bytes) : result BsvError BsvAddress :=
  bsv_from_payload network P2sh (hash160 redeem_script).

Definition decode_address (value : string) : result BsvError bytes :=
  decoded ← map_err (fun e => BsvInvalidAddress (Base58Error_display e)) (base58check_decode value);
  _ ← reject_if (negb (length decoded =? 21)%nat) BsvInvalidAddressPayload;
  Ok decoded.

(** [decoded[0]] of 21 bytes. *)
Definition first_byte (b : bytes) : Z := match b with x :: _ => b2z x | [] => 0 end.

Definition resolve_network (value : string) : result BsvError AddressNetworkResolution :=
  decoded ← decode_address value;
  match first_byte decoded with
  | 0 | 5 => Ok (ResolvedExact BsvMainnet)
  | 111 | 196 => Ok (ResolvedAmbiguous TEST_FAMILY_NETWORKS)
  | version => Err (BsvInvalidAddress ("unsupported Base58Check version " +:+ display_hex_byte version))
  end.

Definition parse_for_network (value : string) (network : BsvNetwork) : result BsvError BsvAddress :=
  decoded ← decode_address value;
  kind ← ok_or (address_type (first_byte decoded)) (BsvWrongAddressNetwork network (first_byte decoded));
  resolution ← resolve_network value;
  _ ← match resolution, network_class network with
      | ResolvedExact BsvMainnet, ClassMainnet => Ok tt
      | ResolvedAmbiguous _, ClassTestFamily => Err (BsvAmbiguousAddressNetwork network TEST_FAMILY_NETWORKS)
      | _, _ => Err (BsvWrongAddressNetwork network (first_byte decoded))
      end;
  bsv_from_payload network kind (drop 1 decoded).

Definition bsv_address_fmt (a : BsvAddress) : string :=
  base58check_encode (z2b (bsv_version a) :: bsv_addr_payload a).
End address.

(** ** Transactions (transaction.rs) *)

Definition MAX_TRANSACTION_INPUTS : Z := 100000.
Definition MAX_TRANSACTION_OUTPUTS : Z := 100000.
Definition MAX_SCRIPT_BYTES : Z := 10000000.

Record TxInput := mkTxInput {
  previous_txid_le : bytes;
  previous_output_index : Z;
  bsv_script_sig : bytes;
  bsv_sequence : Z;
}.
Record TxOutput := mkTxOutput { value_satoshis : Z; bsv_script_pubkey : bytes }.
Record BsvTransaction := mkBsvTransaction {
  bsv_version_no : Z;
  bsv_inputs : list TxInput;
  bsv_outputs : list TxOutput;
  bsv_lock_time : Z;
}.

Definition write_compact_size (value : Z) : bytes :=
  if value <? 0xfd then [z2b value]
  else if value <=? 0xffff then xfd :: le_bytes 2 value
  else if value <=? 0xffffffff then xfe :: le_bytes 4 value
  else xff :: le_bytes 8 value.
Definition write_script (script : bytes) : bytes := write_compact_size (len script) ++ script.
Definition write_outpoint (i : TxInput) : bytes := previous_txid_le i ++ le_bytes 4 (previous_output_index i).
Definition write_output (o : TxOutput) : bytes := le_bytes 8 (value_satoshis o) ++ write_script (bsv_script_pubkey o).

Definition validate_transaction (t : BsvTransaction) : result BsvError unit :=
  _ ← reject_if (bool_decide (length (bsv_inputs t) = 0%nat) || (MAX_TRANSACTION_INPUTS <? Z.of_nat (length (bsv_inputs t))))
        (BsvInvalidSigningMaterial "transaction input count is outside the configured bounds");
  _ ← reject_if (bool_decide (length (bsv_outputs t) = 0%nat) || (MAX_TRANSACTION_OUTPUTS <? Z.of_nat (length (bsv_outputs t))))
        (BsvInvalidSigningMaterial "transaction output count is outside the configured bounds");
  reject_if (existsb (fun i => MAX_SCRIPT_BYTES <? len (bsv_script_sig i)) (bsv_inputs t)
             || existsb (fun o => MAX_SCRIPT_BYTES <? len (bsv_script_pubkey o)) (bsv_outputs t))
    (BsvInvalidSigningMaterial "transaction script exceeds the configured bound").

Definition consensus_encode (t : BsvTransaction) : result BsvError bytes :=
  _ ← validate_transaction t;
  Ok (le_bytes 4 (bsv_version_no t) ++
      write_compact_size (Z.of_nat (length (bsv_inputs t))) ++
      concat ((fun i => write_outpoint i ++ write_script (bsv_script_sig i) ++ le_bytes 4 (bsv_sequence i)) <$> bsv_inputs t) ++
      write_compact_size (Z.of_nat (length (bsv_outputs t))) ++ concat (write_output <$> bsv_outputs t) ++
      le_bytes 4 (bsv_lock_time t)).

Definition bsv_sighash_from_u8 (value : Z) : result BsvError Z :=
  match value with
  | 0x41 | 0x42 | 0x43 | 0xc1 | 0xc2 | 0xc3 => Ok value
  | _ => Err (BsvInvalidSighashType value)
  end.

Record BsvSigningRequest := mkBsvRequest {
  bsvr_network : BsvNetwork;
  bsvr_transaction : BsvTransaction;
  bsvr_input_index : Z;
  bsvr_script_code : bytes;
  bsvr_input_value_satoshis : Z;
  bsvr_sighash_type : Z;
}.

Record SigningRequestWire := mkWire {
  wire_schema_version : Z;
  wire_network : string;
  wire_transaction : BsvTransaction;
  wire_input_index : Z;
  wire_script_code : bytes;
  wire_input_value_satoshis : Z;
  wire_sighash_type : Z;
}.

(** serde_json on the wire record. *)
Class BsvJson := {
  wire_to_vec : SigningRequestWire -> result string bytes;
  wire_from_slice : bytes -> result string SigningRequestWire;
}.

Definition bsv_network_name (network : BsvNetwork) : string :=
  match network with
  | BsvMainnet => "mainnet"
  | BsvTestnet => "testnet"
  | BsvStn => "stn"
  | BsvRegtest => "regtest"
  end.

Definition bsv_parse_network (value : string) : result BsvError BsvNetwork :=
  if String.eqb value "mainnet" then Ok BsvMainnet
  else if String.eqb value "testnet" then Ok BsvTestnet
  else if String.eqb value "stn" then Ok BsvStn
  else if String.eqb value "regtest" then Ok BsvRegtest
  else Err (BsvInvalidSigningMaterial ("unsupported BSV network " +:+ value)).

Section transaction.
Context `{BitcoinLib} {L : AddressLib} {T : BsvTexts} {J : BsvJson} {K : Secp256k1Lib}.

Definition bsv_fork_id_sighash (t : BsvTransaction) (input_index : Z) (script_code : bytes)
    (input_value_satoshis sighash_type : Z) : result BsvError bytes :=
  _ ← validate_transaction t;
  _ ← reject_if (MAX_SCRIPT_BYTES <? len script_code)
        (BsvInvalidSigningMaterial "scriptCode exceeds the configured bound");
  input ← ok_or (if input_index <? Z.of_nat (length (bsv_inputs t)) then bsv_inputs t !! Z.to_nat input_index else None)
            (BsvInputIndexOutOfBounds input_index);
  _ ← reject_if ((sighash_base sighash_type =? 3) && (Z.of_nat (length (bsv_outputs t)) <=? input_index))
        (BsvMissingSingleOutput input_index);
  let prevouts_hash :=
    if anyone_can_pay sighash_type then replicate 32 x00
    else double_sha256 (concat (write_outpoint <$> bsv_inputs t)) in
  let sequence_hash :=
    if anyone_can_pay sighash_type || (sighash_base sighash_type =? 2) || (sighash_base sighash_type =? 3)
    then replicate 32 x00
    else double_sha256 (concat ((fun i => le_bytes 4 (bsv_sequence i)) <$> bsv_inputs t)) in
  let outputs_hash :=
    if sighash_base sighash_type =? 1 then double_sha256 (concat (write_output <$> bsv_outputs t))
    else if sighash_base sighash_type =? 3 then
      match bsv_outputs t !! Z.to_nat input_index with
      | Some o => double_sha256 (write_output o)
      | None => replicate 32 x00
      end
    else replicate 32 x00 in
  Ok (double_sha256 (
    le_bytes 4 (bsv_version_no t) ++ prevouts_hash ++ sequence_hash ++ write_outpoint input ++ write_script script_code ++
    le_bytes 8 input_value_satoshis ++ le_bytes 4 (bsv_sequence input) ++ outputs_hash ++
    le_bytes 4 (bsv_lock_time t) ++ le_bytes 4 sighash_type)).

Definition signing_digest (r : BsvSigningRequest) : result BsvError bytes :=
  bsv_fork_id_sighash (bsvr_transaction r) (bsvr_input_index r) (bsvr_script_code r) (bsvr_input_value_satoshis r)
    (bsvr_sighash_type r).

Definition wire_of (r : BsvSigningRequest) : SigningRequestWire :=
  mkWire 1 (bsv_network_name (bsvr_network r)) (bsvr_transaction r) (bsvr_input_index r) (bsvr_script_code r)
    (bsvr_input_value_satoshis r) (bsvr_sighash_type r).

Definition bsv_request_encode (r : BsvSigningRequest) : result BsvError bytes :=
  _ ← signing_digest r;
  map_err BsvInvalidSigningMaterial (wire_to_vec (wire_of r)).

Definition bsv_request_decode (b : bytes) : result BsvError BsvSigningRequest :=
  wire ← map_err BsvInvalidSigningMaterial (wire_from_slice b);
  _ ← reject_if (negb (wire_schema_version wire =? 1))
        (BsvInvalidSigningMaterial ("unsupported schema version " +:+ display_dec (wire_schema_version wire)));
  network ← bsv_parse_network (wire_network wire);
  sighash_type ← bsv_sighash_from_u8 (wire_sighash_type wire);
  let request := mkBsvRequest network (wire_transaction wire) (wire_input_index wire) (wire_script_code wire)
                   (wire_input_value_satoshis wire) sighash_type in
  _ ← signing_digest request;
  Ok request.

(** ** Signatures (signing.rs) *)

Definition parse_canonical_signature (der_signature : bytes) : result BsvError EcdsaSig :=
  signature ← ok_or (ecdsa_from_der der_signature) BsvInvalidDerSignature;
  _ ← reject_if (negb (bool_decide (ecdsa_serialize_der signature = der_signature))) BsvInvalidDerSignature;
  _ ← reject_if (negb (bool_decide (ecdsa_normalize_s signature = signature))) BsvHighSSignature;
  Ok signature.

Definition append_sighash_byte (der_signature : bytes) (sighash_type : Z) : result BsvError bytes :=
  signature ← parse_canonical_signature der_signature;
  Ok (ecdsa_serialize_der signature ++ [z2b sighash_type]).

Definition assemble_reviewed_cb_mpc_signature (reviewed_material der_signature : bytes) : result BsvError bytes :=
  request ← bsv_request_decode reviewed_material;
  append_sighash_byte der_signature (bsvr_sighash_type request).

Definition bsv_sign_digest (secret_key digest : bytes) (sighash_type : Z) : result BsvError bytes :=
  append_sighash_byte (ecdsa_serialize_der (ecdsa_sign digest secret_key)) sighash_type.

Definition verify_transaction_signature (public_key digest encoded_signature : bytes) (expected_sighash_type : Z)
    : result BsvError unit :=
  '(actual, der_signature) ← ok_or (split_last encoded_signature) BsvInvalidDerSignature;
  actual_sighash ← bsv_sighash_from_u8 (b2z actual);
  _ ← reject_if (negb (actual_sighash =? expected_sighash_type)) (BsvInvalidSighashType actual_sighash);
  signature ← parse_canonical_signature der_signature;
  reject_if (negb (ecdsa_verify digest signature public_key)) BsvSignatureVerificationFailed.

(** ** The chain suite (suite.rs) *)

Record BsvChainSuite := mkBsvSuite { bsvs_network : BsvNetwork; bsvs_verifying_public_key : bytes }.
Definition bsv_scope (s : BsvChainSuite) : ChainScope := ChainScope_for_network (NetBsv (bsvs_network s)).

Definition BsvChainSuite_new (network : BsvNetwork) (verifying_public_key : bytes) : result BsvError BsvChainSuite :=
  _ ← reject_if (negb (public_key_valid verifying_public_key)) BsvInvalidPublicKey;
  Ok (mkBsvSuite network verifying_public_key).

Definition signing_descriptor (s : BsvChainSuite) (mode : SigningExecutionMode)
    : result BsvError SigningSuiteDescriptor :=
  suite_id ← match mode with
             | SingleSignerIsolated => Ok BsvEcdsaIsolatedV1
             | ThresholdInteractive => Ok BsvEcdsaCbMpcV1
             | NativeChainCoordinator =>
                 Err (BsvInvalidSigningSuite "BSV ECDSA has no native-chain coordinator backend")
             | ThresholdNonInteractive =>
                 Err (BsvInvalidSigningSuite "BSV ECDSA has no non-interactive threshold backend")
             end;
  map_err (fun e => BsvInvalidSigningSuite (SigningContractError_display e)) (resolve_builtin_suite (bsv_scope s) suite_id).

#[export] Instance SignerBackendRequirement_eq_dec : EqDecision SignerBackendRequirement.
Proof. solve_decision. Defined.

Definition validate_backend_requirement (s : BsvChainSuite) (mode : SigningExecutionMode)
    (backend : SignerBackendRequirement) : result BsvError unit :=
  descriptor ← signing_descriptor s mode;
  if bool_decide (sd_backend_requirement descriptor = backend) then Ok tt
  else Err (BsvIncompatibleSignerBackend mode backend).

Definition review_error (error : BsvError) : ReviewContractError := InvalidFinalizedSignature (BsvError_display error).

Definition bsv_review_digest (scope : ChainScope) (signing_digest request_digest : bytes) (summary : string) : bytes :=
  sha256 (ascii_bytes "catomicals.bsv.review.v2" ++ [x00] ++
          ascii_bytes (ChainNetwork_as_str (cs_network scope)) ++ signing_digest ++ request_digest ++
          le_bytes 8 (Z.of_nat (String.length summary)) ++ ascii_bytes summary).

Definition bsv_summary (network : BsvNetwork) (request : BsvSigningRequest) (script_digest : bytes) : string :=
  "BSV " +:+ bsv_network_name network +:+ ": " +:+
  display_dec (Z.of_nat (length (bsv_inputs (bsvr_transaction request)))) +:+ " input(s), " +:+
  display_dec (Z.of_nat (length (bsv_outputs (bsvr_transaction request)))) +:+ " output(s), output total " +:+
  display_dec (sumZ (value_satoshis <$> bsv_outputs (bsvr_transaction request))) +:+ " satoshis; sign input " +:+
  display_dec (bsvr_input_index request) +:+ " worth " +:+
  display_dec (bsvr_input_value_satoshis request) +:+ " satoshis; script sha256 " +:+
  encode_hex script_digest +:+ "; SIGHASH_ALL|FORKID".

Definition bsv_review_transaction (s : BsvChainSuite) (transaction_material : bytes)
    : result ReviewContractError ReviewArtifact :=
  _ ← reject_if (MAX_REVIEW_MATERIAL_BYTES <? length transaction_material)%nat
        (ReviewedMaterialTooLong MAX_REVIEW_MATERIAL_BYTES);
  request ← map_err review_error (bsv_request_decode transaction_material);
  canonical_request ← map_err review_error (bsv_request_encode request);
  _ ← reject_if (negb (bool_decide (canonical_request = transaction_material)))
        (review_error (BsvInvalidSigningMaterial "signing request is not canonically encoded"));
  _ ← reject_if (negb (bool_decide (bsvr_network request = bsvs_network s)))
        (review_error (BsvWrongSigningNetwork (bsvs_network s) (bsvr_network request)));
  _ ← reject_if (negb (bsvr_sighash_type request =? 0x41))
        (review_error (BsvInvalidSighashType (bsvr_sighash_type request)));
  signing_message_digest ← map_err review_error (signing_digest request);
  let request_digest := sha256 canonical_request in
  let script_digest := sha256 (bsvr_script_code request) in
  let summary := bsv_summary (bsvs_network s) request script_digest in
  ReviewArtifact_new (bsv_scope s) (bsv_review_digest (bsv_scope s) signing_message_digest request_digest summary)
    signing_message_digest summary canonical_request.

Definition bsv_verify_finalized_signature (s : BsvChainSuite) (review : ReviewArtifact) (finalized_signature : bytes)
    : result ReviewContractError unit :=
  _ ← reject_if (negb (ra_schema_version review =? REVIEW_ARTIFACT_SCHEMA_VERSION))
        (UnsupportedReviewSchemaVersion REVIEW_ARTIFACT_SCHEMA_VERSION (ra_schema_version review));
  _ ← reject_if (negb (bool_decide (ra_scope review = bsv_scope s)))
        (InvalidFinalizedSignature "review scope does not match the BSV suite");
  expected ← map_err unreproducible_review (bsv_review_transaction s (ra_reviewed_material review));
  _ ← reject_if (negb (bool_decide (expected = review))) (InvalidFinalizedSignature "review artifact binding mismatch");
  map_err review_error
    (verify_transaction_signature (bsvs_verifying_public_key s) (ra_signing_message_digest expected)
       finalized_signature 0x41).

#[export] Instance Bsv_ChainSuite : ChainSuite BsvChainSuite := {|
  suite_scope := bsv_scope;
  suite_capabilities := fun _ => mkChainCapabilities true true true false;
  review_transaction := bsv_review_transaction;
  verify_finalized_signature := bsv_verify_finalized_signature;
|}.
End transaction.
