(* ===== verification/Kaspa.v ===== *)
(** * Kaspa (src/crates/chain-kaspa/src)

    Addresses, signatures, the review material and the chain suite.  The
    transaction type, its hashes, borsh and the script engine are those of the
    Kaspa crates: an interface. *)

From Stdlib Require Import ZArith Lia.
From S2P Require Import Prelude Bitcoin ChainDomain SigningDomain Text CashAddr Derivation BchTransaction BchSuite.
From stdpp Require Import list.
Local Open Scope string_scope.
Local Open Scope list_scope.
Local Open Scope Z_scope.

(** ** Addresses and errors (address.rs) *)

Inductive KaspaAddressKind := PubKeyXOnly | PubKeyEcdsa | ScriptHash.
Inductive KaspaPrefix := PrefixMainnet | PrefixTestnet | PrefixSimnet | PrefixDevnet.
(** [kaspa_addresses::Version] *)
Inductive KaspaVersion := VersionPubKey | VersionPubKeyECDSA | VersionScriptHash.

#[export] Instance KaspaPrefix_eq_dec : EqDecision KaspaPrefix.
Proof. solve_decision. Defined.
#[export] Instance KaspaNetwork_eq_dec : EqDecision KaspaNetwork.
Proof. solve_decision. Defined.

Definition payload_len (k : KaspaAddressKind) : nat :=
  match k with PubKeyXOnly | ScriptHash => 32%nat | PubKeyEcdsa => 33%nat end.
Definition kind_version_of (k : KaspaAddressKind) : KaspaVersion :=
  match k with PubKeyXOnly => VersionPubKey | PubKeyEcdsa => VersionPubKeyECDSA | ScriptHash => VersionScriptHash end.
Definition kind_of_version (v : KaspaVersion) : KaspaAddressKind :=
  match v with VersionPubKey => PubKeyXOnly | VersionPubKeyECDSA => PubKeyEcdsa | VersionScriptHash => ScriptHash end.

Record KaspaAddress := mkKaspaAddress {
  ka_network : KaspaNetwork;
  ka_kind : KaspaAddressKind;
  ka_payload : bytes;
  ka_encoded : string;
}.

Inductive KaspaAdapterError :=
| KInvalidPayloadLength (kind : KaspaAddressKind) (expected actual : nat)
| KInvalidAddress (reason : string)
| KWrongNetworkPrefix (network : KaspaNetwork) (expected actual : string)
| KPath (e : KaspaPathError)
| KInvalidSignature (reason : string)
| KInvalidReviewMaterial (reason : string)
| KMismatchedUtxoCount (inputs entries : nat)
| KInvalidInputIndex (input_index : Z) (inputs : nat)
| KReviewMaterialTooLarge (max_bytes : nat).

(** ** Review material (suite.rs) *)

Definition REVIEW_MATERIAL_SCHEMA_VERSION : Z := 2.

(** The Kaspa crates. *)
Class KaspaTypes := {
  KTransaction : Type;
  KUtxoEntry : Type;
  KScriptPublicKey : Type;
  KScript_eq_dec :: EqDecision KScriptPublicKey;
}.

Record KaspaReviewMaterial `{KaspaTypes} := mkKaspaMaterial {
  km_schema_version : Z;
  km_network : Z;
  km_transaction : KTransaction;
  km_entries : list KUtxoEntry;
  km_input_index : Z;
  km_hash_type : Z;
}.

Class KaspaLib {T : KaspaTypes} := {
  (* kaspa_addresses *)
  kaddress_to_string : KaspaPrefix -> KaspaVersion -> bytes -> string;
  kaddress_try_from : string -> result string (KaspaPrefix * KaspaVersion * bytes);
  pay_to_address_script : KaspaPrefix -> KaspaVersion -> bytes -> KScriptPublicKey;
  (* kaspa_consensus_core: the transaction and its parts *)
  ktx_inputs : KTransaction -> nat;
  ktx_output_values : KTransaction -> list Z;
  ktx_id : KTransaction -> bytes;
  ktx_finalize : KTransaction -> KTransaction;
  ktx_set_signature_script : KTransaction -> nat -> bytes -> KTransaction;
  entry_amount : KUtxoEntry -> Z;
  entry_script_public_key : KUtxoEntry -> KScriptPublicKey;
  sighash_type_valid : Z -> result string unit;
  calc_schnorr_signature_hash : KTransaction -> list KUtxoEntry -> nat -> Z -> bytes;
  calc_ecdsa_signature_hash : KTransaction -> list KUtxoEntry -> nat -> Z -> bytes;
  (* kaspa_hashes and kaspa_txscript *)
  TransactionSigningHash : bytes -> bytes;
  PersonalMessageSigningHash : bytes -> bytes;
  script_push_data : bytes -> bytes;
  execute_input : KTransaction -> list KUtxoEntry -> nat -> result string unit;
  (* borsh *)
  material_to_vec : KaspaReviewMaterial -> result string bytes;
  material_from_slice : bytes -> result string KaspaReviewMaterial;
  (* secp256k1 *)
  xonly_parse : bytes -> result string unit;
  public_key_parse : bytes -> result string unit;
  schnorr_parse : bytes -> result string unit;
  schnorr_check : bytes -> bytes -> bytes -> result string unit;
  KEcdsaSig : Type;
  KEcdsa_eq_dec :: EqDecision KEcdsaSig;
  kecdsa_from_compact : bytes -> result string KEcdsaSig;
  kecdsa_from_der : bytes -> result string KEcdsaSig;
  kecdsa_serialize_compact : KEcdsaSig -> bytes;
  kecdsa_normalize_s : KEcdsaSig -> KEcdsaSig;
  kecdsa_check : bytes -> KEcdsaSig -> bytes -> result string unit;
}.
(** Error texts made by [thiserror] and [Debug] derivations. *)
Class KaspaTexts := { KaspaAdapterError_display : KaspaAdapterError -> string }.

Section kaspa.
Context {T : KaspaTypes} {KL : KaspaLib} {TX : KaspaTexts}.

Definition kaspa_prefix (network : KaspaNetwork) : KaspaPrefix :=
  match network with
  | KaspaMainnet => PrefixMainnet
  | KaspaTestnet10 | KaspaTestnet11 => PrefixTestnet
  | KaspaSimnet => PrefixSimnet
  | KaspaDevnet => PrefixDevnet
  end.

Definition prefix_name (p : KaspaPrefix) : string :=
  match p with
  | PrefixMainnet => "kaspa"
  | PrefixTestnet => "kaspatest"
  | PrefixSimnet => "kaspasim"
  | PrefixDevnet => "kaspadev"
  end.

Definition validate_payload (kind : KaspaAddressKind) (payload : bytes) : result KaspaAdapterError unit :=
  reject_if (negb (length payload =? payload_len kind)%nat)
    (KInvalidPayloadLength kind (payload_len kind) (length payload)).

Definition encode_address (network : KaspaNetwork) (kind : KaspaAddressKind) (payload : bytes)
    : result KaspaAdapterError string :=
  _ ← validate_payload kind payload;
  Ok (kaddress_to_string (kaspa_prefix network) (kind_version_of kind) payload).

Definition parse_address (network : KaspaNetwork) (encoded : string) : result KaspaAdapterError KaspaAddress :=
  '(prefix, version, payload) ← map_err KInvalidAddress (kaddress_try_from encoded);
  let expected := kaspa_prefix network in
  _ ← reject_if (negb (bool_decide (prefix = expected)))
        (KWrongNetworkPrefix network (prefix_name expected) (prefix_name prefix));
  let kind := kind_of_version version in
  _ ← validate_payload kind payload;
  Ok (mkKaspaAddress network kind payload (kaddress_to_string prefix version payload)).

(** ** Signatures (signing.rs) *)

Inductive ThresholdSupport :=
| ReviewOnly (required_backend : SignerBackendRequirement)
| ThresholdExecutable (required_backend : SignerBackendRequirement).
Definition kaspa_threshold_support : ThresholdSupport := ThresholdExecutable CbMpcThresholdEcdsa.

Definition transaction_signing_hash (data : bytes) : bytes := TransactionSigningHash data.
Definition personal_message_signing_hash (message : string) : bytes := PersonalMessageSigningHash (ascii_bytes message).
Definition schnorr_transaction_signing_hash (t : KTransaction) (entries : list KUtxoEntry) (input_index : nat) (hash_type : Z) :=
  calc_schnorr_signature_hash t entries input_index hash_type.
Definition ecdsa_transaction_signing_hash (t : KTransaction) (entries : list KUtxoEntry) (input_index : nat) (hash_type : Z) :=
  calc_ecdsa_signature_hash t entries input_index hash_type.

Definition assemble_signature (signature : bytes) (hash_type : Z) : bytes := signature ++ [z2b hash_type].
Definition assemble_schnorr_signature := assemble_signature.
Definition assemble_ecdsa_signature := assemble_signature.
Definition assemble_signature_script (signature_with_hash_type : bytes) : bytes := script_push_data signature_with_hash_type.

Definition verify_schnorr_digest (digest public_key signature : bytes) : result KaspaAdapterError unit :=
  _ ← map_err KInvalidSignature (xonly_parse public_key);
  _ ← map_err KInvalidSignature (schnorr_parse signature);
  map_err KInvalidSignature (schnorr_check digest signature public_key).

Definition verify_personal_message_schnorr (message : string) (public_key signature : bytes) :=
  verify_schnorr_digest (personal_message_signing_hash message) public_key signature.

Definition ensure_low_s (signature : KEcdsaSig) : result KaspaAdapterError unit :=
  reject_if (negb (bool_decide (kecdsa_normalize_s signature = signature)))
    (KInvalidSignature "high-S ECDSA signatures are not canonical").

Definition verify_ecdsa_digest (digest public_key signature : bytes) : result KaspaAdapterError unit :=
  _ ← map_err KInvalidSignature (public_key_parse public_key);
  signature ← map_err KInvalidSignature (kecdsa_from_compact signature);
  _ ← ensure_low_s signature;
  map_err KInvalidSignature (kecdsa_check digest signature public_key).

Definition ecdsa_der_to_compact_low_s (signature : bytes) : result KaspaAdapterError bytes :=
  signature ← map_err KInvalidSignature (kecdsa_from_der signature);
  _ ← ensure_low_s signature;
  Ok (kecdsa_serialize_compact signature).

(** ** The suite (suite.rs) *)

Inductive KaspaVerifier :=
| KSchnorr (public_key : bytes)
| KEcdsa (public_key : bytes)
| KEcdsaCbMpc (public_key : bytes).

Definition verifier_validate (v : KaspaVerifier) : result KaspaAdapterError unit :=
  match v with
  | KSchnorr public_key => map_err KInvalidSignature (xonly_parse public_key)
  | KEcdsa public_key | KEcdsaCbMpc public_key => map_err KInvalidSignature (public_key_parse public_key)
  end.
Definition verifier_name (v : KaspaVerifier) : string :=
  match v with KSchnorr _ => "schnorr" | KEcdsa _ => "ecdsa" | KEcdsaCbMpc _ => "ecdsa-cb-mpc" end.
Definition verifier_binding_bytes (v : KaspaVerifier) : bytes :=
  match v with KSchnorr k | KEcdsa k | KEcdsaCbMpc k => k end.

Definition encode_network (network : KaspaNetwork) : Z :=
  match network with
  | KaspaMainnet => 0
  | KaspaTestnet10 => 1
  | KaspaTestnet11 => 2
  | KaspaSimnet => 3
  | KaspaDevnet => 4
  end.

Definition decode_network (encoded : Z) : result KaspaAdapterError KaspaNetwork :=
  match encoded with
  | 0 => Ok KaspaMainnet
  | 1 => Ok KaspaTestnet10
  | 2 => Ok KaspaTestnet11
  | 3 => Ok KaspaSimnet
  | 4 => Ok KaspaDevnet
  | _ => Err (KInvalidReviewMaterial ("unknown Kaspa network discriminator " +:+ display_dec encoded))
  end.

Definition kaspa_network_name (network : KaspaNetwork) : string :=
  match network with
  | KaspaMainnet => "mainnet"
  | KaspaTestnet10 => "testnet10"
  | KaspaTestnet11 => "testnet11"
  | KaspaSimnet => "simnet"
  | KaspaDevnet => "devnet"
  end.

Definition material_validate (m : KaspaReviewMaterial) : result KaspaAdapterError unit :=
  _ ← reject_if (negb (km_schema_version m =? REVIEW_MATERIAL_SCHEMA_VERSION))
        (KInvalidReviewMaterial ("unsupported schema version " +:+ display_dec (km_schema_version m)));
  _ ← reject_if (negb (ktx_inputs (km_transaction m) =? length (km_entries m))%nat)
        (KMismatchedUtxoCount (ktx_inputs (km_transaction m)) (length (km_entries m)));
  _ ← reject_if (negb (bool_decide (ktx_id (ktx_finalize (km_transaction m)) = ktx_id (km_transaction m))))
        (KInvalidReviewMaterial "cached transaction id does not match the transaction fields");
  _ ← reject_if (Z.of_nat (ktx_inputs (km_transaction m)) <=? km_input_index m)
        (KInvalidInputIndex (km_input_index m) (ktx_inputs (km_transaction m)));
  _ ← map_err KInvalidReviewMaterial (sighash_type_valid (km_hash_type m));
  _ ← decode_network (km_network m);
  Ok tt.

Definition KaspaReviewMaterial_new (network : KaspaNetwork) (transaction : KTransaction) (entries : list KUtxoEntry)
    (input_index hash_type : Z) : result KaspaAdapterError KaspaReviewMaterial :=
  _ ← reject_if (negb (bool_decide (fits 32 input_index))) (KInvalidInputIndex input_index (ktx_inputs transaction));
  let material := mkKaspaMaterial _ REVIEW_MATERIAL_SCHEMA_VERSION (encode_network network) transaction entries input_index hash_type in
  _ ← material_validate material;
  Ok material.

Definition material_encode (m : KaspaReviewMaterial) : result KaspaAdapterError bytes :=
  _ ← material_validate m;
  map_err KInvalidReviewMaterial (material_to_vec m).

Definition material_decode (encoded : bytes) : result KaspaAdapterError KaspaReviewMaterial :=
  _ ← reject_if (MAX_REVIEW_MATERIAL_BYTES <? length encoded)%nat (KReviewMaterialTooLarge MAX_REVIEW_MATERIAL_BYTES);
  material ← map_err KInvalidReviewMaterial (material_from_slice encoded);
  _ ← material_validate material;
  Ok material.

Definition assemble_reviewed_cb_mpc_ecdsa_signature (reviewed_material der_signature : bytes)
    : result KaspaAdapterError bytes :=
  material ← material_decode reviewed_material;
  _ ← map_err KInvalidReviewMaterial (sighash_type_valid (km_hash_type material));
  compact ← ecdsa_der_to_compact_low_s der_signature;
  Ok (assemble_ecdsa_signature compact (km_hash_type material)).

Record KaspaChainSuite := mkKaspaSuite { ks_network : KaspaNetwork; ks_verifier : KaspaVerifier }.
Definition kaspa_scope (s : KaspaChainSuite) : ChainScope := ChainScope_for_network (NetKaspa (ks_network s)).

Definition KaspaChainSuite_new (network : KaspaNetwork) (verifier : KaspaVerifier) : result KaspaAdapterError KaspaChainSuite :=
  _ ← verifier_validate verifier;
  Ok (mkKaspaSuite network verifier).

(** [material.entries[input_index]] was checked by [validate]. *)
Definition validate_cb_mpc_spent_script (m : KaspaReviewMaterial) (group_public_key : bytes)
    : result KaspaAdapterError unit :=
  let expected := pay_to_address_script PrefixMainnet VersionPubKeyECDSA group_public_key in
  reject_if (negb (bool_decide (entry_script_public_key <$> km_entries m !! Z.to_nat (km_input_index m) = Some expected)))
    (KInvalidReviewMaterial "selected UTXO is not the cb-mpc group key P2PK-ECDSA script").

Definition kaspa_review_digest (scope : ChainScope) (verifier : string)
    (verifier_binding signing_message_digest material_digest : bytes) (summary : string) : bytes :=
  transaction_signing_hash (
    ascii_bytes "catomicals.kaspa.review.v3" ++ [x00] ++ ascii_bytes (ChainNetwork_as_str (cs_network scope)) ++ [x00] ++
    ascii_bytes verifier ++ [x00] ++ le_bytes 8 (len verifier_binding) ++ verifier_binding ++
    signing_message_digest ++ material_digest ++ le_bytes 8 (Z.of_nat (String.length summary)) ++ ascii_bytes summary).

Definition KaspaNetwork_debug (network : KaspaNetwork) : string :=
  match network with
  | KaspaMainnet => "Mainnet"
  | KaspaTestnet10 => "Testnet10"
  | KaspaTestnet11 => "Testnet11"
  | KaspaSimnet => "Simnet"
  | KaspaDevnet => "Devnet"
  end.

Definition kaspa_signing_digest (s : KaspaChainSuite) (m : KaspaReviewMaterial) : bytes :=
  match ks_verifier s with
  | KSchnorr _ => schnorr_transaction_signing_hash (km_transaction m) (km_entries m) (Z.to_nat (km_input_index m)) (km_hash_type m)
  | KEcdsa _ | KEcdsaCbMpc _ =>
      ecdsa_transaction_signing_hash (km_transaction m) (km_entries m) (Z.to_nat (km_input_index m)) (km_hash_type m)
  end.

Definition kaspa_summary (s : KaspaChainSuite) (m : KaspaReviewMaterial) (total_input total_output fee : Z) : string :=
  let inputs := display_dec (Z.of_nat (ktx_inputs (km_transaction m))) in
  "Kaspa " +:+ KaspaNetwork_debug (ks_network s) +:+ " " +:+ verifier_name (ks_verifier s) +:+ " transaction " +:+
  encode_hex (ktx_id (km_transaction m)) +:+ " input " +:+ display_dec (km_input_index m) +:+ "/" +:+ inputs +:+ "; " +:+
  inputs +:+ " inputs, " +:+ display_dec (Z.of_nat (length (ktx_output_values (km_transaction m)))) +:+ " outputs, " +:+
  display_dec total_input +:+ " sompi input, " +:+ display_dec total_output +:+ " sompi output, " +:+
  display_dec fee +:+ " sompi fee, sighash " +:+ display_hex_byte (km_hash_type m).

Definition kaspa_review (s : KaspaChainSuite) (encoded : bytes) : result KaspaAdapterError ReviewArtifact :=
  material ← material_decode encoded;
  material_network ← decode_network (km_network material);
  _ ← reject_if (negb (bool_decide (material_network = ks_network s)))
        (KInvalidReviewMaterial ("review material is bound to " +:+ kaspa_network_name material_network +:+ ", not "
                                 +:+ kaspa_network_name (ks_network s)));
  _ ← map_err KInvalidReviewMaterial (sighash_type_valid (km_hash_type material));
  let signing_message_digest := kaspa_signing_digest s material in
  _ ← match ks_verifier s with
      | KEcdsaCbMpc group_public_key => validate_cb_mpc_spent_script material group_public_key
      | _ => Ok tt
      end;
  total_output ← ok_or (checked_sum 64 0 (ktx_output_values (km_transaction material)))
                   (KInvalidReviewMaterial "output value sum overflow");
  total_input ← ok_or (checked_sum 64 0 (entry_amount <$> km_entries material))
                  (KInvalidReviewMaterial "input value sum overflow");
  fee ← ok_or (checked_sub total_input total_output)
          (KInvalidReviewMaterial "transaction output value exceeds its populated input value");
  let material_digest := transaction_signing_hash encoded in
  let summary := kaspa_summary s material total_input total_output fee in
  let review_digest := kaspa_review_digest (kaspa_scope s) (verifier_name (ks_verifier s))
    (verifier_binding_bytes (ks_verifier s)) signing_message_digest material_digest summary in
  map_err (fun e => KInvalidReviewMaterial (ReviewContractError_display e))
    (ReviewArtifact_new (kaspa_scope s) review_digest signing_message_digest summary encoded).

Definition kaspa_review_transaction (s : KaspaChainSuite) (transaction_material : bytes)
    : result ReviewContractError ReviewArtifact :=
  _ ← reject_if (MAX_REVIEW_MATERIAL_BYTES <? length transaction_material)%nat
        (ReviewedMaterialTooLong MAX_REVIEW_MATERIAL_BYTES);
  map_err (fun _ => UnsupportedOperation "invalid Kaspa review material") (kaspa_review s transaction_material).

Definition KASPA_SIGNATURE_FORM : string :=
  "Kaspa signature must be a 65-byte signature plus hash type, optionally wrapped in a direct 65-byte push script".

Definition parse_finalized_signature (finalized_signature : bytes) : result ReviewContractError (bytes * Z) :=
  signature ←
    match finalized_signature with
    | first :: signature =>
        if bool_decide (first = x41) && (length signature =? 65)%nat then Ok signature
        else if (length finalized_signature =? 65)%nat then Ok finalized_signature
        else Err (InvalidFinalizedSignature KASPA_SIGNATURE_FORM)
    | [] => Err (InvalidFinalizedSignature KASPA_SIGNATURE_FORM)
    end;
  let hash_type := b2z (default x00 (signature !! 64%nat)) in
  _ ← map_err (fun e => InvalidFinalizedSignature ("invalid Kaspa signature hash type: " +:+ e)) (sighash_type_valid hash_type);
  Ok (take 64 signature, hash_type).

Definition execute_reviewed_input (m : KaspaReviewMaterial) (signature_with_hash_type : bytes)
    : result ReviewContractError unit :=
  let input_index := Z.to_nat (km_input_index m) in
  let transaction := ktx_set_signature_script (km_transaction m) input_index (assemble_signature_script signature_with_hash_type) in
  _ ← ok_or (km_entries m !! input_index)
        (InvalidFinalizedSignature "reviewed Kaspa UTXO is missing during script execution");
  map_err InvalidFinalizedSignature (execute_input transaction (km_entries m) input_index).

Definition kaspa_verify_finalized_signature (s : KaspaChainSuite) (review : ReviewArtifact) (finalized_signature : bytes)
    : result ReviewContractError unit :=
  _ ← reject_if (negb (ra_schema_version review =? REVIEW_ARTIFACT_SCHEMA_VERSION))
        (UnsupportedReviewSchemaVersion REVIEW_ARTIFACT_SCHEMA_VERSION (ra_schema_version review));
  _ ← reject_if (negb (bool_decide (ra_scope review = kaspa_scope s)))
        (InvalidFinalizedSignature "Kaspa review artifact binding mismatch");
  expected ← map_err unreproducible_review (kaspa_review_transaction s (ra_reviewed_material review));
  _ ← reject_if (negb (bool_decide (expected = review)))
        (InvalidFinalizedSignature "Kaspa review artifact binding mismatch");
  material ← map_err (fun e => InvalidFinalizedSignature (KaspaAdapterError_display e))
               (material_decode (ra_reviewed_material review));
  '(signature, hash_type) ← parse_finalized_signature finalized_signature;
  _ ← reject_if (negb (hash_type =? km_hash_type material))
        (InvalidFinalizedSignature ("Kaspa signature hash type " +:+ display_hex_byte hash_type +:+
           " does not match reviewed hash type " +:+ display_hex_byte (km_hash_type material)));
  _ ← map_err (fun e => InvalidFinalizedSignature (KaspaAdapterError_display e))
        (match ks_verifier s with
         | KSchnorr public_key => verify_schnorr_digest (ra_signing_message_digest expected) public_key signature
         | KEcdsa public_key | KEcdsaCbMpc public_key =>
             verify_ecdsa_digest (ra_signing_message_digest expected) public_key signature
         end);
  match ks_verifier s with
  | KEcdsaCbMpc _ => execute_reviewed_input material (assemble_ecdsa_signature signature hash_type)
  | _ => Ok tt
  end.

#[export] Instance Kaspa_ChainSuite : ChainSuite KaspaChainSuite := {|
  suite_scope := kaspa_scope;
  suite_capabilities := fun _ => mkChainCapabilities true true true false;
  review_transaction := kaspa_review_transaction;
  verify_finalized_signature := kaspa_verify_finalized_signature;
|}.
End kaspa.
