(* ===== verification/ChainSuites.v ===== *)
(** * What every chain suite promises its clients

    [ChainSuiteLaws] is the contract of the trait [ChainSuite]: a review is of
    the suite's scope and of exactly the material it was given, and a finalized
    signature is only accepted for a review the suite itself reproduces.  It
    is proved of the Bitcoin Cash, Bitcoin SV and Kaspa suites; those of
    Bitcoin, Chia and Ergo are not modelled.  For Bitcoin Cash the signatures a
    job accepts are characterised exactly.  The file also relates the
    transaction hashing of Bitcoin SV to that of Bitcoin Cash. *)

From Stdlib Require Import ZArith Lia.
From S2P Require Import Prelude Bitcoin Concrete ChainDomain SigningDomain SigningJob Text CashAddr Derivation BchTransaction BchSuite BchProperties Bsv Kaspa.
From stdpp Require Import list.
Local Open Scope string_scope.
Local Open Scope list_scope.
Local Open Scope Z_scope.

(** ** The contract *)

(** An artifact in the form the review contract prescribes. *)
Definition artifact_wf (r : ReviewArtifact) : Prop :=
  ra_schema_version r = REVIEW_ARTIFACT_SCHEMA_VERSION /\
  (String.length (ra_summary r) <= MAX_REVIEW_SUMMARY_BYTES)%nat /\
  ra_reviewed_material r <> [] /\ (length (ra_reviewed_material r) <= MAX_REVIEW_MATERIAL_BYTES)%nat.

Class ChainSuiteLaws (T : Type) `{ChainSuite T} : Prop := {
  review_of_material s m r :
    review_transaction s m = Ok r -> ra_scope r = suite_scope s /\ ra_reviewed_material r = m /\ artifact_wf r;
  finalized_reproduces s r sig :
    verify_finalized_signature s r sig = Ok tt -> review_transaction s (ra_reviewed_material r) = Ok r;
}.

Lemma ReviewArtifact_new_wf scope rd sd sm m r :
  ReviewArtifact_new scope rd sd sm m = Ok r -> ra_scope r = scope /\ ra_reviewed_material r = m /\ artifact_wf r.
Proof. intros (-> & ? & ? & ?)%ReviewArtifact_new_Ok. by split_and!. Qed.

Section instances.
Context `{BitcoinLib} {AL : AddressLib} {K : Secp256k1Lib}.

#[export] Instance bch_suite_laws : ChainSuiteLaws BitcoinCashChainSuite.
Proof.
  split.
  - intros s m r HR. cbn in HR. unfold bch_review_transaction in HR. res_inv. subst m. by eapply ReviewArtifact_new_wf.
  - intros s r sig HV. cbn in *. unfold bch_verify_finalized_signature in HV. res_inv. by subst.
Qed.

#[export] Instance bsv_suite_laws {T : BsvTexts} {J : BsvJson} : ChainSuiteLaws BsvChainSuite.
Proof.
  split.
  - intros s m r HR. cbn in HR. unfold bsv_review_transaction in HR. res_inv. subst m. by eapply ReviewArtifact_new_wf.
  - intros s r sig HV. cbn in *. unfold bsv_verify_finalized_signature in HV. res_inv. by subst.
Qed.

#[export] Instance kaspa_suite_laws {T : KaspaTypes} {KL : KaspaLib} {TX : KaspaTexts} : ChainSuiteLaws KaspaChainSuite.
Proof.
  split.
  - intros s m r HR. cbn in HR. unfold kaspa_review_transaction, kaspa_review in HR. res_inv. by eapply ReviewArtifact_new_wf.
  - intros s r sig HV. cbn in *. unfold kaspa_verify_finalized_signature in HV.
    next_in HV a Ea. next_in HV b Eb. next_in HV e Ee. next_in HV c Ec. apply reject_if_Ok in Ec.
    apply map_err_Ok in Ee. autorewrite with guards in Ec. by subst.
Qed.
End instances.

(** The client of the contract: a signature verified for a job is of the
    job's own scope and for a review the suite reproduces. *)
Lemma verified_signature_is_reviewed {T} `{ChainSuiteLaws T} (suite : T) execution signature v :
  VerifiedChainSignature_verify suite execution signature = Ok v ->
  let review := sj_review (ce_job execution) in
  vs_bytes v = signature /\ suite_scope suite = sj_chain_scope (ce_job execution) /\
  review_transaction suite (ra_reviewed_material review) = Ok review /\
  ra_scope review = sj_chain_scope (ce_job execution) /\ artifact_wf review /\
  verify_finalized_signature suite review signature = Ok tt.
Proof.
  unfold VerifiedChainSignature_verify. intros HV. next_in HV a Ea. next_in HV b Eb. injection HV as <-.
  apply reject_if_Ok in Ea. autorewrite with guards in Ea. apply map_err_Ok in Eb. destruct b.
  pose proof (finalized_reproduces _ _ _ Eb) as HR. destruct (review_of_material _ _ _ HR) as (Hs & _ & Hw).
  split_and!; try done. by rewrite <- Ea.
Qed.

Section bch_jobs.
Context {B : BitcoinLib} {BL : BitcoinLaws B} {AL : AddressLib} {K : Secp256k1Lib}.

(** C23: Which signatures a Bitcoin Cash job accepts.  With a suite that was set
    up for a network, an algorithm and a key, a signature becomes the verified
    chain signature of a job exactly when the job is of the suite's chain scope,
    the review it carries is the one the suite shows for a well-formed request
    of its own network under ALL|FORKID (material, digests and summary), and
    the signature is the byte 0x41 behind a core that is strictly encoded and
    verifies under the suite's key for the signature hash of that request. *)
Theorem bch_job_signature_exact n alg key ht s execution signature v :
  BitcoinCashChainSuite_new n alg key ht = Ok s ->
  VerifiedChainSignature_verify s execution signature = Ok v <->
  vs_bytes v = signature /\ sj_chain_scope (ce_job execution) = ChainScope_for_network (NetBitcoinCash n) /\
  exists q i core, reviewable s q i /\ sj_review (ce_job execution) = review_of s q i /\ signature = core ++ [x41] /\
    core_accepted alg key (double_sha256 (signing_message q i)) core.
Proof.
  intros Hnew. pose proof (bch_finalized_signature n alg key ht s (sj_review (ce_job execution)) signature Hnew) as HF.
  apply BitcoinCashChainSuite_new_Ok in Hnew as (-> & _ & _). unfold VerifiedChainSignature_verify. split.
  - intros HV. next_in HV a Ea. next_in HV b Eb. injection HV as <-.
    apply reject_if_Ok in Ea. autorewrite with guards in Ea. apply map_err_Ok in Eb. destruct b.
    split; [done|]. split; [done|]. by apply HF.
  - intros (Hv & Hs & ->%HF). rewrite Hs, bool_decide_true by done. destruct v. cbn in *. by subst.
Qed.
End bch_jobs.

(** ** Bitcoin SV hashes transactions as Bitcoin Cash does *)

Definition as_bch_input (i : TxInput) : BchTxIn :=
  mkBchTxIn (mkBchOutPoint (previous_txid_le i) (previous_output_index i)) (bsv_script_sig i) (bsv_sequence i).
Definition as_bch_output (o : TxOutput) : BchTxOut := mkBchTxOut (value_satoshis o) (bsv_script_pubkey o).
Definition as_bch (t : BsvTransaction) : BchTransaction :=
  mkBchTransaction (bsv_version_no t) (as_bch_input <$> bsv_inputs t) (as_bch_output <$> bsv_outputs t) (bsv_lock_time t).

Lemma write_compact_size_eq v : write_compact_size v = write_var_int v.
Proof. unfold write_compact_size, write_var_int. by destruct (Z.ltb_spec v 0xfd), (Z.leb_spec v 0xfc); try lia. Qed.
Lemma write_script_eq b : write_script b = write_var_bytes b.
Proof. unfold write_script, write_var_bytes. by rewrite write_compact_size_eq. Qed.
Lemma write_outpoint_eq i : write_outpoint i = encode_outpoint (in_previous_output (as_bch_input i)).
Proof. done. Qed.
Lemma write_output_eq o : write_output o = encode_output (as_bch_output o).
Proof. unfold write_output, encode_output. by rewrite write_script_eq. Qed.

Lemma concat_fmap_ext {A B} (f : A -> bytes) (g : B -> bytes) (h : A -> B) l :
  (forall a, f a = g (h a)) -> concat (f <$> l) = concat (g <$> (h <$> l)).
Proof. intros Hf. induction l as [|a l IH]; csimpl; [done|]. by rewrite Hf, IH. Qed.

(** An encoding that passes the bounds is the Bitcoin Cash encoding. *)
Lemma consensus_encode_eq t b :
  consensus_encode t = Ok b <-> validate_transaction t = Ok tt /\ b = tx_encode (as_bch t).
Proof.
  unfold consensus_encode. rewrite bind_Ok.
  unfold tx_encode, as_bch. cbn [btx_version btx_inputs btx_outputs btx_lock_time]. rewrite !length_fmap, !write_compact_size_eq.
  rewrite <- (concat_fmap_ext write_output encode_output as_bch_output) by apply write_output_eq.
  rewrite <- (concat_fmap_ext (fun i => write_outpoint i ++ write_script (bsv_script_sig i) ++ le_bytes 4 (bsv_sequence i))
    encode_input as_bch_input) by (intros i; unfold encode_input; by rewrite write_script_eq).
  split; [intros ([] & ? & [= <-]); done|]. intros [Hv ->]. by exists tt.
Qed.

(** The checks Bitcoin SV adds before it hashes. *)
Definition bsv_hash_checks (t : BsvTransaction) (input_index : Z) (script_code : bytes) (sighash_type : Z) : Prop :=
  validate_transaction t = Ok tt /\ len script_code <= MAX_SCRIPT_BYTES /\
  (sighash_base sighash_type = 3 -> input_index < Z.of_nat (length (bsv_outputs t))).

Section hashing.
Context `{BitcoinLib}.

Lemma bsv_prevouts t : concat (write_outpoint <$> bsv_inputs t) =
  concat (encode_outpoint <$> (in_previous_output <$> btx_inputs (as_bch t))).
Proof. cbn [as_bch btx_inputs]. rewrite <- list_fmap_compose. by apply concat_fmap_ext. Qed.
Lemma bsv_sequences t : concat ((fun i => le_bytes 4 (bsv_sequence i)) <$> bsv_inputs t) =
  concat (le_bytes 4 <$> (in_sequence <$> btx_inputs (as_bch t))).
Proof. cbn [as_bch btx_inputs]. rewrite <- list_fmap_compose. by apply concat_fmap_ext. Qed.
Lemma bsv_all_outputs t : concat (write_output <$> bsv_outputs t) = concat (encode_output <$> btx_outputs (as_bch t)).
Proof. cbn [as_bch btx_outputs]. apply concat_fmap_ext, write_output_eq. Qed.

Lemma bsv_sighash_base ht :
  bsv_sighash_from_u8 ht = Ok ht -> sighash_base ht = 1 \/ sighash_base ht = 2 \/ sighash_base ht = 3.
Proof.
  unfold bsv_sighash_from_u8. intros HF.
  assert (ht = 0x41 \/ ht = 0x42 \/ ht = 0x43 \/ ht = 0xc1 \/ ht = 0xc2 \/ ht = 0xc3) as Hv.
  { repeat match type of HF with context [match ?x with _ => _ end] => destruct x; try done end; lia. }
  destruct Hv as [->|[->|[->|[->|[->| ->]]]]]; [left|right; left|right; right|left|right; left|right; right]; done.
Qed.

(** The outputs part of the two hashes, once the checks passed. *)
Lemma bsv_outputs_hash t i ht :
  sighash_base ht = 1 \/ sighash_base ht = 2 \/ sighash_base ht = 3 ->
  (sighash_base ht = 3 -> i < Z.of_nat (length (bsv_outputs t))) ->
  hash_outputs (as_bch t) i ht = Ok
    (if sighash_base ht =? 1 then double_sha256 (concat (write_output <$> bsv_outputs t))
     else if sighash_base ht =? 3 then
       match bsv_outputs t !! Z.to_nat i with Some o => double_sha256 (write_output o) | None => replicate 32 x00 end
     else replicate 32 x00).
Proof.
  intros Hb H3. unfold hash_outputs. rewrite bsv_all_outputs.
  destruct Hb as [Hb|[Hb|Hb]]; rewrite Hb in *; cbn -[Z.of_nat double_sha256 concat as_bch Z.to_nat replicate]; [done|done|].
  unfold as_bch. cbn [btx_outputs]. rewrite length_fmap, (proj2 (Z.ltb_lt _ _)) by auto.
  rewrite list_lookup_fmap. destruct (bsv_outputs t !! Z.to_nat i); simpl; [by rewrite write_output_eq|done].
Qed.

Lemma bsv_sighash_Ok t i script_code amount ht d :
  bsv_sighash_from_u8 ht = Ok ht ->
  bsv_fork_id_sighash t i script_code amount ht = Ok d <->
  bsv_hash_checks t i script_code ht /\ fork_id_sighash (as_bch t) i script_code amount ht = Ok d.
Proof.
  intros Hht%bsv_sighash_base. unfold bsv_hash_checks. split.
  - unfold bsv_fork_id_sighash. intros HB. next_in HB u Ev. next_in HB v Es. next_in HB input Ei. next_in HB w E3.
    injection HB as <-. res_inv. destruct u.
    assert (sighash_base ht = 3 -> i < Z.of_nat (length (bsv_outputs t))) as H3 by (destruct E3; lia).
    split; [done|]. unfold fork_id_sighash. rewrite bsv_outputs_hash by done.
    cbn [as_bch btx_inputs]. rewrite length_fmap, list_lookup_fmap. destruct (i <? _); [|done]. rewrite Ei. res_cbn.
    do 2 f_equal. unfold sighash_preimage, hash_prevouts, hash_sequence. rewrite <- bsv_prevouts, <- bsv_sequences.
    by rewrite write_script_eq.
  - intros [(Hv & Hs & H3) HB]. unfold fork_id_sighash in HB. rewrite bsv_outputs_hash in HB by done.
    cbn [as_bch btx_inputs] in HB. rewrite length_fmap, list_lookup_fmap in HB.
    unfold bsv_fork_id_sighash. rewrite Hv. res_cbn.
    rewrite (reject_if_pass (MAX_SCRIPT_BYTES <? _)) by by apply Z.ltb_ge. res_cbn.
    destruct (i <? _) eqn:Ei; [|done]. destruct (bsv_inputs t !! Z.to_nat i) as [input|]; [|done]. res_cbn.
    rewrite reject_if_pass. 2:{ apply andb_false_iff. rewrite Z.eqb_neq, Z.leb_gt. lia. }
    res_cbn. next_in HB input' Ein. injection Ein as <-. next_in HB oh Eoh. injection Eoh as <-. injection HB as <-.
    do 2 f_equal.
    unfold sighash_preimage, hash_prevouts, hash_sequence. rewrite <- bsv_prevouts, <- bsv_sequences.
    by rewrite write_script_eq.
Qed.

(** For every signature hash type Bitcoin SV accepts, its hash of a
    transaction input is defined exactly when its extra checks pass and the
    Bitcoin Cash crate hashes the same transaction, and then the two digests are
    equal.  The two crates implement one signature hash. *)
Theorem bsv_sighash_agrees_with_bch t i script_code amount ht d :
  bsv_sighash_from_u8 ht = Ok ht ->
  bsv_fork_id_sighash t i script_code amount ht = Ok d <->
  bsv_hash_checks t i script_code ht /\ fork_id_sighash (as_bch t) i script_code amount ht = Ok d.
Proof. apply bsv_sighash_Ok. Qed.
End hashing.

(** ** Bitcoin SV and Kaspa reviews *)

Section bsv.
Context `{BitcoinLib} {AL : AddressLib} {K : Secp256k1Lib} {T : BsvTexts} {J : BsvJson}.

(** A review of Bitcoin SV is of a request on the suite's network under
    ALL|FORKID; its digest is the Bitcoin Cash signature hash. *)
Lemma bsv_review_Ok s m r :
  bsv_review_transaction s m = Ok r ->
  exists q, bsv_request_decode m = Ok q /\ bsv_request_encode q = Ok m /\ bsvr_network q = bsvs_network s /\
    bsvr_sighash_type q = SIGHASH_ALL /\ signing_digest q = Ok (ra_signing_message_digest r) /\
    fork_id_sighash (as_bch (bsvr_transaction q)) (bsvr_input_index q) (bsvr_script_code q)
      (bsvr_input_value_satoshis q) SIGHASH_ALL = Ok (ra_signing_message_digest r).
Proof.
  unfold bsv_review_transaction. intros HR. next_in HR u Esize. next_in HR q Ereq. next_in HR b Ecan. next_in HR v Eb.
  next_in HR w Enet. next_in HR x Eht. next_in HR d Ed. res_inv. subst b.
  apply ReviewArtifact_new_Ok in HR as (-> & _). exists q. cbn [ra_signing_message_digest].
  split_and!; try done. unfold signing_digest in Ed. rewrite Eht in Ed.
  by apply bsv_sighash_Ok in Ed as [_ Ed].
Qed.

(** A signature accepted for a review ends in the byte of ALL|FORKID; what is
    before it is strict, low-S and verifies for the review's digest. *)
Lemma bsv_finalized_Ok s r sig :
  bsv_verify_finalized_signature s r sig = Ok tt ->
  bsv_review_transaction s (ra_reviewed_material r) = Ok r /\
  exists core e, sig = core ++ [x41] /\ ecdsa_from_der core = Some e /\ ecdsa_serialize_der e = core /\
    ecdsa_normalize_s e = e /\ ecdsa_verify (ra_signing_message_digest r) e (bsvs_verifying_public_key s) = true.
Proof.
  intros HV. split; [exact (finalized_reproduces s r sig HV)|].
  unfold bsv_verify_finalized_signature, verify_transaction_signature, parse_canonical_signature in HV.
  next_in HV a Ea. next_in HV b Eb. next_in HV x Ex. next_in HV c Ec. apply reject_if_Ok in Ec.
  autorewrite with guards in Ec. subst x. apply map_err_Ok in HV. next_in HV p Ep. apply ok_or_Ok in Ep.
  destruct p as [y core]. apply split_last_Some in Ep as ->. res_inv. subst.
  match goal with E : bsv_sighash_from_u8 (b2z y) = Ok 65 |- _ => rename E into Ey end.
  assert (y = x41) as ->.
  { apply b2z_inj. change (b2z x41) with 65. revert Ey. unfold bsv_sighash_from_u8. generalize (b2z y). intros z Hz.
    repeat match type of Hz with context [match ?v with _ => _ end] => destruct v; try done end; congruence. }
  eexists _, _. split_and!; done.
Qed.
End bsv.

Section kaspa.
Context {T : KaspaTypes} {KL : KaspaLib} {TX : KaspaTexts}.

(** A Kaspa review is of valid material on the suite's network, and its
    accounts balance in 64 bits: nothing overflows and outputs do not exceed
    inputs.  With a threshold key the spent output pays to that key. *)
Lemma kaspa_review_Ok s m r :
  (forall t, Forall is_u64 (ktx_output_values t)) -> (forall e, is_u64 (entry_amount e)) ->
  kaspa_review_transaction s m = Ok r ->
  exists mat, material_from_slice m = Ok mat /\ material_validate mat = Ok tt /\
    decode_network (km_network mat) = Ok (ks_network s) /\ ra_signing_message_digest r = kaspa_signing_digest s mat /\
    sumZ (ktx_output_values (km_transaction mat)) <= sumZ (entry_amount <$> km_entries mat) < 2 ^ 64 /\
    (forall k, ks_verifier s = KEcdsaCbMpc k ->
       exists e, km_entries mat !! Z.to_nat (km_input_index mat) = Some e /\
         entry_script_public_key e = pay_to_address_script PrefixMainnet VersionPubKeyECDSA k).
Proof.
  intros Hout Hin. unfold kaspa_review_transaction, kaspa_review, material_decode. intros HR.
  next_in HR u Esize. apply map_err_Ok in HR. next_in HR mat Emat. next_in Emat a Ea. next_in Emat mat' Es. next_in Emat b Ev.
  injection Emat as <-. next_in HR net Enet. next_in HR c Ec. next_in HR d Ed. next_in HR e Ecb. next_in HR tot Eo.
  next_in HR tin Ei. next_in HR fee Ef. res_inv. subst net. destruct b.
  apply ReviewArtifact_new_Ok in HR as (-> & _). exists mat'. cbn [ra_signing_message_digest].
  apply checked_sum_Some in Eo as [-> Ho]; [|apply Hout|by unfold fits; lia].
  apply checked_sum_Some in Ei as [-> Hi]; [|by apply Forall_fmap, Forall_true|by unfold fits; lia].
  unfold checked_sub in Ef. case_bool_decide; [|done]. split_and!; try done; [unfold fits in Hi; lia|].
  intros k Hk. rewrite Hk in Ecb. unfold validate_cb_mpc_spent_script in Ecb. apply reject_if_Ok in Ecb.
  autorewrite with guards in Ecb. apply fmap_Some in Ecb as (en & ? & ->). eauto.
Qed.

(** A finalized signature is 64 bytes and the reviewed hash type, alone or
    behind the opcode that pushes 65 bytes. *)
Lemma parse_finalized_signature_Ok b core ht :
  parse_finalized_signature b = Ok (core, ht) ->
  length core = 64%nat /\ exists x, b2z x = ht /\ (b = core ++ [x] \/ b = x41 :: core ++ [x]) /\
    is_ok (sighash_type_valid ht) = true.
Proof.
  unfold parse_finalized_signature. intros HP. next_in HP sg Es. next_in HP u Eu. injection HP as <- <-.
  apply map_err_Ok in Eu.
  assert (length sg = 65%nat /\ (b = sg \/ b = x41 :: sg)) as [Hl Hb].
  { destruct b as [|x b]; [done|]. destruct (bool_decide (x = x41) && _) eqn:E1.
    - apply andb_true_iff in E1 as [->%bool_decide_eq_true Hl%Nat.eqb_eq]. injection Es as <-. auto.
    - destruct (Nat.eqb_spec (length (x :: b)) 65); [|done]. injection Es as <-. auto. }
  destruct (lookup_lt_is_Some_2 sg 64) as [x Hx]; [lia|]. rewrite Hx in *. cbn [default from_option id] in *.
  split; [rewrite length_take; lia|]. exists x. rewrite Eu.
  assert (sg = take 64 sg ++ [x]) as Hsg.
  { rewrite <- (take_drop 64 sg) at 1. f_equal. rewrite (drop_S _ _ _ Hx). by rewrite drop_ge by lia. }
  split_and!; [done|rewrite <- Hsg; done|done].
Qed.
End kaspa.

(** ** Concrete runs *)

Import BchToy.

Definition toy_job : SigningJob :=
  mkSigningJob (replicate 16 x01) (replicate 16 x02) (replicate 16 x03) (replicate 16 x04) (bcs_scope toy_suite)
    BitcoinCashEcdsaCbMpcV1 CbMpcThresholdEcdsa (review_of toy_suite toy_request toy_input)
    (mkReviewBinding 1 (bcs_scope toy_suite) BitcoinCashEcdsaCbMpcV1 "set" 1 2 []) [] [] ("a", "b") "a" [] 100 14.
Definition toy_signature : bytes := double_sha256 (signing_message toy_request toy_input) ++ [x41].

(** A job of the Bitcoin Cash suite accepts this signature, and no other bytes
    than those of a core that verifies. *)
Lemma bch_job_signature_exact_witness :
  VerifiedChainSignature_verify toy_suite (mkChainSigningExecution toy_job []) toy_signature =
    Ok (mkVerifiedChainSignature toy_signature).
Proof.
  apply (bch_job_signature_exact BchChipnet BchEcdsa toy_key SIGHASH_ALL); [by vm_compute|].
  split; [done|]. split; [done|]. exists toy_request, toy_input, (double_sha256 (signing_message toy_request toy_input)).
  split_and!; [exact toy_reviewable|done|done|]. eexists. split_and!; done || by apply bool_decide_true.
Defined.

Definition toy_bsv_tx : BsvTransaction :=
  mkBsvTransaction 1 [mkTxInput (replicate 32 x07) 1 [] 4294967295] [mkTxOutput 5000 [x76; xa9]] 0.
Definition toy_bsv_digest : bytes := default [] (result_ok (bsv_fork_id_sighash toy_bsv_tx 0 [x76] 6000 0xc3)).

(** SINGLE|ANYONECANPAY with an output of its own. *)
Lemma bsv_sighash_agrees_with_bch_witness :
  bsv_hash_checks toy_bsv_tx 0 [x76] 0xc3 /\ fork_id_sighash (as_bch toy_bsv_tx) 0 [x76] 6000 0xc3 = Ok toy_bsv_digest.
Proof. apply (bsv_sighash_agrees_with_bch toy_bsv_tx 0 [x76] 6000 0xc3 toy_bsv_digest); by vm_compute. Defined.
