(* ===== verification/PolicyDocument.v ===== *)
(** * Policy documents and artifacts (src/crates/policy-registry/src/{lib,document,artifact}.rs)

    The policy documents the registry compiles, the profile they must have,
    the content-addressed artifacts they compile to, and the interface of the
    crates the registry calls (hex, base64, serde_json, serde_jcs and the text
    parsers of rust-bitcoin).  The lemmas show that an artifact built by
    [PolicyArtifact_new] is exactly what [PolicyArtifact_validate] accepts, and
    that an artifact with one changed digit is refused unless SHA-256 collides. *)

From Stdlib Require Import ZArith Lia.
From S2P Require Import Prelude Bitcoin IssuanceTerms Text.
From stdpp Require Import list.
Local Open Scope string_scope.
Local Open Scope list_scope.
Local Open Scope Z_scope.

Definition POLICY_SCHEMA_VERSION : Z := 1.
Definition POLICY_CANONICALIZATION : string := "catomicals-policy-jcs-v1".
Definition POLICY_COMPILER_VERSION : string := "catomicals-policy-registry/0.1.0".
Definition INQUISITION_SIGNET_PROFILE : string := "bitcoin-inquisition-signet-v29.4-op-cat".
Definition MAX_POLICY_DOCUMENT_BYTES : Z := 64 * 1024.
Definition MAX_METADATA_BYTES : Z := 4 * 1024.
Definition MAX_ARTIFACT_BYTES : Z := 128 * 1024.
Definition MAX_ARTIFACT_SET_BYTES : Z := 1024 * 1024.
Definition MAX_VECTOR_SET_BYTES : Z := 1024 * 1024.
Definition MAX_BUNDLE_BYTES : Z := 2 * 1024 * 1024.

Inductive CompileError :=
| InvalidJson (why : string)
| UnsupportedProfile (why : string)
| InvalidIssuance (why : string)
| InvalidListing (why : string)
| LimitExceeded (what : string)
| PolicyHashMismatch
| ArtifactMismatch
| ArtifactSetMismatch
| VectorMismatch
| ValidationRunMismatch
| NonCanonicalBundle.

#[export] Instance CompileError_eq_dec : EqDecision CompileError.
Proof. solve_decision. Defined.

(** ** Documents *)

(** The three enums have one variant each. *)
Inductive PolicyNetwork := PolicySignet.
Inductive DigestAlgorithm := DigestSha256.
Inductive OpCatRequirement := OpCatRequired.

Record NetworkProfile := mkNetworkProfile {
  np_bitcoin_network : PolicyNetwork;
  np_deployment_profile : string;
  np_op_cat : OpCatRequirement;
}.

Inductive SuccessorRuleInput := InputRecursiveIssuer | InputShardedLanes.

Record IssuanceInput := mkIssuanceInput {
  ii_item_id : string;
  ii_target_prefix : Z;
  ii_total_supply : Z;
  ii_successor_rule : SuccessorRuleInput;
  ii_lane_count : Z;
  ii_salt : string;
  ii_metadata_base64 : string;
}.

Record ReceiptInput := mkReceiptInput {
  ri_txid : string;
  ri_vout : Z;
  ri_script_pubkey_hex : string;
  ri_item_sat_amount : Z;
  ri_terms_hash : string;
  ri_item_id : string;
  ri_item_commitment : string;
  ri_lane : Z;
  ri_sequence : Z;
}.

Record ListingInput := mkListingInput {
  li_receipt : ReceiptInput;
  li_seller_key : string;
  li_seller_payout_script_hex : string;
  li_price_sat : Z;
  li_creator_fee_script_hex : string;
  li_creator_fee_sat : Z;
  li_cancel_script_hex : string;
  li_expiry_height : Z;
  li_max_network_fee_sat : Z;
}.

Inductive PolicyDocument :=
| Issuance (schema_version : Z) (canonicalization : string) (digest_algorithm : DigestAlgorithm)
    (network : NetworkProfile) (name : string) (input : IssuanceInput)
| FixedPriceListing (schema_version : Z) (canonicalization : string) (digest_algorithm : DigestAlgorithm)
    (network : NetworkProfile) (name : string) (input : ListingInput).

Inductive ProtocolInput :=
| ProtocolIssuance (input : IssuanceInput)
| ProtocolFixedPriceListing (input : ListingInput).

#[export] Instance PolicyNetwork_eq_dec : EqDecision PolicyNetwork.
Proof. solve_decision. Defined.
#[export] Instance DigestAlgorithm_eq_dec : EqDecision DigestAlgorithm.
Proof. solve_decision. Defined.
#[export] Instance OpCatRequirement_eq_dec : EqDecision OpCatRequirement.
Proof. solve_decision. Defined.
#[export] Instance NetworkProfile_eq_dec : EqDecision NetworkProfile.
Proof. solve_decision. Defined.
#[export] Instance SuccessorRuleInput_eq_dec : EqDecision SuccessorRuleInput.
Proof. solve_decision. Defined.
#[export] Instance IssuanceInput_eq_dec : EqDecision IssuanceInput.
Proof. solve_decision. Defined.
#[export] Instance ReceiptInput_eq_dec : EqDecision ReceiptInput.
Proof. solve_decision. Defined.
#[export] Instance ListingInput_eq_dec : EqDecision ListingInput.
Proof. solve_decision. Defined.
#[export] Instance PolicyDocument_eq_dec : EqDecision PolicyDocument.
Proof. solve_decision. Defined.

Definition doc_schema_version (d : PolicyDocument) : Z :=
  match d with Issuance v _ _ _ _ _ | FixedPriceListing v _ _ _ _ _ => v end.
Definition doc_canonicalization (d : PolicyDocument) : string :=
  match d with Issuance _ c _ _ _ _ | FixedPriceListing _ c _ _ _ _ => c end.
Definition doc_network (d : PolicyDocument) : NetworkProfile :=
  match d with Issuance _ _ _ n _ _ | FixedPriceListing _ _ _ n _ _ => n end.
Definition doc_name (d : PolicyDocument) : string :=
  match d with Issuance _ _ _ _ s _ | FixedPriceListing _ _ _ _ s _ => s end.
Definition doc_input (d : PolicyDocument) : ProtocolInput :=
  match d with
  | Issuance _ _ _ _ _ i => ProtocolIssuance i
  | FixedPriceListing _ _ _ _ _ i => ProtocolFixedPriceListing i
  end.

Definition validate_profile (d : PolicyDocument) : result CompileError unit :=
  _ ← reject_if (negb (doc_schema_version d =? POLICY_SCHEMA_VERSION)) (UnsupportedProfile "schema_version must be 1");
  _ ← reject_if (negb (bool_decide (doc_canonicalization d = POLICY_CANONICALIZATION)))
        (UnsupportedProfile "canonicalization must be catomicals-policy-jcs-v1");
  _ ← reject_if (negb (bool_decide (np_deployment_profile (doc_network d) = INQUISITION_SIGNET_PROFILE)))
        (UnsupportedProfile ("deployment_profile must be " +:+ INQUISITION_SIGNET_PROFILE));
  _ ← reject_if ((String.length (doc_name d) =? 0)%nat || (120 <? String.length (doc_name d))%nat)
        (UnsupportedProfile "name must contain 1..=120 bytes");
  Ok tt.

Definition invalid_issuance_supply (d : PolicyDocument) : option PolicyDocument :=
  match d with
  | Issuance v c a n s i =>
      Some (Issuance v c a n s
        (mkIssuanceInput (ii_item_id i) (ii_target_prefix i) 0 (ii_successor_rule i) (ii_lane_count i)
           (ii_salt i) (ii_metadata_base64 i)))
  | _ => None
  end.

Definition invalid_listing_price (d : PolicyDocument) : option PolicyDocument :=
  match d with
  | FixedPriceListing v c a n s i =>
      Some (FixedPriceListing v c a n s
        (mkListingInput (li_receipt i) (li_seller_key i) (li_seller_payout_script_hex i) 0
           (li_creator_fee_script_hex i) (li_creator_fee_sat i) (li_cancel_script_hex i) (li_expiry_height i)
           (li_max_network_fee_sat i)))
  | _ => None
  end.

Definition renamed (d : PolicyDocument) (name : string) : PolicyDocument :=
  match d with
  | Issuance v c a n _ i => Issuance v c a n name i
  | FixedPriceListing v c a n _ i => FixedPriceListing v c a n name i
  end.

Lemma doc_name_renamed d n : doc_name (renamed d n) = n.
Proof. by destruct d. Qed.

(** A valid name stays a different, still possibly too long, name. *)
Lemma tampered_name_ne s : s +:+ " tampered" <> s.
Proof.
  intros Hs%(f_equal String.length). rewrite string_app_length in Hs. simpl in Hs. lia.
Qed.

(** ** The crates the registry calls *)

Class PolicyLib := {
  (* base64 STANDARD, with the text of its error *)
  base64_standard_decode : string -> result string bytes;
  (* the text of the hex crate's error on an input it refuses *)
  hex_error_text : string -> string;
  (* Txid::from_str and XOnlyPublicKey::from_str *)
  txid_from_str : string -> result string bytes;
  xonly_from_str : string -> result string bytes;
}.

(** hex: two lower-case digits per byte; decoding takes either case. *)
Class HexLaws `{BitcoinLib} `{TextCodec} : Prop := {
  hex_decode_encode b : hex_decode (hex_encode b) = Some b;
  hex_encode_lower b : forallb is_lower_hex (ascii_bytes (hex_encode b)) = true;
  hex_encode_length b : String.length (hex_encode b) = (2 * length b)%nat;
  hex_decode_lower s b :
    hex_decode s = Some b -> forallb is_lower_hex (ascii_bytes s) = true -> hex_encode b = s;
}.

(** ** Artifacts *)

Record PolicyArtifact := mkPolicyArtifact {
  pa_artifact_id : string;
  pa_kind : string;
  pa_lane : option Z;
  pa_media_type : string;
  pa_content_ref : string;
  pa_content_hex : string;
  pa_content_digest : string;
}.

#[export] Instance PolicyArtifact_eq_dec : EqDecision PolicyArtifact.
Proof. solve_decision. Defined.

Section artifact.
Context `{BitcoinLib} `{TextCodec}.

Definition sha256_digest (b : bytes) : string := "sha256:" +:+ hex_encode (sha256 b).

Definition lane_label (lane : option Z) : string :=
  match lane with None => "global" | Some value => display_dec value end.

Definition PolicyArtifact_new (kind : string) (lane : option Z) (media_type : string) (content : bytes)
    : result CompileError PolicyArtifact :=
  _ ← reject_if (MAX_ARTIFACT_BYTES <? Z.of_nat (length content)) (LimitExceeded "single artifact");
  let content_digest := sha256_digest content in
  let artifact_id := kind +:+ ":" +:+ lane_label lane +:+ ":" +:+ content_digest in
  Ok {| pa_artifact_id := artifact_id;
        pa_kind := kind;
        pa_lane := lane;
        pa_media_type := media_type;
        pa_content_ref := "inline:" +:+ artifact_id;
        pa_content_hex := hex_encode content;
        pa_content_digest := content_digest |}.

Definition PolicyArtifact_validate (a : PolicyArtifact) : result CompileError bytes :=
  content ← ok_or (hex_decode (pa_content_hex a)) ArtifactMismatch;
  _ ← reject_if ((MAX_ARTIFACT_BYTES <? Z.of_nat (length content))
                 || negb (bool_decide (sha256_digest content = pa_content_digest a))) ArtifactMismatch;
  _ ← reject_if (negb (bool_decide (pa_artifact_id a =
        pa_kind a +:+ ":" +:+ lane_label (pa_lane a) +:+ ":" +:+ pa_content_digest a))) ArtifactMismatch;
  _ ← reject_if (negb (bool_decide (pa_content_ref a = "inline:" +:+ pa_artifact_id a))) ArtifactMismatch;
  Ok content.

Lemma PolicyArtifact_new_Ok kind lane media content a :
  PolicyArtifact_new kind lane media content = Ok a ->
  Z.of_nat (length content) <= MAX_ARTIFACT_BYTES /\ pa_kind a = kind /\ pa_lane a = lane /\
  pa_media_type a = media /\ pa_content_hex a = hex_encode content /\ pa_content_digest a = sha256_digest content.
Proof. unfold PolicyArtifact_new. intros HN. res_inv. by subst a. Qed.

Context `{!HexLaws}.

(** What [new] builds [validate] reads back. *)
Lemma PolicyArtifact_new_validates kind lane media content a :
  PolicyArtifact_new kind lane media content = Ok a -> PolicyArtifact_validate a = Ok content.
Proof.
  unfold PolicyArtifact_new. intros HN. res_inv. subst a. unfold PolicyArtifact_validate.
  cbn [pa_content_hex pa_content_digest pa_artifact_id pa_kind pa_lane pa_content_ref].
  rewrite hex_decode_encode. by res_pass.
Qed.

Lemma hex_encode_inj a b : hex_encode a = hex_encode b -> a = b.
Proof. intros Hh%(f_equal hex_decode). rewrite !hex_decode_encode in Hh. congruence. Qed.

Lemma sha256_digest_inj x y : sha256_digest x = sha256_digest y -> x = y \/ sha256_collision x y.
Proof.
  unfold sha256_digest. intros Hd. apply sha256_inj_or_collision, hex_encode_inj.
  by apply (inj (String.app "sha256:")) in Hd.
Qed.
End artifact.

(** ** Test vectors *)

Inductive VectorInput :=
| CompileDocument (document : PolicyDocument)
| VerifyPolicyHash (document : PolicyDocument) (claimed_policy_hash : string)
| VerifyArtifact (artifact : PolicyArtifact).

Record PolicyTestVector := mkPolicyTestVector {
  tv_vector_id : string;
  tv_input : VectorInput;
  tv_expected_accept : bool;
}.

Record VectorResult := mkVectorResult {
  vr_vector_id : string;
  vr_expected_accept : bool;
  vr_actual_accept : bool;
  vr_passed : bool;
}.

#[export] Instance VectorInput_eq_dec : EqDecision VectorInput.
Proof. solve_decision. Defined.
#[export] Instance PolicyTestVector_eq_dec : EqDecision PolicyTestVector.
Proof. solve_decision. Defined.
#[export] Instance VectorResult_eq_dec : EqDecision VectorResult.
Proof. solve_decision. Defined.
