(* ===== verification/PolicyCompile.v ===== *)
(** * The policy compiler and activation proposals
      (src/crates/policy-registry/src/compile.rs and activation.rs)

    A policy document is compiled to content-addressed artifacts by the
    issuance and trading crates, together with test vectors that the compiler
    runs on itself; [inspect_bundle] checks a stored bundle against a fresh
    compilation.  JSON is an interface: one parser and one canonical (RFC 8785)
    printer per type. *)

From Stdlib Require Import ZArith Lia.
From S2P Require Import Prelude Bitcoin IssuanceTerms IssuerState Pow IssuerScript MintVerify Trading Text PolicyDocument.
From stdpp Require Import list.
Local Open Scope string_scope.
Local Open Scope list_scope.
Local Open Scope Z_scope.

Record ValidationRun := mkValidationRun {
  run_compiler_version : string;
  run_policy_hash : string;
  run_artifact_set_digest : string;
  run_vector_set_digest : string;
  run_results : list VectorResult;
  run_all_passed : bool;
  run_run_digest : string;
}.

(** What the digest of a run covers: every field but the digest. *)
Record ValidationRunDigest := mkValidationRunDigest {
  rd_compiler_version : string;
  rd_policy_hash : string;
  rd_artifact_set_digest : string;
  rd_vector_set_digest : string;
  rd_results : list VectorResult;
  rd_all_passed : bool;
}.

Record PolicyBundle := mkPolicyBundle {
  pb_schema_version : Z;
  pb_compiler_version : string;
  pb_document : PolicyDocument;
  pb_policy_hash : string;
  pb_artifacts : list PolicyArtifact;
  pb_artifact_set_digest : string;
  pb_test_vectors : list PolicyTestVector;
  pb_vector_set_digest : string;
  pb_validation_run : ValidationRun;
}.

#[export] Instance ValidationRun_eq_dec : EqDecision ValidationRun.
Proof. solve_decision. Defined.
#[export] Instance PolicyBundle_eq_dec : EqDecision PolicyBundle.
Proof. solve_decision. Defined.

(** serde_json::from_slice and serde_jcs::to_vec at the types of the crate,
    with the text of their errors. *)
Class PolicyJson := {
  document_from_slice : bytes -> result string PolicyDocument;
  bundle_from_slice : bytes -> result string PolicyBundle;
  document_to_vec : PolicyDocument -> result string bytes;
  artifacts_to_vec : list PolicyArtifact -> result string bytes;
  vectors_to_vec : list PolicyTestVector -> result string bytes;
  run_to_vec : ValidationRunDigest -> result string bytes;
  bundle_to_vec : PolicyBundle -> result string bytes;
  state_to_vec : IssuerState -> result string bytes;
}.

(** [jcs]: the canonical bytes, or the printer's error. *)
Definition jcs (r : result string bytes) : result CompileError bytes := map_err InvalidJson r.

(** The [Display] texts of the errors the compiler quotes. *)
Definition StateError_display (e : StateError) : string :=
  match e with
  | TargetPrefixOutOfRange p => "target prefix must be between 0 and 32, got " +:+ display_dec p
  | LaneOutOfRange l => "lane " +:+ display_dec l +:+ " is out of range for this issuance"
  | SeqOverflow => "sequence overflow"
  end.

Definition TradeError_display (e : TradeError) : string :=
  match e with
  | UnsupportedVersion => "unsupported trading protocol version"
  | WrongNetwork => "only Signet is supported"
  | InvalidAmount => "invalid zero amount"
  | InvalidRule => "invalid listing rule"
  | InvalidScript => "invalid or ambiguous output script"
  | ReceiptOwnerMismatch => "receipt is not controlled by the committed seller key"
  | InvalidReceipt => "item receipt does not match its issuance-verified mint"
  | InvalidListingLineage => "order outpoint does not derive from the canonical listing transaction"
  | InvalidRawTransaction => "raw transaction is not canonical transaction hex"
  | PartiallySigned => "pre-approval transaction must have empty scriptSig and witness data"
  | InvalidTransactionHeader => "transaction version or locktime is invalid for this path"
  | InvalidInputs => "transaction inputs do not match the protected path"
  | InvalidPrevouts => "ordered previous outputs are incomplete or do not match"
  | InvalidOutputs => "transaction outputs do not exactly match protected policy"
  | InvalidFee => "transaction fee must be positive and at most the committed maximum"
  | Expired => "listing or buyer proposal has expired"
  | CancelNotMature => "cancel path is not active until the committed expiry height"
  | InvalidBuyerProof => "buyer ownership proof is invalid"
  | Taproot => "taproot construction or sighash failed"
  | FinalTransactionMismatch => "final transaction differs from the approved transaction"
  | InvalidSellerSignature => "seller signature is invalid"
  | WrongCompetitionOutpoint => "candidate does not spend this listing outpoint"
  | InvalidCandidateState => "candidate is unknown or already resolved"
  end.

Section compiler.
Context `{BitcoinLib} `{TextCodec} `{PolicyLib} `{PolicyJson}.

(** ** Inputs *)

Definition hex32 (encoded : string) (error : string -> CompileError) : result CompileError bytes :=
  value ← ok_or (hex_decode encoded) (error (hex_error_text encoded));
  _ ← reject_if (negb (length value =? 32)%nat) (error "expected exactly 32 bytes of lowercase hex");
  if (String.length encoded =? 64)%nat && forallb is_lower_hex (ascii_bytes encoded) then Ok value
  else Err (error "expected exactly 32 bytes of lowercase hex").

Definition successor_rule (input : IssuanceInput) : result CompileError SuccessorRule :=
  match ii_successor_rule input with
  | InputRecursiveIssuer =>
      if ii_lane_count input =? 1 then Ok RecursiveIssuer
      else Err (InvalidIssuance "recursive issuer requires lane_count=1")
  | InputShardedLanes =>
      if (2 <=? ii_lane_count input) && (ii_lane_count input <=? ii_total_supply input) then Ok ShardedLanes
      else Err (InvalidIssuance "sharded lanes require 2..=total_supply lanes")
  end.

Definition issuance_terms (input : IssuanceInput) : result CompileError IssuanceTerms :=
  item_id ← hex32 (ii_item_id input) InvalidIssuance;
  salt ← hex32 (ii_salt input) InvalidIssuance;
  metadata ← map_err InvalidIssuance (base64_standard_decode (ii_metadata_base64 input));
  _ ← reject_if (MAX_METADATA_BYTES <? Z.of_nat (length metadata))
        (InvalidIssuance ("metadata exceeds " +:+ display_dec MAX_METADATA_BYTES +:+ " bytes"));
  _ ← reject_if (ii_total_supply input =? 0) (InvalidIssuance "total_supply must be greater than zero");
  _ ← reject_if (32 <? ii_target_prefix input) (InvalidIssuance "target_prefix must be at most 32");
  rule ← successor_rule input;
  Ok {| it_item_id := item_id;
        it_target_prefix := ii_target_prefix input;
        it_total_supply := ii_total_supply input;
        it_successor_rule := rule;
        it_lane_count := ii_lane_count input;
        it_salt := salt;
        it_metadata := metadata |}.

(** The closure [script] of [listing_terms]. *)
Definition listing_script (encoded : string) : result CompileError bytes :=
  ok_or (hex_decode encoded) (InvalidListing (hex_error_text encoded)).

Definition listing_terms (input : ListingInput) : result CompileError ListingTerms :=
  let r := li_receipt input in
  txid ← map_err InvalidListing (txid_from_str (ri_txid r));
  seller_key ← map_err InvalidListing (xonly_from_str (li_seller_key input));
  script_pubkey ← listing_script (ri_script_pubkey_hex r);
  terms_hash ← hex32 (ri_terms_hash r) InvalidListing;
  item_id ← hex32 (ri_item_id r) InvalidListing;
  item_commitment ← hex32 (ri_item_commitment r) InvalidListing;
  seller_payout_script ← listing_script (li_seller_payout_script_hex input);
  creator_fee_script ← listing_script (li_creator_fee_script_hex input);
  cancel_script ← listing_script (li_cancel_script_hex input);
  let listing := {|
    lt_protocol_version := 1;
    lt_network := Signet;
    lt_receipt := mkItemReceipt Signet (mkOutPoint txid (ri_vout r)) script_pubkey (ri_item_sat_amount r)
                    terms_hash item_id item_commitment (ri_lane r) (ri_sequence r);
    lt_seller_key := seller_key;
    lt_seller_payout_script := seller_payout_script;
    lt_price_sat := li_price_sat input;
    lt_creator_fee_script := creator_fee_script;
    lt_creator_fee_sat := li_creator_fee_sat input;
    lt_cancel_script := cancel_script;
    lt_expiry_height := li_expiry_height input;
    lt_max_network_fee_sat := li_max_network_fee_sat input |} in
  _ ← map_err (fun e => InvalidListing (TradeError_display e)) (ListingTerms_validate listing);
  Ok listing.

(** ** Artifacts *)

(** The body of the loop over the lanes.  The parser panics on no script that
    [issuer_script] prints ([parse_issuer_script_complete]), so the comparison
    is all the call does. *)
Definition lane_artifacts (terms : IssuanceTerms) (lane : Z) : result CompileError (list PolicyArtifact) :=
  state ← map_err (fun e => InvalidIssuance (StateError_display e)) (IssuerState_initial terms lane);
  let script := issuer_script state in
  _ ← reject_if (negb (bool_decide (parse_issuer_script script = Ok (Some state))))
        (InvalidIssuance "issuer script does not round-trip");
  a1 ← PolicyArtifact_new "issuance_terms" (Some lane) "application/vnd.catomicals.issuance-terms-v1"
         (IssuanceTerms_canonical_bytes terms);
  state_json ← jcs (state_to_vec state);
  a2 ← PolicyArtifact_new "issuer_state" (Some lane) "application/jcs+json" state_json;
  a3 ← PolicyArtifact_new "issuer_tapscript" (Some lane) "application/vnd.bitcoin.tapscript" script;
  a4 ← PolicyArtifact_new "issuer_output_key" (Some lane) "application/vnd.bitcoin.x-only-public-key"
         (issuer_output_key state);
  Ok [a1; a2; a3; a4].

Fixpoint compile_lanes (terms : IssuanceTerms) (lanes : list Z) : result CompileError (list PolicyArtifact) :=
  match lanes with
  | [] => Ok []
  | lane :: rest =>
      these ← lane_artifacts terms lane;
      others ← compile_lanes terms rest;
      Ok (these ++ others)
  end.

Definition compile_issuance (input : IssuanceInput) : result CompileError (list PolicyArtifact) :=
  terms ← issuance_terms input;
  compile_lanes terms (seqZ 0 (materialized_lanes terms)).

Definition compile_listing (input : ListingInput) : result CompileError (list PolicyArtifact) :=
  listing ← listing_terms input;
  outputs ← map_err (fun e => InvalidListing (TradeError_display e)) (ListingArtifacts_new listing);
  a1 ← PolicyArtifact_new "listing_terms" None "application/vnd.catomicals.fixed-price-listing-v1"
         (la_canonical_bytes outputs);
  a2 ← PolicyArtifact_new "listing_commitment" None "application/vnd.catomicals.sha256-commitment"
         (la_commitment outputs);
  a3 ← PolicyArtifact_new "buy_leaf" None "application/vnd.bitcoin.tapscript" (la_buy_leaf outputs);
  a4 ← PolicyArtifact_new "cancel_leaf" None "application/vnd.bitcoin.tapscript" (la_cancel_leaf outputs);
  a5 ← PolicyArtifact_new "listing_output" None "application/vnd.bitcoin.script-pubkey" (la_listing_output outputs);
  a6 ← PolicyArtifact_new "order_txout" None "application/vnd.bitcoin.consensus-txout"
         (txout_serialize (la_order_txout outputs));
  Ok [a1; a2; a3; a4; a5; a6].

Definition compile_artifacts (document : PolicyDocument) : result CompileError (list PolicyArtifact) :=
  match doc_input document with
  | ProtocolIssuance input => compile_issuance input
  | ProtocolFixedPriceListing input => compile_listing input
  end.

Definition policy_hash (document : PolicyDocument) : result CompileError string :=
  b ← jcs (document_to_vec document);
  Ok (sha256_digest b).

(** ** Test vectors *)

(** [content_hex.pop()] and the push of a different digit; the text is ASCII. *)
Definition tamper_hex (s : string) : string :=
  let b := ascii_bytes s in
  match last b with
  | Some c => String.string_of_list_byte (take (length b - 1) b ++ [if bool_decide (c = x30) then x31 else x30])
  | None => s
  end.

Definition tampered (a : PolicyArtifact) : PolicyArtifact :=
  mkPolicyArtifact (pa_artifact_id a) (pa_kind a) (pa_lane a) (pa_media_type a) (pa_content_ref a)
    (tamper_hex (pa_content_hex a)) (pa_content_digest a).

Definition vectors (document : PolicyDocument) (hash : string) (artifacts : list PolicyArtifact)
    : result CompileError (list PolicyTestVector) :=
  first ← ok_or (head artifacts) ArtifactMismatch;
  Ok ([mkPolicyTestVector "positive.compile" (CompileDocument document) true;
       mkPolicyTestVector "negative.document_tamper"
         (VerifyPolicyHash (renamed document (doc_name document +:+ " tampered")) hash) false;
       mkPolicyTestVector "negative.artifact_tamper" (VerifyArtifact (tampered first)) false] ++
      match invalid_issuance_supply document with
      | Some invalid => [mkPolicyTestVector "negative.zero_supply" (CompileDocument invalid) false]
      | None => []
      end ++
      match invalid_listing_price document with
      | Some invalid => [mkPolicyTestVector "negative.zero_price" (CompileDocument invalid) false]
      | None => []
      end).

Definition run_vector_with_compile (vector : PolicyTestVector) (compile : PolicyDocument -> bool) : VectorResult :=
  let actual_accept :=
    match tv_input vector with
    | CompileDocument document => compile document
    | VerifyPolicyHash document claimed =>
        match policy_hash document with Ok actual => bool_decide (actual = claimed) | Err _ => false end
    | VerifyArtifact artifact => is_ok (PolicyArtifact_validate artifact)
    end in
  mkVectorResult (tv_vector_id vector) (tv_expected_accept vector) actual_accept
    (Bool.eqb actual_accept (tv_expected_accept vector)).

(** ** Compilation *)

Record PreparedDocument := mkPreparedDocument {
  pd_policy_hash : string;
  pd_artifacts : list PolicyArtifact;
  pd_artifact_set_digest : string;
  pd_test_vectors : list PolicyTestVector;
  pd_vector_set_digest : string;
}.

Definition prepare_document (document : PolicyDocument) : result CompileError PreparedDocument :=
  _ ← validate_profile document;
  hash ← policy_hash document;
  artifacts ← compile_artifacts document;
  artifact_bytes ← jcs (artifacts_to_vec artifacts);
  _ ← reject_if (MAX_ARTIFACT_SET_BYTES <? Z.of_nat (length artifact_bytes)) (LimitExceeded "artifact set");
  test_vectors ← vectors document hash artifacts;
  vector_bytes ← jcs (vectors_to_vec test_vectors);
  _ ← reject_if (MAX_VECTOR_SET_BYTES <? Z.of_nat (length vector_bytes)) (LimitExceeded "test vector set");
  Ok (mkPreparedDocument hash artifacts (sha256_digest artifact_bytes) test_vectors (sha256_digest vector_bytes)).

Definition run_vector_terminal (vector : PolicyTestVector) : VectorResult :=
  run_vector_with_compile vector (fun document => is_ok (prepare_document document)).

Definition ValidationRun_new (hash artifact_set_digest vector_set_digest : string) (results : list VectorResult)
    : result CompileError ValidationRun :=
  let all_passed := forallb vr_passed results in
  b ← jcs (run_to_vec (mkValidationRunDigest POLICY_COMPILER_VERSION hash artifact_set_digest vector_set_digest
                         results all_passed));
  Ok (mkValidationRun POLICY_COMPILER_VERSION hash artifact_set_digest vector_set_digest results all_passed
        (sha256_digest b)).

Definition ValidationRun_validate (run : ValidationRun) : result CompileError unit :=
  expected ← ValidationRun_new (run_policy_hash run) (run_artifact_set_digest run) (run_vector_set_digest run)
               (run_results run);
  _ ← reject_if (negb (bool_decide (expected = run)) || negb (run_all_passed run)) ValidationRunMismatch;
  Ok tt.

Definition compile_document_with_runner (document : PolicyDocument) (runner : PolicyTestVector -> VectorResult)
    : result CompileError PolicyBundle :=
  prepared ← prepare_document document;
  let results := runner <$> pd_test_vectors prepared in
  validation_run ← ValidationRun_new (pd_policy_hash prepared) (pd_artifact_set_digest prepared)
                     (pd_vector_set_digest prepared) results;
  _ ← reject_if (negb (run_all_passed validation_run)) VectorMismatch;
  Ok {| pb_schema_version := POLICY_SCHEMA_VERSION;
        pb_compiler_version := POLICY_COMPILER_VERSION;
        pb_document := document;
        pb_policy_hash := pd_policy_hash prepared;
        pb_artifacts := pd_artifacts prepared;
        pb_artifact_set_digest := pd_artifact_set_digest prepared;
        pb_test_vectors := pd_test_vectors prepared;
        pb_vector_set_digest := pd_vector_set_digest prepared;
        pb_validation_run := validation_run |}.

Definition compile_document_for_vector (document : PolicyDocument) : result CompileError PolicyBundle :=
  compile_document_with_runner document run_vector_terminal.

Definition run_vector (vector : PolicyTestVector) : VectorResult :=
  run_vector_with_compile vector (fun document => is_ok (compile_document_for_vector document)).

Definition compile_document (document : PolicyDocument) : result CompileError PolicyBundle :=
  compile_document_with_runner document run_vector.

Definition compile_policy_json (b : bytes) : result CompileError PolicyBundle :=
  _ ← reject_if (MAX_POLICY_DOCUMENT_BYTES <? Z.of_nat (length b)) (LimitExceeded "policy document");
  document ← map_err InvalidJson (document_from_slice b);
  compile_document document.

(** ** Inspection *)

Fixpoint validate_artifacts (artifacts : list PolicyArtifact) : result CompileError unit :=
  match artifacts with
  | [] => Ok tt
  | a :: rest => _ ← PolicyArtifact_validate a; validate_artifacts rest
  end.

Definition to_bytes (bundle : PolicyBundle) : result CompileError bytes := jcs (bundle_to_vec bundle).

(** The [||] chain stops before the hash when a version differs. *)
Definition bundle_identity_differs (bundle : PolicyBundle) : result CompileError bool :=
  if negb (pb_schema_version bundle =? POLICY_SCHEMA_VERSION)
     || negb (bool_decide (pb_compiler_version bundle = POLICY_COMPILER_VERSION)) then Ok true
  else hash ← policy_hash (pb_document bundle); Ok (negb (bool_decide (hash = pb_policy_hash bundle))).

Definition inspect_bundle (b : bytes) : result CompileError PolicyBundle :=
  _ ← reject_if (MAX_BUNDLE_BYTES <? Z.of_nat (length b)) (LimitExceeded "policy bundle");
  bundle ← map_err InvalidJson (bundle_from_slice b);
  canonical ← jcs (bundle_to_vec bundle);
  _ ← reject_if (negb (bool_decide (canonical = b))) NonCanonicalBundle;
  _ ← validate_profile (pb_document bundle);
  differs ← bundle_identity_differs bundle;
  _ ← reject_if differs PolicyHashMismatch;
  artifact_bytes ← jcs (artifacts_to_vec (pb_artifacts bundle));
  _ ← reject_if ((MAX_ARTIFACT_SET_BYTES <? Z.of_nat (length artifact_bytes))
                 || negb (bool_decide (sha256_digest artifact_bytes = pb_artifact_set_digest bundle))) ArtifactSetMismatch;
  _ ← validate_artifacts (pb_artifacts bundle);
  vector_bytes ← jcs (vectors_to_vec (pb_test_vectors bundle));
  _ ← reject_if ((MAX_VECTOR_SET_BYTES <? Z.of_nat (length vector_bytes))
                 || negb (bool_decide (sha256_digest vector_bytes = pb_vector_set_digest bundle))) VectorMismatch;
  let run := pb_validation_run bundle in
  _ ← reject_if (negb (bool_decide (run_vector <$> pb_test_vectors bundle = run_results run))) VectorMismatch;
  _ ← ValidationRun_validate run;
  _ ← reject_if (negb (bool_decide (run_policy_hash run = pb_policy_hash bundle))
                 || negb (bool_decide (run_artifact_set_digest run = pb_artifact_set_digest bundle))
                 || negb (bool_decide (run_vector_set_digest run = pb_vector_set_digest bundle))) ValidationRunMismatch;
  expected ← compile_document (pb_document bundle);
  _ ← reject_if (negb (bool_decide (pb_artifacts expected = pb_artifacts bundle))
                 || negb (bool_decide (pb_artifact_set_digest expected = pb_artifact_set_digest bundle))) ArtifactMismatch;
  _ ← reject_if (negb (bool_decide (pb_test_vectors expected = pb_test_vectors bundle))
                 || negb (bool_decide (pb_vector_set_digest expected = pb_vector_set_digest bundle))) VectorMismatch;
  _ ← reject_if (negb (bool_decide (pb_validation_run expected = run))) ValidationRunMismatch;
  Ok bundle.
End compiler.

(** * Activation proposals (src/crates/policy-registry/src/activation.rs)

    The data a later authority reviews before a compiled policy is activated,
    and the digest that binds it.  A proposal verifies exactly when it is what
    [ActivationProposal_new] makes of its own fields. *)

Definition ACTIVATION_DOMAIN : string := "catomicals-policy-activation-proposal-v1".

Record ActivationProposalInput := mkActivationProposalInput {
  ai_activation_id : bytes;
  ai_binding_id : bytes;
  ai_policy_hash : string;
  ai_wallet_id : bytes;
  ai_wallet_epoch : Z;
  ai_signer_set_id : bytes;
  ai_signer_epoch : Z;
  ai_chain_profile : string;
  ai_artifact_set_digest : string;
  ai_validation_run_digest : string;
  ai_expires_at : Z;
  ai_created_at : Z;
}.

Record ActivationProposal := mkActivationProposal {
  ap_activation_id : bytes;
  ap_binding_id : bytes;
  ap_policy_hash : string;
  ap_wallet_id : bytes;
  ap_wallet_epoch : Z;
  ap_signer_set_id : bytes;
  ap_signer_epoch : Z;
  ap_chain_profile : string;
  ap_artifact_set_digest : string;
  ap_validation_run_digest : string;
  ap_expires_at : Z;
  ap_created_at : Z;
  ap_approval_digest : string;
}.

(** What the approval digest covers. *)
Record ApprovalDigest := mkApprovalDigest { ad_domain : string; ad_input : ActivationProposalInput }.

#[export] Instance ActivationProposal_eq_dec : EqDecision ActivationProposal.
Proof. solve_decision. Defined.

(** serde_jcs::to_vec of an [ApprovalDigest]. *)
Class ActivationJson := { approval_to_vec : ApprovalDigest -> result string bytes }.

(** JSON numbers are exact up to 2^53 - 1 (RFC 8785, 3.2.2.3): on inputs whose
    integers are in that range the canonical form is printed and determines
    the input. *)
Definition safe_integer (z : Z) : Prop := - (2 ^ 53) < z < 2 ^ 53.
Definition safe_input (i : ActivationProposalInput) : Prop :=
  safe_integer (ai_wallet_epoch i) /\ safe_integer (ai_signer_epoch i) /\ safe_integer (ai_expires_at i) /\
  safe_integer (ai_created_at i).
Class ActivationJsonLaws `{ActivationJson} : Prop := {
  approval_to_vec_total d : safe_input (ad_input d) -> is_ok (approval_to_vec d) = true;
  approval_to_vec_inj d1 d2 b :
    safe_input (ad_input d1) -> safe_input (ad_input d2) ->
    approval_to_vec d1 = Ok b -> approval_to_vec d2 = Ok b -> d1 = d2;
}.

Definition valid_sha256 (value : string) : bool :=
  (String.length value =? 71)%nat && starts_with "sha256:" value &&
  forallb is_lower_hex (drop 7 (ascii_bytes value)).

(** The loop over the three digests. *)
Fixpoint check_activation_digests (digests : list string) : result CompileError unit :=
  match digests with
  | [] => Ok tt
  | digest :: rest =>
      _ ← reject_if (negb (valid_sha256 digest)) (UnsupportedProfile "activation digests must be sha256:<64 lowercase hex>");
      check_activation_digests rest
  end.

(** The fields of a proposal other than its digest, as [verify] collects them. *)
Definition proposal_input (p : ActivationProposal) : ActivationProposalInput :=
  mkActivationProposalInput (ap_activation_id p) (ap_binding_id p) (ap_policy_hash p) (ap_wallet_id p)
    (ap_wallet_epoch p) (ap_signer_set_id p) (ap_signer_epoch p) (ap_chain_profile p) (ap_artifact_set_digest p)
    (ap_validation_run_digest p) (ap_expires_at p) (ap_created_at p).

Section activation.
Context `{BitcoinLib} `{TextCodec} `{ActivationJson}.

Definition ActivationProposal_new (input : ActivationProposalInput) : result CompileError ActivationProposal :=
  _ ← reject_if ((ai_wallet_epoch input =? 0) || (ai_signer_epoch input =? 0))
        (UnsupportedProfile "wallet and signer epochs must be nonzero");
  _ ← reject_if (negb (bool_decide (ai_chain_profile input = INQUISITION_SIGNET_PROFILE)))
        (UnsupportedProfile "activation chain profile must be the fixed Inquisition Signet profile");
  _ ← check_activation_digests [ai_policy_hash input; ai_artifact_set_digest input; ai_validation_run_digest input];
  _ ← reject_if (ai_expires_at input <=? ai_created_at input)
        (UnsupportedProfile "activation expiry must be after proposal creation");
  b ← jcs (approval_to_vec (mkApprovalDigest ACTIVATION_DOMAIN input));
  Ok (mkActivationProposal (ai_activation_id input) (ai_binding_id input) (ai_policy_hash input) (ai_wallet_id input)
        (ai_wallet_epoch input) (ai_signer_set_id input) (ai_signer_epoch input) (ai_chain_profile input)
        (ai_artifact_set_digest input) (ai_validation_run_digest input) (ai_expires_at input) (ai_created_at input)
        (sha256_digest b)).

Definition ActivationProposal_verify (p : ActivationProposal) : result CompileError unit :=
  expected ← ActivationProposal_new (proposal_input p);
  if bool_decide (expected = p) then Ok tt else Err ValidationRunMismatch.

Lemma ActivationProposal_new_Ok i p :
  ActivationProposal_new i = Ok p <->
  ai_wallet_epoch i <> 0 /\ ai_signer_epoch i <> 0 /\ ai_chain_profile i = INQUISITION_SIGNET_PROFILE /\
  valid_sha256 (ai_policy_hash i) = true /\ valid_sha256 (ai_artifact_set_digest i) = true /\
  valid_sha256 (ai_validation_run_digest i) = true /\ ai_created_at i < ai_expires_at i /\
  exists b, approval_to_vec (mkApprovalDigest ACTIVATION_DOMAIN i) = Ok b /\
    proposal_input p = i /\ ap_approval_digest p = sha256_digest b.
Proof.
  unfold ActivationProposal_new, check_activation_digests, jcs. split.
  - intros HN. res_inv. subst p. split_and!; try done. eexists. split; [eassumption|]. by destruct i.
  - intros (Hw & Hs & Hc & -> & -> & -> & Ht & b & Hb & Hp & Hd).
    rewrite reject_if_pass by guard_tac. rewrite (reject_if_pass (negb (bool_decide _))) by guard_tac. cbn.
    rewrite reject_if_pass by guard_tac. cbn. rewrite Hb. cbn. subst i. destruct p. cbn in *. by rewrite Hd.
Qed.

Lemma ActivationProposal_verify_iff p : ActivationProposal_verify p = Ok tt <-> ActivationProposal_new (proposal_input p) = Ok p.
Proof.
  unfold ActivationProposal_verify. destruct (ActivationProposal_new _) as [e|]; cbn; [|done].
  case_bool_decide; split; congruence.
Qed.

Lemma proposal_input_inj p q :
  proposal_input p = proposal_input q -> ap_approval_digest p = ap_approval_digest q -> p = q.
Proof. destruct p, q. unfold proposal_input. cbn. intros [=] ?. by subst. Qed.

(** Digests of the registry have the form proposals require. *)
Lemma sha256_digest_valid `{!HexLaws, !BitcoinLaws _} b : valid_sha256 (sha256_digest b) = true.
Proof.
  unfold valid_sha256, sha256_digest. rewrite string_app_length, hex_encode_length, sha256_length.
  change (String.length "sha256:" + 2 * 32 =? 71)%nat with true. cbn [andb].
  replace (ascii_bytes ("sha256:" +:+ hex_encode (sha256 b)))
    with (ascii_bytes "sha256:" ++ ascii_bytes (hex_encode (sha256 b))) by done.
  rewrite (drop_app_length' (ascii_bytes "sha256:")), hex_encode_lower, andb_true_r by done.
  unfold starts_with. apply bool_decide_eq_true. eexists. apply strip_prefix_bytes_Some. done.
Qed.
End activation.
