(* ===== verification/PolicyInv.v ===== *)
(** * What the policy compiler builds

    Lemmas about PolicyCompile.v: every compiled artifact validates, the
    contents of the artifacts of an issuance, and the outcome of the test
    vectors the compiler runs on itself. *)

From Stdlib Require Import ZArith Lia.
From S2P Require Import Prelude Bitcoin IssuanceTerms IssuerState Pow IssuerScript MintVerify Trading Text PolicyDocument PolicyCompile.
From stdpp Require Import list.
Local Open Scope string_scope.
Local Open Scope list_scope.
Local Open Scope Z_scope.

(** ** Changing one digit *)

Lemma is_lower_hex_tamper (c : byte) : is_lower_hex (if bool_decide (c = x30) then x31 else x30) = true.
Proof. by case_bool_decide. Qed.

Lemma tamper_hex_bytes s b c :
  ascii_bytes s = b ++ [c] ->
  ascii_bytes (tamper_hex s) = b ++ [if bool_decide (c = x30) then x31 else x30].
Proof.
  intros Hs. unfold tamper_hex. rewrite Hs, last_snoc, length_app, take_app_length' by (simpl; lia).
  unfold ascii_bytes. by rewrite String.list_byte_of_string_of_list_byte.
Qed.

(** A text of at least one character changes, and stays lower-case hex. *)
Lemma tamper_hex_changes s :
  (0 < String.length s)%nat -> forallb is_lower_hex (ascii_bytes s) = true ->
  tamper_hex s <> s /\ forallb is_lower_hex (ascii_bytes (tamper_hex s)) = true.
Proof.
  intros Hl Hx. rewrite <- length_ascii_bytes in Hl.
  destruct (exists_last (l := ascii_bytes s)) as (b & c & Hs); [by intros E; rewrite E in Hl; simpl in Hl; lia|].
  pose proof (tamper_hex_bytes s b c Hs) as Ht. split.
  - intros E. rewrite E, Hs in Ht. apply app_inv_head in Ht. injection Ht as Ht.
    revert Ht. case_bool_decide; [by subst|]. congruence.
  - rewrite Ht, forallb_app, andb_true_iff. rewrite Hs, forallb_app, andb_true_iff in Hx.
    split; [apply Hx|]. simpl. by rewrite is_lower_hex_tamper.
Qed.

Section compiled.
Context `{BitcoinLib} `{TextCodec} `{PolicyLib} `{PolicyJson}.

(** ** Outcomes of the compiler's steps *)

Lemma prepare_document_Ok d p :
  prepare_document d = Ok p <->
  exists h arts ab vs vb,
    validate_profile d = Ok tt /\ policy_hash d = Ok h /\ compile_artifacts d = Ok arts /\
    artifacts_to_vec arts = Ok ab /\ Z.of_nat (length ab) <= MAX_ARTIFACT_SET_BYTES /\
    vectors d h arts = Ok vs /\ vectors_to_vec vs = Ok vb /\ Z.of_nat (length vb) <= MAX_VECTOR_SET_BYTES /\
    p = mkPreparedDocument h arts (sha256_digest ab) vs (sha256_digest vb).
Proof.
  unfold prepare_document. split.
  - intros HP. next_in HP u Ev. next_in HP h Eh. next_in HP arts Ea. next_in HP ab Eab. next_in HP u2 Ela.
    next_in HP vs Evs. next_in HP vb Evb. next_in HP u3 Elv. unfold jcs in *. res_inv. destruct u.
    by exists h, arts, ab, vs, vb.
  - intros (h & arts & ab & vs & vb & -> & -> & -> & Eab & Hab & Evs & Evb & Hvb & ->). unfold jcs. cbn.
    rewrite Eab. res_pass. rewrite Evs. cbn. rewrite Evb. by res_pass.
Qed.

Lemma compile_with_runner_Ok d runner b :
  compile_document_with_runner d runner = Ok b <->
  exists p run, prepare_document d = Ok p /\
    ValidationRun_new (pd_policy_hash p) (pd_artifact_set_digest p) (pd_vector_set_digest p)
      (runner <$> pd_test_vectors p) = Ok run /\
    forallb vr_passed (runner <$> pd_test_vectors p) = true /\
    b = mkPolicyBundle POLICY_SCHEMA_VERSION POLICY_COMPILER_VERSION d (pd_policy_hash p) (pd_artifacts p)
          (pd_artifact_set_digest p) (pd_test_vectors p) (pd_vector_set_digest p) run.
Proof.
  unfold compile_document_with_runner. split.
  - intros HC. next_in HC p Ep. next_in HC run Er. next_in HC u Eu. res_inv. exists p, run.
    split; [done|]. split; [done|]. split; [|by subst]. unfold ValidationRun_new in Er. res_inv. by subst run.
  - intros (p & run & -> & Er & Hp & ->). cbn. rewrite Er. cbn. unfold ValidationRun_new in Er. res_inv.
    subst run. cbn [run_all_passed]. rewrite Hp. done.
Qed.

Lemma ValidationRun_new_fields h a v rs run :
  ValidationRun_new h a v rs = Ok run ->
  run_policy_hash run = h /\ run_artifact_set_digest run = a /\ run_vector_set_digest run = v /\
  run_results run = rs /\ run_all_passed run = forallb vr_passed rs.
Proof. unfold ValidationRun_new. intros HN. res_inv. by subst run. Qed.

Lemma ValidationRun_validate_new h a v rs run :
  ValidationRun_new h a v rs = Ok run -> forallb vr_passed rs = true -> ValidationRun_validate run = Ok tt.
Proof.
  intros HN Hp. pose proof (ValidationRun_new_fields _ _ _ _ _ HN) as (E1 & E2 & E3 & E4 & E5).
  unfold ValidationRun_validate. rewrite E1, E2, E3, E4, HN. cbn. rewrite E5, Hp, bool_decide_true by done. done.
Qed.

(** ** Artifacts *)

(** An artifact that [PolicyArtifact_new] built. *)
Definition built (a : PolicyArtifact) : Prop :=
  exists kind lane media content, PolicyArtifact_new kind lane media content = Ok a.

(** The four artifacts of a lane. *)
Lemma lane_artifacts_Ok terms lane l :
  lane_artifacts terms lane = Ok l ->
  exists s js a1 a2 a3 a4,
    IssuerState_initial terms lane = Ok s /\ parse_issuer_script (issuer_script s) = Ok (Some s) /\
    state_to_vec s = Ok js /\ l = [a1; a2; a3; a4] /\
    PolicyArtifact_new "issuance_terms" (Some lane) "application/vnd.catomicals.issuance-terms-v1"
      (IssuanceTerms_canonical_bytes terms) = Ok a1 /\
    PolicyArtifact_new "issuer_state" (Some lane) "application/jcs+json" js = Ok a2 /\
    PolicyArtifact_new "issuer_tapscript" (Some lane) "application/vnd.bitcoin.tapscript" (issuer_script s) = Ok a3 /\
    PolicyArtifact_new "issuer_output_key" (Some lane) "application/vnd.bitcoin.x-only-public-key"
      (issuer_output_key s) = Ok a4.
Proof.
  unfold lane_artifacts. intros HL. next_in HL s Es. next_in HL u Eu. next_in HL a1 E1. next_in HL js Ej.
  next_in HL a2 E2. next_in HL a3 E3. next_in HL a4 E4. injection HL as <-. unfold jcs in Ej.
  apply map_err_Ok in Es, Ej. apply reject_if_Ok in Eu. rewrite negb_false_iff, bool_decide_eq_true in Eu.
  by exists s, js, a1, a2, a3, a4.
Qed.

Lemma compile_lanes_Ok terms lanes l :
  compile_lanes terms lanes = Ok l -> exists ls, l = concat ls /\ Forall2 (fun lane a => lane_artifacts terms lane = Ok a) lanes ls.
Proof.
  revert l. induction lanes as [|lane lanes IH]; intros l; simpl.
  - intros [= <-]. by exists [].
  - intros HC. next_in HC a Ea. next_in HC r Er. injection HC as <-. destruct (IH _ Er) as (ls & -> & Hls).
    exists (a :: ls). by split; [|constructor].
Qed.

Lemma compile_listing_Ok input l :
  compile_listing input = Ok l ->
  exists t o a1 a2 a3 a4 a5 a6, listing_terms input = Ok t /\ ListingArtifacts_new t = Ok o /\
    l = [a1; a2; a3; a4; a5; a6] /\ Forall built l /\
    PolicyArtifact_new "listing_terms" None "application/vnd.catomicals.fixed-price-listing-v1"
      (la_canonical_bytes o) = Ok a1.
Proof.
  unfold compile_listing. intros HL. next_in HL t Et. next_in HL o Eo. next_in HL a1 E1. next_in HL a2 E2.
  next_in HL a3 E3. next_in HL a4 E4. next_in HL a5 E5. next_in HL a6 E6. injection HL as <-. apply map_err_Ok in Eo.
  exists t, o, a1, a2, a3, a4, a5, a6. split_and!; [done..| |done]. unfold built. repeat constructor; eauto 6.
Qed.

Lemma compile_artifacts_built d l : compile_artifacts d = Ok l -> Forall built l.
Proof.
  unfold compile_artifacts. destruct (doc_input d) as [i|i].
  - unfold compile_issuance. intros HC. next_in HC t Et. apply compile_lanes_Ok in HC as (ls & -> & Hls).
    apply Forall_concat. eapply Forall2_Forall_r; [exact Hls|]. apply Forall_true. intros lane a Ha.
    apply lane_artifacts_Ok in Ha as (s & js & a1 & a2 & a3 & a4 & _ & _ & _ & -> & ? & ? & ? & ?).
    unfold built. repeat constructor; eauto 6.
  - intros HC. by apply compile_listing_Ok in HC as (? & ? & ? & ? & ? & ? & ? & ? & _ & _ & _ & HF & _).
Qed.

(** The first artifact is the canonical encoding of the terms, never empty. *)
Lemma first_artifact d l :
  compile_artifacts d = Ok l ->
  exists a kind lane media content,
    head l = Some a /\ PolicyArtifact_new kind lane media content = Ok a /\ content <> [].
Proof.
  unfold compile_artifacts. destruct (doc_input d) as [i|i].
  - unfold compile_issuance. intros HC. next_in HC t Et. pose proof (materialized_lanes_pos t).
    rewrite seqZ_cons in HC by lia. simpl in HC. next_in HC these Ethese. next_in HC others Eo. injection HC as <-.
    apply lane_artifacts_Ok in Ethese as (s & js & a1 & a2 & a3 & a4 & _ & _ & _ & -> & E1 & _).
    exists a1. do 4 eexists. split; [done|]. split; [exact E1|done].
  - intros HC. apply compile_listing_Ok in HC as (t & o & a1 & ? & ? & ? & ? & ? & _ & Ho & -> & _ & E1).
    exists a1. do 4 eexists. split; [done|]. split; [exact E1|]. unfold ListingArtifacts_new, ListingTerms_canonical_bytes in Ho. res_inv.
    subst o. simpl. subst. done.
Qed.

(** Documents with no supply, or no price, do not compile. *)
Lemma zero_supply_rejected d d' : invalid_issuance_supply d = Some d' -> is_ok (prepare_document d') = false.
Proof.
  destruct d as [v c a n s i|]; intros [= <-]. destruct (prepare_document _) as [p|] eqn:E; [|done].
  apply prepare_document_Ok in E as (h & arts & _ & _ & _ & _ & _ & Ha & _). simpl in Ha.
  unfold compile_artifacts, compile_issuance, issuance_terms in Ha. cbn in Ha. by res_inv.
Qed.

Lemma zero_price_rejected d d' : invalid_listing_price d = Some d' -> is_ok (prepare_document d') = false.
Proof.
  destruct d as [|v c a n s i]; intros [= <-]. destruct (prepare_document _) as [p|] eqn:E; [|done].
  apply prepare_document_Ok in E as (h & arts & _ & _ & _ & _ & _ & Ha & _).
  unfold compile_artifacts in Ha. apply compile_listing_Ok in Ha as (t & _ & _ & _ & _ & _ & _ & _ & Ht & _).
  unfold listing_terms, ListingTerms_validate in Ht. cbn in Ht. by res_inv.
Qed.

(** ** The vectors the compiler runs on itself *)

(** The two pairs of messages whose digests the negative vectors compare. *)
Definition vector_collision (d : PolicyDocument) (p : PreparedDocument) : Prop :=
  (exists b1 b2, document_to_vec d = Ok b1 /\
     document_to_vec (renamed d (doc_name d +:+ " tampered")) = Ok b2 /\ sha256_collision b1 b2) \/
  (exists a c c', head (pd_artifacts p) = Some a /\ hex_decode (pa_content_hex a) = Some c /\
     hex_decode (tamper_hex (pa_content_hex a)) = Some c' /\
     Z.of_nat (length c') <= MAX_ARTIFACT_BYTES /\ sha256_collision c c').
End compiled.

(** JSON keeps strings: documents with equal canonical bytes have one name; and
    the printer has no error for a record of strings and booleans. *)
Class PolicyJsonLaws `{PolicyJson} : Prop := {
  document_to_vec_name d1 d2 b : document_to_vec d1 = Ok b -> document_to_vec d2 = Ok b -> doc_name d1 = doc_name d2;
  run_to_vec_total r : is_ok (run_to_vec r) = true;
}.

Section vectors.
Context `{BitcoinLib} `{TextCodec} `{PolicyLib} `{PolicyJson} `{!HexLaws} `{!PolicyJsonLaws}.

Definition document_vector (d : PolicyDocument) (h : string) : PolicyTestVector :=
  mkPolicyTestVector "negative.document_tamper" (VerifyPolicyHash (renamed d (doc_name d +:+ " tampered")) h) false.
Definition artifact_vector (a : PolicyArtifact) : PolicyTestVector :=
  mkPolicyTestVector "negative.artifact_tamper" (VerifyArtifact (tampered a)) false.

(** The renamed document has the hash of the original only by a collision. *)
Lemma document_vector_passed d h compile :
  policy_hash d = Ok h ->
  vr_passed (run_vector_with_compile (document_vector d h) compile) = false <->
  exists b1 b2, document_to_vec d = Ok b1 /\
    document_to_vec (renamed d (doc_name d +:+ " tampered")) = Ok b2 /\ sha256_collision b1 b2.
Proof.
  unfold policy_hash at 1, jcs. intros Hh. res_inv. subst h. rename r into b1. cbn. unfold policy_hash, jcs.
  destruct (document_to_vec (renamed _ _)) as [b2|e] eqn:E2; cbn; [|split; [done|by intros (?&?&?&?&?)]].
  case_bool_decide as Hd; cbn.
  - split; [intros _|done]. exists b1, b2. split; [done|]. split; [done|]. symmetry in Hd.
    apply sha256_digest_inj in Hd as [->|Hc]; [|done]. exfalso.
    assert (doc_name d = doc_name d +:+ " tampered") as Hn.
    { transitivity (doc_name (renamed d (doc_name d +:+ " tampered"))); [|apply doc_name_renamed].
      by eapply document_to_vec_name. }
    by apply (tampered_name_ne (doc_name d)).
  - split; [done|]. intros (c1 & c2 & Hc1 & Hc2 & [_ Hc]). simplify_eq. exfalso. apply Hd. unfold sha256_digest. congruence.
Qed.

(** The changed artifact validates only by a collision. *)
Lemma artifact_vector_passed a kind lane media content compile :
  PolicyArtifact_new kind lane media content = Ok a -> content <> [] ->
  vr_passed (run_vector_with_compile (artifact_vector a) compile) = false <->
  exists c c', hex_decode (pa_content_hex a) = Some c /\ hex_decode (tamper_hex (pa_content_hex a)) = Some c' /\
    Z.of_nat (length c') <= MAX_ARTIFACT_BYTES /\ sha256_collision c c'.
Proof.
  unfold PolicyArtifact_new. intros HN Hne. res_inv. subst a. cbn. rewrite hex_decode_encode.
  destruct (tamper_hex_changes (hex_encode content)) as [Hch Hlow]; [|apply hex_encode_lower|].
  { rewrite hex_encode_length. destruct content; [done|]. simpl. lia. }
  unfold PolicyArtifact_validate. cbn [tampered pa_content_hex pa_content_digest pa_artifact_id pa_kind pa_lane pa_content_ref].
  destruct (hex_decode (tamper_hex _)) as [c'|] eqn:Ec; cbn [ok_or];
    [|split; [done|by intros (?&?&?&?&?)]]. res_cbn.
  rewrite !bool_decide_true by done. cbn [negb reject_if]. res_cbn.
  split.
  - intros Hp. exists content, c'. split; [done|]. split; [done|].
    destruct (reject_if _ _) as [u|e] eqn:Eg; [|done]. apply reject_if_Ok in Eg. autorewrite with guards in Eg.
    destruct Eg as [Hle Hd]. split; [lia|]. symmetry in Hd. apply sha256_digest_inj in Hd as [<-|Hc]; [|done]. exfalso. apply Hch. symmetry. by apply hex_decode_lower.
  - intros (c & c'' & [= <-] & [= <-] & Hle & [_ Hc]). unfold sha256_digest. rewrite Hc.
    rewrite (bool_decide_true (_ = _)) by done. by rewrite reject_if_pass by guard_tac.
Qed.

Lemma vectors_outcome d p compile :
  prepare_document d = Ok p -> compile d = true ->
  (forall d', invalid_issuance_supply d = Some d' \/ invalid_listing_price d = Some d' -> compile d' = false) ->
  forallb vr_passed ((fun v => run_vector_with_compile v compile) <$> pd_test_vectors p) = true <->
  ~ vector_collision d p.
Proof.
  intros HP Hc Hn. apply prepare_document_Ok in HP as (h & arts & ab & vs & vb & _ & Eh & Ea & _ & _ & Ev & _ & _ & ->).
  destruct (first_artifact _ _ Ea) as (a & kind & lane & media & content & Hh & HN & Hne).
  unfold vectors in Ev. rewrite Hh in Ev. cbn [ok_or mbind result_bind] in Ev. injection Ev as <-.
  assert (forallb vr_passed ((fun v => run_vector_with_compile v compile) <$>
    (match invalid_issuance_supply d with
     | Some i => [mkPolicyTestVector "negative.zero_supply" (CompileDocument i) false] | None => [] end ++
     match invalid_listing_price d with
     | Some i => [mkPolicyTestVector "negative.zero_price" (CompileDocument i) false] | None => [] end)) = true) as Ht.
  { destruct (invalid_issuance_supply d) as [i|] eqn:E1, (invalid_listing_price d) as [j|] eqn:E2; cbn;
      rewrite ?(Hn i), ?(Hn j) by auto; done. }
  cbn [pd_test_vectors]. rewrite !fmap_cons.
  change (mkPolicyTestVector "negative.document_tamper" _ _) with (document_vector d h).
  change (mkPolicyTestVector "negative.artifact_tamper" _ _) with (artifact_vector a). cbn [forallb].
  rewrite Ht, andb_true_r. unfold vr_passed at 1. cbn [run_vector_with_compile tv_input]. rewrite Hc. cbn [tv_expected_accept Bool.eqb andb].
  rewrite andb_true_iff, <- !not_false_iff_true.
  rewrite (document_vector_passed d h compile Eh), (artifact_vector_passed a kind lane media content compile HN Hne).
  unfold vector_collision. cbn [pd_artifacts]. rewrite Hh. split; [|naive_solver].
  intros [H1' H2'] [Hc1|(a' & c & c' & [= <-] & Hc2)]; [done|]. apply H2'. by exists c, c'.
Qed.

(** Compilation with a runner that accepts the document and refuses its
    invalid variants. *)
Lemma compile_with_runner_passes d p compile :
  prepare_document d = Ok p -> compile d = true ->
  (forall d', invalid_issuance_supply d = Some d' \/ invalid_listing_price d = Some d' -> compile d' = false) ->
  is_ok (compile_document_with_runner d (fun v => run_vector_with_compile v compile)) = true <->
  ~ vector_collision d p.
Proof.
  intros HP Hc Hn. rewrite <- (vectors_outcome d p compile HP Hc Hn). split.
  - destruct (compile_document_with_runner _ _) as [b|] eqn:E; [|done]. intros _.
    apply compile_with_runner_Ok in E as (p' & run & HP' & _ & Hall & _). rewrite HP in HP'. by injection HP' as <-.
  - intros Hall. unfold compile_document_with_runner. rewrite HP. cbn. unfold ValidationRun_new at 1, jcs.
    pose proof (run_to_vec_total (mkValidationRunDigest POLICY_COMPILER_VERSION (pd_policy_hash p)
      (pd_artifact_set_digest p) (pd_vector_set_digest p) ((fun v => run_vector_with_compile v compile) <$> pd_test_vectors p)
      (forallb vr_passed ((fun v => run_vector_with_compile v compile) <$> pd_test_vectors p)))) as Hr.
    destruct (run_to_vec _) as [b|]; [|done]. cbn. by rewrite Hall.
Qed.

Lemma invalid_variants_rejected d d' :
  invalid_issuance_supply d = Some d' \/ invalid_listing_price d = Some d' -> is_ok (prepare_document d') = false.
Proof. intros [Hi|Hi]; [by eapply zero_supply_rejected|by eapply zero_price_rejected]. Qed.

Lemma compile_not_prepared d runner :
  is_ok (prepare_document d) = false -> is_ok (compile_document_with_runner d runner) = false.
Proof. unfold compile_document_with_runner. by destruct (prepare_document d). Qed.

Lemma compile_for_vector_passes d p :
  prepare_document d = Ok p -> is_ok (compile_document_for_vector d) = true <-> ~ vector_collision d p.
Proof.
  intros HP. apply compile_with_runner_passes; [done|by rewrite HP|]. apply invalid_variants_rejected.
Qed.

(** A bundle is compiled only if its document compiles for the first vector. *)
Lemma compiled_for_vector d b : compile_document d = Ok b -> is_ok (compile_document_for_vector d) = true.
Proof.
  intros HC. apply compile_with_runner_Ok in HC as (p & run & HP & _ & Hall & _).
  apply prepare_document_Ok in HP as (h & arts & ab & vs & vb & _ & _ & _ & _ & _ & Ev & _ & _ & ->).
  unfold vectors in Ev. next_in Ev a Ea. injection Ev as <-. cbn [pd_test_vectors] in Hall.
  rewrite fmap_cons in Hall. cbn [forallb] in Hall. apply andb_true_iff in Hall as [Hv _].
  unfold run_vector in Hv. cbn in Hv. by destruct (is_ok (compile_document_for_vector d)).
Qed.
End vectors.
