(* ===== verification/PolicyProperties.v ===== *)
(** * Properties of the policy registry

    Inspection accepts exactly the canonical bytes of compiled bundles; the
    compiler accepts exactly the documents it can prepare; what the artifacts
    of an issuance hold; and what an approved activation commits to. *)

From Stdlib Require Import ZArith Lia.
From S2P Require Import Prelude Bitcoin IssuanceTerms IssuerState Pow IssuerScript MintVerify Trading Concrete Text PolicyDocument PolicyCompile PolicyInv.
From stdpp Require Import list.
Local Open Scope string_scope.
Local Open Scope list_scope.
Local Open Scope Z_scope.

Section inspection.
Context `{BitcoinLib} `{TextCodec} `{PolicyLib} `{PolicyJson} `{!HexLaws}.

Lemma built_validates a : built a -> is_ok (PolicyArtifact_validate a) = true.
Proof. intros (kind & lane & media & content & HN). by rewrite (PolicyArtifact_new_validates _ _ _ _ _ HN). Qed.

Lemma validate_artifacts_built l : Forall built l -> validate_artifacts l = Ok tt.
Proof.
  induction 1 as [|a l Ha _ IH]; [done|]. simpl. apply built_validates in Ha.
  by destruct (PolicyArtifact_validate a).
Qed.

(** Everything a compiled bundle satisfies of its own accord. *)
Lemma compiled_bundle_facts d b :
  compile_document d = Ok b ->
  pb_document b = d /\ validate_profile d = Ok tt /\ bundle_identity_differs b = Ok false /\
  validate_artifacts (pb_artifacts b) = Ok tt /\
  (exists ab, artifacts_to_vec (pb_artifacts b) = Ok ab /\ Z.of_nat (length ab) <= MAX_ARTIFACT_SET_BYTES /\
     sha256_digest ab = pb_artifact_set_digest b) /\
  (exists vb, vectors_to_vec (pb_test_vectors b) = Ok vb /\ Z.of_nat (length vb) <= MAX_VECTOR_SET_BYTES /\
     sha256_digest vb = pb_vector_set_digest b) /\
  run_vector <$> pb_test_vectors b = run_results (pb_validation_run b) /\
  ValidationRun_validate (pb_validation_run b) = Ok tt /\
  run_policy_hash (pb_validation_run b) = pb_policy_hash b /\
  run_artifact_set_digest (pb_validation_run b) = pb_artifact_set_digest b /\
  run_vector_set_digest (pb_validation_run b) = pb_vector_set_digest b.
Proof.
  intros HC. apply compile_with_runner_Ok in HC as (p & run & HP & Hr & Hall & ->).
  pose proof (ValidationRun_new_fields _ _ _ _ _ Hr) as (E1 & E2 & E3 & E4 & _).
  pose proof (ValidationRun_validate_new _ _ _ _ _ Hr Hall) as Hv.
  apply prepare_document_Ok in HP as (h & arts & ab & vs & vb & Hp & Eh & Ea & Eab & Hab & Ev & Evb & Hvb & ->).
  cbn in *. split_and!; try done; [|apply validate_artifacts_built; by eapply (compile_artifacts_built d)|by exists ab|by exists vb].
  unfold bundle_identity_differs. cbn. rewrite Eh. cbn. by rewrite (bool_decide_true (POLICY_COMPILER_VERSION = _)), (bool_decide_true (h = _)).
Qed.

(** C29: [inspect_bundle] accepts exactly the stored form of compiled policies.
    Bytes are accepted, with bundle [b], if and only if they are within the
    size limit, parse to [b], are the canonical JSON of [b], and [b] is what
    compiling its own document gives: artifacts, digests, test vectors, their
    results and the run digest are all those of a fresh compilation. *)
Theorem inspect_bundle_exact raw b :
  inspect_bundle raw = Ok b <->
  Z.of_nat (length raw) <= MAX_BUNDLE_BYTES /\ bundle_from_slice raw = Ok b /\ to_bytes b = Ok raw /\
  compile_document (pb_document b) = Ok b.
Proof.
  unfold to_bytes. split.
  - unfold inspect_bundle. intros HI. next_in HI v1 E1. next_in HI b' Eb. next_in HI can Ec. next_in HI v2 E2.
    next_in HI v3 Epr. next_in HI df Ed. next_in HI v4 Edf. next_in HI ab Eab. next_in HI v5 E5. next_in HI v6 E6.
    next_in HI vb Evb. next_in HI v7 E7. next_in HI v8 E8. next_in HI v9 E9. next_in HI v10 E10. next_in HI e Ee.
    next_in HI v11 E11. next_in HI v12 E12. next_in HI v13 E13. injection HI as ->.
    rewrite Ec. unfold bundle_identity_differs in Ed. res_inv. subst df. split_and!; [done|done|by f_equal|].
    rewrite Ee. f_equal. apply compile_with_runner_Ok in Ee as (p & run & HP & _ & _ & ->).
    apply prepare_document_Ok in HP as (h & arts & ab2 & vs & vb2 & _ & Eh & _ & _ & _ & _ & _ & _ & ->).
    case_match eqn:Eid; [done|]. autorewrite with guards in Eid. res_inv. rewrite Eh in *. cbn in *. simplify_eq.
    destruct b; cbn in *. congruence.
  - intros (Hl & Hp & Hj & HC). pose proof (compiled_bundle_facts _ _ HC) as
      (_ & Hpr & Hid & Hva & (ab & Hab & Hal & Had) & (vb & Hvb & Hvl & Hvd) & Hrs & Hrv & F1 & F2 & F3).
    unfold inspect_bundle. rewrite reject_if_pass by guard_tac. rewrite Hp. res_cbn. rewrite Hj. res_cbn.
    rewrite bool_decide_true by done. cbn [negb reject_if]. res_cbn. rewrite Hpr, Hid. cbn [negb reject_if].
    unfold jcs. res_cbn. rewrite Hab. res_cbn. rewrite (reject_if_pass (_ || _)) by guard_tac. res_cbn.
    rewrite Hva. res_cbn. rewrite Hvb. res_cbn. rewrite (reject_if_pass (_ || _)) by guard_tac. res_cbn.
    rewrite (bool_decide_true (_ <$> _ = _)) by done. cbn [negb reject_if]. res_cbn. rewrite Hrv. res_cbn.
    rewrite (bool_decide_true (raw = raw)), HC by done. cbn [negb reject_if]. res_cbn. rewrite reject_if_pass by guard_tac.
    by res_pass.
Qed.
End inspection.

Section compilation.
Context `{BitcoinLib} `{TextCodec} `{PolicyLib} `{PolicyJson} `{!HexLaws} `{!PolicyJsonLaws}.

(** The compiler accepts exactly the documents it can prepare (profile,
    terms, artifacts and size limits in order): the test vectors it runs on
    itself, one of which compiles the document again, reject nothing else.  The
    only exception is a SHA-256 collision between the canonical document and
    its renamed copy, or between the first artifact and the same artifact with
    its last digit changed, and then compilation does fail. *)
Theorem compile_accepts_exactly d :
  is_ok (compile_document d) = true <-> exists p, prepare_document d = Ok p /\ ~ vector_collision d p.
Proof.
  split.
  - intros Hok. destruct (compile_document d) as [b|] eqn:HC; [|done]. pose proof (compiled_for_vector _ _ HC) as Hv.
    apply compile_with_runner_Ok in HC as (p & _ & HP & _). exists p. split; [done|]. by apply compile_for_vector_passes.
  - intros (p & HP & Hn). apply (compile_with_runner_passes d p); [done|by apply (compile_for_vector_passes d p)| |done].
    intros d' Hd. by apply compile_not_prepared, (invalid_variants_rejected d).
Qed.
End compilation.

(** ** Contents of the artifacts of an issuance *)

Lemma lookup_concat_uniform {A} (n : nat) (ls : list (list A)) k j :
  Forall (fun l => length l = n) ls -> (j < n)%nat -> concat ls !! (n * k + j)%nat = l ← ls !! k; l !! j.
Proof.
  intros HF Hj. revert k. induction HF as [|l ls Hl HF IH]; intros k; [done|]. destruct k as [|k]; simpl.
  - rewrite lookup_app_l by lia. by replace (n * 0 + j)%nat with j by lia.
  - rewrite lookup_app_r by lia. rewrite <- IH. f_equal. lia.
Qed.

Section contents.
Context `{BitcoinLib} `{TextCodec} `{PolicyLib} `{PolicyJson} `{!HexLaws}.

Lemma hex32_length s e b : hex32 s e = Ok b -> length b = 32%nat.
Proof. unfold hex32. intros Hh. next_in Hh v Ev. next_in Hh u Eu. res_inv. by case_match; simplify_eq. Qed.

Lemma issuance_terms_wf i t :
  is_u8 (ii_target_prefix i) -> is_u32 (ii_total_supply i) -> is_u8 (ii_lane_count i) ->
  issuance_terms i = Ok t ->
  IssuanceTerms_wf t /\ it_total_supply t = ii_total_supply i /\ it_target_prefix t = ii_target_prefix i.
Proof.
  intros Hp Hs Hl. unfold issuance_terms. intros HT. next_in HT iid Eid. next_in HT salt Esalt. next_in HT md Emd.
  next_in HT v1 E1. next_in HT v2 E2. next_in HT v3 E3. next_in HT rule Er. injection HT as <-.
  apply hex32_length in Eid, Esalt. apply reject_if_Ok in E1. rewrite Z.ltb_ge in E1.
  unfold IssuanceTerms_wf, MAX_METADATA_BYTES in *. cbn. split_and!; try done. unfold fits. lia.
Qed.

Lemma compile_lanes_lookup terms l lane :
  compile_lanes terms (seqZ 0 (materialized_lanes terms)) = Ok l -> 0 <= lane < materialized_lanes terms ->
  exists a, lane_artifacts terms lane = Ok a /\
    forall j, (j < 4)%nat -> l !! (4 * Z.to_nat lane + j)%nat = a !! j.
Proof.
  intros HC Hl. apply compile_lanes_Ok in HC as (ls & -> & HF).
  destruct (Forall2_lookup_l _ _ _ (Z.to_nat lane) lane HF) as (a & Ha & Hla); [apply lookup_seqZ; lia|].
  exists a. split; [done|]. intros j Hj. rewrite (lookup_concat_uniform 4); [by rewrite Ha| |done].
  eapply Forall2_Forall_r; [exact HF|]. apply Forall_true. intros x y Hy.
  by apply lane_artifacts_Ok in Hy as (? & ? & ? & ? & ? & ? & _ & _ & _ & -> & _).
Qed.

(** A compiled issuance holds what the issuance crate issues.  The terms
    read from the document are well formed; the lanes share out exactly the
    supply the document asks for; and for every lane the artifacts with the
    numbers [4 * lane], [4 * lane + 2] and [4 * lane + 3] validate to the
    canonical terms, the issuer tapscript and the Taproot output key of the
    lane's initial state, a script that parses back to that state. *)
Theorem compiled_issuance_artifacts v c alg n name i b :
  is_u8 (ii_target_prefix i) -> is_u32 (ii_total_supply i) -> is_u8 (ii_lane_count i) ->
  compile_document (Issuance v c alg n name i) = Ok b ->
  exists terms, issuance_terms i = Ok terms /\ IssuanceTerms_wf terms /\
    sumZ (lane_supply terms <$> lane_list terms) = ii_total_supply i /\
    forall lane, 0 <= lane < materialized_lanes terms ->
      exists s a1 a3 a4,
        s = mkIssuerState (terms_hash terms) lane 0 (lane_supply terms lane) (ii_target_prefix i) /\
        pb_artifacts b !! (4 * Z.to_nat lane)%nat = Some a1 /\
        PolicyArtifact_validate a1 = Ok (IssuanceTerms_canonical_bytes terms) /\
        pb_artifacts b !! (4 * Z.to_nat lane + 2)%nat = Some a3 /\
        PolicyArtifact_validate a3 = Ok (issuer_script s) /\ parse_issuer_script (issuer_script s) = Ok (Some s) /\
        pb_artifacts b !! (4 * Z.to_nat lane + 3)%nat = Some a4 /\
        PolicyArtifact_validate a4 = Ok (issuer_output_key s).
Proof.
  intros Hp Hs Hl HC. apply compile_with_runner_Ok in HC as (p & run & HP & _ & _ & ->).
  apply prepare_document_Ok in HP as (h & arts & ab & vs & vb & _ & _ & Ea & _ & _ & _ & _ & _ & ->). cbn.
  unfold compile_artifacts, compile_issuance in Ea. cbn [doc_input] in Ea. next_in Ea terms Et.
  destruct (issuance_terms_wf i terms Hp Hs Hl Et) as (Hw & Hsup & Hpre). exists terms. split; [done|]. split; [done|].
  split; [rewrite <- Hsup; by apply lane_supply_partition|]. intros lane Hlane.
  destruct (compile_lanes_lookup _ _ _ Ea Hlane) as (l & Hll & Hlook).
  apply lane_artifacts_Ok in Hll as (s & js & a1 & a2 & a3 & a4 & Hi & Hparse & _ & -> & E1 & _ & E3 & E4).
  apply IssuerState_initial_Ok in Hi as (_ & _ & Hst). exists s, a1, a3, a4. split; [by rewrite Hst, Hpre|].
  pose proof (Hlook 0%nat ltac:(lia)) as L0. rewrite Nat.add_0_r in L0. split; [done|].
  split; [by eapply PolicyArtifact_new_validates|]. split; [by rewrite Hlook by lia|].
  split; [by eapply PolicyArtifact_new_validates|]. split; [done|]. split; [by rewrite Hlook by lia|].
  by eapply PolicyArtifact_new_validates.
Qed.
End contents.

(** ** Activation *)

Section activation.
Context `{BitcoinLib} `{TextCodec} `{PolicyLib} `{PolicyJson} `{ActivationJson}.
Context `{!HexLaws} `{!BitcoinLaws _} `{!ActivationJsonLaws}.

Lemma compiled_digests_valid d b :
  compile_document d = Ok b ->
  valid_sha256 (pb_policy_hash b) = true /\ valid_sha256 (pb_artifact_set_digest b) = true /\
  valid_sha256 (run_run_digest (pb_validation_run b)) = true.
Proof.
  intros HC. apply compile_with_runner_Ok in HC as (p & run & HP & Hr & _ & ->).
  apply prepare_document_Ok in HP as (h & arts & ab & vs & vb & _ & Eh & _ & _ & _ & _ & _ & _ & ->). cbn in *.
  unfold policy_hash in Eh. unfold ValidationRun_new in Hr. res_inv. subst h run. cbn.
  split_and!; apply sha256_digest_valid.
Qed.

Lemma approval_digest_binds p q b bq :
  ActivationProposal_verify p = Ok tt -> ActivationProposal_verify q = Ok tt ->
  safe_input (proposal_input p) -> safe_input (proposal_input q) ->
  approval_to_vec (mkApprovalDigest ACTIVATION_DOMAIN (proposal_input p)) = Ok b ->
  approval_to_vec (mkApprovalDigest ACTIVATION_DOMAIN (proposal_input q)) = Ok bq ->
  ap_approval_digest q = ap_approval_digest p -> q = p \/ sha256_collision b bq.
Proof.
  rewrite !ActivationProposal_verify_iff, !ActivationProposal_new_Ok.
  intros (_ & _ & _ & _ & _ & _ & _ & b1 & Hb1 & _ & Hd1) (_ & _ & _ & _ & _ & _ & _ & b2 & Hb2 & _ & Hd2) Hs1 Hs2 E1 E2 Hd.
  rewrite Hb1 in E1. rewrite Hb2 in E2. injection E1 as ->. injection E2 as ->. rewrite Hd1, Hd2 in Hd. symmetry in Hd.
  apply sha256_digest_inj in Hd as [<-|Hc]; [left|by right].
  pose proof (approval_to_vec_inj (mkApprovalDigest _ _) (mkApprovalDigest _ _) _ Hs1 Hs2 Hb1 Hb2) as Hi. apply (f_equal ad_input) in Hi. cbn [ad_input] in Hi. apply proposal_input_inj; congruence.
Qed.

(** A compiled policy can be activated, and its approval digest binds the
    activation.  A request that quotes the policy hash, artifact set digest and
    run digest of a compiled bundle, with nonzero epochs, the fixed profile and
    an expiry after its creation, makes a proposal that verifies; and any other
    proposal that verifies with the same approval digest is that proposal in
    every field, unless the two canonical inputs are a SHA-256 collision. *)
Theorem compiled_policy_activates d b i :
  compile_document d = Ok b ->
  ai_policy_hash i = pb_policy_hash b -> ai_artifact_set_digest i = pb_artifact_set_digest b ->
  ai_validation_run_digest i = run_run_digest (pb_validation_run b) ->
  ai_chain_profile i = INQUISITION_SIGNET_PROFILE -> ai_wallet_epoch i <> 0 -> ai_signer_epoch i <> 0 ->
  ai_created_at i < ai_expires_at i -> safe_input i ->
  exists p, ActivationProposal_new i = Ok p /\ proposal_input p = i /\ ActivationProposal_verify p = Ok tt /\
    forall q bp bq, ActivationProposal_verify q = Ok tt -> safe_input (proposal_input q) ->
      approval_to_vec (mkApprovalDigest ACTIVATION_DOMAIN i) = Ok bp ->
      approval_to_vec (mkApprovalDigest ACTIVATION_DOMAIN (proposal_input q)) = Ok bq ->
      ap_approval_digest q = ap_approval_digest p -> q = p \/ sha256_collision bp bq.
Proof.
  intros HC E1 E2 E3 Hprof Hw Hs Ht Hsafe. destruct (compiled_digests_valid _ _ HC) as (V1 & V2 & V3).
  pose proof (approval_to_vec_total (mkApprovalDigest ACTIVATION_DOMAIN i) Hsafe) as Hok.
  destruct (approval_to_vec (mkApprovalDigest ACTIVATION_DOMAIN i)) as [bp|] eqn:Hbp; [|done].
  set (p := mkActivationProposal (ai_activation_id i) (ai_binding_id i) (ai_policy_hash i) (ai_wallet_id i)
    (ai_wallet_epoch i) (ai_signer_set_id i) (ai_signer_epoch i) (ai_chain_profile i) (ai_artifact_set_digest i)
    (ai_validation_run_digest i) (ai_expires_at i) (ai_created_at i) (sha256_digest bp)).
  assert (proposal_input p = i) as Hi by by destruct i.
  assert (ActivationProposal_new i = Ok p) as HN.
  { apply ActivationProposal_new_Ok. rewrite E1, E2, E3. split_and!; try done. by exists bp. }
  assert (ActivationProposal_verify p = Ok tt) as Hv by (apply ActivationProposal_verify_iff; by rewrite Hi).
  exists p. split_and!; [done..|]. intros q bp' bq Hq Hsq [= <-] Hbq Hd.
  apply (approval_digest_binds p q bp bq); try done; by rewrite Hi.
Qed.
End activation.

(** ** A concrete policy *)

(** The hex crate's decoder: either case, two digits per byte. *)
Definition hex_value (b : byte) : option Z :=
  let n := b2z b in
  if (48 <=? n) && (n <=? 57) then Some (n - 48)
  else if (97 <=? n) && (n <=? 102) then Some (n - 87)
  else if (65 <=? n) && (n <=? 70) then Some (n - 55)
  else None.
Fixpoint decode_pairs (b : bytes) : option bytes :=
  match b with
  | [] => Some []
  | h :: l :: rest => hv ← hex_value h; lv ← hex_value l; r ← decode_pairs rest; Some (z2b (16 * hv + lv) :: r)
  | _ => None
  end.

Definition hex_lib : BitcoinLib := {|
  sha256 := @sha256 toy_lib; hex_decode s := decode_pairs (ascii_bytes s);
  xonly_valid := @xonly_valid toy_lib; schnorr_sig_valid := @schnorr_sig_valid toy_lib;
  verify_schnorr := @verify_schnorr toy_lib; TaprootSpendInfo := @TaprootSpendInfo toy_lib;
  taproot_finalize := @taproot_finalize toy_lib; si_output_key := @si_output_key toy_lib;
  si_control_block := @si_control_block toy_lib; ControlBlock := @ControlBlock toy_lib;
  control_decode := @control_decode toy_lib; verify_taproot_commitment := @verify_taproot_commitment toy_lib;
  compute_txid := @compute_txid toy_lib; tx_serialize := @tx_serialize toy_lib;
  tx_deserialize := @tx_deserialize toy_lib; txout_serialize := @txout_serialize toy_lib;
  key_spend_sighash := @key_spend_sighash toy_lib; script_spend_sighash := @script_spend_sighash toy_lib;
  push_slice := @push_slice toy_lib; push_int := @push_int toy_lib;
|}.

Lemma hex_lib_laws : BitcoinLaws hex_lib.
Proof. destruct toy_laws. constructor; assumption. Qed.

Definition real_hex : TextCodec := {|
  hex_encode := encode_hex; b64url_encode := String.string_of_list_byte; base64_decode s := Some (ascii_bytes s) |}.

Lemma hex_digits_of_byte (x : byte) :
  let h := hex_digit (Z.shiftr (b2z x) 4) in let l := hex_digit (Z.land (b2z x) 0x0f) in
  is_lower_hex h = true /\ is_lower_hex l = true /\
  (hv ← hex_value h; lv ← hex_value l; Some (z2b (16 * hv + lv))) = Some x.
Proof. by destruct x; vm_compute. Qed.

Lemma hex_value_lower (h : byte) :
  is_lower_hex h = true -> forall v, hex_value h = Some v -> 0 <= v < 16 /\ hex_digit v = h.
Proof. destruct h; vm_compute; intros Hd v Hv; try discriminate Hd; injection Hv as <-; repeat split; congruence. Qed.

Lemma hex_pair_lower h l hv lv :
  is_lower_hex h = true -> is_lower_hex l = true -> hex_value h = Some hv -> hex_value l = Some lv ->
  let x := z2b (16 * hv + lv) in hex_digit (Z.shiftr (b2z x) 4) = h /\ hex_digit (Z.land (b2z x) 0x0f) = l.
Proof.
  intros Hh Hl Eh El. destruct (hex_value_lower h Hh hv Eh) as [R1 <-], (hex_value_lower l Hl lv El) as [R2 <-].
  cbv zeta. rewrite b2z_z2b, Z.mod_small by lia. split; f_equal.
  - rewrite Z.shiftr_div_pow2 by lia. change (2 ^ 4) with 16. rewrite Z.add_comm, Z.mul_comm, Z.div_add, Z.div_small; lia.
  - change 0x0f with (Z.ones 4). rewrite Z.land_ones by lia. change (2 ^ 4) with 16.
    rewrite Z.add_comm, Z.mul_comm, Z.mod_add, Z.mod_small; lia.
Qed.

#[local] Existing Instance hex_lib.
#[local] Existing Instance hex_lib_laws.
#[local] Existing Instance real_hex.

Lemma ascii_bytes_of_bytes b : ascii_bytes (String.string_of_list_byte b) = b.
Proof. apply String.list_byte_of_string_of_list_byte. Qed.

Lemma decode_pairs_encode b :
  decode_pairs (ascii_bytes (encode_hex b)) = Some b /\ forallb is_lower_hex (ascii_bytes (encode_hex b)) = true.
Proof.
  unfold encode_hex. rewrite ascii_bytes_of_bytes. induction b as [|x b [IH1 IH2]]; [done|].
  rewrite fmap_cons. cbn [concat app decode_pairs forallb]. rewrite IH1, IH2.
  destruct (hex_digits_of_byte x) as (-> & -> & Hx). split; [|done]. revert Hx.
  repeat (destruct (hex_value _); cbn; try discriminate). congruence.
Qed.

Lemma decode_pairs_lower b x :
  decode_pairs b = Some x -> forallb is_lower_hex b = true ->
  concat ((fun y => [hex_digit (Z.shiftr (b2z y) 4); hex_digit (Z.land (b2z y) 0x0f)]) <$> x) = b.
Proof.
  revert b x. fix IH 1. intros [|h [|l b]] x; simpl; [by intros [= <-]|done|].
  intros Hd Hx. destruct (hex_value h) as [hv|] eqn:Eh; [|done]. cbn in Hd.
  destruct (hex_value l) as [lv|] eqn:El; [|done]. cbn in Hd. destruct (decode_pairs b) as [r|] eqn:Er; [|done].
  cbn in Hd. injection Hd as <-. rewrite !andb_true_iff in Hx. destruct Hx as (Hh & Hl & Hb).
  rewrite fmap_cons. cbn [concat app]. rewrite (IH b r Er Hb).
  by destruct (hex_pair_lower h l hv lv Hh Hl Eh El) as [-> ->].
Qed.

Lemma hex_lib_hex : @HexLaws hex_lib real_hex.
Proof.
  constructor; cbn.
  - intros b. apply decode_pairs_encode.
  - intros b. apply decode_pairs_encode.
  - apply encode_hex_length.
  - intros s b Hd Hl. apply ascii_bytes_inj. unfold encode_hex. rewrite ascii_bytes_of_bytes. by apply decode_pairs_lower.
Qed.
#[local] Existing Instance hex_lib_hex.

(** Texts in the place of JSON: a document is its name, a list its ids, a run
    and an approval the texts and numbers they hold. *)
Definition sample_policy_lib : PolicyLib := {|
  base64_standard_decode s := Ok (ascii_bytes s); hex_error_text _ := "invalid hex";
  txid_from_str s := Ok (ascii_bytes s); xonly_from_str s := Ok (ascii_bytes s) |}.
Definition policy_json (parsed : option PolicyBundle) : PolicyJson := {|
  document_from_slice _ := Err "unused";
  bundle_from_slice _ := ok_or parsed "no bundle";
  document_to_vec d := Ok (ascii_bytes (doc_name d));
  artifacts_to_vec l := Ok (concat (ascii_bytes ∘ pa_artifact_id <$> l));
  vectors_to_vec l := Ok (concat (ascii_bytes ∘ tv_vector_id <$> l));
  run_to_vec r := Ok (ascii_bytes (rd_policy_hash r));
  bundle_to_vec b := Ok (ascii_bytes (pb_policy_hash b));
  state_to_vec s := Ok (is_terms_hash s);
|}.
#[local] Existing Instance sample_policy_lib.

Lemma policy_json_laws parsed : @PolicyJsonLaws (policy_json parsed).
Proof. constructor; cbn; [|done]. intros d1 d2 b [= <-] [= He]. by apply ascii_bytes_inj. Qed.

Definition sixty_four (c : byte) : string := String.string_of_list_byte (replicate 64 c).
(** The example of docs/policies/examples/issuance-v1.json, on two lanes. *)
Definition sample_issuance : IssuanceInput :=
  mkIssuanceInput (sixty_four x34) 1 4 InputShardedLanes 2 (sixty_four x37) "demo item".
Definition sample_document : PolicyDocument :=
  Issuance 1 POLICY_CANONICALIZATION DigestSha256 (mkNetworkProfile PolicySignet INQUISITION_SIGNET_PROFILE OpCatRequired)
    "example OP_CAT issuance" sample_issuance.
Definition sample_compiled : result CompileError PolicyBundle := compile_document (H2:=policy_json None) sample_document.
Definition sample_bundle : PolicyBundle :=
  default (mkPolicyBundle 0 "" sample_document "" [] "" [] "" (mkValidationRun "" "" "" "" [] false ""))
    (result_ok sample_compiled).

Example sample_compiles : is_ok sample_compiled = true /\ length (pb_artifacts sample_bundle) = 8%nat /\
  length (pb_test_vectors sample_bundle) = 4%nat.
Proof. by vm_compute. Qed.

Definition sample_json : PolicyJson := policy_json (Some sample_bundle).
Definition sample_json_laws : @PolicyJsonLaws sample_json := policy_json_laws _.
#[local] Existing Instance sample_json.
#[local] Existing Instance sample_json_laws.

Lemma sample_bundle_compiled : compile_document sample_document = Ok sample_bundle.
Proof. by vm_compute. Qed.

Lemma inspect_bundle_exact_witness :
  inspect_bundle (ascii_bytes (pb_policy_hash sample_bundle)) = Ok sample_bundle.
Proof.
  apply (inspect_bundle_exact (ascii_bytes (pb_policy_hash sample_bundle)) sample_bundle).
  split_and!; [by vm_compute|done|done|exact sample_bundle_compiled].
Defined.

Lemma compile_accepts_exactly_witness :
  exists p, prepare_document sample_document = Ok p /\ ~ vector_collision sample_document p.
Proof. apply (compile_accepts_exactly sample_document). rewrite sample_bundle_compiled. done. Defined.

Lemma compiled_issuance_artifacts_witness :
  exists terms, issuance_terms sample_issuance = Ok terms /\ sumZ (lane_supply terms <$> lane_list terms) = 4.
Proof.
  destruct (compiled_issuance_artifacts 1 POLICY_CANONICALIZATION DigestSha256
    (mkNetworkProfile PolicySignet INQUISITION_SIGNET_PROFILE OpCatRequired) "example OP_CAT issuance" sample_issuance sample_bundle)
    as (terms & Ht & _ & Hsum & _); [by vm_compute|by vm_compute|by vm_compute|exact sample_bundle_compiled|].
  exists terms. split; [exact Ht|exact Hsum].
Defined.

(** An injective text of an approval: the digits of its code number. *)
Fixpoint digits_of (p : positive) : bytes :=
  match p with xH => [x01] | xO q => x00 :: digits_of q | xI q => x02 :: digits_of q end.
Definition approval_fields (a : ApprovalDigest) :=
  let i := ad_input a in
  (ad_domain a, (ai_activation_id i, ai_binding_id i, ai_policy_hash i, ai_wallet_id i, ai_wallet_epoch i),
   (ai_signer_set_id i, ai_signer_epoch i, ai_chain_profile i, ai_artifact_set_digest i),
   (ai_validation_run_digest i, ai_expires_at i, ai_created_at i)).
Definition sample_approval_json : ActivationJson := {|
  approval_to_vec a := Ok (digits_of (encode (approval_fields a))) |}.
#[local] Existing Instance sample_approval_json.

Lemma digits_of_inj p q : digits_of p = digits_of q -> p = q.
Proof.
  revert q. induction p as [p IH|p IH|]; intros [q|q|]; simpl; intros Hd; try done; injection Hd as Hd;
    try (by f_equal; apply IH); by (destruct p + destruct q).
Qed.
Lemma sample_approval_laws : @ActivationJsonLaws sample_approval_json.
Proof.
  constructor; [done|]. intros [d1 []] [d2 []] b _ _ [= <-] [= He]. apply digits_of_inj, (inj encode) in He.
  unfold approval_fields in He. cbn in He. by simplify_eq.
Qed.
#[local] Existing Instance sample_approval_laws.

Definition sample_activation : ActivationProposalInput :=
  mkActivationProposalInput (replicate 16 x01) (replicate 16 x02) (pb_policy_hash sample_bundle) (replicate 16 x03) 1
    (replicate 16 x04) 1 INQUISITION_SIGNET_PROFILE (pb_artifact_set_digest sample_bundle)
    (run_run_digest (pb_validation_run sample_bundle)) 1800000000 1700000000.

Lemma compiled_policy_activates_witness :
  exists p, ActivationProposal_new sample_activation = Ok p /\ ActivationProposal_verify p = Ok tt.
Proof.
  destruct (compiled_policy_activates sample_document sample_bundle sample_activation sample_bundle_compiled)
    as (p & HN & _ & HV & _); [done..| |].
  { unfold safe_input, safe_integer. cbn. lia. }
  exists p. split; [exact HN|exact HV].
Defined.
