(* ===== verification/PolicyStorage.v ===== *)
(** * Stored policies
      (src/crates/wallet-storage/src/policy.rs)

    Compiled policy bundles and activation proposals in the wallet database.
    Bundles are inspected before they are written and never change; a proposal
    is only ever stored as pending.  The canonical JSON of the rows is an
    interface next to [PolicyJson]. *)

From Stdlib Require Import ZArith Lia.
From S2P Require Import Prelude Bitcoin Text Effects ChainDomain Personal StorageModels WalletDb PolicyDocument PolicyCompile.
From stdpp Require Import list gmap strings.
Local Open Scope string_scope.
Local Open Scope list_scope.
Local Open Scope Z_scope.

Inductive PolicyStoreOutcome := PolicyInserted | PolicyAlreadyPresent.
Inductive ActivationStatus := ActivationPending | ActivationExpired | ActivationInvalidatedByRecovery.

(** serde_jcs::to_vec of a vector's input and of the results of a run. *)
Class PolicyRowsJson := {
  input_to_vec : VectorInput -> result string bytes;
  results_to_vec : list VectorResult -> result string bytes;
}.

(** [Display for CompileError] *)
Definition CompileError_display (e : CompileError) : string :=
  match e with
  | InvalidJson why => "policy JSON is invalid or non-strict: " +:+ why
  | UnsupportedProfile why => "policy profile is unsupported: " +:+ why
  | InvalidIssuance why => "issuance input is invalid: " +:+ why
  | InvalidListing why => "fixed-price listing input is invalid: " +:+ why
  | LimitExceeded what => "policy or compiled content exceeds a fixed size limit: " +:+ what
  | PolicyHashMismatch => "policy hash does not match the canonical document"
  | ArtifactMismatch => "compiled artifact content or digest does not match"
  | ArtifactSetMismatch => "artifact-set digest does not match"
  | VectorMismatch => "test-vector digest or execution result does not match"
  | ValidationRunMismatch => "validation run does not bind the compiled policy and results"
  | NonCanonicalBundle => "bundle bytes are not canonical JCS"
  end.
Definition invalid_stored {A} (r : result CompileError A) : result StorageError A :=
  map_err (fun e => ST_InvalidStoredValue (CompileError_display e)) r.
Definition invalid_printed {A} (r : result string A) : result StorageError A := map_err ST_InvalidStoredValue r.

Record PreparedPolicyBundle := mkPreparedPolicyBundle {
  pq_bundle : PolicyBundle;
  pq_canonical_document : bytes;
  pq_artifact_contents : list bytes;
  pq_vector_inputs : list (bytes * string);
  pq_results_jcs : bytes;
}.

Section policy_storage.
Context `{UuidText} `{BuildInfo} `{BitcoinLib} `{TextCodec} `{PolicyLib} `{PolicyJson} `{PolicyRowsJson} `{ActivationJson}.

Definition prepare_policy_bundle (policy_hash : string) (canonical_bundle : bytes)
    : result StorageError PreparedPolicyBundle :=
  bundle ← invalid_stored (inspect_bundle canonical_bundle);
  _ ← reject_if (negb (bool_decide (pb_policy_hash bundle = policy_hash)))
        (ST_InvalidStoredValue "claimed policy hash does not match bundle");
  canonical_document ← invalid_printed (document_to_vec (pb_document bundle));
  artifact_contents ← mapM_result (fun a => invalid_stored (PolicyArtifact_validate a)) (pb_artifacts bundle);
  vector_inputs ← mapM_result (fun v => input_jcs ← invalid_printed (input_to_vec (tv_input v));
                                        Ok (input_jcs, sha256_digest input_jcs)) (pb_test_vectors bundle);
  results_jcs ← invalid_printed (results_to_vec (run_results (pb_validation_run bundle)));
  Ok (mkPreparedPolicyBundle bundle canonical_document artifact_contents vector_inputs results_jcs).

(** INSERT with a primary key. *)
Definition insert_key {K V} `{Countable K} (k : K) (v : V) (t : gmap K V) : result StorageError (gmap K V) :=
  _ ← reject_if (bool_decide (is_Some (t !! k))) ST_Sqlite;
  Ok (<[k := v]> t).

Definition insert_artifacts (hash : string) (t : gmap (string * string) PolicyArtifactRow)
    (rows : list (PolicyArtifact * bytes)) : result StorageError (gmap (string * string) PolicyArtifactRow) :=
  foldM (fun t row => let '(a, content) := row in
           insert_key (hash, pa_artifact_id a)
             (mkPolicyArtifactRow (pa_kind a) (pa_lane a) (pa_media_type a) content (pa_content_digest a)) t) t rows.
Definition insert_vectors (hash : string) (t : gmap (string * string) PolicyVectorRow)
    (rows : list (PolicyTestVector * (bytes * string))) : result StorageError (gmap (string * string) PolicyVectorRow) :=
  foldM (fun t row => let '(v, (input_jcs, input_digest)) := row in
           insert_key (hash, tv_vector_id v) (mkPolicyVectorRow input_jcs input_digest (tv_expected_accept v)) t) t rows.

Definition document_row (metadata : WalletMetadata) (p : PreparedPolicyBundle) (canonical_bundle : bytes) (now : Z)
    : PolicyDocumentRow :=
  let b := pq_bundle p in
  mkPolicyDocumentRow (wm_wallet_id metadata) (wm_epoch metadata) (pb_schema_version b) (pq_canonical_document p)
    canonical_bundle (pb_artifact_set_digest b) (pb_vector_set_digest b) (run_run_digest (pb_validation_run b))
    (pb_compiler_version b) now.
Definition run_row (p : PreparedPolicyBundle) (now : Z) : PolicyRunRow :=
  let run := pb_validation_run (pq_bundle p) in
  mkPolicyRunRow (pb_policy_hash (pq_bundle p)) (run_compiler_version run) (run_artifact_set_digest run)
    (run_vector_set_digest run) (pq_results_jcs p) (run_all_passed run) now.

Definition insert_policy (metadata : WalletMetadata) (p : PreparedPolicyBundle) (canonical_bundle : bytes) (now : Z)
    (t : PolicyTables) : result StorageError PolicyTables :=
  let b := pq_bundle p in
  documents ← insert_key (pb_policy_hash b) (document_row metadata p canonical_bundle now) (pt_documents t);
  artifacts ← insert_artifacts (pb_policy_hash b) (pt_artifacts t) (zip (pb_artifacts b) (pq_artifact_contents p));
  vectors ← insert_vectors (pb_policy_hash b) (pt_vectors t) (zip (pb_test_vectors b) (pq_vector_inputs p));
  _ ← reject_if (negb (run_all_passed (pb_validation_run b))) ST_Sqlite;
  runs ← insert_key (run_run_digest (pb_validation_run b)) (run_row p now) (pt_runs t);
  Ok (mkPolicyTables documents artifacts vectors runs (pt_bindings t) (pt_activations t)).

Definition store_policy_bundle_bytes (policy_hash : string) (canonical_bundle : bytes) (now : Z)
    : act WalletDb StorageError PolicyStoreOutcome :=
  _ ← lift (reject_if (MAX_BUNDLE_BYTES <? Z.of_nat (length canonical_bundle))
              (ST_InvalidStoredValue (CompileError_display (LimitExceeded "policy bundle"))));
  let prepared := prepare_policy_bundle policy_hash canonical_bundle in
  mutation (fun metadata s =>
    match pt_documents (db_policy s) !! policy_hash with
    | Some existing =>
        if bool_decide (dr_canonical_bundle existing = canonical_bundle) then Ok (s, PolicyAlreadyPresent)
        else Err (ST_ImmutableConflict "policy_documents")
    | None =>
        p ← prepared;
        tables ← insert_policy metadata p canonical_bundle now (db_policy s);
        Ok (append_audit metadata "policy.bundle_stored" (Some (pb_policy_hash (pq_bundle p))) now (put_policy tables s),
            PolicyInserted)
    end).

Definition policy_bundle_bytes (s : WalletDb) (policy_hash : string) : option bytes :=
  dr_canonical_bundle <$> pt_documents (db_policy s) !! policy_hash.

Definition binding_row (p : ActivationProposal) : PolicyBindingRow :=
  mkPolicyBindingRow (ap_policy_hash p) (ap_wallet_id p) (ap_wallet_epoch p) (ap_signer_set_id p) (ap_signer_epoch p)
    (ap_chain_profile p) (ap_artifact_set_digest p) (ap_validation_run_digest p) "pending_activation" (ap_created_at p).
Definition activation_row (p : ActivationProposal) : PolicyActivationRow :=
  mkPolicyActivationRow (ap_binding_id p) (ap_wallet_id p) (ap_wallet_epoch p) (ap_approval_digest p) "pending"
    (ap_expires_at p) (ap_created_at p).

(** UNIQUE binding and UNIQUE approval digest. *)
Definition activation_taken (p : ActivationProposal) (t : PolicyTables) : bool :=
  some_row (fun r => bool_decide (qv_binding_id r = ap_binding_id p)
                     || bool_decide (qv_approval_digest r = ap_approval_digest p)) (pt_activations t).
Definition insert_proposal (p : ActivationProposal) (t : PolicyTables) : result StorageError PolicyTables :=
  _ ← to_sql_u64 (ap_signer_epoch p);
  bindings ← insert_key (ap_binding_id p) (binding_row p) (pt_bindings t);
  _ ← reject_if (activation_taken p t) ST_Sqlite;
  activations ← insert_key (ap_activation_id p) (activation_row p) (pt_activations t);
  Ok (mkPolicyTables (pt_documents t) (pt_artifacts t) (pt_vectors t) (pt_runs t) bindings activations).

(** The document of this wallet and epoch with its validation run. *)
Definition validated_policy (t : PolicyTables) (p : ActivationProposal) : option (string * string * bool) :=
  d ← pt_documents t !! ap_policy_hash p;
  r ← pt_runs t !! dr_validation_run_digest d;
  if bool_decide (dr_wallet_id d = ap_wallet_id p) && (dr_wallet_epoch d =? ap_wallet_epoch p)
  then Some (dr_artifact_set_digest d, dr_validation_run_digest d, rr_all_passed r) else None.

Definition propose_policy_activation (p : ActivationProposal) : act WalletDb StorageError unit :=
  _ ← lift (map_err (fun _ => ST_InvalidPolicyActivation) (ActivationProposal_verify p));
  mutation (fun metadata s =>
    _ ← reject_if (negb (bool_decide (wm_wallet_id metadata = ap_wallet_id p))
                   || negb (wm_epoch metadata =? ap_wallet_epoch p))
          (ST_StaleEpoch (wm_epoch metadata) (ap_wallet_epoch p));
    '(artifact_set_digest, validation_run_digest, all_passed) ←
      ok_or (validated_policy (db_policy s) p) ST_PolicyNotValidated;
    _ ← reject_if (negb all_passed || negb (bool_decide (artifact_set_digest = ap_artifact_set_digest p))
                   || negb (bool_decide (validation_run_digest = ap_validation_run_digest p))) ST_PolicyNotValidated;
    tables ← insert_proposal p (db_policy s);
    Ok (append_audit metadata "policy.activation_proposed" (Some (uuid_to_string (ap_activation_id p)))
          (ap_created_at p) (put_policy tables s), tt)).

Definition policy_activation_status_at (s : WalletDb) (activation_id : Uuid) (now : Z) : option ActivationStatus :=
  r ← pt_activations (db_policy s) !! activation_id;
  m ← db_metadata s;
  if bool_decide (wm_wallet_id m = qv_wallet_id r)
  then Some (if negb (qv_wallet_epoch r =? wm_epoch m) then ActivationInvalidatedByRecovery
             else if qv_expires_at r <=? now then ActivationExpired else ActivationPending)
  else None.

Definition policy_binding_usable_for_signing (s : WalletDb) (binding_id : Uuid) : bool :=
  match (r ← pt_bindings (db_policy s) !! binding_id; m ← db_metadata s;
         if bool_decide (wm_wallet_id m = br_wallet_id r) then Some (r, m) else None) with
  | Some (r, m) => bool_decide (br_binding_state r = "active") && (br_wallet_epoch r =? wm_epoch m)
  | None => false
  end.
End policy_storage.
