(* ===== verification/SignerDevices.v ===== *)
(** * Signer devices and request nonces of the wallet database
      (the signer orchestration tables of src/crates/wallet-storage/src/sqlite.rs)

    The append-only log of device events and the ledger of request nonces, with
    the replay store of the signer provider.  Both tables live in the wallet
    database, whose other tables are kept beside them: their methods run in one
    transaction under the same restore guard and write to the same audit log.
    The column checks, keys and the trigger of the migration are written out
    where a row is inserted.  The log is in the order of its sequence column. *)

From Stdlib Require Import ZArith Lia.
From S2P Require Import Prelude Bitcoin Text TransactionReview Personal Effects Frost Participant Provider DeviceRegistry StorageModels WalletDb PolicyDocument.
From stdpp Require Import list gmap strings sorting.
Local Open Scope string_scope.
Local Open Scope list_scope.
Local Open Scope Z_scope.

(** ** Rows *)

(** The primary key: wallet, signer set, signer epoch, signer, device, device
    generation, request nonce. *)
Definition NonceKey : Type := Uuid * Uuid * Z * Z * Uuid * Z * bytes.
Record RequestNonceRow := mkRequestNonceRow {
  rn_operation_id : Uuid;
  rn_intent_id : Uuid;
  rn_session_id : bytes;
  rn_taproot_sighash : bytes;
  rn_policy_digest : bytes;
  rn_operation_binding_digest : bytes;
  rn_claimed_at : Z;
}.
Record DeviceEventRow := mkDeviceEventRow {
  de_wallet_id : Uuid;
  de_signer_set_id : Uuid;
  de_signer_epoch : Z;
  de_signer_id : Z;
  de_device_id : Uuid;
  de_device_generation : Z;
  de_provider : string;
  de_identity_public_key : bytes;
  de_mtls_spki_sha256 : option bytes;
  de_event_type : string;
  de_occurred_at : Z;
}.
Record SignerTables := mkSignerTables {
  sv_database : WalletDb;
  sv_request_nonces : gmap NonceKey RequestNonceRow;
  sv_device_events : list DeviceEventRow;
}.
Definition put_database (d : WalletDb) (s : SignerTables) : SignerTables :=
  mkSignerTables d (sv_request_nonces s) (sv_device_events s).
Definition put_request_nonces (t : gmap NonceKey RequestNonceRow) (s : SignerTables) : SignerTables :=
  mkSignerTables (sv_database s) t (sv_device_events s).
Definition put_device_events (l : list DeviceEventRow) (s : SignerTables) : SignerTables :=
  mkSignerTables (sv_database s) (sv_request_nonces s) l.

(** An immediate transaction that passes the restore guard. *)
Definition signer_mutation {A} (body : WalletMetadata -> SignerTables -> result StorageError (SignerTables * A))
    : act SignerTables StorageError A := fun s =>
  match (metadata ← ok_or (db_metadata (sv_database s)) ST_NotInitialized;
         _ ← ensure_mutations_allowed metadata; body metadata s) with
  | Ok (s', a) => (s', Ok a)
  | Err e => (s, Err e)
  end.

(** ** Request nonces *)

Definition identity_differs (i : ProviderIdentity) (c : SignerRequestContext) : bool :=
  negb (bool_decide (id_wallet_id i = rc_wallet_id c))
  || negb (bool_decide (id_signer_set_id i = rc_signer_set_id c))
  || negb (id_signer_epoch i =? rc_signer_epoch c)
  || negb (id_signer_id i =? rc_signer_id c)
  || negb (bool_decide (id_device_id i = rc_device_id c))
  || negb (id_device_generation i =? rc_device_generation c)
  || negb (bool_decide (id_group_pubkey_xonly i = rc_group_pubkey_xonly c))
  || negb (bool_decide (id_verifying_share_digest i = rc_verifying_share_digest c)).

Definition nonce_key (i : ProviderIdentity) (nonce : bytes) : NonceKey :=
  (id_wallet_id i, id_signer_set_id i, id_signer_epoch i, id_signer_id i, id_device_id i, id_device_generation i, nonce).
(** The rows of one operation of one signer. *)
Definition of_operation (i : ProviderIdentity) (operation_id : Uuid) (kv : NonceKey * RequestNonceRow) : bool :=
  let '(wallet, signer_set, epoch, signer_id, _, _, _) := kv.1 in
  bool_decide (wallet = id_wallet_id i) && bool_decide (signer_set = id_signer_set_id i)
  && (epoch =? id_signer_epoch i) && (signer_id =? id_signer_id i)
  && bool_decide (rn_operation_id kv.2 = operation_id).
Definition operation_bindings (i : ProviderIdentity) (operation_id : Uuid) (t : gmap NonceKey RequestNonceRow)
    : list bytes :=
  (fun kv => rn_operation_binding_digest kv.2) <$> List.filter (of_operation i operation_id) (map_to_list t).

Section tables.
Context `{BitcoinLib} `{TextCodec} `{UuidText} `{BuildInfo}.

Definition nonce_row (c : SignerRequestContext) (now : Z) : RequestNonceRow :=
  mkRequestNonceRow (rc_operation_id c) (rc_intent_id c) (rc_session_id c) (rc_taproot_sighash c) (rc_policy_digest c)
    (operation_binding_digest c) now.

(** INSERT: a refused trigger, check or key is reported as a claimed nonce. *)
Definition insert_request_nonce (i : ProviderIdentity) (c : SignerRequestContext) (now : Z)
    (t : gmap NonceKey RequestNonceRow) : result StorageError (gmap NonceKey RequestNonceRow) :=
  _ ← to_sql_u64 (id_device_generation i);
  _ ← reject_if (existsb (fun b => negb (bool_decide (b = operation_binding_digest c)))
                   (operation_bindings i (rc_operation_id c) t)
                 || (id_signer_epoch i <=? 0) || (id_signer_id i <=? 0) || (id_device_generation i <=? 0)
                 || bool_decide (is_Some (t !! nonce_key i (rc_request_nonce c)))) ST_NonceAlreadyClaimed;
  Ok (<[nonce_key i (rc_request_nonce c) := nonce_row c now]> t).

Definition claim_signer_request_nonce (i : ProviderIdentity) (c : SignerRequestContext) (now : Z)
    : act SignerTables StorageError unit :=
  _ ← lift (reject_if (identity_differs i c) (ST_InvalidStoredValue "signer provider identity drift"));
  signer_mutation (fun metadata s =>
    _ ← reject_if (negb (bool_decide (wm_wallet_id metadata = id_wallet_id i)))
          (ST_InvalidStoredValue "signer provider belongs to a different wallet");
    _ ← to_sql_u64 (id_signer_epoch i);
    let prior := head (operation_bindings i (rc_operation_id c) (sv_request_nonces s)) in
    _ ← reject_if (match prior with Some b => negb (bool_decide (b = operation_binding_digest c)) | None => false end)
          ST_SignerOperationBindingDrift;
    nonces ← insert_request_nonce i c now (sv_request_nonces s);
    Ok (put_database (append_audit metadata "signer.request_nonce_claimed" (Some (uuid_to_string (rc_operation_id c))) now
          (sv_database s)) (put_request_nonces nonces s), tt)).

(** [impl ProviderReplayStore for WalletStorage] *)
Definition replay_error (e : StorageError) : ProviderError :=
  match e with
  | ST_NonceAlreadyClaimed => PE_Replay
  | ST_SignerOperationBindingDrift => PE_RoundBindingMismatch
  | _ => PE_BackendUnavailable
  end.
#[export] Instance Sqlite_replay : ProviderReplayStore SignerTables := fun i c now s =>
  let '(s', r) := claim_signer_request_nonce i c now s in (s', map_err replay_error r).

(** ** Device events *)

Definition decode_hex32 (value field : string) : result StorageError bytes :=
  b ← ok_or (hex_decode value) (ST_InvalidStoredValue (field +:+ " is not hexadecimal"));
  _ ← reject_if (negb (length b =? 32)%nat) (ST_InvalidStoredValue (field +:+ " must be 32 bytes"));
  Ok b.

(** [.as_deref().map(..).transpose()] *)
Definition decode_certificate (value : option string) : result StorageError (option bytes) :=
  match value with
  | None => Ok None
  | Some v => b ← decode_hex32 v "signer mTLS SPKI digest"; Ok (Some b)
  end.

Definition in_inventory (wallet signer_set : Uuid) (epoch : Z) (e : DeviceEventRow) : bool :=
  bool_decide (de_wallet_id e = wallet) && bool_decide (de_signer_set_id e = signer_set) && (de_signer_epoch e =? epoch).
Definition in_slot (wallet signer_set : Uuid) (epoch signer_id : Z) (e : DeviceEventRow) : bool :=
  in_inventory wallet signer_set epoch e && (de_signer_id e =? signer_id).

Definition provider_text (k : option SignerProviderKind) : result StorageError string :=
  match k with
  | Some RemoteMtls => Ok "remote_mtls"
  | Some HsmAdapter => Ok "hsm_adapter"
  | _ => Err (ST_InvalidStoredValue "remote signer provider kind is invalid")
  end.

(** The event a record appends to the latest row of its slot. *)
Definition transition_event (prior : option DeviceEventRow) (expected_generation : Z) (record : SignerDeviceRecord)
    (device_id : Uuid) : result StorageError string :=
  let drift := Err (ST_InvalidStoredValue "signer device generation or lifecycle transition drifted") in
  match prior with
  | None =>
      if (expected_generation =? 0) && (dr_generation record =? 1) && bool_decide (dr_status record = DeviceActive)
      then Ok "registered" else drift
  | Some e =>
      if bool_decide (de_event_type e = "revoked")
      then Err (ST_InvalidStoredValue "revoked signer device cannot be replaced in the same signer epoch")
      else if (de_device_generation e =? expected_generation) && (dr_generation record =? de_device_generation e + 1)
              && bool_decide (dr_status record = DeviceActive)
      then Ok "rotated"
      else if (de_device_generation e =? expected_generation) && (dr_generation record =? de_device_generation e)
              && bool_decide (de_device_id e = device_id) && bool_decide (dr_status record = DeviceRevoked)
      then Ok "revoked" else drift
  end.

Definition insert_device_event (e : DeviceEventRow) (l : list DeviceEventRow) : result StorageError (list DeviceEventRow) :=
  _ ← to_sql_u64 (de_device_generation e);
  _ ← reject_if ((de_signer_id e <=? 0) || (de_device_generation e <=? 0)
        || existsb (fun o => in_slot (de_wallet_id e) (de_signer_set_id e) (de_signer_epoch e) (de_signer_id e) o
                             && (de_device_generation o =? de_device_generation e)
                             && bool_decide (de_event_type o = de_event_type e)) l
        || negb ((bool_decide (de_event_type e = "registered") && (de_device_generation e =? 1))
                 || (bool_decide (de_event_type e = "rotated") && (1 <? de_device_generation e))
                 || bool_decide (de_event_type e = "revoked"))) ST_Sqlite;
  Ok (l ++ [e]).

Definition persist_signer_device_transition (wallet signer_set : Uuid) (epoch expected_generation : Z)
    (record : SignerDeviceRecord) (now : Z) : act SignerTables StorageError unit :=
  device_id ← lift (ok_or (dr_device_id record) (ST_InvalidStoredValue "configured signer device id is missing"));
  provider ← lift (provider_text (dr_provider record));
  key_hex ← lift (ok_or (dr_identity_public_key_hex record)
                    (ST_InvalidStoredValue "configured signer identity key is missing"));
  identity_key ← lift (decode_hex32 key_hex "signer identity key");
  certificate ← lift (decode_certificate (dr_mtls_spki_sha256_hex record));
  _ ← lift (reject_if (bool_decide (dr_provider record = Some RemoteMtls) && bool_decide (certificate = None))
              (ST_InvalidStoredValue "remote signer SPKI digest is missing"));
  signer_mutation (fun metadata s =>
    _ ← reject_if (negb (bool_decide (wm_wallet_id metadata = wallet)) || (epoch =? 0))
          (ST_InvalidStoredValue "signer device belongs to a different wallet or epoch");
    _ ← to_sql_u64 epoch;
    let prior := last (List.filter (in_slot wallet signer_set epoch (dr_signer_id record)) (sv_device_events s)) in
    event_type ← transition_event prior expected_generation record device_id;
    events ← insert_device_event
      (mkDeviceEventRow wallet signer_set epoch (dr_signer_id record) device_id (dr_generation record) provider
         identity_key certificate event_type now) (sv_device_events s);
    Ok (put_database (append_audit metadata ("signer.device_" +:+ event_type) (Some (uuid_to_string device_id)) now
          (sv_database s)) (put_device_events events s), tt)).

(** MIN and MAX over a column: NULL when there is no row. *)
Definition sql_min (l : list Z) : option Z := match l with [] => None | x :: r => Some (foldr Z.min x r) end.
Definition sql_max (l : list Z) : option Z := match l with [] => None | x :: r => Some (foldr Z.max x r) end.
Definition times_of (event_type : string) (slot : list DeviceEventRow) : list Z :=
  de_occurred_at <$> List.filter (fun e => bool_decide (de_event_type e = event_type)) slot.

(** One row of the query: [current] is the last event of its slot. *)
Definition device_record_of (slot : list DeviceEventRow) (current : DeviceEventRow) : result StorageError SignerDeviceRecord :=
  provider ← (if bool_decide (de_provider current = "remote_mtls") then Ok RemoteMtls
              else if bool_decide (de_provider current = "hsm_adapter") then Ok HsmAdapter else Err ST_Sqlite);
  Ok (mkSignerDeviceRecord (de_signer_id current) (Some (de_device_id current)) (de_device_generation current)
        (Some provider) (Some (hex_encode (de_identity_public_key current))) (hex_encode <$> de_mtls_spki_sha256 current)
        (if bool_decide (de_event_type current = "revoked") then DeviceRevoked else DeviceActive)
        (sql_min (de_occurred_at <$> slot)) (sql_max (times_of "rotated" slot)) (sql_max (times_of "revoked" slot))
        DeviceHealth_default).

(** ORDER BY signer_id, one row per signer of the inventory. *)
Definition inventory_signers (l : list DeviceEventRow) : list Z := merge_sort Z.le (remove_dups (de_signer_id <$> l)).
Definition slot_of (signer_id : Z) (l : list DeviceEventRow) : list DeviceEventRow :=
  List.filter (fun e => de_signer_id e =? signer_id) l.
Definition signer_device_records (s : SignerTables) (wallet signer_set : Uuid) (epoch : Z)
    : result StorageError (list SignerDeviceRecord) :=
  metadata ← wallet_metadata (sv_database s);
  _ ← reject_if (negb (bool_decide (wm_wallet_id metadata = wallet)))
        (ST_InvalidStoredValue "signer device inventory belongs to a different wallet");
  _ ← to_sql_u64 epoch;
  let l := List.filter (in_inventory wallet signer_set epoch) (sv_device_events s) in
  mapM_result (fun e => device_record_of (slot_of (de_signer_id e) l) e)
    (omap (fun k => last (slot_of k l)) (inventory_signers l)).
End tables.

(** ** The replay store *)

Section replay.
Context `{BitcoinLib} `{TextCodec} `{UuidText} `{BuildInfo}.

Lemma signer_mutation_Ok {A} (body : WalletMetadata -> SignerTables -> result StorageError (SignerTables * A)) s s' a :
  signer_mutation body s = (s', Ok a) <->
  exists m, db_metadata (sv_database s) = Some m /\ ensure_mutations_allowed m = Ok tt /\ body m s = Ok (s', a).
Proof.
  unfold signer_mutation. destruct (db_metadata (sv_database s)) as [m|]; cbn.
  2: { split; [done|]. by intros (m & ? & _). }
  destruct (ensure_mutations_allowed m) as [[]|e] eqn:Ee; cbn.
  2: { split; [done|]. intros (m' & [= <-] & Hx & _). congruence. }
  split.
  - destruct (body m s) as [[s1 x]|e] eqn:Eb; intros [= <- <-]. eauto.
  - by intros (m' & [= <-] & _ & ->).
Qed.
Lemma signer_mutation_Err {A} (body : WalletMetadata -> SignerTables -> result StorageError (SignerTables * A)) s s' e :
  signer_mutation body s = (s', Err e) -> s' = s.
Proof. unfold signer_mutation. destruct (_ ← ok_or _ _; _) as [[s1 x]|e1]; congruence. Qed.

Lemma claim_Err i c now s s' e : claim_signer_request_nonce i c now s = (s', Err e) -> s' = s.
Proof.
  unfold claim_signer_request_nonce, mbind at 1, act_bind, lift. destruct (reject_if _ _) as [u|e1]; [|congruence].
  apply signer_mutation_Err.
Qed.
Lemma claim_Ok i c now s s' u : claim_signer_request_nonce i c now s = (s', Ok u) ->
  sv_request_nonces s !! nonce_key i (rc_request_nonce c) = None /\
  sv_request_nonces s' = <[nonce_key i (rc_request_nonce c) := nonce_row c now]> (sv_request_nonces s) /\
  sv_device_events s' = sv_device_events s /\
  forall b, b ∈ operation_bindings i (rc_operation_id c) (sv_request_nonces s) -> b = operation_binding_digest c.
Proof.
  unfold claim_signer_request_nonce, insert_request_nonce. intros HC. act_step. apply signer_mutation_Ok in HC as (m & Hm & _ & HC).
  act_inv. split_and!; try done.
  - by apply eq_None_not_Some.
  - intros b Hb. match goal with HE : existsb _ _ = false |- _ => rename HE into Hex end.
    destruct (decide (b = operation_binding_digest c)) as [|Hne]; [done|exfalso].
    assert (existsb (fun b => negb (bool_decide (b = operation_binding_digest c)))
              (operation_bindings i (rc_operation_id c) (sv_request_nonces s)) = true) as Ht; [|congruence].
    apply existsb_exists. exists b. split; [by apply list_elem_of_In|]. by rewrite bool_decide_false.
Qed.

(** The database keeps the contract of a replay store. *)
#[export, refine] Instance Sqlite_replay_laws : ProviderReplayLaws SignerTables :=
  {| nonce_claimed i s n := is_Some (sv_request_nonces s !! nonce_key i n) |}.
Proof.
  all: unfold claim_request_nonce, Sqlite_replay.
  - intros i c now s n Hn. destruct (claim_signer_request_nonce i c now s) as [s' [u|e]] eqn:HC; cbn.
    + apply claim_Ok in HC as (_ & -> & _). by apply lookup_insert_is_Some'; right.
    + by apply claim_Err in HC as ->.
  - intros i c now s s' u. destruct (claim_signer_request_nonce i c now s) as [s1 [v|e]] eqn:HC; cbn; [|done].
    intros [= <- _]. apply claim_Ok in HC as (Hn & -> & _). rewrite Hn, lookup_insert_eq. split; [by intros [? ?]|done].
Defined.

(** ** Runs of the tables *)

(** Any other method of the database may run between two calls. *)
Inductive signer_op :=
| SgClaim (i : ProviderIdentity) (c : SignerRequestContext) (now : Z)
| SgTransition (wallet signer_set : Uuid) (epoch expected_generation : Z) (record : SignerDeviceRecord) (now : Z)
| SgOther (d : WalletDb).
(** An accepted transition. *)
Record Persisted := mkPersisted {
  pt_wallet : Uuid;
  pt_signer_set : Uuid;
  pt_epoch : Z;
  pt_record : SignerDeviceRecord;
  pt_now : Z;
}.
Definition signer_exec (op : signer_op) (s : SignerTables) : SignerTables * list Persisted :=
  match op with
  | SgClaim i c now => ((claim_signer_request_nonce i c now s).1, [])
  | SgTransition w g e x r now =>
      let '(s', res) := persist_signer_device_transition w g e x r now s in
      (s', match res with Ok _ => [mkPersisted w g e r now] | Err _ => [] end)
  | SgOther d => (put_database d s, [])
  end.
Fixpoint signer_run (s : SignerTables) (ops : list signer_op) : SignerTables * list Persisted :=
  match ops with
  | [] => (s, [])
  | op :: rest =>
      let '(s1, t1) := signer_exec op s in let '(s2, t2) := signer_run s1 rest in (s2, t1 ++ t2)
  end.

Definition persisted_in (wallet signer_set : Uuid) (epoch signer_id : Z) (t : Persisted) : bool :=
  bool_decide (pt_wallet t = wallet) && bool_decide (pt_signer_set t = signer_set) && (pt_epoch t =? epoch)
  && (dr_signer_id (pt_record t) =? signer_id).
Definition activates (t : Persisted) : bool := DeviceRegistry.is_active (pt_record t).

(** A slot is activated generation by generation and revoked at most once, as
    the last thing that happens to it and for the device it held. *)
Record orderly (l : list Persisted) : Prop := {
  od_generation l1 t l2 : l = l1 ++ t :: l2 ->
    dr_generation (pt_record t) = Z.of_nat (length (List.filter activates (l1 ++ [t])));
  od_active l1 t l2 : l = l1 ++ t :: l2 -> l2 <> [] -> dr_status (pt_record t) = DeviceActive;
  od_revoked l1 t l2 : l = l1 ++ t :: l2 -> dr_status (pt_record t) <> DeviceActive ->
    exists p, last l1 = Some p /\ dr_device_id (pt_record p) = dr_device_id (pt_record t);
}.

(** The row an accepted transition appends. *)
Record persisted_row (t : Persisted) (e : DeviceEventRow) : Prop := {
  pw_wallet : de_wallet_id e = pt_wallet t;
  pw_signer_set : de_signer_set_id e = pt_signer_set t;
  pw_epoch : de_signer_epoch e = pt_epoch t;
  pw_signer : de_signer_id e = dr_signer_id (pt_record t);
  pw_device : dr_device_id (pt_record t) = Some (de_device_id e);
  pw_generation : de_device_generation e = dr_generation (pt_record t);
  pw_provider : provider_text (dr_provider (pt_record t)) = Ok (de_provider e);
  pw_key : exists hex, dr_identity_public_key_hex (pt_record t) = Some hex /\
    hex_decode hex = Some (de_identity_public_key e) /\ length (de_identity_public_key e) = 32%nat;
  pw_certificate : match de_mtls_spki_sha256 e with
    | None => dr_mtls_spki_sha256_hex (pt_record t) = None /\ dr_provider (pt_record t) <> Some RemoteMtls
    | Some b => exists hex, dr_mtls_spki_sha256_hex (pt_record t) = Some hex /\ hex_decode hex = Some b /\ length b = 32%nat
    end;
  pw_status : dr_status (pt_record t) = if bool_decide (de_event_type e = "revoked") then DeviceRevoked else DeviceActive;
  pw_time : de_occurred_at e = pt_now t;
  pw_positive : 0 < de_signer_id e /\ 0 < de_device_generation e;
}.
Record log_inv (s : SignerTables) (trace : list Persisted) : Prop := {
  lg_rows : Forall2 persisted_row trace (sv_device_events s);
  lg_orderly w g e k : orderly (List.filter (persisted_in w g e k) trace);
}.
(** *** What one call does to the log *)

Lemma decode_hex32_Ok v f b : decode_hex32 v f = Ok b <-> hex_decode v = Some b /\ length b = 32%nat.
Proof.
  unfold decode_hex32. destruct (hex_decode v) as [x|]; cbn; [|naive_solver].
  destruct (Nat.eqb_spec (length x) 32) as [Hl|Hl]; cbn; naive_solver.
Qed.
Lemma decode_certificate_Ok v c : decode_certificate v = Ok c ->
  match c with None => v = None | Some b => exists hex, v = Some hex /\ hex_decode hex = Some b /\ length b = 32%nat end.
Proof.
  unfold decode_certificate. destruct v as [hex|]; [|by intros [= <-]]. intros (b & Hb & [= <-])%bind_Ok.
  apply decode_hex32_Ok in Hb. eauto.
Qed.

(** The event fits the state of the slot before it. *)
Definition fits_slot (prior : option DeviceEventRow) (t : Persisted) (e : DeviceEventRow) : Prop :=
  match prior with
  | None => dr_generation (pt_record t) = 1 /\ dr_status (pt_record t) = DeviceActive
  | Some p => de_event_type p <> "revoked" /\
      ((dr_generation (pt_record t) = de_device_generation p + 1 /\ dr_status (pt_record t) = DeviceActive) \/
       (dr_generation (pt_record t) = de_device_generation p /\ dr_status (pt_record t) = DeviceRevoked /\
        de_device_id p = de_device_id e))
  end.

Lemma transition_event_Ok prior x r d ev w g ep now e : transition_event prior x r d = Ok ev -> de_device_id e = d ->
  fits_slot prior (mkPersisted w g ep r now) e /\
  dr_status r = if bool_decide (ev = "revoked") then DeviceRevoked else DeviceActive.
Proof.
  intros HT <-. unfold transition_event, fits_slot in *. cbn. destruct prior as [p|].
  - case_bool_decide as Hp; [done|]. destruct (_ && _ && bool_decide (dr_status r = DeviceActive)) eqn:E1.
    + injection HT as <-. autorewrite with guards in E1. destruct E1 as [[_ Hg] Hs]. auto.
    + destruct (_ && _) eqn:E2 in HT; [|done]. injection HT as <-. autorewrite with guards in E2.
      destruct E2 as [[[_ Hg] Hd] Hs]. auto 6.
  - destruct (_ && _) eqn:E1; [|done]. injection HT as <-. autorewrite with guards in E1. tauto.
Qed.

Lemma persist_Ok w g ep x r now s s' u : persist_signer_device_transition w g ep x r now s = (s', Ok u) ->
  exists e, sv_device_events s' = sv_device_events s ++ [e] /\ persisted_row (mkPersisted w g ep r now) e /\
    fits_slot (last (List.filter (in_slot w g ep (dr_signer_id r)) (sv_device_events s))) (mkPersisted w g ep r now) e.
Proof.
  unfold persist_signer_device_transition, insert_device_event. intros HP. do 6 act_step.
  apply signer_mutation_Ok in HP as (m & _ & _ & HP). act_inv. cbn in *.
  match goal with HT : transition_event _ _ _ _ = Ok _ |- _ => rename HT into Htr end.
  match goal with HT : decode_certificate _ = Ok _ |- _ => apply decode_certificate_Ok in HT; rename HT into Hct end.
  match goal with HT : decode_hex32 _ _ = Ok _ |- _ => apply decode_hex32_Ok in HT; rename HT into Hky end.
  eexists. split; [done|].
  match goal with |- persisted_row _ ?e /\ _ =>
    destruct (transition_event_Ok _ _ _ _ _ w g ep now e Htr eq_refl) as [Hfit Hst] end.
  split; [|exact Hfit].
  constructor; cbn; try done; try lia; eauto.
  destruct r4; [done|]. tauto.
Qed.
Lemma persist_nonces w g ep x r now s s' u : persist_signer_device_transition w g ep x r now s = (s', Ok u) ->
  sv_request_nonces s' = sv_request_nonces s.
Proof.
  unfold persist_signer_device_transition. intros HP. do 6 act_step.
  apply signer_mutation_Ok in HP as (m & _ & _ & HP). by act_inv.
Qed.
Lemma persist_Err w g ep x r now s s' e : persist_signer_device_transition w g ep x r now s = (s', Err e) -> s' = s.
Proof.
  intros HE. symmetry. revert s s' e HE.
  change (keeps_err (=) (persist_signer_device_transition w g ep x r now)). unfold persist_signer_device_transition.
  repeat (apply keeps_err_bind; [apply _|apply keeps_lift; apply _|intros ?]).
  intros s1 s2 e1 H'. by apply signer_mutation_Err in H'.
Qed.

(** *** One binding per operation

    All claims of an operation of a signer carry one binding, so it does not
    matter which of their rows the query of a claim returns. *)
Definition one_binding (s : SignerTables) : Prop := forall i operation b b',
  b ∈ operation_bindings i operation (sv_request_nonces s) -> b' ∈ operation_bindings i operation (sv_request_nonces s) -> b = b'.

Lemma elem_of_bindings i operation t b : b ∈ operation_bindings i operation t <->
  exists k row, t !! k = Some row /\ of_operation i operation (k, row) = true /\ b = rn_operation_binding_digest row.
Proof.
  unfold operation_bindings. rewrite list_elem_of_fmap. split.
  - intros ([k row] & -> & Hin). apply list_elem_of_In, List.filter_In in Hin as [Hin Ho].
    apply list_elem_of_In, elem_of_map_to_list in Hin. eauto.
  - intros (k & row & Hk & Ho & ->). exists (k, row). split; [done|]. apply list_elem_of_In, List.filter_In.
    split; [|done]. by apply list_elem_of_In, elem_of_map_to_list.
Qed.
(** A row of one identity belongs to the operations of another only if they
    are the same signer. *)
Lemma of_operation_key i i' operation n row : of_operation i operation (nonce_key i' n, row) = true ->
  rn_operation_id row = operation /\ forall t, operation_bindings i operation t = operation_bindings i' operation t.
Proof.
  unfold of_operation at 1, nonce_key. cbn. autorewrite with guards. intros ((((Hw & Hg) & He) & Hs) & Ho).
  split; [done|]. intros t. unfold operation_bindings, of_operation. by rewrite Hw, Hg, He, Hs.
Qed.

Lemma claim_one_binding i c now s s' u : claim_signer_request_nonce i c now s = (s', Ok u) -> one_binding s -> one_binding s'.
Proof.
  intros (_ & Hn & _ & Hb)%claim_Ok HI.
  assert (forall j operation b, b ∈ operation_bindings j operation (sv_request_nonces s') ->
    b ∈ operation_bindings j operation (sv_request_nonces s) \/
    (b = operation_binding_digest c /\
     forall b', b' ∈ operation_bindings j operation (sv_request_nonces s) -> b' = operation_binding_digest c)) as Hsplit.
  { intros j operation b. rewrite Hn. intros (k & row & Hk & Ho & ->)%elem_of_bindings.
    apply lookup_insert_Some in Hk as [[<- <-]|[_ Hk]].
    - right. split; [done|]. apply of_operation_key in Ho as [<- Heq]. intros b'. rewrite Heq. apply Hb.
    - left. apply elem_of_bindings. eauto. }
  intros j operation b b' [Hb1|[-> Hb1]]%Hsplit [Hb2|[-> Hb2]]%Hsplit; auto; [by eapply HI|]. symmetry. auto.
Qed.
Lemma signer_run_one_binding ops s : one_binding s -> one_binding (signer_run s ops).1.
Proof.
  revert s. induction ops as [|op rest IH]; intros s HI; [done|]. cbn.
  destruct (signer_exec op s) as [s1 t1] eqn:E1, (signer_run s1 rest) as [s2 t2] eqn:E2. cbn.
  assert (one_binding s1) as HI1; [|specialize (IH s1 HI1); by rewrite E2 in IH].
  destruct op as [i c now|w g ep x r now|db]; cbn in E1.
  - injection E1 as <- _. destruct (claim_signer_request_nonce i c now s) as [s' [u|e]] eqn:HC; cbn.
    + by eapply claim_one_binding.
    + by apply claim_Err in HC as ->.
  - destruct (persist_signer_device_transition w g ep x r now s) as [s' [u|e]] eqn:HP; injection E1 as <- _.
    + by unfold one_binding; rewrite (persist_nonces _ _ _ _ _ _ _ _ _ HP).
    + by apply persist_Err in HP as ->.
  - by injection E1 as <- _.
Qed.

(** *** The invariant of the log *)

Lemma filter_Forall2 {A B} (R : A -> B -> Prop) (f : A -> bool) (h : B -> bool) l k :
  (forall a b, R a b -> f a = h b) -> Forall2 R l k -> Forall2 R (List.filter f l) (List.filter h k).
Proof.
  intros Hf. induction 1 as [|a b l k Hab _ IH]; [constructor|]. cbn. rewrite (Hf a b Hab). case_match; [by constructor|done].
Qed.
Lemma last_Forall2 {A B} (R : A -> B -> Prop) l k : Forall2 R l k ->
  match last l, last k with Some a, Some b => R a b | None, None => True | _, _ => False end.
Proof.
  intros HF. destruct l as [|a l _] using rev_ind; [by inversion HF|].
  apply Forall2_app_inv_l in HF as (k1 & k2 & _ & Hab & ->). inversion Hab as [|? b ? ? Hb Hn]; subst. inversion Hn; subst.
  by rewrite !last_snoc.
Qed.

Lemma in_slot_persisted t e w g ep k : persisted_row t e -> persisted_in w g ep k t = in_slot w g ep k e.
Proof. intros HR. unfold persisted_in, in_slot, in_inventory. by destruct HR as [-> -> -> -> _]. Qed.

Lemma snoc_split {A} (l : list A) x l1 y l2 : l ++ [x] = l1 ++ y :: l2 ->
  (l2 = [] /\ y = x /\ l1 = l) \/ (exists l2', l2 = l2' ++ [x] /\ l = l1 ++ y :: l2').
Proof.
  intros HE. destruct l2 as [|z l2 _] using rev_ind.
  - apply app_inj_tail in HE as [-> ->]. auto.
  - right. exists l2. rewrite app_comm_cons, app_assoc in HE. by apply app_inj_tail in HE as [-> ->].
Qed.

(** What [fits_slot] says of the transitions. *)
Definition follows (l : list Persisted) (t : Persisted) : Prop :=
  match last l with
  | None => dr_generation (pt_record t) = 1 /\ dr_status (pt_record t) = DeviceActive
  | Some p => dr_status (pt_record p) = DeviceActive /\
      ((dr_generation (pt_record t) = dr_generation (pt_record p) + 1 /\ dr_status (pt_record t) = DeviceActive) \/
       (dr_generation (pt_record t) = dr_generation (pt_record p) /\ dr_status (pt_record t) = DeviceRevoked /\
        dr_device_id (pt_record p) = dr_device_id (pt_record t)))
  end.
Lemma fits_follows l k t e : Forall2 persisted_row l k -> persisted_row t e -> fits_slot (last k) t e -> follows l t.
Proof.
  intros HF Ht. pose proof (last_Forall2 _ _ _ HF) as HL. unfold fits_slot, follows.
  destruct (last l) as [p|], (last k) as [q|]; try done. intros [Hq Hc].
  rewrite (pw_status _ _ HL), bool_decide_false by done. split; [done|]. rewrite <- (pw_generation _ _ HL).
  destruct Hc as [?|(? & ? & Hd)]; [by left|right]. split_and!; [done|done|].
  by rewrite (pw_device _ _ HL), (pw_device _ _ Ht), Hd.
Qed.

Lemma orderly_snoc l t : orderly l -> follows l t -> orderly (l ++ [t]).
Proof.
  intros [Og Oa Or] Hf. constructor.
  - intros l1 t' l2 [(-> & -> & ->)|(l2' & -> & ->)]%snoc_split; [|by eapply Og].
    rewrite List.filter_app, length_app. cbn [List.filter].
    change (activates t) with (bool_decide (dr_status (pt_record t) = DeviceActive)). unfold follows in Hf.
    destruct l as [|p l _] using rev_ind; [cbn in Hf; by destruct Hf as [-> ->]|].
    rewrite last_snoc in Hf. specialize (Og l p [] eq_refl).
    destruct Hf as [_ [[-> ->]|(-> & -> & _)]]; cbn [bool_decide length]; rewrite Og; case_bool_decide; cbn [length]; done || lia.
  - intros l1 t' l2 [(-> & _)|(l2' & -> & ->)]%snoc_split Hne; [done|].
    destruct l2' as [|z l2']; [|by eapply Oa]. unfold follows in Hf. rewrite last_snoc in Hf. apply Hf.
  - intros l1 t' l2 [(-> & -> & ->)|(l2' & -> & ->)]%snoc_split Hs; [|by eapply Or].
    unfold follows in Hf. destruct (last l) as [p|]; [|tauto]. exists p. split; [done|]. tauto.
Qed.

Lemma log_inv_persist w g ep x r now s s' u trace : persist_signer_device_transition w g ep x r now s = (s', Ok u) ->
  log_inv s trace -> log_inv s' (trace ++ [mkPersisted w g ep r now]).
Proof.
  intros (e & He & Hrow & Hfit)%persist_Ok [Hrows Hord]. constructor.
  - rewrite He. by apply Forall2_app; [|constructor].
  - intros w' g' ep' k. rewrite List.filter_app. cbn. destruct (persisted_in w' g' ep' k _) eqn:Ein; [|by rewrite app_nil_r].
    apply orderly_snoc; [done|]. eapply fits_follows; [|done|exact Hfit].
    unfold persisted_in in Ein. cbn in Ein. autorewrite with guards in Ein. destruct Ein as [[[-> ->] ->] ->].
    eapply filter_Forall2; [|done]. intros t row. apply in_slot_persisted.
Qed.

Lemma signer_exec_inv op s s' t1 trace : signer_exec op s = (s', t1) -> log_inv s trace -> log_inv s' (trace ++ t1).
Proof.
  intros Hx HI. destruct op as [i c now|w g ep x r now|d]; cbn in Hx.
  - injection Hx as <- <-. rewrite app_nil_r. destruct (claim_signer_request_nonce i c now s) as [s1 [u|e]] eqn:HC; cbn.
    + apply claim_Ok in HC as (_ & _ & He & _). destruct HI as [Hr Ho]. constructor; [by rewrite He|done].
    + by apply claim_Err in HC as ->.
  - destruct (persist_signer_device_transition w g ep x r now s) as [s1 [u|e]] eqn:HP; injection Hx as <- <-.
    + by eapply log_inv_persist.
    + apply persist_Err in HP as ->. by rewrite app_nil_r.
  - injection Hx as <- <-. rewrite app_nil_r. destruct HI as [Hr Ho]. by constructor.
Qed.
Lemma signer_run_inv ops s s' t1 trace : signer_run s ops = (s', t1) -> log_inv s trace -> log_inv s' (trace ++ t1).
Proof.
  revert s t1 trace. induction ops as [|op rest IH]; intros s t1 trace; cbn.
  { intros [= <- <-]. by rewrite app_nil_r. }
  destruct (signer_exec op s) as [s1 t1'] eqn:E1, (signer_run s1 rest) as [s2 t2] eqn:E2. intros [= <- <-] HI.
  rewrite app_assoc. eapply IH; [done|]. by eapply signer_exec_inv.
Qed.
Lemma log_inv_empty s : sv_device_events s = [] -> log_inv s [].
Proof.
  intros He. constructor; [by rewrite He|]. intros w g ep k. constructor; intros l1 t l2 HE; by destruct l1.
Qed.
End replay.

(** ** Restoring the registry *)

Section restore.
Context `{BitcoinLib} `{TextCodec} `{UuidText} `{BuildInfo}.

(** A record the registry takes into a free slot. *)
Definition restorable (r : SignerDeviceRecord) : Prop := forall seen restored,
  dr_signer_id r ∉ seen -> is_Some (restored !! dr_signer_id r) ->
  restore_one seen restored r =
    Ok ({[dr_signer_id r]} ∪ seen, <[dr_signer_id r := set_health DeviceHealth_default r]> restored).

Lemma restore_records_total records seen restored :
  Forall restorable records -> NoDup (dr_signer_id <$> records) ->
  (forall r, r ∈ records -> dr_signer_id r ∉ seen /\ is_Some (restored !! dr_signer_id r)) ->
  exists out, restore_records seen restored records = Ok out /\
    (forall r, r ∈ records -> out !! dr_signer_id r = Some (set_health DeviceHealth_default r)) /\
    (forall k, k ∉ dr_signer_id <$> records -> out !! k = restored !! k).
Proof.
  revert seen restored. induction records as [|r rest IH]; intros seen restored Hall Hnd Hin; cbn [restore_records].
  { exists restored. split_and!; [done|intros r Hr; inversion Hr|done]. }
  apply Forall_cons in Hall as [Hr Hall]. rewrite fmap_cons in Hnd. apply NoDup_cons in Hnd as [Hnot Hnd].
  destruct (Hin r ltac:(left)) as [Hs Hi]. rewrite (Hr seen restored Hs Hi). cbn.
  destruct (IH ({[dr_signer_id r]} ∪ seen) (<[dr_signer_id r := set_health DeviceHealth_default r]> restored))
    as (out & Hout & Hrec & Hrest); [done|done| |].
  { intros r' Hr'. destruct (Hin r' ltac:(by right)) as [Hs' Hi'].
    assert (dr_signer_id r' <> dr_signer_id r) as Hne by (intros HE; apply Hnot, list_elem_of_fmap; eauto).
    split; [set_solver|]. by apply lookup_insert_is_Some'; right. }
  exists out. split_and!; [done| |].
  - intros r' [->|Hr']%elem_of_cons; [|by apply Hrec]. by rewrite Hrest, lookup_insert_eq.
  - intros k [Hk Hk']%not_elem_of_cons.
    by rewrite Hrest, lookup_insert_ne.
Qed.

Lemma registry_slot g ep n k : sr_devices (SignerDeviceRegistry_new g ep n) !! k =
  if bool_decide (1 <= k <= n) then Some (unconfigured k) else None.
Proof.
  unfold SignerDeviceRegistry_new. cbn. case_bool_decide as Hk.
  - apply elem_of_list_to_map_1.
    + rewrite <- list_fmap_compose. apply NoDup_fmap; [intros a b; cbn; lia|apply NoDup_seq].
    + apply list_elem_of_fmap. exists (Z.to_nat k). rewrite Z2Nat.id by lia. split; [done|]. apply elem_of_seq. lia.
  - apply not_elem_of_list_to_map_1. rewrite <- list_fmap_compose. intros (i & -> & Hi)%list_elem_of_fmap.
    apply elem_of_seq in Hi. cbn in Hk. lia.
Qed.

(** The latest row of each signer. *)
Definition latest_rows (l : list DeviceEventRow) : list DeviceEventRow :=
  omap (fun k => last (slot_of k l)) (inventory_signers l).

Lemma slot_of_last k l e : last (slot_of k l) = Some e -> e ∈ l /\ de_signer_id e = k.
Proof.
  intros Hl%last_Some_elem_of. unfold slot_of in Hl. apply list_elem_of_In, List.filter_In in Hl as [Hin Hk%Z.eqb_eq].
  by apply list_elem_of_In in Hin.
Qed.
Lemma elem_of_latest l e : e ∈ latest_rows l <-> last (slot_of (de_signer_id e) l) = Some e.
Proof.
  unfold latest_rows, inventory_signers. rewrite list_elem_of_omap. split.
  - intros (k & _ & Hk). by destruct (slot_of_last _ _ _ Hk) as [_ ->].
  - intros Hl. exists (de_signer_id e). split; [|done]. rewrite merge_sort_Permutation, elem_of_remove_dups.
    apply list_elem_of_fmap. exists e. split; [done|]. by apply slot_of_last in Hl as [? _].
Qed.
Lemma latest_signers l : de_signer_id <$> latest_rows l = inventory_signers l.
Proof.
  unfold latest_rows.
  assert (forall k, k ∈ inventory_signers l -> is_Some (last (slot_of k l))) as Hall.
  { unfold inventory_signers. intros k. rewrite merge_sort_Permutation, elem_of_remove_dups.
    intros (e & -> & He)%list_elem_of_fmap. apply last_is_Some. intros Hn.
    assert (e ∈ slot_of (de_signer_id e) l) as Hin; [|rewrite Hn in Hin; inversion Hin].
    unfold slot_of. apply list_elem_of_In, List.filter_In. split; [by apply list_elem_of_In|apply Z.eqb_refl]. }
  induction (inventory_signers l) as [|k ks IH]; [done|]. cbn.
  destruct (Hall k ltac:(left)) as [e He]. rewrite He. cbn. destruct (slot_of_last _ _ _ He) as [_ ->].
  f_equal. apply IH. intros k' Hk'. apply Hall. by right.
Qed.
Lemma inventory_signers_NoDup l : NoDup (inventory_signers l).
Proof. unfold inventory_signers. rewrite merge_sort_Permutation. apply NoDup_remove_dups. Qed.

Lemma slot_of_inventory w g ep k l : slot_of k (List.filter (in_inventory w g ep) l) = List.filter (in_slot w g ep k) l.
Proof.
  unfold slot_of, in_slot. induction l as [|e l IH]; [done|]. cbn. destruct (in_inventory w g ep e); cbn; [|done].
  destruct (de_signer_id e =? k); by rewrite IH.
Qed.

(** What a restored record keeps of the slot's transitions [l], the last of
    which is [t]. *)
Record restored_as (l : list Persisted) (t : Persisted) (r : SignerDeviceRecord) : Prop := {
  rs_signer : dr_signer_id r = dr_signer_id (pt_record t);
  rs_device : dr_device_id r = dr_device_id (pt_record t);
  rs_generation : dr_generation r = dr_generation (pt_record t);
  rs_provider : dr_provider r = dr_provider (pt_record t);
  rs_status : dr_status r = dr_status (pt_record t);
  rs_key : exists hex key, dr_identity_public_key_hex (pt_record t) = Some hex /\ hex_decode hex = Some key /\
    dr_identity_public_key_hex r = Some (hex_encode key);
  rs_certificate : match dr_mtls_spki_sha256_hex (pt_record t) with
    | None => dr_mtls_spki_sha256_hex r = None
    | Some hex => exists b, hex_decode hex = Some b /\ dr_mtls_spki_sha256_hex r = Some (hex_encode b)
    end;
  rs_registered : dr_registered_at r = sql_min (pt_now <$> l);
  rs_revoked : dr_revoked_at r = if activates t then None else Some (pt_now t);
  rs_health : dr_health r = DeviceHealth_default;
}.

Lemma provider_text_Ok k p : provider_text k = Ok p ->
  (k = Some RemoteMtls /\ p = "remote_mtls") \/ (k = Some HsmAdapter /\ p = "hsm_adapter").
Proof. unfold provider_text. repeat case_match; naive_solver. Qed.

Lemma slot_times l k : Forall2 persisted_row l k -> de_occurred_at <$> k = pt_now <$> l.
Proof. induction 1 as [|t e l k HR _ IH]; [done|]. by rewrite !fmap_cons, IH, (pw_time _ _ HR). Qed.

(** Only the last transition of a slot can be a revocation. *)
Lemma revoked_times l k t e : orderly (l ++ [t]) -> Forall2 persisted_row l k -> persisted_row t e ->
  sql_max (times_of "revoked" (k ++ [e])) = if activates t then None else Some (pt_now t).
Proof.
  intros HO HF Ht. unfold times_of. rewrite List.filter_app, fmap_app.
  assert (List.filter (fun e => bool_decide (de_event_type e = "revoked")) k = []) as ->.
  { assert (forall t', t' ∈ l -> dr_status (pt_record t') = DeviceActive) as Hact.
    { intros t' (l1 & l2 & ->)%list_elem_of_split. apply (od_active _ HO l1 t' (l2 ++ [t])); [by rewrite <- app_assoc|].
      by destruct l2. }
    clear HO. induction HF as [|t' e' l k HR _ IH]; [done|]. cbn. pose proof (pw_status _ _ HR) as Hs.
    rewrite (Hact t') in Hs by left. destruct (bool_decide (de_event_type e' = "revoked")); [done|].
    apply IH. intros t'' Ht''. apply Hact. by right. }
  cbn. pose proof (pw_status _ _ Ht) as Hs. change (activates t) with (bool_decide (dr_status (pt_record t) = DeviceActive)).
  rewrite Hs. destruct (bool_decide (de_event_type e = "revoked")); cbn; [|done]. by rewrite (pw_time _ _ Ht).
Qed.

Lemma parse_hex32_encode `{!HexLaws} b : length b = 32%nat -> parse_hex32 (hex_encode b) = Ok b.
Proof. intros Hl. unfold parse_hex32, parse_hex. rewrite hex_decode_encode. by res_pass. Qed.

Lemma restorable_intro `{!HexLaws} k d n (p : SignerProviderKind) key cert st t1 t2 t3 h :
  p <> LocalEncrypted -> n <> 0 -> st <> DeviceUnconfigured -> length key = 32%nat ->
  match cert with None => p <> RemoteMtls | Some b => length b = 32%nat end ->
  restorable (mkSignerDeviceRecord k (Some d) n (Some p) (Some (hex_encode key)) (hex_encode <$> cert) st t1 t2 t3 h).
Proof.
  intros Hp Hn Hst Hkey Hcert seen restored Hs Hi. unfold restore_one. cbn [dr_signer_id dr_generation
    dr_device_id dr_status dr_provider dr_identity_public_key_hex dr_mtls_spki_sha256_hex] in *.
  rewrite reject_if_pass by (autorewrite with guards; by destruct Hi as [x ->]).
  rewrite reject_if_pass by (autorewrite with guards; split_and!; try done; destruct p; (by left) || (by right) || done).
  res_cbn. rewrite parse_hex32_encode by done. res_cbn.
  assert (parse_optional_hex32 (hex_encode <$> cert) = Ok cert) as ->.
  { destruct cert as [b|]; [|done]. cbn -[parse_hex32 hex_encode]. by rewrite parse_hex32_encode. }
  res_cbn. by rewrite reject_if_pass by (autorewrite with guards; destruct cert; [by right|left; congruence]).
Qed.

Lemma device_record_restores `{!HexLaws} l k t e : orderly (l ++ [t]) -> Forall2 persisted_row l k -> persisted_row t e ->
  exists r, device_record_of (k ++ [e]) e = Ok r /\ restorable r /\ restored_as (l ++ [t]) t r.
Proof.
  intros HO HF Ht. pose proof (revoked_times l k t e HO HF Ht) as Hrev.
  assert (de_occurred_at <$> (k ++ [e]) = pt_now <$> (l ++ [t])) as Htimes
    by (apply slot_times, Forall2_app; [done|by constructor]).
  destruct (pw_key _ _ Ht) as (hex & Hhex & Hdec & Hlen). pose proof (pw_certificate _ _ Ht) as Hct.
  destruct (pw_positive _ _ Ht) as [_ Hpos].
  assert (exists p, dr_provider (pt_record t) = Some p /\ p <> LocalEncrypted /\
    (if bool_decide (de_provider e = "remote_mtls") then Ok RemoteMtls
     else if bool_decide (de_provider e = "hsm_adapter") then Ok HsmAdapter else Err ST_Sqlite) = Ok p) as (p & Hp & Hnl & Hpe).
  { destruct (provider_text_Ok _ _ (pw_provider _ _ Ht)) as [[Hk ->]|[Hk ->]]; eauto. }
  unfold device_record_of. rewrite Hpe. cbn [mbind result_bind]. eexists. split; [reflexivity|]. split.
  - apply restorable_intro; [done|lia|by destruct (bool_decide (de_event_type e = "revoked"))|done|].
    destruct (de_mtls_spki_sha256 e) as [b|]; [by destruct Hct as (? & _ & _ & ?)|]. destruct Hct as [_ Hne]. congruence.
  - constructor; cbn -[sql_min sql_max hex_encode].
    + apply (pw_signer _ _ Ht).
    + symmetry. apply (pw_device _ _ Ht).
    + apply (pw_generation _ _ Ht).
    + done.
    + symmetry. apply (pw_status _ _ Ht).
    + eauto.
    + destruct (de_mtls_spki_sha256 e) as [b|]; [destruct Hct as (hx & -> & ? & _); eauto|]. by destruct Hct as [-> _].
    + by rewrite Htimes.
    + done.
    + done.
Qed.

(** The transitions of a slot and its rows. *)
Lemma slot_rows s trace w g ep k : log_inv s trace ->
  Forall2 persisted_row (List.filter (persisted_in w g ep k) trace)
    (slot_of k (List.filter (in_inventory w g ep) (sv_device_events s))).
Proof.
  intros HI. rewrite slot_of_inventory. eapply filter_Forall2; [|apply (lg_rows _ _ HI)].
  intros t e. apply in_slot_persisted.
Qed.

(** The latest row of a slot restores the last transition of the slot. *)
Lemma latest_row_restores `{!HexLaws} s trace w g ep e : log_inv s trace ->
  let l := List.filter (in_inventory w g ep) (sv_device_events s) in
  e ∈ latest_rows l ->
  exists t r, last (List.filter (persisted_in w g ep (de_signer_id e)) trace) = Some t /\
    device_record_of (slot_of (de_signer_id e) l) e = Ok r /\ dr_signer_id r = de_signer_id e /\ 0 < de_signer_id e /\
    restorable r /\ restored_as (List.filter (persisted_in w g ep (de_signer_id e)) trace) t r.
Proof.
  intros HI l Hin%elem_of_latest. pose proof (slot_rows s trace w g ep (de_signer_id e) HI) as HF. fold l in HF.
  pose proof (lg_orderly _ _ HI w g ep (de_signer_id e)) as HO.
  destruct (slot_of (de_signer_id e) l) as [|e' k _] using rev_ind; [done|]. rewrite last_snoc in Hin. injection Hin as ->.
  apply Forall2_app_inv_r in HF as (l1 & l2 & HF & Ht & Heq). inversion Ht as [|t ? ? ? Hrow Hn]; subst. inversion Hn; subst.
  rewrite Heq in *. destruct (device_record_restores l1 k t e HO HF Hrow) as (r & Hr & Hres & Has).
  exists t, r. rewrite last_snoc. split_and!; try done; [|by apply (pw_positive _ _ Hrow)].
  rewrite (rs_signer _ _ _ Has). symmetry. apply (pw_signer _ _ Hrow).
Qed.

(** The query has one row per slot with events, and every row restores. *)
Lemma device_records_restore `{!HexLaws} s trace w g ep m :
  log_inv s trace -> db_metadata (sv_database s) = Some m -> wm_wallet_id m = w -> ep < 2 ^ 63 ->
  exists records, signer_device_records s w g ep = Ok records /\ Forall restorable records /\
    NoDup (dr_signer_id <$> records) /\
    (forall r, r ∈ records -> 0 < dr_signer_id r /\
       exists t, last (List.filter (persisted_in w g ep (dr_signer_id r)) trace) = Some t /\
         restored_as (List.filter (persisted_in w g ep (dr_signer_id r)) trace) t r) /\
    (forall k, is_Some (last (List.filter (persisted_in w g ep k) trace)) -> k ∈ dr_signer_id <$> records).
Proof.
  intros HI Hm Hw Hep. set (l := List.filter (in_inventory w g ep) (sv_device_events s)).
  assert (exists records, Forall2 (fun e r => device_record_of (slot_of (de_signer_id e) l) e = Ok r /\ restorable r /\
      dr_signer_id r = de_signer_id e /\ 0 < de_signer_id e /\
      exists t, last (List.filter (persisted_in w g ep (de_signer_id e)) trace) = Some t /\
        restored_as (List.filter (persisted_in w g ep (de_signer_id e)) trace) t r) (latest_rows l) records) as [records HF].
  { assert (forall e, e ∈ latest_rows l -> e ∈ latest_rows l) as Hall by done. revert Hall.
    generalize (latest_rows l) at 1 3 as rows. induction rows as [|e rows IH]; intros Hall; [by exists []|].
    destruct (latest_row_restores s trace w g ep e HI (Hall e ltac:(left))) as (t & r & Ht & Hr & Hs & Hp & Hres & Has).
    destruct IH as [rs Hrs]; [intros e' He'; apply Hall; by right|]. exists (r :: rs). constructor; [|done]. by eauto 10. }
  exists records.
  assert (dr_signer_id <$> records = inventory_signers l) as Hids.
  { rewrite <- latest_signers. clear -HF. induction HF as [|e r rows rs (_ & _ & Hs & _) _ IH]; [done|].
    by rewrite !fmap_cons, Hs, IH. }
  split_and!.
  - unfold signer_device_records, wallet_metadata. rewrite Hm. res_cbn.
    rewrite reject_if_pass by (by rewrite bool_decide_true). res_cbn. unfold to_sql_u64.
    rewrite reject_if_pass by (apply Z.leb_gt; lia). res_cbn. fold l. apply mapM_result_Ok.
    eapply Forall2_impl; [exact HF|]. by intros e r [? _].
  - eapply Forall2_Forall_r; [exact HF|]. apply Forall_forall. by intros e _ r (_ & ? & _).
  - rewrite Hids. apply inventory_signers_NoDup.
  - intros r (i & Hr)%list_elem_of_lookup. destruct (Forall2_lookup_r _ _ _ _ _ HF Hr) as (e & _ & _ & _ & -> & Hp & Hx). done.
  - intros k Hk. rewrite Hids. unfold inventory_signers. rewrite merge_sort_Permutation, elem_of_remove_dups.
    pose proof (last_Forall2 _ _ _ (slot_rows s trace w g ep k HI)) as HL. fold l in HL. destruct Hk as [t Ht]. rewrite Ht in HL.
    destruct (last (slot_of k l)) as [e|] eqn:He; [|done]. apply slot_of_last in He as [Hin <-].
    apply list_elem_of_fmap. eauto.
Qed.

(** A fresh registry takes restorable records of its slots. *)
Lemma restore_fresh records g ep n :
  Forall restorable records -> NoDup (dr_signer_id <$> records) ->
  (forall r, r ∈ records -> 1 <= dr_signer_id r <= n) ->
  exists registry, restore_device_records records (SignerDeviceRegistry_new g ep n) = (registry, Ok tt) /\
    (forall r, r ∈ records -> sr_devices registry !! dr_signer_id r = Some (set_health DeviceHealth_default r)) /\
    (forall k, 1 <= k <= n -> k ∉ dr_signer_id <$> records -> sr_devices registry !! k = Some (unconfigured k)).
Proof.
  intros Hall Hnd Hin.
  destruct (restore_records_total records ∅ (sr_devices (SignerDeviceRegistry_new g ep n)) Hall Hnd) as (out & Hout & Hrec & Hrest).
  { intros r Hr. split; [set_solver|]. rewrite registry_slot, bool_decide_true by (by apply Hin). done. }
  exists (set_devices out (SignerDeviceRegistry_new g ep n)). split_and!; [|done|].
  - unfold restore_device_records, mbind, act_bind, reads, modify. rewrite (reject_if_pass (existsb _ _)); [by rewrite Hout|].
    apply not_true_iff_false. intros ([k r] & Hkr & Hs)%existsb_exists.
    apply list_elem_of_In, elem_of_map_to_list in Hkr. rewrite registry_slot in Hkr.
    destruct (bool_decide (1 <= k <= n)); [|done]. injection Hkr as <-. done.
  - intros k Hk Hnot. cbn. by rewrite Hrest, registry_slot, bool_decide_true.
Qed.
Lemma set_health_restored l t r : restored_as l t r -> set_health DeviceHealth_default r = r.
Proof. intros Has. pose proof (rs_health _ _ _ Has) as Hh. destruct r. cbn in *. by subst. Qed.
End restore.
