(* ===== verification/WalletDbInv.v ===== *)
(** * What the wallet database never loses

    The methods of WalletDb, SignerDb and PolicyStorage as steps on the tables
    they share (those of the signer devices and of personal signing join them
    in WalletDbProperties.v), and the order [db_le] they all follow: rows keep their bound
    columns, what is consumed, invalidated or finished stays as it is, ledgers
    only grow. *)

From Stdlib Require Import ZArith Lia.
From S2P Require Import Prelude Bitcoin Text Effects ChainDomain SigningDomain Personal StorageModels WalletDb SignerDb PolicyDocument.
From S2P Require Import PolicyCompile PolicyStorage.
From stdpp Require Import list gmap strings sorting.
Local Open Scope string_scope.
Local Open Scope list_scope.
Local Open Scope Z_scope.

(** ** Steps *)

Inductive DbOp :=
| DbInitialize (wallet_id : Uuid) (now : Z)
| DbStartup (now : Z)
| DbCreateLegacyIntent (i : NewTransactionIntent) (c : AuditContext)
| DbCreateIntent (i : NewTransactionIntentV2) (m : IntentMaterial)
| DbTransition (id : Uuid) (expected next : TransactionIntentStatus) (now : Z)
| DbUpsertCredential (c : CredentialMetadata)
| DbSetProfile (p : WebauthnProfile)
| DbInsertPasskey (r : NewPasskeyRecord)
| DbUpdatePasskey (id : string) (version : Z) (json : string) (now : Z)
| DbBeginLegacyApproval (c : NewApprovalCeremony)
| DbApproveLegacy (d : ApprovalDecision) (c : AuditContext)
| DbBeginApproval (c : NewPasskeyApprovalCeremony)
| DbCompleteApproval (p : PasskeyApprovalCompletion)
| DbConsumeLegacy (id : Uuid) (epoch now : Z)
| DbClaimNonce (c : NewNonceClaim)
| DbClaimFrostNonce (c : FrostNonceAuthorizationClaim)
| DbPutSecret (r : SecretRef)
| DbRegisterSigner (p : NewSignerProfile)
| DbBindAddress (b : NewAddressBinding)
| DbInstallCatalog (catalog : list NewSignerCatalogEntry)
| DbCreateJob (authorization_id : Uuid) (j : NewSigningJob) (binding : bytes) (now : Z)
| DbClaimExecutor (c : ChainExecutorClaim)
| DbCompleteJob (job_id : Uuid) (binding signature : bytes) (now : Z)
| DbTerminateJob (job_id : Uuid) (binding : bytes) (status : SigningJobStatus) (reason : string) (now : Z)
| DbStorePolicy (hash : string) (bundle : bytes) (now : Z)
| DbProposeActivation (p : ActivationProposal)
| DbBeginSnapshot (now : Z)
| DbFinishSnapshot (now : Z)
| DbBeginPrecheck (now : Z)
| DbCutover (now : Z)
| DbBeginRecovering (now : Z)
| DbFinishRecovery (now : Z)
| DbRecordRecovery (r : CrashRecoveryOutcome).

Section steps.
Context `{UuidText} `{BuildInfo} `{BitcoinLib} `{JsonText} `{TextCodec} `{PolicyLib} `{PolicyJson} `{PolicyRowsJson} `{ActivationJson}.

Definition exec (op : DbOp) (s : WalletDb) : WalletDb :=
  match op with
  | DbInitialize wallet_id now => (initialize wallet_id now s).1
  | DbStartup now => (invalidate_unfinished_ceremonies_on_startup now s).1
  | DbCreateLegacyIntent i c => (create_transaction_intent_with_audit i c s).1
  | DbCreateIntent i m => (create_transaction_intent_v2 i m s).1
  | DbTransition id expected next now => (transition_transaction_intent id expected next now s).1
  | DbUpsertCredential c => (upsert_credential c s).1
  | DbSetProfile p => (set_webauthn_profile p s).1
  | DbInsertPasskey r => (insert_passkey_record r s).1
  | DbUpdatePasskey id version json now => (update_passkey_record_cas id version json now s).1
  | DbBeginLegacyApproval c => (begin_approval_ceremony_atomic c s).1
  | DbApproveLegacy d c => (approve_and_issue_authorization d c s).1
  | DbBeginApproval c => (begin_passkey_approval c s).1
  | DbCompleteApproval p => (complete_passkey_approval_atomic p s).1
  | DbConsumeLegacy id epoch now => (consume_authorization id epoch now s).1
  | DbClaimNonce c => (claim_nonce c s).1
  | DbClaimFrostNonce c => (consume_authorization_and_claim_frost_nonce c s).1
  | DbPutSecret r => (put_secret_ref r s).1
  | DbRegisterSigner p => (register_signer_profile p s).1
  | DbBindAddress b => (bind_signer_address b s).1
  | DbInstallCatalog catalog => (install_signer_catalog catalog s).1
  | DbCreateJob authorization_id j binding now => (create_signing_job authorization_id j binding now s).1
  | DbClaimExecutor c => (claim_chain_executor c s).1
  | DbCompleteJob job_id binding signature now => (complete_signing_job job_id binding signature now s).1
  | DbTerminateJob job_id binding status reason now => (terminate_signing_job job_id binding status reason now s).1
  | DbStorePolicy hash bundle now => (store_policy_bundle_bytes hash bundle now s).1
  | DbProposeActivation p => (propose_policy_activation p s).1
  | DbBeginSnapshot now => (begin_snapshot now s).1
  | DbFinishSnapshot now => (finish_snapshot now s).1
  | DbBeginPrecheck now => (begin_restore_precheck now s).1
  | DbCutover now => (cutover_restore now s).1
  | DbBeginRecovering now => (begin_recovering now s).1
  | DbFinishRecovery now => (finish_recovery now s).1
  | DbRecordRecovery r => (record_cutover_recovery r s).1
  end.
End steps.

(** ** Tables *)

Definition table_le {K V} `{Countable K} (R : V -> V -> Prop) (t t' : gmap K V) : Prop :=
  forall k v, t !! k = Some v -> exists v', t' !! k = Some v' /\ R v v'.

Section tables.
Context {K V : Type} `{Countable K} (R : V -> V -> Prop).
Implicit Types t : gmap K V.

#[export] Instance table_le_preorder `{!PreOrder R} : PreOrder (table_le (K:=K) R).
Proof.
  split; [intros t k v Hv; by exists v|]. intros t1 t2 t3 H1 H2 k v (v' & Hv' & R1)%H1.
  apply H2 in Hv' as (v3 & Hv3 & R2). exists v3. split; [done|by trans v'].
Qed.
Lemma table_le_fresh `{!Reflexive R} t k v : t !! k = None -> table_le R t (<[k := v]> t).
Proof. intros Hk k' v' Hv. exists v'. split; [|done]. rewrite lookup_insert_ne; [done|congruence]. Qed.
Lemma table_le_insert `{!Reflexive R} t k v v' : t !! k = Some v -> R v v' -> table_le R t (<[k := v']> t).
Proof.
  intros Hk Hr k1 v1 Hv. destruct (decide (k = k1)) as [->|Hn].
  - exists v'. rewrite lookup_insert_eq. split; [done|congruence].
  - exists v1. by rewrite lookup_insert_ne.
Qed.
Lemma table_le_upsert `{!Reflexive R} t k v' : (forall v, t !! k = Some v -> R v v') -> table_le R t (<[k := v']> t).
Proof.
  intros Hr k1 v1 Hv. destruct (decide (k = k1)) as [->|Hn].
  - exists v'. rewrite lookup_insert_eq. split; [done|by apply Hr].
  - exists v1. by rewrite lookup_insert_ne.
Qed.
Lemma update_where_Some t k p f t' :
  update_where k p f t = Some t' <-> exists v, t !! k = Some v /\ p v = true /\ t' = <[k := f v]> t.
Proof.
  unfold update_where. destruct (t !! k) as [v|]; cbn; [|by split; [|intros (? & ? & _)]].
  destruct (p v) eqn:Hp; split; [intros [= <-]; eauto|by intros (? & [= <-] & _ & ->)|done|intros (? & [= <-] & ? & _); congruence].
Qed.
Lemma table_le_update_where `{!Reflexive R} t k p f t' :
  (forall v, p v = true -> R v (f v)) -> update_where k p f t = Some t' -> table_le R t t'.
Proof. intros Hr (v & Hv & Hp & ->)%update_where_Some. apply (table_le_insert t k v); [done|by apply Hr]. Qed.
Lemma lookup_update_all p f t k : update_all p f t !! k = (fun v => if p v : bool then f v else v) <$> t !! k.
Proof. unfold update_all. by rewrite lookup_fmap. Qed.
Lemma table_le_update_all `{!Reflexive R} t p f :
  (forall v, p v = true -> R v (f v)) -> table_le R t (update_all p f t).
Proof.
  intros Hr k v Hv. rewrite lookup_update_all, Hv. eexists. split; [done|]. cbn. destruct (p v) eqn:Hp; [by apply Hr|done].
Qed.
Lemma some_row_true p t : some_row p t = true <-> exists k v, t !! k = Some v /\ p v = true.
Proof.
  unfold some_row. rewrite existsb_exists. split.
  - intros ([k v] & Hin%list_elem_of_In & Hp). apply elem_of_map_to_list in Hin. eauto.
  - intros (k & v & Hk & Hp). exists (k, v). split; [|done]. apply list_elem_of_In, elem_of_map_to_list, Hk.
Qed.
Lemma some_row_false p t : some_row p t = false <-> forall k v, t !! k = Some v -> p v = false.
Proof.
  rewrite <- not_true_iff_false, some_row_true. split.
  - intros Hn k v Hk. apply not_true_iff_false. intros Hp. apply Hn. by exists k, v.
  - intros Hn (k & v & Hk & Hp). rewrite (Hn k v Hk) in Hp. done.
Qed.
End tables.

(** ** Rows *)

(** The columns of a row that no step changes. *)
Definition intent_bound (r : TransactionIntentRow) :=
  (ir_wallet_id r, ir_epoch r, ir_tx_digest r, ir_policy_hash r, ir_session_id r, ir_expires_at r, ir_created_at r, ir_v2 r).
Definition ceremony_bound (c : CeremonyRow) :=
  (cy_wallet_id c, cy_intent_id c, cy_epoch c, cy_started_at c, cy_expires_at c, cy_binding c).
Definition authorization_bound (a : AuthorizationRow) :=
  let r := az_record a in (az_wallet_id a, ac_id r, ac_intent r, ac_epoch r, ac_binding r, ac_expires_at r, ac_issued_at r).
Definition nonce_bound (n : NonceRow) := (nr_wallet_id n, nr_epoch n, nr_session_id n, nr_claimed_at n, nr_binding n).

Definition intent_le (r r' : TransactionIntentRow) : Prop :=
  intent_bound r' = intent_bound r /\ (ir_status r' = TxPending -> ir_status r = TxPending) /\
  (is_unfinished (ir_status r) = false -> ir_status r' = ir_status r).
Definition ceremony_le (c c' : CeremonyRow) : Prop :=
  ceremony_bound c' = ceremony_bound c /\ (ceremony_open c = false -> c' = c).
Definition authorization_le (a a' : AuthorizationRow) : Prop :=
  authorization_bound a' = authorization_bound a /\ (authorization_open a = false -> a' = a).
Definition nonce_le (n n' : NonceRow) : Prop := nonce_bound n' = nonce_bound n.
Definition job_le (j j' : StoredSigningJob) : Prop :=
  (jb_bound j' = jb_bound j /\ jb_operation_binding_digest j' = jb_operation_binding_digest j) /\
  (jb_status j <> SjSigning -> j' = j).

Ltac row_preorder := split; [by split|]; intros ? ? ? [] []; split; [congruence|]; intros ?; naive_solver congruence.
#[export] Instance intent_le_preorder : PreOrder intent_le.
Proof.
  split; [by split|]. intros ? ? ? (? & ? & ?) (? & ? & ?). split; [congruence|]. split; [naive_solver|].
  intros ?; naive_solver congruence.
Qed.
#[export] Instance ceremony_le_preorder : PreOrder ceremony_le.
Proof. row_preorder. Qed.
#[export] Instance authorization_le_preorder : PreOrder authorization_le.
Proof. row_preorder. Qed.
#[export] Instance nonce_le_preorder : PreOrder nonce_le.
Proof. split; [done|]. unfold nonce_le. intros ???. congruence. Qed.
#[export] Instance job_le_preorder : PreOrder job_le.
Proof. split; [by split|]. intros ? ? ? [[] ?] [[] ?]. split; [split; congruence|]. intros ?; naive_solver congruence. Qed.

(** ** The order *)

Record metadata_le (m m' : WalletMetadata) : Prop := mkMetadataLe {
  mle_wallet : wm_wallet_id m' = wm_wallet_id m;
  mle_epoch : wm_epoch m <= wm_epoch m';
}.
Record db_le (s s' : WalletDb) : Prop := mkDbLe {
  le_metadata : forall m, db_metadata s = Some m -> exists m', db_metadata s' = Some m' /\ metadata_le m m';
  le_intents : table_le intent_le (db_intents s) (db_intents s');
  le_ceremonies : table_le ceremony_le (db_ceremonies s) (db_ceremonies s');
  le_authorizations : table_le authorization_le (db_authorizations s) (db_authorizations s');
  le_nonces : table_le nonce_le (db_nonces s) (db_nonces s');
  le_signers : table_le eq (db_signers s) (db_signers s');
  le_bindings : table_le eq (db_bindings s) (db_bindings s');
  le_jobs : table_le job_le (db_jobs s) (db_jobs s');
  le_claims : table_le eq (db_claims s) (db_claims s');
  le_documents : table_le eq (pt_documents (db_policy s)) (pt_documents (db_policy s'));
  le_runs : table_le eq (pt_runs (db_policy s)) (pt_runs (db_policy s'));
  le_policy_bindings : table_le eq (pt_bindings (db_policy s)) (pt_bindings (db_policy s'));
  le_activations : table_le eq (pt_activations (db_policy s)) (pt_activations (db_policy s'));
  le_audit : db_audit s `prefix_of` db_audit s';
}.

#[export] Instance db_le_preorder : PreOrder db_le.
Proof.
  split.
  - intros s. constructor; try reflexivity. intros m Hm. exists m. by split.
  - intros s1 s2 s3 [] []. constructor; try (etrans; eassumption).
    intros m (m2 & Hm2 & [])%le_metadata0. apply le_metadata1 in Hm2 as (m3 & Hm3 & []).
    exists m3. split; [done|]. split; [congruence|lia].
Qed.

Create HintDb db.
#[export] Hint Resolve table_le_fresh table_le_insert table_le_upsert table_le_update_all : db.
#[export] Hint Extern 5 (table_le _ _ _) => reflexivity : db.
#[export] Hint Extern 5 (_ `prefix_of` _) => first [reflexivity | apply prefix_app_r; reflexivity] : db.

(** ** Every step follows the order *)

Lemma metadata_same s : forall m, db_metadata s = Some m -> exists m', db_metadata s = Some m' /\ metadata_le m m'.
Proof. intros m Hm. exists m. split; [done|]. by split. Qed.
Lemma metadata_set s m m' : db_metadata s = Some m -> metadata_le m m' ->
  forall m0, db_metadata s = Some m0 -> exists m1, Some m' = Some m1 /\ metadata_le m0 m1.
Proof. intros Hm Hle m0 Hm0. exists m'. split; [done|]. congruence. Qed.
#[export] Hint Resolve metadata_same : db.

Section transactions.
Context (R : WalletDb -> WalletDb -> Prop) `{!Reflexive R} {A : Type}.
Implicit Types body : WalletMetadata -> WalletDb -> result StorageError (WalletDb * A).

Lemma keeps_immediate body :
  (forall m s s' a, db_metadata s = Some m -> body m s = Ok (s', a) -> R s s') -> keeps R (immediate body).
Proof.
  intros Hb s. unfold immediate. destruct (db_metadata s) as [m|] eqn:Hm; cbn; [|done].
  destruct (body m s) as [[s' a]|e] eqn:E; cbn; [by eapply Hb|done].
Qed.
Lemma keeps_mutation body :
  (forall m s s' a, db_metadata s = Some m -> body m s = Ok (s', a) -> R s s') -> keeps R (mutation body).
Proof.
  intros Hb. apply keeps_immediate. intros m s s' a Hm HE. apply bind_Ok in HE as (u & _ & HE). by eapply Hb.
Qed.
End transactions.

Lemma immediate_Ok {A} (body : WalletMetadata -> WalletDb -> result StorageError (WalletDb * A)) s s' a :
  immediate body s = (s', Ok a) <-> exists m, db_metadata s = Some m /\ body m s = Ok (s', a).
Proof.
  unfold immediate. destruct (db_metadata s) as [m|]; cbn; [|split; [done|by intros (? & ? & _)]].
  destruct (body m s) as [[s1 a1]|e] eqn:E; split; cbn.
  - intros [= -> ->]. by exists m.
  - intros (m1 & [= <-] & E1). congruence.
  - done.
  - intros (m1 & [= <-] & E1). congruence.
Qed.
Lemma mutation_Ok {A} (body : WalletMetadata -> WalletDb -> result StorageError (WalletDb * A)) s s' a :
  mutation body s = (s', Ok a) <->
  exists m, db_metadata s = Some m /\ ensure_mutations_allowed m = Ok tt /\ body m s = Ok (s', a).
Proof.
  unfold mutation. rewrite immediate_Ok. split.
  - intros (m & Hm & HE). apply bind_Ok in HE as ([] & Hu & HE). by exists m.
  - intros (m & Hm & Hu & HE). exists m. split; [done|]. by rewrite Hu.
Qed.

(** Open a method down to the table updates of a successful run. *)
Ltac res_open :=
  repeat first
    [ res_step
    | progress simplify_eq
    | match goal with
      | H : (let '(_, _) := ?p in _) = Ok _ |- _ => destruct p as [??] eqn:?; cbv beta iota in H
      | H : (let '(_, _) := ?p in _) ≫= _ = Ok _ |- _ => destruct p as [??] eqn:?; cbv beta iota in H
      | u : unit |- _ => destruct u
      end ].
Ltac keeps_open :=
  first
    [ apply keeps_bind; [apply _|apply keeps_lift; apply _|intros ?] | idtac ];
  first [apply keeps_mutation | apply keeps_immediate]; [apply _|];
  let m := fresh "m" in let s := fresh "s" in let s' := fresh "s'" in let a := fresh "a" in
  let Hm := fresh "Hm" in let Hb := fresh "Hb" in intros m s s' a Hm Hb; cbv beta in Hb.

(** Rows that change do so within their order. *)
Lemma status_le status now r :
  is_unfinished (ir_status r) = true -> status <> TxPending -> intent_le r (with_intent_status status now r).
Proof. intros Hs Hn. split; [done|]. split; [done|congruence]. Qed.
Lemma completed_le now c : ceremony_open c = true -> ceremony_le c (ceremony_completed now c).
Proof. intros Ho. split; [done|congruence]. Qed.
Lemma invalidated_le now c : ceremony_open c = true -> ceremony_le c (ceremony_invalidated now c).
Proof. intros Ho. split; [done|congruence]. Qed.
Lemma consumed_le now a : authorization_open a = true -> authorization_le a (authorization_consumed now a).
Proof. intros Ho. split; [done|congruence]. Qed.
Lemma revoked_le now a : authorization_open a = true -> authorization_le a (authorization_invalidated now a).
Proof. intros Ho. split; [done|congruence]. Qed.
Lemma nonce_invalidated_le now n : nonce_le n (nonce_invalidated now n).
Proof. done. Qed.
Lemma finalized_le g now j : jb_status j = SjSigning -> job_le j (finalized_job g now j).
Proof. intros Hs. by split. Qed.
Lemma terminated_le st re now j : jb_status j = SjSigning -> job_le j (terminated_job st re now j).
Proof. intros Hs. by split. Qed.
#[export] Hint Resolve status_le completed_le invalidated_le consumed_le revoked_le nonce_invalidated_le finalized_le terminated_le : db.

Lemma may_transition_unfinished a b : may_transition_to a b = true -> is_unfinished a = true /\ b <> TxPending.
Proof. by destruct a, b. Qed.

(** What the shared steps of a transaction write. *)
Section writes.
Context `{UuidText} `{BuildInfo} `{BitcoinLib} `{JsonText}.

Lemma update_passkey_record_in_Ok s id version json now s' :
  update_passkey_record_in s id version json now = Ok (Some s') -> exists c, s' = put_credentials c s.
Proof. unfold update_passkey_record_in. intros HE. res_open. repeat case_match; res_open; eauto. Qed.
Lemma insert_authorization_Ok m id intent binding expires issued s s' :
  insert_authorization m id intent binding expires issued s = Ok s' <->
  db_authorizations s !! id = None /\ authorization_exists s intent = false /\
  s' = put_authorizations (<[id := mkAuthorizationRow (wm_wallet_id m)
         (mkAuthorizationRecord id intent (wm_epoch m) binding expires issued None None)]> (db_authorizations s)) s.
Proof.
  unfold insert_authorization. rewrite bind_Ok. setoid_rewrite reject_if_Ok. split.
  - intros ([] & Hg & [= <-]). autorewrite with guards in Hg. destruct Hg as [Hn He].
    by rewrite <- eq_None_not_Some in Hn.
  - intros (Hn & He & ->). exists tt. rewrite He, Hn. by rewrite bool_decide_false by (by intros []).
Qed.
Lemma insert_bound_nonce_Ok m fp aid intent signer session now s s' :
  insert_bound_nonce m fp aid intent signer session now s = Ok s' ->
  nonce_binding_consistent m aid intent signer session s = true /\ db_nonces s !! fp = None /\
  s' = put_nonces (<[fp := mkNonceRow (wm_wallet_id m) (wm_epoch m) session now None (Some (aid, intent, signer))]>
         (db_nonces s)) s.
Proof.
  unfold insert_bound_nonce. intros HE. res_open. autorewrite with guards in *. destruct_ex.
  by rewrite <- eq_None_not_Some in *.
Qed.
Lemma insert_signing_job_Ok j binding s s' :
  insert_signing_job j binding s = Ok s' ->
  db_jobs s !! jn_job_id j = None /\
  (forall k o, db_jobs s !! k = Some o -> jn_session_id (jb_bound o) <> jn_session_id j) /\
  s' = put_jobs (<[jn_job_id j := mkStoredSigningJob j (Some binding) SjSigning None None (jn_created_at j)]> (db_jobs s)) s.
Proof.
  unfold insert_signing_job. intros HE. res_open. autorewrite with guards in *. destruct_ex.
  rewrite <- eq_None_not_Some in *. split; [done|]. split; [|done].
  intros k o Ho. match goal with Hs : some_row _ _ = false |- _ => rewrite some_row_false in Hs; apply Hs in Ho end.
  by autorewrite with guards in Ho.
Qed.
Lemma insert_signer_profile_Ok p s s' :
  insert_signer_profile p s = Ok s' ->
  db_signers s !! sg_profile_id p = None /\ s' = put_signers (<[sg_profile_id p := p]> (db_signers s)) s.
Proof.
  unfold insert_signer_profile. intros HE. res_open. autorewrite with guards in *. destruct_ex.
  by rewrite <- eq_None_not_Some in *.
Qed.
Lemma insert_address_binding_Ok b s s' :
  insert_address_binding b s = Ok s' ->
  db_bindings s !! bd_binding_id b = None /\ s' = put_bindings (<[bd_binding_id b := b]> (db_bindings s)) s.
Proof.
  unfold insert_address_binding. intros HE. res_open. autorewrite with guards in *. destruct_ex.
  by rewrite <- eq_None_not_Some in *.
Qed.
Lemma insert_key_Ok {K V} `{Countable K} (k : K) (v : V) t t' :
  insert_key k v t = Ok t' <-> t !! k = None /\ t' = <[k := v]> t.
Proof.
  unfold insert_key. rewrite bind_Ok. setoid_rewrite reject_if_Ok. split.
  - intros ([] & Hn & [= <-]). autorewrite with guards in Hn. by rewrite <- eq_None_not_Some in Hn.
  - intros (Hn & ->). exists tt. split; [|done]. rewrite Hn. by apply bool_decide_false; intros [].
Qed.
End writes.

Ltac write_step :=
  match goal with
  | E : complete_ceremony _ _ _ _ = Some _ |- _ => unfold complete_ceremony in E
  | E : consume_where _ _ _ _ = Some _ |- _ => unfold consume_where in E
  | E : update_where _ _ _ _ = Some _ |- _ =>
      apply update_where_Some in E; let v := fresh "row" in let Hv := fresh "Hrow" in let Hp := fresh "Hwhere" in
      destruct E as (v & Hv & Hp & ->)
  | E : update_passkey_record_in _ _ _ _ _ = Ok (Some _) |- _ => apply update_passkey_record_in_Ok in E as [? ->]
  | E : insert_authorization _ _ _ _ _ _ _ = Ok _ |- _ =>
      apply insert_authorization_Ok in E; destruct E as (? & ? & ->)
  | E : insert_bound_nonce _ _ _ _ _ _ _ _ = Ok _ |- _ => apply insert_bound_nonce_Ok in E as (? & ? & ->)
  | E : insert_signing_job _ _ _ = Ok _ |- _ => apply insert_signing_job_Ok in E as (? & ? & ->)
  | E : insert_signer_profile _ _ = Ok _ |- _ => apply insert_signer_profile_Ok in E as (? & ->)
  | E : insert_address_binding _ _ = Ok _ |- _ => apply insert_address_binding_Ok in E as (? & ->)
  | E : insert_key _ _ _ = Ok _ |- _ => apply insert_key_Ok in E as (? & ->)
  end.
Ltac db_open :=
  res_open; repeat write_step; cbn in *; autorewrite with guards in *; destruct_ex;
  rewrite <- ?eq_None_not_Some in *; subst.
Ltac le_solve :=
  constructor; cbn;
  try (apply metadata_same);
  try (first [ reflexivity
             | apply table_le_fresh; [apply _|done]
             | eapply table_le_insert; [apply _|eassumption|solve [eauto with db]]
             | apply table_le_update_all; [apply _|intros; autorewrite with guards in *; destruct_ex; solve [eauto with db]]
             | solve [eauto with db] ]).
#[export] Hint Extern 3 (_ <> TxPending) => discriminate : db.
#[export] Hint Extern 3 (is_unfinished (ir_status ?r) = true) =>
  match goal with E : ir_status r = _ |- _ => rewrite E; reflexivity end : db.

(** A catalog writes secrets, signers, bindings and the audit log. *)
Lemma keeps_install_catalog `{UuidText} `{BuildInfo} `{BitcoinLib} (R : WalletDb -> WalletDb -> Prop) `{!PreOrder R} catalog :
  (forall x s, R s (put_secrets x s)) -> (forall x s, R s (put_signers x s)) -> (forall x s, R s (put_bindings x s)) ->
  (forall x s, R s (put_audit x s)) -> keeps R (install_signer_catalog catalog).
Proof.
  intros R1 R2 R3 R4. unfold install_signer_catalog. repeat keeps_step.
  unfold install_catalog. keeps_open. res_open. trans r; [|apply R4]. revert E.
  apply (foldM_inv _ (fun _ s1 => R s s1)); [reflexivity|].
  intros _ e _ s1 s2 _ Hs Hb. trans s1; [done|]. unfold install_entry in Hb. res_open.
  match goal with E : insert_signer_profile _ _ = Ok ?s3 |- _ => apply insert_signer_profile_Ok in E as [_ E]; trans s3;
    [rewrite E; etrans; [apply R1|apply R2]|] end.
  revert Hb. apply (foldM_inv _ (fun _ s4 => R r1 s4)); [reflexivity|].
  intros _ b _ s4 s5 _ Hs4 [_ ->]%insert_address_binding_Ok. etrans; [exact Hs4|apply R3].
Qed.

Create HintDb keeps_db.
Section order.
Context `{UuidText} `{BuildInfo} `{BitcoinLib} `{JsonText} `{TextCodec} `{PolicyLib} `{PolicyJson} `{PolicyRowsJson} `{ActivationJson}.

Lemma transition_le id expected next now : keeps db_le (transition_transaction_intent id expected next now).
Proof.
  unfold transition_transaction_intent. destruct (may_transition_to expected next) eqn:Ht; [|by intros s].
  keeps_open. db_open. apply may_transition_unfinished in Ht as [? ?]. le_solve.
Qed.
Lemma set_profile_le p : keeps db_le (set_webauthn_profile p).
Proof. unfold set_webauthn_profile. keeps_open. repeat case_match; db_open; le_solve. Qed.
Lemma approve_legacy_le d c : keeps db_le (approve_and_issue_authorization d c).
Proof. unfold approve_and_issue_authorization. keeps_open. db_open. le_solve. Qed.
Lemma complete_approval_le p : keeps db_le (complete_passkey_approval_atomic p).
Proof. unfold complete_passkey_approval_atomic. keeps_open. db_open. le_solve. Qed.
Lemma claim_frost_le c : keeps db_le (consume_authorization_and_claim_frost_nonce c).
Proof. unfold consume_authorization_and_claim_frost_nonce. keeps_open. db_open. le_solve. Qed.

Lemma install_bindings_le bs s s' : foldM (fun s b => insert_address_binding b s) s bs = Ok s' -> db_le s s'.
Proof.
  apply (foldM_inv _ (fun _ s1 => db_le s s1)); [reflexivity|].
  intros _ b _ s1 s2 _ Hs Hb. trans s1; [done|]. db_open. le_solve.
Qed.
Lemma install_catalog_le catalog : keeps db_le (install_catalog catalog).
Proof.
  unfold install_catalog. keeps_open. res_open.
  trans r; [|le_solve]. revert E. apply (foldM_inv _ (fun _ s1 => db_le s s1)); [reflexivity|].
  intros _ e _ s1 s2 _ Hs Hb. trans s1; [done|]. unfold install_entry in Hb. res_open.
  apply install_bindings_le in Hb. etrans; [|exact Hb]. db_open. le_solve.
Qed.
Lemma install_signer_catalog_le catalog : keeps db_le (install_signer_catalog catalog).
Proof. unfold install_signer_catalog. repeat (keeps_step; try apply install_catalog_le). Qed.

Lemma start_job_le aid j b now : keeps db_le (start_signing_job aid j b now).
Proof. unfold start_signing_job. keeps_open. db_open. le_solve. Qed.
Lemma create_job_le aid j b now : keeps db_le (create_signing_job aid j b now).
Proof. unfold create_signing_job. repeat (keeps_step; try apply start_job_le). Qed.
Lemma end_job_le job_id binding live change status event now :
  (forall j, jb_status j = SjSigning -> job_le j (change j)) -> status <> TxPending ->
  keeps db_le (end_signing_job job_id binding live change status event now).
Proof. intros Hc Hn. unfold end_signing_job. keeps_open. db_open. le_solve. Qed.

Lemma insert_policy_le m p bundle now t t' :
  insert_policy m p bundle now t = Ok t' ->
  table_le eq (pt_documents t) (pt_documents t') /\ table_le eq (pt_runs t) (pt_runs t') /\
  pt_bindings t' = pt_bindings t /\ pt_activations t' = pt_activations t.
Proof. unfold insert_policy. intros HE. res_open. db_open. split_and!; eauto with db. Qed.
Lemma store_policy_le hash bundle now : keeps db_le (store_policy_bundle_bytes hash bundle now).
Proof.
  unfold store_policy_bundle_bytes. keeps_open. case_match; [case_match; res_open; reflexivity|]. res_open.
  match goal with E : insert_policy _ _ _ _ _ = Ok _ |- _ => apply insert_policy_le in E as (? & ? & E3 & E4) end.
  le_solve; rewrite ?E3, ?E4; reflexivity.
Qed.
Lemma propose_activation_le p : keeps db_le (propose_policy_activation p).
Proof. unfold propose_policy_activation. keeps_open. unfold insert_proposal in *. db_open. le_solve. Qed.

Ltac le_metadata_solve := eapply metadata_set; [eassumption|split; [done|cbn; lia]].
Lemma transition_restore_le from to now : keeps db_le (transition_restore from to now).
Proof. unfold transition_restore. keeps_open. db_open. le_solve. le_metadata_solve. Qed.
Lemma precheck_le now : keeps db_le (begin_restore_precheck now).
Proof. unfold begin_restore_precheck. keeps_open. db_open. le_solve. le_metadata_solve. Qed.
Lemma cutover_le now : keeps db_le (cutover_restore now).
Proof. unfold cutover_restore, checked_add. keeps_open. case_bool_decide; db_open; le_solve. le_metadata_solve. Qed.
Lemma record_recovery_le r : keeps db_le (record_cutover_recovery r).
Proof.
  unfold record_cutover_recovery. keeps_open. repeat case_match; db_open; try reflexivity; le_solve; le_metadata_solve.
Qed.
Lemma startup_le now : keeps db_le (invalidate_unfinished_ceremonies_on_startup now).
Proof. unfold invalidate_unfinished_ceremonies_on_startup. keeps_open. db_open. case_match; le_solve. Qed.
Lemma initialize_le wallet now : keeps db_le (initialize wallet now).
Proof. intros s. unfold initialize. destruct (db_metadata s) eqn:Hm; cbn; [reflexivity|]. le_solve. congruence. Qed.

#[local] Hint Resolve transition_le set_profile_le approve_legacy_le complete_approval_le claim_frost_le
  install_signer_catalog_le create_job_le store_policy_le propose_activation_le transition_restore_le precheck_le
  cutover_le record_recovery_le startup_le initialize_le : keeps_db.

Lemma exec_le op s : db_le s (exec op s).
Proof.
  enough (forall A (m : act WalletDb StorageError A), keeps db_le m -> db_le s (m s).1) as HK.
  { destruct op; cbn [exec]; apply HK; try solve [eauto with keeps_db]; try apply transition_restore_le.
    - unfold create_transaction_intent_with_audit. keeps_open. db_open. le_solve.
    - unfold create_transaction_intent_v2. keeps_open. db_open. le_solve.
    - unfold upsert_credential. keeps_open. db_open. le_solve.
    - unfold insert_passkey_record. keeps_open. db_open. le_solve.
    - unfold update_passkey_record_cas. keeps_open. db_open. le_solve.
    - unfold begin_approval_ceremony_atomic. keeps_open. db_open. le_solve.
    - unfold begin_passkey_approval. keeps_open. db_open. le_solve.
    - unfold consume_authorization. keeps_open. db_open. le_solve.
    - unfold claim_nonce. keeps_open. db_open. le_solve.
    - unfold put_secret_ref. keeps_open. db_open. le_solve.
    - unfold register_signer_profile. keeps_open. db_open. le_solve.
    - unfold bind_signer_address. keeps_open. db_open. le_solve.
    - unfold claim_chain_executor. keeps_open. db_open. le_solve.
    - unfold complete_signing_job. apply keeps_bind; [apply _|apply keeps_lift; apply _|intros _].
      apply end_job_le; [eauto with db|done].
    - unfold terminate_signing_job. apply keeps_bind; [apply _|apply keeps_lift; apply _|intros _].
      apply end_job_le; [eauto with db|done]. }
  intros A m Hm. apply Hm.
Qed.
End order.
