(* ===== verification/WalletDbAuthority.v ===== *)
(** * Authority in the wallet database

    The invariant every step keeps: an intent that is signing or signed has its
    own consumed authorization, recorded by a completed Passkey ceremony and
    marked by a claimed nonce; a signing job is bound to the authorization of
    its intent. *)

From Stdlib Require Import ZArith Lia.
From S2P Require Import Prelude Bitcoin Text Effects ChainDomain SigningDomain Personal StorageModels WalletDb SignerDb PolicyDocument.
From S2P Require Import PolicyCompile PolicyStorage WalletDbInv.
From stdpp Require Import list gmap strings sorting.
Local Open Scope string_scope.
Local Open Scope list_scope.
Local Open Scope Z_scope.

(** ** Facts that stay true *)

Definition authorizes (s : WalletDb) (id aid : Uuid) (a : AuthorizationRow) : Prop :=
  db_authorizations s !! aid = Some a /\ ac_intent (az_record a) = id.
(** The Passkey ceremony that issued the authorization. *)
Definition approved_by_passkey (s : WalletDb) (a : AuthorizationRow) : Prop :=
  exists cid c credential, db_ceremonies s !! cid = Some c /\ cy_intent_id c = ac_intent (az_record a) /\
    cy_completed_at c = Some (ac_issued_at (az_record a)) /\ cy_epoch c = ac_epoch (az_record a) /\
    cy_binding c = Some (ac_binding (az_record a), credential).
(** A claimed nonce that names authorization, intent, signer and session. *)
Definition claimed (s : WalletDb) (id aid : Uuid) (signer : string) (session fingerprint : bytes) : Prop :=
  exists n, db_nonces s !! fingerprint = Some n /\ nr_binding n = Some (aid, id, signer) /\ nr_session_id n = session.
Definition job_authorized (s : WalletDb) (jid : Uuid) (j : StoredSigningJob) : Prop :=
  jn_job_id (jb_bound j) = jid /\
  exists r v2 aid a t, db_intents s !! jn_intent_id (jb_bound j) = Some r /\ ir_v2 r = Some v2 /\
    ir_tx_digest r = jn_signing_message_digest (jb_bound j) /\ ir_session_id r = jn_session_id (jb_bound j) /\
    ir_policy_hash r = jn_policy_snapshot_digest (jb_bound j) /\
    (jb_status j = SjFinalized -> ir_status r = TxSigned) /\
    authorizes s (jn_intent_id (jb_bound j)) aid a /\ ac_consumed_at (az_record a) = Some t /\
    jb_operation_binding_digest j = Some (ac_binding (az_record a)) /\
    claimed s (jn_intent_id (jb_bound j)) aid (v2_signer_id v2) (ir_session_id r) (ac_binding (az_record a)).
(** The executor claim of a job repeats its session and binding. *)
Definition claim_of_job (s : WalletDb) (jid : Uuid) (c : ChainExecutorClaim) : Prop :=
  exists j, db_jobs s !! jid = Some j /\ jn_session_id (jb_bound j) = xc_session_id c /\
    jn_signing_message_digest (jb_bound j) = xc_signing_message_digest c /\
    jb_operation_binding_digest j = Some (xc_operation_binding_digest c).

Definition in_signing (r : TransactionIntentRow) : Prop := ir_status r = TxSigning \/ ir_status r = TxSigned.

Record db_inv (s : WalletDb) : Prop := mkDbInv {
  inv_metadata : exists m, db_metadata s = Some m;
  inv_epoch : forall m id r, db_metadata s = Some m -> db_intents s !! id = Some r ->
    ir_epoch r <= wm_epoch m /\ (is_unfinished (ir_status r) = true -> ir_epoch r = wm_epoch m);
  inv_auth : forall aid a, db_authorizations s !! aid = Some a -> ac_id (az_record a) = aid /\
    exists r, db_intents s !! ac_intent (az_record a) = Some r /\ ir_status r <> TxPending /\
      ir_epoch r = ac_epoch (az_record a) /\ (is_v2 r = true -> approved_by_passkey s a);
  inv_unique : forall id aid1 a1 aid2 a2, authorizes s id aid1 a1 -> authorizes s id aid2 a2 -> aid1 = aid2;
  inv_approved : forall id r, db_intents s !! id = Some r -> is_v2 r = true -> ir_status r = TxApproved ->
    exists aid a, authorizes s id aid a /\ authorization_open a = true;
  inv_signing : forall id r v2, db_intents s !! id = Some r -> ir_v2 r = Some v2 -> in_signing r ->
    exists aid a t fp, authorizes s id aid a /\ ac_consumed_at (az_record a) = Some t /\
      claimed s id aid (v2_signer_id v2) (ir_session_id r) fp;
  inv_job : forall jid j, db_jobs s !! jid = Some j -> job_authorized s jid j;
  inv_job_unique : forall jid1 j1 jid2 j2, db_jobs s !! jid1 = Some j1 -> db_jobs s !! jid2 = Some j2 ->
    jn_intent_id (jb_bound j1) = jn_intent_id (jb_bound j2) -> jid1 = jid2;
  inv_claim : forall jid c, db_claims s !! jid = Some c -> claim_of_job s jid c;
}.

(** ** Along the order *)

Lemma consumed_closed a t : ac_consumed_at (az_record a) = Some t -> authorization_open a = false.
Proof. unfold authorization_open. by intros ->. Qed.
Lemma completed_closed c t : cy_completed_at c = Some t -> ceremony_open c = false.
Proof. unfold ceremony_open. by intros ->. Qed.

Section along.
Context (s s' : WalletDb) (Hle : db_le s s').

Lemma authorizes_closed id aid a : authorizes s id aid a -> authorization_open a = false -> authorizes s' id aid a.
Proof.
  intros [Ha Hi] Hc. apply (le_authorizations _ _ Hle) in Ha as (a' & Ha' & _ & Heq). by rewrite (Heq Hc) in Ha'.
Qed.
Lemma approved_by_passkey_le a a' :
  authorization_bound a' = authorization_bound a -> approved_by_passkey s a -> approved_by_passkey s' a'.
Proof.
  intros [= Hw Hid Hin Hep Hbi Hex His] (cid & c & cred & Hc & H1 & H2 & H3 & H4).
  apply (le_ceremonies _ _ Hle) in Hc as (c' & Hc' & _ & Heq). rewrite (Heq (completed_closed _ _ H2)) in Hc'.
  exists cid, c, cred. rewrite Hin, His, Hep, Hbi. done.
Qed.
Lemma claimed_le id aid signer session fp : claimed s id aid signer session fp -> claimed s' id aid signer session fp.
Proof.
  intros (n & Hn & H1 & H2). apply (le_nonces _ _ Hle) in Hn as (n' & Hn' & [= _ _ E1 _ E2]).
  exists n'. split; [done|]. by rewrite E1, E2.
Qed.
Lemma job_authorized_le jid j : job_authorized s jid j -> job_authorized s' jid j.
Proof.
  intros (Hid & r & v2 & aid & a & t & Hr & Hv & H1 & H2 & H3 & Hf & Ha & Ht & Hb & Hc). split; [done|].
  apply (le_intents _ _ Hle) in Hr as (r' & Hr' & [= Hwal Hep Hd Hp Hs Hx Hcr Hv2] & _ & Hfin).
  exists r', v2, aid, a, t. rewrite Hd, Hs, Hp, Hv2.
  split_and!; try done; [|by eapply authorizes_closed, consumed_closed|by apply claimed_le].
  intros HF. specialize (Hf HF). rewrite Hfin; [done|by rewrite Hf].
Qed.
Lemma claim_of_job_le jid c : claim_of_job s jid c -> claim_of_job s' jid c.
Proof.
  intros (j & Hj & H1 & H2 & H3). apply (le_jobs _ _ Hle) in Hj as (j' & Hj' & [Eb Eo] & _).
  exists j'. by rewrite Eb, Eo.
Qed.

(** No authorization is new. *)
Definition auths_from : Prop := forall aid a', db_authorizations s' !! aid = Some a' ->
  exists a, db_authorizations s !! aid = Some a /\ authorization_bound a' = authorization_bound a.

Lemma inv_auth_from aid a' : db_inv s -> auths_from -> db_authorizations s' !! aid = Some a' ->
  ac_id (az_record a') = aid /\
  exists r, db_intents s' !! ac_intent (az_record a') = Some r /\ ir_status r <> TxPending /\
    ir_epoch r = ac_epoch (az_record a') /\ (is_v2 r = true -> approved_by_passkey s' a').
Proof.
  intros HI Hfrom (a & Ha & Hbound)%Hfrom. pose proof Hbound as [= Hw Hid Hin Hep Hbi Hex His].
  apply (inv_auth _ HI) in Ha as (Haid & r & Hr & Hp & He & Hv).
  apply (le_intents _ _ Hle) in Hr as (r' & Hr' & [= Hwal Hre Hd Hpo Hs Hx Hcr Hv2] & Hpend & _).
  split; [congruence|]. exists r'. rewrite Hin, Hep. split_and!; [done|naive_solver|congruence|].
  unfold is_v2 in *. rewrite Hv2. intros V. by eapply approved_by_passkey_le, Hv.
Qed.
Lemma inv_unique_from id aid1 a1 aid2 a2 : db_inv s -> auths_from ->
  authorizes s' id aid1 a1 -> authorizes s' id aid2 a2 -> aid1 = aid2.
Proof.
  intros HI Hfrom [(b1 & Hb1 & [= _ _ E1 _ _ _ _])%Hfrom Hi1] [(b2 & Hb2 & [= _ _ E2 _ _ _ _])%Hfrom Hi2].
  apply (inv_unique _ HI id aid1 b1 aid2 b2); split; congruence.
Qed.

(** An intent that was signing before is so with the same evidence. *)
Lemma inv_signing_from id r r' v2 : db_inv s -> db_intents s !! id = Some r -> in_signing r ->
  intent_bound r' = intent_bound r -> ir_v2 r' = Some v2 ->
  exists aid a t fp, authorizes s' id aid a /\ ac_consumed_at (az_record a) = Some t /\
    claimed s' id aid (v2_signer_id v2) (ir_session_id r') fp.
Proof.
  intros HI Hr Hs [= Hw He Hd Hp Hss Hx Hc Hv] Hv'. rewrite Hv' in Hv. symmetry in Hv.
  destruct (inv_signing _ HI id r v2 Hr Hv Hs) as (aid & a & t & fp & Ha & Ht & Hcl).
  exists aid, a, t, fp. rewrite Hss. split_and!; [by eapply authorizes_closed, consumed_closed|done|by apply claimed_le].
Qed.
End along.

(** ** Steps outside the authority tables *)

Definition same_authority (s s' : WalletDb) : Prop :=
  (db_intents s' = db_intents s /\ db_authorizations s' = db_authorizations s) /\
  (db_jobs s' = db_jobs s /\ db_claims s' = db_claims s) /\
  (wm_epoch <$> db_metadata s') = (wm_epoch <$> db_metadata s).
#[export] Instance same_authority_preorder : PreOrder same_authority.
Proof.
  split; [done|]. intros ? ? ? ([] & [] & ?) ([] & [] & ?). unfold same_authority. split_and!; congruence.
Qed.

Lemma inv_same s s' : db_le s s' -> same_authority s s' -> db_inv s -> db_inv s'.
Proof.
  intros Hle ((Ei & Ea) & (Ej & Ec) & Em) HI.
  assert (auths_from s s') as Hfrom by (intros aid a'; rewrite Ea; eauto).
  constructor; unfold authorizes; rewrite ?Ei, ?Ej, ?Ec.
  - destruct (inv_metadata _ HI) as [m Hm]. rewrite Hm in Em. destruct (db_metadata s'); [eauto|done].
  - intros m' id r Hm' Hr. destruct (inv_metadata _ HI) as [m Hm]. rewrite Hm, Hm' in Em. injection Em as Em.
    rewrite Em. by apply (inv_epoch _ HI m id).
  - intros aid a Ha. rewrite <- Ei. by apply (inv_auth_from s s' Hle aid a HI Hfrom).
  - intros id aid1 a1 aid2 a2 H1 H2. by apply (inv_unique_from s s' id aid1 a1 aid2 a2 HI Hfrom).
  - intros id r Hr Hv Hs. rewrite Ea. by apply (inv_approved _ HI id r).
  - intros id r v2 Hr Hv Hs. by apply (inv_signing_from s s' Hle id r r v2).
  - intros jid j Hj. by eapply job_authorized_le, inv_job.
  - by apply inv_job_unique.
  - intros jid c Hc. by eapply claim_of_job_le, inv_claim.
Qed.

Create HintDb keeps_same.
Create HintDb keeps_inv.

Section outside.
Context `{UuidText} `{BuildInfo} `{BitcoinLib} `{JsonText} `{TextCodec} `{PolicyLib} `{PolicyJson} `{PolicyRowsJson} `{ActivationJson}.

Ltac same_solve := unfold same_authority; cbn; split_and!; try done; match goal with Hm : db_metadata _ = Some _ |- _ => by rewrite Hm end.

Lemma transition_restore_same from to now : keeps same_authority (transition_restore from to now).
Proof. unfold transition_restore. keeps_open. db_open. same_solve. Qed.
Lemma precheck_same now : keeps same_authority (begin_restore_precheck now).
Proof. unfold begin_restore_precheck. keeps_open. db_open. same_solve. Qed.
Lemma record_recovery_same r : keeps same_authority (record_cutover_recovery r).
Proof. unfold record_cutover_recovery. keeps_open. repeat case_match; db_open; same_solve. Qed.
Lemma startup_same now : keeps same_authority (invalidate_unfinished_ceremonies_on_startup now).
Proof. unfold invalidate_unfinished_ceremonies_on_startup. keeps_open. db_open. case_match; same_solve. Qed.
Lemma set_profile_same p : keeps same_authority (set_webauthn_profile p).
Proof. unfold set_webauthn_profile. keeps_open. repeat case_match; db_open; same_solve. Qed.
Lemma install_signer_catalog_same catalog : keeps same_authority (install_signer_catalog catalog).
Proof. apply keeps_install_catalog; [apply _|..]; intros x s; unfold same_authority; by split_and!. Qed.
Lemma store_policy_same hash bundle now : keeps same_authority (store_policy_bundle_bytes hash bundle now).
Proof. unfold store_policy_bundle_bytes. keeps_open. case_match; [case_match; res_open; reflexivity|]. res_open. same_solve. Qed.
Lemma propose_activation_same p : keeps same_authority (propose_policy_activation p).
Proof. unfold propose_policy_activation. keeps_open. unfold insert_proposal in *. db_open. same_solve. Qed.

#[local] Hint Resolve transition_restore_same precheck_same record_recovery_same startup_same set_profile_same
  install_signer_catalog_same store_policy_same propose_activation_same : keeps_same.

(** Steps that leave intents, authorizations, jobs and the epoch alone. *)
Definition is_outside (op : DbOp) : bool :=
  match op with
  | DbInitialize _ _ | DbCreateLegacyIntent _ _ | DbCreateIntent _ _ | DbTransition _ _ _ _ | DbApproveLegacy _ _
  | DbCompleteApproval _ | DbConsumeLegacy _ _ _ | DbClaimFrostNonce _ | DbCreateJob _ _ _ _ | DbClaimExecutor _
  | DbCompleteJob _ _ _ _ | DbTerminateJob _ _ _ _ _ | DbCutover _ => false
  | _ => true
  end.
Lemma outside_same op s : is_outside op = true -> same_authority s (exec op s).
Proof.
  enough (forall A (m : act WalletDb StorageError A), keeps same_authority m -> same_authority s (m s).1) as HK.
  { intros Hop. destruct op; try discriminate Hop; cbn [exec]; apply HK; try solve [eauto with keeps_same]; try apply transition_restore_same.
    - unfold upsert_credential. keeps_open. db_open. same_solve.
    - unfold insert_passkey_record. keeps_open. db_open. same_solve.
    - unfold update_passkey_record_cas. keeps_open. db_open. same_solve.
    - unfold begin_approval_ceremony_atomic. keeps_open. db_open. same_solve.
    - unfold begin_passkey_approval. keeps_open. db_open. same_solve.
    - unfold claim_nonce. keeps_open. db_open. same_solve.
    - unfold put_secret_ref. keeps_open. db_open. same_solve.
    - unfold register_signer_profile. keeps_open. db_open. same_solve.
    - unfold bind_signer_address. keeps_open. db_open. same_solve. }
  intros A m Hm. apply Hm.
Qed.
End outside.

(** ** Steps of an intent *)

(** Evidence that an intent may be signing. *)
Definition signing_evidence (s : WalletDb) (id : Uuid) (r : TransactionIntentRow) : Prop :=
  forall v2, ir_v2 r = Some v2 -> exists aid a t fp, authorizes s id aid a /\ ac_consumed_at (az_record a) = Some t /\
    claimed s id aid (v2_signer_id v2) (ir_session_id r) fp.
Definition open_authorization (s : WalletDb) (id : Uuid) : Prop :=
  exists aid a, authorizes s id aid a /\ authorization_open a = true.

Lemma in_signing_status st now r : in_signing (with_intent_status st now r) <-> st = TxSigning \/ st = TxSigned.
Proof. done. Qed.

Section moving.
Context (s s' : WalletDb) (Hle : db_le s s') (HI : db_inv s).

(** Jobs and claims that stay, stay authorized. *)
Lemma jobs_stay : db_jobs s' = db_jobs s ->
  (forall jid j, db_jobs s' !! jid = Some j -> job_authorized s' jid j) /\
  (forall jid1 j1 jid2 j2, db_jobs s' !! jid1 = Some j1 -> db_jobs s' !! jid2 = Some j2 ->
    jn_intent_id (jb_bound j1) = jn_intent_id (jb_bound j2) -> jid1 = jid2).
Proof.
  intros ->. split; [|apply (inv_job_unique _ HI)]. intros jid j Hj. by apply (job_authorized_le s), inv_job.
Qed.

Section one.
Context (m : WalletMetadata) (id0 : Uuid) (row : TransactionIntentRow) (st : TransactionIntentStatus) (now : Z).
Hypothesis Hm : db_metadata s = Some m.
Hypothesis Hm' : db_metadata s' = Some m.
Hypothesis Hrow : db_intents s !! id0 = Some row.
Hypothesis Hlive : is_unfinished (ir_status row) = true.
Hypothesis Hintents : db_intents s' = <[id0 := with_intent_status st now row]> (db_intents s).
Hypothesis Hothers : forall aid a, db_authorizations s !! aid = Some a -> ac_intent (az_record a) <> id0 ->
  db_authorizations s' !! aid = Some a.
Hypothesis Hclaims : db_claims s' = db_claims s.
Hypothesis Hjobs : forall jid j, db_jobs s' !! jid = Some j -> job_authorized s' jid j.
Hypothesis Hjobs_unique : forall jid1 j1 jid2 j2, db_jobs s' !! jid1 = Some j1 -> db_jobs s' !! jid2 = Some j2 ->
  jn_intent_id (jb_bound j1) = jn_intent_id (jb_bound j2) -> jid1 = jid2.
Hypothesis Happroved : st = TxApproved -> is_v2 row = true -> open_authorization s' id0.
Hypothesis Hsigning : st = TxSigning \/ st = TxSigned -> signing_evidence s' id0 row.

Lemma moved_epoch m' id r : db_metadata s' = Some m' -> db_intents s' !! id = Some r ->
  ir_epoch r <= wm_epoch m' /\ (is_unfinished (ir_status r) = true -> ir_epoch r = wm_epoch m').
Proof.
  intros Hmm Hr. rewrite Hm' in Hmm. injection Hmm as <-. rewrite Hintents in Hr.
  apply lookup_insert_Some in Hr as [[<- <-]|[_ Hr]]; [|by apply (inv_epoch _ HI m id)]. cbn.
  destruct (inv_epoch _ HI m id0 row Hm Hrow) as [He Hu]. split; [done|]. intros _. by apply Hu.
Qed.
Lemma moved_approved id r : db_intents s' !! id = Some r -> is_v2 r = true -> ir_status r = TxApproved ->
  open_authorization s' id.
Proof.
  rewrite Hintents. intros [[<- <-]|[Hn Hr]]%lookup_insert_Some Hv Hs; [by apply Happroved|].
  destruct (inv_approved _ HI id r Hr Hv Hs) as (aid & a & [Ha Hi] & Ho).
  exists aid, a. split; [|done]. split; [|done]. apply Hothers; [done|congruence].
Qed.
Lemma moved_signing id r v2 : db_intents s' !! id = Some r -> ir_v2 r = Some v2 -> in_signing r ->
  exists aid a t fp, authorizes s' id aid a /\ ac_consumed_at (az_record a) = Some t /\
    claimed s' id aid (v2_signer_id v2) (ir_session_id r) fp.
Proof.
  rewrite Hintents. intros [[<- <-]|[Hn Hr]]%lookup_insert_Some Hv Hs.
  - by apply (Hsigning (proj1 (in_signing_status st now row) Hs)).
  - by apply (inv_signing_from s s' Hle id r r v2).
Qed.

(** The move uses no new authorization. *)
Lemma inv_move : auths_from s s' -> db_inv s'.
Proof.
  intros Hfrom. constructor; [by exists m|exact moved_epoch| | |exact moved_approved|exact moved_signing|done|done|].
  - intros aid a. by apply (inv_auth_from s s').
  - intros id aid1 a1 aid2 a2. by apply (inv_unique_from s s').
  - rewrite Hclaims. intros jid c Hc. by apply (claim_of_job_le s), inv_claim.
Qed.

(** The move issues an authorization for its intent. *)
Lemma inv_issue aid0 a0 : db_authorizations s !! aid0 = None -> authorization_exists s id0 = false ->
  db_authorizations s' = <[aid0 := a0]> (db_authorizations s) ->
  ac_id (az_record a0) = aid0 -> ac_intent (az_record a0) = id0 -> ac_epoch (az_record a0) = ir_epoch row ->
  (is_v2 row = true -> approved_by_passkey s' a0) -> st <> TxPending -> db_inv s'.
Proof.
  intros Hfresh Hnone Ha Hid Hin Hep Hpass Hst. unfold authorization_exists in Hnone. rewrite some_row_false in Hnone.
  assert (forall aid a, authorizes s id0 aid a -> False) as Hno.
  { intros aid a [Hx Hy]. apply Hnone in Hx. by autorewrite with guards in Hx. }
  assert (forall id aid a, authorizes s' id aid a -> (id = id0 /\ aid = aid0) \/ authorizes s id aid a) as Hcases.
  { intros id aid a [Hx Hy]. rewrite Ha in Hx. apply lookup_insert_Some in Hx as [[<- <-]|[_ Hx]]; [left; split; congruence|by right]. }
  constructor; [by exists m|exact moved_epoch| | |exact moved_approved|exact moved_signing|done|done|].
  - intros aid a Hx. rewrite Ha in Hx. apply lookup_insert_Some in Hx as [[<- <-]|[Hne Hx]].
    + split; [done|]. exists (with_intent_status st now row). rewrite Hin, Hintents, lookup_insert_eq. by split_and!.
    + destruct (inv_auth _ HI aid a Hx) as (H1 & r & Hr & H2 & H3 & H4). split; [done|].
      assert (ac_intent (az_record a) <> id0) as Hne0 by (intros E; by apply (Hno aid a)).
      exists r. rewrite Hintents, lookup_insert_ne by done. split_and!; try done.
      intros V. by apply (approved_by_passkey_le s s' Hle a a eq_refl), H4.
  - intros id aid1 a1 aid2 a2 H1 H2.
    destruct (Hcases _ _ _ H1) as [[-> ->]|G1], (Hcases _ _ _ H2) as [[E2 ->]|G2]; try done.
    + by apply Hno in G2.
    + subst. by apply Hno in G1.
    + by apply (inv_unique _ HI id aid1 a1 aid2 a2).
  - rewrite Hclaims. intros jid c Hc. by apply (claim_of_job_le s), inv_claim.
Qed.
End one.
End moving.

(** ** Every step keeps the invariant *)

Definition inv_step (s s' : WalletDb) : Prop := db_inv s -> db_inv s'.
#[export] Instance inv_step_preorder : PreOrder inv_step.
Proof. unfold inv_step. split; [intros s Hs; exact Hs|intros s1 s2 s3; auto]. Qed.

Lemma auths_from_same s s' : db_authorizations s' = db_authorizations s -> auths_from s s'.
Proof. intros E aid a. rewrite E. eauto. Qed.
Lemma auths_from_consumed s s' aid0 a0 now : db_authorizations s !! aid0 = Some a0 ->
  db_authorizations s' = <[aid0 := authorization_consumed now a0]> (db_authorizations s) -> auths_from s s'.
Proof. intros H0 E aid a. rewrite E. intros [[<- <-]|[_ Ha]]%lookup_insert_Some; eauto. Qed.
Lemma others_consumed s s' aid0 a0 id0 now : db_authorizations s !! aid0 = Some a0 -> ac_intent (az_record a0) = id0 ->
  db_authorizations s' = <[aid0 := authorization_consumed now a0]> (db_authorizations s) ->
  forall aid a, db_authorizations s !! aid = Some a -> ac_intent (az_record a) <> id0 -> db_authorizations s' !! aid = Some a.
Proof. intros H0 Hi E aid a Ha Hn. rewrite E, lookup_insert_ne; [done|]. intros <-. congruence. Qed.

(** The database after the step lies above the one before. *)
Ltac next_order s := match goal with |- db_inv ?s' => assert (db_le s s') as Hle by le_solve end.

Section preservation.
Context `{UuidText} `{BuildInfo} `{BitcoinLib} `{JsonText} `{TextCodec} `{PolicyLib} `{PolicyJson} `{PolicyRowsJson} `{ActivationJson}.

(** A new intent is pending and has no evidence to give. *)
Lemma inv_create s s' m id0 row : db_le s s' -> db_inv s -> db_metadata s = Some m -> db_metadata s' = Some m ->
  db_intents s' = <[id0 := row]> (db_intents s) -> db_intents s !! id0 = None ->
  ir_status row = TxPending -> ir_epoch row = wm_epoch m ->
  db_authorizations s' = db_authorizations s -> db_jobs s' = db_jobs s -> db_claims s' = db_claims s -> db_inv s'.
Proof.
  intros Hle HI Hm Hm' Hi Hfresh Hst Hep Ha Hj Hc. destruct (jobs_stay s s' Hle HI Hj) as [J1 J2].
  constructor; [by exists m| | | | | |done|done|].
  - intros m' id r Hmm Hr. rewrite Hm' in Hmm. injection Hmm as <-. rewrite Hi in Hr.
    apply lookup_insert_Some in Hr as [[<- <-]|[_ Hr]]; [split; [lia|done]|by apply (inv_epoch _ HI m id)].
  - intros aid a. apply (inv_auth_from s s' Hle aid a HI). by apply auths_from_same.
  - intros id aid1 a1 aid2 a2. apply (inv_unique_from s s' id aid1 a1 aid2 a2 HI). by apply auths_from_same.
  - intros id r. rewrite Hi. intros [[<- <-]|[_ Hr]]%lookup_insert_Some Hv Hs; [congruence|].
    unfold authorizes. rewrite Ha. by apply (inv_approved _ HI id r).
  - intros id r v2. rewrite Hi. intros [[<- <-]|[_ Hr]]%lookup_insert_Some Hv Hs; [destruct Hs; congruence|].
    by apply (inv_signing_from s s' Hle id r r v2).
  - rewrite Hc. intros jid c Hcl. by apply (claim_of_job_le s s' Hle), inv_claim.
Qed.
Lemma create_legacy_inv i c : keeps inv_step (create_transaction_intent_with_audit i c).
Proof.
  unfold create_transaction_intent_with_audit. keeps_open. db_open. intros HI.
  eapply inv_create; [..|reflexivity|eassumption|reflexivity| | | |]; try done. le_solve.
Qed.
Lemma create_inv i mt : keeps inv_step (create_transaction_intent_v2 i mt).
Proof.
  unfold create_transaction_intent_v2. keeps_open. db_open. intros HI.
  eapply inv_create; [..|reflexivity|eassumption|reflexivity| | | |]; try done. le_solve.
Qed.

(** A change of status that no signing is about. *)
Lemma transition_inv id expected next now : keeps inv_step (transition_transaction_intent id expected next now).
Proof.
  unfold transition_transaction_intent. destruct (may_transition_to expected next) eqn:Ht; [|by intros s].
  keeps_open. db_open. intros HI. pose proof (may_transition_unfinished _ _ Ht) as [Hu Hn].
  next_order s. destruct (jobs_stay s _ Hle HI eq_refl) as [J1 J2].
  apply (inv_move s _ Hle HI m id row next now); try done.
  - intros ->. by destruct (ir_status row).
  - intros Hs v2 Hv. apply (inv_signing_from s _ Hle id row row v2 HI); try done.
    destruct (ir_status row) eqn:Es, next; try discriminate Ht; try (by destruct Hs); [|by left].
    exfalso. match goal with Hg : context [current_v2] |- _ => rewrite Hrow in Hg; revert Hg end.
    unfold current_v2, in_current_epoch, is_v2 in *. rewrite Hv. autorewrite with guards in *. destruct_ex. naive_solver.
  - by apply auths_from_same.
Qed.

(** An approval issues the one authorization of its pending intent. *)
Lemma inv_approve s s' m id0 row now aid0 a0 :
  db_le s s' -> db_inv s -> db_metadata s = Some m -> db_metadata s' = Some m ->
  db_intents s !! id0 = Some row -> ir_status row = TxPending -> ir_epoch row = wm_epoch m ->
  db_intents s' = <[id0 := with_intent_status TxApproved now row]> (db_intents s) ->
  db_authorizations s !! aid0 = None -> authorization_exists s id0 = false ->
  db_authorizations s' = <[aid0 := a0]> (db_authorizations s) -> authorization_open a0 = true ->
  ac_id (az_record a0) = aid0 -> ac_intent (az_record a0) = id0 -> ac_epoch (az_record a0) = wm_epoch m ->
  (is_v2 row = true -> approved_by_passkey s' a0) -> db_jobs s' = db_jobs s -> db_claims s' = db_claims s -> db_inv s'.
Proof.
  intros Hle HI Hm Hm' Hrow Hst Hep Hi Hfresh Hnone Ha Ho Haid Hin Hae Hpass Hj Hc.
  destruct (jobs_stay s _ Hle HI Hj) as [J1 J2].
  apply (inv_issue s s' Hle HI m id0 row TxApproved now Hm Hm' Hrow) with (aid0 := aid0) (a0 := a0); try done.
  - by rewrite Hst.
  - intros aid a Hx _. rewrite Ha, lookup_insert_ne; [done|congruence].
  - intros _ _. exists aid0, a0. rewrite <- Hin. split; [split; [|done]|done]. by rewrite Ha, lookup_insert_eq.
  - by intros [|].
  - congruence.
Qed.
Lemma approve_legacy_inv d c : keeps inv_step (approve_and_issue_authorization d c).
Proof.
  unfold approve_and_issue_authorization. keeps_open. db_open. intros HI. next_order s.
  eapply (inv_approve s _ m _ row _ _ _ Hle HI Hm Hm Hrow); try done. intros V. exfalso. congruence.
Qed.
Lemma complete_approval_inv p : keeps inv_step (complete_passkey_approval_atomic p).
Proof.
  unfold complete_passkey_approval_atomic. keeps_open. db_open. intros HI. next_order s.
  eapply (inv_approve s _ m _ row _ _ _ Hle HI Hm Hm Hrow); try done. intros _.
  exists (pc_ceremony_id p), (ceremony_completed (pc_approved_at p) row0), (pc_credential_id p).
  cbn. rewrite lookup_insert_eq. split_and!; try done; by simplify_eq.
Qed.

(** A version 1 authorization is consumed on its own. *)
Lemma consume_legacy_inv id epoch now : keeps inv_step (consume_authorization id epoch now).
Proof.
  unfold consume_authorization. keeps_open. db_open. intros HI. next_order s.
  destruct (jobs_stay s _ Hle HI eq_refl) as [J1 J2].
  assert (auths_from s (append_audit m "authorization.consumed" (Some (uuid_to_string id)) now
            (put_authorizations (<[id := authorization_consumed now row]> (db_authorizations s)) s))) as Hfrom
    by (by apply (auths_from_consumed s _ id row now)).
  constructor; [by exists m|by apply (inv_epoch _ HI)| | | | |done|done|].
  - intros aid a. by apply (inv_auth_from s _ Hle aid a HI).
  - intros id1 aid1 a1 aid2 a2. by apply (inv_unique_from s _ id1 aid1 a1 aid2 a2 HI).
  - cbn. intros id1 r Hr Hv Hs. destruct (inv_approved _ HI id1 r Hr Hv Hs) as (aid & a & [Ha Hi] & Ho).
    exists aid, a. split; [|done]. split; [|done]. cbn. rewrite lookup_insert_ne; [done|]. intros <-.
    rewrite Hrow in Ha. simplify_eq.
    match goal with Hg : context [of_epoch] |- _ => rewrite Hrow, Hr, Hv, andb_true_r in Hg end. congruence.
  - intros id1 r v2 Hr Hv Hs. by apply (inv_signing_from s _ Hle id1 r r v2).
  - intros jid c Hc. by apply (claim_of_job_le s _ Hle), inv_claim.
Qed.

(** A version 2 intent starts signing: its authorization is consumed and its
    nonce claimed in the same transaction. *)
Lemma inv_start s s' m id0 row now aid0 a0 fp :
  db_le s s' -> db_inv s -> db_metadata s = Some m -> db_metadata s' = Some m ->
  db_intents s !! id0 = Some row -> ir_status row = TxApproved ->
  db_intents s' = <[id0 := with_intent_status TxSigning now row]> (db_intents s) ->
  authorizes s id0 aid0 a0 -> db_authorizations s' = <[aid0 := authorization_consumed now a0]> (db_authorizations s) ->
  (forall v2, ir_v2 row = Some v2 -> claimed s' id0 aid0 (v2_signer_id v2) (ir_session_id row) fp) ->
  (forall jid j, db_jobs s' !! jid = Some j -> job_authorized s' jid j) ->
  (forall jid1 j1 jid2 j2, db_jobs s' !! jid1 = Some j1 -> db_jobs s' !! jid2 = Some j2 ->
    jn_intent_id (jb_bound j1) = jn_intent_id (jb_bound j2) -> jid1 = jid2) ->
  db_claims s' = db_claims s -> db_inv s'.
Proof.
  intros Hle HI Hm Hm' Hrow Hst Hi [Ha0 Hin] Ha Hcl J1 J2 Hc.
  apply (inv_move s s' Hle HI m id0 row TxSigning now Hm Hm' Hrow); try done.
  - by rewrite Hst.
  - by apply (others_consumed s s' aid0 a0 id0 now).
  - intros _ v2 Hv. exists aid0, (authorization_consumed now a0), now, fp.
    split_and!; [split; [by rewrite Ha, lookup_insert_eq|done]|done|by apply Hcl].
  - by apply (auths_from_consumed s s' aid0 a0 now).
Qed.
Lemma claim_frost_inv c : keeps inv_step (consume_authorization_and_claim_frost_nonce c).
Proof.
  unfold consume_authorization_and_claim_frost_nonce. keeps_open. db_open. intros HI. next_order s.
  destruct (jobs_stay s _ Hle HI eq_refl) as [J1 J2].
  simplify_eq.
  eapply (inv_start s _ m _ _ _ _ _ _ Hle HI Hm Hm); try done.
  intros v2' Hv. eexists. cbn. rewrite lookup_insert_eq. split; [done|]. cbn. split; congruence.
Qed.

(** An intent whose authorization is open has no job. *)
Lemma open_has_no_job s aid a jid j : db_inv s -> db_authorizations s !! aid = Some a -> authorization_open a = true ->
  db_jobs s !! jid = Some j -> jn_intent_id (jb_bound j) = ac_intent (az_record a) -> False.
Proof.
  intros HI Ha Ho Hj Hin. apply (inv_job _ HI) in Hj as (_ & r & v2 & aid' & a' & t & _ & _ & _ & _ & _ & _ & Hb & Ht & _).
  rewrite Hin in Hb. assert (aid = aid') as <- by (by apply (inv_unique _ HI _ aid a aid' a' (conj Ha eq_refl))).
  destruct Hb as [Hb _]. rewrite Ha in Hb. injection Hb as <-. apply consumed_closed in Ht. congruence.
Qed.
Lemma inv_start_job s s' m row v2 now aid a j job :
  db_le s s' -> db_inv s -> db_metadata s = Some m -> db_metadata s' = Some m ->
  db_intents s !! jn_intent_id j = Some row -> ir_status row = TxApproved -> ir_v2 row = Some v2 ->
  db_intents s' = <[jn_intent_id j := with_intent_status TxSigning now row]> (db_intents s) ->
  authorizes s (jn_intent_id j) aid a -> authorization_open a = true ->
  db_authorizations s' = <[aid := authorization_consumed now a]> (db_authorizations s) ->
  claimed s' (jn_intent_id j) aid (v2_signer_id v2) (ir_session_id row) (ac_binding (az_record a)) ->
  db_jobs s' = <[jn_job_id j := job]> (db_jobs s) -> jb_bound job = j -> jb_status job = SjSigning ->
  jb_operation_binding_digest job = Some (ac_binding (az_record a)) ->
  ir_tx_digest row = jn_signing_message_digest j -> ir_session_id row = jn_session_id j ->
  ir_policy_hash row = jn_policy_snapshot_digest j -> db_claims s' = db_claims s -> db_inv s'.
Proof.
  intros Hle HI Hm Hm' Hrow Hst Hv Hi [Ha Hin] Ho Ha' Hcl Hj Hb Hjs Hbind Hd Hss Hp Hc.
  eapply (inv_start s s' m _ row now aid a _ Hle HI Hm Hm' Hrow Hst Hi (conj Ha Hin) Ha'); [| | |done].
  - intros v Hv'. rewrite Hv in Hv'. by injection Hv' as <-.
  - intros jid j'. rewrite Hj. intros [[<- <-]|[_ Hj']]%lookup_insert_Some.
    + split; [by rewrite Hb|]. exists (with_intent_status TxSigning now row), v2, aid, (authorization_consumed now a), now.
      rewrite Hb, Hi, lookup_insert_eq, Hjs. split_and!; try done. split; [by rewrite Ha', lookup_insert_eq|done].
    + by apply (job_authorized_le s s' Hle), inv_job.
  - intros jid1 j1 jid2 j2. rewrite Hj. rewrite <- Hb in Hin.
    intros [[<- <-]|[_ H1']]%lookup_insert_Some [[<- <-]|[_ H2']]%lookup_insert_Some E; try done.
    + exfalso. eapply (open_has_no_job s aid a _ _ HI Ha Ho H2'). congruence.
    + exfalso. eapply (open_has_no_job s aid a _ _ HI Ha Ho H1'). congruence.
    + by apply (inv_job_unique _ HI jid1 j1 jid2 j2).
Qed.
Lemma start_job_inv aid j b now : keeps inv_step (start_signing_job aid j b now).
Proof.
  unfold start_signing_job, authorization_matches_job. keeps_open. db_open. intros HI. next_order s. simplify_eq.
  eapply (inv_start_job s _ m _ _ now aid _ j _ Hle HI Hm Hm); try done.
  eexists. cbn. rewrite lookup_insert_eq. by split_and!.
Qed.
Lemma create_job_inv aid j b now : keeps inv_step (create_signing_job aid j b now).
Proof. unfold create_signing_job. repeat (keeps_step; try apply start_job_inv). Qed.

Lemma claim_executor_inv c : keeps inv_step (claim_chain_executor c).
Proof.
  unfold claim_chain_executor. keeps_open. db_open. intros HI. next_order s.
  destruct (jobs_stay s _ Hle HI eq_refl) as [J1 J2].
  match goal with E : List.find _ _ = Some (_, ?j0) |- _ =>
    apply List.find_some in E as [Hin%list_elem_of_In%elem_of_map_to_list Hfor] end.
  unfold claim_is_for in Hfor. cbn in Hfor. autorewrite with guards in Hfor. destruct_ex.
  constructor; [by exists m|by apply (inv_epoch _ HI)| |by apply (inv_unique _ HI)|by apply (inv_approved _ HI)| |done|done|].
  - intros aid a. apply (inv_auth_from s _ Hle aid a HI). by apply auths_from_same.
  - intros id r v2 Hr Hv Hs. by apply (inv_signing_from s _ Hle id r r v2).
  - cbn. intros jid c0 [[<- <-]|[_ Hc]]%lookup_insert_Some; [by exists s0|].
    by apply (claim_of_job_le s _ Hle), inv_claim.
Qed.

(** A job ends with its intent; only a signed intent has a finalized job. *)
Lemma end_job_inv job_id binding live change status event now :
  (forall j, jb_status j = SjSigning -> job_le j (change j)) ->
  (forall j, jb_status (change j) = SjFinalized -> status = TxSigned) -> status = TxSigned \/ status = TxInvalidated ->
  keeps inv_step (end_signing_job job_id binding live change status event now).
Proof.
  intros Hc Hf Hst. assert (status <> TxPending) as Hnp by (destruct Hst; congruence).
  unfold end_signing_job. keeps_open. db_open. intros HI. next_order s. simplify_eq.
  match goal with Hj : db_jobs s !! job_id = Some ?j0, Hs : jb_status ?j0 = SjSigning |- _ =>
    rename j0 into job; rename Hj into Hjob; rename Hs into Hsig end.
  destruct (Hc job Hsig) as [[Hb Ho] _].
  eapply (inv_move s _ Hle HI m _ _ status now Hm Hm); try done.
  - match goal with Hs : ir_status _ = TxSigning |- _ => by rewrite Hs end.
  - cbn. intros jid j' [[<- <-]|[Hne Hj']]%lookup_insert_Some; [|by apply (job_authorized_le s _ Hle), inv_job].
    pose proof (job_authorized_le s _ Hle _ _ (inv_job _ HI _ _ Hjob)) as (Hid & r & v2 & aid & a & t & Hr & Hrest).
    unfold job_authorized. rewrite Hb, Ho. split; [done|]. exists r, v2, aid, a, t.
    destruct Hrest as (G1 & G2 & G3 & G4 & G5 & G6). split_and!; try done; try apply G6.
    intros HF. apply Hf in HF as ->. cbn in Hr. rewrite lookup_insert_eq in Hr. by injection Hr as <-.
  - cbn. intros jid1 j1 jid2 j2 [[<- <-]|[_ H1']]%lookup_insert_Some [[<- <-]|[_ H2']]%lookup_insert_Some E; try done.
    + rewrite Hb in E. by eapply (inv_job_unique _ HI).
    + rewrite Hb in E. by eapply (inv_job_unique _ HI).
    + by apply (inv_job_unique _ HI jid1 j1 jid2 j2).
  - intros ->. by destruct Hst.
  - intros _ v2 Hv. eapply (inv_signing_from s _ Hle); try done. by left.
  - by apply auths_from_same.
Qed.

(** The cutover leaves no intent of an earlier epoch unfinished. *)
Lemma cutover_finishes (epoch now : Z) (t : gmap Uuid TransactionIntentRow) (id : Uuid) (r : TransactionIntentRow) :
  (forall k v, t !! k = Some v -> ir_epoch v < epoch) ->
  update_all (fun r => (ir_epoch r <? epoch) && is_unfinished (ir_status r)) (with_intent_status TxInvalidated now) t
    !! id = Some r ->
  is_unfinished (ir_status r) = false /\ ir_epoch r < epoch /\
  (ir_status r = TxSigned -> t !! id = Some r).
Proof.
  intros Hep. rewrite lookup_update_all. intros (r0 & Hr0 & ->)%fmap_Some. apply Hep in Hr0 as Hlt.
  rewrite (proj2 (Z.ltb_lt _ _) Hlt). cbn. destruct (is_unfinished (ir_status r0)) eqn:Hu; by split_and!.
Qed.
Lemma cutover_inv now : keeps inv_step (cutover_restore now).
Proof.
  unfold cutover_restore, checked_add. keeps_open. case_bool_decide as Hnew; [|by db_open]. db_open. intros HI.
  match goal with |- db_inv ?x => set (s1 := x) end.
  assert (db_le s s1) as Hle.
  { subst s1. le_solve. eapply metadata_set; [eassumption|split; [done|cbn; lia]]. }
  assert (forall id r, db_intents s !! id = Some r -> ir_epoch r < wm_epoch m + 1) as Hep.
  { intros id r Hr. apply (inv_epoch _ HI m id) in Hr as [Hr _]; [lia|done]. }
  assert (auths_from s s1) as Hfrom.
  { intros aid a'. unfold s1. cbn. rewrite lookup_update_all. intros (a & Ha & ->)%fmap_Some. exists a. split; [done|].
    by destruct (_ && _). }
  destruct (jobs_stay s s1 Hle HI eq_refl) as [J1 J2].
  constructor; [by eexists| | | | | |done|done|].
  - intros m' id r [= <-] (Hu & Hlt & _)%cutover_finishes; [|done]. cbn. split; [lia|congruence].
  - intros aid a. by apply (inv_auth_from s s1 Hle aid a HI).
  - intros id aid1 a1 aid2 a2. by apply (inv_unique_from s s1 id aid1 a1 aid2 a2 HI).
  - intros id r (Hu & _)%cutover_finishes _ Hs; [|done]. by rewrite Hs in Hu.
  - intros id r v2 Hr Hv Hs. apply cutover_finishes in Hr as (Hu & _ & Hold); [|done].
    destruct Hs as [Hs|Hs]; [by rewrite Hs in Hu|].
    apply (inv_signing_from s s1 Hle id r r v2 HI (Hold Hs)); [by right|done|done].
  - intros jid c Hc. by apply (claim_of_job_le s s1 Hle), inv_claim.
Qed.

#[local] Hint Resolve create_legacy_inv create_inv transition_inv approve_legacy_inv complete_approval_inv
  consume_legacy_inv claim_frost_inv create_job_inv claim_executor_inv cutover_inv : keeps_inv.

Lemma initialize_inv wallet now : keeps inv_step (initialize wallet now).
Proof. intros s HI. unfold initialize. destruct (inv_metadata _ HI) as [m ->]. exact HI. Qed.
Lemma terminate_inv job_id binding status reason now : keeps inv_step (terminate_signing_job job_id binding status reason now).
Proof.
  unfold terminate_signing_job. destruct (reject_if _ _) as [[]|e] eqn:Hg; [|by intros s].
  autorewrite with guards in Hg. apply keeps_bind; [apply _|apply keeps_lift; apply _|intros _].
  apply end_job_inv; [eauto with db| |by right]. cbn. naive_solver.
Qed.
Lemma exec_inv op s : db_inv s -> db_inv (exec op s).
Proof.
  destruct (is_outside op) eqn:Hop; [apply inv_same; [apply exec_le|by apply outside_same]|].
  enough (forall A (m : act WalletDb StorageError A), keeps inv_step m -> inv_step s (m s).1) as HK.
  { destruct op; try discriminate Hop; cbn [exec]; apply HK; try solve [eauto with keeps_inv]; try apply initialize_inv.
    - unfold complete_signing_job. apply keeps_bind; [apply _|apply keeps_lift; apply _|intros _].
      apply end_job_inv; [eauto with db|done|by left].
    - apply terminate_inv. }
  intros A m Hm. apply Hm.
Qed.
End preservation.
