(* ===== verification/PersonalDb.v ===== *)
(** * The durable records of personal signing
      (the personal signing tables of src/crates/wallet-storage/src/sqlite.rs,
       with models.rs)

    The tables of personal operations and receipts beside the other tables of
    the wallet database, which an operation reads and writes when it starts: its
    approved intent, the authorization it consumes, the nonce ledger and the
    audit log.  A method runs in one SQLite transaction: it either commits all
    its writes or leaves every table as it was.  The triggers of the schema
    forbid updates of the bound columns and deletions, which no method attempts.
    JSON decoding of the stored intent material is the interface
    [IntentMaterialJson]. *)

From Stdlib Require Import ZArith Lia.
From S2P Require Import Prelude Bitcoin Text Personal Effects StorageModels Provider WalletDb SignerDevices WalletDbInv.
From stdpp Require Import list gmap strings.
Local Open Scope string_scope.
Local Open Scope list_scope.
Local Open Scope Z_scope.

(** ** Data *)

Inductive PersonalSigningOperationStatus :=
| OpCollectingCommitments | OpCollectingShares | OpFinalized | OpAborted | OpExpired | OpFailed.
#[export] Instance PersonalSigningOperationStatus_eq_dec : EqDecision PersonalSigningOperationStatus.
Proof. solve_decision. Defined.

Inductive PersonalSigningRound := RoundCommitment | RoundSignatureShare.
#[export] Instance PersonalSigningRound_eq_dec : EqDecision PersonalSigningRound.
Proof. solve_decision. Defined.
#[export] Program Instance PersonalSigningRound_countable : Countable PersonalSigningRound :=
  inj_countable (fun r => match r with RoundCommitment => false | RoundSignatureShare => true end)
    (fun b => Some (if b : bool then RoundSignatureShare else RoundCommitment)) _.
Next Obligation. by intros []. Qed.

Record NewPersonalSigningOperation := mkNewPersonalSigningOperation {
  no_operation_id : Uuid;
  no_wallet_id : Uuid;
  no_profile_id : Uuid;
  no_signer_set_id : Uuid;
  no_signer_epoch : Z;
  no_intent_id : Uuid;
  no_session_id : bytes;
  no_taproot_sighash : bytes;
  no_policy_digest : bytes;
  no_chain_snapshot_digest : bytes;
  no_group_pubkey_xonly : bytes;
  no_profile_binding_digest : bytes;
  no_operation_binding_digest : bytes;
  no_allowed_participants : Z * Z * Z;
  no_selected_participants : Z * Z;
  no_threshold : Z;
  no_max_signers : Z;
  no_expires_at : Z;
  no_created_at : Z;
}.

(** The bound columns, which never change, and the rest of the row. *)
Record PersonalSigningOperation := mkPersonalSigningOperation {
  op_bound : NewPersonalSigningOperation;
  op_status : PersonalSigningOperationStatus;
  op_signing_package : option bytes;
  op_final_signature : option bytes;
  op_terminal_reason : option string;
  op_updated_at : Z;
}.

Record PersonalSigningReceipt := mkPersonalSigningReceipt {
  pr_operation_id : Uuid;
  pr_signer_id : Z;
  pr_round : PersonalSigningRound;
  pr_device_id : Uuid;
  pr_device_generation : Z;
  pr_request_binding_digest : bytes;
  pr_payload : bytes;
  pr_received_at : Z;
}.

Record PersistedPersonalSigningPolicy := mkPersistedPersonalSigningPolicy {
  pj_profile_id : Uuid;
  pj_signer_set_id : Uuid;
  pj_signer_epoch : Z;
  pj_group_pubkey_xonly : string;
  pj_allowed_participants : Z * Z * Z;
  pj_threshold : Z;
  pj_policy_digest : string;
  pj_chain_snapshot_digest : string;
}.
(** [serde_json::from_str::<PersistedPersonalIntent>] *)
Class IntentMaterialJson := parse_intent_material : string -> option PersistedPersonalSigningPolicy.

(** The whole database: the wallet's tables with the signer tables, and those of
    personal signing. *)
Record WalletStorage := mkWalletStorage {
  st_tables : SignerTables;
  st_operations : gmap Uuid PersonalSigningOperation;
  st_receipts : gmap (Uuid * Z * PersonalSigningRound) PersonalSigningReceipt;
}.
Definition st_db (s : WalletStorage) : WalletDb := sv_database (st_tables s).

(** Table updates. *)
Definition set_db (d : WalletDb) (s : WalletStorage) : WalletStorage :=
  mkWalletStorage (put_database d (st_tables s)) (st_operations s) (st_receipts s).
Definition set_operations (o : gmap Uuid PersonalSigningOperation) (s : WalletStorage) : WalletStorage :=
  mkWalletStorage (st_tables s) o (st_receipts s).
Definition set_receipts (r : gmap (Uuid * Z * PersonalSigningRound) PersonalSigningReceipt) (s : WalletStorage)
    : WalletStorage :=
  mkWalletStorage (st_tables s) (st_operations s) r.

(** A SQLite transaction: dropped without commit, it rolls back. *)
Definition transaction {A} (body : WalletMetadata -> WalletStorage -> result StorageError (WalletStorage * A))
    : act WalletStorage StorageError A := fun s =>
  match (metadata ← ok_or (db_metadata (st_db s)) ST_NotInitialized;
         _ ← ensure_mutations_allowed metadata; body metadata s) with
  | Ok (s', a) => (s', Ok a)
  | Err e => (s, Err e)
  end.

(** ** Operations *)

Definition validate_new_personal_operation (o : NewPersonalSigningOperation) : result StorageError unit :=
  let '(a, b) := no_selected_participants o in
  reject_if ((no_signer_epoch o =? 0) || negb (no_threshold o =? 2) || negb (no_max_signers o =? 3)
    || negb (bool_decide (no_allowed_participants o = (1, 2, 3)))
    || (b <=? a)
    || existsb (fun signer_id => negb ((1 <=? signer_id) && (signer_id <=? 3))) [a; b]
    || (no_expires_at o <=? no_created_at o)) ST_InvalidPersonalSigningOperation.

Section storage.
Context `{UuidText} `{BuildInfo} `{BitcoinLib} `{IntentMaterialJson}.

(** The audit row of a method of these tables. *)
Definition record_event (metadata : WalletMetadata) (event_type : string) (operation_id : Uuid) (now : Z) (s : WalletStorage)
    : WalletStorage :=
  set_db (append_audit metadata event_type (Some (uuid_to_string operation_id)) now (st_db s)) s.

Definition decode_hex32 (value : string) : result StorageError bytes :=
  b ← ok_or (hex_decode value) ST_InvalidPersonalSigningOperation;
  _ ← reject_if (negb (length b =? 32)%nat) ST_InvalidPersonalSigningOperation;
  Ok b.

Definition validate_personal_operation_material (payload_json : string) (payload_hash : bytes)
    (o : NewPersonalSigningOperation) : result StorageError unit :=
  _ ← reject_if (negb (bool_decide (sha256 (ascii_bytes payload_json) = payload_hash))) ST_InvalidPersonalSigningOperation;
  policy ← ok_or (parse_intent_material payload_json) ST_InvalidPersonalSigningOperation;
  group_pubkey_xonly ← decode_hex32 (pj_group_pubkey_xonly policy);
  policy_digest ← decode_hex32 (pj_policy_digest policy);
  chain_snapshot_digest ← decode_hex32 (pj_chain_snapshot_digest policy);
  reject_if (negb (bool_decide (pj_profile_id policy = no_profile_id o))
    || negb (bool_decide (pj_signer_set_id policy = no_signer_set_id o))
    || negb (pj_signer_epoch policy =? no_signer_epoch o)
    || negb (bool_decide (group_pubkey_xonly = no_group_pubkey_xonly o))
    || negb (bool_decide (pj_allowed_participants policy = no_allowed_participants o))
    || negb (pj_threshold policy =? no_threshold o)
    || negb (bool_decide (policy_digest = no_policy_digest o))
    || negb (bool_decide (chain_snapshot_digest = no_chain_snapshot_digest o))) ST_InvalidPersonalSigningOperation.

(** The join of authorization, intent and policy input. *)
Definition select_authorization (d : WalletDb) (m : WalletMetadata) (authorization_id intent_id : Uuid)
    : option (AuthorizationRow * TransactionIntentRow * IntentV2Columns * MaterialRow) :=
  auth ← db_authorizations d !! authorization_id;
  intent ← db_intents d !! intent_id;
  v2 ← ir_v2 intent;
  material ← db_materials d !! (intent_id, KindPolicyInput);
  if bool_decide (ac_intent (az_record auth) = intent_id) && bool_decide (az_wallet_id auth = wm_wallet_id m)
     && of_epoch (wm_epoch m) auth
  then Some (auth, intent, v2, material) else None.

Definition authorization_unusable (auth : AuthorizationRow) (intent : TransactionIntentRow) (v2 : IntentV2Columns)
    (o : NewPersonalSigningOperation) (now : Z) : bool :=
  (ac_expires_at (az_record auth) <? now)
  || bool_decide (is_Some (ac_consumed_at (az_record auth)))
  || bool_decide (is_Some (ac_invalidated_at (az_record auth)))
  || negb (bool_decide (ir_session_id intent = no_session_id o))
  || negb (bool_decide (ir_status intent = TxApproved))
  || negb (bool_decide (v2_signer_id v2 = "frost:participant-0"))
  || negb (bool_decide (ir_tx_digest intent = no_taproot_sighash o))
  || negb (bool_decide (ir_policy_hash intent = no_policy_digest o))
  || negb (ir_expires_at intent =? no_expires_at o).

Definition consume_authorization_and_create_personal_signing_operation (authorization_id : Uuid)
    (o : NewPersonalSigningOperation) (now : Z) : act WalletStorage StorageError PersonalSigningOperation :=
  _ ← lift (validate_new_personal_operation o);
  transaction (fun metadata s =>
    let d := st_db s in
    _ ← reject_if (negb (bool_decide (wm_wallet_id metadata = no_wallet_id o))
          || negb (no_created_at o =? now) || (no_expires_at o <? now)) ST_InvalidPersonalSigningOperation;
    _ ← match st_operations s !! no_operation_id o with
        | Some existing =>
            Err (if bool_decide (no_operation_binding_digest (op_bound existing) = no_operation_binding_digest o)
                 then ST_PersonalSigningOperationConflict else ST_PersonalSigningOperationBindingDrift)
        | None => Ok tt
        end;
    '(auth, intent, v2, material) ←
      ok_or (select_authorization d metadata authorization_id (no_intent_id o)) ST_AuthorizationUnavailable;
    _ ← reject_if (authorization_unusable auth intent v2 o now) ST_AuthorizationUnavailable;
    _ ← validate_personal_operation_material (mr_payload_json material) (mr_payload_hash material) o;
    _ ← to_sql_u64 (no_signer_epoch o);
    let row := mkPersonalSigningOperation o OpCollectingCommitments None None None now in
    authorizations ← ok_or (consume_where d authorization_id (fun _ => true) now) ST_AuthorizationUnavailable;
    d1 ← map_err (fun _ => ST_Sqlite)
           (insert_bound_nonce metadata (no_operation_binding_digest o) authorization_id (no_intent_id o) (v2_signer_id v2)
              (no_session_id o) now (put_authorizations authorizations d));
    intents ← ok_or (update_where (no_intent_id o)
                       (fun r => in_current_epoch metadata r && bool_decide (ir_status r = TxApproved) && is_v2 r)
                       (with_intent_status TxSigning now) (db_intents d1)) ST_IntentTransitionConflict;
    let s1 := set_operations (<[no_operation_id o := row]> (st_operations s)) (set_db (put_intents intents d1) s) in
    Ok (record_event metadata "personal_signing.authorized_started" (no_operation_id o) now s1, row)).

Definition personal_signing_operation (s : WalletStorage) (operation_id : Uuid) : option PersonalSigningOperation :=
  st_operations s !! operation_id.

(** [ORDER BY round, signer_id]; the schema admits signers 1 to 3. *)
Definition receipt_order : list (Z * PersonalSigningRound) :=
  [(1, RoundCommitment); (2, RoundCommitment); (3, RoundCommitment);
   (1, RoundSignatureShare); (2, RoundSignatureShare); (3, RoundSignatureShare)].
Definition personal_signing_receipts (s : WalletStorage) (operation_id : Uuid) : list PersonalSigningReceipt :=
  omap (fun k => st_receipts s !! (operation_id, k.1, k.2)) receipt_order.

Definition same_receipt (a b : PersonalSigningReceipt) : bool :=
  bool_decide (pr_operation_id a = pr_operation_id b) && (pr_signer_id a =? pr_signer_id b)
  && bool_decide (pr_round a = pr_round b) && bool_decide (pr_device_id a = pr_device_id b)
  && (pr_device_generation a =? pr_device_generation b)
  && bool_decide (pr_request_binding_digest a = pr_request_binding_digest b)
  && bool_decide (pr_payload a = pr_payload b).

Definition expected_status (r : PersonalSigningRound) : PersonalSigningOperationStatus :=
  match r with RoundCommitment => OpCollectingCommitments | RoundSignatureShare => OpCollectingShares end.
Definition receipt_event (r : PersonalSigningRound) : string :=
  match r with
  | RoundCommitment => "personal_signing.commitment_received"
  | RoundSignatureShare => "personal_signing.share_received"
  end.
Definition selects (selected : Z * Z) (signer_id : Z) : bool := (selected.1 =? signer_id) || (selected.2 =? signer_id).

Definition insert_receipt (receipt : PersonalSigningReceipt) : act WalletStorage StorageError unit :=
  transaction (fun metadata s =>
    o ← ok_or (st_operations s !! pr_operation_id receipt) ST_InvalidPersonalSigningOperation;
    _ ← reject_if (negb (bool_decide (no_wallet_id (op_bound o) = wm_wallet_id metadata))) ST_InvalidPersonalSigningOperation;
    _ ← reject_if (negb (bool_decide (op_status o = expected_status (pr_round receipt)))
          || negb (selects (no_selected_participants (op_bound o)) (pr_signer_id receipt))
          || (no_expires_at (op_bound o) <? pr_received_at receipt)) ST_PersonalSigningOperationConflict;
    _ ← to_sql_u64 (pr_device_generation receipt);
    let s1 := set_receipts (<[(pr_operation_id receipt, pr_signer_id receipt, pr_round receipt) := receipt]>
                (st_receipts s)) s in
    Ok (record_event metadata (receipt_event (pr_round receipt)) (pr_operation_id receipt) (pr_received_at receipt) s1, tt)).

Definition record_personal_signing_receipt (receipt : PersonalSigningReceipt) : act WalletStorage StorageError unit :=
  _ ← lift (reject_if ((pr_signer_id receipt =? 0) || (3 <? pr_signer_id receipt)
        || (pr_device_generation receipt =? 0) || bool_decide (pr_payload receipt = [])
        || (Z.to_nat (16 * 1024) <? length (pr_payload receipt))%nat) ST_InvalidPersonalSigningOperation);
  existing ← gets (fun s => List.find (fun item => (pr_signer_id item =? pr_signer_id receipt)
                                         && bool_decide (pr_round item = pr_round receipt))
                              (personal_signing_receipts s (pr_operation_id receipt)));
  match existing with
  | Some item => lift (reject_if (negb (same_receipt item receipt)) ST_PersonalSigningReceiptConflict)
  | None => insert_receipt receipt
  end.

Definition receipt_count (s : WalletStorage) (operation_id : Uuid) (r : PersonalSigningRound) : nat :=
  length (List.filter (fun item => bool_decide (pr_round item = r)) (personal_signing_receipts s operation_id)).

(** [UPDATE personal_signing_operations ... WHERE]: exactly one row matches or
    the call is refused. *)
Definition update_operation (s : WalletStorage) (metadata : WalletMetadata) (operation_id binding : bytes)
    (matches : PersonalSigningOperation -> bool) (change : PersonalSigningOperation -> PersonalSigningOperation)
    : result StorageError WalletStorage :=
  o ← ok_or (st_operations s !! operation_id) ST_PersonalSigningOperationConflict;
  _ ← reject_if (negb (bool_decide (no_wallet_id (op_bound o) = wm_wallet_id metadata))
        || negb (bool_decide (no_operation_binding_digest (op_bound o) = binding))
        || negb (matches o)) ST_PersonalSigningOperationConflict;
  Ok (set_operations (<[operation_id := change o]> (st_operations s)) s).

Definition frozen_row (signing_package : bytes) (now : Z) (o : PersonalSigningOperation) : PersonalSigningOperation :=
  mkPersonalSigningOperation (op_bound o) OpCollectingShares (Some signing_package) (op_final_signature o)
    (op_terminal_reason o) now.
Definition finalized_row (signature : bytes) (now : Z) (o : PersonalSigningOperation) : PersonalSigningOperation :=
  mkPersonalSigningOperation (op_bound o) OpFinalized (op_signing_package o) (Some signature) (op_terminal_reason o) now.
Definition terminated_row (status : PersonalSigningOperationStatus) (reason : string) (now : Z)
    (o : PersonalSigningOperation) : PersonalSigningOperation :=
  mkPersonalSigningOperation (op_bound o) status (op_signing_package o) (op_final_signature o) (Some reason) now.

Definition in_status (status : PersonalSigningOperationStatus) (now : Z) (o : PersonalSigningOperation) : bool :=
  bool_decide (op_status o = status) && (now <=? no_expires_at (op_bound o)).

Definition freeze_personal_signing_operation (operation_id binding signing_package : bytes) (now : Z)
    : act WalletStorage StorageError unit :=
  _ ← lift (reject_if (bool_decide (signing_package = []) || (Z.to_nat (16 * 1024) <? length signing_package)%nat)
              ST_InvalidPersonalSigningOperation);
  transaction (fun metadata s =>
    _ ← reject_if (receipt_count s operation_id RoundCommitment <? 2)%nat ST_PersonalSigningOperationConflict;
    s1 ← update_operation s metadata operation_id binding (in_status OpCollectingCommitments now)
           (frozen_row signing_package now);
    Ok (record_event metadata "personal_signing.commitments_frozen" operation_id now s1, tt)).

Definition complete_personal_signing_operation (operation_id binding signature : bytes) (now : Z)
    : act WalletStorage StorageError unit :=
  transaction (fun metadata s =>
    _ ← reject_if (receipt_count s operation_id RoundSignatureShare <? 2)%nat ST_PersonalSigningOperationConflict;
    s1 ← update_operation s metadata operation_id binding (in_status OpCollectingShares now) (finalized_row signature now);
    Ok (record_event metadata "personal_signing.finalized" operation_id now s1, tt)).

Definition is_open (o : PersonalSigningOperation) : bool :=
  bool_decide (op_status o = OpCollectingCommitments) || bool_decide (op_status o = OpCollectingShares).

Definition terminate_personal_signing_operation (operation_id binding : bytes)
    (status : PersonalSigningOperationStatus) (reason : string) (now : Z) : act WalletStorage StorageError unit :=
  _ ← lift (reject_if (negb (bool_decide (status = OpAborted) || bool_decide (status = OpExpired)
                             || bool_decide (status = OpFailed))
                       || negb (valid_reason_code reason)) ST_InvalidPersonalSigningOperation);
  transaction (fun metadata s =>
    s1 ← update_operation s metadata operation_id binding is_open (terminated_row status reason now);
    Ok (record_event metadata "personal_signing.terminated" operation_id now s1, tt)).
End storage.

(** * The invariant of the personal signing tables

    What every storage reached from one without personal operations satisfies:
    each operation has consumed its own authorization, rows follow their
    status, and receipts belong to the selected pair. *)

Local Open Scope string_scope.
Local Open Scope list_scope.
Local Open Scope Z_scope.

Section inv.
Context `{UuidText} `{BuildInfo} `{BitcoinLib} `{IntentMaterialJson}.

(** ** Transactions *)

Lemma transaction_Ok {A} (body : WalletMetadata -> WalletStorage -> result StorageError (WalletStorage * A)) s s' a :
  transaction body s = (s', Ok a) -> exists m, db_metadata (st_db s) = Some m /\ body m s = Ok (s', a).
Proof.
  unfold transaction. destruct (db_metadata (st_db s)) as [m|]; simpl; [|done].
  destruct (ensure_mutations_allowed m) as [[]|e]; simpl; [|done].
  destruct (body m s) as [[s1 a1]|e] eqn:E; intros [= <- <-]; eauto.
Qed.
Lemma transaction_Err {A} (body : WalletMetadata -> WalletStorage -> result StorageError (WalletStorage * A)) s s' e :
  transaction body s = (s', Err e) -> s' = s.
Proof. unfold transaction. destruct (_ ≫= _) as [[s1 a]|e1]; by intros [= <- _]. Qed.

(** A method whose error leaves the storage as it was. *)
Definition atomic {A} (m : act WalletStorage StorageError A) : Prop := keeps_err eq m.
Lemma transaction_atomic {A} (body : WalletMetadata -> WalletStorage -> result StorageError (WalletStorage * A)) :
  atomic (transaction body).
Proof. intros s s' e E. by apply transaction_Err in E. Qed.
Lemma guarded_atomic {A B} (r : result StorageError A) (m : A -> act WalletStorage StorageError B) :
  (forall a, atomic (m a)) -> atomic (x ← lift r; m x).
Proof. intros Hm. apply keeps_err_bind; [apply _|by intros s|]. done. Qed.

Lemma create_atomic aid o now : atomic (consume_authorization_and_create_personal_signing_operation aid o now).
Proof. apply guarded_atomic. intros ?. apply transaction_atomic. Qed.
Lemma record_atomic r : atomic (record_personal_signing_receipt r).
Proof.
  apply guarded_atomic. intros ? s s' e. unfold mbind, act_bind, gets. destruct (List.find _ _).
  - by intros [= <- _].
  - apply transaction_atomic.
Qed.
Lemma freeze_atomic id b p now : atomic (freeze_personal_signing_operation id b p now).
Proof. apply guarded_atomic. intros ?. apply transaction_atomic. Qed.
Lemma complete_atomic id b g now : atomic (complete_personal_signing_operation id b g now).
Proof. apply transaction_atomic. Qed.
Lemma terminate_atomic id b st r now : atomic (terminate_personal_signing_operation id b st r now).
Proof. apply guarded_atomic. intros ?. apply transaction_atomic. Qed.

(** ** What a committed method did *)

Definition valid_pair (p : Z * Z) : Prop := p = (1, 2) \/ p = (1, 3) \/ p = (2, 3).

Lemma validate_new_Ok o u : validate_new_personal_operation o = Ok u ->
  no_threshold o = 2 /\ no_max_signers o = 3 /\ valid_pair (no_selected_participants o) /\
  no_created_at o < no_expires_at o.
Proof.
  unfold validate_new_personal_operation, valid_pair. destruct (no_selected_participants o) as [a b]. simpl. intros Hv.
  res_inv. split_and!; try lia.
  assert (a = 1 /\ b = 2 \/ a = 1 /\ b = 3 \/ a = 2 /\ b = 3) as [[-> ->]|[[-> ->]|[-> ->]]] by lia; auto.
Qed.

(** The intent asks for exactly what the operation signs. *)
Definition approves (i : TransactionIntentRow) (b : NewPersonalSigningOperation) : Prop :=
  is_v2 i = true /\ ir_session_id i = no_session_id b /\ ir_tx_digest i = no_taproot_sighash b /\
  ir_policy_hash i = no_policy_digest b /\ ir_expires_at i = no_expires_at b.

Lemma create_Ok aid o now s s' row :
  consume_authorization_and_create_personal_signing_operation aid o now s = (s', Ok row) ->
  row = mkPersonalSigningOperation o OpCollectingCommitments None None None now /\
  no_threshold o = 2 /\ valid_pair (no_selected_participants o) /\ no_created_at o = now /\
  st_operations s !! no_operation_id o = None /\ db_nonces (st_db s) !! no_operation_binding_digest o = None /\
  exists m auth intent v2, db_metadata (st_db s) = Some m /\ db_authorizations (st_db s) !! aid = Some auth /\
    db_intents (st_db s) !! no_intent_id o = Some intent /\ ir_v2 intent = Some v2 /\ in_current_epoch m intent = true /\
    ac_intent (az_record auth) = no_intent_id o /\ authorization_open auth = true /\
    now <= ac_expires_at (az_record auth) /\ ir_status intent = TxApproved /\ approves intent o /\
    st_operations s' = <[no_operation_id o := row]> (st_operations s) /\ st_receipts s' = st_receipts s /\
    st_db s' = append_audit m "personal_signing.authorized_started" (Some (uuid_to_string (no_operation_id o))) now
      (put_intents (<[no_intent_id o := with_intent_status TxSigning now intent]> (db_intents (st_db s)))
        (put_nonces (<[no_operation_binding_digest o := mkNonceRow (wm_wallet_id m) (wm_epoch m) (no_session_id o) now None
             (Some (aid, no_intent_id o, v2_signer_id v2))]> (db_nonces (st_db s)))
          (put_authorizations (<[aid := authorization_consumed now auth]> (db_authorizations (st_db s))) (st_db s)))).
Proof.
  unfold consume_authorization_and_create_personal_signing_operation. intros Hc. act_step. act_step.
  apply validate_new_Ok in E as (Ht & _ & Hp & _). apply transaction_Ok in Hc as (m & Hm & Hc). cbv zeta in Hc. res_step. res_step.
  destruct (st_operations s !! no_operation_id o) as [|] eqn:Hop; [by res_inv|].
  unfold select_authorization, authorization_unusable in Hc.
  destruct (db_authorizations (st_db s) !! aid) as [auth|] eqn:Ha; [|by res_inv].
  destruct (db_intents (st_db s) !! no_intent_id o) as [intent|] eqn:Hi; [|by res_inv]. simpl in Hc.
  destruct (ir_v2 intent) as [v2|] eqn:Hv; [|by res_inv]. simpl in Hc.
  destruct (db_materials (st_db s) !! (no_intent_id o, KindPolicyInput)) as [mt|] eqn:Hpi; [|by res_inv]. simpl in Hc.
  destruct (_ && _) eqn:Hj; [|by res_inv]. simpl in Hc.
  res_open. rewrite ?map_err_Ok in *. db_open. simplify_eq. split_and!; try done.
  exists m. eexists _, _, v2. split_and!; try done.
Qed.

(** Everything but the operation and receipt tables. *)
Definition same_approvals (s s' : WalletStorage) : Prop :=
  exists a, st_db s' = put_audit a (st_db s).

Lemma record_Ok r s s' u :
  record_personal_signing_receipt r s = (s', Ok u) ->
  s' = s \/
  exists o, st_operations s !! pr_operation_id r = Some o /\ op_status o = expected_status (pr_round r) /\
    selects (no_selected_participants (op_bound o)) (pr_signer_id r) = true /\
    pr_received_at r <= no_expires_at (op_bound o) /\
    List.find (fun item => (pr_signer_id item =? pr_signer_id r) && bool_decide (pr_round item = pr_round r))
      (personal_signing_receipts s (pr_operation_id r)) = None /\
    same_approvals s s' /\ st_operations s' = st_operations s /\
    st_receipts s' = <[(pr_operation_id r, pr_signer_id r, pr_round r) := r]> (st_receipts s).
Proof.
  unfold record_personal_signing_receipt. intros Hr. act_step. act_step. act_step. act_step.
  destruct (List.find _ _) as [item|] eqn:Hf in Hr; [left; by act_step|right].
  apply transaction_Ok in Hr as (m & Hm & Hr). res_inv. cbv zeta in Hr. injection Hr as <- <-.
  eexists. split_and!; try done. by eexists.
Qed.

Lemma update_Ok s m id b matches change s1 :
  update_operation s m id b matches change = Ok s1 ->
  exists o, st_operations s !! id = Some o /\ no_operation_binding_digest (op_bound o) = b /\ matches o = true /\
    s1 = set_operations (<[id := change o]> (st_operations s)) s.
Proof. unfold update_operation. intros Hu. res_inv. simplify_eq. eexists. by split_and!. Qed.

(** One row changed in place. *)
Definition row_changed (s s' : WalletStorage) (id : Uuid) (o o' : PersonalSigningOperation) : Prop :=
  st_operations s !! id = Some o /\ st_operations s' = <[id := o']> (st_operations s) /\
  st_receipts s' = st_receipts s /\ same_approvals s s'.

Lemma freeze_Ok id b package now s s' u :
  freeze_personal_signing_operation id b package now s = (s', Ok u) ->
  (2 <= receipt_count s id RoundCommitment)%nat /\
  exists o, no_operation_binding_digest (op_bound o) = b /\ op_status o = OpCollectingCommitments /\
    now <= no_expires_at (op_bound o) /\ row_changed s s' id o (frozen_row package now o).
Proof.
  unfold freeze_personal_signing_operation. intros Hf. act_step. act_step. apply transaction_Ok in Hf as (m & Hm & Hf).
  res_step. res_step. res_step. apply update_Ok in E1 as (o & Ho & Hb & Hs & ->). unfold in_status in Hs.
  res_inv. simplify_eq. split; [lia|]. exists o. split_and!; try done. split_and!; try done. by eexists.
Qed.

Lemma complete_Ok id b signature now s s' u :
  complete_personal_signing_operation id b signature now s = (s', Ok u) ->
  (2 <= receipt_count s id RoundSignatureShare)%nat /\
  exists o, no_operation_binding_digest (op_bound o) = b /\ op_status o = OpCollectingShares /\
    now <= no_expires_at (op_bound o) /\ row_changed s s' id o (finalized_row signature now o).
Proof.
  unfold complete_personal_signing_operation. intros Hf. apply transaction_Ok in Hf as (m & Hm & Hf).
  res_step. res_step. res_step. apply update_Ok in E0 as (o & Ho & Hb & Hs & ->). unfold in_status in Hs.
  res_inv. simplify_eq. split; [lia|]. exists o. split_and!; try done. split_and!; try done. by eexists.
Qed.

Lemma terminate_Ok id b status reason now s s' u :
  terminate_personal_signing_operation id b status reason now s = (s', Ok u) ->
  (status = OpAborted \/ status = OpExpired \/ status = OpFailed) /\
  exists o, no_operation_binding_digest (op_bound o) = b /\ is_open o = true /\
    row_changed s s' id o (terminated_row status reason now o).
Proof.
  unfold terminate_personal_signing_operation. intros Hf. act_step. act_step. apply transaction_Ok in Hf as (m & Hm & Hf).
  res_step. apply update_Ok in E0 as (o & Ho & Hb & Hs & ->). res_inv. simplify_eq. split; [tauto|]. exists o.
  split_and!; try done. split_and!; try done. by eexists.
Qed.

(** ** The invariant *)

Definition row_ok (o : PersonalSigningOperation) : Prop :=
  match op_status o with
  | OpCollectingCommitments => op_signing_package o = None /\ op_final_signature o = None
  | OpCollectingShares => is_Some (op_signing_package o) /\ op_final_signature o = None
  | OpFinalized => is_Some (op_signing_package o) /\ is_Some (op_final_signature o)
  | _ => op_final_signature o = None
  end.

(** The authorization an operation consumed: the one its nonce claim names, of its
    own intent, which approves what the operation signs. *)
Definition consumed_by (s : WalletStorage) (b : NewPersonalSigningOperation) (aid : Uuid) : Prop :=
  exists n signer auth intent, db_nonces (st_db s) !! no_operation_binding_digest b = Some n /\
    nr_binding n = Some (aid, no_intent_id b, signer) /\ nr_session_id n = no_session_id b /\
    db_authorizations (st_db s) !! aid = Some auth /\ ac_intent (az_record auth) = no_intent_id b /\
    ac_consumed_at (az_record auth) = Some (no_created_at b) /\
    db_intents (st_db s) !! no_intent_id b = Some intent /\ approves intent b.

Definition both_receipts (s : WalletStorage) (id : Uuid) (b : NewPersonalSigningOperation) (r : PersonalSigningRound) : Prop :=
  forall k, selects (no_selected_participants b) k = true -> is_Some (st_receipts s !! (id, k, r)).

Record storage_inv (s : WalletStorage) : Prop := {
  si_row id o : st_operations s !! id = Some o ->
    no_operation_id (op_bound o) = id /\ no_threshold (op_bound o) = 2 /\
    valid_pair (no_selected_participants (op_bound o)) /\ row_ok o;
  si_auth id o : st_operations s !! id = Some o -> exists aid, consumed_by s (op_bound o) aid;
  si_once id id' o o' aid : st_operations s !! id = Some o -> st_operations s !! id' = Some o' ->
    consumed_by s (op_bound o) aid -> consumed_by s (op_bound o') aid -> id = id';
  si_receipt id k r rc : st_receipts s !! (id, k, r) = Some rc ->
    pr_operation_id rc = id /\ pr_signer_id rc = k /\ pr_round rc = r /\
    exists o, st_operations s !! id = Some o /\ selects (no_selected_participants (op_bound o)) k = true /\
      pr_received_at rc <= no_expires_at (op_bound o);
  si_frozen id o : st_operations s !! id = Some o -> op_status o = OpCollectingShares \/ op_status o = OpFinalized ->
    both_receipts s id (op_bound o) RoundCommitment;
  si_final id o : st_operations s !! id = Some o -> op_status o = OpFinalized ->
    both_receipts s id (op_bound o) RoundSignatureShare;
}.

Lemma storage_inv_start s : st_operations s = ∅ -> st_receipts s = ∅ -> storage_inv s.
Proof. intros Ho Hr. constructor; intros *; rewrite ?Ho, ?Hr; by rewrite ?lookup_empty. Qed.

(** Receipts of one round, listed by signer. *)
Lemma receipts_filtered s id r :
  storage_inv s ->
  List.filter (fun item => bool_decide (pr_round item = r)) (personal_signing_receipts s id) =
  omap (fun k => st_receipts s !! (id, k, r)) [1; 2; 3].
Proof.
  intros Hi. assert (forall k q rc, st_receipts s !! (id, k, q) = Some rc -> pr_round rc = q) as Hrd.
  { intros k q rc E. by destruct (si_receipt _ Hi _ _ _ _ E) as (_ & _ & ? & _). }
  unfold personal_signing_receipts.
  assert (forall l : list (Z * PersonalSigningRound),
    List.filter (fun item => bool_decide (pr_round item = r)) (omap (fun k => st_receipts s !! (id, k.1, k.2)) l) =
    omap (fun k => st_receipts s !! (id, k.1, k.2)) (List.filter (fun k => bool_decide (k.2 = r)) l)) as ->.
  { induction l as [|[k q] l IH]; [done|]. csimpl.
    destruct (st_receipts s !! (id, k, q)) as [rc|] eqn:E; csimpl.
    - rewrite (Hrd _ _ _ E), IH. case_bool_decide; csimpl; [by rewrite E|done].
    - rewrite IH. case_bool_decide; csimpl; [by rewrite E|done]. }
  by destruct r.
Qed.
Lemma receipt_count_round s id r :
  storage_inv s -> receipt_count s id r = length (omap (fun k => st_receipts s !! (id, k, r)) [1; 2; 3]).
Proof. intros Hi. unfold receipt_count. by rewrite receipts_filtered. Qed.

Lemma selects_true p k : selects p k = true <-> k = p.1 \/ k = p.2.
Proof. unfold selects. rewrite orb_true_iff, !Z.eqb_eq. naive_solver. Qed.

(** Two receipts of one round are those of the pair. *)
Lemma count_both s id o r :
  storage_inv s -> st_operations s !! id = Some o -> (2 <= receipt_count s id r)%nat ->
  both_receipts s id (op_bound o) r.
Proof.
  intros Hi Ho. rewrite receipt_count_round by done. destruct (si_row _ Hi _ _ Ho) as (_ & _ & Hp & _).
  assert (forall k, selects (no_selected_participants (op_bound o)) k = false -> st_receipts s !! (id, k, r) = None) as Hsel.
  { intros k Hk. destruct (st_receipts s !! (id, k, r)) as [rc|] eqn:E; [|done].
    apply (si_receipt _ Hi) in E as (_ & _ & _ & o' & Ho' & Hs & _). simplify_eq. congruence. }
  intros Hl k [Hk|Hk]%selects_true; revert Hl; subst k;
    (destruct Hp as [Hp|[Hp|Hp]]; rewrite Hp in *; simpl;
     [rewrite (Hsel 3 eq_refl)|rewrite (Hsel 2 eq_refl)|rewrite (Hsel 1 eq_refl)];
     repeat match goal with |- context [st_receipts s !! ?k] => destruct (st_receipts s !! k) eqn:? end;
     simpl; intros Hl; by (lia || eauto)).
Qed.

Lemma consumed_by_fun s b a1 a2 : consumed_by s b a1 -> consumed_by s b a2 -> a1 = a2.
Proof. intros (n1 & g1 & u1 & i1 & Hn1 & Hb1 & _) (n2 & g2 & u2 & i2 & Hn2 & Hb2 & _). congruence. Qed.
Lemma consumed_by_same s s' b aid : same_approvals s s' -> consumed_by s' b aid <-> consumed_by s b aid.
Proof. intros (a & Hd). unfold consumed_by. by rewrite Hd. Qed.

(** Nothing of it changes along the order of the database. *)
Lemma consumed_by_le s s' b aid : db_le (st_db s) (st_db s') -> consumed_by s b aid -> consumed_by s' b aid.
Proof.
  intros Hle (n & g & a & i & Hn & Hb & Hs & Ha & Hai & Hac & Hi & Hap).
  apply (le_nonces _ _ Hle) in Hn as (n' & Hn' & [= _ _ E1 _ E2]).
  apply (le_authorizations _ _ Hle) in Ha as (a' & Ha' & _ & Heq).
  apply (le_intents _ _ Hle) in Hi as (i' & Hi' & [= _ _ D1 D2 D3 D4 _ D5] & _).
  assert (authorization_open a = false) as Ho by (unfold authorization_open; by rewrite Hac). rewrite (Heq Ho) in Ha'.
  exists n', g, a, i'. rewrite E1, E2. split_and!; try done. unfold approves, is_v2 in *. by rewrite D1, D2, D3, D4, D5.
Qed.

Lemma both_receipts_mono s s' id b r :
  st_receipts s ⊆ st_receipts s' -> both_receipts s id b r -> both_receipts s' id b r.
Proof. intros Hs Hb k Hk. destruct (Hb k Hk) as [rc Hrc]. exists rc. by eapply lookup_weaken. Qed.

(** Creating an operation. *)
Lemma create_le aid o now s s' row :
  consume_authorization_and_create_personal_signing_operation aid o now s = (s', Ok row) -> db_le (st_db s) (st_db s').
Proof.
  intros (_ & _ & _ & _ & _ & Hnc & m & auth & intent & v2 & Hm & Ha & Hi & _ & _ & _ & Ho & _ & Hst & _ & _ & _ & ->)%create_Ok.
  le_solve.
Qed.
Lemma inv_created aid o now s s' row :
  storage_inv s -> consume_authorization_and_create_personal_signing_operation aid o now s = (s', Ok row) ->
  storage_inv s' /\ consumed_by s' o aid.
Proof.
  intros Hi Hcr. pose proof (create_le _ _ _ _ _ _ Hcr) as Hle.
  apply create_Ok in Hcr as (-> & Ht & Hp & Hnow & Hop & Hnc & m & auth & intent & v2 & Hm & Ha & Hin & Hv & _ & Hai & Hopen & _ & _ &
    Hap & Ho' & Hr' & Hd).
  pose proof Hi as [Hrow Hauth Honce Hrec Hfr Hfin].
  assert (consumed_by s' o aid) as Hnew.
  { eexists _, _, _, _. rewrite Hd. cbn. rewrite !lookup_insert_eq. split_and!; try done. cbn. by rewrite Hnow. }
  assert (forall id q a, st_operations s !! id = Some q -> consumed_by s (op_bound q) a -> a <> aid /\
            consumed_by s' (op_bound q) a) as Hold.
  { intros id q a Hq Hc. split; [|by eapply consumed_by_le]. intros ->.
    destruct Hc as (n & g & au & i & _ & _ & _ & Hau & _ & Hac & _). unfold authorization_open in Hopen.
    rewrite Ha in Hau. injection Hau as <-. by rewrite Hac in Hopen. }
  assert (forall id q a, st_operations s !! id = Some q -> consumed_by s' (op_bound q) a ->
            a <> aid /\ consumed_by s (op_bound q) a) as Hback.
  { intros id q a Hq Hc. destruct (Hauth _ _ Hq) as [a0 Hc0]. destruct (Hold _ _ _ Hq Hc0) as [Hne Hc1].
    by rewrite (consumed_by_fun _ _ _ _ Hc Hc1). }
  split; [|done]. constructor.
  - intros id q. rewrite Ho'. intros [[<- <-]|[_ Hq]]%lookup_insert_Some; [by split_and!|by apply Hrow].
  - intros id q. rewrite Ho'. intros [[<- <-]|[_ Hq]]%lookup_insert_Some; [by exists aid|].
    destruct (Hauth _ _ Hq) as [a Hc]. exists a. by eapply Hold.
  - intros id id' q q' a. rewrite Ho'.
    intros [[<- <-]|[_ Hq]]%lookup_insert_Some [[<- <-]|[_ Hq']]%lookup_insert_Some Hc Hc'; simpl in *.
    + done.
    + pose proof (consumed_by_fun _ _ _ _ Hc Hnew) as ->. by destruct (Hback _ _ _ Hq' Hc').
    + pose proof (consumed_by_fun _ _ _ _ Hc' Hnew) as ->. by destruct (Hback _ _ _ Hq Hc).
    + by eapply Honce; [done|done|eapply Hback|eapply Hback].
  - intros id k r rc. rewrite Hr'. intros Hk. destruct (Hrec _ _ _ _ Hk) as (? & ? & ? & q & Hq & ? & ?).
    split_and!; try done. exists q. rewrite Ho', lookup_insert_ne; [done|]. congruence.
  - intros id q. rewrite Ho'. intros [[<- <-]|[_ Hq]]%lookup_insert_Some; [by intros [|]|].
    intros Hs. apply (both_receipts_mono s s'); [by rewrite Hr'|by eapply Hfr].
  - intros id q. rewrite Ho'. intros [[<- <-]|[_ Hq]]%lookup_insert_Some; [done|].
    intros Hs. apply (both_receipts_mono s s'); [by rewrite Hr'|by eapply Hfin].
Qed.

(** Recording a receipt: nothing recorded is ever replaced. *)
Lemma recorded_mono r s s' u :
  storage_inv s -> record_personal_signing_receipt r s = (s', Ok u) -> st_receipts s ⊆ st_receipts s'.
Proof.
  intros Hi [->|(o & Ho & _ & Hs & _ & Hf & _ & _ & ->)]%record_Ok; [done|]. apply insert_subseteq.
  destruct (st_receipts s !! (pr_operation_id r, pr_signer_id r, pr_round r)) as [rc|] eqn:E; [exfalso|done].
  destruct (si_receipt _ Hi _ _ _ _ E) as (_ & Hk & Hr & _). eapply find_none in Hf.
  - rewrite Hk, Hr, Z.eqb_refl, bool_decide_true in Hf by done. done.
  - apply list_elem_of_In, list_elem_of_omap. exists (pr_signer_id r, pr_round r). split; [|done].
    destruct (si_row _ Hi _ _ Ho) as (_ & _ & Hp & _). apply selects_true in Hs. unfold receipt_order.
    destruct (pr_round r); destruct Hp as [Hp|[Hp|Hp]]; rewrite Hp in Hs; simpl in Hs; destruct Hs as [-> | ->]; set_solver.
Qed.

Lemma inv_recorded r s s' u :
  storage_inv s -> record_personal_signing_receipt r s = (s', Ok u) -> storage_inv s'.
Proof.
  intros Hi Hrec. pose proof (recorded_mono _ _ _ _ Hi Hrec) as Hm.
  apply record_Ok in Hrec as [->|(o & Ho & _ & Hs & He & _ & Hsa & Ho' & Hr')]; [done|].
  destruct Hi as [Hrow Hauth Honce Hrec Hfr Hfin]. constructor; try (by rewrite Ho').
  - intros id q. rewrite Ho'. intros Hq. destruct (Hauth _ _ Hq) as [a Ha]. exists a. by apply (consumed_by_same s s').
  - intros id id' q q' a. rewrite Ho', !(consumed_by_same s s') by done. apply Honce.
  - intros id k q rc. rewrite Hr', Ho'. intros [[[= <- <- <-] <-]|[_ Hk]]%lookup_insert_Some; [|by apply Hrec].
    split_and!; try done. by exists o.
  - intros id q. rewrite Ho'. intros Hq Hst. eapply both_receipts_mono, Hfr; done.
  - intros id q. rewrite Ho'. intros Hq Hst. eapply both_receipts_mono, Hfin; done.
Qed.

(** Changing a row in place. *)
Lemma inv_row s s' id o o' :
  storage_inv s -> row_changed s s' id o o' -> op_bound o' = op_bound o -> row_ok o' ->
  (op_status o' = OpCollectingShares \/ op_status o' = OpFinalized -> both_receipts s id (op_bound o) RoundCommitment) ->
  (op_status o' = OpFinalized -> both_receipts s id (op_bound o) RoundSignatureShare) ->
  storage_inv s'.
Proof.
  intros [Hrow Hauth Honce Hrec Hfr Hfin] (Ho & Ho' & Hr' & Hsa) Hb Hok Hc Hf.
  assert (forall id q, st_operations s' !! id = Some q ->
    exists q0, st_operations s !! id = Some q0 /\ op_bound q = op_bound q0) as Hbound.
  { intros j q. rewrite Ho'. intros [[<- <-]|[_ Hq]]%lookup_insert_Some; eauto. }
  constructor.
  - intros j q Hq. destruct (Hbound _ _ Hq) as (q0 & Hq0 & ->). revert Hq. rewrite Ho'.
    destruct (Hrow _ _ Hq0) as (? & ? & ? & ?). intros [[<- <-]|[_ Hq]]%lookup_insert_Some; [by split_and!|].
    assert (q = q0) as -> by congruence. by split_and!.
  - intros j q Hq. destruct (Hbound _ _ Hq) as (q0 & Hq0 & ->). destruct (Hauth _ _ Hq0) as [a Ha]. exists a.
    by apply (consumed_by_same s s').
  - intros j j' q q' a Hq Hq'. destruct (Hbound _ _ Hq) as (q0 & Hq0 & ->). destruct (Hbound _ _ Hq') as (q1 & Hq1 & ->).
    rewrite !(consumed_by_same s s') by done. by apply Honce.
  - intros j k r rc. rewrite Hr'. intros Hk. destruct (Hrec _ _ _ _ Hk) as (? & ? & ? & q & Hq & ? & ?). split_and!; try done.
    destruct (decide (j = id)) as [->|Hne]; [exists o'|exists q]; rewrite Ho'.
    + rewrite lookup_insert_eq. simplify_eq. rewrite Hb. done.
    + by rewrite lookup_insert_ne.
  - intros j q. rewrite Ho'. intros [[<- <-]|[_ Hq]]%lookup_insert_Some Hst;
      (apply (both_receipts_mono s s'); [by rewrite Hr'|]); [rewrite Hb; by apply Hc|by eapply Hfr].
  - intros j q. rewrite Ho'. intros [[<- <-]|[_ Hq]]%lookup_insert_Some Hst;
      (apply (both_receipts_mono s s'); [by rewrite Hr'|]); [rewrite Hb; by apply Hf|by eapply Hfin].
Qed.

Lemma inv_frozen id b package now s s' u :
  storage_inv s -> freeze_personal_signing_operation id b package now s = (s', Ok u) -> storage_inv s'.
Proof.
  intros Hi (Hc & o & _ & Hst & _ & Hrow)%freeze_Ok. pose proof Hrow as (Ho & _).
  destruct (si_row _ Hi _ _ Ho) as (_ & _ & _ & Hok). unfold row_ok in Hok. rewrite Hst in Hok. destruct Hok as [_ Hsig].
  eapply (inv_row s s' id o); [done..| | |done]; [by split|]. intros _. by apply count_both.
Qed.

Lemma inv_completed id b signature now s s' u :
  storage_inv s -> complete_personal_signing_operation id b signature now s = (s', Ok u) -> storage_inv s'.
Proof.
  intros Hi (Hc & o & _ & Hst & _ & Hrow)%complete_Ok. pose proof Hrow as (Ho & _).
  destruct (si_row _ Hi _ _ Ho) as (_ & _ & _ & Hok). unfold row_ok in Hok. rewrite Hst in Hok. destruct Hok as [Hpk _].
  eapply (inv_row s s' id o); [done..| | |]; [by split|intros _|intros _; by apply count_both].
  eapply si_frozen; by eauto.
Qed.

Lemma inv_terminated id b status reason now s s' u :
  storage_inv s -> terminate_personal_signing_operation id b status reason now s = (s', Ok u) -> storage_inv s'.
Proof.
  intros Hi (Hst & o & _ & Hopen & Hrow)%terminate_Ok. pose proof Hrow as (Ho & _).
  destruct (si_row _ Hi _ _ Ho) as (_ & _ & _ & Hok). unfold row_ok, is_open in *.
  assert (op_final_signature o = None) as Hsig.
  { autorewrite with guards in Hopen. destruct Hopen as [E|E]; rewrite E in Hok; by destruct Hok. }
  eapply (inv_row s s' id o); [done..| | |]; simpl.
  - unfold row_ok. simpl. by destruct Hst as [Es|[Es|Es]]; rewrite Es.
  - by destruct Hst as [Es|[Es|Es]]; rewrite Es; intros [|].
  - by destruct Hst as [Es|[Es|Es]]; rewrite Es.
Qed.
End inv.
