(* ===== verification/PersonalSigning.v ===== *)
(** * The coordinator of personal 2-of-3 signing
      (src/crates/wallet-core/src/signing_operation.rs)

    Each transition first commits public state and then returns typed requests
    for the providers.  The store is any [PersonalSigningStore]; the SQLite
    storage of PersonalDb.v is its instance.  Request nonces drawn from the
    operating system are an argument, one per signer. *)

From Stdlib Require Import ZArith Lia.
From S2P Require Import Prelude Bitcoin Text Frost Orchestrator Personal Intent Gate Effects Provider StorageModels WalletDb PersonalDb.
From stdpp Require Import list gmap strings sorting.
Local Open Scope string_scope.
Local Open Scope list_scope.
Local Open Scope Z_scope.

(** What a [Signing] error carries as text. *)
Inductive SigningFailure :=
| FailOrchestration (e : OrchestrationError)
| FailSigning (e : SigningError)
| FailEncoding
| FailProfile.

Inductive PersonalSigningError :=
| PSE_ProviderIdentityDrift | PSE_InvalidParticipantPair | PSE_Expired | PSE_OperationNotFound
| PSE_OperationAlreadyActive | PSE_Authorization (e : GateError) | PSE_ResponseBindingMismatch
| PSE_WrongPhase | PSE_Storage (e : StorageError) | PSE_Signing (e : SigningFailure).

Class PersonalSigningStore (S : Type) := {
  create_authorized_operation : Uuid -> NewPersonalSigningOperation -> Z -> act S PersonalSigningError PersonalSigningOperation;
  store_operation : S -> Uuid -> result PersonalSigningError (option PersonalSigningOperation);
  store_receipts : S -> Uuid -> result PersonalSigningError (list PersonalSigningReceipt);
  record_receipt : PersonalSigningReceipt -> act S PersonalSigningError unit;
  store_freeze : Uuid -> bytes -> bytes -> Z -> act S PersonalSigningError unit;
  store_complete : Uuid -> bytes -> bytes -> Z -> act S PersonalSigningError unit;
  store_terminate : Uuid -> bytes -> PersonalSigningOperationStatus -> string -> Z -> act S PersonalSigningError unit;
}.

Definition storage_call {A} (m : act WalletStorage StorageError A) : act WalletStorage PersonalSigningError A :=
  zoom id (fun s _ => s) PSE_Storage m.
#[export] Instance WalletStorage_personal `{UuidText} `{BuildInfo} `{BitcoinLib} `{IntentMaterialJson} : PersonalSigningStore WalletStorage := {
  create_authorized_operation aid o now :=
    storage_call (consume_authorization_and_create_personal_signing_operation aid o now);
  store_operation s id := Ok (personal_signing_operation s id);
  store_receipts s id := Ok (personal_signing_receipts s id);
  record_receipt r := storage_call (record_personal_signing_receipt r);
  store_freeze id binding package now := storage_call (freeze_personal_signing_operation id binding package now);
  store_complete id binding signature now := storage_call (complete_personal_signing_operation id binding signature now);
  store_terminate id binding status reason now :=
    storage_call (terminate_personal_signing_operation id binding status reason now);
}.

Record PersonalRoundOneDispatch := mkPersonalRoundOneDispatch { d1_signer_id : Z; d1_request : SignerRoundOneRequest }.
Record PersonalRoundTwoDispatch := mkPersonalRoundTwoDispatch { d2_signer_id : Z; d2_request : SignerRoundTwoRequest }.
Record PersonalAbortDispatch := mkPersonalAbortDispatch { da_signer_id : Z; da_request : SignerAbortRequest }.
Record PersonalSigningTermination := mkPersonalSigningTermination {
  pt_status : PersonalSigningOperationStatus;
  pt_aborts : list PersonalAbortDispatch;
}.
Inductive PersonalSigningRecovery :=
| ReadyToFinalize
| ResumeRoundTwo (dispatches : list PersonalRoundTwoDispatch)
| RecoveredFinalized (signature : bytes)
| TerminatedInterruptedCommitmentRound
| RecoveredTerminal (status : PersonalSigningOperationStatus).

(** [BTreeMap<u16, _>::iter()] *)
Definition key_le {V} (p q : Z * V) : Prop := p.1 <= q.1.
#[export] Instance key_le_dec {V} : RelDecision (@key_le V).
Proof. intros p q. unfold key_le. apply _. Defined.
Definition in_key_order {V} (m : gmap Z V) : list (Z * V) := merge_sort key_le (map_to_list m).

Definition validate_pair (pair : Z * Z) : result PersonalSigningError unit :=
  reject_if (negb (bool_decide (pair = (1, 2)) || bool_decide (pair = (1, 3)) || bool_decide (pair = (2, 3))))
    PSE_InvalidParticipantPair.

Definition identities_match_profile (profile : PersonalSignerProfile) (identities : gmap Z ProviderIdentity) : bool :=
  forallb (fun participant =>
    match identities !! pd_signer_id participant with
    | Some identity =>
        bool_decide (id_wallet_id identity = ps_wallet_id profile)
        && bool_decide (id_signer_set_id identity = ps_signer_set_id profile)
        && (id_signer_epoch identity =? ps_signer_epoch profile)
        && bool_decide (id_group_pubkey_xonly identity = ps_group_pubkey_xonly profile)
        && bool_decide (id_verifying_share_digest identity = pd_verifying_share_digest participant)
    | None => false
    end) (ps_participants profile).

Definition request_context (o : PersonalSigningOperation) (identity : ProviderIdentity) (request_nonce : bytes)
    : SignerRequestContext :=
  let b := op_bound o in
  mkSignerRequestContext SIGNER_PROVIDER_PROTOCOL_VERSION (no_wallet_id b) (no_signer_set_id b) (no_signer_epoch b)
    (id_signer_id identity) (id_device_id identity) (id_device_generation identity) (no_operation_id b)
    (no_intent_id b) (no_session_id b) (no_taproot_sighash b) (no_policy_digest b) (no_group_pubkey_xonly b)
    (id_verifying_share_digest identity) (no_threshold b) (no_max_signers b) (no_chain_snapshot_digest b)
    request_nonce (no_expires_at b).

(** A context for each listed signer. *)
Fixpoint contexts_for (o : PersonalSigningOperation) (identities : gmap Z ProviderIdentity) (fresh : Z -> bytes)
    (signers : list Z) : result PersonalSigningError (gmap Z SignerRequestContext) :=
  match signers with
  | [] => Ok ∅
  | k :: rest =>
      identity ← ok_or (identities !! k) PSE_ProviderIdentityDrift;
      m ← contexts_for o identities fresh rest;
      Ok (<[k := request_context o identity (fresh k)]> m)
  end.
Definition pair_list (p : Z * Z) : list Z := [p.1; p.2].

Definition bound_participant (k : Z) (identity : ProviderIdentity) (binding : bytes) : BoundParticipant :=
  mkBoundParticipant k (id_device_id identity) (id_device_generation identity) binding.
Definition bound_participants (identities : gmap Z ProviderIdentity) (selected : Z * Z) (binding : bytes)
    : result PersonalSigningError (gmap Z BoundParticipant) :=
  first ← ok_or (identities !! selected.1) PSE_ProviderIdentityDrift;
  second ← ok_or (identities !! selected.2) PSE_ProviderIdentityDrift;
  Ok (<[selected.2 := bound_participant selected.2 second binding]>
        (<[selected.1 := bound_participant selected.1 first binding]> ∅)).

Definition validate_recovered_receipt (o : PersonalSigningOperation) (identities : gmap Z ProviderIdentity)
    (receipt : PersonalSigningReceipt) : result PersonalSigningError unit :=
  identity ← ok_or (identities !! pr_signer_id receipt) PSE_ProviderIdentityDrift;
  reject_if (negb (selects (no_selected_participants (op_bound o)) (pr_signer_id receipt))
    || negb (bool_decide (pr_device_id receipt = id_device_id identity))
    || negb (pr_device_generation receipt =? id_device_generation identity)
    || (no_expires_at (op_bound o) <? pr_received_at receipt)) PSE_ProviderIdentityDrift.

Section coordinator.
Context `{BitcoinLib} `{TextCodec} `{FL : FrostLib} `{!FrostCodec} {S : Type} `{!PersonalSigningStore S}.

Record LiveOperation := mkLiveOperation {
  lo_record : PersonalSigningOperation;
  lo_machine : ThresholdSessionMachine;
  lo_participants : gmap Z BoundParticipant;
  lo_round_one_contexts : gmap Z SignerRequestContext;
  lo_round_two_contexts : gmap Z SignerRequestContext;
}.
Definition set_machine (m : ThresholdSessionMachine) (o : LiveOperation) : LiveOperation :=
  mkLiveOperation (lo_record o) m (lo_participants o) (lo_round_one_contexts o) (lo_round_two_contexts o).
Definition set_record (r : PersonalSigningOperation) (o : LiveOperation) : LiveOperation :=
  mkLiveOperation r (lo_machine o) (lo_participants o) (lo_round_one_contexts o) (lo_round_two_contexts o).
Definition set_round_one (c : gmap Z SignerRequestContext) (o : LiveOperation) : LiveOperation :=
  mkLiveOperation (lo_record o) (lo_machine o) (lo_participants o) c (lo_round_two_contexts o).
Definition set_round_two (c : gmap Z SignerRequestContext) (o : LiveOperation) : LiveOperation :=
  mkLiveOperation (lo_record o) (lo_machine o) (lo_participants o) (lo_round_one_contexts o) c.

Record PreparedOperation := mkPreparedOperation {
  pp_record : NewPersonalSigningOperation;
  pp_machine : ThresholdSessionMachine;
  pp_participants : gmap Z BoundParticipant;
}.

Record PersonalSigningCoordinator := mkPersonalSigningCoordinator {
  pc_profile : PersonalSignerProfile;
  pc_identities : gmap Z ProviderIdentity;
  pc_store : S;
  pc_operations : gmap Uuid LiveOperation;
}.
Definition set_pc_store (s : S) (c : PersonalSigningCoordinator) : PersonalSigningCoordinator :=
  mkPersonalSigningCoordinator (pc_profile c) (pc_identities c) s (pc_operations c).
Definition put_operation (id : Uuid) (o : LiveOperation) (c : PersonalSigningCoordinator) : PersonalSigningCoordinator :=
  mkPersonalSigningCoordinator (pc_profile c) (pc_identities c) (pc_store c) (<[id := o]> (pc_operations c)).

Definition coord (A : Type) : Type := act PersonalSigningCoordinator PersonalSigningError A.

(** Calls of the store, of the live operation and of its machine. *)
Definition pc_call {A} (m : act S PersonalSigningError A) : coord A := zoom pc_store set_pc_store id m.
Definition live (id : Uuid) : coord LiveOperation :=
  reads (fun c => ok_or (pc_operations c !! id) PSE_OperationNotFound).
Definition update_live (id : Uuid) (f : LiveOperation -> LiveOperation) : coord unit :=
  modify (fun c => match pc_operations c !! id with Some o => put_operation id (f o) c | None => c end).
Definition machine_call {A} (id : Uuid) (m : M A) : coord A := fun c =>
  match pc_operations c !! id with
  | None => (c, Err PSE_OperationNotFound)
  | Some o =>
      let '(m', r) := m (lo_machine o) in
      (put_operation id (set_machine m' o) c, map_err (fun e => PSE_Signing (FailOrchestration e)) r)
  end.

(** ** Starting *)

(** A later identity of the same signer replaces an earlier one. *)
Definition identity_map (identities : list ProviderIdentity) : gmap Z ProviderIdentity :=
  list_to_map (reverse ((fun i => (id_signer_id i, i)) <$> identities)).

Definition PersonalSigningCoordinator_new (profile : PersonalSignerProfile) (identities : list ProviderIdentity)
    (store : S) : result PersonalSigningError PersonalSigningCoordinator :=
  let ids := identity_map identities in
  _ ← reject_if (negb (size ids =? 3)%nat || negb (identities_match_profile profile ids)) PSE_ProviderIdentityDrift;
  Ok (mkPersonalSigningCoordinator profile ids store ∅).

Definition new_machine (c : PersonalSigningCoordinator) (b : NewPersonalSigningOperation)
    (participants : gmap Z BoundParticipant) (now : Z) : result PersonalSigningError ThresholdSessionMachine :=
  pkp ← ok_or (public_key_package_deserialize (ps_public_key_package (pc_profile c))) (PSE_Signing FailProfile);
  map_err (fun e => PSE_Signing (FailOrchestration e))
    (ThresholdSessionMachine_new (no_session_id b) (no_taproot_sighash b) (no_policy_digest b) (no_threshold b)
       (no_expires_at b) ((in_key_order participants).*2) pkp now).

Definition new_operation (profile : PersonalSignerProfile) (request : BeginPersonalSigningOperation)
    (binding : bytes) (now : Z) : NewPersonalSigningOperation :=
  mkNewPersonalSigningOperation (bo_operation_id request) (ps_wallet_id profile) (ps_profile_id profile)
    (ps_signer_set_id profile) (ps_signer_epoch profile) (bo_intent_id request) (bo_session_id request)
    (bo_taproot_sighash request) (bo_policy_digest request) (bo_chain_snapshot_digest request)
    (ps_group_pubkey_xonly profile) (profile_binding_digest profile) binding (1, 2, 3)
    (bo_selected_participants request) (ps_min_signers profile) (ps_max_signers profile)
    (bo_expires_at request) now.

Definition prepare_operation (request : BeginPersonalSigningOperation) (now : Z) (c : PersonalSigningCoordinator)
    : result PersonalSigningError PreparedOperation :=
  _ ← reject_if (bool_decide (is_Some (pc_operations c !! bo_operation_id request))) PSE_OperationAlreadyActive;
  existing ← store_operation (pc_store c) (bo_operation_id request);
  _ ← match existing with Some _ => Err PSE_OperationAlreadyActive | None => Ok tt end;
  _ ← validate_pair (bo_selected_participants request);
  _ ← reject_if (bo_expires_at request <=? now) PSE_Expired;
  let binding := personal_operation_binding_digest (pc_profile c) request in
  participants ← bound_participants (pc_identities c) (bo_selected_participants request) binding;
  let record := new_operation (pc_profile c) request binding now in
  machine ← new_machine c record participants now;
  Ok (mkPreparedOperation record machine participants).

Definition activate_prepared (operation_id : Uuid) (durable : PersonalSigningOperation) (prepared : PreparedOperation)
    (fresh : Z -> bytes) : coord (list PersonalRoundOneDispatch) :=
  _ ← lift (reject_if (negb (bool_decide (no_operation_binding_digest (op_bound durable)
                                          = no_operation_binding_digest (pp_record prepared)))
        || negb (bool_decide (op_status durable = OpCollectingCommitments))) PSE_ResponseBindingMismatch);
  identities ← gets pc_identities;
  contexts ← lift (contexts_for durable identities fresh (pair_list (no_selected_participants (op_bound durable))));
  _ ← modify (put_operation operation_id
        (mkLiveOperation durable (pp_machine prepared) (pp_participants prepared) contexts ∅));
  mret ((fun e : Z * SignerRequestContext => mkPersonalRoundOneDispatch e.1 (mkSignerRoundOneRequest e.2))
          <$> in_key_order contexts).

(** The authorization is consumed when the durable operation exists. *)
Definition begin_authorized (request : BeginPersonalSigningOperation) (authorization : PersonalOperationAuthorization)
    (now : Z) (fresh : Z -> bytes) (c : PersonalSigningCoordinator)
    : PersonalSigningCoordinator * PersonalOperationAuthorization * result PersonalSigningError (list PersonalRoundOneDispatch) :=
  match (prepared ← prepare_operation request now c;
         _ ← map_err PSE_Authorization (PersonalOperationAuthorization_validate authorization
               (no_operation_binding_digest (pp_record prepared)));
         Ok prepared) with
  | Err e => (c, authorization, Err e)
  | Ok prepared =>
      let '(s', created) :=
        create_authorized_operation (po_authorization_id authorization) (pp_record prepared) now (pc_store c) in
      let c1 := set_pc_store s' c in
      match created with
      | Err e => (c1, authorization, Err e)
      | Ok durable =>
          let '(c2, r) := activate_prepared (bo_operation_id request) durable prepared fresh c1 in
          (c2, consume_after_commit authorization, r)
      end
  end.

(** ** Rounds *)

Definition accept_round_one (operation_id : Uuid) (signer_id : Z) (response : SignerRoundOneResponse) (now : Z)
    : coord unit :=
  operation ← live operation_id;
  context ← lift (ok_or (lo_round_one_contexts operation !! signer_id) PSE_ResponseBindingMismatch);
  _ ← lift (reject_if (negb (bool_decide (a1_request_binding_digest response = binding_digest context)))
              PSE_ResponseBindingMismatch);
  payload ← lift (ok_or (hex_decode (a1_commitment_hex response)) PSE_ResponseBindingMismatch);
  commitment ← lift (ok_or (commitments_deserialize payload) PSE_ResponseBindingMismatch);
  participant ← lift (ok_or (lo_participants operation !! signer_id) PSE_ProviderIdentityDrift);
  _ ← machine_call operation_id (add_commitment participant commitment now);
  _ ← pc_call (record_receipt (mkPersonalSigningReceipt operation_id signer_id RoundCommitment
        (rc_device_id context) (rc_device_generation context) (a1_request_binding_digest response) payload now));
  update_live operation_id (fun o => set_round_one (delete signer_id (lo_round_one_contexts o)) o).

Definition round_two_dispatches (contexts : gmap Z SignerRequestContext) (signing_package : bytes)
    : list PersonalRoundTwoDispatch :=
  (fun e : Z * SignerRequestContext =>
     mkPersonalRoundTwoDispatch e.1 (mkSignerRoundTwoRequest e.2 (hex_encode signing_package))) <$> in_key_order contexts.

Definition pc_freeze_commitments (operation_id : Uuid) (now : Z) (fresh : Z -> bytes)
    : coord (list PersonalRoundTwoDispatch) :=
  operation ← live operation_id;
  _ ← lift (reject_if (negb (bool_decide (lo_round_one_contexts operation = ∅))) PSE_WrongPhase);
  session ← machine_call operation_id (freeze_commitments now);
  signing_package ← lift (ok_or (package_serialize (fs_signing_package session)) (PSE_Signing FailEncoding));
  _ ← pc_call (store_freeze operation_id (no_operation_binding_digest (op_bound (lo_record operation)))
        signing_package now);
  let record := frozen_row signing_package now (lo_record operation) in
  _ ← update_live operation_id (set_record record);
  identities ← gets pc_identities;
  contexts ← lift (contexts_for record identities fresh (pair_list (no_selected_participants (op_bound record))));
  _ ← update_live operation_id (set_round_two contexts);
  mret (round_two_dispatches contexts signing_package).

Definition accept_round_two (operation_id : Uuid) (signer_id : Z) (response : SignerRoundTwoResponse) (now : Z)
    : coord unit :=
  operation ← live operation_id;
  context ← lift (ok_or (lo_round_two_contexts operation !! signer_id) PSE_ResponseBindingMismatch);
  _ ← lift (reject_if (negb (bool_decide (a2_request_binding_digest response = binding_digest context)))
              PSE_ResponseBindingMismatch);
  payload ← lift (ok_or (hex_decode (a2_signature_share_hex response)) PSE_ResponseBindingMismatch);
  share ← lift (ok_or (share_deserialize payload) PSE_ResponseBindingMismatch);
  participant ← lift (ok_or (lo_participants operation !! signer_id) PSE_ProviderIdentityDrift);
  _ ← machine_call operation_id (add_signature_share participant share now);
  _ ← pc_call (record_receipt (mkPersonalSigningReceipt operation_id signer_id RoundSignatureShare
        (rc_device_id context) (rc_device_generation context) (a2_request_binding_digest response) payload now));
  update_live operation_id (fun o => set_round_two (delete signer_id (lo_round_two_contexts o)) o).

Definition pc_finalize (operation_id : Uuid) (now : Z) : coord bytes :=
  operation ← live operation_id;
  _ ← lift (reject_if (negb (bool_decide (lo_round_two_contexts operation = ∅))) PSE_WrongPhase);
  frost_signature ← machine_call operation_id (finalize now);
  signature ← lift (map_err (fun e => PSE_Signing (FailSigning e)) (signature_to_bytes frost_signature));
  _ ← pc_call (store_complete operation_id (no_operation_binding_digest (op_bound (lo_record operation))) signature now);
  _ ← update_live operation_id (fun o => set_record (finalized_row signature now (lo_record o)) o);
  mret signature.

(** ** Expiry *)

Definition machine_expire (now : Z) : M bool := fun m => let '(m', b) := expire now m in (m', Ok b).

Fixpoint abort_dispatches (o : PersonalSigningOperation) (identities : gmap Z ProviderIdentity) (fresh : Z -> bytes)
    (signers : list Z) : result PersonalSigningError (list PersonalAbortDispatch) :=
  match signers with
  | [] => Ok []
  | k :: rest =>
      identity ← ok_or (identities !! k) PSE_ProviderIdentityDrift;
      l ← abort_dispatches o identities fresh rest;
      Ok (mkPersonalAbortDispatch k (mkSignerAbortRequest (request_context o identity (fresh k)) "deadline") :: l)
  end.

Definition pc_expire (operation_id : Uuid) (now : Z) (fresh : Z -> bytes) : coord (option PersonalSigningTermination) :=
  operation ← live operation_id;
  expired ← machine_call operation_id (machine_expire now);
  if negb expired then mret None
  else
    _ ← pc_call (store_terminate operation_id (no_operation_binding_digest (op_bound (lo_record operation)))
          OpExpired "deadline" now);
    let record := terminated_row OpExpired "deadline" now (lo_record operation) in
    _ ← update_live operation_id (set_record record);
    identities ← gets pc_identities;
    aborts ← lift (abort_dispatches record identities fresh (pair_list (no_selected_participants (op_bound record))));
    mret (Some (mkPersonalSigningTermination OpExpired aborts)).

(** ** Recovery *)

Definition machine_result {A} (x : ThresholdSessionMachine * result OrchestrationError A)
    : result PersonalSigningError (ThresholdSessionMachine * A) :=
  match x.2 with Ok a => Ok (x.1, a) | Err e => Err (PSE_Signing (FailOrchestration e)) end.

Definition replay_commitment (o : PersonalSigningOperation) (identities : gmap Z ProviderIdentity)
    (participants : gmap Z BoundParticipant) (now : Z) (m : ThresholdSessionMachine) (receipt : PersonalSigningReceipt)
    : result PersonalSigningError ThresholdSessionMachine :=
  _ ← validate_recovered_receipt o identities receipt;
  commitment ← ok_or (commitments_deserialize (pr_payload receipt)) PSE_ResponseBindingMismatch;
  participant ← ok_or (participants !! pr_signer_id receipt) PSE_ProviderIdentityDrift;
  '(m', _) ← machine_result (add_commitment participant commitment now m);
  Ok m'.
Definition replay_share (o : PersonalSigningOperation) (identities : gmap Z ProviderIdentity)
    (participants : gmap Z BoundParticipant) (now : Z) (m : ThresholdSessionMachine) (receipt : PersonalSigningReceipt)
    : result PersonalSigningError ThresholdSessionMachine :=
  _ ← validate_recovered_receipt o identities receipt;
  share ← ok_or (share_deserialize (pr_payload receipt)) PSE_ResponseBindingMismatch;
  participant ← ok_or (participants !! pr_signer_id receipt) PSE_ProviderIdentityDrift;
  '(m', _) ← machine_result (add_signature_share participant share now m);
  Ok m'.
Fixpoint replay_receipts
    (step : ThresholdSessionMachine -> PersonalSigningReceipt -> result PersonalSigningError ThresholdSessionMachine)
    (m : ThresholdSessionMachine) (receipts : list PersonalSigningReceipt)
    : result PersonalSigningError ThresholdSessionMachine :=
  match receipts with
  | [] => Ok m
  | r :: rest => m' ← step m r; replay_receipts step m' rest
  end.

Definition receipts_of_round (r : PersonalSigningRound) (l : list PersonalSigningReceipt) : list PersonalSigningReceipt :=
  List.filter (fun item => bool_decide (pr_round item = r)) l.

(** The session of an operation in its share phase, rebuilt from its receipts. *)
Definition rebuild (operation_id : Uuid) (record : PersonalSigningOperation) (now : Z) (c : PersonalSigningCoordinator)
    : result PersonalSigningError
        (gmap Z BoundParticipant * ThresholdSessionMachine * bytes * list PersonalSigningReceipt) :=
  let b := op_bound record in
  participants ← bound_participants (pc_identities c) (no_selected_participants b) (no_operation_binding_digest b);
  m0 ← new_machine c b participants now;
  receipts ← store_receipts (pc_store c) operation_id;
  m1 ← replay_receipts (replay_commitment record (pc_identities c) participants now) m0
         (receipts_of_round RoundCommitment receipts);
  '(m2, session) ← machine_result (freeze_commitments now m1);
  signing_package ← ok_or (package_serialize (fs_signing_package session)) (PSE_Signing FailEncoding);
  _ ← reject_if (negb (bool_decide (op_signing_package record = Some signing_package))) PSE_ResponseBindingMismatch;
  m3 ← replay_receipts (replay_share record (pc_identities c) participants now) m2
         (receipts_of_round RoundSignatureShare receipts);
  Ok (participants, m3, signing_package, receipts).

Definition record_drifts (record : PersonalSigningOperation) (profile : PersonalSignerProfile) : bool :=
  let b := op_bound record in
  negb (bool_decide (no_wallet_id b = ps_wallet_id profile))
  || negb (bool_decide (no_profile_id b = ps_profile_id profile))
  || negb (bool_decide (no_signer_set_id b = ps_signer_set_id profile))
  || negb (no_signer_epoch b =? ps_signer_epoch profile)
  || negb (bool_decide (no_group_pubkey_xonly b = ps_group_pubkey_xonly profile))
  || negb (bool_decide (no_profile_binding_digest b = profile_binding_digest profile)).

(** Signers of the pair without a recorded share. *)
Definition missing_signers (record : PersonalSigningOperation) (receipts : list PersonalSigningReceipt) : list Z :=
  List.filter (fun k => negb (existsb (fun r => pr_signer_id r =? k) (receipts_of_round RoundSignatureShare receipts)))
    (pair_list (no_selected_participants (op_bound record))).

Definition resume_shares (operation_id : Uuid) (record : PersonalSigningOperation) (now : Z) (fresh : Z -> bytes)
    : coord PersonalSigningRecovery :=
  '(participants, machine, signing_package, receipts) ← reads (rebuild operation_id record now);
  identities ← gets pc_identities;
  contexts ← lift (contexts_for record identities fresh (missing_signers record receipts));
  _ ← modify (put_operation operation_id (mkLiveOperation record machine participants ∅ contexts));
  let dispatches := round_two_dispatches contexts signing_package in
  mret (match dispatches with [] => ReadyToFinalize | _ => ResumeRoundTwo dispatches end).

Definition recover_operation (operation_id : Uuid) (now : Z) (fresh : Z -> bytes) : coord PersonalSigningRecovery :=
  found ← reads (fun c => store_operation (pc_store c) operation_id);
  record ← lift (ok_or found PSE_OperationNotFound);
  _ ← reads (fun c => reject_if (record_drifts record (pc_profile c)) PSE_ProviderIdentityDrift);
  let binding := no_operation_binding_digest (op_bound record) in
  match op_status record with
  | OpFinalized =>
      signature ← lift (ok_or (op_final_signature record) PSE_ResponseBindingMismatch);
      mret (RecoveredFinalized signature)
  | OpAborted | OpExpired | OpFailed => mret (RecoveredTerminal (op_status record))
  | OpCollectingCommitments =>
      _ ← pc_call (store_terminate operation_id binding OpAborted "restart_interrupted" now);
      mret TerminatedInterruptedCommitmentRound
  | OpCollectingShares =>
      if no_expires_at (op_bound record) <? now then
        _ ← pc_call (store_terminate operation_id binding OpExpired "deadline" now);
        mret (RecoveredTerminal OpExpired)
      else resume_shares operation_id record now fresh
  end.
End coordinator.
Arguments PersonalSigningCoordinator {_} S.
