(* ===== verification/PersonalInv.v ===== *)
(** * Personal signing over the wallet's storage: processes, crashes, the invariant

    A wallet process runs the coordinator of PersonalSigning.v over the SQLite
    storage of PersonalDb.v.  A process may stop at any time and another one
    start on the same storage; other parts of the wallet write approvals in
    between.  The invariant ties the live sessions to what is recorded. *)

From Stdlib Require Import ZArith Lia.
From S2P Require Import Prelude Bitcoin Text Frost Orchestrator OrchestratorInv Personal Gate Effects Provider.
From S2P Require Import StorageModels WalletDb SignerDevices WalletDbInv PersonalDb PersonalSigning.
From stdpp Require Import list gmap strings.
Local Open Scope string_scope.
Local Open Scope list_scope.
Local Open Scope Z_scope.

Section personal.
Context `{B : BitcoinLib} `{T : TextCodec} `{F : FrostLib} {C : FrostCodec} {FL : FrostLaws F} `{J : IntentMaterialJson} `{U : UuidText} `{BI : BuildInfo}.
(** The profiles processes are started with. *)
Context (known : PersonalSignerProfile -> Prop).

Notation Coordinator := (PersonalSigningCoordinator WalletStorage).

(** ** Machines only gain contributions *)

Definition grows (m m' : ThresholdSessionMachine) : Prop :=
  same_session m m' /\ m_commitments m ⊆ m_commitments m' /\ m_shares m ⊆ m_shares m' /\
  forall s, m_frozen_session m = Some s -> m_frozen_session m' = Some s.

#[export] Instance grows_preorder : PreOrder grows.
Proof.
  split.
  - intros m. by split_and!.
  - intros m1 m2 m3. unfold grows, same_session. intros Hg Hg'. destruct_ex. split_and!; try congruence; [by etrans..|auto].
Qed.

Lemma handle_grows r now m m' res : core_inv m -> handle r now m = (m', res) -> grows m m'.
Proof.
  intros Hi Hh. pose proof (handle_same_session _ _ _ _ _ Hh) as Hs. apply handle_step in Hh as [[-> _]|Hst]; [done|].
  split; [done|]. destruct Hst as [p c id _ Hp _ Hn| _ Hp _|p s id session vs _ Hp _ Hf _ Hn _ _| | | |];
    split_and!; try done; simpl.
  - by apply insert_subseteq.
  - intros s. by rewrite (mi_collecting _ Hi Hp).
  - by apply insert_subseteq.
Qed.

Lemma handle_core r now m m' res : core_inv m -> handle r now m = (m', res) -> core_inv m'.
Proof. intros Hi [[-> _]|Hs]%handle_step; [done|by eapply step_core]. Qed.

(** A method of the machine as a request. *)
Definition requested {A} (f : M A) (r : Request) (now : Z) : Prop :=
  forall m, exists res, handle r now m = ((f m).1, res).

Lemma requested_commitment p c now : requested (add_commitment p c now) (ReqCommitment p c) now.
Proof. by eexists. Qed.
Lemma requested_freeze now : requested (freeze_commitments now) ReqFreeze now.
Proof. by eexists. Qed.
Lemma requested_share p s now : requested (add_signature_share p s now) (ReqShare p s) now.
Proof. by eexists. Qed.
Lemma requested_finalize now : requested (finalize now) ReqFinalize now.
Proof. by eexists. Qed.
Lemma requested_expire now : requested (machine_expire now) ReqExpire now.
Proof. intros m. unfold machine_expire. simpl. destruct (expire now m). by eexists. Qed.

(** What an accepted call means. *)
Lemma add_commitment_Ok p c now m m' u :
  add_commitment p c now m = (m', Ok u) -> exists id, bound m p id /\ m_commitments m' !! id = Some c.
Proof.
  intros Ha. assert (handle (ReqCommitment p c) now m = (m', Ok RespDone)) as Hh by (simpl; by rewrite Ha).
  apply handle_step in Hh as [[_ [[e ?]|[? _]]]|Hs]; [done..|]. inversion Hs; subst; simpl.
  - eexists. split; [done|]. by rewrite lookup_insert_eq.
  - by match goal with X : _ \/ _ |- _ => destruct X as [|[]] end.
Qed.
Lemma freeze_Ok_session now m m' session :
  freeze_commitments now m = (m', Ok session) -> session = session_of m /\ m_frozen_session m' = Some session.
Proof.
  intros Ha. assert (handle ReqFreeze now m = (m', Ok (RespSession session))) as Hh by (simpl; by rewrite Ha).
  apply handle_step in Hh as [[_ [[e ?]|[? _]]]|Hs]; [done..|]. inversion Hs; subst; simpl; [done|].
  by match goal with X : _ \/ _ |- _ => destruct X as [|[]] end.
Qed.
Lemma add_share_Ok p s now m m' u :
  add_signature_share p s now m = (m', Ok u) -> exists id, bound m p id /\ m_shares m' !! id = Some s.
Proof.
  intros Ha. assert (handle (ReqShare p s) now m = (m', Ok RespDone)) as Hh by (simpl; by rewrite Ha).
  apply handle_step in Hh as [[_ [[e ?]|[? _]]]|Hs]; [done..|]. inversion Hs; subst; simpl.
  - eexists. split; [done|]. by rewrite lookup_insert_eq.
  - by match goal with X : _ \/ _ |- _ => destruct X as [|[]] end.
Qed.
Lemma finalize_Ok now m m' sig :
  finalize now m = (m', Ok sig) -> exists session, m_frozen_session m' = Some session /\
    aggregate_and_verify session (m_shares m') = Ok sig.
Proof.
  intros Ha. assert (handle ReqFinalize now m = (m', Ok (RespSignature sig))) as Hh by (simpl; by rewrite Ha).
  apply handle_step in Hh as [[_ [[e ?]|[? _]]]|Hs]; [done..|]. inversion Hs; subst; simpl; [by eexists|].
  by match goal with X : _ \/ _ |- _ => destruct X as [|[]] end.
Qed.
Lemma aggregate_verified session shares sig :
  aggregate_and_verify session shares = Ok sig ->
  verifying_key_verify (verifying_key (fs_public_key_package session)) (fs_message session) sig = true.
Proof. unfold aggregate_and_verify, verify_signature. intros Ha. res_inv. by simplify_eq. Qed.

(** ** Live operations and the storage *)

(** The session was opened for the recorded operation. *)
Definition opened (profile : PersonalSignerProfile) (b : NewPersonalSigningOperation)
    (participants : gmap Z BoundParticipant) (m : ThresholdSessionMachine) : Prop :=
  exists pkp now0 m0, public_key_package_deserialize (ps_public_key_package profile) = Some pkp /\
    ThresholdSessionMachine_new (no_session_id b) (no_taproot_sighash b) (no_policy_digest b) (no_threshold b)
      (no_expires_at b) ((in_key_order participants).*2) pkp now0 = Ok m0 /\ same_session m0 m.

(** A context goes to the registered device of its signer, a receipt came from it. *)
Definition device_of (identities : gmap Z ProviderIdentity) (k : Z) (device : Uuid) (generation : Z) : Prop :=
  exists identity, identities !! k = Some identity /\ device = id_device_id identity /\
    generation = id_device_generation identity.
Definition contexts_ok (identities : gmap Z ProviderIdentity) (contexts : gmap Z SignerRequestContext) : Prop :=
  forall k ctx, contexts !! k = Some ctx -> device_of identities k (rc_device_id ctx) (rc_device_generation ctx).

(** A recorded contribution is the one the machine holds. *)
Definition committed (identities : gmap Z ProviderIdentity) (m : ThresholdSessionMachine) (k : Z)
    (rc : PersonalSigningReceipt) : Prop :=
  device_of identities k (pr_device_id rc) (pr_device_generation rc) /\
  exists id c, participant_identifier k = Some id /\ commitments_deserialize (pr_payload rc) = Some c /\
    m_commitments m !! id = Some c.
Definition shared (identities : gmap Z ProviderIdentity) (m : ThresholdSessionMachine) (k : Z)
    (rc : PersonalSigningReceipt) : Prop :=
  device_of identities k (pr_device_id rc) (pr_device_generation rc) /\
  exists id sh, participant_identifier k = Some id /\ share_deserialize (pr_payload rc) = Some sh /\
    m_shares m !! id = Some sh.
Definition in_share_phase (row : PersonalSigningOperation) : Prop :=
  op_status row = OpCollectingShares \/ op_status row = OpFinalized.
Definition package_of (m : ThresholdSessionMachine) (row : PersonalSigningOperation) : Prop :=
  exists session pkg, m_frozen_session m = Some session /\ package_serialize (fs_signing_package session) = Some pkg /\
    op_signing_package row = Some pkg.

Record live_ok (profile : PersonalSignerProfile) (identities : gmap Z ProviderIdentity) (s : WalletStorage) (id : Uuid)
    (o : LiveOperation) : Prop := {
  lk_row : exists row, st_operations s !! id = Some row /\ op_bound row = op_bound (lo_record o) /\
    (in_share_phase row -> package_of (lo_machine o) row);
  lk_profile : record_drifts (lo_record o) profile = false;
  lk_bound : bound_participants identities (no_selected_participants (op_bound (lo_record o)))
    (no_operation_binding_digest (op_bound (lo_record o))) = Ok (lo_participants o);
  lk_opened : opened profile (op_bound (lo_record o)) (lo_participants o) (lo_machine o);
  lk_machine : core_inv (lo_machine o);
  lk_contexts : contexts_ok identities (lo_round_one_contexts o) /\ contexts_ok identities (lo_round_two_contexts o);
  lk_commit k rc : st_receipts s !! (id, k, RoundCommitment) = Some rc -> committed identities (lo_machine o) k rc;
  lk_share k rc : st_receipts s !! (id, k, RoundSignatureShare) = Some rc -> shared identities (lo_machine o) k rc;
}.

(** A stored signature: the group key of the bound profile verifies it for the
    approved sighash, and each signer of the pair has a recorded, verified
    share of the stored package. *)
Definition signed (s : WalletStorage) (id : Uuid) (row : PersonalSigningOperation) (sig : bytes) : Prop :=
  exists profile pkp package fsig, known profile /\
    profile_binding_digest profile = no_profile_binding_digest (op_bound row) /\
    public_key_package_deserialize (ps_public_key_package profile) = Some pkp /\
    op_signing_package row = package_serialize package /\
    (forall k, selects (no_selected_participants (op_bound row)) k = true ->
      exists ident rc sh vs, participant_identifier k = Some ident /\
        st_receipts s !! (id, k, RoundSignatureShare) = Some rc /\ share_deserialize (pr_payload rc) = Some sh /\
        verifying_shares pkp !! ident = Some vs /\
        verify_signature_share ident vs sh package (verifying_key pkp) = true) /\
    verifying_key_verify (verifying_key pkp) (no_taproot_sighash (op_bound row)) fsig = true /\
    signature_to_bytes fsig = Ok sig.

(** Some process of the past had a live operation that accounts for what is stored. *)
Definition recoverable (s : WalletStorage) (id : Uuid) : Prop :=
  exists profile identities o, known profile /\ live_ok profile identities s id o.

Record coordinator_inv (c : Coordinator) : Prop := {
  ci_storage : storage_inv (pc_store c);
  ci_live id o : pc_operations c !! id = Some o -> live_ok (pc_profile c) (pc_identities c) (pc_store c) id o;
  ci_signed id row sig : st_operations (pc_store c) !! id = Some row -> op_final_signature row = Some sig ->
    signed (pc_store c) id row sig;
  ci_known : known (pc_profile c);
  ci_recoverable id row : st_operations (pc_store c) !! id = Some row -> in_share_phase row -> recoverable (pc_store c) id;
}.

(** ** Frames *)

Definition same_at (s s' : WalletStorage) (id : Uuid) : Prop :=
  st_operations s' !! id = st_operations s !! id /\ forall k r, st_receipts s' !! (id, k, r) = st_receipts s !! (id, k, r).

Lemma live_frame profile identities s s' id o :
  same_at s s' id -> live_ok profile identities s id o -> live_ok profile identities s' id o.
Proof.
  intros [Hr Hk] []. constructor; try done; [by rewrite Hr|intros k rc; rewrite Hk; auto..].
Qed.

Lemma committed_grows identities m m' k rc : grows m m' -> committed identities m k rc -> committed identities m' k rc.
Proof.
  intros (_ & Hc & _) (Hd & id & c & Hi & Hp & Hm). split; [done|]. exists id, c. split_and!; try done. by eapply lookup_weaken.
Qed.
Lemma shared_grows identities m m' k rc : grows m m' -> shared identities m k rc -> shared identities m' k rc.
Proof.
  intros (_ & _ & Hc & _) (Hd & id & c & Hi & Hp & Hm). split; [done|]. exists id, c. split_and!; try done. by eapply lookup_weaken.
Qed.
Lemma package_grows m m' row : grows m m' -> package_of m row -> package_of m' row.
Proof. intros (_ & _ & _ & Hf) (session & pkg & Hs & Hp & Hr). exists session, pkg. auto. Qed.
Lemma same_session_trans m1 m2 m3 : same_session m1 m2 -> same_session m2 m3 -> same_session m1 m3.
Proof. unfold same_session. intros Hs Hs'. destruct_ex. split_and!; congruence. Qed.

Lemma live_grows profile identities s id o m' :
  grows (lo_machine o) m' -> core_inv m' -> live_ok profile identities s id o ->
  live_ok profile identities s id (set_machine m' o).
Proof.
  intros Hg Hc [(row & Hr & Hb & Hp) Hpr Hbd (pkp & now0 & m0 & Hd & Hn & Hs) Hm Hx Hco Hsh].
  constructor; try done; simpl.
  - exists row. split_and!; try done. intros Hst. by eapply package_grows, Hp.
  - exists pkp, now0, m0. split_and!; try done. by eapply same_session_trans, Hg.
  - intros k rc Hk. by eapply committed_grows, Hco.
  - intros k rc Hk. by eapply shared_grows, Hsh.
Qed.

(** Other columns of the live record. *)
Lemma live_record profile identities s id o r :
  op_bound r = op_bound (lo_record o) -> live_ok profile identities s id o -> live_ok profile identities s id (set_record r o).
Proof.
  intros Hb []. constructor; simpl; try done; rewrite ?Hb; try done. unfold record_drifts in *. by rewrite Hb.
Qed.
Lemma live_round_one profile identities s id o contexts :
  contexts_ok identities contexts -> live_ok profile identities s id o ->
  live_ok profile identities s id (set_round_one contexts o).
Proof. intros Hc [?????[]]. by constructor. Qed.
Lemma live_round_two profile identities s id o contexts :
  contexts_ok identities contexts -> live_ok profile identities s id o ->
  live_ok profile identities s id (set_round_two contexts o).
Proof. intros Hc [?????[]]. by constructor. Qed.

Lemma signed_mono s s' id row row' sig :
  st_receipts s ⊆ st_receipts s' -> op_bound row' = op_bound row -> op_signing_package row' = op_signing_package row ->
  signed s id row sig -> signed s' id row' sig.
Proof.
  intros Hr Hb Hp (profile & pkp & package & fsig & Hkn & Hd & Hpk & Hser & Hsh & Hv & Hsig).
  exists profile, pkp, package, fsig. rewrite Hb, Hp. split_and!; try done. intros k Hk.
  destruct (Hsh k Hk) as (ident & rc & sh & vs & Hi & Hrc & ?). exists ident, rc, sh, vs.
  split; [done|]. split; [by eapply lookup_weaken|done].
Qed.

(** ** Steps that keep the invariant *)

Lemma inv_put c id o :
  coordinator_inv c -> live_ok (pc_profile c) (pc_identities c) (pc_store c) id o -> coordinator_inv (put_operation id o c).
Proof.
  intros [Hs Hl Hg Hkn Hrc] Ho. constructor; simpl; try done.
  intros j q [[<- <-]|[_ Hq]]%lookup_insert_Some; [done|by apply Hl].
Qed.

Lemma inv_handled c id o r now m' res :
  coordinator_inv c -> pc_operations c !! id = Some o -> handle r now (lo_machine o) = (m', res) ->
  coordinator_inv (put_operation id (set_machine m' o) c).
Proof.
  intros Hc Ho Hh. pose proof (ci_live _ Hc _ _ Ho) as Hl. apply inv_put; [done|].
  apply live_grows; [by eapply handle_grows, Hh; apply Hl|by eapply handle_core, Hh; apply Hl|done].
Qed.

Lemma inv_stored c s' id :
  coordinator_inv c -> storage_inv s' -> (forall j, j <> id -> same_at (pc_store c) s' j) ->
  st_receipts (pc_store c) ⊆ st_receipts s' ->
  (forall o, pc_operations c !! id = Some o -> live_ok (pc_profile c) (pc_identities c) s' id o) ->
  (forall row sig, st_operations s' !! id = Some row -> op_final_signature row = Some sig -> signed s' id row sig) ->
  (forall row, st_operations s' !! id = Some row -> in_share_phase row -> recoverable s' id) ->
  coordinator_inv (set_pc_store s' c).
Proof.
  intros [Hs Hl Hg Hkn Hrc] Hs' Hj Hm Hl' Hg' Hr'. constructor; simpl; try done.
  - intros j o Ho. destruct (decide (j = id)) as [->|Hne]; [by apply Hl'|]. eapply live_frame; [by apply Hj|by apply Hl].
  - intros j row sig Hr Hsig. destruct (decide (j = id)) as [->|Hne]; [by eapply Hg'|].
    destruct (Hj j Hne) as [Hrow _]. rewrite Hrow in Hr. by eapply signed_mono, Hg.
  - intros j row Hr Hph. destruct (decide (j = id)) as [->|Hne]; [by eapply Hr'|].
    pose proof (Hj j Hne) as Hsame. rewrite (proj1 Hsame) in Hr.
    destruct (Hrc _ _ Hr Hph) as (p & i & o & Hk & Ho). exists p, i, o. split; [done|]. by eapply live_frame.
Qed.

Lemma inv_row_step c s' id row row' :
  coordinator_inv c -> storage_inv s' -> row_changed (pc_store c) s' id row row' -> op_bound row' = op_bound row ->
  (in_share_phase row' -> exists o, pc_operations c !! id = Some o /\ package_of (lo_machine o) row') ->
  (forall sig, op_final_signature row' = Some sig -> signed (pc_store c) id row' sig) ->
  coordinator_inv (set_pc_store s' c).
Proof.
  intros Hc Hs' (Hrow & Hops & Hrec & _) Hb Hp Hg.
  assert (forall o, pc_operations c !! id = Some o -> live_ok (pc_profile c) (pc_identities c) s' id o) as Hl.
  { intros o Ho. destruct (ci_live _ Hc _ _ Ho) as [(row0 & Hr0 & Hb0 & _)]. simplify_eq.
    constructor; try done; [|by rewrite Hrec..]. exists row'. rewrite Hops, lookup_insert_eq.
    split_and!; [done|congruence|]. intros Hph. destruct (Hp Hph) as (o' & Ho' & Hpk). by simplify_eq. }
  eapply (inv_stored c s' id); try done.
  - intros j Hne. split; [by rewrite Hops, lookup_insert_ne|by rewrite Hrec].
  - by rewrite Hrec.
  - intros q sig. rewrite Hops, lookup_insert_eq. intros [= <-] Hsig. apply (signed_mono (pc_store c) s' id row'); [by rewrite Hrec|done..|]. auto.
  - intros q. rewrite Hops, lookup_insert_eq. intros [= <-] Hph. destruct (Hp Hph) as (o & Ho & _).
    eexists _, _, o. split; [apply Hc|by apply Hl].
Qed.

Lemma inv_terminated_step c id b status reason now s' u :
  coordinator_inv c -> terminate_personal_signing_operation id b status reason now (pc_store c) = (s', Ok u) ->
  coordinator_inv (set_pc_store s' c).
Proof.
  intros Hc Hf. pose proof (inv_terminated _ _ _ _ _ _ _ _ (ci_storage _ Hc) Hf) as Hs'.
  apply terminate_Ok in Hf as (Hst & row & _ & _ & Hrow). eapply inv_row_step; [done..| |]; simpl.
  - intros [E|E]; simpl in E; subst; naive_solver.
  - intros sig Hsig. apply (signed_mono (pc_store c) _ _ row); [done..|]. eapply ci_signed; [done|apply Hrow|done].
Qed.

(** Recording a receipt the machine of its operation accounts for. *)
Lemma inv_receipt c r s' u o :
  coordinator_inv c -> record_personal_signing_receipt r (pc_store c) = (s', Ok u) ->
  pc_operations c !! pr_operation_id r = Some o ->
  match pr_round r with
  | RoundCommitment => committed (pc_identities c) (lo_machine o) (pr_signer_id r) r
  | RoundSignatureShare => shared (pc_identities c) (lo_machine o) (pr_signer_id r) r
  end -> coordinator_inv (set_pc_store s' c).
Proof.
  intros Hc Hr Ho Hl. pose proof (recorded_mono _ _ _ _ (ci_storage _ Hc) Hr) as Hm.
  pose proof (inv_recorded _ _ _ _ (ci_storage _ Hc) Hr) as Hs'.
  apply record_Ok in Hr as [->|(row & Hrow & _ & _ & _ & _ & _ & Hops & Hrec)]; [by destruct c|].
  assert (live_ok (pc_profile c) (pc_identities c) s' (pr_operation_id r) o) as Hlo.
  { destruct (ci_live _ Hc _ _ Ho). constructor; try done; [by rewrite Hops|..];
      intros k rc; rewrite Hrec; intros [[[= <- Hq] <-]|[_ Hk]]%lookup_insert_Some; auto; by rewrite Hq in Hl. }
  eapply (inv_stored c s' (pr_operation_id r)); try done.
  - intros j Hne. split; [by rewrite Hops|]. intros k q. rewrite Hrec, lookup_insert_ne; [done|congruence].
  - intros o' Ho'. by simplify_eq.
  - intros q sig. rewrite Hops. intros Hq Hsig. eapply (signed_mono (pc_store c) s' _ q); [done..|]. by eapply ci_signed.
  - intros q _ _. eexists _, _, o. split; [apply Hc|done].
Qed.

(** ** The rounds *)

(** The invariant, with the live operation at hand. *)
Definition working (id : Uuid) (o : LiveOperation) (c : Coordinator) : Prop :=
  coordinator_inv c /\ pc_operations c !! id = Some o.
Lemma working_inv id o c : working id o c -> coordinator_inv c.
Proof. by intros []. Qed.
Hint Resolve working_inv : core.
Lemma working_live id o c : working id o c -> live_ok (pc_profile c) (pc_identities c) (pc_store c) id o.
Proof. intros [Hc Ho]. by apply ci_live. Qed.

Lemma triple_live id : triple coordinator_inv (live id) (working id) coordinator_inv.
Proof.
  intros c Hc. unfold live, reads. destruct (pc_operations c !! id) as [o|] eqn:Ho; simpl; [by split|done].
Qed.

Lemma triple_machine {A} id o (f : M A) r now :
  requested f r now ->
  triple (working id o) (machine_call id f)
    (fun a c => exists m', working id (set_machine m' o) c /\ f (lo_machine o) = (m', Ok a)) coordinator_inv.
Proof.
  intros Hf c [Hc Ho]. unfold machine_call. rewrite Ho. destruct (Hf (lo_machine o)) as [res Hh].
  destruct (f (lo_machine o)) as [m' x] eqn:Ef. simpl in Hh. pose proof (inv_handled _ _ _ _ _ _ _ Hc Ho Hh) as Hc'.
  destruct x as [a|e]; simpl; [|done]. exists m'. split; [|done]. split; [done|]. simpl. by rewrite lookup_insert_eq.
Qed.

Lemma set_pc_store_id (c : Coordinator) : set_pc_store (pc_store c) c = c.
Proof. by destruct c. Qed.

(** A call of the storage leaves the live operations alone; refused, it leaves
    the storage alone too. *)
Lemma triple_stored {A} id o (m : act WalletStorage StorageError A) :
  atomic m ->
  (forall c s' a, working id o c -> m (pc_store c) = (s', Ok a) -> coordinator_inv (set_pc_store s' c)) ->
  triple (working id o) (pc_call (storage_call m)) (fun _ => working id o) coordinator_inv.
Proof.
  intros Ha Hm c Hc. unfold pc_call, storage_call, zoom. specialize (Hm c). unfold Datatypes.id.
  destruct (m (pc_store c)) as [s' [a|e]] eqn:E; simpl.
  - split; [by eapply Hm|apply Hc].
  - rewrite <- (Ha _ _ _ E), set_pc_store_id. apply Hc.
Qed.

Lemma triple_update (P : Coordinator -> Prop) id o f :
  (forall c, P c -> working id o c) ->
  (forall c, P c -> live_ok (pc_profile c) (pc_identities c) (pc_store c) id o ->
    live_ok (pc_profile c) (pc_identities c) (pc_store c) id (f o)) ->
  triple P (update_live id f) (fun _ => working id (f o)) coordinator_inv.
Proof.
  intros Hp Hf c Hc. unfold update_live, Effects.modify. pose proof (Hp _ Hc) as Hw.
  specialize (Hf c Hc (working_live _ _ _ Hw)). destruct Hw as [Hi Ho]. rewrite Ho.
  split; [by apply inv_put|simpl; by rewrite lookup_insert_eq].
Qed.

Lemma bound_lookup identities sel b ps k p :
  bound_participants identities sel b = Ok ps -> ps !! k = Some p ->
  selects sel k = true /\ exists identity, identities !! k = Some identity /\ p = bound_participant k identity b.
Proof.
  unfold bound_participants. intros Hb. res_inv. simplify_eq. rewrite !lookup_insert_Some, lookup_empty.
  intros [[<- <-]|[_ [[<- <-]|[_ ?]]]]; [| |done]; (split; [|by eexists]); unfold selects; rewrite Z.eqb_refl; by rewrite ?orb_true_r.
Qed.

(** The identifier under which a participant of the operation contributes. *)
Lemma bound_signer profile identities s id o m k p ident :
  live_ok profile identities s id o -> lo_participants o !! k = Some p -> bound m p ident ->
  participant_identifier k = Some ident.
Proof.
  intros Hl Hp [_ Hi]. destruct (bound_lookup _ _ _ _ _ _ (lk_bound _ _ _ _ _ Hl) Hp) as (_ & i & _ & ->). done.
Qed.

Lemma contexts_delete identities contexts k : contexts_ok identities contexts -> contexts_ok identities (delete k contexts).
Proof. intros Hc j ctx [_ Hj]%lookup_delete_Some. by apply Hc. Qed.

Ltac in_machine r :=
  eapply triple_bind;
  [apply (triple_machine _ _ _ _ _ r)|intros ?; apply triple_exists; intros m'; apply triple_pure; intros Hm'].

Lemma round_one_inv id k resp now : triple coordinator_inv (accept_round_one id k resp now) (fun _ => coordinator_inv) coordinator_inv.
Proof.
  unfold accept_round_one. eapply triple_bind; [apply triple_live|intros o]. repeat (triple_step; [by eauto|]).
  in_machine (requested_commitment a3 a2 now). res_inv. apply add_commitment_Ok in Hm' as (ident & Hb & Hcm).
  eapply triple_bind; [apply triple_stored; [apply record_atomic|]|intros ?].
  - intros c s' u Hw Hr. pose proof (working_live _ _ _ Hw) as Hl.
    destruct Hw as [Hc Ho]. eapply inv_receipt; [done..|]. simpl. split; [by eapply (proj1 (lk_contexts _ _ _ _ _ Hl))|].
    exists ident, a2. split_and!; [by eapply (bound_signer _ _ _ _ _ _ _ _ _ Hl)|done..].
  - eapply triple_post; [|apply triple_update; [done|]]; [by intros ? ? ?%working_inv|]. intros c _ Hl.
    by apply live_round_one; [apply contexts_delete, Hl|].
Qed.

Lemma round_two_inv id k resp now : triple coordinator_inv (accept_round_two id k resp now) (fun _ => coordinator_inv) coordinator_inv.
Proof.
  unfold accept_round_two. eapply triple_bind; [apply triple_live|intros o]. repeat (triple_step; [by eauto|]).
  in_machine (requested_share a3 a2 now). res_inv. apply add_share_Ok in Hm' as (ident & Hb & Hcm).
  eapply triple_bind; [apply triple_stored; [apply record_atomic|]|intros ?].
  - intros c s' u Hw Hr. pose proof (working_live _ _ _ Hw) as Hl.
    destruct Hw as [Hc Ho]. eapply inv_receipt; [done..|]. simpl. split; [by eapply (proj2 (lk_contexts _ _ _ _ _ Hl))|].
    exists ident, a2. split_and!; [by eapply (bound_signer _ _ _ _ _ _ _ _ _ Hl)|done..].
  - eapply triple_post; [|apply triple_update; [done|]]; [by intros ? ? ?%working_inv|]. intros c _ Hl.
    by apply live_round_two; [apply contexts_delete, Hl|].
Qed.

Lemma contexts_for_lookup o identities fresh ks contexts :
  contexts_for o identities fresh ks = Ok contexts ->
  forall k ctx, contexts !! k = Some ctx -> exists identity, identities !! k = Some identity /\
    ctx = request_context o identity (fresh k).
Proof.
  revert contexts. induction ks as [|k ks IH]; intros contexts; simpl.
  - intros [= <-] j ctx. by rewrite lookup_empty.
  - intros Hc. res_inv. simplify_eq. intros j ctx [[<- <-]|[_ Hj]]%lookup_insert_Some; [by eexists|by eapply IH].
Qed.
Lemma contexts_for_ok o identities fresh ks contexts :
  contexts_for o identities fresh ks = Ok contexts -> contexts_ok identities contexts.
Proof. intros Hc k ctx Hk. destruct (contexts_for_lookup _ _ _ _ _ Hc _ _ Hk) as (i & Hi & ->). by exists i. Qed.
Lemma contexts_for_dom o identities fresh ks contexts :
  contexts_for o identities fresh ks = Ok contexts -> forall k, k ∈ ks <-> is_Some (contexts !! k).
Proof.
  revert contexts. induction ks as [|k ks IH]; intros contexts; simpl.
  - intros [= <-] j. rewrite lookup_empty. split; [by intros ?%not_elem_of_nil|by intros []].
  - intros Hc. res_inv. simplify_eq. intros j. rewrite elem_of_cons, (IH _ E0). destruct (decide (j = k)) as [->|Hne].
    + rewrite lookup_insert_eq. split; [by eexists|by left].
    + rewrite lookup_insert_ne by done. naive_solver.
Qed.

Lemma freeze_round_inv id now fresh : triple coordinator_inv (pc_freeze_commitments id now fresh) (fun _ => coordinator_inv) coordinator_inv.
Proof.
  unfold pc_freeze_commitments. eapply triple_bind; [apply triple_live|intros o]. triple_step; [by eauto|].
  in_machine (requested_freeze now). triple_step; [by eauto|]. res_inv. apply freeze_Ok_session in Hm' as [-> Hfr].
  eapply triple_bind; [apply triple_stored; [apply freeze_atomic|]|intros ?].
  { intros c s' u [Hc Ho] Hf. pose proof (inv_frozen _ _ _ _ _ _ _ (ci_storage _ Hc) Hf) as Hs'.
    apply freeze_Ok in Hf as (_ & row & _ & Hst & _ & Hrow). eapply inv_row_step; [done..| |]; simpl.
    - intros _. eexists. split; [done|]. by eexists _, _.
    - pose proof (si_row _ (ci_storage _ Hc) _ _ (proj1 Hrow)) as (_ & _ & _ & Hok). unfold row_ok in Hok.
      rewrite Hst in Hok. intros sig Hsig. destruct Hok. congruence. }
  eapply triple_bind; [apply triple_update; [done|]|intros ?; triple_step; triple_step].
  { intros c _. by apply live_record. }
  { intros c [Hw _]. eauto. }
  eapply triple_bind; [|intros ?; apply triple_ret]. eapply triple_post; [|apply triple_update].
  - by intros ? ? ?%working_inv.
  - by intros c [? _].
  - intros c [_ ->]. apply live_round_two. by eapply contexts_for_ok.
Qed.

Lemma opened_session profile b ps m :
  opened profile b ps m -> exists pkp, public_key_package_deserialize (ps_public_key_package profile) = Some pkp /\
    m_public_key_package m = pkp /\ m_message m = no_taproot_sighash b /\ m_min_signers m = no_threshold b /\
    m_deadline m = no_expires_at b /\ m_session_id m = no_session_id b /\
    m_participants m = participant_map ((in_key_order ps).*2).
Proof.
  intros (pkp & now0 & m0 & Hd & Hn & Hs). exists pkp. unfold ThresholdSessionMachine_new in Hn. res_inv. subst m0.
  unfold same_session in Hs. destruct_ex. simpl in *. by split_and!.
Qed.

Lemma drifts_digest row profile : record_drifts row profile = false ->
  no_profile_binding_digest (op_bound row) = profile_binding_digest profile.
Proof. unfold record_drifts. intros Hd. autorewrite with guards in Hd. by destruct_ex. Qed.

(** The signature of a session whose shares are all recorded. *)
Lemma live_signed profile identities s id o row session fsig sig :
  known profile -> storage_inv s -> live_ok profile identities s id o -> st_operations s !! id = Some row -> in_share_phase row ->
  both_receipts s id (op_bound row) RoundSignatureShare -> m_frozen_session (lo_machine o) = Some session ->
  aggregate_and_verify session (m_shares (lo_machine o)) = Ok fsig -> signature_to_bytes fsig = Ok sig ->
  signed s id row sig.
Proof.
  intros Hkn Hs Hl Hrow Hph Hboth Hfr Hagg Hsig. destruct (lk_row _ _ _ _ _ Hl) as (row0 & Hr0 & Hb & Hpk). simplify_eq.
  destruct (Hpk Hph) as (session0 & pkg & Hf0 & Hser & Hop). simplify_eq.
  destruct (opened_session _ _ _ _ (lk_opened _ _ _ _ _ Hl)) as (pkp & Hd & Hm & Hmsg & _).
  destruct (mi_frozen _ (lk_machine _ _ _ _ _ Hl) _ Hfr) as [Hsess _].
  apply aggregate_verified in Hagg. rewrite Hsess in Hagg. simpl in Hagg.
  exists profile, pkp, (fs_signing_package session), fsig. rewrite Hb, Hser. split_and!; try done.
  - by rewrite (drifts_digest _ _ (lk_profile _ _ _ _ _ Hl)).
  - intros k Hk. rewrite <- Hb in Hk. destruct (Hboth k Hk) as [rc Hrc].
    destruct (lk_share _ _ _ _ _ Hl _ _ Hrc) as (_ & ident & sh & Hi & Hsh & Hms).
    destruct (mi_shares _ (lk_machine _ _ _ _ _ Hl) _ _ Hms) as (_ & vs & Hvs & Hv). rewrite <- Hsess in Hv.
    rewrite Hm in *. by exists ident, rc, sh, vs.
  - by rewrite Hm, Hmsg in Hagg.
Qed.

Lemma finalize_inv id now : triple coordinator_inv (pc_finalize id now) (fun _ => coordinator_inv) coordinator_inv.
Proof.
  unfold pc_finalize. eapply triple_bind; [apply triple_live|intros o]. triple_step; [by eauto|].
  in_machine (requested_finalize now). triple_step; [by eauto|]. res_inv. apply finalize_Ok in Hm' as (session & Hfr & Hagg).
  eapply triple_bind; [apply triple_stored; [apply complete_atomic|]|intros ?].
  { intros c s' u Hw Hf. pose proof (working_live _ _ _ Hw) as Hl. destruct Hw as [Hc Ho].
    pose proof (inv_completed _ _ _ _ _ _ _ (ci_storage _ Hc) Hf) as Hs'.
    apply complete_Ok in Hf as (Hcnt & row & _ & Hst & _ & Hrow). eapply inv_row_step; [done..| |]; simpl.
    - intros _. eexists. split; [done|]. destruct (lk_row _ _ _ _ _ Hl) as (row0 & Hr0 & _ & Hpk).
      rewrite (proj1 Hrow) in Hr0. simplify_eq. destruct (Hpk (or_introl Hst)) as (se & pkg & ? & ? & ?). by exists se, pkg.
    - intros sig [= <-]. apply (signed_mono (pc_store c) _ _ row); [done..|].
      eapply live_signed; [apply Hc|apply Hc|done|apply Hrow|by left|by apply count_both; [apply Hc|apply Hrow|]|done..]. }
  eapply triple_bind; [apply triple_update; [done|]|intros ?].
  { intros c _. by apply live_record. }
  intros c Hw. apply (working_inv _ _ _ Hw).
Qed.

Lemma expire_inv id now fresh : triple coordinator_inv (pc_expire id now fresh) (fun _ => coordinator_inv) coordinator_inv.
Proof.
  unfold pc_expire. eapply triple_bind; [apply triple_live|intros o]. in_machine (requested_expire now).
  destruct a; simpl; [|intros c Hw; apply (working_inv _ _ _ Hw)].
  eapply triple_bind; [apply triple_stored; [apply terminate_atomic|]|intros ?].
  { intros c s' u [Hc Ho] Hf. by eapply inv_terminated_step. }
  eapply triple_bind; [apply triple_update; [done|]|intros ?; triple_step].
  { intros c _. by apply live_record. }
  triple_step; [by intros c [? _]; eauto|]. intros c [Hw _]. apply (working_inv _ _ _ Hw).
Qed.

(** ** Starting an operation *)

Lemma new_machine_opened (c : Coordinator) b ps now m :
  new_machine c b ps now = Ok m -> opened (pc_profile c) b ps m /\ m_phase m = CollectingCommitments /\
    m_commitments m = ∅ /\ m_shares m = ∅ /\ (is_u16 (no_threshold b) -> core_inv m).
Proof.
  unfold new_machine. intros Hn. res_inv. split; [by exists r, now, m|]. pose proof Hn as Hn'.
  unfold ThresholdSessionMachine_new in Hn'. res_inv. subst m. split_and!; try done.
  intros Hu. by apply new_inv in Hn as [[? _ _ _] _].
Qed.

Lemma prepare_Ok request now (c : Coordinator) pp :
  prepare_operation request now c = Ok pp ->
  let b := personal_operation_binding_digest (pc_profile c) request in
  pp_record pp = new_operation (pc_profile c) request b now /\
  pc_operations c !! bo_operation_id request = None /\ now < bo_expires_at request /\
  bound_participants (pc_identities c) (bo_selected_participants request) b = Ok (pp_participants pp) /\
  new_machine c (pp_record pp) (pp_participants pp) now = Ok (pp_machine pp).
Proof.
  unfold prepare_operation. intros Hp. res_inv. simplify_eq. simpl. rewrite <- eq_None_not_Some in *. split_and!; try done; lia.
Qed.

Lemma activated_inv id row pp fresh (c : Coordinator) :
  coordinator_inv c ->
  (forall contexts, contexts_ok (pc_identities c) contexts -> live_ok (pc_profile c) (pc_identities c) (pc_store c) id
     (mkLiveOperation row (pp_machine pp) (pp_participants pp) contexts ∅)) ->
  coordinator_inv (activate_prepared id row pp fresh c).1.
Proof.
  intros Hc Hl. assert (triple (fun c' => c' = c) (activate_prepared id row pp fresh) (fun _ => coordinator_inv) coordinator_inv) as Ht.
  { unfold activate_prepared. triple_step; [by intros c' ->|]. triple_step. triple_step; [by intros c' [-> _]|].
    eapply triple_bind; [|intros ?; apply triple_ret]. apply triple_modify. intros c' [-> ->]. apply inv_put; [done|].
    by eapply Hl, contexts_for_ok. }
  specialize (Ht c eq_refl). by destruct (activate_prepared id row pp fresh c) as [c' []].
Qed.

Lemma begin_inv request auth now fresh (c : Coordinator) :
  coordinator_inv c -> coordinator_inv (begin_authorized request auth now fresh c).1.1.
Proof.
  intros Hc. unfold begin_authorized.
  destruct (prepare_operation request now c) as [pp|e] eqn:Hp; simpl; [|done].
  apply prepare_Ok in Hp as (Hrec & Hnone & Hexp & Hbd & Hnew).
  destruct (PersonalOperationAuthorization_validate _ _) as [[]|e]; simpl; [|done].
  unfold storage_call, zoom, Datatypes.id.
  destruct (consume_authorization_and_create_personal_signing_operation _ _ _ _) as [s' [row|e]] eqn:Ecr; simpl; last first.
  { by rewrite <- (create_atomic _ _ _ _ _ _ Ecr), set_pc_store_id. }
  pose proof (inv_created _ _ _ _ _ _ (ci_storage _ Hc) Ecr) as [Hs' _].
  apply create_Ok in Ecr as (-> & Ht & _ & _ & Hop & _ & mt & au & it & v2 & _ & _ & _ & _ & _ & _ & _ & _ & _ & _ & Hops & Hrcs & _).
  rewrite Hrec in *. simpl in Hop, Hops.
  assert (forall k r, st_receipts s' !! (bo_operation_id request, k, r) = None) as Hnor.
  { intros k r. rewrite Hrcs. apply eq_None_not_Some. intros [rc Hk].
    apply (si_receipt _ (ci_storage _ Hc)) in Hk as (_ & _ & _ & q & Hq & _). congruence. }
  assert (coordinator_inv (set_pc_store s' c)) as Hc1.
  { eapply (inv_stored c s' (bo_operation_id request)); try done.
    - intros j Hne. split; [by rewrite Hops, lookup_insert_ne|by rewrite Hrcs].
    - by rewrite Hrcs.
    - intros o. by rewrite Hnone.
    - intros q sig. rewrite Hops, lookup_insert_eq. by intros [= <-].
    - intros q. rewrite Hops, lookup_insert_eq. intros [= <-]. by intros [|]. }
  match goal with |- context [activate_prepared ?i ?r pp fresh ?c1] =>
    pose proof (activated_inv i r pp fresh c1 Hc1) as Ha; destruct (activate_prepared i r pp fresh c1) end.
  apply Ha. intros contexts Hctx. apply new_machine_opened in Hnew as (Hopn & _ & _ & _ & Hcore).
  constructor; simpl; try done.
  - eexists. rewrite Hops, lookup_insert_eq. split_and!; [done..|]. by intros [|].
  - unfold record_drifts. simpl. by rewrite !bool_decide_true, Z.eqb_refl.
  - apply Hcore. rewrite Ht. done.
  - intros k rc. by rewrite Hnor.
  - intros k rc. by rewrite Hnor.
Qed.

(** ** Recovery *)

(** A replayed list: each receipt is accounted for in the machine that results. *)
Lemma replay_all (step : ThresholdSessionMachine -> PersonalSigningReceipt -> result PersonalSigningError ThresholdSessionMachine)
    (good : ThresholdSessionMachine -> PersonalSigningReceipt -> Prop) :
  (forall m rc m', core_inv m -> step m rc = Ok m' -> core_inv m' /\ grows m m' /\ good m' rc) ->
  (forall m m' rc, grows m m' -> good m rc -> good m' rc) ->
  forall l m m', core_inv m -> replay_receipts step m l = Ok m' -> core_inv m' /\ grows m m' /\ Forall (good m') l.
Proof.
  intros Hstep Hgood. induction l as [|rc l IH]; intros m m' Hm; cbn [replay_receipts]; [by intros [= <-]|].
  intros Hr. res_inv. destruct (Hstep _ _ _ Hm E) as (Hm1 & Hg1 & Hok1). destruct (IH _ _ Hm1 Hr) as (Hm' & Hg & Hall).
  split_and!; [done|by etrans|]. constructor; [by eapply Hgood|done].
Qed.

Lemma recovered_device row identities rc u :
  validate_recovered_receipt row identities rc = Ok u ->
  device_of identities (pr_signer_id rc) (pr_device_id rc) (pr_device_generation rc).
Proof. unfold validate_recovered_receipt. intros Hv. res_inv. eexists. split_and!; [done|done|lia]. Qed.

Lemma machine_result_Ok {A} (x : ThresholdSessionMachine * result OrchestrationError A) m a :
  machine_result x = Ok (m, a) <-> x = (m, Ok a).
Proof. destruct x as [m1 [a1|e]]; unfold machine_result; simpl; naive_solver. Qed.

Section replayed.
Context (row : PersonalSigningOperation) (identities : gmap Z ProviderIdentity) (ps : gmap Z BoundParticipant) (now : Z).
Context (Hps : bound_participants identities (no_selected_participants (op_bound row))
                 (no_operation_binding_digest (op_bound row)) = Ok ps).

Lemma replayed_commitment m rc m' :
  core_inv m -> replay_commitment row identities ps now m rc = Ok m' ->
  core_inv m' /\ grows m m' /\ committed identities m' (pr_signer_id rc) rc.
Proof.
  intros Hm Hr. unfold replay_commitment in Hr. res_step. res_step. res_step. res_step.
  destruct r2 as [m1 u]. apply machine_result_Ok in E2. res_inv. simplify_eq.
  assert (exists res, handle (ReqCommitment r1 r0) now m = (m', res)) as [res Hh] by (simpl; rewrite E2; by eexists).
  split; [by eapply handle_core|]. split; [by eapply handle_grows|]. split; [by eapply recovered_device|].
  apply add_commitment_Ok in E2 as (ident & [_ Hi] & Hc). exists ident, r0. split_and!; try done.
  by destruct (bound_lookup _ _ _ _ _ _ Hps E1) as (_ & i & _ & ->).
Qed.
Lemma replayed_share m rc m' :
  core_inv m -> replay_share row identities ps now m rc = Ok m' ->
  core_inv m' /\ grows m m' /\ shared identities m' (pr_signer_id rc) rc.
Proof.
  intros Hm Hr. unfold replay_share in Hr. res_step. res_step. res_step. res_step.
  destruct r2 as [m1 u]. apply machine_result_Ok in E2. res_inv. simplify_eq.
  assert (exists res, handle (ReqShare r1 r0) now m = (m', res)) as [res Hh] by (simpl; rewrite E2; by eexists).
  split; [by eapply handle_core|]. split; [by eapply handle_grows|]. split; [by eapply recovered_device|].
  apply add_share_Ok in E2 as (ident & [_ Hi] & Hc). exists ident, r0. split_and!; try done.
  by destruct (bound_lookup _ _ _ _ _ _ Hps E1) as (_ & i & _ & ->).
Qed.
End replayed.

Lemma receipt_listed s id k r rc :
  storage_inv s -> st_receipts s !! (id, k, r) = Some rc ->
  rc ∈ receipts_of_round r (personal_signing_receipts s id) /\ pr_signer_id rc = k.
Proof.
  intros Hs Hrc. destruct (si_receipt _ Hs _ _ _ _ Hrc) as (_ & Hk & Hr & o & Ho & Hsel & _). split; [|done].
  apply list_elem_of_In, filter_In. rewrite bool_decide_true by done. split; [|done].
  apply list_elem_of_In, list_elem_of_omap. exists (k, r). split; [|done].
  destruct (si_row _ Hs _ _ Ho) as (_ & _ & Hp & _). apply selects_true in Hsel.
  destruct r; destruct Hp as [Hp|[Hp|Hp]]; rewrite Hp in Hsel; simpl in Hsel; destruct Hsel as [-> | ->];
    unfold receipt_order; set_solver.
Qed.

Lemma rebuild_live (c : Coordinator) id row now ps m pkg receipts contexts :
  coordinator_inv c -> st_operations (pc_store c) !! id = Some row -> record_drifts row (pc_profile c) = false ->
  rebuild id row now c = Ok (ps, m, pkg, receipts) -> contexts_ok (pc_identities c) contexts ->
  live_ok (pc_profile c) (pc_identities c) (pc_store c) id (mkLiveOperation row m ps ∅ contexts).
Proof.
  intros Hc Hrow Hd Hre Hctx. unfold rebuild in Hre. simpl in Hre. do 4 res_step.
  destruct r2 as [m2 session]. apply machine_result_Ok in E2. do 3 res_step. injection Hre as <- <- <- <-. apply ok_or_Ok in E3.
  pose proof (si_row _ (ci_storage _ Hc) _ _ Hrow) as (_ & Ht & _ & _).
  apply new_machine_opened in E0 as (Hop & _ & _ & _ & Hcore).
  destruct (replay_all _ (fun m rc => committed (pc_identities c) m (pr_signer_id rc) rc) (replayed_commitment row _ _ now E)
    (fun m m' rc => committed_grows _ m m' _ rc) _ _ _ (Hcore ltac:(by rewrite Ht)) E1) as (Hc1 & Hg1 & Hall1).
  assert (exists res, handle ReqFreeze now r1 = (m2, res)) as [res Hh] by (simpl; rewrite E2; by eexists).
  pose proof (handle_core _ _ _ _ _ Hc1 Hh) as Hc2. pose proof (handle_grows _ _ _ _ _ Hc1 Hh) as Hg2.
  destruct (replay_all _ (fun m rc => shared (pc_identities c) m (pr_signer_id rc) rc) (replayed_share row _ _ now E)
    (fun m m' rc => shared_grows _ m m' _ rc) _ _ _ Hc2 E5) as (Hc3 & Hg3 & Hall3).
  apply freeze_Ok_session in E2 as [-> Hfr]. constructor; simpl; try done.
  - exists row. split_and!; try done. intros _. eapply package_grows; [exact Hg3|]. apply reject_if_Ok, negb_false_iff, bool_decide_eq_true in E4. by eexists _, _.
  - destruct Hop as (pkp & now0 & m0 & Hpk & Hnew & Hss). exists pkp, now0, m0. split_and!; [done..|].
    eapply same_session_trans; [exact Hss|]. eapply same_session_trans; [apply Hg1|]. eapply same_session_trans; [apply Hg2|apply Hg3].
  - intros k rc Hk. destruct (receipt_listed _ _ _ _ _ (ci_storage _ Hc) Hk) as [Hin <-].
    eapply committed_grows; [exact Hg3|]. eapply committed_grows; [exact Hg2|]. rewrite Forall_forall in Hall1. by apply Hall1.
  - intros k rc Hk. destruct (receipt_listed _ _ _ _ _ (ci_storage _ Hc) Hk) as [Hin <-].
    rewrite Forall_forall in Hall3. by apply Hall3.
Qed.

Lemma resume_inv id row now fresh :
  triple (fun c => coordinator_inv c /\ st_operations (pc_store c) !! id = Some row /\ record_drifts row (pc_profile c) = false)
    (resume_shares id row now fresh) (fun _ => coordinator_inv) coordinator_inv.
Proof.
  unfold resume_shares. triple_step; [by intros c []|]. destruct a as [[[ps m] pkg] receipts].
  triple_step. triple_step; [by intros c [[[? _] _] _]|]. eapply triple_bind; [|intros ?; apply triple_ret].
  apply triple_modify. intros c (((Hc & Hrow & Hd) & Hre) & ->). apply inv_put; [done|].
  eapply rebuild_live; [done..|]. by eapply contexts_for_ok.
Qed.

Lemma triple_terminate id b status reason now :
  triple coordinator_inv (pc_call (storage_call (terminate_personal_signing_operation id b status reason now)))
    (fun _ => coordinator_inv) coordinator_inv.
Proof.
  intros c Hc. unfold pc_call, storage_call, zoom, Datatypes.id.
  destruct (terminate_personal_signing_operation _ _ _ _ _ _) as [s' [a|e]] eqn:E; simpl.
  - by eapply inv_terminated_step.
  - by rewrite <- (terminate_atomic _ _ _ _ _ _ _ _ E), set_pc_store_id.
Qed.

Lemma recover_inv id now fresh :
  triple coordinator_inv (recover_operation id now fresh) (fun _ => coordinator_inv) coordinator_inv.
Proof.
  unfold recover_operation. triple_step; [done|]. triple_step; [by intros c []|]. triple_step; [by intros c []|]. simpl.
  destruct (op_status a0).
  - eapply triple_bind; [eapply triple_pre, triple_terminate; by intros c [[] _]|intros ?; apply triple_ret].
  - case_match.
    + eapply triple_bind; [eapply triple_pre, triple_terminate; by intros c [[] _]|intros ?; apply triple_ret].
    + eapply triple_pre, resume_inv. intros c [[Hc Ha] Hd]. res_inv. unfold personal_signing_operation in *. by subst.
  - triple_step; [by intros c [[] _]|]. by intros c [[] _].
  - by intros c [[] _].
  - by intros c [[] _].
  - by intros c [[] _].
Qed.

(** ** Histories *)

(** What the other methods of the database do to it: they follow its order, so
    they keep every consumed authorization, claimed nonce and bound column, and
    they write no personal operation or receipt. *)
Record other_writer (s s' : WalletStorage) : Prop := {
  ow_operations : st_operations s' = st_operations s;
  ow_receipts : st_receipts s' = st_receipts s;
  ow_database : db_le (st_db s) (st_db s');
}.

Lemma other_writer_inv s s' : other_writer s s' -> storage_inv s -> storage_inv s'.
Proof.
  intros [Ho Hr Hle] [Hrow Hauth Honce Hrec Hfr Hfin].
  assert (forall b aid, consumed_by s b aid -> consumed_by s' b aid) as Hup by (intros b aid; by apply consumed_by_le).
  assert (forall id q aid, st_operations s !! id = Some q -> consumed_by s' (op_bound q) aid -> consumed_by s (op_bound q) aid) as Hdown.
  { intros id q aid Hq Hc. destruct (Hauth _ _ Hq) as [a Ha]. by rewrite (consumed_by_fun _ _ _ _ Hc (Hup _ _ Ha)). }
  constructor; rewrite ?Ho, ?Hr; try done.
  - intros id q Hq. destruct (Hauth _ _ Hq) as [a Ha]. exists a. auto.
  - intros id id' q q' aid Hq Hq' Hc Hc'. eapply Honce; eauto.
  - intros id q Hq Hs. apply (both_receipts_mono s); [by rewrite Hr|by eapply Hfr].
  - intros id q Hq Hs. apply (both_receipts_mono s); [by rewrite Hr|by eapply Hfin].
Qed.

(** One call of the coordinator, a restart of the process, or another writer. *)
Inductive personal_step (c : Coordinator) : Coordinator -> Prop :=
| ps_begin request auth now fresh : personal_step c (begin_authorized request auth now fresh c).1.1
| ps_round_one id k resp now : personal_step c (accept_round_one id k resp now c).1
| ps_freeze id now fresh : personal_step c (pc_freeze_commitments id now fresh c).1
| ps_round_two id k resp now : personal_step c (accept_round_two id k resp now c).1
| ps_finalize id now : personal_step c (pc_finalize id now c).1
| ps_expire id now fresh : personal_step c (pc_expire id now fresh c).1
| ps_recover id now fresh : personal_step c (recover_operation id now fresh c).1
| ps_restart profile identities c' : known profile ->
    PersonalSigningCoordinator_new profile identities (pc_store c) = Ok c' -> personal_step c c'
| ps_other s' : other_writer (pc_store c) s' -> personal_step c (set_pc_store s' c).

Lemma restart_inv (c c' : Coordinator) profile identities :
  known profile -> coordinator_inv c -> PersonalSigningCoordinator_new profile identities (pc_store c) = Ok c' -> coordinator_inv c'.
Proof.
  intros Hkn [] Hn. unfold PersonalSigningCoordinator_new in Hn. res_inv. subst c'. constructor; simpl; try done.
Qed.

Lemma step_coordinator_inv c c' : personal_step c c' -> coordinator_inv c -> coordinator_inv c'.
Proof.
  intros Hs Hc. destruct Hs as [| | | | | | |profile ids c' Hkn Hn|s' Hw].
  - by apply begin_inv.
  - by apply triple_keeps; [apply round_one_inv|].
  - by apply triple_keeps; [apply freeze_round_inv|].
  - by apply triple_keeps; [apply round_two_inv|].
  - by apply triple_keeps; [apply finalize_inv|].
  - by apply triple_keeps; [apply expire_inv|].
  - by apply triple_keeps; [apply recover_inv|].
  - by eapply restart_inv.
  - pose proof (ow_operations _ _ Hw) as Ho. pose proof (ow_receipts _ _ Hw) as Hr. destruct Hc as [Hst Hl Hg Hkn Hrc].
    assert (forall id, same_at (pc_store c) s' id) as Hsame by (intros id; split; [by rewrite Ho|by rewrite Hr]).
    constructor; simpl; try done; [by eapply other_writer_inv|..].
    + intros id o Hid. by eapply live_frame, Hl.
    + intros id row sig. rewrite Ho. intros Hrow Hsig. eapply (signed_mono (pc_store c)); [by rewrite Hr|done..|by apply Hg].
    + intros id row. rewrite Ho. intros Hrow Hph. destruct (Hrc _ _ Hrow Hph) as (p & i & o & Hk & Hlo). exists p, i, o.
      split; [done|]. by eapply live_frame.
Qed.

Lemma reachable_inv c c' : rtc personal_step c c' -> coordinator_inv c -> coordinator_inv c'.
Proof. induction 1 as [|c1 c2 c3 Hs _ IH]; [done|]. intros Hc. by apply IH, (step_coordinator_inv c1). Qed.

Lemma start_inv (c : Coordinator) :
  st_operations (pc_store c) = ∅ -> st_receipts (pc_store c) = ∅ -> pc_operations c = ∅ -> known (pc_profile c) ->
  coordinator_inv c.
Proof.
  intros Ho Hr Hp Hkn. constructor; [..|done|].
  - by apply storage_inv_start.
  - intros id o. by rewrite Hp, lookup_empty.
  - intros id row sig. by rewrite Ho, lookup_empty.
  - intros id row. by rewrite Ho, lookup_empty.
Qed.

End personal.
