(* ===== verification/PersonalRecovery.v ===== *)
(** * Recovery of a personal operation in its share phase

    A process that starts on the storage another process left rebuilds the
    frozen session from the receipts and asks exactly the signers whose share
    is missing. *)

From Stdlib Require Import ZArith Lia.
From S2P Require Import Prelude Bitcoin Text Concrete Frost Participant Orchestrator OrchestratorInv OrchestratorRun Personal Gate Effects Provider WalletConcrete.
From S2P Require Import StorageModels WalletDb SignerDevices PersonalDb PersonalSigning PersonalInv.
From stdpp Require Import list gmap strings sorting.
Local Open Scope string_scope.
Local Open Scope list_scope.
Local Open Scope Z_scope.

(** ** Maps in key order *)

Lemma in_key_order_perm {V} (m : gmap Z V) : in_key_order m ≡ₚ map_to_list m.
Proof. apply merge_sort_Permutation. Qed.

Lemma in_key_order_keys {V} (m : gmap Z V) l :
  StronglySorted Z.lt l -> (forall k, k ∈ l <-> is_Some (m !! k)) -> (in_key_order m).*1 = l.
Proof.
  intros Hl Hk. assert (NoDup l /\ StronglySorted Z.le l) as [Hn Hle].
  { clear Hk. induction Hl as [|k ks _ [IHn IHs] Ha]; [split; constructor|]. rewrite Forall_forall in Ha.
    split; constructor; try done; [intros Hin; specialize (Ha _ Hin); lia|]. apply Forall_forall. intros j Hj.
    specialize (Ha _ Hj). lia. }
  apply (StronglySorted_unique Z.le); [|done|].
  - assert (StronglySorted key_le (in_key_order m)) as Hs.
    { apply StronglySorted_merge_sort; [intros p q r; unfold key_le; lia|intros p q; unfold key_le; lia]. }
    induction Hs as [|e es _ IH Ha]; simpl; constructor; [done|]. rewrite Forall_forall. intros k [q [-> Hq]]%list_elem_of_fmap.
    rewrite Forall_forall in Ha. by apply Ha.
  - apply NoDup_Permutation; [|done|].
    + rewrite in_key_order_perm. apply NoDup_fst_map_to_list.
    + intros k. rewrite Hk, in_key_order_perm, list_elem_of_fmap. split.
      * intros ([j v] & -> & Hv%elem_of_map_to_list). by eexists.
      * intros [v Hv]. exists (k, v). split; [done|]. by apply elem_of_map_to_list.
Qed.

Section recovery.
Context `{B : BitcoinLib} `{T : TextCodec} `{F : FrostLib} {C : FrostCodec} {FL : FrostLaws F} `{J : IntentMaterialJson} `{U : UuidText} `{BI : BuildInfo}.

Notation Coordinator := (PersonalSigningCoordinator WalletStorage).

(** The participants of the operation are the ones its machine was given. *)
Lemma participant_map_ordered (ps : gmap Z BoundParticipant) :
  (forall k p, ps !! k = Some p -> bp_signer_id p = k) -> participant_map ((in_key_order ps).*2) = ps.
Proof.
  intros Hps. unfold participant_map. rewrite <- list_fmap_compose.
  assert ((fun p => (bp_signer_id p, p)) ∘ snd <$> in_key_order ps = in_key_order ps) as ->.
  { assert (forall e, e ∈ in_key_order ps -> bp_signer_id e.2 = e.1) as He.
    { intros [k p] Hp. rewrite in_key_order_perm, elem_of_map_to_list in Hp. by apply Hps. }
    induction (in_key_order ps) as [|[k p] l IH]; [done|]. csimpl. rewrite IH by (intros e Hin; apply He; by right).
    specialize (He (k, p) ltac:(left)). simpl in He. by rewrite He. }
  rewrite <- (list_to_map_to_list ps) at 2. apply list_to_map_proper.
  - rewrite reverse_Permutation, in_key_order_perm. apply NoDup_fst_map_to_list.
  - by rewrite reverse_Permutation, in_key_order_perm.
Qed.

(** Opening the same session later, before its deadline. *)
Lemma new_again sid msg pol min dl l pkp now0 m0 now :
  ThresholdSessionMachine_new sid msg pol min dl l pkp now0 = Ok m0 -> now < dl ->
  exists m, ThresholdSessionMachine_new sid msg pol min dl l pkp now = Ok m /\ same_session m0 m /\
    m_phase m = CollectingCommitments /\ m_commitments m = ∅ /\ m_shares m = ∅.
Proof.
  unfold ThresholdSessionMachine_new. intros Hn Hlt. apply bind_Ok in Hn as (u & Hg & [= <-]). apply reject_if_Ok in Hg.
  repeat (apply orb_false_iff in Hg as [Hg ?]). rewrite Hg. rewrite (proj2 (Z.leb_gt _ _) Hlt).
  repeat match goal with E : _ = false |- _ => rewrite E; clear E end. simpl. eexists. split; [done|]. by split_and!.
Qed.

Lemma respond_Ok {A} (f : A -> Response) x m r : respond f x = (m, Ok r) -> exists a, x = (m, Ok a) /\ f a = r.
Proof. destruct x as [m1 [a|e]]; unfold respond; simpl; [|done]. intros [= -> <-]. by eexists. Qed.

(** A list of receipts that the machine accepts one by one. *)
Lemma replay_ok {V} (step : ThresholdSessionMachine -> PersonalSigningReceipt -> result PersonalSigningError ThresholdSessionMachine)
    (get : ThresholdSessionMachine -> gmap Identifier V) (dec : bytes -> option V) (f : Z -> option PersonalSigningReceipt)
    (I : ThresholdSessionMachine -> Prop) (ok : Z -> Prop) :
  (forall m k rc, I m -> ok k -> f k = Some rc ->
    (forall ident, participant_identifier k = Some ident -> get m !! ident = None) ->
    exists m' ident v, step m rc = Ok m' /\ I m' /\ participant_identifier k = Some ident /\
      dec (pr_payload rc) = Some v /\ get m' = <[ident := v]> (get m)) ->
  forall l m, NoDup l -> Forall ok l -> I m ->
  (forall k ident, k ∈ l -> participant_identifier k = Some ident -> get m !! ident = None) ->
  exists m', replay_receipts step m (omap f l) = Ok m' /\ I m' /\
    forall ident v, get m' !! ident = Some v <-> get m !! ident = Some v \/
      exists k rc, k ∈ l /\ f k = Some rc /\ participant_identifier k = Some ident /\ dec (pr_payload rc) = Some v.
Proof.
  intros Hstep. induction l as [|k l IH]; intros m Hnd Hok Hi Hfree.
  { exists m. split_and!; [done..|]. intros ident v. split; [by left|]. intros [?|(k & rc & Hk & _)]; [done|by apply not_elem_of_nil in Hk]. }
  apply NoDup_cons in Hnd as [Hk Hnd]. apply Forall_cons in Hok as [Hok1 Hok]. csimpl.
  destruct (f k) as [rc|] eqn:Hf; cbn [replay_receipts].
  - destruct (Hstep m k rc Hi Hok1 Hf) as (m1 & ident & v & Hs & Hi1 & Hid & Hd & Hg); [intros j; apply Hfree; left|].
    rewrite Hs. cbn [mbind result_bind]. destruct (IH m1 Hnd Hok Hi1) as (m' & Hr & Hi' & Hspec).
    { intros j i Hj Hji. rewrite Hg, lookup_insert_ne; [apply (Hfree j i); [by right|done]|]. intros <-.
      apply Hk. by rewrite (identifier_inj _ _ _ Hid Hji). }
    exists m'. split_and!; [done..|]. intros i w. rewrite Hspec, Hg, lookup_insert_Some. split.
    + intros [[[<- <-]|[_ Hw]]|(j & rcj & Hj & Hx)]; [right; exists k, rc; by split_and!; [left|..]|by left|].
      right. exists j, rcj. split; [by right|done].
    + intros [Hw|(j & rcj & Hj & Hfj & Hij & Hdj)].
      * left. right. split; [|done]. intros <-. by rewrite (Hfree k ident ltac:(left) Hid) in Hw.
      * apply elem_of_cons in Hj as [->|Hj]; [left; left; simplify_eq; done|]. right. by exists j, rcj.
  - destruct (IH m Hnd Hok Hi) as (m' & Hr & Hi' & Hspec); [intros j i Hj; apply (Hfree j i); by right|].
    exists m'. split_and!; [done..|]. intros i w. rewrite Hspec. split; (intros [Hw|(j & rcj & Hj & Hx)]; [by left|right]).
    + exists j, rcj. split; [by right|done].
    + apply elem_of_cons in Hj as [->|Hj]; [destruct Hx; congruence|]. by exists j, rcj.
Qed.

(** The receipts of a round are those of the pair, in order. *)
Lemma receipts_pair s id row r :
  storage_inv s -> st_operations s !! id = Some row ->
  receipts_of_round r (personal_signing_receipts s id) =
  omap (fun k => st_receipts s !! (id, k, r)) (pair_list (no_selected_participants (op_bound row))).
Proof.
  intros Hs Hrow. unfold receipts_of_round. rewrite receipts_filtered by done.
  assert (forall k, selects (no_selected_participants (op_bound row)) k = false -> st_receipts s !! (id, k, r) = None) as Hn.
  { intros k Hk. destruct (st_receipts s !! (id, k, r)) as [rc|] eqn:E; [|done].
    apply (si_receipt _ Hs) in E as (_ & _ & _ & o & Ho & Hsel & _). simplify_eq. congruence. }
  destruct (si_row _ Hs _ _ Hrow) as (_ & _ & [Hp|[Hp|Hp]] & _); rewrite Hp in *; unfold pair_list; csimpl.
  - by rewrite (Hn 3).
  - by rewrite (Hn 2).
  - by rewrite (Hn 1).
Qed.
Lemma pair_sorted p : valid_pair p -> StronglySorted Z.lt (pair_list p).
Proof.
  unfold pair_list. intros [->|[->| ->]]; simpl; repeat constructor; lia.
Qed.
Lemma pair_nodup p : valid_pair p -> NoDup (pair_list p).
Proof. intros Hp. apply NoDup_cons. unfold pair_list. destruct Hp as [->|[->| ->]]; simpl; split; (set_solver by lia || apply NoDup_singleton). Qed.
Lemma pair_elem p k : k ∈ pair_list p <-> selects p k = true.
Proof. rewrite selects_true. unfold pair_list. set_solver. Qed.

(** The same devices give the same participants. *)
Lemma bound_same ids ids' sel b :
  (forall k, selects sel k = true -> exists d g, device_of ids k d g /\ device_of ids' k d g) ->
  bound_participants ids sel b = bound_participants ids' sel b.
Proof.
  intros Hd. unfold bound_participants.
  destruct (Hd sel.1) as (d1 & g1 & (i1 & -> & -> & ->) & (j1 & -> & Hj1 & Hg1)); [apply selects_true; by left|].
  destruct (Hd sel.2) as (d2 & g2 & (i2 & -> & -> & ->) & (j2 & -> & Hj2 & Hg2)); [apply selects_true; by right|].
  simpl. unfold bound_participant. by rewrite Hj1, Hg1, Hj2, Hg2.
Qed.

Lemma bound_exists ids sel b ps k :
  bound_participants ids sel b = Ok ps -> selects sel k = true ->
  exists identity, ids !! k = Some identity /\ ps !! k = Some (bound_participant k identity b).
Proof.
  unfold bound_participants. intros Hb Hk. res_inv. simplify_eq. apply selects_true in Hk.
  destruct (decide (k = sel.2)) as [->|Hne]; [eexists; split; [done|]; by rewrite lookup_insert_eq|].
  destruct Hk as [->|]; [|done]. eexists. split; [done|]. by rewrite lookup_insert_ne, lookup_insert_eq.
Qed.

(** Signers of the pair without a recorded share. *)
Definition awaited (s : WalletStorage) (id : Uuid) (row : PersonalSigningOperation) : list Z :=
  List.filter (fun k => bool_decide (st_receipts s !! (id, k, RoundSignatureShare) = None))
    (pair_list (no_selected_participants (op_bound row))).

(** A session that continues the stored operation, and what is asked of whom. *)
Definition continues (s : WalletStorage) (id : Uuid) (row : PersonalSigningOperation) (m : ThresholdSessionMachine)
    (out : PersonalSigningRecovery) : Prop :=
  exists session pkg, m_phase m = CollectingShares /\ m_frozen_session m = Some session /\
    package_serialize (fs_signing_package session) = Some pkg /\ op_signing_package row = Some pkg /\
    (forall k ident, selects (no_selected_participants (op_bound row)) k = true -> participant_identifier k = Some ident ->
      m_shares m !! ident = (rc ← st_receipts s !! (id, k, RoundSignatureShare); share_deserialize (pr_payload rc))) /\
    match out with
    | ReadyToFinalize => awaited s id row = []
    | ResumeRoundTwo ds => awaited s id row <> [] /\ d2_signer_id <$> ds = awaited s id row /\
        Forall (fun d => r2_signing_package_hex (d2_request d) = hex_encode pkg) ds
    | _ => False
    end.

(** ** Rebuilding the session *)

Section rebuilt.
Context (known : PersonalSignerProfile -> Prop) (c : Coordinator) (id : Uuid) (row : PersonalSigningOperation) (now : Z)
  (profile : PersonalSignerProfile) (ids : gmap Z ProviderIdentity) (g : LiveOperation).
Context (Hc : coordinator_inv known c) (Hrow : st_operations (pc_store c) !! id = Some row)
  (Hst : op_status row = OpCollectingShares) (Hnow : now < no_expires_at (op_bound row))
  (Hg : live_ok profile ids (pc_store c) id g)
  (Hpkg : ps_public_key_package profile = ps_public_key_package (pc_profile c))
  (Hdev : forall k r rc, st_receipts (pc_store c) !! (id, k, r) = Some rc ->
     device_of (pc_identities c) k (pr_device_id rc) (pr_device_generation rc)).

Let b := op_bound row.
Let s := pc_store c.
Let mg := lo_machine g.
Let ps := lo_participants g.

Lemma ghost_bound : op_bound (lo_record g) = b /\ package_of mg row.
Proof.
  destruct (lk_row _ _ _ _ _ Hg) as (row0 & Hr0 & Hb & Hp). rewrite Hrow in Hr0. simplify_eq.
  split; [done|]. apply Hp. by left.
Qed.
Lemma stored_pair : valid_pair (no_selected_participants b).
Proof. by destruct (si_row _ (ci_storage _ _ Hc) _ _ Hrow) as (_ & _ & ? & _). Qed.
Lemma commit_recorded k : selects (no_selected_participants b) k = true -> exists rc,
  st_receipts s !! (id, k, RoundCommitment) = Some rc /\ committed ids mg k rc.
Proof.
  intros Hk. destruct (si_frozen _ (ci_storage _ _ Hc) _ _ Hrow (or_introl Hst) k Hk) as [rc Hrc].
  exists rc. split; [done|]. by apply (lk_commit _ _ _ _ _ Hg).
Qed.

Lemma rebuilt_participants :
  bound_participants (pc_identities c) (no_selected_participants b) (no_operation_binding_digest b) = Ok ps.
Proof.
  pose proof (lk_bound _ _ _ _ _ Hg) as Hb. rewrite (proj1 ghost_bound) in Hb. unfold ps. rewrite <- Hb. apply bound_same.
  intros k Hk. destruct (commit_recorded k Hk) as (rc & Hrc & Hd & _). eexists _, _. split; [by eapply Hdev|done].
Qed.
Lemma participant_at k : selects (no_selected_participants b) k = true ->
  exists identity p ident, pc_identities c !! k = Some identity /\ ps !! k = Some p /\ bp_signer_id p = k /\
    bound mg p ident /\ participant_identifier k = Some ident.
Proof.
  intros Hk. destruct (bound_exists _ _ _ _ _ rebuilt_participants Hk) as (i & Hi & Hp).
  destruct (commit_recorded k Hk) as (rc & _ & _ & ident & cm & Hid & _). exists i. eexists _, ident.
  split_and!; try done. split; [|done].
  destruct (opened_session _ _ _ _ (lk_opened _ _ _ _ _ Hg)) as (_ & _ & _ & _ & _ & _ & _ & Hm).
  fold mg in Hm. rewrite Hm, participant_map_ordered; [done|]. intros j p Hj.
  by destruct (bound_lookup _ _ _ _ _ _ rebuilt_participants Hj) as (_ & ? & _ & ->).
Qed.
Lemma ghost_committed ident : is_Some (m_commitments mg !! ident) ->
  exists k, selects (no_selected_participants b) k = true /\ participant_identifier k = Some ident.
Proof.
  intros Hi. destruct (mi_commitments _ (lk_machine _ _ _ _ _ Hg) _ Hi) as (p & Hp & Hid). exists (bp_signer_id p). split; [|done].
  destruct (opened_session _ _ _ _ (lk_opened _ _ _ _ _ Hg)) as (_ & _ & _ & _ & _ & _ & _ & Hm).
  fold mg in Hm, Hp. rewrite Hm, participant_map_ordered in Hp.
  - by destruct (bound_lookup _ _ _ _ _ _ rebuilt_participants Hp).
  - intros j q Hj. by destruct (bound_lookup _ _ _ _ _ _ rebuilt_participants Hj) as (_ & ? & _ & ->).
Qed.

Lemma receipt_validated k r rc :
  selects (no_selected_participants b) k = true -> st_receipts s !! (id, k, r) = Some rc ->
  pr_signer_id rc = k /\ validate_recovered_receipt row (pc_identities c) rc = Ok tt.
Proof.
  intros Hk Hrc. destruct (si_receipt _ (ci_storage _ _ Hc) _ _ _ _ Hrc) as (_ & Hs & _ & o & Ho & _ & He). simplify_eq.
  split; [done|]. destruct (Hdev _ _ _ Hrc) as (i & Hi & Hd & Hgn). unfold validate_recovered_receipt. rewrite Hi. simpl.
  unfold b in Hk. rewrite Hk, bool_decide_true, Hgn, Z.eqb_refl, (proj2 (Z.ltb_ge _ _) He) by done. done.
Qed.

Lemma rebuilt_machine : exists m, new_machine c b ps now = Ok m /\ same_session mg m /\
  m_phase m = CollectingCommitments /\ m_commitments m = ∅ /\ m_shares m = ∅.
Proof.
  destruct (lk_opened _ _ _ _ _ Hg) as (pkp & now0 & m0 & Hd & Hn & Hs). rewrite (proj1 ghost_bound) in Hn.
  destruct (new_again _ _ _ _ _ _ _ _ _ now Hn Hnow) as (m & Hm & Hss & Hrest). exists m. split.
  - unfold new_machine. rewrite <- Hpkg, Hd. simpl. unfold ps. by rewrite Hm.
  - split; [|done]. fold mg in Hs. unfold same_session in *. destruct_ex. split_and!; congruence.
Qed.

Lemma session_bound m p ident : same_session mg m -> bound mg p ident -> bound m p ident.
Proof. unfold same_session, bound. intros Hs Hb. destruct_ex. split; [congruence|done]. Qed.
Lemma session_deadline m : same_session mg m -> m_deadline m = no_expires_at b.
Proof.
  destruct (opened_session _ _ _ _ (lk_opened _ _ _ _ _ Hg)) as (_ & _ & _ & _ & _ & Hd & _).
  rewrite (proj1 ghost_bound) in Hd. unfold same_session. intros Hs. destruct_ex. fold mg in Hd. congruence.
Qed.

Lemma rebuilt_commitments m0 :
  same_session mg m0 -> m_phase m0 = CollectingCommitments -> m_commitments m0 = ∅ -> m_shares m0 = ∅ ->
  exists m1, replay_receipts (replay_commitment row (pc_identities c) ps now) m0
      (receipts_of_round RoundCommitment (personal_signing_receipts s id)) = Ok m1 /\
    same_session mg m1 /\ m_phase m1 = CollectingCommitments /\ m_shares m1 = ∅ /\ m_commitments m1 = m_commitments mg.
Proof.
  intros Hs0 Hp0 Hc0 Hsh0. unfold s. rewrite (receipts_pair _ _ _ _ (ci_storage _ _ Hc) Hrow).
  edestruct (replay_ok (replay_commitment row (pc_identities c) ps now) m_commitments commitments_deserialize
    (fun k => st_receipts (pc_store c) !! (id, k, RoundCommitment))
    (fun m => same_session mg m /\ m_phase m = CollectingCommitments /\ m_shares m = ∅)
    (fun k => selects (no_selected_participants b) k = true)) as (m1 & Hr & (Hs1 & Hp1 & Hsh1) & Hspec);
    [|apply pair_nodup, stored_pair|apply Forall_forall; intros k; apply pair_elem|split_and!; [exact Hs0|done..]| |].
  - intros m k rc (Hs & Hp & Hsh) Hk Hrc Hfree. destruct (participant_at k Hk) as (i & p & ident & Hi & Hps & Hpk & Hb & Hid).
    destruct (receipt_validated k _ rc Hk Hrc) as [Hsig Hv].
    destruct (lk_commit _ _ _ _ _ Hg _ _ Hrc) as (_ & ident' & cm & Hid' & Hd & _).
    assert (ident' = ident) as -> by congruence. destruct (handle_commit_ok p cm now m ident) as (m' & Hh & (Hss & Hp' & _) & Hsh' & Hcm);
      [rewrite session_deadline by done; unfold b; lia|done|by apply session_bound|by apply Hfree|].
    exists m', ident, cm. split_and!; try done; [|by eapply same_session_trans|congruence|congruence].
    unfold replay_commitment. rewrite Hv, Hd. simpl. rewrite Hsig, Hps. simpl.
    apply respond_Ok in Hh as (u & -> & _). done.
  - intros k ident _ _. by rewrite Hc0, lookup_empty.
  - exists m1. split_and!; try done. apply map_eq. intros ident. apply option_eq. intros cm. rewrite Hspec, Hc0, lookup_empty. split.
    + intros [|(k & rc & _ & Hrc & Hid & Hd)]; [done|].
      destruct (lk_commit _ _ _ _ _ Hg _ _ Hrc) as (_ & ident' & cm' & Hid' & Hd' & Hm). by simplify_eq.
    + intros Hm. right. destruct (ghost_committed ident) as (k & Hk & Hid); [by eexists|].
      destruct (commit_recorded k Hk) as (rc & Hrc & _ & ident' & cm' & Hid' & Hd & Hm'). simplify_eq.
      exists k, rc. split_and!; [by apply pair_elem|done..].
Qed.

(** Freezing gives the session whose package is stored. *)
Lemma rebuilt_frozen m1 :
  same_session mg m1 -> m_phase m1 = CollectingCommitments -> m_shares m1 = ∅ -> m_commitments m1 = m_commitments mg ->
  exists m2 session pkg, freeze_commitments now m1 = (m2, Ok session) /\ m_frozen_session mg = Some session /\
    package_serialize (fs_signing_package session) = Some pkg /\ op_signing_package row = Some pkg /\
    same_session mg m2 /\ m_phase m2 = CollectingShares /\ m_frozen_session m2 = Some session /\
    m_commitments m2 = m_commitments mg /\ m_shares m2 = ∅.
Proof.
  intros Hs Hp Hsh Hcm. destruct (proj2 ghost_bound) as (session & pkg & Hf & Hser & Hop).
  destruct (mi_frozen _ (lk_machine _ _ _ _ _ Hg) _ Hf) as [-> Hmin]. fold mg in Hmin, Hf, Hser |- *.
  assert (session_of m1 = session_of mg) as Hse.
  { unfold session_of. unfold same_session in Hs. destruct_ex. by rewrite Hcm; f_equal. }
  destruct (handle_freeze_ok now m1) as (m2 & Hh & Hss & Hp2 & Hf2 & Hc2 & Hs2);
    [rewrite session_deadline by done; unfold b; lia|done| |].
  { unfold same_session in Hs. destruct_ex. rewrite Hcm. congruence. }
  exists m2, (session_of mg), pkg. rewrite Hse in *. apply respond_Ok in Hh as (se & -> & [= ->]).
  split_and!; try done; [by eapply same_session_trans|congruence..].
Qed.

Lemma rebuilt_shares m2 session :
  m_frozen_session mg = Some session -> same_session mg m2 -> m_phase m2 = CollectingShares ->
  m_frozen_session m2 = Some session -> m_commitments m2 = m_commitments mg -> m_shares m2 = ∅ ->
  exists m3, replay_receipts (replay_share row (pc_identities c) ps now) m2
      (receipts_of_round RoundSignatureShare (personal_signing_receipts s id)) = Ok m3 /\
    m_phase m3 = CollectingShares /\ m_frozen_session m3 = Some session /\ m_commitments m3 = m_commitments mg /\
    forall k ident, selects (no_selected_participants b) k = true -> participant_identifier k = Some ident ->
      m_shares m3 !! ident = (rc ← st_receipts s !! (id, k, RoundSignatureShare); share_deserialize (pr_payload rc)).
Proof.
  intros Hfg Hs0 Hp0 Hf0 Hc0 Hsh0. unfold s. rewrite (receipts_pair _ _ _ _ (ci_storage _ _ Hc) Hrow).
  destruct (mi_frozen _ (lk_machine _ _ _ _ _ Hg) _ Hfg) as [Hse _]. fold mg in Hse.
  edestruct (replay_ok (replay_share row (pc_identities c) ps now) m_shares share_deserialize
    (fun k => st_receipts (pc_store c) !! (id, k, RoundSignatureShare))
    (fun m => same_session mg m /\ m_phase m = CollectingShares /\ m_frozen_session m = Some session /\
       m_commitments m = m_commitments mg)
    (fun k => selects (no_selected_participants b) k = true)) as (m3 & Hr & (Hs3 & Hp3 & Hf3 & Hc3) & Hspec);
    [|apply pair_nodup, stored_pair|apply Forall_forall; intros k; apply pair_elem|split_and!; [exact Hs0|done..]| |].
  - intros m k rc (Hs & Hp & Hf & Hcm) Hk Hrc Hfree. destruct (participant_at k Hk) as (i & p & ident & Hi & Hps & Hpk & Hb & Hid).
    destruct (receipt_validated k _ rc Hk Hrc) as [Hsig Hv].
    destruct (lk_share _ _ _ _ _ Hg _ _ Hrc) as (_ & ident' & sh & Hid' & Hd & Hm).
    assert (ident' = ident) as -> by congruence.
    destruct (mi_shares _ (lk_machine _ _ _ _ _ Hg) _ _ Hm) as (Hco & vs & Hvs & Hver). fold mg in Hco, Hvs, Hver.
    assert (m_public_key_package m = m_public_key_package mg) as Hpk' by (unfold same_session in Hs; by destruct_ex).
    destruct (handle_share_ok p sh now m ident session vs) as (m' & Hh & (Hss & Hp' & Hf') & Hcm' & Hsh');
      [rewrite session_deadline by done; unfold b; lia|done|by apply session_bound|done| |by apply Hfree|by rewrite Hpk'|
       by rewrite Hpk', Hse|].
    { rewrite Hse. simpl. by rewrite package_commitments. }
    exists m', ident, sh. split_and!; try done; [|by eapply same_session_trans|congruence..].
    unfold replay_share. rewrite Hv, Hd. simpl. rewrite Hsig, Hps. simpl. by apply respond_Ok in Hh as (u & -> & _).
  - intros k ident _ _. by rewrite Hsh0, lookup_empty.
  - exists m3. split_and!; try done. intros k ident Hk Hid. apply option_eq. intros sh.
    rewrite Hspec, Hsh0, lookup_empty, bind_Some. split.
    + intros [|(j & rc & _ & Hrc & Hj & Hd)]; [done|]. rewrite (identifier_inj _ _ _ Hid Hj). by exists rc.
    + intros (rc & Hrc & Hd). right. exists k, rc. split_and!; [by apply pair_elem|done..].
Qed.

Lemma missing_listed : missing_signers row (personal_signing_receipts s id) = awaited s id row.
Proof.
  unfold missing_signers, awaited. apply filter_ext_in. intros k Hk%list_elem_of_In%pair_elem.
  case_bool_decide as Hn.
  - apply negb_true_iff. apply not_true_iff_false. intros (rc & Hin & Hkk)%existsb_exists. apply Z.eqb_eq in Hkk.
    unfold s in Hin, Hn. rewrite (receipts_pair _ _ _ _ (ci_storage _ _ Hc) Hrow) in Hin.
    apply list_elem_of_In, list_elem_of_omap in Hin as (j & _ & Hj).
    destruct (si_receipt _ (ci_storage _ _ Hc) _ _ _ _ Hj) as (_ & <- & _). congruence.
  - apply negb_false_iff, existsb_exists. destruct (st_receipts s !! (id, k, RoundSignatureShare)) as [rc|] eqn:Hrc; [|done].
    destruct (receipt_listed _ _ _ _ _ (ci_storage _ _ Hc) Hrc) as [Hin Hks]. exists rc. split; [by apply list_elem_of_In|].
    by apply Z.eqb_eq.
Qed.

Lemma contexts_exist fresh l : (forall k, k ∈ l -> selects (no_selected_participants b) k = true) ->
  exists contexts, contexts_for row (pc_identities c) fresh l = Ok contexts.
Proof.
  induction l as [|k l IH]; intros Hl; simpl; [by eexists|].
  destruct (participant_at k (Hl k ltac:(left))) as (i & _ & _ & -> & _). simpl.
  destruct IH as (cs & ->); [intros j Hj; apply Hl; by right|]. by eexists.
Qed.

Lemma awaited_pair k : k ∈ awaited s id row -> selects (no_selected_participants b) k = true.
Proof. unfold awaited. rewrite list_elem_of_In, filter_In. intros [Hk _]. by apply pair_elem, list_elem_of_In. Qed.
Lemma awaited_sorted : StronglySorted Z.lt (awaited s id row).
Proof.
  unfold awaited. pose proof (pair_sorted _ stored_pair) as Hs. fold b. induction Hs as [|k l _ IH Ha]; simpl; [constructor|].
  case_bool_decide; [|done]. constructor; [done|]. rewrite Forall_forall in *. intros j.
  rewrite list_elem_of_In, filter_In, <- list_elem_of_In. by intros [Hj _]; apply Ha.
Qed.

Lemma rebuilt_Ok : exists m session pkg,
  rebuild id row now c = Ok (ps, m, pkg, personal_signing_receipts s id) /\ m_phase m = CollectingShares /\
  m_frozen_session m = Some session /\ package_serialize (fs_signing_package session) = Some pkg /\
  op_signing_package row = Some pkg /\
  forall k ident, selects (no_selected_participants b) k = true -> participant_identifier k = Some ident ->
    m_shares m !! ident = (rc ← st_receipts s !! (id, k, RoundSignatureShare); share_deserialize (pr_payload rc)).
Proof.
  destruct rebuilt_machine as (m0 & Hn & Hs0 & Hp0 & Hc0 & Hsh0).
  destruct (rebuilt_commitments m0) as (m1 & Hr1 & Hs1 & Hp1 & Hsh1 & Hc1); [done..|].
  destruct (rebuilt_frozen m1) as (m2 & session & pkg & Hfz & Hfg & Hser & Hop & Hs2 & Hp2 & Hf2 & Hc2 & Hsh2); [done..|].
  destruct (rebuilt_shares m2 session) as (m3 & Hr3 & Hp3 & Hf3 & Hc3 & Hsh3); [done..|].
  exists m3, session, pkg. split_and!; try done. unfold rebuild. cbv zeta. fold b.
  rewrite rebuilt_participants. cbn [mbind result_bind]. rewrite Hn. cbn [mbind result_bind]. simpl store_receipts.
  cbn [mbind result_bind]. unfold s in *. rewrite Hr1. cbn [mbind result_bind]. rewrite Hfz. unfold machine_result.
  cbn [fst snd mbind result_bind ok_or]. rewrite Hser. simpl. rewrite Hop, bool_decide_true by done. simpl. rewrite Hr3. done.
Qed.

Lemma resumed_Ok fresh : exists c' o out, resume_shares id row now fresh c = (c', Ok out) /\
  pc_operations c' !! id = Some o /\ pc_store c' = s /\ continues s id row (lo_machine o) out.
Proof.
  destruct rebuilt_Ok as (m & session & pkg & Hre & Hp & Hf & Hser & Hop & Hsh).
  destruct (contexts_exist fresh (awaited s id row) awaited_pair) as (contexts & Hctx).
  pose proof (contexts_for_dom _ _ _ _ _ Hctx) as Hdom.
  unfold resume_shares. unfold mbind, act_bind, reads, gets, Effects.lift, Effects.modify, mret, act_ret.
  rewrite Hre, missing_listed. fold s. rewrite Hctx. eexists _, _, _. split; [done|]. simpl.
  rewrite lookup_insert_eq. split_and!; [done..|]. exists session, pkg. simpl. split_and!; try done.
  pose proof (in_key_order_keys contexts _ awaited_sorted Hdom) as Hkeys.
  unfold round_two_dispatches. destruct (in_key_order contexts) as [|e es] eqn:Ek; simpl in *; [done|].
  rewrite <- Hkeys. split_and!; [done|f_equal; by rewrite <- list_fmap_compose|].
  constructor; [done|]. apply Forall_fmap, Forall_true. done.
Qed.
End rebuilt.

(** Recovery of an operation in its share phase. *)
Lemma recovery_continues known (c : Coordinator) id row now fresh :
  coordinator_inv known c -> st_operations (pc_store c) !! id = Some row -> op_status row = OpCollectingShares ->
  now < no_expires_at (op_bound row) -> record_drifts row (pc_profile c) = false ->
  (forall p, known p -> profile_binding_digest p = profile_binding_digest (pc_profile c) ->
    ps_public_key_package p = ps_public_key_package (pc_profile c)) ->
  (forall k r rc, st_receipts (pc_store c) !! (id, k, r) = Some rc ->
    device_of (pc_identities c) k (pr_device_id rc) (pr_device_generation rc)) ->
  exists c' o out, recover_operation id now fresh c = (c', Ok out) /\ pc_operations c' !! id = Some o /\
    pc_store c' = pc_store c /\ continues (pc_store c) id row (lo_machine o) out.
Proof.
  intros Hc Hrow Hst Hnow Hd Hkey Hdev. destruct (ci_recoverable _ _ Hc _ _ Hrow (or_introl Hst)) as (p & ids & g & Hp & Hg).
  assert (ps_public_key_package p = ps_public_key_package (pc_profile c)) as Hpk.
  { apply Hkey; [done|]. rewrite <- (drifts_digest _ _ Hd), <- (drifts_digest _ _ (lk_profile _ _ _ _ _ Hg)).
    destruct (lk_row _ _ _ _ _ Hg) as (row0 & Hr0 & Hb & _). simplify_eq. by rewrite Hb. }
  destruct (resumed_Ok known c id row now p ids g Hc Hrow Hst Hnow Hg Hpk Hdev fresh) as (c' & o & out & Hres & Ho & Hs & Hcont).
  exists c', o, out. split_and!; try done. unfold recover_operation.
  unfold mbind, act_bind, reads, Effects.lift. simpl. unfold personal_signing_operation. rewrite Hrow. simpl.
  rewrite Hd. simpl. rewrite Hst, (proj2 (Z.ltb_ge _ _)) by lia. done.
Qed.

End recovery.

(** * One personal signing operation, run to its end

    A computable wire format over the stand-in FROST library, a wallet whose
    intent is approved, and the run: begin, two commitments, freeze, two
    shares, finalize. *)

Local Open Scope string_scope.
Local Open Scope list_scope.
Local Open Scope Z_scope.

Definition fill (b : byte) : bytes := replicate 32 b.

(** Verifying shares of the three signers and the group key. *)
Definition toy_group : @PublicKeyPackage toy_frost :=
  (<[1 := [x01]]> (<[2 := [x02]]> (<[3 := [x03]]> ∅)), fill xaa).
(** A package is written as its message and read back with the commitments of
    signers 1 and 2. *)
#[export] Instance toy_frost_codec : @FrostCodec toy_frost := {|
  commitments_serialize c := Some (c : bytes);
  commitments_deserialize b := Some (b : bytes);
  share_serialize s := (s : bytes);
  share_deserialize b := Some (b : bytes);
  package_serialize p := Some (snd (p : gmap Z bytes * bytes));
  package_deserialize b := Some (<[1 := [x07; x01]]> (<[2 := [x07; x02]]> ∅), b);
  package_message p := snd (p : gmap Z bytes * bytes);
  public_key_package_deserialize _ := Some toy_group;
|}.
#[export] Instance toy_frost_codec_laws : @FrostCodecLaws toy_frost toy_frost_codec.
Proof. split; [by eexists|by intros c b [= <-]|done]. Qed.

Definition uid (b : byte) : Uuid := replicate 16 b.
Definition descriptor (k : Z) (r : PersonalParticipantRole) : PersonalParticipantDescriptor :=
  mkPersonalParticipantDescriptor k r "" [z2b k].
Definition toy_profile : PersonalSignerProfile :=
  mkPersonalSignerProfile 1 (uid x70) (uid x71) (uid x72) 1 2 3 (fill x41) [x01]
    [descriptor 1 WalletNodeRole; descriptor 2 DesktopOnePassword; descriptor 3 PhoneRecovery].
Definition toy_device (k : Z) : ProviderIdentity :=
  mkProviderIdentity (uid x71) (uid x72) 1 k (uid (z2b k)) 1 (fill x41) [z2b k].
Definition toy_devices : list ProviderIdentity := [toy_device 1; toy_device 2; toy_device 3].

(** The approved intent and its unconsumed authorization. *)
#[export] Instance toy_material : IntentMaterialJson := fun _ =>
  Some (mkPersistedPersonalSigningPolicy (uid x70) (uid x72) 1 (String.string_of_list_byte (fill x41)) (1, 2, 3) 2
          (String.string_of_list_byte (fill x50)) (String.string_of_list_byte (fill x43))).
#[export] Instance toy_uuid_text : UuidText :=
  {| uuid_to_string u := String.string_of_list_byte u; uuid_parse_str s := Some (String.list_byte_of_string s) |}.
#[export] Instance toy_build : BuildInfo := "0.1.0".
Definition toy_intent : TransactionIntentRow :=
  mkTransactionIntentRow (uid x71) 1 (fill x4d) (fill x50) (fill x53) TxApproved 100 1 5
    (Some (mkIntentV2Columns StoredSignet 1 ActionSpend "frost:participant-0" (fill x05))).
Definition toy_database : WalletDb :=
  put_metadata (Some (mkWalletMetadata (uid x71) 1 RestoreNormal 0 0))
    (put_intents (<[uid x69 := toy_intent]> ∅)
      (put_materials (<[(uid x69, KindPolicyInput) := mkMaterialRow "{}" (sha256 (ascii_bytes "{}")) "snapshot"]> ∅)
        (put_authorizations
          (<[uid x61 := mkAuthorizationRow (uid x71) (mkAuthorizationRecord (uid x61) (uid x69) 1 (fill x08) 200 5 None None)]> ∅)
          WalletDb_empty))).
Definition toy_storage : WalletStorage := mkWalletStorage (mkSignerTables toy_database ∅ []) ∅ ∅.
Definition toy_request : BeginPersonalSigningOperation :=
  mkBeginPersonalSigningOperation (uid x6f) (uid x69) (fill x53) (fill x4d) (fill x50) (fill x43) (1, 2) 100.
Definition toy_authorization : PersonalOperationAuthorization :=
  mkPersonalOperationAuthorization (uid x61) (personal_operation_binding_digest toy_profile toy_request) false.
Definition toy_fresh (base k : Z) : bytes := [z2b base; z2b k].

Abbreviation Coordinator := (PersonalSigningCoordinator WalletStorage).
Definition blank : Coordinator := mkPersonalSigningCoordinator toy_profile ∅ toy_storage ∅.
Definition toy_c0 : Coordinator :=
  default blank (result_ok (PersonalSigningCoordinator_new toy_profile toy_devices toy_storage)).

(** The wallet starts without personal operations. *)
Lemma toy_start :
  st_operations (pc_store toy_c0) = ∅ /\ st_receipts (pc_store toy_c0) = ∅ /\ pc_operations toy_c0 = ∅ /\ toy_profile = pc_profile toy_c0.
Proof.
  assert (is_ok (PersonalSigningCoordinator_new toy_profile toy_devices toy_storage) = true) as Hok by (by vm_compute).
  unfold toy_c0. unfold PersonalSigningCoordinator_new in *. by destruct (reject_if _ _).
Qed.

(** The run, with the answers of signers 1 and 2. *)
Definition toy_begun := begin_authorized toy_request toy_authorization 10 (toy_fresh 1) toy_c0.
Definition toy_c1 : Coordinator := (begin_authorized toy_request toy_authorization 10 (toy_fresh 1) toy_c0).1.1.
Definition context_in (contexts : gmap Z SignerRequestContext) (k : Z) : SignerRequestContext :=
  default (request_context (mkPersonalSigningOperation (new_operation toy_profile toy_request [] 0)
    OpCollectingCommitments None None None 0) (toy_device k) []) (contexts !! k).
Definition live_contexts (two : bool) (c : Coordinator) : gmap Z SignerRequestContext :=
  match pc_operations c !! uid x6f with
  | Some o => if two then lo_round_two_contexts o else lo_round_one_contexts o
  | None => ∅
  end.
Definition commit_answer (c : Coordinator) (k : Z) : SignerRoundOneResponse :=
  mkSignerRoundOneResponse (binding_digest (context_in (live_contexts false c) k)) (hex_encode [x07; z2b k]).
Definition share_answer (c : Coordinator) (k : Z) : SignerRoundTwoResponse :=
  mkSignerRoundTwoResponse (binding_digest (context_in (live_contexts true c) k)) (hex_encode (fill x4d ++ [z2b k])).
Definition toy_c2 : Coordinator := (accept_round_one (uid x6f) 1 (commit_answer toy_c1 1) 11 toy_c1).1.
Definition toy_c3 : Coordinator := (accept_round_one (uid x6f) 2 (commit_answer toy_c2 2) 12 toy_c2).1.
Definition toy_c4 : Coordinator := (pc_freeze_commitments (uid x6f) 13 (toy_fresh 2) toy_c3).1.
Definition toy_c5 : Coordinator := (accept_round_two (uid x6f) 1 (share_answer toy_c4 1) 14 toy_c4).1.
Definition toy_c6 : Coordinator := (accept_round_two (uid x6f) 2 (share_answer toy_c5 2) 15 toy_c5).1.
Definition toy_c7 : Coordinator := (pc_finalize (uid x6f) 16 toy_c6).1.
(** A second process, started after the first share. *)
Definition toy_c8 : Coordinator :=
  default blank (result_ok (PersonalSigningCoordinator_new toy_profile toy_devices (pc_store toy_c5))).
Definition toy_row : PersonalSigningOperation :=
  default (mkPersonalSigningOperation (new_operation toy_profile toy_request [] 0) OpFailed None None None 0)
    (st_operations (pc_store toy_c8) !! uid x6f).
Lemma toy_row_stored : st_operations (pc_store toy_c8) !! uid x6f = Some toy_row.
Proof.
  assert (bool_decide (is_Some (st_operations (pc_store toy_c8) !! uid x6f)) = true) as Hs by (by vm_compute).
  apply bool_decide_eq_true in Hs as [row Hrow]. unfold toy_row. by rewrite Hrow.
Qed.

Lemma toy_reached : rtc (personal_step (eq toy_profile)) toy_c0 toy_c5.
Proof.
  apply (rtc_l _ _ toy_c1); [exact (ps_begin _ toy_c0 toy_request toy_authorization 10 (toy_fresh 1))|].
  apply (rtc_l _ _ toy_c2); [apply (ps_round_one _ toy_c1)|]. apply (rtc_l _ _ toy_c3); [apply (ps_round_one _ toy_c2)|].
  apply (rtc_l _ _ toy_c4); [apply (ps_freeze _ toy_c3)|]. apply rtc_once, (ps_round_two _ toy_c4).
Qed.
Lemma toy_finished : rtc (personal_step (eq toy_profile)) toy_c0 toy_c7.
Proof. etrans; [apply toy_reached|]. apply (rtc_l _ _ toy_c6); [apply (ps_round_two _ toy_c5)|]. apply rtc_once, (ps_finalize _ toy_c6). Qed.
Lemma toy_restarted : rtc (personal_step (eq toy_profile)) toy_c0 toy_c8.
Proof.
  etrans; [apply toy_reached|]. apply rtc_once, (ps_restart _ _ toy_profile toy_devices); [done|].
  assert (is_ok (PersonalSigningCoordinator_new toy_profile toy_devices (pc_store toy_c5)) = true) as Hok by (by vm_compute).
  unfold toy_c8. by destruct (PersonalSigningCoordinator_new toy_profile toy_devices (pc_store toy_c5)).
Qed.

Example toy_signed : (st_operations (pc_store toy_c7) !! uid x6f) ≫= op_final_signature = Some (fill x4d ++ fill xaa).
Proof. by vm_compute. Qed.
