(* ===== verification/PersonalProperties.v ===== *)
(** * Personal 2-of-3 signing: the properties

    The coordinator over the wallet's storage, its recovery after a crash, the
    signer providers it talks to and the registry of their devices. *)

From Stdlib Require Import ZArith Lia.
From S2P Require Import Prelude Bitcoin Text Concrete Frost Participant Orchestrator Personal Gate Effects Provider DeviceRegistry ProviderInv.
From S2P Require Import StorageModels WalletDb SignerDevices WalletDbInv PersonalDb PersonalSigning PersonalInv PersonalRecovery WalletConcrete.
From stdpp Require Import list gmap strings.
Local Open Scope string_scope.
Local Open Scope list_scope.
Local Open Scope Z_scope.

Section coordinator.
Context `{B : BitcoinLib} `{T : TextCodec} `{F : FrostLib} {C : FrostCodec} {FL : FrostLaws F} `{J : IntentMaterialJson} `{U : UuidText} `{BI : BuildInfo}.
Context (known : PersonalSignerProfile -> Prop).

(** C7: a personal signature is authorized and verified.  In every history of
    wallet processes over one storage (calls in any order, crashes and restarts,
    the other methods of the database in between), each operation has consumed an authorization
    that no other operation consumed, of its own intent, and that intent asks for
    exactly this operation: its transaction digest is the operation's sighash, and
    its session, policy digest and deadline are the operation's.  A stored
    signature belongs to a finalized operation, verifies for that approved digest
    under the group key of a profile a process ran with and that the operation is
    bound to, and each of the two selected signers has a recorded share that
    verifies against the stored signing package. *)
Theorem personal_signature_authorized (c0 c : PersonalSigningCoordinator WalletStorage) id row :
  st_operations (pc_store c0) = ∅ -> st_receipts (pc_store c0) = ∅ -> pc_operations c0 = ∅ -> known (pc_profile c0) ->
  rtc (personal_step known) c0 c -> st_operations (pc_store c) !! id = Some row ->
  exists aid intent,
    consumed_by (pc_store c) (op_bound row) aid /\
    (forall id' row', st_operations (pc_store c) !! id' = Some row' -> consumed_by (pc_store c) (op_bound row') aid -> id' = id) /\
    db_intents (st_db (pc_store c)) !! no_intent_id (op_bound row) = Some intent /\ is_v2 intent = true /\
    ir_tx_digest intent = no_taproot_sighash (op_bound row) /\ ir_session_id intent = no_session_id (op_bound row) /\
    ir_policy_hash intent = no_policy_digest (op_bound row) /\ ir_expires_at intent = no_expires_at (op_bound row) /\
    forall sig, op_final_signature row = Some sig ->
      op_status row = OpFinalized /\ signed known (pc_store c) id row sig /\
      exists p pkp fsig, known p /\ profile_binding_digest p = no_profile_binding_digest (op_bound row) /\
        public_key_package_deserialize (ps_public_key_package p) = Some pkp /\ signature_to_bytes fsig = Ok sig /\
        verifying_key_verify (verifying_key pkp) (ir_tx_digest intent) fsig = true.
Proof.
  intros Ho Hr Hp Hk Hrun Hrow. pose proof (reachable_inv known _ _ Hrun (start_inv known _ Ho Hr Hp Hk)) as Hc.
  pose proof (ci_storage _ _ Hc) as Hs. destruct (si_auth _ Hs _ _ Hrow) as [aid Ha].
  pose proof Ha as (_ & _ & _ & intent & _ & _ & _ & _ & _ & _ & Hi & (Hv2 & Hsid & Htx & Hpol & Hexp)). exists aid, intent. split_and!; try done.
  - intros id' row' Hrow' Ha'. by eapply (si_once _ Hs).
  - intros sig Hsig. pose proof (ci_signed _ _ Hc _ _ _ Hrow Hsig) as Hsd. split_and!; [|done|].
    + destruct (si_row _ Hs _ _ Hrow) as (_ & _ & _ & Hok). unfold row_ok in Hok. destruct (op_status row); naive_solver.
    + destruct Hsd as (p & pkp & pk & fsig & ? & ? & ? & _ & _ & ? & ?). exists p, pkp, fsig. by rewrite Htx.
Qed.

Lemma begin_Ok (c c' : PersonalSigningCoordinator WalletStorage) request token token' now fresh ds :
  begin_authorized request token now fresh c = (c', token', Ok ds) ->
  exists pp s' durable contexts, prepare_operation request now c = Ok pp /\
    PersonalOperationAuthorization_validate token (no_operation_binding_digest (pp_record pp)) = Ok tt /\
    consume_authorization_and_create_personal_signing_operation (po_authorization_id token) (pp_record pp) now (pc_store c)
      = (s', Ok durable) /\
    contexts_for durable (pc_identities c) fresh (pair_list (no_selected_participants (op_bound durable))) = Ok contexts /\
    pc_store c' = s' /\ token' = consume_after_commit token /\
    ds = (fun e : Z * SignerRequestContext => mkPersonalRoundOneDispatch e.1 (mkSignerRoundOneRequest e.2)) <$> in_key_order contexts.
Proof.
  unfold begin_authorized. destruct (prepare_operation request now c) as [pp|e]; simpl; [|done].
  destruct (PersonalOperationAuthorization_validate _ _) as [[]|e] eqn:Hv; simpl; [|done].
  unfold storage_call, zoom, Datatypes.id.
  destruct (consume_authorization_and_create_personal_signing_operation _ _ _ _) as [s' [durable|e]] eqn:Hcr; simpl; [|done].
  destruct (activate_prepared _ _ _ _ _) as [c2 r] eqn:Ha. intros [= -> <- ->].
  unfold activate_prepared in Ha. act_step. act_step. act_step. act_step. act_step. act_step. act_step. act_step. act_step.
  exists pp, s', durable, r1. by split_and!.
Qed.

(** Starting an operation takes an approval.  Round-one requests go out only
    if the storage holds the authorization, unconsumed, valid and unexpired, of
    an approved intent whose session, sighash, policy digest and deadline are
    the request's, and the approval token is bound to this profile and request;
    then the authorization and the token are consumed, the operation is stored,
    and exactly the two selected signers are asked, each for that sighash,
    session and deadline on its registered device. *)
Theorem personal_begin_needs_approval (c c' : PersonalSigningCoordinator WalletStorage) request token token' now fresh ds :
  begin_authorized request token now fresh c = (c', token', Ok ds) ->
  po_operation_binding_digest token = personal_operation_binding_digest (pc_profile c) request /\
  po_consumed token = false /\ po_consumed token' = true /\
  (exists auth intent, db_authorizations (st_db (pc_store c)) !! po_authorization_id token = Some auth /\
    db_intents (st_db (pc_store c)) !! bo_intent_id request = Some intent /\
    ac_intent (az_record auth) = bo_intent_id request /\ authorization_open auth = true /\
    now <= ac_expires_at (az_record auth) /\ ir_status intent = TxApproved /\ ir_session_id intent = bo_session_id request /\
    ir_tx_digest intent = bo_taproot_sighash request /\ ir_policy_hash intent = bo_policy_digest request /\
    ir_expires_at intent = bo_expires_at request /\ now < bo_expires_at request /\
    db_authorizations (st_db (pc_store c')) !! po_authorization_id token = Some (authorization_consumed now auth)) /\
  is_Some (st_operations (pc_store c') !! bo_operation_id request) /\
  d1_signer_id <$> ds = pair_list (bo_selected_participants request) /\
  Forall (fun d => let ctx := r1_context (d1_request d) in
    rc_operation_id ctx = bo_operation_id request /\ rc_session_id ctx = bo_session_id request /\
    rc_taproot_sighash ctx = bo_taproot_sighash request /\ rc_expires_at ctx = bo_expires_at request /\
    device_of (pc_identities c) (d1_signer_id d) (rc_device_id ctx) (rc_device_generation ctx)) ds.
Proof.
  intros (pp & s' & row & contexts & Hp & Hv & Hcr & Hctx & <- & -> & ->)%begin_Ok. apply prepare_Ok in Hp as (Hrec & _ & Hexp & _).
  apply create_Ok in Hcr as (-> & _ & Hpair & _ & _ & _ & mt & auth & intent & v2 & _ & Ha & Hi & _ & _ & Hai & Hopen & Hae & Hst &
    (_ & Hsid & Htx & Hpol & Hie) & Hops & _ & Hdb).
  pose proof (contexts_for_dom _ _ _ _ _ Hctx) as Hdom. pose proof (contexts_for_lookup _ _ _ _ _ Hctx) as Hlook. clear Hctx.
  unfold PersonalOperationAuthorization_validate in Hv. res_inv. rewrite Hrec in *. simpl in *.
  split_and!; try done.
  - exists auth, intent. split_and!; try done. rewrite Hdb. cbn. by rewrite lookup_insert_eq.
  - rewrite Hops, lookup_insert_eq. by eexists.
  - rewrite <- (in_key_order_keys contexts (pair_list (bo_selected_participants request)));
      [by rewrite <- list_fmap_compose|by apply pair_sorted|done].
  - apply Forall_fmap, Forall_forall. intros [k ctx] Hin. rewrite in_key_order_perm, elem_of_map_to_list in Hin. simpl.
    destruct (Hlook _ _ Hin) as (i & Hid & ->). simpl. split_and!; try done. by exists i.
Qed.

(** C14: recovery resumes the same session.  In any history of processes that run
    with profiles in which the binding digest fixes the key package, a process
    that recovers an operation in its share phase before its deadline, with the
    devices the receipts came from still registered, succeeds: its session is
    the frozen one whose package is stored, holds exactly the recorded shares,
    and exactly the signers of the pair without a recorded share are asked again,
    in order and for the stored package; with none missing it is ready to
    finalize.  The storage is unchanged. *)
Theorem personal_recovery_resumes (c0 c : PersonalSigningCoordinator WalletStorage) id row now fresh :
  st_operations (pc_store c0) = ∅ -> st_receipts (pc_store c0) = ∅ -> pc_operations c0 = ∅ -> known (pc_profile c0) ->
  rtc (personal_step known) c0 c ->
  st_operations (pc_store c) !! id = Some row -> op_status row = OpCollectingShares ->
  now < no_expires_at (op_bound row) -> record_drifts row (pc_profile c) = false ->
  (forall p, known p -> profile_binding_digest p = profile_binding_digest (pc_profile c) ->
    ps_public_key_package p = ps_public_key_package (pc_profile c)) ->
  (forall k r rc, st_receipts (pc_store c) !! (id, k, r) = Some rc ->
    device_of (pc_identities c) k (pr_device_id rc) (pr_device_generation rc)) ->
  exists c' o out, recover_operation id now fresh c = (c', Ok out) /\ pc_operations c' !! id = Some o /\
    pc_store c' = pc_store c /\ continues (pc_store c) id row (lo_machine o) out.
Proof.
  intros Ho Hr Hp Hk Hrun Hrow Hst Hnow Hd Hkey Hdev.
  pose proof (reachable_inv known _ _ Hrun (start_inv known _ Ho Hr Hp Hk)) as Hc. by apply (recovery_continues known).
Qed.
End coordinator.

Lemma personal_signature_authorized_witness :
  exists row intent, st_operations (pc_store toy_c7) !! uid x6f = Some row /\
    db_intents (st_db (pc_store toy_c7)) !! no_intent_id (op_bound row) = Some intent /\
    ir_tx_digest intent = no_taproot_sighash (op_bound row) /\ op_status row = OpFinalized /\
    signed (eq toy_profile) (pc_store toy_c7) (uid x6f) row (fill x4d ++ fill xaa).
Proof.
  destruct (st_operations (pc_store toy_c7) !! uid x6f) as [row|] eqn:Hrow.
  - destruct toy_start as (Ho & Hr & Hl & Hp).
    destruct (personal_signature_authorized (eq toy_profile) toy_c0 toy_c7 (uid x6f) row Ho Hr Hl Hp toy_finished Hrow)
      as (aid & intent & _ & _ & Hi & _ & Htx & _ & _ & _ & Hsig).
    pose proof toy_signed as Hs. rewrite Hrow in Hs. destruct (Hsig _ Hs) as (Hst & Hsd & _).
    exists row, intent. exact (conj eq_refl (conj Hi (conj Htx (conj Hst Hsd)))).
  - pose proof toy_signed as Hs. rewrite Hrow in Hs. discriminate Hs.
Defined.

Lemma personal_begin_needs_approval_witness :
  exists ds, begin_authorized toy_request toy_authorization 10 (toy_fresh 1) toy_c0 = (toy_c1, toy_begun.1.2, Ok ds) /\
    d1_signer_id <$> ds = [1; 2].
Proof.
  destruct toy_begun as [[c' token'] [ds|e]] eqn:Hb.
  - exists ds. assert (begin_authorized toy_request toy_authorization 10 (toy_fresh 1) toy_c0 = (c', token', Ok ds)) as Hok by exact Hb.
    split; [unfold toy_c1; rewrite Hok; reflexivity|].
    exact (proj1 (proj2 (proj2 (proj2 (proj2 (proj2 (personal_begin_needs_approval _ _ _ _ _ _ _ _ Hok))))))).
  - exfalso. assert (is_ok toy_begun.2 = true) as Hok by (vm_compute; reflexivity). rewrite Hb in Hok. discriminate Hok.
Defined.

(** Every receipt of the restarted wallet came from a registered device. *)
Definition receipt_device_ok (e : Uuid * Z * PersonalSigningRound * PersonalSigningReceipt) : bool :=
  match pc_identities toy_c8 !! e.1.1.2 with
  | Some i => bool_decide (pr_device_id e.2 = id_device_id i) && (pr_device_generation e.2 =? id_device_generation i)
  | None => false
  end.
Lemma toy_receipts_ok : forallb receipt_device_ok (map_to_list (st_receipts (pc_store toy_c8))) = true.
Proof. by vm_compute. Qed.
Lemma toy_devices_registered k r rc :
  st_receipts (pc_store toy_c8) !! (uid x6f, k, r) = Some rc ->
  device_of (pc_identities toy_c8) k (pr_device_id rc) (pr_device_generation rc).
Proof.
  intros Hrc%elem_of_map_to_list. pose proof toy_receipts_ok as Hall. rewrite forallb_forall in Hall.
  specialize (Hall _ (proj1 (list_elem_of_In _ _) Hrc)). unfold receipt_device_ok in Hall. simpl in Hall.
  destruct (pc_identities toy_c8 !! k) as [i|] eqn:Hi; [|done]. apply andb_true_iff in Hall as [Hd Hg].
  apply bool_decide_eq_true in Hd. apply Z.eqb_eq in Hg. by exists i.
Qed.

Lemma personal_recovery_resumes_witness :
  awaited (pc_store toy_c8) (uid x6f) toy_row = [2] /\
  exists c' o out, recover_operation (uid x6f) 20 (toy_fresh 9) toy_c8 = (c', Ok out) /\ pc_operations c' !! uid x6f = Some o /\
    pc_store c' = pc_store toy_c8 /\ continues (pc_store toy_c8) (uid x6f) toy_row (lo_machine o) out.
Proof.
  split; [vm_compute; reflexivity|]. destruct toy_start as (Ho & Hr & Hl & Hp).
  refine (personal_recovery_resumes (eq toy_profile) toy_c0 toy_c8 _ _ _ _ Ho Hr Hl Hp toy_restarted toy_row_stored _ _ _ _ toy_devices_registered).
  - vm_compute. reflexivity.
  - vm_compute. reflexivity.
  - vm_compute. reflexivity.
  - intros p <- _. reflexivity.
Defined.

(** ** Signer providers *)

(** C13: a provider releases a share only against its own reservation.  In every
    sequence of requests to a guarded provider over the local backend and any
    replay store that keeps its contract: a request nonce is never accepted
    twice, nor one the store had claimed before, as after a restart; each
    released share was requested before its deadline in a context that matches
    the provider's identity, after the provider committed for the same
    operation, session, sighash and binding, and its package is for that
    sighash and carries that commitment under the provider's identifier; and no
    operation gets more shares than commitments. *)
Theorem provider_share_reserved `{BitcoinLib} `{TextCodec} `{FrostLib} `{!FrostCodec} `{!FrostCodecLaws} {A : Type}
    `{!ProviderRequestAuthorizer A} {R : Type} `{!ProviderReplayStore R} `{!ProviderReplayLaws R}
    (g g' : GuardedSignerProvider (LocalEncryptedFrostBackend A) R) ops evs :
  signer g = id_signer_id (gp_identity g) -> reservations g = ∅ -> provider_run g ops = (g', evs) ->
  NoDup (event_nonce <$> evs) /\
  (forall e, e ∈ evs -> ~ nonce_claimed (gp_identity g) (gp_replay_store g) (event_nonce e) /\
     nonce_claimed (gp_identity g') (gp_replay_store g') (event_nonce e)) /\
  releases_covered (gp_identity g) evs /\
  forall op, (releases_of op evs <= commits_of op evs)%nat.
Proof.
  intros Hs Hr Hrun.
  destruct (provider_run_inv (consumed g) ops g g' [] evs Hrun (provider_inv_start g Hs Hr)) as [Hinv Hcov].
  - intros pre ctx now hex a post Heq. by destruct pre.
  - split_and!; [apply Hinv| |exact Hcov|].
    + intros e He. split; [by apply (pi_fresh _ _ _ Hinv)|by apply (pi_consumed _ _ _ Hinv)].
    + intros op. pose proof (pi_count _ _ _ Hinv op). simpl in *. lia.
Qed.

#[local] Instance approve_all : ProviderRequestAuthorizer unit := fun _ _ s => (s, Ok tt).
Definition toy_provider : GuardedSignerProvider (LocalEncryptedFrostBackend unit) MemoryProviderReplayStore :=
  with_replay_store (toy_device 1)
    (LocalEncryptedFrostBackend_new (mkLocalFrostParticipant 1 1 NonceGuard_new ∅) toy_group tt) MemoryProviderReplayStore_default.
Definition toy_context (nonce : byte) : SignerRequestContext :=
  mkSignerRequestContext 1 (uid x71) (uid x72) 1 1 (uid x01) 1 (uid x6f) (uid x69) (fill x53) (fill x4d) (fill x50) (fill x41) [x01]
    2 3 (fill x43) [nonce] 100.
Definition toy_provider_ops : list provider_op :=
  [PRoundOne (mkSignerRoundOneRequest (toy_context x01)) 10 [x07];
   PRoundTwo (mkSignerRoundTwoRequest (toy_context x01) (hex_encode (fill x4d))) 11;
   PRoundTwo (mkSignerRoundTwoRequest (toy_context x02) (hex_encode (fill x4d))) 11;
   PRoundTwo (mkSignerRoundTwoRequest (toy_context x03) (hex_encode (fill x4d))) 12].

Lemma provider_share_reserved_witness :
  releases_of (uid x6f) (provider_run toy_provider toy_provider_ops).2 = 1%nat /\
  (releases_of (uid x6f) (provider_run toy_provider toy_provider_ops).2 <=
   commits_of (uid x6f) (provider_run toy_provider toy_provider_ops).2)%nat.
Proof.
  split; [vm_compute; reflexivity|].
  exact (proj2 (proj2 (proj2 (provider_share_reserved toy_provider _ toy_provider_ops _ eq_refl eq_refl (surjective_pairing _)))) _).
Defined.

(** C22: custody of the signer slots.  In every sequence of registry operations, a
    slot never disappears; a revoked device stays in its slot, revoked; the device
    of an active slot changes only by a registration whose proof the active
    device signed, for the next generation and the device that is then stored;
    and no request nonce of a device generation is admitted twice. *)
Theorem device_custody `{BitcoinLib} `{TextCodec} `{BuildProfile} s s' ops admitted k r :
  registry_run s ops = (s', admitted) -> sr_devices s !! k = Some r ->
  (exists r', sr_devices s' !! k = Some r' /\
    (dr_status r = DeviceRevoked -> same_device r r' /\ dr_status r' = DeviceRevoked) /\
    (dr_status r = DeviceActive -> same_device r r' \/ rotated r r')) /\
  NoDup admitted /\ forall n, n ∈ admitted -> n ∉ sr_consumed_request_nonces s.
Proof.
  intros Hrun Hr. split; [|by eapply registry_run_nonces].
  destruct (registry_run_custody _ _ _ _ Hrun k r Hr) as (r' & Hr' & Hc). exists r'. split_and!; [done|..].
  - by apply custody_revoked_final.
  - by apply custody_rotation.
Qed.

(** A slot whose device is replaced with its consent, then revoked. *)
Definition key_text (b : byte) : string := hex_encode (fill b).
Definition toy_slot : SignerDeviceRecord :=
  mkSignerDeviceRecord 1 (Some (uid x01)) 4 (Some HsmAdapter) (Some (key_text x61)) None DeviceActive (Some 1) None None DeviceHealth_default.
Definition toy_registry : SignerDeviceRegistry := mkSignerDeviceRegistry (uid x72) 1 (<[1 := toy_slot]> ∅) ∅ ∅.
Definition toy_challenge : DeviceRegistrationChallenge :=
  mkDeviceRegistrationChallenge (uid x63) (uid x72) 1 1 5 (fill x6e) 60.
Definition unsigned_proof : DeviceRegistrationProof :=
  mkDeviceRegistrationProof (uid x63) (uid x02) HsmAdapter (key_text x62) None "" None.
Definition device_signature (b : byte) : string :=
  hex_encode (default [] (result_ok (registration_digest toy_challenge unsigned_proof None)) ++ fill b).
Definition toy_proof : DeviceRegistrationProof :=
  mkDeviceRegistrationProof (uid x63) (uid x02) HsmAdapter (key_text x62) None (device_signature x62) (Some (device_signature x61)).
Definition toy_registry_ops : list registry_op :=
  [OpChallenge 1 10 50 (fill x6e) (uid x63); OpRegister toy_proof 20; OpRevoke 1 (uid x02) 5 30; OpRegister toy_proof 40].

Lemma device_custody_witness :
  (exists r', sr_devices (registry_run toy_registry toy_registry_ops).1 !! 1 = Some r' /\ dr_device_id r' = Some (uid x02) /\
    dr_status r' = DeviceRevoked) /\
  exists r', sr_devices (registry_run toy_registry toy_registry_ops).1 !! 1 = Some r' /\
    (same_device toy_slot r' \/ rotated toy_slot r').
Proof.
  split; [eexists; split; [vm_compute; reflexivity|split; reflexivity]|].
  destruct (device_custody toy_registry _ toy_registry_ops _ 1 toy_slot (surjective_pairing _)) as [(r' & Hr' & _ & Ha) _].
  - vm_compute. reflexivity.
  - exists r'. exact (conj Hr' (Ha eq_refl)).
Defined.
