(* ===== verification/WalletDbProperties.v ===== *)
(** * The wallet database, as a whole

    Every method that writes the database as a step of one storage, and what
    every run guarantees: signing needs a Passkey approval that is consumed
    once, a cutover revokes what was open before it for good, a restore in
    progress refuses all other writes, ledgers only grow, and stored policies
    are inspected, immutable and never active; and the log of device events
    restores the registry of signer devices. *)

From Stdlib Require Import ZArith Lia.
From S2P Require Import Prelude Bitcoin Text Effects ChainDomain SigningDomain Personal StorageModels WalletDb SignerDb PolicyDocument.
From S2P Require Import PolicyCompile PolicyProperties PolicyStorage Provider DeviceRegistry SignerDevices WalletDbInv WalletDbAuthority PersonalDb PersonalInv.
From stdpp Require Import list gmap strings sorting.
Local Open Scope string_scope.
Local Open Scope list_scope.
Local Open Scope Z_scope.

(** ** Ledgers of ceremonies and policies *)

Section ledgers.
Context `{UuidText} `{BuildInfo} `{BitcoinLib} `{JsonText} `{TextCodec} `{PolicyLib} `{PolicyJson} `{PolicyRowsJson} `{ActivationJson}.

Record policy_inv (t : PolicyTables) (epoch : Z) : Prop := mkPolicyInv {
  pol_inspected : forall h d, pt_documents t !! h = Some d -> exists b, inspect_bundle (dr_canonical_bundle d) = Ok b /\
    pb_policy_hash b = h /\ run_all_passed (pb_validation_run b) = true;
  pol_pending : forall id b, pt_bindings t !! id = Some b -> br_binding_state b = "pending_activation";
  pol_epoch : forall id a, pt_activations t !! id = Some a -> qv_wallet_epoch a <= epoch;
}.
Record ledger_inv (s : WalletDb) : Prop := mkLedgerInv {
  led_ceremonies : forall m cid c, db_metadata s = Some m -> db_ceremonies s !! cid = Some c -> cy_epoch c <= wm_epoch m;
  led_policy : forall m, db_metadata s = Some m -> policy_inv (db_policy s) (wm_epoch m);
}.
Definition ledger_step (s s' : WalletDb) : Prop := ledger_inv s -> ledger_inv s'.
#[export] Instance ledger_step_preorder : PreOrder ledger_step.
Proof. unfold ledger_step. split; [intros s Hs; exact Hs|intros s1 s2 s3; auto]. Qed.

(** The epoch only rises; ceremonies are old or of the current epoch. *)
Lemma ledger_next s s' m m' : db_metadata s = Some m -> db_metadata s' = Some m' -> wm_epoch m <= wm_epoch m' ->
  (forall cid c, db_ceremonies s' !! cid = Some c ->
     cy_epoch c = wm_epoch m \/ exists c0, db_ceremonies s !! cid = Some c0 /\ cy_epoch c = cy_epoch c0) ->
  db_policy s' = db_policy s -> ledger_step s s'.
Proof.
  intros Hm Hm' Hle Hcer Hpol [Lc Lp]. constructor; rewrite Hm'.
  - intros m1 cid c [= <-] [->|(c0 & Hc0 & ->)]%Hcer; [done|]. specialize (Lc m cid c0 Hm Hc0). lia.
  - intros m1 [= <-]. rewrite Hpol. destruct (Lp m Hm) as [P1 P2 P3]. constructor; [done|done|].
    intros id a Ha. specialize (P3 id a Ha). lia.
Qed.
Lemma from_update_all (p : CeremonyRow -> bool) (f : CeremonyRow -> CeremonyRow) (t : gmap Uuid CeremonyRow) :
  (forall c, cy_epoch (f c) = cy_epoch c) ->
  forall (cid : Uuid) c, update_all p f t !! cid = Some c -> exists c0, t !! cid = Some c0 /\ cy_epoch c = cy_epoch c0.
Proof.
  intros Hf cid c. rewrite lookup_update_all. intros (c0 & Hc0 & ->)%fmap_Some. exists c0. split; [done|].
  destruct (p c0); [apply Hf|done].
Qed.

Ltac ledger_solve :=
  match goal with
  | Hm : db_metadata ?s = Some ?m |- ledger_step ?s _ =>
      eapply (ledger_next s _ m); [exact Hm|cbn; first [exact Hm|reflexivity]|cbn; lia| |done];
      let Hc := fresh "Hcer" in cbn; intros ? ? Hc; first
        [ by right; eauto
        | right; by eapply from_update_all in Hc
        | apply lookup_insert_Some in Hc as [[<- <-]|[_ Hc]]; [first [by left|by right; eauto]|by right; eauto] ]
  end.

Lemma ledger_policy s s' m : db_metadata s = Some m -> db_metadata s' = Some m -> db_ceremonies s' = db_ceremonies s ->
  (policy_inv (db_policy s) (wm_epoch m) -> policy_inv (db_policy s') (wm_epoch m)) -> ledger_step s s'.
Proof.
  intros Hm Hm' Hc Hp [Lc Lp]. constructor; rewrite Hm', ?Hc.
  - intros m1 cid c [= <-]. by apply Lc.
  - intros m1 [= <-]. by apply Hp, Lp.
Qed.

Lemma store_policy_ledger hash bundle now : keeps ledger_step (store_policy_bundle_bytes hash bundle now).
Proof.
  unfold store_policy_bundle_bytes. keeps_open. case_match; [case_match; res_open; reflexivity|]. res_open.
  eapply ledger_policy; [done|done|done|]. intros [P1 P2 P3].
  unfold prepare_policy_bundle in *. unfold insert_policy in *. unfold invalid_stored, map_err in *. db_open.
  constructor; cbn; [|done|done].
  intros h d [[<- <-]|[_ Hd]]%lookup_insert_Some; [|by eauto]. cbn.
  destruct (inspect_bundle bundle) as [b|e] eqn:Hb; [|done]. simplify_eq. eauto.
Qed.
Lemma propose_activation_ledger p : keeps ledger_step (propose_policy_activation p).
Proof.
  unfold propose_policy_activation. keeps_open. unfold insert_proposal in *. db_open.
  eapply ledger_policy; [done|done|done|]. intros [P1 P2 P3]. constructor; cbn; [done| |].
  - intros id b [[<- <-]|[_ Hb]]%lookup_insert_Some; [done|by eauto].
  - intros id a [[<- <-]|[_ Ha]]%lookup_insert_Some; [cbn; lia|by eauto].
Qed.

Lemma install_catalog_ledger catalog : keeps ledger_step (install_signer_catalog catalog).
Proof. apply keeps_install_catalog; [apply _|..]; intros x s [Lc Lp]; by constructor. Qed.
Lemma transition_restore_ledger from to now : keeps ledger_step (transition_restore from to now).
Proof. unfold transition_restore. keeps_open. db_open. ledger_solve. Qed.
Lemma precheck_ledger now : keeps ledger_step (begin_restore_precheck now).
Proof. unfold begin_restore_precheck. keeps_open. db_open. ledger_solve. Qed.
Lemma cutover_ledger now : keeps ledger_step (cutover_restore now).
Proof. unfold cutover_restore, checked_add. keeps_open. case_bool_decide; db_open. ledger_solve. Qed.
Lemma record_recovery_ledger r : keeps ledger_step (record_cutover_recovery r).
Proof. unfold record_cutover_recovery. keeps_open. repeat case_match; db_open; try reflexivity; ledger_solve. Qed.
Lemma startup_ledger now : keeps ledger_step (invalidate_unfinished_ceremonies_on_startup now).
Proof. unfold invalidate_unfinished_ceremonies_on_startup. keeps_open. db_open. case_match; ledger_solve. Qed.
Lemma set_profile_ledger p : keeps ledger_step (set_webauthn_profile p).
Proof. unfold set_webauthn_profile. keeps_open. repeat case_match; db_open; ledger_solve. Qed.
Lemma end_job_ledger job_id binding live change status event now :
  keeps ledger_step (end_signing_job job_id binding live change status event now).
Proof. unfold end_signing_job. keeps_open. db_open. ledger_solve. Qed.
Lemma start_job_ledger aid j b now : keeps ledger_step (start_signing_job aid j b now).
Proof. unfold start_signing_job. keeps_open. db_open. ledger_solve. Qed.

#[local] Hint Resolve install_catalog_ledger store_policy_ledger propose_activation_ledger transition_restore_ledger
  precheck_ledger cutover_ledger record_recovery_ledger startup_ledger set_profile_ledger : keeps_inv.

Lemma exec_ledger op s : is_Some (db_metadata s) -> ledger_inv s -> ledger_inv (exec op s).
Proof.
  intros [m0 Hm0].
  enough (forall A (m : act WalletDb StorageError A), keeps ledger_step m -> ledger_step s (m s).1) as HK.
  { destruct op; cbn [exec]; [unfold initialize; by rewrite Hm0|..]; apply HK; try solve [eauto with keeps_inv];
      try apply transition_restore_ledger.
    - unfold create_transaction_intent_with_audit. keeps_open. db_open. ledger_solve.
    - unfold create_transaction_intent_v2. keeps_open. db_open. ledger_solve.
    - unfold transition_transaction_intent. keeps_open. db_open. ledger_solve.
    - unfold upsert_credential. keeps_open. db_open. ledger_solve.
    - unfold insert_passkey_record. keeps_open. db_open. ledger_solve.
    - unfold update_passkey_record_cas. keeps_open. db_open. ledger_solve.
    - unfold begin_approval_ceremony_atomic. keeps_open. db_open. ledger_solve.
    - unfold approve_and_issue_authorization. keeps_open. db_open. ledger_solve.
    - unfold begin_passkey_approval. keeps_open. db_open. ledger_solve.
    - unfold complete_passkey_approval_atomic. keeps_open. db_open. ledger_solve.
    - unfold consume_authorization. keeps_open. db_open. ledger_solve.
    - unfold claim_nonce. keeps_open. db_open. ledger_solve.
    - unfold consume_authorization_and_claim_frost_nonce. keeps_open. db_open. ledger_solve.
    - unfold put_secret_ref. keeps_open. db_open. ledger_solve.
    - unfold register_signer_profile. keeps_open. db_open. ledger_solve.
    - unfold bind_signer_address. keeps_open. db_open. ledger_solve.
    - unfold create_signing_job. repeat (keeps_step; try apply start_job_ledger).
    - unfold claim_chain_executor. keeps_open. db_open. ledger_solve.
    - unfold complete_signing_job. keeps_step; [keeps_step|apply end_job_ledger].
    - unfold terminate_signing_job. keeps_step; [keeps_step|apply end_job_ledger]. }
  intros A m Hm. apply Hm.
Qed.
End ledgers.

(** ** Steps of the storage *)

(** Every method of [WalletStorage] that writes: those of the shared tables, of
    the request nonces and device log, and of personal signing. *)
Inductive StorageOp :=
| OnTables (op : DbOp)
| ClaimRequestNonce (i : ProviderIdentity) (c : SignerRequestContext) (now : Z)
| PersistDevice (wallet signer_set : Uuid) (epoch expected_generation : Z) (record : SignerDeviceRecord) (now : Z)
| BeginPersonal (authorization_id : Uuid) (o : NewPersonalSigningOperation) (now : Z)
| RecordReceipt (r : PersonalSigningReceipt)
| FreezePersonal (operation_id binding package : bytes) (now : Z)
| CompletePersonal (operation_id binding signature : bytes) (now : Z)
| TerminatePersonal (operation_id binding : bytes) (status : PersonalSigningOperationStatus) (reason : string) (now : Z).

Section storage_steps.
Context `{UuidText} `{BuildInfo} `{BitcoinLib} `{JsonText} `{TextCodec} `{PolicyLib} `{PolicyJson} `{PolicyRowsJson} `{ActivationJson}.
Context `{IntentMaterialJson}.

Definition set_tables (t : SignerTables) (s : WalletStorage) : WalletStorage :=
  mkWalletStorage t (st_operations s) (st_receipts s).
Definition exec_storage (op : StorageOp) (s : WalletStorage) : WalletStorage :=
  match op with
  | OnTables op => set_db (exec op (st_db s)) s
  | ClaimRequestNonce i c now => set_tables (claim_signer_request_nonce i c now (st_tables s)).1 s
  | PersistDevice wallet signer_set epoch expected record now =>
      set_tables (persist_signer_device_transition wallet signer_set epoch expected record now (st_tables s)).1 s
  | BeginPersonal authorization_id o now =>
      (consume_authorization_and_create_personal_signing_operation authorization_id o now s).1
  | RecordReceipt r => (record_personal_signing_receipt r s).1
  | FreezePersonal id binding package now => (freeze_personal_signing_operation id binding package now s).1
  | CompletePersonal id binding signature now => (complete_personal_signing_operation id binding signature now s).1
  | TerminatePersonal id binding status reason now => (terminate_personal_signing_operation id binding status reason now s).1
  end.
Definition run_storage (ops : list StorageOp) (s : WalletStorage) : WalletStorage :=
  foldl (fun s op => exec_storage op s) s ops.

(** What a step does to the shared tables. *)
Inductive db_change (d : WalletDb) : WalletDb -> Prop :=
| change_method op : db_change d (exec op d)
| change_audit e : db_change d (put_audit (db_audit d ++ e) d)
| change_begin s s' aid o now row : d = st_db s ->
    consume_authorization_and_create_personal_signing_operation aid o now s = (s', Ok row) -> db_change d (st_db s').

Lemma change_none d : db_change d d.
Proof. pose proof (change_audit d []) as HC. rewrite app_nil_r in HC. by destruct d. Qed.
#[local] Hint Resolve change_none change_audit change_method : core.

Lemma transaction_change {A} (body : WalletMetadata -> WalletStorage -> result StorageError (WalletStorage * A)) s :
  (forall m s' a, body m s = Ok (s', a) -> db_change (st_db s) (st_db s')) -> db_change (st_db s) (st_db (transaction body s).1).
Proof.
  intros Hb. destruct (transaction body s) as [s' [a|e]] eqn:E; cbn.
  - apply transaction_Ok in E as (m & _ & E). by eapply Hb.
  - apply transaction_Err in E as ->. done.
Qed.
Lemma signer_change {A} (body : WalletMetadata -> SignerTables -> result StorageError (SignerTables * A)) s :
  (forall m s' a, body m s = Ok (s', a) -> db_change (sv_database s) (sv_database s')) ->
  db_change (sv_database s) (sv_database (signer_mutation body s).1).
Proof.
  intros Hb. destruct (signer_mutation body s) as [s' [a|e]] eqn:E; cbn.
  - apply signer_mutation_Ok in E as (m & _ & _ & E). by eapply Hb.
  - apply signer_mutation_Err in E as ->. done.
Qed.

(** Skip the checks before the transaction. *)
Lemma lift_skip {S E A B} (P : S -> Prop) (r : result E A) (k : A -> act S E B) s :
  P s -> (forall a, r = Ok a -> P (k a s).1) -> P ((x ← lift r; k x) s).1.
Proof. intros Hs Hk. unfold mbind, act_bind, lift. destruct r as [a|e]; cbn; [by apply Hk|done]. Qed.

Lemma claim_change i c now (t : SignerTables) :
  db_change (sv_database t) (sv_database (claim_signer_request_nonce i c now t).1).
Proof.
  unfold claim_signer_request_nonce. apply (lift_skip (fun t' => db_change (sv_database t) (sv_database t'))); [done|intros ? _].
  apply signer_change. intros m s' res HE. unfold insert_request_nonce in HE. res_open. cbn. apply change_audit.
Qed.
Lemma device_change w g e x r now (t : SignerTables) :
  db_change (sv_database t) (sv_database (persist_signer_device_transition w g e x r now t).1).
Proof.
  unfold persist_signer_device_transition.
  do 6 (apply (lift_skip (fun t' => db_change (sv_database t) (sv_database t'))); [done|intros ? _]).
  apply signer_change. intros m s' res HE. unfold insert_device_event in HE. res_open. cbn. apply change_audit.
Qed.
Lemma update_operation_db s m id b p change s' : update_operation s m id b p change = Ok s' -> st_db s' = st_db s.
Proof. intros (o & _ & _ & _ & ->)%update_Ok. done. Qed.

Lemma personal_change op s : db_change (st_db s) (st_db (exec_storage op s)).
Proof.
  destruct op as [op|i c now|w g e x r now|aid o now|r|id b p now|id b p now|id b st re now]; cbn [exec_storage].
  - apply change_method.
  - apply claim_change.
  - apply device_change.
  - destruct (consume_authorization_and_create_personal_signing_operation aid o now s) as [s' [row|e]] eqn:E; cbn.
    + by eapply change_begin.
    + by apply create_atomic in E as ->.
  - unfold record_personal_signing_receipt. apply (lift_skip (fun s' => db_change (st_db s) (st_db s'))); [done|intros ? _].
    unfold mbind, act_bind, gets. destruct (List.find _ _) as [item|]; [by destruct (same_receipt item r)|].
    apply transaction_change. intros m s' res HE. cbv zeta in HE. res_open. cbn. apply change_audit.
  - unfold freeze_personal_signing_operation. apply (lift_skip (fun s' => db_change (st_db s) (st_db s'))); [done|intros ? _].
    apply transaction_change. intros m s' res HE. res_open.
    match goal with E : update_operation _ _ _ _ _ _ = Ok _ |- _ => apply update_operation_db in E; cbn; rewrite E end.
    apply change_audit.
  - unfold complete_personal_signing_operation. apply transaction_change. intros m s' res HE. res_open.
    match goal with E : update_operation _ _ _ _ _ _ = Ok _ |- _ => apply update_operation_db in E; cbn; rewrite E end.
    apply change_audit.
  - unfold terminate_personal_signing_operation. apply (lift_skip (fun s' => db_change (st_db s) (st_db s'))); [done|intros ? _].
    apply transaction_change. intros m s' res HE. res_open.
    match goal with E : update_operation _ _ _ _ _ _ = Ok _ |- _ => apply update_operation_db in E; cbn; rewrite E end.
    apply change_audit.
Qed.
End storage_steps.

(** ** A restore in progress *)

Definition blocked (d : WalletDb) : Prop :=
  exists m, db_metadata d = Some m /\ wm_restore_state m <> RestoreNormal /\ wm_restore_state m <> RestoreSnapshotting.
Definition blocked_step (d d' : WalletDb) : Prop := blocked d -> d' = d.
#[export] Instance blocked_step_preorder : PreOrder blocked_step.
Proof. unfold blocked_step. split; [done|]. intros s1 s2 s3 H1 H2 Hb. rewrite H2, H1; [done|done|]. by rewrite H1. Qed.

Lemma blocked_refused d m : blocked d -> db_metadata d = Some m -> exists e, ensure_mutations_allowed m = Err e.
Proof.
  intros (m' & Hm' & Hn & Hs) Hm. assert (m' = m) as -> by congruence. unfold ensure_mutations_allowed.
  destruct (wm_restore_state m); try done; by eexists.
Qed.
Lemma mutation_blocked {A} (body : WalletMetadata -> WalletDb -> result StorageError (WalletDb * A)) :
  keeps blocked_step (mutation body).
Proof.
  intros d Hb. pose proof Hb as (m & Hm & _). destruct (blocked_refused d m Hb Hm) as [e He].
  unfold mutation, immediate. rewrite Hm. cbn. by rewrite He.
Qed.
Lemma signer_mutation_blocked {A} (body : WalletMetadata -> SignerTables -> result StorageError (SignerTables * A)) t :
  blocked (sv_database t) -> (signer_mutation body t).1 = t.
Proof.
  intros Hb. pose proof Hb as (m & Hm & _). destruct (blocked_refused _ m Hb Hm) as [e He].
  unfold signer_mutation. rewrite Hm. cbn. by rewrite He.
Qed.
Lemma transaction_blocked {A} (body : WalletMetadata -> WalletStorage -> result StorageError (WalletStorage * A)) s :
  blocked (st_db s) -> (transaction body s).1 = s.
Proof.
  intros Hb. pose proof Hb as (m & Hm & _). destruct (blocked_refused _ m Hb Hm) as [e He].
  unfold transaction. rewrite Hm. cbn. by rewrite He.
Qed.
(** A transition of the restore that starts elsewhere. *)
Lemma transition_blocked `{UuidText} `{BuildInfo} from to now : from = RestoreNormal \/ from = RestoreSnapshotting ->
  keeps blocked_step (transition_restore from to now).
Proof.
  intros Hf d (m & Hm & Hn & Hs). unfold transition_restore, immediate, require_restore_state. rewrite Hm. cbn.
  by rewrite bool_decide_false by (destruct Hf; congruence).
Qed.

(** The methods that carry a restore on. *)
Definition continues_restore (op : StorageOp) : bool :=
  match op with
  | OnTables (DbCutover _ | DbBeginRecovering _ | DbFinishRecovery _ | DbRecordRecovery _) => true
  | _ => false
  end.
Definition is_startup (op : DbOp) : bool := match op with DbStartup _ => true | _ => false end.

Section restore.
Context `{UuidText} `{BuildInfo} `{BitcoinLib} `{JsonText} `{TextCodec} `{PolicyLib} `{PolicyJson} `{PolicyRowsJson} `{ActivationJson}.
Context `{IntentMaterialJson}.

Lemma initialize_blocked wallet now : keeps blocked_step (initialize wallet now).
Proof. intros d (m & Hm & _). unfold initialize. by rewrite Hm. Qed.
Lemma precheck_blocked now : keeps blocked_step (begin_restore_precheck now).
Proof.
  intros d (m & Hm & Hn & _). unfold begin_restore_precheck, immediate, require_restore_state. rewrite Hm. cbn.
  by rewrite bool_decide_false.
Qed.

Lemma exec_blocked op d : continues_restore (OnTables op) = false -> is_startup op = false -> blocked_step d (exec op d).
Proof.
  enough (forall A (m : act WalletDb StorageError A), keeps blocked_step m -> blocked_step d (m d).1) as HK.
  { intros Hop Hst. destruct op; try discriminate Hop; try discriminate Hst; cbn [exec]; apply HK; try apply mutation_blocked;
      try apply initialize_blocked; try apply precheck_blocked;
      [unfold create_transaction_intent_v2|unfold transition_transaction_intent|unfold insert_passkey_record
      |unfold update_passkey_record_cas|unfold complete_passkey_approval_atomic|unfold put_secret_ref
      |unfold register_signer_profile|unfold bind_signer_address
      |unfold install_signer_catalog, install_catalog|unfold create_signing_job, start_signing_job
      |unfold claim_chain_executor|unfold complete_signing_job, end_signing_job
      |unfold terminate_signing_job, end_signing_job|unfold store_policy_bundle_bytes|unfold propose_policy_activation
      |apply transition_blocked; by left|apply transition_blocked; by right];
      repeat first [apply mutation_blocked|keeps_step]. }
  intros A m Hm. apply Hm.
Qed.

(** Only ceremonies that are still open, and the audit log, change at startup. *)
Lemma startup_writes now d :
  exists ceremonies audit, exec (DbStartup now) d = put_audit audit (put_ceremonies ceremonies d) /\
    db_audit d `prefix_of` audit /\
    forall cid c', ceremonies !! cid = Some c' -> exists c, db_ceremonies d !! cid = Some c /\
      (c' = c \/ ceremony_open c = true /\ c' = ceremony_invalidated now c).
Proof.
  cbn. unfold invalidate_unfinished_ceremonies_on_startup, immediate. destruct (db_metadata d) as [m|] eqn:Hm; cbn.
  2: { exists (db_ceremonies d), (db_audit d). split_and!; [by destruct d|done|eauto]. }
  set (t := update_all _ _ _). exists t.
  assert (forall cid c', t !! cid = Some c' -> exists c, db_ceremonies d !! cid = Some c /\
      (c' = c \/ ceremony_open c = true /\ c' = ceremony_invalidated now c)) as Ht.
  { intros cid c'. unfold t. rewrite lookup_update_all. intros (c & Hc & ->)%fmap_Some. exists c. split; [done|].
    destruct (_ && _) eqn:Hg; [right|by left]. autorewrite with guards in Hg. by destruct_ex. }
  case_match; cbn; eexists; (split_and!; [reflexivity| |done]); [by apply prefix_app_r|done].
Qed.

Lemma storage_blocked op s : blocked (st_db s) -> continues_restore op = false ->
  (forall now, op <> OnTables (DbStartup now)) -> exec_storage op s = s.
Proof.
  intros Hb Hop Hst. destruct op as [op|i c now|w g e x r now|aid o now|r|id b p now|id b p now|id b st re now]; cbn [exec_storage].
  - rewrite (exec_blocked op (st_db s) Hop); [by destruct s as [[]]| |done]. destruct op; try done. by destruct (Hst now).
  - unfold claim_signer_request_nonce. unfold mbind, act_bind, lift. destruct (reject_if _ _); [|by destruct s].
    rewrite signer_mutation_blocked by done. by destruct s.
  - unfold persist_signer_device_transition.
    enough ((persist_signer_device_transition w g e x r now (st_tables s)).1 = st_tables s) as E
      by (unfold persist_signer_device_transition in E; rewrite E; by destruct s).
    unfold persist_signer_device_transition.
    do 6 (apply (lift_skip (fun t => t = st_tables s)); [done|intros ? _]). by apply signer_mutation_blocked.
  - apply (lift_skip (fun t => t = s)); [done|intros ? _]. by apply transaction_blocked.
  - apply (lift_skip (fun t => t = s)); [done|intros ? _]. unfold mbind, act_bind, gets.
    destruct (List.find _ _) as [item|]; [by destruct (same_receipt item r)|by apply transaction_blocked].
  - apply (lift_skip (fun t => t = s)); [done|intros ? _]. by apply transaction_blocked.
  - by apply transaction_blocked.
  - apply (lift_skip (fun t => t = s)); [done|intros ? _]. by apply transaction_blocked.
Qed.
End restore.

(** ** Runs *)

Section runs.
Context `{UuidText} `{BuildInfo} `{BitcoinLib} `{JsonText} `{TextCodec} `{PolicyLib} `{PolicyJson} `{PolicyRowsJson} `{ActivationJson}.
Context `{IntentMaterialJson}.

Definition created (wallet_id : Uuid) (now : Z) : WalletDb := (initialize wallet_id now WalletDb_empty).1.
(** A new database: one wallet row and its audit event. *)
Definition created_storage (wallet_id : Uuid) (now : Z) : WalletStorage :=
  mkWalletStorage (mkSignerTables (created wallet_id now) ∅ []) ∅ ∅.

Lemma created_inv wallet now : db_inv (created wallet now).
Proof. constructor; try done; [by eexists|]. by intros ? ? ? ? ? [? _]. Qed.
Lemma created_ledger wallet now : ledger_inv (created wallet now).
Proof. constructor; [done|]. by intros m _. Qed.

(** A personal operation starts signing the way a chain job does. *)
Lemma begin_personal_inv aid o now s s' row :
  consume_authorization_and_create_personal_signing_operation aid o now s = (s', Ok row) -> db_inv (st_db s) -> db_inv (st_db s').
Proof.
  intros Hcr HI. pose proof (create_le _ _ _ _ _ _ Hcr) as Hle.
  apply create_Ok in Hcr as (_ & _ & _ & _ & _ & _ & m & auth & intent & v2 & Hm & Ha & Hi & Hv & _ & Hai & _ & _ & Hst &
    (_ & Hsid & _) & _ & _ & Hd).
  rewrite Hd in *. destruct (jobs_stay _ _ Hle HI eq_refl) as [J1 J2].
  eapply (inv_start (st_db s) _ m (no_intent_id o) intent now aid auth (no_operation_binding_digest o) Hle HI Hm Hm Hi Hst); try done.
  intros v2' Hv'. eexists. cbn. rewrite lookup_insert_eq. split; [done|]. cbn. split; congruence.
Qed.

Lemma change_le d d' : db_change d d' -> db_le d d'.
Proof. intros [op|e|s s' aid o now row -> Hcr]; [apply exec_le|le_solve|by eapply create_le]. Qed.
Lemma change_inv d d' : db_change d d' -> db_inv d -> db_inv d'.
Proof.
  intros Hch HI. pose proof (change_le _ _ Hch) as Hle. destruct Hch as [op|e|s s' aid o now row -> Hcr].
  - by apply exec_inv.
  - by apply (inv_same d).
  - by eapply begin_personal_inv.
Qed.
Lemma change_ledger d d' : db_change d d' -> db_inv d -> ledger_inv d -> ledger_inv d'.
Proof.
  intros Hch HI. destruct (inv_metadata _ HI) as [m Hm]. destruct Hch as [op|e|s s' aid o now row -> Hcr].
  - apply exec_ledger. by exists m.
  - by apply (ledger_policy d _ m).
  - apply create_Ok in Hcr as (_ & _ & _ & _ & _ & _ & m' & auth & intent & v2 & Hm' & _ & _ & _ & _ & _ & _ & _ & _ & _ & _ & _ & ->).
    by apply (ledger_policy (st_db s) _ m).
Qed.

Lemma run_storage_le ops s : db_le (st_db s) (st_db (run_storage ops s)).
Proof.
  revert s. induction ops as [|op ops IH]; intros s; cbn; [reflexivity|].
  trans (st_db (exec_storage op s)); [apply change_le, personal_change|apply IH].
Qed.
Lemma run_storage_inv ops s : db_inv (st_db s) -> db_inv (st_db (run_storage ops s)).
Proof.
  revert s. induction ops as [|op ops IH]; intros s HI; [done|]. apply IH. eapply change_inv; [apply personal_change|done].
Qed.
Lemma run_storage_ledger ops s : db_inv (st_db s) -> ledger_inv (st_db s) -> ledger_inv (st_db (run_storage ops s)).
Proof.
  revert s. induction ops as [|op ops IH]; intros s HI HL; [done|].
  apply IH; [eapply change_inv|eapply change_ledger]; try done; apply personal_change.
Qed.

(** Every method outside personal signing is one of the other writers between
    the calls of a personal signing coordinator. *)
Definition is_personal (op : StorageOp) : bool :=
  match op with OnTables _ | ClaimRequestNonce _ _ _ | PersistDevice _ _ _ _ _ _ => false | _ => true end.
Lemma method_is_other_writer op s : is_personal op = false -> other_writer s (exec_storage op s).
Proof. intros Hop. constructor; [by destruct op|by destruct op|apply change_le, personal_change]. Qed.

(** The tables of personal signing and of the signer devices only grow, or move
    an open operation on. *)
Record own_le (s s' : WalletStorage) : Prop := mkOwnLe {
  own_operations : table_le (fun o o' => op_bound o' = op_bound o /\ (is_open o = false -> o' = o)) (st_operations s) (st_operations s');
  own_nonces : sv_request_nonces (st_tables s) ⊆ sv_request_nonces (st_tables s');
  own_events : sv_device_events (st_tables s) `prefix_of` sv_device_events (st_tables s');
}.
#[local] Instance operation_preorder :
  PreOrder (fun o o' : PersonalSigningOperation => op_bound o' = op_bound o /\ (is_open o = false -> o' = o)).
Proof. split; [by split|]. intros ? ? ? [] []. split; [congruence|]. naive_solver congruence. Qed.
#[local] Instance own_le_preorder : PreOrder own_le.
Proof. split; [by constructor|]. intros ? ? ? [] []. constructor; by etrans. Qed.



(** ** Properties *)

(** C10: Whatever methods run on a wallet database, personal signing and the
    device tables included, a version 2 intent that is signing or signed has
    exactly one authorization.  It is consumed, it was issued by a Passkey
    ceremony completed for this intent with the same binding digest, and a
    claimed nonce names the authorization, the intent, its signer and its
    session. *)
Theorem durable_signing_authorized wallet t0 ops id r v2 :
  let s := st_db (run_storage ops (created_storage wallet t0)) in
  db_intents s !! id = Some r -> ir_v2 r = Some v2 -> ir_status r = TxSigning \/ ir_status r = TxSigned ->
  exists aid a t fp, authorizes s id aid a /\ ac_consumed_at (az_record a) = Some t /\ approved_by_passkey s a /\
    claimed s id aid (v2_signer_id v2) (ir_session_id r) fp /\
    (forall aid' a', authorizes s id aid' a' -> aid' = aid).
Proof.
  intros s Hr Hv Hs. pose proof (run_storage_inv ops (created_storage wallet t0) (created_inv wallet t0)) as HI. fold s in HI.
  destruct (inv_signing _ HI id r v2 Hr Hv Hs) as (aid & a & t & fp & Ha & Ht & Hc).
  exists aid, a, t, fp. split_and!; [done|done| |done|].
  - destruct Ha as [Ha Hin]. destruct (inv_auth _ HI aid a Ha) as (_ & r' & Hr' & _ & _ & Hp). apply Hp.
    rewrite Hin, Hr in Hr'. injection Hr' as <-. unfold is_v2. by rewrite Hv, bool_decide_true by done.
  - intros aid' a' Ha'. by apply (inv_unique _ HI id aid' a' aid a).
Qed.

(** C19: Every stored signing job is bound to a version 2 intent of the same
    digest, session and policy, to the consumed authorization whose binding is
    the job's operation digest, and to the nonce claimed under that digest.  An
    intent has at most one job, the intent of a finalized job is signed, and
    an executor claim repeats the session, message and binding of its job. *)
Theorem durable_jobs_authorized wallet t0 ops jid j :
  let s := st_db (run_storage ops (created_storage wallet t0)) in
  db_jobs s !! jid = Some j ->
  job_authorized s jid j /\
  (forall jid' j', db_jobs s !! jid' = Some j' -> jn_intent_id (jb_bound j') = jn_intent_id (jb_bound j) -> jid' = jid) /\
  (forall c, db_claims s !! jid = Some c -> claim_of_job s jid c).
Proof.
  intros s Hj. pose proof (run_storage_inv ops (created_storage wallet t0) (created_inv wallet t0)) as HI. fold s in HI. split_and!.
  - by apply inv_job.
  - intros jid' j' Hj' He. by apply (inv_job_unique _ HI jid' j' jid j).
  - by apply inv_claim.
Qed.

(** What a cutover writes. *)
Lemma cutover_writes now s s' epoch : cutover_restore now s = (s', Ok epoch) ->
  exists m m', db_metadata s = Some m /\ db_metadata s' = Some m' /\ wm_wallet_id m' = wm_wallet_id m /\
    wm_epoch m' = wm_epoch m + 1 /\ epoch = wm_epoch m + 1 /\
    db_authorizations s' = update_all (fun a => (ac_epoch (az_record a) <? epoch) && authorization_open a)
      (authorization_invalidated now) (db_authorizations s) /\
    db_ceremonies s' = update_all (fun c => (cy_epoch c <? epoch) && ceremony_open c)
      (ceremony_invalidated now) (db_ceremonies s) /\
    db_intents s' = update_all (fun r => (ir_epoch r <? epoch) && is_unfinished (ir_status r))
      (with_intent_status TxInvalidated now) (db_intents s) /\
    db_policy s' = db_policy s.
Proof.
  unfold cutover_restore, checked_add. rewrite immediate_Ok. intros (m & Hm & HE). res_open.
  case_bool_decide; [|done]. res_open. by eexists m, _.
Qed.
Lemma update_all_hit {K V} `{Countable K} (older is_open : V -> bool) (f : V -> V) (t : gmap K V) k v :
  t !! k = Some v -> older v = true -> is_open v = true -> update_all (fun v => older v && is_open v) f t !! k = Some (f v).
Proof. intros Hk Hb Ho. rewrite lookup_update_all, Hk. cbn. by rewrite Hb, Ho. Qed.
(** Closed rows stay as they are. *)
Lemma closed_row_stays {K V} `{Countable K} (is_open : V -> bool) (R : V -> V -> Prop) (t t' : gmap K V) k v :
  (forall v v', R v v' -> is_open v = false -> v' = v) -> table_le R t t' -> t !! k = Some v -> is_open v = false ->
  t' !! k = Some v.
Proof. intros Hr Ht Hk Ho. apply Ht in Hk as (v' & Hv' & HR). by rewrite (Hr v v' HR Ho) in Hv'. Qed.

(** C11: A cutover revokes the open approvals for good.  Whatever runs after
    it, an authorization that was open stays invalidated and unconsumed, an
    open ceremony stays invalidated, an unfinished intent stays invalidated
    and its job is never finalized, and a policy activation proposed before is
    invalidated by recovery.  (A personal operation that had consumed its
    authorization before is not among them: its row carries no epoch.) *)
Theorem cutover_revokes_authority wallet t0 ops now s' epoch later :
  let storage := run_storage ops (created_storage wallet t0) in
  let s := st_db storage in
  cutover_restore now s = (s', Ok epoch) ->
  let s2 := st_db (run_storage later (set_db s' storage)) in
  (forall aid a, db_authorizations s !! aid = Some a -> authorization_open a = true ->
     db_authorizations s2 !! aid = Some (authorization_invalidated now a)) /\
  (forall cid c, db_ceremonies s !! cid = Some c -> ceremony_open c = true ->
     db_ceremonies s2 !! cid = Some (ceremony_invalidated now c)) /\
  (forall id r, db_intents s !! id = Some r -> is_unfinished (ir_status r) = true ->
     (exists r2, db_intents s2 !! id = Some r2 /\ ir_status r2 = TxInvalidated) /\
     (forall jid j, db_jobs s2 !! jid = Some j -> jn_intent_id (jb_bound j) = id -> jb_status j <> SjFinalized)) /\
  (forall aid at_time st, policy_activation_status_at s aid at_time = Some st ->
     policy_activation_status_at s2 aid at_time = Some ActivationInvalidatedByRecovery).
Proof.
  intros storage s HC s2. pose proof (run_storage_inv ops (created_storage wallet t0) (created_inv wallet t0)) as HI.
  pose proof (run_storage_ledger ops (created_storage wallet t0) (created_inv wallet t0) (created_ledger wallet t0)) as [Lc Lp].
  fold storage in HI, Lc, Lp. fold s in HI, Lc, Lp.
  assert (db_inv s2) as HI2.
  { apply run_storage_inv. pose proof (exec_inv (DbCutover now) s HI) as Hx. cbn in Hx. by rewrite HC in Hx. }
  pose proof (run_storage_le later (set_db s' storage)) as Hle. fold s2 in Hle. cbn [st_db set_db sv_database st_tables put_database] in Hle.
  apply cutover_writes in HC as (m & m' & Hm & Hm' & Hw & He & -> & Wa & Wc & Wi & Wp).
  assert (forall id r, db_intents s !! id = Some r -> is_unfinished (ir_status r) = true ->
    exists r2, db_intents s2 !! id = Some r2 /\ ir_status r2 = TxInvalidated) as Hint.
  { intros id r Hr Hu. destruct (inv_epoch _ HI m id r Hm Hr) as [Hep _].
    assert (db_intents s' !! id = Some (with_intent_status TxInvalidated now r)) as Hr'.
    { rewrite Wi. apply update_all_hit; [done|apply Z.ltb_lt; lia|done]. }
    apply (le_intents _ _ Hle) in Hr' as (r2 & Hr2 & _ & _ & Hfin). exists r2. split; [done|]. by apply Hfin. }
  split_and!.
  - intros aid a Ha Ho. destruct (inv_auth _ HI aid a Ha) as (_ & r & Hr & _ & Hre & _).
    destruct (inv_epoch _ HI m _ r Hm Hr) as [Hep _].
    eapply (closed_row_stays authorization_open authorization_le (db_authorizations s')); [by intros v v' []|apply Hle| |].
    + rewrite Wa. apply update_all_hit; [done|apply Z.ltb_lt; lia|done].
    + unfold authorization_open. cbn. apply andb_false_r.
  - intros cid c Hc Ho. specialize (Lc m cid c Hm Hc).
    eapply (closed_row_stays ceremony_open ceremony_le (db_ceremonies s')); [by intros v v' []|apply Hle| |].
    + rewrite Wc. apply update_all_hit; [done|apply Z.ltb_lt; lia|done].
    + unfold ceremony_open. cbn. apply andb_false_r.
  - intros id r Hr Hu. split; [by eapply Hint|]. intros jid j Hj Hin HF.
    destruct (Hint id r Hr Hu) as (r2 & Hr2 & Hst).
    apply (inv_job _ HI2) in Hj as (_ & r3 & ? & ? & ? & ? & Hr3 & _ & _ & _ & _ & Hf & _).
    rewrite Hin, Hr2 in Hr3. injection Hr3 as <-. specialize (Hf HF). congruence.
  - intros aid at_time st. unfold policy_activation_status_at. rewrite Hm. intros Hst.
    destruct (pt_activations (db_policy s) !! aid) as [a|] eqn:Ha; [|done]. cbn in Hst.
    pose proof (pol_epoch _ _ (Lp m Hm) aid a Ha) as Hep. rewrite <- Wp in Ha.
    apply (le_activations _ _ Hle) in Ha as (a' & Ha' & <-). rewrite Ha'. cbn.
    destruct (le_metadata _ _ Hle m' Hm') as (m2 & Hm2 & [Hw2 He2]). rewrite Hm2. cbn. rewrite Hw2, Hw.
    case_bool_decide; [|done]. by rewrite (proj2 (Z.eqb_neq _ _)) by lia.
Qed.

(** C32: During a restore (precheck, cutover or recovery) every method of the
    database, personal signing and the device tables included, leaves every row
    and the audit log as they are, apart from the four that carry the restore
    on and the invalidation at startup, which has no such guard; that one only
    invalidates ceremonies that are open and adds to the audit log. *)
Theorem restore_blocks_mutations s m op :
  db_metadata (st_db s) = Some m -> wm_restore_state m <> RestoreNormal -> wm_restore_state m <> RestoreSnapshotting ->
  continues_restore op = false ->
  exec_storage op s = s \/
  exists now ceremonies audit, op = OnTables (DbStartup now) /\
    exec_storage op s = set_db (put_audit audit (put_ceremonies ceremonies (st_db s))) s /\
    db_audit (st_db s) `prefix_of` audit /\
    forall cid c', ceremonies !! cid = Some c' -> exists c, db_ceremonies (st_db s) !! cid = Some c /\
      (c' = c \/ ceremony_open c = true /\ c' = ceremony_invalidated now c).
Proof.
  intros Hm H1' H2' Hop. destruct op as [[]| | | | | | |]; try (left; apply storage_blocked; [by exists m|done|done]).
  right. destruct (startup_writes now (st_db s)) as (ceremonies & audit & HE & Ha & Hc). exists now, ceremonies, audit.
  cbn [exec_storage]. by rewrite HE.
Qed.


(** C30: Every stored policy bundle passes inspection under its own hash with
    all its vectors accepted, is served unchanged after any further run, and
    no stored binding is usable for signing. *)
Theorem stored_policies_inspected wallet t0 ops hash bundle :
  let storage := run_storage ops (created_storage wallet t0) in
  let s := st_db storage in
  policy_bundle_bytes s hash = Some bundle ->
  (exists b, inspect_bundle bundle = Ok b /\ pb_policy_hash b = hash /\ run_all_passed (pb_validation_run b) = true) /\
  (forall later, policy_bundle_bytes (st_db (run_storage later storage)) hash = Some bundle) /\
  (forall binding_id, policy_binding_usable_for_signing s binding_id = false).
Proof.
  intros storage s Hb. pose proof (run_storage_inv ops (created_storage wallet t0) (created_inv wallet t0)) as HI.
  pose proof (run_storage_ledger ops (created_storage wallet t0) (created_inv wallet t0) (created_ledger wallet t0)) as [Lc Lp].
  fold storage s in HI, Lc, Lp.
  destruct (inv_metadata _ HI) as [m Hm]. destruct (Lp m Hm) as [P1 P2 _].
  unfold policy_bundle_bytes in Hb. apply fmap_Some in Hb as (d & Hd & ->). split_and!.
  - by apply P1.
  - intros later. apply (le_documents _ _ (run_storage_le later storage)) in Hd as (d' & Hd' & <-). unfold policy_bundle_bytes.
    by rewrite Hd'.
  - intros bid. unfold policy_binding_usable_for_signing. rewrite Hm.
    destruct (pt_bindings (db_policy s) !! bid) as [b|] eqn:Hbi; [|done]. cbn. case_bool_decide; [|done]. by rewrite (P2 bid b Hbi).
Qed.
End runs.

(** C24: The log of device events restores the registry.  Whatever transitions
    were accepted, in between any other change of the database: the inventory of
    a signer set and epoch is readable and a fresh registry with enough slots
    takes it.  A slot without events is unconfigured; any other slot holds the
    device, generation, provider, key and status of its last accepted
    transition, offline, with its first and its revocation time.  The
    generation counts the activations of the slot, and a revocation is the
    last thing that happens to it. *)
Theorem persisted_devices_restore `{UuidText} `{BuildInfo} `{BitcoinLib} `{TextCodec} `{!HexLaws}
    db ops s trace m signer_set epoch max_signers :
  let transitions k := List.filter (persisted_in (wm_wallet_id m) signer_set epoch k) trace in
  signer_run (mkSignerTables db ∅ []) ops = (s, trace) -> db_metadata (sv_database s) = Some m -> epoch < 2 ^ 63 ->
  (forall k, max_signers < k -> transitions k = []) ->
  exists records registry,
    signer_device_records s (wm_wallet_id m) signer_set epoch = Ok records /\
    restore_device_records records (SignerDeviceRegistry_new signer_set epoch max_signers) = (registry, Ok tt) /\
    forall k, 1 <= k <= max_signers -> orderly (transitions k) /\
      match last (transitions k) with
      | None => sr_devices registry !! k = Some (unconfigured k)
      | Some t => exists r, sr_devices registry !! k = Some r /\ restored_as (transitions k) t r
      end.
Proof.
  intros transitions Hrun Hm Hep Hmax.
  pose proof (signer_run_inv ops (mkSignerTables db ∅ []) s trace [] Hrun (log_inv_empty (mkSignerTables db ∅ []) eq_refl)) as HI.
  destruct (device_records_restore s trace (wm_wallet_id m) signer_set epoch m HI Hm eq_refl Hep)
    as (records & Hrec & Hall & Hnd & Hof & Hin).
  destruct (restore_fresh records signer_set epoch max_signers Hall Hnd) as (registry & Hreg & Hheld & Hfree).
  { intros r Hr. destruct (Hof r Hr) as [Hp (t & Ht & _)]. split; [lia|].
    destruct (decide (max_signers < dr_signer_id r)) as [Hlt|]; [|lia].
    specialize (Hmax _ Hlt). unfold transitions in Hmax. by rewrite Hmax in Ht. }
  exists records, registry. split_and!; [done|done|]. intros k Hk. split; [apply (lg_orderly _ _ HI)|].
  destruct (last (transitions k)) as [t|] eqn:Ht.
  - destruct (proj1 (list_elem_of_fmap _ _ _) (Hin k (mk_is_Some _ _ Ht))) as (r & -> & Hr). exists r.
    destruct (Hof r Hr) as [_ (t' & Ht' & Has)]. unfold transitions in Ht. rewrite Ht in Ht'. injection Ht' as <-.
    split; [|done]. rewrite (Hheld r Hr). by rewrite (set_health_restored _ _ _ Has).
  - apply Hfree; [done|]. intros (r & -> & Hr)%list_elem_of_fmap. destruct (Hof r Hr) as [_ (t & Ht' & _)].
    unfold transitions in Ht. congruence.
Qed.

(** ** Concrete runs *)

#[local] Existing Instance hex_lib.
#[local] Existing Instance real_hex.
#[local] Existing Instance hex_lib_hex.
#[local] Existing Instance sample_policy_lib.
#[local] Existing Instance sample_json.
#[local] Existing Instance sample_approval_json.
#[local] Instance sample_uuid : UuidText := {| uuid_to_string := encode_hex; uuid_parse_str s := decode_pairs (ascii_bytes s) |}.
#[local] Instance sample_build : BuildInfo := "0.1.0".
#[local] Instance sample_json_text : JsonText := {| serde_json_valid _ := true; sqlite_json_valid _ := true |}.
#[local] Instance sample_rows_json : PolicyRowsJson := {| input_to_vec _ := Ok [x7b]; results_to_vec _ := Ok [x5b] |}.

Definition u (b : byte) : Uuid := replicate 16 b.
Definition d (b : byte) : bytes := replicate 32 b.
Definition sample_scope : ChainScope := mkChainScope 1 Bitcoin (NetBitcoin BtcSignet).

(** The policy material of an intent: a 2-of-3 personal profile. *)
#[local] Instance sample_material : IntentMaterialJson := fun _ =>
  Some (mkPersistedPersonalSigningPolicy (u x0b) (u x0c) 1 (encode_hex (d x41)) (1, 2, 3) 2 (encode_hex (d x03)) (encode_hex (d x43))).

(** A Passkey, an intent and its approval. *)
Definition approval_of (signer : string) : list StorageOp := OnTables <$>
  [ DbSetProfile (mkWebauthnProfile (u x01) "user" "wallet.test" "https://wallet.test" 1 1);
    DbInsertPasskey (mkNewPasskeyRecord "credential" "label" "{}" "v1" CredActive 1);
    DbCreateIntent (mkNewTransactionIntentV2 (u x02) (d x02) (d x03) (d x04) StoredSignet 1 ActionTransfer signer (d x05) 2 100 2)
      (mkIntentMaterial (u x02) KindPolicyInput "{}" (sha256 (ascii_bytes "{}")) "snapshot");
    DbBeginApproval (mkNewPasskeyApprovalCeremony (u x07) (u x02) "credential" (d x08) 3 50);
    DbCompleteApproval (mkPasskeyApprovalCompletion (u x07) (u x02) "credential" 1 "{}" (d x08) (u x09) 60
      "wallet.test" "https://wallet.test" 4) ].
Definition approval_run : list StorageOp := approval_of "frost:1".
Definition signing_run : list StorageOp :=
  approval_run ++ [OnTables (DbClaimFrostNonce (mkFrostNonceAuthorizationClaim (u x09) (u x02) "frost:1" (d x04) (d x0a) 5))].

(** The same approval, spent on a personal operation. *)
Definition sample_operation : NewPersonalSigningOperation :=
  mkNewPersonalSigningOperation (u x30) (u x01) (u x0b) (u x0c) 1 (u x02) (d x04) (d x02) (d x03) (d x43) (d x41) (d x31) (d x32)
    (1, 2, 3) (1, 2) 2 3 100 5.
Definition personal_run : list StorageOp := approval_of "frost:participant-0" ++ [BeginPersonal (u x09) sample_operation 5].

Definition sample_profile : NewSignerProfile :=
  mkSignerProfileRecord (u x0b) (u x01) sample_scope BitcoinBip340FrostV1 FrostSecp256k1Tr "set" "frost:1" 1 2 3 (d x0c) (u x0d) 2.
Definition sample_job : NewSigningJob :=
  mkNewSigningJob (u x0e) (u x01) (u x0b) (u x02) sample_scope BitcoinBip340FrostV1 FrostSecp256k1Tr 2
    (mkReviewArtifact 2 sample_scope (d x0f) (d x02) "review" [x01]) (d x0f) (d x02) (d x03) (d x10) (d x04) ("a", "b") "a" 100 5.
Definition job_run : list StorageOp :=
  approval_run ++ (OnTables <$>
  [ DbPutSecret (mkSecretRef (u x0d) OsKeychain "keychain://share" 2 2);
    DbRegisterSigner sample_profile;
    DbCreateJob (u x09) sample_job (d x08) 5;
    DbClaimExecutor (mkChainExecutorClaim (u x01) (u x0b) BitcoinBip340FrostV1 FrostSecp256k1Tr (d x04) (d x11) (d x02) (d x08) 6);
    DbCompleteJob (u x0e) (d x08) [x01] 7 ]).

Definition after (ops : list StorageOp) : WalletDb := st_db (run_storage ops (created_storage (u x01) 1)).
Example runs_reach_their_end :
  (ir_status <$> db_intents (after signing_run) !! u x02) = Some TxSigning /\
  (ir_status <$> db_intents (after personal_run) !! u x02) = Some TxSigning /\
  (ir_status <$> db_intents (after job_run) !! u x02) = Some TxSigned /\
  length (db_audit (after job_run)) = 11%nat.
Proof. by vm_compute. Qed.

(** A personal operation that began before a cutover goes on after it: its intent
    is invalidated, and it is finalized all the same. *)
Definition receipt (k : Z) (r : PersonalSigningRound) (now : Z) : StorageOp :=
  RecordReceipt (mkPersonalSigningReceipt (u x30) k r (u x21) 1 (d x33) [x01] now).
Definition across_cutover : WalletStorage := run_storage
  (personal_run ++ [receipt 1 RoundCommitment 6; receipt 2 RoundCommitment 6; FreezePersonal (u x30) (d x32) [x01] 7;
     OnTables (DbBeginPrecheck 8); OnTables (DbCutover 9); OnTables (DbBeginRecovering 10); OnTables (DbFinishRecovery 11);
     receipt 1 RoundSignatureShare 12; receipt 2 RoundSignatureShare 12; CompletePersonal (u x30) (d x32) (d x34 ++ d x35) 13])
  (created_storage (u x01) 1).
Example personal_operation_crosses_cutover :
  (ir_status <$> db_intents (st_db across_cutover) !! u x02) = Some TxInvalidated /\
  (op_status <$> st_operations across_cutover !! u x30) = Some OpFinalized /\
  (wm_epoch <$> db_metadata (st_db across_cutover)) = Some 2.
Proof. by vm_compute. Qed.

Definition sample_columns : IntentV2Columns := mkIntentV2Columns StoredSignet 1 ActionTransfer "frost:participant-0" (d x05).
Definition signing_row : TransactionIntentRow :=
  mkTransactionIntentRow (u x01) 1 (d x02) (d x03) (d x04) TxSigning 100 2 5 (Some sample_columns).
Definition finalized_sample : StoredSigningJob := mkStoredSigningJob sample_job (Some (d x08)) SjFinalized (Some [x01]) None 7.

Lemma durable_signing_authorized_witness :
  exists aid a fp, authorizes (after personal_run) (u x02) aid a /\
    claimed (after personal_run) (u x02) aid "frost:participant-0" (d x04) fp.
Proof.
  destruct (durable_signing_authorized (u x01) 1 personal_run (u x02) signing_row sample_columns)
    as (aid & a & t & fp & Ha & _ & _ & Hc & _); [by vm_compute|done|by left|]. by exists aid, a, fp.
Defined.

Lemma durable_jobs_authorized_witness :
  job_authorized (after job_run) (u x0e) finalized_sample.
Proof. apply (durable_jobs_authorized (u x01) 1 job_run (u x0e) finalized_sample). by vm_compute. Defined.

(** An approved intent, a restore, and the authorization after it. *)
Definition before_cutover : WalletStorage :=
  run_storage (approval_of "frost:participant-0" ++ [OnTables (DbBeginPrecheck 19)]) (created_storage (u x01) 1).
Definition restored : WalletDb := (cutover_restore 20 (st_db before_cutover)).1.
Definition approved_row : AuthorizationRow :=
  mkAuthorizationRow (u x01) (mkAuthorizationRecord (u x09) (u x02) 1 (d x08) 60 4 None None).
Lemma restored_run : cutover_restore 20 (st_db before_cutover) = (restored, Ok 2).
Proof.
  assert ((cutover_restore 20 (st_db before_cutover)).2 = Ok 2) as <- by (by vm_compute).
  apply surjective_pairing.
Qed.
Lemma cutover_revokes_authority_witness :
  db_authorizations (st_db (run_storage [OnTables (DbBeginRecovering 21); OnTables (DbFinishRecovery 22);
    BeginPersonal (u x09) sample_operation 23] (set_db restored before_cutover))) !! u x09
    = Some (authorization_invalidated 20 approved_row).
Proof.
  destruct (cutover_revokes_authority (u x01) 1 (approval_of "frost:participant-0" ++ [OnTables (DbBeginPrecheck 19)]) 20 restored 2
    [OnTables (DbBeginRecovering 21); OnTables (DbFinishRecovery 22); BeginPersonal (u x09) sample_operation 23])
    as (Ha & _); [exact restored_run|]. apply (Ha (u x09) approved_row); by vm_compute.
Defined.

Lemma restore_blocks_mutations_witness :
  let s := set_db restored before_cutover in
  exec_storage (BeginPersonal (u x09) sample_operation 5) s = s.
Proof.
  intros s. destruct (restore_blocks_mutations s (mkWalletMetadata (u x01) 2 RestoreCutover 1 20)
    (BeginPersonal (u x09) sample_operation 5)) as [HE|(now & c & a & HE & _)]; [by vm_compute|done|done|done|exact HE|discriminate HE].
Defined.

Definition policy_run : list StorageOp :=
  [OnTables (DbStorePolicy (pb_policy_hash sample_bundle) (ascii_bytes (pb_policy_hash sample_bundle)) 2)].
Lemma policy_stored : policy_bundle_bytes (st_db (run_storage policy_run (created_storage (u x01) 1))) (pb_policy_hash sample_bundle) =
  Some (ascii_bytes (pb_policy_hash sample_bundle)).
Proof. vm_compute. reflexivity. Qed.
Lemma stored_policies_inspected_witness :
  exists b, inspect_bundle (ascii_bytes (pb_policy_hash sample_bundle)) = Ok b /\ pb_policy_hash b = pb_policy_hash sample_bundle.
Proof.
  pose proof (stored_policies_inspected (u x01) 1 policy_run (pb_policy_hash sample_bundle)
    (ascii_bytes (pb_policy_hash sample_bundle)) policy_stored) as ((b & Hb & Hh & _) & _).
  exists b. split; [exact Hb|exact Hh].
Defined.

(** A device that is registered, rotated and revoked; a registration that
    comes too late. *)
Definition device_of (b : byte) (generation : Z) (st : DeviceStatus) : SignerDeviceRecord :=
  mkSignerDeviceRecord 2 (Some (u b)) generation (Some HsmAdapter) (Some (encode_hex (d b))) None st None None None
    DeviceHealth_default.
Definition device_ops : list signer_op :=
  [ SgTransition (u x01) (u x0d) 1 0 (device_of x21 1 DeviceActive) 10;
    SgTransition (u x01) (u x0d) 1 1 (device_of x22 2 DeviceActive) 11;
    SgTransition (u x01) (u x0d) 1 2 (device_of x22 2 DeviceRevoked) 12;
    SgTransition (u x01) (u x0d) 1 2 (device_of x23 3 DeviceActive) 13 ].
Definition device_trace : list Persisted :=
  [ mkPersisted (u x01) (u x0d) 1 (device_of x21 1 DeviceActive) 10;
    mkPersisted (u x01) (u x0d) 1 (device_of x22 2 DeviceActive) 11;
    mkPersisted (u x01) (u x0d) 1 (device_of x22 2 DeviceRevoked) 12 ].
Definition device_tables : SignerTables := (signer_run (mkSignerTables (created (u x01) 1) ∅ []) device_ops).1.
Lemma device_run : signer_run (mkSignerTables (created (u x01) 1) ∅ []) device_ops = (device_tables, device_trace).
Proof.
  assert ((signer_run (mkSignerTables (created (u x01) 1) ∅ []) device_ops).2 = device_trace) as <- by (by vm_compute).
  apply surjective_pairing.
Qed.
Lemma persisted_devices_restore_witness :
  exists records registry r,
    restore_device_records records (SignerDeviceRegistry_new (u x0d) 1 3) = (registry, Ok tt) /\
    sr_devices registry !! 2 = Some r /\ dr_status r = DeviceRevoked /\ dr_generation r = 2 /\ dr_revoked_at r = Some 12.
Proof.
  destruct (persisted_devices_restore (created (u x01) 1) device_ops device_tables device_trace
    (mkWalletMetadata (u x01) 1 RestoreNormal 1 1) (u x0d) 1 3) as (records & registry & _ & Hr & Hk);
    [exact device_run|by vm_compute|lia| |].
  - intros k Hk. unfold persisted_in. cbn -[Z.eqb]. by rewrite !(proj2 (Z.eqb_neq 2 k)), !andb_false_r by lia.
  - exists records, registry. destruct (Hk 2 ltac:(lia)) as [_ H2].
    change (last _) with (Some (mkPersisted (u x01) (u x0d) 1 (device_of x22 2 DeviceRevoked) 12)) in H2.
    destruct H2 as (r & H2 & Has). exists r. split_and!; [done|done|apply (rs_status _ _ _ Has)|apply (rs_generation _ _ _ Has)|].
    apply (rs_revoked _ _ _ Has).
Defined.
