(* ===== verification/DurableStore.v ===== *)
(** * The durable wallet store
      (src/crates/wallet-core/src/durable_store.rs)

    The storage port of the wallet services over the wallet database, with the
    intents of the current epoch projected into memory.  The JSON of an intent
    is an interface; so is the address a profile derives, which the chain
    crates compute. *)

From Stdlib Require Import ZArith Lia.
From S2P Require Import Prelude Bitcoin Text Effects ChainDomain SigningDomain Personal StorageModels WalletDb SignerDb.
From S2P Require Import Intent SigningJob Covhub WalletStore WalletDbInv.
From stdpp Require Import list gmap strings sorting pretty.
Local Open Scope string_scope.
Local Open Scope list_scope.
Local Open Scope Z_scope.

Definition PASSKEY_FORMAT : string := "webauthn-rs-passkey-json-v1".
Definition COMPATIBILITY_SNAPSHOT : string := "compatibility:no-authoritative-node-snapshot".

(** serde_json on [SigningIntent]: the text of its value, and back. *)
Class IntentJson := {
  intent_to_value : SigningIntent -> result string string;
  intent_from_value : string -> result string SigningIntent;
}.
(** The derived serializer does not fail, and the value of an intent with
    fields of the Rust types reads back, unless it has a CovHub binding with a
    scope of another schema version or whose chain is not its network's: the
    deserializer of [ChainScope] refuses that one. *)
Definition intent_storable (i : SigningIntent) : Prop := intent_wf i /\ is_i64 (si_created_at i).
Class IntentJsonLaws `{IntentJson} : Prop := {
  intent_value i : intent_storable i -> exists text, intent_to_value i = Ok text /\ intent_from_value text = Ok i;
}.
(** Texts of the uuid crate's errors, and the address of a profile. *)
Class DurableText := { uuid_error_text : string -> string }.
Class ProfileAddress := { expected_profile_address : SignerProfile -> result SigningJobError string }.

Record DurableWalletStore := mkDurableWalletStore {
  ds_storage : WalletDb;
  ds_intents : list SigningIntent;
  ds_descriptor : StorageDescriptor;
  ds_wallet_id : Uuid;
}.
Definition with_storage (db : WalletDb) (s : DurableWalletStore) : DurableWalletStore :=
  mkDurableWalletStore db (ds_intents s) (ds_descriptor s) (ds_wallet_id s).
Definition with_intents (l : list SigningIntent) (s : DurableWalletStore) : DurableWalletStore :=
  mkDurableWalletStore (ds_storage s) l (ds_descriptor s) (ds_wallet_id s).

(** [iter_mut().find(p)] and a change of what it finds. *)
Fixpoint update_first {A} (p : A -> bool) (f : A -> A) (l : list A) : list A :=
  match l with
  | [] => []
  | x :: l => if p x then f x :: l else x :: update_first p f l
  end.
Definition has_id (id : Uuid) (i : SigningIntent) : bool := bool_decide (si_id i = id).
Definition project_status (id : Uuid) (status : IntentStatus) (s : DurableWalletStore) : DurableWalletStore :=
  with_intents (update_first (has_id id) (fun i => set_status i status) (ds_intents s)) s.

Definition signer_label (signer_id : Z) : string := "frost:participant-" +:+ pretty signer_id.

Definition to_storage_status (status : IntentStatus) : TransactionIntentStatus :=
  match status with
  | IntentPending => TxPending
  | IntentApproved => TxApproved
  | IntentSigning => TxSigning
  | IntentCancelled => TxCancelled
  | IntentExpired => TxExpired
  | IntentSigned => TxSigned
  end.
Definition from_storage_status (status : TransactionIntentStatus) : IntentStatus :=
  match status with
  | TxPending => IntentPending
  | TxApproved => IntentApproved
  | TxSigning => IntentSigning
  | TxSigned => IntentSigned
  | TxCancelled => IntentCancelled
  | TxExpired | TxInvalidated => IntentExpired
  end.

Definition chain_signing_state (j : StoredSigningJob) : result WalletStoreError ChainSigningJobState :=
  let b := jb_bound j in
  status ←
    match jb_status j with
    | SjSigning => Ok JobSigning
    | SjFinalized => Ok JobFinalized
    | SjAborted => Ok JobAborted
    | SjExpired => Ok JobExpired
    | SjFailed => Ok JobFailed
    | SjPrepared => Err (mkWalletStoreError "unauthorized prepared signing job found in durable storage")
    end;
  operation_binding_digest ← ok_or (jb_operation_binding_digest j)
    (mkWalletStoreError "authorized signing job is missing its operation binding");
  Ok (mkChainSigningJobState (jn_job_id b) (jn_intent_id b) (jn_wallet_id b) (jn_profile_id b) (jn_chain_scope b)
        (jn_signing_suite_id b) (jn_backend_requirement b) (jn_review_schema_version b) (jn_review_digest b)
        (jn_signing_message_digest b) (jn_policy_snapshot_digest b) (jn_chain_snapshot_digest b) (jn_session_id b)
        (jn_selected_parties b) (jn_receiver b) operation_binding_digest status (jb_final_signature j)
        (jb_terminal_reason j) (jn_expires_at b) (jn_created_at b) (jb_updated_at j)).

Section durable.
Context `{UuidText} `{BuildInfo} `{BitcoinLib} `{JsonText} `{SqliteText} `{IntentJson} `{DurableText} `{ProfileAddress}.

Definition store_error (e : StorageError) : WalletStoreError := mkWalletStoreError (StorageError_display e).
Definition stored {A} (r : result StorageError A) : result WalletStoreError A := map_err store_error r.
(** A method of the database. *)
Definition on_storage {A} (m : act WalletDb StorageError A) : act DurableWalletStore WalletStoreError A :=
  zoom ds_storage with_storage store_error m.

Definition compatibility_policy_hash : bytes :=
  sha256 (ascii_bytes "catomicals/wallet-core/unclassified-taproot-policy-v1").
Definition intent_policy_hash (i : SigningIntent) : bytes :=
  match si_personal_signing_policy i with Some p => pp_policy_digest p | None => compatibility_policy_hash end.

(** ** Opening *)

Definition restore_state (s : DurableWalletStore) : result WalletStoreError RestoreState :=
  metadata ← stored (wallet_metadata (ds_storage s));
  Ok (wm_restore_state metadata).

(** The stored intent is the one its row is about. *)
Definition material_matches (i : SigningIntent) (id : Uuid) (r : TransactionIntentRow) : bool :=
  match ir_v2 r with
  | None => false
  | Some v2 =>
      bool_decide (si_id i = id) && bool_decide (si_wallet_id i = ir_wallet_id r)
      && bool_decide (si_tx_digest i = ir_tx_digest r) && bool_decide (si_session_id i = ir_session_id r)
      && bool_decide (si_nonce i = v2_approval_nonce v2) && bool_decide (ir_policy_hash r = intent_policy_hash i)
      && (si_protocol_version i =? v2_protocol_version v2) && bool_decide (v2_network v2 = StoredSignet)
      && bool_decide (v2_action v2 = ActionSpend) && bool_decide (v2_signer_id v2 = signer_label (si_signer_id i))
  end.
Definition load_intent (materials : gmap Uuid IntentMaterial) (row : Uuid * TransactionIntentRow)
    : result WalletStoreError SigningIntent :=
  let '(id, record) := row in
  material ← ok_or (materials !! id) (mkWalletStoreError "intent material is missing");
  _ ← reject_if (negb (bool_decide (sha256 (ascii_bytes (im_payload_json material)) = im_payload_hash material)))
        (mkWalletStoreError "intent material hash mismatch");
  intent ← map_err (fun e => mkWalletStoreError ("invalid intent material: " +:+ e))
             (intent_from_value (im_payload_json material));
  _ ← reject_if (negb (material_matches intent id record)) (mkWalletStoreError "intent material binding mismatch");
  Ok (set_status intent (from_storage_status (ir_status record))).

(** Collecting into a [HashMap] keeps the last of each key. *)
Definition from_storage (db : WalletDb) (startup_invalidated_ceremonies : Z) : result WalletStoreError DurableWalletStore :=
  metadata ← stored (wallet_metadata db);
  let descriptor := mkStorageDescriptor Durable (Some CURRENT_SCHEMA_VERSION) (Some (wm_epoch metadata))
    startup_invalidated_ceremonies in
  rows ← stored (list_intent_materials db KindPolicyInput);
  let materials := foldl (fun (t : gmap Uuid IntentMaterial) m => <[im_intent_id m := m]> t) ∅ rows in
  records ← stored (list_transaction_intents_v2 db);
  intents ← mapM_result (load_intent materials) records;
  Ok (mkDurableWalletStore db intents descriptor (wm_wallet_id metadata)).

(** [WalletStorage::initialize] and [WalletStorage::open] on a database whose
    file is in place; opening invalidates ceremonies left open. *)
Definition DurableWalletStore_initialize (db : WalletDb) (wallet_id : Uuid) (now : Z)
    : result WalletStoreError DurableWalletStore :=
  let '(db, r) := initialize wallet_id now db in
  _ ← stored r;
  from_storage db 0.
Definition DurableWalletStore_open (db : WalletDb) (now : Z) : result WalletStoreError DurableWalletStore :=
  let '(db, r) := invalidate_unfinished_ceremonies_on_startup now db in
  invalidated ← stored r;
  from_storage db invalidated.

(** ** Intents *)

Definition ds_get_intent (s : DurableWalletStore) (id : Uuid) : option SigningIntent := List.find (has_id id) (ds_intents s).

(** Replace the intent of this id, or add it and sort by creation and id. *)
Definition replace_projection (i : SigningIntent) (s : DurableWalletStore) : DurableWalletStore :=
  with_intents
    (match ds_get_intent s (si_id i) with
     | Some _ => update_first (has_id (si_id i)) (fun _ => i) (ds_intents s)
     | None => merge_sort intent_key_le (ds_intents s ++ [i])
     end) s.

Definition new_v2_intent (i : SigningIntent) : NewTransactionIntentV2 :=
  mkNewTransactionIntentV2 (si_id i) (si_tx_digest i) (intent_policy_hash i) (si_session_id i) StoredSignet
    (si_protocol_version i) ActionSpend (signer_label (si_signer_id i)) (si_nonce i) 2 (si_expiry i) (si_created_at i).
Definition intent_payload (i : SigningIntent) (payload_json : string) : IntentMaterial :=
  mkIntentMaterial (si_id i) KindPolicyInput payload_json (sha256 (ascii_bytes payload_json)) COMPATIBILITY_SNAPSHOT.

Definition ds_insert_intent (i : SigningIntent) : act DurableWalletStore WalletStoreError unit :=
  wallet_id ← gets ds_wallet_id;
  _ ← lift (reject_if (negb (bool_decide (si_wallet_id i = wallet_id)))
              (mkWalletStoreError "intent wallet id does not match durable wallet"));
  payload_json ← lift (map_err (fun e => mkWalletStoreError ("intent serialization failed: " +:+ e)) (intent_to_value i));
  _ ← on_storage (create_transaction_intent_v2 (new_v2_intent i) (intent_payload i payload_json));
  modify (replace_projection i).

Definition ds_update_intent (i : SigningIntent) (now : Z) : act DurableWalletStore WalletStoreError unit :=
  found ← gets (fun s => ds_get_intent s (si_id i));
  current ← lift (ok_or found (mkWalletStoreError "intent is missing"));
  _ ← on_storage (transition_transaction_intent (si_id i) (to_storage_status (si_status current))
                    (to_storage_status (si_status i)) now);
  modify (replace_projection i).

(** ** Passkeys and approvals *)

Definition ds_webauthn_profile (s : DurableWalletStore) : result WalletStoreError (option WebauthnProfileState) :=
  match db_webauthn (ds_storage s) with
  | None => Ok None
  | Some p =>
      user_id ← ok_or (uuid_parse_str (wf_user_id p))
                  (mkWalletStoreError ("invalid WebAuthn user id: " +:+ uuid_error_text (wf_user_id p)));
      Ok (Some (mkWebauthnProfileState (wf_wallet_id p) user_id (wf_rp_id p) (wf_rp_origin p) (wf_record_version p)
                  (wf_updated_at p)))
  end.
Definition ds_set_webauthn_profile (p : WebauthnProfileState) : act DurableWalletStore WalletStoreError unit :=
  on_storage (WalletDb.set_webauthn_profile (mkWebauthnProfile (wp_wallet_id p) (uuid_to_string (wp_user_id p)) (wp_rp_id p)
                (wp_rp_origin p) (wp_record_version p) (wp_updated_at p))).

Definition ds_insert_passkey (p : PasskeyState) : act DurableWalletStore WalletStoreError unit :=
  _ ← lift (reject_if (negb (pk_record_version p =? 1) || negb (bool_decide (pk_format p = PASSKEY_FORMAT)))
              (mkWalletStoreError "unsupported Passkey record format"));
  on_storage (insert_passkey_record (mkNewPasskeyRecord (pk_credential_id p) (pk_label p) (pk_passkey_json p) (pk_format p)
                CredActive (pk_enrolled_at p))).
Definition passkey_of (r : PasskeyRecord) : PasskeyState :=
  mkPasskeyState (pd_credential_id r) (pd_label r) (pd_passkey_json r) (pd_format r) (pd_record_version r) (pd_enrolled_at r).
Definition ds_list_passkeys (s : DurableWalletStore) : result WalletStoreError (list PasskeyState) :=
  records ← stored (list_passkey_records (ds_storage s));
  Ok (List.map passkey_of records).

Definition ds_begin_approval (a : ApprovalStartState) : act DurableWalletStore WalletStoreError unit :=
  on_storage (begin_passkey_approval (mkNewPasskeyApprovalCeremony (as_ceremony_id a) (as_intent_id a) (as_credential_id a)
                (as_binding_digest a) (as_started_at a) (as_expires_at a))).

Definition authorization_of (r : AuthorizationRecord) : AuthorizationState :=
  mkAuthorizationState (ac_id r) (ac_intent r) (ac_binding r) (ac_expires_at r) (ac_issued_at r).
Definition ds_complete_approval (c : ApprovalCompletionState) : act DurableWalletStore WalletStoreError AuthorizationState :=
  record ← on_storage (complete_passkey_approval_atomic
    (mkPasskeyApprovalCompletion (ac_ceremony_id c) (ac_intent_id c) (ac_credential_id c)
       (ac_expected_credential_record_version c) (ac_updated_passkey_json c) (ac_binding_digest c) (ac_authorization_id c)
       (ac_authorization_expires_at c) (ac_rp_id c) (ac_rp_origin c) (ac_approved_at c)));
  _ ← modify (project_status (ac_intent_id c) IntentApproved);
  mret (authorization_of record).
Definition ds_available_authorizations (s : DurableWalletStore) (now : Z) : result WalletStoreError (list AuthorizationState) :=
  records ← stored (list_available_authorizations (ds_storage s) now);
  Ok (List.map authorization_of records).

(** The status of the projection is left as it is. *)
Definition ds_claim_frost_nonce (c : FrostNonceClaimState) : act DurableWalletStore WalletStoreError unit :=
  on_storage (consume_authorization_and_claim_frost_nonce
    (mkFrostNonceAuthorizationClaim (nc_authorization_id c) (nc_intent_id c) (signer_label (nc_signer_id c)) (nc_session_id c)
       (nc_fingerprint c) (nc_claimed_at c))).

(** ** Signers *)

Definition profile_of (r : SignerProfileInventoryRecord) : SignerProfile :=
  let p := iv_profile r in
  mkSignerProfile (sg_profile_id p) (sg_wallet_id p) (sg_chain_scope p) (sg_signing_suite_id p) (sg_backend_requirement p)
    (sg_signer_set_id p) (sg_authorization_signer_id p) (sg_signer_epoch p) (sg_threshold p) (sg_max_signers p)
    (sg_verification_key p) (iv_secret_ref r).

(** [AddressBinding::new] *)
Definition AddressBinding_new (binding_id : Uuid) (p : SignerProfile) (address : string)
    : result SigningJobError AddressBinding :=
  _ ← reject_if (Uuid_is_nil binding_id || str_is_blank address) InvalidAddressBinding;
  expected ← expected_profile_address p;
  _ ← reject_if (negb (bool_decide (address = expected))) InvalidAddressBinding;
  Ok (mkAddressBinding binding_id (sp_profile_id p) (sp_chain_scope p) address (sha256 (sp_verification_key p))).

Definition binding_of (p : SignerProfile) (b : StoredAddressBinding) : result WalletStoreError AddressBinding :=
  _ ← reject_if (negb (bool_decide (bd_profile_id b = sp_profile_id p))
                 || negb (bool_decide (bd_chain_scope b = sp_chain_scope p)))
        (mkWalletStoreError "stored signer address scope mismatch");
  binding ← map_err (fun _ => mkWalletStoreError "stored signer address is not key-bound")
              (AddressBinding_new (bd_binding_id b) p (bd_address b));
  _ ← reject_if (negb (bool_decide (ab_verification_key_digest binding = bd_verification_key_digest b)))
        (mkWalletStoreError "stored signer address key digest mismatch");
  Ok binding.
Definition ds_signer_profiles (s : DurableWalletStore) : result WalletStoreError (list (SignerProfile * list AddressBinding)) :=
  records ← stored (signer_profile_inventory (ds_storage s) (ds_wallet_id s));
  mapM_result (fun r => let p := profile_of r in
                        bindings ← mapM_result (binding_of p) (iv_address_bindings r);
                        Ok (p, bindings)) records.

(** ** Chain signing jobs *)

Definition job_binding_matches (job : SigningJob) (p : SignerProfileRecord) : bool :=
  let b := sj_review_binding job in
  bool_decide (rb_chain_scope b = sj_chain_scope job) && bool_decide (rb_signing_suite_id b = sj_signing_suite_id job)
  && bool_decide (rb_signer_set_id b = sg_signer_set_id p) && (rb_signer_set_epoch b =? sg_signer_epoch p)
  && (rb_review_schema_version b =? ra_schema_version (sj_review job))
  && bool_decide (rb_review_digest b = ra_review_digest (sj_review job)).

(** A CovHub intent admits only the job it binds. *)
Definition check_covhub_job (found : option SigningIntent) (job : SigningJob) (p : SignerProfileRecord)
    : result WalletStoreError unit :=
  match found with
  | None => Ok tt
  | Some i =>
      match si_covhub i with
      | None => Ok tt
      | Some _ =>
          _ ← reject_if (negb (bool_decide (si_status i = IntentApproved)))
                (mkWalletStoreError "a CovHub signing job requires an approved intent");
          _ ← reject_if (negb (covhub_legacy_fields_are_delegated i))
                (mkWalletStoreError "a CovHub intent must not carry Bitcoin Signet placeholder fields");
          reject_if (negb (covhub_job_matches_binding i job (sg_chain_scope p) (sg_signing_suite_id p)))
            (mkWalletStoreError "chain signing job does not match the CovHub intent binding")
      end
  end.

Definition new_signing_job (job : SigningJob) : NewSigningJob :=
  let r := sj_review job in
  mkNewSigningJob (sj_job_id job) (sj_wallet_id job) (sj_profile_id job) (sj_intent_id job) (sj_chain_scope job)
    (sj_signing_suite_id job) (sj_backend_requirement job) (ra_schema_version r) r (ra_review_digest r)
    (ra_signing_message_digest r) (sj_policy_snapshot_digest job) (sj_chain_snapshot_digest job) (sj_session_id job)
    (sj_online_parties job) (sj_receiver job) (sj_expires_at job) (sj_created_at job).

Definition ds_create_chain_signing_job (request : CreateChainSigningJobRequest) (now : Z)
    : act DurableWalletStore WalletStoreError ChainSigningJobState :=
  let job := cj_job request in
  found ← reads (fun s => stored (signer_profile (ds_storage s) (sj_profile_id job)));
  profile ← lift (ok_or found (mkWalletStoreError "chain signing profile is missing"));
  _ ← lift (reject_if (negb (job_binding_matches job profile))
              (mkWalletStoreError "chain signing review binding mismatch"));
  intent ← gets (fun s => ds_get_intent s (sj_intent_id job));
  _ ← lift (check_covhub_job intent job profile);
  stored_job ← on_storage (create_signing_job (cj_authorization_id request) (new_signing_job job)
                             (cj_operation_binding_digest request) now);
  _ ← modify (project_status (sj_intent_id job) IntentSigning);
  lift (chain_signing_state stored_job).

Definition ds_chain_signing_job (s : DurableWalletStore) (job_id : Uuid)
    : result WalletStoreError (option ChainSigningJobState) :=
  found ← stored (signing_job (ds_storage s) job_id);
  match found with
  | Some j => state ← chain_signing_state j; Ok (Some state)
  | None => Ok None
  end.

Definition ds_chain_signing_execution (s : DurableWalletStore) (job_id : Uuid)
    : result WalletStoreError (option ChainSigningExecution) :=
  found ← stored (signing_job (ds_storage s) job_id);
  match found with
  | None => Ok None
  | Some record =>
      let b := jb_bound record in
      _ ← reject_if (negb (bool_decide (jb_status record = SjSigning)))
            (mkWalletStoreError "chain signing job is not executable");
      found ← stored (signer_profile (ds_storage s) (jn_profile_id b));
      profile ← ok_or found (mkWalletStoreError "chain signing profile is missing");
      review_binding ← map_err (fun e => mkWalletStoreError (SigningContractError_to_string e))
        (ReviewBinding_new (jn_chain_scope b) (jn_signing_suite_id b) (sg_signer_set_id profile) (sg_signer_epoch profile)
           (jn_review_schema_version b) (jn_review_digest b));
      operation_binding_digest ← ok_or (jb_operation_binding_digest record)
        (mkWalletStoreError "authorized chain signing job is missing its binding");
      Ok (Some (mkChainSigningExecution
        (mkSigningJob (jn_job_id b) (jn_intent_id b) (jn_profile_id b) (jn_wallet_id b) (jn_chain_scope b)
           (jn_signing_suite_id b) (jn_backend_requirement b) (jn_review_artifact b) review_binding
           (jn_policy_snapshot_digest b) (jn_chain_snapshot_digest b) (jn_selected_parties b) (jn_receiver b)
           (jn_session_id b) (jn_expires_at b) (jn_created_at b)) operation_binding_digest))
  end.

Definition ds_claim_chain_executor (execution : ChainSigningExecution) (now : Z)
    : act DurableWalletStore WalletStoreError unit :=
  let job := ce_job execution in
  on_storage (SignerDb.claim_chain_executor
    (mkChainExecutorClaim (sj_wallet_id job) (sj_profile_id job) (sj_signing_suite_id job) (sj_backend_requirement job)
       (sj_session_id job) (sha256 (domain_separator (sj_review_binding job))) (ra_signing_message_digest (sj_review job))
       (ce_operation_binding_digest execution) now)).

(** The intent of a job, before it ends. *)
Definition job_intent (job_id : Uuid) : act DurableWalletStore WalletStoreError Uuid :=
  found ← reads (fun s => stored (signing_job (ds_storage s) job_id));
  j ← lift (ok_or found (mkWalletStoreError "chain signing job is missing"));
  mret (jn_intent_id (jb_bound j)).

Definition ds_finalize_chain_signing_job (job_id : Uuid) (operation_binding_digest final_signature : bytes) (now : Z)
    : act DurableWalletStore WalletStoreError unit :=
  intent_id ← job_intent job_id;
  _ ← on_storage (complete_signing_job job_id operation_binding_digest final_signature now);
  modify (project_status intent_id IntentSigned).

Definition terminal_status (status : ChainSigningJobStatus) : result WalletStoreError SigningJobStatus :=
  match status with
  | JobAborted => Ok SjAborted
  | JobExpired => Ok SjExpired
  | JobFailed => Ok SjFailed
  | JobSigning | JobFinalized => Err (mkWalletStoreError "invalid terminal chain job status")
  end.
Definition ds_terminate_chain_signing_job (job_id : Uuid) (operation_binding_digest : bytes)
    (status : ChainSigningJobStatus) (reason : string) (now : Z) : act DurableWalletStore WalletStoreError unit :=
  status ← lift (terminal_status status);
  intent_id ← job_intent job_id;
  _ ← on_storage (terminate_signing_job job_id operation_binding_digest status reason now);
  modify (project_status intent_id IntentExpired).

#[export] Instance Durable_store : WalletStore DurableWalletStore := {
  descriptor := ds_descriptor;
  store_wallet_id s := Some (ds_wallet_id s);
  insert_intent := ds_insert_intent;
  get_intent := ds_get_intent;
  list_intents := ds_intents;
  update_intent := ds_update_intent;
  webauthn_profile := ds_webauthn_profile;
  set_webauthn_profile := ds_set_webauthn_profile;
  insert_passkey := ds_insert_passkey;
  list_passkeys := ds_list_passkeys;
  begin_approval := ds_begin_approval;
  complete_approval := ds_complete_approval;
  available_authorizations := ds_available_authorizations;
  claim_frost_nonce := ds_claim_frost_nonce;
  signer_profiles := ds_signer_profiles;
  store_create_chain_signing_job := ds_create_chain_signing_job;
  store_chain_signing_job := ds_chain_signing_job;
  chain_signing_execution := ds_chain_signing_execution;
  claim_chain_executor := ds_claim_chain_executor;
  finalize_chain_signing_job := ds_finalize_chain_signing_job;
  terminate_chain_signing_job := ds_terminate_chain_signing_job;
}.
End durable.

(** ** The laws of the port *)

Definition same_nonces (s s' : WalletDb) : Prop := db_nonces s' = db_nonces s.
#[export] Instance same_nonces_preorder : PreOrder same_nonces.
Proof. unfold same_nonces. split; [done|]. intros ? ? ? H1 H2. congruence. Qed.

Lemma find_update_first {A} (p : A -> bool) (x : A) (l : list A) :
  p x = true -> is_Some (List.find p l) -> List.find p (update_first p (fun _ => x) l) = Some x.
Proof.
  intros Hx. induction l as [|y l IH]; cbn; [by intros []|]. destruct (p y) eqn:Hy; cbn.
  - by rewrite Hx.
  - rewrite Hy. apply IH.
Qed.
Lemma find_permutation {A} (p : A -> bool) (x : A) (l l' : list A) :
  p x = true -> List.find p l = None -> l' ≡ₚ l ++ [x] -> List.find p l' = Some x.
Proof.
  intros Hx Hn Hp. destruct (List.find p l') as [y|] eqn:Hf.
  - apply List.find_some in Hf as [Hin%list_elem_of_In Hy]. rewrite Hp, elem_of_app, list_elem_of_singleton in Hin.
    destruct Hin as [Hin| ->]; [|done]. apply list_elem_of_In in Hin. by rewrite (List.find_none p l Hn y Hin) in Hy.
  - exfalso. rewrite (List.find_none p l' Hf x) in Hx; [done|]. apply list_elem_of_In. rewrite Hp. set_solver.
Qed.

Section laws.
Context `{UuidText} `{BuildInfo} `{BitcoinLib} `{JsonText} `{SqliteText} `{IntentJson} `{DurableText} `{ProfileAddress}.

Definition durable_spent (s : DurableWalletStore) : gset bytes := dom (db_nonces (ds_storage s)).

Lemma replace_projection_get i s : ds_get_intent (replace_projection i s) (si_id i) = Some i.
Proof.
  unfold ds_get_intent, replace_projection. cbn. unfold has_id. case_match eqn:Hf; unfold ds_get_intent, has_id in Hf.
  - apply find_update_first; [by rewrite bool_decide_true|by rewrite Hf].
  - eapply find_permutation; [by rewrite bool_decide_true|exact Hf|apply merge_sort_Permutation].
Qed.

(** Calls that write no nonce. *)
Lemma on_storage_spent {A} (m : act WalletDb StorageError A) s : keeps same_nonces m -> durable_spent (on_storage m s).1 = durable_spent s.
Proof.
  intros Hm. specialize (Hm (ds_storage s)). unfold on_storage, zoom, durable_spent, same_nonces in *.
  destruct (m (ds_storage s)) as [t r]. cbn in *. by rewrite Hm.
Qed.
Definition keeps_spent (s s' : DurableWalletStore) : Prop := durable_spent s' = durable_spent s.
#[export] Instance keeps_spent_preorder : PreOrder keeps_spent.
Proof. unfold keeps_spent. split; [done|]. intros ? ? ? H1' H2'. congruence. Qed.
Lemma keeps_on_storage {A} (m : act WalletDb StorageError A) : keeps same_nonces m -> keeps keeps_spent (on_storage m).
Proof. intros Hm s. by apply on_storage_spent. Qed.

Lemma create_nonces i m : keeps same_nonces (create_transaction_intent_v2 i m).
Proof. unfold create_transaction_intent_v2. keeps_open. by db_open. Qed.
Lemma transition_nonces id e n now : keeps same_nonces (transition_transaction_intent id e n now).
Proof. unfold transition_transaction_intent. keeps_open. by db_open. Qed.
Lemma profile_nonces p : keeps same_nonces (WalletDb.set_webauthn_profile p).
Proof. unfold WalletDb.set_webauthn_profile. keeps_open. repeat case_match; by db_open. Qed.
Lemma passkey_nonces p : keeps same_nonces (insert_passkey_record p).
Proof. unfold insert_passkey_record. keeps_open. by db_open. Qed.
Lemma begin_nonces c : keeps same_nonces (begin_passkey_approval c).
Proof. unfold begin_passkey_approval. keeps_open. by db_open. Qed.
Lemma complete_nonces c : keeps same_nonces (complete_passkey_approval_atomic c).
Proof. unfold complete_passkey_approval_atomic. keeps_open. by db_open. Qed.
Lemma executor_nonces c : keeps same_nonces (SignerDb.claim_chain_executor c).
Proof. unfold SignerDb.claim_chain_executor. keeps_open. by db_open. Qed.
Lemma end_job_nonces job_id b live change st ev now : keeps same_nonces (end_signing_job job_id b live change st ev now).
Proof. unfold end_signing_job. keeps_open. by db_open. Qed.

Lemma complete_job_nonces job_id b g now : keeps same_nonces (complete_signing_job job_id b g now).
Proof. unfold complete_signing_job. keeps_step; [keeps_step|apply end_job_nonces]. Qed.
Lemma terminate_job_nonces job_id b st re now : keeps same_nonces (terminate_signing_job job_id b st re now).
Proof. unfold terminate_signing_job. keeps_step; [keeps_step|apply end_job_nonces]. Qed.

(** A claim is one transaction: a new nonce, or no change. *)
Lemma on_storage_Ok {A} (m : act WalletDb StorageError A) s s' a :
  on_storage m s = (s', Ok a) <-> exists db, m (ds_storage s) = (db, Ok a) /\ s' = with_storage db s.
Proof.
  unfold on_storage, zoom. destruct (m (ds_storage s)) as [db [x|e]]; cbn; split.
  - intros [= <- <-]. eauto.
  - by intros (? & [= <- <-] & ->).
  - done.
  - by intros (? & ? & _).
Qed.
Lemma claim_frost_writes c db db' : consume_authorization_and_claim_frost_nonce c db = (db', Ok tt) ->
  db_nonces db !! fc_fingerprint c = None /\ exists row, db_nonces db' = <[fc_fingerprint c := row]> (db_nonces db).
Proof.
  unfold consume_authorization_and_claim_frost_nonce. rewrite mutation_Ok. intros (m & Hm & Hu & HE). db_open. eauto.
Qed.
Lemma claim_frost_fails c db db' e : consume_authorization_and_claim_frost_nonce c db = (db', Err e) -> db' = db.
Proof.
  unfold consume_authorization_and_claim_frost_nonce, mutation, immediate.
  destruct (ok_or (db_metadata db) _ ≫= _) as [[]|]; [done|by intros [= <- _]].
Qed.
Lemma start_job_nonces aid j b now :
  keeps (fun s s' => dom (db_nonces s) ⊆ dom (db_nonces s')) (start_signing_job aid j b now).
Proof. unfold start_signing_job. apply keeps_mutation; [by intros s|]. intros m s s' a Hm Hb. db_open. set_solver. Qed.
Lemma create_job_nonces r now s : durable_spent s ⊆ durable_spent (ds_create_chain_signing_job r now s).1.
Proof.
  assert (keeps (fun s s' => durable_spent s ⊆ durable_spent s') (ds_create_chain_signing_job r now)) as HK; [|apply HK].
  assert (PreOrder (fun s s' => durable_spent s ⊆ durable_spent s')) by (split; [by intros ?|intros ???; set_solver]).
  unfold ds_create_chain_signing_job. repeat keeps_step; [|done].
  intros s1. unfold on_storage, zoom, durable_spent.
  assert (keeps (fun s s' => dom (db_nonces s) ⊆ dom (db_nonces s'))
    (create_signing_job (cj_authorization_id r) (new_signing_job (cj_job r)) (cj_operation_binding_digest r) now)) as Hc.
  { assert (PreOrder (fun s s' : WalletDb => dom (db_nonces s) ⊆ dom (db_nonces s'))) by (split; [by intros ?|intros ???; set_solver]).
    unfold create_signing_job. repeat (keeps_step; try apply start_job_nonces). }
  specialize (Hc (ds_storage s1)). by destruct (create_signing_job _ _ _ _ _).
Qed.
Lemma complete_approval_record p db db' a : complete_passkey_approval_atomic p db = (db', Ok a) ->
  ac_id a = pc_authorization_id p /\ ac_intent a = pc_intent_id p /\ ac_binding a = pc_binding_digest p /\
  ac_expires_at a = pc_authorization_expires_at p /\ ac_issued_at a = pc_approved_at p.
Proof.
  unfold complete_passkey_approval_atomic. intros HE. act_inv. apply mutation_Ok in HE as (m & Hm & Hu & HE).
  res_open. by cbn.
Qed.

Create HintDb nonces.
#[local] Hint Resolve create_nonces transition_nonces profile_nonces passkey_nonces begin_nonces complete_nonces
  executor_nonces complete_job_nonces terminate_job_nonces : nonces.
Ltac spent_solve :=
  match goal with |- durable_spent (?m ?s).1 = durable_spent ?s => revert s; change (keeps keeps_spent m) end;
  repeat first [ apply keeps_on_storage; solve [eauto with nonces] | apply keeps_modify; intros ?; done | keeps_step ].

#[export] Instance Durable_laws : WalletStoreLaws DurableWalletStore.
Proof.
  refine {| spent := durable_spent |}; cbn.
  - intros c s s' (db & (Hn & row & Hd)%claim_frost_writes & ->)%on_storage_Ok. unfold durable_spent. cbn in *.
    rewrite Hd, dom_insert_L. split; [by rewrite not_elem_of_dom|done].
  - intros c s s' e. unfold ds_claim_frost_nonce, on_storage, zoom. case_match eqn:Hc. destruct r as [|e']; intros [= <- _].
    by apply claim_frost_fails in Hc as ->.
  - intros i s. unfold ds_insert_intent. spent_solve.
  - intros i now s. unfold ds_update_intent. spent_solve.
  - intros p s. unfold ds_set_webauthn_profile. spent_solve.
  - intros p s. unfold ds_insert_passkey. spent_solve.
  - intros a s. unfold ds_begin_approval. spent_solve.
  - intros c s. unfold ds_complete_approval. spent_solve.
  - apply create_job_nonces.
  - intros e now s. unfold ds_claim_chain_executor. spent_solve.
  - intros j b g now s. unfold ds_finalize_chain_signing_job, job_intent. spent_solve.
  - intros j b st r now s. unfold ds_terminate_chain_signing_job, job_intent. spent_solve.
  - intros i s s'. unfold ds_insert_intent. intros HE. act_inv. apply replace_projection_get.
  - intros i now s s'. unfold ds_update_intent. intros HE. act_inv. apply replace_projection_get.
  - intros c s s' a. unfold ds_complete_approval. intros HE. act_inv.
    match goal with E : on_storage _ _ = _ |- _ => apply on_storage_Ok in E as (db & E & _); apply complete_approval_record in E end.
    cbn in *. unfold authorization_of. destruct_ex. congruence.
Defined.
End laws.
