(* ===== verification/DurableProperties.v ===== *)
(** * The projection of the durable store

    The intents a durable store keeps in memory are those of its database:
    opening builds them, every method keeps them in step, and reopening gives
    them back.  Claiming a FROST nonce is the exception: it moves the stored
    intent alone. *)

From Stdlib Require Import ZArith Lia.
From S2P Require Import Frost Participant WebAuthn TransactionReview WalletApi WalletNode WalletConcrete.
From S2P Require Import Prelude Bitcoin Text Effects ChainDomain SigningDomain Personal StorageModels WalletDb SignerDb.
From S2P Require Import Intent SigningJob Covhub WalletStore PolicyProperties WalletDbInv WalletDbProperties DurableStore.
From stdpp Require Import list gmap strings sorting pretty.
Local Open Scope string_scope.
Local Open Scope list_scope.
Local Open Scope Z_scope.

(** ** Lists with distinct ids *)

Lemma find_id_iff l id i : NoDup (si_id <$> l) -> List.find (has_id id) l = Some i <-> i ∈ l /\ si_id i = id.
Proof.
  intros Hn. split.
  - intros [Hin%list_elem_of_In Hp]%List.find_some. unfold has_id in Hp. by autorewrite with guards in Hp.
  - intros [Hin Hid]. destruct (List.find (has_id id) l) as [j|] eqn:Hf.
    + apply List.find_some in Hf as [Hj%list_elem_of_In Hp]. unfold has_id in Hp. autorewrite with guards in Hp. f_equal.
      apply list_elem_of_lookup in Hin as [n Hi]. apply list_elem_of_lookup in Hj as [n' Hj'].
      assert (n' = n) as ->; [|congruence].
      eapply (NoDup_lookup _ _ _ id Hn); rewrite list_lookup_fmap, ?Hj', ?Hi; cbn; congruence.
    + exfalso. apply list_elem_of_In in Hin. pose proof (List.find_none _ _ Hf i Hin) as Hp. unfold has_id in Hp.
      by autorewrite with guards in Hp.
Qed.
Lemma find_id_perm l l' id : NoDup (si_id <$> l) -> l' ≡ₚ l -> List.find (has_id id) l' = List.find (has_id id) l.
Proof.
  intros Hn Hp. assert (NoDup (si_id <$> l')) as Hn' by (by rewrite Hp).
  apply option_eq. intros i. rewrite !find_id_iff by done. by rewrite Hp.
Qed.
(** Changing the first match changes that id alone. *)
Lemma find_update_status l id st id' :
  List.find (has_id id') (update_first (has_id id) (fun i => set_status i st) l) =
  if bool_decide (id' = id) then (fun i => set_status i st) <$> List.find (has_id id) l else List.find (has_id id') l.
Proof.
  induction l as [|i l IH]; [by case_bool_decide|]. cbn. destruct (has_id id i) eqn:H1; cbn.
  - change (has_id id' (set_status i st)) with (has_id id' i). case_bool_decide as H2; [subst; by rewrite H1|].
    assert (has_id id' i = false) as ->; [|done]. unfold has_id in *. autorewrite with guards in *. congruence.
  - rewrite IH. case_bool_decide as H2; [|done]. subst. by rewrite H1.
Qed.
Lemma ids_update_status l id st : si_id <$> update_first (has_id id) (fun i => set_status i st) l = si_id <$> l.
Proof. induction l as [|i l IH]; [done|]. cbn. case_match; [done|]. cbn. by rewrite IH. Qed.
Lemma update_first_known l id (i : SigningIntent) st :
  List.find (has_id id) l = Some i ->
  update_first (has_id id) (fun _ => set_status i st) l = update_first (has_id id) (fun j => set_status j st) l.
Proof.
  induction l as [|j l IH]; [done|]. cbn. case_match eqn:Hj; [by intros [= <-]|]. intros Hf. by rewrite IH.
Qed.

(** The last material of an id wins; here all of an id are the same. *)
Definition collect (l : list IntentMaterial) : gmap Uuid IntentMaterial :=
  foldl (fun (t : gmap Uuid IntentMaterial) m => <[im_intent_id m := m]> t) ∅ l.
Lemma collect_lookup l (id : Uuid) x : x ∈ l -> im_intent_id x = id ->
  (forall y, y ∈ l -> im_intent_id y = id -> y = x) -> collect l !! id = Some x.
Proof.
  unfold collect. induction l as [|y l IH] using rev_ind; [by intros ?%not_elem_of_nil|].
  intros Hx Hid Hu. rewrite foldl_snoc. destruct (decide (im_intent_id y = id)) as [Hy|Hy].
  - rewrite Hy, lookup_insert_eq. f_equal. apply Hu; [set_solver|done].
  - rewrite lookup_insert_ne by done. apply IH; [|done|set_solver]. apply elem_of_app in Hx as [?| ->%list_elem_of_singleton]; done.
Qed.
Lemma collect_id l id x : collect l !! id = Some x -> x ∈ l /\ im_intent_id x = id.
Proof.
  unfold collect. induction l as [|y l IH] using rev_ind; [done|]. rewrite foldl_snoc.
  intros [[<- <-]|[_ [Hx Hi]%IH]]%lookup_insert_Some; set_solver.
Qed.

(** ** Rows of the current epoch *)

Lemma current_rows db m rows : db_metadata db = Some m -> list_transaction_intents_v2 db = Ok rows ->
  NoDup rows.*1 /\ forall id r, (id, r) ∈ rows <-> db_intents db !! id = Some r /\ current_v2 m r = true.
Proof.
  unfold list_transaction_intents_v2, wallet_metadata. intros Hm. rewrite Hm. intros [= <-]. split.
  - eapply (sublist_NoDup _ (order_by ir_created_at (db_intents db)).*1).
    + unfold order_by. rewrite merge_sort_Permutation. apply NoDup_fst_map_to_list.
    + induction (order_by _ _) as [|x l IH]; [constructor|]. cbn. case_match; cbn; by constructor.
  - intros id r. rewrite list_elem_of_In, List.filter_In, <- list_elem_of_In. unfold order_by.
    rewrite merge_sort_Permutation, elem_of_map_to_list. done.
Qed.
Lemma current_materials db m rows mats id r mat : db_metadata db = Some m -> list_transaction_intents_v2 db = Ok rows ->
  list_intent_materials db KindPolicyInput = Ok mats -> (id, r) ∈ rows ->
  db_materials db !! (id, KindPolicyInput) = Some mat -> collect mats !! id = Some (material_of id KindPolicyInput mat).
Proof.
  intros Hm Hr. unfold list_intent_materials. rewrite Hr. intros [= <-] Hin Hmat.
  apply collect_lookup; [|done|].
  - apply list_elem_of_omap. exists (id, r). split; [done|]. cbn. by rewrite Hmat.
  - intros y [[id' r'] [_ Hy]]%list_elem_of_omap Hid. cbn in Hy. apply fmap_Some in Hy as (mat' & Hm' & ->). cbn in Hid. subst.
    congruence.
Qed.

Section projection.
Context `{UuidText} `{BuildInfo} `{BitcoinLib} `{JsonText} `{SqliteText} `{IntentJson} `{DurableText} `{ProfileAddress}.

(** The intent a row and its material stand for. *)
Definition row_loads (db : WalletDb) (id : Uuid) (r : TransactionIntentRow) (i : SigningIntent) : Prop :=
  exists mat, db_materials db !! (id, KindPolicyInput) = Some mat /\
    load_intent {[id := material_of id KindPolicyInput mat]} (id, r) = Ok i.

Record agrees (s : DurableWalletStore) : Prop := mkAgrees {
  ag_metadata : exists m, db_metadata (ds_storage s) = Some m /\ ds_wallet_id s = wm_wallet_id m;
  ag_ids : NoDup (si_id <$> ds_intents s);
  ag_rows : forall m id r, db_metadata (ds_storage s) = Some m -> db_intents (ds_storage s) !! id = Some r ->
    current_v2 m r = true -> exists i, ds_get_intent s id = Some i /\ row_loads (ds_storage s) id r i;
  ag_only : forall m id i, db_metadata (ds_storage s) = Some m -> ds_get_intent s id = Some i ->
    exists r, db_intents (ds_storage s) !! id = Some r /\ current_v2 m r = true;
}.

Lemma load_intent_ext t t' id r : t !! id = t' !! id -> load_intent t (id, r) = load_intent t' (id, r).
Proof. unfold load_intent. by intros ->. Qed.
Lemma load_intent_id t id r i : load_intent t (id, r) = Ok i -> si_id i = id.
Proof.
  unfold load_intent. intros HE. res_open. unfold material_matches in *. case_match; [|done].
  autorewrite with guards in *. by destruct_ex.
Qed.
Lemma load_intent_status t id r st now i : load_intent t (id, r) = Ok i ->
  load_intent t (id, with_intent_status st now r) = Ok (set_status i (from_storage_status st)).
Proof.
  unfold load_intent. destruct (ok_or (t !! id) _) as [mat|]; [|done]. cbn.
  destruct (reject_if _ (mkWalletStoreError "intent material hash mismatch")) as [[]|]; [|done]. cbn.
  destruct (intent_from_value (im_payload_json mat)) as [j|]; [|done]. cbn.
  change (material_matches j id (with_intent_status st now r)) with (material_matches j id r).
  destruct (material_matches j id r); [|done]. cbn. by intros [= <-].
Qed.

Lemma from_storage_Ok db n s : from_storage db n = Ok s <->
  exists m mats rows intents, db_metadata db = Some m /\ list_intent_materials db KindPolicyInput = Ok mats /\
    list_transaction_intents_v2 db = Ok rows /\ Forall2 (fun row i => load_intent (collect mats) row = Ok i) rows intents /\
    s = mkDurableWalletStore db intents
          (mkStorageDescriptor Durable (Some CURRENT_SCHEMA_VERSION) (Some (wm_epoch m)) n) (wm_wallet_id m).
Proof.
  unfold from_storage, stored, wallet_metadata. destruct (db_metadata db) as [m|]; cbn; [|split; [done|by intros (? & ? & ? & ? & ? & _)]].
  destruct (list_intent_materials db KindPolicyInput) as [mats|]; cbn; [|split; [done|by intros (? & ? & ? & ? & _ & ? & _)]].
  destruct (list_transaction_intents_v2 db) as [rows|]; cbn; [|split; [done|by intros (? & ? & ? & ? & _ & _ & ? & _)]].
  fold (collect mats). rewrite bind_Ok. setoid_rewrite mapM_result_Ok. split.
  - intros (intents & Hl & [= <-]). by exists m, mats, rows, intents.
  - intros (m' & mats' & rows' & intents & [= <-] & [= <-] & [= <-] & Hl & ->). by exists intents.
Qed.
(** A row that loads has its material in the database. *)
Lemma load_collected db m rows mats id r i : db_metadata db = Some m -> list_transaction_intents_v2 db = Ok rows ->
  list_intent_materials db KindPolicyInput = Ok mats -> (id, r) ∈ rows ->
  load_intent (collect mats) (id, r) = Ok i <-> row_loads db id r i.
Proof.
  intros Hm Hr Hmats Hin. split.
  - intros HL. destruct (collect mats !! id) as [x|] eqn:Hx; [|by unfold load_intent in HL; rewrite Hx in HL].
    pose proof (collect_id _ _ _ Hx) as [Hxin Hid]. pose proof Hmats as Hm2. unfold list_intent_materials in Hm2.
    rewrite Hr in Hm2. injection Hm2 as <-. apply list_elem_of_omap in Hxin as [[id' r'] [_ Hy]]. cbn in Hy.
    apply fmap_Some in Hy as (mat & Hmat & ->). cbn in Hid. subst id'. exists mat. split; [done|].
    rewrite <- HL. apply load_intent_ext. by rewrite Hx, lookup_singleton_eq.
  - intros (mat & Hmat & <-). apply load_intent_ext. rewrite lookup_singleton_eq. by eapply current_materials.
Qed.
Lemma loaded_ids t rows intents :
  Forall2 (fun row i => load_intent t row = Ok i) rows intents -> si_id <$> intents = rows.*1.
Proof. induction 1 as [|[id r] i rows intents Hl _ IH]; [done|]. cbn. by rewrite IH, (load_intent_id _ _ _ _ Hl). Qed.

Lemma from_storage_agrees db n s : from_storage db n = Ok s -> agrees s.
Proof.
  intros (m & mats & rows & intents & Hm & Hmats & Hr & Hl & ->)%from_storage_Ok.
  destruct (current_rows db m rows Hm Hr) as [Hnd Hrows].
  assert (NoDup (si_id <$> intents)) as Hids by (by rewrite (loaded_ids _ _ _ Hl)).
  constructor; cbn; [by exists m|done| |].
  - intros m' id r Hm' Hrow Hc. rewrite Hm in Hm'. injection Hm' as <-.
    assert ((id, r) ∈ rows) as Hin by (by apply Hrows). pose proof Hin as [k Hk]%list_elem_of_lookup.
    destruct (Forall2_lookup_l _ _ _ _ _ Hl Hk) as (i & Hi & HL). exists i. split; [|by eapply load_collected].
    apply find_id_iff; [done|]. split; [by eapply list_elem_of_lookup_2|by apply load_intent_id in HL].
  - intros m' id i Hm' [Hin Hid]%find_id_iff; [|done]. rewrite Hm in Hm'. injection Hm' as <-.
    apply list_elem_of_lookup in Hin as [k Hk]. destruct (Forall2_lookup_r _ _ _ _ _ Hl Hk) as ([id' r] & Hrk & HL).
    apply load_intent_id in HL. exists r. apply Hrows. assert (id' = id) as -> by congruence. by eapply list_elem_of_lookup_2.
Qed.

(** The database fixes what a store in step with it holds. *)
Lemma agrees_unique s1 s2 id i : agrees s1 -> agrees s2 -> ds_storage s1 = ds_storage s2 ->
  ds_get_intent s1 id = Some i -> ds_get_intent s2 id = Some i.
Proof.
  intros A1 A2 E Hg. destruct (ag_metadata _ A1) as (m & Hm & _). pose proof Hm as Hm2. rewrite E in Hm2.
  destruct (ag_only _ A1 m id i Hm Hg) as (r & Hr & Hc). pose proof Hr as Hr2. rewrite E in Hr2.
  destruct (ag_rows _ A1 m id r Hm Hr Hc) as (i1 & Hi1 & x & Hx & L1).
  destruct (ag_rows _ A2 m id r Hm2 Hr2 Hc) as (i2 & Hi2 & y & Hy & L2). rewrite E in Hx. congruence.
Qed.
Lemma all_load t rows : (forall id r, (id, r) ∈ rows -> exists i, load_intent t (id, r) = Ok i) ->
  exists intents, Forall2 (fun row i => load_intent t row = Ok i) rows intents.
Proof.
  induction rows as [|[id r] rows IH]; intros Hl; [by exists []|].
  destruct (Hl id r) as [i Hi]; [left|]. destruct IH as [intents HI]; [by intros ? ? ?; apply Hl; right|].
  exists (i :: intents). by constructor.
Qed.
(** Reopening gives every intent back. *)
Lemma reopen_agrees s n : agrees s -> exists s2, from_storage (ds_storage s) n = Ok s2 /\ ds_wallet_id s2 = ds_wallet_id s /\
  forall id, ds_get_intent s2 id = ds_get_intent s id.
Proof.
  intros HA. destruct (ag_metadata _ HA) as (m & Hm & Hw).
  assert (exists rows, list_transaction_intents_v2 (ds_storage s) = Ok rows) as [rows Hr]
    by (unfold list_transaction_intents_v2, wallet_metadata; rewrite Hm; by eexists).
  assert (exists mats, list_intent_materials (ds_storage s) KindPolicyInput = Ok mats) as [mats Hmats]
    by (unfold list_intent_materials; rewrite Hr; by eexists).
  destruct (current_rows _ m rows Hm Hr) as [Hnd Hrows].
  destruct (all_load (collect mats) rows) as [intents Hl].
  { intros id r Hin. pose proof Hin as [Hrow Hc]%Hrows. destruct (ag_rows _ HA m id r Hm Hrow Hc) as (i & _ & Hi).
    exists i. by eapply load_collected. }
  assert (exists s2, from_storage (ds_storage s) n = Ok s2 /\ ds_storage s2 = ds_storage s /\ ds_wallet_id s2 = ds_wallet_id s)
    as (s2 & Hs2 & Hst & Hw2).
  { eexists. split; [apply from_storage_Ok; by exists m, mats, rows, intents|done]. }
  exists s2. split; [done|]. split; [done|]. apply from_storage_agrees in Hs2 as HB.
  intros id. apply option_eq. intros i. split; by apply agrees_unique.
Qed.

(** ** Steps of the database *)

(** A failed method leaves the database as it was. *)
Definition atomic {A} (m : act WalletDb StorageError A) : Prop := forall db db' e, m db = (db', Err e) -> db' = db.
Lemma atomic_immediate {A} (body : WalletMetadata -> WalletDb -> result StorageError (WalletDb * A)) : atomic (immediate body).
Proof. intros db db' e. unfold immediate. destruct (_ ≫= _) as [[]|]; [done|by intros [= <- _]]. Qed.
Lemma atomic_guarded {A B} (r : result StorageError A) (m : A -> act WalletDb StorageError B) :
  (forall a, atomic (m a)) -> atomic (lift r ≫= m).
Proof. intros Hm db db' e. unfold mbind, act_bind, lift. destruct r as [a|]; [apply Hm|by intros [= <- _]]. Qed.

(** Intents, materials and metadata stay, or one intent changes its status. *)
Definition quiet (db db' : WalletDb) : Prop :=
  db_intents db' = db_intents db /\ db_materials db' = db_materials db /\ db_metadata db' = db_metadata db.
#[export] Instance quiet_preorder : PreOrder quiet.
Proof. split; [done|]. intros ? ? ? (? & ? & ?) (? & ? & ?). split_and!; congruence. Qed.
Definition moves (id : Uuid) (st : TransactionIntentStatus) (db db' : WalletDb) : Prop :=
  exists row now, db_intents db !! id = Some row /\
    db_intents db' = <[id := with_intent_status st now row]> (db_intents db) /\
    db_materials db' = db_materials db /\ db_metadata db' = db_metadata db.

Lemma agrees_quiet s s' : agrees s -> quiet (ds_storage s) (ds_storage s') -> ds_intents s' = ds_intents s ->
  ds_wallet_id s' = ds_wallet_id s -> agrees s'.
Proof.
  intros [A1 A2 A3 A4] (Q1 & Q2 & Q3) Hi Hw. unfold ds_get_intent, row_loads in *.
  constructor; unfold ds_get_intent, row_loads; rewrite ?Q1, ?Q2, ?Q3, ?Hi, ?Hw; done.
Qed.
Lemma agrees_project s s' id st : agrees s -> moves id st (ds_storage s) (ds_storage s') ->
  ds_intents s' = ds_intents s -> ds_wallet_id s' = ds_wallet_id s ->
  agrees (project_status id (from_storage_status st) s').
Proof.
  intros [A1 A2 A3 A4] (row & now & Hrow & Mi & Mm & Md) Hi Hw.
  assert (forall id', ds_get_intent (project_status id (from_storage_status st) s') id' =
    if bool_decide (id' = id) then (fun i => set_status i (from_storage_status st)) <$> ds_get_intent s id else ds_get_intent s id') as Hget.
  { intros id'. unfold ds_get_intent. cbn. by rewrite find_update_status, Hi. }
  set (p := project_status id (from_storage_status st) s') in *.
  assert (ds_storage p = ds_storage s') as Hst by done.
  constructor; rewrite ?Hst, ?Md, ?Mi, ?Mm.
  - by rewrite <- Hw in A1.
  - cbn. by rewrite ids_update_status, Hi.
  - intros m id' r Hm [[<- <-]|[Hn Hr]]%lookup_insert_Some Hc; rewrite Hget.
    + rewrite bool_decide_true by done. destruct (A3 m id row Hm Hrow Hc) as (i & -> & mat & Hmat & HL).
      exists (set_status i (from_storage_status st)). split; [done|]. exists mat. rewrite Mm. split; [done|].
      by apply load_intent_status.
    + rewrite bool_decide_false by done. destruct (A3 m id' r Hm Hr Hc) as (i & Hg & mat & Hmat & HL).
      exists i. split; [done|]. exists mat. by rewrite Mm.
  - intros m id' i Hm. rewrite Hget. case_bool_decide as Hid.
    + subst. intros (i0 & Hg & _)%fmap_Some. destruct (A4 m id i0 Hm Hg) as (r & Hr & Hc). rewrite Hrow in Hr.
      injection Hr as <-. exists (with_intent_status st now row). by rewrite lookup_insert_eq.
    + intros (r & Hr & Hc)%(A4 m id' i Hm). exists r. by rewrite lookup_insert_ne.
Qed.

(** A new intent and its material. *)
Lemma new_row_loads m i text : si_wallet_id i = wm_wallet_id m -> si_status i = IntentPending -> intent_from_value text = Ok i ->
  load_intent {[si_id i := intent_payload i text]} (si_id i, v2_row m (new_v2_intent i)) = Ok i.
Proof.
  intros Hw Hs Ht. unfold load_intent. rewrite lookup_singleton_eq. cbn. rewrite bool_decide_true by done. cbn.
  rewrite Ht. cbn. unfold material_matches. cbn. rewrite !bool_decide_true, Z.eqb_refl by done. cbn.
  f_equal. destruct i. cbn in *. by subst.
Qed.
Lemma agrees_insert s s' m i text : agrees s -> db_metadata (ds_storage s) = Some m ->
  db_metadata (ds_storage s') = Some m -> db_intents (ds_storage s) !! si_id i = None ->
  db_intents (ds_storage s') = <[si_id i := v2_row m (new_v2_intent i)]> (db_intents (ds_storage s)) ->
  db_materials (ds_storage s') = <[(si_id i, KindPolicyInput) := mkMaterialRow text (sha256 (ascii_bytes text))
    COMPATIBILITY_SNAPSHOT]> (db_materials (ds_storage s)) ->
  ds_intents s' = ds_intents s -> ds_wallet_id s' = ds_wallet_id s ->
  si_wallet_id i = wm_wallet_id m -> si_status i = IntentPending -> intent_from_value text = Ok i ->
  agrees (replace_projection i s').
Proof.
  intros [A1 A2 A3 A4] Hm Hm' Hfresh Mi Mm Hi Hw Hwal Hpend Htext.
  assert (ds_get_intent s (si_id i) = None) as Hnone.
  { destruct (ds_get_intent s (si_id i)) as [j|] eqn:Hg; [|done]. destruct (A4 m _ j Hm Hg) as (r & Hr & _). congruence. }
  assert (forall j, j ∈ ds_intents s -> si_id j <> si_id i) as Hne.
  { intros j Hj E. assert (ds_get_intent s (si_id i) = Some j) by (by apply find_id_iff). congruence. }
  assert (NoDup (si_id <$> (ds_intents s ++ [i]))) as Hnd.
  { rewrite fmap_app. apply NoDup_app. split_and!; [done| |apply NoDup_singleton].
    intros x (j & -> & Hj)%list_elem_of_fmap Hx%list_elem_of_singleton. by apply (Hne j). }
  assert (forall id, ds_get_intent (replace_projection i s') id =
    if bool_decide (id = si_id i) then Some i else ds_get_intent s id) as Hget.
  { intros id. unfold ds_get_intent, replace_projection. cbn. unfold ds_get_intent in Hnone |- *. rewrite Hi, Hnone.
    rewrite (find_id_perm (ds_intents s ++ [i])) by (done || apply merge_sort_Permutation).
    apply option_eq. intros j. rewrite find_id_iff by done. case_bool_decide as E.
    - subst. rewrite elem_of_app, list_elem_of_singleton. split; [intros [[Hj| ->] Hid]; [by apply Hne in Hj|done]|intros [= <-]; auto].
    - rewrite find_id_iff, elem_of_app, list_elem_of_singleton by done. naive_solver. }
  set (p := replace_projection i s') in *. assert (ds_storage p = ds_storage s') as Hst by done.
  constructor; rewrite ?Hst, ?Hm', ?Mi.
  - exists m. split; [done|]. rewrite Hm in A1. destruct A1 as (m0 & [= <-] & A1). by rewrite <- Hw in A1.
  - unfold p, replace_projection, ds_get_intent in *. cbn. rewrite Hi, Hnone. by rewrite merge_sort_Permutation.
  - intros m0 id r [= <-] [[<- <-]|[Hn Hr]]%lookup_insert_Some Hc; rewrite Hget; unfold row_loads; rewrite Mm.
    + rewrite bool_decide_true by done. exists i. split; [done|]. eexists. rewrite lookup_insert_eq. split; [done|].
      by apply new_row_loads.
    + rewrite bool_decide_false by done. destruct (A3 m id r Hm Hr Hc) as (j & Hg & mat & Hmat & HL).
      exists j. split; [done|]. exists mat. by rewrite lookup_insert_ne by congruence.
  - intros m0 id j [= <-]. rewrite Hget. case_bool_decide as E.
    + intros [= <-]. subst. eexists. rewrite lookup_insert_eq. split; [done|]. unfold current_v2, is_v2. cbn.
      by rewrite !bool_decide_true, Z.eqb_refl by done.
    + intros (r & Hr & Hc)%(A4 m id j Hm). exists r. by rewrite lookup_insert_ne.
Qed.

(** ** Methods of the store *)

(** One database method, and the projection after it. *)
Definition moved (id : Uuid) (st : TransactionIntentStatus) (s : DurableWalletStore) : Prop :=
  exists s0, agrees s0 /\ moves id st (ds_storage s0) (ds_storage s) /\ ds_intents s = ds_intents s0 /\
    ds_wallet_id s = ds_wallet_id s0.
Lemma on_storage_quiet {A} (m : act WalletDb StorageError A) : keeps quiet m -> triple agrees (on_storage m) (fun _ => agrees) agrees.
Proof.
  intros Hm s HA. specialize (Hm (ds_storage s)). unfold on_storage, zoom. destruct (m (ds_storage s)) as [db [a|e]]; cbn in *;
    by apply (agrees_quiet s).
Qed.
Lemma on_storage_moves {A} (m : act WalletDb StorageError A) id st : atomic m ->
  (forall db db' a, m db = (db', Ok a) -> moves id st db db') ->
  triple agrees (on_storage m) (fun _ => moved id st) agrees.
Proof.
  intros Ha Hm s HA. unfold on_storage, zoom. destruct (m (ds_storage s)) as [db [a|e]] eqn:E; cbn.
  - exists s. by split_and!; [|eapply Hm| |].
  - apply Ha in E as ->. by destruct s.
Qed.
Lemma project_moved id st : triple (moved id st) (modify (E:=WalletStoreError) (project_status id (from_storage_status st)))
  (fun _ => agrees) agrees.
Proof. apply triple_modify. intros s (s0 & HA & Hmv & Hi & Hw). by eapply agrees_project. Qed.

Lemma transition_moves id expected next now db db' u : transition_transaction_intent id expected next now db = (db', Ok u) ->
  moves id next db db'.
Proof.
  unfold transition_transaction_intent. intros HE. act_inv. apply mutation_Ok in HE as (m & Hm & Hu & HE). db_open.
  eexists _, _. by split_and!.
Qed.
Lemma complete_approval_moves p db db' a : complete_passkey_approval_atomic p db = (db', Ok a) ->
  moves (pc_intent_id p) TxApproved db db'.
Proof.
  unfold complete_passkey_approval_atomic. intros HE. act_inv. apply mutation_Ok in HE as (m & Hm & Hu & HE). db_open.
  eexists _, _. by split_and!.
Qed.
Lemma end_job_moves job_id b live change st ev now db db' u j : end_signing_job job_id b live change st ev now db = (db', Ok u) ->
  db_jobs db !! job_id = Some j -> moves (jn_intent_id (jb_bound j)) st db db'.
Proof.
  unfold end_signing_job. intros (m & Hm & Hu & HE)%mutation_Ok Hj. db_open. simplify_eq. eexists _, _. by split_and!.
Qed.
Lemma start_job_moves aid j b now db db' u : start_signing_job aid j b now db = (db', Ok u) ->
  moves (jn_intent_id j) TxSigning db db' /\
  db_jobs db' !! jn_job_id j = Some (mkStoredSigningJob j (Some b) SjSigning None None (jn_created_at j)).
Proof.
  unfold start_signing_job. intros (m & Hm & Hu & HE)%mutation_Ok. db_open. split; [eexists _, _; by split_and!|].
  by rewrite lookup_insert_eq.
Qed.

(** A stored job that its deserializers accept. *)
Definition job_reads_back (j : NewSigningJob) : bool := is_ok (map_signing_job (mkStoredSigningJob j None SjSigning None None 0)).
Lemma map_signing_job_bound j b st g r u : job_reads_back j = true ->
  map_signing_job (mkStoredSigningJob j b st g r u) = Ok (mkStoredSigningJob j b st g r u).
Proof.
  unfold job_reads_back, map_signing_job. cbn. destruct (scope_column (jn_chain_scope j)); cbn; [|intros [=]].
  destruct (scope_column (ra_scope (jn_review_artifact j))); cbn; [|intros [=]]. destruct (map_err _ _); cbn; [done|intros [=]].
Qed.
Lemma create_job_atomic aid j b now : job_reads_back j = true -> atomic (create_signing_job aid j b now).
Proof.
  intros Hj. unfold create_signing_job. apply atomic_guarded. intros _. apply atomic_guarded. intros _ db db' e.
  unfold mbind, act_bind. destruct (start_signing_job aid j b now db) as [db1 [[]|e1]] eqn:Hs.
  - apply start_job_moves in Hs as [_ Hjob]. unfold reads, lift. unfold signing_job. rewrite Hjob. cbn.
    by rewrite map_signing_job_bound.
  - intros [= <- _]. by apply atomic_immediate in Hs.
Qed.
Lemma create_job_moves aid j b now db db' a : create_signing_job aid j b now db = (db', Ok a) ->
  moves (jn_intent_id j) TxSigning db db'.
Proof. unfold create_signing_job. intros HE. act_inv. match goal with E : start_signing_job _ _ _ _ _ = _ |- _ => by apply start_job_moves in E as [? _] end. Qed.

(** ** Runs of the store *)

(** The calls the wallet services make, other than claiming a nonce: new
    intents are pending and storable, an update changes the status of the
    intent read. *)
Inductive StoreOp :=
| SoInsert (i : SigningIntent)
| SoStatus (id : Uuid) (status : IntentStatus) (now : Z)
| SoProfile (p : WebauthnProfileState)
| SoPasskey (p : PasskeyState)
| SoBegin (a : ApprovalStartState)
| SoComplete (c : ApprovalCompletionState)
| SoCreateJob (r : CreateChainSigningJobRequest) (now : Z)
| SoClaimExecutor (e : ChainSigningExecution) (now : Z)
| SoFinalize (job_id : Uuid) (binding signature : bytes) (now : Z)
| SoTerminate (job_id : Uuid) (binding : bytes) (status : ChainSigningJobStatus) (reason : string) (now : Z).
Definition store_exec (op : StoreOp) (s : DurableWalletStore) : DurableWalletStore :=
  match op with
  | SoInsert i => (insert_intent i s).1
  | SoStatus id status now =>
      match get_intent s id with
      | Some i => (update_intent (set_status i status) now s).1
      | None => s
      end
  | SoProfile p => (set_webauthn_profile p s).1
  | SoPasskey p => (insert_passkey p s).1
  | SoBegin a => (begin_approval a s).1
  | SoComplete c => (complete_approval c s).1
  | SoCreateJob r now => (store_create_chain_signing_job r now s).1
  | SoClaimExecutor e now => (claim_chain_executor e now s).1
  | SoFinalize job_id binding signature now => (finalize_chain_signing_job job_id binding signature now s).1
  | SoTerminate job_id binding status reason now => (terminate_chain_signing_job job_id binding status reason now s).1
  end.
Definition store_op_ok (op : StoreOp) : Prop :=
  match op with
  | SoInsert i => si_status i = IntentPending /\ intent_storable i
  | SoCreateJob r _ => job_reads_back (new_signing_job (cj_job r)) = true
  | _ => True
  end.
Definition store_run (ops : list StoreOp) (s : DurableWalletStore) : DurableWalletStore := foldl (fun s op => store_exec op s) s ops.

Lemma create_intent_atomic i mt : atomic (create_transaction_intent_v2 i mt).
Proof. apply atomic_guarded. intros _. apply atomic_immediate. Qed.
Lemma transition_atomic id e n now : atomic (transition_transaction_intent id e n now).
Proof. apply atomic_guarded. intros _. apply atomic_immediate. Qed.
Lemma agrees_storage_same s : agrees s -> agrees (with_storage (ds_storage s) s).
Proof. by destruct s. Qed.

Lemma insert_agrees `{!IntentJsonLaws} i : si_status i = IntentPending -> intent_storable i ->
  triple agrees (ds_insert_intent i) (fun _ => agrees) agrees.
Proof.
  intros Hp Hst. destruct (intent_value i Hst) as (text & Hto & Hfrom). unfold ds_insert_intent. rewrite Hto.
  triple_step. triple_step; [tauto|]. autorewrite with guards in *. triple_step; [tauto|].
  intros s [HA Hw]. unfold mbind, act_bind, on_storage, zoom.
  match goal with E : map_err _ (Ok text) = Ok ?x |- _ => injection E as <- end.
  destruct (create_transaction_intent_v2 (new_v2_intent i) (intent_payload i text) (ds_storage s)) as [db [u|e]] eqn:Hc.
  - unfold create_transaction_intent_v2 in Hc. act_inv. apply mutation_Ok in Hc as (m & Hm & Hu & HE). db_open.
    destruct (ag_metadata _ HA) as (m' & Hm' & Hwm). eapply (agrees_insert s _ m i text); try done. congruence.
  - apply create_intent_atomic in Hc as ->. by apply agrees_storage_same.
Qed.
Lemma get_intent_id s id i : ds_get_intent s id = Some i -> si_id i = id.
Proof. intros [_ Hb]%List.find_some. unfold has_id in Hb. by autorewrite with guards in Hb. Qed.
Lemma status_roundtrip st : from_storage_status (to_storage_status st) = st.
Proof. by destruct st. Qed.
Lemma update_agrees id i st now s : agrees s -> ds_get_intent s id = Some i ->
  agrees (ds_update_intent (set_status i st) now s).1.
Proof.
  intros HA Hg. pose proof (get_intent_id _ _ _ Hg) as <-.
  enough (triple (fun s0 => s0 = s) (ds_update_intent (set_status i st) now) (fun _ => agrees) agrees) as HT.
  { specialize (HT s eq_refl). by destruct (ds_update_intent _ _ s) as [s1 [|]]. }
  unfold ds_update_intent. triple_step. triple_step; [by intros s0 [-> _]|]. intros s0 [-> ->].
  change (si_id (set_status i st)) with (si_id i) in *. rewrite Hg in *. unfold mbind, act_bind, on_storage, zoom.
  destruct (transition_transaction_intent _ _ _ _ (ds_storage s)) as [db [u|e]] eqn:Hc.
  - apply transition_moves in Hc. pose proof (agrees_project s (with_storage db s) (si_id i) _ HA Hc eq_refl eq_refl) as Hp.
    cbn in Hp. rewrite status_roundtrip in Hp. unfold modify, replace_projection.
    change (ds_get_intent (with_storage db s) (si_id (set_status i st))) with (ds_get_intent s (si_id i)).
    rewrite Hg. cbn. by rewrite (update_first_known _ _ _ _ Hg).
  - apply transition_atomic in Hc as ->. by apply agrees_storage_same.
Qed.

(** The methods on one database call and its projection. *)
Lemma quiet_methods :
  (forall p, keeps quiet (WalletDb.set_webauthn_profile p)) /\ (forall p, keeps quiet (insert_passkey_record p)) /\
  (forall c, keeps quiet (begin_passkey_approval c)) /\ (forall c, keeps quiet (SignerDb.claim_chain_executor c)).
Proof.
  split_and!.
  - intros p. unfold WalletDb.set_webauthn_profile. keeps_open. repeat case_match; by db_open.
  - intros p. unfold insert_passkey_record. keeps_open. by db_open.
  - intros c. unfold begin_passkey_approval. keeps_open. by db_open.
  - intros c. unfold SignerDb.claim_chain_executor. keeps_open. by db_open.
Qed.
Lemma complete_agrees c : triple agrees (ds_complete_approval c) (fun _ => agrees) agrees.
Proof.
  unfold ds_complete_approval. eapply triple_bind; [apply (on_storage_moves _ (ac_intent_id c) TxApproved)|intros a].
  - apply atomic_guarded. intros _. apply atomic_immediate.
  - intros db db' r. apply complete_approval_moves.
  - eapply triple_bind; [apply project_moved|intros ?; apply (triple_ret agrees)].
Qed.
Lemma create_job_agrees r now : job_reads_back (new_signing_job (cj_job r)) = true ->
  triple agrees (ds_create_chain_signing_job r now) (fun _ => agrees) agrees.
Proof.
  intros Hr. unfold ds_create_chain_signing_job. triple_step; [done|]. triple_step; [tauto|]. triple_step; [tauto|].
  triple_step. triple_step; [tauto|].
  eapply (triple_pre _ agrees); [tauto|].
  eapply triple_bind; [apply (on_storage_moves _ (sj_intent_id (cj_job r)) TxSigning)|intros ?].
  - by apply create_job_atomic.
  - intros db db' j. apply create_job_moves.
  - eapply triple_bind; [apply project_moved|intros ?].
    eapply triple_post; [|by apply triple_lift]. by intros b s [HA _].
Qed.
(** The intent of the job is read before the job ends. *)
Lemma end_job_agrees job_id (m : act WalletDb StorageError unit) st pst : atomic m ->
  (forall db db' u j, m db = (db', Ok u) -> db_jobs db !! job_id = Some j -> moves (jn_intent_id (jb_bound j)) st db db') ->
  from_storage_status st = pst ->
  triple agrees (intent_id ← job_intent job_id; _ ← on_storage m; modify (project_status intent_id pst)) (fun _ => agrees) agrees.
Proof.
  intros Ha Hm <- s HA. unfold job_intent, mbind, act_bind, reads, lift, mret, act_ret. unfold stored, signing_job.
  destruct (db_jobs (ds_storage s) !! job_id) as [j|] eqn:Hj; [|done]. unfold read_row.
  destruct (map_signing_job j) as [j'|e] eqn:Hmap; [|done]. cbn.
  assert (j' = j) as -> by (unfold map_signing_job in Hmap; res_open; done).
  unfold on_storage, zoom. destruct (m (ds_storage s)) as [db [u|e]] eqn:E; cbn.
  - by eapply (agrees_project s (with_storage db s)); [|eapply Hm| |].
  - apply Ha in E as ->. by apply agrees_storage_same.
Qed.

Lemma complete_job_atomic job_id b g now : atomic (complete_signing_job job_id b g now).
Proof. apply atomic_guarded. intros _. apply atomic_immediate. Qed.
Lemma terminate_job_atomic job_id b st re now : atomic (terminate_signing_job job_id b st re now).
Proof. apply atomic_guarded. intros _. apply atomic_immediate. Qed.
Lemma complete_job_moves job_id b g now db db' u j : complete_signing_job job_id b g now db = (db', Ok u) ->
  db_jobs db !! job_id = Some j -> moves (jn_intent_id (jb_bound j)) TxSigned db db'.
Proof. unfold complete_signing_job. intros HE Hj. act_inv. by eapply end_job_moves. Qed.
Lemma terminate_job_moves job_id b st re now db db' u j : terminate_signing_job job_id b st re now db = (db', Ok u) ->
  db_jobs db !! job_id = Some j -> moves (jn_intent_id (jb_bound j)) TxInvalidated db db'.
Proof. unfold terminate_signing_job. intros HE Hj. act_inv; by eapply end_job_moves. Qed.

Lemma store_exec_agrees `{!IntentJsonLaws} op s : store_op_ok op -> agrees s -> agrees (store_exec op s).
Proof.
  destruct quiet_methods as (Q1 & Q2 & Q3 & Q4). intros Hok HA. destruct op; cbn [store_exec store_op_ok] in *.
  - destruct Hok. apply (triple_keeps agrees); [by apply insert_agrees|done].
  - cbn. destruct (ds_get_intent s id) as [i|] eqn:Hg; [by eapply update_agrees|done].
  - apply (triple_keeps agrees); [by apply on_storage_quiet|done].
  - apply (triple_keeps agrees); [|done]. cbn. unfold ds_insert_passkey. triple_step; [done|]. by apply on_storage_quiet.
  - apply (triple_keeps agrees); [by apply on_storage_quiet|done].
  - apply (triple_keeps agrees); [apply complete_agrees|done].
  - apply (triple_keeps agrees); [by apply create_job_agrees|done].
  - apply (triple_keeps agrees); [by apply on_storage_quiet|done].
  - apply (triple_keeps agrees); [|done]. apply (end_job_agrees _ _ TxSigned); [apply complete_job_atomic|apply complete_job_moves|done].
  - apply (triple_keeps agrees); [|done]. cbn. unfold ds_terminate_chain_signing_job. triple_step; [done|].
    apply (end_job_agrees _ _ TxInvalidated); [apply terminate_job_atomic|apply terminate_job_moves|done].
Qed.
Lemma store_run_agrees `{!IntentJsonLaws} ops s : Forall store_op_ok ops -> agrees s -> agrees (store_run ops s).
Proof.
  revert s. induction ops as [|op ops IH]; intros s Hok HA; [done|]. apply Forall_cons in Hok as [Hop Hok].
  apply IH; [done|]. by apply store_exec_agrees.
Qed.

(** ** Ending a job *)

(** What the store asks of a job before it terminates it. *)
Definition job_open (db : WalletDb) (job_id : Uuid) (binding : bytes) (j : StoredSigningJob) : Prop :=
  db_jobs db !! job_id = Some j /\ map_signing_job j = Ok j /\ jb_status j = SjSigning /\
  jb_operation_binding_digest j = Some binding /\
  exists m r, db_metadata db = Some m /\ ensure_mutations_allowed m = Ok tt /\ jn_wallet_id (jb_bound j) = wm_wallet_id m /\
    db_intents db !! jn_intent_id (jb_bound j) = Some r /\ in_current_epoch m r = true /\ ir_status r = TxSigning.

Lemma job_intent_iff job_id (s s' : DurableWalletStore) id : job_intent job_id s = (s', Ok id) <->
  s' = s /\ exists j, db_jobs (ds_storage s) !! job_id = Some j /\ map_signing_job j = Ok j /\ id = jn_intent_id (jb_bound j).
Proof.
  unfold job_intent, mbind, act_bind, reads, lift, mret, act_ret, stored, signing_job.
  destruct (db_jobs (ds_storage s) !! job_id) as [j|]; cbn; [|split; [done|by intros (_ & ? & ? & _)]].
  destruct (map_signing_job j) as [j'|e] eqn:Hm; cbn.
  - assert (j' = j) as -> by (unfold map_signing_job in Hm; res_open; done). split.
    + intros [= <- <-]. eauto.
    + by intros (-> & ? & [= <-] & _ & ->).
  - split; [done|]. intros (_ & j2 & E & Hr2 & _). simplify_eq. congruence.
Qed.
Lemma job_intent_state job_id (s : DurableWalletStore) : (job_intent job_id s).1 = s.
Proof.
  unfold job_intent, mbind, act_bind, reads, lift, mret, act_ret. destruct (stored _) as [[|]|]; done.
Qed.
Lemma terminate_iff job_id b status reason now db db' j :
  db_jobs db !! job_id = Some j -> map_signing_job j = Ok j ->
  (status = SjAborted \/ status = SjFailed) -> reason <> "" -> (String.length reason <= 128)%nat ->
  terminate_signing_job job_id b status reason now db = (db', Ok tt) <->
  job_open db job_id b j /\ exists m r, db_metadata db = Some m /\ db_intents db !! jn_intent_id (jb_bound j) = Some r /\
    db' = append_audit m "chain_signing.terminated" (Some (uuid_to_string job_id)) now
      (put_intents (<[jn_intent_id (jb_bound j) := with_intent_status TxInvalidated now r]> (db_intents db))
        (put_jobs (<[job_id := terminated_job status reason now j]> (db_jobs db)) db)).
Proof.
  intros Hj Hread Hst Hne Hlen. unfold terminate_signing_job, mbind, act_bind, lift.
  assert (negb (bool_decide (status = SjAborted) || bool_decide (status = SjExpired) || bool_decide (status = SjFailed))
    || bool_decide (reason = "") || (128 <? String.length reason)%nat = false) as ->.
  { rewrite (bool_decide_false (reason = "")) by done. assert ((128 <? String.length reason)%nat = false) as -> by (apply Nat.ltb_ge; lia).
    by destruct Hst as [-> | ->]. }
  cbn. unfold end_signing_job. rewrite mutation_Ok. rewrite Hj. cbn. unfold job_open. split.
  - intros (m & Hm & Hu & HE). db_open. simplify_eq. split; [split_and!; try done; eexists _, _; split_and!; done|]. eexists _, _; split_and!; done.
  - intros [(_ & _ & Hs & Hb & m & r & Hm & Hu & Hw & Hr & He & Hi) (m' & r' & Hm' & Hr' & ->)]. simplify_eq.
    exists m. split; [done|]. split; [done|]. rewrite Hw, Hb, Hs, !bool_decide_true by done. cbn.
    rewrite (proj2 (update_where_Some (db_jobs db) _ _ _ _)) by (exists j; by rewrite Hs, bool_decide_true). cbn.
    rewrite (proj2 (update_where_Some (db_intents db) _ _ _ _)) by (exists r; by rewrite He, Hi, bool_decide_true). done.
Qed.

(** ** Properties *)

(** C20: The memory of the durable store is its database.  After any run of the
    store's methods other than FROST nonce claims from an opened store, in
    which new intents are pending with fields of the Rust types and a CovHub
    scope its deserializer accepts, updates change the status alone and jobs
    read back, reopening the database succeeds and gives back every intent the
    store was serving, under the same wallet. *)
Theorem durable_projection_faithful `{!IntentJsonLaws} db n s ops n' :
  from_storage db n = Ok s -> Forall store_op_ok ops ->
  let s' := store_run ops s in
  exists s2, from_storage (ds_storage s') n' = Ok s2 /\ ds_wallet_id s2 = ds_wallet_id s' /\
    forall id, get_intent s2 id = get_intent s' id.
Proof. intros Hopen Hok s'. apply reopen_agrees, store_run_agrees; [done|]. by eapply from_storage_agrees. Qed.

(** What a claim requires and writes. *)
Lemma claim_frost_moves c db db' : consume_authorization_and_claim_frost_nonce c db = (db', Ok tt) ->
  moves (fc_intent_id c) TxSigning db db' /\
  forall m, db_metadata db = Some m -> exists r, db_intents db !! fc_intent_id c = Some r /\ current_v2 m r = true /\
    ir_status r = TxApproved.
Proof.
  unfold consume_authorization_and_claim_frost_nonce. intros (m & Hm & Hu & HE)%mutation_Ok. db_open. simplify_eq. split.
  - eexists _, _. by split_and!.
  - intros m0 Hm0. rewrite Hm in Hm0. injection Hm0 as <-. eexists. split; [done|]. split; [|done].
    unfold current_v2, in_current_epoch in *. autorewrite with guards in *. destruct_ex. done.
Qed.
Lemma loads_status t id r i : load_intent t (id, r) = Ok i -> si_status i = from_storage_status (ir_status r).
Proof. unfold load_intent. intros HE. res_open. done. Qed.

(** C38: Claiming a FROST nonce strands the intent in memory.  When a claim
    succeeds after a run as above, the stored intent is signing, but the store
    still serves it as approved and refuses to mark it signed; the database
    opened again serves it as signing. *)
Theorem nonce_claim_strands_projection db n s ops c s' `{!IntentJsonLaws} :
  from_storage db n = Ok s -> Forall store_op_ok ops ->
  claim_frost_nonce c (store_run ops s) = (s', Ok tt) ->
  exists i, get_intent s' (nc_intent_id c) = Some i /\ si_status i = IntentApproved /\
    (forall now, exists e, update_intent (set_status i IntentSigned) now s' = (s', Err e)) /\
    exists s2, from_storage (ds_storage s') n = Ok s2 /\ get_intent s2 (nc_intent_id c) = Some (set_status i IntentSigning).
Proof.
  intros Hopen Hok Hc. assert (agrees (store_run ops s)) as HA by (apply store_run_agrees; [done|by eapply from_storage_agrees]).
  set (s1 := store_run ops s) in *. apply on_storage_Ok in Hc as (db' & Hc & ->).
  apply claim_frost_moves in Hc as [Hmv Happ]. cbn in Hmv, Happ. destruct (ag_metadata _ HA) as (m & Hm & _).
  destruct (Happ m Hm) as (r & Hr & Hcur & Hst). destruct (ag_rows _ HA m _ r Hm Hr Hcur) as (i & Hg & mat & _ & HL).
  exists i. split; [done|]. split; [by rewrite (loads_status _ _ _ _ HL), Hst|].
  assert (si_status i = IntentApproved) as Hs by (by rewrite (loads_status _ _ _ _ HL), Hst).
  pose proof (get_intent_id _ _ _ Hg) as Hid. split.
  - intros now. exists (store_error (ST_InvalidIntentTransition TxApproved TxSigned)). cbn. unfold ds_update_intent.
    unfold mbind at 1, act_bind at 1, gets. change (si_id (set_status i IntentSigned)) with (si_id i). rewrite Hid.
    change (ds_get_intent (with_storage db' s1) (nc_intent_id c)) with (ds_get_intent s1 (nc_intent_id c)). rewrite Hg.
    unfold mbind, act_bind, lift, ok_or, on_storage, zoom. rewrite Hs. done.
  - pose proof (agrees_project s1 (with_storage db' s1) _ _ HA Hmv eq_refl eq_refl) as HP.
    destruct (reopen_agrees _ n HP) as (s2 & Hs2 & _ & Hget). exists s2. split; [done|]. cbn. rewrite Hget.
    unfold ds_get_intent. cbn. rewrite find_update_status, bool_decide_true by done. unfold ds_get_intent in Hg. by rewrite Hg.
Qed.
End projection.

Lemma error_text_nonempty e : ascii_bytes (job_error_text e) <> [].
Proof. by destruct e. Qed.

Section failed_jobs.
Context `{UuidText} `{BuildInfo} `{BitcoinLib} `{JsonText} `{SqliteText} `{IntentJson} `{DurableText} `{ProfileAddress}.
Context `{BuildProfile} `{TextCodec} `{WebauthnLib} `{HashOrder} `{ReviewLib} `{FrostLib} {P : Type} `{!ThresholdSigner P}.

Definition node_store (n : WalletNodeService (S:=DurableWalletStore) (P:=P)) : DurableWalletStore := wa_store (wn_wallet n).
Lemma node_unchanged (n : WalletNodeService (S:=DurableWalletStore) (P:=P)) : set_wallet (set_store (node_store n) (wn_wallet n)) n = n.
Proof. by destruct n as [[]]. Qed.

(** The store's answer when the node ends a job. *)
Lemma terminate_store_spec job_id b error reason now (s : DurableWalletStore) :
  let status := match error with Interrupted => JobAborted | _ => JobFailed end in
  let stored_status := match error with Interrupted => SjAborted | _ => SjFailed end in
  reason <> "" -> (String.length reason <= 128)%nat ->
  (forall j, job_open (ds_storage s) job_id b j -> exists s',
     ds_terminate_chain_signing_job job_id b status reason now s = (s', Ok tt) /\
     db_jobs (ds_storage s') = <[job_id := terminated_job stored_status reason now j]> (db_jobs (ds_storage s)) /\
     (ir_status <$> db_intents (ds_storage s') !! jn_intent_id (jb_bound j)) = Some TxInvalidated /\
     ds_get_intent s' (jn_intent_id (jb_bound j)) =
       (fun i => set_status i IntentExpired) <$> ds_get_intent s (jn_intent_id (jb_bound j))) /\
  ((forall j, ~ job_open (ds_storage s) job_id b j) ->
   exists e, ds_terminate_chain_signing_job job_id b status reason now s = (s, Err e)).
Proof.
  intros status stored_status Hne Hlen.
  assert (terminal_status status = Ok stored_status) as Hts by (unfold status, stored_status; by destruct error).
  assert (stored_status = SjAborted \/ stored_status = SjFailed) as Hst by (unfold stored_status; destruct error; auto).
  unfold ds_terminate_chain_signing_job, mbind, act_bind, lift. rewrite Hts. split.
  - intros j HO. pose proof HO as (Hj & Hr & Hs & _ & m & r & Hm & _ & _ & Hi & _).
    rewrite (proj2 (job_intent_iff job_id s s (jn_intent_id (jb_bound j))) (conj eq_refl (ex_intro _ j (conj Hj (conj Hr eq_refl))))).
    pose proof (proj2 (terminate_iff job_id b stored_status reason now _ _ j Hj Hr Hst Hne Hlen)
      (conj HO (ex_intro _ m (ex_intro _ r (conj Hm (conj Hi eq_refl)))))) as HT.
    unfold on_storage, zoom. rewrite HT. eexists. split; [done|]. cbn. split; [done|].
    rewrite lookup_insert_eq. split; [done|]. unfold ds_get_intent. cbn. by rewrite find_update_status, bool_decide_true.
  - intros HN. pose proof (job_intent_state job_id s) as Hsame. destruct (job_intent job_id s) as [s1 [id|e]] eqn:HJ; cbn in Hsame; subst.
    + apply job_intent_iff in HJ as (_ & j & Hj & Hr & ->). unfold on_storage, zoom.
      destruct (terminate_signing_job _ _ _ _ _ _) as [db [[]|e]] eqn:HT.
      * apply (terminate_iff _ _ _ _ _ _ _ j) in HT as [HO _]; [|done..]. by apply HN in HO.
      * apply terminate_job_atomic in HT as ->. eexists. cbn. by destruct s.
    + by eexists.
Qed.

(** C37: what becomes of a signing job whose executor fails, on the durable
    store.  (1) If byte 128 of the error text lies inside a UTF-8 character, the
    call panics and nothing is written.  Otherwise the reason is the first 128
    bytes of the text and: (2) if the stored job is open (it reads back, is
    signing under this operation binding for this wallet, mutations are
    allowed and its intent is signing in the current epoch), the job row
    becomes aborted (for an interruption) or failed with this reason, its
    intent is invalidated and served as expired, and the executor's error is
    returned; (3) if it is not open, the store's refusal is returned and the
    node and its database are unchanged. *)
Theorem failed_job_outcome (claimed : ClaimedChainSigningJob) error now (n : WalletNodeService (S:=DurableWalletStore) (P:=P)) :
  let text := ascii_bytes (job_error_text error) in
  let status := match error with Interrupted => SjAborted | _ => SjFailed end in
  let job_id := sj_job_id (ce_job (cl_execution claimed)) in
  let binding := ce_operation_binding_digest (cl_execution claimed) in
  let db := ds_storage (node_store n) in
  let call := complete_claimed_chain_signing_job claimed (Err error) now n in
  (forall c, text !! 128%nat = Some c -> is_continuation c = true -> call = (n, Err Panic)) /\
  ((forall c, text !! 128%nat = Some c -> is_continuation c = false) ->
   (forall j, job_open db job_id binding j -> exists n' reason,
      call = (n', Err (Fail (WN_ChainSigning error))) /\ ascii_bytes reason = take 128 text /\
      db_jobs (ds_storage (node_store n')) = <[job_id := terminated_job status reason now j]> (db_jobs db) /\
      (ir_status <$> db_intents (ds_storage (node_store n')) !! jn_intent_id (jb_bound j)) = Some TxInvalidated /\
      get_intent (node_store n') (jn_intent_id (jb_bound j)) =
        (fun i => set_status i IntentExpired) <$> get_intent (node_store n) (jn_intent_id (jb_bound j))) /\
   ((forall j, ~ job_open db job_id binding j) ->
    exists e, call = (n, Err (Fail (WalletNodeError_from_wallet (WE_Store e)))))).
Proof.
  cbv zeta. split.
  { intros c Hc Hcont. unfold complete_claimed_chain_signing_job, mbind, act_bind, lift, truncate. by rewrite Hc, Hcont. }
  intros Hc. destruct (truncate_Ok 128 _ Hc) as (reason & Ht & Hre).
  assert (reason <> "") as Hne.
  { intros ->. cbn in Hre. pose proof (error_text_nonempty error) as Hn. by destruct (ascii_bytes (job_error_text error)). }
  assert (String.length reason <= 128)%nat as Hlen.
  { rewrite <- length_ascii_bytes, <- Hre, length_take. lia. }
  destruct (terminate_store_spec (sj_job_id (ce_job (cl_execution claimed))) (ce_operation_binding_digest (cl_execution claimed))
    error reason now (node_store n) Hne Hlen) as [HO HN].
  unfold complete_claimed_chain_signing_job, wallet_call, store_call, zoom, mbind, act_bind, lift. rewrite Ht. cbn. split.
  - intros j (s' & Hcall & Hj & Hi & Hg)%HO. fold (node_store n). rewrite Hcall. cbn. by eexists _, reason.
  - intros (e & Hcall)%HN. fold (node_store n). rewrite Hcall. cbn. rewrite node_unchanged. by exists e.
Qed.
End failed_jobs.

(** ** A concrete store *)

(** An intent as a text: the digits of the code number of its fields. *)
Fixpoint digits_text (p : positive) : string :=
  match p with xH => "" | xO q => String Ascii.zero (digits_text q) | xI q => String Ascii.one (digits_text q) end.
Fixpoint text_digits (s : string) : positive :=
  match s with
  | EmptyString => xH
  | String (Ascii.Ascii b _ _ _ _ _ _ _) r => if b then xI (text_digits r) else xO (text_digits r)
  end.
Lemma text_digits_text p : text_digits (digits_text p) = p.
Proof. induction p; cbn; congruence. Qed.

(** Enumerations by their place in the list of their values. *)
Definition place {A} `{EqDecision A} (l : list A) (x : A) : nat := default O (fst <$> list_find (fun y => y = x) l).
#[local] Instance ChainId_countable : Countable ChainId.
Proof. refine (inj_countable (place ChainId_ALL) (fun n => ChainId_ALL !! n) _). by intros []. Defined.
#[local] Instance ChainNetwork_countable : Countable ChainNetwork.
Proof. refine (inj_countable (place ChainNetwork_ALL) (fun n => ChainNetwork_ALL !! n) _). by intros [[]|[]|[]|[]|[]|[]|[]]. Defined.
#[local] Instance IntentNetwork_countable : Countable IntentNetwork.
Proof.
  refine (inj_countable' (fun n => bool_decide (n = Signet)) (fun b => if b : bool then Signet else NetworkCovhubDelegated) _). by intros [].
Defined.
#[local] Instance SigningAction_countable : Countable SigningAction.
Proof.
  refine (inj_countable' (fun n => bool_decide (n = SignTaprootTransaction))
    (fun b => if b : bool then SignTaprootTransaction else ActionCovhubDelegated) _). by intros [].
Defined.
Definition statuses := [IntentPending; IntentApproved; IntentSigning; IntentCancelled; IntentExpired; IntentSigned].
#[local] Instance IntentStatus_countable : Countable IntentStatus.
Proof. refine (inj_countable (place statuses) (fun n => statuses !! n) _). by intros []. Defined.
#[local] Instance ChainScope_countable : Countable ChainScope.
Proof.
  refine (inj_countable' (fun s => (cs_schema_version s, cs_chain s, cs_network s)) (fun '(v, c, n) => mkChainScope v c n) _).
  by intros [].
Defined.
#[local] Instance PersonalSigningPolicy_countable : Countable PersonalSigningPolicy.
Proof.
  refine (inj_countable'
    (fun p => (pp_profile_id p, pp_signer_set_id p, pp_signer_epoch p, pp_group_pubkey_xonly p, pp_allowed_participants p,
               pp_threshold p, pp_policy_digest p, pp_chain_snapshot_digest p))
    (fun '(a, b, c, d, e, f, g, h) => mkPersonalSigningPolicy a b c d e f g h) _). by intros [].
Defined.
#[local] Instance CovhubBinding_countable : Countable CovhubBinding.
Proof.
  refine (inj_countable'
    (fun b => (cb_version b, cb_proposal_id b, cb_proposal_digest b, cb_canvas_digest b, cb_code_confirmation_digest b,
               cb_chain_scope b, cb_review_digest b, cb_signing_message_digest b, cb_profile_id b))
    (fun '(a, b, c, d, e, f, g, h, i) => mkCovhubBinding a b c d e f g h i) _). by intros [].
Defined.
#[local] Instance SigningIntent_countable : Countable SigningIntent.
Proof.
  refine (inj_countable'
    (fun i => (si_id i, si_network i, si_protocol_version i, si_action i, si_wallet_id i, si_signer_id i,
               si_personal_signing_policy i, si_tx_digest i, si_session_id i, si_expiry i, si_nonce i, si_status i,
               si_created_at i, si_covhub i))
    (fun '(a, b, c, d, e, f, g, h, i, j, k, l, m, n) => mkSigningIntent a b c d e f g h i j k l m n) _). by intros [].
Defined.

(** As [ChainScope::deserialize]. *)
Definition scope_readable (i : SigningIntent) : bool :=
  match si_covhub i with
  | Some b => is_ok (ChainScope_deserialize (cs_schema_version (cb_chain_scope b)) (cs_chain (cb_chain_scope b))
                       (cs_network (cb_chain_scope b)))
  | None => true
  end.
#[local] Instance sample_intent_json : IntentJson := {|
  intent_to_value i := Ok (digits_text (encode i));
  intent_from_value text :=
    i ← ok_or (decode (text_digits text)) "unreadable";
    _ ← reject_if (negb (scope_readable i)) "chain scope";
    Ok i;
|}.
#[local] Instance sample_intent_json_laws : IntentJsonLaws.
Proof.
  constructor. intros i [Hwf _]. eexists. split; [done|]. cbn. rewrite text_digits_text, decode_encode. cbn.
  assert (scope_readable i = true) as ->; [|done]. unfold scope_readable, intent_wf, covhub_binding_wf in *. destruct (si_covhub i) as [b|]; [|done].
  destruct_ex. by rewrite scope_deserialize_wf.
Qed.
#[local] Instance sample_durable_text : DurableText := {| uuid_error_text _ := "uuid" |}.
#[local] Instance sample_address : ProfileAddress := {| expected_profile_address _ := Ok "address" |}.
#[local] Instance sample_sqlite : SqliteText := "sqlite".
#[local] Existing Instance sample_uuid.
#[local] Existing Instance sample_build.
#[local] Existing Instance sample_json_text.
#[local] Existing Instance hex_lib.

Definition sample_intent : SigningIntent :=
  mkSigningIntent (u x02) Signet 1 SignTaprootTransaction (u x01) 1 None (d x02) (d x04) 100 (d x05) IntentPending 2 None.
Definition empty_store : DurableWalletStore := mkDurableWalletStore (created (u x01) 1) []
  (mkStorageDescriptor Durable (Some CURRENT_SCHEMA_VERSION) (Some 1) 0) (u x01).
Definition sample_ops : list StoreOp :=
  [ SoProfile (mkWebauthnProfileState (u x01) (u x20) "wallet.test" "https://wallet.test" 1 1);
    SoPasskey (mkPasskeyState "credential" "label" "{}" PASSKEY_FORMAT 1 1);
    SoInsert sample_intent;
    SoBegin (mkApprovalStartState (u x07) (u x02) "credential" (d x08) 3 50);
    SoComplete (mkApprovalCompletionState (u x07) (u x02) "credential" 1 "{}" (d x08) (u x09) 60
      "wallet.test" "https://wallet.test" 4) ].

Lemma sample_ops_ok : Forall store_op_ok sample_ops.
Proof.
  repeat constructor; unfold is_u16, is_i64; simpl; lia.
Qed.
Example sample_store_approves :
  si_status <$> get_intent (store_run sample_ops empty_store) (u x02) = Some IntentApproved.
Proof. vm_compute. reflexivity. Qed.

Lemma empty_store_opens : from_storage (created (u x01) 1) 0 = Ok empty_store.
Proof. reflexivity. Qed.
Lemma durable_projection_faithful_witness :
  exists s2, from_storage (ds_storage (store_run sample_ops empty_store)) 0 = Ok s2 /\
    si_status <$> get_intent s2 (u x02) = Some IntentApproved.
Proof.
  destruct (durable_projection_faithful (created (u x01) 1) 0 empty_store sample_ops 0 empty_store_opens sample_ops_ok)
    as (s2 & Hs2 & _ & Hg).
  exists s2. split; [exact Hs2|]. rewrite Hg. exact sample_store_approves.
Defined.

Definition sample_claim : FrostNonceClaimState := mkFrostNonceClaimState (u x09) (u x02) 1 (d x04) (d x0a) 5.
Definition claimed_store : DurableWalletStore := (claim_frost_nonce sample_claim (store_run sample_ops empty_store)).1.
Lemma sample_claim_succeeds :
  claim_frost_nonce sample_claim (store_run sample_ops empty_store) = (claimed_store, Ok tt).
Proof.
  assert ((claim_frost_nonce sample_claim (store_run sample_ops empty_store)).2 = Ok tt) as <- by (vm_compute; reflexivity).
  apply surjective_pairing.
Qed.
Lemma nonce_claim_strands_projection_witness :
  exists i, get_intent claimed_store (u x02) = Some i /\ si_status i = IntentApproved.
Proof.
  destruct (nonce_claim_strands_projection (created (u x01) 1) 0 empty_store sample_ops sample_claim claimed_store
    empty_store_opens sample_ops_ok sample_claim_succeeds) as (i & Hg & Hs & _). exists i. split; [exact Hg|exact Hs].
Defined.

(** A store with a signer profile, on which the approved intent starts a job
    and an executor claims it; the executor fails. *)
Definition chain_job : SigningJob :=
  mkSigningJob (u x0e) (u x02) (u x0b) (u x01) sample_scope BitcoinBip340FrostV1 FrostSecp256k1Tr
    (mkReviewArtifact 2 sample_scope (d x0f) (d x02) "review" [x01])
    (mkReviewBinding 1 sample_scope BitcoinBip340FrostV1 "set" 1 2 (d x0f)) compatibility_policy_hash (d x10) ("a", "b") "a" (d x04) 100 5.
Definition profile_db : WalletDb :=
  (register_signer_profile (mkSignerProfileRecord (u x0b) (u x01) sample_scope BitcoinBip340FrostV1 FrostSecp256k1Tr "set"
     "frost:participant-1" 1 2 3 (d x0c) (u x0d) 2)
    (put_secret_ref (mkSecretRef (u x0d) OsKeychain "keychain://share" 2 2) (created (u x01) 1)).1).1.
Definition profile_store : DurableWalletStore := mkDurableWalletStore profile_db []
  (mkStorageDescriptor Durable (Some CURRENT_SCHEMA_VERSION) (Some 1) 0) (u x01).
Definition claimed_job_store : DurableWalletStore := store_run
  (sample_ops ++ [ SoCreateJob (mkCreateChainSigningJobRequest (u x09) (d x08) chain_job) 5;
                   SoClaimExecutor (mkChainSigningExecution chain_job (d x08)) 6 ]) profile_store.
Definition failing_node : WalletNodeService (S:=DurableWalletStore) (P:=LocalFrostParticipant) :=
  mkWalletNodeService (with_store claimed_job_store) (wn_relying_party demo_fallback) None None 0 false ∅ ∅ ∅ ∅ ∅ ∅ ∅ [].
(** An error text with a two-byte character across byte 128. *)
Definition accented_reason : string := String.string_of_list_byte (replicate 103 x61 ++ [xc3; xa9] ++ [x21]).
Definition failing_job : ClaimedChainSigningJob :=
  mkClaimedChainSigningJob (mkChainSigningExecution chain_job (d x08))
    (mkChainSigningExecutor (ChainSigningExecutorKey_from_job chain_job) (fun _ _ => Err (JobBackend accented_reason))).
Definition open_row : StoredSigningJob := mkStoredSigningJob (new_signing_job chain_job) (Some (d x08)) SjSigning None None 5.

Lemma failing_job_open : job_open (ds_storage (node_store failing_node)) (u x0e) (d x08) open_row.
Proof. split_and!; [by vm_compute..|]. eexists _, _. split_and!; vm_compute; reflexivity. Qed.
(** Byte 128 splits a character: a panic, nothing written.  An interruption:
    the job is aborted; reported once more, the store refuses. *)
Lemma failed_job_outcome_witness :
  complete_claimed_chain_signing_job failing_job (Err (JobBackend accented_reason)) 20 failing_node = (failing_node, Err Panic) /\
  exists n', complete_claimed_chain_signing_job failing_job (Err Interrupted) 20 failing_node =
      (n', Err (Fail (WN_ChainSigning Interrupted))) /\
    (jb_status <$> db_jobs (ds_storage (node_store n')) !! u x0e) = Some SjAborted /\
    exists e, complete_claimed_chain_signing_job failing_job (Err Interrupted) 21 n' =
      (n', Err (Fail (WalletNodeError_from_wallet (WE_Store e)))).
Proof.
  split.
  - apply (proj1 (failed_job_outcome failing_job (JobBackend accented_reason) 20 failing_node) xa9); by vm_compute.
  - pose proof failing_job_open as Hopen. revert Hopen. generalize failing_node. intros n Hopen.
    destruct (proj2 (failed_job_outcome failing_job Interrupted 20 n) (fun c Hc => ltac:(discriminate Hc))) as [Hc _].
    destruct (Hc open_row Hopen) as (n' & reason & Hcall & _ & Hj & _).
    exists n'. split; [exact Hcall|]. rewrite Hj. split; [by rewrite lookup_insert_eq|].
    apply (proj2 (failed_job_outcome failing_job Interrupted 21 n') (fun c Hd => ltac:(discriminate Hd))).
    intros j (Hrow & _ & Hs & _). rewrite Hj, lookup_insert_eq in Hrow. injection Hrow as <-. discriminate Hs.
Defined.
