(* ===== verification/PersonalPackages.v ===== *)
(** * Secret packages of a personal 2-of-3 signer set
      (src/crates/threshold-signer/src/personal.rs)

    The bootstrap of a profile and its three participant packages from the
    output of a key generation, and the checks that tie a package to one
    profile.  Key packages are values of the FROST crate; zeroization of memory
    is not observable here. *)

From Stdlib Require Import ZArith Lia.
From S2P Require Import Prelude Bitcoin IssuanceTerms Frost Participant Personal Text.
From stdpp Require Import list gmap.
Local Open Scope string_scope.
Local Open Scope list_scope.
Local Open Scope Z_scope.

Definition PERSONAL_PROFILE_FORMAT_VERSION : Z := 1.
Definition PERSONAL_SECRET_PACKAGE_FORMAT_VERSION : Z := 1.
Definition PERSONAL_PROFILE_MAX_BYTES : Z := 64 * 1024.
Definition PERSONAL_SECRET_PACKAGE_MAX_BYTES : Z := 64 * 1024.
Definition PERSONAL_MIN_SIGNERS : Z := 2.
Definition PERSONAL_MAX_SIGNERS : Z := 3.

Inductive PersonalProfileError :=
| PP_UnsupportedVersion | PP_InvalidEpoch | PP_InvalidThreshold | PP_InvalidParticipantInventory
| PP_InvalidPublicPackage | PP_InvalidKeyPackage | PP_PackageTooLarge | PP_Encoding
| PP_ProfileBindingMismatch | PP_ParticipantMismatch | PP_KeyPackageMismatch.

#[export] Instance PersonalProfileError_eq_dec : EqDecision PersonalProfileError.
Proof. solve_decision. Defined.
#[export] Instance PersonalSignerProfile_eq_dec : EqDecision PersonalSignerProfile.
Proof. solve_decision. Defined.

Record PersonalParticipantSecretPackage := mkSecretPackage {
  sp_format_version : Z;
  sp_profile_id : Uuid;
  sp_wallet_id : Uuid;
  sp_signer_set_id : Uuid;
  sp_signer_epoch : Z;
  sp_signer_id : Z;
  sp_min_signers : Z;
  sp_max_signers : Z;
  sp_group_pubkey_xonly : bytes;
  sp_profile_binding_digest : bytes;
  sp_key_package : bytes;
}.

#[export] Instance PersonalParticipantSecretPackage_eq_dec : EqDecision PersonalParticipantSecretPackage.
Proof. solve_decision. Defined.

(** ** What the profile reads of key material *)

Class FrostKeys `{FrostLib} := {
  VerifyingShare_eq_dec :: EqDecision VerifyingShare;
  VerifyingKey_eq_dec :: EqDecision VerifyingKey;
  identifier_serialize : Identifier -> bytes;
  verifying_share_serialize : VerifyingShare -> option bytes;
  key_package_min_signers : KeyPackage -> Z;
  key_package_verifying_key : KeyPackage -> VerifyingKey;
  key_package_verifying_share : KeyPackage -> VerifyingShare;
  key_package_serialize : KeyPackage -> option bytes;
  key_package_deserialize : bytes -> option KeyPackage;
  public_package_serialize : PublicKeyPackage -> option bytes;
  public_package_deserialize : bytes -> option PublicKeyPackage;
}.

Class FrostKeysLaws `{FrostKeys} : Prop := {
  key_package_roundtrip k b : key_package_serialize k = Some b -> key_package_deserialize b = Some k;
}.

(** serde_json at the two stored types; the wire structs of the package have
    the fields of the package. *)
Class PersonalJson := {
  profile_to_json : PersonalSignerProfile -> option bytes;
  profile_from_json : bytes -> option PersonalSignerProfile;
  package_to_json : PersonalParticipantSecretPackage -> option bytes;
  package_from_json : bytes -> option PersonalParticipantSecretPackage;
}.
Class PersonalJsonLaws `{PersonalJson} : Prop := {
  profile_json_roundtrip p b : profile_to_json p = Some b -> profile_from_json b = Some p;
  package_json_roundtrip p b : package_to_json p = Some b -> package_from_json b = Some p;
}.

(** The output of a key generation (dkg.rs). *)
Record LocalDkgOutput `{FrostLib} := mkLocalDkgOutput {
  dkg_min_signers : Z;
  dkg_max_signers : Z;
  dkg_key_packages : gmap Identifier KeyPackage;
  dkg_public_key_package : PublicKeyPackage;
}.

Definition for_signer (signer_id : Z) : result PersonalProfileError PersonalParticipantRole :=
  ok_or (role_for_signer signer_id) PP_InvalidParticipantInventory.

(** The signer ids of [1..=PERSONAL_MAX_SIGNERS]. *)
Definition personal_signers : list Z := [1; 2; 3].

Section packages.
Context `{BitcoinLib} `{FrostLib} `{!FrostKeys} `{TextCodec} `{PersonalJson}.

(** ** Profiles *)

Definition participant_descriptor (public : PublicKeyPackage) (signer_id : Z)
    : result PersonalProfileError PersonalParticipantDescriptor :=
  identifier ← ok_or (participant_identifier signer_id) PP_InvalidParticipantInventory;
  share ← ok_or (verifying_shares public !! identifier) PP_InvalidParticipantInventory;
  share_bytes ← ok_or (verifying_share_serialize share) PP_InvalidPublicPackage;
  role ← for_signer signer_id;
  Ok (mkPersonalParticipantDescriptor signer_id role (hex_encode (identifier_serialize identifier)) (sha256 share_bytes)).

Fixpoint descriptors_for (public : PublicKeyPackage) (ids : list Z)
    : result PersonalProfileError (list PersonalParticipantDescriptor) :=
  match ids with
  | [] => Ok []
  | i :: rest => d ← participant_descriptor public i; ds ← descriptors_for public rest; Ok (d :: ds)
  end.

Definition participant_descriptors (public : PublicKeyPackage)
    : result PersonalProfileError (list PersonalParticipantDescriptor) :=
  _ ← reject_if (negb (Z.of_nat (size (verifying_shares public)) =? PERSONAL_MAX_SIGNERS)) PP_InvalidParticipantInventory;
  descriptors_for public personal_signers.

Definition profile_public_key_package (p : PersonalSignerProfile) : result PersonalProfileError PublicKeyPackage :=
  ok_or (public_package_deserialize (ps_public_key_package p)) PP_InvalidPublicPackage.

(** [len != max || group(&public)? != self.group] *)
Definition public_differs (p : PersonalSignerProfile) (public : PublicKeyPackage) : result PersonalProfileError bool :=
  if negb (Z.of_nat (size (verifying_shares public)) =? ps_max_signers p) then Ok true
  else group ← map_err (fun _ => PP_InvalidPublicPackage) (group_pubkey_xonly public);
       Ok (negb (bool_decide (group = ps_group_pubkey_xonly p))).

Definition profile_validate (p : PersonalSignerProfile) : result PersonalProfileError unit :=
  _ ← reject_if (negb (ps_format_version p =? PERSONAL_PROFILE_FORMAT_VERSION)) PP_UnsupportedVersion;
  _ ← reject_if (ps_signer_epoch p =? 0) PP_InvalidEpoch;
  _ ← reject_if (negb (ps_min_signers p =? PERSONAL_MIN_SIGNERS) || negb (ps_max_signers p =? PERSONAL_MAX_SIGNERS))
        PP_InvalidThreshold;
  _ ← reject_if (PERSONAL_PROFILE_MAX_BYTES <? Z.of_nat (length (ps_public_key_package p))) PP_PackageTooLarge;
  public ← profile_public_key_package p;
  differs ← public_differs p public;
  _ ← reject_if differs PP_InvalidPublicPackage;
  expected ← participant_descriptors public;
  _ ← reject_if (negb (bool_decide (expected = ps_participants p))) PP_InvalidParticipantInventory;
  Ok tt.

Definition profile_to_bytes (p : PersonalSignerProfile) : result PersonalProfileError bytes :=
  _ ← profile_validate p;
  b ← ok_or (profile_to_json p) PP_Encoding;
  _ ← reject_if (PERSONAL_PROFILE_MAX_BYTES <? Z.of_nat (length b)) PP_PackageTooLarge;
  Ok b.

Definition profile_from_bytes (b : bytes) : result PersonalProfileError PersonalSignerProfile :=
  _ ← reject_if (PERSONAL_PROFILE_MAX_BYTES <? Z.of_nat (length b)) PP_PackageTooLarge;
  p ← ok_or (profile_from_json b) PP_Encoding;
  _ ← profile_validate p;
  Ok p.

(** ** Packages *)

Definition validate_key_package (key_package : KeyPackage) (identifier : Identifier) (p : PersonalSignerProfile)
    : result PersonalProfileError unit :=
  public ← profile_public_key_package p;
  _ ← reject_if (negb (bool_decide (key_package_identifier key_package = identifier))
                 || negb (key_package_min_signers key_package =? ps_min_signers p)
                 || negb (bool_decide (key_package_verifying_key key_package = verifying_key public))
                 || negb (bool_decide (verifying_shares public !! identifier = Some (key_package_verifying_share key_package))))
        PP_KeyPackageMismatch;
  Ok tt.

Record OpenedPersonalKeyPackage := mkOpened { ok_signer_id : Z; ok_key_package : option KeyPackage }.

Definition into_participant (o : OpenedPersonalKeyPackage) (guard : NonceGuard)
    : result PersonalProfileError LocalFrostParticipant :=
  key_package ← ok_or (ok_key_package o) PP_InvalidKeyPackage;
  map_err (fun _ => PP_InvalidKeyPackage) (LocalFrostParticipant_new (ok_signer_id o) key_package guard).

Definition package_open (s : PersonalParticipantSecretPackage) (p : PersonalSignerProfile)
    : result PersonalProfileError OpenedPersonalKeyPackage :=
  _ ← profile_validate p;
  _ ← reject_if (negb (sp_format_version s =? PERSONAL_SECRET_PACKAGE_FORMAT_VERSION)) PP_UnsupportedVersion;
  _ ← reject_if (negb (bool_decide (sp_profile_id s = ps_profile_id p))
                 || negb (bool_decide (sp_wallet_id s = ps_wallet_id p))
                 || negb (bool_decide (sp_signer_set_id s = ps_signer_set_id p))
                 || negb (sp_signer_epoch s =? ps_signer_epoch p)
                 || negb (sp_min_signers s =? ps_min_signers p)
                 || negb (sp_max_signers s =? ps_max_signers p)
                 || negb (bool_decide (sp_group_pubkey_xonly s = ps_group_pubkey_xonly p))
                 || negb (bool_decide (sp_profile_binding_digest s = profile_binding_digest p))) PP_ProfileBindingMismatch;
  identifier ← ok_or (participant_identifier (sp_signer_id s)) PP_ParticipantMismatch;
  _ ← reject_if (forallb (fun d => negb (pd_signer_id d =? sp_signer_id s)) (ps_participants p)) PP_ParticipantMismatch;
  key_package ← ok_or (key_package_deserialize (sp_key_package s)) PP_InvalidKeyPackage;
  _ ← map_err (fun _ => PP_KeyPackageMismatch) (validate_key_package key_package identifier p);
  Ok (mkOpened (sp_signer_id s) (Some key_package)).

Definition package_validate (s : PersonalParticipantSecretPackage) (p : PersonalSignerProfile)
    : result PersonalProfileError unit :=
  _ ← package_open s p;
  Ok tt.

Definition package_to_bytes (s : PersonalParticipantSecretPackage) : result PersonalProfileError bytes :=
  b ← ok_or (package_to_json s) PP_Encoding;
  _ ← reject_if (PERSONAL_SECRET_PACKAGE_MAX_BYTES <? Z.of_nat (length b)) PP_PackageTooLarge;
  Ok b.

Definition package_from_bytes (b : bytes) (p : PersonalSignerProfile)
    : result PersonalProfileError PersonalParticipantSecretPackage :=
  _ ← reject_if (PERSONAL_SECRET_PACKAGE_MAX_BYTES <? Z.of_nat (length b)) PP_PackageTooLarge;
  wire ← ok_or (package_from_json b) PP_Encoding;
  _ ← reject_if (negb (sp_format_version wire =? PERSONAL_SECRET_PACKAGE_FORMAT_VERSION)) PP_UnsupportedVersion;
  _ ← reject_if (sp_signer_epoch wire =? 0) PP_InvalidEpoch;
  _ ← reject_if (negb (sp_min_signers wire =? PERSONAL_MIN_SIGNERS) || negb (sp_max_signers wire =? PERSONAL_MAX_SIGNERS))
        PP_InvalidThreshold;
  _ ← reject_if (negb ((1 <=? sp_signer_id wire) && (sp_signer_id wire <=? PERSONAL_MAX_SIGNERS))) PP_ParticipantMismatch;
  _ ← package_open wire p;
  Ok wire.

(** ** Bootstrap *)

Definition validate_serialize_and_zeroize_key_package (key_package : KeyPackage) (signer_id : Z) (p : PersonalSignerProfile)
    : result PersonalProfileError bytes :=
  identifier ← ok_or (participant_identifier signer_id) PP_ParticipantMismatch;
  _ ← validate_key_package key_package identifier p;
  ok_or (key_package_serialize key_package) PP_InvalidKeyPackage.

(** The loop over the signer ids: key packages are removed one by one. *)
Fixpoint bootstrap_packages (p : PersonalSignerProfile) (ids : list Z) (key_packages : gmap Identifier KeyPackage)
    (secret_packages : gmap Z PersonalParticipantSecretPackage)
    : result PersonalProfileError (gmap Identifier KeyPackage * gmap Z PersonalParticipantSecretPackage) :=
  match ids with
  | [] => Ok (key_packages, secret_packages)
  | signer_id :: rest =>
      identifier ← ok_or (participant_identifier signer_id) PP_InvalidParticipantInventory;
      key_package ← ok_or (key_packages !! identifier) PP_InvalidParticipantInventory;
      key_bytes ← validate_serialize_and_zeroize_key_package key_package signer_id p;
      let package := mkSecretPackage PERSONAL_SECRET_PACKAGE_FORMAT_VERSION (ps_profile_id p) (ps_wallet_id p)
        (ps_signer_set_id p) (ps_signer_epoch p) signer_id (ps_min_signers p) (ps_max_signers p)
        (ps_group_pubkey_xonly p) (profile_binding_digest p) key_bytes in
      bootstrap_packages p rest (delete identifier key_packages) (<[signer_id := package]> secret_packages)
  end.

Definition bootstrap (profile_id wallet_id signer_set_id : Uuid) (signer_epoch : Z) (dkg : LocalDkgOutput)
    : result PersonalProfileError (PersonalSignerProfile * gmap Z PersonalParticipantSecretPackage) :=
  _ ← reject_if (signer_epoch =? 0) PP_InvalidEpoch;
  _ ← reject_if (negb (dkg_min_signers dkg =? PERSONAL_MIN_SIGNERS)
                 || negb (dkg_max_signers dkg =? PERSONAL_MAX_SIGNERS)
                 || negb (Z.of_nat (size (dkg_key_packages dkg)) =? PERSONAL_MAX_SIGNERS)) PP_InvalidThreshold;
  public ← ok_or (public_package_serialize (dkg_public_key_package dkg)) PP_InvalidPublicPackage;
  group ← map_err (fun _ => PP_InvalidPublicPackage) (group_pubkey_xonly (dkg_public_key_package dkg));
  participants ← participant_descriptors (dkg_public_key_package dkg);
  let profile := mkPersonalSignerProfile PERSONAL_PROFILE_FORMAT_VERSION profile_id wallet_id signer_set_id signer_epoch
    (dkg_min_signers dkg) (dkg_max_signers dkg) group public participants in
  _ ← profile_validate profile;
  '(rest, secret_packages) ← bootstrap_packages profile personal_signers (dkg_key_packages dkg) ∅;
  _ ← reject_if (negb (bool_decide (rest = ∅))) PP_InvalidParticipantInventory;
  Ok (profile, secret_packages).
End packages.

(** ** What the checks establish *)

Section facts.
Context `{BitcoinLib} `{FrostLib} `{!FrostKeys} `{TextCodec} `{PersonalJson}.

Lemma descriptors_for_ids public ids ds : descriptors_for public ids = Ok ds -> pd_signer_id <$> ds = ids.
Proof.
  revert ds. induction ids as [|i ids IH]; intros ds; simpl; [by intros [= <-]|].
  intros HD. next_in HD d Ed. next_in HD ds' Eds. injection HD as <-. rewrite fmap_cons, (IH _ Eds). f_equal.
  unfold participant_descriptor in Ed. res_inv. by subst d.
Qed.

Lemma profile_validate_Ok p :
  profile_validate p = Ok tt ->
  ps_format_version p = PERSONAL_PROFILE_FORMAT_VERSION /\ ps_signer_epoch p <> 0 /\
  ps_min_signers p = PERSONAL_MIN_SIGNERS /\ ps_max_signers p = PERSONAL_MAX_SIGNERS /\
  pd_signer_id <$> ps_participants p = personal_signers /\
  exists public, profile_public_key_package p = Ok public /\ group_pubkey_xonly public = Ok (ps_group_pubkey_xonly p) /\
    participant_descriptors public = Ok (ps_participants p).
Proof.
  unfold profile_validate. intros HV. next_in HV v1 E1. next_in HV v2 E2. next_in HV v3 E3. next_in HV v4 E4.
  next_in HV public Ep. next_in HV df Ed. next_in HV v5 E5. next_in HV ds Eds. next_in HV v6 E6.
  unfold public_differs in Ed. res_inv. subst df. case_match; [done|]. res_inv. subst.
  split_and!; [done..| |].
  - unfold participant_descriptors in Eds. next_in Eds u Eu. by eapply descriptors_for_ids.
  - exists public. split; [done|]. split; [|done].
    repeat match goal with Hx : map_err _ _ = Ok _ |- _ => apply map_err_Ok in Hx end. congruence.
Qed.

Lemma package_open_Ok s p o :
  package_open s p = Ok o <->
  profile_validate p = Ok tt /\ sp_format_version s = PERSONAL_SECRET_PACKAGE_FORMAT_VERSION /\
  sp_profile_id s = ps_profile_id p /\ sp_wallet_id s = ps_wallet_id p /\ sp_signer_set_id s = ps_signer_set_id p /\
  sp_signer_epoch s = ps_signer_epoch p /\ sp_min_signers s = ps_min_signers p /\ sp_max_signers s = ps_max_signers p /\
  sp_group_pubkey_xonly s = ps_group_pubkey_xonly p /\ sp_profile_binding_digest s = profile_binding_digest p /\
  sp_signer_id s ∈ personal_signers /\
  exists identifier k, participant_identifier (sp_signer_id s) = Some identifier /\
    key_package_deserialize (sp_key_package s) = Some k /\ validate_key_package k identifier p = Ok tt /\
    o = mkOpened (sp_signer_id s) (Some k).
Proof.
  unfold package_open. split.
  - intros HO. next_in HO u Ev. destruct u. next_in HO v1 E1. next_in HO v2 E2. next_in HO i Ei. next_in HO v3 E3.
    next_in HO k Ek. next_in HO v4 E4. apply map_err_Ok in E4. destruct v4. res_inv. subst o.
    pose proof (profile_validate_Ok _ Ev) as (_ & _ & _ & _ & Hids & _). split_and!; try done.
    + rewrite <- Hids. apply not_true_iff_false in E3.
      apply dec_stable. rewrite list_elem_of_fmap. intros Hn. apply E3, forallb_forall. intros d Hd. apply negb_true_iff, Z.eqb_neq.
      intros Heq. apply Hn. exists d. split; [done|]. by apply list_elem_of_In.
    + by exists i, k.
  - intros (Ev & E1 & E2 & E3 & E4 & E5 & E6 & E7 & E8 & E9 & Hin & i & k & Ei & Ek & Evk & ->).
    pose proof (profile_validate_Ok _ Ev) as (_ & _ & _ & _ & Hids & _). rewrite Ev. res_cbn.
    rewrite (reject_if_pass (negb (sp_format_version s =? _))) by guard_tac. res_cbn. rewrite (reject_if_pass (_ || _)).
    2:{ rewrite E2, E3, E4, E5, E6, E7, E8, E9, !Z.eqb_refl, !bool_decide_true by done. done. }
    res_cbn. rewrite Ei. res_cbn. rewrite reject_if_pass; [res_cbn; rewrite Ek; res_cbn; by rewrite Evk|].
    apply not_true_iff_false. rewrite forallb_forall. intros Hf.
    rewrite <- Hids, list_elem_of_fmap in Hin. destruct Hin as (d & Hd & Hdin). apply list_elem_of_In in Hdin.
    specialize (Hf _ Hdin). by rewrite Hd, Z.eqb_refl in Hf.
Qed.

(** The package of signer [i] with key bytes [kb]. *)
Definition package_of (p : PersonalSignerProfile) (i : Z) (kb : bytes) : PersonalParticipantSecretPackage :=
  mkSecretPackage PERSONAL_SECRET_PACKAGE_FORMAT_VERSION (ps_profile_id p) (ps_wallet_id p)
    (ps_signer_set_id p) (ps_signer_epoch p) i (ps_min_signers p) (ps_max_signers p)
    (ps_group_pubkey_xonly p) (profile_binding_digest p) kb.

Lemma bootstrap_packages_Ok p ids keys acc rest out :
  bootstrap_packages p ids keys acc = Ok (rest, out) -> NoDup ids ->
  forall i, (i ∈ ids -> exists id k kb, participant_identifier i = Some id /\ keys !! id = Some k /\
               validate_key_package k id p = Ok tt /\ key_package_serialize k = Some kb /\ out !! i = Some (package_of p i kb)) /\
            (i ∉ ids -> out !! i = acc !! i).
Proof.
  revert keys acc. induction ids as [|j ids IH]; intros keys acc; simpl.
  - intros [= _ <-] _ i. split; [by intros ?%not_elem_of_nil|done].
  - intros HB Hnd i. apply NoDup_cons in Hnd as [Hj Hnd]. next_in HB iden Eid. next_in HB k Ek. next_in HB kb Ekb.
    apply ok_or_Ok in Eid, Ek. destruct (IH _ _ HB Hnd i) as [IHin IHout]. split.
    + intros [->|Hi]%elem_of_cons.
      * unfold validate_serialize_and_zeroize_key_package in Ekb. next_in Ekb iden' Eid'. next_in Ekb u Eu. destruct u.
        apply ok_or_Ok in Eid', Ekb. assert (iden' = iden) as -> by congruence. exists iden, k, kb. split_and!; try done.
        destruct (IH _ _ HB Hnd j) as [_ Hout]. rewrite Hout, lookup_insert_eq by done. done.
      * destruct (IHin Hi) as (id' & k' & kb' & H1' & H2' & H3'). exists id', k', kb'. split; [done|].
        apply lookup_delete_Some in H2' as [_ H2']. done.
    + rewrite not_elem_of_cons. intros [Hne Hni]. rewrite IHout by done. by rewrite lookup_insert_ne.
Qed.
End facts.
