(* ===== verification/Recovery.v ===== *)
(** * Recovery bundles of participant 3 (src/crates/signer-recovery/src/lib.rs)

    A bundle is the secret package of participant 3, encrypted under a fresh
    data key that is itself wrapped under a key derived from the recovery
    secret; every public field is authenticated with both ciphertexts.  Argon2,
    XChaCha20-Poly1305 and serde_json are an interface, random values are
    arguments. *)

From Stdlib Require Import ZArith Lia.
From S2P Require Import Prelude Bitcoin IssuanceTerms Frost Participant Personal Text PersonalPackages.
From stdpp Require Import list gmap.
Local Open Scope string_scope.
Local Open Scope list_scope.
Local Open Scope Z_scope.

Definition RECOVERY_BUNDLE_FORMAT_VERSION : Z := 1.
Definition RECOVERY_BUNDLE_MAX_BYTES : Z := 128 * 1024.
Definition RECOVERY_KDF_MEMORY_KIB : Z := 64 * 1024.
Definition RECOVERY_KDF_PASSES : Z := 3.
Definition RECOVERY_KDF_LANES : Z := 4.
Definition RECOVERY_KDF_OUTPUT_LEN : Z := 32.
Definition PARTICIPANT_ID : Z := 3.
Definition KDF_ALGORITHM : string := "argon2id-v1.3".
Definition ENCRYPTION_SUITE : string := "xchacha20-poly1305+argon2id".
Definition AAD_DOMAIN : bytes := ascii_bytes "catomicals/participant3-recovery-bundle/v1" ++ [x00].
Definition WRAPPED_DEK_PURPOSE : bytes := ascii_bytes "wrapped-dek" ++ [x00].
Definition PAYLOAD_PURPOSE : bytes := ascii_bytes "participant-package" ++ [x00].
Definition CHECKSUM_DOMAIN : bytes := ascii_bytes "catomicals/participant3-recovery-checksum/v1" ++ [x00].

Inductive RecoveryBundleError :=
| RB_UnsupportedVersion | RB_UnsupportedEncryptionSuite | RB_WrongParticipant | RB_ProfileMismatch
| RB_WeakKdfParameters | RB_BundleTooLarge | RB_InvalidEncoding | RB_ChecksumMismatch
| RB_AuthenticationFailed | RB_InvalidSecretPackage | RB_Cryptography.

#[export] Instance RecoveryBundleError_eq_dec : EqDecision RecoveryBundleError.
Proof. solve_decision. Defined.

Record RecoveryKdf := mkRecoveryKdf {
  kd_algorithm : string;
  kd_memory_kib : Z;
  kd_passes : Z;
  kd_lanes : Z;
  kd_output_len : Z;
  kd_salt : bytes;
}.

Definition RecoveryKdf_validate (k : RecoveryKdf) : result RecoveryBundleError unit :=
  _ ← reject_if (negb (bool_decide (kd_algorithm k = KDF_ALGORITHM)) || negb (kd_memory_kib k =? RECOVERY_KDF_MEMORY_KIB)
                 || negb (kd_passes k =? RECOVERY_KDF_PASSES) || negb (kd_lanes k =? RECOVERY_KDF_LANES)
                 || negb (kd_output_len k =? RECOVERY_KDF_OUTPUT_LEN)) RB_WeakKdfParameters;
  Ok tt.

(** [secure_random], with the salt it draws. *)
Definition RecoveryKdf_secure (salt : bytes) : RecoveryKdf :=
  mkRecoveryKdf KDF_ALGORITHM RECOVERY_KDF_MEMORY_KIB RECOVERY_KDF_PASSES RECOVERY_KDF_LANES RECOVERY_KDF_OUTPUT_LEN salt.

Record RecoveryBundle := mkRecoveryBundle {
  rb_format_version : Z;
  rb_encryption_suite : string;
  rb_bundle_id : Uuid;
  rb_profile_id : Uuid;
  rb_wallet_id : Uuid;
  rb_signer_set_id : Uuid;
  rb_signer_epoch : Z;
  rb_participant_id : Z;
  rb_group_pubkey_xonly : bytes;
  rb_profile_binding_digest : bytes;
  rb_kdf : RecoveryKdf;
  rb_wrapped_dek_nonce : bytes;
  rb_wrapped_dek : bytes;
  rb_payload_nonce : bytes;
  rb_payload_ciphertext : bytes;
  rb_checksum : bytes;
}.

(** The fields both ciphertexts authenticate. *)
Record AadRef := mkAadRef {
  aad_format_version : Z;
  aad_encryption_suite : string;
  aad_bundle_id : Uuid;
  aad_profile_id : Uuid;
  aad_wallet_id : Uuid;
  aad_signer_set_id : Uuid;
  aad_signer_epoch : Z;
  aad_participant_id : Z;
  aad_group_pubkey_xonly : bytes;
  aad_profile_binding_digest : bytes;
  aad_kdf : RecoveryKdf;
}.

Record ChecksumRef := mkChecksumRef {
  ck_aad : AadRef;
  ck_wrapped_dek_nonce : bytes;
  ck_wrapped_dek : bytes;
  ck_payload_nonce : bytes;
  ck_payload_ciphertext : bytes;
}.

(** What [seal] draws from the operating system. *)
Record RecoveryRandom := mkRecoveryRandom {
  rr_recovery_key : bytes;
  rr_bundle_id : Uuid;
  rr_salt : bytes;
  rr_wrapped_dek_nonce : bytes;
  rr_payload_nonce : bytes;
  rr_dek : bytes;
}.

Class RecoveryLib := {
  (* Params::new accepts, and hash_password_into gives *)
  argon2_params_valid : Z -> Z -> Z -> Z -> bool;
  argon2id_hash : RecoveryKdf -> bytes -> option bytes;
  (* XChaCha20-Poly1305 with key, nonce and associated data *)
  aead_encrypt : bytes -> bytes -> bytes -> bytes -> option bytes;
  aead_decrypt : bytes -> bytes -> bytes -> bytes -> option bytes;
  (* serde_json *)
  aad_to_json : AadRef -> option bytes;
  checksum_to_json : ChecksumRef -> option bytes;
  recovery_to_json : RecoveryBundle -> option bytes;
  recovery_from_json : bytes -> option RecoveryBundle;
}.

(** The cipher is deterministic: a ciphertext decrypts to a message exactly
    when it is the encryption of that message under the same key, nonce and
    associated data, and it is sixteen bytes longer. *)
Class RecoveryLaws `{RecoveryLib} : Prop := {
  aead_exact k n a c m : length k = 32%nat -> aead_decrypt k n a c = Some m <-> aead_encrypt k n a m = Some c;
  aead_length k n a m c : aead_encrypt k n a m = Some c -> length c = (length m + 16)%nat;
  argon2id_length kd key h : argon2id_hash kd key = Some h -> length h = 32%nat;
  recovery_json_roundtrip b j : recovery_to_json b = Some j -> recovery_from_json j = Some b;
}.

Definition rb_aad (b : RecoveryBundle) : AadRef :=
  mkAadRef (rb_format_version b) (rb_encryption_suite b) (rb_bundle_id b) (rb_profile_id b) (rb_wallet_id b)
    (rb_signer_set_id b) (rb_signer_epoch b) (rb_participant_id b) (rb_group_pubkey_xonly b)
    (rb_profile_binding_digest b) (rb_kdf b).

(** [XChaCha20Poly1305::new_from_slice]: keys have 32 bytes. *)
Definition cipher_new (key : bytes) : option bytes := if (length key =? 32)%nat then Some key else None.

Definition validate_wire (b : RecoveryBundle) : result RecoveryBundleError unit :=
  _ ← reject_if (negb (rb_format_version b =? RECOVERY_BUNDLE_FORMAT_VERSION)) RB_UnsupportedVersion;
  _ ← reject_if (negb (bool_decide (rb_encryption_suite b = ENCRYPTION_SUITE))) RB_UnsupportedEncryptionSuite;
  _ ← reject_if (negb (rb_participant_id b =? PARTICIPANT_ID)) RB_WrongParticipant;
  _ ← reject_if (rb_signer_epoch b =? 0) RB_ProfileMismatch;
  _ ← RecoveryKdf_validate (rb_kdf b);
  _ ← reject_if (negb (length (rb_wrapped_dek b) =? 48)%nat || (length (rb_payload_ciphertext b) <? 16)%nat
                 || (RECOVERY_BUNDLE_MAX_BYTES <? Z.of_nat (length (rb_payload_ciphertext b)))) RB_InvalidEncoding;
  Ok tt.

Section recovery.
Context `{BitcoinLib} `{FrostLib} `{!FrostKeys} `{TextCodec} `{PersonalJson} `{RecoveryLib}.

Definition aad_bytes (b : RecoveryBundle) (purpose : bytes) : result RecoveryBundleError bytes :=
  encoded ← ok_or (aad_to_json (rb_aad b)) RB_InvalidEncoding;
  Ok (AAD_DOMAIN ++ purpose ++ encoded).

Definition compute_checksum (b : RecoveryBundle) : result RecoveryBundleError bytes :=
  let material := mkChecksumRef (rb_aad b) (rb_wrapped_dek_nonce b) (rb_wrapped_dek b) (rb_payload_nonce b)
                    (rb_payload_ciphertext b) in
  encoded ← ok_or (checksum_to_json material) RB_InvalidEncoding;
  Ok (sha256 (CHECKSUM_DOMAIN ++ encoded)).

Definition verify_checksum (b : RecoveryBundle) : result RecoveryBundleError unit :=
  c ← compute_checksum b;
  _ ← reject_if (negb (bool_decide (c = rb_checksum b))) RB_ChecksumMismatch;
  Ok tt.

Definition recovery_validate_profile (b : RecoveryBundle) (p : PersonalSignerProfile) : result RecoveryBundleError unit :=
  _ ← reject_if (negb (bool_decide (rb_profile_id b = ps_profile_id p))
                 || negb (bool_decide (rb_wallet_id b = ps_wallet_id p))
                 || negb (bool_decide (rb_signer_set_id b = ps_signer_set_id p))
                 || negb (rb_signer_epoch b =? ps_signer_epoch p)
                 || negb (bool_decide (rb_group_pubkey_xonly b = ps_group_pubkey_xonly p))
                 || negb (bool_decide (rb_profile_binding_digest b = profile_binding_digest p))
                 || forallb (fun d => negb (pd_signer_id d =? PARTICIPANT_ID)) (ps_participants p)) RB_ProfileMismatch;
  Ok tt.

Definition derive_kek (recovery_key : bytes) (k : RecoveryKdf) : result RecoveryBundleError bytes :=
  _ ← RecoveryKdf_validate k;
  _ ← reject_if (negb (argon2_params_valid (kd_memory_kib k) (kd_passes k) (kd_lanes k) (kd_output_len k)))
        RB_WeakKdfParameters;
  ok_or (argon2id_hash k recovery_key) RB_Cryptography.

(** The bundle before the ciphertexts and the checksum are filled in. *)
Definition bundle_header (p : PersonalSignerProfile) (r : RecoveryRandom) (wrapped payload checksum : bytes) : RecoveryBundle :=
  mkRecoveryBundle RECOVERY_BUNDLE_FORMAT_VERSION ENCRYPTION_SUITE (rr_bundle_id r) (ps_profile_id p) (ps_wallet_id p)
    (ps_signer_set_id p) (ps_signer_epoch p) PARTICIPANT_ID (ps_group_pubkey_xonly p) (profile_binding_digest p)
    (RecoveryKdf_secure (rr_salt r)) (rr_wrapped_dek_nonce r) wrapped (rr_payload_nonce r) payload checksum.

(** The part of [seal] after the plaintext is made. *)
Definition seal_plaintext (p : PersonalSignerProfile) (plaintext : bytes) (r : RecoveryRandom)
    : result RecoveryBundleError RecoveryBundle :=
  let bundle := bundle_header p r [] [] (replicate 32 x00) in
  _ ← RecoveryKdf_validate (rb_kdf bundle);
  kek ← derive_kek (rr_recovery_key r) (rb_kdf bundle);
  dek_cipher ← ok_or (cipher_new (rr_dek r)) RB_Cryptography;
  kek_cipher ← ok_or (cipher_new kek) RB_Cryptography;
  payload_aad ← aad_bytes bundle PAYLOAD_PURPOSE;
  payload ← ok_or (aead_encrypt dek_cipher (rb_payload_nonce bundle) payload_aad plaintext) RB_Cryptography;
  let bundle := bundle_header p r [] payload (replicate 32 x00) in
  wrapped_aad ← aad_bytes bundle WRAPPED_DEK_PURPOSE;
  wrapped ← ok_or (aead_encrypt kek_cipher (rb_wrapped_dek_nonce bundle) wrapped_aad (rr_dek r)) RB_Cryptography;
  let bundle := bundle_header p r wrapped payload (replicate 32 x00) in
  checksum ← compute_checksum bundle;
  let bundle := bundle_header p r wrapped payload checksum in
  _ ← validate_wire bundle;
  Ok bundle.

Definition recovery_seal (participant : PersonalParticipantSecretPackage) (p : PersonalSignerProfile) (r : RecoveryRandom)
    : result RecoveryBundleError (RecoveryBundle * bytes) :=
  _ ← reject_if (negb (sp_signer_id participant =? PARTICIPANT_ID)) RB_WrongParticipant;
  _ ← map_err (fun _ => RB_ProfileMismatch) (package_validate participant p);
  plaintext ← map_err (fun _ => RB_InvalidSecretPackage) (package_to_bytes participant);
  bundle ← seal_plaintext p plaintext r;
  Ok (bundle, rr_recovery_key r).

(** The decryptions of [open]: the data key, then the payload. *)
Definition open_plaintext (b : RecoveryBundle) (recovery_key : bytes) : result RecoveryBundleError bytes :=
  kek ← derive_kek recovery_key (rb_kdf b);
  kek_cipher ← ok_or (cipher_new kek) RB_Cryptography;
  wrapped_aad ← aad_bytes b WRAPPED_DEK_PURPOSE;
  dek ← ok_or (aead_decrypt kek_cipher (rb_wrapped_dek_nonce b) wrapped_aad (rb_wrapped_dek b)) RB_AuthenticationFailed;
  _ ← reject_if (negb (length dek =? 32)%nat) RB_AuthenticationFailed;
  payload_cipher ← ok_or (cipher_new dek) RB_AuthenticationFailed;
  payload_aad ← aad_bytes b PAYLOAD_PURPOSE;
  ok_or (aead_decrypt payload_cipher (rb_payload_nonce b) payload_aad (rb_payload_ciphertext b)) RB_AuthenticationFailed.

Definition recovery_open (b : RecoveryBundle) (recovery_key : bytes) (p : PersonalSignerProfile)
    : result RecoveryBundleError PersonalParticipantSecretPackage :=
  _ ← validate_wire b;
  _ ← verify_checksum b;
  _ ← recovery_validate_profile b p;
  plaintext ← open_plaintext b recovery_key;
  package ← map_err (fun _ => RB_InvalidSecretPackage) (package_from_bytes plaintext p);
  _ ← reject_if (negb (sp_signer_id package =? PARTICIPANT_ID)) RB_WrongParticipant;
  _ ← map_err (fun _ => RB_InvalidSecretPackage) (package_validate package p);
  Ok package.

Definition recovery_to_bytes (b : RecoveryBundle) : result RecoveryBundleError bytes :=
  _ ← validate_wire b;
  _ ← verify_checksum b;
  j ← ok_or (recovery_to_json b) RB_InvalidEncoding;
  _ ← reject_if (RECOVERY_BUNDLE_MAX_BYTES <? Z.of_nat (length j)) RB_BundleTooLarge;
  Ok j.

Definition recovery_from_bytes (j : bytes) : result RecoveryBundleError RecoveryBundle :=
  _ ← reject_if (RECOVERY_BUNDLE_MAX_BYTES <? Z.of_nat (length j)) RB_BundleTooLarge;
  b ← ok_or (recovery_from_json j) RB_InvalidEncoding;
  _ ← validate_wire b;
  _ ← verify_checksum b;
  Ok b.
End recovery.
