(* ===== verification/RecoveryProperties.v ===== *)
(** * Properties of secret packages and recovery bundles

    A bootstrap hands every signer a package that opens to its generated key; a
    package fits one profile; a recovery bundle opens exactly when sealing made
    it. *)

From Stdlib Require Import ZArith Lia.
From S2P Require Import Prelude Bitcoin IssuanceTerms Concrete Frost Participant Personal Text PersonalPackages Recovery.
From stdpp Require Import list gmap.
Local Open Scope string_scope.
Local Open Scope list_scope.
Local Open Scope Z_scope.

Section packages.
Context `{BitcoinLib} `{FrostLib} `{!FrostKeys} `{TextCodec} `{PersonalJson}.
Context `{!FrostKeysLaws} `{!PersonalJsonLaws}.

Lemma package_from_to_bytes s p b :
  package_to_bytes s = Ok b -> is_ok (package_open s p) = true -> package_from_bytes b p = Ok s.
Proof.
  unfold package_to_bytes. intros HT Ho. next_in HT b' Eb. next_in HT u Eu. injection HT as <-. apply ok_or_Ok in Eb.
  destruct (package_open s p) as [o|] eqn:EO; [|done]. pose proof EO as HO.
  apply package_open_Ok in HO as (Hv & F1 & _ & _ & _ & F5 & F6 & F7 & _ & _ & Hin & _).
  apply profile_validate_Ok in Hv as (_ & G1 & G2 & G3 & _). unfold package_from_bytes. rewrite Eu. res_cbn.
  rewrite (package_json_roundtrip s b' Eb). res_cbn. rewrite F1, F5, F6, F7, G2, G3, !Z.eqb_refl. cbn [negb orb reject_if]. res_cbn.
  rewrite (reject_if_pass (_ =? 0)) by guard_tac. res_cbn. rewrite reject_if_pass.
  - res_cbn. by rewrite EO.
  - unfold personal_signers in Hin. rewrite !elem_of_cons in Hin. unfold PERSONAL_MAX_SIGNERS. guard_tac.
    destruct Hin as [->|[->|[->|Hin%not_elem_of_nil]]]; done.
Qed.

(** The package a bootstrap makes for a signer opens to the generated key. *)
Lemma package_of_opens p i kb k identifier :
  profile_validate p = Ok tt -> i ∈ personal_signers -> participant_identifier i = Some identifier ->
  key_package_serialize k = Some kb -> validate_key_package k identifier p = Ok tt ->
  package_open (package_of p i kb) p = Ok (mkOpened i (Some k)).
Proof.
  intros Hv Hin Hi Hk Hvk. apply package_open_Ok. cbn. split_and!; try done.
  exists identifier, k. split_and!; try done. by apply key_package_roundtrip.
Qed.

(** C28: A bootstrap that succeeds yields a valid profile and exactly three
    packages, one per signer.  The package of signer [i] carries the identity
    of that profile, opens under it to the very key package that key generation
    gave the identifier of [i], is turned into a signing participant [i] with
    that key, and is read back unchanged from its stored bytes. *)
Theorem bootstrap_packages_open profile_id wallet_id set_id epoch dkg p pkgs :
  bootstrap profile_id wallet_id set_id epoch dkg = Ok (p, pkgs) ->
  profile_validate p = Ok tt /\ ps_signer_epoch p = epoch /\ ps_wallet_id p = wallet_id /\
  dom pkgs = {[1; 2; 3]} /\
  forall i, i ∈ personal_signers -> exists s identifier k,
    pkgs !! i = Some s /\ sp_signer_id s = i /\ sp_profile_binding_digest s = profile_binding_digest p /\
    participant_identifier i = Some identifier /\ dkg_key_packages dkg !! identifier = Some k /\
    package_open s p = Ok (mkOpened i (Some k)) /\
    (forall guard, into_participant (mkOpened i (Some k)) guard = Ok (mkLocalFrostParticipant i k guard ∅)) /\
    (forall b, package_to_bytes s = Ok b -> package_from_bytes b p = Ok s).
Proof.
  unfold bootstrap. intros HB. next_in HB v1 E1. next_in HB v2 E2. next_in HB pub Epub. next_in HB grp Egrp.
  next_in HB ds Eds. next_in HB v3 Ev. destruct v3. next_in HB rp Erp. destruct rp as [rest out]. next_in HB v4 E4.
  injection HB as <- <-. set (prof := mkPersonalSignerProfile _ _ _ _ _ _ _ _ _ _) in *.
  assert (NoDup personal_signers) as Hnd by (by apply (bool_decide_unpack (NoDup personal_signers))).
  pose proof (bootstrap_packages_Ok _ _ _ _ _ _ Erp Hnd) as Hp. split_and!; try done.
  - apply set_eq. intros i. rewrite elem_of_dom, !elem_of_union, !elem_of_singleton. destruct (Hp i) as [Hin Hout].
    unfold personal_signers in *. rewrite !elem_of_cons in *. split.
    + intros [s Hs]. destruct (decide (i ∈ [1; 2; 3])) as [Hi|Hi]; [rewrite !elem_of_cons, elem_of_nil in Hi; tauto|].
      rewrite Hout in Hs; [done|]. rewrite !elem_of_cons in Hi. tauto.
    + intros Hi. destruct Hin as (? & ? & ? & _ & _ & _ & _ & Hs); [tauto|]. by eexists.
  - intros i Hi. destruct (Hp i) as [Hin _]. destruct (Hin Hi) as (identifier & k & kb & Hid & Hk & Hvk & Hkb & Hs).
    pose proof (package_of_opens prof i kb k identifier Ev Hi Hid Hkb Hvk) as Ho.
    exists (package_of prof i kb), identifier, k. split_and!; try done.
    + intros guard. unfold into_participant, LocalFrostParticipant_new. cbn. rewrite Hid. cbn.
      unfold validate_key_package in Hvk. res_inv. rewrite bool_decide_true by done. done.
    + intros b Hb. apply package_from_to_bytes; [done|]. by rewrite Ho.
Qed.

(** A secret package fits one signer profile.  If a package opens under two
    profiles of the field types, the profiles are equal in every field, group
    key, participants and epoch included, or their binding preimages are a
    SHA-256 collision. *)
Theorem package_fits_one_profile s p q o1 o2 :
  profile_wf p -> profile_wf q -> package_open s p = Ok o1 -> package_open s q = Ok o2 ->
  p = q \/ sha256_collision (profile_preimage p) (profile_preimage q).
Proof.
  intros Wp Wq H1' H2'. apply package_open_Ok in H1' as (_ & _ & _ & _ & _ & _ & _ & _ & _ & D1 & _).
  apply package_open_Ok in H2' as (_ & _ & _ & _ & _ & _ & _ & _ & _ & D2 & _).
  rewrite D1 in D2. unfold profile_binding_digest in D2. apply sha256_inj_or_collision in D2 as [Heq|Hc]; [|by right].
  left. by apply profile_preimage_inj.
Qed.
End packages.

Section recovery.
Context `{BitcoinLib} `{FrostLib} `{!FrostKeys} `{TextCodec} `{PersonalJson} `{RecoveryLib}.
Context `{!FrostKeysLaws} `{!PersonalJsonLaws} `{!RecoveryLaws}.

Lemma RecoveryKdf_validate_Ok k u :
  RecoveryKdf_validate k = Ok u -> k = RecoveryKdf_secure (kd_salt k).
Proof. unfold RecoveryKdf_validate. intros HV. res_inv. destruct k; cbn in *; subst. done. Qed.

Lemma validate_wire_Ok b :
  validate_wire b = Ok tt ->
  rb_format_version b = RECOVERY_BUNDLE_FORMAT_VERSION /\ rb_encryption_suite b = ENCRYPTION_SUITE /\
  rb_participant_id b = PARTICIPANT_ID /\ rb_kdf b = RecoveryKdf_secure (kd_salt (rb_kdf b)).
Proof.
  unfold validate_wire. intros HV. next_in HV v1 E1. next_in HV v2 E2. next_in HV v3 E3. next_in HV v4 E4.
  next_in HV v5 E5. apply RecoveryKdf_validate_Ok in E5. res_inv. by split_and!.
Qed.

Lemma recovery_validate_profile_Ok b p :
  recovery_validate_profile b p = Ok tt <->
  rb_profile_id b = ps_profile_id p /\ rb_wallet_id b = ps_wallet_id p /\ rb_signer_set_id b = ps_signer_set_id p /\
  rb_signer_epoch b = ps_signer_epoch p /\ rb_group_pubkey_xonly b = ps_group_pubkey_xonly p /\
  rb_profile_binding_digest b = profile_binding_digest p /\
  forallb (fun d => negb (pd_signer_id d =? PARTICIPANT_ID)) (ps_participants p) = false.
Proof.
  unfold recovery_validate_profile. split.
  - intros HV. res_inv. by split_and!.
  - intros (F1 & F2 & F3 & F4 & F5 & F6 & F7). rewrite F1, F2, F3, F4, F5, F6, F7, Z.eqb_refl, !bool_decide_true by done. done.
Qed.

Lemma cipher_new_Some k c : cipher_new k = Some c <-> c = k /\ length k = 32%nat.
Proof. unfold cipher_new. destruct (Nat.eqb_spec (length k) 32); naive_solver. Qed.

(** The associated data does not depend on ciphertexts or checksum. *)
Lemma aad_bytes_header p r w1 w2 c1 c2 s1 s2 purpose :
  aad_bytes (bundle_header p r w1 c1 s1) purpose = aad_bytes (bundle_header p r w2 c2 s2) purpose.
Proof. done. Qed.

(** Sealing a plaintext and decrypting are the same relation, read both ways. *)
Lemma seal_plaintext_Ok p pt r b :
  seal_plaintext p pt r = Ok b <->
  length (rr_dek r) = 32%nat /\ validate_wire b = Ok tt /\ verify_checksum b = Ok tt /\
  open_plaintext b (rr_recovery_key r) = Ok pt /\
  (exists kek aad, derive_kek (rr_recovery_key r) (rb_kdf b) = Ok kek /\ aad_bytes b WRAPPED_DEK_PURPOSE = Ok aad /\
     aead_decrypt kek (rr_wrapped_dek_nonce r) aad (rb_wrapped_dek b) = Some (rr_dek r)) /\
  exists w c s, b = bundle_header p r w c s.
Proof.
  unfold seal_plaintext. split.
  - intros HS. next_in HS v0 E0. next_in HS kek Ekek. next_in HS dc Edc. next_in HS kc Ekc. next_in HS pa Epa.
    next_in HS c Ec. next_in HS wa Ewa. next_in HS w Ew. next_in HS ck Eck. next_in HS v1 Ev. injection HS as <-.
    destruct v1. apply ok_or_Ok in Edc, Ekc, Ec, Ew. apply cipher_new_Some in Edc as [-> Hdek], Ekc as [-> Hkek].
    cbn [rb_payload_nonce rb_wrapped_dek_nonce rb_kdf bundle_header] in Ec, Ew, Ekek.
    apply aead_exact in Ec; [|done]. apply aead_exact in Ew; [|done].
    split_and!; try done; [| |by exists kek, wa|by exists w, c, ck].
    + unfold verify_checksum. change (compute_checksum (bundle_header p r w c ck)) with
        (compute_checksum (bundle_header p r w c (replicate 32 x00))). rewrite Eck. cbn. by rewrite bool_decide_true.
    + unfold open_plaintext. cbn [rb_kdf rb_wrapped_dek_nonce rb_wrapped_dek rb_payload_nonce rb_payload_ciphertext bundle_header].
      rewrite Ekek. res_cbn. rewrite (proj2 (cipher_new_Some kek kek)) by done. res_cbn.
      rewrite (aad_bytes_header p r w [] c c ck (replicate 32 x00) WRAPPED_DEK_PURPOSE), Ewa. res_cbn. rewrite Ew. res_cbn.
      rewrite Hdek. cbn [Nat.eqb negb reject_if]. res_cbn. rewrite (proj2 (cipher_new_Some (rr_dek r) (rr_dek r))) by done. res_cbn.
      rewrite (aad_bytes_header p r w [] c [] ck (replicate 32 x00) PAYLOAD_PURPOSE), Epa. res_cbn. by rewrite Ec.
  - intros (Hdek & Hw & Hs & Ho & (kek & aad & Hk & Ha & Hd) & w & c & ck & ->). unfold open_plaintext in Ho.
    next_in Ho kek' Ek. next_in Ho kc Ekc. next_in Ho wa Ewa. next_in Ho dek Edek. next_in Ho u Eu. next_in Ho dc Edc.
    next_in Ho pa Epa. apply ok_or_Ok in Ekc, Edek, Edc, Ho. apply cipher_new_Some in Ekc as [-> Hkek], Edc as [-> Hdk].
    cbn [rb_kdf rb_wrapped_dek_nonce rb_wrapped_dek rb_payload_nonce rb_payload_ciphertext bundle_header] in *.
    rewrite Hk in Ek. injection Ek as <-. rewrite Ha in Ewa. injection Ewa as <-. rewrite Hd in Edek. injection Edek as <-.
    apply aead_exact in Hd; [|done]. apply aead_exact in Ho; [|done].
    assert (RecoveryKdf_validate (RecoveryKdf_secure (rr_salt r)) = Ok tt) as -> by done. res_cbn. rewrite Hk. res_cbn.
    rewrite (proj2 (cipher_new_Some (rr_dek r) (rr_dek r))), (proj2 (cipher_new_Some kek kek)) by done. res_cbn.
    rewrite (aad_bytes_header p r [] w [] c (replicate 32 x00) ck PAYLOAD_PURPOSE), Epa. res_cbn. rewrite Ho. res_cbn.
    rewrite (aad_bytes_header p r [] w c c (replicate 32 x00) ck WRAPPED_DEK_PURPOSE), Ha. res_cbn. rewrite Hd. res_cbn.
    unfold verify_checksum in Hs. next_in Hs ck' Eck. next_in Hs u2 Eu2. apply reject_if_Ok in Eu2.
    rewrite negb_false_iff, bool_decide_eq_true in Eu2. cbn [rb_checksum bundle_header] in Eu2. subst ck'.
    change (compute_checksum (bundle_header p r w c (replicate 32 x00))) with (compute_checksum (bundle_header p r w c ck)).
    rewrite Eck. res_cbn. by rewrite Hw.
Qed.

Lemma participant_3_listed p :
  profile_validate p = Ok tt -> forallb (fun d => negb (pd_signer_id d =? PARTICIPANT_ID)) (ps_participants p) = false.
Proof.
  intros (_ & _ & _ & _ & Hids & _)%profile_validate_Ok. apply not_true_iff_false. rewrite forallb_forall. intros Hf.
  assert (PARTICIPANT_ID ∈ pd_signer_id <$> ps_participants p) as (d & Hd & Hin)%list_elem_of_fmap.
  { rewrite Hids. unfold personal_signers. set_solver. }
  apply list_elem_of_In in Hin. specialize (Hf _ Hin). by rewrite <- Hd, Z.eqb_refl in Hf.
Qed.

Lemma package_from_bytes_open b p s : package_from_bytes b p = Ok s -> is_ok (package_open s p) = true.
Proof.
  unfold package_from_bytes. intros HF. next_in HF v1 E1. next_in HF w Ew. next_in HF v2 E2. next_in HF v3 E3.
  next_in HF v4 E4. next_in HF v5 E5. next_in HF o Eo. injection HF as <-. by rewrite Eo.
Qed.

Lemma package_validate_open s p : package_validate s p = Ok tt <-> is_ok (package_open s p) = true.
Proof. unfold package_validate. by destruct (package_open s p). Qed.

(** What [recovery_open] checks of a bundle and what it decrypts. *)
Lemma recovery_open_Ok b key p s :
  recovery_open b key p = Ok s <->
  validate_wire b = Ok tt /\ verify_checksum b = Ok tt /\ recovery_validate_profile b p = Ok tt /\
  exists pt, open_plaintext b key = Ok pt /\ package_from_bytes pt p = Ok s /\ sp_signer_id s = PARTICIPANT_ID.
Proof.
  unfold recovery_open. split.
  - intros HO. next_in HO v1 E1. next_in HO v2 E2. next_in HO v3 E3. next_in HO pt Ept. next_in HO s' Es. next_in HO v4 E4.
    next_in HO v5 E5. injection HO as <-. destruct v1, v2, v3. apply map_err_Ok in Es. res_inv. split_and!; try done.
    by exists pt.
  - intros (E1 & E2 & E3 & pt & Ept & Es & Hid). rewrite E1, E2, E3. res_cbn. rewrite Ept. res_cbn. rewrite Es. res_cbn.
    rewrite Hid, Z.eqb_refl. cbn [negb reject_if]. res_cbn. apply package_from_bytes_open, package_validate_open in Es. by rewrite Es.
Qed.

(** A recovery bundle opens exactly when sealing made it.  Opening a bundle
    with a recovery secret under a profile gives the package [s] if and only if
    some plaintext that reads as the package [s] of participant 3 under that
    profile, sealed with that secret and some random values, is that very
    bundle: the authenticated header, both ciphertexts and the checksum are all
    determined. *)
Theorem recovery_open_exact b key p s :
  recovery_open b key p = Ok s <->
  exists pt r, rr_recovery_key r = key /\ seal_plaintext p pt r = Ok b /\
    package_from_bytes pt p = Ok s /\ sp_signer_id s = PARTICIPANT_ID.
Proof.
  rewrite recovery_open_Ok. split.
  - intros (Hw & Hc & Hp & pt & Hpt & Hs & Hid). pose proof Hpt as Ho. unfold open_plaintext in Ho.
    next_in Ho kek Ek. next_in Ho kc Ekc. next_in Ho wa Ewa. next_in Ho dek Edek. next_in Ho u Eu. clear Ho.
    apply ok_or_Ok in Ekc, Edek. apply cipher_new_Some in Ekc as [-> _]. apply reject_if_Ok in Eu.
    rewrite negb_false_iff, Nat.eqb_eq in Eu. apply recovery_validate_profile_Ok in Hp as (F1 & F2 & F3 & F4 & F5 & F6 & _).
    destruct (validate_wire_Ok _ Hw) as (G1 & G2 & G3 & G4).
    set (r := mkRecoveryRandom key (rb_bundle_id b) (kd_salt (rb_kdf b)) (rb_wrapped_dek_nonce b) (rb_payload_nonce b) dek).
    exists pt, r. split_and!; try done. apply seal_plaintext_Ok. split_and!; try done; [by exists kek, wa|].
    exists (rb_wrapped_dek b), (rb_payload_ciphertext b), (rb_checksum b). destruct b; cbn in *. unfold bundle_header; cbn.
    congruence.
  - intros (pt & r & <- & HS & Hs & Hid). apply seal_plaintext_Ok in HS as (_ & Hw & Hc & Ho & _ & w & c & ck & ->).
    split_and!; try done; [|by exists pt]. apply recovery_validate_profile_Ok. split_and!; try done.
    apply participant_3_listed. apply package_from_bytes_open in Hs. unfold package_open in Hs.
    destruct (profile_validate p) as [[]|]; done.
Qed.

(** Sealing, storing, loading and opening give back the secret package: a
    bundle sealed for participant 3 opens under its profile, with the recovery
    secret it was sealed with, to exactly the package that was sealed; and its
    stored bytes load to the same bundle. *)
Theorem recovery_roundtrip s p r b key :
  recovery_seal s p r = Ok (b, key) ->
  key = rr_recovery_key r /\ recovery_open b key p = Ok s /\
  forall j, recovery_to_bytes b = Ok j -> recovery_from_bytes j = Ok b.
Proof.
  unfold recovery_seal. intros HS. next_in HS v1 E1. next_in HS v2 E2. next_in HS pt Ept. next_in HS b' Eb. injection HS as -> <-.
  apply map_err_Ok in E2, Ept. destruct v2. apply package_validate_open in E2. res_inv. split; [done|].
  pose proof Eb as HS. apply seal_plaintext_Ok in HS as (_ & Hw & Hc & Ho & _ & w & c & ck & Hb). split.
  - apply recovery_open_Ok. split_and!; try done; [|exists pt; split_and!; try done; by apply package_from_to_bytes].
    rewrite Hb. apply recovery_validate_profile_Ok. split_and!; try done. apply participant_3_listed. unfold package_open in E2.
    destruct (profile_validate p) as [[]|]; done.
  - unfold recovery_to_bytes, recovery_from_bytes. intros j Hj. rewrite Hw, Hc in Hj. cbn [mbind result_bind] in Hj.
    next_in Hj j' Ej. next_in Hj u Eu. injection Hj as <-. apply ok_or_Ok in Ej. rewrite Eu. res_cbn.
    rewrite (recovery_json_roundtrip b j' Ej). res_cbn. by rewrite Hw, Hc.
Qed.
End recovery.

(** ** A concrete ceremony *)

(** Keys are their identifiers; all share one group key. *)
Definition toy_group : bytes := replicate 32 x07.
Definition toy_public : gmap Z bytes * bytes := ({[1 := [x01]; 2 := [x02]; 3 := [x03]]}, toy_group).
#[local] Instance toy_keys : FrostKeys := {|
  identifier_serialize i := [z2b i];
  verifying_share_serialize b := Some b;
  key_package_min_signers _ := 2;
  key_package_verifying_key _ := toy_group;
  key_package_verifying_share k := [z2b k];
  key_package_serialize k := if bool_decide (fits 32 k) then Some (le_bytes 4 k) else None;
  key_package_deserialize b := Some (from_le_bytes b);
  public_package_serialize _ := Some [x50];
  public_package_deserialize _ := Some toy_public;
|}.
#[local] Instance toy_keys_laws : FrostKeysLaws.
Proof.
  constructor. cbn. intros k b. case_bool_decide as Hf; [|done]. intros [= <-]. by rewrite from_le_le_bytes.
Qed.

#[local] Instance toy_text : TextCodec := {|
  hex_encode := String.string_of_list_byte; b64url_encode := String.string_of_list_byte;
  base64_decode t := Some (ascii_bytes t) |}.

(** Fields one after the other; a value that would not read back is refused. *)
Definition checked {A} `{EqDecision A} (enc : A -> bytes) (dec : bytes -> option A) (a : A) : option bytes :=
  if bool_decide (dec (enc a) = Some a) then Some (enc a) else None.
Lemma checked_reads_back {A} `{EqDecision A} (enc : A -> bytes) dec a b : checked enc dec a = Some b -> dec b = Some a.
Proof. unfold checked. case_bool_decide; [|done]. by intros [= <-]. Qed.

Definition enc_package (s : PersonalParticipantSecretPackage) : bytes :=
  [z2b (sp_format_version s); z2b (sp_signer_epoch s); z2b (sp_signer_id s); z2b (sp_min_signers s); z2b (sp_max_signers s)]
  ++ sp_profile_id s ++ sp_wallet_id s ++ sp_signer_set_id s ++ sp_group_pubkey_xonly s ++ sp_profile_binding_digest s ++
  sp_key_package s.
Definition dec_package (b : bytes) : option PersonalParticipantSecretPackage :=
  match b with
  | v :: e :: i :: mn :: mx :: r =>
      Some (mkSecretPackage (b2z v) (take 16 r) (take 16 (drop 16 r)) (take 16 (drop 32 r)) (b2z e) (b2z i) (b2z mn) (b2z mx)
              (take 32 (drop 48 r)) (take 32 (drop 80 r)) (drop 112 r))
  | _ => None
  end.
#[local] Instance toy_personal_json : PersonalJson := {|
  profile_to_json _ := None; profile_from_json _ := None;
  package_to_json := checked enc_package dec_package; package_from_json := dec_package |}.
#[local] Instance toy_personal_json_laws : PersonalJsonLaws.
Proof. constructor; [done|]. intros p b. apply checked_reads_back. Qed.

(** Encryption appends a 16-byte checksum of key, nonce, data and message. *)
Definition toy_tag (k n a m : bytes) : bytes := take 16 (toy_sha (k ++ n ++ a ++ m)).
#[local] Instance toy_recovery : RecoveryLib := {|
  argon2_params_valid _ _ _ _ := true;
  argon2id_hash kd key := Some (toy_sha (kd_salt kd ++ key));
  aead_encrypt k n a m := Some (m ++ toy_tag k n a m);
  aead_decrypt k n a c :=
    let m := take (length c - 16) c in if bool_decide (c = m ++ toy_tag k n a m) then Some m else None;
  aad_to_json a := Some (aad_bundle_id a ++ aad_profile_id a ++ aad_wallet_id a);
  checksum_to_json c := Some (ck_wrapped_dek c ++ ck_payload_ciphertext c);
  recovery_to_json _ := None; recovery_from_json _ := None;
|}.

Lemma length_toy_tag k n a m : length (toy_tag k n a m) = 16%nat.
Proof. unfold toy_tag. by rewrite length_take, length_toy_sha. Qed.

#[local] Instance toy_recovery_laws : RecoveryLaws.
Proof.
  constructor; cbn; [| |intros kd key h [= <-]; apply length_toy_sha|done].
  - intros k n a c m _. split.
    + case_bool_decide as Hc; [|done]. intros [= <-]. by rewrite <- Hc.
    + intros [= <-]. rewrite length_app, length_toy_tag, take_app_length' by lia. by rewrite bool_decide_true.
  - intros k n a m c [= <-]. by rewrite length_app, length_toy_tag.
Qed.

Definition toy_dkg : LocalDkgOutput := mkLocalDkgOutput _ 2 3 {[1 := 1; 2 := 2; 3 := 3]} toy_public.
Definition toy_bootstrap := bootstrap (replicate 16 x01) (replicate 16 x02) (replicate 16 x03) 9 toy_dkg.

Lemma bootstrap_packages_open_witness :
  exists p pkgs s, toy_bootstrap = Ok (p, pkgs) /\ pkgs !! 3 = Some s /\ package_open s p = Ok (mkOpened 3 (Some 3)).
Proof.
  assert (is_ok toy_bootstrap = true) as Hok by by vm_compute.
  destruct toy_bootstrap as [[p pkgs]|] eqn:HB; [|done]. exists p, pkgs. unfold toy_bootstrap in HB.
  destruct (bootstrap_packages_open _ _ _ _ _ _ _ HB) as (_ & _ & _ & _ & Hall).
  destruct (Hall 3) as (s & identifier & k & Hs & _ & _ & Hid & Hk & Ho & _); [unfold personal_signers; set_solver|].
  injection Hid as <-. injection Hk as <-. exists s. split; [exact eq_refl|]. split; [exact Hs|exact Ho].
Defined.

Definition toy_profile : PersonalSignerProfile :=
  default (mkPersonalSignerProfile 0 [] [] [] 0 0 0 [] [] []) (fst <$> result_ok toy_bootstrap).
Definition toy_package : PersonalParticipantSecretPackage :=
  default (mkSecretPackage 0 [] [] [] 0 0 0 0 [] [] []) (r ← result_ok toy_bootstrap; r.2 !! 3).
Definition toy_random : RecoveryRandom :=
  mkRecoveryRandom (replicate 32 x21) (replicate 16 x22) (replicate 16 x23) (replicate 24 x24) (replicate 24 x25) (replicate 32 x26).
Definition toy_sealed := recovery_seal toy_package toy_profile toy_random.

Lemma recovery_roundtrip_witness :
  exists b, toy_sealed = Ok (b, replicate 32 x21) /\ recovery_open b (replicate 32 x21) toy_profile = Ok toy_package.
Proof.
  assert (is_ok toy_sealed = true) as Hok by by vm_compute.
  destruct toy_sealed as [[b key]|] eqn:HS; [|done]. unfold toy_sealed in HS.
  destruct (recovery_roundtrip _ _ _ _ _ HS) as (Hk & Ho & _). exists b. rewrite Hk in Ho |- *. split; [exact eq_refl|exact Ho].
Defined.

Lemma recovery_open_exact_witness :
  exists b pt r, rr_recovery_key r = replicate 32 x21 /\ seal_plaintext toy_profile pt r = Ok b.
Proof.
  assert (exists b, recovery_open b (replicate 32 x21) toy_profile = Ok toy_package) as [b Hb].
  { exists (default (bundle_header toy_profile toy_random [] [] []) (fst <$> result_ok toy_sealed)). vm_compute. reflexivity. }
  destruct (proj1 (recovery_open_exact b (replicate 32 x21) toy_profile toy_package) Hb) as (pt & r & Hr & Hs & _).
  exists b, pt, r. split; [exact Hr|exact Hs].
Defined.
