(* ===== verification/Transport.v ===== *)
(** * Remote signers over mutual TLS (src/crates/signer-transport/src/lib.rs)

    The wire protocol between the coordinator and a remote signer: one
    length-prefixed JSON request and one response per connection, with the
    certificate of either side pinned.  TLS, tokio and serde_json are an
    interface; what happens to each timed operation of a connection is an
    argument, so that the theorems cover time-outs and broken connections at
    every point: a write that fails may have delivered any part of its frame,
    all of it included, and a provider may panic in the worker. *)

From Stdlib Require Import ZArith Lia.
From S2P Require Import Prelude Bitcoin Frost Participant Text Personal Effects Provider.
From stdpp Require Import list gmap.
Local Open Scope Z_scope.

Definition DEFAULT_MAX_FRAME_BYTES : Z := 64 * 1024.
Definition DEFAULT_MAX_CONNECTIONS : Z := 16.

Inductive WireRequest :=
| ReqHealth
| ReqRoundOne (r : SignerRoundOneRequest)
| ReqRoundTwo (r : SignerRoundTwoRequest)
| ReqAbort (r : SignerAbortRequest).

Inductive WireErrorCode :=
| WC_Unconfigured | WC_Revoked | WC_IdentityDrift | WC_Expired | WC_Replay | WC_InvalidRequest
| WC_RoundBindingMismatch | WC_BackendUnavailable | WC_Internal.

Inductive WireResponse :=
| ResHealth (h : DeviceHealth)
| ResRoundOne (r : SignerRoundOneResponse)
| ResRoundTwo (r : SignerRoundTwoResponse)
| ResAck
| ResError (code : WireErrorCode).

Inductive TransportError :=
| TE_Io | TE_Tls | TE_FrameTooLarge | TE_Json | TE_PeerPinMismatch | TE_MissingPeerCertificate | TE_Timeout
| TE_Worker | TE_Remote (code : WireErrorCode).

(** The time limit of the code is the fate of an operation, below. *)
Record TransportLimits := mkTransportLimits { tl_max_frame_bytes : Z; tl_max_connections : Z }.
Definition TransportLimits_default : TransportLimits :=
  mkTransportLimits DEFAULT_MAX_FRAME_BYTES DEFAULT_MAX_CONNECTIONS.

(** ** The trait the server serves *)

Class SignerProvider (P : Type) := {
  provider_health : Z -> P -> P * DeviceHealth;
  provider_round_one : SignerRoundOneRequest -> Z -> act P ProviderError SignerRoundOneResponse;
  provider_round_two : SignerRoundTwoRequest -> Z -> act P ProviderError SignerRoundTwoResponse;
  provider_abort_round : SignerAbortRequest -> Z -> act P ProviderError unit;
}.

(** The guarded provider, with the randomness its next commitment uses. *)
Definition guarded_signer `{BitcoinLib} `{TextCodec} `{FL : FrostLib} `{!FrostCodec} {B : Type} `{!FrostSignerBackend B}
    {R : Type} `{ProviderReplayStore R} (rng : Rng) : SignerProvider (GuardedSignerProvider B R) := {|
  provider_health now g := (g, backend_health now (gp_backend g));
  provider_round_one r now := round_one r now rng;
  provider_round_two r now := round_two r now;
  provider_abort_round r now := provider_abort r now;
|}.

Definition provider_error_code (e : ProviderError) : WireErrorCode :=
  match e with
  | PE_Unconfigured => WC_Unconfigured
  | PE_Revoked => WC_Revoked
  | PE_IdentityDrift | PE_WrongSignerSet | PE_SpkiMismatch => WC_IdentityDrift
  | PE_Expired | PE_SessionLifetimeExceeded => WC_Expired
  | PE_Replay => WC_Replay
  | PE_RoundBindingMismatch => WC_RoundBindingMismatch
  | PE_BackendUnavailable => WC_BackendUnavailable
  | PE_InvalidChallenge | PE_InvalidProof | PE_RotationAuthorizationRequired | PE_InvalidProvider
  | PE_InvalidEncoding | PE_UnknownParticipant => WC_InvalidRequest
  end.

Section dispatch.
Context {P : Type} `{SignerProvider P}.

(** [result.map(f).unwrap_or_else(...)] of a provider call. *)
Definition respond {A} (f : A -> WireResponse) (m : act P ProviderError A) (p : P) : P * WireResponse :=
  let '(p', r) := m p in
  (p', match r with Ok a => f a | Err e => ResError (provider_error_code e) end).

Definition dispatch (request : WireRequest) (now : Z) (p : P) : P * WireResponse :=
  match request with
  | ReqHealth => let '(p', h) := provider_health now p in (p', ResHealth h)
  | ReqRoundOne r => respond ResRoundOne (provider_round_one r now) p
  | ReqRoundTwo r => respond ResRoundTwo (provider_round_two r now) p
  | ReqAbort r => respond (fun _ => ResAck) (provider_abort_round r now) p
  end.
End dispatch.

(** ** Frames *)

Class WireLib := {
  request_to_json : WireRequest -> option bytes;
  request_from_json : bytes -> option WireRequest;
  response_to_json : WireResponse -> option bytes;
  response_from_json : bytes -> option WireResponse;
  (* the raw subject public key info of a DER certificate *)
  certificate_spki : bytes -> option bytes;
}.
Class WireLaws `{WireLib} : Prop := {
  request_json_roundtrip r b : request_to_json r = Some b -> request_from_json b = Some r;
  response_json_roundtrip r b : response_to_json r = Some b -> response_from_json b = Some r;
}.

(** What becomes of one operation under its time limit. *)
Inductive Fate := Completes | Elapses | Breaks.
Definition timed (f : Fate) : result TransportError unit :=
  match f with Completes => Ok tt | Elapses => Err TE_Timeout | Breaks => Err TE_Io end.

(** [read_exact] of [n] bytes: the bytes and the rest of the stream. *)
Definition read_exact (n : nat) (inbound : bytes) : result TransportError (bytes * bytes) :=
  if (length inbound <? n)%nat then Err TE_Io else Ok (take n inbound, drop n inbound).

Definition read_frame {T} (from_json : bytes -> option T) (length_fate body_fate : Fate) (limits : TransportLimits)
    (inbound : bytes) : result TransportError T :=
  _ ← timed length_fate;
  '(prefix, rest) ← read_exact 4 inbound;
  let n := from_be_bytes prefix in
  _ ← reject_if ((n =? 0) || (tl_max_frame_bytes limits <? n)) TE_FrameTooLarge;
  _ ← timed body_fate;
  '(body, _) ← read_exact (Z.to_nat n) rest;
  ok_or (from_json body) TE_Json.

(** The bytes that reach the peer, and the result.  The time limit is over the
    length, the body and the flush together: when it elapses or the stream
    breaks, the first [delivered] bytes of the frame are already on the way. *)
Definition frame_of {T} (to_json : T -> option bytes) (limits : TransportLimits) (value : T) : result TransportError bytes :=
  b ← ok_or (to_json value) TE_Json;
  _ ← reject_if (bool_decide (b = []) || (tl_max_frame_bytes limits <? Z.of_nat (length b))) TE_FrameTooLarge;
  Ok (be_bytes 4 (wrap 32 (Z.of_nat (length b))) ++ b).
Definition write_frame {T} (to_json : T -> option bytes) (fate : Fate) (delivered : nat) (limits : TransportLimits) (value : T)
    : bytes * result TransportError unit :=
  match frame_of to_json limits value with
  | Err e => ([], Err e)
  | Ok frame =>
      match timed fate with
      | Ok _ => (frame, Ok tt)
      | Err e => (take delivered frame, Err e)
      end
  end.

(** ** Server *)

(** The blocking task that locks the provider and dispatches: it runs, or it
    never calls the provider (it is cancelled, or the lock is poisoned), or the
    provider's method panics and leaves the provider as it was at that point. *)
Inductive Worker (P : Type) :=
| WorkerRuns
| WorkerUnavailable
| WorkerPanics (left_in : P).
Arguments WorkerRuns {P}.
Arguments WorkerUnavailable {P}.
Arguments WorkerPanics {P} left_in.

(** One accepted connection: the handshake, the certificates the peer showed,
    the fates of the reads, of the worker and of the write, and how much of the
    answer is delivered if the write fails. *)
Record ServerConnection (P : Type) := mkServerConnection {
  sc_handshake : result TransportError unit;
  sc_peer_certificates : option (list bytes);
  sc_length : Fate;
  sc_body : Fate;
  sc_worker : Worker P;
  sc_write : Fate;
  sc_delivered : nat;
  sc_shutdown : Fate;
}.
Arguments mkServerConnection {P}.
Arguments sc_handshake {P}.
Arguments sc_peer_certificates {P}.
Arguments sc_length {P}.
Arguments sc_body {P}.
Arguments sc_worker {P}.
Arguments sc_write {P}.
Arguments sc_delivered {P}.
Arguments sc_shutdown {P}.

Section peers.
Context `{BitcoinLib} `{WireLib}.

Definition certificate_spki_sha256 (certificate_der : bytes) : result TransportError bytes :=
  spki ← ok_or (certificate_spki certificate_der) TE_MissingPeerCertificate;
  Ok (sha256 spki).

(** The leaf certificate of the peer has the pinned key. *)
Definition check_peer (certificates : option (list bytes)) (pin : bytes) : result TransportError unit :=
  leaf ← ok_or (l ← certificates; head l) TE_MissingPeerCertificate;
  digest ← certificate_spki_sha256 leaf;
  reject_if (negb (bool_decide (digest = pin))) TE_PeerPinMismatch.

(** The provider after the connection, what reached the client, and the result. *)
Definition handle_connection {P : Type} `{SignerProvider P} (pin : bytes) (limits : TransportLimits) (c : ServerConnection P)
    (inbound : bytes) (now : Z) (p : P) : P * bytes * result TransportError unit :=
  let received :=
    _ ← sc_handshake c;
    _ ← check_peer (sc_peer_certificates c) pin;
    read_frame request_from_json (sc_length c) (sc_body c) limits inbound in
  match received with
  | Err e => (p, [], Err e)
  | Ok request =>
      match sc_worker c with
      | WorkerUnavailable => (p, [], Err TE_Worker)
      | WorkerPanics p' => (p', [], Err TE_Worker)
      | WorkerRuns =>
          let '(p', response) := dispatch request now p in
          let '(sent, written) := write_frame response_to_json (sc_write c) (sc_delivered c) limits response in
          (p', sent, _ ← written; timed (sc_shutdown c))
      end
  end.

(** ** Client *)

Record ClientConnection := mkClientConnection {
  cc_connect : Fate;
  cc_server_name_valid : bool;
  cc_handshake : result TransportError unit;
  cc_peer_certificates : option (list bytes);
  cc_write : Fate;
  cc_delivered : nat;
  cc_length : Fate;
  cc_body : Fate;
}.

Record MtlsSignerClient := mkMtlsSignerClient {
  mc_signer_spki_sha256 : bytes;
  mc_limits : TransportLimits;
}.

(** [request], up to the write (what reaches the server, and the result) and
    from the first read on. *)
Definition client_connect (client : MtlsSignerClient) (c : ClientConnection) : result TransportError unit :=
  _ ← timed (cc_connect c);
  _ ← reject_if (negb (cc_server_name_valid c)) TE_MissingPeerCertificate;
  _ ← cc_handshake c;
  check_peer (cc_peer_certificates c) (mc_signer_spki_sha256 client).
Definition client_send (client : MtlsSignerClient) (c : ClientConnection) (request : WireRequest)
    : bytes * result TransportError unit :=
  match client_connect client c with
  | Err e => ([], Err e)
  | Ok _ => write_frame request_to_json (cc_write c) (cc_delivered c) (mc_limits client) request
  end.
Definition client_receive (client : MtlsSignerClient) (c : ClientConnection) (inbound : bytes)
    : result TransportError WireResponse :=
  response ← read_frame response_from_json (cc_length c) (cc_body c) (mc_limits client) inbound;
  match response with ResError code => Err (TE_Remote code) | _ => Ok response end.

(** One request on one connection to a server that holds provider [p].  The
    server goes on with what reached it, whatever the client made of its write;
    a client whose write failed does not read. *)
Definition exchange {P : Type} `{SignerProvider P} (client : MtlsSignerClient) (pin : bytes) (limits : TransportLimits)
    (cc : ClientConnection) (sc : ServerConnection P) (request : WireRequest) (now : Z) (p : P)
    : P * result TransportError WireResponse :=
  let '(sent, written) := client_send client cc request in
  let '(p', answer, _) := handle_connection pin limits sc sent now p in
  (p', _ ← written; client_receive client cc answer).

(** ** The coordinator's remote provider *)

Record RemoteSignerProvider := mkRemoteSignerProvider {
  rp_identity : ProviderIdentity;
  rp_client : MtlsSignerClient;
}.

Definition ensure_identity (r : RemoteSignerProvider) (c : SignerRequestContext) : result TransportError unit :=
  let i := rp_identity r in
  reject_if (negb (bool_decide (rc_wallet_id c = id_wallet_id i))
             || negb (bool_decide (rc_signer_set_id c = id_signer_set_id i))
             || negb (rc_signer_epoch c =? id_signer_epoch i)
             || negb (rc_signer_id c =? id_signer_id i)
             || negb (bool_decide (rc_device_id c = id_device_id i))
             || negb (rc_device_generation c =? id_device_generation i)
             || negb (bool_decide (rc_group_pubkey_xonly c = id_group_pubkey_xonly i))
             || negb (bool_decide (rc_verifying_share_digest c = id_verifying_share_digest i))) (TE_Remote WC_IdentityDrift).

Section remote.
Context {P : Type} `{SignerProvider P} (r : RemoteSignerProvider) (pin : bytes) (limits : TransportLimits)
  (cc : ClientConnection) (sc : ServerConnection P) (now : Z).

Definition remote_health : act P TransportError DeviceHealth :=
  response ← exchange (rp_client r) pin limits cc sc ReqHealth now;
  lift (match response with ResHealth h => Ok h | _ => Err TE_Worker end).

Definition remote_round_one (request : SignerRoundOneRequest) : act P TransportError SignerRoundOneResponse :=
  _ ← lift (ensure_identity r (r1_context request));
  response ← exchange (rp_client r) pin limits cc sc (ReqRoundOne request) now;
  lift (match response with ResRoundOne a => Ok a | _ => Err TE_Worker end).

Definition remote_round_two (request : SignerRoundTwoRequest) : act P TransportError SignerRoundTwoResponse :=
  _ ← lift (ensure_identity r (r2_context request));
  response ← exchange (rp_client r) pin limits cc sc (ReqRoundTwo request) now;
  lift (match response with ResRoundTwo a => Ok a | _ => Err TE_Worker end).

Definition remote_abort (request : SignerAbortRequest) : act P TransportError unit :=
  _ ← lift (ensure_identity r (ra_context request));
  response ← exchange (rp_client r) pin limits cc sc (ReqAbort request) now;
  lift (match response with ResAck => Ok tt | _ => Err TE_Worker end).
End remote.
End peers.
