(* ===== verification/TransportProperties.v ===== *)
(** * Properties of the signer transport

    A call of a remote signer executes its request at most once, whatever
    happens to the connection, and reports only what the signer answered; over
    a healthy connection it is the call of the local provider. *)

From Stdlib Require Import ZArith Lia.
From S2P Require Import Prelude Bitcoin Concrete Frost Participant Text Personal Effects Provider WalletConcrete Transport PersonalRecovery.
From stdpp Require Import list gmap.
Local Open Scope Z_scope.

(** ** Frames *)

Section frames.
Context {T : Type} (to_json : T -> option bytes) (from_json : bytes -> option T).
Hypothesis roundtrip : forall v b, to_json v = Some b -> from_json b = Some v.

Definition frame_fits (limits : TransportLimits) (b : bytes) : Prop :=
  b <> [] /\ Z.of_nat (length b) <= tl_max_frame_bytes limits.

Lemma frame_of_Ok limits v f :
  frame_of to_json limits v = Ok f <->
  exists b, to_json v = Some b /\ frame_fits limits b /\ f = be_bytes 4 (wrap 32 (Z.of_nat (length b))) ++ b.
Proof.
  unfold frame_of, frame_fits. split.
  - intros HW. next_in HW b Eb. next_in HW u Eu. res_inv. subst f. exists b. split_and!; try done; lia.
  - intros (b & -> & [Hne Hl] & ->). cbn. rewrite bool_decide_false by done. cbn [orb].
    rewrite reject_if_pass by guard_tac. done.
Qed.
(** What reaches the peer is the start of the frame; all of it if the write
    succeeds. *)
Lemma write_frame_sent fate delivered limits v sent r :
  write_frame to_json fate delivered limits v = (sent, r) ->
  (exists e, sent = [] /\ r = Err e) \/
  (exists f k, frame_of to_json limits v = Ok f /\ sent = take k f /\ (r = Ok tt -> sent = f) /\
     forall code, r <> Err (TE_Remote code)).
Proof.
  unfold write_frame. destruct (frame_of to_json limits v) as [f|e]; [|intros [= <- <-]; by left; exists e].
  destruct fate; cbn; intros [= <- <-]; right; exists f; [exists (length f)|exists delivered..]; split_and!; try done.
  by rewrite firstn_all.
Qed.

(** Reading what was written returns it, or the read did not complete. *)
Lemma read_written length_fate body_fate limits limits' v b f :
  frame_of to_json limits v = Ok f -> tl_max_frame_bytes limits < 2 ^ 32 -> to_json v = Some b ->
  read_frame from_json length_fate body_fate limits' f =
    _ ← timed length_fate;
    _ ← reject_if (tl_max_frame_bytes limits' <? Z.of_nat (length b)) TE_FrameTooLarge;
    _ ← timed body_fate;
    Ok v.
Proof.
  rewrite frame_of_Ok. intros (b' & Hb & [Hne Hl] & ->) Hmax Hv. rewrite Hv in Hb. injection Hb as <-.
  assert (fits 32 (Z.of_nat (length b))) as Hf by (unfold fits; lia). rewrite wrap_id by done.
  assert (0 < Z.of_nat (length b)) by (destruct b; [done|simpl; lia]).
  unfold read_frame, read_exact. destruct (timed length_fate) as [[]|]; [|done]. cbn [mbind result_bind].
  rewrite length_app, length_be_bytes. replace (4 + length b <? 4)%nat with false by (symmetry; apply Nat.ltb_ge; lia).
  cbn [mbind result_bind]. rewrite take_app_length', drop_app_length' by (by rewrite length_be_bytes).
  rewrite from_be_be_bytes by done. replace (Z.of_nat (length b) =? 0) with false by (symmetry; apply Z.eqb_neq; lia).
  cbn [orb]. destruct (reject_if _ _) as [[]|]; [|done]. cbn [mbind result_bind].
  destruct (timed body_fate) as [[]|]; [|done]. cbn [mbind result_bind]. rewrite Nat2Z.id, Nat.ltb_irrefl. cbn [mbind result_bind].
  rewrite take_ge by lia. by rewrite (roundtrip v b Hv).
Qed.
(** Reading the start of a frame returns its value or nothing; the error is not
    one the peer reported. *)
Lemma read_truncated length_fate body_fate limits limits' k v f r :
  frame_of to_json limits v = Ok f -> tl_max_frame_bytes limits < 2 ^ 32 ->
  read_frame from_json length_fate body_fate limits' (take k f) = r ->
  r = Ok v \/ exists e, r = Err e /\ forall code, e <> TE_Remote code.
Proof.
  intros HF Hmax HR. pose proof HF as (b & Hb & [Hne Hl] & ->)%frame_of_Ok.
  destruct (decide (4 + length b <= k)%nat) as [Hk|Hk].
  - rewrite take_ge in HR by (rewrite length_app, length_be_bytes; lia).
    rewrite (read_written _ _ _ _ _ _ _ HF Hmax Hb) in HR. subst r. destruct length_fate; cbn; try by right; eexists.
    destruct (_ <? _); cbn; [by right; eexists|]. destruct body_fate; cbn; (by left) || by right; eexists.
  - right. subst r. assert (fits 32 (Z.of_nat (length b))) as Hf by (unfold fits; lia). rewrite wrap_id by done.
    unfold read_frame, read_exact. destruct length_fate; cbn [timed mbind result_bind]; try by eexists.
    destruct (Nat.ltb_spec (length (take k (be_bytes 4 (Z.of_nat (length b)) ++ b))) 4) as [|H4]; cbn [mbind result_bind]; [by eexists|].
    rewrite length_take, length_app, length_be_bytes in H4.
    assert (take 4 (take k (be_bytes 4 (Z.of_nat (length b)) ++ b)) = be_bytes 4 (Z.of_nat (length b))) as ->.
    { rewrite take_take, Nat.min_l by lia. apply take_app_length'. by rewrite length_be_bytes. }
    rewrite from_be_be_bytes by done. destruct (_ || _); cbn [reject_if mbind result_bind]; [by eexists|].
    destruct body_fate; cbn [timed mbind result_bind]; try by eexists.
    rewrite Nat2Z.id, length_drop, length_take, length_app, length_be_bytes.
    destruct (Nat.ltb_spec (k `min` (4 + length b) - 4) (length b)); cbn [mbind result_bind]; [by eexists|lia].
Qed.
End frames.

(** ** Exchanges *)

Section exchanges.
Context `{BitcoinLib} `{WireLib} `{!WireLaws} {P : Type} `{SignerProvider P}.

(** What the server does with what reached it of the frame of a client. *)
Lemma handle_connection_request pin limits sc climits request f k now p :
  frame_of request_to_json climits request = Ok f -> tl_max_frame_bytes climits < 2 ^ 32 ->
  (exists e, handle_connection pin limits sc (take k f) now p = (p, [], Err e)) \/
  (check_peer (sc_peer_certificates sc) pin = Ok tt /\
   ((exists p', sc_worker sc = WorkerPanics p' /\ handle_connection pin limits sc (take k f) now p = (p', [], Err TE_Worker)) \/
    exists p' resp sent written, dispatch request now p = (p', resp) /\
      write_frame response_to_json (sc_write sc) (sc_delivered sc) limits resp = (sent, written) /\
      handle_connection pin limits sc (take k f) now p = (p', sent, _ ← written; timed (sc_shutdown sc)))).
Proof.
  intros HF Hmax. unfold handle_connection.
  destruct (sc_handshake sc) as [[]|]; [|by left; eexists]. destruct (check_peer _ pin) as [[]|]; [|by left; eexists].
  cbn [mbind result_bind].
  destruct (read_truncated request_to_json request_from_json request_json_roundtrip (sc_length sc) (sc_body sc) climits limits k
    request f _ HF Hmax eq_refl) as [-> |(e & -> & _)]; [|by left; eexists].
  destruct (sc_worker sc) as [| |q]; [|by left; eexists|right; split; [done|left; by exists q]].
  right. split; [done|]. right. destruct (dispatch request now p) as [p' resp].
  destruct (write_frame _ _ _ _ resp) as [sent written] eqn:HW. by eexists p', resp, sent, written.
Qed.

Lemma handle_connection_nothing pin limits sc now p : exists e, handle_connection pin limits sc [] now p = (p, [], Err e).
Proof.
  unfold handle_connection. destruct (sc_handshake sc) as [[]|]; [|by eexists]. destruct (check_peer _ pin) as [[]|]; [|by eexists].
  unfold read_frame. destruct (sc_length sc); cbn; by eexists.
Qed.

(** What a client makes of the response the server wrote. *)
Definition reports (resp : WireResponse) (r : result TransportError WireResponse) : Prop :=
  match r with
  | Ok a => a = resp /\ forall code, resp <> ResError code
  | Err (TE_Remote code) => resp = ResError code
  | Err _ => True
  end.

Lemma client_receive_nothing client cc : exists e, client_receive client cc [] = Err e /\ forall code, e <> TE_Remote code.
Proof. unfold client_receive, read_frame. destruct (cc_length cc); cbn; by eexists. Qed.

Lemma client_receive_written client cc fate delivered limits resp sent written :
  write_frame response_to_json fate delivered limits resp = (sent, written) -> tl_max_frame_bytes limits < 2 ^ 32 ->
  reports resp (client_receive client cc sent).
Proof.
  intros [(e & -> & _)|(f & k & HF & -> & _)]%write_frame_sent Hmax.
  - destruct (client_receive_nothing client cc) as (e' & -> & He). destruct e'; try done. by destruct (He code).
  - unfold client_receive.
    destruct (read_truncated response_to_json response_from_json response_json_roundtrip (cc_length cc) (cc_body cc) limits
      (mc_limits client) k resp f _ HF Hmax eq_refl) as [-> |(e & -> & He)]; cbn [mbind result_bind].
    + by destruct resp.
    + destruct e; try done. by destruct (He code).
Qed.

(** What a client's write puts on the wire, and what the client saw of it. *)
Lemma client_send_sent client cc request sent written :
  client_send client cc request = (sent, written) ->
  (exists e, sent = [] /\ written = Err e) \/
  (exists f k, frame_of request_to_json (mc_limits client) request = Ok f /\ sent = take k f /\ (written = Ok tt -> sent = f) /\
     forall code, written <> Err (TE_Remote code)).
Proof.
  unfold client_send. destruct (client_connect client cc) as [[]|e]; [|intros [= <- <-]; by left; exists e].
  intros [HW|HW]%write_frame_sent; [by left|by right].
Qed.

(** C26: A call over the transport executes its request at most once, whatever
    happens to the connection: any read or write may time out or break, a
    failed write having delivered any part of its frame, all of it included, in
    either direction, and the provider may panic.  After an exchange the remote
    provider is (1) unchanged, and the caller got an error, or, for a peer
    whose pinned certificate was checked, (2) exactly the provider after one
    execution of that very request, the caller then having got the provider's
    own answer, or the code of the provider's own error, or a transport error,
    or (3) the state a panic left it in, and the caller got an error. *)
Theorem remote_call_at_most_once client pin limits cc sc request now p p' r :
  tl_max_frame_bytes (mc_limits client) < 2 ^ 32 -> tl_max_frame_bytes limits < 2 ^ 32 ->
  exchange client pin limits cc sc request now p = (p', r) ->
  (p' = p /\ exists e, r = Err e) \/
  (check_peer (sc_peer_certificates sc) pin = Ok tt /\
   ((exists resp, dispatch request now p = (p', resp) /\ reports resp r) \/
    (sc_worker sc = WorkerPanics p' /\ exists e, r = Err e))).
Proof.
  intros Hc Hs. unfold exchange. destruct (client_send client cc request) as [sent written] eqn:HS.
  apply client_send_sent in HS as [(e & -> & ->)|(f & k & HF & -> & _ & Hnr)].
  { destruct (handle_connection_nothing pin limits sc now p) as [e' ->]. intros [= <- <-]. left. eauto. }
  assert (exists e, (_ ← written; client_receive client cc []) = Err e) as Hno.
  { destruct written as [[]|e]; [|by eexists]. cbn. destruct (client_receive_nothing client cc) as (? & ? & _). eauto. }
  destruct (handle_connection_request pin limits sc _ request f k now p HF Hc) as [[e ->]|(Hpeer & Hrun)].
  { intros [= <- <-]. left. by split. }
  destruct Hrun as [(q & Hw & ->)|(q & resp & answer & aw & Hd & HW & ->)]; intros [= <- <-]; right; (split; [done|]).
  { right. by split. }
  left. exists resp. split; [done|]. destruct written as [[]|e]; cbn; [by eapply client_receive_written|].
  destruct e; try done. by destruct (Hnr code).
Qed.

(** A connection on which nothing goes wrong between pinned peers. *)
Definition healthy (client : MtlsSignerClient) (pin : bytes) (cc : ClientConnection) (sc : ServerConnection P) : Prop :=
  cc_connect cc = Completes /\ cc_server_name_valid cc = true /\ cc_handshake cc = Ok tt /\
  check_peer (cc_peer_certificates cc) (mc_signer_spki_sha256 client) = Ok tt /\ cc_write cc = Completes /\
  cc_length cc = Completes /\ cc_body cc = Completes /\
  sc_handshake sc = Ok tt /\ check_peer (sc_peer_certificates sc) pin = Ok tt /\ sc_length sc = Completes /\
  sc_body sc = Completes /\ sc_worker sc = WorkerRuns /\ sc_write sc = Completes.

(** The request and its response fit in the frames of both sides. *)
Definition frames_fit (l1 l2 : TransportLimits) (request : WireRequest) (now : Z) (p : P) : Prop :=
  (exists b, request_to_json request = Some b /\ frame_fits l1 b /\ frame_fits l2 b) /\
  (exists b, response_to_json (dispatch request now p).2 = Some b /\ frame_fits l1 b /\ frame_fits l2 b).

Lemma read_written_healthy {T} (to_json : T -> option bytes) from_json l1 l2 v b f :
  (forall v b, to_json v = Some b -> from_json b = Some v) ->
  frame_of to_json l1 v = Ok f -> tl_max_frame_bytes l1 < 2 ^ 32 -> to_json v = Some b -> frame_fits l2 b ->
  read_frame from_json Completes Completes l2 f = Ok v.
Proof.
  intros Hrt HW Hmax Hb [_ Hf]. rewrite (read_written to_json from_json Hrt _ _ _ _ _ _ _ HW Hmax Hb). cbn.
  by rewrite reject_if_pass by guard_tac.
Qed.

Lemma exchange_healthy client pin limits cc sc request now p :
  tl_max_frame_bytes (mc_limits client) < 2 ^ 32 -> tl_max_frame_bytes limits < 2 ^ 32 ->
  healthy client pin cc sc -> frames_fit (mc_limits client) limits request now p ->
  exchange client pin limits cc sc request now p =
    let '(p', resp) := dispatch request now p in
    (p', match resp with ResError code => Err (TE_Remote code) | _ => Ok resp end).
Proof.
  intros Hm1 Hm2 (C1 & C2 & C3 & C4 & C5 & C6 & C7 & S1 & S2 & S3 & S4 & S5 & S6) [(b & Hb & F1 & F2) (c & Hc & G1 & G2)].
  assert (exists f, frame_of request_to_json (mc_limits client) request = Ok f) as [f Hf].
  { eexists. apply frame_of_Ok. by exists b. }
  assert (client_send client cc request = (f, Ok tt)) as Hsend.
  { unfold client_send, client_connect, write_frame. rewrite C1. cbn. by rewrite C2, C3, C4, C5, Hf. }
  unfold exchange. rewrite Hsend. unfold handle_connection. rewrite S1, S2, S3, S4, S5. res_cbn.
  rewrite (read_written_healthy _ _ _ _ _ _ _ request_json_roundtrip Hf Hm1 Hb F2).
  destruct (dispatch request now p) as [p' resp]. cbn [snd] in Hc.
  assert (exists g, frame_of response_to_json limits resp = Ok g) as [g Hg].
  { eexists. apply frame_of_Ok. by exists c. }
  unfold write_frame. rewrite S6, Hg. cbn [timed]. res_cbn. f_equal. unfold client_receive. rewrite C6, C7.
  rewrite (read_written_healthy _ _ _ _ _ _ _ response_json_roundtrip Hg Hm2 Hc G1). by destruct resp.
Qed.

(** The caller's view of a local provider: errors arrive as their codes. *)
Definition relay {A} (m : act P ProviderError A) : act P TransportError A :=
  fun p => let '(p', r) := m p in (p', map_err (fun e => TE_Remote (provider_error_code e)) r).

(** C27: Over a healthy connection the remote provider is the local one: for a
    request of its own identity whose frames fit, each of round one, round two
    and abort changes the signer's state as the local call does and returns its
    answer, or the wire code of its error; a health check returns the signer's
    health. *)
Theorem remote_provider_refines_local r pin limits cc sc now p :
  tl_max_frame_bytes (mc_limits (rp_client r)) < 2 ^ 32 -> tl_max_frame_bytes limits < 2 ^ 32 ->
  healthy (rp_client r) pin cc sc ->
  (forall q, ensure_identity r (r1_context q) = Ok tt -> frames_fit (mc_limits (rp_client r)) limits (ReqRoundOne q) now p ->
     remote_round_one r pin limits cc sc now q p = relay (provider_round_one q now) p) /\
  (forall q, ensure_identity r (r2_context q) = Ok tt -> frames_fit (mc_limits (rp_client r)) limits (ReqRoundTwo q) now p ->
     remote_round_two r pin limits cc sc now q p = relay (provider_round_two q now) p) /\
  (forall q, ensure_identity r (ra_context q) = Ok tt -> frames_fit (mc_limits (rp_client r)) limits (ReqAbort q) now p ->
     remote_abort r pin limits cc sc now q p = relay (provider_abort_round q now) p) /\
  (frames_fit (mc_limits (rp_client r)) limits ReqHealth now p ->
     remote_health r pin limits cc sc now p = (let '(p', h) := provider_health now p in (p', Ok h))).
Proof.
  intros Hm1 Hm2 Hh. split_and!; [intros q Hid Hf..|intros Hf];
    pose proof (exchange_healthy _ _ _ _ _ _ _ _ Hm1 Hm2 Hh Hf) as HE;
    unfold remote_round_one, remote_round_two, remote_abort, remote_health, relay, mbind, act_bind, lift;
    rewrite ?Hid, HE; unfold dispatch, respond.
  - by destruct (provider_round_one q now p) as [p' [a|e]].
  - by destruct (provider_round_two q now p) as [p' [a|e]].
  - by destruct (provider_abort_round q now p) as [p' [[]|e]].
  - by destruct (provider_health now p) as [p' h].
Qed.
End exchanges.

(** ** A concrete remote signer *)

#[local] Instance wire_authorizer : ProviderRequestAuthorizer unit := fun _ _ s => (s, Ok tt).
Definition wire_provider : GuardedSignerProvider (LocalEncryptedFrostBackend unit) MemoryProviderReplayStore :=
  with_replay_store (toy_device 1)
    (LocalEncryptedFrostBackend_new (mkLocalFrostParticipant 1 1 NonceGuard_new ∅) toy_group tt) MemoryProviderReplayStore_default.
#[local] Instance wire_signer : SignerProvider (GuardedSignerProvider (LocalEncryptedFrostBackend unit) MemoryProviderReplayStore) :=
  guarded_signer [x07].
Definition wire_request : SignerRoundOneRequest :=
  mkSignerRoundOneRequest (mkSignerRequestContext 1 (uid x71) (uid x72) 1 1 (uid x01) 1 (uid x6f) (uid x69) (fill x53) (fill x4d)
    (fill x50) (fill x41) [x01] 2 3 (fill x43) [x01] 100).
Definition wire_response : WireResponse := (dispatch (ReqRoundOne wire_request) 10 wire_provider).2.

Example wire_response_commits : exists a, wire_response = ResRoundOne a.
Proof. eexists. vm_compute. reflexivity. Qed.

(** A wire format that knows the one request, its answer and the error codes. *)
#[local] Instance SignerRequestContext_eq_dec : EqDecision SignerRequestContext.
Proof. solve_decision. Defined.
#[local] Instance WireRequest_eq_dec : EqDecision WireRequest.
Proof.
  assert (EqDecision SignerRoundOneRequest) by solve_decision. assert (EqDecision SignerRoundTwoRequest) by solve_decision.
  assert (EqDecision SignerAbortRequest) by solve_decision. solve_decision.
Defined.
#[local] Instance WireResponse_eq_dec : EqDecision WireResponse.
Proof.
  assert (EqDecision DeviceHealth) by solve_decision. assert (EqDecision WireErrorCode) by solve_decision.
  assert (EqDecision SignerRoundOneResponse) by solve_decision. assert (EqDecision SignerRoundTwoResponse) by solve_decision.
  solve_decision.
Defined.
#[local] Instance toy_wire : WireLib := {|
  request_to_json r := if bool_decide (r = ReqRoundOne wire_request) then Some [x01] else None;
  request_from_json b := if bool_decide (b = [x01]) then Some (ReqRoundOne wire_request) else None;
  response_to_json r := if bool_decide (r = wire_response) then Some [x02] else None;
  response_from_json b := if bool_decide (b = [x02]) then Some wire_response else None;
  certificate_spki c := Some c;
|}.
#[local] Instance toy_wire_laws : WireLaws.
Proof.
  constructor; cbn; intros r b; case_bool_decide; try done; intros [= <-];
    rewrite bool_decide_true by done; congruence.
Qed.

Definition coordinator_pin : bytes := sha256 [x0c].
Definition wire_client : MtlsSignerClient := mkMtlsSignerClient (sha256 [x0d]) TransportLimits_default.
Definition wire_remote : RemoteSignerProvider := mkRemoteSignerProvider (toy_device 1) wire_client.
Definition wire_cc (write : Fate) (delivered : nat) : ClientConnection :=
  mkClientConnection Completes true (Ok tt) (Some [[x0d]]) write delivered Completes Completes.
Definition wire_sc : ServerConnection (GuardedSignerProvider (LocalEncryptedFrostBackend unit) MemoryProviderReplayStore) :=
  mkServerConnection (Ok tt) (Some [[x0c]]) Completes Completes WorkerRuns Completes 0 Completes.

Lemma wire_healthy : healthy wire_client coordinator_pin (wire_cc Completes 0) wire_sc.
Proof. by vm_compute. Qed.

Lemma wire_frames_fit : frames_fit TransportLimits_default TransportLimits_default (ReqRoundOne wire_request) 10 wire_provider.
Proof.
  split; (eexists; split; [cbn [request_to_json response_to_json toy_wire]; by rewrite bool_decide_true|]); by vm_compute.
Qed.

(** The client's write times out after the whole frame has reached the signer:
    the signer executes the request once, the caller sees the time-out. *)
Definition late_cc : ClientConnection := wire_cc Elapses 5.
Definition late_exchange := exchange wire_client coordinator_pin TransportLimits_default late_cc wire_sc (ReqRoundOne wire_request) 10
  wire_provider.
Lemma remote_call_at_most_once_witness :
  late_exchange.2 = Err TE_Timeout /\ late_exchange.1 = (dispatch (ReqRoundOne wire_request) 10 wire_provider).1 /\
  bool_decide (size (lb_reservations (gp_backend late_exchange.1)) = 1%nat) = true.
Proof.
  assert (bool_decide (size (lb_reservations (gp_backend late_exchange.1)) = 1%nat) = true) as Hn by by vm_compute.
  assert (late_exchange.2 = Err TE_Timeout) as Ht by by vm_compute.
  assert (bool_decide (size (lb_reservations (gp_backend wire_provider)) = 0%nat) = true) as H0 by by vm_compute.
  assert (sc_worker wire_sc = WorkerRuns) as Hw by reflexivity.
  split; [exact Ht|]. split; [|exact Hn]. unfold late_exchange in *.
  destruct (exchange _ _ _ _ _ _ _ _) as [p' r] eqn:HE. cbn [fst snd] in *.
  destruct (remote_call_at_most_once wire_client coordinator_pin TransportLimits_default late_cc wire_sc (ReqRoundOne wire_request) 10
    wire_provider p' r) as [[-> _]|[_ [(resp & -> & _)|[Hp _]]]].
  - reflexivity.
  - reflexivity.
  - exact HE.
  - exfalso. apply bool_decide_eq_true in H0, Hn. rewrite H0 in Hn. discriminate Hn.
  - reflexivity.
  - rewrite Hw in Hp. discriminate Hp.
Defined.

Lemma remote_provider_refines_local_witness :
  remote_round_one wire_remote coordinator_pin TransportLimits_default (wire_cc Completes 0) wire_sc 10 wire_request wire_provider
  = relay (provider_round_one wire_request 10) wire_provider.
Proof.
  refine (proj1 (remote_provider_refines_local wire_remote coordinator_pin TransportLimits_default (wire_cc Completes 0) wire_sc 10
    wire_provider _ _ wire_healthy) wire_request _ wire_frames_fit); vm_compute; reflexivity.
Defined.
